(* ===== verification/_CoqProject ===== *)
-Q . S2P
Prelude.v
Memory.v
CString.v
Kmalloc.v
Ring.v
PortIO.v
InputDev.v
Paging.v
Scheduler.v
Ipc.v
Tasking.v
Disk.v
Sfs.v
Descriptors.v
Text.v
Serial.v
Sound.v
Vga.v
Ata.v
System.v
UserMem.v
Elf.v
Syscall.v
Pci.v
Net.v
Font.v
Paint.v
Framebuffer.v
Cursor.v
Window.v
Canvas.v
Desktop.v
Irq.v
Boot.v
LineEdit.v
Shell.v
Session.v
Hello.v
