(* ===== verification/Prelude.v ===== *)
(** * SROS: a verification library for a small 32-bit x86 kernel

    SROS (src/) is a kernel for a PC in 32-bit protected mode, in C with three
    assembly files: paging, a heap, a round-robin scheduler with [fork],
    semaphores and message queues, a file system on an ATA disk, a frame buffer
    with a console and a window manager, PS/2 input, and system calls through
    [int 0x80].  This library models its C code as Rocq functions, one file per
    component, and proves the properties that make the components correct.

    ** The parts and where they are modelled

    Foundations, shared by all:
    - Prelude: the C integer types as wrapped [Z] (include/types.h), the outcome
      type [exec] ([Ret], [Panic], [Oob]), byte strings, tactics, hints.
    - Memory: a flat byte-addressed memory with little-endian words.
    - Ring: the circular buffer in a fixed array, and [BoundedFifo], the
      interface of the input buffers.
    - PortIO: [in] and [out] (include/io.h) on a device parameter.
    - Text: strings, hexadecimal, format strings, and the formatting into a
      buffer of 256 bytes that framebuffer.c and window.c share.

    Kernel (src/kernel):
    - CString: string.c.  Kmalloc: kmalloc.c, on Memory.
    - Paging: paging.c, on RAM, CR3 and the MMU's walk.
    - Scheduler: scheduler.c.  Ipc: ipc.c, on the scheduler, with which it
      shares the [next] links of the tasks.  Tasking: the executions of the two
      together, one step relation over IPC calls, task creation, [fork], exit, wait
      and the timer interrupt, which may come in any state.
    - Descriptors: gdt.c, idt.c and the programming of the interrupt controller
      and timer in irq.c.
    - System: the product of the components' states, and transfers through user
      pointers.  UserMem: the invariant of the user part of an address space.
    - Elf: elf_loader.c.  Syscall: syscall.c, the dispatcher of the 27 calls.

    File system (src/fs): Disk is ramdisk.c over the interface [SectorOps] of the
    disk driver; on a working disk ([SectorDisk]) it is an instance of
    [BlockDevice], over which Sfs is sfs.c.

    Drivers (src/drivers): InputDev (keyboard.c, mouse.c), Serial (serial.c), Vga
    (vga.c), Ata (ata.c, the [SectorOps] of Disk over a port device), Pci (pci.c), Font
    (vgafont.h), Framebuffer (framebuffer.c), Cursor (cursor.c, on Framebuffer),
    Window (window.c: the list of windows and the operations on it, with the
    pixel arrays and structures in the heap of Kmalloc), Canvas (window.c: drawing
    into windows), Paint (loops that paint, shared by the two), Desktop (window.c:
    composition, clicks and the event loop), Sound (sound.c), Net (rtl8139.c, on
    Pci and Paging).

    Interrupts and boot: Irq is the dispatch of irq.c, on the states of InputDev,
    Desktop, Sound and Net, and the entry of idt_asm.s, which runs the scheduler
    after it with the one tick counter of both.  Boot is kernel.c, the initialisation of all
    components in the code's order up to the call of [shell_main].

    User programs (src/user): LineEdit is the line editor, history and parser of
    shell.c on its arrays; Shell is the rest of shell.c as trees of system calls;
    Session serves those calls by Syscall's dispatcher; Hello is hello.c.

    In every file the first part is the model, with the names of the C code: a
    struct is a Record, a function a Definition or, for a loop, a Fixpoint, and
    statics are fields of the component's state.  State is passed explicitly,
    through a small monad per component.  What the hardware does is a
    parameter: a device answers port reads from the history of accesses, and
    what a driver relies on is a class or hypothesis ([SectorDisk],
    [PioDrive], [uart_ready], [config_space]), with an instance that witnesses it.

    ** What is proved

    - Boot: [kernel_main_starts] (the shell finds every component's invariant
      established, on the plain machine), [boot_paging_identity],
      [rx_ring_scattered], [demo_windows_one], [jump_to_ring3_opens].
    - Heap: [heap_invariant] (every reachable heap is tiled by well-formed
      blocks, coalesced), refinement of the abstract list of blocks
      ([kmalloc_first_fit], [kfree_coalesces]), and what callers rely on
      ([kmalloc_fresh]; [owns] is the client's side of it).
    - Paging: mapping a page changes exactly that page's entry, flags included,
      and that translation ([paging_map_page_updates]); the boot
      sequence turns paging on with the first 4 MB mapped to themselves.
    - Scheduler: the ring is round-robin ([round_robin]), contexts survive a
      round ([context_roundtrip]), creation, exit and wait.
    - Ipc: one operation against the abstract semaphore
      ([semaphore_operations]) and the abstract queue ([message_operations]).
    - Tasking: every execution keeps a semaphore's count of stored tokens and a
      queue's messages in order ([semaphore_account], [messages_fifo]).  The wait
      queues, and with them the count of the waiting tasks and the end of a task
      that has exited ([task_exit_final]), are in order until a hazard, which the
      execution's events name: the code makes a task runnable while it is linked in
      a wait queue, when the timer finds nobody else ready or a child's exit
      readies a parent that waits for something else, or it goes on with a message
      queue that was destroyed.  After a hazard they need not be ([zombie_revived]).
    - File system: format, mount, look up, create with every refusal and with the
      name that an entry in a new block gets ([create_then_lookup]), and the reads and writes of a
      process through its descriptors and page tables ([syscall_write_file],
      [syscall_read_file], [syscall_list_files]).
    - Programs: [syscall_exec_loads] and [syscall_exec_rejects]; [hello_runs], the
      whole of hello.c up to the state its exit call leaves.
    - Shell: the editor refines a text with a cursor and a list of commands
      ([editor_refines]), the parser finds the words ([parse_command_words]), and
      two lines typed at the shell go through the system calls and the file system
      to the serial port ([write_then_cat]).
    - Drivers: each printing or transfer routine against a reference, over any
      device that follows its protocol; termination under the stated
      readiness; the typing of the input drivers' state ([input_state_typed]);
      playback and beep ([sb16_plays], [pcspkr_beep_tone]); sending and receiving
      frames ([rtl8139_sends], [rtl8139_receives]).  Over a drive that follows
      the protocol each block operation of bytes is the one over the drive's
      medium as an image, on which the file system's witnesses run
      ([ata_transfers], [driver_refines_image]).
    - Screen: drawing as painted pixels; the console as a text terminal; the
      cursor as an overlay over a picture.
    - Windows: every run keeps the windows and the heap in order
      ([wm_session_safe]); the picture shows the window a click would find
      ([wm_composite_shows]); the event loop takes every event
      ([wm_update_drains]).
    - Interrupts: which driver serves what and how it is acknowledged
      ([irq_handler_serves], [timer_moves_cursor]); a timer interrupt counts two
      ticks ([timer_counts_twice]).
    - Errors the code has are stated as theorems where they are short
      ([kmalloc_size_overflow], [sem_wait_without_token], [sfs_read_past_end],
      [cursor_hide_stale], [wm_close_last_faults], [uninitialised_line_overruns],
      [rx_pointer_wraps]).

    ** Bounds and fuel

    Counted loops take their count and need no fuel.  Loops over the heap take
    one step per minimal block (16385).  Loops over a path, a string, a
    directory or a list take a bound computed from their argument or from the
    size of the table they walk (16 windows, 16 tasks, 12 blocks of a file), and
    the theorems show that the loop ends within it.  The loops of the loader
    are bounded by the pages of a segment ([page_fuel]).  Polling loops without
    a bound in the code have fuel as a parameter, and the theorems assume a
    device that answers in time: [uart_ready], [dsp_ready], a timer that ticks for
    the waits of Sound, a packet per turn for the receive loop of Net.  The
    endless loop of the shell is [ITree.iter] and has none.  Running out of fuel is
    [None] or [Oob], never a normal result.

    ** Assumptions of the model

    - Log lines to the serial port are left out of every component but Serial.
    - The TLB is coherent.  Process identifiers do not overflow.
    - A system call is one step; interrupts come before or after it.  In Tasking a
      call that blocks is cut at its [int $32] and goes on in a later step.
    - [timer_ticks] is a field of two states, Sound's and Scheduler's; [irq_common]
      of Irq keeps them equal.
    - String arguments are read up to their NUL before the call acts.
    - A user pointer is in the user part of the address space, from 4 MiB up to
      the frame buffer at 0xF0000000, in the theorems about transfers.
    - Structures of the window manager are typed objects at heap addresses,
      not bytes of the heap; overlapping them is excluded by [owns].
    - What the network card stores by itself ([dma]) and what happens while the
      processor is halted ([wake]) are parameters.
    - A pointer the shell or a program passes to a call has its bytes in one of
      three areas of 512 bytes of the process's stack (Session).

    ** Not modelled

    The assembly (boot.s, idt_asm.s, syscall_asm.s, except the register frames
    that scheduler.c, idt.c and syscall.c read), which is not C; the text of
    the log lines and print_mac of rtl8139.c, whose only effect is on the
    serial port; constants no code uses.  Boot ends where [shell_main] is
    called: the shell is then the tree of Shell, whose calls Session serves for a process
    with a stack above 4 MiB. *)

From Stdlib Require Export ZArith Lia.
From stdpp Require Export base numbers option list.

Declare Scope sros_scope.
Delimit Scope sros_scope with sros.

Notation "a .& b" := (Z.land a b) (at level 40, left associativity) : sros_scope.
Notation "a .| b" := (Z.lor a b) (at level 50, left associativity) : sros_scope.

Local Open Scope Z_scope.
Local Open Scope sros_scope.

(** ** Machine integers (include/types.h) *)

(** The C integer types are [Z] values kept in range by an explicit wrap. *)
Definition u8 (z : Z) : Z := z mod 256.
Definition u16 (z : Z) : Z := z mod 65536.
Definition u32 (z : Z) : Z := z mod 4294967296.

(** Conversion to a two's complement signed type of the given width. *)
Definition signed (modulus : Z) (z : Z) : Z :=
  let r := z mod modulus in if 2 * r <? modulus then r else r - modulus.
Definition i8 (z : Z) : Z := signed 256 z.
Definition i32 (z : Z) : Z := signed 4294967296 z.

(** C's [~] on a [u32]. *)
Definition not32 (z : Z) : Z := u32 (Z.lnot z).

Definition is_u8 (z : Z) : Prop := 0 <= z < 256.
Definition is_u32 (z : Z) : Prop := 0 <= z < 4294967296.

(** C truth values. *)
Definition c_bool (b : bool) : Z := if b then 1 else 0.
Definition c_true (z : Z) : bool := negb (z =? 0).

(** ** Outcomes of code that can leave defined behaviour

    [Ret] is a normal return, [Panic] the kernel's own [panic], [Oob] an access
    outside the object the code means to access (undefined behaviour in C). *)
Inductive exec (A : Type) : Type :=
  | Ret (a : A)
  | Panic
  | Oob.
Arguments Ret {A} a.
Arguments Panic {A}.
Arguments Oob {A}.

#[export] Instance exec_ret : MRet exec := fun A => @Ret A.
#[export] Instance exec_bind : MBind exec := fun A B f m =>
  match m with Ret a => f a | Panic => Panic | Oob => Oob end.
#[export] Instance exec_fmap : FMap exec := fun A B f m =>
  match m with Ret a => Ret (f a) | Panic => Panic | Oob => Oob end.

(** ** Little-endian byte strings *)

Fixpoint le_bytes (n : nat) (z : Z) : list Z :=
  match n with
  | O => []
  | S n => z mod 256 :: le_bytes n (z / 256)
  end.

Fixpoint le_val (bs : list Z) : Z :=
  match bs with
  | [] => 0
  | b :: bs => b + 256 * le_val bs
  end.

(** C array slices: [len] elements from [off]. *)
Definition slice {A} (off len : nat) (l : list A) : list A := take len (drop off l).

(** Overwrite a slice of an array in place; the array keeps its length. *)
Definition splice {A} (off : nat) (new l : list A) : list A :=
  take off l ++ new ++ drop (off + length new) l.

(** ** Tactics *)

(** [lia] after turning division and modulo into their Euclidean equations. *)
Ltac mlia := Z.to_euclidean_division_equations; lia.

(** Unfold the fixed-width wraps and finish by arithmetic. *)
Ltac word := unfold u8, u16, u32, is_u8, is_u32 in *; mlia.

(** Destruct the innermost conditional of the goal, remembering the test. *)
Ltac case_if :=
  match goal with
  | |- context [if ?b then _ else _] => destruct b eqn:?
  end.

(** Turn boolean comparisons in hypotheses into propositions. *)
Ltac bool_prop :=
  repeat match goal with
  | H : (_ =? _) = true |- _ => apply Z.eqb_eq in H
  | H : (_ =? _) = false |- _ => apply Z.eqb_neq in H
  | H : (_ <? _) = true |- _ => apply Z.ltb_lt in H
  | H : (_ <? _) = false |- _ => apply Z.ltb_ge in H
  | H : (_ <=? _) = true |- _ => apply Z.leb_le in H
  | H : (_ <=? _) = false |- _ => apply Z.leb_gt in H
  | H : (_ && _)%bool = true |- _ => apply andb_prop in H as [? ?]
  | H : (_ || _)%bool = false |- _ => apply orb_false_elim in H as [? ?]
  | H : negb _ = true |- _ => apply negb_true_iff in H
  | H : negb _ = false |- _ => apply negb_false_iff in H
  end.

(** Normalise a closed conjunction of facts by computation. *)
Ltac by_compute := repeat split; vm_compute; try reflexivity; try discriminate.

Create HintDb sros discriminated.
Create Rewrite HintDb wrap.

(** ** Facts about the wraps *)

Lemma u32_small z : 0 <= z < 4294967296 -> u32 z = z.
Proof. intros; unfold u32; apply Z.mod_small; lia. Qed.

Lemma u32_range z : 0 <= u32 z < 4294967296.
Proof. unfold u32; apply Z.mod_pos_bound; lia. Qed.

Lemma u8_range z : 0 <= u8 z < 256.
Proof. unfold u8; apply Z.mod_pos_bound; lia. Qed.

Lemma u8_small z : 0 <= z < 256 -> u8 z = z.
Proof. intros; unfold u8; apply Z.mod_small; lia. Qed.

Lemma u32_u32 z : u32 (u32 z) = u32 z.
Proof. apply u32_small, u32_range. Qed.

Lemma u32_add_l a b : u32 (u32 a + b) = u32 (a + b).
Proof. apply Zplus_mod_idemp_l. Qed.

Lemma u32_add_r a b : u32 (a + u32 b) = u32 (a + b).
Proof. apply Zplus_mod_idemp_r. Qed.

Lemma i32_small z : - 2147483648 <= z < 2147483648 -> i32 z = z.
Proof.
  intros. unfold i32, signed.
  destruct (2 * (z mod 4294967296) <? 4294967296) eqn:?; bool_prop; mlia.
Qed.

Lemma i32_range z : - 2147483648 <= i32 z < 2147483648.
Proof.
  unfold i32, signed. case_if; bool_prop; mlia.
Qed.

Lemma u32_i32 z : u32 (i32 z) = u32 z.
Proof. unfold u32, i32, signed. case_if; mlia. Qed.

#[export] Hint Resolve u32_range u8_range i32_range : sros.
#[export] Hint Rewrite u32_u32 u32_add_l u32_add_r u32_i32 : wrap.

(** ** Masks *)

(** Masking off the low [k] bits of a word rounds it down to a multiple of [2^k]. *)
Lemma land_not_ones (k x : Z) :
  0 <= k <= 32 -> is_u32 x ->
  x .& not32 (Z.ones k) = x / 2 ^ k * 2 ^ k.
Proof.
  intros Hk Hx. unfold not32, u32, is_u32 in *.
  change 4294967296 with (2 ^ 32). rewrite <- (Z.land_ones _ 32) by lia.
  rewrite (Z.land_comm (Z.lnot _)), Z.land_assoc, Z.land_ones, Z.mod_small by lia.
  rewrite <- Z.ldiff_land, Z.ldiff_ones_r by lia.
  rewrite Z.shiftl_mul_pow2, Z.shiftr_div_pow2 by lia. reflexivity.
Qed.

Lemma land_low_ones (k x : Z) : 0 <= k -> x .& Z.ones k = x mod 2 ^ k.
Proof. intros; apply Z.land_ones; lia. Qed.

(** Adding low bits to an aligned word is the same as or-ing them in. *)
Lemma lor_aligned (k hi lo : Z) :
  0 <= k -> 0 <= lo < 2 ^ k -> (hi * 2 ^ k) .| lo = hi * 2 ^ k + lo.
Proof.
  intros Hk Hlo. symmetry. apply Z.add_nocarry_lor.
  apply Z.bits_inj'; intros n Hn.
  rewrite Z.land_spec, Z.bits_0.
  destruct (Z.ltb_spec n k).
  - rewrite Z.mul_pow2_bits_low by lia. reflexivity.
  - rewrite <- (Z.mod_small lo (2 ^ k)) by lia.
    rewrite Z.mod_pow2_bits_high by lia. apply andb_false_r.
Qed.

(** ** Facts about byte strings *)

Lemma length_le_bytes n z : length (le_bytes n z) = n.
Proof. revert z; induction n as [|n IH]; intros z; simpl; [|rewrite IH]; reflexivity. Qed.

Lemma le_val_bytes n z : le_val (le_bytes n z) = z mod 256 ^ Z.of_nat n.
Proof.
  revert z; induction n as [|n IH]; intros z.
  - simpl. rewrite Z.mod_1_r. reflexivity.
  - cbn [le_bytes le_val]. rewrite IH, Nat2Z.inj_succ, Z.pow_succ_r by lia.
    rewrite Z.rem_mul_r by lia. reflexivity.
Qed.

Lemma le_val_bound bs : Forall is_u8 bs -> 0 <= le_val bs < 256 ^ Z.of_nat (length bs).
Proof.
  induction 1 as [|b bs Hb Hbs IH]; [simpl; lia|].
  cbn [le_val length]. rewrite Nat2Z.inj_succ, Z.pow_succ_r by lia.
  unfold is_u8 in Hb. lia.
Qed.

Lemma le_bytes_val bs : Forall is_u8 bs -> le_bytes (length bs) (le_val bs) = bs.
Proof.
  induction 1 as [|b bs Hb Hbs IH]; [reflexivity|].
  cbn [le_val length le_bytes]. unfold is_u8 in Hb. f_equal.
  - rewrite Z.mul_comm, Z_mod_plus_full. apply Z.mod_small; lia.
  - rewrite Z.mul_comm, Z_div_plus_full, Z.div_small by lia. exact IH.
Qed.

Lemma le_bytes_u8 n z : Forall is_u8 (le_bytes n z).
Proof.
  revert z; induction n as [|n IH]; intros z; simpl; constructor; auto.
  unfold is_u8. apply Z.mod_pos_bound; lia.
Qed.

#[export] Hint Resolve le_bytes_u8 : sros.
#[export] Hint Rewrite length_le_bytes : wrap.

(** ** Bit fields: [n] bits of [q] from bit [lo] *)

Definition bits (q lo n : Z) : Z := q / 2 ^ lo mod 2 ^ n.

Lemma bits_range q lo n : 0 <= n -> 0 <= bits q lo n < 2 ^ n.
Proof. intros. unfold bits. apply Z.mod_pos_bound. lia. Qed.

(** A field below [lo] does not matter ... *)
Lemma bits_skip a r k lo n : 0 <= k <= lo -> 0 <= a < 2 ^ k -> bits (a + 2 ^ k * r) lo n = bits r (lo - k) n.
Proof.
  intros Hk Ha. unfold bits. f_equal.
  replace (2 ^ lo) with (2 ^ k * 2 ^ (lo - k)) by (rewrite <- Z.pow_add_r by lia; f_equal; lia).
  rewrite <- Z.div_div by lia. f_equal.
  rewrite Z.mul_comm, Z.div_add by lia. rewrite Z.div_small by lia. lia.
Qed.

(** ... nor does one above the field. *)
Lemma bits_here a r n : 0 <= n -> 0 <= a < 2 ^ n -> bits (a + 2 ^ n * r) 0 n = a.
Proof.
  intros Hn Ha. unfold bits. rewrite Z.div_1_r, Z.mul_comm, Z_mod_plus_full. apply Z.mod_small, Ha.
Qed.

Lemma le_val_app xs ys : le_val (xs ++ ys) = le_val xs + 256 ^ Z.of_nat (length xs) * le_val ys.
Proof.
  induction xs as [|x xs IH]; [cbn; lia|].
  cbn [app le_val length]. rewrite IH, Nat2Z.inj_succ, Z.pow_succ_r by lia. lia.
Qed.

Lemma le_val_field n z ys : 0 <= z < 256 ^ Z.of_nat n ->
  le_val (le_bytes n z ++ ys) = z + 256 ^ Z.of_nat n * le_val ys.
Proof. intros H. rewrite le_val_app, length_le_bytes, le_val_bytes, Z.mod_small by exact H. reflexivity. Qed.

(** A field of a word given as the bits below it, its value and the rest. *)
Lemma bits_at a x r q lo n :
  0 <= lo -> 0 <= n -> 0 <= a < 2 ^ lo -> 0 <= x < 2 ^ n -> q = a + 2 ^ lo * (x + 2 ^ n * r) ->
  bits q lo n = x.
Proof. intros. subst q. rewrite bits_skip, Z.sub_diag, bits_here by lia. reflexivity. Qed.

(** Masking with [2^k - 1] and shifting, as arithmetic. *)
Lemma field_of x s k : 0 <= s -> 0 <= k -> Z.shiftr x s .& Z.ones k = bits x s k.
Proof. intros. unfold bits. rewrite Z.land_ones, Z.shiftr_div_pow2 by lia. reflexivity. Qed.

Lemma field_low x k : 0 <= k -> x .& Z.ones k = bits x 0 k.
Proof. intros. unfold bits. rewrite Z.land_ones, Z.div_1_r by lia. reflexivity. Qed.

Lemma bits_all x n : 0 <= n -> 0 <= x < 2 ^ n -> bits x 0 n = x.
Proof. intros. unfold bits. rewrite Z.div_1_r. apply Z.mod_small. lia. Qed.

(** Splitting a word in a low and a high part. *)
Lemma bits_split x k n : 0 <= k -> 0 <= n -> 0 <= x < 2 ^ (k + n) -> bits x 0 k + 2 ^ k * bits x k n = x.
Proof.
  intros Hk Hn Hx. rewrite Z.pow_add_r in Hx by lia. unfold bits. rewrite Z.div_1_r.
  rewrite (Z.mod_small (x / 2 ^ k)).
  - rewrite (Z.div_mod x (2 ^ k)) at 3 by lia. lia.
  - split; [apply Z.div_pos; lia|]. apply Z.div_lt_upper_bound; lia.
Qed.

(** ** Case analysis over the values of a byte *)

Definition all_bytes : list Z := Z.of_nat <$> seq 0 256.

Lemma byte_cases (P : Z -> bool) b : forallb P all_bytes = true -> is_u8 b -> P b = true.
Proof.
  intros T Hb. rewrite forallb_forall in T. apply T, list_elem_of_In, list_elem_of_fmap.
  exists (Z.to_nat b). unfold is_u8 in Hb. split; [lia|]. apply elem_of_seq. lia.
Qed.

(** [by_bytes P H] establishes [P b = true] from [H : is_u8 b] by computing
    [P] on all 256 bytes, and splits it into its conjuncts. *)
Ltac by_bytes P H :=
  let T := fresh "T" in
  assert (T : forallb P all_bytes = true) by (vm_compute; reflexivity);
  apply (fun T => byte_cases P _ T H) in T; cbn [forallb] in T;
  repeat match goal with X : (_ && _)%bool = true |- _ => apply andb_prop in X as [? ?] end.

(** ** Facts about slices *)

Section slices.
Context {A : Type}.
Implicit Types l new : list A.

Lemma length_slice off len l : (off + len <= length l)%nat -> length (slice off len l) = len.
Proof. intros. unfold slice. rewrite length_take, length_drop. lia. Qed.

Lemma length_splice off new l :
  (off + length new <= length l)%nat -> length (splice off new l) = length l.
Proof.
  intros. unfold splice. rewrite !length_app, length_take, length_drop. lia.
Qed.

Lemma slice_splice_same off new l :
  (off + length new <= length l)%nat -> slice off (length new) (splice off new l) = new.
Proof.
  intros. unfold slice, splice.
  rewrite drop_app_ge; rewrite length_take; [|lia].
  replace (off - off `min` length l)%nat with 0%nat by lia.
  rewrite drop_0, take_app_length. reflexivity.
Qed.

Lemma slice_splice_before off new l o n :
  (o + n <= off)%nat -> (off + length new <= length l)%nat ->
  slice o n (splice off new l) = slice o n l.
Proof.
  intros. unfold slice, splice.
  rewrite drop_app_le by (rewrite length_take; lia).
  rewrite take_app_le by (rewrite length_drop, length_take; lia).
  rewrite !take_drop_commute, take_take. do 2 f_equal. lia.
Qed.

Lemma slice_splice_after off new l o n :
  (off + length new <= o)%nat -> (off + length new <= length l)%nat ->
  slice o n (splice off new l) = slice o n l.
Proof.
  intros. unfold slice, splice. f_equal.
  rewrite drop_app_ge; rewrite length_take; [|lia].
  rewrite drop_app_ge by lia. rewrite drop_drop. f_equal. lia.
Qed.

Lemma take_take_app n l new : take n (take n l ++ new) = take n (l ++ new).
Proof.
  destruct (decide (length l <= n)%nat); [rewrite (take_ge l) by lia; reflexivity|].
  rewrite !take_app_le by (rewrite ?length_take; lia). rewrite take_take. f_equal. lia.
Qed.

Lemma slice_full l : slice 0 (length l) l = l.
Proof. unfold slice. rewrite drop_0. apply firstn_all. Qed.

Lemma slice_app off n m l : slice off n l ++ slice (off + n) m l = slice off (n + m) l.
Proof.
  unfold slice. rewrite <- (drop_drop l n off).
  rewrite <- (take_drop n (take (n + m) (drop off l))) at 1.
  rewrite take_take, Nat.min_l by lia. f_equal.
  rewrite take_drop_commute. reflexivity.
Qed.
End slices.

(** ** Facts about lists updated by index *)

Lemma alter_id {A} (f : A -> A) (l : list A) (i : nat) :
  (forall x, l !! i = Some x -> f x = x) -> alter f i l = l.
Proof.
  intros H. apply list_eq; intros j. rewrite list_lookup_alter.
  case_decide; [subst|reflexivity].
  destruct (l !! j) as [x|] eqn:E; simpl; [|reflexivity].
  f_equal. auto.
Qed.

Lemma Forall_alter_intro {A} (P : A -> Prop) (f : A -> A) (l : list A) (i : nat) :
  Forall P l -> (forall x, P x -> P (f x)) -> Forall P (alter f i l).
Proof.
  intros Hl Hf. apply Forall_lookup. intros j x. rewrite list_lookup_alter.
  rewrite Forall_lookup in Hl.
  case_decide; [subst|eauto].
  intros Hx. apply fmap_Some in Hx as (y & Hy & ->). eauto.
Qed.
