(* ===== verification/Memory.v ===== *)
(** * Flat byte-addressed memory

    The kernel runs with a flat 32-bit address space; C pointers are [u32]
    values.  Memory is a total map from addresses to bytes; multi-byte objects
    are little-endian, as on x86.  Two memories that agree on every load are
    [mem_eq]; loads and stores respect that equivalence. *)

From S2P Require Import Prelude.
From Stdlib Require Import Setoid Morphisms.
Local Open Scope Z_scope.

Definition mem : Type := Z -> Z.

Definition load8 (m : mem) (a : Z) : Z := u8 (m (u32 a)).

Definition store8 (m : mem) (a v : Z) : mem :=
  let a := u32 a in
  let v := u8 v in
  fun x => if x =? a then v else m x.

(** [len] consecutive bytes from [a]. *)
Fixpoint load_bytes (m : mem) (a : Z) (len : nat) : list Z :=
  match len with
  | O => []
  | S len => load8 m a :: load_bytes m (a + 1) len
  end.

Fixpoint store_bytes (m : mem) (a : Z) (bs : list Z) : mem :=
  match bs with
  | [] => m
  | b :: bs => store_bytes (store8 m a b) (a + 1) bs
  end.

Definition load32 (m : mem) (a : Z) : Z := le_val (load_bytes m a 4).
Definition store32 (m : mem) (a v : Z) : mem := store_bytes m a (le_bytes 4 v).

(** Memory filled with zeros. *)
Definition mem0 : mem := fun _ => 0.

(** ** Equality of memories up to loads *)

Definition mem_eq (m1 m2 : mem) : Prop := forall a, load8 m1 a = load8 m2 a.

#[export] Instance mem_eq_equivalence : Equivalence mem_eq.
Proof.
  split.
  - intros m a; reflexivity.
  - intros m1 m2 H a; symmetry; apply H.
  - intros m1 m2 m3 H1 H2 a. rewrite H1. apply H2.
Qed.

#[export] Instance load8_proper : Proper (mem_eq ==> eq ==> eq) load8.
Proof. intros m1 m2 H a ? <-. apply H. Qed.

#[export] Instance load_bytes_proper : Proper (mem_eq ==> eq ==> eq ==> eq) load_bytes.
Proof.
  intros m1 m2 H a ? <- len ? <-. revert a.
  induction len as [|len IH]; intros a; simpl; [reflexivity|]. rewrite (H a), IH. reflexivity.
Qed.

#[export] Instance load32_proper : Proper (mem_eq ==> eq ==> eq) load32.
Proof. intros m1 m2 H a ? <-. unfold load32. rewrite H. reflexivity. Qed.

#[export] Instance store8_proper : Proper (mem_eq ==> eq ==> eq ==> mem_eq) store8.
Proof.
  intros m1 m2 H a ? <- v ? <- x. unfold load8, store8.
  case_if; [reflexivity|apply H].
Qed.

#[export] Instance store_bytes_proper : Proper (mem_eq ==> eq ==> eq ==> mem_eq) store_bytes.
Proof.
  intros m1 m2 H a ? <- bs ? <-. revert m1 m2 a H.
  induction bs as [|b bs IH]; intros m1 m2 a H; simpl; [exact H|].
  apply IH. rewrite H. reflexivity.
Qed.

#[export] Instance store32_proper : Proper (mem_eq ==> eq ==> eq ==> mem_eq) store32.
Proof. intros m1 m2 H a ? <- v ? <-. unfold store32. rewrite H. reflexivity. Qed.

(** ** Loads are in range *)

Lemma load8_range m a : is_u8 (load8 m a).
Proof. apply u8_range. Qed.

Lemma length_load_bytes m a len : length (load_bytes m a len) = len.
Proof. revert a; induction len as [|len IH]; intros a; simpl; [|rewrite IH]; reflexivity. Qed.

Lemma load_bytes_u8 m a len : Forall is_u8 (load_bytes m a len).
Proof.
  revert a; induction len as [|len IH]; intros a; simpl; constructor; auto using load8_range.
Qed.

Lemma load32_range m a : is_u32 (load32 m a).
Proof.
  pose proof (le_val_bound _ (load_bytes_u8 m a 4)) as H.
  rewrite length_load_bytes in H. exact H.
Qed.

#[export] Hint Resolve load8_range load32_range load_bytes_u8 : sros.
#[export] Hint Rewrite length_load_bytes : wrap.

(** ** Loads after stores *)

Lemma load8_store8_same m a v : load8 (store8 m a v) a = u8 v.
Proof.
  unfold load8, store8. rewrite Z.eqb_refl. apply u8_small, u8_range.
Qed.

Lemma load8_store8_other m a v x : u32 x <> u32 a -> load8 (store8 m a v) x = load8 m x.
Proof. intros H. unfold load8, store8. case_if; bool_prop; congruence. Qed.

(** A store leaves every byte outside its range alone. *)
Lemma load8_store_bytes_out m a bs x :
  0 <= a -> a + Z.of_nat (length bs) <= 4294967296 -> is_u32 x ->
  ~ (a <= x < a + Z.of_nat (length bs)) ->
  load8 (store_bytes m a bs) x = load8 m x.
Proof.
  revert m a; induction bs as [|b bs IH]; intros m a Ha Hl Hx Hout; [reflexivity|].
  cbn [length] in *. unfold is_u32 in Hx.
  cbn [store_bytes]. rewrite IH by (try assumption; lia).
  apply load8_store8_other. rewrite !u32_small by lia. lia.
Qed.

(** ... and sets every byte inside it. *)
Lemma load8_store_bytes_in m a bs (i : nat) b :
  0 <= a -> a + Z.of_nat (length bs) <= 4294967296 ->
  bs !! i = Some b ->
  load8 (store_bytes m a bs) (a + Z.of_nat i) = u8 b.
Proof.
  revert m a i; induction bs as [|b' bs IH]; intros m a i Ha Hl Hi; [discriminate|].
  cbn [length] in *. pose proof (lookup_lt_Some _ _ _ Hi) as Hlt. cbn [length] in Hlt.
  cbn [store_bytes]. destruct i as [|i]; simpl in Hi.
  - injection Hi as ->. rewrite Z.add_0_r.
    rewrite load8_store_bytes_out by (unfold is_u32; lia). apply load8_store8_same.
  - replace (a + Z.of_nat (S i)) with (a + 1 + Z.of_nat i) by lia.
    apply IH; [lia|lia|assumption].
Qed.

Lemma load_bytes_ext m1 m2 a len :
  (forall i, 0 <= i < Z.of_nat len -> load8 m1 (a + i) = load8 m2 (a + i)) ->
  load_bytes m1 a len = load_bytes m2 a len.
Proof.
  revert a; induction len as [|len IH]; intros a H; simpl; [reflexivity|]. f_equal.
  - specialize (H 0). rewrite Z.add_0_r in H. apply H; lia.
  - apply IH; intros i Hi. replace (a + 1 + i) with (a + (i + 1)) by lia. apply H; lia.
Qed.

Lemma load_bytes_store_bytes_other m a bs b len :
  0 <= a -> a + Z.of_nat (length bs) <= 4294967296 ->
  0 <= b -> b + Z.of_nat len <= 4294967296 ->
  b + Z.of_nat len <= a \/ a + Z.of_nat (length bs) <= b ->
  load_bytes (store_bytes m a bs) b len = load_bytes m b len.
Proof.
  intros Ha Hal Hb Hbl Hdisj. apply load_bytes_ext; intros i Hi.
  apply load8_store_bytes_out; unfold is_u32; lia.
Qed.

Lemma lookup_load_bytes m a len (i : nat) :
  (i < len)%nat -> load_bytes m a len !! i = Some (load8 m (a + Z.of_nat i)).
Proof.
  revert a i; induction len as [|len IH]; intros a [|i] Hi; try lia; simpl.
  - rewrite Z.add_0_r; reflexivity.
  - rewrite IH by lia. do 2 f_equal. lia.
Qed.

Lemma load_bytes_store_bytes_same m a bs :
  0 <= a -> a + Z.of_nat (length bs) <= 4294967296 ->
  load_bytes (store_bytes m a bs) a (length bs) = u8 <$> bs.
Proof.
  intros Ha Hl. apply list_eq_same_length with (n := length bs).
  - apply length_fmap.
  - apply length_load_bytes.
  - intros i x y Hi Hx Hy. rewrite lookup_load_bytes in Hx by exact Hi.
    rewrite list_lookup_fmap in Hy. apply fmap_Some in Hy as (b & Hb & ->).
    injection Hx as <-. eapply load8_store_bytes_in; eauto.
Qed.

Lemma u8_le_bytes n v : u8 <$> le_bytes n v = le_bytes n v.
Proof.
  pose proof (le_bytes_u8 n v) as H. revert H. generalize (le_bytes n v). intros l H.
  induction H as [|b bs Hb H IH]; [reflexivity|].
  cbn. f_equal; [apply u8_small; exact Hb|exact IH].
Qed.

Lemma load32_store32_same m a v :
  0 <= a <= 4294967292 -> load32 (store32 m a v) a = u32 v.
Proof.
  intros Ha. unfold load32, store32.
  pose proof (load_bytes_store_bytes_same m a (le_bytes 4 v)) as H.
  rewrite length_le_bytes in H. rewrite H by lia.
  rewrite u8_le_bytes, le_val_bytes. reflexivity.
Qed.

Lemma load32_store32_other m a v b :
  0 <= a <= 4294967292 -> 0 <= b <= 4294967292 ->
  b + 4 <= a \/ a + 4 <= b ->
  load32 (store32 m a v) b = load32 m b.
Proof.
  intros Ha Hb Hd. unfold load32, store32.
  rewrite load_bytes_store_bytes_other; rewrite ?length_le_bytes; [reflexivity|lia..].
Qed.

Lemma load8_store32_other m a v x :
  0 <= a <= 4294967292 -> is_u32 x -> ~ (a <= x < a + 4) ->
  load8 (store32 m a v) x = load8 m x.
Proof.
  intros Ha Hx Hd. unfold store32.
  apply load8_store_bytes_out; rewrite ?length_le_bytes; [lia|lia|assumption|lia].
Qed.

(** Two loads of the same four bytes agree. *)
Lemma load32_ext m1 m2 a :
  (forall i, 0 <= i < 4 -> load8 m1 (a + i) = load8 m2 (a + i)) -> load32 m1 a = load32 m2 a.
Proof. intros H. unfold load32. f_equal. apply load_bytes_ext. exact H. Qed.
