(* ===== verification/CString.v ===== *)
(** * String routines (kernel/string.c)

    The routines work on pointers into {!Memory.mem}.  The loops of
    [strlen], [strcmp], [strncmp] and [strcpy] run until a NUL byte; they take
    fuel, and the theorems give the fuel that suffices for a C string.
    [memset] and [memcpy] run a counted number of times and need none. *)

From S2P Require Import Prelude Memory.
Local Open Scope Z_scope.

(** ** The routines *)

Fixpoint strlen_loop (fuel : nat) (m : mem) (str len : Z) : option Z :=
  match fuel with
  | O => None
  | S fuel =>
      if load8 m (str + len) =? 0 then Some len
      else strlen_loop fuel m str (u32 (len + 1))
  end.

Definition strlen (fuel : nat) (m : mem) (str : Z) : option Z := strlen_loop fuel m str 0.

(** [while (( *str1) && ( *str1 == *str2))] advances both pointers; the bytes the
    loop stops at are compared as [u8]. *)
Fixpoint strcmp (fuel : nat) (m : mem) (str1 str2 : Z) : option Z :=
  match fuel with
  | O => None
  | S fuel =>
      let c1 := load8 m str1 in
      let c2 := load8 m str2 in
      if c_true c1 && (c1 =? c2) then strcmp fuel m (u32 (str1 + 1)) (u32 (str2 + 1))
      else Some (if c2 <? c1 then 1 else if c1 <? c2 then -1 else 0)
  end.

(** The counted loop of [strncmp], [i] running up to [num]; [n] is [num - i]. *)
Fixpoint strncmp_loop (n : nat) (m : mem) (str1 str2 i : Z) : Z :=
  match n with
  | O => 0
  | S n =>
      let c1 := load8 m (str1 + i) in
      let c2 := load8 m (str2 + i) in
      if negb (c1 =? c2) then c1 - c2
      else if c1 =? 0 then 0
      else strncmp_loop n m str1 str2 (i + 1)
  end.

Definition strncmp (m : mem) (str1 str2 num : Z) : Z :=
  if num =? 0 then 0 else strncmp_loop (Z.to_nat num) m str1 str2 0.

(** Copies up to and including the NUL; the result is the new memory, the C
    function returns [dest]. *)
Fixpoint strcpy (fuel : nat) (m : mem) (dest src : Z) : option mem :=
  match fuel with
  | O => None
  | S fuel =>
      let c := load8 m src in
      let m := store8 m dest c in
      if c =? 0 then Some m else strcpy fuel m (u32 (dest + 1)) (u32 (src + 1))
  end.

(** [while (n--) s[n] = c;] stores from the last byte down to the first. *)
Fixpoint memset_loop (m : mem) (s c : Z) (n : nat) : mem :=
  match n with
  | O => m
  | S n => memset_loop (store8 m (s + Z.of_nat n) c) s c n
  end.

Definition memset (m : mem) (str c n : Z) : mem := memset_loop m str c (Z.to_nat n).

(** [while (n--) *d++ = *s++;] copies one byte at a time, lowest address first. *)
Fixpoint memcpy_loop (m : mem) (d s : Z) (n : nat) : mem :=
  match n with
  | O => m
  | S n => memcpy_loop (store8 m d (load8 m s)) (u32 (d + 1)) (u32 (s + 1)) n
  end.

Definition memcpy (m : mem) (dest src n : Z) : mem := memcpy_loop m dest src (Z.to_nat n).

(** ** Reference definitions on byte lists *)

(** A NUL-terminated string [cs] at address [p]. *)
Definition cstring_at (m : mem) (p : Z) (cs : list Z) : Prop :=
  Forall (fun c => 0 < c < 256) cs /\
  load_bytes m p (S (length cs)) = cs ++ [0] /\
  0 <= p /\ p + Z.of_nat (length cs) < 4294967295.

(** Lexicographic comparison of byte strings. *)
Fixpoint bytes_cmp (a b : list Z) : Z :=
  match a, b with
  | [], [] => 0
  | [], _ :: _ => -1
  | _ :: _, [] => 1
  | x :: a, y :: b => if x =? y then bytes_cmp a b else if y <? x then 1 else -1
  end.

(** The string a C array holds: the bytes before its first NUL. *)
Fixpoint cstr (bs : list Z) : list Z :=
  match bs with
  | [] => []
  | b :: bs => if b =? 0 then [] else b :: cstr bs
  end.

(** ** Lemmas *)

Lemma bytes_cmp_refl a : bytes_cmp a a = 0.
Proof. induction a as [|x a IH]; simpl; [|rewrite Z.eqb_refl]; auto. Qed.

Lemma bytes_cmp_eq a b : bytes_cmp a b = 0 <-> a = b.
Proof.
  split; [|intros ->; apply bytes_cmp_refl].
  revert b; induction a as [|x a IH]; intros [|y b]; simpl; try discriminate; [reflexivity|].
  destruct (x =? y) eqn:E; bool_prop; [|case_if; discriminate].
  intros H. subst y. f_equal. apply IH, H.
Qed.

Lemma bytes_cmp_antisym a b : bytes_cmp b a = - bytes_cmp a b.
Proof.
  revert b; induction a as [|x a IH]; intros [|y b]; simpl; try reflexivity.
  rewrite (Z.eqb_sym y x). destruct (x =? y) eqn:E; bool_prop; [apply IH|].
  destruct (y <? x) eqn:E1, (x <? y) eqn:E2; bool_prop; lia.
Qed.

Lemma cstr_nul cs : Forall (fun c => c <> 0) cs -> cstr (cs ++ [0]) = cs.
Proof.
  induction 1 as [|c cs Hc _ IH]; [reflexivity|]. cbn [app cstr]. rewrite (proj2 (Z.eqb_neq c 0) Hc), IH. reflexivity.
Qed.

Lemma cstring_at_nil m p : cstring_at m p [] -> load8 m p = 0.
Proof. intros (_ & H & _). cbn in H. congruence. Qed.

Lemma cstring_at_cons m p c cs :
  cstring_at m p (c :: cs) ->
  load8 m p = c /\ 0 < c < 256 /\ u32 (p + 1) = p + 1 /\ cstring_at m (p + 1) cs.
Proof.
  intros (Hc & H & Hp & Hl). cbn [length] in *. apply Forall_cons_1 in Hc as [Hc Hcs].
  cbn in H. injection H as Hhd Htl.
  split; [exact Hhd|]. split; [assumption|]. split; [apply u32_small; lia|].
  split; [assumption|]. split; [|lia].
  cbn. rewrite <- Htl. reflexivity.
Qed.

Lemma strlen_loop_spec m cs : forall p len fuel,
  cstring_at m (p + len) cs -> 0 <= p -> 0 <= len -> (length cs < fuel)%nat ->
  strlen_loop fuel m p len = Some (len + Z.of_nat (length cs)).
Proof.
  induction cs as [|c cs IH]; intros p len [|fuel] Hs Hp Hlen Hf; cbn [length] in *; try lia;
    cbn [strlen_loop].
  - rewrite (cstring_at_nil _ _ Hs). simpl. f_equal; lia.
  - assert (Hb := Hs). destruct Hb as (_ & _ & _ & Hb). cbn [length] in Hb.
    apply cstring_at_cons in Hs as (-> & Hc & _ & Hs).
    rewrite (proj2 (Z.eqb_neq c 0)) by lia. rewrite u32_small by lia.
    rewrite IH; try lia; [f_equal; lia|].
    rewrite Z.add_assoc. exact Hs.
Qed.

Lemma strcmp_bytes_cmp m a : forall p b q fuel,
  cstring_at m p a -> cstring_at m q b -> (length a < fuel)%nat ->
  strcmp fuel m p q = Some (bytes_cmp a b).
Proof.
  induction a as [|x a IH]; intros p [|y b] q [|fuel] Hp Hq Hf; cbn [length] in *; try lia;
    cbn [strcmp bytes_cmp].
  - rewrite (cstring_at_nil _ _ Hp), (cstring_at_nil _ _ Hq). reflexivity.
  - rewrite (cstring_at_nil _ _ Hp). apply cstring_at_cons in Hq as (-> & Hy & _).
    unfold c_true; simpl. rewrite (proj2 (Z.ltb_ge y 0)), (proj2 (Z.ltb_lt 0 y)) by lia. reflexivity.
  - rewrite (cstring_at_nil _ _ Hq). apply cstring_at_cons in Hp as (-> & Hx & _).
    rewrite (proj2 (Z.eqb_neq x 0)) by lia. rewrite andb_false_r.
    rewrite (proj2 (Z.ltb_lt 0 x)) by lia. reflexivity.
  - apply cstring_at_cons in Hp as (-> & Hx & -> & Hp).
    apply cstring_at_cons in Hq as (-> & Hy & -> & Hq).
    unfold c_true. rewrite (proj2 (Z.eqb_neq x 0)) by lia. cbn [negb andb].
    destruct (x =? y) eqn:E; bool_prop.
    + apply IH; [assumption..|lia].
    + destruct (y <? x) eqn:E1; [reflexivity|].
      rewrite (proj2 (Z.ltb_lt x y)); [reflexivity|]. bool_prop. lia.
Qed.

Lemma memset_loop_in m s c n : forall i,
  0 <= s -> s + Z.of_nat n <= 4294967296 -> 0 <= i < Z.of_nat n ->
  load8 (memset_loop m s c n) (s + i) = u8 c.
Proof.
  revert m. induction n as [|n IH]; intros m i Hs Hl Hi; [lia|]. cbn [memset_loop].
  destruct (Z.eq_dec i (Z.of_nat n)) as [->|Hne]; [|apply IH; lia].
  assert (Hout : forall k m', (Z.of_nat k <= Z.of_nat n) ->
    load8 (memset_loop m' s c k) (s + Z.of_nat n) = load8 m' (s + Z.of_nat n)).
  { induction k as [|k IHk]; intros m' Hk; cbn [memset_loop]; [reflexivity|].
    rewrite IHk by lia. apply load8_store8_other. rewrite !u32_small by lia. lia. }
  rewrite Hout by lia. apply load8_store8_same.
Qed.

Lemma memcpy_loop_out m d s n : forall x,
  0 <= d -> d + Z.of_nat n <= 4294967296 -> is_u32 x -> ~ (d <= x < d + Z.of_nat n) ->
  load8 (memcpy_loop m d s n) x = load8 m x.
Proof.
  revert m d s. induction n as [|n IH]; intros m d s x Hd Hl Hx Ho; [reflexivity|].
  cbn [memcpy_loop]. unfold is_u32 in Hx.
  destruct (Nat.eq_dec n 0%nat) as [->|Hn].
  - cbn [memcpy_loop]. apply load8_store8_other. rewrite !u32_small by lia. lia.
  - rewrite (u32_small (d + 1)) by lia. rewrite IH by (unfold is_u32; lia).
    apply load8_store8_other. rewrite !u32_small by lia. lia.
Qed.

(** Copying forward is right whenever the destination does not start inside
    the source: the regions are disjoint or the destination comes first. *)
Lemma memcpy_loop_in m d s n : forall i,
  0 <= d -> d + Z.of_nat n <= 4294967296 ->
  0 <= s -> s + Z.of_nat n <= 4294967296 ->
  d <= s \/ s + Z.of_nat n <= d ->
  0 <= i < Z.of_nat n ->
  load8 (memcpy_loop m d s n) (d + i) = load8 m (s + i).
Proof.
  revert m d s. induction n as [|n IH]; intros m d s i Hd Hdl Hs Hsl Hor Hi; [lia|].
  cbn [memcpy_loop]. destruct (Nat.eq_dec n 0%nat) as [->|Hn].
  { assert (i = 0) as -> by lia. cbn [memcpy_loop]. rewrite !Z.add_0_r, load8_store8_same.
    apply u8_small, load8_range. }
  rewrite (u32_small (d + 1)), (u32_small (s + 1)) by lia.
  destruct (Z.eq_dec i 0) as [->|Hi0].
  - rewrite memcpy_loop_out by (unfold is_u32; lia).
    rewrite !Z.add_0_r, load8_store8_same. apply u8_small, load8_range.
  - replace (d + i) with (d + 1 + (i - 1)) by lia. rewrite IH by lia.
    replace (s + 1 + (i - 1)) with (s + i) by lia.
    apply load8_store8_other. rewrite !u32_small by lia. lia.
Qed.

Lemma strcpy_spec cs : forall m d s fuel,
  cstring_at m s cs -> 0 <= d -> d + Z.of_nat (length cs) < 4294967295 ->
  d <= s \/ s + Z.of_nat (length cs) < d -> (length cs < fuel)%nat ->
  strcpy fuel m d s = Some (memcpy_loop m d s (S (length cs))).
Proof.
  induction cs as [|c cs IH]; intros m d s [|fuel] Hs Hd Hdl Hor Hf; cbn [length] in *; try lia;
    cbn [strcpy].
  - cbn [memcpy_loop]. rewrite (cstring_at_nil _ _ Hs). reflexivity.
  - assert (Hb := Hs). destruct Hb as (_ & _ & Hs0 & Hb). cbn [length] in Hb.
    pose proof Hs as Hs'. apply cstring_at_cons in Hs as (Hl & Hc & Hu & Hs). rewrite Hl.
    rewrite (proj2 (Z.eqb_neq c 0)) by lia.
    rewrite (IH (store8 m d c)); rewrite ?Hu, ?(u32_small (d + 1)); try lia.
    + cbn [memcpy_loop]. rewrite Hl, Hu, (u32_small (d + 1)) by lia. reflexivity.
    + destruct Hs as (H1 & H2 & H3). split; [exact H1|]. split; [|exact H3].
      rewrite <- H2. apply load_bytes_ext. intros i Hi.
      apply load8_store8_other. rewrite !u32_small by lia. lia.
Qed.

Lemma cstr_app_zero cs rest : Forall (fun c => 0 < c < 256) cs -> cstr (cs ++ 0 :: rest) = cs.
Proof.
  induction 1 as [|c cs Hc H IH]; simpl; [reflexivity|].
  rewrite (proj2 (Z.eqb_neq c 0)) by lia. f_equal. exact IH.
Qed.

(** ** Properties *)

(** [strcmp] on two C strings returns their lexicographic comparison
    (sign -1, 0 or 1), with fuel one more than the first string's length. *)
Theorem strcmp_spec m p q a b :
  cstring_at m p a -> cstring_at m q b ->
  strcmp (S (length a)) m p q = Some (bytes_cmp a b) /\
  (bytes_cmp a b = 0 <-> a = b) /\ bytes_cmp b a = - bytes_cmp a b.
Proof.
  intros Hp Hq. split; [apply strcmp_bytes_cmp; [assumption..|lia]|].
  split; [apply bytes_cmp_eq|apply bytes_cmp_antisym].
Qed.

(** "ab" at 16 and "ac" at 32. *)
Definition strings_example : mem := store_bytes (store_bytes mem0 16 [97; 98; 0]) 32 [97; 99; 0].

Lemma strcmp_spec_witness : strcmp 3 strings_example 16 32 = Some (-1).
Proof.
  destruct (strcmp_spec strings_example 16 32 [97; 98] [97; 99]) as [H _];
    [split; [repeat constructor; lia|split; [vm_compute; reflexivity|simpl; lia]]..|].
  exact H.
Defined.

(** when the destination does not start inside the source, [memcpy]
    puts the old source bytes in the destination and changes nothing else. *)
Theorem memcpy_copies m d s n :
  0 <= n -> 0 <= d -> d + n <= 4294967296 -> 0 <= s -> s + n <= 4294967296 ->
  d <= s \/ s + n <= d ->
  load_bytes (memcpy m d s n) d (Z.to_nat n) = load_bytes m s (Z.to_nat n) /\
  (forall x, is_u32 x -> ~ (d <= x < d + n) -> load8 (memcpy m d s n) x = load8 m x).
Proof.
  intros Hn Hd Hdl Hs Hsl Hor. unfold memcpy. split.
  - apply list_eq_same_length with (n := Z.to_nat n); try apply length_load_bytes.
    intros i x y Hi Hx Hy. rewrite lookup_load_bytes in Hx, Hy by exact Hi.
    injection Hx as <-. injection Hy as <-. apply memcpy_loop_in; lia.
  - intros x Hx Ho. apply memcpy_loop_out; [lia|lia|assumption|lia].
Qed.

Lemma memcpy_copies_witness :
  load_bytes (memcpy strings_example 64 16 3) 64 3 = [97; 98; 0].
Proof.
  destruct (memcpy_copies strings_example 64 16 3) as [H _]; try lia.
  change (Z.to_nat 3) with 3%nat in H. rewrite H. vm_compute. reflexivity.
Defined.
