(* ===== verification/Kmalloc.v ===== *)
(** * Kernel heap (kernel/kmalloc.c)

    Boundary-tag allocator.  Every block starts with a header word and ends with
    an identical footer word: the block size (a multiple of 8 that includes both
    words) with bit 0 set when the block is allocated.  An epilogue word 1 (size
    0, allocated) ends the heap.  The C macros and functions are translated on
    the byte memory; the abstract heap is the list of [(size, allocated)] pairs
    in address order, on which [kmalloc] is first fit with splitting and [kfree]
    merges with free neighbours. *)

From Stdlib Require Import Btauto.
From S2P Require Import Prelude Memory.
Local Open Scope Z_scope.
Local Open Scope sros_scope.

Definition HEAP_START : Z := 0x200000.
Definition HEAP_SIZE : Z := 0x40000.
Definition ALIGN : Z := 8.
Definition MIN_BLOCK : Z := 16.
Definition HEADER_SIZE : Z := 4.

(** ** The macros *)

Definition BLOCK_SIZE (m : mem) (hdr : Z) : Z := load32 m hdr .& not32 7.
Definition BLOCK_IS_ALLOC (m : mem) (hdr : Z) : bool := c_true (load32 m hdr .& 1).
Definition BLOCK_SET_ALLOC (m : mem) (hdr : Z) : mem := store32 m hdr (load32 m hdr .| 1).
Definition BLOCK_SET_FREE (m : mem) (hdr : Z) : mem := store32 m hdr (load32 m hdr .& not32 1).
Definition NEXT_BLOCK (m : mem) (hdr : Z) : Z := u32 (hdr + BLOCK_SIZE m hdr).
Definition BLOCK_FOOTER (m : mem) (hdr : Z) : Z := u32 (hdr + BLOCK_SIZE m hdr - HEADER_SIZE).
Definition PREV_BLOCK (m : mem) (hdr : Z) : Z :=
  u32 (hdr - BLOCK_SIZE m (u32 (hdr - HEADER_SIZE))).

(** ** The functions *)

Definition kmalloc_init (m : mem) : mem :=
  let m := store32 m HEAP_START HEAP_SIZE in
  let m := store32 m (HEAP_START + HEAP_SIZE - HEADER_SIZE) HEAP_SIZE in
  store32 m (HEAP_START + HEAP_SIZE) 1.

(** Request size to block size, in [u32] arithmetic. *)
Definition kmalloc_need (size : Z) : Z :=
  let aligned_size := u32 (size + ALIGN - 1) .& not32 (ALIGN - 1) in
  let need_size := u32 (HEADER_SIZE + aligned_size + HEADER_SIZE) in
  if need_size <? MIN_BLOCK then MIN_BLOCK else need_size.

(** Allocate in the free block at [cur], splitting it when the rest is a block. *)
Definition kmalloc_place (m : mem) (cur cur_size need_size : Z) : mem :=
  let remaining := u32 (cur_size - need_size) in
  if MIN_BLOCK <=? remaining then
    let m := store32 m cur need_size in
    let m := BLOCK_SET_ALLOC m cur in
    let m := store32 m (BLOCK_FOOTER m cur) need_size in
    let m := BLOCK_SET_ALLOC m (BLOCK_FOOTER m cur) in
    let new_free := u32 (cur + need_size) in
    let m := store32 m new_free remaining in
    store32 m (BLOCK_FOOTER m new_free) remaining
  else
    let m := store32 m cur cur_size in
    let m := BLOCK_SET_ALLOC m cur in
    let m := store32 m (BLOCK_FOOTER m cur) cur_size in
    BLOCK_SET_ALLOC m (BLOCK_FOOTER m cur).

(** The [while (1)] walk over the blocks; [None] when the fuel runs out. *)
Fixpoint kmalloc_loop (fuel : nat) (m : mem) (need_size cur : Z) : option (mem * Z) :=
  match fuel with
  | O => None
  | S fuel =>
      let cur_size := BLOCK_SIZE m cur in
      if cur_size =? 0 then Some (m, 0)
      else if negb (BLOCK_IS_ALLOC m cur) && (need_size <=? cur_size) then
        Some (kmalloc_place m cur cur_size need_size, u32 (cur + HEADER_SIZE))
      else kmalloc_loop fuel m need_size (NEXT_BLOCK m cur)
  end.

(** A heap has at most [HEAP_SIZE / MIN_BLOCK] = 16384 blocks. *)
Definition heap_fuel : nat := Z.to_nat (HEAP_SIZE / MIN_BLOCK + 1).

(** New memory and returned pointer; pointer 0 is NULL. *)
Definition kmalloc (m : mem) (size : Z) : option (mem * Z) :=
  if size =? 0 then Some (m, 0)
  else kmalloc_loop heap_fuel m (kmalloc_need size) HEAP_START.

(** Step 3 of [kfree]: merge with the next block when it is free. *)
Definition kfree_merge_next (m : mem) (hdr : Z) : mem :=
  let next := NEXT_BLOCK m hdr in
  if (0 <? BLOCK_SIZE m next) && negb (BLOCK_IS_ALLOC m next) then
    let new_size := u32 (BLOCK_SIZE m hdr + BLOCK_SIZE m next) in
    let m := store32 m hdr new_size in
    store32 m (BLOCK_FOOTER m hdr) new_size
  else m.

(** Step 4 of [kfree]: merge with the previous block when it is free. *)
Definition kfree_merge_prev (m : mem) (hdr : Z) : mem :=
  if HEAP_START <? hdr then
    let prev := PREV_BLOCK m hdr in
    if negb (BLOCK_IS_ALLOC m prev) then
      let new_size := u32 (BLOCK_SIZE m prev + BLOCK_SIZE m hdr) in
      let m := store32 m prev new_size in
      store32 m (BLOCK_FOOTER m prev) new_size
    else m
  else m.

Definition kfree (m : mem) (ptr : Z) : mem :=
  if ptr =? 0 then m
  else
    let hdr := u32 (ptr - HEADER_SIZE) in
    let m := BLOCK_SET_FREE m hdr in
    let m := store32 m (BLOCK_FOOTER m hdr) (load32 m hdr) in
    kfree_merge_prev (kfree_merge_next m hdr) hdr.

(** The walk of [kmalloc_dump]: number of blocks, bytes allocated, bytes free. *)
Fixpoint kmalloc_dump_loop (fuel : nat) (m : mem) (cur blocks total_alloc total_free : Z)
  : option (Z * Z * Z) :=
  match fuel with
  | O => None
  | S fuel =>
      let cur_size := BLOCK_SIZE m cur in
      if cur_size =? 0 then Some (blocks, total_alloc, total_free)
      else if BLOCK_IS_ALLOC m cur
      then kmalloc_dump_loop fuel m (NEXT_BLOCK m cur) (blocks + 1) (u32 (total_alloc + cur_size)) total_free
      else kmalloc_dump_loop fuel m (NEXT_BLOCK m cur) (blocks + 1) total_alloc (u32 (total_free + cur_size))
  end.

Definition kmalloc_dump (m : mem) : option (Z * Z * Z) :=
  kmalloc_dump_loop heap_fuel m HEAP_START 0 0 0.

(** ** The abstract heap *)

(** A block: its size and whether it is allocated. *)
Abbreviation block := (Z * bool)%type.

Definition block_ok (b : block) : Prop := MIN_BLOCK <= fst b /\ fst b mod 8 = 0.

Definition tag (b : block) : Z := fst b + c_bool (snd b).

Fixpoint total (bs : list block) : Z :=
  match bs with
  | [] => 0
  | b :: bs => fst b + total bs
  end.

(** Bytes in blocks whose allocation flag is [al]. *)
Fixpoint total_of (al : bool) (bs : list block) : Z :=
  match bs with
  | [] => 0
  | b :: bs => (if Bool.eqb (snd b) al then fst b else 0) + total_of al bs
  end.

(** The blocks [bs] are laid out in memory from address [a]. *)
Fixpoint seg (m : mem) (a : Z) (bs : list block) : Prop :=
  match bs with
  | [] => True
  | b :: bs =>
      load32 m a = tag b /\ load32 m (a + fst b - 4) = tag b /\ seg m (a + fst b) bs
  end.

(** Memory [m] holds a well-formed heap whose blocks are [bs]. *)
Definition heap_rep (m : mem) (bs : list block) : Prop :=
  Forall block_ok bs /\ total bs = HEAP_SIZE /\
  seg m HEAP_START bs /\ load32 m (HEAP_START + HEAP_SIZE) = 1.

Definition head_alloc (bs : list block) : bool :=
  match bs with [] => true | b :: _ => snd b end.

(** No two adjacent free blocks. *)
Fixpoint coalesced (bs : list block) : bool :=
  match bs with
  | [] => true
  | b :: bs => (snd b || head_alloc bs) && coalesced bs
  end.

(** First free block of at least [need] bytes, with the blocks before and after. *)
Fixpoint first_fit (need : Z) (bs : list block) : option (list block * Z * list block) :=
  match bs with
  | [] => None
  | (sz, al) :: bs =>
      if negb al && (need <=? sz) then Some ([], sz, bs)
      else match first_fit need bs with
           | Some (pre, sz', post) => Some ((sz, al) :: pre, sz', post)
           | None => None
           end
  end.

(** What replaces a free block of [sz] bytes that serves a request for [need]. *)
Definition alloc_block (need sz : Z) : list block :=
  if MIN_BLOCK <=? sz - need then [(need, true); (sz - need, false)] else [(sz, true)].

Definition merge_next (sz : Z) (post : list block) : Z * list block :=
  match post with
  | (s, false) :: post => (sz + s, post)
  | _ => (sz, post)
  end.

Definition merge_prev (pre : list block) (sz : Z) : list block * Z :=
  match reverse pre with
  | (s, false) :: rpre => (reverse rpre, s + sz)
  | _ => (pre, sz)
  end.

(** The blocks after freeing the block of [sz] bytes between [pre] and [post]. *)
Definition free_block (pre : list block) (sz : Z) (post : list block) : list block :=
  let '(sz, post) := merge_next sz post in
  let '(pre, sz) := merge_prev pre sz in
  pre ++ (sz, false) :: post.

(** [p] is the pointer to the payload of an allocated block of [sz] bytes, in the
    blocks [bs] laid out from address [a]. *)
Fixpoint live_from (a : Z) (bs : list block) (p sz : Z) : Prop :=
  match bs with
  | [] => False
  | b :: bs => (b = (sz, true) /\ p = a + HEADER_SIZE) \/ live_from (a + fst b) bs p sz
  end.

Definition live (bs : list block) (p sz : Z) : Prop := live_from HEAP_START bs p sz.

(** [m'] agrees with [m] outside [[lo, hi)]. *)
Definition frame (m m' : mem) (lo hi : Z) : Prop :=
  forall x, is_u32 x -> ~ (lo <= x < hi) -> load8 m' x = load8 m x.

(** One step of a client of the heap: allocate, free a live pointer, or write a
    byte inside the payload of a live block. *)
Inductive heap_step : mem -> mem -> Prop :=
  | step_kmalloc m m' size p :
      is_u32 size -> kmalloc m size = Some (m', p) -> heap_step m m'
  | step_kfree m bs p sz :
      heap_rep m bs -> live bs p sz -> heap_step m (kfree m p)
  | step_write m bs p sz off v :
      heap_rep m bs -> live bs p sz -> 0 <= off < sz - 8 -> heap_step m (store8 m (p + off) v).

(** Memories reachable from a freshly initialised heap. *)
Inductive heap_reachable : mem -> Prop :=
  | reach_init m : heap_reachable (kmalloc_init m)
  | reach_step m m' : heap_reachable m -> heap_step m m' -> heap_reachable m'.

(** ** Tags *)

(** The bounds every block address of the heap satisfies. *)
Definition in_heap (a sz : Z) : Prop := HEAP_START <= a /\ 0 <= sz /\ a + sz <= HEAP_START + HEAP_SIZE.

Ltac heap_lia :=
  unfold in_heap, block_ok, HEAP_START, HEAP_SIZE, MIN_BLOCK, HEADER_SIZE, ALIGN, tag, c_bool, is_u32 in *;
  cbn [fst snd] in *; lia.

Lemma tag_size b : block_ok b -> fst b <= HEAP_SIZE -> tag b .& not32 7 = fst b.
Proof.
  intros [H1 H2] H3. change 7 with (Z.ones 3).
  unfold tag, c_bool, HEAP_SIZE, MIN_BLOCK in *.
  rewrite land_not_ones by (unfold is_u32; destruct (snd b); lia).
  change (2 ^ 3) with 8. destruct (snd b); mlia.
Qed.

Lemma land_1 x : x .& 1 = x mod 2.
Proof. exact (Z.land_ones x 1 ltac:(lia)). Qed.

Lemma tag_alloc b : block_ok b -> c_true (tag b .& 1) = snd b.
Proof.
  intros [H1 H2]. rewrite land_1. unfold tag, c_bool, c_true.
  destruct (snd b).
  - replace ((fst b + 1) mod 2) with 1 by mlia. reflexivity.
  - replace ((fst b + 0) mod 2) with 0 by mlia. reflexivity.
Qed.

Lemma lor_1_even x : x mod 2 = 0 -> x .| 1 = x + 1.
Proof.
  intros H. pose proof (lor_aligned 1 (x / 2) 1) as L.
  replace (x / 2 * 2 ^ 1) with x in L by mlia. apply L; lia.
Qed.

Lemma land_not1 b : block_ok b -> fst b <= HEAP_SIZE -> tag b .& not32 1 = fst b.
Proof.
  intros [H1 H2] H3. change 1 with (Z.ones 1).
  unfold tag, c_bool, HEAP_SIZE, MIN_BLOCK in *.
  rewrite land_not_ones by (unfold is_u32; destruct (snd b); lia).
  change (2 ^ 1) with 2. destruct (snd b); mlia.
Qed.

Section block_reads.
Context (m : mem) (a : Z) (b : block).
Hypothesis (Hok : block_ok b) (Hin : in_heap a (fst b)) (Hld : load32 m a = tag b).

Lemma BLOCK_SIZE_eq : BLOCK_SIZE m a = fst b.
Proof. unfold BLOCK_SIZE. rewrite Hld. apply tag_size; [exact Hok|heap_lia]. Qed.

Lemma BLOCK_IS_ALLOC_eq : BLOCK_IS_ALLOC m a = snd b.
Proof. unfold BLOCK_IS_ALLOC. rewrite Hld. apply tag_alloc, Hok. Qed.

Lemma NEXT_BLOCK_eq : NEXT_BLOCK m a = a + fst b.
Proof. unfold NEXT_BLOCK. rewrite BLOCK_SIZE_eq. apply u32_small. heap_lia. Qed.

Lemma BLOCK_FOOTER_eq : BLOCK_FOOTER m a = a + fst b - 4.
Proof. unfold BLOCK_FOOTER. rewrite BLOCK_SIZE_eq. apply u32_small. heap_lia. Qed.

Lemma BLOCK_SET_FREE_eq : BLOCK_SET_FREE m a = store32 m a (fst b).
Proof. unfold BLOCK_SET_FREE. rewrite Hld, land_not1; [reflexivity|exact Hok|heap_lia]. Qed.
End block_reads.

Lemma PREV_BLOCK_eq m a b :
  block_ok b -> in_heap (a - fst b) (fst b) -> load32 m (a - 4) = tag b ->
  PREV_BLOCK m a = a - fst b.
Proof.
  intros Hok Hin Hld. unfold PREV_BLOCK, HEADER_SIZE.
  rewrite (u32_small (a - 4)) by heap_lia.
  unfold BLOCK_SIZE. rewrite Hld, tag_size by (assumption || heap_lia).
  apply u32_small. heap_lia.
Qed.

Lemma BLOCK_SET_ALLOC_eq m a v :
  load32 m a = v -> v mod 2 = 0 -> BLOCK_SET_ALLOC m a = store32 m a (v + 1).
Proof. intros H1 H2. unfold BLOCK_SET_ALLOC. rewrite H1, lor_1_even by exact H2. reflexivity. Qed.

(** The epilogue reads as a block of size 0 that is allocated. *)
Lemma epilogue_size m a : load32 m a = 1 -> BLOCK_SIZE m a = 0.
Proof. intros H. unfold BLOCK_SIZE. rewrite H. reflexivity. Qed.

(** Simplify loads over stores to concrete heap addresses. *)
Ltac loads :=
  repeat first
    [ rewrite load32_store32_same by heap_lia
    | rewrite load32_store32_other by heap_lia ].

(** ** Frames *)

Lemma frame_refl m lo hi : frame m m lo hi.
Proof. intros x _ _. reflexivity. Qed.

Lemma frame_trans m1 m2 m3 lo hi : frame m1 m2 lo hi -> frame m2 m3 lo hi -> frame m1 m3 lo hi.
Proof. intros H1 H2 x Hx Ho. rewrite H2, H1; auto. Qed.

Lemma frame_store32 m m' a v lo hi :
  frame m m' lo hi -> HEAP_START <= a -> a <= HEAP_START + HEAP_SIZE ->
  lo <= a -> a + 4 <= hi -> frame m (store32 m' a v) lo hi.
Proof.
  intros Hf H1 H2 H3 H4 x Hx Ho. rewrite load8_store32_other; [auto|heap_lia|exact Hx|heap_lia].
Qed.

Lemma frame_weaken m m' lo hi lo' hi' :
  frame m m' lo hi -> lo' <= lo -> hi <= hi' -> frame m m' lo' hi'.
Proof. intros Hf H1 H2 x Hx Ho. apply Hf; [exact Hx|lia]. Qed.

Lemma frame_load32 m m' lo hi a :
  frame m m' lo hi -> 0 <= a -> a + 4 <= 4294967296 -> a + 4 <= lo \/ hi <= a ->
  load32 m' a = load32 m a.
Proof. intros Hf H1 H2 H3. apply load32_ext. intros i Hi. apply Hf; unfold is_u32; lia. Qed.

(** ** Segments *)

Lemma total_app b1 b2 : total (b1 ++ b2) = total b1 + total b2.
Proof. induction b1 as [|b b1 IH]; simpl; lia. Qed.

Lemma total_nonneg bs : Forall block_ok bs -> 0 <= total bs.
Proof. induction 1 as [|b bs Hb H IH]; cbn [total]; [lia|heap_lia]. Qed.

Lemma total_mod8 bs : Forall block_ok bs -> total bs mod 8 = 0.
Proof. induction 1 as [|b bs Hb H IH]; cbn [total]; [reflexivity|]. destruct Hb. mlia. Qed.

Lemma length_le_total bs : Forall block_ok bs -> 16 * Z.of_nat (length bs) <= total bs.
Proof. induction 1 as [|b bs Hb H IH]; cbn [total length]; [lia|heap_lia]. Qed.

Lemma seg_app m a b1 b2 : seg m a (b1 ++ b2) <-> seg m a b1 /\ seg m (a + total b1) b2.
Proof.
  revert a. induction b1 as [|b b1 IH]; intros a; cbn [app seg total].
  - rewrite Z.add_0_r. tauto.
  - rewrite IH, Z.add_assoc. tauto.
Qed.

(** A segment survives changes outside its range. *)
Lemma seg_frame m m' lo hi bs : forall a,
  Forall block_ok bs -> in_heap a (total bs) -> frame m m' lo hi ->
  a + total bs <= lo \/ hi <= a -> seg m a bs -> seg m' a bs.
Proof.
  induction bs as [|b bs IH]; intros a Hok Hin Hf Hd; cbn [seg total] in *; [auto|].
  apply Forall_cons_1 in Hok as [Hb Hok]. pose proof (total_nonneg _ Hok).
  intros (H1 & H2 & H3).
  rewrite !(frame_load32 m m' lo hi) by (assumption || heap_lia).
  split; [exact H1|]. split; [exact H2|].
  apply IH; [assumption|heap_lia|assumption|heap_lia|assumption].
Qed.

Lemma heap_rep_split m pre mid post :
  heap_rep m (pre ++ mid ++ post) ->
  let a := HEAP_START + total pre in
  Forall block_ok pre /\ Forall block_ok mid /\ Forall block_ok post /\
  0 <= total pre /\ 0 <= total mid /\ 0 <= total post /\
  total pre + total mid + total post = HEAP_SIZE /\
  seg m HEAP_START pre /\ seg m a mid /\ seg m (a + total mid) post /\
  load32 m (HEAP_START + HEAP_SIZE) = 1.
Proof.
  intros (Hok & Htot & Hseg & Hepi) a.
  apply Forall_app in Hok as [Hpre Hok]. apply Forall_app in Hok as [Hmid Hpost].
  rewrite !seg_app in Hseg. rewrite !total_app in Htot.
  destruct Hseg as (S1 & S2 & S3).
  repeat split; auto using total_nonneg; lia.
Qed.

(** Replacing a stretch of blocks by another of the same total size. *)
Lemma heap_rep_replace m m' pre mid mid' post :
  heap_rep m (pre ++ mid ++ post) ->
  Forall block_ok mid' -> total mid' = total mid ->
  seg m' (HEAP_START + total pre) mid' ->
  frame m m' (HEAP_START + total pre) (HEAP_START + total pre + total mid) ->
  heap_rep m' (pre ++ mid' ++ post).
Proof.
  intros Hrep Hok' Htot' Hseg' Hf.
  destruct (heap_rep_split _ _ _ _ Hrep) as (Hpre & Hmid & Hpost & P1 & P2 & P3 & Ht & S1 & S2 & S3 & He).
  split; [rewrite !Forall_app; auto|]. split; [rewrite !total_app; lia|]. split.
  - rewrite !seg_app. split; [|split; [exact Hseg'|]].
    + eapply seg_frame; [exact Hpre|heap_lia|exact Hf|lia|exact S1].
    + rewrite Htot'. eapply seg_frame; [exact Hpost|heap_lia|exact Hf|lia|exact S3].
  - rewrite (frame_load32 _ _ _ _ _ Hf); [exact He|heap_lia..].
Qed.

(** ** kmalloc *)

Lemma kmalloc_need_ok size :
  16 <= kmalloc_need size < 4294967296 /\ kmalloc_need size mod 8 = 0.
Proof.
  unfold kmalloc_need, ALIGN, HEADER_SIZE, MIN_BLOCK. cbv zeta.
  change (8 - 1) with (Z.ones 3).
  rewrite land_not_ones by (unfold is_u32; pose proof (u32_range (size + 8 - 1)); lia).
  change (2 ^ 3) with 8. set (q := u32 (size + 8 - 1) / 8 * 8).
  pose proof (u32_range (4 + q + 4)) as Hr.
  case_if; bool_prop; split; try lia; try reflexivity.
  unfold u32 in *. subst q. mlia.
Qed.

(** Without overflow the block is the request rounded up to 8 plus two words. *)
Lemma kmalloc_need_small size :
  1 <= size <= 4294967280 -> kmalloc_need size = (size + 7) / 8 * 8 + 8.
Proof.
  intros Hs. unfold kmalloc_need, ALIGN, HEADER_SIZE, MIN_BLOCK.
  change (8 - 1) with (Z.ones 3).
  rewrite land_not_ones by (unfold is_u32; pose proof (u32_range (size + 8 - 1)); lia).
  change (2 ^ 3) with 8. rewrite (u32_small (size + 8 - 1)) by lia.
  replace (size + 8 - 1) with (size + 7) by lia.
  rewrite u32_small by mlia. case_if; bool_prop; mlia.
Qed.

Lemma alloc_block_ok need sz :
  block_ok (sz, false) -> 16 <= need <= sz -> need mod 8 = 0 ->
  Forall block_ok (alloc_block need sz) /\ total (alloc_block need sz) = sz.
Proof.
  intros [H1 H2] Hn Hm. unfold alloc_block, MIN_BLOCK in *. cbn [fst] in *.
  case_if; bool_prop; cbn [total fst]; (split; [|lia]);
    repeat (apply Forall_cons_2 || apply Forall_nil_2); split; unfold MIN_BLOCK; cbn [fst]; mlia.
Qed.

(** The block at [a] is rewritten as [alloc_block need sz] and nothing outside it changes. *)
Lemma kmalloc_place_spec m a need sz :
  block_ok (sz, false) -> in_heap a sz -> 16 <= need <= sz -> need mod 8 = 0 ->
  seg (kmalloc_place m a sz need) a (alloc_block need sz) /\
  frame m (kmalloc_place m a sz need) a (a + sz).
Proof.
  intros Hok Hin Hn Hm. pose proof Hok as [Hs1 Hs2]. cbn [fst] in Hs1, Hs2.
  unfold kmalloc_place, alloc_block. rewrite (u32_small (sz - need)) by heap_lia.
  destruct (MIN_BLOCK <=? sz - need) eqn:E; bool_prop.
  - rewrite (BLOCK_SET_ALLOC_eq _ a need) by (loads; rewrite ?u32_small by heap_lia; mlia).
    rewrite (BLOCK_FOOTER_eq _ _ (need, true));
      [|split; [heap_lia|exact Hm]|heap_lia|loads; apply u32_small; heap_lia].
    cbn [fst]. rewrite (BLOCK_FOOTER_eq _ _ (need, true));
      [|split; [heap_lia|exact Hm]|heap_lia|loads; apply u32_small; heap_lia].
    cbn [fst]. rewrite (BLOCK_SET_ALLOC_eq _ (a + need - 4) need)
      by (loads; rewrite ?u32_small by heap_lia; mlia).
    rewrite (u32_small (a + need)) by heap_lia.
    rewrite (BLOCK_FOOTER_eq _ _ (sz - need, false));
      [|split; [heap_lia|cbn [fst]; mlia]|heap_lia|loads; rewrite u32_small; heap_lia].
    cbn [fst seg snd]. split.
    + unfold tag, c_bool; cbn [fst snd]. replace (a + need + (sz - need) - 4) with (a + sz - 4) by lia.
      loads. rewrite !u32_small by heap_lia. repeat split; lia.
    + repeat apply frame_store32; try heap_lia. apply frame_refl.
  - rewrite (BLOCK_SET_ALLOC_eq _ a sz) by (loads; rewrite ?u32_small by heap_lia; mlia).
    rewrite (BLOCK_FOOTER_eq _ _ (sz, true));
      [|exact Hok|heap_lia|loads; apply u32_small; heap_lia].
    cbn [fst]. rewrite (BLOCK_FOOTER_eq _ _ (sz, true));
      [|exact Hok|heap_lia|loads; apply u32_small; heap_lia].
    cbn [fst]. rewrite (BLOCK_SET_ALLOC_eq _ (a + sz - 4) sz)
      by (loads; rewrite ?u32_small by heap_lia; mlia).
    cbn [seg fst]. split.
    + unfold tag, c_bool; cbn [fst snd]. loads. rewrite !u32_small by heap_lia. auto.
    + repeat apply frame_store32; try heap_lia. apply frame_refl.
Qed.

Lemma first_fit_some need bs pre sz post :
  first_fit need bs = Some (pre, sz, post) ->
  bs = pre ++ (sz, false) :: post /\ need <= sz.
Proof.
  revert pre sz post. induction bs as [|[s al] bs IH]; intros pre sz post; simpl; [discriminate|].
  destruct al; simpl; [|destruct (need <=? s) eqn:E; bool_prop];
    [|intros [= <- <- <-]; auto|];
    destruct (first_fit need bs) as [[[p s'] q]|]; try discriminate;
    intros [= <- <- <-]; destruct (IH _ _ _ eq_refl) as [-> ?]; auto.
Qed.

Lemma kmalloc_loop_spec m need bs : forall fuel a,
  Forall block_ok bs -> in_heap a (total bs) -> seg m a bs -> load32 m (a + total bs) = 1 ->
  (length bs < fuel)%nat ->
  kmalloc_loop fuel m need a =
    Some (match first_fit need bs with
          | Some (pre, sz, post) =>
              (kmalloc_place m (a + total pre) sz need, a + total pre + HEADER_SIZE)
          | None => (m, 0)
          end).
Proof.
  induction bs as [|b bs IH]; intros [|fuel] a Hok Hin Hseg He Hf; cbn [length] in Hf; try lia;
    cbn [kmalloc_loop total] in *.
  - rewrite Z.add_0_r in He. rewrite epilogue_size by exact He. reflexivity.
  - apply Forall_cons_1 in Hok as [Hb Hok]. pose proof (total_nonneg _ Hok) as Hpos.
    cbn [seg] in Hseg. destruct Hseg as (S1 & S2 & S3).
    assert (Hin1 : in_heap a (fst b)) by heap_lia.
    rewrite (BLOCK_SIZE_eq m a b), (BLOCK_IS_ALLOC_eq m a b), (NEXT_BLOCK_eq m a b) by assumption.
    rewrite (proj2 (Z.eqb_neq (fst b) 0)) by heap_lia.
    destruct b as [sz al]. cbn [fst snd] in *. cbn [first_fit].
    destruct (negb al && (need <=? sz)) eqn:E.
    + cbn [total]. rewrite Z.add_0_r. rewrite u32_small by heap_lia. reflexivity.
    + rewrite IH; [|assumption|heap_lia|assumption|rewrite <- He; f_equal; lia|lia].
      destruct (first_fit need bs) as [[[p s'] q]|]; [|reflexivity].
      cbn [total fst]. rewrite Z.add_assoc. reflexivity.
Qed.

Lemma heap_fuel_enough m bs : heap_rep m bs -> (length bs < heap_fuel)%nat.
Proof.
  intros (Hok & Ht & _). pose proof (length_le_total _ Hok). unfold heap_fuel.
  change (HEAP_SIZE / MIN_BLOCK + 1) with 16385. heap_lia.
Qed.

(** [kmalloc] is first fit on the abstract heap; on success only bytes of the
    chosen free block change. *)
Lemma kmalloc_refines m bs size :
  heap_rep m bs ->
  match first_fit (kmalloc_need size) bs with
  | Some (pre, sz, post) =>
      size <> 0 ->
      exists m', let a := HEAP_START + total pre in
      kmalloc m size = Some (m', a + HEADER_SIZE) /\
      heap_rep m' (pre ++ alloc_block (kmalloc_need size) sz ++ post) /\
      frame m m' a (a + sz)
  | None => kmalloc m size = Some (m, 0)
  end.
Proof.
  intros Hrep. pose proof (heap_fuel_enough _ _ Hrep) as Hfuel.
  pose proof Hrep as (Hok & Ht & Hseg & He). unfold kmalloc.
  pose proof (kmalloc_loop_spec m (kmalloc_need size) bs heap_fuel HEAP_START Hok) as L.
  rewrite Ht in L. specialize (L ltac:(heap_lia) Hseg He Hfuel). rewrite L. clear L.
  destruct (first_fit (kmalloc_need size) bs) as [[[pre sz] post]|] eqn:E;
    [|destruct (size =? 0); reflexivity].
  intros Hs. rewrite (proj2 (Z.eqb_neq size 0)) by exact Hs.
  apply first_fit_some in E as [-> Hle].
  destruct (kmalloc_need_ok size) as [Hn1 Hn2].
  change (pre ++ (sz, false) :: post) with (pre ++ [(sz, false)] ++ post) in Hrep.
  destruct (heap_rep_split _ _ _ _ Hrep) as (Hpre & Hmid & Hpost & P1 & P2 & P3 & Htot & _).
  apply Forall_cons_1 in Hmid as [Hmid _]. cbn [total fst] in *.
  destruct (kmalloc_place_spec m (HEAP_START + total pre) (kmalloc_need size) sz)
    as [Hs' Hf']; [assumption|heap_lia|lia|assumption|].
  destruct (alloc_block_ok (kmalloc_need size) sz) as [Ho' Ht']; [assumption|lia|assumption|].
  eexists. split; [reflexivity|]. split; [|exact Hf'].
  eapply heap_rep_replace; [exact Hrep|exact Ho'|cbn [total fst]; lia|exact Hs'|].
  cbn [total fst]. rewrite Z.add_0_r. exact Hf'.
Qed.

(** ** kfree *)

Lemma merge_prev_snoc pre b sz :
  merge_prev (pre ++ [b]) sz = if snd b then (pre ++ [b], sz) else (pre, fst b + sz).
Proof.
  unfold merge_prev. rewrite reverse_snoc. destruct b as [s [|]]; simpl; [reflexivity|].
  rewrite reverse_involutive. reflexivity.
Qed.

(** Where a block followed by [post] starts: just after [pre]. *)
Definition base (pre : list block) : Z := HEAP_START + total pre.

(** Reading the first block of a middle stretch of a well-formed heap. *)
Lemma heap_rep_at m pre b post :
  heap_rep m (pre ++ b :: post) ->
  block_ok b /\ in_heap (base pre) (fst b) /\ load32 m (base pre) = tag b /\
  load32 m (base pre + fst b - 4) = tag b /\ base pre + fst b = base (pre ++ [b]) /\
  0 <= total pre /\ 0 <= total post /\ total pre + fst b + total post = HEAP_SIZE.
Proof.
  intros H. change (pre ++ b :: post) with (pre ++ [b] ++ post) in H.
  destruct (heap_rep_split _ _ _ _ H) as (H1 & H2 & H3 & P1 & P2 & P3 & Ht & S1 & S2 & S3 & He).
  apply Forall_cons_1 in H2 as [H2 _]. cbn [total seg] in *. destruct S2 as (S21 & S22 & _).
  unfold base. rewrite total_app; cbn [total].
  repeat split; auto; try heap_lia; apply H2.
Qed.

Lemma heap_rep_end m bs : heap_rep m bs -> load32 m (base bs) = 1.
Proof. intros (_ & Ht & _ & He). unfold base. rewrite Ht. exact He. Qed.

Lemma heap_rep_total m bs : heap_rep m bs -> total bs = HEAP_SIZE.
Proof. intros (_ & Ht & _). exact Ht. Qed.

(** Rewriting [mid] as one free block through its header and footer. *)
Lemma write_free_spec m pre mid sz post :
  heap_rep m (pre ++ mid ++ post) -> total mid = sz -> block_ok (sz, false) ->
  let a := base pre in
  let m' := store32 (store32 m a sz) (a + sz - 4) sz in
  heap_rep m' (pre ++ (sz, false) :: post) /\ frame m m' a (a + sz).
Proof.
  intros Hrep Ht Hok a m'.
  destruct (heap_rep_split _ _ _ _ Hrep) as (H1 & H2 & H3 & P1 & P2 & P3 & Htot & _).
  assert (Hf : frame m m' a (a + sz)).
  { subst m' a. unfold base. repeat apply frame_store32; try heap_lia. apply frame_refl. }
  split; [|exact Hf].
  change (pre ++ (sz, false) :: post) with (pre ++ [(sz, false)] ++ post).
  eapply heap_rep_replace; [exact Hrep|repeat constructor; apply Hok|cbn [total fst]; lia| |].
  - cbn [seg fst]. subst m' a. unfold base. loads.
    unfold tag, c_bool; cbn [fst snd]. rewrite Z.add_0_r, u32_small by heap_lia. auto.
  - rewrite Ht. exact Hf.
Qed.

Lemma block_ok_add s1 s2 a1 a2 a3 : block_ok (s1, a1) -> block_ok (s2, a2) -> block_ok (s1 + s2, a3).
Proof. intros [H1 H2] [H3 H4]. split; cbn [fst] in *; unfold MIN_BLOCK in *; mlia. Qed.

Lemma kfree_mark_spec m pre sz post :
  heap_rep m (pre ++ (sz, true) :: post) ->
  let a := base pre in
  let m1 := BLOCK_SET_FREE m a in
  let m2 := store32 m1 (BLOCK_FOOTER m1 a) (load32 m1 a) in
  heap_rep m2 (pre ++ (sz, false) :: post) /\ frame m m2 a (a + sz).
Proof.
  intros Hrep a. destruct (heap_rep_at _ _ _ _ Hrep) as (Hok & Hin & Hl1 & Hl2 & _). fold a in Hin, Hl1, Hl2.
  cbn [fst] in *. cbv zeta.
  rewrite (BLOCK_SET_FREE_eq m a (sz, true)) by assumption. cbn [fst].
  assert (Hl : load32 (store32 m a sz) a = sz) by (loads; apply u32_small; heap_lia).
  rewrite (BLOCK_FOOTER_eq _ a (sz, false));
    [|exact Hok|exact Hin|rewrite Hl; unfold tag, c_bool; cbn [fst snd]; lia].
  cbn [fst]. rewrite Hl.
  apply (write_free_spec m pre [(sz, true)] sz post); [exact Hrep|cbn [total fst]; lia|exact Hok].
Qed.

Lemma kfree_merge_next_spec m pre sz post :
  heap_rep m (pre ++ (sz, false) :: post) ->
  let '(sz', post') := merge_next sz post in
  let m' := kfree_merge_next m (base pre) in
  heap_rep m' (pre ++ (sz', false) :: post') /\ frame m m' (base pre) (base pre + sz').
Proof.
  intros Hrep. destruct (heap_rep_at _ _ _ _ Hrep) as (Hok & Hin & Hl1 & Hl2 & Hnext & _).
  cbn [fst] in *. unfold kfree_merge_next.
  rewrite (NEXT_BLOCK_eq m (base pre) (sz, false)) by assumption. cbn [fst]. rewrite Hnext.
  destruct post as [|b post]; cbn [merge_next].
  - rewrite epilogue_size by exact (heap_rep_end _ _ Hrep). cbn. split; [exact Hrep|apply frame_refl].
  - assert (Hrep2 : heap_rep m ((pre ++ [(sz, false)]) ++ b :: post))
      by (rewrite <- app_assoc; exact Hrep).
    destruct (heap_rep_at _ _ _ _ Hrep2) as (Hok2 & Hin2 & Hl3 & Hl4 & _).
    rewrite (BLOCK_SIZE_eq m _ b), (BLOCK_IS_ALLOC_eq m _ b) by assumption.
    destruct b as [s [|]]; cbn [fst snd negb andb] in *.
    { rewrite andb_false_r. split; [exact Hrep|apply frame_refl]. }
    rewrite (proj2 (Z.ltb_lt 0 s)) by heap_lia. cbn [andb].
    rewrite (BLOCK_SIZE_eq m (base pre) (sz, false)) by assumption. cbn [fst].
    rewrite <- Hnext in Hin2.
    rewrite (u32_small (sz + s)) by heap_lia.
    assert (Hok' : block_ok (sz + s, false)) by eauto using block_ok_add.
    rewrite (BLOCK_FOOTER_eq _ _ (sz + s, false));
      [|exact Hok'|heap_lia|loads; rewrite u32_small; heap_lia].
    cbn [fst].
    apply (write_free_spec m pre [(sz, false); (s, false)] (sz + s) post);
      [exact Hrep|cbn [total fst]; lia|exact Hok'].
Qed.

Lemma kfree_merge_prev_spec m pre sz post :
  heap_rep m (pre ++ (sz, false) :: post) ->
  let '(pre', sz') := merge_prev pre sz in
  let m' := kfree_merge_prev m (base pre) in
  heap_rep m' (pre' ++ (sz', false) :: post) /\ frame m m' (base pre') (base pre' + sz').
Proof.
  intros Hrep. unfold kfree_merge_prev.
  destruct pre as [|b pre _] using rev_ind.
  { unfold base; cbn. split; [exact Hrep|apply frame_refl]. }
  destruct (heap_rep_at _ _ _ _ Hrep) as (Hok & Hin & Hl1 & Hl2 & _).
  rewrite merge_prev_snoc.
  assert (Hrep1 : heap_rep m (pre ++ b :: (sz, false) :: post))
    by (rewrite <- app_assoc in Hrep; exact Hrep).
  destruct (heap_rep_at _ _ _ _ Hrep1) as (Hok1 & Hin1 & Hl3 & Hl4 & Hbase & _).
  rewrite <- Hbase in Hin, Hl1, Hl2 |- *. cbn [fst] in Hin, Hl2.
  rewrite (proj2 (Z.ltb_lt HEAP_START (base pre + fst b))) by heap_lia.
  rewrite (PREV_BLOCK_eq m _ b);
    [|exact Hok1|replace (base pre + fst b - fst b) with (base pre) by lia; exact Hin1|exact Hl4].
  replace (base pre + fst b - fst b) with (base pre) by lia.
  rewrite (BLOCK_IS_ALLOC_eq m _ b) by assumption.
  destruct b as [s [|]]; cbn [fst snd negb] in *.
  { split; [exact Hrep|apply frame_refl]. }
  rewrite (BLOCK_SIZE_eq m (base pre) (s, false)), (BLOCK_SIZE_eq m (base pre + s) (sz, false)) by assumption.
  cbn [fst]. rewrite (u32_small (s + sz)) by heap_lia.
  assert (Hok' : block_ok (s + sz, false)) by eauto using block_ok_add.
  rewrite (BLOCK_FOOTER_eq _ _ (s + sz, false));
    [|exact Hok'|heap_lia|loads; rewrite u32_small; heap_lia].
  cbn [fst].
  apply (write_free_spec m pre [(s, false); (sz, false)] (s + sz) post);
    [exact Hrep1|cbn [total fst]; lia|exact Hok'].
Qed.

(** Address range of the free block that freeing produces. *)
Definition free_range (pre : list block) (sz : Z) (post : list block) : Z * Z :=
  let '(sz, _) := merge_next sz post in
  let '(pre, sz) := merge_prev pre sz in
  (base pre, base pre + sz).

Lemma merge_next_size sz post sz' post' :
  merge_next sz post = (sz', post') -> Forall block_ok post -> sz <= sz'.
Proof.
  destruct post as [|[s [|]] post]; cbn; intros [= <- <-] Hok; try lia.
  apply Forall_cons_1 in Hok as [Hb _]. heap_lia.
Qed.

Lemma merge_prev_range pre sz pre' sz' :
  merge_prev pre sz = (pre', sz') -> Forall block_ok pre ->
  base pre' <= base pre /\ base pre' + sz' = base pre + sz.
Proof.
  destruct pre as [|b pre _] using rev_ind.
  - cbn. intros [= <- <-] _. lia.
  - rewrite merge_prev_snoc, Forall_app. intros E [Hp Hb]. apply Forall_cons_1 in Hb as [Hb _].
    unfold base in *. rewrite total_app; cbn [total].
    destruct (snd b); injection E as <- <-; rewrite ?total_app; cbn [total]; heap_lia.
Qed.

(** [kfree] of the pointer to an allocated block frees it and merges it with
    its free neighbours; only bytes of the resulting free block change. *)
Lemma kfree_refines m pre sz post :
  heap_rep m (pre ++ (sz, true) :: post) ->
  let m' := kfree m (base pre + HEADER_SIZE) in
  let '(lo, hi) := free_range pre sz post in
  heap_rep m' (free_block pre sz post) /\ frame m m' lo hi.
Proof.
  intros Hrep. destruct (heap_rep_at _ _ _ _ Hrep) as (Hok & Hin & _). cbn [fst] in *.
  unfold kfree. rewrite (proj2 (Z.eqb_neq (base pre + HEADER_SIZE) 0)) by heap_lia.
  rewrite (u32_small (base pre + HEADER_SIZE - HEADER_SIZE)) by heap_lia.
  replace (base pre + HEADER_SIZE - HEADER_SIZE) with (base pre) by lia.
  destruct (kfree_mark_spec _ _ _ _ Hrep) as [H1 F1]. revert H1 F1. cbv zeta.
  set (m2 := store32 _ _ _). intros H1 F1.
  unfold free_range, free_block.
  pose proof (kfree_merge_next_spec _ _ _ _ H1) as H2.
  destruct (merge_next sz post) as [sz1 post1] eqn:E1. destruct H2 as [H2 F2].
  pose proof (kfree_merge_prev_spec _ _ _ _ H2) as H3.
  destruct (merge_prev pre sz1) as [pre2 sz2] eqn:E2. destruct H3 as [H3 F3].
  split; [exact H3|].
  destruct Hrep as (Hok' & _). apply Forall_app in Hok' as [Hp Hq]. apply Forall_cons_1 in Hq as [_ Hq].
  pose proof (merge_next_size _ _ _ _ E1 Hq). pose proof (merge_prev_range _ _ _ _ E2 Hp).
  eapply frame_trans; [eapply frame_trans|exact F3];
    eapply frame_weaken; try eassumption; lia.
Qed.

(** ** Coalesced heaps *)

Definition last_alloc (bs : list block) : bool :=
  match last bs with None => true | Some b => snd b end.

Lemma last_alloc_cons b bs : last_alloc (b :: bs) = match bs with [] => snd b | _ => last_alloc bs end.
Proof. destruct bs; reflexivity. Qed.

Lemma head_alloc_app b1 b2 : head_alloc (b1 ++ b2) = match b1 with [] => head_alloc b2 | b :: _ => snd b end.
Proof. destruct b1; reflexivity. Qed.

Lemma coalesced_app b1 b2 :
  coalesced (b1 ++ b2) = coalesced b1 && coalesced b2 && (last_alloc b1 || head_alloc b2).
Proof.
  induction b1 as [|b b1 IH]; [simpl; rewrite andb_true_r; reflexivity|].
  cbn [app coalesced]. rewrite IH, last_alloc_cons, head_alloc_app.
  destruct b1 as [|b' b1]; cbn [head_alloc coalesced last_alloc last]; [|btauto].
  destruct (snd b), (head_alloc b2), (coalesced b2); reflexivity.
Qed.

Lemma coalesced_alloc pre sz post need :
  coalesced (pre ++ (sz, false) :: post) = true ->
  coalesced (pre ++ alloc_block need sz ++ post) = true.
Proof.
  rewrite !coalesced_app. cbn [coalesced head_alloc snd orb].
  unfold alloc_block. case_if; cbn; destruct (last_alloc pre), (coalesced pre), (coalesced post), (head_alloc post);
    cbn; congruence.
Qed.

Lemma last_alloc_snoc bs b : last_alloc (bs ++ [b]) = snd b.
Proof. unfold last_alloc. rewrite last_snoc. reflexivity. Qed.

Lemma coalesced_free pre sz post :
  coalesced (pre ++ (sz, true) :: post) = true -> coalesced (free_block pre sz post) = true.
Proof.
  rewrite coalesced_app. cbn [coalesced snd orb]. intros H.
  apply andb_prop in H as [H _]. apply andb_prop in H as [Hpre Hpost]. cbn in Hpost.
  unfold free_block. destruct (merge_next sz post) as [sz' post'] eqn:E1.
  assert (Hp' : coalesced post' && head_alloc post' = true).
  { destruct post as [|[s [|]] post]; cbn in E1; injection E1 as <- <-; [reflexivity|..];
      cbn in Hpost |- *; [rewrite Hpost; reflexivity|].
    apply andb_prop in Hpost as [-> ->]. reflexivity. }
  apply andb_prop in Hp' as [Hc' Hh'].
  destruct pre as [|b pre _] using rev_ind; [cbn; rewrite Hc', Hh'; reflexivity|].
  rewrite merge_prev_snoc. rewrite coalesced_app in Hpre. apply andb_prop in Hpre as [Hpre Hl].
  apply andb_prop in Hpre as [Hpre _].
  destruct b as [s [|]]; cbn [fst snd] in *; rewrite coalesced_app; cbn [coalesced snd orb head_alloc].
  - rewrite coalesced_app, Hpre, Hc', Hh', last_alloc_snoc. cbn. rewrite orb_true_r. reflexivity.
  - rewrite Hpre, Hc', Hh'. cbn in *. exact Hl.
Qed.

(** Freeing what was just allocated restores the blocks. *)
Lemma free_alloc_block pre sz post need :
  coalesced (pre ++ (sz, false) :: post) = true -> need <= sz ->
  exists sz1 post1, alloc_block need sz ++ post = (sz1, true) :: post1 /\
    free_block pre sz1 post1 = pre ++ (sz, false) :: post.
Proof.
  intros Hc Hn. rewrite coalesced_app in Hc. cbn [coalesced head_alloc snd orb] in Hc.
  apply andb_prop in Hc as [Hc Hl]. rewrite orb_false_r in Hl.
  apply andb_prop in Hc as [_ Hc]. apply andb_prop in Hc as [Hh _].
  assert (Hprev : forall s, merge_prev pre s = (pre, s)).
  { intros s. destruct pre as [|b pre _] using rev_ind; [reflexivity|].
    rewrite last_alloc_snoc in Hl. rewrite merge_prev_snoc, Hl. reflexivity. }
  unfold alloc_block, free_block. case_if; do 2 eexists; (split; [reflexivity|]); cbn [merge_next].
  - replace (need + (sz - need)) with sz by lia. rewrite Hprev. reflexivity.
  - destruct post as [|[s [|]] post]; cbn in Hh; try discriminate; cbn [merge_next];
      rewrite Hprev; reflexivity.
Qed.

(** ** Live blocks *)

Lemma live_from_app b1 b2 p sz : forall a,
  live_from a (b1 ++ b2) p sz <-> live_from a b1 p sz \/ live_from (a + total b1) b2 p sz.
Proof.
  induction b1 as [|b b1 IH]; intros a; cbn [app live_from total].
  - rewrite Z.add_0_r. tauto.
  - rewrite IH, Z.add_assoc. tauto.
Qed.

(** A live payload lies inside the blocks, after the header of its block. *)
Lemma live_from_bounds bs p sz : forall a,
  Forall block_ok bs -> live_from a bs p sz ->
  a + 4 <= p /\ p - 4 + sz <= a + total bs /\ block_ok (sz, true).
Proof.
  induction bs as [|b bs IH]; intros a Hok Hl; cbn [live_from total] in *; [contradiction|].
  apply Forall_cons_1 in Hok as [Hb Hok]. pose proof (total_nonneg _ Hok).
  destruct Hl as [[-> ->]|Hl]; [split; [heap_lia|split; [heap_lia|exact Hb]]|].
  destruct (IH _ Hok Hl) as (H1 & H2 & H3). repeat split; try heap_lia; apply H3.
Qed.

Lemma live_from_split bs p sz : forall a,
  live_from a bs p sz ->
  exists pre post, bs = pre ++ (sz, true) :: post /\ p = a + total pre + HEADER_SIZE.
Proof.
  induction bs as [|b bs IH]; intros a Hl; cbn [live_from] in *; [contradiction|].
  destruct Hl as [[-> ->]|Hl].
  - exists [], bs. cbn [total]. split; [reflexivity|lia].
  - destruct (IH _ Hl) as (pre & post & -> & ->). exists (b :: pre), post.
    cbn [total]. split; [reflexivity|lia].
Qed.

Lemma live_here pre sz post : live (pre ++ (sz, true) :: post) (base pre + HEADER_SIZE) sz.
Proof. apply live_from_app. right. left. auto. Qed.

Lemma tag_inj b1 b2 : block_ok b1 -> block_ok b2 -> tag b1 = tag b2 -> b1 = b2.
Proof.
  destruct b1 as [s1 [|]], b2 as [s2 [|]]; intros [_ H1] [_ H2]; unfold tag, c_bool; cbn [fst snd] in *;
    intros H; first [f_equal; mlia|exfalso; mlia].
Qed.

(** Memory determines the blocks. *)
Lemma seg_inj m b1 : forall a b2,
  Forall block_ok b1 -> Forall block_ok b2 -> total b1 = total b2 ->
  seg m a b1 -> seg m a b2 -> b1 = b2.
Proof.
  induction b1 as [|x b1 IH]; intros a [|y b2] Hok1 Hok2 Ht H1 H2; [reflexivity|..].
  - apply Forall_cons_1 in Hok2 as [Hy Hok2]. apply total_nonneg in Hok2. cbn [total] in Ht. heap_lia.
  - apply Forall_cons_1 in Hok1 as [Hx Hok1]. apply total_nonneg in Hok1. cbn [total] in Ht. heap_lia.
  - apply Forall_cons_1 in Hok1 as [Hx Hok1]. apply Forall_cons_1 in Hok2 as [Hy Hok2].
    cbn [seg total] in *. destruct H1 as (H1 & _ & H1'), H2 as (H2 & _ & H2').
    assert (x = y) as -> by (apply tag_inj; congruence).
    f_equal. eapply IH; eauto. lia.
Qed.

Lemma heap_rep_inj m b1 b2 : heap_rep m b1 -> heap_rep m b2 -> b1 = b2.
Proof. intros (A1 & A2 & A3 & _) (B1 & B2 & B3 & _). eapply seg_inj; eauto. congruence. Qed.

(** A client may write anything in the payload of a live block. *)
Lemma heap_rep_write m bs p sz off v :
  heap_rep m bs -> live bs p sz -> 0 <= off < sz - 8 -> heap_rep (store8 m (p + off) v) bs.
Proof.
  intros Hrep Hl Hoff. apply live_from_split in Hl as (pre & post & -> & ->).
  destruct (heap_rep_at _ _ _ _ Hrep) as (Hok & Hin & Hl1 & Hl2 & _). cbn [fst] in *.
  fold (base pre). set (m' := store8 _ _ _).
  assert (Hf : frame m m' (base pre + 4) (base pre + sz - 4)).
  { intros x Hx Ho. apply load8_store8_other. rewrite !u32_small by heap_lia. heap_lia. }
  change (pre ++ (sz, true) :: post) with (pre ++ [(sz, true)] ++ post) in Hrep |- *.
  eapply heap_rep_replace; [exact Hrep|constructor; [exact Hok|constructor]|reflexivity|..].
  - cbn [seg fst]. fold (base pre).
    rewrite !(frame_load32 _ _ _ _ _ Hf) by heap_lia. auto.
  - fold (base pre). cbn [total fst]. eapply frame_weaken; [exact Hf|lia|lia].
Qed.

Lemma heap_rep_init m : heap_rep (kmalloc_init m) [(HEAP_SIZE, false)].
Proof.
  unfold kmalloc_init. split; [repeat constructor; cbn; unfold MIN_BLOCK, HEAP_SIZE; lia|].
  split; [reflexivity|]. split.
  - cbn [seg fst]. unfold tag, c_bool; cbn [fst snd].
    replace (HEAP_START + HEAP_SIZE - 4) with (HEAP_START + HEAP_SIZE - HEADER_SIZE) by reflexivity.
    loads. auto.
  - loads. reflexivity.
Qed.

Lemma kmalloc_step_preserves m m' bs size p :
  heap_rep m bs -> coalesced bs = true -> kmalloc m size = Some (m', p) ->
  exists bs', heap_rep m' bs' /\ coalesced bs' = true.
Proof.
  intros Hrep Hc Hk. destruct (Z.eq_dec size 0) as [->|Hs].
  { unfold kmalloc in Hk. cbn in Hk. injection Hk as <- <-. eauto. }
  pose proof (kmalloc_refines m bs size Hrep) as L.
  destruct (first_fit (kmalloc_need size) bs) as [[[pre sz] post]|] eqn:E.
  - destruct (L Hs) as (m1 & Hk1 & Hrep1 & _). rewrite Hk1 in Hk. injection Hk as <- <-.
    apply first_fit_some in E as [-> _]. eauto using coalesced_alloc.
  - rewrite L in Hk. injection Hk as <- <-. eauto.
Qed.

Lemma kfree_preserves m bs p sz :
  heap_rep m bs -> coalesced bs = true -> live bs p sz ->
  exists bs', heap_rep (kfree m p) bs' /\ coalesced bs' = true.
Proof.
  intros Hrep Hc Hl. apply live_from_split in Hl as (pre & post & -> & ->).
  pose proof (kfree_refines _ _ _ _ Hrep) as L. cbv zeta in L.
  destruct (free_range pre sz post). destruct L as [L _].
  eexists. split; [exact L|]. apply coalesced_free, Hc.
Qed.

(** ** kmalloc_dump *)

Lemma total_of_nonneg al bs : Forall block_ok bs -> 0 <= total_of al bs <= total bs.
Proof.
  induction 1 as [|b bs Hb H IH]; cbn [total_of total]; [lia|].
  destruct (Bool.eqb (snd b) al); heap_lia.
Qed.

Lemma total_of_split bs : total_of true bs + total_of false bs = total bs.
Proof. induction bs as [|[s [|]] bs IH]; cbn [total_of total fst snd Bool.eqb]; lia. Qed.

Lemma kmalloc_dump_loop_spec m bs : forall fuel a n ta tf,
  Forall block_ok bs -> in_heap a (total bs) -> seg m a bs -> load32 m (a + total bs) = 1 ->
  (length bs < fuel)%nat ->
  0 <= ta -> ta + total bs < 4294967296 -> 0 <= tf -> tf + total bs < 4294967296 ->
  kmalloc_dump_loop fuel m a n ta tf =
    Some (n + Z.of_nat (length bs), ta + total_of true bs, tf + total_of false bs).
Proof.
  induction bs as [|b bs IH]; intros [|fuel] a n ta tf Hok Hin Hseg He Hf Ha1 Ha2 Hf1 Hf2;
    cbn [length] in Hf; try lia; cbn [kmalloc_dump_loop total total_of length] in *.
  - rewrite Z.add_0_r in He. rewrite epilogue_size by exact He. cbn. f_equal. f_equal; [f_equal|]; lia.
  - apply Forall_cons_1 in Hok as [Hb Hok]. pose proof (total_nonneg _ Hok) as Hpos.
    cbn [seg] in Hseg. destruct Hseg as (S1 & S2 & S3).
    assert (Hin1 : in_heap a (fst b)) by heap_lia.
    rewrite (BLOCK_SIZE_eq m a b), (BLOCK_IS_ALLOC_eq m a b), (NEXT_BLOCK_eq m a b) by assumption.
    rewrite (proj2 (Z.eqb_neq (fst b) 0)) by heap_lia.
    destruct b as [sz al]. cbn [fst snd] in *.
    destruct al; cbn [Bool.eqb]; rewrite u32_small by heap_lia;
      (rewrite IH; [|assumption|heap_lia|assumption|rewrite <- He; f_equal; lia|lia|heap_lia..]);
      f_equal; f_equal; [f_equal|..]; try lia; f_equal; lia.
Qed.

(** ** Frames and live blocks *)

(** A live block that is not the one being replaced keeps its place. *)
Lemma live_replace pre mid mid' post q s :
  total mid' = total mid -> (forall q s a, live_from a mid q s -> False) ->
  live (pre ++ mid ++ post) q s ->
  live (pre ++ mid' ++ post) q s /\
  (live pre q s \/ live_from (base pre + total mid) post q s).
Proof.
  unfold live, base. intros Ht Hm. rewrite !live_from_app, Ht.
  intros [H|[H|H]]; [tauto|exfalso; eauto|tauto].
Qed.

Lemma fresh_block m bs size m' p :
  heap_rep m bs -> 1 <= size <= 4294967280 -> kmalloc m size = Some (m', p) -> p <> 0 ->
  exists bs' sz, heap_rep m' bs' /\ live bs' p sz /\ size <= sz - 8 /\ p mod 8 = 4 /\
    forall q s, live bs q s ->
      live bs' q s /\ (q - 4 + s <= p - 4 \/ p - 4 + sz <= q - 4) /\
      forall x, q - 4 <= x < q - 4 + s -> load8 m' x = load8 m x.
Proof.
  intros Hrep Hsize Hk Hp. pose proof (kmalloc_refines m bs size Hrep) as L.
  destruct (first_fit (kmalloc_need size) bs) as [[[pre sz] post]|] eqn:E;
    [|rewrite L in Hk; injection Hk as <- <-; contradiction].
  destruct (L ltac:(lia)) as (m1 & Hk1 & Hrep1 & Hf). rewrite Hk1 in Hk. injection Hk as <- <-.
  apply first_fit_some in E as [-> Hle]. fold (base pre) in *.
  pose proof (kmalloc_need_small size Hsize) as Hneed. destruct (kmalloc_need_ok size) as [Hn1 Hn2].
  destruct (heap_rep_at _ _ _ _ Hrep) as (Hok & Hin & _ & _ & _ & P1 & P2 & Ht). cbn [fst] in *.
  destruct Hrep as (Hall & _). apply Forall_app in Hall as [Hpre Hall].
  apply Forall_cons_1 in Hall as [_ Hpost].
  destruct (alloc_block_ok (kmalloc_need size) sz Hok ltac:(lia) Hn2) as [_ Htot].
  pose proof (total_mod8 _ Hpre) as Hmod.
  assert (Hhd : exists sz' rest, alloc_block (kmalloc_need size) sz = (sz', true) :: rest /\
                size <= sz' - 8 /\ sz' <= sz).
  { unfold alloc_block. case_if; bool_prop; do 2 eexists; (split; [reflexivity|]); mlia. }
  destruct Hhd as (sz' & rest & Ea & Hsz1 & Hsz2).
  exists (pre ++ alloc_block (kmalloc_need size) sz ++ post), sz'.
  split; [exact Hrep1|]. split.
  { rewrite Ea. cbn [app]. apply live_here. }
  split; [exact Hsz1|]. split; [unfold base, HEADER_SIZE, HEAP_START; mlia|].
  intros q s Hq.
  destruct (live_replace pre [(sz, false)] (alloc_block (kmalloc_need size) sz) post q s) as [Hq' Hside].
  { rewrite Htot. cbn [total fst]. lia. }
  { cbn. intros q' s' a [[H _]|H]; [discriminate|exact H]. }
  { exact Hq. }
  split; [exact Hq'|]. cbn [total fst] in Hside. unfold base, HEADER_SIZE, live in *.
  destruct Hside as [Hs|Hs]; apply live_from_bounds in Hs as (B1 & B2 & B3); try assumption;
    (split; [heap_lia|intros x Hx; apply Hf; heap_lia]).
Qed.

(** Freeing a block leaves the other live blocks where they are. *)
Lemma live_free pre sz post q s : live (pre ++ (sz, true) :: post) q s -> q <> base pre + HEADER_SIZE ->
  live (free_block pre sz post) q s.
Proof.
  intros Hl Hq. unfold live in Hl. apply live_from_app in Hl. cbn [live_from fst] in Hl. fold (base pre) in Hl.
  unfold free_block. destruct (merge_next sz post) as [sz1 post1] eqn:En.
  assert (Hp : live_from HEAP_START pre q s \/ live_from (base pre + sz1) post1 q s).
  { destruct Hl as [H|[[_ H]|H]]; [left; exact H|contradiction|right].
    destruct post as [|[s' [|]] post]; cbn [merge_next] in En; injection En as <- <-; cbn [live_from fst] in H |- *; try exact H.
    destruct H as [[H _]|H]; [discriminate H|]. rewrite Z.add_assoc. exact H. }
  destruct pre as [|b pre _] using rev_ind.
  { unfold merge_prev. cbn [reverse rev_append]. right. destruct Hp as [[]|H]; exact H. }
  rewrite merge_prev_snoc. unfold base in Hp. rewrite total_app in Hp. cbn [total] in Hp.
  destruct b as [s' [|]]; cbn [snd fst] in *; unfold live; apply live_from_app.
  - destruct Hp as [H|H]; [left; exact H|right; right]. rewrite total_app. cbn [total fst].
    match goal with |- live_from ?a _ _ _ => replace a with (HEAP_START + (total pre + (s' + 0)) + sz1) by lia end. exact H.
  - rewrite live_from_app in Hp. cbn [live_from] in Hp. destruct Hp as [[H|[[H _]|[]]]|H]; [left; exact H|discriminate H|].
    right. right. cbn [fst]. match goal with |- live_from ?a _ _ _ => replace a with (HEAP_START + (total pre + (s' + 0)) + sz1) by lia end. exact H.
Qed.

(** ** What a client owns

    A client that keeps the pointers it was given, with the sizes it asked for:
    the blocks are live and large enough, and no two are the same. *)
Record owns (m : mem) (ps : list (Z * Z)) : Prop := {
  own_heap : exists bs, heap_rep m bs /\ coalesced bs = true /\
    forall p sz, (p, sz) ∈ ps -> exists b, live bs p b /\ sz <= b - 8;
  own_nodup : NoDup ps.*1
}.

Lemma owns_perm m ps qs : ps ≡ₚ qs -> owns m ps -> owns m qs.
Proof.
  intros E [(bs & H1 & H2 & H3) N]. split; [|rewrite <- E; exact N].
  exists bs. split; [exact H1|]. split; [exact H2|]. intros p sz H. apply H3. rewrite E. exact H.
Qed.

Lemma live_nonzero m bs p sz : heap_rep m bs -> live bs p sz -> HEAP_START + 4 <= p /\ p + sz <= HEAP_START + HEAP_SIZE + 4.
Proof. intros (Hok & Ht & _) H. destruct (live_from_bounds _ _ _ _ Hok H) as (H1 & H2 & _). lia. Qed.

Lemma owns_nonzero m ps p sz : owns m ps -> (p, sz) ∈ ps -> p <> 0.
Proof.
  intros [(bs & H1 & _ & H3) _] H. destruct (H3 p sz H) as (b & Hl & _).
  destruct (live_nonzero _ _ _ _ H1 Hl). unfold HEAP_START in *. lia.
Qed.

(** [kmalloc] ends; it gives a new pointer or NULL, and then changes nothing. *)
Lemma kmalloc_owns m ps size : owns m ps -> 1 <= size <= 4294967280 ->
  exists m' p, kmalloc m size = Some (m', p) /\
    if p =? 0 then m' = m else owns m' ((p, size) :: ps).
Proof.
  intros [(bs & H1 & H2 & H3) N] Hs. pose proof (kmalloc_refines m bs size H1) as L.
  destruct (first_fit (kmalloc_need size) bs) as [[[pre sz] post]|] eqn:E; [|exists m, 0; split; [exact L|reflexivity]].
  destruct (L ltac:(lia)) as (m' & Hk & _). exists m', (base pre + HEADER_SIZE). split; [exact Hk|].
  destruct (Z.eqb_spec (base pre + HEADER_SIZE) 0) as [E0|E0].
  { exfalso. destruct H1 as (Hok & _). apply first_fit_some in E as [-> _]. apply Forall_app in Hok as [Hok _].
    apply total_nonneg in Hok. unfold base, HEADER_SIZE, HEAP_START in E0. lia. }
  destruct (fresh_block _ _ _ _ _ H1 Hs Hk E0) as (bs' & b & R & Hl & Hb & _ & Hq).
  destruct (kmalloc_step_preserves _ _ _ _ _ H1 H2 Hk) as (bs2 & R2 & C2). rewrite (heap_rep_inj _ _ _ R2 R) in C2.
  split.
  - exists bs'. split; [exact R|]. split; [exact C2|]. intros q s Hin. apply elem_of_cons in Hin as [Eq|Hin].
    + injection Eq as -> ->. exists b. auto.
    + destruct (H3 q s Hin) as (b' & Hl' & Hb'). exists b'. split; [apply Hq, Hl'|exact Hb'].
  - rewrite fmap_cons. cbn [fst]. apply NoDup_cons. split; [|exact N]. intros Hin. apply list_elem_of_fmap in Hin as ([q s] & Eq & Hin).
    cbn [fst] in Eq. subst q. destruct (H3 _ s Hin) as (b' & Hl' & Hb'). destruct (Hq _ _ Hl') as (_ & [D|D] & _).
    + destruct (live_from_bounds _ _ _ _ (proj1 H1) Hl') as (_ & _ & [B _]). cbn [fst] in B. unfold MIN_BLOCK in B. unfold base in D. lia.
    + destruct (live_from_bounds _ _ _ _ (proj1 R) Hl) as (_ & _ & [B _]). cbn [fst] in B. unfold MIN_BLOCK in B. unfold base in D. lia.
Qed.

Lemma kfree_owns m p sz ps : owns m ((p, sz) :: ps) -> owns (kfree m p) ps.
Proof.
  intros [(bs & H1 & H2 & H3) N]. apply NoDup_cons in N as [Np N]. split; [|exact N].
  destruct (H3 p sz ltac:(left)) as (b & Hl & _). pose proof (live_from_split _ _ _ _ Hl) as (pre & post & -> & ->).
  fold (base pre) in *. pose proof (kfree_refines _ _ _ _ H1) as L. cbv zeta in L. destruct (free_range pre b post).
  exists (free_block pre b post). split; [apply L|]. split; [apply coalesced_free, H2|].
  intros q s Hin. destruct (H3 q s ltac:(right; exact Hin)) as (b' & Hl' & Hb'). exists b'. split; [|exact Hb'].
  apply live_free; [exact Hl'|]. intros ->. apply Np. apply list_elem_of_fmap. eexists. split; [|exact Hin]. reflexivity.
Qed.

(** Freeing what was just allocated undoes the allocation. *)
Lemma kfree_undoes m bs size m' p :
  heap_rep m bs -> coalesced bs = true -> kmalloc m size = Some (m', p) -> heap_rep (kfree m' p) bs.
Proof.
  intros Hrep Hc Hk. destruct (Z.eq_dec size 0) as [->|Hs].
  { unfold kmalloc in Hk. cbn in Hk. injection Hk as <- <-. exact Hrep. }
  pose proof (kmalloc_refines m bs size Hrep) as L.
  destruct (first_fit (kmalloc_need size) bs) as [[[pre sz] post]|] eqn:E;
    [|rewrite L in Hk; injection Hk as <- <-; exact Hrep].
  destruct (L Hs) as (m1 & Hk1 & Hrep1 & _). rewrite Hk1 in Hk. injection Hk as <- <-.
  apply first_fit_some in E as [-> Hle].
  destruct (free_alloc_block _ _ _ _ Hc Hle) as (sz1 & post1 & Ha & Hfree).
  rewrite Ha in Hrep1. pose proof (kfree_refines _ _ _ _ Hrep1) as F. cbv zeta in F.
  fold (base pre). destruct (free_range pre sz1 post1). rewrite Hfree in F. apply F.
Qed.

(** ** Properties *)

(** C17: [kmalloc] refines first fit on the abstract heap.  When some free
    block is large enough, the first one is taken (split if at least 16 bytes
    remain), the pointer is its address plus 4, and no byte outside that block
    changes; when none is, the result is NULL and memory is unchanged.  The
    walk always ends within [heap_fuel] blocks. *)
Theorem kmalloc_first_fit m bs size :
  heap_rep m bs -> size <> 0 ->
  match first_fit (kmalloc_need size) bs with
  | Some (pre, sz, post) =>
      exists m', kmalloc m size = Some (m', base pre + HEADER_SIZE) /\
        heap_rep m' (pre ++ alloc_block (kmalloc_need size) sz ++ post) /\
        frame m m' (base pre) (base pre + sz)
  | None => kmalloc m size = Some (m, 0)
  end.
Proof.
  intros Hrep Hs. pose proof (kmalloc_refines m bs size Hrep) as L.
  destruct (first_fit (kmalloc_need size) bs) as [[[pre sz] post]|]; [exact (L Hs)|exact L].
Qed.

Lemma kmalloc_first_fit_witness :
  exists m', kmalloc (kmalloc_init mem0) 5 = Some (m', 0x200004) /\
    heap_rep m' [(16, true); (0x3fff0, false)].
Proof.
  pose proof (kmalloc_first_fit (kmalloc_init mem0) [(HEAP_SIZE, false)] 5
                (heap_rep_init mem0) ltac:(lia)) as H.
  destruct H as (m' & H1 & H2 & _). exists m'. split; [exact H1|exact H2].
Defined.

(** C18: [kfree] of the pointer to an allocated block refines the abstract
    coalescing free; bytes outside the resulting free block do not change. *)
Theorem kfree_coalesces m pre sz post :
  heap_rep m (pre ++ (sz, true) :: post) ->
  heap_rep (kfree m (base pre + HEADER_SIZE)) (free_block pre sz post) /\
  frame m (kfree m (base pre + HEADER_SIZE))
    (fst (free_range pre sz post)) (snd (free_range pre sz post)).
Proof.
  intros Hrep. pose proof (kfree_refines _ _ _ _ Hrep) as L. cbv zeta in L.
  destruct (free_range pre sz post). exact L.
Qed.

(** Two blocks allocated on a fresh heap. *)
Definition heap_two : mem :=
  match kmalloc (kmalloc_init mem0) 8 with
  | Some (m, _) => match kmalloc m 24 with Some (m, _) => m | None => m end
  | None => mem0
  end.

Lemma heap_two_rep : heap_rep heap_two [(16, true); (32, true); (0x3ffd0, false)].
Proof.
  unfold heap_two.
  pose proof (kmalloc_refines (kmalloc_init mem0) [(HEAP_SIZE, false)] 8 (heap_rep_init mem0)) as L1.
  cbv beta iota zeta delta [first_fit] in L1; cbn -[kmalloc kmalloc_init heap_rep] in L1.
  destruct (L1 ltac:(lia)) as (m1 & -> & R1 & _).
  pose proof (kmalloc_refines m1 _ 24 R1) as L2.
  cbn -[kmalloc heap_rep] in L2. destruct (L2 ltac:(lia)) as (m2 & -> & R2 & _). exact R2.
Qed.

Lemma kfree_coalesces_witness :
  heap_rep (kfree heap_two 0x200014) [(16, true); (0x3fff0, false)].
Proof.
  exact (proj1 (kfree_coalesces heap_two [(16, true)] 32 [(0x3ffd0, false)] heap_two_rep)).
Defined.

(** C6: from a fresh heap, after any sequence of allocations, frees of live
    pointers and writes inside live payloads, memory still holds a well-formed
    heap of total size [HEAP_SIZE] in which no two free blocks are adjacent. *)
Theorem heap_invariant m :
  heap_reachable m -> exists bs, heap_rep m bs /\ coalesced bs = true.
Proof.
  induction 1 as [m|m m' Hr (bs & Hrep & Hc) Hstep]; [eauto using heap_rep_init|].
  inversion Hstep as [? ? size p Hsz Hk|? bs' p sz Hrep' Hl|? bs' p sz off v Hrep' Hl Hoff]; subst.
  - eauto using kmalloc_step_preserves.
  - rewrite (heap_rep_inj _ _ _ Hrep' Hrep) in Hl. eauto using kfree_preserves.
  - rewrite (heap_rep_inj _ _ _ Hrep' Hrep) in Hl. exists bs. eauto using heap_rep_write.
Qed.

Lemma heap_invariant_witness :
  exists bs, heap_rep (kfree (kmalloc_init mem0) 0) bs /\ coalesced bs = true.
Proof. exact (heap_invariant (kmalloc_init mem0) (reach_init mem0)). Defined.

(** a successful allocation of [size] bytes returns a pointer with
    [size] usable bytes, at an address that is 4 modulo 8, disjoint from every
    live block; live blocks stay live and keep their contents. *)
Theorem kmalloc_fresh m bs size m' p :
  heap_rep m bs -> 1 <= size <= 4294967280 -> kmalloc m size = Some (m', p) -> p <> 0 ->
  exists bs' sz, heap_rep m' bs' /\ live bs' p sz /\ size <= sz - 8 /\ p mod 8 = 4 /\
    forall q s, live bs q s ->
      live bs' q s /\ (q - 4 + s <= p - 4 \/ p - 4 + sz <= q - 4) /\
      forall x, q - 4 <= x < q - 4 + s -> load8 m' x = load8 m x.
Proof. apply fresh_block. Qed.

Lemma kmalloc_fresh_witness :
  exists m' bs' sz, kmalloc heap_two 100 = Some (m', 0x200034) /\
    heap_rep m' bs' /\ live bs' 0x200034 sz /\ 100 <= sz - 8.
Proof.
  destruct (kmalloc_first_fit heap_two _ 100 heap_two_rep ltac:(lia)) as (m' & Hk & _).
  destruct (kmalloc_fresh heap_two _ 100 m' 0x200034 heap_two_rep ltac:(lia) Hk ltac:(lia))
    as (bs' & sz & H1 & H2 & H3 & _).
  exists m', bs', sz. auto.
Defined.

(** allocating and then freeing the result restores the block structure. *)
Theorem kmalloc_kfree_roundtrip m bs size m' p :
  heap_rep m bs -> coalesced bs = true -> kmalloc m size = Some (m', p) ->
  heap_rep (kfree m' p) bs.
Proof. apply kfree_undoes. Qed.

Lemma kmalloc_kfree_roundtrip_witness :
  exists m' p, kmalloc heap_two 40 = Some (m', p) /\ p <> 0 /\
    heap_rep (kfree m' p) [(16, true); (32, true); (0x3ffd0, false)].
Proof.
  destruct (kmalloc_first_fit heap_two _ 40 heap_two_rep ltac:(lia)) as (m' & Hk & _).
  exists m', 0x200034. split; [exact Hk|]. split; [lia|].
  exact (kmalloc_kfree_roundtrip heap_two _ 40 m' _ heap_two_rep eq_refl Hk).
Defined.

(** the totals [kmalloc_dump] prints are the number of blocks and the
    allocated and free bytes, and they account for the whole heap. *)
Theorem kmalloc_dump_accounts m bs :
  heap_rep m bs ->
  kmalloc_dump m = Some (Z.of_nat (length bs), total_of true bs, total_of false bs) /\
  total_of true bs + total_of false bs = HEAP_SIZE.
Proof.
  intros Hrep. pose proof (heap_fuel_enough _ _ Hrep) as Hfuel.
  destruct Hrep as (Hok & Ht & Hseg & He). split; [|rewrite total_of_split; exact Ht].
  unfold kmalloc_dump.
  rewrite (kmalloc_dump_loop_spec m bs);
    [reflexivity|assumption|rewrite Ht; heap_lia|assumption|rewrite Ht; exact He|assumption|rewrite ?Ht; heap_lia..].
Qed.

Lemma kmalloc_dump_accounts_witness : kmalloc_dump heap_two = Some (3, 48, 0x3ffd0).
Proof. exact (proj1 (kmalloc_dump_accounts heap_two _ heap_two_rep)). Defined.

(** the size computation wraps: every request of at least 2^32 - 15
    bytes is served with a block of 16 bytes, so on a fresh heap the
    allocation succeeds with 8 usable bytes. *)
Theorem kmalloc_size_overflow size :
  4294967281 <= size < 4294967296 ->
  kmalloc_need size = 16 /\
  exists m', kmalloc (kmalloc_init mem0) size = Some (m', 0x200004) /\
    heap_rep m' [(16, true); (0x3fff0, false)].
Proof.
  intros Hs. assert (Hn : kmalloc_need size = 16).
  { unfold kmalloc_need, ALIGN, HEADER_SIZE, MIN_BLOCK. cbv zeta. change (8 - 1) with (Z.ones 3).
    rewrite land_not_ones by (unfold is_u32; pose proof (u32_range (size + 8 - 1)); lia).
    change (2 ^ 3) with 8.
    assert (u32 (size + 8 - 1) / 8 * 8 = 0 \/ u32 (size + 8 - 1) / 8 * 8 = 4294967288) as [-> | ->]
      by word; reflexivity. }
  split; [exact Hn|].
  pose proof (kmalloc_refines (kmalloc_init mem0) [(HEAP_SIZE, false)] size (heap_rep_init mem0)) as L.
  rewrite Hn in L. cbn [first_fit] in L. specialize (L ltac:(lia)).
  destruct L as (m' & H1 & H2 & _). exists m'. split; [exact H1|exact H2].
Qed.

Lemma kmalloc_size_overflow_witness : kmalloc_need 4294967295 = 16.
Proof. exact (proj1 (kmalloc_size_overflow 4294967295 ltac:(lia))). Defined.
