(* ===== verification/Ring.v ===== *)
(** * Circular buffers

    The keyboard and mouse drivers and the message queues store a FIFO in a
    fixed array of [N] cells with a read index.  [ring_rep] relates the array
    to the list it stands for; the lemmas are the two array accesses every one
    of those components makes.  [BoundedFifo] is the interface the drivers
    promise to their clients: a queue of bounded capacity that drops what does
    not fit. *)

From S2P Require Import Prelude.
Local Open Scope Z_scope.

(** Numbers less than [N] apart are distinct modulo [N]. *)
Lemma mod_lt_distinct N a b : a < b < a + N -> a mod N <> b mod N.
Proof.
  intros H E. assert (Hd : (b - a) mod N = 0) by (rewrite Zminus_mod, E, Z.sub_diag; apply Zmod_0_l).
  rewrite Z.mod_small in Hd; lia.
Qed.

Section ring.
Context {A : Type} (N : Z) (HN : 0 < N).
Implicit Types (buf q : list A) (rd : Z) (x : A).

(** The cell of the [i]-th oldest element. *)
Definition ring_cell (rd : Z) (i : nat) : nat := Z.to_nat ((rd + Z.of_nat i) mod N).

Definition ring_rep buf rd q : Prop :=
  length buf = Z.to_nat N /\ 0 <= rd < N /\ Z.of_nat (length q) <= N /\
  forall i x, q !! i = Some x -> buf !! ring_cell rd i = Some x.

(** Index of the cell after the last element. *)
Definition ring_end rd q : Z := (rd + Z.of_nat (length q)) mod N.

Lemma ring_rep_empty buf rd : length buf = Z.to_nat N -> 0 <= rd < N -> ring_rep buf rd [].
Proof using HN. intros. repeat split; simpl; try lia. intros i x Hi. destruct i; discriminate. Qed.

Lemma ring_end_range rd q : 0 <= ring_end rd q < N.
Proof using HN. apply Z.mod_pos_bound; lia. Qed.

Lemma ring_rep_push buf rd q x :
  ring_rep buf rd q -> Z.of_nat (length q) < N ->
  ring_rep (<[Z.to_nat (ring_end rd q) := x]> buf) rd (q ++ [x]).
Proof using HN.
  intros (Hl & Hrd & Hq & Hget) Hlt. pose proof (ring_end_range rd q) as He.
  repeat split; try lia.
  - rewrite length_insert; exact Hl.
  - rewrite length_app; simpl; lia.
  - intros i y Hi. destruct (decide (i = length q)) as [->|Hne].
    + rewrite lookup_app_r, Nat.sub_diag in Hi by lia. simpl in Hi. injection Hi as <-.
      apply list_lookup_insert_eq. lia.
    + assert (Hi' : (i < length q)%nat).
      { apply lookup_lt_Some in Hi. rewrite length_app in Hi. simpl in Hi. lia. }
      rewrite lookup_app_l in Hi by exact Hi'.
      rewrite list_lookup_insert_ne; [apply Hget; exact Hi|].
      unfold ring_cell, ring_end. intros Heq.
      apply Z2Nat.inj in Heq; try (apply Z.mod_pos_bound; lia).
      apply (mod_lt_distinct N (rd + Z.of_nat i) (rd + Z.of_nat (length q))); lia.
Qed.

Lemma ring_rep_head buf rd x q :
  ring_rep buf rd (x :: q) -> buf !! Z.to_nat rd = Some x.
Proof using HN.
  intros (Hl & Hrd & Hq & Hget). specialize (Hget 0%nat x eq_refl).
  unfold ring_cell in Hget. rewrite Z.add_0_r, Z.mod_small in Hget by lia. exact Hget.
Qed.

Lemma ring_rep_pop buf rd x q :
  ring_rep buf rd (x :: q) -> ring_rep buf ((rd + 1) mod N) q.
Proof using HN.
  intros (Hl & Hrd & Hq & Hget). cbn [length] in Hq.
  repeat split; try exact Hl; try (apply Z.mod_pos_bound; lia); try lia.
  intros i y Hi. specialize (Hget (S i) y Hi). rewrite <- Hget. f_equal.
  unfold ring_cell. f_equal. rewrite Zplus_mod_idemp_l. f_equal. lia.
Qed.

Lemma ring_end_pop rd x q : ring_end ((rd + 1) mod N) q = ring_end rd (x :: q).
Proof.
  unfold ring_end. rewrite Zplus_mod_idemp_l. f_equal. cbn [length]. lia.
Qed.

Lemma ring_end_push rd q x : (ring_end rd q + 1) mod N = ring_end rd (q ++ [x]).
Proof.
  unfold ring_end. rewrite Zplus_mod_idemp_l, length_app. f_equal. simpl. lia.
Qed.

(** With one cell kept free, equal indices mean an empty queue. *)
Lemma ring_end_empty rd q :
  0 <= rd < N -> Z.of_nat (length q) < N -> (ring_end rd q = rd <-> q = []).
Proof using HN.
  intros Hrd Hq. unfold ring_end. split.
  - intros H. destruct q as [|x q]; [reflexivity|exfalso]. cbn [length] in *.
    apply (mod_lt_distinct N rd (rd + Z.of_nat (S (length q)))); [lia|].
    rewrite H. apply Z.mod_small; lia.
  - intros ->. simpl. rewrite Z.add_0_r. apply Z.mod_small; lia.
Qed.

Lemma ring_end_full rd q :
  0 <= rd < N -> Z.of_nat (length q) < N ->
  ((ring_end rd q + 1) mod N = rd <-> Z.of_nat (length q) = N - 1).
Proof using HN.
  intros Hrd Hq. unfold ring_end. rewrite Zplus_mod_idemp_l. split; intros H.
  - destruct (decide (Z.of_nat (length q) = N - 1)) as [E|E]; [exact E|exfalso].
    apply (mod_lt_distinct N rd (rd + Z.of_nat (length q) + 1)); [lia|].
    rewrite H. apply Z.mod_small; lia.
  - replace (rd + Z.of_nat (length q) + 1) with (rd + 1 * N) by lia.
    rewrite Z_mod_plus_full. apply Z.mod_small; lia.
Qed.
End ring.

(** ** The interface of the input queues *)

(** A queue of at most [fifo_capacity] elements: [fifo_put] drops its argument
    when the queue is full, [fifo_get] removes the oldest element.
    [fifo_cell] is the conversion to the type of a cell. *)
Class BoundedFifo (S A : Type) := {
  fifo_put : A -> S -> S;
  fifo_get : S -> option (A * S);
  fifo_has_data : S -> bool;
  fifo_capacity : nat;
  fifo_cell : A -> A;
  fifo_rep : S -> list A -> Prop;
  fifo_put_spec : forall x s q, fifo_rep s q ->
    fifo_rep (fifo_put x s) (if decide (length q < fifo_capacity)%nat then q ++ [fifo_cell x] else q);
  fifo_get_spec : forall s q, fifo_rep s q ->
    match q with
    | [] => fifo_get s = None
    | x :: q' => exists s', fifo_get s = Some (x, s') /\ fifo_rep s' q'
    end;
  fifo_has_data_spec : forall s q, fifo_rep s q ->
    fifo_has_data s = match q with [] => false | _ :: _ => true end
}.

Section fifo.
Context {S A : Type} `{F : BoundedFifo S A}.

(** Put a burst of elements, in order. *)
Definition fifo_puts (xs : list A) (s : S) : S := foldl (fun s x => fifo_put x s) s xs.

(** The abstract effect of a burst: it is kept up to the capacity. *)
Lemma fifo_puts_spec xs : forall s q,
  fifo_rep s q -> (length q <= fifo_capacity)%nat ->
  fifo_rep (fifo_puts xs s) (take fifo_capacity (q ++ (fifo_cell <$> xs))).
Proof.
  induction xs as [|x xs IH]; intros s q Hs Hq; rewrite ?fmap_nil, ?fmap_cons.
  - rewrite app_nil_r, take_ge by lia. exact Hs.
  - change (fifo_puts (x :: xs) s) with (fifo_puts xs (fifo_put x s)). pose proof (fifo_put_spec x s q Hs) as Hp. case_decide as Hc.
    + replace (q ++ fifo_cell x :: (fifo_cell <$> xs))
        with ((q ++ [fifo_cell x]) ++ (fifo_cell <$> xs)) by (rewrite <- app_assoc; reflexivity).
      apply IH; [exact Hp|]. rewrite length_app; simpl; lia.
    + assert (E : forall l, take fifo_capacity (q ++ l) = take fifo_capacity q).
      { intros l. rewrite take_app_le by lia. reflexivity. }
      rewrite E, <- (E (fifo_cell <$> xs)). apply IH; assumption.
Qed.

(** Read until empty (at most [fuel] elements). *)
Fixpoint fifo_drain (fuel : nat) (s : S) : list A * S :=
  match fuel with
  | O => ([], s)
  | Datatypes.S fuel =>
      match fifo_get s with
      | None => ([], s)
      | Some (x, s) => let (xs, s) := fifo_drain fuel s in (x :: xs, s)
      end
  end.

Lemma fifo_drain_spec fuel : forall s q,
  fifo_rep s q ->
  fst (fifo_drain fuel s) = take fuel q /\ fifo_rep (snd (fifo_drain fuel s)) (drop fuel q).
Proof.
  induction fuel as [|fuel IH]; intros s q Hs; simpl; [split; [reflexivity|exact Hs]|].
  pose proof (fifo_get_spec s q Hs) as Hg. destruct q as [|x q].
  - rewrite Hg. split; [reflexivity|exact Hs].
  - destruct Hg as (s' & -> & Hs'). specialize (IH s' q Hs').
    destruct (fifo_drain fuel s') as [xs s'']. simpl in *. destruct IH as [-> IH].
    split; [reflexivity|exact IH].
Qed.
End fifo.
