(* ===== verification/PortIO.v ===== *)
(** * Port input/output (include/io.h)

    Drivers talk to the hardware with [in] and [out] instructions.  A device is
    not code of the repository, so it is a parameter: a function that answers
    a read of a port from the history of all accesses so far.  A driver routine
    is a computation in [io]: it appends its accesses to the history and
    returns a value.  [None] is a polling loop that ran out of fuel. *)

From S2P Require Import Prelude.
Local Open Scope Z_scope.
Local Open Scope sros_scope.

(** One access: the port, its width in bytes, and the value transferred. *)
Inductive io_event : Type :=
  | In (width port value : Z)
  | Out (width port value : Z).

Definition history : Type := list io_event.

(** What the hardware answers to a read of [width] bytes at [port]. *)
Definition device : Type := history -> Z -> Z -> Z.

Definition io (A : Type) : Type := device -> history -> option (A * history).

#[export] Instance io_ret : MRet io := fun A x d h => Some (x, h).
#[export] Instance io_bind : MBind io := fun A B f m d h =>
  match m d h with
  | Some (x, h) => f x d h
  | None => None
  end.

(** ** The accessors of io.h *)

Definition inw_width (width : Z) (modulus : Z) (port : Z) : io Z :=
  fun d h => let v := d h width (u16 port) mod modulus in
             Some (v, h ++ [In width (u16 port) v]).

Definition inb (port : Z) : io Z := inw_width 1 256 port.
Definition inw (port : Z) : io Z := inw_width 2 65536 port.
Definition inl (port : Z) : io Z := inw_width 4 4294967296 port.

Definition outb (port value : Z) : io unit :=
  fun d h => Some (tt, h ++ [Out 1 (u16 port) (u8 value)]).
Definition outw (port value : Z) : io unit :=
  fun d h => Some (tt, h ++ [Out 2 (u16 port) (u16 value)]).
Definition outl (port value : Z) : io unit :=
  fun d h => Some (tt, h ++ [Out 4 (u16 port) (u32 value)]).

(** ** Loops *)

(** [for (i = 0; i < n; i++) if (cond) return;] where [cond] may read ports. *)
Fixpoint poll (n : nat) (cond : io bool) : io bool :=
  match n with
  | O => mret false
  | S n => b ← cond; if (b : bool) then mret true else poll n cond
  end.

(** At most [p] attempts of a computation that may find a value; [p] is binary
    because the drivers' timeouts run to tens of millions. *)
Fixpoint until {A} (p : positive) (m : io (option A)) : io (option A) :=
  match p with
  | xH => m
  | xO p =>
      r ← until p m;
      match r with Some x => mret (Some x) | None => until p m end
  | xI p =>
      r ← m;
      match r with
      | Some x => mret (Some x)
      | None =>
          r ← until p m;
          match r with Some x => mret (Some x) | None => until p m end
      end
  end.

(** A computation repeated once per element. *)
Fixpoint for_each {A} (xs : list A) (body : A -> io unit) : io unit :=
  match xs with
  | [] => mret tt
  | x :: xs => _ ← body x; for_each xs body
  end.

(** [n] attempts find nothing; at most [n] attempts find [x]. *)
Inductive misses {A} (d : device) (m : io (option A)) : nat -> history -> history -> Prop :=
  | misses_0 h : misses d m 0 h h
  | misses_S n h h1 h' : m d h = Some (None, h1) -> misses d m n h1 h' -> misses d m (S n) h h'.

Inductive finds {A} (d : device) (m : io (option A)) (x : A) : nat -> history -> history -> Prop :=
  | finds_now n h h' : m d h = Some (Some x, h') -> finds d m x (S n) h h'
  | finds_later n h h1 h' : m d h = Some (None, h1) -> finds d m x n h1 h' -> finds d m x (S n) h h'.

Lemma finds_split {A} d (m : io (option A)) x a b h h' : finds d m x (a + b) h h' ->
  finds d m x a h h' \/ exists h1, misses d m a h h1 /\ finds d m x b h1 h'.
Proof.
  revert h. induction a as [|a IH]; intros h H; [right; exists h; split; [constructor|exact H]|].
  cbn in H. inversion H as [? ? ? E|? ? h1 ? E Hl]; subst; [left; constructor; exact E|].
  destruct (IH _ Hl) as [Hf|(h2 & Hm & Hf)].
  - left. eapply finds_later; eassumption.
  - right. exists h2. split; [econstructor; eassumption|exact Hf].
Qed.

Lemma misses_split {A} d (m : io (option A)) a b h h' : misses d m (a + b) h h' ->
  exists h1, misses d m a h h1 /\ misses d m b h1 h'.
Proof.
  revert h. induction a as [|a IH]; intros h H; [exists h; split; [constructor|exact H]|].
  inversion H as [|? ? h1 ? E Hl]; subst. destruct (IH _ Hl) as (h2 & H1 & H2).
  exists h2. split; [econstructor; eassumption|exact H2].
Qed.

(** [until p] is [p] attempts. *)
Lemma until_misses {A} d (m : io (option A)) p h h' :
  misses d m (Pos.to_nat p) h h' -> until p m d h = Some (None, h').
Proof.
  revert h h'. induction p as [p IH|p IH|]; intros h h' H.
  - rewrite Pos2Nat.inj_xI in H. replace (S (2 * Pos.to_nat p)) with (1 + (Pos.to_nat p + Pos.to_nat p))%nat in H by lia.
    inversion H as [|? ? h1 ? E Hl]; subst. apply misses_split in Hl as (h2 & H1 & H2).
    cbn [until]. unfold mbind, io_bind. rewrite E, (IH _ _ H1). apply IH, H2.
  - rewrite Pos2Nat.inj_xO in H. replace (2 * Pos.to_nat p)%nat with (Pos.to_nat p + Pos.to_nat p)%nat in H by lia.
    apply misses_split in H as (h2 & H1 & H2).
    cbn [until]. unfold mbind, io_bind. rewrite (IH _ _ H1). apply IH, H2.
  - inversion H as [|? ? h1 ? E Hl]; subst. inversion Hl; subst. exact E.
Qed.

Lemma until_finds {A} d (m : io (option A)) x p h h' :
  finds d m x (Pos.to_nat p) h h' -> until p m d h = Some (Some x, h').
Proof.
  revert h. induction p as [p IH|p IH|]; intros h H; cbn [until]; unfold mbind, io_bind.
  - rewrite Pos2Nat.inj_xI in H. replace (S (2 * Pos.to_nat p)) with (S (Pos.to_nat p + Pos.to_nat p)) in H by lia.
    inversion H as [? ? ? E|? ? h1 ? E Hl]; subst; rewrite E; [reflexivity|].
    apply finds_split in Hl as [Hf|(h2 & Hm & Hf)]; [rewrite (IH _ Hf); reflexivity|].
    rewrite (until_misses _ _ _ _ _ Hm). apply IH, Hf.
  - rewrite Pos2Nat.inj_xO in H. replace (2 * Pos.to_nat p)%nat with (Pos.to_nat p + Pos.to_nat p)%nat in H by lia.
    apply finds_split in H as [Hf|(h2 & Hm & Hf)]; [rewrite (IH _ Hf); reflexivity|].
    rewrite (until_misses _ _ _ _ _ Hm). apply IH, Hf.
  - inversion H as [? ? ? E|? ? h1 ? E Hl]; subst; [exact E|]. inversion Hl.
Qed.

(** ** Programs that end *)

(** [m] ends, whatever the hardware answers. *)
Definition total {A} (m : io A) : Prop := forall d h, exists x h', m d h = Some (x, h').

Lemma total_ret {A} (x : A) : total (mret x).
Proof. intros d h. exists x, h. reflexivity. Qed.

Lemma total_bind {A B} (m : io A) (f : A -> io B) : total m -> (forall x, total (f x)) -> total (m ≫= f).
Proof.
  intros Hm Hf d h. destruct (Hm d h) as (x & h1 & E1). destruct (Hf x d h1) as (y & h2 & E2).
  exists y, h2. unfold mbind, io_bind. rewrite E1. exact E2.
Qed.

Lemma total_in width modulus p : total (inw_width width modulus p).
Proof. intros d h. eexists _, _. reflexivity. Qed.
Lemma total_outb p v : total (outb p v).
Proof. intros d h. eexists _, _. reflexivity. Qed.
Lemma total_outw p v : total (outw p v).
Proof. intros d h. eexists _, _. reflexivity. Qed.
Lemma total_outl p v : total (outl p v).
Proof. intros d h. eexists _, _. reflexivity. Qed.

Lemma total_poll n cond : total cond -> total (poll n cond).
Proof.
  intros Hc. induction n as [|n IH]; [apply total_ret|]. cbn [poll]. apply total_bind; [exact Hc|].
  intros []; [apply total_ret|exact IH].
Qed.

Lemma total_until {A} p (m : io (option A)) : total m -> total (until p m).
Proof.
  intros Hm. induction p as [p IH|p IH|]; cbn [until]; [| |exact Hm];
    repeat (apply total_bind; [assumption|intros [x|]; [apply total_ret|]]); exact IH.
Qed.

Lemma total_for_each {A} (xs : list A) body : (forall x, total (body x)) -> total (for_each xs body).
Proof. intros H. induction xs as [|x xs IH]; [apply total_ret|]. apply total_bind; [apply H|intros _; exact IH]. Qed.

Create HintDb total.
#[export] Hint Resolve total_ret total_in total_outb total_outw total_outl total_poll total_until total_for_each : total.

(** ** What a run writes *)

(** The values written to a port, in order. *)
Fixpoint outs (port : Z) (h : history) : list Z :=
  match h with
  | [] => []
  | Out _ p v :: h => if p =? port then v :: outs port h else outs port h
  | In _ _ _ :: h => outs port h
  end.

Lemma outs_app port h1 h2 : outs port (h1 ++ h2) = outs port h1 ++ outs port h2.
Proof.
  induction h1 as [|[w p v|w p v] h1 IH]; simpl; rewrite ?IH; [reflexivity|reflexivity|].
  destruct (p =? port); reflexivity.
Qed.

(** All writes with their ports, in order. *)
Fixpoint writes_of (h : history) : list (Z * Z) :=
  match h with
  | [] => []
  | Out _ p v :: h => (p, v) :: writes_of h
  | In _ _ _ :: h => writes_of h
  end.

Lemma writes_of_app h1 h2 : writes_of (h1 ++ h2) = writes_of h1 ++ writes_of h2.
Proof. induction h1 as [|[w p v|w p v] h1 IH]; cbn; rewrite ?IH; reflexivity. Qed.

(** [emits port m ws]: whatever the hardware answers, [m] terminates, only
    extends the history, and writes exactly [ws] to [port]. *)
Definition emits {A} (port : Z) (m : io A) (ws : list Z) : Prop :=
  forall d h, exists x evs, m d h = Some (x, h ++ evs) /\ outs port evs = ws.

Section emits.
Context (port : Z).

Lemma emits_ret {A} (x : A) : emits port (mret x) [].
Proof. intros d h. exists x, []. rewrite app_nil_r. split; reflexivity. Qed.

Lemma emits_bind {A B} (m : io A) (f : A -> io B) w1 w2 :
  emits port m w1 -> (forall x, emits port (f x) w2) -> emits port (m ≫= f) (w1 ++ w2).
Proof.
  intros Hm Hf d h. destruct (Hm d h) as (x & e1 & E1 & O1).
  destruct (Hf x d (h ++ e1)) as (y & e2 & E2 & O2).
  exists y, (e1 ++ e2). unfold mbind, io_bind. rewrite E1, E2, app_assoc, outs_app, O1, O2.
  split; reflexivity.
Qed.

Lemma emits_in width modulus p : emits port (inw_width width modulus p) [].
Proof. intros d h. eexists _, _. split; reflexivity. Qed.

Lemma emits_outb p v : emits port (outb p v) (if u16 p =? port then [u8 v] else []).
Proof. intros d h. eexists _, _. split; [reflexivity|]. simpl. case_if; reflexivity. Qed.

(** A write to another port, whatever the value. *)
Lemma emits_outb_other p v : (u16 p =? port) = false -> emits port (outb p v) [].
Proof. intros E. pose proof (emits_outb p v) as H. rewrite E in H. exact H. Qed.

Lemma emits_outw p v : emits port (outw p v) (if u16 p =? port then [u16 v] else []).
Proof. intros d h. eexists _, _. split; [reflexivity|]. simpl. case_if; reflexivity. Qed.

Lemma emits_outl p v : emits port (outl p v) (if u16 p =? port then [u32 v] else []).
Proof. intros d h. eexists _, _. split; [reflexivity|]. simpl. case_if; reflexivity. Qed.

Lemma emits_poll n cond : emits port cond [] -> emits port (poll n cond) [].
Proof.
  intros Hc. induction n as [|n IH]; simpl; [apply emits_ret|].
  apply (emits_bind _ _ [] []); [exact Hc|]. intros []; [apply emits_ret|exact IH].
Qed.

Lemma emits_for_each {A} (xs : list A) body (w : A -> list Z) :
  (forall x, emits port (body x) (w x)) ->
  emits port (for_each xs body) (xs ≫= w).
Proof.
  intros Hb. induction xs as [|x xs IH]; simpl; [apply emits_ret|].
  apply emits_bind; [apply Hb|]. intros _; exact IH.
Qed.

Lemma emits_eq {A} (m : io A) w w' : emits port m w -> w = w' -> emits port m w'.
Proof. intros H <-. exact H. Qed.
End emits.

(** Step through a computation, leaving the calls it cannot decide. *)
Ltac emits_step :=
  lazymatch goal with
  | |- emits _ (_ ≫= _) _ => eapply emits_bind; [|intros ?]
  | |- emits _ (mret _) _ => apply emits_ret
  | |- emits _ (inb _) _ => apply emits_in
  | |- emits _ (inw _) _ => apply emits_in
  | |- emits _ (inl _) _ => apply emits_in
  | |- emits _ (outb _ _) _ => first [apply emits_outb_other; reflexivity | apply emits_outb]
  | |- emits _ (outw _ _) _ => apply emits_outw
  | |- emits _ (outl _ _) _ => apply emits_outl
  | |- emits _ (poll _ _) _ => apply emits_poll
  end.
