(* ===== verification/InputDev.v ===== *)
(** * Keyboard and mouse (drivers/keyboard.c, drivers/mouse.c)

    The two interrupt handlers and the circular buffers they fill.
    [keyboard_handler] and [mouse_handler] read the PS/2 ports; what they do
    with a byte is [kbd_scancode] and [mouse_byte].  Both buffers implement
    [BoundedFifo].  The theorems compare the handlers with an independent
    keyboard layout and with whole three-byte mouse packets.  The log lines
    the drivers send to the serial port are left out. *)

From Stdlib Require Import Ascii String.
From S2P Require Import Prelude Ring PortIO.
Local Open Scope Z_scope.
Local Open Scope sros_scope.

(** ** Keyboard *)

Definition KEY_UP : Z := 0xE0.
Definition KEY_DOWN : Z := 0xE1.
Definition KEY_LEFT : Z := 0xE2.
Definition KEY_RIGHT : Z := 0xE3.
Definition KEYBOARD_BUFFER_SIZE : Z := 256.

(** A C character constant. *)
Definition chr (c : ascii) : Z := Z.of_N (N_of_ascii c).

(** The array a list of designated initialisers denotes. *)
Definition table (init : list (Z * Z)) : list Z :=
  foldl (fun t e => <[Z.to_nat (fst e) := snd e]> t) (replicate 128 0) init.

Definition kbd_us_normal : list Z := table
  [ (0x01, 0x1B);
    (0x02, chr "1"); (0x03, chr "2"); (0x04, chr "3");
    (0x05, chr "4"); (0x06, chr "5"); (0x07, chr "6");
    (0x08, chr "7"); (0x09, chr "8"); (0x0A, chr "9");
    (0x0B, chr "0"); (0x0C, chr "-"); (0x0D, chr "=");
    (0x0E, 0x08);
    (0x0F, 9);
    (0x10, chr "q"); (0x11, chr "w"); (0x12, chr "e");
    (0x13, chr "r"); (0x14, chr "t"); (0x15, chr "y");
    (0x16, chr "u"); (0x17, chr "i"); (0x18, chr "o");
    (0x19, chr "p"); (0x1A, chr "["); (0x1B, chr "]");
    (0x1C, 10);
    (0x1E, chr "a"); (0x1F, chr "s"); (0x20, chr "d");
    (0x21, chr "f"); (0x22, chr "g"); (0x23, chr "h");
    (0x24, chr "j"); (0x25, chr "k"); (0x26, chr "l");
    (0x27, chr ";"); (0x28, chr "'"); (0x29, chr "`");
    (0x2B, chr "\");
    (0x2C, chr "z"); (0x2D, chr "x"); (0x2E, chr "c");
    (0x2F, chr "v"); (0x30, chr "b"); (0x31, chr "n");
    (0x32, chr "m"); (0x33, chr ","); (0x34, chr ".");
    (0x35, chr "/");
    (0x37, chr "*");
    (0x39, chr " ") ].

(** 34 is the double quote. *)
Definition kbd_us_shift : list Z := table
  [ (0x01, 0x1B);
    (0x02, chr "!"); (0x03, chr "@"); (0x04, chr "#");
    (0x05, chr "$"); (0x06, chr "%"); (0x07, chr "^");
    (0x08, chr "&"); (0x09, chr "*"); (0x0A, chr "(");
    (0x0B, chr ")"); (0x0C, chr "_"); (0x0D, chr "+");
    (0x0E, 0x08);
    (0x0F, 9);
    (0x10, chr "Q"); (0x11, chr "W"); (0x12, chr "E");
    (0x13, chr "R"); (0x14, chr "T"); (0x15, chr "Y");
    (0x16, chr "U"); (0x17, chr "I"); (0x18, chr "O");
    (0x19, chr "P"); (0x1A, chr "{"); (0x1B, chr "}");
    (0x1C, 10);
    (0x1E, chr "A"); (0x1F, chr "S"); (0x20, chr "D");
    (0x21, chr "F"); (0x22, chr "G"); (0x23, chr "H");
    (0x24, chr "J"); (0x25, chr "K"); (0x26, chr "L");
    (0x27, chr ":"); (0x28, 34); (0x29, chr "~");
    (0x2B, chr "|");
    (0x2C, chr "Z"); (0x2D, chr "X"); (0x2E, chr "C");
    (0x2F, chr "V"); (0x30, chr "B"); (0x31, chr "N");
    (0x32, chr "M"); (0x33, chr "<"); (0x34, chr ">");
    (0x35, chr "?");
    (0x37, chr "*");
    (0x39, chr " ") ].

(** The driver's static variables. *)
Record kbd : Type := mk_kbd {
  shift_pressed : Z;
  ctrl_pressed : Z;
  caps_lock_active : Z;
  kbd_buffer : list Z;
  kbd_buffer_head : Z;
  kbd_buffer_tail : Z
}.

Definition kbd_init : kbd :=
  mk_kbd 0 0 0 (replicate (Z.to_nat KEYBOARD_BUFFER_SIZE) 0) 0 0.

Definition set_shift (v : Z) (k : kbd) : kbd :=
  mk_kbd v (ctrl_pressed k) (caps_lock_active k) (kbd_buffer k) (kbd_buffer_head k)
    (kbd_buffer_tail k).
Definition set_ctrl (v : Z) (k : kbd) : kbd :=
  mk_kbd (shift_pressed k) v (caps_lock_active k) (kbd_buffer k) (kbd_buffer_head k)
    (kbd_buffer_tail k).
Definition set_caps (v : Z) (k : kbd) : kbd :=
  mk_kbd (shift_pressed k) (ctrl_pressed k) v (kbd_buffer k) (kbd_buffer_head k)
    (kbd_buffer_tail k).

Definition kbd_buffer_put (c : Z) (k : kbd) : kbd :=
  let next := (kbd_buffer_head k + 1) mod KEYBOARD_BUFFER_SIZE in
  if negb (next =? kbd_buffer_tail k)
  then mk_kbd (shift_pressed k) (ctrl_pressed k) (caps_lock_active k)
         (<[Z.to_nat (kbd_buffer_head k) := u8 c]> (kbd_buffer k)) next (kbd_buffer_tail k)
  else k.

Definition kbd_buffer_get (k : kbd) : Z * kbd :=
  if kbd_buffer_head k =? kbd_buffer_tail k then (0, k)
  else
    let c := nth (Z.to_nat (kbd_buffer_tail k)) (kbd_buffer k) 0 in
    (c, mk_kbd (shift_pressed k) (ctrl_pressed k) (caps_lock_active k) (kbd_buffer k)
          (kbd_buffer_head k) ((kbd_buffer_tail k + 1) mod KEYBOARD_BUFFER_SIZE)).

Definition kbd_buffer_has_data (k : kbd) : Z :=
  c_bool (negb (kbd_buffer_head k =? kbd_buffer_tail k)).

(** The translation at the end of [keyboard_handler]: table lookup, arrow
    keys, caps lock.  0 is "no character". *)
Definition kbd_translate (shift caps sc : Z) : Z :=
  let ch := if c_true shift then nth (Z.to_nat sc) kbd_us_shift 0
            else nth (Z.to_nat sc) kbd_us_normal 0 in
  if ((ch =? 0) && (sc =? 0x48))%bool then KEY_UP
  else if ((ch =? 0) && (sc =? 0x50))%bool then KEY_DOWN
  else if ((ch =? 0) && (sc =? 0x4B))%bool then KEY_LEFT
  else if ((ch =? 0) && (sc =? 0x4D))%bool then KEY_RIGHT
  else if (c_true caps && (chr "a" <=? ch) && (ch <=? chr "z"))%bool then u8 (ch - 32)
  else if (c_true caps && (chr "A" <=? ch) && (ch <=? chr "Z"))%bool then u8 (ch + 32)
  else ch.

(** What [keyboard_handler] does with a scancode. *)
Definition kbd_scancode (scancode : Z) (k : kbd) : kbd :=
  if c_true (scancode .& 0x80) then
    let code := scancode .& 0x7F in
    if ((code =? 0x2A) || (code =? 0x36))%bool then set_shift 0 k
    else if code =? 0x1D then set_ctrl 0 k
    else k
  else if ((scancode =? 0x2A) || (scancode =? 0x36))%bool then set_shift 1 k
  else if scancode =? 0x1D then set_ctrl 1 k
  else if scancode =? 0x3A then set_caps (c_bool (negb (c_true (caps_lock_active k)))) k
  else
    let ch := kbd_translate (shift_pressed k) (caps_lock_active k) scancode in
    if negb (ch =? 0) then kbd_buffer_put ch k else k.

(** ** Mouse *)

Record mouse_event : Type := mk_event { buttons : Z; dx : Z; dy : Z }.

Definition MOUSE_BUFFER_SIZE : Z := 64.

Record mouse : Type := mk_mouse {
  mouse_buffer : list mouse_event;
  mouse_buf_head : Z;
  mouse_buf_tail : Z;
  mouse_cycle : Z;
  mouse_packet : list Z
}.

Definition mouse_start : mouse :=
  mk_mouse (replicate (Z.to_nat MOUSE_BUFFER_SIZE) (mk_event 0 0 0)) 0 0 0 [0; 0; 0].

Definition mouse_buffer_put (ev : mouse_event) (m : mouse) : mouse :=
  let next := u8 (mouse_buf_head m + 1) mod MOUSE_BUFFER_SIZE in
  if negb (next =? mouse_buf_tail m)
  then mk_mouse (<[Z.to_nat (mouse_buf_head m) := ev]> (mouse_buffer m)) next
         (mouse_buf_tail m) (mouse_cycle m) (mouse_packet m)
  else m.

(** [None] is the return value 0 (no event, nothing stored). *)
Definition mouse_read (m : mouse) : option (mouse_event * mouse) :=
  if mouse_buf_head m =? mouse_buf_tail m then None
  else
    Some (nth (Z.to_nat (mouse_buf_tail m)) (mouse_buffer m) (mk_event 0 0 0),
          mk_mouse (mouse_buffer m) (mouse_buf_head m)
            ((mouse_buf_tail m + 1) mod MOUSE_BUFFER_SIZE) (mouse_cycle m) (mouse_packet m)).

Definition mouse_has_data (m : mouse) : Z :=
  c_bool (negb (mouse_buf_head m =? mouse_buf_tail m)).

Definition set_packet (i : nat) (v cycle : Z) (m : mouse) : mouse :=
  mk_mouse (mouse_buffer m) (mouse_buf_head m) (mouse_buf_tail m) cycle
    (<[i := v]> (mouse_packet m)).

(** What [mouse_handler] does with a byte. *)
Definition mouse_byte (data : Z) (m : mouse) : mouse :=
  if mouse_cycle m =? 0 then
    if negb (c_true (data .& 0x08)) then m else set_packet 0 data 1 m
  else if mouse_cycle m =? 1 then set_packet 1 data 2 m
  else if mouse_cycle m =? 2 then
    let m := set_packet 2 data 0 m in
    let p := mouse_packet m in
    let ev := mk_event (nth 0 p 0 .& 0x07) (i8 (nth 1 p 0)) (i8 (nth 2 p 0)) in
    if c_true (nth 0 p 0 .& 0xC0) then m else mouse_buffer_put ev m
  else m.

Definition mouse_handler (m : mouse) : io mouse :=
  data ← inb 0x60; mret (mouse_byte data m).

Definition keyboard_handler (s : kbd * mouse) : io (kbd * mouse) :=
  status ← inb 0x64;
  if c_true (status .& 0x20) then
    m ← mouse_handler (snd s); mret (fst s, m)
  else
    scancode ← inb 0x60; mret (kbd_scancode scancode (fst s), snd s).

(** *** Initialisation *)

(** Both waits return without a result, also when they time out. *)
Definition ps2_wait_write : io bool :=
  poll (Z.to_nat 10000) (st ← inb 0x64; mret (negb (c_true (st .& 0x02)))).

Definition ps2_wait_read : io bool :=
  poll (Z.to_nat 10000) (st ← inb 0x64; mret (c_true (st .& 0x01))).

Definition ps2_flush : io bool :=
  poll 100 (st ← inb 0x64;
            if negb (c_true (st .& 0x01)) then mret true
            else _ ← inb 0x60; mret false).

Definition mouse_send_cmd (cmd : Z) : io Z :=
  _ ← ps2_wait_write;
  _ ← outb 0x64 0xD4;
  _ ← ps2_wait_write;
  _ ← outb 0x60 cmd;
  _ ← ps2_wait_read;
  ack ← inb 0x60;
  mret (c_bool (ack =? 0xFA)).

Definition mouse_init : io unit :=
  _ ← ps2_flush;
  _ ← ps2_wait_write;
  _ ← outb 0x64 0xA8;
  mask ← inb 0xA1;
  _ ← outb 0xA1 (mask .& not32 (Z.shiftl 1 4));
  _ ← mouse_send_cmd 0xF6;
  _ ← mouse_send_cmd 0xF4;
  _ ← ps2_flush;
  mret tt.

(** ** Specification: the US layout *)

(** The layout of a keyboard, row by row: the first scancode of the row, the
    characters without and with shift. *)
Definition quote : string := String (ascii_of_nat 34) EmptyString.
Definition layout : list (Z * string * string) :=
  [ (0x02, "1234567890-=", "!@#$%^&*()_+");
    (0x10, "qwertyuiop[]", "QWERTYUIOP{}");
    (0x1E, "asdfghjkl;'`", "ASDFGHJKL:" ++ quote ++ "~");
    (0x2B, "\zxcvbnm,./", "|ZXCVBNM<>?");
    (0x37, "*", "*"); (0x39, " ", " ") ]%string.

(** Keys that give the same code whatever the modifiers: escape, backspace,
    tab, enter and the arrows. *)
Definition plain_keys : list (Z * Z) :=
  [ (0x01, 27); (0x0E, 8); (0x0F, 9); (0x1C, 10);
    (0x48, KEY_UP); (0x50, KEY_DOWN); (0x4B, KEY_LEFT); (0x4D, KEY_RIGHT) ].

Definition in_row (sc : Z) (row : Z * string * string) : option (ascii * ascii) :=
  let '(first, normal, shifted) := row in
  if sc <? first then None
  else match String.get (Z.to_nat (sc - first)) normal, String.get (Z.to_nat (sc - first)) shifted with
       | Some n, Some s => Some (n, s)
       | _, _ => None
       end.

Fixpoint first_some {A B} (f : A -> option B) (l : list A) : option B :=
  match l with
  | [] => None
  | x :: l => match f x with Some y => Some y | None => first_some f l end
  end.

Definition is_letter (c : ascii) : bool := ((chr "a" <=? chr c) && (chr c <=? chr "z"))%bool.

(** The character of a key press: shift selects the upper symbol; for a
    letter, caps lock inverts the effect of shift. *)
Definition key_char (shift caps : bool) (sc : Z) : option Z :=
  match first_some (fun kc => if fst kc =? sc then Some (snd kc) else None) plain_keys with
  | Some c => Some c
  | None =>
      match first_some (in_row sc) layout with
      | Some (n, s) =>
          let upper := if is_letter n then xorb shift caps else shift in
          Some (chr (if upper then s else n))
      | None => None
      end
  end.

(** Modifier state and the characters typed so far. *)
Definition key_event (st : bool * bool * list Z) (sc : Z) : bool * bool * list Z :=
  let '(shift, caps, typed) := st in
  if sc =? 0x2A then (true, caps, typed)
  else if sc =? 0x36 then (true, caps, typed)
  else if sc =? 0xAA then (false, caps, typed)
  else if sc =? 0xB6 then (false, caps, typed)
  else if sc =? 0x3A then (shift, negb caps, typed)
  else if sc <? 0x80 then
    (shift, caps, typed ++ match key_char shift caps sc with Some c => [c] | None => [] end)
  else st.

(** ** The buffers are bounded FIFOs *)

Definition kbd_rep (k : kbd) (q : list Z) : Prop :=
  ring_rep KEYBOARD_BUFFER_SIZE (kbd_buffer k) (kbd_buffer_tail k) q /\
  Z.of_nat (length q) < KEYBOARD_BUFFER_SIZE /\
  kbd_buffer_head k = ring_end KEYBOARD_BUFFER_SIZE (kbd_buffer_tail k) q.

Definition mouse_rep (m : mouse) (q : list mouse_event) : Prop :=
  ring_rep MOUSE_BUFFER_SIZE (mouse_buffer m) (mouse_buf_tail m) q /\
  Z.of_nat (length q) < MOUSE_BUFFER_SIZE /\
  mouse_buf_head m = ring_end MOUSE_BUFFER_SIZE (mouse_buf_tail m) q.

Lemma kbd_put_spec c k q :
  kbd_rep k q ->
  kbd_rep (kbd_buffer_put c k) (if decide (length q < 255)%nat then q ++ [u8 c] else q).
Proof.
  intros (Hr & Hq & Hh). unfold kbd_buffer_put.
  pose proof Hr as (_ & Hrd & _).
  pose proof (ring_end_full KEYBOARD_BUFFER_SIZE ltac:(reflexivity) (kbd_buffer_tail k) q Hrd Hq) as F.
  rewrite <- Hh in F. unfold KEYBOARD_BUFFER_SIZE in *.
  destruct (Z.eqb_spec ((kbd_buffer_head k + 1) mod 256) (kbd_buffer_tail k)) as [E|E]; simpl.
  - rewrite decide_False by (apply F in E; lia). exact (conj Hr (conj Hq Hh)).
  - assert (Hl : Z.of_nat (length q) <> 256 - 1) by tauto.
    rewrite decide_True by lia.
    split; [|split]; simpl.
    + rewrite Hh. apply ring_rep_push; [reflexivity|exact Hr|lia].
    + unfold KEYBOARD_BUFFER_SIZE. rewrite length_app. simpl. lia.
    + rewrite Hh. apply ring_end_push.
Qed.

Lemma kbd_has_data_spec k q :
  kbd_rep k q -> kbd_buffer_has_data k = match q with [] => 0 | _ :: _ => 1 end.
Proof.
  intros (Hr & Hq & Hh). pose proof Hr as (_ & Hrd & _). unfold kbd_buffer_has_data.
  pose proof (ring_end_empty KEYBOARD_BUFFER_SIZE ltac:(reflexivity) (kbd_buffer_tail k) q Hrd Hq) as F.
  rewrite <- Hh in F. destruct (Z.eqb_spec (kbd_buffer_head k) (kbd_buffer_tail k)) as [E|E].
  - apply F in E as ->. reflexivity.
  - destruct q; [tauto|reflexivity].
Qed.

Lemma kbd_get_spec k q :
  kbd_rep k q ->
  match q with
  | [] => kbd_buffer_get k = (0, k)
  | c :: q' => exists k', kbd_buffer_get k = (c, k') /\ kbd_rep k' q' /\
      shift_pressed k' = shift_pressed k /\ caps_lock_active k' = caps_lock_active k
  end.
Proof.
  intros Hk. pose proof (kbd_has_data_spec k q Hk) as Hd. destruct Hk as (Hr & Hq & Hh).
  unfold kbd_buffer_has_data in Hd. unfold kbd_buffer_get.
  destruct (kbd_buffer_head k =? kbd_buffer_tail k); destruct q as [|c q]; try discriminate;
    [reflexivity|].
  eexists. split; [f_equal; apply nth_lookup_Some, (ring_rep_head KEYBOARD_BUFFER_SIZE ltac:(reflexivity) _ _ _ _ Hr)|].
  split; [|split; reflexivity]. split; [|split]; simpl.
  - eapply ring_rep_pop; [reflexivity|exact Hr].
  - cbn [length] in Hq. lia.
  - rewrite Hh. symmetry. apply ring_end_pop.
Qed.

#[export] Program Instance kbd_fifo : BoundedFifo kbd Z := {
  fifo_put := kbd_buffer_put;
  fifo_get k := if c_true (kbd_buffer_has_data k) then Some (kbd_buffer_get k) else None;
  fifo_has_data k := c_true (kbd_buffer_has_data k);
  fifo_capacity := 255;
  fifo_cell := u8;
  fifo_rep := kbd_rep
}.
Next Obligation. intros c k q. apply kbd_put_spec. Qed.
Next Obligation.
  intros k q Hk. cbv beta. rewrite (kbd_has_data_spec k q Hk).
  pose proof (kbd_get_spec k q Hk) as G. destruct q as [|c q]; [reflexivity|].
  destruct G as (k' & G & Hk' & _). exists k'. simpl. rewrite G. auto.
Qed.
Next Obligation.
  intros k q Hk. cbv beta. rewrite (kbd_has_data_spec k q Hk). destruct q; reflexivity.
Qed.

Lemma mouse_put_spec e m q :
  mouse_rep m q ->
  mouse_rep (mouse_buffer_put e m) (if decide (length q < 63)%nat then q ++ [e] else q).
Proof.
  intros (Hr & Hq & Hh). unfold mouse_buffer_put.
  pose proof Hr as (_ & Hrd & _).
  pose proof (ring_end_full MOUSE_BUFFER_SIZE ltac:(reflexivity) (mouse_buf_tail m) q Hrd Hq) as F.
  pose proof (ring_end_range MOUSE_BUFFER_SIZE ltac:(reflexivity) (mouse_buf_tail m) q) as Hb.
  rewrite <- Hh in F, Hb. unfold MOUSE_BUFFER_SIZE in *. rewrite u8_small by lia.
  destruct (Z.eqb_spec ((mouse_buf_head m + 1) mod 64) (mouse_buf_tail m)) as [E|E]; simpl.
  - rewrite decide_False by (apply F in E; lia). exact (conj Hr (conj Hq Hh)).
  - assert (Hl : Z.of_nat (length q) <> 64 - 1) by tauto.
    rewrite decide_True by lia.
    split; [|split]; simpl.
    + rewrite Hh. apply ring_rep_push; [reflexivity|exact Hr|lia].
    + unfold MOUSE_BUFFER_SIZE. rewrite length_app. simpl. lia.
    + rewrite Hh. apply ring_end_push.
Qed.

Lemma mouse_has_data_spec m q :
  mouse_rep m q -> mouse_has_data m = match q with [] => 0 | _ :: _ => 1 end.
Proof.
  intros (Hr & Hq & Hh). pose proof Hr as (_ & Hrd & _). unfold mouse_has_data.
  pose proof (ring_end_empty MOUSE_BUFFER_SIZE ltac:(reflexivity) (mouse_buf_tail m) q Hrd Hq) as F.
  rewrite <- Hh in F. destruct (Z.eqb_spec (mouse_buf_head m) (mouse_buf_tail m)) as [E|E].
  - apply F in E as ->. reflexivity.
  - destruct q; [tauto|reflexivity].
Qed.

Lemma mouse_read_spec m q :
  mouse_rep m q ->
  match q with
  | [] => mouse_read m = None
  | e :: q' => exists m', mouse_read m = Some (e, m') /\ mouse_rep m' q' /\
      mouse_cycle m' = mouse_cycle m /\ mouse_packet m' = mouse_packet m
  end.
Proof.
  intros Hm. pose proof (mouse_has_data_spec m q Hm) as Hd. destruct Hm as (Hr & Hq & Hh).
  unfold mouse_has_data in Hd. unfold mouse_read.
  destruct (mouse_buf_head m =? mouse_buf_tail m); destruct q as [|e q]; try discriminate;
    [reflexivity|].
  eexists. split; [do 2 f_equal; apply nth_lookup_Some, (ring_rep_head MOUSE_BUFFER_SIZE ltac:(reflexivity) _ _ _ _ Hr)|].
  split; [|split; reflexivity]. split; [|split]; simpl.
  - eapply ring_rep_pop; [reflexivity|exact Hr].
  - cbn [length] in Hq. lia.
  - rewrite Hh. symmetry. apply ring_end_pop.
Qed.

#[export] Program Instance mouse_fifo : BoundedFifo mouse mouse_event := {
  fifo_put := mouse_buffer_put;
  fifo_get := mouse_read;
  fifo_has_data m := c_true (mouse_has_data m);
  fifo_capacity := 63;
  fifo_cell e := e;
  fifo_rep := mouse_rep
}.
Next Obligation. intros e m q. apply mouse_put_spec. Qed.
Next Obligation.
  intros m q Hm. pose proof (mouse_read_spec m q Hm) as G. destruct q as [|e q]; [exact G|].
  destruct G as (m' & G & Hm' & _). exists m'. auto.
Qed.
Next Obligation.
  intros m q Hm. cbv beta. rewrite (mouse_has_data_spec m q Hm). destruct q; reflexivity.
Qed.

Lemma kbd_init_rep : kbd_rep kbd_init [].
Proof.
  split; [|split; reflexivity].
  apply ring_rep_empty; [reflexivity|apply length_replicate|split; [discriminate|reflexivity]].
Qed.

Lemma mouse_start_rep : mouse_rep mouse_start [].
Proof.
  split; [|split; reflexivity].
  apply ring_rep_empty; [reflexivity|apply length_replicate|split; [discriminate|reflexivity]].
Qed.

(** a burst of characters is read back in order: the first 255 of
    them, converted to bytes; the rest is dropped. *)
Theorem keyboard_buffer_fifo (cs : list Z) (n : nat) :
  fst (fifo_drain n (fifo_puts cs kbd_init)) = take n (take 255 (u8 <$> cs)).
Proof.
  pose proof (fifo_puts_spec cs kbd_init [] kbd_init_rep ltac:(simpl; lia)) as P.
  destruct (fifo_drain_spec n _ _ P) as [-> _]. reflexivity.
Qed.

(** ** The handlers *)

Lemma kbd_translate_spec shift caps sc :
  is_u8 sc -> sc < 128 ->
  kbd_translate (c_bool shift) (c_bool caps) sc =
    match key_char shift caps sc with Some c => c | None => 0 end.
Proof.
  intros Hsc Hlt.
  by_bytes (fun sc => (128 <=? sc) || forallb (fun shift : bool => forallb (fun caps : bool =>
      kbd_translate (c_bool shift) (c_bool caps) sc =?
        match key_char shift caps sc with Some c => c | None => 0 end)
    [true; false]) [true; false])%bool Hsc.
  rewrite (proj2 (Z.leb_gt 128 sc) Hlt) in T. cbn [forallb orb] in T.
  repeat (apply andb_prop in T as [T ?]).
  destruct shift, caps; bool_prop; assumption.
Qed.

Lemma key_char_u8 shift caps sc c :
  is_u8 sc -> sc < 128 -> key_char shift caps sc = Some c -> 0 < c < 256.
Proof.
  intros Hsc Hlt Hc.
  by_bytes (fun sc => (128 <=? sc) || forallb (fun shift : bool => forallb (fun caps : bool =>
      match key_char shift caps sc with Some c => (0 <? c) && (c <? 256) | None => true end)
    [true; false]) [true; false])%bool Hsc.
  rewrite (proj2 (Z.leb_gt 128 sc) Hlt) in T. cbn [forallb orb] in T.
  repeat (apply andb_prop in T as [T ?]).
  destruct shift, caps; rewrite Hc in *; bool_prop; lia.
Qed.

(** One scancode implements one event of the layout. *)
Lemma kbd_scancode_step k q shift caps sc :
  is_u8 sc -> shift_pressed k = c_bool shift -> caps_lock_active k = c_bool caps ->
  kbd_rep k q -> (length q <= 255)%nat ->
  let '(shift', caps', typed') := key_event (shift, caps, []) sc in
  let k' := kbd_scancode sc k in
  shift_pressed k' = c_bool shift' /\ caps_lock_active k' = c_bool caps' /\
  kbd_rep k' (take 255 (q ++ typed')).
Proof.
  intros Hsc Hs Hc Hq Hl. unfold kbd_scancode, key_event.
  by_bytes (fun b => Bool.eqb (c_true (b .& 0x80)) (128 <=? b) &&
    ((b <? 128) || ((b .& 0x7F) =? b - 128)))%bool Hsc.
  apply Bool.eqb_prop in H. rewrite H. rewrite app_nil_l in *.
  destruct (Z.leb_spec 128 sc) as [Hhi|Hlo].
  - rewrite (proj2 (Z.ltb_ge sc 128)) in * by lia. cbn [orb] in H0. apply Z.eqb_eq in H0. rewrite H0.
    repeat case_if; bool_prop; try lia; rewrite ?app_nil_r, ?take_ge by lia; auto;
      repeat match goal with H : (_ || _)%bool = true |- _ => apply orb_prop in H as [H|H] end;
      bool_prop; try lia; auto.
  - rewrite (proj2 (Z.ltb_lt sc 128)) by lia.
    pose proof (kbd_translate_spec shift caps sc Hsc Hlo) as Ht.
    rewrite <- Hs, <- Hc in Ht. rewrite Ht. rewrite Hc.
    pose proof (key_char_u8 shift caps sc) as Hu.
    rewrite (proj2 (Z.eqb_neq sc 0xAA)), (proj2 (Z.eqb_neq sc 0xB6)) by lia.
    destruct (Z.eqb_spec sc 0x2A); simpl; [rewrite app_nil_r, take_ge by lia; auto|].
    destruct (Z.eqb_spec sc 0x36); simpl; [rewrite app_nil_r, take_ge by lia; auto|].
    destruct (Z.eqb_spec sc 0x3A) as [->|]; simpl.
    + rewrite app_nil_r, take_ge by lia. destruct caps; auto.
    + destruct (Z.eqb_spec sc 0x1D) as [->|]; simpl.
      * destruct shift; simpl; rewrite app_nil_r, take_ge by lia; auto.
      * destruct (key_char shift caps sc) as [c|] eqn:E; simpl;
          [|rewrite app_nil_r, take_ge by lia; auto].
        specialize (Hu c Hsc Hlo eq_refl). rewrite (proj2 (Z.eqb_neq c 0)) by lia. simpl.
        pose proof (fifo_puts_spec [c] k q Hq Hl) as P. cbn in P.
        rewrite (u8_small c) in P by lia. split; [|split; [|exact P]];
          unfold kbd_buffer_put; case_if; assumption.
Qed.

Lemma key_event_acc shift caps typed sc :
  key_event (shift, caps, typed) sc =
    let '(s, c, t) := key_event (shift, caps, []) sc in (s, c, typed ++ t).
Proof. unfold key_event. repeat case_if; rewrite ?app_nil_r; reflexivity. Qed.

Lemma key_events_acc scs : forall shift caps typed,
  foldl key_event (shift, caps, typed) scs =
    let '(s, c, t) := foldl key_event (shift, caps, []) scs in (s, c, typed ++ t).
Proof.
  induction scs as [|sc scs IH]; intros shift caps typed; cbn [foldl];
    [rewrite app_nil_r; reflexivity|].
  rewrite (key_event_acc shift caps typed).
  destruct (key_event (shift, caps, []) sc) as [[s c] t].
  rewrite (IH s c (typed ++ t)), (IH s c t).
  destruct (foldl key_event (s, c, []) scs) as [[s' c'] t']. rewrite app_assoc. reflexivity.
Qed.

(** A stream of scancodes, as the interrupts deliver it. *)
Lemma kbd_stream_rep scs : forall k q shift caps,
  Forall is_u8 scs -> shift_pressed k = c_bool shift -> caps_lock_active k = c_bool caps ->
  kbd_rep k q -> (length q <= 255)%nat ->
  let '(shift', caps', typed) := foldl key_event (shift, caps, []) scs in
  let k' := foldl (fun k sc => kbd_scancode sc k) k scs in
  shift_pressed k' = c_bool shift' /\ caps_lock_active k' = c_bool caps' /\
  kbd_rep k' (take 255 (q ++ typed)).
Proof.
  induction scs as [|sc scs IH]; intros k q shift caps Hsc Hs Hc Hq Hl; cbn [foldl].
  - rewrite app_nil_r, take_ge by lia. auto.
  - apply Forall_cons_1 in Hsc as [Hsc1 Hsc].
    pose proof (kbd_scancode_step k q shift caps sc Hsc1 Hs Hc Hq Hl) as S1. cbv zeta in S1.
    destruct (key_event (shift, caps, []) sc) as [[s1 c1] t1]. destruct S1 as (A1 & A2 & A3).
    assert (Hl1 : (length (take 255 (q ++ t1)) <= 255)%nat) by (rewrite length_take; lia).
    specialize (IH _ _ s1 c1 Hsc A1 A2 A3 Hl1). rewrite key_events_acc.
    destruct (foldl key_event (s1, c1, []) scs) as [[s2 c2] t2].
    rewrite take_take_app, <- app_assoc in IH. exact IH.
Qed.

(** over any stream of scancodes the keyboard driver types what the US
    layout says, with shift and caps lock tracked, and the buffer then yields
    the first 255 of those characters in order. *)
Theorem keyboard_stream (scs : list Z) :
  Forall is_u8 scs ->
  let k := foldl (fun k sc => kbd_scancode sc k) kbd_init scs in
  let '(shift, caps, typed) := foldl key_event (false, false, []) scs in
  fst (fifo_drain 255 k) = take 255 typed /\
  kbd_buffer_has_data (snd (fifo_drain 255 k)) = 0 /\
  shift_pressed k = c_bool shift /\ caps_lock_active k = c_bool caps.
Proof.
  intros Hsc. pose proof (kbd_stream_rep scs kbd_init [] false false Hsc eq_refl eq_refl
    kbd_init_rep ltac:(simpl; lia)) as S.
  cbv zeta. destruct (foldl key_event (false, false, []) scs) as [[s c] t].
  destruct S as (S1 & S2 & S3). destruct (fifo_drain_spec (F := kbd_fifo) 255 _ _ S3) as [D1 D2].
  rewrite app_nil_l in *. rewrite take_take, Nat.min_id in D1.
  repeat split; try assumption.
  rewrite drop_ge in D2 by (rewrite length_take; lia).
  apply (kbd_has_data_spec _ _ D2).
Qed.

(** Shift, a, shift released, caps lock, a, 1, up arrow. *)
Lemma keyboard_stream_witness :
  fst (fifo_drain 255 (foldl (fun k sc => kbd_scancode sc k) kbd_init
    [0x2A; 0x1E; 0xAA; 0x1E; 0x3A; 0x9E; 0x1E; 0x02; 0x48])) = [65; 97; 65; 49; KEY_UP].
Proof.
  apply (proj1 (keyboard_stream [0x2A; 0x1E; 0xAA; 0x1E; 0x3A; 0x9E; 0x1E; 0x02; 0x48]
    ltac:(repeat constructor; unfold is_u8; lia))).
Defined.

(** ** Mouse packets *)

(** The event of a packet, unless one of its overflow bits is set. *)
Definition packet_event (p : Z * Z * Z) : option mouse_event :=
  let '(b0, b1, b2) := p in
  if c_true (b0 .& 0xC0) then None else Some (mk_event (b0 .& 7) (i8 b1) (i8 b2)).

Definition packet_bytes (p : Z * Z * Z) : list Z := let '(b0, b1, b2) := p in [b0; b1; b2].

(** Bit 3 marks the first byte of a packet. *)
Definition sync_byte (b : Z) : bool := c_true (b .& 0x08).

Definition mouse_bytes (m : mouse) (bs : list Z) : mouse := foldl (fun m b => mouse_byte b m) m bs.

(** Between packets the state machine is in cycle 0. *)
Definition mouse_idle (m : mouse) (q : list mouse_event) : Prop :=
  mouse_cycle m = 0 /\ length (mouse_packet m) = 3%nat /\ mouse_rep m q.

Lemma mouse_noise bs : forall m,
  mouse_cycle m = 0 -> Forall (fun b => sync_byte b = false) bs -> mouse_bytes m bs = m.
Proof.
  unfold mouse_bytes. induction bs as [|b bs IH]; intros m Hm Hbs; cbn [foldl]; [reflexivity|].
  apply Forall_cons_1 in Hbs as [Hb Hbs].
  assert (E : mouse_byte b m = m).
  { unfold mouse_byte. rewrite Hm. unfold sync_byte in Hb. rewrite Hb. reflexivity. }
  rewrite E. apply IH; assumption.
Qed.

Lemma mouse_one_packet m q p :
  mouse_idle m q -> sync_byte (fst (fst p)) = true -> (length q <= 63)%nat ->
  mouse_idle (mouse_bytes m (packet_bytes p)) (take 63 (q ++ option_list (packet_event p))).
Proof.
  destruct p as [[b0 b1] b2]. intros (Hc & Hl & Hr) Hs Hq. cbn [fst] in Hs.
  destruct m as [buf hd tl cy pk]. cbn [mouse_cycle mouse_packet] in *.
  destruct pk as [|x [|y [|z [|]]]]; try discriminate Hl. subst cy.
  unfold mouse_bytes, packet_bytes, packet_event. cbn [foldl].
  unfold mouse_byte at 3. unfold sync_byte in Hs. rewrite Hs.
  unfold mouse_byte at 2. cbn.
  destruct (c_true (b0 .& 0xC0)); cbn [option_list].
  - rewrite app_nil_r, take_ge by lia. split; [reflexivity|]. split; [reflexivity|exact Hr].
  - set (ev := mk_event (b0 .& 7) (i8 b1) (i8 b2)).
    set (m1 := mk_mouse buf hd tl 0 [b0; b1; b2]).
    assert (R1 : mouse_rep m1 q) by exact Hr.
    pose proof (fifo_puts_spec [ev] m1 q R1 Hq) as P. cbn in P.
    assert (Hk : mouse_cycle (mouse_buffer_put ev m1) = 0 /\
      length (mouse_packet (mouse_buffer_put ev m1)) = 3%nat).
    { unfold mouse_buffer_put. case_if; split; reflexivity. }
    destruct Hk as [K1 K2]. split; [exact K1|]. split; [exact K2|]. exact P.
Qed.

Lemma mouse_packets_rep ps : forall m q,
  mouse_idle m q -> Forall (fun p => sync_byte (fst (fst p)) = true) ps -> (length q <= 63)%nat ->
  mouse_idle (mouse_bytes m (ps ≫= packet_bytes)) (take 63 (q ++ omap packet_event ps)).
Proof.
  induction ps as [|p ps IH]; intros m q Hm Hps Hq.
  - cbn. rewrite app_nil_r, take_ge by lia. exact Hm.
  - apply Forall_cons_1 in Hps as [Hp Hps]. rewrite bind_cons. unfold mouse_bytes in *.
    rewrite foldl_app. pose proof (mouse_one_packet m q p Hm Hp Hq) as H1.
    specialize (IH _ _ H1 Hps ltac:(rewrite length_take; lia)).
    rewrite take_take_app, <- app_assoc in IH.
    replace (omap packet_event (p :: ps)) with (option_list (packet_event p) ++ omap packet_event ps)
      by (cbn; destruct (packet_event p); reflexivity).
    exact IH.
Qed.

(** the mouse state machine skips bytes until one has the
    synchronisation bit, then turns every three bytes into one event, except
    the packets whose overflow bits are set; the buffer keeps the first 63. *)
Theorem mouse_stream (noise : list Z) (ps : list (Z * Z * Z)) :
  Forall (fun b => sync_byte b = false) noise ->
  Forall (fun p => sync_byte (fst (fst p)) = true) ps ->
  let m := mouse_bytes mouse_start (noise ++ (ps ≫= packet_bytes)) in
  mouse_cycle m = 0 /\
  fst (fifo_drain 63 m) = take 63 (omap packet_event ps) /\
  mouse_has_data (snd (fifo_drain 63 m)) = 0.
Proof.
  intros Hn Hp. cbv zeta. unfold mouse_bytes. rewrite foldl_app. fold (mouse_bytes mouse_start noise).
  rewrite (mouse_noise noise mouse_start eq_refl Hn).
  destruct (mouse_packets_rep ps mouse_start [] (conj eq_refl (conj eq_refl mouse_start_rep)) Hp
    ltac:(simpl; lia)) as (C & _ & R).
  unfold mouse_bytes in *. split; [exact C|].
  destruct (fifo_drain_spec (F := mouse_fifo) 63 _ _ R) as [D1 D2].
  rewrite take_take, Nat.min_id in D1. split; [exact D1|].
  rewrite drop_ge in D2 by (rewrite length_take; lia). apply (mouse_has_data_spec _ _ D2).
Qed.

Lemma mouse_stream_witness :
  fst (fifo_drain 63 (mouse_bytes mouse_start
    ([0x00; 0x17] ++ ([(0x09, 5, 251); (0x48, 1, 1); (0x08, 255, 0)] ≫= packet_bytes)))) =
  [mk_event 1 5 (-5); mk_event 0 (-1) 0].
Proof.
  apply (proj1 (proj2 (mouse_stream [0x00; 0x17] [(0x09, 5, 251); (0x48, 1, 1); (0x08, 255, 0)]
    ltac:(repeat constructor) ltac:(repeat constructor)))).
Defined.

(** ** Interrupt dispatch *)

(** A device whose status and data ports answer from a list of interrupts. *)
Definition ps2_script (evs : list (Z * Z)) : device := fun h _ _ =>
  let e := nth (length h / 2) evs (0, 0) in
  if Nat.even (length h) then fst e else snd e.

Fixpoint interrupts (n : nat) (s : kbd * mouse) : io (kbd * mouse) :=
  match n with
  | O => mret s
  | S n => s ← keyboard_handler s; interrupts n s
  end.

Definition from_mouse (e : Z * Z) : bool := c_true (fst e .& 0x20).

Lemma interrupts_script evs0 : forall evs k m h,
  Forall (fun e => is_u8 (fst e) /\ is_u8 (snd e)) evs ->
  length h = (2 * length evs0)%nat ->
  exists h', interrupts (length evs) (k, m) (ps2_script (evs0 ++ evs)) h =
    Some ((foldl (fun k sc => kbd_scancode sc k) k (snd <$> filter (fun e => from_mouse e = false) evs),
           mouse_bytes m (snd <$> filter (fun e => from_mouse e = true) evs)), h') /\
    length h' = (length h + 2 * length evs)%nat.
Proof.
  intros evs. revert evs0. induction evs as [|[st v] evs IH]; intros evs0 k m h Hu Hh.
  - exists h. split; [reflexivity|simpl; lia].
  - apply Forall_cons_1 in Hu as [[Hst Hv] Hu]. cbn [fst snd] in *.
    assert (E1 : ps2_script (evs0 ++ (st, v) :: evs) h 1 (u16 0x64) = st).
    { unfold ps2_script. rewrite Hh. rewrite Nat.even_mul. simpl Nat.even. cbn [orb].
      rewrite (Nat.mul_comm 2), Nat.div_mul by lia. rewrite app_nth2, Nat.sub_diag by lia. reflexivity. }
    assert (E2 : forall e, ps2_script (evs0 ++ (st, v) :: evs) (h ++ [e]) 1 (u16 0x60) = v).
    { intros e. unfold ps2_script. rewrite length_app, Hh. cbn [length].
      rewrite Nat.even_add, Nat.even_mul. simpl Nat.even. cbn [orb Bool.eqb].
      replace ((2 * length evs0 + 1) / 2)%nat with (length evs0)
        by (rewrite (Nat.mul_comm 2), Nat.div_add_l by lia; simpl; lia).
      rewrite app_nth2, Nat.sub_diag by lia. reflexivity. }
    cbn [length interrupts]. unfold keyboard_handler, mouse_handler, inb, inw_width.
    unfold mbind, io_bind. rewrite E1. change (st mod 256) with (u8 st). rewrite u8_small by exact Hst.
    specialize (IH (evs0 ++ [(st, v)])). rewrite <- app_assoc in IH. cbn [app] in IH.
    assert (Hh' : forall e1 e2, length ((h ++ [e1]) ++ [e2]) = (2 * length (evs0 ++ [(st, v)]))%nat).
    { intros. rewrite !length_app, Hh. cbn [length]. lia. }
    change (c_true (st .& 0x20)) with (from_mouse (st, v)).
    destruct (from_mouse (st, v)) eqn:Eb;
      rewrite E2; change (v mod 256) with (u8 v); rewrite u8_small by exact Hv; unfold mret, io_ret;
      cbn [fst snd].
    + rewrite filter_cons_False by congruence. rewrite filter_cons_True by exact Eb.
      destruct (IH k (mouse_byte v m) _ Hu (Hh' (In 1 (u16 0x64) st) (In 1 (u16 0x60) v))) as (h' & E & L).
      exists h'. split; [rewrite E; reflexivity|]. rewrite L, !length_app. simpl. lia.
    + rewrite filter_cons_True by exact Eb. rewrite filter_cons_False by congruence.
      destruct (IH (kbd_scancode v k) m _ Hu (Hh' (In 1 (u16 0x64) st) (In 1 (u16 0x60) v))) as (h' & E & L).
      exists h'. split; [rewrite E; reflexivity|]. rewrite L, !length_app. simpl. lia.
Qed.

(** the handler of the shared PS/2 interrupt sends each data byte to
    the keyboard driver or to the mouse driver, as bit 5 of the status says,
    and reads nothing else. *)
Theorem keyboard_handler_demux (evs : list (Z * Z)) (k : kbd) (m : mouse) :
  Forall (fun e => is_u8 (fst e) /\ is_u8 (snd e)) evs ->
  exists h, interrupts (length evs) (k, m) (ps2_script evs) [] =
    Some ((foldl (fun k sc => kbd_scancode sc k) k (snd <$> filter (fun e => from_mouse e = false) evs),
           mouse_bytes m (snd <$> filter (fun e => from_mouse e = true) evs)), h) /\
    length h = (2 * length evs)%nat.
Proof. intros Hu. exact (interrupts_script [] evs k m [] Hu eq_refl). Qed.

Lemma keyboard_handler_demux_witness :
  exists h, interrupts 4 (kbd_init, mouse_start)
    (ps2_script [(0x01, 0x1E); (0x21, 0x09); (0x21, 3); (0x21, 4)]) [] =
    Some ((kbd_scancode 0x1E kbd_init, mouse_bytes mouse_start [0x09; 3; 4]), h) /\ length h = 8%nat.
Proof.
  exact (keyboard_handler_demux [(0x01, 0x1E); (0x21, 0x09); (0x21, 3); (0x21, 4)] kbd_init mouse_start
    ltac:(repeat constructor; unfold is_u8; simpl; lia)).
Defined.

(** ** Mouse initialisation *)

Lemma ps2_waits_silent port :
  emits port ps2_wait_write [] /\ emits port ps2_wait_read [] /\ emits port ps2_flush [].
Proof.
  repeat split; apply emits_poll; apply (emits_bind _ _ _ [] []); try apply emits_in;
    intros st; try apply emits_ret.
  case_if; [apply emits_ret|]. apply (emits_bind _ _ _ [] []); [apply emits_in|intros _; apply emits_ret].
Qed.

Lemma mouse_send_cmd_emits port cmd :
  emits port (mouse_send_cmd cmd)
    ((if 0x64 =? port then [0xD4] else []) ++ (if 0x60 =? port then [u8 cmd] else [])).
Proof.
  destruct (ps2_waits_silent port) as (W & R & _).
  eapply emits_eq.
  - unfold mouse_send_cmd. repeat first [exact W | exact R | emits_step].
  - change (u16 0x64) with 0x64. change (u16 0x60) with 0x60.
    destruct (0x64 =? port), (0x60 =? port); reflexivity.
Qed.

(** whatever the hardware answers, initialisation terminates (every
    wait is bounded), and it sends the command bytes 0xA8, 0xD4, 0xD4 to the
    controller and 0xF6, 0xF4 to the mouse, in this order. *)
Theorem mouse_init_commands :
  emits 0x64 mouse_init [0xA8; 0xD4; 0xD4] /\ emits 0x60 mouse_init [0xF6; 0xF4].
Proof.
  destruct (ps2_waits_silent 0x64) as (W & _ & F), (ps2_waits_silent 0x60) as (W' & _ & F').
  split; eapply emits_eq;
    [unfold mouse_init; repeat first [exact W | exact F | apply mouse_send_cmd_emits | emits_step]
    |reflexivity
    |unfold mouse_init; repeat first [exact W' | exact F' | apply mouse_send_cmd_emits | emits_step]
    |reflexivity].
Qed.

(** ** Types of the drivers' state

    Every field stays in its C type and every index in its array, whatever the
    controller sends and however programs interleave their reads. *)

Definition u8_typed (b : Z) : Prop := 0 <= b < 256.
Definition flag_typed (b : Z) : Prop := b = 0 \/ b = 1.
Definition event_typed (e : mouse_event) : Prop := 0 <= buttons e < 8 /\ -128 <= dx e < 128 /\ -128 <= dy e < 128.

Record kbd_typed (k : kbd) : Prop := {
  kt_flags : flag_typed (shift_pressed k) /\ flag_typed (ctrl_pressed k) /\ flag_typed (caps_lock_active k);
  kt_buffer : length (kbd_buffer k) = Z.to_nat KEYBOARD_BUFFER_SIZE /\ Forall u8_typed (kbd_buffer k);
  kt_indices : 0 <= kbd_buffer_head k < KEYBOARD_BUFFER_SIZE /\ 0 <= kbd_buffer_tail k < KEYBOARD_BUFFER_SIZE
}.

Record mouse_typed (m : mouse) : Prop := {
  mt_buffer : length (mouse_buffer m) = Z.to_nat MOUSE_BUFFER_SIZE /\ Forall event_typed (mouse_buffer m);
  mt_indices : 0 <= mouse_buf_head m < MOUSE_BUFFER_SIZE /\ 0 <= mouse_buf_tail m < MOUSE_BUFFER_SIZE;
  mt_cycle : 0 <= mouse_cycle m < 3;
  mt_packet : length (mouse_packet m) = 3%nat /\ Forall u8_typed (mouse_packet m)
}.

Lemma nth_typed {A} (T : A -> Prop) (l : list A) (x : A) i : T x -> Forall T l -> T (nth i l x).
Proof. intros Hx H. revert i. induction H as [|y l Hy _ IH]; intros [|i]; cbn; auto. Qed.

Lemma u8_is_typed b : u8_typed (u8 b).
Proof. unfold u8_typed, u8. apply Z.mod_pos_bound. lia. Qed.

Lemma kbd_put_typed c k : kbd_typed k -> kbd_typed (kbd_buffer_put c k).
Proof.
  intros [F [L B] [H T]]. unfold kbd_buffer_put. case_if; [|split; auto].
  split; cbn [shift_pressed ctrl_pressed caps_lock_active kbd_buffer kbd_buffer_head kbd_buffer_tail]; [exact F| |].
  - rewrite length_insert. split; [exact L|]. apply Forall_insert; [exact B|apply u8_is_typed].
  - split; [apply Z.mod_pos_bound; reflexivity|exact T].
Qed.

Lemma scancode_typed sc k : kbd_typed k -> kbd_typed (kbd_scancode sc k).
Proof.
  intros K. pose proof K as [(F1 & F2 & F3) B I]. unfold kbd_scancode.
  repeat case_if; try (apply kbd_put_typed); try exact K;
    (split; [|exact B|exact I]); unfold flag_typed, c_bool; cbn [shift_pressed ctrl_pressed caps_lock_active set_shift set_ctrl set_caps];
    repeat case_if; auto.
Qed.

Lemma mouse_put_typed e m : event_typed e -> mouse_typed m -> mouse_typed (mouse_buffer_put e m).
Proof.
  intros He [[L B] [H T] C P]. unfold mouse_buffer_put. case_if; [|split; auto].
  split; cbn [mouse_buffer mouse_buf_head mouse_buf_tail mouse_cycle mouse_packet]; [| |exact C|exact P].
  - rewrite length_insert. split; [exact L|]. apply Forall_insert; assumption.
  - split; [apply Z.mod_pos_bound; reflexivity|exact T].
Qed.

Lemma set_packet_typed i v c m : u8_typed v -> 0 <= c < 3 -> mouse_typed m -> mouse_typed (set_packet i v c m).
Proof.
  intros Hv Hc [B I C [L P]]. split; cbn [set_packet mouse_buffer mouse_buf_head mouse_buf_tail mouse_cycle mouse_packet]; try assumption.
  rewrite length_insert. split; [exact L|apply Forall_insert; assumption].
Qed.

Lemma i8_typed b : -128 <= i8 b < 128.
Proof. unfold i8, signed. cbv zeta. case_if; bool_prop; mlia. Qed.

Lemma mouse_byte_typed b m : u8_typed b -> mouse_typed m -> mouse_typed (mouse_byte b m).
Proof.
  intros Hb M. unfold mouse_byte. repeat case_if; try exact M; try (apply set_packet_typed; [exact Hb|lia|exact M]).
  apply mouse_put_typed; [|apply set_packet_typed; [exact Hb|lia|exact M]].
  split; [|split; apply i8_typed]. cbn [buttons]. change 0x07 with (Z.ones 3). rewrite Z.land_ones by lia. apply Z.mod_pos_bound. reflexivity.
Qed.

Lemma mouse_handler_typed dev h m : mouse_typed m -> exists m' h', mouse_handler m dev h = Some (m', h') /\ mouse_typed m'.
Proof. intros M. eexists _, _. split; [reflexivity|]. apply mouse_byte_typed; [apply Z.mod_pos_bound; lia|exact M]. Qed.

Lemma keyboard_handler_typed dev h k m : kbd_typed k -> mouse_typed m ->
  exists k' m' h', keyboard_handler (k, m) dev h = Some ((k', m'), h') /\ kbd_typed k' /\ mouse_typed m'.
Proof.
  intros K M. unfold keyboard_handler, mbind, io_bind, inb, inw_width, mouse_handler, mret, io_ret. cbn [fst snd]. case_if.
  - eexists _, _, _. split; [reflexivity|]. split; [exact K|]. apply mouse_byte_typed; [apply Z.mod_pos_bound; lia|exact M].
  - eexists _, _, _. split; [reflexivity|]. split; [apply scancode_typed, K|exact M].
Qed.

Lemma kbd_get_typed k : kbd_typed k -> u8_typed (fst (kbd_buffer_get k)) /\ kbd_typed (snd (kbd_buffer_get k)).
Proof.
  intros K. pose proof K as [F [L B] [H T]]. unfold kbd_buffer_get. case_if; [split; [unfold u8_typed; cbn; lia|exact K]|]. cbn [fst snd]. split.
  - apply nth_typed; [unfold u8_typed; lia|exact B].
  - split; [exact F|split; [exact L|exact B]|split; [exact H|apply Z.mod_pos_bound; reflexivity]].
Qed.

Lemma mouse_read_typed m e m' : mouse_typed m -> mouse_read m = Some (e, m') -> event_typed e /\ mouse_typed m'.
Proof.
  intros [[L B] [H T] C P]. unfold mouse_read. case_if; [discriminate|]. intros E. injection E as <- <-. split.
  - apply nth_typed; [unfold event_typed; cbn; lia|exact B].
  - split; [split; [exact L|exact B]|split; [exact H|apply Z.mod_pos_bound; reflexivity]|exact C|exact P].
Qed.

(** Interrupts of the two devices and reads by programs, in any order. *)
Inductive input_run (dev : device) : kbd -> mouse -> history -> Prop :=
  | run_start h : input_run dev kbd_init mouse_start h
  | run_keyboard k m h k' m' h' : input_run dev k m h -> keyboard_handler (k, m) dev h = Some ((k', m'), h') -> input_run dev k' m' h'
  | run_mouse k m h m' h' : input_run dev k m h -> mouse_handler m dev h = Some (m', h') -> input_run dev k m' h'
  | run_getchar k m h : input_run dev k m h -> input_run dev (snd (kbd_buffer_get k)) m h
  | run_read k m h e m' : input_run dev k m h -> mouse_read m = Some (e, m') -> input_run dev k m' h.

(** C40: In every interleaving of keyboard and mouse interrupts with the reads of programs,
    whatever the controller sends, each field keeps its C type: flags are 0 or 1,
    bytes are bytes, indices are inside their arrays; the next interrupt is served,
    and a program gets only a byte or an event with three buttons and signed bytes. *)
Theorem input_state_typed dev k m h : input_run dev k m h ->
  kbd_typed k /\ mouse_typed m /\ u8_typed (fst (kbd_buffer_get k)) /\ (forall e m', mouse_read m = Some (e, m') -> event_typed e) /\
  (exists k' m' h', keyboard_handler (k, m) dev h = Some ((k', m'), h')) /\ exists m' h', mouse_handler m dev h = Some (m', h').
Proof.
  intros R. assert (T : kbd_typed k /\ mouse_typed m).
  { induction R as [h|k m h k' m' h' _ [K M] E|k m h m' h' _ [K M] E|k m h _ [K M]|k m h e m' _ [K M] E].
    - split; [split; [repeat split; left; reflexivity|split; [reflexivity|apply Forall_replicate; unfold u8_typed; lia]|split; split; reflexivity || discriminate]|].
      split; [split; [reflexivity|apply Forall_replicate; unfold event_typed; cbn; lia]|split; split; reflexivity || discriminate|cbn; lia|].
      split; [reflexivity|]. repeat constructor; discriminate.
    - destruct (keyboard_handler_typed dev h k m K M) as (k1 & m1 & h1 & E1 & T). rewrite E1 in E. injection E as <- <- <-. exact T.
    - destruct (mouse_handler_typed dev h m M) as (m1 & h1 & E1 & T). rewrite E1 in E. injection E as <- <-. split; [exact K|exact T].
    - split; [apply kbd_get_typed, K|exact M].
    - split; [exact K|apply (mouse_read_typed m e m' M E)]. }
  destruct T as [K M]. destruct (keyboard_handler_typed dev h k m K M) as (k1 & m1 & h1 & E1 & _), (mouse_handler_typed dev h m M) as (m2 & h2 & E2 & _).
  split; [exact K|]. split; [exact M|]. split; [apply kbd_get_typed, K|]. split; [intros e m' E; apply (mouse_read_typed m e m' M E)|]. eauto 8.
Qed.

(** The key "b" is pressed and then read, on a controller that always has its scancode. *)
Lemma input_state_typed_witness : exists k m h, input_run (fun _ _ p => if p =? 0x60 then 0x30 else 1) k m h /\ kbd_typed k /\
  u8_typed (fst (kbd_buffer_get k)) /\ fst (kbd_buffer_get k) = chr "b".
Proof.
  set (dev := fun (_ : history) (_ p : Z) => if p =? 0x60 then 0x30 else 1).
  destruct (keyboard_handler (kbd_init, mouse_start) dev []) as [[[k m] h]|] eqn:E; [|discriminate].
  assert (R : input_run dev k m h) by (eapply run_keyboard; [apply run_start|exact E]).
  destruct (input_state_typed dev k m h R) as (K & _ & B & _). exists k, m, h. split; [exact R|]. split; [exact K|]. split; [exact B|].
  vm_compute in E. injection E as <- <- <-. vm_compute. reflexivity.
Defined.
