(* ===== verification/Paging.v ===== *)
(** * Physical frames and page tables (kernel/paging.c)

    The machine the paging code runs on: RAM, CR3, the paging bit of CR0, and
    the statics of paging.c.  Every access of the C code goes through
    [translate], the two-level walk of the MMU, so the self-map at 0xFFC00000
    and the identity map are not assumptions of the model but facts the proofs
    establish.  A failed walk is a page fault, which the kernel answers with
    [panic].  Supervisor writes ignore the writable bit (CR0.WP is clear).
    The TLB is coherent: the code invalidates the entry it changes. *)

From S2P Require Import Prelude Memory.
Local Open Scope Z_scope.
Local Open Scope sros_scope.

Definition MAX_PAGES : Z := 1024.

Record machine : Type := mk_machine {
  ram : mem;
  cr3 : Z;
  paging_on : bool;
  page_frames : list Z;
  page_frame_count : Z
}.

(** A kernel routine: it may return, panic, or leave defined behaviour. *)
Definition kern (A : Type) : Type := machine -> exec (A * machine).

#[export] Instance kern_ret : MRet kern := fun A x k => Ret (x, k).
#[export] Instance kern_bind : MBind kern := fun A B f m k =>
  match m k with Ret (x, k) => f x k | Panic => Panic | Oob => Oob end.

Definition panic {A} : kern A := fun _ => Panic.
Definition gets {A} (f : machine -> A) : kern A := fun k => Ret (f k, k).

Definition set_ram (m : mem) (k : machine) : machine :=
  mk_machine m (cr3 k) (paging_on k) (page_frames k) (page_frame_count k).

(** [for (i = from; n iterations; i++) body(i)] *)
Fixpoint kfor (n : nat) (from : Z) (body : Z -> kern unit) : kern unit :=
  match n with
  | O => mret tt
  | S n => _ ← body from; kfor n (from + 1) body
  end.

(** ** The MMU *)

Definition P : Z := 0x01.
Definition U : Z := 0x04.

Definition has (flag e : Z) : bool := negb (e .& flag =? 0).

Definition translate (k : machine) (va : Z) : option Z :=
  if paging_on k then
    let pde := load32 (ram k) ((cr3 k .& 0xFFFFF000) + 4 * Z.shiftr va 22) in
    if has P pde then
      let pte := load32 (ram k) ((pde .& 0xFFFFF000) + 4 * (Z.shiftr va 12 .& 0x3FF)) in
      if has P pte then Some ((pte .& 0xFFFFF000) + (va .& 0xFFF)) else None
    else None
  else Some va.

(** An access through a pointer.  Word accesses are aligned, so they stay
    within a page. *)
Definition access {A} (va : Z) (f : Z -> kern A) : kern A := fun k =>
  match translate k (u32 va) with
  | Some pa => f pa k
  | None => Panic
  end.

Definition read32 (va : Z) : kern Z :=
  access va (fun pa => gets (fun k => load32 (ram k) pa)).
Definition write32 (va v : Z) : kern unit :=
  access va (fun pa k => Ret (tt, set_ram (store32 (ram k) pa v) k)).
Definition read8 (va : Z) : kern Z :=
  access va (fun pa => gets (fun k => load8 (ram k) pa)).
Definition write8 (va v : Z) : kern unit :=
  access va (fun pa k => Ret (tt, set_ram (store8 (ram k) pa v) k)).

(** [memset] and [memcpy] (kernel/string.c), byte by byte through the MMU. *)
Definition vmemset (s c n : Z) : kern unit :=
  kfor (Z.to_nat n) 0 (fun i => write8 (s + i) c).
Definition vmemcpy (d s n : Z) : kern unit :=
  kfor (Z.to_nat n) 0 (fun i => b ← read8 (s + i); write8 (d + i) b).

(** [page_fault_handler] prints the fault and panics. *)
Definition page_fault_handler : kern unit := panic.

(** ** The frame allocator *)

Definition pfa_push (phys_addr : Z) : kern unit := fun k =>
  if (0 <=? page_frame_count k) && (page_frame_count k <? MAX_PAGES) then
    Ret (tt, mk_machine (ram k) (cr3 k) (paging_on k)
      (<[Z.to_nat (page_frame_count k) := phys_addr]> (page_frames k))
      (page_frame_count k + 1))
  else Oob.

Definition pfa_alloc : kern Z := fun k =>
  if page_frame_count k =? 0 then Panic
  else
    let n := page_frame_count k - 1 in
    match page_frames k !! Z.to_nat n with
    | Some p => Ret (p, mk_machine (ram k) (cr3 k) (paging_on k) (page_frames k) n)
    | None => Oob
    end.

Definition pfa_free (phys_addr : Z) : kern unit := pfa_push phys_addr.

(** ** Page tables *)

Definition set_cr3 (v : Z) : kern unit := fun k =>
  Ret (tt, mk_machine (ram k) v (paging_on k) (page_frames k) (page_frame_count k)).
Definition set_paging : kern unit := fun k =>
  Ret (tt, mk_machine (ram k) (cr3 k) true (page_frames k) (page_frame_count k)).

(** Up to the call of [kernel_after_paging], which does not return. *)
Definition paging_init : kern unit :=
  page_dir ← pfa_alloc;
  _ ← vmemset page_dir 0 4096;
  _ ← kfor 1 0 (fun round =>
    let addr := round * 0x400000 in
    let pd_idx := Z.shiftr addr 22 in
    page_table ← pfa_alloc;
    _ ← vmemset page_table 0 4096;
    _ ← kfor 1024 0 (fun i =>
      let phys := u32 (addr + i * 4096) in
      write32 (page_table + 4 * i) (phys .| 0x03));
    write32 (page_dir + 4 * pd_idx) (page_table .| 0x03));
  let vga_pt_idx := Z.shiftr 0xB8000 12 .& 0x3FF in
  pde ← read32 (page_dir + 0);
  let pt0 := pde .& 0xFFFFF000 in
  _ ← write32 (pt0 + 4 * vga_pt_idx) (0xB8000 .| 0x03);
  _ ← set_cr3 page_dir;
  _ ← set_paging;
  write32 (page_dir + 4 * 1023) (page_dir .| 0x03).

(** The pool [kernel_main] and [kernel_after_paging] fill. *)
Definition boot_frames : kern unit :=
  _ ← pfa_push 0x111000;
  _ ← pfa_push 0x112000;
  _ ← pfa_push 0x113000;
  pfa_push 0x114000.

Definition more_frames : kern unit :=
  kfor 256 0 (fun i => pfa_push (0x300000 + i * 0x1000)).

Definition paging_map_user (virt_addr : Z) : kern unit :=
  page_dir ← gets cr3;
  let pd_idx := Z.shiftr virt_addr 22 in
  let pt_idx := Z.shiftr virt_addr 12 .& 0x3FF in
  pde ← read32 (page_dir + 4 * pd_idx);
  let page_table := pde .& 0xFFFFF000 in
  pte ← read32 (page_table + 4 * pt_idx);
  _ ← write32 (page_table + 4 * pt_idx) (pte .| 0x04);
  pde ← read32 (page_dir + 4 * pd_idx);
  write32 (page_dir + 4 * pd_idx) (pde .| 0x04).

Definition SELF_MAP : Z := 0xFFC00000.

Definition paging_map_page (virt_addr phys_addr flags : Z) : kern unit :=
  page_dir ← gets cr3;
  let pd_idx := Z.shiftr virt_addr 22 in
  let pt_idx := Z.shiftr virt_addr 12 .& 0x3FF in
  pde ← read32 (page_dir + 4 * pd_idx);
  _ ← (if negb (has P pde) then
         pt_phys ← pfa_alloc;
         _ ← write32 (page_dir + 4 * pd_idx) ((pt_phys .& 0xFFFFF000) .| 0x01);
         let virt_pt := SELF_MAP + pd_idx * 4096 in
         _ ← kfor 1024 0 (fun i => write32 (virt_pt + 4 * i) 0);
         write32 (page_dir + 4 * pd_idx) ((pt_phys .& 0xFFFFF000) .| (flags .& 0x07) .| 0x01)
       else mret tt);
  let page_table := SELF_MAP + pd_idx * 4096 in
  write32 (page_table + 4 * pt_idx) ((phys_addr .& 0xFFFFF000) .| (flags .& 0x07) .| 0x01).

Definition paging_alloc_page (virt_addr : Z) : kern unit :=
  phys ← pfa_alloc;
  paging_map_page virt_addr phys 0x07.

(** *** Cloning an address space *)

(** [bss_end] is the linker's [_bss_end]. *)
Definition kernel_end_page (bss_end : Z) : Z := u32 (bss_end + 0xFFF) .& 0xFFFFF000.

Definition in_kernel_image (bss_end page_vaddr : Z) : bool :=
  (0x100000 <=? page_vaddr) && (page_vaddr <? kernel_end_page bss_end).

(** The scan for user pages outside the kernel image. *)
Fixpoint has_user_pages (bss_end pd_idx old_pt : Z) (n : nat) (pti : Z) : kern bool :=
  match n with
  | O => mret false
  | S n =>
      pte ← read32 (old_pt + 4 * pti);
      if negb (has P pte) then has_user_pages bss_end pd_idx old_pt n (pti + 1)
      else
      pte ← read32 (old_pt + 4 * pti);
      if negb (has U pte) then has_user_pages bss_end pd_idx old_pt n (pti + 1)
      else
      let page_vaddr := Z.shiftl pd_idx 22 .| Z.shiftl pti 12 in
      if in_kernel_image bss_end page_vaddr
      then has_user_pages bss_end pd_idx old_pt n (pti + 1)
      else mret true
  end.

(** Copy a page of the parent and the entry that maps it. *)
Definition copy_user_page (old_pte : Z) : kern Z :=
  new_page_phys ← pfa_alloc;
  let old_page_phys := old_pte .& 0xFFFFF000 in
  _ ← vmemcpy new_page_phys old_page_phys 4096;
  mret ((new_page_phys .& 0xFFFFF000) .| (old_pte .& 0xFFF)).

(** One entry of a page table; [shared page_vaddr] is the test that keeps the
    parent's page. *)
Definition clone_pte (shared : Z -> bool) (pd_idx old_pt new_pt pti : Z) : kern unit :=
  old_pte ← read32 (old_pt + 4 * pti);
  if negb (has P old_pte) then mret tt
  else
    let page_vaddr := Z.shiftl pd_idx 22 .| Z.shiftl pti 12 in
    if shared page_vaddr then write32 (new_pt + 4 * pti) old_pte
    else if has U old_pte then
      new_pte ← copy_user_page old_pte;
      write32 (new_pt + 4 * pti) new_pte
    else write32 (new_pt + 4 * pti) old_pte.

Definition clone_table (shared : Z -> bool) (pd_idx new_pd old_pde : Z) : kern unit :=
  new_pt_phys ← pfa_alloc;
  let old_pt := SELF_MAP + pd_idx * 4096 in
  _ ← kfor 1024 0 (fun i => write32 (new_pt_phys + 4 * i) 0);
  _ ← kfor 1024 0 (clone_pte shared pd_idx old_pt new_pt_phys);
  write32 (new_pd + 4 * pd_idx) ((new_pt_phys .& 0xFFFFF000) .| (old_pde .& 0xFFF)).

Definition clone_pde (bss_end old_pd new_pd pd_idx : Z) : kern unit :=
  old_pde ← read32 (old_pd + 4 * pd_idx);
  if negb (has P old_pde) then write32 (new_pd + 4 * pd_idx) 0
  else if pd_idx <=? 1 then
    outside ← has_user_pages bss_end pd_idx (SELF_MAP + pd_idx * 4096) 1024 0;
    if negb outside then write32 (new_pd + 4 * pd_idx) old_pde
    else clone_table (in_kernel_image bss_end) pd_idx new_pd old_pde
  else if has U old_pde then
    clone_table (fun page_vaddr => page_vaddr <? 0x800000) pd_idx new_pd old_pde
  else write32 (new_pd + 4 * pd_idx) old_pde.

Definition paging_clone_directory (bss_end : Z) : kern Z :=
  old_pd ← gets cr3;
  new_pd_phys ← pfa_alloc;
  _ ← kfor 1023 0 (clone_pde bss_end old_pd new_pd_phys);
  _ ← write32 (new_pd_phys + 4 * 1023) ((new_pd_phys .& 0xFFFFF000) .| 0x03);
  mret new_pd_phys.

(** ** Words of a page *)

Definition page (p : Z) : Prop := 0 <= p < 4294967296 /\ p mod 4096 = 0.

(** The [i]-th word of the page at [p]. *)
Definition word (k : machine) (p i : Z) : Z := load32 (ram k) (p + 4 * i).

Lemma word_range k p i : is_u32 (word k p i).
Proof. apply load32_range. Qed.

Lemma load32_store32_page m p i q j v :
  page p -> page q -> 0 <= i < 1024 -> 0 <= j < 1024 ->
  load32 (store32 m (p + 4 * i) v) (q + 4 * j) =
    if decide (p = q /\ i = j) then u32 v else load32 m (q + 4 * j).
Proof.
  intros [Hp Hpa] [Hq Hqa] Hi Hj. case_decide as Hd.
  - destruct Hd as [-> ->]. apply load32_store32_same. mlia.
  - apply load32_store32_other; [mlia|mlia|].
    apply Decidable.not_and in Hd; [mlia|unfold Decidable.decidable; lia].
Qed.

(** ** Entries *)

Lemma entry_addr e : is_u32 e -> e .& 0xFFFFF000 = e / 4096 * 4096.
Proof. intros H. apply (land_not_ones 12); [lia|exact H]. Qed.

Lemma entry_addr_page e : is_u32 e -> page (e .& 0xFFFFF000).
Proof. intros H. rewrite entry_addr by exact H. unfold page, is_u32 in *. mlia. Qed.

Lemma page_addr p : page p -> p .& 0xFFFFF000 = p.
Proof. intros [H1 H2]. rewrite entry_addr by exact H1. mlia. Qed.

Lemma has_P e : has P e = Z.odd e.
Proof.
  unfold has, P. change 1 with (Z.ones 1) at 1. rewrite land_low_ones by lia.
  change (2 ^ 1) with 2. rewrite Zmod_odd. destruct (Z.odd e); reflexivity.
Qed.

(** The entry of a page with the given low bits. *)
Lemma mk_entry p fl :
  page p -> 0 <= fl < 4096 ->
  p .| fl = p + fl /\ (p .| fl) .& 0xFFFFF000 = p /\ is_u32 (p .| fl).
Proof.
  intros [Hp Hpa] Hfl.
  assert (E : p .| fl = p + fl).
  { replace p with (p / 4096 * 2 ^ 12) at 1 by mlia. rewrite (lor_aligned 12) by (simpl; lia). mlia. }
  rewrite E. split; [reflexivity|]. unfold is_u32. split; [|mlia].
  rewrite entry_addr by (unfold is_u32; mlia). mlia.
Qed.

Lemma flags_low flags : 0 <= (flags .& 0x07) .| 0x01 < 8 /\ Z.odd ((flags .& 0x07) .| 0x01) = true.
Proof.
  change 0x07 with (Z.ones 3). rewrite land_low_ones by lia. change (2 ^ 3) with 8.
  assert (H : 0 <= flags mod 8 < 8) by (apply Z.mod_pos_bound; lia).
  assert (E : flags mod 8 = 0 \/ flags mod 8 = 1 \/ flags mod 8 = 2 \/ flags mod 8 = 3 \/
    flags mod 8 = 4 \/ flags mod 8 = 5 \/ flags mod 8 = 6 \/ flags mod 8 = 7) by lia.
  decompose [or] E; match goal with H : _ mod 8 = _ |- _ => rewrite H end;
    (split; [split; [discriminate|reflexivity]|reflexivity]).
Qed.

(** The entry [paging_map_page] writes. *)
Definition leaf (phys flags : Z) : Z := (phys .& 0xFFFFF000) .| (flags .& 0x07) .| 0x01.

Lemma leaf_spec phys flags :
  is_u32 phys ->
  leaf phys flags .& 0xFFFFF000 = phys .& 0xFFFFF000 /\ has P (leaf phys flags) = true /\
  is_u32 (leaf phys flags).
Proof.
  intros H. unfold leaf. rewrite <- Z.lor_assoc.
  destruct (flags_low flags) as [Hf Ho].
  destruct (mk_entry (phys .& 0xFFFFF000) ((flags .& 0x07) .| 0x01) (entry_addr_page _ H) ltac:(lia))
    as (E & A & R).
  split; [exact A|]. split; [|exact R].
  rewrite has_P, E. pose proof (entry_addr_page _ H) as [_ Hm].
  rewrite Z.odd_add, Ho. replace (phys .& 0xFFFFF000) with (2 * ((phys .& 0xFFFFF000) / 2)) by mlia.
  rewrite Z.odd_mul. reflexivity.
Qed.

(** ** The walk as a function on page numbers *)

Definition pde (k : machine) (i : Z) : Z := word k (cr3 k) i.
Definition table_of (k : machine) (i : Z) : Z := pde k i .& 0xFFFFF000.

(** The entry of virtual page [n], if its table is present. *)
Definition pte_of (k : machine) (n : Z) : option Z :=
  if has P (pde k (n / 1024)) then
    let e := word k (table_of k (n / 1024)) (n mod 1024) in
    if has P e then Some e else None
  else None.

Lemma va_split va : 0 <= va < 4294967296 ->
  Z.shiftr va 22 = va / 4096 / 1024 /\ Z.shiftr va 12 .& 0x3FF = va / 4096 mod 1024 /\
  va .& 0xFFF = va mod 4096 /\ 0 <= va / 4096 / 1024 < 1024 /\ 0 <= va / 4096 mod 1024 < 1024.
Proof.
  intros H. rewrite !Z.shiftr_div_pow2 by lia.
  change 0x3FF with (Z.ones 10). change 0xFFF with (Z.ones 12). rewrite !land_low_ones by lia.
  change (2 ^ 22) with 4194304. change (2 ^ 12) with 4096. change (2 ^ 10) with 1024.
  repeat split; mlia.
Qed.

Lemma translate_pte k va :
  paging_on k = true -> page (cr3 k) -> 0 <= va < 4294967296 ->
  translate k va =
    ((fun e => (e .& 0xFFFFF000) + va mod 4096) <$> pte_of k (va / 4096)).
Proof.
  intros Hon Hcr3 Hva. destruct (va_split va Hva) as (E1 & E2 & E3 & _).
  unfold translate, pte_of, pde, table_of, pde, word. rewrite Hon, E1, E2, E3, page_addr by exact Hcr3.
  repeat case_if; reflexivity.
Qed.

(** ** The invariant of the kernel address space *)

(** A page in the identity-mapped low 4 MiB. *)
Definition low (p : Z) : Prop := page p /\ p < 0x400000.

(** The frames on the free stack, oldest first. *)
Definition free (k : machine) : list Z := take (Z.to_nat (page_frame_count k)) (page_frames k).

(** The frame stack is well formed. *)
Definition pool_ok (k : machine) : Prop :=
  length (page_frames k) = Z.to_nat MAX_PAGES /\ 0 <= page_frame_count k <= MAX_PAGES.

Definition present (k : machine) (i : Z) : Prop := has P (pde k i) = true.

#[export] Instance present_dec (k : machine) (i : Z) : Decision (present k i).
Proof. unfold present. apply _. Defined.

(** Paging is on; the low 4 MiB are mapped to themselves; the last directory
    entry maps the directory; page tables and free frames are distinct low
    pages. *)
Record space (k : machine) : Prop := {
  sp_on : paging_on k = true;
  sp_cr3 : low (cr3 k);
  sp_self : pde k 1023 .& 0xFFFFF000 = cr3 k /\ present k 1023;
  sp_low : forall n, 0 <= n < 1024 ->
    exists e, pte_of k n = Some e /\ e .& 0xFFFFF000 = n * 4096;
  sp_tables : forall i, 0 <= i < 1023 -> present k i ->
    low (table_of k i) /\ table_of k i <> cr3 k;
  sp_distinct : forall i j, 0 <= i < 1023 -> 0 <= j < 1023 -> present k i -> present k j ->
    table_of k i = table_of k j -> i = j;
  sp_pool : pool_ok k;
  sp_free : Forall low (free k) /\ NoDup (free k) /\ (cr3 k ∉ free k);
  sp_free_tables : forall i, 0 <= i < 1023 -> present k i -> table_of k i ∉ free k
}.

(** A low page that is neither free nor used by the page tables. *)
Definition unused (k : machine) (p : Z) : Prop :=
  low p /\ p <> cr3 k /\ (p ∉ free k) /\
  forall i, 0 <= i < 1023 -> present k i -> table_of k i <> p.

(** ** The frame stack *)

Lemma pfa_push_spec k p :
  pool_ok k -> page_frame_count k < MAX_PAGES ->
  exists k', pfa_push p k = Ret (tt, k') /\ free k' = free k ++ [p] /\ pool_ok k' /\
    ram k' = ram k /\ cr3 k' = cr3 k /\ paging_on k' = paging_on k.
Proof.
  intros (Hl & Hc) Hlt. unfold pfa_push. unfold MAX_PAGES in *.
  rewrite (proj2 (Z.leb_le 0 _)) by lia. rewrite (proj2 (Z.ltb_lt (page_frame_count k) _)) by lia.
  eexists. split; [reflexivity|]. cbn [andb page_frames page_frame_count ram cr3 paging_on].
  split; [|unfold pool_ok, MAX_PAGES; cbn; rewrite length_insert; repeat split; lia].
  unfold free. cbn. rewrite Z2Nat.inj_add by lia. change (Z.to_nat 1) with 1%nat.
  rewrite Nat.add_1_r.
  erewrite take_S_r; [|apply list_lookup_insert_eq; lia].
  f_equal. apply take_insert_ge; lia.
Qed.

Lemma pfa_alloc_spec k :
  pool_ok k ->
  match pfa_alloc k with
  | Ret (p, k') => free k = free k' ++ [p] /\ pool_ok k' /\
      ram k' = ram k /\ cr3 k' = cr3 k /\ paging_on k' = paging_on k
  | Panic => free k = []
  | Oob => False
  end.
Proof.
  intros (Hl & Hc). unfold pfa_alloc, MAX_PAGES in *.
  destruct (Z.eqb_spec (page_frame_count k) 0) as [E|E].
  - unfold free. rewrite E. reflexivity.
  - destruct (page_frames k !! Z.to_nat (page_frame_count k - 1)) as [p|] eqn:Hp.
    + split; [|unfold pool_ok, MAX_PAGES; cbn; repeat split; lia].
      unfold free. cbn. rewrite <- (take_S_r _ _ _ Hp). f_equal. lia.
    + apply lookup_ge_None in Hp. lia.
Qed.

(** ** Accesses under the invariant *)

Lemma translate_low k va : space k -> 0 <= va < 0x400000 -> translate k va = Some va.
Proof.
  intros S Hva. rewrite translate_pte by (try apply S; lia).
  destruct (sp_low k S (va / 4096)) as (e & He & Ha); [mlia|].
  rewrite He. simpl. rewrite Ha. f_equal. mlia.
Qed.

Lemma pte_of_self k i : space k -> 0 <= i < 1024 -> present k i ->
  pte_of k (1023 * 1024 + i) = Some (pde k i).
Proof.
  intros S Hi Hp. unfold pte_of.
  replace ((1023 * 1024 + i) / 1024) with 1023 by mlia.
  replace ((1023 * 1024 + i) mod 1024) with i by mlia.
  destruct (sp_self k S) as [Ha Hs]. unfold present in *. rewrite Hs.
  unfold table_of. rewrite Ha. fold (pde k i). rewrite Hp. reflexivity.
Qed.

Lemma translate_self k i j : space k -> 0 <= i < 1024 -> 0 <= j < 1024 -> present k i ->
  translate k (SELF_MAP + i * 4096 + 4 * j) = Some (table_of k i + 4 * j).
Proof.
  intros S Hi Hj Hp. unfold SELF_MAP.
  rewrite translate_pte by (try apply S; lia).
  replace ((0xFFC00000 + i * 4096 + 4 * j) / 4096) with (1023 * 1024 + i) by mlia.
  rewrite pte_of_self by assumption. simpl. unfold table_of. do 2 f_equal. mlia.
Qed.

Lemma low_word_bound p i : low p -> 0 <= i < 1024 -> 0 <= p + 4 * i < 0x400000.
Proof. intros [[H1 H2] H3] Hi. mlia. Qed.

Lemma read32_low k p i : space k -> low p -> 0 <= i < 1024 ->
  read32 (p + 4 * i) k = Ret (word k p i, k).
Proof.
  intros S Hp Hi. pose proof (low_word_bound p i Hp Hi). unfold read32, access.
  rewrite u32_small, translate_low by (try assumption; lia). reflexivity.
Qed.

(** The state after a word store into page [p]. *)
Definition poke (p i v : Z) (k : machine) : machine := set_ram (store32 (ram k) (p + 4 * i) v) k.

Lemma write32_low k p i v : space k -> low p -> 0 <= i < 1024 ->
  write32 (p + 4 * i) v k = Ret (tt, poke p i v k).
Proof.
  intros S Hp Hi. pose proof (low_word_bound p i Hp Hi). unfold write32, access.
  rewrite u32_small, translate_low by (try assumption; lia). reflexivity.
Qed.

Lemma write32_self k i j v : space k -> 0 <= i < 1024 -> 0 <= j < 1024 -> present k i ->
  write32 (SELF_MAP + i * 4096 + 4 * j) v k = Ret (tt, poke (table_of k i) j v k).
Proof.
  intros S Hi Hj Hp. unfold write32, access.
  rewrite u32_small by (unfold SELF_MAP; lia). rewrite translate_self by assumption. reflexivity.
Qed.

Lemma word_poke p i v k q j :
  page p -> page q -> 0 <= i < 1024 -> 0 <= j < 1024 ->
  word (poke p i v k) q j = if decide (p = q /\ i = j) then u32 v else word k q j.
Proof. intros. apply load32_store32_page; assumption. Qed.

Lemma word_poke_ne p i v k q j :
  page p -> page q -> 0 <= i < 1024 -> 0 <= j < 1024 -> p <> q ->
  word (poke p i v k) q j = word k q j.
Proof. intros. rewrite word_poke by assumption. rewrite decide_False; tauto. Qed.

(** ** Stores into page tables *)

Lemma table_page k i : page (table_of k i).
Proof. apply entry_addr_page, word_range. Qed.

(** A store that is not into the directory keeps the directory. *)
Lemma pde_poke_other p i v k j :
  page (cr3 k) -> page p -> p <> cr3 k -> 0 <= i < 1024 -> 0 <= j < 1024 ->
  pde (poke p i v k) j = pde k j.
Proof. intros. unfold pde. apply word_poke_ne; auto. Qed.

Lemma pte_of_poke_other p i v k n :
  page (cr3 k) -> page p -> p <> cr3 k -> 0 <= i < 1024 -> 0 <= n < 1048576 ->
  (present k (n / 1024) -> table_of k (n / 1024) = p -> n mod 1024 <> i) ->
  pte_of (poke p i v k) n = pte_of k n.
Proof.
  intros Hc Hp Hne Hi Hn Hd. unfold pte_of, table_of.
  rewrite pde_poke_other by (try assumption; mlia).
  fold (table_of k (n / 1024)). destruct (has P (pde k (n / 1024))) eqn:E; [|reflexivity].
  rewrite word_poke by (try assumption; try apply table_page; mlia).
  rewrite decide_False; [reflexivity|]. intros [E1 E2]. apply Hd; [exact E|symmetry; exact E1|symmetry; exact E2].
Qed.

(** Everything but the frame stack of [space] depends on the directory and
    the first page table only. *)
Lemma space_poke_other p i v k :
  space k -> page p -> p <> cr3 k -> 0 <= i < 1024 ->
  (p = table_of k 0 -> is_u32 v /\ has P v = true /\ v .& 0xFFFFF000 = i * 4096) ->
  space (poke p i v k).
Proof.
  intros S Hp Hne Hi Hne0. pose proof (proj1 (sp_cr3 k S)) as Hc.
  assert (Hpde : forall j, 0 <= j < 1024 -> pde (poke p i v k) j = pde k j)
    by (intros; apply pde_poke_other; auto).
  assert (Htab : forall j, 0 <= j < 1024 -> table_of (poke p i v k) j = table_of k j)
    by (intros; unfold table_of; rewrite Hpde; auto).
  assert (Hpre : forall j, 0 <= j < 1024 -> present (poke p i v k) j <-> present k j)
    by (intros; unfold present; rewrite Hpde; tauto).
  destruct S as [S1 S2 S3 S4 S5 S6 S7 S8 S9].
  split; try assumption.
  - rewrite Hpre, Hpde by lia. exact S3.
  - intros n Hn. destruct (decide (p = table_of k 0 /\ n = i)) as [[-> ->]|Hd].
    + destruct (Hne0 eq_refl) as (Hu & HP & Ha). exists v. split; [|exact Ha].
      destruct (S4 i Hn) as (e & He & _). unfold pte_of in He |- *.
      replace (i / 1024) with 0 in * by mlia. replace (i mod 1024) with i by mlia.
      rewrite Hpde, Htab by lia. destruct (has P (pde k 0)); [|discriminate].
      rewrite word_poke, decide_True by auto. rewrite u32_small, HP by exact Hu. reflexivity.
    + rewrite pte_of_poke_other; try assumption; try lia; [apply S4; exact Hn|].
      intros _ E. replace (n / 1024) with 0 in E by mlia. replace (n mod 1024) with n by mlia.
      intros Y. apply Hd. auto.
  - intros j Hj. rewrite Hpre, Htab by lia. apply S5; lia.
  - intros j1 j2 H1 H2. rewrite !Hpre, !Htab by lia. apply S6; lia.
  - intros j Hj. rewrite Hpre, Htab by lia. apply S9; lia.
Qed.

(** The directory entry [paging_map_page] installs for a fresh frame. *)
Definition dir_entry (p fl : Z) (e : Z) : Prop :=
  e .& 0xFFFFF000 = p /\ has P e = true /\ is_u32 e /\ e = p .| fl.

Lemma present_zero k : space k -> present k 0.
Proof.
  intros S. destruct (sp_low k S 0 ltac:(lia)) as (e & He & _).
  unfold pte_of in He. change (0 / 1024) with 0 in He. unfold present.
  destruct (has P (pde k 0)); [reflexivity|discriminate].
Qed.

Section install.
Context (k : machine) (S : space k) (i p e : Z).
Context (Hi : 0 <= i < 1023) (He : is_u32 e) (Hp : has P e = true) (Ha : e .& 0xFFFFF000 = p).
Context (Hu : unused k p /\ i <> 0 \/ present k i /\ table_of k i = p).

Let k' := poke (cr3 k) i e k.

Lemma install_pde j : 0 <= j < 1024 -> pde k' j = if decide (j = i) then e else pde k j.
Proof using All.
  intros Hj. unfold pde, k'. cbn [cr3 poke set_ram].
  rewrite word_poke by (try apply (sp_cr3 k S); lia).
  destruct (decide (j = i)) as [->|Hne].
  - rewrite decide_True by auto. apply u32_small, He.
  - rewrite decide_False by (intros [_ ?]; congruence). reflexivity.
Qed.

Lemma install_table j : 0 <= j < 1024 ->
  table_of k' j = if decide (j = i) then p else table_of k j.
Proof using All.
  intros Hj. unfold table_of at 1. rewrite install_pde by exact Hj. case_decide; [exact Ha|reflexivity].
Qed.

Lemma install_present j : 0 <= j < 1024 -> present k' j <-> j = i \/ present k j.
Proof using All.
  intros Hj. unfold present. rewrite install_pde by exact Hj.
  case_decide; [split; auto|split; [auto|intros [?|?]; [congruence|assumption]]].
Qed.

Lemma low_p : low p /\ p <> cr3 k /\ (p ∉ free k).
Proof using All.
  destruct Hu as [[(H1 & H2 & H3 & _) _]|[H1 <-]]; [auto|].
  destruct (sp_tables k S i ltac:(lia) H1). repeat split; try apply H; try assumption.
  apply (sp_free_tables k S); [lia|assumption].
Qed.

Lemma install_pte n : 0 <= n < 1023 * 1024 ->
  pte_of k' n = if decide (n / 1024 = i)
                then (let e := word k p (n mod 1024) in if has P e then Some e else None)
                else pte_of k n.
Proof using All.
  intros Hn. unfold pte_of. rewrite install_pde, install_table by mlia.
  assert (Hw : forall q j, page q -> 0 <= j < 1024 -> q <> cr3 k -> word k' q j = word k q j).
  { intros. apply word_poke_ne; try assumption; try lia; apply (sp_cr3 k S). }
  case_decide as Hd.
  - rewrite Hp. rewrite Hw by (try apply low_p; mlia). reflexivity.
  - destruct (has P (pde k (n / 1024))) eqn:E; [|reflexivity].
    rewrite Hw; [reflexivity|apply table_page|mlia|]. apply (sp_tables k S); [mlia|exact E].
Qed.

Lemma install_space : space k'.
Proof using All.
  destruct low_p as (L1 & L2 & L3).
  assert (Hdis : forall j, 0 <= j < 1023 -> j <> i -> present k j -> table_of k j <> p).
  { intros j Hj Hne Hpj. destruct Hu as [[(_ & _ & _ & H4) _]|[H1 H2]]; [apply H4; assumption|].
    intros E. apply Hne. apply (sp_distinct k S); try assumption; lia. }
  split.
  - apply (sp_on k S).
  - apply (sp_cr3 k S).
  - rewrite install_present, install_pde by lia. rewrite decide_False by lia.
    destruct (sp_self k S). auto.
  - intros n Hn. rewrite install_pte by lia. case_decide as Hd; [|apply (sp_low k S); lia].
    assert (H0 : i = 0) by mlia. pose proof (sp_low k S n Hn) as (e0 & El & Ea).
    unfold pte_of in El. replace (n / 1024) with 0 in El by mlia.
    pose proof (present_zero k S) as P0. unfold present in P0. rewrite P0 in El.
    assert (Et : table_of k 0 = p).
    { destruct Hu as [[_ H2]|[_ H2]]; [contradiction|rewrite <- H0; exact H2]. }
    rewrite Et in El. exists e0. split; [exact El|exact Ea].
  - intros j Hj. rewrite install_present, install_table by lia. case_decide; [tauto|].
    intros [?|Hj']; [congruence|]. apply (sp_tables k S); assumption.
  - intros j1 j2 H1 H2. rewrite !install_present, !install_table by lia.
    repeat case_decide; intros [?|P1] [?|P2] E;
      first [ congruence
            | exfalso; apply (Hdis j2); [assumption|assumption|assumption|congruence]
            | exfalso; apply (Hdis j1); [assumption|assumption|assumption|congruence]
            | apply (sp_distinct k S); assumption ].
  - apply (sp_pool k S).
  - apply (sp_free k S).
  - intros j Hj. rewrite install_present, install_table by lia. case_decide; [auto|].
    intros [?|Hj']; [congruence|]. apply (sp_free_tables k S); assumption.
Qed.
End install.

(** The side conditions of the lemmas above. *)
Ltac side :=
  first [ assumption | lia | left; split; [unfold unused in *; tauto|lia] | right; split; assumption | auto ].

(** Taking a frame off the stack. *)
Lemma pfa_alloc_space k :
  space k ->
  match pfa_alloc k with
  | Ret (p, k') => space k' /\ unused k' p /\ free k = free k' ++ [p] /\
      ram k' = ram k /\ cr3 k' = cr3 k
  | Panic => free k = []
  | Oob => False
  end.
Proof.
  intros S. pose proof (pfa_alloc_spec k (sp_pool k S)) as A.
  destruct (pfa_alloc k) as [[p k']| |]; try exact A.
  destruct A as (Hf & Hok & Hr & Hc & Hon).
  assert (Hpde : forall j, pde k' j = pde k j) by (intros; unfold pde, word; congruence).
  assert (Htab : forall j, table_of k' j = table_of k j) by (intros; unfold table_of; rewrite Hpde; reflexivity).
  assert (Hpre : forall j, present k' j <-> present k j) by (intros; unfold present; rewrite Hpde; tauto).
  assert (Hpte : forall n, pte_of k' n = pte_of k n).
  { intros n. unfold pte_of. rewrite Hpde, Htab. unfold word. rewrite Hr. reflexivity. }
  destruct (sp_free k S) as (F1 & F2 & F3). rewrite Hf in F1, F2, F3.
  apply Forall_app in F1 as [F1 Fp]. apply Forall_cons_1 in Fp as [Fp _].
  apply NoDup_app in F2 as (F2 & F2' & _).
  split; [|split; [|repeat split; assumption]].
  - split.
    + rewrite Hon. apply S.
    + rewrite Hc. apply S.
    + rewrite Hpde, Hpre, Hc. apply S.
    + intros n Hn. rewrite Hpte. apply S, Hn.
    + intros i Hi. rewrite Hpre, Htab, Hc. apply S, Hi.
    + intros i j Hi Hj. rewrite !Hpre, !Htab. apply S; assumption.
    + exact Hok.
    + rewrite Hc. repeat split; try assumption. intros X. apply F3, elem_of_app. auto.
    + intros i Hi. rewrite Hpre, Htab. intros Hi'. pose proof (sp_free_tables k S i Hi Hi') as N.
      rewrite Hf in N. intros X. apply N, elem_of_app. auto.
  - split; [exact Fp|]. split; [|split].
    + rewrite Hc. intros ->. apply F3, elem_of_app. right. apply list_elem_of_singleton. reflexivity.
    + intros X. apply (F2' p X), list_elem_of_singleton. reflexivity.
    + intros i Hi. rewrite Hpre, Htab. intros Hi' E. apply (sp_free_tables k S i Hi Hi').
      rewrite Hf, E. apply elem_of_app. right. apply list_elem_of_singleton. reflexivity.
Qed.

(** ** Loops *)

(** A loop whose body establishes [I (i + 1)] from [I i] establishes [I n]. *)
Lemma kfor_rule (I : Z -> machine -> Prop) (body : Z -> kern unit) : forall n from k,
  I from k ->
  (forall i k, from <= i < from + Z.of_nat n -> I i k ->
     exists k', body i k = Ret (tt, k') /\ I (i + 1) k') ->
  exists k', kfor n from body k = Ret (tt, k') /\ I (from + Z.of_nat n) k'.
Proof.
  induction n as [|n IH]; intros from k Hi Hb.
  - exists k. split; [reflexivity|]. rewrite Z.add_0_r. exact Hi.
  - destruct (Hb from k ltac:(lia) Hi) as (k1 & E1 & I1).
    destruct (IH (from + 1) k1 I1) as (k2 & E2 & I2).
    { intros i k0 Hr. apply Hb. lia. }
    exists k2. split; [cbn [kfor]; unfold mbind, kern_bind; rewrite E1; exact E2|].
    replace (from + Z.of_nat (S n)) with (from + 1 + Z.of_nat n) by lia. exact I2.
Qed.

(** [k'] differs from [k] only in the contents of the page [p]. *)
Definition only_page (p : Z) (k k' : machine) : Prop :=
  cr3 k' = cr3 k /\ free k' = free k /\ paging_on k' = paging_on k /\
  forall q j, page q -> 0 <= j < 1024 -> q <> p -> word k' q j = word k q j.

Lemma only_page_refl p k : only_page p k k.
Proof. repeat split. Qed.

Lemma only_page_trans p k1 k2 k3 : only_page p k1 k2 -> only_page p k2 k3 -> only_page p k1 k3.
Proof.
  intros (A1 & A2 & A3 & A4) (B1 & B2 & B3 & B4). repeat split; try congruence.
  intros q j Hq Hj Hne. rewrite B4, A4 by assumption. reflexivity.
Qed.

Lemma only_page_poke p i v k : page p -> 0 <= i < 1024 -> only_page p k (poke p i v k).
Proof. intros Hp Hi. repeat split. intros q j Hq Hj Hne. apply word_poke_ne; auto. Qed.

Lemma only_page_pde p k k' j : page (cr3 k) -> only_page p k k' -> p <> cr3 k -> 0 <= j < 1024 ->
  pde k' j = pde k j.
Proof. intros Hc (A1 & _ & _ & A4) Hne Hj. unfold pde. rewrite A1. apply A4; auto. Qed.

(** ** Installing a page table entry *)

Lemma set_pte k i j v :
  space k -> 0 <= i < 1023 -> present k i -> 0 <= j < 1024 -> is_u32 v ->
  (i = 0 -> has P v = true /\ v .& 0xFFFFF000 = j * 4096) ->
  space (poke (table_of k i) j v k) /\
  forall n, 0 <= n < 1023 * 1024 ->
    pte_of (poke (table_of k i) j v k) n =
      if decide (n = i * 1024 + j) then (if has P v then Some v else None) else pte_of k n.
Proof.
  intros S Hi Hp Hj Hv H0. destruct (sp_tables k S i ltac:(lia) Hp) as [[Hpg _] Hne].
  split.
  { apply space_poke_other; auto. intros E. split; [exact Hv|]. apply H0.
    apply (sp_distinct k S); try assumption; try lia. apply present_zero, S. }
  intros n Hn. case_decide as Hd.
  - subst n. unfold pte_of.
    replace ((i * 1024 + j) / 1024) with i by mlia. replace ((i * 1024 + j) mod 1024) with j by mlia.
    assert (Epde : pde (poke (table_of k i) j v k) i = pde k i)
      by (apply pde_poke_other; try assumption; try apply (sp_cr3 k S); lia).
    assert (Et : table_of (poke (table_of k i) j v k) i = table_of k i)
      by (unfold table_of at 1; rewrite Epde; reflexivity).
    rewrite Epde, Et, word_poke by (try assumption; lia). unfold present in Hp. rewrite Hp.
    rewrite decide_True by auto. rewrite u32_small by exact Hv. reflexivity.
  - apply pte_of_poke_other; try assumption; try apply (sp_cr3 k S); [mlia|].
    intros Hpn E Hm. apply Hd. assert (n / 1024 = i); [|mlia].
    apply (sp_distinct k S); try assumption; mlia.
Qed.

(** Clearing a page table through the self-map. *)
Lemma clear_table k i :
  space k -> 1 <= i < 1023 -> present k i ->
  exists k', kfor 1024 0 (fun j => write32 (SELF_MAP + i * 4096 + 4 * j) 0) k = Ret (tt, k') /\
    space k' /\ only_page (table_of k i) k k' /\
    forall j, 0 <= j < 1024 -> word k' (table_of k i) j = 0.
Proof.
  intros S Hi Hp. set (p := table_of k i).
  destruct (sp_tables k S i ltac:(lia) Hp) as [[Hpg _] Hne].
  destruct (kfor_rule (fun n k' => space k' /\ only_page p k k' /\
    forall j, 0 <= j < n -> word k' p j = 0) (fun j => write32 (SELF_MAP + i * 4096 + 4 * j) 0)
    1024 0 k) as (k' & E & S' & O' & Z').
  - split; [exact S|]. split; [apply only_page_refl|]. intros j Hj; lia.
  - intros n k1 Hn (S1 & O1 & Z1).
    assert (Epde : pde k1 i = pde k i).
    { apply (only_page_pde p); try assumption; try lia. apply (sp_cr3 k S). }
    assert (Hp1 : present k1 i) by (unfold present; rewrite Epde; exact Hp).
    assert (Et : table_of k1 i = p) by (unfold table_of; rewrite Epde; reflexivity).
    rewrite write32_self by (try assumption; lia).
    destruct (set_pte k1 i n 0 S1 ltac:(lia) Hp1 ltac:(lia) ltac:(unfold is_u32; lia) ltac:(lia))
      as [S2 _].
    rewrite Et in *. eexists. split; [reflexivity|]. split; [exact S2|]. split.
    + eapply only_page_trans; [exact O1|]. apply only_page_poke; [exact Hpg|lia].
    + intros j Hj. rewrite word_poke by (try assumption; lia).
      case_decide as Hd; [reflexivity|]. apply Z1. destruct (decide (n = j)); [tauto|lia].
  - exists k'. auto.
Qed.

(** A directory entry for a fresh frame, cleared. *)
Lemma new_table k i p e :
  space k -> 1 <= i < 1023 -> ~ present k i -> unused k p ->
  is_u32 e -> has P e = true -> e .& 0xFFFFF000 = p ->
  forall e', is_u32 e' -> has P e' = true -> e' .& 0xFFFFF000 = p ->
  exists k', (_ ← write32 (cr3 k + 4 * i) e;
              _ ← kfor 1024 0 (fun j => write32 (SELF_MAP + i * 4096 + 4 * j) 0);
              write32 (cr3 k + 4 * i) e') k = Ret (tt, k') /\
    space k' /\ cr3 k' = cr3 k /\ free k' = free k /\ present k' i /\ table_of k' i = p /\
    (forall n, 0 <= n < 1023 * 1024 -> pte_of k' n = pte_of k n) /\
    (forall q j, page q -> 0 <= j < 1024 -> q <> p -> q <> cr3 k -> word k' q j = word k q j) /\
    (forall j, 0 <= j < 1024 -> j <> i -> pde k' j = pde k j) /\ pde k' i = e'.
Proof.
  intros S Hi Hnp Hu He1 He2 He3 e' He1' He2' He3'.
  set (k1 := poke (cr3 k) i e k).
  assert (S1 : space k1) by (apply (install_space k S i p e); side).
  assert (P1 : present k1 i) by (apply (install_present k S i p e); side).
  assert (T1 : table_of k1 i = p).
  { rewrite (install_table k S i p e) by side. rewrite decide_True; reflexivity. }
  destruct (clear_table k1 i S1 Hi P1) as (k2 & E2 & S2 & O2 & Z2). rewrite T1 in *.
  destruct Hu as (Hlp & Hpc & Hpf & Hpt).
  assert (C2 : cr3 k2 = cr3 k) by apply O2.
  assert (Epde : forall j, 0 <= j < 1024 -> pde k2 j = pde k1 j).
  { intros j Hj. apply (only_page_pde p); auto. apply (sp_cr3 k S). }
  assert (P2 : present k2 i) by (unfold present; rewrite Epde by lia; exact P1).
  assert (T2 : table_of k2 i = p) by (unfold table_of; rewrite Epde by lia; exact T1).
  set (k3 := poke (cr3 k2) i e' k2).
  assert (S3 : space k3) by (apply (install_space k2 S2 i p e'); side).
  exists k3. split; [|split; [exact S3|split; [exact C2|split; [|split; [|split; [|split; [|split; [|split]]]]]]]].
  - unfold mbind, kern_bind. rewrite write32_low by (try assumption; try apply S; lia).
    fold k1. rewrite E2. rewrite <- C2. rewrite write32_low by (try assumption; try apply S2; lia).
    reflexivity.
  - change (free k3) with (free k2). destruct O2 as (_ & F2 & _). rewrite F2. reflexivity.
  - apply (install_present k2 S2 i p e'); side.
  - unfold k3. rewrite (install_table k2 S2 i p e') by side. rewrite decide_True; reflexivity.
  - intros n Hn. unfold k3. rewrite (install_pte k2 S2 i p e') by side.
    assert (Hlpg : page p) by apply Hlp. case_decide as Hd.
    + rewrite Z2 by mlia. cbn. unfold pte_of. rewrite Hd.
      destruct (has P (pde k i)) eqn:X; [contradiction|reflexivity].
    + assert (Hw : pte_of k2 n = pte_of k1 n).
      { unfold pte_of, table_of. rewrite Epde by mlia. fold (table_of k1 (n / 1024)).
        destruct (has P (pde k1 (n / 1024))) eqn:X; [|reflexivity].
        destruct O2 as (_ & _ & _ & O2). rewrite O2; [reflexivity|apply table_page|mlia|].
        intros Y. apply Hd. apply (sp_distinct k1 S1); try assumption; mlia. }
      rewrite Hw. unfold k1. rewrite (install_pte k S i p e) by (unfold unused; side).
      rewrite decide_False by exact Hd. reflexivity.
  - intros q j Hq Hj Hqp Hqc. unfold k3.
    rewrite word_poke_ne; try assumption; [|rewrite C2; apply (sp_cr3 k S)|lia|congruence].
    destruct O2 as (_ & _ & _ & O2). rewrite O2 by assumption. unfold k1.
    apply word_poke_ne; try assumption; [apply (sp_cr3 k S)|lia|congruence].
  - intros j Hj Hne. unfold k3. rewrite (install_pde k2 S2 i p e') by side.
    rewrite decide_False, Epde by assumption. unfold k1. rewrite (install_pde k S i p e) by (unfold unused; side).
    rewrite decide_False by assumption. reflexivity.
  - unfold k3. rewrite (install_pde k2 S2 i p e') by side. apply decide_True. reflexivity.
Qed.

(** ** paging_map_page refines an update of the page map *)

Lemma pde_flags flags p :
  page p ->
  let e := (p .& 0xFFFFF000) .| 0x01 in
  let e' := (p .& 0xFFFFF000) .| (flags .& 0x07) .| 0x01 in
  is_u32 e /\ has P e = true /\ e .& 0xFFFFF000 = p /\
  is_u32 e' /\ has P e' = true /\ e' .& 0xFFFFF000 = p.
Proof.
  intros Hp. cbv zeta. destruct (leaf_spec p flags (proj1 Hp)) as (A & B & C).
  destruct (leaf_spec p 0 (proj1 Hp)) as (A0 & B0 & C0). unfold leaf in *.
  rewrite <- Z.lor_assoc in A0, B0, C0. change ((0 .& 0x07) .| 0x01) with 0x01 in *.
  pose proof (page_addr p Hp) as Ep. rewrite Ep in A, B, C, A0, B0, C0 |- *. auto 10.
Qed.

Lemma map_page_present k va phys flags :
  space k -> 0 <= va < 4294967296 -> is_u32 phys ->
  1 <= Z.shiftr va 22 < 1023 -> present k (Z.shiftr va 22) ->
  exists k', write32 (SELF_MAP + Z.shiftr va 22 * 4096 + 4 * (Z.shiftr va 12 .& 0x3FF))
               ((phys .& 0xFFFFF000) .| (flags .& 0x07) .| 0x01) k = Ret (tt, k') /\
    space k' /\ only_page (table_of k (Z.shiftr va 22)) k k' /\
    forall n, 0 <= n < 1023 * 1024 ->
      pte_of k' n = if decide (n = va / 4096) then Some (leaf phys flags) else pte_of k n.
Proof.
  intros S Hva Hphys Hi Hp. destruct (va_split va Hva) as (E1 & E2 & _ & R1 & R2).
  rewrite E1, E2 in *. set (i := va / 4096 / 1024) in *. set (j := va / 4096 mod 1024) in *.
  destruct (leaf_spec phys flags Hphys) as (_ & HP & Hu).
  destruct (set_pte k i j (leaf phys flags) S ltac:(lia) Hp R2 Hu ltac:(lia)) as [S' M].
  exists (poke (table_of k i) j (leaf phys flags) k).
  split; [apply write32_self; auto; lia|]. split; [exact S'|].
  split; [apply only_page_poke; [apply table_page|exact R2]|].
  intros n Hn. rewrite M, HP by exact Hn.
  assert (Hd : n = i * 1024 + j <-> n = va / 4096) by (unfold i, j; mlia).
  repeat case_decide; tauto.
Qed.

Lemma page_dir_read k va : space k -> 0 <= va < 4294967296 ->
  read32 (cr3 k + 4 * Z.shiftr va 22) k = Ret (pde k (Z.shiftr va 22), k).
Proof.
  intros S Hva. destruct (va_split va Hva) as (E & _ & _ & R & _). rewrite E.
  apply read32_low; [exact S|apply S|exact R].
Qed.

(** The full effect of [paging_map_page] when it returns. *)
Lemma map_page_full k va phys flags :
  space k -> 0 <= va < 4294967296 -> is_u32 phys -> 1 <= Z.shiftr va 22 < 1023 ->
  let i := Z.shiftr va 22 in
  match paging_map_page va phys flags k with
  | Ret (_, k') => space k' /\ cr3 k' = cr3 k /\ present k' i /\
      (forall n, 0 <= n < 1023 * 1024 ->
         pte_of k' n = if decide (n = va / 4096) then Some (leaf phys flags) else pte_of k n) /\
      free k = free k' ++ (if has P (pde k i) then [] else [table_of k' i]) /\
      (forall q j, page q -> 0 <= j < 1024 -> q <> cr3 k -> q <> table_of k' i ->
         word k' q j = word k q j) /\
      (forall j, 0 <= j < 1024 ->
         pde k' j = if decide (j = i /\ ~ present k i) then leaf (table_of k' i) flags else pde k j)
  | Panic => ~ present k i /\ free k = []
  | Oob => False
  end.
Proof.
  intros S Hva Hphys Hi i. unfold paging_map_page, gets, mbind, kern_bind.
  rewrite page_dir_read by assumption. fold i.
  destruct (has P (pde k i)) eqn:Hp; cbn [negb].
  - destruct (map_page_present k va phys flags S Hva Hphys Hi Hp) as (k' & E & S' & O & M).
    unfold mret, kern_ret. fold i in E, O. rewrite E.
    assert (Hne : table_of k i <> cr3 k) by (apply (sp_tables k S); [lia|exact Hp]).
    assert (Eall : forall j, 0 <= j < 1024 -> pde k' j = pde k j)
      by (intros; apply (only_page_pde (table_of k i)); auto; apply S).
    assert (Epde : pde k' i = pde k i) by (apply Eall; lia).
    destruct O as (O1 & O2 & O3 & O4).
    split; [exact S'|]. split; [exact O1|].
    split; [unfold present; rewrite Epde; exact Hp|]. split; [exact M|].
    split; [rewrite O2, app_nil_r; reflexivity|].
    split; [|intros j Hj; rewrite decide_False by tauto; apply Eall, Hj]. intros q j Hq Hj _ Hnt. apply O4; try assumption.
    unfold table_of in Hnt. rewrite Epde in Hnt. exact Hnt.
  - pose proof (pfa_alloc_space k S) as A. destruct (pfa_alloc k) as [[p k1]| |].
    2:{ split; [unfold present; rewrite Hp; discriminate|exact A]. }
    2:{ exact A. }
    destruct A as (S1 & U1 & F1 & R1 & C1).
    assert (W1 : forall q j, word k1 q j = word k q j) by (intros; unfold word; rewrite R1; reflexivity).
    assert (D1 : forall j, pde k1 j = pde k j) by (intros; unfold pde; rewrite C1; apply W1).
    assert (N1 : ~ present k1 i) by (unfold present; rewrite D1, Hp; discriminate).
    destruct (pde_flags flags p (proj1 (proj1 U1))) as (A1 & A2 & A3 & A4 & A5 & A6).
    destruct (new_table k1 i p _ S1 Hi N1 U1 A1 A2 A3 _ A4 A5 A6)
      as (k2 & E2 & S2 & C2 & F2 & P2 & T2 & M2 & O2 & D2 & V2).
    unfold mbind, kern_bind in E2. rewrite C1 in E2. fold i in P2.
    rewrite E2.
    destruct (map_page_present k2 va phys flags S2 Hva Hphys Hi P2) as (k3 & E3 & S3 & O3 & M3).
    fold i in E3, O3. rewrite T2 in O3. rewrite E3.
    assert (Hlp : low p /\ p <> cr3 k) by (rewrite <- C1; split; apply U1).
    assert (Eall : forall j, 0 <= j < 1024 -> pde k3 j = pde k2 j).
    { intros. apply (only_page_pde p); [apply S2|exact O3|rewrite C2, C1; apply Hlp|assumption]. }
    assert (Epde : pde k3 i = pde k2 i) by (apply Eall; lia).
    destruct O3 as (Q1 & Q2 & Q3 & Q4).
    assert (T3 : table_of k3 i = p) by (unfold table_of; rewrite Epde; exact T2).
    split; [exact S3|]. split; [congruence|].
    split; [unfold present; rewrite Epde; exact P2|]. split; [|split; [|split]].
    + intros n Hn. rewrite M3 by exact Hn. case_decide; [reflexivity|].
      rewrite M2 by exact Hn. unfold pte_of, table_of. rewrite D1, W1. reflexivity.
    + rewrite T3, Q2, F2. exact F1.
    + intros q j Hq Hj Hqc Hqt. rewrite T3 in Hqt. rewrite Q4 by assumption.
      rewrite O2 by (try assumption; rewrite C1; assumption). apply W1.
    + intros j Hj. rewrite Eall by exact Hj. case_decide as Hd.
      * destruct Hd as [-> _]. rewrite V2, T3. unfold leaf. reflexivity.
      * assert (j <> i) by (intros ->; apply Hd; split; [reflexivity|unfold present; congruence]).
        rewrite D2, D1 by assumption. reflexivity.
Qed.

Lemma map_page_effect k va phys flags :
  space k -> 0 <= va < 4294967296 -> is_u32 phys -> 1 <= Z.shiftr va 22 < 1023 ->
  let i := Z.shiftr va 22 in
  match paging_map_page va phys flags k with
  | Ret (_, k') => space k' /\ cr3 k' = cr3 k /\ present k' i /\
      (forall n, 0 <= n < 1023 * 1024 ->
         pte_of k' n = if decide (n = va / 4096) then Some (leaf phys flags) else pte_of k n) /\
      free k = free k' ++ (if has P (pde k i) then [] else [table_of k' i]) /\
      (forall q j, page q -> 0 <= j < 1024 -> q <> cr3 k -> q <> table_of k' i ->
         word k' q j = word k q j) /\
      (forall j, 0 <= j < 1024 -> j <> i \/ present k j -> pde k' j = pde k j)
  | Panic => ~ present k i /\ free k = []
  | Oob => False
  end.
Proof.
  intros S Hva Hphys Hi i. pose proof (map_page_full k va phys flags S Hva Hphys Hi) as M. cbv zeta in M.
  destruct (paging_map_page va phys flags k) as [[[] k']| |]; try exact M.
  destruct M as (M1 & M2 & M3 & M4 & M5 & M6 & M7). repeat (split; [assumption|]).
  intros j Hj Hne. rewrite M7 by exact Hj. apply decide_False. intros [-> X]. fold i in X. tauto.
Qed.

(** C14: in an address space in good order, mapping a page (outside the identity-mapped and
    self-map slots) either panics, exactly when a page table is needed and no
    frame is left, or changes the entry of that one page to the requested frame
    with the low three flags and the present bit, and the translation of the
    addresses of that page alone; every other page keeps its entry.  A missing page
    table is the frame on top of the free stack and gets the same flags in the
    directory; every other directory entry, the rest of the free stack and all
    memory outside the directory and that table stay as they are. *)
Theorem paging_map_page_updates k va phys flags :
  space k -> 0 <= va < 4294967296 -> is_u32 phys -> 1 <= Z.shiftr va 22 < 1023 ->
  match paging_map_page va phys flags k with
  | Ret (_, k') => space k' /\ cr3 k' = cr3 k /\
      (forall n, 0 <= n < 1023 * 1024 ->
         pte_of k' n = if decide (n = va / 4096)
                       then Some ((phys .& 0xFFFFF000) .| (flags .& 0x07) .| 0x01) else pte_of k n) /\
      (forall va', 0 <= va' < SELF_MAP ->
         translate k' va' =
           if decide (va' / 4096 = va / 4096) then Some ((phys .& 0xFFFFF000) + va' mod 4096)
           else translate k va') /\
      (forall j, 0 <= j < 1024 ->
         pde k' j = if decide (j = Z.shiftr va 22 /\ ~ present k j)
                    then table_of k' j .| (flags .& 0x07) .| 0x01 else pde k j) /\
      free k = free k' ++ (if has P (pde k (Z.shiftr va 22)) then [] else [table_of k' (Z.shiftr va 22)]) /\
      (forall q j, page q -> 0 <= j < 1024 -> q <> cr3 k -> q <> table_of k' (Z.shiftr va 22) ->
         word k' q j = word k q j)
  | Panic => ~ present k (Z.shiftr va 22) /\ free k = []
  | Oob => False
  end.
Proof.
  intros S Hva Hphys Hi. pose proof (map_page_full k va phys flags S Hva Hphys Hi) as M.
  cbv zeta in M. destruct (paging_map_page va phys flags k) as [[[] k']| |]; try exact M.
  destruct M as (S' & C' & P' & M & F & W & D). split; [exact S'|]. split; [exact C'|]. split; [exact M|].
  split; [|split; [|split; assumption]].
  - intros va' Hva'. unfold SELF_MAP in Hva'.
    rewrite !translate_pte by (try apply S; try apply S'; lia).
    rewrite M by mlia. case_decide; [|reflexivity].
    simpl. destruct (leaf_spec phys flags Hphys) as (-> & _). reflexivity.
  - intros j Hj. rewrite D by exact Hj. destruct (decide (j = Z.shiftr va 22 /\ ~ present k (Z.shiftr va 22))) as [[-> X]|X].
    + rewrite decide_True by auto. unfold leaf. rewrite (page_addr _ (table_page _ _)). reflexivity.
    + rewrite decide_False; [reflexivity|]. intros [-> Y]. tauto.
Qed.

(** A low page that holds none of the structures of the address space. *)
Definition client (k : machine) (p : Z) : Prop :=
  low p /\ p <> cr3 k /\ forall i, 0 <= i < 1023 -> present k i -> table_of k i <> p.

(** The full effect of [paging_alloc_page]. *)
Lemma paging_alloc_page_effect k va :
  space k -> 0 <= va < 4294967296 -> 1 <= Z.shiftr va 22 < 1023 ->
  match paging_alloc_page va k with
  | Ret (_, k') => exists p, space k' /\ low p /\ (p ∈ free k) /\ (p ∉ free k') /\ p <> cr3 k' /\
      (forall i, 0 <= i < 1023 -> present k' i -> table_of k' i <> p) /\
      (forall n, 0 <= n < 1023 * 1024 ->
         pte_of k' n = if decide (n = va / 4096) then Some (leaf p 7) else pte_of k n) /\
      cr3 k' = cr3 k /\ (exists used, free k = free k' ++ used /\ (length used <= 2)%nat) /\
      forall q, client k q -> q ∉ free k -> client k' q /\
        forall j, 0 <= j < 1024 -> word k' q j = word k q j
  | Panic => (length (free k) <= 1)%nat
  | Oob => False
  end.
Proof.
  intros S Hva Hi. unfold paging_alloc_page, mbind, kern_bind.
  pose proof (pfa_alloc_space k S) as A. destruct (pfa_alloc k) as [[p k1]| |]; [|rewrite A; simpl; lia|exact A].
  destruct A as (S1 & U1 & F1 & R1 & C1).
  pose proof (map_page_effect k1 va p 0x07 S1 Hva (proj1 (proj1 (proj1 U1))) Hi) as M. cbv zeta in M.
  destruct (paging_map_page va p 0x07 k1) as [[[] k']| |];
    [|destruct M as [_ M]; rewrite F1, M; simpl; lia|exact M].
  destruct M as (S' & C' & P' & M & F & W & D). exists p.
  destruct U1 as (U1 & U2 & U3 & U4).
  assert (W1 : forall q j, word k1 q j = word k q j) by (intros; unfold word; rewrite R1; reflexivity).
  assert (D1 : forall j, pde k1 j = pde k j) by (intros; unfold pde; rewrite C1; apply W1).
  assert (Hfree : p ∉ free k').
  { intros X. apply U3. rewrite F. apply elem_of_app. auto. }
  (* what each table of the new state is *)
  assert (Htab : forall j, 0 <= j < 1023 -> present k' j ->
            (present k j /\ table_of k' j = table_of k j) \/ table_of k' j ∈ free k).
  { intros j Hj Hpj. destruct (decide (j = Z.shiftr va 22)) as [->|Hne].
    - destruct (has P (pde k1 (Z.shiftr va 22))) eqn:X.
      + left. unfold present, table_of. rewrite D by (auto with lia). rewrite D1 in X |- *. auto.
      + right. rewrite F1, F. apply elem_of_app. left. apply elem_of_app. right.
        apply list_elem_of_singleton. reflexivity.
    - left. unfold present, table_of in *. rewrite D, D1 in * by (auto with lia). auto. }
  split; [exact S'|]. split; [exact U1|].
  split; [rewrite F1; apply elem_of_app; right; apply list_elem_of_singleton; reflexivity|].
  split; [exact Hfree|]. split; [congruence|]. split; [|split; [|split; [congruence|split]]].
  - intros j Hj Hpj E. destruct (decide (j = Z.shiftr va 22)) as [->|Hne].
    + destruct (has P (pde k1 (Z.shiftr va 22))) eqn:X.
      * apply (U4 (Z.shiftr va 22) Hj X). unfold table_of. rewrite <- D by (auto with lia). exact E.
      * apply U3. rewrite F, <- E. apply elem_of_app. right. apply list_elem_of_singleton. reflexivity.
    + apply (U4 j Hj); [unfold present; rewrite <- D by (auto with lia); exact Hpj|].
      unfold table_of. rewrite <- D by (auto with lia). exact E.
  - intros n Hn. rewrite M by exact Hn. case_decide; [reflexivity|].
    unfold pte_of, table_of, pde, word. rewrite C1, R1. reflexivity.
  - eexists. split; [rewrite F1, F, <- app_assoc; reflexivity|]. rewrite length_app.
    destruct (has P _); cbn; lia.
  - intros q (Q1 & Q2 & Q3) Q4. assert (Hqt : forall j, 0 <= j < 1023 -> present k' j -> table_of k' j <> q).
    { intros j Hj Hpj E. destruct (Htab j Hj Hpj) as [[X Y]|X]; [|congruence].
      apply (Q3 j Hj X). congruence. }
    split; [split; [exact Q1|split; [congruence|exact Hqt]]|].
    intros j Hj. rewrite W; [apply W1|apply Q1|exact Hj|congruence|].
    intros E. apply (Hqt (Z.shiftr va 22)); [lia|exact P'|congruence].
Qed.

(** ** paging_map_user *)

Lemma lor_u32 a b : is_u32 a -> is_u32 b -> is_u32 (a .| b).
Proof.
  intros Ha Hb. unfold is_u32 in *. change 4294967296 with (2 ^ 32) in *.
  assert (E : (a .| b) mod 2 ^ 32 = a .| b).
  { rewrite <- Z.land_ones, Z.land_lor_distr_l, !Z.land_ones, !Z.mod_small by lia. reflexivity. }
  rewrite <- E. apply Z.mod_pos_bound. lia.
Qed.

Lemma set_user e :
  is_u32 e -> has P e = true ->
  is_u32 (e .| 4) /\ has P (e .| 4) = true /\ has U (e .| 4) = true /\
  (e .| 4) .& 0xFFFFF000 = e .& 0xFFFFF000.
Proof.
  intros He Hp. split; [apply lor_u32; [exact He|unfold is_u32; lia]|].
  unfold has, P, U in *. rewrite !Z.land_lor_distr_l. change (4 .& 1) with 0.
  change (4 .& 4) with 4. change (4 .& 0xFFFFF000) with 0. rewrite !Z.lor_0_r.
  split; [exact Hp|]. split; [|reflexivity].
  apply negb_true_iff, Z.eqb_neq. intros E. apply (f_equal (fun z => Z.testbit z 2)) in E.
  rewrite Z.lor_spec, Z.bits_0, orb_true_r in E. discriminate.
Qed.

(** The full effect of [paging_map_user] on a mapped page. *)
Lemma map_user_full k va e :
  space k -> 0 <= va < SELF_MAP -> pte_of k (va / 4096) = Some e ->
  exists k', paging_map_user va k = Ret (tt, k') /\ space k' /\ free k' = free k /\ cr3 k' = cr3 k /\
    (forall va', 0 <= va' < SELF_MAP -> translate k' va' = translate k va') /\
    pte_of k' (va / 4096) = Some (e .| 4) /\ has U (e .| 4) = true /\
    has U (pde k' (Z.shiftr va 22)) = true /\
    (forall i, 0 <= i < 1023 -> table_of k' i = table_of k i /\ (present k' i <-> present k i)) /\
    (forall q j, page q -> 0 <= j < 1024 -> q <> cr3 k -> q <> table_of k (Z.shiftr va 22) ->
       word k' q j = word k q j) /\
    forall n, 0 <= n < 1023 * 1024 -> pte_of k' n = if decide (n = va / 4096) then Some (e .| 4) else pte_of k n.
Proof.
  intros S Hva He. unfold SELF_MAP in Hva.
  destruct (va_split va ltac:(lia)) as (E1 & E2 & _ & R1 & R2).
  set (i := va / 4096 / 1024) in *. set (j := va / 4096 mod 1024) in *.
  assert (Hi : 0 <= i < 1023) by (unfold i; mlia).
  assert (Hpre : present k i /\ word k (table_of k i) j = e /\ has P e = true).
  { unfold pte_of in He. fold i j in He. unfold present.
    destruct (has P (pde k i)); [|discriminate].
    destruct (has P (word k (table_of k i) j)) eqn:X; [|discriminate].
    injection He as <-. auto. }
  destruct Hpre as (Hp & Hw & HPe).
  assert (Hue : is_u32 e) by (rewrite <- Hw; apply word_range).
  destruct (set_user e Hue HPe) as (Uu & Up & Uuser & Ua).
  assert (Hid : i = 0 -> e .& 0xFFFFF000 = j * 4096).
  { intros Hi0. destruct (sp_low k S j R2) as (e0 & He0 & Ha0).
    replace (va / 4096) with j in He by (unfold i, j in *; mlia). congruence. }
  destruct (set_pte k i j (e .| 4) S Hi Hp R2 Uu) as [S1 M1].
  { intros Hi0. rewrite Ua. auto. }
  set (k1 := poke (table_of k i) j (e .| 4) k) in *.
  destruct (sp_tables k S i Hi Hp) as [Hlow Hne].
  assert (Epde : pde k1 i = pde k i)
    by (apply pde_poke_other; [apply (sp_cr3 k S)|apply Hlow|exact Hne|exact R2|lia]).
  assert (P1 : present k1 i) by (unfold present; rewrite Epde; exact Hp).
  assert (T1 : table_of k1 i = table_of k i) by (unfold table_of; rewrite Epde; reflexivity).
  destruct (set_user (pde k1 i) (word_range _ _ _) P1) as (Du & Dp & Duser & Da).
  set (k2 := poke (cr3 k1) i (pde k1 i .| 4) k1).
  assert (S2 : space k2) by (apply (install_space k1 S1 i (table_of k1 i)); side).
  assert (M2 : forall n, 0 <= n < 1023 * 1024 -> pte_of k2 n = pte_of k1 n).
  { intros n Hn. unfold k2. rewrite (install_pte k1 S1 i (table_of k1 i)) by side.
    case_decide as Hd; [|reflexivity]. unfold pte_of. rewrite Hd. unfold present in P1. rewrite P1. reflexivity. }
  exists k2. split; [|split; [exact S2|split; [reflexivity|split; [reflexivity|split; [|split; [|split; [|split; [|split; [|split]]]]]]]]].
  - unfold paging_map_user, gets, mbind, kern_bind. rewrite page_dir_read by (try assumption; lia).
    rewrite E1, E2. fold (table_of k i). rewrite read32_low by assumption. rewrite Hw.
    rewrite write32_low by assumption. fold k1.
    change (cr3 k) with (cr3 k1). rewrite read32_low by (assumption || apply (sp_cr3 k1 S1)).
    fold (pde k1 i). apply write32_low; [exact S1|apply (sp_cr3 k1 S1)|exact R1].
  - intros va' Hva'. unfold SELF_MAP in Hva'. rewrite !translate_pte by (try apply S; try apply S2; lia).
    rewrite M2, M1 by mlia. destruct (decide (va' / 4096 = i * 1024 + j)) as [Hd|Hd]; [|reflexivity].
    rewrite Up. replace (va' / 4096) with (va / 4096) by (unfold i, j in *; mlia).
    rewrite He. simpl. rewrite Ua. reflexivity.
  - rewrite M2, M1 by mlia. rewrite decide_True by (unfold i, j; mlia). rewrite Up. reflexivity.
  - exact Uuser.
  - rewrite E1. unfold k2. rewrite (install_pde k1 S1 i (table_of k1 i)) by side.
    rewrite decide_True by reflexivity. exact Duser.
  - intros j' Hj'.
    assert (Eall : forall x, 0 <= x < 1024 -> pde k1 x = pde k x)
      by (intros; apply pde_poke_other; [apply (sp_cr3 k S)|apply Hlow|exact Hne|exact R2|lia]).
    unfold k2. rewrite (install_table k1 S1 i (table_of k1 i)), (install_present k1 S1 i (table_of k1 i)) by side.
    assert (Et : table_of k1 j' = table_of k j') by (unfold table_of; rewrite Eall by lia; reflexivity).
    assert (Ep : present k1 j' <-> present k j') by (unfold present; rewrite Eall by lia; tauto).
    rewrite Ep. case_decide as Hd; [subst j'; tauto|]. tauto.
  - intros q j' Hq Hj' Hqc Hqt. rewrite E1 in Hqt. unfold k2.
    rewrite word_poke_ne; [|apply (sp_cr3 k1 S1)|exact Hq|lia|exact Hj'|change (cr3 k1) with (cr3 k); congruence].
    apply word_poke_ne; [apply Hlow|exact Hq|exact R2|exact Hj'|congruence].
  - intros n Hn. rewrite M2, M1, Up by exact Hn. assert (Hd : n = i * 1024 + j <-> n = va / 4096) by (unfold i, j; mlia).
    repeat case_decide; tauto.
Qed.

Lemma map_user_effect k va e :
  space k -> 0 <= va < SELF_MAP -> pte_of k (va / 4096) = Some e ->
  exists k', paging_map_user va k = Ret (tt, k') /\ space k' /\ free k' = free k /\ cr3 k' = cr3 k /\
    (forall va', 0 <= va' < SELF_MAP -> translate k' va' = translate k va') /\
    pte_of k' (va / 4096) = Some (e .| 4) /\ has U (e .| 4) = true /\
    has U (pde k' (Z.shiftr va 22)) = true /\
    (forall i, 0 <= i < 1023 -> table_of k' i = table_of k i /\ (present k' i <-> present k i)) /\
    (forall q j, page q -> 0 <= j < 1024 -> q <> cr3 k -> q <> table_of k (Z.shiftr va 22) ->
       word k' q j = word k q j).
Proof. intros S Hva He. destruct (map_user_full k va e S Hva He) as (k' & H). exists k'. tauto. Qed.

(** marking a mapped page as user-accessible changes no translation;
    both levels of its entry get the user bit. *)
Theorem paging_map_user_spec k va e :
  space k -> 0 <= va < SELF_MAP -> pte_of k (va / 4096) = Some e ->
  exists k', paging_map_user va k = Ret (tt, k') /\ space k' /\ free k' = free k /\
    (forall va', 0 <= va' < SELF_MAP -> translate k' va' = translate k va') /\
    pte_of k' (va / 4096) = Some (e .| 4) /\ has U (e .| 4) = true /\
    has U (pde k' (Z.shiftr va 22)) = true.
Proof.
  intros S Hva He. destruct (map_user_effect k va e S Hva He) as (k' & H). exists k'. tauto.
Qed.

(** ** Stores outside the page tables *)

Lemma load32_zero m a : (forall i, 0 <= i < 4 -> load8 m (a + i) = 0) -> load32 m a = 0.
Proof.
  intros H. rewrite (load32_ext m mem0) by (intros i Hi; rewrite H by lia; reflexivity).
  reflexivity.
Qed.



Lemma unused_client k p : unused k p -> client k p.
Proof. intros (H1 & H2 & _ & H4). split; auto. Qed.

Lemma space_only_page p k k' :
  space k -> client k p -> only_page p k k' -> pool_ok k' ->
  space k' /\ (forall q, client k q -> client k' q) /\
  (forall n, 0 <= n < 1023 * 1024 -> pte_of k' n = pte_of k n).
Proof.
  intros S (Hlp & Hpc & Hpt) O Hok.
  assert (Hpde : forall j, 0 <= j < 1024 -> pde k' j = pde k j)
    by (intros; apply (only_page_pde p); auto; apply (sp_cr3 k S)).
  destruct O as (O1 & O2 & O3 & O4).
  assert (Htab : forall j, 0 <= j < 1024 -> table_of k' j = table_of k j)
    by (intros; unfold table_of; rewrite Hpde; auto).
  assert (Hpre : forall j, 0 <= j < 1024 -> present k' j <-> present k j)
    by (intros; unfold present; rewrite Hpde; tauto).
  assert (Hpte : forall n, 0 <= n < 1023 * 1024 -> pte_of k' n = pte_of k n).
  { intros n Hn. unfold pte_of. rewrite Hpde, Htab by mlia.
    destruct (has P (pde k (n / 1024))) eqn:E; [|reflexivity].
    rewrite O4; [reflexivity|apply table_page|mlia|]. apply Hpt; [mlia|exact E]. }
  split; [|split; [|exact Hpte]].
  - destruct S as [S1 S2 S3 S4 S5 S6 S7 S8 S9]. split; try (rewrite ?O1, ?O2, ?O3; assumption).
    + rewrite Hpde, Hpre, O1 by lia. exact S3.
    + intros n Hn. rewrite Hpte by lia. apply S4, Hn.
    + intros j Hj. rewrite Hpre, Htab, O1 by lia. apply S5; lia.
    + intros j1 j2 H1 H2. rewrite !Hpre, !Htab by lia. apply S6; lia.
    + intros j Hj. rewrite Hpre, Htab, O2 by lia. apply S9; lia.
  - intros q (H1 & H2 & H3). split; [exact H1|]. split; [rewrite O1; exact H2|].
    intros i Hi. rewrite Hpre, Htab by lia. apply H3; exact Hi.
Qed.

(** A byte store through the identity map. *)
Lemma write8_low k va v : space k -> 0 <= va < 0x400000 ->
  write8 va v k = Ret (tt, set_ram (store8 (ram k) va v) k).
Proof.
  intros S Hva. unfold write8, access. rewrite u32_small, translate_low by (try assumption; lia). reflexivity.
Qed.

Lemma only_page_store8 p off v k :
  page p -> 0 <= off < 4096 -> only_page p k (set_ram (store8 (ram k) (p + off) v) k).
Proof.
  intros [Hp Hpa] Ho. repeat split. intros q j [Hq Hqa] Hj Hne. apply load32_ext. intros i Hi.
  apply load8_store8_other. rewrite !u32_small by mlia. mlia.
Qed.

(** [memset] of words inside a client page. *)
Lemma vmemset_low k p i n :
  space k -> client k p -> 0 <= i -> 0 <= n -> i + n <= 1024 ->
  exists k', vmemset (p + 4 * i) 0 (4 * n) k = Ret (tt, k') /\ space k' /\ only_page p k k' /\
    forall j, 0 <= j < 1024 -> word k' p j = if decide (i <= j < i + n) then 0 else word k p j.
Proof.
  intros S C Hi Hn Hin. pose proof (proj1 C) as Hlp. pose proof Hlp as [[Hp Hpa] Hp4].
  assert (Hp5 : p <= 0x3FF000) by mlia.
  destruct (kfor_rule (fun m k' => space k' /\ client k' p /\ only_page p k k' /\
      forall x, p <= x < p + 4096 -> load8 (ram k') x =
        if decide (p + 4 * i <= x < p + 4 * i + m) then 0 else load8 (ram k) x)
    (fun m => write8 (p + 4 * i + m) 0) (Z.to_nat (4 * n)) 0 k) as (k' & E & S' & _ & O & L).
  - split; [exact S|]. split; [exact C|]. split; [apply only_page_refl|].
    intros x Hx. rewrite decide_False by lia. reflexivity.
  - intros m k1 Hm (S1 & C1 & O1 & L1). rewrite write8_low by (try assumption; lia).
    eexists. split; [reflexivity|].
    assert (O2 : only_page p k1 (set_ram (store8 (ram k1) (p + 4 * i + m) 0) k1)).
    { replace (p + 4 * i + m) with (p + (4 * i + m)) by lia. apply only_page_store8; [split; assumption|lia]. }
    destruct (space_only_page p k1 _ S1 C1 O2) as (S2 & C2 & _); [apply (sp_pool k1 S1)|].
    split; [exact S2|]. split; [apply C2, C1|]. split; [eapply only_page_trans; eassumption|].
    intros x Hx. cbn [ram set_ram]. destruct (decide (x = p + 4 * i + m)) as [->|Hne].
    + rewrite load8_store8_same. rewrite decide_True by lia. reflexivity.
    + rewrite load8_store8_other by (rewrite !u32_small by lia; exact Hne).
      rewrite L1 by exact Hx. repeat case_decide; try reflexivity; lia.
  - exists k'. split; [exact E|]. split; [exact S'|]. split; [exact O|].
    intros j Hj. unfold word. case_decide as Hd.
    + apply load32_zero. intros x Hx. rewrite L by lia. rewrite decide_True by lia. reflexivity.
    + apply load32_ext. intros x Hx. rewrite L by lia. rewrite decide_False by lia. reflexivity.
Qed.

(** ** Frames in the hands of a caller *)

(** Allocating another frame. *)
Lemma unused_alloc k p :
  space k -> unused k p ->
  match pfa_alloc k with
  | Ret (q, k') => space k' /\ unused k' p /\ unused k' q /\ p <> q /\ free k = free k' ++ [q] /\
      ram k' = ram k /\ cr3 k' = cr3 k
  | Panic => free k = []
  | Oob => False
  end.
Proof.
  intros S U. pose proof (pfa_alloc_space k S) as A.
  destruct (pfa_alloc k) as [[q k']| |]; [|exact A|exact A].
  destruct A as (S' & Uq & F & R & C). destruct U as (U1 & U2 & U3 & U4).
  assert (Hpre : forall j, present k' j <-> present k j) by (intros; unfold present, pde, word; rewrite R, C; tauto).
  assert (Htab : forall j, table_of k' j = table_of k j) by (intros; unfold table_of, pde, word; rewrite R, C; reflexivity).
  split; [exact S'|]. split; [|split; [exact Uq|]].
  - split; [exact U1|]. split; [congruence|]. split.
    + intros X. apply U3. rewrite F. apply elem_of_app. auto.
    + intros i Hi. rewrite Hpre, Htab. apply U4, Hi.
  - split; [|auto]. intros ->. apply U3. rewrite F. apply elem_of_app. right. apply list_elem_of_here.
Qed.

(** Writing one's own frame. *)
Lemma unused_poke k p i v :
  space k -> unused k p -> 0 <= i < 1024 ->
  write32 (p + 4 * i) v k = Ret (tt, poke p i v k) /\ space (poke p i v k) /\ unused (poke p i v k) p /\
  free (poke p i v k) = free k.
Proof.
  intros S U Hi. split; [apply write32_low; [exact S|apply U|exact Hi]|].
  destruct (space_only_page p k (poke p i v k) S (unused_client k p U)) as (S' & C' & _).
  { apply only_page_poke; [apply U|exact Hi]. } { apply (sp_pool k S). }
  split; [exact S'|]. split; [|reflexivity].
  destruct (C' p (unused_client k p U)) as (C1 & C2 & C3). destruct U as (_ & _ & U3 & _).
  split; [exact C1|]. split; [exact C2|]. split; [exact U3|exact C3].
Qed.

(** Marking a page of the identity map. *)
Lemma unused_map_user k p va :
  space k -> unused k p -> 0 <= va < 0x400000 ->
  exists k', paging_map_user va k = Ret (tt, k') /\ space k' /\ unused k' p /\ free k' = free k /\
    (forall j, 0 <= j < 1024 -> word k' p j = word k p j) /\
    (forall va', 0 <= va' < SELF_MAP -> translate k' va' = translate k va').
Proof.
  intros S (U1 & U2 & U3 & U4) Hva. destruct (sp_low k S (va / 4096)) as (e & He & _); [mlia|].
  destruct (map_user_effect k va e S ltac:(unfold SELF_MAP; lia) He)
    as (k' & E & S' & F & C & Tr & _ & _ & _ & T & W).
  destruct (va_split va ltac:(lia)) as (E1 & _). assert (Hz : Z.shiftr va 22 = 0) by (rewrite E1; mlia).
  exists k'. split; [exact E|]. split; [exact S'|]. split; [|split; [exact F|split; [|exact Tr]]].
  - split; [exact U1|]. split; [congruence|]. split; [rewrite F; exact U3|].
    intros i Hi. destruct (T i Hi) as [-> ->]. apply U4, Hi.
  - intros j Hj. apply W; [apply U1|exact Hj|exact U2|]. rewrite Hz. intros X.
    apply (U4 0 ltac:(lia) (present_zero k S)). symmetry. exact X.
Qed.

(** Mapping a page elsewhere. *)
Lemma unused_map_page k p va phys flags :
  space k -> unused k p -> 0 <= va < 4294967296 -> is_u32 phys -> 1 <= Z.shiftr va 22 < 1023 ->
  free k <> [] ->
  exists k', paging_map_page va phys flags k = Ret (tt, k') /\ space k' /\ unused k' p /\
    (length (free k) <= length (free k') + 1)%nat /\
    (forall j, 0 <= j < 1024 -> word k' p j = word k p j) /\
    (forall n, 0 <= n < 1023 * 1024 ->
       pte_of k' n = if decide (n = va / 4096) then Some (leaf phys flags) else pte_of k n).
Proof.
  intros S (U1 & U2 & U3 & U4) Hva Hphys Hi Hf.
  pose proof (map_page_effect k va phys flags S Hva Hphys Hi) as M. cbv zeta in M.
  destruct (paging_map_page va phys flags k) as [[[] k']| |]; [|destruct M; contradiction|contradiction].
  destruct M as (S' & C & P' & M & F & W & D). exists k'. split; [reflexivity|]. split; [exact S'|].
  assert (Hnt : table_of k' (Z.shiftr va 22) <> p).
  { destruct (has P (pde k (Z.shiftr va 22))) eqn:X.
    - unfold table_of. rewrite D by (auto with lia). apply (U4 (Z.shiftr va 22)); [lia|exact X].
    - intros Y. apply U3. rewrite F, Y. apply elem_of_app. right. apply list_elem_of_here. }
  split; [|split; [rewrite F, length_app; destruct (has P _); simpl; lia|split; [|exact M]]].
  - split; [exact U1|]. split; [congruence|]. split.
    + intros X. apply U3. rewrite F. apply elem_of_app. auto.
    + intros i Hi' Hp'. destruct (decide (i = Z.shiftr va 22)) as [->|Hne]; [exact Hnt|].
      unfold table_of. rewrite D by (auto with lia). apply (U4 i Hi'). unfold present.
      rewrite <- D by (auto with lia). exact Hp'.
  - intros j Hj. apply W; [apply U1|exact Hj|exact U2|congruence].
Qed.

(** ** Enabling paging *)

(** Before paging is on, an access is a physical access. *)
Lemma clear_page_phys k p :
  paging_on k = false -> page p ->
  exists k', vmemset p 0 4096 k = Ret (tt, k') /\ only_page p k k' /\
    page_frames k' = page_frames k /\ page_frame_count k' = page_frame_count k /\
    forall j, 0 <= j < 1024 -> word k' p j = 0.
Proof.
  intros Hoff [Hp Hpa].
  destruct (kfor_rule (fun n k' => cr3 k' = cr3 k /\ paging_on k' = false /\
      page_frames k' = page_frames k /\ page_frame_count k' = page_frame_count k /\
      forall x, is_u32 x -> load8 (ram k') x = if decide (p <= x < p + n) then 0 else load8 (ram k) x)
    (fun i => write8 (p + i) 0) (Z.to_nat 4096) 0 k) as (k' & E & C & F & F1 & F2 & L).
  - repeat split; try assumption. intros x Hx. rewrite decide_False by lia. reflexivity.
  - intros i k1 Hi (C & F & F1 & F2 & L). unfold write8, access, translate. rewrite F.
    eexists. split; [reflexivity|]. cbn [cr3 paging_on page_frames page_frame_count ram set_ram].
    repeat split; try assumption. intros x Hx. unfold is_u32 in *.
    rewrite u32_small by mlia. destruct (decide (x = p + i)) as [->|Hne].
    + rewrite load8_store8_same. rewrite decide_True by lia. reflexivity.
    + rewrite load8_store8_other by (rewrite !u32_small by mlia; exact Hne).
      rewrite L by exact Hx. repeat case_decide; try reflexivity; lia.
  - exists k'. split; [exact E|]. split; [|split; [exact F1|split; [exact F2|]]].
    + repeat split; [exact C|unfold free; rewrite F1, F2; reflexivity|congruence|].
      intros q j [Hq Hqa] Hj Hne. unfold word. apply load32_ext. intros i Hi.
      rewrite L by (unfold is_u32; mlia). rewrite decide_False by mlia. reflexivity.
    + intros j Hj. unfold word. apply load32_zero. intros i Hi.
      rewrite L by (unfold is_u32; mlia). rewrite decide_True by mlia. reflexivity.
Qed.

Lemma write32_phys k p i v : paging_on k = false -> page p -> 0 <= i < 1024 ->
  write32 (p + 4 * i) v k = Ret (tt, poke p i v k).
Proof.
  intros Hoff [Hp Hpa] Hi. unfold write32, access, translate. rewrite Hoff.
  rewrite u32_small by mlia. reflexivity.
Qed.

(** Filling the identity table. *)
Lemma fill_identity k p :
  paging_on k = false -> page p ->
  exists k', kfor 1024 0 (fun i => write32 (p + 4 * i) (u32 (0 * 0x400000 + i * 4096) .| 0x03)) k =
      Ret (tt, k') /\ only_page p k k' /\
    page_frames k' = page_frames k /\ page_frame_count k' = page_frame_count k /\
    forall j, 0 <= j < 1024 -> word k' p j = j * 4096 + 3.
Proof.
  intros Hoff Hp.
  destruct (kfor_rule (fun n k' => only_page p k k' /\
      page_frames k' = page_frames k /\ page_frame_count k' = page_frame_count k /\
      forall j, 0 <= j < n -> word k' p j = j * 4096 + 3)
    (fun i => write32 (p + 4 * i) (u32 (0 * 0x400000 + i * 4096) .| 0x03)) 1024 0 k)
    as (k' & E & O & F1 & F2 & W).
  - repeat split; try apply only_page_refl. intros j Hj; lia.
  - intros i k1 Hi (O & F1 & F2 & W).
    rewrite write32_phys by (try assumption; try lia; destruct O as (_ & _ & O & _); congruence).
    eexists. split; [reflexivity|]. split; [|split; [exact F1|split; [exact F2|]]].
    + eapply only_page_trans; [exact O|]. apply only_page_poke; [exact Hp|lia].
    + intros j Hj. rewrite word_poke by (try assumption; lia). case_decide as Hd.
      * destruct Hd as [_ <-]. rewrite (u32_small (0 * 0x400000 + i * 4096)) by lia.
        destruct (mk_entry (i * 4096) 3) as (Em & _); [unfold page; mlia|lia|].
        rewrite Z.mul_0_l, Z.add_0_l, Em. apply u32_small. lia.
      * apply W. destruct (decide (i = j)); [tauto|lia].
  - exists k'. auto.
Qed.

Lemma pool_ok_eq k k' :
  page_frames k' = page_frames k -> page_frame_count k' = page_frame_count k ->
  pool_ok k -> pool_ok k'.
Proof. unfold pool_ok. intros -> ->. auto. Qed.

Lemma pfa_alloc_last k fs p :
  pool_ok k -> free k = fs ++ [p] ->
  exists k', pfa_alloc k = Ret (p, k') /\ free k' = fs /\ pool_ok k' /\
    ram k' = ram k /\ cr3 k' = cr3 k /\ paging_on k' = paging_on k.
Proof.
  intros Hok Hf. pose proof (pfa_alloc_spec k Hok) as A.
  destruct (pfa_alloc k) as [[q k']| |]; [|rewrite A in Hf; destruct fs; discriminate|contradiction].
  destruct A as (F & A). rewrite Hf in F. apply app_inj_tail in F as [E1 E2]. subst q.
  exists k'. destruct A as (A1 & A2 & A3 & A4). auto 10.
Qed.

(** The directory and first table as [paging_init] leaves them. *)
Definition boot_tables (k : machine) (pd pt : Z) (self : bool) : Prop :=
  (forall j, 0 <= j < 1024 -> word k pd j =
     if decide (j = 0) then pt + 3 else if decide (j = 1023 /\ self = true) then pd + 3 else 0) /\
  (forall j, 0 <= j < 1024 -> word k pt j = j * 4096 + 3).

Lemma boot_pte k pd pt self n :
  low pd -> low pt -> boot_tables k pd pt self -> cr3 k = pd -> 0 <= n < 1023 * 1024 ->
  pte_of k n = if decide (n < 1024) then Some (n * 4096 + 3) else None.
Proof.
  intros [Hd _] [Ht _] [Wd Wt] Hc Hn. unfold pte_of, table_of, pde. rewrite Hc, Wd by mlia.
  destruct (decide (n < 1024)) as [Hlt|Hlt].
  - rewrite decide_True by mlia. destruct (mk_entry pt 3 Ht ltac:(lia)) as (E & A & _).
    rewrite <- E, A, Wt by mlia. replace (n mod 1024) with n by mlia.
    assert (Hodd : forall p, page p -> has P (p .| 3) = true).
    { intros p [Hp Hpa]. destruct (mk_entry p 3 (conj Hp Hpa) ltac:(lia)) as (E' & _).
      rewrite has_P, E', Z.odd_add. replace p with (2 * (p / 2)) by mlia. rewrite Z.odd_mul. reflexivity. }
    rewrite (Hodd pt Ht). pose proof (Hodd (n * 4096) ltac:(unfold page; mlia)) as Ho.
    destruct (mk_entry (n * 4096) 3 ltac:(unfold page; mlia) ltac:(lia)) as (E' & _).
    rewrite E' in Ho. rewrite Ho. reflexivity.
  - rewrite decide_False by mlia. rewrite decide_False by (intros [? _]; mlia). reflexivity.
Qed.

Lemma boot_space k pd pt :
  low pd -> low pt -> pd <> pt -> boot_tables k pd pt true -> cr3 k = pd -> paging_on k = true ->
  pool_ok k -> Forall low (free k) -> NoDup (free k) -> (pd ∉ free k) -> (pt ∉ free k) -> space k.
Proof.
  intros Hd Ht Hne B Hc Hon Hok F1 F2 F3 F4. pose proof B as [Wd Wt].
  assert (Hpde : forall j, 0 <= j < 1024 -> pde k j =
     if decide (j = 0) then pt + 3 else if decide (j = 1023 /\ true = true) then pd + 3 else 0)
    by (intros; unfold pde; rewrite Hc; apply Wd; assumption).
  assert (Hpre : forall j, 0 <= j < 1023 -> present k j -> j = 0).
  { intros j Hj X. unfold present in X. rewrite Hpde in X by lia.
    repeat case_decide; try lia; discriminate. }
  destruct (mk_entry pt 3 (proj1 Ht) ltac:(lia)) as (E & A & _).
  destruct (mk_entry pd 3 (proj1 Hd) ltac:(lia)) as (E' & A' & _).
  assert (Ht0 : table_of k 0 = pt).
  { unfold table_of. rewrite Hpde by lia. rewrite decide_True by reflexivity. rewrite <- E. exact A. }
  split; try assumption.
  - rewrite Hc. exact Hd.
  - rewrite Hc. unfold present. rewrite Hpde by lia. rewrite decide_False, decide_True by (auto; lia).
    rewrite <- E'. split; [exact A'|]. rewrite has_P, E', Z.odd_add.
    destruct Hd as [[Hp Hpa] _]. replace pd with (2 * (pd / 2)) by mlia. rewrite Z.odd_mul. reflexivity.
  - intros n Hn. exists (n * 4096 + 3). rewrite (boot_pte k pd pt true) by (auto; lia).
    rewrite decide_True by lia. split; [reflexivity|].
    destruct (mk_entry (n * 4096) 3 ltac:(unfold page; mlia) ltac:(lia)) as (E1 & A1 & _).
    rewrite <- E1. exact A1.
  - intros i Hi X. rewrite (Hpre i Hi X), Ht0, Hc. split; [exact Ht|congruence].
  - intros i j Hi Hj Xi Xj _. rewrite (Hpre i Hi Xi), (Hpre j Hj Xj). reflexivity.
  - rewrite Hc. auto.
  - intros i Hi X. rewrite (Hpre i Hi X), Ht0. exact F4.
Qed.

(** Writing the self-map entry with paging already on. *)
Lemma write32_boot k pd pt i v :
  low pd -> low pt -> boot_tables k pd pt false -> cr3 k = pd -> paging_on k = true ->
  0 <= i < 1024 -> write32 (pd + 4 * i) v k = Ret (tt, poke pd i v k).
Proof.
  intros Hd Ht B Hc Hon Hi. pose proof (low_word_bound pd i Hd Hi) as Hb.
  unfold write32, access. rewrite u32_small by lia.
  rewrite translate_pte by (try assumption; try (rewrite Hc; apply Hd); lia).
  rewrite (boot_pte k pd pt false) by (try assumption; mlia).
  rewrite decide_True by mlia. simpl.
  destruct (mk_entry ((pd + 4 * i) / 4096 * 4096) 3 ltac:(unfold page; mlia) ltac:(lia)) as (E1 & A1 & _).
  rewrite <- E1, A1. unfold poke. do 3 f_equal. f_equal. mlia.
Qed.

Lemma paging_init_effect k fs pt pd :
  pool_ok k -> paging_on k = false -> free k = fs ++ [pt; pd] ->
  Forall low (free k) -> NoDup (free k) ->
  exists k', paging_init k = Ret (tt, k') /\ boot_tables k' pd pt true /\
    cr3 k' = pd /\ paging_on k' = true /\ pool_ok k' /\ free k' = fs /\
    forall q j, page q -> 0 <= j < 1024 -> q <> pd -> q <> pt -> word k' q j = word k q j.
Proof.
  intros Hok Hoff Hf Hlow Hnd. rewrite Hf in Hlow, Hnd.
  apply Forall_app in Hlow as [Lfs Lt]. apply Forall_cons_1 in Lt as [Lt Ld].
  apply Forall_cons_1 in Ld as [Ld _].
  apply NoDup_app in Hnd as (Nfs & Ndis & Nd). apply NoDup_cons in Nd as [Nd _].
  assert (Hne : pd <> pt) by (intros ->; apply Nd, list_elem_of_singleton; reflexivity).
  assert (Hpdf : pd ∉ fs) by (intros X; apply (Ndis pd X); right; apply list_elem_of_singleton; reflexivity).
  assert (Hptf : pt ∉ fs) by (intros X; apply (Ndis pt X); left).
  destruct (pfa_alloc_last k (fs ++ [pt]) pd Hok) as (k1 & E1 & F1 & Ok1 & R1 & C1 & O1);
    [rewrite Hf, <- app_assoc; reflexivity|].
  destruct (clear_page_phys k1 pd ltac:(congruence) (proj1 Ld)) as (k2 & E2 & Q2 & G2 & H2 & W2).
  destruct (pfa_alloc_last k2 fs pt (pool_ok_eq k1 k2 G2 H2 Ok1)) as (k3 & E3 & F3 & Ok3 & R3 & C3 & O3);
    [destruct Q2 as (_ & Q2 & _); congruence|].
  assert (Off3 : paging_on k3 = false) by (destruct Q2 as (_ & _ & Q2 & _); congruence).
  destruct (clear_page_phys k3 pt Off3 (proj1 Lt)) as (k4 & E4 & Q4 & G4 & H4 & W4).
  assert (Off4 : paging_on k4 = false) by (destruct Q4 as (_ & _ & Q4 & _); congruence).
  destruct (fill_identity k4 pt Off4 (proj1 Lt)) as (k5 & E5 & Q5 & G5 & H5 & W5).
  assert (Off5 : paging_on k5 = false) by (destruct Q5 as (_ & _ & Q5 & _); congruence).
  assert (Ok5 : pool_ok k5) by (eapply pool_ok_eq; [exact G5|exact H5|]; eapply pool_ok_eq; eassumption).
  assert (F5 : free k5 = fs) by (destruct Q5 as (_ & Q5 & _), Q4 as (_ & Q4 & _); congruence).
  set (k6 := poke pd 0 (pt .| 3) k5).
  set (k7 := poke pt 0xB8 (0xB8000 .| 3) k6).
  set (k9 := mk_machine (ram k7) pd true (page_frames k7) (page_frame_count k7)).
  destruct (mk_entry pt 3 (proj1 Lt) ltac:(lia)) as (Et & At & Ut).
  destruct (mk_entry pd 3 (proj1 Ld) ltac:(lia)) as (Ed & Ad & Ud).
  assert (B9 : boot_tables k9 pd pt false).
  { split; intros j Hj; unfold k9; change (word (mk_machine _ _ _ _ _)) with (word k7); unfold k7.
    - rewrite word_poke_ne by (try apply Ld; try apply Lt; auto; lia).
      unfold k6. rewrite word_poke by (try apply Ld; lia).
      destruct (decide (j = 0)) as [->|Hj0].
      + rewrite decide_True by auto. rewrite u32_small by exact Ut. exact Et.
      + rewrite decide_False by (intros [_ ?]; congruence).
        rewrite decide_False by (intros [_ ?]; discriminate).
        destruct Q5 as (_ & _ & _ & Q5). rewrite Q5 by (try apply Ld; auto).
        destruct Q4 as (_ & _ & _ & Q4). rewrite Q4 by (try apply Ld; auto).
        unfold word. rewrite R3. apply W2. exact Hj.
    - rewrite word_poke by (try apply Lt; lia). case_decide as Hd.
      + destruct Hd as [_ <-]. reflexivity.
      + unfold k6. rewrite word_poke_ne by (try apply Ld; try apply Lt; auto; lia). apply W5. exact Hj. }
  set (k10 := poke pd 1023 (pd .| 3) k9).
  assert (B10 : boot_tables k10 pd pt true).
  { destruct B9 as [Bd Bt]. split; intros j Hj; unfold k10; rewrite word_poke by (try apply Ld; try apply Lt; lia).
    - destruct (decide (pd = pd /\ 1023 = j)) as [[_ <-]|Hd].
      + rewrite decide_False by lia. rewrite decide_True by auto. rewrite u32_small by exact Ud. exact Ed.
      + rewrite Bd by exact Hj. repeat case_decide; try reflexivity; try tauto; lia.
    - rewrite decide_False by (intros [? _]; congruence). apply Bt. exact Hj. }
  exists k10. split; [|split; [exact B10|split; [reflexivity|split; [reflexivity|split; [exact Ok5|split; [exact F5|]]]]]].
  2:{ intros q j Hq Hj Hqd Hqt. unfold k10. rewrite word_poke_ne by (try apply Ld; auto; lia).
      change (word k9 q j) with (word k7 q j). unfold k7. rewrite word_poke_ne by (try apply Lt; auto; lia).
      unfold k6. rewrite word_poke_ne by (try apply Ld; auto; lia).
      destruct Q5 as (_ & _ & _ & Q5), Q4 as (_ & _ & _ & Q4), Q2 as (_ & _ & _ & Q2). rewrite Q5, Q4 by assumption.
      unfold word. rewrite R3. fold (word k2 q j). rewrite Q2 by assumption. unfold word. rewrite R1. reflexivity. }
  unfold paging_init, mbind, kern_bind. rewrite E1, E2.
  unfold kfor at 1. unfold mbind, kern_bind. cbv zeta. change (Z.shiftr (0 * 0x400000) 22) with 0.
  rewrite E3, E4, E5. rewrite write32_phys by (try apply Ld; auto; lia). fold k6.
  assert (Off6 : paging_on k6 = false) by exact Off5.
  unfold mret, kern_ret. unfold read32 at 1, access, translate, gets. rewrite Off6.
  replace (u32 (pd + 0)) with (pd + 4 * 0) by (destruct Ld as [[? ?] ?]; rewrite u32_small; lia).
  fold (word k6 pd 0). unfold k6 at 1. rewrite word_poke by (try apply Ld; lia).
  rewrite decide_True by auto. rewrite u32_small by exact Ut. rewrite At.
  change (Z.shiftr 0xB8000 12 .& 0x3FF) with 0xB8.
  rewrite write32_phys by (try apply Lt; auto; lia). fold k7.
  unfold set_cr3, set_paging. cbn [ram cr3 paging_on page_frames page_frame_count].
  fold k9. apply (write32_boot k9 pd pt); auto; lia.
Qed.

(** A machine before paging, with an empty frame pool. *)
Definition boot_machine (m : mem) : machine :=
  mk_machine m 0 false (replicate (Z.to_nat MAX_PAGES) 0) 0.

(** The boot sequence of the memory manager: [kernel_main] fills the pool,
    [paging_init] turns paging on, [kernel_after_paging] adds the pages from
    3 MiB to 4 MiB. *)
Definition boot_paging : kern unit :=
  _ ← boot_frames; _ ← paging_init; more_frames.

Definition upper_frames : list Z := (fun i => 0x300000 + Z.of_nat i * 0x1000) <$> seq 0 256.

Lemma more_frames_spec k :
  pool_ok k -> page_frame_count k <= MAX_PAGES - 256 ->
  exists k', more_frames k = Ret (tt, k') /\ pool_ok k' /\ free k' = free k ++ upper_frames /\
    ram k' = ram k /\ cr3 k' = cr3 k /\ paging_on k' = paging_on k.
Proof.
  intros Hok Hc.
  destruct (kfor_rule (fun n k' => pool_ok k' /\ page_frame_count k' = page_frame_count k + n /\
      free k' = free k ++ ((fun i => 0x300000 + Z.of_nat i * 0x1000) <$> seq 0 (Z.to_nat n)) /\
      ram k' = ram k /\ cr3 k' = cr3 k /\ paging_on k' = paging_on k)
    (fun i => pfa_push (0x300000 + i * 0x1000)) 256 0 k) as (k' & E & A1 & _ & A2).
  - split; [exact Hok|]. split; [lia|]. cbn. rewrite app_nil_r. auto.
  - intros i k1 Hi (B1 & B2 & B3 & B4 & B5 & B6).
    destruct (pfa_push_spec k1 (0x300000 + i * 0x1000) B1 ltac:(unfold MAX_PAGES in *; lia))
      as (k2 & E2 & F2 & O2 & R2 & C2 & G2).
    exists k2. split; [exact E2|]. split; [exact O2|]. split; [|split; [|repeat split; congruence]].
    + revert E2. unfold pfa_push. case_if; [|discriminate]. intros E2. injection E2 as <-. cbn. lia.
    + rewrite F2, B3, Z2Nat.inj_add by lia. change (Z.to_nat 1) with 1%nat.
      rewrite seq_app, fmap_app, app_assoc. cbn [seq fmap list_fmap Nat.add].
      rewrite Z2Nat.id by lia. reflexivity.
  - exists k'. auto.
Qed.

Lemma boot_frames_spec m :
  exists k, boot_frames (boot_machine m) = Ret (tt, k) /\ pool_ok k /\
    free k = [0x111000; 0x112000] ++ [0x113000; 0x114000] /\ paging_on k = false /\ ram k = m.
Proof. eexists. split; [reflexivity|]. split; [split; [reflexivity|cbn; unfold MAX_PAGES; lia]|]. repeat split. Qed.

Definition boot_pool : list Z := [0x111000; 0x112000] ++ upper_frames.

Lemma boot_pool_ok :
  Forall low boot_pool /\ NoDup boot_pool /\ (0x114000 ∉ boot_pool) /\ (0x113000 ∉ boot_pool).
Proof.
  split; [|split; [|split]].
  - assert (H : forallb (fun p => (0 <=? p) && (p <? 0x400000) && (p mod 4096 =? 0))%bool boot_pool = true)
      by (vm_compute; reflexivity).
    rewrite forallb_forall in H. apply Forall_forall. intros p Hp.
    apply list_elem_of_In, H in Hp. bool_prop. unfold low, page. lia.
  - apply (bool_decide_unpack _). vm_compute. exact I.
  - apply (bool_decide_unpack _). vm_compute. exact I.
  - apply (bool_decide_unpack _). vm_compute. exact I.
Qed.

Lemma boot_paging_full (m : mem) :
  exists k, boot_paging (boot_machine m) = Ret (tt, k) /\ space k /\ free k = boot_pool /\
    cr3 k = 0x114000 /\ boot_tables k 0x114000 0x113000 true /\
    forall q j, page q -> 0 <= j < 1024 -> q <> 0x114000 -> q <> 0x113000 -> word k q j = load32 m (q + 4 * j).
Proof.
  destruct (boot_frames_spec m) as (k1 & E1 & Ok1 & F1 & O1 & M1).
  assert (L1 : Forall low (free k1) /\ NoDup (free k1)).
  { rewrite F1. split; [|apply (bool_decide_unpack _); vm_compute; exact I].
    repeat constructor; unfold is_u32; cbn; lia. }
  destruct (paging_init_effect k1 _ _ _ Ok1 O1 F1 (proj1 L1) (proj2 L1))
    as (k2 & E2 & B2 & C2 & O2 & Ok2 & F2 & W2).
  assert (Hc2 : page_frame_count k2 <= MAX_PAGES - 256).
  { assert (Hl : length (free k2) = 2%nat) by (rewrite F2; reflexivity).
    unfold free in Hl. rewrite length_take in Hl. destruct Ok2 as [Hp Hq]. unfold MAX_PAGES in *. lia. }
  destruct (more_frames_spec k2 Ok2 Hc2) as (k3 & E3 & Ok3 & F3 & R3 & C3 & O3).
  assert (B3 : boot_tables k3 0x114000 0x113000 true)
    by (destruct B2 as [X Y]; split; intros; unfold word; rewrite R3; [apply X|apply Y]; assumption).
  assert (Hld : low 0x114000) by (unfold low, page; split; [split; [lia|reflexivity]|lia]).
  assert (Hlt : low 0x113000) by (unfold low, page; split; [split; [lia|reflexivity]|lia]).
  assert (F3' : free k3 = boot_pool) by (rewrite F3, F2; reflexivity).
  destruct boot_pool_ok as (P1 & P2 & P3 & P4).
  assert (S3 : space k3) by
    (apply (boot_space k3 0x114000 0x113000); rewrite ?F3'; try assumption; try congruence; lia).
  exists k3. split; [|split; [exact S3|split; [exact F3'|split; [congruence|split; [exact B3|]]]]].
  2:{ intros q j Hq Hj Hd Ht. unfold word. rewrite R3. fold (word k2 q j). rewrite W2 by assumption. unfold word. rewrite M1. reflexivity. }
  unfold boot_paging, mbind, kern_bind. rewrite E1, E2. exact E3.
Qed.

Lemma boot_paging_effect (m : mem) :
  exists k, boot_paging (boot_machine m) = Ret (tt, k) /\ space k /\ free k = boot_pool /\
    cr3 k = 0x114000 /\ boot_tables k 0x114000 0x113000 true.
Proof. destruct (boot_paging_full m) as (k & E & S & F & C & B & _). exists k. auto. Qed.

(** whatever RAM holds, the boot sequence turns paging on without a
    fault and leaves an address space in good order: exactly the low 4 MiB are
    mapped, to themselves, and the 258 distinct frames of the pool are free. *)
Theorem boot_paging_identity (m : mem) :
  exists k, boot_paging (boot_machine m) = Ret (tt, k) /\ space k /\ free k = boot_pool /\
    (forall va, 0 <= va < SELF_MAP ->
       translate k va = if decide (va < 0x400000) then Some va else None).
Proof.
  destruct (boot_paging_effect m) as (k & E & S & F & C & B). exists k.
  split; [exact E|]. split; [exact S|]. split; [exact F|].
  intros va Hva. unfold SELF_MAP in Hva. case_decide as Hd; [apply translate_low; [exact S|lia]|].
  rewrite translate_pte by (try apply S; lia).
  rewrite (boot_pte k 0x114000 0x113000 true); try assumption; [|unfold low, page; by_compute..|mlia].
  rewrite decide_False by mlia. reflexivity.
Qed.

(** The machine after boot, on zeroed RAM. *)
Lemma booted : exists k, boot_paging (boot_machine mem0) = Ret (tt, k) /\ space k /\ free k = boot_pool /\
  forall i, 1 <= i < 1023 -> has P (pde k i) = false.
Proof.
  destruct (boot_paging_effect mem0) as (k & E & S & F & C & [B _]). exists k.
  split; [exact E|split; [exact S|split; [exact F|]]]. intros i Hi. unfold pde. rewrite C, B by lia.
  rewrite !decide_False by lia. reflexivity.
Qed.

Lemma paging_map_page_updates_witness :
  exists k k', boot_paging (boot_machine mem0) = Ret (tt, k) /\
    paging_map_page 0xDFFFF000 0x300000 7 k = Ret (tt, k') /\ space k' /\
    translate k' 0xDFFFF123 = Some 0x300123 /\ pte_of k' 0xDFFFF = Some 0x300007.
Proof.
  destruct booted as (k & E & S & F & N).
  pose proof (paging_map_page_updates k 0xDFFFF000 0x300000 7 S ltac:(lia) ltac:(unfold is_u32; lia)
    ltac:(vm_compute; split; [discriminate|reflexivity])) as M.
  destruct (paging_map_page 0xDFFFF000 0x300000 7 k) as [[[] k']| |] eqn:EM.
  - destruct M as (S' & _ & N' & T & _). exists k, k'. split; [exact E|]. split; [exact EM|].
    split; [exact S'|]. split; [rewrite T by (unfold SELF_MAP; lia); reflexivity|].
    rewrite N' by lia. reflexivity.
  - destruct M as [_ M]. rewrite F in M. discriminate.
  - contradiction.
Defined.

Lemma paging_map_user_spec_witness :
  exists k k', boot_paging (boot_machine mem0) = Ret (tt, k) /\
    paging_map_user 0x101000 k = Ret (tt, k') /\ translate k' 0x101234 = Some 0x101234.
Proof.
  destruct booted as (k & E & S & F & N). destruct (sp_low k S 0x101 ltac:(lia)) as (e & He & _).
  destruct (paging_map_user_spec k 0x101000 e S ltac:(unfold SELF_MAP; lia) He)
    as (k' & E' & S' & _ & T & _).
  exists k, k'. split; [exact E|]. split; [exact E'|].
  rewrite T by (unfold SELF_MAP; lia). apply translate_low; [exact S|lia].
Defined.

(** [paging_alloc_page] maps a frame that was free and is now
    neither free nor part of the page tables; the other pages keep their
    translation.  It panics only for lack of frames. *)
Theorem paging_alloc_page_fresh k va :
  space k -> 0 <= va < 4294967296 -> 1 <= Z.shiftr va 22 < 1023 ->
  match paging_alloc_page va k with
  | Ret (_, k') => exists p, space k' /\ (p ∈ free k) /\ (p ∉ free k') /\ p <> cr3 k' /\
      (forall i, 0 <= i < 1023 -> present k' i -> table_of k' i <> p) /\
      (forall va', 0 <= va' < SELF_MAP ->
         translate k' va' = if decide (va' / 4096 = va / 4096) then Some (p + va' mod 4096)
                            else translate k va')
  | Panic => (length (free k) <= 1)%nat
  | Oob => False
  end.
Proof.
  intros S Hva Hi. pose proof (paging_alloc_page_effect k va S Hva Hi) as A.
  destruct (paging_alloc_page va k) as [[[] k']| |]; [|exact A|exact A].
  destruct A as (p & S' & Lp & I1 & I2 & I3 & I4 & M & _). exists p.
  split; [exact S'|]. split; [exact I1|]. split; [exact I2|]. split; [exact I3|]. split; [exact I4|].
  intros va' Hva'. unfold SELF_MAP in Hva'. rewrite !translate_pte by (try apply S; try apply S'; lia).
  rewrite M by mlia. case_decide; [|reflexivity].
  destruct (leaf_spec p 7 (proj1 (proj1 Lp))) as (La & _). simpl. rewrite La.
  rewrite page_addr by apply Lp. reflexivity.
Qed.

Lemma paging_alloc_page_fresh_witness :
  exists k k' p, boot_paging (boot_machine mem0) = Ret (tt, k) /\
    paging_alloc_page 0xDFFFF000 k = Ret (tt, k') /\ translate k' 0xDFFFF008 = Some (p + 8) /\
    (p ∈ boot_pool).
Proof.
  destruct booted as (k & E & S & F & N).
  pose proof (paging_alloc_page_fresh k 0xDFFFF000 S ltac:(lia)
    ltac:(vm_compute; split; [discriminate|reflexivity])) as M.
  destruct (paging_alloc_page 0xDFFFF000 k) as [[[] k']| |] eqn:EM.
  - destruct M as (p & _ & I1 & _ & _ & _ & T). exists k, k', p.
    split; [exact E|]. split; [exact EM|]. rewrite F in I1. split; [|exact I1].
    rewrite T by (unfold SELF_MAP; lia). reflexivity.
  - rewrite F in M. exfalso. vm_compute in M. lia.
  - contradiction.
Defined.

(** ** The frame stack is a stack *)

Fixpoint pfa_frees (ps : list Z) : kern unit :=
  match ps with
  | [] => mret tt
  | p :: ps => _ ← pfa_free p; pfa_frees ps
  end.

Fixpoint pfa_allocs (n : nat) : kern (list Z) :=
  match n with
  | O => mret []
  | S n => p ← pfa_alloc; ps ← pfa_allocs n; mret (p :: ps)
  end.

Lemma pfa_frees_spec ps : forall k,
  pool_ok k -> page_frame_count k + Z.of_nat (length ps) <= MAX_PAGES ->
  exists k', pfa_frees ps k = Ret (tt, k') /\ pool_ok k' /\ free k' = free k ++ ps.
Proof.
  induction ps as [|p ps IH]; intros k Hok Hc; cbn [length] in Hc.
  - exists k. rewrite app_nil_r. auto.
  - destruct (pfa_push_spec k p Hok ltac:(lia)) as (k1 & E & F & Ok1 & _).
    assert (Hc1 : page_frame_count k1 = page_frame_count k + 1).
    { revert E. unfold pfa_push. case_if; [|discriminate]. intros E. injection E as <-. reflexivity. }
    destruct (IH k1 Ok1 ltac:(lia)) as (k2 & E2 & Ok2 & F2). exists k2.
    split; [cbn [pfa_frees]; unfold mbind, kern_bind, pfa_free; rewrite E; exact E2|].
    split; [exact Ok2|]. rewrite F2, F, <- app_assoc. reflexivity.
Qed.

Lemma pfa_allocs_spec ps : forall k fs,
  pool_ok k -> free k = fs ++ ps ->
  exists k', pfa_allocs (length ps) k = Ret (rev ps, k') /\ pool_ok k' /\ free k' = fs.
Proof.
  induction ps as [|p ps IH] using rev_ind; intros k fs Hok Hf.
  - exists k. rewrite app_nil_r in Hf. auto.
  - rewrite app_assoc in Hf. destruct (pfa_alloc_last k _ p Hok Hf) as (k1 & E & F & Ok1 & _).
    destruct (IH k1 fs Ok1 F) as (k2 & E2 & Ok2 & F2). exists k2.
    rewrite length_app, Nat.add_comm. cbn [length Nat.add pfa_allocs].
    unfold mbind, kern_bind, mret, kern_ret. rewrite E, E2, rev_unit. auto.
Qed.

(** as long as the array has room, frames that are freed come back in
    reverse order, and the rest of the free stack is as before. *)
Theorem pfa_lifo k ps :
  pool_ok k -> page_frame_count k + Z.of_nat (length ps) <= MAX_PAGES ->
  exists k', (_ ← pfa_frees ps; pfa_allocs (length ps)) k = Ret (rev ps, k') /\
    pool_ok k' /\ free k' = free k.
Proof.
  intros Hok Hc. destruct (pfa_frees_spec ps k Hok Hc) as (k1 & E1 & Ok1 & F1).
  destruct (pfa_allocs_spec ps k1 (free k) Ok1 F1) as (k2 & E2 & Ok2 & F2).
  exists k2. unfold mbind, kern_bind. rewrite E1. auto.
Qed.

Lemma pfa_lifo_witness :
  exists k', (_ ← pfa_frees [0x5000; 0x7000]; pfa_allocs 2) (boot_machine mem0) =
    Ret ([0x7000; 0x5000], k') /\ pool_ok k' /\ free k' = [].
Proof.
  exact (pfa_lifo (boot_machine mem0) [0x5000; 0x7000]
    ltac:(split; [reflexivity|cbn; unfold MAX_PAGES; lia]) ltac:(cbn; unfold MAX_PAGES; lia)).
Defined.
