(* ===== verification/Scheduler.v ===== *)
(** * Tasks and the scheduler (kernel/scheduler.c)

    The process table, the ready queue threaded through the [next] fields, and
    the operations of scheduler.c.  Pointers to tasks are indices into the
    table; NULL is [None].  A blocking operation is cut at its [int $32]: what
    runs before it is one step, what runs after the task is resumed another.

    The theorems relate the linked queues to lists of tasks ([queue_rep]) and
    show that the scheduler is round-robin, that it restores exactly the
    context it saved, and that creation, exit and wait keep the process table
    in order ([sched_ok]).  The log lines on the serial port are left out; a
    process identifier is a mathematical integer (the [int] counter of the code
    overflows after 2^31 creations). *)

From S2P Require Import Prelude Memory CString Paging.
Local Open Scope Z_scope.
Local Open Scope sros_scope.

Definition MAX_TASKS : nat := 64.
Definition TASK_NAME_MAX : nat := 32.
Definition TASK_READY : Z := 0.
Definition TASK_RUNNING : Z := 1.
Definition TASK_BLOCKED : Z := 2.
Definition TASK_ZOMBIE : Z := 3.
Definition USER_STACK_VADDR : Z := 0xE0000000.

(** ** The process control block *)

Record task : Type := mk_task {
  pid : Z;
  parent_pid : Z;
  state : Z;
  exit_code : Z;
  kernel_esp : Z;
  kernel_stack_base : Z;
  kernel_stack_top : Z;
  page_dir : Z;
  name : list Z;
  next : option nat
}.

(** A zeroed slot. *)
Definition task_zero : task := mk_task 0 0 0 0 0 0 0 0 (replicate TASK_NAME_MAX 0) None.

#[export] Instance task_inhabited : Inhabited task := populate task_zero.

Definition set_pid (v : Z) (t : task) : task :=
  mk_task v (parent_pid t) (state t) (exit_code t) (kernel_esp t) (kernel_stack_base t)
    (kernel_stack_top t) (page_dir t) (name t) (next t).
Definition set_state (v : Z) (t : task) : task :=
  mk_task (pid t) (parent_pid t) v (exit_code t) (kernel_esp t) (kernel_stack_base t)
    (kernel_stack_top t) (page_dir t) (name t) (next t).
Definition set_exit_code (v : Z) (t : task) : task :=
  mk_task (pid t) (parent_pid t) (state t) v (kernel_esp t) (kernel_stack_base t)
    (kernel_stack_top t) (page_dir t) (name t) (next t).
Definition set_kernel_esp (v : Z) (t : task) : task :=
  mk_task (pid t) (parent_pid t) (state t) (exit_code t) v (kernel_stack_base t)
    (kernel_stack_top t) (page_dir t) (name t) (next t).
Definition set_next (v : option nat) (t : task) : task :=
  mk_task (pid t) (parent_pid t) (state t) (exit_code t) (kernel_esp t) (kernel_stack_base t)
    (kernel_stack_top t) (page_dir t) (name t) v.

(** ** Queues of tasks *)

(** A head and a tail pointer; the links are the [next] fields of the table. *)
Record queue : Type := mk_queue { q_head : option nat; q_tail : option nat }.

Definition queue_empty : queue := mk_queue None None.

(** [t->next = NULL], then link [t] after the tail. *)
Definition queue_push (t : nat) (q : queue) (ts : list task) : queue * list task :=
  let ts := alter (set_next None) t ts in
  match q_tail q with
  | Some l => (mk_queue (q_head q) (Some t), alter (set_next (Some t)) l ts)
  | None => (mk_queue (Some t) (Some t), ts)
  end.

(** Unlink the head, if there is one. *)
Definition queue_pop (q : queue) (ts : list task) : option nat * queue * list task :=
  match q_head q with
  | None => (None, q, ts)
  | Some t =>
      let h := next (ts !!! t) in
      let q := mk_queue h (match h with None => None | Some _ => q_tail q end) in
      (Some t, q, alter (set_next None) t ts)
  end.

(** ** The scheduler's statics *)

Record sched : Type := mk_sched {
  task_table : list task;
  task_count : Z;
  next_pid : Z;
  current_task : option nat;
  ready : queue;
  timer_ticks : Z;
  tss_esp0 : Z;
  halted : bool
}.

Definition with_tasks (ts : list task) (s : sched) : sched :=
  mk_sched ts (task_count s) (next_pid s) (current_task s) (ready s) (timer_ticks s)
    (tss_esp0 s) (halted s).
Definition with_ready (q : queue) (ts : list task) (s : sched) : sched :=
  mk_sched ts (task_count s) (next_pid s) (current_task s) q (timer_ticks s) (tss_esp0 s) (halted s).
Definition with_ticks (n : Z) (s : sched) : sched :=
  mk_sched (task_table s) (task_count s) (next_pid s) (current_task s) (ready s) n
    (tss_esp0 s) (halted s).
Definition with_current (c : nat) (s : sched) : sched :=
  mk_sched (task_table s) (task_count s) (next_pid s) (Some c) (ready s) (timer_ticks s)
    (kernel_stack_top (task_table s !!! c)) (halted s).
Definition with_halt (s : sched) : sched :=
  mk_sched (task_table s) (task_count s) (next_pid s) (current_task s) (ready s) (timer_ticks s)
    (tss_esp0 s) true.

Definition update (i : nat) (f : task -> task) (s : sched) : sched :=
  with_tasks (alter f i (task_table s)) s.

Definition task_at (s : sched) (i : nat) : task := task_table s !!! i.

Definition enqueue_ready (t : nat) (s : sched) : sched :=
  let '(q, ts) := queue_push t (ready s) (task_table s) in with_ready q ts s.

Definition dequeue_ready (s : sched) : option nat * sched :=
  let '(t, q, ts) := queue_pop (ready s) (task_table s) in (t, with_ready q ts s).

(** [cr3] is the register's value at boot. *)
Definition scheduler_init (cr3 : Z) (table : list task) : sched :=
  let table := set_pid (-1) <$> table in
  let init := mk_task 0 (-1) TASK_RUNNING 0 0 0 0x20000 cr3
                (splice 0 [105; 110; 105; 116; 0] (name (table !!! 0%nat))) None in
  mk_sched (<[0%nat := init]> table) 1 1 (Some 0%nat) queue_empty 0 0x20000 false.

(** ** scheduler_tick *)

(** [pick_next]: the task to run, its register frame, and the new CR3 (if the
    task has one). *)
Definition pick_next (cur : nat) (regs : Z) (s : sched) : Z * option Z * sched :=
  match dequeue_ready s with
  | (None, s) =>
      if negb (state (task_at s cur) =? TASK_ZOMBIE)
      then (regs, None, update cur (set_state TASK_RUNNING) s)
      else (regs, None, with_halt s)
  | (Some n, s) =>
      let s := with_current n (update n (set_state TASK_RUNNING) s) in
      let d := page_dir (task_at s n) in
      (kernel_esp (task_at s n), (if d =? 0 then None else Some d), s)
  end.

(** [regs] is the address of the interrupted context, [int_no] its vector. *)
Definition scheduler_tick (int_no regs : Z) (s : sched) : Z * option Z * sched :=
  if negb (int_no =? 32) then (regs, None, s)
  else
    let s := with_ticks (u32 (timer_ticks s + 1)) s in
    match current_task s with
    | None => (regs, None, s)
    | Some cur =>
        let s := update cur (set_kernel_esp regs) s in
        let st := state (task_at s cur) in
        if (st =? TASK_ZOMBIE) then pick_next cur regs s
        else if (st =? TASK_BLOCKED) then pick_next cur regs s
        else if 1 <? task_count s then
          pick_next cur regs (enqueue_ready cur (update cur (set_state TASK_READY) s))
        else (regs, None, update cur (set_state TASK_RUNNING) s)
    end.

(** ** Slots and blocking *)

Fixpoint find_slot (ts : list task) (i : nat) : option nat :=
  match ts with
  | [] => None
  | t :: ts => if pid t <? 0 then Some i else find_slot ts (S i)
  end.

(** [None] is the return value -1. *)
Definition task_find_slot (s : sched) : option nat := find_slot (task_table s) 0.

Definition task_block (s : sched) : sched :=
  match current_task s with
  | None => s
  | Some c => update c (set_state TASK_BLOCKED) s
  end.

Definition task_wake (t : option nat) (s : sched) : sched :=
  match t with
  | None => s
  | Some t => enqueue_ready t (update t (set_state TASK_READY) s)
  end.

Fixpoint find_pid (p : Z) (ts : list task) (i : nat) : option nat :=
  match ts with
  | [] => None
  | t :: ts => if pid t =? p then Some i else find_pid p ts (S i)
  end.

Definition task_from_pid (p : Z) (s : sched) : option nat := find_pid p (task_table s) 0.

(** ** Kernel state: the machine and the scheduler *)

Record kernel : Type := mk_kernel { mach : machine; sch : sched }.

Definition kop (A : Type) : Type := kernel -> exec (A * kernel).

#[export] Instance kop_ret : MRet kop := fun A x k => Ret (x, k).
#[export] Instance kop_bind : MBind kop := fun A B f m k =>
  match m k with Ret (x, k) => f x k | Panic => Panic | Oob => Oob end.

(** An operation of the memory manager. *)
Definition lift {A} (m : kern A) : kop A := fun k =>
  match m (mach k) with
  | Ret (x, mk) => Ret (x, mk_kernel mk (sch k))
  | Panic => Panic
  | Oob => Oob
  end.

Definition modify (f : sched -> sched) : kop unit := fun k => Ret (tt, mk_kernel (mach k) (f (sch k))).
Definition getk {A} (f : sched -> A) : kop A := fun k => Ret (f (sch k), k).

(** [strcpy] into the 32-byte name of a task. *)
Definition copy_name (cs old : list Z) : kop (list Z) := fun k =>
  if (length cs + 1 <=? TASK_NAME_MAX)%nat then Ret (splice 0 (cs ++ [0]) old, k) else Oob.

(** *** The register frame (include/idt.h): word index of each field *)

Definition REG_SIZE : Z := 76.
Definition R_gs : Z := 0.
Definition R_fs : Z := 1.
Definition R_es : Z := 2.
Definition R_ds : Z := 3.
Definition R_esp : Z := 7.
Definition R_eax : Z := 11.
Definition R_int_no : Z := 12.
Definition R_eip : Z := 14.
Definition R_cs : Z := 15.
Definition R_eflags : Z := 16.
Definition R_user_esp : Z := 17.
Definition R_user_ss : Z := 18.

(** Filling the slot of a new task, which takes the next pid, and queueing it:
    the common end of [task_create] and [task_fork]. *)
Definition add_task (slot : nat) (t : task) (s : sched) : sched :=
  let s := mk_sched (<[slot := t]> (task_table s)) (task_count s) (next_pid s + 1)
             (current_task s) (ready s) (timer_ticks s) (tss_esp0 s) (halted s) in
  let s := enqueue_ready slot s in
  mk_sched (task_table s) (task_count s + 1) (next_pid s) (current_task s) (ready s)
    (timer_ticks s) (tss_esp0 s) (halted s).

Definition put (frame field v : Z) : kop unit := lift (write32 (frame + 4 * field) v).

(** Steps 2 and 3 of [task_create]: the initial register frame and the user
    stack. *)
Definition new_context (frame entry : Z) : kop unit :=
  _ ← lift (vmemset frame 0 REG_SIZE);
  _ ← put frame R_gs 0x23;
  _ ← put frame R_fs 0x23;
  _ ← put frame R_es 0x23;
  _ ← put frame R_ds 0x23;
  _ ← put frame R_esp (frame + 4 * R_int_no);
  _ ← put frame R_eip entry;
  _ ← put frame R_cs 0x1B;
  _ ← put frame R_eflags 0x200;
  _ ← lift (paging_map_user entry);
  user_stack_phys ← lift pfa_alloc;
  _ ← lift (paging_map_page (USER_STACK_VADDR - 0x1000) user_stack_phys 0x07);
  _ ← put frame R_user_esp USER_STACK_VADDR;
  put frame R_user_ss 0x23.

Definition task_create (task_name : list Z) (entry : Z) : kop Z :=
  slot ← getk task_find_slot;
  match slot with
  | None => mret (-1)
  | Some slot =>
      kstack_phys ← lift pfa_alloc;
      let kstack_top := u32 (kstack_phys + 0x1000) in
      let frame := u32 (kstack_top - REG_SIZE) in
      _ ← new_context frame entry;
      old ← getk (fun s => name (task_at s slot));
      nm ← copy_name task_name old;
      _ ← modify (fun s =>
        let parent := match current_task s with Some c => pid (task_at s c) | None => -1 end in
        add_task slot (mk_task (next_pid s) parent TASK_READY 0 frame kstack_phys kstack_top 0 nm None) s);
      getk (fun s => pid (task_at s slot))
  end.

(** [regs] is the address of the parent's register frame. *)
Definition task_fork (bss_end regs : Z) : kop Z :=
  slot ← getk task_find_slot;
  match slot with
  | None => mret (-1)
  | Some slot =>
      new_page_dir ← lift (paging_clone_directory bss_end);
      if new_page_dir =? 0 then mret (-1)
      else
      kstack_phys ← lift pfa_alloc;
      let kstack_top := u32 (kstack_phys + 0x1000) in
      let child_frame := u32 (kstack_top - REG_SIZE) in
      _ ← lift (vmemcpy child_frame regs REG_SIZE);
      _ ← put child_frame R_eax 0;
      cur ← getk current_task;
      match cur with
      | None => fun _ => Oob
      | Some cur =>
          cur_name ← getk (fun s => name (task_at s cur));
          old ← getk (fun s => name (task_at s slot));
          nm ← copy_name (cstr cur_name) old;
          _ ← modify (fun s =>
            add_task slot (mk_task (next_pid s) (pid (task_at s cur)) TASK_READY 0 child_frame kstack_phys
              kstack_top new_page_dir nm None) s);
          getk (fun s => pid (task_at s slot))
      end
  end.

(** ** Exit and wait *)

(** Up to its [int $32], from which a zombie does not return. *)
Definition task_exit (code : Z) (s : sched) : sched :=
  match current_task s with
  | None => s
  | Some cur =>
      let s := update cur (fun t => set_state TASK_ZOMBIE (set_exit_code code t)) s in
      let p := parent_pid (task_at s cur) in
      if 0 <=? p then
        match task_from_pid p s with
        | Some parent =>
            if state (task_at s parent) =? TASK_BLOCKED
            then enqueue_ready parent (update parent (set_state TASK_READY) s)
            else s
        | None => s
        end
      else s
  end.

(** The tests of the two loops of [task_wait]. *)
Definition is_child (me want : Z) (t : task) : bool :=
  negb (pid t <? 0) && (parent_pid t =? me) && negb ((0 <=? want) && negb (pid t =? want)).

Fixpoint find_zombie (me want : Z) (ts : list task) (i : nat) : option nat :=
  match ts with
  | [] => None
  | t :: ts =>
      if is_child me want t && (state t =? TASK_ZOMBIE) then Some i
      else find_zombie me want ts (S i)
  end.

Definition has_alive (me want : Z) (ts : list task) : bool :=
  existsb (fun t => is_child me want t && negb (state t =? TASK_ZOMBIE)) ts.

Inductive wait_result : Type :=
  | Waited (ret : Z)
  | WaitBlocked.

(** One round of the loop of [task_wait]: it returns, or blocks at [int $32]
    and repeats once the task runs again. *)
Definition task_wait_step (want : Z) : kop wait_result :=
  cur ← getk current_task;
  match cur with
  | None => mret (Waited (-1))
  | Some cur =>
      me ← getk (fun s => pid (task_at s cur));
      child ← getk (fun s => find_zombie me want (task_table s) 0);
      match child with
      | Some child =>
          t ← getk (fun s => task_at s child);
          _ ← (if kernel_stack_base t =? 0 then mret tt else lift (pfa_free (kernel_stack_base t)));
          _ ← (if page_dir t =? 0 then mret tt else lift (pfa_free (page_dir t)));
          _ ← modify (fun s =>
            mk_sched (<[child := set_pid (-1) task_zero]> (task_table s)) (task_count s - 1)
              (next_pid s) (current_task s) (ready s) (timer_ticks s) (tss_esp0 s) (halted s));
          mret (Waited (pid t))
      | None =>
          alive ← getk (fun s => has_alive me want (task_table s));
          if (alive : bool) then
            _ ← modify (update cur (set_state TASK_BLOCKED)); mret WaitBlocked
          else mret (Waited (-1))
      end
  end.

(** [int $32]: the interrupt handler runs the scheduler on the saved frame and
    loads CR3 if the next task has its own directory. *)
Definition switch (regs : Z) : kop Z := fun k =>
  let '(frame, dir, s) := scheduler_tick 32 regs (sch k) in
  match dir with
  | None => Ret (frame, mk_kernel (mach k) s)
  | Some d => match set_cr3 d (mach k) with
              | Ret (_, m) => Ret (frame, mk_kernel m s)
              | Panic => Panic
              | Oob => Oob
              end
  end.

(** [task_yield] is a bare [int $32]. *)
Definition task_yield (regs : Z) : kop Z := switch regs.

(** ** Lemmas on the table *)

Lemma alter_total (f : task -> task) (i j : nat) (ts : list task) :
  alter f i ts !!! j = if decide (i = j /\ (j < length ts)%nat) then f (ts !!! j) else ts !!! j.
Proof.
  rewrite !list_lookup_total_alt, list_lookup_alter. case_decide as H1; case_decide as H2; try tauto.
  - destruct (lookup_lt_is_Some_2 ts j (proj2 H2)) as [t Ht]. subst. rewrite Ht. reflexivity.
  - subst. rewrite (lookup_ge_None_2 ts j) by (apply Nat.nlt_ge; tauto). reflexivity.
Qed.

Lemma alter_total_ne f i j (ts : list task) : i <> j -> alter f i ts !!! j = ts !!! j.
Proof. intros H. rewrite alter_total, decide_False; tauto. Qed.

Lemma alter_total_eq f i (ts : list task) : (i < length ts)%nat -> alter f i ts !!! i = f (ts !!! i).
Proof. intros H. rewrite alter_total, decide_True; auto. Qed.

Lemma insert_total (t : task) (i j : nat) (ts : list task) :
  (i < length ts)%nat -> <[i:=t]> ts !!! j = if decide (i = j) then t else ts !!! j.
Proof.
  intros Hi. rewrite !list_lookup_total_alt. case_decide as H.
  - subst. rewrite list_lookup_insert_eq by exact Hi. reflexivity.
  - rewrite list_lookup_insert_ne by exact H. reflexivity.
Qed.

(** A task without its link. *)
Definition core (t : task) : task := set_next None t.

(** Two tables that differ in the links only. *)
Definition same_core (ts ts' : list task) : Prop :=
  length ts' = length ts /\ forall i, core (ts' !!! i) = core (ts !!! i).

#[export] Instance same_core_preorder : PreOrder same_core.
Proof.
  split; [intros ts; split; reflexivity|].
  intros a b c [L1 C1] [L2 C2]. split; [congruence|]. intros i. rewrite C2. apply C1.
Qed.

Lemma core_fields t t' : core t = core t' ->
  pid t = pid t' /\ parent_pid t = parent_pid t' /\ state t = state t' /\
  exit_code t = exit_code t' /\ kernel_esp t = kernel_esp t' /\
  kernel_stack_base t = kernel_stack_base t' /\ kernel_stack_top t = kernel_stack_top t' /\
  page_dir t = page_dir t' /\ name t = name t'.
Proof. unfold core, set_next. intros H. injection H. auto 10. Qed.

Lemma same_core_set_next ts i v : same_core ts (alter (set_next v) i ts).
Proof.
  split; [apply length_alter|]. intros j. rewrite alter_total. case_decide; reflexivity.
Qed.

(** ** Queues represent lists *)

Fixpoint linked (ts : list task) (l : list nat) : Prop :=
  match l with
  | [] => True
  | a :: l => next (ts !!! a) = head l /\ linked ts l
  end.

Definition queue_rep (ts : list task) (q : queue) (l : list nat) : Prop :=
  q_head q = head l /\ q_tail q = last l /\ linked ts l /\ NoDup l /\
  Forall (fun i => (i < length ts)%nat) l.

Lemma linked_ext ts ts' l :
  (forall i, i ∈ l -> next (ts' !!! i) = next (ts !!! i)) -> linked ts l -> linked ts' l.
Proof.
  induction l as [|a l IH]; intros H; [auto|]. intros [H1 H2]. split.
  - rewrite H by (apply list_elem_of_here). exact H1.
  - apply IH; [|exact H2]. intros i Hi. apply H, list_elem_of_further, Hi.
Qed.

Lemma queue_rep_ext ts ts' q l :
  length ts' = length ts -> (forall i, i ∈ l -> next (ts' !!! i) = next (ts !!! i)) ->
  queue_rep ts q l -> queue_rep ts' q l.
Proof.
  intros Hl Hn (H1 & H2 & H3 & H4 & H5). repeat split; try assumption.
  - eapply linked_ext; eassumption.
  - eapply Forall_impl; [exact H5|]. intros i Hi. rewrite Hl. exact Hi.
Qed.

Lemma queue_rep_empty ts : queue_rep ts queue_empty [].
Proof. repeat split; constructor. Qed.

(** Linking [t] after the last element. *)
Lemma linked_snoc ts ts' l a t :
  linked ts (l ++ [a]) -> NoDup (l ++ [a]) ->
  (forall i, i ∈ l -> next (ts' !!! i) = next (ts !!! i)) ->
  next (ts' !!! a) = Some t -> next (ts' !!! t) = None -> linked ts' ((l ++ [a]) ++ [t]).
Proof.
  induction l as [|b l IH]; intros Hl Hd He Ha Ht; cbn [app linked head] in *.
  - rewrite Ha, Ht. auto.
  - destruct Hl as [H1 H2]. apply NoDup_cons in Hd as [Hb Hd]. split.
    + rewrite He by apply list_elem_of_here. rewrite H1. destruct l; reflexivity.
    + apply IH; try assumption. intros i Hi. apply He, list_elem_of_further, Hi.
Qed.

Lemma queue_push_rep ts q l t :
  queue_rep ts q l -> (t < length ts)%nat -> (t ∉ l) ->
  let '(q', ts') := queue_push t q ts in
  queue_rep ts' q' (l ++ [t]) /\ same_core ts ts' /\
  forall i, i ∉ l ++ [t] -> ts' !!! i = ts !!! i.
Proof.
  intros (H1 & H2 & H3 & H4 & H5) Ht Hn. unfold queue_push. rewrite H2.
  assert (Hnd : NoDup (l ++ [t])).
  { apply NoDup_app. split; [exact H4|]. split; [|repeat constructor; apply not_elem_of_nil].
    intros x Hx Hx'. apply list_elem_of_singleton in Hx'. congruence. }
  assert (Hf : forall ts' : list task, length ts' = length ts -> Forall (fun i => (i < length ts')%nat) (l ++ [t])).
  { intros ts' ->. apply Forall_app. auto. }
  destruct l as [|b l0] using rev_ind.
  - cbn [last app]. split; [|split; [apply same_core_set_next|]].
    + repeat split; try assumption; cbn.
      * rewrite alter_total_eq by exact Ht. reflexivity.
      * apply Hf, length_alter.
    + intros i Hi. apply alter_total_ne. intros ->. apply Hi, list_elem_of_here.
  - clear IHl0. rewrite last_snoc.
    assert (Hbt : b <> t) by (intros ->; apply Hn, elem_of_app; right; apply list_elem_of_here).
    assert (Hbl : (b < length ts)%nat).
    { apply Forall_app in H5 as [_ H5]. apply Forall_cons_1 in H5. tauto. }
    set (ts1 := alter (set_next None) t ts).
    split; [|split].
    + split; [cbn; rewrite H1; destruct l0; reflexivity|].
      split; [cbn; rewrite last_snoc; reflexivity|].
      split; [|split; [exact Hnd|apply Hf; unfold ts1; rewrite !length_alter; reflexivity]].
      apply (linked_snoc ts).
      * exact H3.
      * exact H4.
      * intros i Hi. unfold ts1.
        assert (i <> b) by (intros ->; apply NoDup_app in H4 as (_ & H4 & _);
          apply (H4 b Hi), list_elem_of_here).
        assert (i <> t) by (intros ->; apply Hn, elem_of_app; auto).
        rewrite !alter_total_ne by congruence. reflexivity.
      * rewrite alter_total_eq by (unfold ts1; rewrite length_alter; exact Hbl). reflexivity.
      * rewrite alter_total_ne by exact Hbt. unfold ts1. rewrite alter_total_eq by exact Ht. reflexivity.
    + etransitivity; apply same_core_set_next.
    + intros i Hi. unfold ts1. rewrite !alter_total_ne; [reflexivity| |];
        intros ->; apply Hi; rewrite !elem_of_app, ?list_elem_of_singleton; auto.
Qed.

Lemma queue_pop_rep ts q l :
  queue_rep ts q l ->
  match l with
  | [] => queue_pop q ts = (None, q, ts)
  | t :: l' => exists q' ts', queue_pop q ts = (Some t, q', ts') /\ queue_rep ts' q' l' /\
      same_core ts ts' /\ forall i, i <> t -> ts' !!! i = ts !!! i
  end.
Proof.
  intros (H1 & H2 & H3 & H4 & H5). unfold queue_pop. rewrite H1.
  destruct l as [|t l]; [reflexivity|]. cbn [head].
  destruct H3 as [Hn Hl]. apply NoDup_cons in H4 as [Ht Hnd]. apply Forall_cons_1 in H5 as [Hlt H5].
  rewrite Hn. eexists _, _. split; [reflexivity|]. split; [|split].
  - split; [reflexivity|]. split.
    { cbn. rewrite H2. destruct l as [|a l]; reflexivity. }
    split; [|split; [exact Hnd|]].
    + eapply linked_ext; [|exact Hl]. intros i Hi. rewrite alter_total_ne; [reflexivity|congruence].
    + eapply Forall_impl; [exact H5|]. intros i. rewrite length_alter. auto.
  - apply same_core_set_next.
  - intros i Hi. apply alter_total_ne. congruence.
Qed.

(** ** The invariant *)

Definition is_live (t : task) : bool := 0 <=? pid t.
Definition live (s : sched) (i : nat) : Prop :=
  (i < length (task_table s))%nat /\ is_live (task_at s i) = true.

Definition live_count (ts : list task) : Z := Z.of_nat (length (filter (fun t => is_live t = true) ts)).

(** The identities in the table: pids are unique and below the counter, a
    parent is older than its child, and [task_count] counts the live slots. *)
Record table_ok (s : sched) : Prop := {
  to_len : length (task_table s) = MAX_TASKS;
  to_inj : forall i j, live s i -> live s j -> pid (task_at s i) = pid (task_at s j) -> i = j;
  to_pid : forall i, live s i ->
    pid (task_at s i) < next_pid s /\ parent_pid (task_at s i) < pid (task_at s i);
  to_next : 0 < next_pid s;
  to_count : task_count s = live_count (task_table s)
}.

(** The run state: [c] is the current task and [rl] the ready queue. *)
Record run_ok (s : sched) (c : nat) (rl : list nat) : Prop := {
  ro_queue : queue_rep (task_table s) (ready s) rl;
  ro_current : current_task s = Some c;
  ro_live : live s c;
  ro_state : state (task_at s c) = TASK_RUNNING \/ state (task_at s c) = TASK_BLOCKED \/
             state (task_at s c) = TASK_ZOMBIE;
  ro_ready : forall i, i ∈ rl <-> live s i /\ state (task_at s i) = TASK_READY;
  ro_running : forall i, live s i -> state (task_at s i) = TASK_RUNNING -> i = c
}.

Definition sched_ok (s : sched) (c : nat) (rl : list nat) : Prop := table_ok s /\ run_ok s c rl.

(** *** Table facts depend on the identities only *)

Definition same_ids (s s' : sched) : Prop :=
  length (task_table s') = length (task_table s) /\ next_pid s' = next_pid s /\
  task_count s' = task_count s /\
  forall i, pid (task_at s' i) = pid (task_at s i) /\
    parent_pid (task_at s' i) = parent_pid (task_at s i).

#[export] Instance same_ids_preorder : PreOrder same_ids.
Proof.
  split; [intros s; repeat split|].
  intros a b c (A1 & A2 & A3 & A4) (B1 & B2 & B3 & B4). repeat split; try congruence;
    intros; destruct (A4 i), (B4 i); congruence.
Qed.

Lemma same_ids_live s s' i : same_ids s s' -> (live s' i <-> live s i).
Proof. intros (A1 & _ & _ & A4). unfold live, is_live. rewrite A1, (proj1 (A4 i)). tauto. Qed.

Lemma live_count_ext ts : forall ts',
  length ts' = length ts -> (forall i, pid (ts' !!! i) = pid (ts !!! i)) ->
  live_count ts' = live_count ts.
Proof.
  unfold live_count. induction ts as [|t ts IH]; intros [|t' ts'] Hl Hp; try discriminate; [reflexivity|].
  injection Hl as Hl. assert (E : is_live t' = is_live t).
  { unfold is_live. specialize (Hp 0%nat). cbn in Hp. rewrite Hp. reflexivity. }
  specialize (IH ts' Hl (fun i => Hp (S i))). rewrite !filter_cons, E.
  case_decide; cbn [length]; lia.
Qed.

Lemma table_ok_ids s s' : same_ids s s' -> table_ok s -> table_ok s'.
Proof.
  intros H [T1 T2 T3 T4 T5]. pose proof H as (A1 & A2 & A3 & A4).
  assert (Hlive : forall i, live s' i <-> live s i) by (intros; apply same_ids_live, H).
  split.
  - congruence.
  - intros i j. rewrite !Hlive, (proj1 (A4 i)), (proj1 (A4 j)). apply T2.
  - intros i. rewrite Hlive, (proj1 (A4 i)), (proj2 (A4 i)), A2. apply T3.
  - congruence.
  - rewrite A3, T5. symmetry. apply live_count_ext; [exact A1|]. intros i. apply A4.
Qed.

Lemma same_ids_update i f s :
  (forall t, pid (f t) = pid t /\ parent_pid (f t) = parent_pid t) -> same_ids s (update i f s).
Proof.
  intros Hf. split; [apply length_alter|]. split; [reflexivity|]. split; [reflexivity|].
  intros j. unfold task_at, update. cbn. rewrite alter_total. case_decide; [apply Hf|auto].
Qed.

Lemma same_ids_core s s' :
  same_core (task_table s) (task_table s') -> next_pid s' = next_pid s ->
  task_count s' = task_count s -> same_ids s s'.
Proof.
  intros [L C] Hn Hc. repeat split; try assumption; intros; apply (core_fields _ _ (C i)).
Qed.

(** *** Queue operations under the invariant *)

Lemma enqueue_ready_spec s rl t :
  queue_rep (task_table s) (ready s) rl -> (t < length (task_table s))%nat -> (t ∉ rl) ->
  let s' := enqueue_ready t s in
  queue_rep (task_table s') (ready s') (rl ++ [t]) /\
  same_core (task_table s) (task_table s') /\
  (forall i, i ∉ rl ++ [t] -> task_at s' i = task_at s i) /\
  next_pid s' = next_pid s /\ task_count s' = task_count s /\ current_task s' = current_task s /\
  tss_esp0 s' = tss_esp0 s /\ halted s' = halted s /\ timer_ticks s' = timer_ticks s.
Proof.
  intros Hq Ht Hn. unfold enqueue_ready. pose proof (queue_push_rep _ _ _ _ Hq Ht Hn) as P.
  destruct (queue_push t (ready s) (task_table s)) as [q ts]. destruct P as (P1 & P2 & P3).
  cbn. auto 10.
Qed.

Lemma dequeue_ready_spec s t rl :
  queue_rep (task_table s) (ready s) (t :: rl) ->
  exists s', dequeue_ready s = (Some t, s') /\ queue_rep (task_table s') (ready s') rl /\
    same_core (task_table s) (task_table s') /\
    (forall i, i <> t -> task_at s' i = task_at s i) /\
    next_pid s' = next_pid s /\ task_count s' = task_count s /\ current_task s' = current_task s /\
    tss_esp0 s' = tss_esp0 s /\ halted s' = halted s.
Proof.
  intros Hq. unfold dequeue_ready. destruct (queue_pop_rep _ _ _ Hq) as (q & ts & E & P1 & P2 & P3).
  rewrite E. eexists. split; [reflexivity|]. cbn. auto 10.
Qed.

Lemma dequeue_ready_empty s :
  queue_rep (task_table s) (ready s) [] -> dequeue_ready s = (None, s).
Proof.
  intros Hq. unfold dequeue_ready. rewrite (queue_pop_rep _ _ _ Hq). destruct s. reflexivity.
Qed.

Lemma queue_rep_update s q l i f :
  (forall t, next (f t) = next t) -> queue_rep (task_table s) q l ->
  queue_rep (task_table (update i f s)) q l.
Proof.
  intros Hf. apply queue_rep_ext; [apply length_alter|]. intros j _. cbn. rewrite alter_total.
  case_decide; [apply Hf|reflexivity].
Qed.

Lemma task_at_update s i f j :
  task_at (update i f s) j =
    if decide (i = j /\ (j < length (task_table s))%nat) then f (task_at s j) else task_at s j.
Proof. apply alter_total. Qed.

(** Switching to the head of a non-empty queue. *)
Lemma pick_next_spec s c h rl regs :
  queue_rep (task_table s) (ready s) (h :: rl) ->
  exists s', pick_next c regs s =
      (kernel_esp (task_at s h), (if page_dir (task_at s h) =? 0 then None else Some (page_dir (task_at s h))), s') /\
    queue_rep (task_table s') (ready s') rl /\ current_task s' = Some h /\
    same_ids s s' /\ tss_esp0 s' = kernel_stack_top (task_at s h) /\ halted s' = halted s /\
    (forall i, state (task_at s' i) = if decide (i = h) then TASK_RUNNING else state (task_at s i)) /\
    (forall i, kernel_esp (task_at s' i) = kernel_esp (task_at s i)) /\
    (forall i, i <> h -> next (task_at s' i) = next (task_at s i)).
Proof.
  intros Hq. destruct (dequeue_ready_spec s h rl Hq) as (s1 & E & Q1 & C1 & U1 & N1 & K1 & _ & T1 & H1).
  unfold pick_next. rewrite E.
  assert (Hh : (h < length (task_table s1))%nat).
  { destruct Hq as (_ & _ & _ & _ & Hf). apply Forall_cons_1 in Hf as [Hf _].
    rewrite (proj1 C1). exact Hf. }
  pose proof (core_fields _ _ (proj2 C1 h)) as F.
  fold (task_at s h) in F. fold (task_at s1 h) in F.
  destruct F as (F1 & F2 & F3 & F4 & F5 & F6 & F7 & F8 & F9).
  set (s2 := update h (set_state TASK_RUNNING) s1).
  assert (A2 : task_at s2 h = set_state TASK_RUNNING (task_at s1 h))
    by (unfold s2; rewrite task_at_update, decide_True by auto; reflexivity).
  exists (with_current h s2).
  change (task_at (with_current h s2) h) with (task_at s2 h). rewrite A2.
  cbn [page_dir kernel_esp set_state]. rewrite F5, F8. split; [reflexivity|].
  split; [apply queue_rep_update; auto|]. split; [reflexivity|]. split; [|split; [|split; [exact H1|split; [|split]]]].
  - transitivity s1; [apply same_ids_core; assumption|].
    apply (same_ids_update h (set_state TASK_RUNNING) s1). intros t; split; reflexivity.
  - change (kernel_stack_top (task_at s2 h) = kernel_stack_top (task_at s h)). rewrite A2. exact F7.
  - intros i. change (task_at (with_current h s2) i) with (task_at s2 i). unfold s2.
    rewrite task_at_update. destruct (core_fields _ _ (proj2 C1 i)) as (_ & _ & S & _).
    fold (task_at s i) in S. fold (task_at s1 i) in S. rewrite <- S.
    destruct (decide (i = h)) as [->|Hne];
      [rewrite decide_True by auto; reflexivity|rewrite decide_False by (intros [? _]; congruence); reflexivity].
  - intros i. change (task_at (with_current h s2) i) with (task_at s2 i). unfold s2.
    rewrite task_at_update. destruct (core_fields _ _ (proj2 C1 i)) as (_ & _ & _ & _ & K & _).
    fold (task_at s i) in K. fold (task_at s1 i) in K. rewrite <- K. case_decide; reflexivity.
  - intros i Hi. change (task_at (with_current h s2) i) with (task_at s2 i). unfold s2.
    rewrite task_at_update, decide_False by (intros [? _]; congruence). rewrite U1 by exact Hi. reflexivity.
Qed.

Lemma queue_rep_snoc ts q rl c :
  queue_rep ts q (rl ++ [c]) -> NoDup (rl ++ [c]) /\ Forall (fun i => (i < length ts)%nat) (rl ++ [c]).
Proof. intros (_ & _ & _ & H1 & H2). auto. Qed.

(** The tasks the scheduler can choose from, in order. *)
Definition ring (s : sched) (c : nat) (rl : list nat) : list nat :=
  rl ++ (if decide (state (task_at s c) = TASK_RUNNING) then [c] else []).

Lemma run_ok_current_in s c rl : run_ok s c rl -> (c ∉ rl).
Proof.
  intros R X. apply (ro_ready _ _ _ R) in X as [_ X].
  destruct (ro_state _ _ _ R) as [E|[E|E]]; rewrite E in X; discriminate.
Qed.

(** More than one live task is needed for a non-empty ready queue. *)
Lemma live_count_ready s c rl : sched_ok s c rl -> rl <> [] -> 1 < task_count s.
Proof.
  intros [T R] Hne. destruct rl as [|h rl]; [congruence|].
  assert (Hh : live s h) by (apply (ro_ready _ _ _ R), list_elem_of_here).
  assert (Hhc : h <> c) by (intros ->; apply (run_ok_current_in _ _ _ R), list_elem_of_here).
  rewrite (to_count s T). unfold live_count.
  assert (Hgen : forall (ts : list task) i j ti tj, i <> j -> ts !! i = Some ti -> ts !! j = Some tj ->
    is_live ti = true -> is_live tj = true ->
    (2 <= length (filter (fun t => is_live t = true) ts))%nat).
  { clear. induction ts as [|t ts IH]; intros i j ti tj Hne Hi Hj Li Lj; [discriminate|].
    assert (one : forall k tk, ts !! k = Some tk -> is_live tk = true ->
      (1 <= length (filter (fun t => is_live t = true) ts))%nat).
    { intros k tk Hk Lk. assert (X : tk ∈ filter (fun t => is_live t = true) ts)
        by (apply list_elem_of_filter; split; [exact Lk|eapply list_elem_of_lookup_2; exact Hk]).
      destruct (filter _ ts); [inversion X|simpl; lia]. }
    rewrite filter_cons. destruct i as [|i], j as [|j]; try congruence; cbn in Hi, Hj.
    - injection Hi as ->. rewrite decide_True by exact Li. specialize (one _ _ Hj Lj). simpl; lia.
    - injection Hj as ->. rewrite decide_True by exact Lj. specialize (one _ _ Hi Li). simpl; lia.
    - specialize (IH i j ti tj ltac:(congruence) Hi Hj Li Lj). case_decide; simpl; lia. }
  destruct Hh as [Lh1 Lh2], (ro_live _ _ _ R) as [Lc1 Lc2].
  destruct (lookup_lt_is_Some_2 _ _ Lh1) as [th Eh], (lookup_lt_is_Some_2 _ _ Lc1) as [tc Ec].
  unfold task_at in Lh2, Lc2. rewrite (list_lookup_total_correct _ _ _ Eh) in Lh2.
  rewrite (list_lookup_total_correct _ _ _ Ec) in Lc2.
  pose proof (Hgen _ _ _ _ _ Hhc Eh Ec Lh2 Lc2). lia.
Qed.

(** After a switch to [h], the run state is in order. *)
Lemma switched_ok s s' h rl :
  table_ok s -> queue_rep (task_table s') (ready s') rl ->
  current_task s' = Some h -> same_ids s s' -> live s h ->
  (forall i, i <> h -> state (task_at s' i) <> TASK_RUNNING \/ ~ live s i) ->
  state (task_at s' h) = TASK_RUNNING ->
  (forall i, i ∈ rl <-> live s i /\ state (task_at s' i) = TASK_READY) ->
  sched_ok s' h rl.
Proof.
  intros T Q C I Lh Hr Hh Hi. pose proof (fun i => same_ids_live s s' i I) as Lv.
  split; [eapply table_ok_ids; eassumption|].
  split; try assumption.
  - apply Lv, Lh.
  - auto.
  - intros i. rewrite Lv. apply Hi.
  - intros i Li Si. apply Lv in Li. destruct (decide (i = h)) as [->|Hne]; [reflexivity|].
    destruct (Hr i Hne); [congruence|contradiction].
Qed.

(** The fields of [task_at (update ...)] that the update does not touch. *)
Lemma update_state s i j f :
  (forall t, state (f t) = state t) -> state (task_at (update i f s) j) = state (task_at s j).
Proof. intros H. rewrite task_at_update. case_decide; [apply H|reflexivity]. Qed.

Lemma update_esp s i j f :
  (forall t, kernel_esp (f t) = kernel_esp t) ->
  kernel_esp (task_at (update i f s) j) = kernel_esp (task_at s j).
Proof. intros H. rewrite task_at_update. case_decide; [apply H|reflexivity]. Qed.

(** Choosing the next task from a non-empty queue of exactly the ready tasks. *)
Lemma pick_next_ok s s0 c h l regs :
  table_ok s -> same_ids s s0 -> queue_rep (task_table s0) (ready s0) (h :: l) ->
  (forall i, i ∈ h :: l <-> live s i /\ state (task_at s0 i) = TASK_READY) ->
  (forall i, live s i -> state (task_at s0 i) <> TASK_RUNNING) ->
  exists dir s', pick_next c regs s0 = (kernel_esp (task_at s0 h), dir, s') /\
    (forall i, kernel_esp (task_at s' i) = kernel_esp (task_at s0 i)) /\
    same_ids s s' /\ sched_ok s' h l /\ state (task_at s' h) = TASK_RUNNING /\
    halted s' = halted s0 /\ tss_esp0 s' = kernel_stack_top (task_at s0 h) /\
    dir = (if page_dir (task_at s0 h) =? 0 then None else Some (page_dir (task_at s0 h))) /\
    (forall i, i <> h -> state (task_at s' i) = state (task_at s0 i)) /\
    (forall i, i <> h -> next (task_at s' i) = next (task_at s0 i)).
Proof.
  intros T I Q Hin Hnr.
  destruct (pick_next_spec s0 c h l regs Q) as (s' & E & Q' & C' & I' & T' & H' & S' & K' & N').
  eexists _, s'. split; [exact E|]. split; [exact K'|].
  assert (Is : same_ids s s') by (etransitivity; eassumption).
  assert (Hh : live s h) by (apply Hin, list_elem_of_here).
  assert (Sh : state (task_at s' h) = TASK_RUNNING) by (rewrite S'; apply decide_True; reflexivity).
  assert (So : forall i, i <> h -> state (task_at s' i) = state (task_at s0 i))
    by (intros; rewrite S', decide_False by assumption; reflexivity).
  split; [exact Is|]. split; [|auto 10].
  destruct Q as (_ & _ & _ & Nd & _). apply NoDup_cons in Nd as [Nh _].
  apply (switched_ok s); try assumption.
  - intros i Hi. rewrite So by exact Hi. destruct (is_live (task_at s i)) eqn:Ei;
      [|right; intros [_ X]; congruence].
    destruct (decide (i < length (task_table s))%nat) as [Hl|Hl]; [|right; intros [X _]; contradiction].
    left. apply Hnr. split; assumption.
  - intros i. rewrite S'. case_decide as Hi.
    + subst. split; [contradiction|]. intros [_ X]. discriminate X.
    + rewrite <- Hin. split; [apply list_elem_of_further|]. intros X. inversion X; [contradiction|assumption].
Qed.

(** ** scheduler_tick *)

(** The result of a tick, in terms of the ring: the head of the ring runs
    next, the rest is the new ready queue; without one, a blocked task goes on
    and a zombie halts the machine. *)
Definition tick_result (s : sched) (c : nat) (regs : Z) (rg : list nat)
    (frame : Z) (dir : option Z) (s' : sched) : Prop :=
  (forall i, (i ∉ rg) -> next (task_at s' i) = next (task_at s i)) /\
  (forall i, kernel_esp (task_at s' i) = if decide (i = c) then regs else kernel_esp (task_at s i)) /\
  same_ids s s' /\
  match rg with
  | h :: l => sched_ok s' h l /\ state (task_at s' h) = TASK_RUNNING /\
      frame = (if decide (h = c) then regs else kernel_esp (task_at s h)) /\
      halted s' = halted s /\
      (h <> c -> tss_esp0 s' = kernel_stack_top (task_at s h) /\
         dir = if page_dir (task_at s h) =? 0 then None else Some (page_dir (task_at s h))) /\
      (forall i, i <> h -> i <> c \/ state (task_at s c) <> TASK_RUNNING ->
         state (task_at s' i) = state (task_at s i))
  | [] => sched_ok s' c [] /\ frame = regs /\ dir = None /\
      (forall i, i <> c -> state (task_at s' i) = state (task_at s i)) /\
      (if decide (state (task_at s c) = TASK_ZOMBIE)
       then halted s' = true /\ state (task_at s' c) = TASK_ZOMBIE
       else halted s' = halted s /\ state (task_at s' c) = TASK_RUNNING)
  end.

Section tick.
Context (s : sched) (c : nat) (rl : list nat) (regs : Z).
Context (T : table_ok s) (R : run_ok s c rl).

(** The state after the context is saved. *)
Definition saved : sched := update c (set_kernel_esp regs) (with_ticks (u32 (timer_ticks s + 1)) s).

Lemma saved_at i :
  task_at saved i = if decide (i = c) then set_kernel_esp regs (task_at s i) else task_at s i.
Proof using R.
  unfold saved. rewrite task_at_update.
  change (task_table (with_ticks _ s)) with (task_table s).
  change (task_at (with_ticks _ s) i) with (task_at s i).
  destruct (decide (i = c)) as [->|Hne];
    [rewrite decide_True by (split; [reflexivity|apply (ro_live _ _ _ R)])
    |rewrite decide_False by (intros [? _]; congruence)]; reflexivity.
Qed.

Lemma saved_ids : same_ids s saved.
Proof using Type.
  transitivity (with_ticks (u32 (timer_ticks s + 1)) s); [repeat split|].
  apply same_ids_update. intros; split; reflexivity.
Qed.

Lemma saved_queue : queue_rep (task_table saved) (ready saved) rl.
Proof using R. apply (queue_rep_update (with_ticks _ s)); [reflexivity|]. apply (ro_queue _ _ _ R). Qed.

Lemma saved_state i : state (task_at saved i) = state (task_at s i).
Proof using R. rewrite saved_at. case_decide; reflexivity. Qed.

Lemma saved_esp i : kernel_esp (task_at saved i) = if decide (i = c) then regs else kernel_esp (task_at s i).
Proof using R. rewrite saved_at. case_decide; reflexivity. Qed.

Lemma saved_next i : next (task_at saved i) = next (task_at s i).
Proof using R. rewrite saved_at. case_decide; reflexivity. Qed.

Lemma saved_stack i : i <> c ->
  page_dir (task_at saved i) = page_dir (task_at s i) /\
  kernel_stack_top (task_at saved i) = kernel_stack_top (task_at s i).
Proof using R. intros H. rewrite saved_at, decide_False by exact H. auto. Qed.

Lemma saved_len : (c < length (task_table saved))%nat.
Proof using R. unfold saved, update. cbn. rewrite length_alter. apply (ro_live _ _ _ R). Qed.

(** The current task goes back to the ready queue. *)
Definition requeued : sched := enqueue_ready c (update c (set_state TASK_READY) saved).

Lemma requeued_spec :
  queue_rep (task_table requeued) (ready requeued) (rl ++ [c]) /\ same_ids s requeued /\
  halted requeued = halted s /\
  (forall i, state (task_at requeued i) = if decide (i = c) then TASK_READY else state (task_at s i)) /\
  (forall i, kernel_esp (task_at requeued i) = if decide (i = c) then regs else kernel_esp (task_at s i)) /\
  (forall i, i <> c -> page_dir (task_at requeued i) = page_dir (task_at s i) /\
     kernel_stack_top (task_at requeued i) = kernel_stack_top (task_at s i)) /\
  (forall i, (i ∉ rl ++ [c]) -> next (task_at requeued i) = next (task_at s i)).
Proof using R.
  set (s1 := update c (set_state TASK_READY) saved).
  assert (Q1 : queue_rep (task_table s1) (ready s1) rl) by (apply queue_rep_update; [auto|apply saved_queue]).
  assert (Hl1 : (c < length (task_table s1))%nat)
    by (unfold s1, update; cbn -[saved]; rewrite length_alter; apply saved_len).
  destruct (enqueue_ready_spec s1 rl c Q1 Hl1 (run_ok_current_in _ _ _ R))
    as (Q2 & C2 & U2 & N2 & G2 & _ & _ & H2 & _).
  fold requeued in *.
  assert (F2 : forall i, core (task_at requeued i) = core (task_at s1 i)) by apply C2.
  split; [exact Q2|]. split.
  { transitivity saved; [apply saved_ids|]. transitivity s1; [apply same_ids_update; intros; split; reflexivity|].
    apply same_ids_core; assumption. }
  split; [exact H2|]. split; [|split; [|split]].
  - intros i. rewrite (proj1 (proj2 (proj2 (core_fields _ _ (F2 i))))). unfold s1. rewrite task_at_update.
    destruct (decide (i = c)) as [->|Hne].
    + rewrite decide_True; [reflexivity|]. split; [reflexivity|apply saved_len].
    + rewrite decide_False by (intros [? _]; congruence). apply saved_state.
  - intros i. rewrite (proj1 (proj2 (proj2 (proj2 (proj2 (core_fields _ _ (F2 i))))))). unfold s1.
    rewrite update_esp by reflexivity. apply saved_esp.
  - intros i Hi. destruct (core_fields _ _ (F2 i)) as (_ & _ & _ & _ & _ & _ & Y1 & Y2 & _).
    rewrite Y1, Y2. unfold s1. rewrite task_at_update, decide_False by (intros [? _]; congruence).
    apply saved_stack, Hi.
  - intros i Hi. rewrite U2 by exact Hi. unfold s1.
    rewrite task_at_update. rewrite decide_False; [apply saved_next|].
    intros [-> _]. apply Hi, elem_of_app. right. apply list_elem_of_here.
Qed.

Lemma tick_preempt :
  state (task_at s c) = TASK_RUNNING ->
  exists frame dir s', pick_next c regs requeued = (frame, dir, s') /\
    tick_result s c regs (rl ++ [c]) frame dir s'.
Proof using T R.
  intros Hrun. destruct requeued_spec as (Q2 & I2 & H2 & St2 & K2 & D2 & N2).
  destruct (rl ++ [c]) as [|h l] eqn:El; [destruct rl; discriminate|].
  destruct (pick_next_ok s requeued c h l regs T I2 Q2)
    as (dir & s' & E & K & I' & S' & R' & H' & X1 & X2 & X3 & X4).
  { intros i. rewrite St2, <- El, elem_of_app, list_elem_of_singleton, (ro_ready _ _ _ R).
    case_decide as Hc; [subst|tauto]. pose proof (ro_live _ _ _ R). tauto. }
  { intros i Li. rewrite St2. case_decide as Hc; [discriminate|].
    intros X. apply Hc, (ro_running _ _ _ R); assumption. }
  exists (kernel_esp (task_at requeued h)), dir, s'. split; [exact E|].
  split.
  { intros i Hi. rewrite X4 by (intros ->; apply Hi, list_elem_of_here). apply N2, Hi. }
  split; [intros i; rewrite K; apply K2|]. split; [exact I'|]. split; [exact S'|]. split; [exact R'|].
  split; [apply K2|]. split; [rewrite H', H2; reflexivity|]. split.
  - intros Hhc. rewrite X1, X2, (proj1 (D2 h Hhc)), (proj2 (D2 h Hhc)). auto.
  - intros i Hi [Hic|Hr]; [|congruence]. rewrite X3, St2 by exact Hi. apply decide_False. exact Hic.
Qed.

(** The current task goes on. *)
Lemma tick_continue (s' : sched) :
  rl = [] -> s' = update c (set_state TASK_RUNNING) saved ->
  state (task_at s c) <> TASK_ZOMBIE ->
  sched_ok s' c [] /\ state (task_at s' c) = TASK_RUNNING /\
  (forall i, kernel_esp (task_at s' i) = if decide (i = c) then regs else kernel_esp (task_at s i)) /\
  same_ids s s' /\ (forall i, i <> c -> state (task_at s' i) = state (task_at s i)) /\
  (forall i, next (task_at s' i) = next (task_at s i)).
Proof using T R.
  intros Hrl -> Hz. set (s' := update c (set_state TASK_RUNNING) saved).
  assert (I' : same_ids s s').
  { transitivity saved; [apply saved_ids|]. apply same_ids_update; intros; split; reflexivity. }
  assert (S' : forall i, state (task_at s' i) = if decide (i = c) then TASK_RUNNING else state (task_at s i)).
  { intros i. unfold s'. rewrite task_at_update. destruct (decide (i = c)) as [->|Hne].
    - rewrite decide_True; [reflexivity|]. split; [reflexivity|apply saved_len].
    - rewrite decide_False by (intros [? _]; congruence). apply saved_state. }
  assert (Sc : state (task_at s' c) = TASK_RUNNING) by (rewrite S'; apply decide_True; reflexivity).
  split; [|split; [exact Sc|split; [|split; [exact I'|split]]]].
  - apply (switched_ok s); try assumption.
    + rewrite <- Hrl. apply queue_rep_update; [auto|apply saved_queue].
    + exact (ro_current _ _ _ R).
    + apply (ro_live _ _ _ R).
    + intros i Hi. rewrite S', decide_False by exact Hi.
      destruct (is_live (task_at s i)) eqn:Ei; [|right; intros [_ X]; congruence].
      destruct (decide (i < length (task_table s))%nat) as [Hl|Hl]; [|right; intros [X _]; contradiction].
      left. intros X. apply Hi, (ro_running _ _ _ R); [split; assumption|exact X].
    + intros i. rewrite S'. split; [intros X; inversion X|]. intros [Li X].
      case_decide as Hc; [discriminate|]. rewrite <- Hrl. apply (ro_ready _ _ _ R). auto.
  - intros i. unfold s'. rewrite update_esp by reflexivity. apply saved_esp.
  - intros i Hi. rewrite S', decide_False by exact Hi. reflexivity.
  - intros i. unfold s'. rewrite task_at_update. rewrite <- saved_next. case_decide; reflexivity.
Qed.

(** A blocked task or a zombie gives the CPU to the head of the queue. *)
Lemma tick_resume h l :
  rl = h :: l -> state (task_at s c) <> TASK_RUNNING ->
  exists frame dir s', pick_next c regs saved = (frame, dir, s') /\
    tick_result s c regs (h :: l) frame dir s'.
Proof using T R.
  intros Hrl Hrun.
  assert (Hhc : h <> c) by (intros ->; apply (run_ok_current_in _ _ _ R); rewrite Hrl; apply list_elem_of_here).
  destruct (pick_next_ok s saved c h l regs T saved_ids)
    as (dir & s' & E & K & I' & S' & R' & H' & X1 & X2 & X3 & X4).
  { rewrite <- Hrl. apply saved_queue. }
  { intros i. rewrite saved_state, <- Hrl. apply (ro_ready _ _ _ R). }
  { intros i Li X. rewrite saved_state in X. pose proof (ro_running _ _ _ R i Li X). congruence. }
  exists (kernel_esp (task_at saved h)), dir, s'. split; [exact E|].
  split.
  { intros i Hi. rewrite X4 by (intros ->; apply Hi, list_elem_of_here). apply saved_next. }
  split; [intros i; rewrite K; apply saved_esp|]. split; [exact I'|]. split; [exact S'|]. split; [exact R'|].
  split; [apply saved_esp|]. split; [exact H'|]. split.
  - intros _. destruct (saved_stack h Hhc) as [Y1 Y2]. rewrite X1, X2, Y1, Y2. auto.
  - intros i Hi _. rewrite X3 by exact Hi. apply saved_state.
Qed.

(** A zombie with nothing to run halts. *)
Lemma tick_halt :
  rl = [] -> state (task_at s c) = TASK_ZOMBIE ->
  pick_next c regs saved = (regs, None, with_halt saved) /\
  tick_result s c regs [] regs None (with_halt saved).
Proof using T R.
  intros Hrl Hz. split.
  - unfold pick_next. rewrite dequeue_ready_empty by (rewrite <- Hrl; apply saved_queue).
    rewrite saved_state, Hz. reflexivity.
  - assert (I' : same_ids s (with_halt saved)) by apply saved_ids.
    split; [intros i _; apply saved_next|].
    split; [exact saved_esp|]. split; [exact I'|]. split.
    + split; [eapply table_ok_ids; eassumption|]. pose proof (fun i => same_ids_live _ _ i I') as Lv.
      split.
      * rewrite <- Hrl. apply saved_queue.
      * apply (ro_current _ _ _ R).
      * apply Lv, (ro_live _ _ _ R).
      * change (task_at (with_halt saved) c) with (task_at saved c). rewrite saved_state. auto.
      * intros i. change (task_at (with_halt saved) i) with (task_at saved i).
        rewrite saved_state, Lv, <- Hrl. apply (ro_ready _ _ _ R).
      * intros i. change (task_at (with_halt saved) i) with (task_at saved i).
        rewrite saved_state, Lv. apply (ro_running _ _ _ R).
    + split; [reflexivity|]. split; [reflexivity|]. split; [intros i _; apply saved_state|].
      rewrite decide_True by exact Hz. split; [reflexivity|].
      change (task_at (with_halt saved) c) with (task_at saved c). rewrite saved_state. exact Hz.
Qed.
End tick.

Lemma tick_spec s c rl regs :
  sched_ok s c rl ->
  exists frame dir s', scheduler_tick 32 regs s = (frame, dir, s') /\
    tick_result s c regs (ring s c rl) frame dir s'.
Proof.
  intros [T R]. unfold scheduler_tick. cbn [negb Z.eqb Pos.eqb].
  change (current_task (with_ticks _ s)) with (current_task s). rewrite (ro_current _ _ _ R).
  fold (saved s c regs). rewrite (saved_state _ _ _ _ R). unfold ring.
  destruct (decide (state (task_at s c) = TASK_RUNNING)) as [Hrun|Hrun].
  - rewrite Hrun. change (TASK_RUNNING =? TASK_ZOMBIE) with false.
    change (TASK_RUNNING =? TASK_BLOCKED) with false. cbn iota.
    change (task_count (saved s c regs)) with (task_count s).
    destruct (Z.ltb_spec 1 (task_count s)) as [Hgt|Hle]; [apply (tick_preempt s c rl regs T R Hrun)|].
    assert (Hrl : rl = []).
    { destruct rl as [|a rl]; [reflexivity|]. exfalso.
      pose proof (live_count_ready s c (a :: rl) (conj T R) ltac:(discriminate)). lia. }
    destruct (tick_continue s c rl regs T R _ Hrl eq_refl) as (O & S' & K & I & U & N); [rewrite Hrun; discriminate|].
    exists regs, None, (update c (set_state TASK_RUNNING) (saved s c regs)). split; [reflexivity|].
    rewrite Hrl. split; [intros i _; apply N|]. split; [exact K|]. split; [exact I|]. split; [exact O|]. split; [exact S'|].
    rewrite decide_True by reflexivity. split; [reflexivity|]. split; [reflexivity|]. split; [congruence|]. intros i Hi _. apply U, Hi.
  - rewrite app_nil_r.
    assert (Hst : state (task_at s c) = TASK_BLOCKED \/ state (task_at s c) = TASK_ZOMBIE)
      by (destruct (ro_state _ _ _ R) as [?|?]; [contradiction|assumption]).
    match goal with |- exists f d s', ?t = _ /\ _ => assert (Eb : t = pick_next c regs (saved s c regs)) end.
    { destruct Hst as [-> | ->]; reflexivity. }
    rewrite Eb. clear Eb. destruct rl as [|h l] eqn:Hrl.
    + destruct Hst as [Hb|Hz].
      * destruct (tick_continue s c [] regs T R _ eq_refl eq_refl) as (O & S' & K & I & U & N); [rewrite Hb; discriminate|].
        exists regs, None, (update c (set_state TASK_RUNNING) (saved s c regs)). split.
        { unfold pick_next. rewrite dequeue_ready_empty by apply (saved_queue s c [] regs R).
          rewrite (saved_state _ _ _ _ R), Hb. reflexivity. }
        split; [intros i _; apply N|]. split; [exact K|]. split; [exact I|]. split; [exact O|]. split; [reflexivity|]. split; [reflexivity|].
        split; [exact U|]. rewrite decide_False by (rewrite Hb; discriminate). auto.
      * destruct (tick_halt s c [] regs T R eq_refl Hz) as [E H]. eexists _, _, _. split; [exact E|exact H].
    + apply (tick_resume s c (h :: l) regs T R h l eq_refl Hrun).
Qed.

(** on the timer interrupt the scheduler saves the interrupted context
    in the current task and gives the CPU to the head of the ring (ready tasks
    in order, then the current task if it can go on), with its saved context,
    kernel stack and page directory; the rest of the ring is the new ready queue.
    Without any candidate a blocked task goes on and a zombie halts. *)
Theorem scheduler_tick_ring s c rl regs :
  sched_ok s c rl ->
  let '(frame, dir, s') := scheduler_tick 32 regs s in
  (forall i, kernel_esp (task_at s' i) = if decide (i = c) then regs else kernel_esp (task_at s i)) /\
  match ring s c rl with
  | h :: l => sched_ok s' h l /\ state (task_at s' h) = TASK_RUNNING /\
      frame = (if decide (h = c) then regs else kernel_esp (task_at s h)) /\
      (h <> c -> tss_esp0 s' = kernel_stack_top (task_at s h) /\
         dir = if page_dir (task_at s h) =? 0 then None else Some (page_dir (task_at s h)))
  | [] => sched_ok s' c [] /\ frame = regs /\ dir = None /\
      (state (task_at s c) = TASK_ZOMBIE -> halted s' = true) /\
      (state (task_at s c) = TASK_BLOCKED -> state (task_at s' c) = TASK_RUNNING)
  end.
Proof.
  intros H. destruct (tick_spec s c rl regs H) as (frame & dir & s' & -> & _ & K & _ & M).
  split; [exact K|]. destruct (ring s c rl) as [|h l].
  - destruct M as (M1 & M2 & M3 & _ & M5).
    split; [exact M1|]. split; [exact M2|]. split; [exact M3|]. split.
    + intros Hz. rewrite decide_True in M5 by exact Hz. apply M5.
    + intros Hb. rewrite decide_False in M5 by (rewrite Hb; discriminate). apply M5.
  - destruct M as (M1 & M2 & M3 & M4 & M5 & _). auto.
Qed.

(** ** Round robin *)

(** A burst of timer interrupts; the last frame and the final state. *)
Definition ticks (rs : list Z) (fs : Z * sched) : Z * sched :=
  foldl (fun fs r => let '(f, _, s) := scheduler_tick 32 r (snd fs) in (f, s)) fs rs.

(** [o] lists the current task, which is running, and then the ready queue. *)
Definition order (s : sched) (o : list nat) : Prop :=
  match o with
  | [] => False
  | c :: rl => sched_ok s c rl /\ state (task_at s c) = TASK_RUNNING
  end.

Lemma order_tick s c rl regs :
  order s (c :: rl) ->
  exists frame dir s', scheduler_tick 32 regs s = (frame, dir, s') /\ order s' (rl ++ [c]) /\
    (forall i, kernel_esp (task_at s' i) = if decide (i = c) then regs else kernel_esp (task_at s i)) /\
    (forall h, head (rl ++ [c]) = Some h ->
       frame = if decide (h = c) then regs else kernel_esp (task_at s h)).
Proof.
  intros [O Hrun]. destruct (tick_spec s c rl regs O) as (frame & dir & s' & E & _ & K & _ & M).
  exists frame, dir, s'. split; [exact E|]. revert M. unfold ring. rewrite decide_True by exact Hrun.
  destruct (rl ++ [c]) as [|h l] eqn:El; [destruct rl; discriminate|].
  intros (M1 & M2 & M3 & _). split; [split; assumption|]. split; [exact K|].
  cbn. intros h' Hh. injection Hh as <-. exact M3.
Qed.

(** A task at position [length pre + 1] of the order runs, with the context it
    had, after that many interrupts. *)
Lemma resume_after pre : forall s x t post rs f0,
  order s (x :: pre ++ t :: post) -> length rs = S (length pre) ->
  exists s', ticks rs (f0, s) = (kernel_esp (task_at s t), s') /\
    order s' (t :: post ++ x :: pre) /\
    (forall i, (i ∉ x :: pre) -> kernel_esp (task_at s' i) = kernel_esp (task_at s i)).
Proof.
  induction pre as [|y pre IH]; intros s x t post rs f0 O Hl; destruct rs as [|r rs]; try discriminate.
  - destruct rs; [|discriminate]. cbn [app] in O. unfold ticks. cbn [foldl snd].
    destruct (order_tick s x (t :: post) r O) as (f & d & s' & E & O' & K & F). rewrite E.
    assert (Htx : t <> x).
    { destruct O as [O _]. intros ->. apply (run_ok_current_in _ _ _ (proj2 O)), list_elem_of_here. }
    exists s'. rewrite (F t eq_refl), decide_False by exact Htx. split; [reflexivity|].
    split; [exact O'|]. intros i Hi. rewrite K, decide_False; [reflexivity|].
    intros ->. apply Hi, list_elem_of_here.
  - injection Hl as Hl. cbn [app] in O. unfold ticks. cbn [foldl snd].
    destruct (order_tick s x (y :: pre ++ t :: post) r O) as (f & d & s1 & E & O' & K & _). rewrite E.
    assert (Hnd : (t <> x) /\ NoDup (y :: pre ++ t :: post)).
    { destruct O as [O _]. split.
      - intros ->. apply (run_ok_current_in _ _ _ (proj2 O)). apply list_elem_of_further, elem_of_app.
        right. apply list_elem_of_here.
      - apply (ro_queue _ _ _ (proj2 O)). }
    cbn [app] in O'. rewrite <- app_assoc in O'. cbn [app] in O'.
    destruct (IH s1 y t (post ++ [x]) rs f O' Hl) as (s' & E' & O'' & K').
    exists s'. unfold ticks in E'. rewrite E', K, decide_False by apply Hnd. split; [reflexivity|].
    split; [rewrite <- app_assoc in O''; exact O''|].
    intros i Hi. rewrite K'.
    + rewrite K, decide_False; [reflexivity|]. intros ->. apply Hi, list_elem_of_here.
    + intros X. apply Hi, list_elem_of_further, X.
Qed.

(** C5: round robin: while tasks only compute, the task at position [i] of
    the ready queue gets the CPU after exactly [i + 1] timer interrupts, and it
    resumes from the context it was interrupted in. *)
Theorem round_robin s c rl i t rs f0 :
  sched_ok s c rl -> state (task_at s c) = TASK_RUNNING ->
  rl !! i = Some t -> length rs = S i ->
  exists s', ticks rs (f0, s) = (kernel_esp (task_at s t), s') /\
    current_task s' = Some t /\ state (task_at s' t) = TASK_RUNNING.
Proof.
  intros O Hrun Hi Hl. rewrite <- (take_drop_middle rl i t Hi) in O.
  pose proof (lookup_lt_Some _ _ _ Hi) as Hlt.
  destruct (resume_after (take i rl) s c t (drop (S i) rl) rs f0 (conj O Hrun)) as (s' & E & [O' R'] & _).
  { rewrite length_take. lia. }
  exists s'. split; [exact E|]. split; [apply (ro_current _ _ _ (proj2 O'))|exact R'].
Qed.

(** C16: context switching is transparent: when every task has had its turn, the
    task interrupted first resumes from exactly the frame it was interrupted
    with, and the ready queue is as before. *)
Theorem context_roundtrip s c rl r rs f0 :
  sched_ok s c rl -> state (task_at s c) = TASK_RUNNING -> length rs = length rl ->
  exists s', ticks (r :: rs) (f0, s) = (r, s') /\ sched_ok s' c rl /\
    state (task_at s' c) = TASK_RUNNING.
Proof.
  intros O Hrun Hl. unfold ticks. cbn [foldl snd].
  destruct (order_tick s c rl r (conj O Hrun)) as (f & d & s1 & E & O1 & K & F). rewrite E.
  destruct rl as [|h l].
  - destruct rs; [|discriminate]. cbn [foldl]. exists s1. rewrite (F c eq_refl), decide_True by reflexivity.
    split; [reflexivity|]. exact O1.
  - cbn [app] in O1. destruct (resume_after l s1 h c [] rs f) as (s' & E' & O' & _).
    { exact O1. } { exact Hl. }
    unfold ticks in E'. rewrite E', K, decide_True by reflexivity. exists s'. split; [reflexivity|exact O'].
Qed.

(** ** Initialisation and new tasks *)

Lemma find_slot_spec ts : forall k,
  match find_slot ts k with
  | Some i => exists j, i = (k + j)%nat /\ (j < length ts)%nat /\ is_live (ts !!! j) = false
  | None => forall j, (j < length ts)%nat -> is_live (ts !!! j) = true
  end.
Proof.
  induction ts as [|t ts IH]; intros k; cbn [find_slot length]; [intros j Hj; lia|].
  destruct (Z.ltb_spec (pid t) 0) as [Hn|Hn].
  - exists 0%nat. split; [lia|]. split; [lia|]. cbn. unfold is_live. apply Z.leb_gt. exact Hn.
  - specialize (IH (S k)). destruct (find_slot ts (S k)) as [i|].
    + destruct IH as (j & -> & Hj & Hd). exists (S j). split; [lia|]. split; [lia|]. exact Hd.
    + intros [|j] Hj; cbn; [unfold is_live; apply Z.leb_le; exact Hn|]. apply IH. lia.
Qed.

Lemma task_find_slot_spec s :
  match task_find_slot s with
  | Some i => (i < length (task_table s))%nat /\ ~ live s i
  | None => forall i, (i < length (task_table s))%nat -> live s i
  end.
Proof.
  pose proof (find_slot_spec (task_table s) 0) as F. unfold task_find_slot.
  destruct (find_slot (task_table s) 0) as [i|].
  - destruct F as (j & -> & Hj & Hd). split; [exact Hj|]. intros [_ X]. unfold task_at in X.
    cbn in X. congruence.
  - intros i Hi. split; [exact Hi|]. apply F. exact Hi.
Qed.

Lemma live_count_insert ts i t :
  (i < length ts)%nat -> is_live (ts !!! i) = false -> is_live t = true ->
  live_count (<[i:=t]> ts) = live_count ts + 1.
Proof.
  unfold live_count. revert i. induction ts as [|t0 ts IH]; intros i Hi H0 Ht; [cbn in Hi; lia|].
  destruct i as [|i].
  - cbn in H0. cbn [list_insert insert]. change (<[0%nat:=t]> (t0 :: ts)) with (t :: ts).
    rewrite !filter_cons. rewrite decide_True by exact Ht. rewrite decide_False by congruence.
    cbn [length]. lia.
  - change (<[S i:=t]> (t0 :: ts)) with (t0 :: <[i:=t]> ts).
    cbn [length] in Hi. specialize (IH i ltac:(lia) H0 Ht).
    rewrite !filter_cons. case_decide; cbn [length]; lia.
Qed.

(** A new task joins the end of the ready queue. *)
Lemma add_task_ok s c rl slot t :
  sched_ok s c rl -> (slot < length (task_table s))%nat -> ~ live s slot ->
  pid t = next_pid s -> parent_pid t < pid t -> state t = TASK_READY ->
  let s' := add_task slot t s in
  sched_ok s' c (rl ++ [slot]) /\ pid (task_at s' slot) = next_pid s /\ next_pid s' = next_pid s + 1 /\
  core (task_at s' slot) = core t /\
  (forall i, i <> slot -> core (task_at s' i) = core (task_at s i)).
Proof.
  intros [T R] Hs Hn Hp Hpar Hst.
  set (s1 := mk_sched (<[slot := t]> (task_table s)) (task_count s) (next_pid s + 1)
             (current_task s) (ready s) (timer_ticks s) (tss_esp0 s) (halted s)).
  assert (Hin : slot ∉ rl) by (intros X; apply (ro_ready _ _ _ R) in X; tauto).
  assert (A1 : forall i, task_at s1 i = if decide (i = slot) then t else task_at s i).
  { intros i. unfold task_at, s1. cbn. rewrite insert_total by exact Hs. repeat case_decide; congruence. }
  assert (Q1 : queue_rep (task_table s1) (ready s1) rl).
  { apply (queue_rep_ext (task_table s)); [apply length_insert| |apply (ro_queue _ _ _ R)].
    intros i Hi. change (task_table s1 !!! i) with (task_at s1 i). rewrite A1, decide_False; [reflexivity|congruence]. }
  assert (Hl1 : (slot < length (task_table s1))%nat) by (unfold s1; cbn; rewrite length_insert; exact Hs).
  destruct (enqueue_ready_spec s1 rl slot Q1 Hl1 Hin) as (Q2 & C2 & _ & N2 & G2 & K2 & _).
  set (s2 := enqueue_ready slot s1) in *. cbv zeta.
  assert (E' : forall i, task_at (add_task slot t s) i = task_at s2 i) by reflexivity.
  assert (F : forall i, core (task_at s2 i) = core (if decide (i = slot) then t else task_at s i)).
  { intros i. rewrite <- A1. apply C2. }
  assert (Hlen : length (task_table (add_task slot t s)) = length (task_table s)).
  { transitivity (length (task_table s1)); [apply C2|]. unfold s1. cbn. apply length_insert. }
  assert (Hpid : forall i, pid (task_at s2 i) = if decide (i = slot) then next_pid s else pid (task_at s i)).
  { intros i. rewrite (proj1 (core_fields _ _ (F i))). case_decide; [exact Hp|reflexivity]. }
  assert (Hppid : forall i, parent_pid (task_at s2 i) = if decide (i = slot) then parent_pid t else parent_pid (task_at s i)).
  { intros i. rewrite (proj1 (proj2 (core_fields _ _ (F i)))). case_decide; reflexivity. }
  assert (Hstt : forall i, state (task_at s2 i) = if decide (i = slot) then TASK_READY else state (task_at s i)).
  { intros i. rewrite (proj1 (proj2 (proj2 (core_fields _ _ (F i))))). case_decide; [exact Hst|reflexivity]. }
  assert (Hnp : 0 < next_pid s) by apply (to_next s T).
  assert (Hlive : forall i, live (add_task slot t s) i <-> i = slot \/ live s i).
  { intros i. unfold live. rewrite Hlen, E'. unfold is_live. rewrite Hpid. case_decide as Hi.
    - subst. split; [auto|]. intros _. split; [exact Hs|]. apply Z.leb_le. lia.
    - split; [auto|]. intros [?|?]; [congruence|assumption]. }
  split; [split|split; [|split; [|split]]].
  - split.
    + rewrite Hlen. apply (to_len s T).
    + intros i j. rewrite !Hlive, !E', !Hpid. repeat case_decide; subst; try tauto.
      * intros _ [?|Lj]; [congruence|]. pose proof (to_pid s T j Lj). lia.
      * intros [?|Li]; [congruence|]. intros _. pose proof (to_pid s T i Li). lia.
      * intros [?|Li] [?|Lj]; try congruence. apply (to_inj s T); assumption.
    + intros i. rewrite Hlive, E', Hpid, Hppid. change (next_pid (add_task slot t s)) with (next_pid s2).
      rewrite N2. cbn. case_decide as Hi; [lia|]. intros [?|Li]; [congruence|].
      pose proof (to_pid s T i Li). lia.
    + change (next_pid (add_task slot t s)) with (next_pid s2). rewrite N2. cbn. lia.
    + change (task_count (add_task slot t s)) with (task_count s2 + 1). rewrite G2.
      change (task_count s1) with (task_count s).
      rewrite (to_count s T). change (task_table (add_task slot t s)) with (task_table s2).
      rewrite (live_count_ext (task_table s1) (task_table s2)).
      * unfold s1. cbn. rewrite live_count_insert; [reflexivity|exact Hs| |].
        -- destruct (is_live (task_table s !!! slot)) eqn:X; [|reflexivity]. exfalso. apply Hn. split; assumption.
        -- unfold is_live. apply Z.leb_le. lia.
      * apply C2.
      * intros i. apply (core_fields _ _ (proj2 C2 i)).
  - split.
    + exact Q2.
    + change (current_task (add_task slot t s)) with (current_task s2). rewrite K2. apply (ro_current _ _ _ R).
    + apply Hlive. right. apply (ro_live _ _ _ R).
    + rewrite E', Hstt, decide_False; [apply (ro_state _ _ _ R)|].
      intros ->. apply Hn, (ro_live _ _ _ R).
    + intros i. rewrite Hlive, E', Hstt, elem_of_app, list_elem_of_singleton, (ro_ready _ _ _ R).
      case_decide; [subst; tauto|]. tauto.
    + intros i. rewrite Hlive, E', Hstt. case_decide; [discriminate|].
      intros [?|Li]; [congruence|]. apply (ro_running _ _ _ R). exact Li.
  - rewrite E', Hpid. apply decide_True. reflexivity.
  - change (next_pid (add_task slot t s)) with (next_pid s2). rewrite N2. reflexivity.
  - rewrite E', F, decide_True by reflexivity. reflexivity.
  - intros i Hi. rewrite E', F, decide_False by exact Hi. reflexivity.
Qed.

(** ** Blocking, waking, exit *)

(** The current task changes its own state. *)
Lemma current_state_ok s c rl f st :
  sched_ok s c rl ->
  (forall t, pid (f t) = pid t /\ parent_pid (f t) = parent_pid t /\ next (f t) = next t /\ state (f t) = st) ->
  st = TASK_RUNNING \/ st = TASK_BLOCKED \/ st = TASK_ZOMBIE ->
  sched_ok (update c f s) c rl /\ task_at (update c f s) c = f (task_at s c) /\
  (forall i, i <> c -> task_at (update c f s) i = task_at s i) /\ same_ids s (update c f s).
Proof.
  intros [T R] Hf Hst. pose proof (ro_live _ _ _ R) as Lc.
  assert (I : same_ids s (update c f s)) by (apply same_ids_update; intros t; split; apply Hf).
  assert (A : forall i, task_at (update c f s) i = if decide (i = c) then f (task_at s i) else task_at s i).
  { intros i. rewrite task_at_update. destruct (decide (i = c)) as [->|Hne].
    - rewrite decide_True; [reflexivity|]. split; [reflexivity|apply Lc].
    - rewrite decide_False; [reflexivity|]. intros [? _]; congruence. }
  assert (Sc : state (task_at (update c f s) c) = st) by (rewrite A, decide_True by reflexivity; apply Hf).
  pose proof (fun i => same_ids_live _ _ i I) as Lv.
  split; [|split; [rewrite A; apply decide_True; reflexivity|split; [|exact I]]].
  - split; [eapply table_ok_ids; eassumption|]. split.
    + apply queue_rep_update; [apply Hf|apply (ro_queue _ _ _ R)].
    + apply (ro_current _ _ _ R).
    + apply Lv, Lc.
    + rewrite Sc. exact Hst.
    + intros i. rewrite Lv. destruct (decide (i = c)) as [->|Hne].
      * rewrite Sc. split; [intros X; exfalso; apply (run_ok_current_in _ _ _ R X)|].
        intros [_ X]. destruct Hst as [Y|[Y|Y]]; rewrite Y in X; discriminate.
      * rewrite A, decide_False by exact Hne. apply (ro_ready _ _ _ R).
    + intros i. rewrite Lv. destruct (decide (i = c)) as [->|Hne]; [auto|].
      rewrite A, decide_False by exact Hne. apply (ro_running _ _ _ R).
  - intros i Hi. rewrite A. apply decide_False. exact Hi.
Qed.

(** A task that is neither ready nor current is made ready. *)
Lemma wake_ok s c rl i :
  sched_ok s c rl -> live s i -> i <> c -> state (task_at s i) <> TASK_READY ->
  let s' := task_wake (Some i) s in
  sched_ok s' c (rl ++ [i]) /\ same_ids s s' /\
  (forall j, state (task_at s' j) = if decide (j = i) then TASK_READY else state (task_at s j)) /\
  (forall j, (j ∉ rl ++ [i]) -> task_at s' j = task_at s j) /\
  (forall j, exit_code (task_at s' j) = exit_code (task_at s j)).
Proof.
  intros [T R] Li Hic Hst. cbn zeta. unfold task_wake.
  assert (Hin : i ∉ rl) by (intros X; apply (ro_ready _ _ _ R) in X; tauto).
  set (s1 := update i (set_state TASK_READY) s).
  assert (A1 : forall j, task_at s1 j = if decide (j = i) then set_state TASK_READY (task_at s j) else task_at s j).
  { intros j. unfold s1. rewrite task_at_update. destruct (decide (j = i)) as [->|Hne].
    - rewrite decide_True; [reflexivity|]. split; [reflexivity|apply Li].
    - rewrite decide_False; [reflexivity|]. intros [? _]; congruence. }
  assert (Q1 : queue_rep (task_table s1) (ready s1) rl)
    by (apply queue_rep_update; [auto|apply (ro_queue _ _ _ R)]).
  assert (Hl1 : (i < length (task_table s1))%nat)
    by (unfold s1, update; cbn; rewrite length_alter; apply Li).
  destruct (enqueue_ready_spec s1 rl i Q1 Hl1 Hin) as (Q2 & C2 & U2 & N2 & G2 & K2 & _).
  set (s2 := enqueue_ready i s1) in *.
  assert (F : forall j, core (task_at s2 j) = core (task_at s1 j)) by apply C2.
  assert (I : same_ids s s2).
  { transitivity s1; [apply same_ids_update; intros; split; reflexivity|apply same_ids_core; assumption]. }
  assert (St : forall j, state (task_at s2 j) = if decide (j = i) then TASK_READY else state (task_at s j)).
  { intros j. rewrite (proj1 (proj2 (proj2 (core_fields _ _ (F j))))), A1. case_decide; reflexivity. }
  pose proof (fun j => same_ids_live _ _ j I) as Lv.
  split; [|split; [exact I|split; [exact St|split]]].
  - split; [eapply table_ok_ids; eassumption|]. split.
    + exact Q2.
    + rewrite K2. apply (ro_current _ _ _ R).
    + apply Lv, (ro_live _ _ _ R).
    + rewrite St, decide_False by congruence. apply (ro_state _ _ _ R).
    + intros j. rewrite Lv, St, elem_of_app, list_elem_of_singleton, (ro_ready _ _ _ R).
      case_decide as Hj; [subst; tauto|tauto].
    + intros j. rewrite Lv, St. case_decide; [discriminate|]. apply (ro_running _ _ _ R).
  - intros j Hj. rewrite U2 by exact Hj. rewrite A1, decide_False; [reflexivity|].
    intros ->. apply Hj, elem_of_app. right. apply list_elem_of_here.
  - intros j. rewrite (proj1 (proj2 (proj2 (proj2 (core_fields _ _ (F j)))))), A1. case_decide; reflexivity.
Qed.

Lemma find_pid_spec p ts : forall k,
  match find_pid p ts k with
  | Some i => exists j, i = (k + j)%nat /\ (j < length ts)%nat /\ pid (ts !!! j) = p
  | None => forall j, (j < length ts)%nat -> pid (ts !!! j) <> p
  end.
Proof.
  induction ts as [|t ts IH]; intros k; cbn [find_pid length]; [intros j Hj; lia|].
  destruct (Z.eqb_spec (pid t) p) as [E|E].
  - exists 0%nat. split; [lia|]. split; [lia|]. exact E.
  - specialize (IH (S k)). destruct (find_pid p ts (S k)) as [i|].
    + destruct IH as (j & -> & Hj & Hd). exists (S j). split; [lia|]. split; [lia|]. exact Hd.
    + intros [|j] Hj; cbn; [exact E|]. apply IH. lia.
Qed.

Lemma task_from_pid_spec p s :
  match task_from_pid p s with
  | Some i => (i < length (task_table s))%nat /\ pid (task_at s i) = p
  | None => forall i, (i < length (task_table s))%nat -> pid (task_at s i) <> p
  end.
Proof.
  pose proof (find_pid_spec p (task_table s) 0) as F. unfold task_from_pid.
  destruct (find_pid p (task_table s) 0) as [i|]; [|exact F].
  destruct F as (j & -> & Hj & Hd). auto.
Qed.

(** The parent of the current task, if it is blocked. *)
Definition blocked_parent (s : sched) (c p : nat) : Prop :=
  live s p /\ pid (task_at s p) = parent_pid (task_at s c) /\ state (task_at s p) = TASK_BLOCKED.

Lemma task_exit_effect s c rl code :
  sched_ok s c rl ->
  let s' := task_exit code s in
  exists woken, sched_ok s' c (rl ++ woken) /\
    state (task_at s' c) = TASK_ZOMBIE /\ exit_code (task_at s' c) = code /\
    (forall p, p ∈ woken <-> blocked_parent s c p) /\ (length woken <= 1)%nat /\ same_ids s s' /\
    (forall i, i <> c -> (i ∉ woken) -> state (task_at s' i) = state (task_at s i)) /\
    (forall i, i <> c -> (i ∉ rl ++ woken) -> task_at s' i = task_at s i) /\
    (forall i, i <> c -> exit_code (task_at s' i) = exit_code (task_at s i)).
Proof.
  intros O. pose proof O as [T R]. cbv zeta. unfold task_exit. rewrite (ro_current _ _ _ R).
  set (f := fun t => set_state TASK_ZOMBIE (set_exit_code code t)).
  destruct (current_state_ok s c rl f TASK_ZOMBIE O) as (O1 & A1 & U1 & I1); [auto 10|auto|].
  set (s1 := update c f s) in *. pose proof (fun i => same_ids_live _ _ i I1) as Lv.
  assert (Pc : parent_pid (task_at s1 c) = parent_pid (task_at s c)) by apply I1.
  assert (Zc : state (task_at s1 c) = TASK_ZOMBIE /\ exit_code (task_at s1 c) = code)
    by (rewrite A1; split; reflexivity).
  assert (Hnone : (forall p, ~ blocked_parent s c p) ->
    exists woken, sched_ok s1 c (rl ++ woken) /\ state (task_at s1 c) = TASK_ZOMBIE /\
      exit_code (task_at s1 c) = code /\ (forall p, p ∈ woken <-> blocked_parent s c p) /\
      (length woken <= 1)%nat /\ same_ids s s1 /\
      (forall i, i <> c -> (i ∉ woken) -> state (task_at s1 i) = state (task_at s i)) /\
      (forall i, i <> c -> (i ∉ rl ++ woken) -> task_at s1 i = task_at s i) /\
      (forall i, i <> c -> exit_code (task_at s1 i) = exit_code (task_at s i))).
  { intros Hno. exists []. rewrite app_nil_r. split; [exact O1|]. split; [apply Zc|]. split; [apply Zc|].
    split; [intros p; split; [intros X; inversion X|intros X; destruct (Hno p X)]|].
    split; [cbn; lia|]. split; [exact I1|]. split; [|split]; intros i Hi; intros; rewrite U1 by exact Hi; reflexivity. }
  rewrite Pc. destruct (Z.leb_spec 0 (parent_pid (task_at s c))) as [Hpos|Hneg].
  2:{ apply Hnone. intros p ([_ Lp] & Ep & _). unfold is_live in Lp. bool_prop. lia. }
  pose proof (task_from_pid_spec (parent_pid (task_at s c)) s1) as F.
  destruct (task_from_pid (parent_pid (task_at s c)) s1) as [p|].
  2:{ apply Hnone. intros p (Lp & Ep & _). apply Lv in Lp. apply (F p); [apply Lp|].
      rewrite (proj1 (proj2 (proj2 (proj2 I1)) p)). exact Ep. }
  destruct F as [Hp Ep].
  assert (Lp : live s p).
  { apply Lv. split; [exact Hp|]. unfold is_live. rewrite Ep. apply Z.leb_le. exact Hpos. }
  assert (Ep' : pid (task_at s p) = parent_pid (task_at s c)) by (rewrite <- Ep; symmetry; apply I1).
  assert (Hpc : p <> c).
  { intros ->. pose proof (to_pid s T c (ro_live _ _ _ R)). lia. }
  destruct (Z.eqb_spec (state (task_at s1 p)) TASK_BLOCKED) as [Hb|Hb].
  - destruct (wake_ok s1 c rl p O1) as (O2 & I2 & S2 & U2 & X2);
      [apply Lv, Lp|exact Hpc|rewrite Hb; discriminate|].
    exists [p]. fold (task_wake (Some p) s1). split; [exact O2|].
    rewrite S2, decide_False by congruence. split; [apply Zc|]. split; [rewrite X2; apply Zc|].
    split; [|split; [cbn; lia|split; [transitivity s1; assumption|]]].
    + intros q. rewrite list_elem_of_singleton. split.
      * intros ->. split; [exact Lp|]. split; [exact Ep'|]. rewrite <- U1 by exact Hpc. exact Hb.
      * intros (Lq & Eq & _). apply (to_inj s T); [exact Lq|exact Lp|congruence].
    + split; [|split]; intros i Hi.
      * intros Hw. rewrite S2, decide_False, U1; [reflexivity|exact Hi|].
        intros ->. apply Hw, list_elem_of_here.
      * intros Hw. rewrite U2, U1 by assumption. reflexivity.
      * rewrite X2, U1 by exact Hi. reflexivity.
  - apply Hnone. intros q (Lq & Eq & Sq). assert (q = p) by (apply (to_inj s T); [exact Lq|exact Lp|congruence]).
    subst q. apply Hb. rewrite U1 by exact Hpc. exact Sq.
Qed.

(** ** Wait *)

Lemma find_zombie_spec me want ts : forall k,
  match find_zombie me want ts k with
  | Some i => exists j, i = (k + j)%nat /\ (j < length ts)%nat /\
      is_child me want (ts !!! j) = true /\ state (ts !!! j) = TASK_ZOMBIE
  | None => forall j, (j < length ts)%nat -> is_child me want (ts !!! j) = true ->
      state (ts !!! j) <> TASK_ZOMBIE
  end.
Proof.
  induction ts as [|t ts IH]; intros k; cbn [find_zombie length]; [intros j Hj; lia|].
  destruct (is_child me want t && (state t =? TASK_ZOMBIE)) eqn:E.
  - apply andb_prop in E as [E1 E2]. bool_prop.
    exists 0%nat. split; [lia|]. split; [lia|]. split; assumption.
  - specialize (IH (S k)). destruct (find_zombie me want ts (S k)) as [i|].
    + destruct IH as (j & -> & Hj & Hd). exists (S j). split; [lia|]. split; [lia|]. exact Hd.
    + intros [|j] Hj; cbn; [|apply IH; lia]. intros Hc Hs. rewrite Hc, Hs in E. discriminate.
Qed.

Lemma has_alive_spec me want ts :
  has_alive me want ts = true <->
  exists j, (j < length ts)%nat /\ is_child me want (ts !!! j) = true /\ state (ts !!! j) <> TASK_ZOMBIE.
Proof.
  unfold has_alive. rewrite existsb_exists. split.
  - intros (t & Hin & Ht). apply list_elem_of_In, list_elem_of_lookup_1 in Hin as (j & Hj).
    exists j. rewrite (list_lookup_total_correct _ _ _ Hj). apply andb_prop in Ht as [H1 H2]. bool_prop.
    split; [eapply lookup_lt_Some; exact Hj|]. auto.
  - intros (j & Hj & Hc & Hs). exists (ts !!! j). split.
    + apply list_elem_of_In, list_elem_of_lookup_total_2, Hj.
    + rewrite Hc. apply Z.eqb_neq in Hs. rewrite Hs. reflexivity.
Qed.

(** The children of the current task that [task_wait want] looks for. *)
Definition child_of (s : sched) (c : nat) (want : Z) (i : nat) : Prop :=
  live s i /\ parent_pid (task_at s i) = pid (task_at s c) /\
  (want < 0 \/ pid (task_at s i) = want).

Lemma is_child_spec s c want i :
  (i < length (task_table s))%nat ->
  is_child (pid (task_at s c)) want (task_at s i) = true <-> child_of s c want i.
Proof.
  intros Hi. unfold is_child, child_of, live, is_live. split.
  - intros H. bool_prop. split; [split; [exact Hi|apply Z.leb_le; lia]|].
    split; [exact H1|]. apply andb_false_iff in H0 as [H0|H0]; bool_prop; auto.
  - intros ([_ Hl] & Hp & Hw). bool_prop. rewrite Hp, Z.eqb_refl, (proj2 (Z.ltb_ge _ _) Hl).
    destruct (Z.leb_spec 0 want); [|reflexivity]. destruct Hw as [Hw|Hw]; [lia|].
    rewrite Hw, Z.eqb_refl. reflexivity.
Qed.

Lemma live_count_remove ts i t :
  (i < length ts)%nat -> is_live (ts !!! i) = true -> is_live t = false ->
  live_count (<[i:=t]> ts) = live_count ts - 1.
Proof.
  intros Hi H0 Ht.
  assert (E : ts = <[i := ts !!! i]> (<[i:=t]> ts)).
  { rewrite list_insert_insert_eq. symmetry. apply list_insert_id, list_lookup_lookup_total_lt, Hi. }
  rewrite E at 2. rewrite (live_count_insert (<[i:=t]> ts)); [lia|rewrite length_insert; exact Hi| |exact H0].
  rewrite insert_total, decide_True by auto. exact Ht.
Qed.

(** The state after a zombie's slot is cleared. *)
Definition reaped (z : nat) (s : sched) : sched :=
  mk_sched (<[z := set_pid (-1) task_zero]> (task_table s)) (task_count s - 1)
    (next_pid s) (current_task s) (ready s) (timer_ticks s) (tss_esp0 s) (halted s).

Lemma reaped_ok s c rl z :
  sched_ok s c rl -> live s z -> state (task_at s z) = TASK_ZOMBIE -> z <> c ->
  sched_ok (reaped z s) c rl /\ ~ live (reaped z s) z /\
  (forall i, i <> z -> task_at (reaped z s) i = task_at s i).
Proof.
  intros [T R] Lz Hz Hzc.
  assert (A : forall i, task_at (reaped z s) i = if decide (z = i) then set_pid (-1) task_zero else task_at s i)
    by (intros; apply insert_total, Lz).
  assert (Hlen : length (task_table (reaped z s)) = length (task_table s)) by apply length_insert.
  assert (Hlive : forall i, live (reaped z s) i <-> live s i /\ i <> z).
  { intros i. unfold live. rewrite Hlen, A. case_decide as Hi; [subst; cbn; split; [intros [_ X]; discriminate|tauto]|].
    split; intros; intuition congruence. }
  assert (Hzr : z ∉ rl) by (intros X; apply (ro_ready _ _ _ R) in X; rewrite Hz in X; destruct X; discriminate).
  split; [split|split; [rewrite Hlive; tauto|intros i Hi; rewrite A; apply decide_False; congruence]].
  - split.
    + rewrite Hlen. apply (to_len s T).
    + intros i j. rewrite !Hlive, !A. intros [Li Ni] [Lj Nj]. rewrite !decide_False by congruence.
      apply (to_inj s T); assumption.
    + intros i. rewrite Hlive, A. intros [Li Ni]. rewrite decide_False by congruence. apply (to_pid s T), Li.
    + apply (to_next s T).
    + cbn. rewrite live_count_remove; [rewrite (to_count s T); reflexivity|apply Lz|apply Lz|reflexivity].
  - split.
    + apply (queue_rep_ext (task_table s)); [exact Hlen| |apply (ro_queue _ _ _ R)].
      intros i Hi. change (task_table (reaped z s) !!! i) with (task_at (reaped z s) i).
      rewrite A, decide_False; [reflexivity|congruence].
    + apply (ro_current _ _ _ R).
    + apply Hlive. split; [apply (ro_live _ _ _ R)|congruence].
    + rewrite A, decide_False by exact Hzc. apply (ro_state _ _ _ R).
    + intros i. rewrite Hlive, A, (ro_ready _ _ _ R). case_decide as Hi; [|intuition congruence].
      subst. rewrite Hz. split; [intros [_ X]; discriminate|tauto].
    + intros i. rewrite Hlive, A. intros [Li Ni]. rewrite decide_False by congruence.
      apply (ro_running _ _ _ R), Li.
Qed.

(** Returning the frames of a task. *)
Definition frames_of (t : task) : list Z :=
  (if kernel_stack_base t =? 0 then [] else [kernel_stack_base t]) ++
  (if page_dir t =? 0 then [] else [page_dir t]).

Lemma free_if_ok m p :
  pool_ok m ->
  match (if p =? 0 then mret tt else pfa_free p) m with
  | Ret (_, m') => pool_ok m' /\ free m' = free m ++ (if p =? 0 then [] else [p]) /\
      page_frame_count m' <= page_frame_count m + 1
  | Panic => False
  | Oob => page_frame_count m = MAX_PAGES
  end.
Proof.
  intros Hok. destruct (p =? 0); [cbn; rewrite app_nil_r; repeat split; try apply Hok; lia|].
  unfold pfa_free. destruct (decide (page_frame_count m < MAX_PAGES)) as [Hlt|Hge].
  - destruct (pfa_push_spec m p Hok Hlt) as (m' & E & F & Ok & _). rewrite E. split; [exact Ok|].
    split; [exact F|]. revert E. unfold pfa_push. case_if; [|discriminate]. intros E. injection E as <-. cbn. lia.
  - unfold pfa_push. destruct Hok as [_ Hc]. rewrite (proj2 (Z.ltb_ge _ _)) by lia. rewrite andb_false_r. lia.
Qed.

(** one round of [task_wait]: it reports -1 exactly if the caller has
    no matching child; it collects a zombie child, returning its pid, freeing its slot and
    giving its kernel stack and page directory back; otherwise it blocks the
    caller.  It cannot panic, and fails only if the frame array is full. *)
Theorem task_wait_step_spec k c rl want :
  sched_ok (sch k) c rl -> pool_ok (mach k) ->
  match task_wait_step want k with
  | Ret (Waited r, k') =>
      (r = -1 /\ k' = k /\ forall i, ~ child_of (sch k) c want i) \/
      exists z, child_of (sch k) c want z /\ state (task_at (sch k) z) = TASK_ZOMBIE /\
        r = pid (task_at (sch k) z) /\ sched_ok (sch k') c rl /\ ~ live (sch k') z /\
        (forall i, i <> z -> task_at (sch k') i = task_at (sch k) i) /\
        pool_ok (mach k') /\ free (mach k') = free (mach k) ++ frames_of (task_at (sch k) z)
  | Ret (WaitBlocked, k') =>
      (exists i, child_of (sch k) c want i) /\
      (forall i, child_of (sch k) c want i -> state (task_at (sch k) i) <> TASK_ZOMBIE) /\
      mach k' = mach k /\ sched_ok (sch k') c rl /\ state (task_at (sch k') c) = TASK_BLOCKED
  | Panic => False
  | Oob => MAX_PAGES - 1 <= page_frame_count (mach k)
  end.
Proof.
  intros O Hok. pose proof O as [T R]. unfold task_wait_step, getk, mbind, kop_bind, modify.
  rewrite (ro_current _ _ _ R).
  pose proof (find_zombie_spec (pid (task_at (sch k) c)) want (task_table (sch k)) 0) as F.
  destruct (find_zombie (pid (task_at (sch k) c)) want (task_table (sch k)) 0) as [z|].
  - destruct F as (j & -> & Hj & Hc & Hs). cbn [Nat.add].
    apply is_child_spec in Hc; [|exact Hj]. fold (task_at (sch k) j) in Hs.
    assert (Hjc : j <> c).
    { intros ->. destruct Hc as (Lj & Hp & _). pose proof (to_pid _ T c Lj). lia. }
    destruct (reaped_ok (sch k) c rl j O (proj1 Hc) Hs Hjc) as (O' & L' & U').
    set (t := task_at (sch k) j) in *.
    pose proof (free_if_ok (mach k) (kernel_stack_base t) Hok) as F1.
    assert (E1 : (if kernel_stack_base t =? 0 then mret tt else lift (pfa_free (kernel_stack_base t))) k =
      lift (if kernel_stack_base t =? 0 then mret tt else pfa_free (kernel_stack_base t)) k)
      by (destruct (kernel_stack_base t =? 0), k; reflexivity).
    rewrite E1. unfold lift at 1. clear E1.
    destruct ((if kernel_stack_base t =? 0 then mret tt else pfa_free (kernel_stack_base t)) (mach k))
      as [[[] m1]| |]; [|contradiction|unfold MAX_PAGES in *; lia].
    destruct F1 as (Ok1 & F1 & G1). set (k1 := mk_kernel m1 (sch k)).
    pose proof (free_if_ok m1 (page_dir t) Ok1) as F2.
    assert (E2 : (if page_dir t =? 0 then mret tt else lift (pfa_free (page_dir t))) k1 =
      lift (if page_dir t =? 0 then mret tt else pfa_free (page_dir t)) k1)
      by (destruct (page_dir t =? 0); reflexivity).
    rewrite E2. unfold lift. clear E2. cbn [mach k1].
    destruct ((if page_dir t =? 0 then mret tt else pfa_free (page_dir t)) m1)
      as [[[] m2]| |] eqn:E2; [|contradiction|].
    + destruct F2 as (Ok2 & F2 & _). unfold mret, kop_ret. right. exists j.
      split; [exact Hc|]. split; [exact Hs|]. split; [reflexivity|].
      split; [exact O'|]. split; [exact L'|]. split; [exact U'|]. split; [exact Ok2|].
      cbn [mach]. rewrite F2, F1. unfold frames_of. rewrite app_assoc. reflexivity.
    + lia.
  - destruct (has_alive (pid (task_at (sch k) c)) want (task_table (sch k))) eqn:Ea.
    + apply has_alive_spec in Ea as (j & Hj & Hc & Hs). fold (task_at (sch k) j) in Hs, Hc.
      apply is_child_spec in Hc; [|exact Hj].
      destruct (current_state_ok (sch k) c rl (set_state TASK_BLOCKED) TASK_BLOCKED O) as (O1 & A1 & _);
        [auto 10|auto|].
      split; [exists j; exact Hc|]. split; [|split; [reflexivity|split; [exact O1|]]].
      * intros i Hi. apply (F i); [apply Hi|]. apply is_child_spec; [apply Hi|exact Hi].
      * cbn [sch]. rewrite A1. reflexivity.
    + unfold mret, kop_ret. left. split; [reflexivity|]. split; [reflexivity|]. intros i Hi.
      assert (X : has_alive (pid (task_at (sch k) c)) want (task_table (sch k)) = true); [|congruence].
      apply has_alive_spec. exists i.
      pose proof (proj2 (is_child_spec (sch k) c want i (proj1 (proj1 Hi))) Hi) as Hc.
      split; [apply Hi|]. split; [exact Hc|]. apply F; [apply Hi|exact Hc].
Qed.

(** ** task_create *)

Lemma task_block_ok s c rl :
  sched_ok s c rl ->
  sched_ok (task_block s) c rl /\ state (task_at (task_block s) c) = TASK_BLOCKED.
Proof.
  intros O. unfold task_block. rewrite (ro_current _ _ _ (proj2 O)).
  destruct (current_state_ok s c rl (set_state TASK_BLOCKED) TASK_BLOCKED O) as (O1 & A1 & _);
    [auto 10|auto|]. split; [exact O1|]. rewrite A1. reflexivity.
Qed.

(** The word index, in its page, of the first word of a new register frame. *)
Definition frame_base : Z := 1005.

(** The register frame at the top of the stack page [p]. *)
Definition frame_words (m : machine) (p : Z) : list Z :=
  (fun f => word m p (frame_base + Z.of_nat f)) <$> seq 0 19.

Lemma frame_words_poke m p f v :
  page p -> (f < 19)%nat ->
  frame_words (poke p (frame_base + Z.of_nat f) v m) p = <[f := u32 v]> (frame_words m p).
Proof.
  intros Hp Hf. apply list_eq. intros j. unfold frame_words.
  destruct (decide (j < 19)%nat) as [Hj|Hj].
  - rewrite list_lookup_fmap, lookup_seq_lt by exact Hj. cbn [fmap option_fmap option_map].
    rewrite word_poke by (unfold frame_base; try exact Hp; lia). cbn [Nat.add].
    destruct (decide (f = j)) as [->|Hne].
    + rewrite decide_True by auto. symmetry. apply list_lookup_insert_eq.
      rewrite length_fmap, length_seq. exact Hj.
    + rewrite decide_False by lia. rewrite list_lookup_insert_ne by exact Hne.
      rewrite list_lookup_fmap, lookup_seq_lt by exact Hj. reflexivity.
  - rewrite !lookup_ge_None_2; [reflexivity|..]; rewrite ?length_insert, length_fmap, length_seq; lia.
Qed.

(** Writing one register of the new frame. *)
Lemma put_spec m s p f v :
  space m -> unused m p -> (f < 19)%nat ->
  exists m', put (p + 4 * frame_base) (Z.of_nat f) v (mk_kernel m s) = Ret (tt, mk_kernel m' s) /\
    space m' /\ unused m' p /\ free m' = free m /\
    frame_words m' p = <[f := u32 v]> (frame_words m p) /\
    (forall n, 0 <= n < 1023 * 1024 -> pte_of m' n = pte_of m n).
Proof.
  intros S U Hf. set (i := frame_base + Z.of_nat f).
  destruct (unused_poke m p i v S U) as (E & S' & U' & F'); [unfold i, frame_base; lia|].
  exists (poke p i v m). split.
  - unfold put, lift. replace (p + 4 * frame_base + 4 * Z.of_nat f) with (p + 4 * i) by (unfold i; lia).
    cbn [mach]. rewrite E. reflexivity.
  - split; [exact S'|]. split; [exact U'|]. split; [exact F'|]. split; [apply frame_words_poke; [apply U|exact Hf]|].
    apply (space_only_page p m (poke p i v m) S (unused_client m p U)); [|apply (sp_pool m S)].
    apply only_page_poke; [apply U|unfold i, frame_base; lia].
Qed.

Lemma frame_words_ext m m' p :
  (forall j, 0 <= j < 1024 -> word m' p j = word m p j) -> frame_words m' p = frame_words m p.
Proof.
  intros H. unfold frame_words. apply list_fmap_ext. intros j x Hx.
  apply lookup_seq in Hx. apply H. unfold frame_base. lia.
Qed.

(** The user context a new task starts in: flat user segments, interrupts
    enabled, its entry point and an empty user stack. *)
Definition user_frame (entry frame : Z) : list Z :=
  [0x23; 0x23; 0x23; 0x23; 0; 0; 0; frame + 4 * R_int_no; 0; 0; 0; 0; 0; 0;
   entry; 0x1B; 0x200; USER_STACK_VADDR; 0x23].

(** Clearing the frame of a fresh kernel stack. *)
Lemma clear_frame m p :
  space m -> unused m p ->
  exists m', vmemset (p + 4 * frame_base) 0 REG_SIZE m = Ret (tt, m') /\ space m' /\ unused m' p /\
    free m' = free m /\ frame_words m' p = replicate 19 0.
Proof.
  intros S U. destruct (vmemset_low m p frame_base 19 S (unused_client m p U)) as (m' & E & S' & O & W);
    try (unfold frame_base; lia).
  exists m'. split; [exact E|]. split; [exact S'|].
  pose proof O as (O1 & O2 & _).
  destruct (space_only_page p m m' S (unused_client m p U) O (sp_pool m' S')) as (_ & C' & _).
  destruct (C' p (unused_client m p U)) as (C1 & C2 & C3).
  split; [split; [exact C1|split; [exact C2|split; [rewrite O2; apply U|exact C3]]]|].
  split; [exact O2|]. unfold frame_words.
  apply (list_eq_same_length _ _ 19); [reflexivity|reflexivity|].
  intros j x y Hj Hx Hy. rewrite list_lookup_fmap, lookup_seq_lt in Hx by exact Hj.
  cbn [fmap option_fmap option_map Nat.add] in Hx.
  injection Hx as <-. rewrite W by (unfold frame_base; lia). rewrite decide_True by (unfold frame_base; lia).
  apply lookup_replicate in Hy as [-> _]. reflexivity.
Qed.

Lemma put_field m s p (r : Z) (f : nat) v :
  space m -> unused m p -> (f < 19)%nat -> r = Z.of_nat f ->
  exists m', put (p + 4 * frame_base) r v (mk_kernel m s) = Ret (tt, mk_kernel m' s) /\
    space m' /\ unused m' p /\ free m' = free m /\
    frame_words m' p = <[f := u32 v]> (frame_words m p) /\
    (forall n, 0 <= n < 1023 * 1024 -> pte_of m' n = pte_of m n).
Proof. intros S U Hf ->. apply put_spec; assumption. Qed.

(** Run the next [put] of the goal. *)
Ltac step_put f :=
  cbn beta iota;
  lazymatch goal with
  | S : space ?m, U : unused ?m ?p |- context [put (?p + 4 * frame_base) ?r ?v (mk_kernel ?m ?s)] =>
      let m' := fresh "m" in let E := fresh "E" in let S' := fresh "S" in let U' := fresh "U" in
      let F := fresh "F" in let W := fresh "W" in let M := fresh "M" in
      destruct (put_field m s p r f v S U ltac:(lia) eq_refl) as (m' & E & S' & U' & F & W & M);
      rewrite E; clear E S U
  end.

Lemma new_context_spec m s p entry :
  space m -> unused m p -> 0 <= entry < 0x400000 -> (2 <= length (free m))%nat ->
  exists m' u, new_context (p + 4 * frame_base) entry (mk_kernel m s) = Ret (tt, mk_kernel m' s) /\
    space m' /\ unused m' p /\ frame_words m' p = user_frame entry (p + 4 * frame_base) /\
    pte_of m' ((USER_STACK_VADDR - 0x1000) / 4096) = Some (leaf u 7).
Proof.
  intros S U He Hf. unfold new_context, mbind, kop_bind.
  unfold lift at 1. cbn [mach sch]. destruct (clear_frame m p S U) as (x2 & E2 & S2 & U2 & XF2 & XW2).
  rewrite E2. clear E2 S U.
  step_put 0%nat. step_put 1%nat. step_put 2%nat. step_put 3%nat. step_put 7%nat.
  step_put 14%nat. step_put 15%nat. step_put 16%nat.
  unfold lift at 1. cbn [mach sch].
  match goal with S : space ?m, U : unused ?m p |- _ =>
    destruct (unused_map_user m p entry S U He) as (x3 & E3 & XS3 & XU3 & XF3 & XW3 & _); clear S U end.
  rewrite E3. clear E3. unfold lift at 1. cbn [mach sch].
  assert (Hfree : (2 <= length (free x3))%nat) by congruence.
  pose proof (unused_alloc x3 p XS3 XU3) as A.
  destruct (pfa_alloc x3) as [[u x4]| |]; [|rewrite A in Hfree; cbn in Hfree; lia|contradiction].
  destruct A as (XS4 & XU4 & Uu & _ & XF4 & XR4 & XC4). unfold lift at 1. cbn [mach sch].
  assert (Hf4 : free x4 <> []).
  { intros X. rewrite XF4, X in Hfree. cbn in Hfree. lia. }
  destruct (unused_map_page x4 p (USER_STACK_VADDR - 0x1000) u 0x07 XS4 XU4)
    as (x5 & E5 & XS5 & XU5 & XF5 & XW5 & XM5);
    [unfold USER_STACK_VADDR; lia|apply (proj1 (proj1 (proj1 Uu)))|vm_compute; split; [discriminate|reflexivity]|exact Hf4|].
  rewrite E5. clear E5 XS4 XU4 XS3 XU3. step_put 17%nat. step_put 18%nat.
  eexists _, u. split; [reflexivity|]. split; [assumption|]. split; [assumption|]. split.
  - repeat match goal with W : frame_words ?a p = <[_ := _]> _ |- context [frame_words ?a p] => rewrite W end.
    rewrite (frame_words_ext x4 x5 p XW5).
    assert (XW4 : frame_words x4 p = frame_words x3 p)
      by (unfold frame_words, word; rewrite XR4; reflexivity).
    rewrite XW4, (frame_words_ext _ x3 p XW3).
    repeat match goal with W : frame_words ?a p = <[_ := _]> _ |- context [frame_words ?a p] => rewrite W end.
    rewrite XW2. unfold user_frame, frame_base, R_int_no, USER_STACK_VADDR, is_u32 in *.
    match goal with U : unused _ p |- _ => destruct U as ([[? ?] ?] & _) end.
    rewrite (u32_small entry), (u32_small (p + 4 * 1005 + 4 * 12)) by lia. reflexivity.
  - repeat match goal with M : forall n, _ -> pte_of ?a n = pte_of _ n |- context [pte_of ?a _] =>
      rewrite M by (vm_compute; split; [discriminate|reflexivity]) end.
    rewrite XM5 by (vm_compute; split; [discriminate|reflexivity]). apply decide_True. reflexivity.
Qed.

(** with a free slot, three free frames, an entry point in the
    kernel image and a name that fits, [task_create] succeeds: it returns the
    next pid, queues the task last, and the context the task will start from is
    [user_frame], at the top of a kernel stack of its own; its user stack is
    mapped and the address space stays in order.  With a full table it fails
    and changes nothing. *)
Theorem task_create_spec k c rl nm entry :
  sched_ok (sch k) c rl -> space (mach k) -> 0 <= entry < 0x400000 ->
  (length nm < TASK_NAME_MAX)%nat -> (3 <= length (free (mach k)))%nat ->
  match task_find_slot (sch k) with
  | None => task_create nm entry k = Ret (-1, k)
  | Some slot =>
      exists k' p u, task_create nm entry k = Ret (next_pid (sch k), k') /\
        sched_ok (sch k') c (rl ++ [slot]) /\ pid (task_at (sch k') slot) = next_pid (sch k) /\
        kernel_esp (task_at (sch k') slot) = p + 4 * frame_base /\
        kernel_stack_top (task_at (sch k') slot) = p + 0x1000 /\
        frame_words (mach k') p = user_frame entry (p + 4 * frame_base) /\
        space (mach k') /\ unused (mach k') p /\
        pte_of (mach k') ((USER_STACK_VADDR - 0x1000) / 4096) = Some (leaf u 7)
  end.
Proof.
  intros O S He Hn Hf. unfold task_create, getk, mbind, kop_bind.
  pose proof (task_find_slot_spec (sch k)) as Hslot.
  destruct (task_find_slot (sch k)) as [slot|]; [|reflexivity].
  destruct k as [m0 s]. cbn [mach sch] in *.
  unfold lift at 1. cbn [mach sch]. pose proof (pfa_alloc_space m0 S) as A.
  destruct (pfa_alloc m0) as [[p m1]| |]; [|rewrite A in Hf; cbn in Hf; lia|contradiction].
  destruct A as (S1 & U1 & F1 & _ & _).
  assert (Hp : u32 (p + 0x1000) = p + 0x1000 /\ u32 (p + 0x1000 - REG_SIZE) = p + 4 * frame_base).
  { destruct U1 as ([[? ?] ?] & _). unfold REG_SIZE, frame_base. split; rewrite u32_small; lia. }
  cbv zeta. rewrite (proj1 Hp), (proj2 Hp).
  assert (Hf1 : (2 <= length (free m1))%nat) by (rewrite F1, length_app in Hf; cbn in Hf; lia).
  destruct (new_context_spec m1 s p entry S1 U1 He Hf1) as (m2 & u & E2 & S2 & U2 & W2 & P2).
  rewrite E2. unfold copy_name. rewrite (proj2 (Nat.leb_le _ _)) by lia.
  unfold modify. cbn [mach sch].
  rewrite (ro_current _ _ _ (proj2 O)).
  match goal with |- context [add_task slot ?t s] => set (t1 := t) end.
  destruct (add_task_ok s c rl slot t1 O (proj1 Hslot) (proj2 Hslot)) as (O' & P' & _ & C' & _).
  { reflexivity. } { apply (to_pid s (proj1 O)), (ro_live _ _ _ (proj2 O)). } { reflexivity. }
  destruct (core_fields _ _ C') as (_ & _ & _ & _ & K1 & _ & K2 & _).
  exists (mk_kernel m2 (add_task slot t1 s)), p, u. cbn [mach sch].
  split; [rewrite P'; reflexivity|]. split; [exact O'|]. split; [exact P'|]. split; [exact K1|].
  split; [exact K2|]. auto.
Qed.

(** ** Initialisation *)

Lemma live_count_none ts : (forall i, is_live (ts !!! i) = false \/ (length ts <= i)%nat) -> live_count ts = 0.
Proof.
  induction ts as [|t ts IH]; intros H; [reflexivity|]. unfold live_count in *. rewrite filter_cons.
  destruct (H 0%nat) as [E|E]; [|cbn in E; lia]. cbn in E. rewrite E. rewrite decide_False by discriminate.
  apply IH. intros i. destruct (H (S i)) as [E'|E']; [left; exact E'|right; cbn in E'; lia].
Qed.

Lemma scheduler_init_ok cr3 table :
  length table = MAX_TASKS ->
  sched_ok (scheduler_init cr3 table) 0 [] /\
  state (task_at (scheduler_init cr3 table) 0) = TASK_RUNNING.
Proof.
  intros Hl. set (s := scheduler_init cr3 table).
  set (table' := set_pid (-1) <$> table).
  assert (Hl' : length table' = MAX_TASKS) by (unfold table'; rewrite length_fmap; exact Hl).
  assert (H0 : (0 < length table')%nat) by (rewrite Hl'; unfold MAX_TASKS; lia).
  assert (A : forall i, (i <> 0)%nat -> task_at s i = table' !!! i).
  { intros i Hi. unfold task_at, s, scheduler_init. cbn [task_table]. fold table'.
    rewrite insert_total by exact H0. apply decide_False. congruence. }
  assert (A0 : pid (task_at s 0) = 0 /\ parent_pid (task_at s 0) = -1 /\ state (task_at s 0) = TASK_RUNNING).
  { unfold task_at, s, scheduler_init. cbn [task_table]. fold table'.
    rewrite insert_total, decide_True by auto. auto. }
  assert (Hdead : forall i, (i < length table')%nat -> is_live (table' !!! i) = false).
  { intros i Hi. unfold table' in *. rewrite length_fmap in Hi.
    rewrite list_lookup_total_alt, list_lookup_fmap.
    destruct (lookup_lt_is_Some_2 _ _ Hi) as [t ->]. reflexivity. }
  assert (Hlen : length (task_table s) = length table') by (unfold s, scheduler_init; cbn [task_table]; apply length_insert).
  assert (Hlive : forall i, live s i <-> i = 0%nat).
  { intros i. split.
    - intros [Hi Li]. destruct (decide (i = 0%nat)); [assumption|]. rewrite A in Li by assumption.
      rewrite Hdead in Li by (rewrite <- Hlen; exact Hi). discriminate.
    - intros ->. split; [rewrite Hlen; exact H0|]. unfold is_live. rewrite (proj1 A0). reflexivity. }
  split; [|apply A0]. split; split.
  - congruence.
  - intros i j Hi Hj _. apply Hlive in Hi as ->. apply Hlive in Hj as ->. reflexivity.
  - intros i Hi. apply Hlive in Hi as ->. rewrite (proj1 A0), (proj1 (proj2 A0)). cbn. lia.
  - reflexivity.
  - unfold s, scheduler_init. cbn [task_table task_count]. fold table'.
    rewrite live_count_insert; [|exact H0|apply Hdead, H0|reflexivity].
    rewrite live_count_none; [reflexivity|]. intros i.
    destruct (decide (i < length table')%nat); [left; apply Hdead; assumption|right; lia].
  - apply queue_rep_empty.
  - reflexivity.
  - apply Hlive. reflexivity.
  - left. apply A0.
  - intros i. split; [intros X; inversion X|]. intros [Hi X]. apply Hlive in Hi as ->.
    destruct A0 as (_ & _ & A0). rewrite A0 in X. discriminate.
  - intros i Hi _. apply Hlive, Hi.
Qed.

(** [scheduler_init] establishes the invariant with the calling
    context as running task 0, named "init", and nothing ready. *)
Theorem scheduler_init_invariant cr3 table :
  length table = MAX_TASKS ->
  let s := scheduler_init cr3 table in
  sched_ok s 0 [] /\ state (task_at s 0) = TASK_RUNNING /\ pid (task_at s 0) = 0 /\
  cstr (name (task_at s 0)) = [105; 110; 105; 116] /\ forall i, live s i <-> i = 0%nat.
Proof.
  intros Hl. cbv zeta. destruct (scheduler_init_ok cr3 table Hl) as [O S].
  assert (A : task_at (scheduler_init cr3 table) 0 =
    mk_task 0 (-1) TASK_RUNNING 0 0 0 0x20000 cr3 (splice 0 [105; 110; 105; 116; 0] (name (table !!! 0%nat))) None).
  { unfold task_at, scheduler_init. cbn [task_table]. rewrite insert_total, decide_True.
    - do 2 f_equal. rewrite !list_lookup_total_alt, list_lookup_fmap. destruct (table !! 0%nat); reflexivity.
    - reflexivity.
    - rewrite length_fmap, Hl. unfold MAX_TASKS. lia. }
  split; [exact O|]. split; [exact S|]. rewrite A. split; [reflexivity|]. split; [reflexivity|].
  intros i. split; [|intros ->; apply (ro_live _ _ _ (proj2 O))].
  intros Li. destruct (decide (state (task_at (scheduler_init cr3 table) i) = TASK_READY)) as [E|E].
  - assert (X : i ∈ @nil nat) by (apply (ro_ready _ _ _ (proj2 O)); auto). inversion X.
  - pose proof (to_pid _ (proj1 O) i Li) as [P _]. cbn in P.
    apply (to_inj _ (proj1 O)); [exact Li|apply (ro_live _ _ _ (proj2 O))|].
    rewrite A. cbn. destruct Li as [_ Li]. unfold is_live in Li. bool_prop. lia.
Qed.

Definition blank_table : list task := replicate MAX_TASKS task_zero.

Lemma scheduler_init_invariant_witness :
  sched_ok (scheduler_init 0x114000 blank_table) 0 [] /\
  cstr (name (task_at (scheduler_init 0x114000 blank_table) 0)) = [105; 110; 105; 116].
Proof.
  destruct (scheduler_init_invariant 0x114000 blank_table eq_refl) as (H & _ & _ & N & _).
  split; [exact H|exact N].
Defined.

(** *** Examples for the theorems above *)

(** A ready task whose saved context is at [esp]. *)
Definition demo_task (p esp : Z) : task :=
  mk_task p 0 TASK_READY 0 esp 0 (esp + 76) 0 (replicate TASK_NAME_MAX 0) None.

Definition three_tasks : sched :=
  add_task 2 (demo_task 2 0x302FB4)
    (add_task 1 (demo_task 1 0x301FB4) (scheduler_init 0x114000 blank_table)).

Lemma three_tasks_ok : sched_ok three_tasks 0 [1%nat; 2%nat] /\ state (task_at three_tasks 0) = TASK_RUNNING.
Proof.
  destruct (scheduler_init_ok 0x114000 blank_table eq_refl) as [O _]. unfold three_tasks.
  destruct (add_task_ok _ 0 [] 1 (demo_task 1 0x301FB4) O) as (O1 & _ & N1 & _ & U1); try reflexivity.
  { vm_compute. lia. } { intros [_ X]. vm_compute in X. discriminate. }
  destruct (add_task_ok _ 0 [1%nat] 2 (demo_task 2 0x302FB4) O1) as (O2 & _); try reflexivity.
  { vm_compute. lia. } { intros [_ X]. vm_compute in X. discriminate. }
  split; [exact O2|reflexivity].
Qed.

Lemma scheduler_tick_ring_witness :
  let '(frame, _, s') := scheduler_tick 32 0x1FFF0 three_tasks in
  frame = 0x301FB4 /\ sched_ok s' 1 [2%nat; 0%nat].
Proof.
  pose proof (scheduler_tick_ring three_tasks 0 [1%nat; 2%nat] 0x1FFF0 (proj1 three_tasks_ok)) as H.
  destruct (scheduler_tick 32 0x1FFF0 three_tasks) as [[f d] s'].
  destruct H as (_ & H & _ & F & _). split; [exact F|exact H].
Defined.

Lemma round_robin_witness :
  exists s', ticks [0x1FFF0; 0x301F00] (0, three_tasks) = (0x302FB4, s') /\ current_task s' = Some 2%nat.
Proof.
  destruct (round_robin three_tasks 0 [1%nat; 2%nat] 1 2 [0x1FFF0; 0x301F00] 0 (proj1 three_tasks_ok)
    (proj2 three_tasks_ok) eq_refl eq_refl) as (s' & E & C & _). exists s'. split; [exact E|exact C].
Defined.

Lemma context_roundtrip_witness :
  exists s', ticks [0x1FFF0; 0x301F00; 0x302F00] (0, three_tasks) = (0x1FFF0, s') /\
    sched_ok s' 0 [1%nat; 2%nat].
Proof.
  destruct (context_roundtrip three_tasks 0 [1%nat; 2%nat] 0x1FFF0 [0x301F00; 0x302F00] 0
    (proj1 three_tasks_ok) (proj2 three_tasks_ok) eq_refl) as (s' & E & O & _).
  exists s'. split; [exact E|exact O].
Defined.

Lemma task_wait_step_spec_witness :
  match task_wait_step (-1) (mk_kernel (boot_machine mem0) three_tasks) with
  | Ret (WaitBlocked, k') => state (task_at (sch k') 0) = TASK_BLOCKED
  | Ret (Waited r, k') => True
  | _ => False
  end.
Proof.
  pose proof (task_wait_step_spec (mk_kernel (boot_machine mem0) three_tasks) 0 [1%nat; 2%nat] (-1)
    (proj1 three_tasks_ok) ltac:(split; [reflexivity|cbn; unfold MAX_PAGES; lia])) as H.
  destruct (task_wait_step (-1) (mk_kernel (boot_machine mem0) three_tasks)) as [[[r|] k']| |].
  - exact I.
  - apply H.
  - exact H.
  - vm_compute in H. apply H. reflexivity.
Defined.

Lemma task_create_spec_witness :
  exists m k' p, boot_paging (boot_machine mem0) = Ret (tt, m) /\
    task_create [115; 104] 0x101000 (mk_kernel m three_tasks) = Ret (3, k') /\
    sched_ok (sch k') 0 [1%nat; 2%nat; 3%nat] /\
    frame_words (mach k') p = user_frame 0x101000 (p + 4 * frame_base).
Proof.
  destruct booted as (m & E & S & F & _).
  pose proof (task_create_spec (mk_kernel m three_tasks) 0 [1%nat; 2%nat] [115; 104] 0x101000
    (proj1 three_tasks_ok) S ltac:(lia) ltac:(unfold TASK_NAME_MAX; cbn; lia)
    ltac:(cbn [mach]; rewrite F; apply Nat.leb_le; vm_compute; reflexivity)) as H.
  change (task_find_slot (sch (mk_kernel m three_tasks))) with (Some 3%nat) in H.
  destruct H as (k' & p & u & E' & O' & _ & _ & _ & W' & _).
  exists m, k', p. split; [exact E|]. split; [exact E'|]. split; [exact O'|exact W'].
Defined.

(** ** task_fork *)

(** Running one more command of a sequence that returns. *)
Lemma kop_bind_inv {A B} (m : kop A) (f : A -> kop B) k b k' :
  (m ≫= f) k = Ret (b, k') -> exists a k1, m k = Ret (a, k1) /\ f a k1 = Ret (b, k').
Proof. unfold mbind, kop_bind. destruct (m k) as [[a k1]| |]; try discriminate. eauto. Qed.

Lemma lift_inv {A} (m : kern A) k a k' :
  lift m k = Ret (a, k') -> m (mach k) = Ret (a, mach k') /\ sch k' = sch k.
Proof.
  unfold lift. destruct (m (mach k)) as [[x mk]| |]; try discriminate.
  intros H. injection H as <- <-. auto.
Qed.

(** whenever [task_fork] returns, either it failed and the scheduler is
    as before, or the child has the next pid, the caller as parent, a directory
    of its own and the caller's name, starts at a frame at the top of a new
    kernel stack, and waits last in the ready queue; the other tasks are as before. *)
Theorem task_fork_queues bss_end regs k c rl r k' :
  sched_ok (sch k) c rl -> task_fork bss_end regs k = Ret (r, k') ->
  (r = -1 /\ sch k' = sch k) \/
  exists slot stack dir, task_find_slot (sch k) = Some slot /\ r = next_pid (sch k) /\ dir <> 0 /\
    sched_ok (sch k') c (rl ++ [slot]) /\
    (let t := task_at (sch k') slot in
     pid t = r /\ parent_pid t = pid (task_at (sch k) c) /\ state t = TASK_READY /\
     page_dir t = dir /\ kernel_stack_base t = stack /\ kernel_stack_top t = u32 (stack + 0x1000) /\
     kernel_esp t = u32 (u32 (stack + 0x1000) - REG_SIZE) /\
     take (S (length (cstr (name (task_at (sch k) c))))) (name t) = cstr (name (task_at (sch k) c)) ++ [0]) /\
    (forall i, i <> slot -> core (task_at (sch k') i) = core (task_at (sch k) i)).
Proof.
  intros O H. unfold task_fork in H.
  apply kop_bind_inv in H as (os & k0 & H0 & H). injection H0 as <- <-.
  pose proof (task_find_slot_spec (sch k)) as Hslot.
  destruct (task_find_slot (sch k)) as [slot|]; [|injection H as <- <-; auto].
  apply kop_bind_inv in H as (dir & k1 & H1 & H). apply lift_inv in H1 as [_ S1].
  destruct (Z.eqb_spec dir 0) as [Ed|Ed]; [injection H as <- <-; auto|].
  apply kop_bind_inv in H as (stack & k2 & H2 & H). apply lift_inv in H2 as [_ S2].
  apply kop_bind_inv in H as ([] & k3 & H3 & H). apply lift_inv in H3 as [_ S3].
  apply kop_bind_inv in H as ([] & k4 & H4 & H). apply lift_inv in H4 as [_ S4].
  assert (E4 : sch k4 = sch k) by congruence.
  apply kop_bind_inv in H as (cur & k5 & H5 & H). injection H5 as <- <-.
  rewrite E4, (ro_current _ _ _ (proj2 O)) in H.
  apply kop_bind_inv in H as (cn & k6 & H6 & H). injection H6 as <- <-.
  apply kop_bind_inv in H as (old & k7 & H7 & H). injection H7 as <- <-.
  apply kop_bind_inv in H as (nm & k8 & H8 & H). unfold copy_name in H8.
  match type of H8 with context [if ?b then _ else _] => destruct b; [|discriminate] end.
  injection H8 as <- <-.
  apply kop_bind_inv in H as ([] & k9 & H9 & H). injection H9 as <-. injection H as <- <-.
  cbn [sch]. rewrite E4. set (cs := cstr (name (task_at (sch k) c))) in *.
  match goal with |- context [add_task slot ?t (sch k)] => set (t1 := t) end.
  destruct (add_task_ok (sch k) c rl slot t1 O (proj1 Hslot) (proj2 Hslot)) as (O' & P' & _ & C' & U');
    [reflexivity|apply (to_pid _ (proj1 O)), (ro_live _ _ _ (proj2 O))|reflexivity|].
  destruct (core_fields _ _ C') as (F1 & F2 & F3 & _ & F5 & F6 & F7 & F8 & F9).
  right. exists slot, stack, dir. split; [reflexivity|]. split; [exact P'|]. split; [exact Ed|].
  split; [exact O'|]. split; [|exact U'].
  split; [reflexivity|]. rewrite F2, F3, F5, F6, F7, F8, F9. repeat (split; [reflexivity|]).
  unfold t1. cbn [name]. unfold splice. rewrite firstn_O, app_nil_l. rewrite take_app_le by (rewrite length_app; cbn; lia).
  apply take_ge. rewrite length_app. cbn. lia.
Qed.

(** A machine with three free frames, before paging is on. *)
Definition fork_kernel : kernel :=
  mk_kernel (mk_machine mem0 0 false
    ([0x300000; 0x301000; 0x302000] ++ replicate 1021 0) 3) three_tasks.

Lemma fork_runs :
  match task_fork 0x140000 0x1FFF0 fork_kernel with Ret (r, _) => r =? 3 | _ => false end = true.
Proof. vm_compute. reflexivity. Qed.

Lemma task_fork_queues_witness :
  exists k', task_fork 0x140000 0x1FFF0 fork_kernel = Ret (3, k') /\
    sched_ok (sch k') 0 [1%nat; 2%nat; 3%nat].
Proof.
  pose proof fork_runs as H.
  destruct (task_fork 0x140000 0x1FFF0 fork_kernel) as [[r k']| |] eqn:E; try discriminate H.
  apply Z.eqb_eq in H. subst r. exists k'. split; [reflexivity|].
  destruct (task_fork_queues 0x140000 0x1FFF0 fork_kernel 0%nat [1%nat; 2%nat] 3 k' (proj1 three_tasks_ok) E)
    as [[H _]|(slot & stack & dir & Hs & _ & _ & O & _)]; [discriminate|].
  change (task_find_slot (sch fork_kernel)) with (Some 3%nat) in Hs. injection Hs as <-. exact O.
Defined.
