(* ===== verification/Ipc.v ===== *)
(** * Semaphores and message queues (kernel/ipc.c)

    The two tables of ipc.c and their operations, on top of the scheduler, whose
    [next] links also thread the wait queues.  The operations run with
    interrupts disabled, so each is one step; a call that has to wait stops at
    its [int $32] with [Blocked] and goes on, once the task runs again, with the
    continuation given here ([sem_wait] returns 0; the message operations
    repeat their loop on the queue they looked up first).

    Buffers are passed as byte lists: [send] gets the bytes at the caller's
    pointer, [recv] returns the bytes to be stored there; [None] is NULL. *)

From S2P Require Import Prelude CString Ring Memory Paging Scheduler.
Local Open Scope Z_scope.

Definition MAX_SEMS : nat := 64.
Definition SEM_NAME_MAX : nat := 24.
Definition MAX_MSGQUEUES : nat := 16.
Definition MSGQUEUE_SIZE : Z := 64.
Definition MSG_MAX_DATA : nat := 64.

Record sem : Type := mk_sem {
  sem_id : Z;
  sem_name : list Z;
  sem_value : Z;
  sem_waiters : queue
}.

Record message : Type := mk_message { msg_len : Z; msg_data : list Z }.

Record msg_queue : Type := mk_msg_queue {
  mq_id : Z;
  mq_msgs : list message;
  mq_head : Z;
  mq_tail : Z;
  mq_num : Z;
  recv_wait : queue;
  send_wait : queue
}.

Definition message_zero : message := mk_message 0 (replicate MSG_MAX_DATA 0).
Definition sem_zero : sem := mk_sem 0 (replicate SEM_NAME_MAX 0) 0 queue_empty.
Definition mq_zero : msg_queue :=
  mk_msg_queue 0 (replicate (Z.to_nat MSGQUEUE_SIZE) message_zero) 0 0 0 queue_empty queue_empty.

#[export] Instance sem_inhabited : Inhabited sem := populate sem_zero.
#[export] Instance mq_inhabited : Inhabited msg_queue := populate mq_zero.
#[export] Instance message_inhabited : Inhabited message := populate message_zero.

Record ipc : Type := mk_ipc {
  sem_table : list sem;
  sem_count : Z;
  mq_table : list msg_queue;
  mq_count : Z;
  sched_of : sched
}.

(** The largest [int]; the counters are [int]s that the code only increments. *)
Definition INT_MAX : Z := 2147483647.

(** A call returns a value, or blocks at its [int $32]. *)
Inductive outcome (A : Type) : Type :=
  | Done (a : A)
  | Blocked.
Arguments Done {A} a.
Arguments Blocked {A}.

(** ** Tables *)

Definition sem_at (st : ipc) (i : nat) : sem := sem_table st !!! i.
Definition mq_at (st : ipc) (i : nat) : msg_queue := mq_table st !!! i.

Definition set_sem (i : nat) (v : sem) (st : ipc) : ipc :=
  mk_ipc (<[i := v]> (sem_table st)) (sem_count st) (mq_table st) (mq_count st) (sched_of st).
Definition set_mq (i : nat) (q : msg_queue) (st : ipc) : ipc :=
  mk_ipc (sem_table st) (sem_count st) (<[i := q]> (mq_table st)) (mq_count st) (sched_of st).
Definition set_sched (s : sched) (st : ipc) : ipc :=
  mk_ipc (sem_table st) (sem_count st) (mq_table st) (mq_count st) s.

(** The first index whose identifier satisfies [f]. *)
Fixpoint find_index {A} (f : A -> bool) (l : list A) (i : nat) : option nat :=
  match l with
  | [] => None
  | x :: l => if f x then Some i else find_index f l (S i)
  end.

Definition sem_find_slot (st : ipc) : option nat := find_index (fun s => sem_id s <? 0) (sem_table st) 0.
Definition sem_lookup (id : Z) (st : ipc) : option nat :=
  find_index (fun s => sem_id s =? id) (sem_table st) 0.
Definition mq_find_slot (st : ipc) : option nat := find_index (fun q => mq_id q <? 0) (mq_table st) 0.
Definition mq_lookup (id : Z) (st : ipc) : option nat :=
  find_index (fun q => mq_id q =? id) (mq_table st) 0.

(** ** Blocking and waking *)

(** [task_block()], then append the current task to a wait queue. *)
Definition block_on (cur : nat) (q : queue) (s : sched) : queue * sched :=
  let s := task_block s in
  let '(q, ts) := queue_push cur q (task_table s) in
  (q, with_tasks ts s).

(** Take the first waiter off a queue and [task_wake] it. *)
Definition wake_first (q : queue) (s : sched) : queue * sched :=
  let '(t, q, ts) := queue_pop q (task_table s) in
  (q, task_wake t (with_tasks ts s)).

(** [while (head) { unlink; task_wake }]; the tail pointer is cleared after
    the loop. *)
Fixpoint wake_all (fuel : nat) (q : queue) (s : sched) : option sched :=
  match q_head q with
  | None => Some s
  | Some _ =>
      match fuel with
      | O => None
      | S fuel => let '(q, s) := wake_first q s in wake_all fuel q s
      end
  end.

(** A wait queue never holds more than the whole process table. *)
Definition wake_fuel : nat := S MAX_TASKS.

(** ** Semaphores *)

Definition sem_init (st : ipc) : ipc :=
  mk_ipc ((fun s => mk_sem (-1) (sem_name s) (sem_value s) (sem_waiters s)) <$> sem_table st)
    (sem_count st) (mq_table st) (mq_count st) (sched_of st).

(** [name = None] is the NULL pointer. *)
Definition sem_create (cname : option (list Z)) (initial_value : Z) (st : ipc) : exec (Z * ipc) :=
  match sem_find_slot st with
  | None => Ret (-1, st)
  | Some slot =>
      let old := sem_name (sem_at st slot) in
      let store nm :=
        let id := sem_count st in
        Ret (id, mk_ipc (<[slot := mk_sem id nm (if initial_value <? 0 then 0 else initial_value)
                                     queue_empty]> (sem_table st))
                  (i32 (sem_count st + 1)) (mq_table st) (mq_count st) (sched_of st)) in
      match cname with
      | Some cs => if (length cs + 1 <=? SEM_NAME_MAX)%nat then store (splice 0 (cs ++ [0]) old) else Oob
      | None => store (<[0%nat := 0]> old)
      end
  end.

Definition sem_wait (id : Z) (st : ipc) : outcome Z * ipc :=
  if (id <? 0) || (sem_count st <=? id) then (Done (-1), st)
  else
    match sem_lookup id st with
    | None => (Done (-1), st)
    | Some i =>
        let sm := sem_at st i in
        if 0 <? sem_value sm then
          (Done 0, set_sem i (mk_sem (sem_id sm) (sem_name sm) (sem_value sm - 1) (sem_waiters sm)) st)
        else
          match current_task (sched_of st) with
          | None => (Done (-1), st)
          | Some cur =>
              let '(q, s) := block_on cur (sem_waiters sm) (sched_of st) in
              (Blocked, set_sched s
                 (set_sem i (mk_sem (sem_id sm) (sem_name sm) (sem_value sm) q) st))
          end
    end.

(** After the [int $32] of [sem_wait]. *)
Definition sem_wait_resumed : Z := 0.

Definition sem_post (id : Z) (st : ipc) : Z * ipc :=
  if (id <? 0) || (sem_count st <=? id) then (-1, st)
  else
    match sem_lookup id st with
    | None => (-1, st)
    | Some i =>
        let sm := sem_at st i in
        match q_head (sem_waiters sm) with
        | Some _ =>
            let '(q, s) := wake_first (sem_waiters sm) (sched_of st) in
            (0, set_sched s (set_sem i (mk_sem (sem_id sm) (sem_name sm) (sem_value sm) q) st))
        | None =>
            (0, set_sem i (mk_sem (sem_id sm) (sem_name sm) (i32 (sem_value sm + 1)) (sem_waiters sm)) st)
        end
    end.

Definition sem_destroy (id : Z) (st : ipc) : option (Z * ipc) :=
  if id <? 0 then Some (-1, st)
  else
    match sem_lookup id st with
    | None => Some (-1, st)
    | Some i =>
        let sm := sem_at st i in
        match wake_all wake_fuel (sem_waiters sm) (sched_of st) with
        | None => None
        | Some s =>
            Some (0, set_sched s
              (set_sem i (mk_sem (-1) (<[0%nat := 0]> (sem_name sm)) 0 queue_empty) st))
        end
    end.

(** ** Message queues *)

Definition msg_queue_init (st : ipc) : ipc :=
  mk_ipc (sem_table st) (sem_count st)
    ((fun q => mk_msg_queue (-1) (mq_msgs q) (mq_head q) (mq_tail q) (mq_num q)
                 (recv_wait q) (send_wait q)) <$> mq_table st)
    (mq_count st) (sched_of st).

Definition ipc_init (st : ipc) : ipc := msg_queue_init (sem_init st).

Definition msg_queue_create (st : ipc) : Z * ipc :=
  match mq_find_slot st with
  | None => (-1, st)
  | Some slot =>
      let id := mq_count st in
      (id, mk_ipc (sem_table st) (sem_count st)
             (<[slot := mk_msg_queue id (mq_msgs (mq_at st slot)) 0 0 0 queue_empty queue_empty]>
                (mq_table st))
             (i32 (mq_count st + 1)) (sched_of st))
  end.

(** The loop of [msg_queue_send] and what follows it; [len] is already capped.
    This is also the continuation of a blocked sender. *)
Definition send_loop (i : nat) (data : list Z) (len : nat) (st : ipc) : exec (outcome Z * ipc) :=
  let mq := mq_at st i in
  if MSGQUEUE_SIZE <=? mq_num mq then
    match current_task (sched_of st) with
    | None => Ret (Done (-1), st)
    | Some cur =>
        let '(q, s) := block_on cur (send_wait mq) (sched_of st) in
        Ret (Blocked, set_sched s (set_mq i
          (mk_msg_queue (mq_id mq) (mq_msgs mq) (mq_head mq) (mq_tail mq) (mq_num mq)
             (recv_wait mq) q) st))
    end
  else if (length data <? len)%nat then Oob
  else
    let old := msg_data (mq_msgs mq !!! Z.to_nat (mq_tail mq)) in
    let msgs := <[Z.to_nat (mq_tail mq) :=
                  mk_message (Z.of_nat len) (splice 0 (take len data) old)]> (mq_msgs mq) in
    let '(q, s) := match q_head (recv_wait mq) with
                   | Some _ => wake_first (recv_wait mq) (sched_of st)
                   | None => (recv_wait mq, sched_of st)
                   end in
    Ret (Done 0, set_sched s (set_mq i
      (mk_msg_queue (mq_id mq) msgs (mq_head mq) ((mq_tail mq + 1) mod MSGQUEUE_SIZE)
         (mq_num mq + 1) q (send_wait mq)) st)).

Definition msg_queue_send (id : Z) (data : option (list Z)) (len : Z) (st : ipc) :
    exec (outcome Z * ipc) :=
  match data with
  | None => Ret (Done (-1), st)
  | Some data =>
      if id <? 0 then Ret (Done (-1), st)
      else
        match mq_lookup id st with
        | None => Ret (Done (-1), st)
        | Some i =>
            let len := if Z.of_nat MSG_MAX_DATA <? len then MSG_MAX_DATA else Z.to_nat len in
            send_loop i data len st
        end
  end.

(** The loop of [msg_queue_recv]; a successful receive returns the bytes for
    the caller's buffer ([*len] is their number). *)
Definition recv_loop (i : nat) (st : ipc) : outcome (Z * list Z) * ipc :=
  let mq := mq_at st i in
  if mq_num mq <=? 0 then
    match current_task (sched_of st) with
    | None => (Done (-1, []), st)
    | Some cur =>
        let '(q, s) := block_on cur (recv_wait mq) (sched_of st) in
        (Blocked, set_sched s (set_mq i
          (mk_msg_queue (mq_id mq) (mq_msgs mq) (mq_head mq) (mq_tail mq) (mq_num mq)
             q (send_wait mq)) st))
    end
  else
    let msg := mq_msgs mq !!! Z.to_nat (mq_head mq) in
    let '(q, s) := match q_head (send_wait mq) with
                   | Some _ => wake_first (send_wait mq) (sched_of st)
                   | None => (send_wait mq, sched_of st)
                   end in
    (Done (0, take (Z.to_nat (msg_len msg)) (msg_data msg)),
     set_sched s (set_mq i
       (mk_msg_queue (mq_id mq) (mq_msgs mq) ((mq_head mq + 1) mod MSGQUEUE_SIZE) (mq_tail mq)
          (mq_num mq - 1) (recv_wait mq) q) st)).

(** [have_buf]: neither the buffer nor the length pointer is NULL. *)
Definition msg_queue_recv (id : Z) (have_buf : bool) (st : ipc) : outcome (Z * list Z) * ipc :=
  if (id <? 0) || negb have_buf then (Done (-1, []), st)
  else
    match mq_lookup id st with
    | None => (Done (-1, []), st)
    | Some i => recv_loop i st
    end.

Definition msg_queue_destroy (id : Z) (st : ipc) : option (Z * ipc) :=
  if id <? 0 then Some (-1, st)
  else
    match mq_lookup id st with
    | None => Some (-1, st)
    | Some i =>
        let mq := mq_at st i in
        match wake_all wake_fuel (recv_wait mq) (sched_of st) with
        | None => None
        | Some s =>
            match wake_all wake_fuel (send_wait mq) s with
            | None => None
            | Some s =>
                Some (0, set_sched s (set_mq i
                  (mk_msg_queue (-1) (mq_msgs mq) 0 0 0 queue_empty queue_empty) st))
            end
        end
    end.

(** ** The wait queues *)

Inductive wq : Type :=
  | WSem (i : nat)
  | WRecv (i : nat)
  | WSend (i : nat).

#[export] Instance wq_eq_dec : EqDecision wq.
Proof. solve_decision. Defined.

Definition queue_of (st : ipc) (w : wq) : queue :=
  match w with
  | WSem i => sem_waiters (sem_at st i)
  | WRecv i => recv_wait (mq_at st i)
  | WSend i => send_wait (mq_at st i)
  end.

(** The object a queue belongs to is in use. *)
Definition sem_live (st : ipc) (i : nat) : Prop := (i < length (sem_table st))%nat /\ 0 <= sem_id (sem_at st i).
Definition mq_live (st : ipc) (i : nat) : Prop := (i < length (mq_table st))%nat /\ 0 <= mq_id (mq_at st i).

Definition in_use (st : ipc) (w : wq) : Prop :=
  match w with WSem i => sem_live st i | WRecv i => mq_live st i | WSend i => mq_live st i end.

Definition upd {A} (f : wq -> A) (w : wq) (x : A) : wq -> A :=
  fun w' => if decide (w' = w) then x else f w'.

Lemma upd_same {A} (f : wq -> A) w x : upd f w x w = x.
Proof. unfold upd. apply decide_True. reflexivity. Qed.

Lemma upd_other {A} (f : wq -> A) w x w' : w' <> w -> upd f w x w' = f w'.
Proof. intros. unfold upd. apply decide_False. assumption. Qed.

Lemma elem_upd (W : wq -> list nat) w l w' i :
  i ∈ upd W w l w' <-> (w' = w /\ i ∈ l) \/ (w' <> w /\ i ∈ W w').
Proof. unfold upd. case_decide; tauto. Qed.

(** [W] lists the waiters of every queue [Q] in use: they are blocked, and no
    task waits in two queues. *)
Record waits_ok (s : sched) (L : wq -> Prop) (Q : wq -> queue) (W : wq -> list nat) : Prop := {
  wo_queue : forall w, L w -> queue_rep (task_table s) (Q w) (W w);
  wo_unused : forall w, ~ L w -> W w = [];
  wo_blocked : forall w i, i ∈ W w -> live s i /\ state (task_at s i) = TASK_BLOCKED;
  wo_disjoint : forall w w' i, i ∈ W w -> i ∈ W w' -> w = w'
}.

(** The waiters see only their links and states. *)
Lemma waits_ok_ext s s' L Q W :
  waits_ok s L Q W -> length (task_table s') = length (task_table s) ->
  (forall w i, i ∈ W w -> next (task_at s' i) = next (task_at s i) /\
     state (task_at s' i) = state (task_at s i) /\ live s' i) ->
  waits_ok s' L Q W.
Proof.
  intros [W1 W2 W3 W4] I H. split; try assumption.
  - intros w Hw. eapply queue_rep_ext; [exact I| |apply W1, Hw]. intros i Hi. apply (H w i Hi).
  - intros w i Hi. destruct (H w i Hi) as (_ & E & Li). rewrite E. split; [exact Li|]. apply (W3 w i Hi).
Qed.

(** Relinking does not disturb the scheduler. *)
Lemma with_tasks_ok s c rl ts :
  sched_ok s c rl -> same_core (task_table s) ts ->
  (forall i, i ∈ rl -> ts !!! i = task_at s i) -> sched_ok (with_tasks ts s) c rl.
Proof.
  intros [T R] C H.
  assert (I : same_ids s (with_tasks ts s)) by (apply same_ids_core; auto).
  pose proof (fun i => same_ids_live _ _ i I) as Lv.
  assert (St : forall i, state (task_at (with_tasks ts s) i) = state (task_at s i))
    by (intros i; apply (core_fields _ _ (proj2 C i))).
  split; [eapply table_ok_ids; eassumption|]. split.
  - apply (queue_rep_ext (task_table s)); [apply C| |apply (ro_queue _ _ _ R)].
    intros i Hi. cbn. rewrite H by exact Hi. reflexivity.
  - apply (ro_current _ _ _ R).
  - apply Lv, (ro_live _ _ _ R).
  - rewrite St. apply (ro_state _ _ _ R).
  - intros i. rewrite Lv, St. apply (ro_ready _ _ _ R).
  - intros i. rewrite Lv, St. apply (ro_running _ _ _ R).
Qed.

Lemma ready_not_waiting s c rl L Q W w i :
  sched_ok s c rl -> waits_ok s L Q W -> i ∈ rl -> i ∈ W w -> False.
Proof.
  intros [_ R] Ws Hi Hw. apply (ro_ready _ _ _ R) in Hi as [_ X].
  apply (wo_blocked _ _ _ _ Ws) in Hw as [_ Y]. rewrite X in Y. discriminate.
Qed.

Lemma block_on_ok s c rl L Q W w :
  sched_ok s c rl -> waits_ok s L Q W -> state (task_at s c) = TASK_RUNNING -> L w ->
  let '(q, s') := block_on c (Q w) s in
  sched_ok s' c rl /\ waits_ok s' L (upd Q w q) (upd W w (W w ++ [c])) /\
  state (task_at s' c) = TASK_BLOCKED /\ same_ids s s'.
Proof.
  intros O Ws Hrun Hw. unfold block_on.
  assert (Hnw : forall w', c ∉ W w').
  { intros w' X. apply (wo_blocked _ _ _ _ Ws) in X as [_ X]. rewrite Hrun in X. discriminate. }
  pose proof (ro_live _ _ _ (proj2 O)) as Lc.
  unfold task_block. rewrite (ro_current _ _ _ (proj2 O)).
  destruct (current_state_ok s c rl (set_state TASK_BLOCKED) TASK_BLOCKED O) as (O1 & A1 & U1 & I1); [auto 10|auto|].
  set (s1 := update c (set_state TASK_BLOCKED) s) in *.
  assert (Q1 : queue_rep (task_table s1) (Q w) (W w)) by (apply queue_rep_update; [auto|apply Ws, Hw]).
  pose proof (queue_push_rep _ _ _ c Q1 (proj1 (ro_live _ _ _ (proj2 O1))) (Hnw w)) as P.
  destruct (queue_push c (Q w) (task_table s1)) as [q ts]. destruct P as (P1 & P2 & P3).
  assert (Hd : forall i w', w' <> w -> i ∈ W w' -> i ∉ W w ++ [c]).
  { intros i w' Hne Hi X. apply elem_of_app in X as [X|X].
    - apply Hne. eapply (wo_disjoint _ _ _ _ Ws); eassumption.
    - apply list_elem_of_singleton in X. subst. apply (Hnw w' Hi). }
  assert (Hr : forall i, i ∈ rl -> i ∉ W w ++ [c]).
  { intros i Hi X. apply elem_of_app in X as [X|X]; [exact (ready_not_waiting s c rl L Q W w i O Ws Hi X)|].
    apply list_elem_of_singleton in X. subst. apply (run_ok_current_in _ _ _ (proj2 O) Hi). }
  assert (I2 : same_ids s (with_tasks ts s1))
    by (transitivity s1; [exact I1|apply same_ids_core; auto]).
  assert (St : forall i, state (task_at (with_tasks ts s1) i) = state (task_at s1 i))
    by (intros i; apply (core_fields _ _ (proj2 P2 i))).
  split; [apply with_tasks_ok; [exact O1|exact P2|intros i Hi; apply P3, Hr, Hi]|].
  split; [|split; [rewrite St, A1; reflexivity|exact I2]].
  split.
  - intros w' Hw'. destruct (decide (w' = w)) as [->|Hne]; [rewrite !upd_same; exact P1|].
    rewrite !upd_other by exact Hne. eapply (queue_rep_ext (task_table s1)); [apply P2| |].
    + intros i Hi. cbn. rewrite P3 by (eapply Hd; eassumption). reflexivity.
    + apply queue_rep_update; [auto|apply Ws, Hw'].
  - intros w' Hw'. destruct (decide (w' = w)) as [->|Hne]; [contradiction|].
    rewrite upd_other by exact Hne. apply Ws, Hw'.
  - intros w' i Hi. rewrite St, (same_ids_live _ _ i I2).
    destruct (decide (i = c)) as [->|Hic]; [split; [exact Lc|rewrite A1; reflexivity]|].
    rewrite U1 by exact Hic. apply (wo_blocked _ _ _ _ Ws w').
    destruct (decide (w' = w)) as [->|Hne]; [|rewrite upd_other in Hi by exact Hne; exact Hi].
    rewrite upd_same in Hi. apply elem_of_app in Hi as [Hi|Hi]; [exact Hi|].
    apply list_elem_of_singleton in Hi. contradiction.
  - intros w1 w2 i H1 H2.
    apply elem_upd in H1, H2. destruct H1 as [[-> H1]|[N1 H1]], H2 as [[-> H2]|[N2 H2]].
    + reflexivity.
    + exfalso. exact (Hd i w2 N2 H2 H1).
    + exfalso. exact (Hd i w1 N1 H1 H2).
    + eapply (wo_disjoint _ _ _ _ Ws); eassumption.
Qed.

Lemma wake_first_ok s c rl L Q W w t l :
  sched_ok s c rl -> waits_ok s L Q W -> state (task_at s c) = TASK_RUNNING -> L w -> W w = t :: l ->
  exists q s', wake_first (Q w) s = (q, s') /\ sched_ok s' c (rl ++ [t]) /\
    waits_ok s' L (upd Q w q) (upd W w l) /\ same_ids s s' /\
    (forall i, state (task_at s' i) = if decide (i = t) then TASK_READY else state (task_at s i)).
Proof.
  intros O Ws Hrun Hw HW. unfold wake_first.
  pose proof (wo_queue _ _ _ _ Ws w Hw) as Hq. rewrite HW in Hq.
  destruct (queue_pop_rep _ _ _ Hq) as (q & ts & E & P1 & P2 & P3). rewrite E.
  assert (Hin : t ∈ W w) by (rewrite HW; apply list_elem_of_here).
  destruct (wo_blocked _ _ _ _ Ws w t Hin) as [Lt St].
  set (s1 := with_tasks ts s).
  assert (I1 : same_ids s s1) by (apply same_ids_core; auto).
  assert (S1 : forall i, state (task_at s1 i) = state (task_at s i))
    by (intros i; apply (core_fields _ _ (proj2 P2 i))).
  assert (O1 : sched_ok s1 c rl).
  { apply with_tasks_ok; [exact O|exact P2|]. intros i Hi. apply P3. intros ->.
    exact (ready_not_waiting s c rl L Q W w t O Ws Hi Hin). }
  assert (Htc : t <> c) by (intros ->; rewrite Hrun in St; discriminate).
  destruct (wake_ok s1 c rl t O1) as (O2 & I2 & S2 & U2 & _);
    [apply (same_ids_live _ _ t I1), Lt|exact Htc|rewrite S1, St; discriminate|].
  exists q, (task_wake (Some t) s1). split; [reflexivity|]. split; [exact O2|].
  assert (Is : same_ids s (task_wake (Some t) s1)) by (etransitivity; eassumption).
  split; [|split; [exact Is|intros i; rewrite S2, S1; reflexivity]].
  assert (Hnt : t ∉ l) by (destruct Hq as (_ & _ & _ & Nd & _); apply NoDup_cons in Nd; tauto).
  assert (Hother : forall w' i, i ∈ upd W w l w' -> i <> t /\ (i ∉ rl ++ [t]) /\ i ∈ W w').
  { intros w' i Hi. assert (Hi' : i ∈ W w' /\ i <> t).
    { destruct (decide (w' = w)) as [->|Hne].
      - rewrite upd_same in Hi. rewrite HW. split; [apply list_elem_of_further, Hi|congruence].
      - rewrite upd_other in Hi by exact Hne. split; [exact Hi|]. intros ->. apply Hne.
        eapply (wo_disjoint _ _ _ _ Ws); eassumption. }
    destruct Hi' as [Hi' Hit]. split; [exact Hit|]. split; [|exact Hi'].
    rewrite elem_of_app, list_elem_of_singleton. intros [X|X]; [|contradiction].
    exact (ready_not_waiting s c rl L Q W w' i O Ws X Hi'). }
  split.
  - intros w' Hw'. eapply (queue_rep_ext ts); [apply I2| |].
    + intros i Hi. change (next (task_at (task_wake (Some t) s1) i) = next (task_at s1 i)).
      rewrite U2; [reflexivity|].
      destruct (decide (w' = w)) as [->|Hne]; eapply Hother; exact Hi.
    + destruct (decide (w' = w)) as [->|Hne]; [rewrite !upd_same; exact P1|].
      rewrite !upd_other by exact Hne. eapply (queue_rep_ext (task_table s)); [apply P2| |apply Ws, Hw'].
      intros i Hi. rewrite P3; [reflexivity|]. intros ->. apply Hne.
      eapply (wo_disjoint _ _ _ _ Ws); eassumption.
  - intros w' Hw'. rewrite upd_other by (intros ->; contradiction). apply Ws, Hw'.
  - intros w' i Hi. destruct (Hother w' i Hi) as (Hit & _ & Hi').
    rewrite S2, decide_False, S1, (same_ids_live _ _ i Is) by exact Hit.
    apply (wo_blocked _ _ _ _ Ws w' i Hi').
  - intros w1 w2 i H1 H2. eapply (wo_disjoint _ _ _ _ Ws); eapply Hother; eassumption.
Qed.

Lemma waits_ok_eq s L L' Q Q' W W' :
  waits_ok s L Q W -> (forall w, L' w <-> L w) -> (forall w, L w -> Q' w = Q w) -> (forall w, W' w = W w) ->
  waits_ok s L' Q' W'.
Proof.
  intros [W1 W2 W3 W4] HL HQ HW. split.
  - intros w Hw. apply HL in Hw. rewrite HQ, HW by exact Hw. apply W1, Hw.
  - intros w Hw. rewrite HW. apply W2. rewrite <- HL. exact Hw.
  - intros w i. rewrite HW. apply W3.
  - intros w w' i. rewrite !HW. apply W4.
Qed.

(** A queue of distinct table indices is shorter than the fuel. *)
Lemma bounded_length (l : list nat) n : NoDup l -> Forall (fun i => (i < n)%nat) l -> (length l <= n)%nat.
Proof.
  intros Hd Hf. rewrite <- (length_seq n 0). apply submseteq_length, NoDup_submseteq; [exact Hd|].
  intros x Hx. rewrite Forall_forall in Hf. apply elem_of_seq. specialize (Hf x Hx). lia.
Qed.

Lemma waiters_bound s c rl L Q W w :
  sched_ok s c rl -> waits_ok s L Q W -> L w -> (length (W w) < wake_fuel)%nat.
Proof.
  intros [T _] Ws Hw. destruct (wo_queue _ _ _ _ Ws w Hw) as (_ & _ & _ & Hd & Hf).
  apply bounded_length in Hf; [|exact Hd]. rewrite (to_len s T) in Hf. unfold wake_fuel. lia.
Qed.

Lemma wake_all_ok c L w l : forall fuel s rl Q W,
  sched_ok s c rl -> waits_ok s L Q W -> state (task_at s c) = TASK_RUNNING -> L w ->
  W w = l -> (length l < fuel)%nat ->
  exists s' q, wake_all fuel (Q w) s = Some s' /\ sched_ok s' c (rl ++ l) /\
    waits_ok s' L (upd Q w q) (upd W w []) /\ same_ids s s' /\
    (forall i, state (task_at s' i) = if decide (i ∈ l) then TASK_READY else state (task_at s i)).
Proof.
  induction l as [|t l IH]; intros fuel s rl Q W O Ws Hrun Hw HW Hf.
  - pose proof (wo_queue _ _ _ _ Ws w Hw) as Hq. rewrite HW in Hq. destruct Hq as (Hh & Hq).
    exists s, (Q w). split; [destruct fuel; cbn; rewrite Hh; reflexivity|].
    rewrite app_nil_r. split; [exact O|]. split; [|split; [reflexivity|]].
    + eapply waits_ok_eq; [exact Ws|tauto| |]; intros w'; unfold upd; case_decide; subst; auto.
    + intros i. rewrite decide_False; [reflexivity|apply not_elem_of_nil].
  - destruct fuel as [|fuel]; [lia|]. cbn [length] in Hf.
    destruct (wake_first_ok s c rl L Q W w t l O Ws Hrun Hw HW) as (q & s1 & E & O1 & Ws1 & I1 & S1).
    assert (Htc : t <> c).
    { intros ->. assert (X : c ∈ W w) by (rewrite HW; apply list_elem_of_here).
      apply (wo_blocked _ _ _ _ Ws) in X as [_ X]. rewrite Hrun in X. discriminate. }
    destruct (IH fuel s1 (rl ++ [t]) (upd Q w q) (upd W w l) O1 Ws1) as (s' & q' & E' & O' & Ws' & I' & S');
      [rewrite S1, decide_False by congruence; exact Hrun|exact Hw|apply upd_same|lia|].
    pose proof (wo_queue _ _ _ _ Ws w Hw) as Hq. rewrite HW in Hq. destruct Hq as (Hh & _).
    exists s', q'. split.
    { cbn [wake_all]. rewrite Hh. cbn [head]. rewrite E. rewrite upd_same in E'. exact E'. }
    split; [rewrite <- app_assoc in O'; exact O'|]. split; [|split; [etransitivity; eassumption|]].
    + eapply waits_ok_eq; [exact Ws'|tauto| |]; intros w'; unfold upd; case_decide; auto.
    + intros i. rewrite S', S1. destruct (decide (i ∈ t :: l)) as [X|X].
      * apply elem_of_cons in X as [->|X]; [|rewrite decide_True by exact X; reflexivity].
        case_decide; [reflexivity|rewrite decide_True; reflexivity].
      * rewrite !decide_False; [reflexivity|intros ->; apply X, list_elem_of_here|
          intros Y; apply X, list_elem_of_further, Y].
Qed.

(** ** Table lookups *)

Lemma find_index_spec {A} `{Inhabited A} (f : A -> bool) l : forall k,
  match find_index f l k with
  | Some i => exists j, i = (k + j)%nat /\ (j < length l)%nat /\ f (l !!! j) = true
  | None => forall j, (j < length l)%nat -> f (l !!! j) = false
  end.
Proof.
  induction l as [|x l IH]; intros k; cbn [find_index length]; [intros j Hj; lia|].
  destruct (f x) eqn:E; [exists 0%nat; repeat split; try lia; exact E|].
  specialize (IH (S k)). destruct (find_index f l (S k)) as [i|].
  - destruct IH as (j & -> & Hj & Hd). exists (S j). split; [lia|]. split; [lia|]. exact Hd.
  - intros [|j] Hj; [exact E|]. apply IH. lia.
Qed.

(** ** The invariant of the IPC subsystem *)

(** The messages in a queue, oldest first. *)
Definition msg_bytes (m : message) : list Z := take (Z.to_nat (msg_len m)) (msg_data m).
Definition msg_ok (m : message) : Prop :=
  length (msg_data m) = MSG_MAX_DATA /\ 0 <= msg_len m <= Z.of_nat MSG_MAX_DATA.

Definition mq_rep (q : msg_queue) (ms : list message) : Prop :=
  ring_rep MSGQUEUE_SIZE (mq_msgs q) (mq_head q) ms /\ Forall msg_ok ms /\
  Forall (fun m => length (msg_data m) = MSG_MAX_DATA) (mq_msgs q) /\
  mq_tail q = ring_end MSGQUEUE_SIZE (mq_head q) ms /\ mq_num q = Z.of_nat (length ms).

(** Identifiers of the objects in use are distinct and below their counter. *)
Definition ids_ok (live : nat -> Prop) (id : nat -> Z) (count : Z) : Prop :=
  0 <= count /\ (forall i, live i -> id i < count) /\
  (forall i j, live i -> live j -> id i = id j -> i = j).

Record ipc_ok (st : ipc) (c : nat) (rl : list nat) (W : wq -> list nat) : Prop := {
  io_sched : sched_ok (sched_of st) c rl;
  io_waits : waits_ok (sched_of st) (in_use st) (queue_of st) W;
  io_sems : length (sem_table st) = MAX_SEMS;
  io_mqs : length (mq_table st) = MAX_MSGQUEUES;
  io_sem_ids : ids_ok (sem_live st) (fun i => sem_id (sem_at st i)) (sem_count st);
  io_mq_ids : ids_ok (mq_live st) (fun i => mq_id (mq_at st i)) (mq_count st);
  io_value : forall i, sem_live st i ->
    0 <= sem_value (sem_at st i) /\ (0 < sem_value (sem_at st i) -> W (WSem i) = []);
  io_buffers : forall i, (i < length (mq_table st))%nat ->
    length (mq_msgs (mq_at st i)) = Z.to_nat MSGQUEUE_SIZE /\
    Forall (fun m => length (msg_data m) = MSG_MAX_DATA) (mq_msgs (mq_at st i));
  io_messages : forall i, mq_live st i -> exists ms, mq_rep (mq_at st i) ms
}.

Lemma sem_at_set i v st j :
  (i < length (sem_table st))%nat -> sem_at (set_sem i v st) j = if decide (i = j) then v else sem_at st j.
Proof.
  intros Hi. unfold sem_at, set_sem. cbn. rewrite !list_lookup_total_alt. case_decide as H.
  - subst. rewrite list_lookup_insert_eq by exact Hi. reflexivity.
  - rewrite list_lookup_insert_ne by exact H. reflexivity.
Qed.

Lemma mq_at_set i v st j :
  (i < length (mq_table st))%nat -> mq_at (set_mq i v st) j = if decide (i = j) then v else mq_at st j.
Proof.
  intros Hi. unfold mq_at, set_mq. cbn. rewrite !list_lookup_total_alt. case_decide as H.
  - subst. rewrite list_lookup_insert_eq by exact Hi. reflexivity.
  - rewrite list_lookup_insert_ne by exact H. reflexivity.
Qed.

Lemma sem_lookup_live st c rl W i :
  ipc_ok st c rl W -> sem_live st i ->
  sem_lookup (sem_id (sem_at st i)) st = Some i /\
  (sem_id (sem_at st i) <? 0) || (sem_count st <=? sem_id (sem_at st i)) = false.
Proof.
  intros [] Hi. destruct io_sem_ids0 as (_ & Hb & Hinj). split.
  - unfold sem_lookup. pose proof (find_index_spec (fun s => sem_id s =? sem_id (sem_at st i)) (sem_table st) 0) as F.
    destruct (find_index _ (sem_table st) 0) as [k|].
    + destruct F as (j & -> & Hj & Hd). bool_prop. f_equal. cbn. fold (sem_at st j) in Hd.
      apply Hinj; [split; [exact Hj|rewrite Hd; apply Hi]|exact Hi|exact Hd].
    + specialize (F i (proj1 Hi)). fold (sem_at st i) in F. rewrite Z.eqb_refl in F. discriminate.
  - specialize (Hb i Hi). destruct Hi as [_ Hi]. apply orb_false_intro; [apply Z.ltb_ge|apply Z.leb_gt]; lia.
Qed.

Lemma mq_lookup_live st c rl W i :
  ipc_ok st c rl W -> mq_live st i ->
  mq_lookup (mq_id (mq_at st i)) st = Some i /\ (mq_id (mq_at st i) <? 0) = false.
Proof.
  intros [] Hi. destruct io_mq_ids0 as (_ & Hb & Hinj). split.
  - unfold mq_lookup. pose proof (find_index_spec (fun s => mq_id s =? mq_id (mq_at st i)) (mq_table st) 0) as F.
    destruct (find_index _ (mq_table st) 0) as [k|].
    + destruct F as (j & -> & Hj & Hd). bool_prop. f_equal. cbn. fold (mq_at st j) in Hd.
      apply Hinj; [split; [exact Hj|rewrite Hd; apply Hi]|exact Hi|exact Hd].
    + specialize (F i (proj1 Hi)). fold (mq_at st i) in F. rewrite Z.eqb_refl in F. discriminate.
  - apply Z.ltb_ge, Hi.
Qed.

(** A semaphore in use is replaced by one with the same identifier. *)
Lemma set_sem_ok st c rl W i v s' W' rl' :
  ipc_ok st c rl W -> sem_live st i -> sem_id v = sem_id (sem_at st i) ->
  sched_ok s' c rl' ->
  waits_ok s' (in_use st) (upd (queue_of st) (WSem i) (sem_waiters v)) W' ->
  (forall j, j <> i -> W' (WSem j) = W (WSem j)) ->
  0 <= sem_value v -> (0 < sem_value v -> W' (WSem i) = []) ->
  ipc_ok (set_sched s' (set_sem i v st)) c rl' W'.
Proof.
  intros [] Hi Hid O Ws HW Hv Hv0. set (st' := set_sched s' (set_sem i v st)).
  assert (A : forall j, sem_at st' j = if decide (i = j) then v else sem_at st j)
    by (intros; apply sem_at_set, Hi).
  assert (Hlen : length (sem_table st') = length (sem_table st)) by apply length_insert.
  assert (Lv : forall j, sem_live st' j <-> sem_live st j).
  { intros j. unfold sem_live. rewrite Hlen, A. case_decide; [subst; rewrite Hid|]; tauto. }
  assert (Hidj : forall j, sem_id (sem_at st' j) = sem_id (sem_at st j)).
  { intros j. rewrite A. case_decide; [subst; exact Hid|reflexivity]. }
  destruct io_sem_ids0 as (I1 & I2 & I3).
  split; try assumption.
  - eapply waits_ok_eq; [exact Ws| | |reflexivity].
    + intros [j|j|j]; cbn; [apply Lv|reflexivity|reflexivity].
    + intros [j|j|j] _; cbn; unfold upd; try (rewrite decide_False by discriminate; reflexivity).
      rewrite A. repeat case_decide; first [reflexivity|congruence].
  - congruence.
  - split; [exact I1|]. split; intros *; rewrite !Lv, !Hidj; [apply I2|apply I3].
  - intros j Hj. apply Lv in Hj. rewrite A. case_decide as Hd; [subst; auto|].
    rewrite HW by congruence. apply io_value0, Hj.
Qed.

Lemma set_mq_ok st c rl W i q s' W' rl' :
  ipc_ok st c rl W -> mq_live st i -> mq_id q = mq_id (mq_at st i) ->
  sched_ok s' c rl' ->
  waits_ok s' (in_use st) (upd (upd (queue_of st) (WRecv i) (recv_wait q)) (WSend i) (send_wait q)) W' ->
  (forall j, W' (WSem j) = W (WSem j)) -> (exists ms, mq_rep q ms) ->
  ipc_ok (set_sched s' (set_mq i q st)) c rl' W'.
Proof.
  intros [] Hi Hid O Ws HW Hms. set (st' := set_sched s' (set_mq i q st)).
  assert (A : forall j, mq_at st' j = if decide (i = j) then q else mq_at st j)
    by (intros; apply mq_at_set, Hi).
  assert (Hlen : length (mq_table st') = length (mq_table st)) by apply length_insert.
  assert (Lv : forall j, mq_live st' j <-> mq_live st j).
  { intros j. unfold mq_live. rewrite Hlen, A. case_decide; [subst; rewrite Hid|]; tauto. }
  assert (Hidj : forall j, mq_id (mq_at st' j) = mq_id (mq_at st j)).
  { intros j. rewrite A. case_decide; [subst; exact Hid|reflexivity]. }
  destruct io_mq_ids0 as (I1 & I2 & I3).
  split; try assumption.
  - eapply waits_ok_eq; [exact Ws| | |reflexivity].
    + intros [j|j|j]; cbn; [reflexivity|apply Lv|apply Lv].
    + intros [j|j|j] _; cbn; unfold upd;
        [rewrite !decide_False by discriminate; reflexivity|..]; rewrite A; repeat case_decide;
        first [reflexivity|congruence].
  - congruence.
  - split; [exact I1|]. split; intros *; rewrite !Lv, !Hidj; [apply I2|apply I3].
  - intros j Hj. rewrite HW. apply io_value0, Hj.
  - intros j Hj. rewrite Hlen in Hj. rewrite A. case_decide; [|apply io_buffers0, Hj].
    destruct Hms as (ms & (Hl & _) & _ & Hc & _). auto.
  - intros j Hj. apply Lv in Hj. rewrite A. case_decide; [exact Hms|apply io_messages0, Hj].
Qed.

(** Only the scheduler changes. *)
Lemma set_sched_ok st c rl W s' c' rl' :
  ipc_ok st c rl W -> sched_ok s' c' rl' ->
  length (task_table s') = length (task_table (sched_of st)) ->
  (forall w i, i ∈ W w -> next (task_at s' i) = next (task_at (sched_of st) i) /\
     state (task_at s' i) = state (task_at (sched_of st) i) /\ live s' i) ->
  ipc_ok (set_sched s' st) c' rl' W.
Proof.
  intros [] O Hl H. split; try assumption.
  change (in_use (set_sched s' st)) with (in_use st).
  eapply waits_ok_ext; eassumption.
Qed.

(** ** Semaphore operations *)

(** The abstract state of a semaphore: its value and who waits, in order. *)
Definition sem_view (st : ipc) (W : wq -> list nat) (i : nat) : Z * list nat :=
  (sem_value (sem_at st i), W (WSem i)).

(** The contract of a counting semaphore with first-come first-served waiters:
    [down] takes a token or queues the caller; [up] hands the token to the first
    waiter or stores it. *)
Definition down (c : nat) (v : Z * list nat) : Z * list nat :=
  if 0 <? fst v then (fst v - 1, snd v) else (fst v, snd v ++ [c]).
Definition up (v : Z * list nat) : Z * list nat :=
  match snd v with [] => (fst v + 1, []) | _ :: l => (fst v, l) end.

Definition running (st : ipc) (c : nat) : Prop := state (task_at (sched_of st) c) = TASK_RUNNING.

(** What replacing a semaphore leaves alone. *)
Lemma set_sem_frame st i :
  sem_live st i ->
  (forall v s' j, sem_id v = sem_id (sem_at st i) ->
     sem_live (set_sched s' (set_sem i v st)) j <-> sem_live st j) /\
  (forall v s' j, j <> i -> sem_at (set_sched s' (set_sem i v st)) j = sem_at st j).
Proof.
  intros Hi. split; intros v s' j H.
  - unfold sem_live. change (sem_at (set_sched s' (set_sem i v st)) j) with (sem_at (set_sem i v st) j).
    rewrite sem_at_set by apply Hi. cbn. rewrite length_insert. case_decide; [subst; rewrite H|]; tauto.
  - change (sem_at (set_sched s' (set_sem i v st)) j) with (sem_at (set_sem i v st) j).
    rewrite sem_at_set by apply Hi. apply decide_False. congruence.
Qed.

Lemma sem_wait_effect st c rl W i :
  ipc_ok st c rl W -> running st c -> sem_live st i ->
  exists o st' W', sem_wait (sem_id (sem_at st i)) st = (o, st') /\ ipc_ok st' c rl W' /\
    sem_view st' W' i = down c (sem_view st W i) /\
    (if 0 <? sem_value (sem_at st i) then o = Done 0 /\ running st' c
     else o = Blocked /\ state (task_at (sched_of st') c) = TASK_BLOCKED) /\
    (forall j, j <> i -> sem_at st' j = sem_at st j /\ W' (WSem j) = W (WSem j)) /\
    (forall j, sem_live st' j <-> sem_live st j) /\ mq_table st' = mq_table st.
Proof.
  intros O Hr Hi. destruct (sem_lookup_live st c rl W i O Hi) as [Hl Hb].
  unfold sem_wait. rewrite Hb, Hl. destruct (io_value _ _ _ _ O i Hi) as [Hv Hv0].
  destruct (set_sem_frame st i Hi) as [Hlive Hother].
  unfold sem_view, down. cbn [fst snd].
  destruct (Z.ltb_spec 0 (sem_value (sem_at st i))) as [Hpos|Hzero].
  - set (v := mk_sem (sem_id (sem_at st i)) (sem_name (sem_at st i)) (sem_value (sem_at st i) - 1)
                (sem_waiters (sem_at st i))).
    exists (Done 0), (set_sched (sched_of st) (set_sem i v st)), W.
    split; [reflexivity|]. split; [|split; [|split; [auto|split; [auto|split; [intros; apply Hlive; reflexivity|reflexivity]]]]].
    + apply (set_sem_ok st c rl W); try assumption; try reflexivity; [apply O| |cbn; lia|auto].
      eapply waits_ok_eq; [apply O|tauto| |reflexivity]. intros w _. unfold upd. case_decide; [subst; reflexivity|reflexivity].
    + change (sem_at (set_sched (sched_of st) (set_sem i v st)) i) with (sem_at (set_sem i v st) i).
      rewrite sem_at_set, decide_True by (try apply Hi; reflexivity). reflexivity.
  - rewrite (ro_current _ _ _ (proj2 (io_sched _ _ _ _ O))).
    pose proof (block_on_ok (sched_of st) c rl (in_use st) (queue_of st) W (WSem i)
      (io_sched _ _ _ _ O) (io_waits _ _ _ _ O) Hr Hi) as B. cbn [queue_of] in B.
    destruct (block_on c (sem_waiters (sem_at st i)) (sched_of st)) as [q s'].
    destruct B as (B1 & B2 & B3 & _).
    set (v := mk_sem (sem_id (sem_at st i)) (sem_name (sem_at st i)) (sem_value (sem_at st i)) q).
    exists Blocked, (set_sched s' (set_sem i v st)), (upd W (WSem i) (W (WSem i) ++ [c])).
    split; [reflexivity|]. split; [|split; [|split; [auto|split; [|split; [intros; apply Hlive; reflexivity|reflexivity]]]]].
    + apply (set_sem_ok st c rl W); try assumption; try reflexivity; cbn.
      * intros j Hj. apply upd_other. congruence.
      * lia.
    + change (sem_at (set_sched s' (set_sem i v st)) i) with (sem_at (set_sem i v st) i).
      rewrite sem_at_set, decide_True by (try apply Hi; reflexivity). cbn. rewrite upd_same. reflexivity.
    + intros j Hj. split; [auto|]. apply upd_other. congruence.
Qed.

Lemma sem_post_effect st c rl W i :
  ipc_ok st c rl W -> running st c -> sem_live st i -> sem_value (sem_at st i) < INT_MAX ->
  exists st' W', sem_post (sem_id (sem_at st i)) st = (0, st') /\
    ipc_ok st' c (rl ++ take 1 (W (WSem i))) W' /\ running st' c /\
    sem_view st' W' i = up (sem_view st W i) /\
    (forall j, j <> i -> sem_at st' j = sem_at st j /\ W' (WSem j) = W (WSem j)) /\
    (forall j, sem_live st' j <-> sem_live st j) /\ mq_table st' = mq_table st.
Proof.
  intros O Hr Hi Hmax. destruct (sem_lookup_live st c rl W i O Hi) as [Hl Hb].
  unfold sem_post. rewrite Hb, Hl. destruct (io_value _ _ _ _ O i Hi) as [Hv Hv0].
  destruct (set_sem_frame st i Hi) as [Hlive Hother].
  pose proof (wo_queue _ _ _ _ (io_waits _ _ _ _ O) (WSem i) Hi) as (Hq & _).
  cbn [queue_of] in Hq.
  assert (Ei : i32 (sem_value (sem_at st i) + 1) = sem_value (sem_at st i) + 1)
    by (apply i32_small; unfold INT_MAX in Hmax; lia).
  unfold sem_view, up. cbn [fst snd].
  destruct (W (WSem i)) as [|t l] eqn:HW; cbn [head] in Hq; rewrite Hq.
  - set (v := mk_sem (sem_id (sem_at st i)) (sem_name (sem_at st i)) (i32 (sem_value (sem_at st i) + 1))
                (sem_waiters (sem_at st i))).
    exists (set_sched (sched_of st) (set_sem i v st)), W.
    split; [reflexivity|]. rewrite app_nil_r.
    split; [|split; [exact Hr|split; [|split; [auto|split; [intros; apply Hlive; reflexivity|reflexivity]]]]].
    + apply (set_sem_ok st c rl W); try assumption; try reflexivity; [apply O| |cbn; rewrite Ei; lia|auto].
      eapply waits_ok_eq; [apply O|tauto| |reflexivity]. intros w _. unfold upd. case_decide; [subst; reflexivity|reflexivity].
    + change (sem_at (set_sched (sched_of st) (set_sem i v st)) i) with (sem_at (set_sem i v st) i).
      rewrite sem_at_set, decide_True by (try apply Hi; reflexivity). rewrite HW. cbn. rewrite Ei. reflexivity.
  - destruct (wake_first_ok (sched_of st) c rl (in_use st) (queue_of st) W (WSem i) t l
      (io_sched _ _ _ _ O) (io_waits _ _ _ _ O) Hr Hi HW) as (q & s' & E & B1 & B2 & B3 & B4).
    cbn [queue_of] in E. rewrite E.
    set (v := mk_sem (sem_id (sem_at st i)) (sem_name (sem_at st i)) (sem_value (sem_at st i)) q).
    assert (Hz : sem_value (sem_at st i) = 0).
    { destruct (Z.eq_dec (sem_value (sem_at st i)) 0); [assumption|]. exfalso.
      discriminate Hv0. lia. }
    assert (Htc : c <> t).
    { intros ->. assert (X : t ∈ W (WSem i)) by (rewrite HW; apply list_elem_of_here).
      apply (wo_blocked _ _ _ _ (io_waits _ _ _ _ O)) in X as [_ X]. unfold running in Hr. rewrite Hr in X. discriminate. }
    exists (set_sched s' (set_sem i v st)), (upd W (WSem i) l).
    split; [reflexivity|]. cbn [take].
    split; [|split; [|split; [|split; [|split; [intros; apply Hlive; reflexivity|reflexivity]]]]].
    + apply (set_sem_ok st c rl W); try assumption; try reflexivity; cbn.
      * intros j Hj. apply upd_other. congruence.
      * lia.
    + unfold running. cbn. rewrite B4, decide_False by exact Htc. exact Hr.
    + change (sem_at (set_sched s' (set_sem i v st)) i) with (sem_at (set_sem i v st) i).
      rewrite sem_at_set, decide_True by (try apply Hi; reflexivity). cbn. rewrite upd_same. reflexivity.
    + intros j Hj. split; [auto|]. apply upd_other. congruence.
Qed.

(** ** Message queue operations *)

(** The bytes of the messages in a queue, oldest first. *)
Definition mq_contents (q : msg_queue) : list (list Z) :=
  (fun k => msg_bytes (mq_msgs q !!! ring_cell MSGQUEUE_SIZE (mq_head q) k)) <$> seq 0 (Z.to_nat (mq_num q)).

Lemma mq_contents_rep q ms : mq_rep q ms -> mq_contents q = msg_bytes <$> ms.
Proof.
  intros ((_ & _ & _ & Hget) & _ & _ & _ & Hn). unfold mq_contents. rewrite Hn, Nat2Z.id.
  apply list_eq. intros k. rewrite !list_lookup_fmap. destruct (ms !! k) as [m|] eqn:E.
  - rewrite lookup_seq_lt by (apply lookup_lt_Some in E; exact E). cbn.
    rewrite (list_lookup_total_correct _ _ _ (Hget k m E)). reflexivity.
  - rewrite lookup_seq_ge by (apply lookup_ge_None in E; exact E). reflexivity.
Qed.

Lemma mq_rep_bound q ms : mq_rep q ms -> Z.of_nat (length ms) <= MSGQUEUE_SIZE.
Proof. intros ((_ & _ & H & _) & _). exact H. Qed.

(** Storing a message at the tail. *)
Lemma mq_rep_push q ms len data rw sw :
  mq_rep q ms -> Z.of_nat (length ms) < MSGQUEUE_SIZE -> (len <= MSG_MAX_DATA)%nat -> (len <= length data)%nat ->
  let old := msg_data (mq_msgs q !!! Z.to_nat (mq_tail q)) in
  let m := mk_message (Z.of_nat len) (splice 0 (take len data) old) in
  mq_rep (mk_msg_queue (mq_id q) (<[Z.to_nat (mq_tail q) := m]> (mq_msgs q)) (mq_head q)
            ((mq_tail q + 1) mod MSGQUEUE_SIZE) (mq_num q + 1) rw sw) (ms ++ [m]) /\
  msg_bytes m = take len data.
Proof.
  intros (R & Hok & Hcells & Ht & Hn) Hlt Hlen Hdata old m.
  assert (Hold : length old = MSG_MAX_DATA).
  { pose proof (ring_end_range MSGQUEUE_SIZE eq_refl (mq_head q) ms) as He.
    rewrite <- Ht in He. destruct R as (Hl & _).
    rewrite Forall_lookup in Hcells. apply (Hcells (Z.to_nat (mq_tail q))).
    apply list_lookup_lookup_total_lt. rewrite Hl. apply Z2Nat.inj_lt; [apply He|apply Z.lt_le_incl; reflexivity|apply He]. }
  assert (Hs : length (take len data) = len) by (rewrite length_take; lia).
  assert (Hm : length (msg_data m) = MSG_MAX_DATA)
    by (cbn; rewrite length_splice; [exact Hold|rewrite Hold, Hs; exact Hlen]).
  split.
  - split; [|split; [|split; [|split]]]; cbn.
    + rewrite Ht. apply ring_rep_push; [reflexivity|exact R|exact Hlt].
    + apply Forall_app; split; [exact Hok|]. constructor; [split; [exact Hm|change (0 <= Z.of_nat len <= Z.of_nat MSG_MAX_DATA); lia]|constructor].
    + apply Forall_insert; [exact Hcells|exact Hm].
    + rewrite Ht. apply ring_end_push.
    + rewrite Hn, length_app. cbn. lia.
  - unfold msg_bytes, m. cbn [msg_len msg_data]. rewrite Nat2Z.id. unfold splice. rewrite take_0, app_nil_l.
    rewrite take_app_le by (rewrite Hs; lia). apply take_ge. rewrite Hs. lia.
Qed.

Lemma mq_rep_pop q m ms rw sw :
  mq_rep q (m :: ms) ->
  mq_msgs q !!! Z.to_nat (mq_head q) = m /\
  mq_rep (mk_msg_queue (mq_id q) (mq_msgs q) ((mq_head q + 1) mod MSGQUEUE_SIZE) (mq_tail q)
            (mq_num q - 1) rw sw) ms.
Proof.
  intros (R & Hok & Hcells & Ht & Hn). split.
  - apply list_lookup_total_correct, (ring_rep_head MSGQUEUE_SIZE ltac:(reflexivity) _ _ _ _ R).
  - split; [|split; [|split; [|split]]]; cbn.
    + apply (ring_rep_pop MSGQUEUE_SIZE ltac:(reflexivity) _ _ _ _ R).
    + apply Forall_inv_tail in Hok. exact Hok.
    + exact Hcells.
    + rewrite Ht. symmetry. apply ring_end_pop.
    + rewrite Hn. cbn [length]. lia.
Qed.

(** Changing only the wait queues of a message queue. *)
Lemma mq_rep_wait q ms rw sw :
  mq_rep q ms ->
  mq_rep (mk_msg_queue (mq_id q) (mq_msgs q) (mq_head q) (mq_tail q) (mq_num q) rw sw) ms.
Proof. intros H. exact H. Qed.

Lemma set_mq_frame st i :
  mq_live st i ->
  (forall v s', mq_at (set_sched s' (set_mq i v st)) i = v) /\
  (forall v s' j, mq_id v = mq_id (mq_at st i) ->
     mq_live (set_sched s' (set_mq i v st)) j <-> mq_live st j) /\
  (forall v s' j, j <> i -> mq_at (set_sched s' (set_mq i v st)) j = mq_at st j).
Proof.
  intros Hi. split; [|split]; intros v s'; [|intros j H..];
    change (set_sched s' (set_mq i v st)) with (set_mq i v (set_sched s' st)).
  - rewrite mq_at_set by apply Hi. apply decide_True. reflexivity.
  - unfold mq_live. rewrite mq_at_set by apply Hi. cbn. rewrite length_insert.
    change (mq_at (set_sched s' st)) with (mq_at st).
    case_decide; [subst; rewrite H|]; tauto.
  - rewrite mq_at_set by apply Hi. apply decide_False. congruence.
Qed.

(** [waits_ok] in the shape [set_mq_ok] wants, after one wait queue changed. *)
Lemma waits_ok_mq s st i rw sw W' Q :
  waits_ok s (in_use st) Q W' ->
  Q (WRecv i) = rw -> Q (WSend i) = sw ->
  (forall w, w <> WRecv i -> w <> WSend i -> Q w = queue_of st w) ->
  waits_ok s (in_use st) (upd (upd (queue_of st) (WRecv i) rw) (WSend i) sw) W'.
Proof.
  intros H E1 E2 E. eapply waits_ok_eq; [exact H|tauto| |reflexivity].
  intros w _. unfold upd. repeat case_decide; subst; auto. symmetry. auto.
Qed.

(** Waking the first waiter of a queue, if there is one. *)
Lemma wake_opt_ok st c rl W w :
  ipc_ok st c rl W -> running st c -> in_use st w ->
  exists q s', (match q_head (queue_of st w) with
                | Some _ => wake_first (queue_of st w) (sched_of st)
                | None => (queue_of st w, sched_of st)
                end) = (q, s') /\
    sched_ok s' c (rl ++ take 1 (W w)) /\
    waits_ok s' (in_use st) (upd (queue_of st) w q) (upd W w (drop 1 (W w))) /\
    state (task_at s' c) = TASK_RUNNING.
Proof.
  intros O Hr Hw. pose proof (wo_queue _ _ _ _ (io_waits _ _ _ _ O) w Hw) as (Hq & _).
  destruct (W w) as [|t l] eqn:HW; cbn [head] in Hq; rewrite Hq.
  - exists (queue_of st w), (sched_of st). split; [reflexivity|].
    cbn [take drop]. rewrite app_nil_r. split; [apply O|]. split; [|exact Hr].
    eapply waits_ok_eq; [apply O|tauto| |]; intros w'; unfold upd; case_decide; subst; auto.
  - destruct (wake_first_ok (sched_of st) c rl (in_use st) (queue_of st) W w t l
      (io_sched _ _ _ _ O) (io_waits _ _ _ _ O) Hr Hw HW) as (q & s' & E & B1 & B2 & _ & B4).
    exists q, s'. split; [exact E|]. cbn [take drop]. split; [exact B1|]. split; [exact B2|].
    rewrite B4, decide_False; [exact Hr|]. intros ->.
    assert (X : t ∈ W w) by (rewrite HW; apply list_elem_of_here).
    apply (wo_blocked _ _ _ _ (io_waits _ _ _ _ O)) in X as [_ X]. unfold running in Hr. rewrite Hr in X. discriminate.
Qed.

(** What a message operation on queue [i] leaves alone. *)
Definition mq_frame (st : ipc) (W : wq -> list nat) (i : nat) (st' : ipc) (W' : wq -> list nat) : Prop :=
  sem_table st' = sem_table st /\ (forall j, W' (WSem j) = W (WSem j)) /\
  (forall j, j <> i -> mq_at st' j = mq_at st j) /\
  mq_id (mq_at st' i) = mq_id (mq_at st i) /\ (forall j, mq_live st' j <-> mq_live st j).

Lemma set_mq_mq_frame st W i v s' W' :
  mq_live st i -> mq_id v = mq_id (mq_at st i) -> (forall j, W' (WSem j) = W (WSem j)) ->
  mq_frame st W i (set_sched s' (set_mq i v st)) W'.
Proof.
  intros Hi Hv HW. destruct (set_mq_frame st i Hi) as (F1 & F2 & F3).
  split; [reflexivity|]. split; [exact HW|]. split; [intros; auto|].
  split; [rewrite F1; exact Hv|intros; apply F2, Hv].
Qed.

Lemma send_loop_effect st c rl W i data len :
  ipc_ok st c rl W -> running st c -> mq_live st i -> (len <= MSG_MAX_DATA)%nat -> (len <= length data)%nat ->
  exists o st' rl' W', send_loop i data len st = Ret (o, st') /\ ipc_ok st' c rl' W' /\
    mq_frame st W i st' W' /\
    (if (length (mq_contents (mq_at st i)) <? Z.to_nat MSGQUEUE_SIZE)%nat
     then o = Done 0 /\ running st' c /\
          mq_contents (mq_at st' i) = mq_contents (mq_at st i) ++ [take len data] /\
          rl' = rl ++ take 1 (W (WRecv i)) /\ W' = upd W (WRecv i) (drop 1 (W (WRecv i)))
     else o = Blocked /\ state (task_at (sched_of st') c) = TASK_BLOCKED /\
          mq_contents (mq_at st' i) = mq_contents (mq_at st i) /\
          rl' = rl /\ W' = upd W (WSend i) (W (WSend i) ++ [c])).
Proof.
  intros O Hr Hi Hlen Hdata. destruct (io_messages _ _ _ _ O i Hi) as (ms & M).
  pose proof (mq_rep_bound _ _ M) as Hb. rewrite (mq_contents_rep _ _ M), length_fmap.
  destruct (set_mq_frame st i Hi) as (F1 & F2 & F3).
  unfold send_loop. rewrite (proj2 (proj2 (proj2 (proj2 M)))).
  replace (MSGQUEUE_SIZE <=? Z.of_nat (length ms))
    with (negb (length ms <? Z.to_nat MSGQUEUE_SIZE)%nat)
    by (destruct (Nat.ltb_spec (length ms) (Z.to_nat MSGQUEUE_SIZE));
        destruct (Z.leb_spec MSGQUEUE_SIZE (Z.of_nat (length ms))); unfold MSGQUEUE_SIZE in *; try reflexivity; lia).
  destruct (Nat.ltb_spec (length ms) (Z.to_nat MSGQUEUE_SIZE)) as [Hlt|Hge]; cbn [negb].
  - destruct (Nat.ltb_spec (length data) len) as [X|_]; [lia|].
    destruct (mq_rep_push (mq_at st i) ms len data (recv_wait (mq_at st i)) (send_wait (mq_at st i)) M
                ltac:(unfold MSGQUEUE_SIZE in *; lia) Hlen Hdata) as [P Pb].
    destruct (wake_opt_ok st c rl W (WRecv i) O Hr Hi) as (q & s' & E & B1 & B2 & B3).
    cbn [queue_of] in E. rewrite E, <- (proj2 (proj2 (proj2 (proj2 M)))).
    set (v := mk_msg_queue _ _ _ _ _ q _).
    set (m := mk_message _ _) in *.
    assert (Pv : mq_rep v (ms ++ [m])) by exact P.
    exists (Done 0), (set_sched s' (set_mq i v st)), (rl ++ take 1 (W (WRecv i))), (upd W (WRecv i) (drop 1 (W (WRecv i)))).
    split; [reflexivity|].
    assert (HW : forall j, upd W (WRecv i) (drop 1 (W (WRecv i))) (WSem j) = W (WSem j))
      by (intros; apply upd_other; discriminate).
    split; [|split; [|split; [reflexivity|split; [exact B3|split; [|auto]]]]].
    + apply (set_mq_ok st c rl W); try assumption; try reflexivity; [|eauto]. cbn [recv_wait send_wait v].
      eapply waits_ok_mq; [exact B2|apply upd_same|etransitivity; [apply upd_other; discriminate|reflexivity]|].
      intros w H1 H2. apply upd_other, H1.
    + apply set_mq_mq_frame; auto.
    + rewrite F1, (mq_contents_rep _ _ Pv), fmap_app. cbn. rewrite Pb. reflexivity.
  - rewrite (ro_current _ _ _ (proj2 (io_sched _ _ _ _ O))).
    pose proof (block_on_ok (sched_of st) c rl (in_use st) (queue_of st) W (WSend i)
      (io_sched _ _ _ _ O) (io_waits _ _ _ _ O) Hr Hi) as B. cbn [queue_of] in B.
    destruct (block_on c (send_wait (mq_at st i)) (sched_of st)) as [q s'].
    destruct B as (B1 & B2 & B3 & _). rewrite <- (proj2 (proj2 (proj2 (proj2 M)))).
    set (v := mk_msg_queue _ _ _ _ _ _ q).
    assert (Pv : mq_rep v ms) by exact M.
    exists Blocked, (set_sched s' (set_mq i v st)), rl, (upd W (WSend i) (W (WSend i) ++ [c])).
    split; [reflexivity|].
    assert (HW : forall j, upd W (WSend i) (W (WSend i) ++ [c]) (WSem j) = W (WSem j))
      by (intros; apply upd_other; discriminate).
    split; [|split; [|split; [reflexivity|split; [exact B3|split; [|auto]]]]].
    + apply (set_mq_ok st c rl W); try assumption; try reflexivity; [|eauto]. cbn [recv_wait send_wait v].
      eapply waits_ok_mq; [exact B2|etransitivity; [apply upd_other; discriminate|reflexivity]|apply upd_same|].
      intros w H1 H2. apply upd_other, H2.
    + apply set_mq_mq_frame; auto.
    + rewrite F1, (mq_contents_rep _ _ Pv). reflexivity.
Qed.

Lemma recv_loop_effect st c rl W i :
  ipc_ok st c rl W -> running st c -> mq_live st i ->
  exists o st' rl' W', recv_loop i st = (o, st') /\ ipc_ok st' c rl' W' /\ mq_frame st W i st' W' /\
    match mq_contents (mq_at st i) with
    | m :: ms => o = Done (0, m) /\ running st' c /\ mq_contents (mq_at st' i) = ms /\
        rl' = rl ++ take 1 (W (WSend i)) /\ W' = upd W (WSend i) (drop 1 (W (WSend i)))
    | [] => o = Blocked /\ state (task_at (sched_of st') c) = TASK_BLOCKED /\
        mq_contents (mq_at st' i) = [] /\ rl' = rl /\ W' = upd W (WRecv i) (W (WRecv i) ++ [c])
    end.
Proof.
  intros O Hr Hi. destruct (io_messages _ _ _ _ O i Hi) as (ms & M).
  rewrite (mq_contents_rep _ _ M). destruct (set_mq_frame st i Hi) as (F1 & F2 & F3).
  unfold recv_loop. rewrite (proj2 (proj2 (proj2 (proj2 M)))).
  destruct ms as [|m ms].
  - cbn [length Z.of_nat Z.leb Z.compare fmap list_fmap].
    rewrite (ro_current _ _ _ (proj2 (io_sched _ _ _ _ O))).
    pose proof (block_on_ok (sched_of st) c rl (in_use st) (queue_of st) W (WRecv i)
      (io_sched _ _ _ _ O) (io_waits _ _ _ _ O) Hr Hi) as B. cbn [queue_of] in B.
    destruct (block_on c (recv_wait (mq_at st i)) (sched_of st)) as [q s'].
    destruct B as (B1 & B2 & B3 & _).
    set (v := mk_msg_queue _ _ _ _ _ q _).
    assert (Pv : mq_rep v []).
    { destruct M as (M1 & M2 & M3 & M4 & M5). split; [exact M1|]. auto. }
    exists Blocked, (set_sched s' (set_mq i v st)), rl, (upd W (WRecv i) (W (WRecv i) ++ [c])).
    split; [reflexivity|].
    assert (HW : forall j, upd W (WRecv i) (W (WRecv i) ++ [c]) (WSem j) = W (WSem j))
      by (intros; apply upd_other; discriminate).
    split; [|split; [|split; [reflexivity|split; [exact B3|split; [|auto]]]]].
    + apply (set_mq_ok st c rl W); try assumption; try reflexivity; [|eauto]. cbn [recv_wait send_wait v].
      eapply waits_ok_mq; [exact B2|apply upd_same|etransitivity; [apply upd_other; discriminate|reflexivity]|].
      intros w H1 H2. apply upd_other, H1.
    + apply set_mq_mq_frame; auto.
    + rewrite F1, (mq_contents_rep _ _ Pv). reflexivity.
  - destruct (Z.leb_spec (Z.of_nat (length (m :: ms))) 0) as [X|_]; [cbn [length] in X; lia|].
    destruct (mq_rep_pop (mq_at st i) m ms (recv_wait (mq_at st i)) (send_wait (mq_at st i)) M) as [Hm P].
    destruct (wake_opt_ok st c rl W (WSend i) O Hr Hi) as (q & s' & E & B1 & B2 & B3).
    cbn [queue_of] in E. rewrite E, <- (proj2 (proj2 (proj2 (proj2 M)))), Hm.
    set (v := mk_msg_queue _ _ _ _ _ _ q).
    assert (Pv : mq_rep v ms) by exact P.
    exists (Done (0, msg_bytes m)), (set_sched s' (set_mq i v st)), (rl ++ take 1 (W (WSend i))), (upd W (WSend i) (drop 1 (W (WSend i)))).
    split; [reflexivity|].
    assert (HW : forall j, upd W (WSend i) (drop 1 (W (WSend i))) (WSem j) = W (WSem j))
      by (intros; apply upd_other; discriminate).
    split; [|split; [|rewrite fmap_cons; split; [reflexivity|split; [exact B3|split; [|auto]]]]].
    + apply (set_mq_ok st c rl W); try assumption; try reflexivity; [|eauto]. cbn [recv_wait send_wait v].
      eapply waits_ok_mq; [exact B2|etransitivity; [apply upd_other; discriminate|reflexivity]|apply upd_same|].
      intros w H1 H2. apply upd_other, H2.
    + apply set_mq_mq_frame; auto.
    + rewrite F1, (mq_contents_rep _ _ Pv). reflexivity.
Qed.

(** ** Creating and destroying *)

Lemma waits_ok_alloc s L L' Q Q' W (N : wq -> Prop) :
  waits_ok s L Q W -> (forall w, L' w <-> L w \/ N w) -> (forall w, N w -> ~ L w) ->
  (forall w, N w -> Q' w = queue_empty) -> (forall w, L w -> Q' w = Q w) ->
  waits_ok s L' Q' W.
Proof.
  intros [W1 W2 W3 W4] HL HN HE HQ. split; try assumption.
  - intros w Hw. apply HL in Hw as [Hw|Hw]; [rewrite HQ by exact Hw; apply W1, Hw|].
    rewrite HE, W2 by auto. apply queue_rep_empty.
  - intros w Hw. apply W2. intros X. apply Hw, HL. auto.
Qed.

Lemma waits_ok_free s L L' Q Q' W (N : wq -> Prop) :
  waits_ok s L Q W -> (forall w, L' w <-> L w /\ ~ N w) -> (forall w, N w -> W w = []) ->
  (forall w, Decision (N w)) -> (forall w, L' w -> Q' w = Q w) -> waits_ok s L' Q' W.
Proof.
  intros [W1 W2 W3 W4] HL HN HD HQ. split; try assumption.
  - intros w Hw. rewrite HQ by exact Hw. apply W1, HL, Hw.
  - intros w Hw. destruct (HD w) as [X|X]; [auto|]. apply W2. intros Y. apply Hw, HL. auto.
Qed.

(** The record stored by a successful [sem_create], and the new table. *)
Definition sem_new (st : ipc) (slot : nat) (nm : list Z) (v : Z) : ipc :=
  mk_ipc (<[slot := mk_sem (sem_count st) nm v queue_empty]> (sem_table st))
    (i32 (sem_count st + 1)) (mq_table st) (mq_count st) (sched_of st).

Lemma sem_new_ok st c rl W slot nm v :
  ipc_ok st c rl W -> (slot < length (sem_table st))%nat -> sem_id (sem_at st slot) < 0 ->
  sem_count st < INT_MAX -> 0 <= v ->
  let st' := sem_new st slot nm v in
  ipc_ok st' c rl W /\ sem_at st' slot = mk_sem (sem_count st) nm v queue_empty /\ W (WSem slot) = [] /\
  (forall j, sem_live st' j <-> sem_live st j \/ j = slot) /\
  (forall j, j <> slot -> sem_at st' j = sem_at st j).
Proof.
  intros [] Hs Hid Hc Hv st'. set (x := mk_sem (sem_count st) nm v queue_empty).
  assert (A : forall j, sem_at st' j = if decide (slot = j) then x else sem_at st j)
    by (intros; apply (sem_at_set slot x st j), Hs).
  assert (Hlen : length (sem_table st') = length (sem_table st)) by apply length_insert.
  destruct io_sem_ids0 as (I1 & I2 & I3).
  assert (Hdead : ~ sem_live st slot) by (intros [_ X]; lia).
  assert (Lv : forall j, sem_live st' j <-> sem_live st j \/ j = slot).
  { intros j. unfold sem_live. rewrite Hlen, A. case_decide as D; [subst j|].
    - split; [auto|intros _; split; [exact Hs|exact I1]].
    - split; [tauto|]. intros [X|X]; [exact X|congruence]. }
  assert (HW : W (WSem slot) = []) by (apply (wo_unused _ _ _ _ io_waits0); exact Hdead).
  assert (Ec : sem_count st' = sem_count st + 1) by (apply i32_small; unfold INT_MAX in Hc; lia).
  split; [|split; [rewrite A; apply decide_True; reflexivity|split; [exact HW|split; [exact Lv|]]]].
  2:{ intros j Hj. rewrite A. apply decide_False. congruence. }
  split; try assumption.
  - eapply (waits_ok_alloc _ _ _ _ _ _ (fun w => w = WSem slot)); [exact io_waits0|..].
    + intros [j|j|j]; cbn; [rewrite Lv|..]; intuition congruence.
    + intros w ->. exact Hdead.
    + intros w ->. cbn. rewrite A. rewrite decide_True; reflexivity.
    + intros [j|j|j] Hw; cbn; try reflexivity. rewrite A. case_decide; [subst; contradiction|reflexivity].
  - congruence.
  - split; [rewrite Ec; lia|]. split.
    + intros j Hj. rewrite Ec, A. apply Lv in Hj. case_decide as D; [cbn; lia|].
      destruct Hj as [Hj|Hj]; [specialize (I2 j Hj); lia|congruence].
    + intros j k Hj Hk. rewrite !A. apply Lv in Hj, Hk.
      repeat case_decide; subst; auto; cbn; intros E.
      * destruct Hk as [Hk|Hk]; [specialize (I2 k Hk); lia|auto].
      * destruct Hj as [Hj|Hj]; [specialize (I2 j Hj); lia|auto].
      * destruct Hj, Hk; try congruence. apply I3; assumption.
  - intros j Hj. rewrite A. case_decide as D; [subst; cbn; auto|].
    apply Lv in Hj as [Hj|Hj]; [apply io_value0, Hj|congruence].
Qed.

Lemma sem_find_slot_spec st :
  match sem_find_slot st with
  | Some slot => (slot < length (sem_table st))%nat /\ sem_id (sem_at st slot) < 0
  | None => forall j, (j < length (sem_table st))%nat -> sem_live st j
  end.
Proof.
  unfold sem_find_slot.
  pose proof (find_index_spec (fun s => sem_id s <? 0) (sem_table st) 0) as F.
  destruct (find_index _ (sem_table st) 0) as [k|].
  - destruct F as (j & -> & Hj & Hd). bool_prop. split; [exact Hj|exact Hd].
  - intros j Hj. split; [exact Hj|]. specialize (F j Hj). bool_prop. exact F.
Qed.

Lemma sem_create_effect st c rl W nm v :
  ipc_ok st c rl W -> sem_count st < INT_MAX ->
  match sem_create nm v st with
  | Ret (r, st') =>
      match sem_find_slot st with
      | None => r = -1 /\ st' = st
      | Some slot => r = sem_count st /\ exists b, st' = sem_new st slot b (Z.max 0 v) /\
          b = match nm with
              | Some cs => splice 0 (cs ++ [0]) (sem_name (sem_at st slot))
              | None => <[0%nat := 0]> (sem_name (sem_at st slot))
              end
      end
  | Oob => exists cs, nm = Some cs /\ (SEM_NAME_MAX <= length cs)%nat
  | Panic => False
  end.
Proof.
  intros O Hc. unfold sem_create. destruct (sem_find_slot st) as [slot|]; [|auto].
  assert (Ev : (if v <? 0 then 0 else v) = Z.max 0 v)
    by (destruct (Z.ltb_spec v 0); lia).
  destruct nm as [cs|].
  - destruct (Nat.leb_spec (length cs + 1) SEM_NAME_MAX) as [Hle|Hgt].
    + split; [reflexivity|]. eexists. split; [|reflexivity]. unfold sem_new. rewrite <- Ev. reflexivity.
    + exists cs. split; [reflexivity|lia].
  - split; [reflexivity|]. eexists. split; [|reflexivity]. unfold sem_new. rewrite <- Ev. reflexivity.
Qed.

(** Emptying a wait queue: the woken tasks join the ready queue in order. *)
Lemma wake_all_queue st c rl Q W s w :
  sched_ok s c rl -> waits_ok s (in_use st) Q W -> state (task_at s c) = TASK_RUNNING -> in_use st w ->
  exists s' q, wake_all wake_fuel (Q w) s = Some s' /\ sched_ok s' c (rl ++ W w) /\
    waits_ok s' (in_use st) (upd Q w q) (upd W w []) /\ state (task_at s' c) = TASK_RUNNING.
Proof.
  intros O Ws Hr Hw. pose proof (waiters_bound _ _ _ _ _ _ _ O Ws Hw) as Hf.
  destruct (wake_all_ok c (in_use st) w (W w) wake_fuel s rl Q W O Ws Hr Hw eq_refl Hf)
    as (s' & q & E & O' & Ws' & _ & S').
  exists s', q. split; [exact E|]. split; [exact O'|]. split; [exact Ws'|].
  rewrite S', decide_False; [exact Hr|]. intros X.
  apply (wo_blocked _ _ _ _ Ws) in X as [_ X]. rewrite Hr in X. discriminate.
Qed.

Lemma sem_destroy_effect st c rl W i :
  ipc_ok st c rl W -> running st c -> sem_live st i ->
  exists st', sem_destroy (sem_id (sem_at st i)) st = Some (0, st') /\
    ipc_ok st' c (rl ++ W (WSem i)) (upd W (WSem i) []) /\ running st' c /\
    (forall j, sem_live st' j <-> sem_live st j /\ j <> i) /\
    (forall j, j <> i -> sem_at st' j = sem_at st j) /\
    sem_at st' i = mk_sem (-1) (<[0%nat := 0]> (sem_name (sem_at st i))) 0 queue_empty /\
    mq_table st' = mq_table st.
Proof.
  intros O Hr Hi. destruct (sem_lookup_live st c rl W i O Hi) as [Hl _].
  unfold sem_destroy. rewrite Hl. destruct (Z.ltb_spec (sem_id (sem_at st i)) 0) as [X|_]; [destruct Hi; lia|].
  destruct (wake_all_queue st c rl (queue_of st) W (sched_of st) (WSem i)
     (io_sched _ _ _ _ O) (io_waits _ _ _ _ O) Hr Hi) as (s' & q & E & O' & Ws' & R').
  cbn [queue_of] in E. rewrite E.
  set (v := mk_sem (-1) (<[0%nat := 0]> (sem_name (sem_at st i))) 0 queue_empty).
  set (st' := set_sched s' (set_sem i v st)).
  assert (A : forall j, sem_at st' j = if decide (i = j) then v else sem_at st j)
    by (intros; apply sem_at_set, Hi).
  assert (Hlen : length (sem_table st') = length (sem_table st)) by apply length_insert.
  assert (Lv : forall j, sem_live st' j <-> sem_live st j /\ j <> i).
  { intros j. unfold sem_live. rewrite Hlen, A. case_decide as D; [subst; cbn; lia|].
    split; [|tauto]. intros X. split; [exact X|congruence]. }
  destruct O. destruct io_sem_ids0 as (I1 & I2 & I3).
  exists st'. split; [reflexivity|].
  split; [|split; [exact R'|split; [exact Lv|split; [|split; [rewrite A; apply decide_True; reflexivity|reflexivity]]]]].
  2:{ intros j Hj. rewrite A. apply decide_False. congruence. }
  split; try assumption.
  - eapply (waits_ok_free _ _ _ _ _ _ (fun w => w = WSem i)); [exact Ws'|..].
    + intros [j|j|j]; cbn; [rewrite Lv|..]; intuition congruence.
    + intros w ->. apply upd_same.
    + intros w. apply _.
    + intros [j|j|j] Hw; unfold upd; cbn; try (rewrite decide_False by discriminate; reflexivity).
      apply Lv in Hw as [_ Hne]. rewrite decide_False by congruence. rewrite A, decide_False by congruence. reflexivity.
  - congruence.
  - split; [exact I1|]. split.
    + intros j Hj. apply Lv in Hj as [Hj Hne]. rewrite A, decide_False by congruence. apply I2, Hj.
    + intros j k Hj Hk. apply Lv in Hj as [Hj Hjn], Hk as [Hk Hkn].
      rewrite !A, !decide_False by congruence. apply I3; assumption.
  - intros j Hj. apply Lv in Hj as [Hj Hne]. rewrite A, decide_False by congruence.
    rewrite upd_other by congruence. apply io_value0, Hj.
Qed.

Lemma mq_find_slot_spec st :
  match mq_find_slot st with
  | Some slot => (slot < length (mq_table st))%nat /\ mq_id (mq_at st slot) < 0
  | None => forall j, (j < length (mq_table st))%nat -> mq_live st j
  end.
Proof.
  unfold mq_find_slot.
  pose proof (find_index_spec (fun s => mq_id s <? 0) (mq_table st) 0) as F.
  destruct (find_index _ (mq_table st) 0) as [k|].
  - destruct F as (j & -> & Hj & Hd). bool_prop. split; [exact Hj|exact Hd].
  - intros j Hj. split; [exact Hj|]. specialize (F j Hj). bool_prop. exact F.
Qed.

(** Replacing a message queue by one that is empty of waiters, with identifier
    [id]: the common part of creation ([id] fresh) and destruction ([id < 0]). *)
Definition mq_put (st : ipc) (i : nat) (id count : Z) (s : sched) : ipc :=
  mk_ipc (sem_table st) (sem_count st)
    (<[i := mk_msg_queue id (mq_msgs (mq_at st i)) 0 0 0 queue_empty queue_empty]> (mq_table st)) count s.

Lemma mq_put_at st i id count s j :
  (i < length (mq_table st))%nat ->
  mq_at (mq_put st i id count s) j =
  if decide (i = j) then mk_msg_queue id (mq_msgs (mq_at st i)) 0 0 0 queue_empty queue_empty else mq_at st j.
Proof. intros Hi. apply (mq_at_set i _ st j Hi). Qed.

Lemma mq_rep_nil q :
  length (mq_msgs q) = Z.to_nat MSGQUEUE_SIZE ->
  Forall (fun m => length (msg_data m) = MSG_MAX_DATA) (mq_msgs q) ->
  mq_head q = 0 -> mq_tail q = 0 -> mq_num q = 0 -> mq_rep q [].
Proof.
  intros Hl Hc Hh Ht Hn. split; [|split; [constructor|split; [exact Hc|split]]].
  - apply ring_rep_empty; [reflexivity|exact Hl|rewrite Hh; split; [lia|reflexivity]].
  - rewrite Ht, Hh. reflexivity.
  - exact Hn.
Qed.

Lemma mq_put_buffers st c rl W i id count s :
  ipc_ok st c rl W -> (i < length (mq_table st))%nat ->
  forall j, (j < length (mq_table (mq_put st i id count s)))%nat ->
    length (mq_msgs (mq_at (mq_put st i id count s) j)) = Z.to_nat MSGQUEUE_SIZE /\
    Forall (fun m => length (msg_data m) = MSG_MAX_DATA) (mq_msgs (mq_at (mq_put st i id count s) j)).
Proof.
  intros O Hi j Hj. cbn in Hj. rewrite length_insert in Hj. rewrite mq_put_at by exact Hi.
  case_decide; [subst|]; apply (io_buffers _ _ _ _ O); assumption.
Qed.

Lemma msg_queue_create_effect st c rl W :
  ipc_ok st c rl W -> mq_count st < INT_MAX ->
  match mq_find_slot st with
  | None => msg_queue_create st = (-1, st)
  | Some slot =>
      exists st', msg_queue_create st = (mq_count st, st') /\ ipc_ok st' c rl W /\
        mq_contents (mq_at st' slot) = [] /\ mq_id (mq_at st' slot) = mq_count st /\
        (forall j, mq_live st' j <-> mq_live st j \/ j = slot) /\ ~ mq_live st slot /\
        (forall j, j <> slot -> mq_at st' j = mq_at st j) /\
        sem_table st' = sem_table st /\ sched_of st' = sched_of st
  end.
Proof.
  intros O Hc. unfold msg_queue_create. pose proof (mq_find_slot_spec st) as F.
  destruct (mq_find_slot st) as [slot|]; [|reflexivity]. destruct F as [Hs Hid].
  set (st' := mq_put st slot (mq_count st) (i32 (mq_count st + 1)) (sched_of st)).
  exists st'. split; [reflexivity|].
  pose proof (mq_put_buffers st c rl W slot (mq_count st) (i32 (mq_count st + 1)) (sched_of st) O Hs) as B.
  pose proof (fun j => mq_put_at st slot (mq_count st) (i32 (mq_count st + 1)) (sched_of st) j Hs) as A.
  fold st' in A, B. destruct O. destruct io_mq_ids0 as (I1 & I2 & I3).
  assert (Hlen : length (mq_table st') = length (mq_table st)) by apply length_insert.
  assert (Hdead : ~ mq_live st slot) by (intros [_ X]; lia).
  assert (Lv : forall j, mq_live st' j <-> mq_live st j \/ j = slot).
  { intros j. unfold mq_live. rewrite Hlen, A. case_decide as D; [subst j|].
    - split; [auto|intros _; split; [exact Hs|exact I1]].
    - split; [tauto|]. intros [X|X]; [exact X|congruence]. }
  assert (Ec : mq_count st' = mq_count st + 1) by (apply i32_small; unfold INT_MAX in Hc; lia).
  assert (E0 : mq_contents (mq_at st' slot) = [] /\ mq_id (mq_at st' slot) = mq_count st)
    by (rewrite A, decide_True by reflexivity; split; reflexivity).
  split; [|split; [apply E0|split; [apply E0|split; [exact Lv|split; [exact Hdead|split; [|auto]]]]]].
  2:{ intros j Hj. rewrite A. apply decide_False. congruence. }
  split; try assumption.
  - eapply (waits_ok_alloc _ _ _ _ _ _ (fun w => w = WRecv slot \/ w = WSend slot)); [exact io_waits0|..].
    + intros [j|j|j]; cbn; rewrite ?Lv; intuition congruence.
    + intros w [-> | ->]; exact Hdead.
    + intros w [-> | ->]; cbn; rewrite A; rewrite decide_True; reflexivity.
    + intros [j|j|j] Hw; cbn; try reflexivity; rewrite A; case_decide; solve [subst; contradiction|reflexivity].
  - congruence.
  - split; [rewrite Ec; lia|]. split.
    + intros j Hj. rewrite Ec, A. apply Lv in Hj. case_decide as D; [cbn; lia|].
      destruct Hj as [Hj|Hj]; [specialize (I2 j Hj); lia|congruence].
    + intros j k Hj Hk. rewrite !A. apply Lv in Hj, Hk.
      repeat case_decide; subst; auto; cbn; intros E.
      * destruct Hk as [Hk|Hk]; [specialize (I2 k Hk); lia|auto].
      * destruct Hj as [Hj|Hj]; [specialize (I2 j Hj); lia|auto].
      * destruct Hj, Hk; try congruence. apply I3; assumption.
  - intros j Hj. apply Lv in Hj as [Hj|Hj].
    + destruct (io_messages0 j Hj) as [ms M]. rewrite A. case_decide; [subst; contradiction|eauto].
    + subst j. exists []. destruct (B slot) as [B1 B2]; [rewrite Hlen; exact Hs|].
      apply mq_rep_nil; try assumption; rewrite A, decide_True by reflexivity; reflexivity.
Qed.

Lemma msg_queue_destroy_effect st c rl W i :
  ipc_ok st c rl W -> running st c -> mq_live st i ->
  exists st', msg_queue_destroy (mq_id (mq_at st i)) st = Some (0, st') /\
    ipc_ok st' c (rl ++ W (WRecv i) ++ W (WSend i)) (upd (upd W (WRecv i) []) (WSend i) []) /\ running st' c /\
    (forall j, mq_live st' j <-> mq_live st j /\ j <> i) /\
    (forall j, j <> i -> mq_at st' j = mq_at st j) /\
    sem_table st' = sem_table st.
Proof.
  intros O Hr Hi. destruct (mq_lookup_live st c rl W i O Hi) as [Hl Hb].
  unfold msg_queue_destroy. rewrite Hb, Hl.
  destruct (wake_all_queue st c rl (queue_of st) W (sched_of st) (WRecv i)
     (io_sched _ _ _ _ O) (io_waits _ _ _ _ O) Hr Hi) as (s1 & q1 & E1 & O1 & Ws1 & R1).
  cbn [queue_of] in E1. rewrite E1.
  destruct (wake_all_queue st c _ _ _ s1 (WSend i) O1 Ws1 R1 Hi) as (s2 & q2 & E2 & O2 & Ws2 & R2).
  rewrite upd_other in E2 by discriminate. rewrite (upd_other W) in O2 by discriminate. cbn [queue_of] in E2. rewrite E2.
  rewrite <- app_assoc in O2.
  set (st' := mq_put st i (-1) (mq_count st) s2).
  exists st'. split; [reflexivity|].
  assert (Hs : (i < length (mq_table st))%nat) by apply Hi.
  pose proof (mq_put_buffers st c rl W i (-1) (mq_count st) s2 O Hs) as B.
  pose proof (fun j => mq_put_at st i (-1) (mq_count st) s2 j Hs) as A.
  fold st' in A, B. destruct O. destruct io_mq_ids0 as (I1 & I2 & I3).
  assert (Hlen : length (mq_table st') = length (mq_table st)) by apply length_insert.
  assert (Lv : forall j, mq_live st' j <-> mq_live st j /\ j <> i).
  { intros j. unfold mq_live. rewrite Hlen, A. case_decide as D; [subst; cbn; lia|].
    split; [|tauto]. intros X. split; [exact X|congruence]. }
  split; [|split; [exact R2|split; [exact Lv|split; [|reflexivity]]]].
  2:{ intros j Hj. rewrite A. apply decide_False. congruence. }
  split; try assumption.
  - eapply (waits_ok_free _ _ _ _ _ _ (fun w => w = WRecv i \/ w = WSend i)); [exact Ws2|..].
    + intros [j|j|j]; cbn; rewrite ?Lv; intuition congruence.
    + intros w [-> | ->]; [rewrite upd_other by discriminate|]; apply upd_same.
    + intros w. apply _.
    + intros [j|j|j] Hw; unfold upd; cbn; rewrite ?decide_False by discriminate; [reflexivity|..];
        apply Lv in Hw as [_ Hne]; rewrite A, !decide_False by congruence; reflexivity.
  - congruence.
  - split; [exact I1|]. split.
    + intros j Hj. apply Lv in Hj as [Hj Hne]. rewrite A, decide_False by congruence. apply I2, Hj.
    + intros j k Hj Hk. apply Lv in Hj as [Hj Hjn], Hk as [Hk Hkn].
      rewrite !A, !decide_False by congruence. apply I3; assumption.
  - intros j Hj. apply Lv in Hj as [Hj Hne]. rewrite A, decide_False by congruence. apply io_messages0, Hj.
Qed.

(** ** The timer, and the length of a message *)

(** The timer interrupt, seen from here. *)
Definition ipc_tick (regs : Z) (st : ipc) : ipc := set_sched (snd (scheduler_tick 32 regs (sched_of st))) st.

(** [len > MSG_MAX_DATA ? MSG_MAX_DATA : len] *)
Definition cap_len (len : Z) : nat := if Z.of_nat MSG_MAX_DATA <? len then MSG_MAX_DATA else Z.to_nat len.

Lemma lookup_total_map {A} `{Inhabited A} (f : A -> A) l i :
  (i < length l)%nat -> (f <$> l) !!! i = f (l !!! i).
Proof. apply list_lookup_total_fmap. Qed.

(** After [ipc_init] nothing is in use. *)
Lemma ipc_init_ok st c rl :
  sched_ok (sched_of st) c rl -> length (sem_table st) = MAX_SEMS -> length (mq_table st) = MAX_MSGQUEUES ->
  sem_count st = 0 -> mq_count st = 0 ->
  Forall (fun q => length (mq_msgs q) = Z.to_nat MSGQUEUE_SIZE /\
                   Forall (fun m => length (msg_data m) = MSG_MAX_DATA) (mq_msgs q)) (mq_table st) ->
  ipc_ok (ipc_init st) c rl (fun _ => []).
Proof.
  intros O Ls Lm Cs Cm B. set (st' := ipc_init st).
  assert (Hs : forall i, ~ sem_live st' i).
  { intros i [Hi Hid]. cbn in Hi. rewrite length_fmap in Hi. unfold sem_at in Hid. cbn in Hid.
    rewrite lookup_total_map in Hid by exact Hi. cbn in Hid. lia. }
  assert (Hm : forall i, ~ mq_live st' i).
  { intros i [Hi Hid]. cbn in Hi. rewrite length_fmap in Hi. unfold mq_at in Hid. cbn in Hid.
    rewrite lookup_total_map in Hid by exact Hi. cbn in Hid. lia. }
  split; try (intros i Hi; exfalso; solve [exact (Hs i Hi)|exact (Hm i Hi)]).
  - exact O.
  - split.
    + intros [i|i|i] Hi; exfalso; [exact (Hs i Hi)|exact (Hm i Hi)|exact (Hm i Hi)].
    + reflexivity.
    + intros w i Hi. inversion Hi.
    + intros w w' i Hi. inversion Hi.
  - cbn. rewrite length_fmap. exact Ls.
  - cbn. rewrite length_fmap. exact Lm.
  - split; [cbn; lia|]. split; intros i; [|intros j]; intros Hi; exfalso; exact (Hs i Hi).
  - split; [cbn; lia|]. split; intros i; [|intros j]; intros Hi; exfalso; exact (Hm i Hi).
  - intros i Hi. cbn in Hi. rewrite length_fmap in Hi. unfold mq_at. cbn.
    rewrite lookup_total_map by exact Hi. cbn.
    rewrite Forall_lookup in B. apply (B i), list_lookup_lookup_total_lt, Hi.
Qed.

(** ** Properties *)

(** C19: [sem_wait] and [sem_post] implement a counting semaphore with
    first-come first-served waiters: a wait takes a token, or queues the caller
    behind the waiters and blocks it; a post stores a token, or moves the first
    waiter to the end of the ready queue. *)
Theorem semaphore_operations st c rl W i :
  ipc_ok st c rl W -> running st c -> sem_live st i -> sem_value (sem_at st i) < INT_MAX ->
  (exists o st1 W1, sem_wait (sem_id (sem_at st i)) st = (o, st1) /\ ipc_ok st1 c rl W1 /\
     sem_view st1 W1 i = down c (sem_view st W i) /\
     (if 0 <? sem_value (sem_at st i) then o = Done 0 /\ running st1 c
      else o = Blocked /\ state (task_at (sched_of st1) c) = TASK_BLOCKED) /\
     (forall j, j <> i -> sem_at st1 j = sem_at st j /\ W1 (WSem j) = W (WSem j))) /\
  (exists st2 W2, sem_post (sem_id (sem_at st i)) st = (0, st2) /\
     ipc_ok st2 c (rl ++ take 1 (W (WSem i))) W2 /\ running st2 c /\
     sem_view st2 W2 i = up (sem_view st W i) /\
     (forall j, j <> i -> sem_at st2 j = sem_at st j /\ W2 (WSem j) = W (WSem j))).
Proof.
  intros O Hr Hi Hm. split.
  - destruct (sem_wait_effect st c rl W i O Hr Hi) as (o & s & W' & H1 & H2 & H3 & H4 & H5 & _).
    exists o, s, W'. auto.
  - destruct (sem_post_effect st c rl W i O Hr Hi Hm) as (s & W' & H1 & H2 & H3 & H4 & H5 & _).
    exists s, W'. auto.
Qed.

(** a send caps the message at 64 bytes and appends it, waking the
    first blocked receiver, or blocks the caller behind the other senders when
    64 messages are waiting; a receive takes the oldest message, waking the
    first blocked sender, or blocks the caller when there is none. *)
Theorem message_operations st c rl W i data len :
  ipc_ok st c rl W -> running st c -> mq_live st i -> (cap_len len <= length data)%nat ->
  (exists o st1 rl1 W1, msg_queue_send (mq_id (mq_at st i)) (Some data) len st = Ret (o, st1) /\
     ipc_ok st1 c rl1 W1 /\ mq_frame st W i st1 W1 /\
     (if (length (mq_contents (mq_at st i)) <? 64)%nat
      then o = Done 0 /\ running st1 c /\
           mq_contents (mq_at st1 i) = mq_contents (mq_at st i) ++ [take (cap_len len) data] /\
           rl1 = rl ++ take 1 (W (WRecv i)) /\ W1 (WRecv i) = drop 1 (W (WRecv i))
      else o = Blocked /\ state (task_at (sched_of st1) c) = TASK_BLOCKED /\
           mq_contents (mq_at st1 i) = mq_contents (mq_at st i) /\
           rl1 = rl /\ W1 (WSend i) = W (WSend i) ++ [c])) /\
  (exists o st2 rl2 W2, msg_queue_recv (mq_id (mq_at st i)) true st = (o, st2) /\
     ipc_ok st2 c rl2 W2 /\ mq_frame st W i st2 W2 /\
     match mq_contents (mq_at st i) with
     | m :: ms => o = Done (0, m) /\ running st2 c /\ mq_contents (mq_at st2 i) = ms /\
         rl2 = rl ++ take 1 (W (WSend i)) /\ W2 (WSend i) = drop 1 (W (WSend i))
     | [] => o = Blocked /\ state (task_at (sched_of st2) c) = TASK_BLOCKED /\
         mq_contents (mq_at st2 i) = [] /\ rl2 = rl /\ W2 (WRecv i) = W (WRecv i) ++ [c]
     end).
Proof.
  intros O Hr Hi Hd. destruct (mq_lookup_live st c rl W i O Hi) as [Hl Hb].
  assert (Hc : (cap_len len <= MSG_MAX_DATA)%nat)
    by (unfold cap_len; destruct (Z.ltb_spec (Z.of_nat MSG_MAX_DATA) len); lia).
  split.
  - unfold msg_queue_send. rewrite Hb, Hl. fold (cap_len len).
    destruct (send_loop_effect st c rl W i data (cap_len len) O Hr Hi Hc Hd) as (o & s & rl' & W' & H1 & H2 & H3 & H4).
    exists o, s, rl', W'. split; [exact H1|]. split; [exact H2|]. split; [exact H3|].
    change (Z.to_nat MSGQUEUE_SIZE) with 64%nat in H4.
    destruct (_ <? _)%nat; destruct H4 as (A & B & C & D & E); subst W'; rewrite upd_same; auto.
  - unfold msg_queue_recv. rewrite Hb, Hl. cbn [orb negb].
    destruct (recv_loop_effect st c rl W i O Hr Hi) as (o & s & rl' & W' & H1 & H2 & H3 & H4).
    exists o, s, rl', W'. split; [exact H1|]. split; [exact H2|]. split; [exact H3|].
    destruct (mq_contents (mq_at st i)); destruct H4 as (A & B & C & D & E); subst W'; rewrite upd_same; auto.
Qed.

(** destroying a semaphore or a message queue makes every task that
    waits on it ready, in order (receivers before senders), leaves nobody
    waiting, and frees the slot. *)
Theorem destroy_wakes_in_order st c rl W i j :
  ipc_ok st c rl W -> running st c -> sem_live st i -> mq_live st j ->
  (exists st1, sem_destroy (sem_id (sem_at st i)) st = Some (0, st1) /\
     ipc_ok st1 c (rl ++ W (WSem i)) (upd W (WSem i) []) /\ running st1 c /\
     (forall k, sem_live st1 k <-> sem_live st k /\ k <> i)) /\
  (exists st2, msg_queue_destroy (mq_id (mq_at st j)) st = Some (0, st2) /\
     ipc_ok st2 c (rl ++ W (WRecv j) ++ W (WSend j)) (upd (upd W (WRecv j) []) (WSend j) []) /\
     running st2 c /\ (forall k, mq_live st2 k <-> mq_live st k /\ k <> j)).
Proof.
  intros O Hr Hi Hj. split.
  - destruct (sem_destroy_effect st c rl W i O Hr Hi) as (s & H1 & H2 & H3 & H4 & _). eauto.
  - destruct (msg_queue_destroy_effect st c rl W j O Hr Hj) as (s & H1 & H2 & H3 & H4 & _). eauto.
Qed.

(** when no other task is ready, the timer resumes the task that
    [sem_wait] has just blocked: the call returns 0 although the value is still
    0, and the running task stays in the wait queue. *)
Theorem sem_wait_without_token st c W i regs :
  ipc_ok st c [] W -> running st c -> sem_live st i -> sem_value (sem_at st i) = 0 ->
  exists st1, sem_wait (sem_id (sem_at st i)) st = (Blocked, st1) /\ sem_wait_resumed = 0 /\
    let st2 := ipc_tick regs st1 in
    running st2 c /\ sem_value (sem_at st2 i) = 0 /\ q_tail (sem_waiters (sem_at st2 i)) = Some c.
Proof.
  intros O Hr Hi Hv. destruct (sem_wait_effect st c [] W i O Hr Hi) as (o & st1 & W1 & E & O1 & V & B & _ & Lv & _).
  rewrite Hv in B. destruct B as [-> B]. exists st1. split; [exact E|]. split; [reflexivity|].
  unfold sem_view, down in V. cbn [fst snd] in V. rewrite Hv in V. injection V as V1 V2. intros st2.
  destruct (tick_spec (sched_of st1) c [] regs (io_sched _ _ _ _ O1)) as (f & d & s' & Et & _ & _ & _ & M).
  unfold ring in M. rewrite decide_False in M by (rewrite B; discriminate).
  destruct M as (_ & _ & _ & _ & M). rewrite decide_False in M by (rewrite B; discriminate).
  assert (E2 : st2 = set_sched s' st1) by (unfold st2, ipc_tick; rewrite Et; reflexivity).
  rewrite E2. split; [exact (proj2 M)|]. split; [exact V1|].
  destruct (wo_queue _ _ _ _ (io_waits _ _ _ _ O1) (WSem i)) as (_ & Hq & _); [apply Lv, Hi|].
  change (queue_of st1 (WSem i)) with (sem_waiters (sem_at st1 i)) in Hq.
  change (sem_at (set_sched s' st1) i) with (sem_at st1 i).
  rewrite Hq, V2. apply last_snoc.
Qed.

(** ** The properties on concrete systems *)

Definition boot_ipc (s : sched) : ipc :=
  ipc_init (mk_ipc (replicate MAX_SEMS sem_zero) 0 (replicate MAX_MSGQUEUES mq_zero) 0 s).

(** One semaphore of value [v] and one message queue. *)
Definition demo_ipc (v : Z) (s : sched) : ipc :=
  match sem_create None v (boot_ipc s) with
  | Ret (_, st) => snd (msg_queue_create st)
  | _ => boot_ipc s
  end.

Lemma demo_ipc_ok v s c rl :
  sched_ok s c rl ->
  ipc_ok (demo_ipc v s) c rl (fun _ => []) /\ sem_live (demo_ipc v s) 0 /\ mq_live (demo_ipc v s) 0 /\
  sem_value (sem_at (demo_ipc v s) 0) = Z.max 0 v /\ sched_of (demo_ipc v s) = s.
Proof.
  intros O.
  assert (O0 : ipc_ok (boot_ipc s) c rl (fun _ => [])).
  { apply ipc_init_ok; try assumption; try reflexivity.
    apply Forall_replicate. split; [reflexivity|]. apply Forall_replicate. reflexivity. }
  unfold demo_ipc. pose proof (sem_create_effect (boot_ipc s) c rl (fun _ => []) None v O0 eq_refl) as H.
  destruct (sem_create None v (boot_ipc s)) as [[r st]| |] eqn:E;
    [|contradiction|destruct H as (cs & H & _); discriminate].
  change (sem_find_slot (boot_ipc s)) with (Some 0%nat) in H. cbn iota in H.
  destruct H as (_ & b & -> & _).
  destruct (sem_new_ok (boot_ipc s) c rl (fun _ => []) 0 b (Z.max 0 v) O0) as (O1 & A1 & _ & L1 & _);
    [vm_compute; lia|reflexivity|reflexivity|lia|].
  set (st1 := sem_new (boot_ipc s) 0 b (Z.max 0 v)) in *.
  pose proof (msg_queue_create_effect st1 c rl (fun _ => []) O1 eq_refl) as H.
  change (mq_find_slot st1) with (Some 0%nat) in H. cbn iota in H.
  destruct H as (st2 & E2 & O2 & _ & _ & L2 & _ & _ & T2 & S2). rewrite E2. cbn [snd].
  split; [exact O2|]. unfold sem_live, sem_at. rewrite T2.
  split; [apply (proj2 (L1 0%nat)); auto|]. split; [apply L2; auto|]. split; [|exact S2].
  change (sem_value (sem_at st1 0) = Z.max 0 v). rewrite A1. reflexivity.
Qed.

Lemma idle_ok : sched_ok (scheduler_init 0x114000 blank_table) 0 [] /\
  state (task_at (scheduler_init 0x114000 blank_table) 0) = TASK_RUNNING.
Proof. split; [apply (scheduler_init_ok 0x114000 blank_table eq_refl)|reflexivity]. Qed.

Lemma semaphore_operations_witness :
  sem_value (sem_at (demo_ipc 0 three_tasks) 0) = 0 /\
  exists st, sem_wait (sem_id (sem_at (demo_ipc 0 three_tasks) 0)) (demo_ipc 0 three_tasks) = (Blocked, st).
Proof.
  destruct three_tasks_ok as [O R]. destruct (demo_ipc_ok 0 three_tasks _ _ O) as (OI & L & _ & V & S).
  split; [exact V|].
  destruct (semaphore_operations (demo_ipc 0 three_tasks) 0 _ _ 0 OI) as [(o & st & W & E & _ & _ & B & _) _].
  - unfold running. rewrite S. exact R.
  - exact L.
  - rewrite V. reflexivity.
  - rewrite V in B. destruct B as [-> _]. exists st. exact E.
Defined.

Lemma message_operations_witness :
  exists st, msg_queue_recv (mq_id (mq_at (demo_ipc 1 three_tasks) 0)) true (demo_ipc 1 three_tasks) = (Blocked, st) /\
    state (task_at (sched_of st) 0) = TASK_BLOCKED.
Proof.
  destruct three_tasks_ok as [O R]. destruct (demo_ipc_ok 1 three_tasks _ _ O) as (OI & _ & L & _ & S).
  destruct (message_operations (demo_ipc 1 three_tasks) 0 _ _ 0 [104; 105] 2 OI) as [_ (o & st & rl & W & E & _ & _ & B)].
  - unfold running. rewrite S. exact R.
  - exact L.
  - vm_compute. lia.
  - change (mq_contents (mq_at (demo_ipc 1 three_tasks) 0)) with (@nil (list Z)) in B.
    destruct B as (-> & B & _). exists st. auto.
Defined.

Lemma destroy_wakes_in_order_witness :
  exists st, sem_destroy (sem_id (sem_at (demo_ipc 1 three_tasks) 0)) (demo_ipc 1 three_tasks) = Some (0, st) /\
    ~ sem_live st 0.
Proof.
  destruct three_tasks_ok as [O R]. destruct (demo_ipc_ok 1 three_tasks _ _ O) as (OI & L & Lm & _ & S).
  destruct (destroy_wakes_in_order (demo_ipc 1 three_tasks) 0 _ _ 0 0 OI) as [(st & E & _ & _ & H) _].
  - unfold running. rewrite S. exact R.
  - exact L.
  - exact Lm.
  - exists st. split; [exact E|]. rewrite H. tauto.
Defined.

Lemma sem_wait_without_token_witness :
  let s0 := demo_ipc 0 (scheduler_init 0x114000 blank_table) in
  exists st1, sem_wait (sem_id (sem_at s0 0)) s0 = (Blocked, st1) /\ running (ipc_tick 0x1FFF0 st1) 0.
Proof.
  intros s0. destruct idle_ok as [O R].
  destruct (demo_ipc_ok 0 _ _ _ O) as (OI & L & _ & V & S).
  destruct (sem_wait_without_token s0 0 _ 0 0x1FFF0 OI) as (st1 & E & _ & H & _).
  - unfold running. unfold s0. rewrite S. exact R.
  - exact L.
  - exact V.
  - exists st1. auto.
Defined.
