(* ===== verification/Tasking.v ===== *)
(** * Executions of tasks, semaphores and message queues (scheduler.c with ipc.c)

    A step relation over the state of Ipc.v, which contains that of Scheduler.v:
    the task on the CPU makes an IPC call, repeats the loop of a message
    operation in which it was blocked, creates a task, forks, exits or waits for
    a child; and the timer interrupt, or the [int $32] of a call that blocked,
    runs [scheduler_tick], in any state whatever.  Each step carries an event.

    Two things the code allows break its own queues, and their steps carry the
    event [Hazard]: a task is made runnable by something else than its wait
    queue while it is still linked in that queue (the timer finds nobody ready
    when the current task has just blocked in [sem_wait], or a child exits while
    its parent waits for a semaphore), and a blocked sender or receiver repeats
    its loop on a message queue that was destroyed meanwhile.  The theorems say
    what holds of every execution and what holds until a hazard happens;
    [zombie_revived] shows that the difference is real. *)

From S2P Require Import Prelude CString Ring Memory Paging Scheduler Ipc.
Local Open Scope Z_scope.

(** ** Events *)

Inductive event : Type :=
  | Took (id : Z)
  | Queued (id : Z)
  | Stored (id : Z)
  | Handed (id : Z)
  | SemDestroyed (id : Z)
  | Sent (id : Z) (bytes : list Z)
  | Received (id : Z) (bytes : list Z)
  | MqDestroyed (id : Z)
  | Exited (p : Z)
  | Reaped (p : Z)
  | Hazard
  | Internal.

(** [sem_wait] took a token or queued the caller; [sem_post] handed its token to
    a waiter or stored it. *)
Definition wait_event (id : Z) (o : outcome Z) : event :=
  match o with Done r => if r =? 0 then Took id else Internal | Blocked => Queued id end.

Definition post_event (id r : Z) (st : ipc) : event :=
  if r =? 0 then
    match sem_lookup id st with
    | Some i => match q_head (sem_waiters (sem_at st i)) with Some _ => Handed id | None => Stored id end
    | None => Internal
    end
  else Internal.

Definition sent_event (id : Z) (bytes : list Z) (o : outcome Z) : event :=
  match o with Done r => if r =? 0 then Sent id bytes else Internal | Blocked => Internal end.
Definition recv_event (id : Z) (o : outcome (Z * list Z)) : event :=
  match o with Done (r, bytes) => if r =? 0 then Received id bytes else Internal | Blocked => Internal end.

(** The repeated loop works on the queue in slot [i], if one is still there. *)
Definition in_slot (i : nat) (st : ipc) (e : event) : event :=
  if 0 <=? mq_id (mq_at st i) then e else Hazard.

(** *** Who is linked in a wait queue *)

Fixpoint chain (fuel : nat) (ts : list task) (h : option nat) : list nat :=
  match fuel, h with
  | S fuel, Some t => t :: chain fuel ts (next (ts !!! t))
  | _, _ => []
  end.

Definition waits_in (st : ipc) (t : nat) (q : queue) : bool :=
  bool_decide (t ∈ chain wake_fuel (task_table (sched_of st)) (q_head q)).

Definition queued (st : ipc) (t : nat) : bool :=
  existsb (fun m => (0 <=? sem_id m) && waits_in st t (sem_waiters m)) (sem_table st) ||
  existsb (fun q => (0 <=? mq_id q) && (waits_in st t (recv_wait q) || waits_in st t (send_wait q)))
    (mq_table st).

(** The timer finds the current task blocked in a queue and nobody ready. *)
Definition tick_event (st : ipc) : event :=
  match current_task (sched_of st), q_head (ready (sched_of st)) with
  | Some c, None =>
      if (state (task_at (sched_of st) c) =? TASK_BLOCKED) && queued st c then Hazard else Internal
  | _, _ => Internal
  end.

(** The parent that [task_exit] wakes is linked in a queue. *)
Definition exit_event (st : ipc) : event :=
  match current_task (sched_of st) with
  | None => Internal
  | Some c =>
      let t := task_at (sched_of st) c in
      match (if 0 <=? parent_pid t then task_from_pid (parent_pid t) (sched_of st) else None) with
      | Some p => if (state (task_at (sched_of st) p) =? TASK_BLOCKED) && queued st p
                  then Hazard else Exited (pid t)
      | None => Exited (pid t)
      end
  end.

Definition reap_event (r : wait_result) : event :=
  match r with Waited p => if 0 <=? p then Reaped p else Internal | WaitBlocked => Internal end.

(** ** Steps *)

(** The task on the CPU is not between a blocking call, or its exit, and the
    [int $32] that follows. *)
Definition awake (st : ipc) : Prop :=
  forall c, current_task (sched_of st) = Some c ->
    state (task_at (sched_of st) c) <> TASK_BLOCKED /\ state (task_at (sched_of st) c) <> TASK_ZOMBIE.

(** An operation of the scheduler that also uses the memory manager: the memory
    is any memory in which it returns. *)
Definition runs {A} (f : kop A) (st : ipc) (r : A) (st' : ipc) : Prop :=
  exists k k', sch k = sched_of st /\ f k = Ret (r, k') /\ st' = set_sched (sch k') st.

(** A counter at [INT_MAX] is not incremented (signed overflow is undefined), and
    a caller's buffer has the bytes it announces. *)
Inductive sys_step : ipc -> event -> ipc -> Prop :=
  | step_sem_create st nm v r st' : awake st -> sem_count st < INT_MAX ->
      sem_create nm v st = Ret (r, st') -> sys_step st Internal st'
  | step_sem_wait st id o st' : awake st ->
      sem_wait id st = (o, st') -> sys_step st (wait_event id o) st'
  | step_sem_post st id r st' : awake st ->
      (forall i, sem_live st i -> sem_value (sem_at st i) < INT_MAX) ->
      sem_post id st = (r, st') -> sys_step st (post_event id r st) st'
  | step_sem_destroy st id r st' : awake st ->
      sem_destroy id st = Some (r, st') -> sys_step st (SemDestroyed id) st'
  | step_mq_create st r st' : awake st -> mq_count st < INT_MAX ->
      msg_queue_create st = (r, st') -> sys_step st Internal st'
  | step_send st id data len o st' : awake st ->
      (cap_len len <= length (default [] data))%nat \/ data = None ->
      msg_queue_send id data len st = Ret (o, st') ->
      sys_step st (sent_event id (take (cap_len len) (default [] data)) o) st'
  | step_send_again st i data len o st' : awake st -> (i < MAX_MSGQUEUES)%nat ->
      (len <= MSG_MAX_DATA)%nat -> (len <= length data)%nat -> send_loop i data len st = Ret (o, st') ->
      sys_step st (in_slot i st (sent_event (mq_id (mq_at st i)) (take len data) o)) st'
  | step_recv st id b o st' : awake st ->
      msg_queue_recv id b st = (o, st') -> sys_step st (recv_event id o) st'
  | step_recv_again st i o st' : awake st -> (i < MAX_MSGQUEUES)%nat -> recv_loop i st = (o, st') ->
      sys_step st (in_slot i st (recv_event (mq_id (mq_at st i)) o)) st'
  | step_mq_destroy st id r st' : awake st ->
      msg_queue_destroy id st = Some (r, st') -> sys_step st (MqDestroyed id) st'
  | step_task_create st nm entry r st' : awake st ->
      runs (task_create nm entry) st r st' -> sys_step st Internal st'
  | step_task_fork st bss_end regs r st' : awake st ->
      runs (task_fork bss_end regs) st r st' -> sys_step st Internal st'
  | step_task_exit st code : awake st ->
      sys_step st (exit_event st) (set_sched (task_exit code (sched_of st)) st)
  | step_task_wait st want r st' : awake st ->
      runs (task_wait_step want) st r st' -> sys_step st (reap_event r) st'
  | step_tick st regs : sys_step st (tick_event st) (ipc_tick regs st).

Inductive sys_steps : ipc -> list event -> ipc -> Prop :=
  | steps_refl st : sys_steps st [] st
  | steps_cons st e st1 es st2 : sys_step st e st1 -> sys_steps st1 es st2 -> sys_steps st (e :: es) st2.

(** *** What events mean for an object *)

(** Tokens stored in a semaphore, and tokens stored, handed over or asked for. *)
Definition stored (id : Z) (e : event) : Z :=
  match e with
  | Stored id' => if id' =? id then 1 else 0
  | Took id' => if id' =? id then -1 else 0
  | _ => 0
  end.
Definition tokens (id : Z) (e : event) : Z :=
  match e with
  | Stored id' | Handed id' => if id' =? id then 1 else 0
  | Took id' | Queued id' => if id' =? id then -1 else 0
  | _ => 0
  end.
Definition sent (id : Z) (e : event) : list (list Z) :=
  match e with Sent id' bs => if id' =? id then [bs] else [] | _ => [] end.
Definition received (id : Z) (e : event) : list (list Z) :=
  match e with Received id' bs => if id' =? id then [bs] else [] | _ => [] end.

Definition sum_of (f : event -> Z) (es : list event) : Z := foldr (fun e n => f e + n) 0 es.

(** ** Every execution: the tables *)

(** What holds of the two tables whatever the queues of tasks look like. *)
Record tables_ok (st : ipc) : Prop := {
  ta_sems : length (sem_table st) = MAX_SEMS;
  ta_mqs : length (mq_table st) = MAX_MSGQUEUES;
  ta_sem_ids : ids_ok (sem_live st) (fun i => sem_id (sem_at st i)) (sem_count st);
  ta_mq_ids : ids_ok (mq_live st) (fun i => mq_id (mq_at st i)) (mq_count st);
  ta_value : forall i, sem_live st i -> 0 <= sem_value (sem_at st i);
  ta_buffers : forall i, (i < length (mq_table st))%nat ->
    length (mq_msgs (mq_at st i)) = Z.to_nat MSGQUEUE_SIZE /\
    Forall (fun m => length (msg_data m) = MSG_MAX_DATA) (mq_msgs (mq_at st i));
  ta_messages : forall i, mq_live st i -> exists ms, mq_rep (mq_at st i) ms
}.

Lemma ipc_ok_tables st c rl W : ipc_ok st c rl W -> tables_ok st.
Proof. intros []. split; try assumption. intros i Hi. apply io_value, Hi. Qed.

Definition sems_count (st : ipc) (e : event) (st' : ipc) : Prop :=
  forall i, sem_live st i -> e <> SemDestroyed (sem_id (sem_at st i)) ->
    sem_live st' i /\ sem_id (sem_at st' i) = sem_id (sem_at st i) /\
    sem_value (sem_at st' i) = sem_value (sem_at st i) + stored (sem_id (sem_at st i)) e.

Definition mqs_advance (st : ipc) (e : event) (st' : ipc) : Prop :=
  forall i, mq_live st i -> e <> MqDestroyed (mq_id (mq_at st i)) ->
    mq_live st' i /\ mq_id (mq_at st' i) = mq_id (mq_at st i) /\
    mq_contents (mq_at st i) ++ sent (mq_id (mq_at st i)) e =
    received (mq_id (mq_at st i)) e ++ mq_contents (mq_at st' i).

Definition tabled (st : ipc) (e : event) (st' : ipc) : Prop :=
  tables_ok st' /\ sems_count st e st' /\ mqs_advance st e st'.

(** An event that moves no token and no message. *)
Definition quiet (e : event) : Prop :=
  forall id, stored id e = 0 /\ sent id e = [] /\ received id e = [].

Lemma mqs_advance_same st e st' :
  mq_table st' = mq_table st -> (forall id, sent id e = [] /\ received id e = []) -> mqs_advance st e st'.
Proof.
  intros E He i Hi _. destruct (He (mq_id (mq_at st i))) as [-> ->]. unfold mq_live, mq_at in *. rewrite E.
  split; [exact Hi|]. split; [reflexivity|]. rewrite app_nil_r. reflexivity.
Qed.

Lemma sems_count_same st e st' :
  sem_table st' = sem_table st -> (forall id, stored id e = 0) -> sems_count st e st'.
Proof.
  intros E He i Hi _. rewrite He, Z.add_0_r. unfold sem_live, sem_at in *. rewrite E. auto.
Qed.

(** Only the scheduler changes. *)
Lemma tabled_sched st s e : tables_ok st -> quiet e -> tabled st e (set_sched s st).
Proof.
  intros T He. split; [destruct T; split; assumption|].
  split; [apply sems_count_same|apply mqs_advance_same]; try reflexivity; intros id; apply He.
Qed.

Lemma tabled_idle st e : tables_ok st -> quiet e -> tabled st e st.
Proof. destruct st. exact (tabled_sched _ _ e). Qed.

Lemma live_distinct st i j :
  tables_ok st -> mq_live st j -> (i < length (mq_table st))%nat -> i <> j ->
  mq_id (mq_at st j) <> mq_id (mq_at st i).
Proof.
  intros T Hj Hi Hne E. destruct (ta_mq_ids _ T) as (_ & _ & Hinj). apply Hne. symmetry.
  apply Hinj; [exact Hj| |exact E]. split; [exact Hi|]. rewrite <- E. apply Hj.
Qed.

(** Semaphore [i] is replaced by one with the same identifier. *)
Lemma tabled_sem st i v s e :
  tables_ok st -> sem_live st i -> sem_id v = sem_id (sem_at st i) -> 0 <= sem_value v ->
  sem_value v = sem_value (sem_at st i) + stored (sem_id (sem_at st i)) e ->
  (forall id, id <> sem_id (sem_at st i) -> stored id e = 0) ->
  (forall id, sent id e = [] /\ received id e = []) -> tabled st e (set_sched s (set_sem i v st)).
Proof.
  intros T Hi Hid Hv Hs Hoth Hm. set (st' := set_sched s (set_sem i v st)).
  destruct (set_sem_frame st i Hi) as [Hlive Hother].
  assert (A : forall j, sem_at st' j = if decide (i = j) then v else sem_at st j)
    by (intros; apply sem_at_set, Hi).
  assert (Hidj : forall j, sem_id (sem_at st' j) = sem_id (sem_at st j))
    by (intros j; rewrite A; case_decide; [subst; exact Hid|reflexivity]).
  assert (Lv : forall j, sem_live st' j <-> sem_live st j) by (intros; apply Hlive, Hid).
  destruct T as [T1 T2 (I1 & I2 & I3) T4 T5 T6 T7].
  split; [|split; [|apply mqs_advance_same; [reflexivity|exact Hm]]].
  - split; try assumption.
    + cbn. rewrite length_insert. exact T1.
    + split; [exact I1|]. split; intros *; rewrite !Lv, !Hidj; [apply I2|apply I3].
    + intros j Hj. apply Lv in Hj. rewrite A. case_decide; [exact Hv|apply T5, Hj].
  - intros j Hj _. split; [apply Lv, Hj|]. split; [apply Hidj|]. rewrite A.
    case_decide as D; [subst; exact Hs|]. rewrite Hoth; [lia|]. intros E. apply D. symmetry.
    apply I3; assumption.
Qed.

(** Queue [i] is replaced by one with the same identifier. *)
Lemma tabled_mq st i q s e :
  tables_ok st -> (i < length (mq_table st))%nat -> mq_id q = mq_id (mq_at st i) ->
  length (mq_msgs q) = Z.to_nat MSGQUEUE_SIZE ->
  Forall (fun m => length (msg_data m) = MSG_MAX_DATA) (mq_msgs q) ->
  (forall id, stored id e = 0) ->
  (forall id, id <> mq_id (mq_at st i) -> sent id e = [] /\ received id e = []) ->
  (mq_live st i -> (exists ms, mq_rep q ms) /\
     mq_contents (mq_at st i) ++ sent (mq_id (mq_at st i)) e =
     received (mq_id (mq_at st i)) e ++ mq_contents q) ->
  tabled st e (set_sched s (set_mq i q st)).
Proof.
  intros T Hi Hid Hl Hf Hst Hoth Hlive. set (st' := set_sched s (set_mq i q st)).
  assert (A : forall j, mq_at st' j = if decide (i = j) then q else mq_at st j)
    by (intros; apply mq_at_set, Hi).
  assert (Hidj : forall j, mq_id (mq_at st' j) = mq_id (mq_at st j))
    by (intros j; rewrite A; case_decide; [subst; exact Hid|reflexivity]).
  assert (Hlen : length (mq_table st') = length (mq_table st)) by apply length_insert.
  assert (Lv : forall j, mq_live st' j <-> mq_live st j)
    by (intros j; unfold mq_live; rewrite Hlen, Hidj; tauto).
  pose proof (fun j Hj => live_distinct st i j T Hj Hi) as Hd.
  destruct T as [T1 T2 T3 (I1 & I2 & I3) T5 T6 T7].
  split; [|split; [apply sems_count_same; [reflexivity|exact Hst]|]].
  - split; try assumption.
    + congruence.
    + split; [exact I1|]. split; intros *; rewrite !Lv, !Hidj; [apply I2|apply I3].
    + intros j Hj. rewrite Hlen in Hj. rewrite A. case_decide; [auto|apply T6, Hj].
    + intros j Hj. apply Lv in Hj. rewrite A. case_decide; [subst; apply Hlive, Hj|apply T7, Hj].
  - intros j Hj _. split; [apply Lv, Hj|]. split; [apply Hidj|]. rewrite A.
    case_decide as D; [subst; apply Hlive, Hj|].
    destruct (Hoth (mq_id (mq_at st j))) as [-> ->]; [apply Hd; assumption|]. apply app_nil_r.
Qed.

(** *** Semaphores *)

Lemma sem_lookup_some id st i :
  sem_lookup id st = Some i -> (i < length (sem_table st))%nat /\ sem_id (sem_at st i) = id.
Proof.
  unfold sem_lookup. intros H. pose proof (find_index_spec (fun s => sem_id s =? id) (sem_table st) 0) as F.
  rewrite H in F. destruct F as (j & -> & Hj & Hd). bool_prop. auto.
Qed.

Lemma mq_lookup_some id st i :
  mq_lookup id st = Some i -> (i < length (mq_table st))%nat /\ mq_id (mq_at st i) = id.
Proof.
  unfold mq_lookup. intros H. pose proof (find_index_spec (fun s => mq_id s =? id) (mq_table st) 0) as F.
  rewrite H in F. destruct F as (j & -> & Hj & Hd). bool_prop. auto.
Qed.

(** The scheduler is as before. *)
Lemma set_sem_sched st i v : set_sem i v st = set_sched (sched_of st) (set_sem i v st).
Proof. reflexivity. Qed.

Lemma eqb_off (a b x : Z) : a <> b -> (if b =? a then x else 0) = 0.
Proof. intros H. rewrite (proj2 (Z.eqb_neq b a)); [reflexivity|congruence]. Qed.

Lemma quiet_internal : quiet Internal.
Proof. intros id. auto. Qed.

Lemma sem_wait_tabled st id o st' :
  tables_ok st -> sem_wait id st = (o, st') -> tabled st (wait_event id o) st'.
Proof.
  intros T. unfold sem_wait.
  destruct (Z.ltb_spec id 0); cbn [orb]; [intros E; injection E as <- <-; apply tabled_idle; [exact T|apply quiet_internal]|].
  destruct (sem_count st <=? id); [intros E; injection E as <- <-; apply tabled_idle; [exact T|apply quiet_internal]|].
  destruct (sem_lookup id st) as [i|] eqn:El;
    [|intros E; injection E as <- <-; apply tabled_idle; [exact T|apply quiet_internal]].
  apply sem_lookup_some in El as [Hi Hid].
  assert (L : sem_live st i) by (split; [exact Hi|lia]). pose proof (ta_value _ T i L).
  destruct (Z.ltb_spec 0 (sem_value (sem_at st i))).
  - intros E. injection E as <- <-. rewrite set_sem_sched.
    apply tabled_sem; try assumption; cbn; rewrite ?Hid, ?Z.eqb_refl; try lia; auto; intros; apply eqb_off; assumption.
  - destruct (current_task (sched_of st)) as [c|];
      [|intros E; injection E as <- <-; apply tabled_idle; [exact T|apply quiet_internal]].
    destruct (block_on c _ _) as [q s]. intros E. injection E as <- <-.
    apply tabled_sem; try assumption; cbn; try lia; auto.
Qed.

Lemma sem_post_tabled st id r st' :
  tables_ok st -> (forall i, sem_live st i -> sem_value (sem_at st i) < INT_MAX) ->
  sem_post id st = (r, st') -> tabled st (post_event id r st) st'.
Proof.
  intros T Hmax. unfold sem_post, post_event.
  destruct (Z.ltb_spec id 0); cbn [orb]; [intros E; injection E as <- <-; apply tabled_idle; [exact T|apply quiet_internal]|].
  destruct (sem_count st <=? id); [intros E; injection E as <- <-; apply tabled_idle; [exact T|apply quiet_internal]|].
  destruct (sem_lookup id st) as [i|] eqn:El;
    [|intros E; injection E as <- <-; apply tabled_idle; [exact T|apply quiet_internal]].
  apply sem_lookup_some in El as [Hi Hid].
  assert (L : sem_live st i) by (split; [exact Hi|lia]).
  pose proof (ta_value _ T i L). specialize (Hmax i L).
  destruct (q_head (sem_waiters (sem_at st i))).
  - destruct (wake_first _ _) as [q s]. intros E. injection E as <- <-.
    apply tabled_sem; try assumption; cbn; try lia; auto.
  - intros E. injection E as <- <-. rewrite set_sem_sched.
    assert (Ei : i32 (sem_value (sem_at st i) + 1) = sem_value (sem_at st i) + 1)
      by (apply i32_small; unfold INT_MAX in Hmax; lia).
    apply tabled_sem; try assumption; cbn; rewrite ?Ei, ?Hid, ?Z.eqb_refl; try lia; auto; intros; apply eqb_off; assumption.
Qed.

(** Creating and destroying replace one entry of a table. *)
Lemma sem_destroy_tabled st id r st' :
  tables_ok st -> sem_destroy id st = Some (r, st') -> tabled st (SemDestroyed id) st'.
Proof.
  intros T. assert (Q : quiet (SemDestroyed id)) by (intros x; auto). unfold sem_destroy.
  destruct (Z.ltb_spec id 0); [intros E; injection E as <- <-; apply tabled_idle; assumption|].
  destruct (sem_lookup id st) as [i|] eqn:El; [|intros E; injection E as <- <-; apply tabled_idle; assumption].
  apply sem_lookup_some in El as [Hi Hid].
  destruct (wake_all _ _ _) as [s|]; [|discriminate]. intros E. injection E as <- <-.
  set (v := mk_sem (-1) _ 0 queue_empty). set (st' := set_sched s (set_sem i v st)).
  assert (A : forall j, sem_at st' j = if decide (i = j) then v else sem_at st j)
    by (intros; apply sem_at_set, Hi).
  assert (Hlen : length (sem_table st') = length (sem_table st)) by apply length_insert.
  assert (Lv : forall j, sem_live st' j <-> sem_live st j /\ j <> i).
  { intros j. unfold sem_live. rewrite Hlen, A. case_decide as D; [subst; cbn; lia|].
    split; [intros X; split; [exact X|congruence]|tauto]. }
  assert (Ao : forall j, j <> i -> sem_at st' j = sem_at st j)
    by (intros j Hj; rewrite A; apply decide_False; congruence).
  destruct T as [T1 T2 (I1 & I2 & I3) T4 T5 T6 T7]. split; [split; try assumption|split].
  - congruence.
  - split; [exact I1|]. split.
    + intros j Hj. apply Lv in Hj as [Hj Hne]. rewrite Ao by exact Hne. apply I2, Hj.
    + intros j k Hj Hk. apply Lv in Hj as [Hj Hjn], Hk as [Hk Hkn]. rewrite !Ao by assumption. apply I3; assumption.
  - intros j Hj. apply Lv in Hj as [Hj Hne]. rewrite Ao by exact Hne. apply T5, Hj.
  - intros j Hj Hne. assert (j <> i) by congruence. rewrite Ao by assumption. cbn. rewrite Z.add_0_r.
    split; [apply Lv; auto|auto].
  - apply mqs_advance_same; [reflexivity|intros x; apply Q].
Qed.

Lemma sem_create_tabled st nm v r st' :
  tables_ok st -> sem_count st < INT_MAX -> sem_create nm v st = Ret (r, st') -> tabled st Internal st'.
Proof.
  intros T Hc. unfold sem_create. pose proof (sem_find_slot_spec st) as F.
  destruct (sem_find_slot st) as [slot|];
    [|intros E; injection E as <- <-; apply tabled_idle; [exact T|apply quiet_internal]].
  destruct F as [Hs Hid].
  assert (H : forall nm', tabled st Internal (sem_new st slot nm' (if v <? 0 then 0 else v))).
  2:{ destruct nm as [cs|]; [destruct (_ <=? _)%nat; [|discriminate]|]; intros E; injection E as <- <-; apply H. }
  intros nm'. set (v' := if v <? 0 then 0 else v). assert (0 <= v') by (subst v'; destruct (Z.ltb_spec v 0); lia).
  set (st1 := sem_new st slot nm' v'). set (x := mk_sem (sem_count st) nm' v' queue_empty).
  assert (A : forall j, sem_at st1 j = if decide (slot = j) then x else sem_at st j)
    by (intros; apply (sem_at_set slot x st j), Hs).
  assert (Hlen : length (sem_table st1) = length (sem_table st)) by apply length_insert.
  assert (Ec : sem_count st1 = sem_count st + 1).
  { pose proof (ta_sem_ids _ T) as (I1 & _). apply i32_small; unfold INT_MAX in Hc; lia. }
  destruct T as [T1 T2 (I1 & I2 & I3) T4 T5 T6 T7].
  assert (Hdead : ~ sem_live st slot) by (intros [_ X]; lia).
  assert (Lv : forall j, sem_live st1 j <-> sem_live st j \/ j = slot).
  { intros j. unfold sem_live. rewrite Hlen, A. case_decide as D; [subst j; split; [auto|split; [exact Hs|exact I1]]|].
    split; [tauto|]. intros [X|X]; [exact X|congruence]. }
  assert (Ao : forall j, sem_live st j -> sem_at st1 j = sem_at st j)
    by (intros j Hj; rewrite A; apply decide_False; congruence).
  assert (As : sem_at st1 slot = x) by (rewrite A; apply decide_True; reflexivity).
  split; [split; try assumption|split].
  - congruence.
  - split; [lia|]. split.
    + intros j Hj. apply Lv in Hj as [Hj| ->]; [rewrite Ao by exact Hj; specialize (I2 j Hj); lia|rewrite As; change (sem_id x) with (sem_count st); lia].
    + intros j k Hj Hk. apply Lv in Hj as [Hj| ->], Hk as [Hk| ->]; rewrite ?As, ?Ao by assumption; cbn; intros E;
        [apply I3; assumption|exfalso; pose proof (I2 j Hj); cbn in *; lia|
         exfalso; pose proof (I2 k Hk); cbn in *; lia|reflexivity].
  - intros j Hj. apply Lv in Hj as [Hj| ->]; [rewrite Ao by exact Hj; apply T5, Hj|rewrite As; assumption].
  - intros j Hj _. rewrite Ao by exact Hj. split; [apply Lv; auto|cbn; split; [reflexivity|lia]].
  - apply mqs_advance_same; [reflexivity|auto].
Qed.

(** *** Message queues *)

(** Changing the wait queues only. *)
Lemma tabled_mq_wait st i rw sw s e :
  tables_ok st -> (i < length (mq_table st))%nat -> quiet e ->
  let q := mq_at st i in
  tabled st e (set_sched s (set_mq i
    (mk_msg_queue (mq_id q) (mq_msgs q) (mq_head q) (mq_tail q) (mq_num q) rw sw) st)).
Proof.
  intros T Hi Q q. destruct (ta_buffers _ T i Hi) as [B1 B2].
  apply tabled_mq; try assumption; try reflexivity; [intros id; apply Q|intros id _; apply Q|].
  intros L. split; [apply (ta_messages _ T i L)|]. destruct (Q (mq_id (mq_at st i))) as (_ & -> & ->).
  apply app_nil_r.
Qed.

Lemma mq_rep_num q ms : mq_rep q ms -> (MSGQUEUE_SIZE <=? mq_num q) = false -> Z.of_nat (length ms) < MSGQUEUE_SIZE.
Proof. intros (_ & _ & _ & _ & Hn) H. bool_prop. lia. Qed.

Lemma send_loop_tabled st i data len o st' :
  tables_ok st -> (i < length (mq_table st))%nat -> (len <= MSG_MAX_DATA)%nat -> (len <= length data)%nat ->
  send_loop i data len st = Ret (o, st') ->
  tabled st (in_slot i st (sent_event (mq_id (mq_at st i)) (take len data) o)) st'.
Proof.
  intros T Hi Hlen Hdata. unfold send_loop, in_slot.
  assert (Q : quiet (if 0 <=? mq_id (mq_at st i) then Internal else Hazard))
    by (intros id; destruct (0 <=? _); auto).
  destruct (MSGQUEUE_SIZE <=? mq_num (mq_at st i)) eqn:Hn.
  - destruct (current_task (sched_of st)) as [c|].
    + destruct (block_on c _ _) as [q s]. intros E. injection E as <- <-. apply tabled_mq_wait; assumption.
    + intros E. injection E as <- <-. apply tabled_idle; assumption.
  - destruct (length data <? len)%nat; [discriminate|].
    destruct (match q_head _ with Some _ => _ | None => _ end) as [q s]. intros E. injection E as <- <-.
    destruct (ta_buffers _ T i Hi) as [B1 B2]. set (mq := mq_at st i) in *.
    set (old := msg_data (mq_msgs mq !!! Z.to_nat (mq_tail mq))).
    assert (Hold : length old = MSG_MAX_DATA).
    { unfold old. destruct (decide (Z.to_nat (mq_tail mq) < length (mq_msgs mq))%nat) as [X|X].
      - rewrite Forall_lookup in B2. apply (B2 _ _ (list_lookup_lookup_total_lt _ _ X)).
      - rewrite list_lookup_total_alt, lookup_ge_None_2 by lia. reflexivity. }
    apply tabled_mq; try assumption; try reflexivity.
    + cbn. rewrite length_insert. exact B1.
    + apply Forall_insert; [exact B2|]. cbn. rewrite length_splice; [exact Hold|].
      rewrite Hold, length_take. lia.
    + intros id. destruct (0 <=? _); reflexivity.
    + intros id Hid. destruct (0 <=? _); cbn; [|auto].
      rewrite (proj2 (Z.eqb_neq _ _)) by (fold mq in Hid; congruence). auto.
    + intros L. assert (E0 : (0 <=? mq_id mq) = true) by (apply Z.leb_le, L). rewrite E0.
      destruct (ta_messages _ T i L) as (ms & M). fold mq in M. pose proof (mq_rep_num _ _ M Hn) as Hlt.
      destruct (mq_rep_push mq ms len data q (send_wait mq) M Hlt Hlen Hdata) as [P Pb].
      set (nq := mk_msg_queue _ _ _ _ _ _ _). set (m := mk_message _ _) in P, Pb.
      assert (P' : mq_rep nq (ms ++ [m])) by exact P.
      split; [eexists; exact P'|]. fold mq. rewrite (mq_contents_rep _ _ P'), (mq_contents_rep _ _ M), fmap_app.
      change (sent_event (mq_id mq) (take len data) (Done 0)) with (Sent (mq_id mq) (take len data)).
      cbn [sent received]. rewrite Z.eqb_refl. cbn. rewrite Pb. reflexivity.
Qed.

Lemma recv_loop_tabled st i o st' :
  tables_ok st -> (i < length (mq_table st))%nat -> recv_loop i st = (o, st') ->
  tabled st (in_slot i st (recv_event (mq_id (mq_at st i)) o)) st'.
Proof.
  intros T Hi. unfold recv_loop, in_slot.
  assert (Q : quiet (if 0 <=? mq_id (mq_at st i) then Internal else Hazard))
    by (intros id; destruct (0 <=? _); auto).
  destruct (mq_num (mq_at st i) <=? 0) eqn:Hn.
  - destruct (current_task (sched_of st)) as [c|].
    + destruct (block_on c _ _) as [q s]. intros E. injection E as <- <-. apply tabled_mq_wait; assumption.
    + intros E. injection E as <- <-. apply tabled_idle; assumption.
  - destruct (match q_head _ with Some _ => _ | None => _ end) as [q s]. intros E. injection E as <- <-.
    destruct (ta_buffers _ T i Hi) as [B1 B2]. set (mq := mq_at st i) in *.
    apply tabled_mq; try assumption; try reflexivity.
    + intros id. destruct (0 <=? _); reflexivity.
    + intros id Hid. destruct (0 <=? _); cbn; [|auto].
      rewrite (proj2 (Z.eqb_neq _ _)) by (fold mq in Hid; congruence). auto.
    + intros L. assert (E0 : (0 <=? mq_id mq) = true) by (apply Z.leb_le, L). rewrite E0.
      destruct (ta_messages _ T i L) as (ms & M). fold mq in M. destruct ms as [|m ms].
      { destruct M as (_ & _ & _ & _ & M). rewrite M in Hn. discriminate. }
      destruct (mq_rep_pop mq m ms (recv_wait mq) q M) as [Hm P].
      set (nq := mk_msg_queue _ _ _ _ _ _ _). assert (P' : mq_rep nq ms) by exact P.
      split; [eexists; exact P'|]. fold mq. rewrite (mq_contents_rep _ _ P'), (mq_contents_rep _ _ M), Hm.
      fold (msg_bytes m). change (recv_event (mq_id mq) (Done (0, msg_bytes m))) with (Received (mq_id mq) (msg_bytes m)).
      cbn [sent received]. rewrite Z.eqb_refl. apply app_nil_r.
Qed.

Lemma in_slot_live st i e : mq_live st i -> in_slot i st e = e.
Proof. intros [_ H]. unfold in_slot. rewrite (proj2 (Z.leb_le _ _) H). reflexivity. Qed.

Lemma cap_len_max len : (cap_len len <= MSG_MAX_DATA)%nat.
Proof. unfold cap_len. destruct (Z.ltb_spec (Z.of_nat MSG_MAX_DATA) len); lia. Qed.

Lemma send_tabled st id data len o st' :
  tables_ok st -> (cap_len len <= length (default [] data))%nat \/ data = None ->
  msg_queue_send id data len st = Ret (o, st') ->
  tabled st (sent_event id (take (cap_len len) (default [] data)) o) st'.
Proof.
  intros T Hd. unfold msg_queue_send.
  destruct data as [data|]; [|intros E; injection E as <- <-; apply tabled_idle; [exact T|apply quiet_internal]].
  destruct (Z.ltb_spec id 0); [intros E; injection E as <- <-; apply tabled_idle; [exact T|apply quiet_internal]|].
  destruct (mq_lookup id st) as [i|] eqn:El;
    [|intros E; injection E as <- <-; apply tabled_idle; [exact T|apply quiet_internal]].
  apply mq_lookup_some in El as [Hi Hid]. fold (cap_len len). intros E.
  assert (L : mq_live st i) by (split; [exact Hi|lia]). destruct Hd as [Hd|]; [|discriminate].
  pose proof (send_loop_tabled st i data (cap_len len) o st' T Hi (cap_len_max len) Hd E) as H1.
  rewrite in_slot_live, Hid in H1 by exact L. exact H1.
Qed.

Lemma recv_tabled st id b o st' :
  tables_ok st -> msg_queue_recv id b st = (o, st') -> tabled st (recv_event id o) st'.
Proof.
  intros T. unfold msg_queue_recv.
  destruct (Z.ltb_spec id 0); cbn [orb]; [intros E; injection E as <- <-; apply tabled_idle; [exact T|apply quiet_internal]|].
  destruct b; cbn [negb]; [|intros E; injection E as <- <-; apply tabled_idle; [exact T|apply quiet_internal]].
  destruct (mq_lookup id st) as [i|] eqn:El;
    [|intros E; injection E as <- <-; apply tabled_idle; [exact T|apply quiet_internal]].
  apply mq_lookup_some in El as [Hi Hid]. intros E.
  assert (L : mq_live st i) by (split; [exact Hi|lia]).
  pose proof (recv_loop_tabled st i o st' T Hi E) as H1. rewrite in_slot_live, Hid in H1 by exact L. exact H1.
Qed.

Lemma tables_put_buffers st i id count s :
  tables_ok st -> (i < length (mq_table st))%nat ->
  forall j, (j < length (mq_table (mq_put st i id count s)))%nat ->
    length (mq_msgs (mq_at (mq_put st i id count s) j)) = Z.to_nat MSGQUEUE_SIZE /\
    Forall (fun m => length (msg_data m) = MSG_MAX_DATA) (mq_msgs (mq_at (mq_put st i id count s) j)).
Proof.
  intros T Hi j Hj. cbn in Hj. rewrite length_insert in Hj. rewrite mq_put_at by exact Hi.
  case_decide; [subst|]; apply (ta_buffers _ T); assumption.
Qed.

Lemma msg_queue_destroy_tabled st id r st' :
  tables_ok st -> msg_queue_destroy id st = Some (r, st') -> tabled st (MqDestroyed id) st'.
Proof.
  intros T. assert (Q : quiet (MqDestroyed id)) by (intros x; auto). unfold msg_queue_destroy.
  destruct (Z.ltb_spec id 0); [intros E; injection E as <- <-; apply tabled_idle; assumption|].
  destruct (mq_lookup id st) as [i|] eqn:El; [|intros E; injection E as <- <-; apply tabled_idle; assumption].
  apply mq_lookup_some in El as [Hi Hid].
  destruct (wake_all _ _ (sched_of st)) as [s1|]; [|discriminate].
  destruct (wake_all _ _ s1) as [s|]; [|discriminate]. intros E. injection E as <- <-.
  set (st1 := mq_put st i (-1) (mq_count st) s). change (tabled st (MqDestroyed id) st1).
  pose proof (tables_put_buffers st i (-1) (mq_count st) s T Hi) as B.
  pose proof (fun j => mq_put_at st i (-1) (mq_count st) s j Hi) as A. fold st1 in A, B.
  assert (Hlen : length (mq_table st1) = length (mq_table st)) by apply length_insert.
  assert (Lv : forall j, mq_live st1 j <-> mq_live st j /\ j <> i).
  { intros j. unfold mq_live. rewrite Hlen, A. case_decide as D; [subst; cbn; lia|].
    split; [intros X; split; [exact X|congruence]|tauto]. }
  assert (Ao : forall j, j <> i -> mq_at st1 j = mq_at st j)
    by (intros j Hj; rewrite A; apply decide_False; congruence).
  destruct T as [T1 T2 T3 (I1 & I2 & I3) T5 T6 T7]. split; [split; try assumption|split].
  - congruence.
  - split; [exact I1|]. split.
    + intros j Hj. apply Lv in Hj as [Hj Hne]. rewrite Ao by exact Hne. apply I2, Hj.
    + intros j k Hj Hk. apply Lv in Hj as [Hj Hjn], Hk as [Hk Hkn]. rewrite !Ao by assumption. apply I3; assumption.
  - intros j Hj. apply Lv in Hj as [Hj Hne]. rewrite Ao by exact Hne. apply T7, Hj.
  - apply sems_count_same; [reflexivity|intros x; apply Q].
  - intros j Hj Hne. assert (j <> i) by congruence. rewrite Ao by assumption. cbn. rewrite app_nil_r.
    split; [apply Lv; auto|auto].
Qed.

Lemma msg_queue_create_tabled st r st' :
  tables_ok st -> mq_count st < INT_MAX -> msg_queue_create st = (r, st') -> tabled st Internal st'.
Proof.
  intros T Hc. unfold msg_queue_create. pose proof (mq_find_slot_spec st) as F.
  destruct (mq_find_slot st) as [slot|];
    [|intros E; injection E as <- <-; apply tabled_idle; [exact T|apply quiet_internal]].
  destruct F as [Hs Hid]. intros E. injection E as <- <-.
  set (st1 := mq_put st slot (mq_count st) (i32 (mq_count st + 1)) (sched_of st)). change (tabled st Internal st1).
  pose proof (tables_put_buffers st slot (mq_count st) (i32 (mq_count st + 1)) (sched_of st) T Hs) as B.
  pose proof (fun j => mq_put_at st slot (mq_count st) (i32 (mq_count st + 1)) (sched_of st) j Hs) as A.
  fold st1 in A, B.
  assert (Hlen : length (mq_table st1) = length (mq_table st)) by apply length_insert.
  assert (Ec : mq_count st1 = mq_count st + 1).
  { pose proof (ta_mq_ids _ T) as (I1 & _). apply i32_small; unfold INT_MAX in Hc; lia. }
  destruct T as [T1 T2 T3 (I1 & I2 & I3) T5 T6 T7].
  assert (Hdead : ~ mq_live st slot) by (intros [_ X]; lia).
  assert (Lv : forall j, mq_live st1 j <-> mq_live st j \/ j = slot).
  { intros j. unfold mq_live. rewrite Hlen, A. case_decide as D; [subst j; split; [auto|split; [exact Hs|exact I1]]|].
    split; [tauto|]. intros [X|X]; [exact X|congruence]. }
  assert (Ao : forall j, mq_live st j -> mq_at st1 j = mq_at st j)
    by (intros j Hj; rewrite A; apply decide_False; congruence).
  assert (As : mq_id (mq_at st1 slot) = mq_count st) by (rewrite A, decide_True; reflexivity).
  split; [split; try assumption|split].
  - congruence.
  - split; [lia|]. split.
    + intros j Hj. apply Lv in Hj as [Hj| ->]; [rewrite Ao by exact Hj; specialize (I2 j Hj); lia|lia].
    + intros j k Hj Hk. apply Lv in Hj as [Hj| ->], Hk as [Hk| ->]; rewrite ?As, ?Ao by assumption; intros E;
        [apply I3; assumption|exfalso; pose proof (I2 j Hj); cbn in *; lia|
         exfalso; pose proof (I2 k Hk); cbn in *; lia|reflexivity].
  - intros j Hj. apply Lv in Hj as [Hj| ->]; [rewrite Ao by exact Hj; apply T7, Hj|].
    exists []. destruct (B slot) as [B1 B2]; [lia|].
    apply mq_rep_nil; try assumption; rewrite A, decide_True by reflexivity; reflexivity.
  - apply sems_count_same; [reflexivity|reflexivity].
  - intros j Hj _. rewrite Ao by exact Hj. split; [apply Lv; auto|]. cbn. rewrite app_nil_r. auto.
Qed.

(** *** Steps *)

Lemma quiet_tick st : quiet (tick_event st).
Proof.
  intros id. unfold tick_event. destruct (current_task _); [|auto]. destruct (q_head _); [auto|].
  destruct (_ && _); auto.
Qed.

Lemma quiet_exit st : quiet (exit_event st).
Proof.
  intros id. unfold exit_event. destruct (current_task _) as [c|]; [|auto].
  destruct (if 0 <=? _ then _ else _); [destruct (_ && _)|]; auto.
Qed.

Lemma quiet_reap r : quiet (reap_event r).
Proof. intros id. destruct r as [p|]; [cbn; destruct (0 <=? p)|]; auto. Qed.

Lemma sys_step_tabled st e st' : sys_step st e st' -> tables_ok st -> tabled st e st'.
Proof.
  intros S T. destruct S;
    try match goal with H : runs _ _ _ _ |- _ => destruct H as (k & k' & _ & _ & ->) end.
  - eapply sem_create_tabled; eassumption.
  - eapply sem_wait_tabled; eassumption.
  - eapply sem_post_tabled; eassumption.
  - eapply sem_destroy_tabled; eassumption.
  - eapply msg_queue_create_tabled; eassumption.
  - eapply send_tabled; eassumption.
  - eapply send_loop_tabled; try eassumption. rewrite (ta_mqs _ T). assumption.
  - eapply recv_tabled; eassumption.
  - eapply recv_loop_tabled; try eassumption. rewrite (ta_mqs _ T). assumption.
  - eapply msg_queue_destroy_tabled; eassumption.
  - apply tabled_sched; [exact T|apply quiet_internal].
  - apply tabled_sched; [exact T|apply quiet_internal].
  - apply tabled_sched; [exact T|apply quiet_exit].
  - apply tabled_sched; [exact T|apply quiet_reap].
  - apply tabled_sched; [exact T|apply quiet_tick].
Qed.

Lemma sys_steps_tabled st es st' : sys_steps st es st' -> tables_ok st ->
  tables_ok st' /\
  (forall i, sem_live st i -> (SemDestroyed (sem_id (sem_at st i)) ∉ es) ->
     sem_live st' i /\ sem_id (sem_at st' i) = sem_id (sem_at st i) /\
     sem_value (sem_at st' i) = sem_value (sem_at st i) + sum_of (stored (sem_id (sem_at st i))) es) /\
  (forall i, mq_live st i -> (MqDestroyed (mq_id (mq_at st i)) ∉ es) ->
     mq_live st' i /\ mq_id (mq_at st' i) = mq_id (mq_at st i) /\
     mq_contents (mq_at st i) ++ concat (sent (mq_id (mq_at st i)) <$> es) =
     concat (received (mq_id (mq_at st i)) <$> es) ++ mq_contents (mq_at st' i)).
Proof.
  induction 1 as [st|st e st1 es st2 S Ss IH]; intros T.
  - split; [exact T|]. split; intros i Hi _; (split; [exact Hi|split; [reflexivity|]]);
      [cbn; lia|apply app_nil_r].
  - destruct (sys_step_tabled st e st1 S T) as (T1 & A1 & A2).
    destruct (IH T1) as (T2 & B1 & B2). split; [exact T2|]. split; intros i Hi Hn.
    + destruct (A1 i Hi) as (L1 & E1 & V1); [intros ->; apply Hn, list_elem_of_here|].
      destruct (B1 i L1) as (L2 & E2 & V2); [rewrite E1; intros X; apply Hn, list_elem_of_further, X|].
      split; [exact L2|]. split; [congruence|]. rewrite V2, V1, E1. cbn [sum_of foldr].
      unfold sum_of. lia.
    + destruct (A2 i Hi) as (L1 & E1 & V1); [intros ->; apply Hn, list_elem_of_here|].
      destruct (B2 i L1) as (L2 & E2 & V2); [rewrite E1; intros X; apply Hn, list_elem_of_further, X|].
      split; [exact L2|]. split; [congruence|]. rewrite E1 in V2. cbn.
      rewrite app_assoc, V1, <- app_assoc, V2, app_assoc. reflexivity.
Qed.

(** ** Executions without hazards: the queues *)

(** Tokens available minus tasks waiting for one. *)
Definition balance (st : ipc) (W : wq -> list nat) (i : nat) : Z :=
  sem_value (sem_at st i) - Z.of_nat (length (W (WSem i))).

(** A step keeps the invariant of the queues and accounts for its event. *)
Definition advances (st : ipc) (W : wq -> list nat) (e : event) (st' : ipc) : Prop :=
  exists c' rl' W', ipc_ok st' c' rl' W' /\
    forall i, sem_live st i -> e <> SemDestroyed (sem_id (sem_at st i)) ->
      balance st' W' i = balance st W i + tokens (sem_id (sem_at st i)) e.

Lemma awake_running st c rl W : ipc_ok st c rl W -> awake st -> running st c.
Proof.
  intros O H. destruct (io_sched _ _ _ _ O) as [_ R]. destruct (H c (ro_current _ _ _ R)).
  destruct (ro_state _ _ _ R) as [E|[E|E]]; [exact E|contradiction|contradiction].
Qed.

Lemma advances_same st c' rl' W e st' :
  ipc_ok st' c' rl' W -> sem_table st' = sem_table st ->
  (forall i, sem_live st i -> tokens (sem_id (sem_at st i)) e = 0) -> advances st W e st'.
Proof.
  intros O E He. exists c', rl', W. split; [exact O|]. intros i Hi _. rewrite He by exact Hi.
  unfold balance, sem_at. rewrite E. lia.
Qed.

(** Only semaphore [i] changes, and its balance by the tokens of [e]. *)
Lemma advances_sem st c rl W i e st' rl' W' :
  ipc_ok st c rl W -> sem_live st i -> ipc_ok st' c rl' W' ->
  (forall j, j <> i -> sem_at st' j = sem_at st j /\ W' (WSem j) = W (WSem j)) ->
  balance st' W' i = balance st W i + tokens (sem_id (sem_at st i)) e ->
  (forall id, id <> sem_id (sem_at st i) -> tokens id e = 0) -> advances st W e st'.
Proof.
  intros O Hi O' Hoth Hb Ht. exists c, rl', W'. split; [exact O'|]. intros j Hj _.
  destruct (decide (j = i)) as [->|Hne]; [exact Hb|].
  destruct (Hoth j Hne) as [E1 E2]. unfold balance. rewrite E1, E2, Ht; [lia|].
  intros E. apply Hne. apply (proj2 (proj2 (io_sem_ids _ _ _ _ O))); assumption.
Qed.

(** An identifier names one live object, or the calls do nothing. *)
Lemma sem_id_cases st id :
  (exists i, sem_live st i /\ id = sem_id (sem_at st i)) \/ (id <? 0) = true \/ sem_lookup id st = None.
Proof.
  destruct (Z.ltb_spec id 0) as [Hn|Hp]; [auto|].
  destruct (sem_lookup id st) as [i|] eqn:E; [|auto]. apply sem_lookup_some in E as [Hi Hid].
  left. exists i. split; [split; [exact Hi|lia]|auto].
Qed.

Lemma mq_id_cases st id :
  (exists i, mq_live st i /\ id = mq_id (mq_at st i)) \/ (id <? 0) = true \/ mq_lookup id st = None.
Proof.
  destruct (Z.ltb_spec id 0) as [Hn|Hp]; [auto|].
  destruct (mq_lookup id st) as [i|] eqn:E; [|auto]. apply mq_lookup_some in E as [Hi Hid].
  left. exists i. split; [split; [exact Hi|lia]|auto].
Qed.

(** *** The calls *)

Lemma sem_wait_advances st c rl W id o st' :
  ipc_ok st c rl W -> running st c -> sem_wait id st = (o, st') -> advances st W (wait_event id o) st'.
Proof.
  intros O Hr E. destruct (sem_id_cases st id) as [(i & Hi & ->)|Hn].
  - destruct (sem_wait_effect st c rl W i O Hr Hi) as (o' & s' & W' & E' & O' & V & B & F & _).
    rewrite E' in E. injection E as <- <-.
    apply (advances_sem st c rl W i _ s' rl W'); try assumption.
    + unfold sem_view, down in V. cbn [fst snd] in V. unfold balance.
      destruct (0 <? _); injection V as -> ->; destruct B as [-> _]; cbn; rewrite Z.eqb_refl;
        rewrite ?length_app; cbn; lia.
    + intros x Hx. destruct (0 <? _); destruct B as [-> _]; cbn; apply eqb_off; exact Hx.
  - assert (X : o = Done (-1) /\ st' = st).
    { unfold sem_wait in E. destruct Hn as [Hn|Hn]; rewrite Hn in E; cbn [orb] in E; [|destruct (_ || _) in E];
      injection E; auto. }
    destruct X as [-> ->]. apply (advances_same st c rl); auto.
Qed.

Lemma sem_post_advances st c rl W id r st' :
  ipc_ok st c rl W -> running st c -> (forall i, sem_live st i -> sem_value (sem_at st i) < INT_MAX) ->
  sem_post id st = (r, st') -> advances st W (post_event id r st) st'.
Proof.
  intros O Hr Hmax E. destruct (sem_id_cases st id) as [(i & Hi & ->)|Hn].
  - destruct (sem_post_effect st c rl W i O Hr Hi (Hmax i Hi)) as (s' & W' & E' & O' & _ & V & F & _).
    rewrite E' in E. injection E as <- <-.
    assert (Ev : forall x, tokens x (post_event (sem_id (sem_at st i)) 0 st) =
                   if sem_id (sem_at st i) =? x then 1 else 0).
    { intros x. unfold post_event. rewrite (proj1 (sem_lookup_live st c rl W i O Hi)). cbn.
      destruct (q_head _); reflexivity. }
    apply (advances_sem st c rl W i _ s' (rl ++ take 1 (W (WSem i))) W'); try assumption.
    + rewrite Ev, Z.eqb_refl. unfold sem_view, up in V. cbn [fst snd] in V. unfold balance.
      destruct (W (WSem i)) as [|t l]; injection V as -> ->; cbn [length]; lia.
    + intros x Hx. rewrite Ev. apply eqb_off, Hx.
  - assert (X : r = -1 /\ st' = st).
    { unfold sem_post in E. destruct Hn as [Hn|Hn]; rewrite Hn in E; cbn [orb] in E; [|destruct (_ || _) in E];
      injection E; auto. }
    destruct X as [-> ->]. apply (advances_same st c rl); auto.
Qed.

Lemma sem_create_advances st c rl W nm v r st' :
  ipc_ok st c rl W -> sem_count st < INT_MAX -> sem_create nm v st = Ret (r, st') -> advances st W Internal st'.
Proof.
  intros O Hc E. pose proof (sem_create_effect st c rl W nm v O Hc) as H. rewrite E in H.
  pose proof (sem_find_slot_spec st) as F. destruct (sem_find_slot st) as [slot|].
  - destruct F as [Hs Hid]. destruct H as (-> & b & -> & _).
    destruct (sem_new_ok st c rl W slot b (Z.max 0 v) O Hs Hid Hc ltac:(lia)) as (O' & _ & _ & _ & Hoth).
    exists c, rl, W. split; [exact O'|]. intros i Hi _.
    assert (i <> slot) by (intros ->; destruct Hi; lia). unfold balance. rewrite Hoth by assumption. cbn. lia.
  - destruct H as [_ ->]. apply (advances_same st c rl); auto.
Qed.

Lemma sem_destroy_advances st c rl W id r st' :
  ipc_ok st c rl W -> running st c -> sem_destroy id st = Some (r, st') -> advances st W (SemDestroyed id) st'.
Proof.
  intros O Hr E. destruct (sem_id_cases st id) as [(i & Hi & ->)|Hn].
  - destruct (sem_destroy_effect st c rl W i O Hr Hi) as (s' & E' & O' & _ & _ & Hoth & _).
    rewrite E' in E. injection E as <- <-. eexists _, _, _. split; [exact O'|].
    intros j Hj Hne. assert (j <> i) by congruence. unfold balance. rewrite Hoth, upd_other by congruence. cbn. lia.
  - assert (X : st' = st).
    { unfold sem_destroy in E. destruct Hn as [Hn|Hn]; rewrite Hn in E; [|destruct (id <? 0) in E]; congruence. }
    subst. apply (advances_same st c rl); auto.
Qed.

Lemma msg_queue_create_advances st c rl W r st' :
  ipc_ok st c rl W -> mq_count st < INT_MAX -> msg_queue_create st = (r, st') -> advances st W Internal st'.
Proof.
  intros O Hc E. pose proof (msg_queue_create_effect st c rl W O Hc) as H.
  destruct (mq_find_slot st) as [slot|].
  - destruct H as (s' & E' & O' & _ & _ & _ & _ & _ & Hs & _). rewrite E' in E. injection E as <- <-.
    apply (advances_same st c rl); auto.
  - rewrite H in E. injection E as <- <-. apply (advances_same st c rl); auto.
Qed.

Lemma msg_queue_destroy_advances st c rl W id r st' :
  ipc_ok st c rl W -> running st c -> msg_queue_destroy id st = Some (r, st') -> advances st W (MqDestroyed id) st'.
Proof.
  intros O Hr E. destruct (mq_id_cases st id) as [(i & Hi & ->)|Hn].
  - destruct (msg_queue_destroy_effect st c rl W i O Hr Hi) as (s' & E' & O' & _ & _ & _ & Hs).
    rewrite E' in E. injection E as <- <-. eexists _, _, _. split; [exact O'|].
    intros j Hj _. unfold balance, sem_at. rewrite Hs, !upd_other by discriminate. cbn. lia.
  - assert (X : st' = st).
    { unfold msg_queue_destroy in E. destruct Hn as [Hn|Hn]; rewrite Hn in E; [|destruct (id <? 0) in E]; congruence. }
    subst. apply (advances_same st c rl); auto.
Qed.

(** A message operation leaves the semaphores alone. *)
Lemma advances_mq st c W i e st' rl' W' :
  ipc_ok st' c rl' W' -> mq_frame st W i st' W' -> (forall id, tokens id e = 0) -> advances st W e st'.
Proof.
  intros O' (F1 & F2 & _) Ht. exists c, rl', W'. split; [exact O'|]. intros j Hj _. rewrite Ht.
  unfold balance, sem_at. rewrite F1, F2. lia.
Qed.

Lemma sent_tokens id bs o x : tokens x (sent_event id bs o) = 0.
Proof. destruct o as [r|]; [cbn; destruct (r =? 0)|]; reflexivity. Qed.
Lemma recv_tokens id o x : tokens x (recv_event id o) = 0.
Proof. destruct o as [[r bs]|]; [cbn; destruct (r =? 0)|]; reflexivity. Qed.

Lemma send_loop_advances st c rl W i data len o st' :
  ipc_ok st c rl W -> running st c -> mq_live st i -> (len <= MSG_MAX_DATA)%nat -> (len <= length data)%nat ->
  send_loop i data len st = Ret (o, st') -> advances st W (sent_event (mq_id (mq_at st i)) (take len data) o) st'.
Proof.
  intros O Hr Hi Hlen Hdata E.
  destruct (send_loop_effect st c rl W i data len O Hr Hi Hlen Hdata) as (o' & s' & rl' & W' & E' & O' & F & _).
  rewrite E' in E. injection E as <- <-. apply (advances_mq st c W i _ s' rl' W'); try assumption.
  intros x. apply sent_tokens.
Qed.

Lemma recv_loop_advances st c rl W i o st' :
  ipc_ok st c rl W -> running st c -> mq_live st i -> recv_loop i st = (o, st') ->
  advances st W (recv_event (mq_id (mq_at st i)) o) st'.
Proof.
  intros O Hr Hi E.
  destruct (recv_loop_effect st c rl W i O Hr Hi) as (o' & s' & rl' & W' & E' & O' & F & _).
  rewrite E' in E. injection E as <- <-. apply (advances_mq st c W i _ s' rl' W'); try assumption.
  intros x. apply recv_tokens.
Qed.

(** [msg_queue_send] and [msg_queue_recv] do nothing or run their loop on the
    live queue with the identifier. *)
Lemma send_cases st c rl W id data len o st' :
  ipc_ok st c rl W -> (cap_len len <= length (default [] data))%nat \/ data = None ->
  msg_queue_send id data len st = Ret (o, st') ->
  (o = Done (-1) /\ st' = st) \/
  exists i bs, mq_live st i /\ id = mq_id (mq_at st i) /\ data = Some bs /\
    (cap_len len <= length bs)%nat /\ send_loop i bs (cap_len len) st = Ret (o, st').
Proof.
  intros O Hd E. destruct data as [bs|]; [|injection E; auto]. destruct Hd as [Hd|]; [|discriminate].
  destruct (mq_id_cases st id) as [(i & Hi & ->)|Hn].
  - right. exists i, bs. destruct (mq_lookup_live st c rl W i O Hi) as [Hl Hb].
    unfold msg_queue_send in E. rewrite Hb, Hl in E. auto.
  - left. unfold msg_queue_send in E. destruct Hn as [Hn|Hn]; rewrite Hn in E; [|destruct (id <? 0) in E];
      injection E; auto.
Qed.

Lemma recv_cases st c rl W id b o st' :
  ipc_ok st c rl W -> msg_queue_recv id b st = (o, st') ->
  (o = Done (-1, []) /\ st' = st) \/
  exists i, mq_live st i /\ id = mq_id (mq_at st i) /\ recv_loop i st = (o, st').
Proof.
  intros O E. destruct (mq_id_cases st id) as [(i & Hi & ->)|Hn].
  - destruct (mq_lookup_live st c rl W i O Hi) as [Hl Hb]. unfold msg_queue_recv in E. rewrite Hb, Hl in E.
    destruct b; cbn [orb negb] in E; [eauto|injection E; auto].
  - left. unfold msg_queue_recv in E. destruct Hn as [Hn|Hn]; rewrite Hn in E; cbn [orb] in E;
      [|destruct (_ || _) in E]; injection E; auto.
Qed.

(** *** Who waits *)

Lemma chain_linked ts : forall l fuel, linked ts l -> (length l < fuel)%nat -> chain fuel ts (head l) = l.
Proof.
  induction l as [|a l IH]; intros [|fuel] H Hf; cbn [length] in Hf; try lia; [reflexivity|].
  destruct H as [Hn Hl]. cbn [chain head]. rewrite Hn, IH by (assumption || lia). reflexivity.
Qed.

Lemma waits_in_spec st c rl W w t :
  ipc_ok st c rl W -> in_use st w -> waits_in st t (queue_of st w) = bool_decide (t ∈ W w).
Proof.
  intros O Hw. pose proof (waiters_bound _ _ _ _ _ _ w (io_sched _ _ _ _ O) (io_waits _ _ _ _ O) Hw) as Hf.
  destruct (wo_queue _ _ _ _ (io_waits _ _ _ _ O) w Hw) as (Hh & _ & Hl & _).
  unfold waits_in. rewrite Hh, chain_linked by assumption. reflexivity.
Qed.

(** A task that waits somewhere is found. *)
Lemma queued_waits st c rl W w t : ipc_ok st c rl W -> t ∈ W w -> queued st t = true.
Proof.
  intros O Ht.
  assert (Hw : in_use st w).
  { destruct (decide (W w = [])) as [E|E]; [rewrite E in Ht; inversion Ht|].
    assert (D : forall P, (~ P -> W w = []) -> {P} + {~ P} -> P) by (intros P X [Y|Y]; [exact Y|destruct (E (X Y))]).
    apply D; [apply (wo_unused _ _ _ _ (io_waits _ _ _ _ O))|].
    destruct w as [i|i|i]; unfold in_use, sem_live, mq_live.
    all: destruct (lt_dec i (length (sem_table st))), (lt_dec i (length (mq_table st))),
      (Z_le_dec 0 (sem_id (sem_at st i))), (Z_le_dec 0 (mq_id (mq_at st i)));
      first [left; split; assumption|right; intros [? ?]; contradiction]. }
  pose proof (waits_in_spec st c rl W w t O Hw) as E. rewrite bool_decide_eq_true_2 in E by exact Ht.
  assert (In_at : forall A `{Inhabited A} (l : list A) i, (i < length l)%nat -> In (l !!! i) l)
    by (intros; apply list_elem_of_In, list_elem_of_lookup_2 with i, list_lookup_lookup_total_lt; assumption).
  unfold queued. apply orb_true_intro.
  destruct w as [i|i|i]; [left|right|right]; apply existsb_exists; destruct Hw as [Hi Hid];
    (eexists; split; [apply In_at, Hi|]); apply andb_true_intro; (split; [apply Z.leb_le, Hid|]).
  - exact E.
  - apply orb_true_intro. left. exact E.
  - apply orb_true_intro. right. exact E.
Qed.

Lemma not_queued st c rl W t : ipc_ok st c rl W -> queued st t = false -> forall w, t ∉ W w.
Proof. intros O H w X. rewrite (queued_waits st c rl W w t O X) in H. discriminate. Qed.

(** *** The timer *)

(** With a task to run, only tasks that do not wait are reordered. *)
Lemma ipc_tick_ok st c rl W regs :
  ipc_ok st c rl W -> ring (sched_of st) c rl <> [] ->
  exists c' rl', ipc_ok (ipc_tick regs st) c' rl' W.
Proof.
  intros O Hne. destruct (tick_spec (sched_of st) c rl regs (io_sched _ _ _ _ O)) as (f & d & s' & E & Hn & _ & I & M).
  unfold ipc_tick. rewrite E. cbn [snd]. destruct (ring (sched_of st) c rl) as [|h l] eqn:Hring; [congruence|].
  destruct M as (M1 & M2 & _ & _ & _ & M3). exists h, l.
  eapply set_sched_ok; [exact O|exact M1|apply I|]. intros w i Hi.
  destruct (wo_blocked _ _ _ _ (io_waits _ _ _ _ O) w i Hi) as [Li Si].
  assert (Hni : i ∉ h :: l).
  { rewrite <- Hring. unfold ring. intros X. apply elem_of_app in X as [X|X].
    - exact (ready_not_waiting _ _ _ _ _ _ _ _ (io_sched _ _ _ _ O) (io_waits _ _ _ _ O) X Hi).
    - case_decide as Hrun; [|inversion X]. apply list_elem_of_singleton in X. subst i.
      rewrite Hrun in Si. discriminate. }
  split; [apply Hn, Hni|]. split; [|apply (same_ids_live _ _ i I), Li].
  apply M3; [intros ->; apply Hni, list_elem_of_here|].
  destruct (decide (i = c)) as [->|X]; [right; rewrite Si; discriminate|auto].
Qed.

(** Without one, the current task goes on or halts; it does not wait. *)
Lemma ipc_tick_alone st c rl W regs :
  ipc_ok st c rl W -> ring (sched_of st) c rl = [] -> (forall w, c ∉ W w) -> ipc_ok (ipc_tick regs st) c [] W.
Proof.
  intros O Hne Hc. destruct (tick_spec (sched_of st) c rl regs (io_sched _ _ _ _ O)) as (f & d & s' & E & Hn & _ & I & M).
  unfold ipc_tick. rewrite E. cbn [snd]. rewrite Hne in M, Hn. destruct M as (M1 & _ & _ & M4 & _).
  eapply set_sched_ok; [exact O|exact M1|apply I|]. intros w i Hi.
  assert (i <> c) by (intros ->; exact (Hc w Hi)).
  split; [apply Hn, not_elem_of_nil|]. split; [apply M4; assumption|].
  apply (same_ids_live _ _ i I), (wo_blocked _ _ _ _ (io_waits _ _ _ _ O) w i Hi).
Qed.

Lemma ipc_tick_advances st c rl W regs :
  ipc_ok st c rl W -> tick_event st <> Hazard -> advances st W (tick_event st) (ipc_tick regs st).
Proof.
  intros O Hh. pose proof (io_sched _ _ _ _ O) as [_ R].
  assert (T0 : forall id, tokens id (tick_event st) = 0).
  { intros id. unfold tick_event. destruct (current_task _); [|reflexivity]. destruct (q_head _); [reflexivity|].
    destruct (_ && _); reflexivity. }
  assert (H : exists c' rl', ipc_ok (ipc_tick regs st) c' rl' W).
  2:{ destruct H as (c' & rl' & H). apply (advances_same st c' rl'); [exact H|reflexivity|auto]. }
  destruct (decide (ring (sched_of st) c rl = [])) as [E|E]; [|apply (ipc_tick_ok st c rl W regs O E)].
  exists c, []. apply (ipc_tick_alone st c rl W regs O E). intros w X.
  destruct (wo_blocked _ _ _ _ (io_waits _ _ _ _ O) w c X) as [_ Sb].
  apply app_eq_nil in E as [-> _]. destruct (ro_queue _ _ _ R) as (Hq & _).
  apply Hh. unfold tick_event. rewrite (ro_current _ _ _ R), Hq, Sb. cbn [head].
  rewrite (queued_waits st c [] W w c O X). reflexivity.
Qed.

(** *** Exit *)

Lemma task_exit_ok st c rl W code :
  ipc_ok st c rl W -> running st c -> exit_event st <> Hazard ->
  exists woken, ipc_ok (set_sched (task_exit code (sched_of st)) st) c (rl ++ woken) W.
Proof.
  intros O Hr Hh. pose proof (io_sched _ _ _ _ O) as OS. pose proof OS as [T R].
  destruct (task_exit_effect (sched_of st) c rl code OS) as (woken & O1 & _ & _ & Hw & _ & I & S1 & U1 & _).
  exists woken. eapply set_sched_ok; [exact O|exact O1|apply I|]. intros w i Hi.
  destruct (wo_blocked _ _ _ _ (io_waits _ _ _ _ O) w i Hi) as [Li Si].
  assert (Hic : i <> c) by (intros ->; unfold running in Hr; rewrite Hr in Si; discriminate).
  assert (Hiw : i ∉ woken).
  { intros X. apply Hw in X as ([_ Lp] & Ep & Sp). apply Hh. unfold exit_event.
    rewrite (ro_current _ _ _ R), <- Ep.
    assert (Hp : (0 <=? pid (task_at (sched_of st) i)) = true) by exact Lp. rewrite Hp.
    pose proof (task_from_pid_spec (pid (task_at (sched_of st) i)) (sched_of st)) as F.
    destruct (task_from_pid _ _) as [p|]; [|destruct (F i (proj1 Li) eq_refl)].
    destruct F as [Hlp Hpp].
    assert (p = i) as ->.
    { apply (to_inj _ T); [|exact Li|exact Hpp]. split; [exact Hlp|]. unfold is_live. rewrite Hpp. exact Lp. }
    rewrite Sp, (queued_waits st c rl W w i O Hi). reflexivity. }
  assert (Hir : i ∉ rl ++ woken).
  { intros X. apply elem_of_app in X as [X|X]; [|contradiction].
    exact (ready_not_waiting _ _ _ _ _ _ _ _ OS (io_waits _ _ _ _ O) X Hi). }
  rewrite U1 by assumption. split; [reflexivity|]. split; [reflexivity|]. apply (same_ids_live _ _ i I), Li.
Qed.

Lemma exit_tokens st id : tokens id (exit_event st) = 0.
Proof.
  unfold exit_event. destruct (current_task _) as [c|]; [|reflexivity].
  destruct (if 0 <=? _ then _ else _); [destruct (_ && _)|]; reflexivity.
Qed.

(** *** Create and fork *)

(** The scheduler is as before, or one new task is at the end of its queue. *)
Definition grows (s s' : sched) : Prop :=
  s' = s \/ exists slot t, (slot < length (task_table s))%nat /\ ~ live s slot /\ s' = add_task slot t s /\
    pid t = next_pid s /\ parent_pid t < pid t /\ state t = TASK_READY.

Lemma task_create_grows nm entry k c rl r k' :
  sched_ok (sch k) c rl -> task_create nm entry k = Ret (r, k') -> grows (sch k) (sch k').
Proof.
  intros O H. unfold task_create in H.
  apply kop_bind_inv in H as (os & k0 & H0 & H). injection H0 as <- <-.
  pose proof (task_find_slot_spec (sch k)) as Hslot.
  destruct (task_find_slot (sch k)) as [slot|]; [|injection H as <- <-; left; reflexivity].
  apply kop_bind_inv in H as (stack & k1 & H1 & H). apply lift_inv in H1 as [_ S1].
  apply kop_bind_inv in H as ([] & k2 & H2 & H).
  assert (S2 : sch k2 = sch k1).
  { revert H2. unfold new_context, put. intros H2.
    repeat match goal with
    | X : (_ ≫= _) _ = Ret _ |- _ => apply kop_bind_inv in X as (? & ? & ? & X)
    end.
    repeat match goal with X : lift _ _ = Ret _ |- _ => apply lift_inv in X as [_ X] end. congruence. }
  apply kop_bind_inv in H as (old & k3 & H3 & H). injection H3 as <- <-.
  apply kop_bind_inv in H as (nm' & k4 & H4 & H). unfold copy_name in H4.
  destruct (_ <=? _)%nat; [|discriminate]. injection H4 as <- <-.
  apply kop_bind_inv in H as ([] & k5 & H5 & H). injection H5 as <-. injection H as <- <-. cbn [sch].
  rewrite S2, S1. right. eexists slot, _. split; [apply Hslot|]. split; [apply Hslot|].
  split; [reflexivity|]. split; [reflexivity|]. split; [|reflexivity]. cbn [parent_pid pid].
  pose proof (to_next _ (proj1 O)). rewrite (ro_current _ _ _ (proj2 O)).
  apply (to_pid _ (proj1 O)), (ro_live _ _ _ (proj2 O)).
Qed.

Lemma task_fork_grows bss_end regs k c rl r k' :
  sched_ok (sch k) c rl -> task_fork bss_end regs k = Ret (r, k') -> grows (sch k) (sch k').
Proof.
  intros O H. unfold task_fork in H.
  apply kop_bind_inv in H as (os & k0 & H0 & H). injection H0 as <- <-.
  pose proof (task_find_slot_spec (sch k)) as Hslot.
  destruct (task_find_slot (sch k)) as [slot|]; [|injection H as <- <-; left; reflexivity].
  apply kop_bind_inv in H as (dir & k1 & H1 & H). apply lift_inv in H1 as [_ S1].
  destruct (dir =? 0); [injection H as <- <-; left; exact S1|].
  apply kop_bind_inv in H as (stack & k2 & H2 & H). apply lift_inv in H2 as [_ S2].
  apply kop_bind_inv in H as ([] & k3 & H3 & H). apply lift_inv in H3 as [_ S3].
  apply kop_bind_inv in H as ([] & k4 & H4 & H). apply lift_inv in H4 as [_ S4].
  assert (E4 : sch k4 = sch k) by congruence.
  apply kop_bind_inv in H as (cur & k5 & H5 & H). injection H5 as <- <-.
  rewrite E4, (ro_current _ _ _ (proj2 O)) in H.
  apply kop_bind_inv in H as (cn & k6 & H6 & H). injection H6 as <- <-.
  apply kop_bind_inv in H as (old & k7 & H7 & H). injection H7 as <- <-.
  apply kop_bind_inv in H as (nm & k8 & H8 & H). unfold copy_name in H8.
  match type of H8 with context [if ?b then _ else _] => destruct b; [|discriminate] end.
  injection H8 as <- <-.
  apply kop_bind_inv in H as ([] & k9 & H9 & H). injection H9 as <-. injection H as <- <-. cbn [sch].
  rewrite E4. right. eexists slot, _. split; [apply Hslot|]. split; [apply Hslot|].
  split; [reflexivity|]. split; [reflexivity|]. split; [|reflexivity]. cbn [parent_pid pid].
  apply (to_pid _ (proj1 O)), (ro_live _ _ _ (proj2 O)).
Qed.

Lemma add_task_other s c rl slot t :
  sched_ok s c rl -> (slot < length (task_table s))%nat -> ~ live s slot ->
  (forall i, (i ∉ rl ++ [slot]) -> task_at (add_task slot t s) i = task_at s i) /\
  length (task_table (add_task slot t s)) = length (task_table s).
Proof.
  intros [T R] Hs Hn. unfold add_task.
  set (s1 := mk_sched (<[slot := t]> (task_table s)) _ _ _ _ _ _ _).
  assert (A1 : forall j, j <> slot -> task_at s1 j = task_at s j).
  { intros j Hj. unfold task_at, s1. cbn. rewrite insert_total by exact Hs. apply decide_False. congruence. }
  assert (Hin : slot ∉ rl) by (intros X; apply (ro_ready _ _ _ R) in X; tauto).
  assert (Q1 : queue_rep (task_table s1) (ready s1) rl).
  { apply (queue_rep_ext (task_table s)); [apply length_insert| |apply (ro_queue _ _ _ R)].
    intros j Hj. change (next (task_at s1 j) = next (task_at s j)). rewrite A1; [reflexivity|congruence]. }
  assert (Hl : (slot < length (task_table s1))%nat) by (unfold s1; cbn; rewrite length_insert; exact Hs).
  destruct (enqueue_ready_spec s1 rl slot Q1 Hl Hin) as (_ & [L2 _] & U2 & _).
  split.
  { intros i Hi. change (task_at (enqueue_ready slot s1) i = task_at s i). rewrite U2, A1; [reflexivity| |exact Hi].
    intros ->. apply Hi, elem_of_app. right. apply list_elem_of_here. }
  change (length (task_table (enqueue_ready slot s1)) = length (task_table s)). rewrite L2. apply length_insert.
Qed.

Lemma grows_ok st c rl W s' :
  ipc_ok st c rl W -> grows (sched_of st) s' -> exists rl', ipc_ok (set_sched s' st) c rl' W.
Proof.
  intros O [->|(slot & t & Hs & Hn & -> & Hp & Hpar & Hst)]; [exists rl; destruct st; exact O|].
  pose proof (io_sched _ _ _ _ O) as OS.
  destruct (add_task_ok (sched_of st) c rl slot t OS Hs Hn Hp Hpar Hst) as (O1 & _).
  exists (rl ++ [slot]). eapply set_sched_ok; [exact O|exact O1| |].
  - apply (add_task_other _ c rl slot t OS Hs Hn).
  - intros w i Hi. destruct (wo_blocked _ _ _ _ (io_waits _ _ _ _ O) w i Hi) as [Li Si].
    assert (Hni : i ∉ rl ++ [slot]).
    { intros X. apply elem_of_app in X as [X|X].
      - exact (ready_not_waiting _ _ _ _ _ _ _ _ OS (io_waits _ _ _ _ O) X Hi).
      - apply list_elem_of_singleton in X. subst. contradiction. }
    destruct (add_task_other _ c rl slot t OS Hs Hn) as [E El].
    unfold live. rewrite E, El by exact Hni. split; [reflexivity|]. split; [reflexivity|exact Li].
Qed.

(** *** Wait *)

(** A round of [task_wait]: nothing happens, a zombie child is collected, or the
    caller blocks. *)
Inductive wait_outcome (s : sched) (c : nat) : wait_result -> sched -> Prop :=
  | wait_none : wait_outcome s c (Waited (-1)) s
  | wait_reap z : live s z -> state (task_at s z) = TASK_ZOMBIE -> z <> c ->
      wait_outcome s c (Waited (pid (task_at s z))) (reaped z s)
  | wait_block : wait_outcome s c WaitBlocked (update c (set_state TASK_BLOCKED) s).

Lemma task_wait_outcome want k c rl r k' :
  sched_ok (sch k) c rl -> task_wait_step want k = Ret (r, k') -> wait_outcome (sch k) c r (sch k').
Proof.
  intros [T R] H. unfold task_wait_step in H.
  apply kop_bind_inv in H as (cur & k0 & H0 & H). injection H0 as <- <-. rewrite (ro_current _ _ _ R) in H.
  apply kop_bind_inv in H as (me & k0 & H0 & H). injection H0 as <- <-.
  apply kop_bind_inv in H as (child & k0 & H0 & H). injection H0 as <- <-.
  pose proof (find_zombie_spec (pid (task_at (sch k) c)) want (task_table (sch k)) 0) as F.
  destruct (find_zombie _ want _ 0) as [z|].
  - destruct F as (j & -> & Hj & Hc & Hs). cbn [Nat.add] in *. apply is_child_spec in Hc; [|exact Hj].
    apply kop_bind_inv in H as (t & k0 & H0 & H). injection H0 as Et <-.
    apply kop_bind_inv in H as ([] & k1 & H1 & H).
    assert (S1 : sch k1 = sch k) by (destruct (kernel_stack_base t =? 0); [injection H1 as <-; reflexivity|apply lift_inv in H1; apply H1]).
    apply kop_bind_inv in H as ([] & k2 & H2 & H).
    assert (S2 : sch k2 = sch k1) by (destruct (page_dir t =? 0); [injection H2 as <-; reflexivity|apply lift_inv in H2; apply H2]).
    apply kop_bind_inv in H as ([] & k3 & H3 & H). injection H3 as <-. injection H as <- <-.
    cbn [sch]. rewrite S2, S1, <- Et. apply wait_reap; [apply Hc|exact Hs|].
    intros ->. destruct Hc as (Lj & Hp & _). pose proof (to_pid _ T c Lj). lia.
  - apply kop_bind_inv in H as (alive & k0 & H0 & H). injection H0 as <- <-.
    destruct (has_alive _ want _).
    + apply kop_bind_inv in H as ([] & k1 & H1 & H). injection H1 as <-. injection H as <- <-. apply wait_block.
    + injection H as <- <-. apply wait_none.
Qed.

Lemma task_wait_ok st c rl W r s' :
  ipc_ok st c rl W -> running st c -> wait_outcome (sched_of st) c r s' -> ipc_ok (set_sched s' st) c rl W.
Proof.
  intros O Hr H. pose proof (io_sched _ _ _ _ O) as OS. destruct H as [|z Lz Sz Hz|].
  - destruct st; exact O.
  - destruct (reaped_ok _ c rl z OS Lz Sz Hz) as (O1 & _ & U1).
    eapply set_sched_ok; [exact O|exact O1|apply length_insert|]. intros w i Hi.
    destruct (wo_blocked _ _ _ _ (io_waits _ _ _ _ O) w i Hi) as [Li Si].
    assert (i <> z) by (intros ->; rewrite Sz in Si; discriminate). unfold live. rewrite U1 by assumption.
    split; [reflexivity|]. split; [reflexivity|]. destruct Li. split; [cbn; rewrite length_insert|]; assumption.
  - destruct (current_state_ok _ c rl (set_state TASK_BLOCKED) TASK_BLOCKED OS) as (O1 & _ & U1 & I1); [auto 10|auto|].
    eapply set_sched_ok; [exact O|exact O1|apply I1|]. intros w i Hi.
    destruct (wo_blocked _ _ _ _ (io_waits _ _ _ _ O) w i Hi) as [Li Si].
    assert (i <> c) by (intros ->; unfold running in Hr; rewrite Hr in Si; discriminate).
    rewrite U1 by assumption. split; [reflexivity|]. split; [reflexivity|]. apply (same_ids_live _ _ i I1), Li.
Qed.

(** *** Steps *)

Lemma in_slot_cases st i e :
  (i < length (mq_table st))%nat -> in_slot i st e <> Hazard -> mq_live st i /\ in_slot i st e = e.
Proof.
  unfold in_slot. intros Hi H. destruct (Z.leb_spec 0 (mq_id (mq_at st i))) as [X|X]; [|congruence].
  split; [split; assumption|reflexivity].
Qed.

Lemma sys_step_advances st e st' c rl W :
  sys_step st e st' -> e <> Hazard -> ipc_ok st c rl W -> advances st W e st'.
Proof.
  intros S He O. pose proof (io_mqs _ _ _ _ O) as Hm.
  destruct S; try (pose proof (awake_running _ _ _ _ O ltac:(assumption)) as Hr).
  - eapply sem_create_advances; eassumption.
  - eapply sem_wait_advances; eassumption.
  - eapply sem_post_advances; eassumption.
  - eapply sem_destroy_advances; eassumption.
  - eapply msg_queue_create_advances; eassumption.
  - match goal with E : msg_queue_send _ _ _ _ = _ |- _ => eapply send_cases in E; [|eassumption|assumption] end.
    destruct H1 as [(-> & ->)|(i & bs & L & -> & -> & Hl & E)]; [apply (advances_same st c rl); auto|].
    eapply send_loop_advances; try eassumption. apply cap_len_max.
  - destruct (in_slot_cases _ _ _ ltac:(rewrite Hm; eassumption) He) as [L ->].
    eapply send_loop_advances; eassumption.
  - match goal with E : msg_queue_recv _ _ _ = _ |- _ => eapply recv_cases in E; [|eassumption] end.
    destruct H0 as [(-> & ->)|(i & L & -> & E)]; [apply (advances_same st c rl); auto|].
    eapply recv_loop_advances; eassumption.
  - destruct (in_slot_cases _ _ _ ltac:(rewrite Hm; eassumption) He) as [L ->].
    eapply recv_loop_advances; eassumption.
  - eapply msg_queue_destroy_advances; eassumption.
  - destruct H0 as (k & k' & Hk & E & ->).
    destruct (grows_ok st c rl W (sch k') O) as [rl' O']; [|apply (advances_same _ c rl'); auto].
    rewrite <- Hk. eapply task_create_grows; [rewrite Hk; apply O|exact E].
  - destruct H0 as (k & k' & Hk & E & ->).
    destruct (grows_ok st c rl W (sch k') O) as [rl' O']; [|apply (advances_same _ c rl'); auto].
    rewrite <- Hk. eapply task_fork_grows; [rewrite Hk; apply O|exact E].
  - destruct (task_exit_ok st c rl W code O Hr He) as [woken O'].
    apply (advances_same _ c (rl ++ woken)); [exact O'|reflexivity|intros; apply exit_tokens].
  - destruct H0 as (k & k' & Hk & E & ->).
    apply (advances_same _ c rl); [|reflexivity|intros; destruct r; cbn; [destruct (_ <=? _)|]; reflexivity].
    apply (task_wait_ok st c rl W r); [exact O|exact Hr|]. rewrite <- Hk.
    eapply task_wait_outcome; [rewrite Hk; apply O|exact E].
  - apply (ipc_tick_advances st c rl); assumption.
Qed.

Lemma sys_steps_advance st es st' : sys_steps st es st' -> (Hazard ∉ es) -> forall c rl W,
  ipc_ok st c rl W ->
  exists c' rl' W', ipc_ok st' c' rl' W' /\
    forall i, sem_live st i -> (SemDestroyed (sem_id (sem_at st i)) ∉ es) ->
      balance st' W' i = balance st W i + sum_of (tokens (sem_id (sem_at st i))) es.
Proof.
  induction 1 as [st|st e st1 es st2 S Ss IH]; intros Hh c rl W O.
  - exists c, rl, W. split; [exact O|]. intros i Hi _. cbn. lia.
  - destruct (sys_step_advances st e st1 c rl W S) as (c1 & rl1 & W1 & O1 & A1);
      [intros ->; apply Hh, list_elem_of_here|exact O|].
    destruct (sys_step_tabled st e st1 S (ipc_ok_tables _ _ _ _ O)) as (_ & N1 & _).
    destruct (IH ltac:(intros X; apply Hh, list_elem_of_further, X) c1 rl1 W1 O1) as (c2 & rl2 & W2 & O2 & B1).
    exists c2, rl2, W2. split; [exact O2|]. intros i Hi Hn.
    assert (Hne : e <> SemDestroyed (sem_id (sem_at st i))) by (intros ->; apply Hn, list_elem_of_here).
    destruct (N1 i Hi Hne) as (L1 & E1 & _). specialize (A1 i Hi Hne).
    specialize (B1 i L1). rewrite E1 in B1.
    specialize (B1 ltac:(intros X; apply Hn, list_elem_of_further, X)). cbn [sum_of foldr]. unfold sum_of in *. lia.
Qed.

(** ** Zombies stay zombies *)

(** Between two states of the scheduler no task exits, starts or stops being a
    zombie, and the same task has the CPU. *)
Record calm (s s' : sched) : Prop := {
  ca_len : length (task_table s') = length (task_table s);
  ca_next : next_pid s' = next_pid s;
  ca_current : current_task s' = current_task s;
  ca_halted : halted s' = halted s;
  ca_task : forall i, pid (task_at s' i) = pid (task_at s i) /\
    exit_code (task_at s' i) = exit_code (task_at s i) /\
    (state (task_at s' i) = state (task_at s i) \/
     state (task_at s i) <> TASK_ZOMBIE /\ state (task_at s' i) <> TASK_ZOMBIE)
}.

#[export] Instance calm_preorder : PreOrder calm.
Proof.
  split; [intros s; split; auto|]. intros a b c [L1 N1 C1 H1 T1] [L2 N2 C2 H2 T2].
  split; try congruence. intros i. destruct (T1 i) as (P1 & X1 & S1), (T2 i) as (P2 & X2 & S2).
  split; [congruence|]. split; [congruence|].
  destruct S1 as [S1|[S1 S1']], S2 as [S2|[S2 S2']]; [left; congruence|right; split; congruence..].
Qed.

Lemma same_core_push t q ts : same_core ts (snd (queue_push t q ts)).
Proof.
  unfold queue_push. destruct (q_tail q); cbn; [|apply same_core_set_next].
  etransitivity; apply same_core_set_next.
Qed.

Lemma same_core_pop q ts : same_core ts (snd (queue_pop q ts)).
Proof. unfold queue_pop. destruct (q_head q); cbn; [apply same_core_set_next|reflexivity]. Qed.

Lemma calm_links s s' :
  same_core (task_table s) (task_table s') -> next_pid s' = next_pid s ->
  current_task s' = current_task s -> halted s' = halted s -> calm s s'.
Proof.
  intros [L C] N Cu H. split; try assumption. intros i.
  destruct (core_fields _ _ (C i)) as (P & _ & S & X & _). auto.
Qed.

Lemma calm_update i f s :
  (forall t, pid (f t) = pid t /\ exit_code (f t) = exit_code t) ->
  state (task_at s i) <> TASK_ZOMBIE -> state (f (task_at s i)) <> TASK_ZOMBIE -> calm s (update i f s).
Proof.
  intros Hf H1 H2. split; try reflexivity; [apply length_alter|]. intros j. rewrite task_at_update.
  case_decide as D; [|auto]. destruct D as [-> _]. split; [apply Hf|]. split; [apply Hf|]. auto.
Qed.

Lemma enqueue_calm t s : calm s (enqueue_ready t s).
Proof.
  unfold enqueue_ready. pose proof (same_core_push t (ready s) (task_table s)) as P.
  destruct (queue_push t (ready s) (task_table s)) as [q ts]. apply calm_links; try reflexivity. exact P.
Qed.

Lemma task_wake_calm t s : state (task_at s t) <> TASK_ZOMBIE -> calm s (task_wake (Some t) s).
Proof.
  intros H. unfold task_wake. transitivity (update t (set_state TASK_READY) s); [|apply enqueue_calm].
  apply calm_update; [auto|exact H|discriminate].
Qed.

Lemma block_on_calm c q s :
  current_task s = Some c -> state (task_at s c) <> TASK_ZOMBIE -> calm s (snd (block_on c q s)).
Proof.
  intros Hc Hs. unfold block_on, task_block. rewrite Hc.
  set (s1 := update c (set_state TASK_BLOCKED) s). pose proof (same_core_push c q (task_table s1)) as P.
  destruct (queue_push c q (task_table s1)) as [q' ts].
  transitivity s1; [apply calm_update; [auto|exact Hs|discriminate]|apply calm_links; try reflexivity; exact P].
Qed.

Lemma wake_first_calm q s :
  (forall t, q_head q = Some t -> state (task_at s t) <> TASK_ZOMBIE) -> calm s (snd (wake_first q s)).
Proof.
  intros H. unfold wake_first. pose proof (same_core_pop q (task_table s)) as P.
  assert (Hd : forall ts, same_core (task_table s) ts -> calm s (with_tasks ts s))
    by (intros ts X; apply calm_links; try reflexivity; exact X).
  unfold queue_pop in *. destruct (q_head q) as [t|]; cbn [snd] in *; [|apply Hd, P].
  etransitivity; [apply Hd, P|]. apply task_wake_calm.
  destruct (core_fields _ _ (proj2 P t)) as (_ & _ & S & _).
  unfold task_at. cbn. rewrite S. apply H. reflexivity.
Qed.

Lemma waiter_awake s L Q W w t :
  waits_ok s L Q W -> L w -> q_head (Q w) = Some t -> state (task_at s t) <> TASK_ZOMBIE.
Proof.
  intros Ws Hw Ht. destruct (wo_queue _ _ _ _ Ws w Hw) as (Hh & _). rewrite Hh in Ht.
  destruct (wo_blocked _ _ _ _ Ws w t) as [_ S]; [destruct (W w); [discriminate|injection Ht as ->; apply list_elem_of_here]|].
  rewrite S. discriminate.
Qed.

Lemma wake_all_calm c L w l : forall fuel s rl Q W s',
  sched_ok s c rl -> waits_ok s L Q W -> state (task_at s c) = TASK_RUNNING -> L w -> W w = l ->
  wake_all fuel (Q w) s = Some s' -> calm s s'.
Proof.
  induction l as [|t l IH]; intros fuel s rl Q W s' O Ws Hrun Hw HW E;
    pose proof (wo_queue _ _ _ _ Ws w Hw) as (Hq & _); rewrite HW in Hq; cbn [head] in Hq.
  - destruct fuel; cbn [wake_all] in E; rewrite Hq in E; injection E as <-; reflexivity.
  - destruct fuel as [|fuel]; cbn [wake_all] in E; rewrite Hq in E; [discriminate|].
    destruct (wake_first_ok s c rl L Q W w t l O Ws Hrun Hw HW) as (q & s1 & E1 & O1 & Ws1 & _ & S1).
    pose proof (wake_first_calm (Q w) s (fun u => waiter_awake s L Q W w u Ws Hw)) as C1. rewrite E1 in C1, E.
    transitivity s1; [exact C1|]. eapply (IH fuel s1 _ (upd Q w q) (upd W w l)); try eassumption.
    + rewrite S1, decide_False; [exact Hrun|]. intros ->.
      assert (X : t ∈ W w) by (rewrite HW; apply list_elem_of_here).
      apply (wo_blocked _ _ _ _ Ws) in X as [_ X]. rewrite Hrun in X. discriminate.
    + apply upd_same.
    + rewrite upd_same. exact E.
Qed.

(** *** The IPC calls are calm *)

Section calls.
Context (st : ipc) (c : nat) (rl : list nat) (W : wq -> list nat).
Context (O : ipc_ok st c rl W) (Hr : running st c).

Lemma current_running : current_task (sched_of st) = Some c /\ state (task_at (sched_of st) c) <> TASK_ZOMBIE.
Proof using O Hr.
  split; [apply (ro_current _ _ _ (proj2 (io_sched _ _ _ _ O)))|]. unfold running in Hr. rewrite Hr. discriminate.
Qed.

Lemma block_calm q : calm (sched_of st) (snd (block_on c q (sched_of st))).
Proof using O Hr. apply block_on_calm; apply current_running. Qed.

Lemma wake_calm w : in_use st w -> calm (sched_of st) (snd (wake_first (queue_of st w) (sched_of st))).
Proof using O.
  intros Hw. apply wake_first_calm. intros t. apply (waiter_awake _ _ _ _ _ _ (io_waits _ _ _ _ O) Hw).
Qed.

Lemma wake_opt_calm w : in_use st w ->
  calm (sched_of st) (snd (match q_head (queue_of st w) with
                           | Some _ => wake_first (queue_of st w) (sched_of st)
                           | None => (queue_of st w, sched_of st)
                           end)).
Proof using O. intros Hw. destruct (q_head _); [apply wake_calm, Hw|reflexivity]. Qed.

Lemma sem_wait_calm id o st' : sem_wait id st = (o, st') -> calm (sched_of st) (sched_of st').
Proof using O Hr.
  unfold sem_wait. destruct (_ || _); [intros E; injection E as _ <-; reflexivity|].
  destruct (sem_lookup id st); [|intros E; injection E as _ <-; reflexivity].
  destruct (0 <? _); [intros E; injection E as _ <-; reflexivity|].
  rewrite (proj1 current_running). pose proof (block_calm (sem_waiters (sem_at st n))) as B.
  destruct (block_on c _ _) as [q s]. intros E. injection E as _ <-. exact B.
Qed.

Lemma sem_post_calm id r st' : sem_post id st = (r, st') -> calm (sched_of st) (sched_of st').
Proof using O Hr.
  unfold sem_post. destruct (sem_id_cases st id) as [(i & Hi & ->)|Hn].
  - destruct (sem_lookup_live st c rl W i O Hi) as [-> ->]. pose proof (wake_calm (WSem i) Hi) as B.
    cbn [queue_of] in B. destruct (q_head (sem_waiters (sem_at st i))); [|intros E; injection E as _ <-; reflexivity].
    destruct (wake_first _ _) as [q s]. intros E. injection E as _ <-. exact B.
  - intros E. assert (st' = st) as ->; [|reflexivity].
    destruct Hn as [Hn|Hn]; rewrite Hn in E; cbn [orb] in E; [|destruct (_ || _) in E]; congruence.
Qed.

Lemma sem_destroy_calm id r st' : sem_destroy id st = Some (r, st') -> calm (sched_of st) (sched_of st').
Proof using O Hr.
  unfold sem_destroy. destruct (Z.ltb_spec id 0); [intros E; injection E as _ <-; reflexivity|].
  destruct (sem_lookup id st) as [i|] eqn:El; [|intros E; injection E as _ <-; reflexivity].
  apply sem_lookup_some in El as [Hi Hid]. destruct (wake_all _ _ _) as [s|] eqn:E; [|discriminate].
  intros E'. injection E' as _ <-.
  refine (wake_all_calm c _ (WSem i) _ _ _ rl _ W s (io_sched _ _ _ _ O) (io_waits _ _ _ _ O) Hr _ eq_refl E).
  split; [exact Hi|lia].
Qed.

Lemma send_loop_calm i data len o st' :
  mq_live st i -> send_loop i data len st = Ret (o, st') -> calm (sched_of st) (sched_of st').
Proof using O Hr.
  intros Hi. unfold send_loop. rewrite (proj1 current_running). pose proof (block_calm (send_wait (mq_at st i))) as B.
  pose proof (wake_opt_calm (WRecv i) Hi) as Wk. cbn [queue_of] in Wk.
  destruct (_ <=? _).
  - destruct (block_on c _ _) as [q s]. intros E. injection E as _ <-. exact B.
  - destruct (_ <? _)%nat; [discriminate|]. destruct (match q_head _ with Some _ => _ | None => _ end) as [q s].
    intros E. injection E as _ <-. exact Wk.
Qed.

Lemma recv_loop_calm i o st' : mq_live st i -> recv_loop i st = (o, st') -> calm (sched_of st) (sched_of st').
Proof using O Hr.
  intros Hi. unfold recv_loop. rewrite (proj1 current_running). pose proof (block_calm (recv_wait (mq_at st i))) as B.
  pose proof (wake_opt_calm (WSend i) Hi) as Wk. cbn [queue_of] in Wk.
  destruct (_ <=? _).
  - destruct (block_on c _ _) as [q s]. intros E. injection E as _ <-. exact B.
  - destruct (match q_head _ with Some _ => _ | None => _ end) as [q s].
    intros E. injection E as _ <-. exact Wk.
Qed.

Lemma msg_queue_destroy_calm id r st' :
  msg_queue_destroy id st = Some (r, st') -> calm (sched_of st) (sched_of st').
Proof using O Hr.
  unfold msg_queue_destroy. destruct (Z.ltb_spec id 0); [intros E; injection E as _ <-; reflexivity|].
  destruct (mq_lookup id st) as [i|] eqn:El; [|intros E; injection E as _ <-; reflexivity].
  apply mq_lookup_some in El as [Hi Hid].
  assert (L : mq_live st i) by (split; [exact Hi|lia]).
  destruct (wake_all_queue st c rl (queue_of st) W (sched_of st) (WRecv i)
     (io_sched _ _ _ _ O) (io_waits _ _ _ _ O) Hr L) as (s1 & q1 & E1 & O1 & Ws1 & R1).
  cbn [queue_of] in E1. rewrite E1. destruct (wake_all _ _ s1) as [s2|] eqn:E2; [|discriminate].
  intros E. injection E as _ <-. transitivity s1.
  - exact (wake_all_calm c _ (WRecv i) _ _ _ rl _ W s1 (io_sched _ _ _ _ O) (io_waits _ _ _ _ O) Hr L eq_refl E1).
  - refine (wake_all_calm c _ (WSend i) _ _ _ _ _ _ s2 O1 Ws1 R1 L eq_refl _).
    rewrite upd_other by discriminate. exact E2.
Qed.
End calls.

(** *** What every step keeps *)

(** A halted machine stays halted; the CPU is not given to a zombie; a zombie is
    unchanged or collected; pids are not used again. *)
Record kept (e : event) (s s' : sched) : Prop := {
  ke_halted : halted s = true -> halted s' = true;
  ke_current : exists c', current_task s' = Some c' /\
    (state (task_at s c') <> TASK_ZOMBIE \/ halted s' = true);
  ke_zombie : forall i, live s i -> state (task_at s i) = TASK_ZOMBIE ->
    (live s' i /\ pid (task_at s' i) = pid (task_at s i) /\ state (task_at s' i) = TASK_ZOMBIE /\
     exit_code (task_at s' i) = exit_code (task_at s i)) \/
    (e = Reaped (pid (task_at s i)) /\ ~ live s' i);
  ke_next : next_pid s <= next_pid s';
  ke_pids : forall j, live s' j ->
    live s j /\ pid (task_at s' j) = pid (task_at s j) \/ next_pid s <= pid (task_at s' j)
}.

Lemma calm_kept e s s' c :
  calm s s' -> current_task s = Some c -> state (task_at s c) <> TASK_ZOMBIE -> kept e s s'.
Proof.
  intros [L N C H T] Hc Hs.
  assert (Lv : forall i, live s' i <-> live s i)
    by (intros i; unfold live, is_live; rewrite L, (proj1 (T i)); tauto).
  split.
  - congruence.
  - exists c. split; [congruence|auto].
  - intros i Li Si. left. destruct (T i) as (P & X & [S|[S _]]); [|contradiction].
    split; [apply Lv, Li|]. split; [exact P|]. split; [congruence|exact X].
  - lia.
  - intros j Lj. left. split; [apply Lv, Lj|apply T].
Qed.

Definition same_codes (s s' : sched) : Prop := forall i, exit_code (task_at s' i) = exit_code (task_at s i).

Lemma same_codes_update s i f : (forall t, exit_code (f t) = exit_code t) -> same_codes s (update i f s).
Proof. intros H j. rewrite task_at_update. case_decide; [apply H|reflexivity]. Qed.

Lemma same_codes_core s s' : same_core (task_table s) (task_table s') -> same_codes s s'.
Proof. intros [_ C] i. apply (core_fields _ _ (C i)). Qed.

Lemma pick_next_codes c r s : same_codes s (snd (pick_next c r s)).
Proof.
  unfold pick_next, dequeue_ready. pose proof (same_core_pop (ready s) (task_table s)) as P.
  destruct (queue_pop (ready s) (task_table s)) as [[t q] ts]. cbn [snd] in P.
  set (s1 := with_ready q ts s).
  assert (C1 : same_codes s s1) by exact (same_codes_core s s1 P).
  destruct t as [n|]; cbn [snd].
  - intros i. rewrite <- C1.
    exact (same_codes_update s1 n (set_state TASK_RUNNING) (fun t => eq_refl) i).
  - destruct (negb _); cbn [snd]; intros i; [|exact (C1 i)].
    rewrite <- C1. exact (same_codes_update s1 c (set_state TASK_RUNNING) (fun t => eq_refl) i).
Qed.

Lemma scheduler_tick_codes r s : same_codes s (snd (scheduler_tick 32 r s)).
Proof.
  unfold scheduler_tick. cbn [Z.eqb Pos.eqb negb]. set (s0 := with_ticks _ s).
  change (same_codes s0 (snd match current_task s0 with
    | None => (r, None, s0)
    | Some cur => let s := update cur (set_kernel_esp r) s0 in
        let st := state (task_at s cur) in
        if (st =? TASK_ZOMBIE) then pick_next cur r s
        else if (st =? TASK_BLOCKED) then pick_next cur r s
        else if 1 <? task_count s then pick_next cur r (enqueue_ready cur (update cur (set_state TASK_READY) s))
        else (r, None, update cur (set_state TASK_RUNNING) s) end)).
  destruct (current_task s0) as [c|]; [|intros i; reflexivity]. cbn zeta. set (s1 := update c _ s0).
  assert (C1 : same_codes s0 s1) by (apply same_codes_update; reflexivity).
  assert (Hp : forall s2, same_codes s1 s2 -> same_codes s0 (snd (pick_next c r s2)))
    by (intros s2 X i; rewrite pick_next_codes, X; apply C1).
  destruct (_ =? _); [apply Hp; intros i; reflexivity|].
  destruct (_ =? _); [apply Hp; intros i; reflexivity|]. destruct (1 <? _); cbn [snd].
  - apply Hp. intros i. destruct (ca_task _ _ (enqueue_calm c (update c (set_state TASK_READY) s1)) i) as (_ & -> & _).
    apply same_codes_update. reflexivity.
  - intros i. rewrite <- C1. apply same_codes_update. reflexivity.
Qed.

Lemma scheduler_tick_kept e s c rl r : sched_ok s c rl -> kept e s (snd (scheduler_tick 32 r s)).
Proof.
  intros O. pose proof (scheduler_tick_codes r s) as X. pose proof O as [T R].
  destruct (tick_spec s c rl r O) as (f & d & s' & E & _ & _ & I & M). rewrite E in *. cbn [snd] in *.
  pose proof (fun i => same_ids_live _ _ i I) as Lv. pose proof I as (_ & N & _ & P).
  assert (Hk : (halted s = true -> halted s' = true) ->
    (exists c', current_task s' = Some c' /\ (state (task_at s c') <> TASK_ZOMBIE \/ halted s' = true)) ->
    (forall i, live s i -> state (task_at s i) = TASK_ZOMBIE -> state (task_at s' i) = TASK_ZOMBIE) ->
    kept e s s').
  { intros H1 H2 H3. split; [exact H1|exact H2| |lia|].
    - intros i Li Si. left. split; [apply Lv, Li|]. split; [apply P|]. split; [apply H3; assumption|apply X].
    - intros j Lj. left. split; [apply Lv, Lj|apply P]. }
  destruct (ring s c rl) as [|h l] eqn:Er.
  - destruct M as (M1 & _ & _ & M4 & M5). apply Hk.
    + case_decide; destruct M5; congruence.
    + exists c. split; [apply (ro_current _ _ _ (proj2 M1))|]. case_decide; [right; apply M5|left; assumption].
    + intros i Li Si. destruct (decide (i = c)) as [->|Hne]; [|rewrite M4; assumption].
      rewrite decide_True in M5 by exact Si. apply M5.
  - destruct M as (M1 & _ & _ & M4 & _ & M6).
    assert (Hh : state (task_at s h) <> TASK_ZOMBIE).
    { assert (Y : h ∈ ring s c rl) by (rewrite Er; apply list_elem_of_here). unfold ring in Y.
      apply elem_of_app in Y as [Y|Y]; [apply (ro_ready _ _ _ R) in Y as [_ ->]; discriminate|].
      case_decide as D; [apply list_elem_of_singleton in Y; subst h; rewrite D; discriminate|inversion Y]. }
    apply Hk; [congruence| |].
    + exists h. split; [apply (ro_current _ _ _ (proj2 M1))|auto].
    + intros i Li Si. rewrite M6; [exact Si|congruence|].
      destruct (decide (i = c)) as [->|Hne]; [right; rewrite Si; discriminate|auto].
Qed.

Lemma task_exit_halted code s : halted (task_exit code s) = halted s /\ next_pid (task_exit code s) = next_pid s.
Proof.
  unfold task_exit. destruct (current_task s); [|auto].
  destruct (0 <=? _); [|auto]. destruct (task_from_pid _ _); [|auto]. destruct (_ =? _); [|auto].
  split; rewrite ?(ca_halted _ _ (enqueue_calm _ _)), ?(ca_next _ _ (enqueue_calm _ _)); reflexivity.
Qed.

Lemma task_exit_kept e s c rl code :
  sched_ok s c rl -> state (task_at s c) = TASK_RUNNING -> kept e s (task_exit code s).
Proof.
  intros O Hr. destruct (task_exit_effect s c rl code O) as (w & O1 & Z1 & _ & Hw & _ & I & S1 & _ & X1).
  pose proof (task_exit_halted code s) as [H N]. pose proof (fun i => same_ids_live _ _ i I) as Lv.
  destruct I as (_ & _ & _ & P). split.
  - congruence.
  - exists c. split; [apply (ro_current _ _ _ (proj2 O1))|]. rewrite Hr. left. discriminate.
  - intros i Li Si. left. assert (i <> c) by (intros ->; rewrite Hr in Si; discriminate). split; [apply Lv, Li|]. split; [apply P|].
    split; [|apply X1; assumption]. rewrite S1; [exact Si|assumption|].
    intros Y. apply Hw in Y as (_ & _ & Y). rewrite Si in Y. discriminate.
  - lia.
  - intros j Lj. left. split; [apply Lv, Lj|apply P].
Qed.

Lemma grows_kept e s c rl s' :
  sched_ok s c rl -> state (task_at s c) = TASK_RUNNING -> grows s s' -> kept e s s'.
Proof.
  intros O Hr [->|(slot & t & Hs & Hn & -> & Hp & Hpar & Hst)].
  { apply (calm_kept e s s c); [reflexivity|apply (ro_current _ _ _ (proj2 O))|rewrite Hr; discriminate]. }
  destruct (add_task_ok s c rl slot t O Hs Hn Hp Hpar Hst) as (O1 & P1 & N1 & _ & C1).
  destruct (add_task_other s c rl slot t O Hs Hn) as [_ L1]. set (s' := add_task slot t s) in *.
  assert (Hl : forall i, i <> slot -> live s' i <-> live s i).
  { intros i Hi. destruct (core_fields _ _ (C1 i Hi)) as (P & _). unfold live, is_live. rewrite L1, P. tauto. }
  split.
  - intros H. unfold s', add_task. cbn [halted]. rewrite (ca_halted _ _ (enqueue_calm _ _)). exact H.
  - exists c. split; [apply (ro_current _ _ _ (proj2 O1))|]. rewrite Hr. left. discriminate.
  - intros i Li Si. assert (Hi : i <> slot) by (intros ->; contradiction).
    destruct (core_fields _ _ (C1 i Hi)) as (P & _ & S & X & _).
    left. split; [apply Hl; assumption|]. split; [exact P|]. split; congruence.
  - lia.
  - intros j Lj. destruct (decide (j = slot)) as [->|Hj]; [right; lia|left].
    split; [apply Hl; assumption|]. apply (core_fields _ _ (C1 j Hj)).
Qed.

Lemma task_wait_kept s c rl r s' :
  sched_ok s c rl -> state (task_at s c) = TASK_RUNNING -> wait_outcome s c r s' -> kept (reap_event r) s s'.
Proof.
  intros O Hr H. pose proof (ro_current _ _ _ (proj2 O)) as Hc.
  destruct H as [|z Lz Sz Hz|].
  - apply (calm_kept _ s s c); [reflexivity|exact Hc|rewrite Hr; discriminate].
  - destruct (reaped_ok s c rl z O Lz Sz Hz) as (O1 & D1 & U1).
    assert (Ez : reap_event (Waited (pid (task_at s z))) = Reaped (pid (task_at s z))).
    { unfold reap_event. destruct Lz as [_ Lz]. unfold is_live in Lz. rewrite Lz. reflexivity. }
    assert (Hl : forall i, i <> z -> live (reaped z s) i <-> live s i).
    { intros i Hi. unfold live. rewrite U1 by exact Hi. cbn. rewrite length_insert. tauto. }
    rewrite Ez. split; [auto| | |cbn; lia|].
    + exists c. split; [exact Hc|]. rewrite Hr. left. discriminate.
    + intros i Li Si. destruct (decide (i = z)) as [->|Hi]; [auto|left].
      rewrite U1 by exact Hi. split; [apply Hl; assumption|auto].
    + intros j Lj. left. assert (Hj : j <> z) by (intros ->; contradiction). rewrite U1 by exact Hj. split; [apply Hl; assumption|auto].
  - apply (calm_kept _ s _ c); [|exact Hc|rewrite Hr; discriminate].
    apply calm_update; [auto|rewrite Hr; discriminate|discriminate].
Qed.

Lemma sys_step_kept st e st' c rl W :
  sys_step st e st' -> e <> Hazard -> ipc_ok st c rl W -> kept e (sched_of st) (sched_of st').
Proof.
  intros S He O. pose proof (io_mqs _ _ _ _ O) as Hm. pose proof (io_sched _ _ _ _ O) as OS.
  assert (Hcalm : forall e st', running st c -> calm (sched_of st) (sched_of st') -> kept e (sched_of st) (sched_of st')).
  { intros e0 st0 Hr C. destruct (current_running st c rl W O Hr). apply (calm_kept _ _ _ c); assumption. }
  destruct S; try (pose proof (awake_running _ _ _ _ O ltac:(assumption)) as Hr).
  - apply Hcalm; [exact Hr|]. unfold sem_create in H1. destruct (sem_find_slot st); [|injection H1 as _ <-; reflexivity].
    destruct nm as [cs|]; [destruct (_ <=? _)%nat; [|discriminate]|]; injection H1 as _ <-; reflexivity.
  - apply Hcalm; [exact Hr|]. eapply sem_wait_calm; eassumption.
  - apply Hcalm; [exact Hr|]. eapply sem_post_calm; eassumption.
  - apply Hcalm; [exact Hr|]. eapply sem_destroy_calm; eassumption.
  - apply Hcalm; [exact Hr|]. unfold msg_queue_create in H1. destruct (mq_find_slot st); injection H1 as _ <-; reflexivity.
  - apply Hcalm; [exact Hr|]. eapply send_cases in H1; [|eassumption|assumption].
    destruct H1 as [(_ & ->)|(i & bs & L & _ & _ & _ & E)]; [reflexivity|eapply send_loop_calm; eassumption].
  - destruct (in_slot_cases _ _ _ ltac:(rewrite Hm; eassumption) He) as [L _].
    apply Hcalm; [exact Hr|]. eapply send_loop_calm; eassumption.
  - apply Hcalm; [exact Hr|]. eapply recv_cases in H0; [|eassumption].
    destruct H0 as [(_ & ->)|(i & L & _ & E)]; [reflexivity|eapply recv_loop_calm; eassumption].
  - destruct (in_slot_cases _ _ _ ltac:(rewrite Hm; eassumption) He) as [L _].
    apply Hcalm; [exact Hr|]. eapply recv_loop_calm; eassumption.
  - apply Hcalm; [exact Hr|]. eapply msg_queue_destroy_calm; eassumption.
  - destruct H0 as (k & k' & Hk & E & ->). apply (grows_kept _ _ c rl); [exact OS|exact Hr|].
    rewrite <- Hk. eapply task_create_grows; [rewrite Hk; exact OS|exact E].
  - destruct H0 as (k & k' & Hk & E & ->). apply (grows_kept _ _ c rl); [exact OS|exact Hr|].
    rewrite <- Hk. eapply task_fork_grows; [rewrite Hk; exact OS|exact E].
  - apply (task_exit_kept _ _ c rl); assumption.
  - destruct H0 as (k & k' & Hk & E & ->). apply (task_wait_kept _ c rl); [exact OS|exact Hr|].
    rewrite <- Hk. eapply task_wait_outcome; [rewrite Hk; exact OS|exact E].
  - apply (scheduler_tick_kept _ _ c rl), OS.
Qed.

(** *** After an exit *)

(** The task with pid [p] is a zombie in slot [z], or it is gone. *)
Definition zombie_in (s : sched) (z : nat) (p code : Z) : Prop :=
  live s z /\ pid (task_at s z) = p /\ state (task_at s z) = TASK_ZOMBIE /\ exit_code (task_at s z) = code.
Definition no_pid (s : sched) (p : Z) : Prop := forall i, live s i -> pid (task_at s i) <> p.
Definition off_cpu (s : sched) (p : Z) : Prop :=
  halted s = true \/ exists c, current_task s = Some c /\ pid (task_at s c) <> p.

Lemma finished_step e s s' z p code c c' rl rl' :
  sched_ok s c rl -> sched_ok s' c' rl' -> kept e s s' -> p < next_pid s ->
  zombie_in s z p code \/ no_pid s p ->
  off_cpu s' p /\ p < next_pid s' /\
  (zombie_in s z p code -> zombie_in s' z p code \/ e = Reaped p /\ no_pid s' p) /\
  (no_pid s p -> no_pid s' p).
Proof.
  intros [T R] [T' R'] [K1 K2 K3 K4 K5] Hp F. split; [|split; [lia|split]].
  - destruct K2 as (d & Hd & [Hs|Hs]); [right|left; exact Hs].
    assert (d = c') as -> by (pose proof (ro_current _ _ _ R'); congruence).
    exists c'. split; [exact Hd|]. intros E.
    destruct (K5 c' (ro_live _ _ _ R')) as [[L P]|P]; [|lia].
    destruct F as [(Lz & Pz & Sz & _)|F]; [|apply (F c' L); congruence].
    assert (c' = z) as -> by (apply (to_inj s T); [exact L|exact Lz|congruence]). contradiction.
  - intros (Lz & Pz & Sz & Xz). destruct (K3 z Lz Sz) as [(L & P & S & X)|[-> D]].
    + left. split; [exact L|]. split; [congruence|]. split; congruence.
    + right. split; [congruence|]. intros i Li E. destruct (K5 i Li) as [[L P]|P]; [|lia].
      assert (i = z) as -> by (apply (to_inj s T); [exact L|exact Lz|congruence]). contradiction.
  - intros N i Li E. destruct (K5 i Li) as [[L P]|P]; [|lia]. apply (N i L). congruence.
Qed.

Lemma finished_steps st es st' : sys_steps st es st' -> (Hazard ∉ es) -> forall c rl W z p code,
  ipc_ok st c rl W -> p < next_pid (sched_of st) ->
  zombie_in (sched_of st) z p code \/ no_pid (sched_of st) p ->
  (es <> [] -> off_cpu (sched_of st') p) /\
  (zombie_in (sched_of st) z p code ->
     zombie_in (sched_of st') z p code \/ (Reaped p ∈ es) /\ no_pid (sched_of st') p) /\
  (no_pid (sched_of st) p -> no_pid (sched_of st') p).
Proof.
  induction 1 as [st|st e st1 es st2 S Ss IH]; intros Hh c rl W z p code O Hp F.
  - split; [congruence|]. auto.
  - assert (He : e <> Hazard) by (intros ->; apply Hh, list_elem_of_here).
    destruct (sys_step_advances st e st1 c rl W S He O) as (c1 & rl1 & W1 & O1 & _).
    destruct (finished_step e _ _ z p code c c1 rl rl1 (io_sched _ _ _ _ O) (io_sched _ _ _ _ O1)
      (sys_step_kept st e st1 c rl W S He O) Hp F) as (A1 & A2 & A3 & A4).
    destruct (IH ltac:(intros X; apply Hh, list_elem_of_further, X) c1 rl1 W1 z p code O1 A2) as (B1 & B2 & B3).
    { destruct F as [F|F]; [destruct (A3 F) as [X|[_ X]]; auto|auto]. }
    split; [|split].
    + intros _. destruct Ss; [exact A1|apply B1; discriminate].
    + intros Z. destruct (A3 Z) as [X|[-> X]]; [|right; split; [apply list_elem_of_here|auto]].
      destruct (B2 X) as [Y|[Y1 Y2]]; [auto|right; split; [apply list_elem_of_further, Y1|exact Y2]].
    + auto.
Qed.

(** ** Running a program of calls *)

(** The steps above that need no memory, as a function. *)
Inductive call : Type :=
  | CWait (id : Z)
  | CPost (id : Z)
  | CSend (id : Z) (data : list Z)
  | CRecv (id : Z)
  | CRecvAgain (i : nat)
  | CExit (code : Z)
  | CTick (regs : Z).

Definition awake_b (st : ipc) : bool :=
  match current_task (sched_of st) with
  | None => true
  | Some c => negb (state (task_at (sched_of st) c) =? TASK_BLOCKED) &&
              negb (state (task_at (sched_of st) c) =? TASK_ZOMBIE)
  end.

Definition perform (a : call) (st : ipc) : option (event * ipc) :=
  match a with
  | CTick regs => Some (tick_event st, ipc_tick regs st)
  | _ =>
    if negb (awake_b st) then None else
    match a with
    | CWait id => let '(o, st') := sem_wait id st in Some (wait_event id o, st')
    | CPost id => if forallb (fun m => sem_value m <? INT_MAX) (sem_table st)
                  then let '(r, st') := sem_post id st in Some (post_event id r st, st')
                  else None
    | CSend id data =>
        if (cap_len (Z.of_nat (length data)) <=? length data)%nat then
          match msg_queue_send id (Some data) (Z.of_nat (length data)) st with
          | Ret (o, st') => Some (sent_event id (take (cap_len (Z.of_nat (length data))) data) o, st')
          | _ => None
          end
        else None
    | CRecv id => let '(o, st') := msg_queue_recv id true st in Some (recv_event id o, st')
    | CRecvAgain i =>
        if (i <? MAX_MSGQUEUES)%nat
        then let '(o, st') := recv_loop i st in Some (in_slot i st (recv_event (mq_id (mq_at st i)) o), st')
        else None
    | CExit code => Some (exit_event st, set_sched (task_exit code (sched_of st)) st)
    | CTick _ => None
    end
  end.

Fixpoint perform_all (cs : list call) (st : ipc) : option (list event * ipc) :=
  match cs with
  | [] => Some ([], st)
  | a :: cs =>
      match perform a st with
      | Some (e, st1) =>
          match perform_all cs st1 with Some (es, st2) => Some (e :: es, st2) | None => None end
      | None => None
      end
  end.

Lemma awake_b_spec st : awake_b st = true -> awake st.
Proof.
  unfold awake_b. intros H c Hc. rewrite Hc in H. apply andb_prop in H as [H1 H2].
  apply negb_true_iff, Z.eqb_neq in H1, H2. auto.
Qed.

Lemma perform_step a st e st' : perform a st = Some (e, st') -> sys_step st e st'.
Proof.
  unfold perform. destruct a; try (destruct (negb (awake_b st)) eqn:Ha; [discriminate|];
    apply negb_false_iff, awake_b_spec in Ha).
  - destruct (sem_wait id st) as [o s] eqn:E. intros X. injection X as <- <-. apply step_sem_wait; assumption.
  - destruct (forallb _ _) eqn:F; [|discriminate]. destruct (sem_post id st) as [r s] eqn:E.
    intros X. injection X as <- <-. apply step_sem_post; [exact Ha| |exact E].
    rewrite forallb_forall in F. intros i [Hi _]. apply Z.ltb_lt, F.
    apply list_elem_of_In, list_elem_of_lookup_2 with i, list_lookup_lookup_total_lt, Hi.
  - destruct (Nat.leb_spec (cap_len (Z.of_nat (length data))) (length data)); [|discriminate].
    destruct (msg_queue_send _ _ _ st) as [[o s]| |] eqn:E; try discriminate. intros X. injection X as <- <-.
    exact (step_send st id (Some data) _ o s Ha (or_introl H) E).
  - destruct (msg_queue_recv id true st) as [o s] eqn:E. intros X. injection X as <- <-. eapply step_recv; eassumption.
  - destruct (Nat.ltb_spec i MAX_MSGQUEUES); [|discriminate]. destruct (recv_loop i st) as [o s] eqn:E.
    intros X. injection X as <- <-. apply step_recv_again; assumption.
  - intros X. injection X as <- <-. apply step_task_exit, Ha.
  - intros X. injection X as <- <-. apply step_tick.
Qed.

Lemma perform_all_steps cs : forall st es st', perform_all cs st = Some (es, st') -> sys_steps st es st'.
Proof.
  induction cs as [|a cs IH]; intros st es st' H; cbn [perform_all] in H.
  - injection H as <- <-. apply steps_refl.
  - destruct (perform a st) as [[e st1]|] eqn:E; [|discriminate].
    destruct (perform_all cs st1) as [[es1 st2]|] eqn:E2; [|discriminate]. injection H as <- <-.
    eapply steps_cons; [eapply perform_step, E|apply IH, E2].
Qed.

(** Computing an execution. *)
Lemma performed cs st (P : list event -> ipc -> Prop) :
  match perform_all cs st with Some (es, st') => P es st' | None => False end ->
  exists es st', sys_steps st es st' /\ P es st'.
Proof.
  destruct (perform_all cs st) as [[es st']|] eqn:E; [|contradiction]. intros H. exists es, st'.
  split; [apply (perform_all_steps cs), E|exact H].
Qed.

(** ** Properties *)

(** C10: a semaphore that is not destroyed keeps its account.  In every
    execution of calls, forks, exits, waits and timer interrupts its value is
    never negative and changes by the tokens stored minus those taken.  Until a
    hazard, the invariant of the scheduler and of both tables holds as well,
    value minus waiting tasks changes by all posts minus all waits, and the value
    is positive only when nobody waits. *)
Theorem semaphore_account st c rl W es st' i :
  ipc_ok st c rl W -> sys_steps st es st' -> sem_live st i -> (SemDestroyed (sem_id (sem_at st i)) ∉ es) ->
  let id := sem_id (sem_at st i) in
  (sem_live st' i /\ sem_id (sem_at st' i) = id /\ 0 <= sem_value (sem_at st' i) /\
   sem_value (sem_at st' i) = sem_value (sem_at st i) + sum_of (stored id) es) /\
  ((Hazard ∉ es) -> exists c' rl' W', ipc_ok st' c' rl' W' /\
    sem_value (sem_at st' i) - Z.of_nat (length (W' (WSem i))) =
      sem_value (sem_at st i) - Z.of_nat (length (W (WSem i))) + sum_of (tokens id) es /\
    (0 < sem_value (sem_at st' i) -> W' (WSem i) = [])).
Proof.
  intros O Ss Hi Hn id. destruct (sys_steps_tabled st es st' Ss (ipc_ok_tables _ _ _ _ O)) as (T' & A & _).
  destruct (A i Hi Hn) as (L & E & V). split.
  - split; [exact L|]. split; [exact E|]. split; [apply (ta_value _ T' i L)|exact V].
  - intros Hh. destruct (sys_steps_advance st es st' Ss Hh c rl W O) as (c' & rl' & W' & O' & B).
    exists c', rl', W'. split; [exact O'|]. split; [exact (B i Hi Hn)|]. apply (io_value _ _ _ _ O' i L).
Qed.

(** C13: in every execution of calls, forks, exits, waits and timer interrupts,
    hazards included, the messages received from a queue that is not destroyed,
    followed by those still in it, are those it held before followed by those
    sent to it, in order; it never holds more than 64, each of at most 64 bytes. *)
Theorem messages_fifo st c rl W es st' i :
  ipc_ok st c rl W -> sys_steps st es st' -> mq_live st i -> (MqDestroyed (mq_id (mq_at st i)) ∉ es) ->
  let id := mq_id (mq_at st i) in
  mq_live st' i /\ mq_id (mq_at st' i) = id /\
  concat (received id <$> es) ++ mq_contents (mq_at st' i) = mq_contents (mq_at st i) ++ concat (sent id <$> es) /\
  (length (mq_contents (mq_at st' i)) <= 64)%nat /\
  Forall (fun bs => (length bs <= 64)%nat) (mq_contents (mq_at st' i)).
Proof.
  intros O Ss Hi Hn id. destruct (sys_steps_tabled st es st' Ss (ipc_ok_tables _ _ _ _ O)) as (T' & _ & A).
  destruct (A i Hi Hn) as (L & E & V). destruct (ta_messages _ T' i L) as (ms & M).
  split; [exact L|]. split; [exact E|]. split; [symmetry; exact V|].
  rewrite (mq_contents_rep _ _ M). split.
  - rewrite length_fmap. pose proof (mq_rep_bound _ _ M). unfold MSGQUEUE_SIZE in *. lia.
  - destruct M as (_ & Hm & _). apply Forall_fmap. eapply Forall_impl; [exact Hm|].
    intros m [Hl _]. unfold compose, msg_bytes. rewrite length_take, Hl. unfold MSG_MAX_DATA. lia.
Qed.

(** C21: [task_exit] makes the current task a zombie with its exit code and
    wakes its parent, exactly if the parent is blocked.  Whatever calls, forks,
    exits, waits and interrupts follow, as long as none is a hazard, the CPU
    belongs to another task after the first of them (or the machine has halted),
    and the task stays a zombie with that code until its parent collects it, after
    which no task has its pid. *)
Theorem task_exit_final st c rl W code :
  ipc_ok st c rl W -> running st c ->
  let s1 := task_exit code (sched_of st) in
  let p := pid (task_at (sched_of st) c) in
  zombie_in s1 c p code /\
  (exists woken, sched_ok s1 c (rl ++ woken) /\ forall q, q ∈ woken <-> blocked_parent (sched_of st) c q) /\
  (exit_event st <> Hazard -> forall es st', sys_steps (set_sched s1 st) es st' -> es <> [] -> (Hazard ∉ es) ->
     off_cpu (sched_of st') p /\
     (zombie_in (sched_of st') c p code \/ (Reaped p ∈ es) /\ no_pid (sched_of st') p)).
Proof.
  intros O Hr s1 p. pose proof (io_sched _ _ _ _ O) as OS.
  destruct (task_exit_effect (sched_of st) c rl code OS) as (w & O1 & Z1 & X1 & Hw & _ & I & _).
  assert (Z : zombie_in s1 c p code).
  { split; [apply (same_ids_live _ _ c I), (ro_live _ _ _ (proj2 OS))|]. split; [apply I|]. auto. }
  split; [exact Z|]. split; [exists w; auto|]. intros Hh es st' Ss Hne Hes.
  destruct (task_exit_ok st c rl W code O Hr Hh) as [w' O'].
  destruct (finished_steps _ _ _ Ss Hes c _ W c p code O') as (A1 & A2 & _); [|auto|].
  - destruct (to_pid _ (proj1 OS) c (ro_live _ _ _ (proj2 OS))) as [Hp _].
    pose proof (proj1 (proj2 I)) as En. fold s1 in En. change (p < next_pid s1). lia.
  - split; [exact (A1 Hne)|exact (A2 Z)].
Qed.

(** What a hazard can do.  The initial task waits for a message and its child
    for a semaphore; nobody is ready, so the timer lets the child go on without
    a token.  The child sends the message and exits; the initial task receives it
    and posts the semaphore: that wakes the zombie, which gets the CPU again. *)
Definition revive_start : ipc :=
  demo_ipc 0 (add_task 1 (demo_task 1 0x301FB4) (scheduler_init 0x114000 blank_table)).

Definition revive_calls : list call :=
  [CRecv 0; CTick 0x1FFF0; CWait 0; CTick 0x301F00; CSend 0 [104; 105]; CExit 7; CTick 0x301F00;
   CRecvAgain 0; CPost 0; CTick 0x1FFF0].

(** a task that has exited runs again: it was still linked in the queue of
    a semaphore (the timer had resumed it there, scheduler.c:118), and [sem_post]
    makes whatever is linked there ready. *)
Theorem zombie_revived :
  exists st', sys_steps revive_start
    [Internal; Internal; Queued 0; Hazard; Sent 0 [104; 105]; Exited 1; Internal; Received 0 [104; 105];
     Handed 0; Internal] st' /\
    current_task (sched_of st') = Some 1%nat /\ pid (task_at (sched_of st') 1) = 1 /\
    exit_code (task_at (sched_of st') 1) = 7 /\ state (task_at (sched_of st') 1) = TASK_RUNNING.
Proof.
  destruct (performed revive_calls revive_start (fun es st' =>
    es = [Internal; Internal; Queued 0; Hazard; Sent 0 [104; 105]; Exited 1; Internal; Received 0 [104; 105];
          Handed 0; Internal] /\
    current_task (sched_of st') = Some 1%nat /\ pid (task_at (sched_of st') 1) = 1 /\
    exit_code (task_at (sched_of st') 1) = 7 /\ state (task_at (sched_of st') 1) = TASK_RUNNING))
    as (es & st' & S & -> & H); [vm_compute; auto 10|]. exists st'. split; [exact S|exact H].
Qed.

(** ** The properties on concrete executions *)

Lemma running_three v : running (demo_ipc v three_tasks) 0.
Proof.
  destruct three_tasks_ok as [O R]. destruct (demo_ipc_ok v three_tasks _ _ O) as (_ & _ & _ & _ & S).
  unfold running. rewrite S. exact R.
Qed.

Lemma revive_start_ok : exists rl, ipc_ok revive_start 0 rl (fun _ => []) /\ mq_live revive_start 0.
Proof.
  destruct (scheduler_init_ok 0x114000 blank_table eq_refl) as [O _].
  destruct (add_task_ok _ 0 [] 1 (demo_task 1 0x301FB4) O) as (O1 & _); try reflexivity.
  { vm_compute. lia. } { intros [_ X]. vm_compute in X. discriminate. }
  destruct (demo_ipc_ok 0 _ _ _ O1) as (OI & _ & L & _). exists [1%nat]. split; [exact OI|exact L].
Qed.

(** A wait that takes the token, a tick, a wait that blocks, a tick, a post. *)
Lemma semaphore_account_witness :
  exists st', sys_steps (demo_ipc 1 three_tasks) [Took 0; Internal; Queued 0; Internal; Handed 0] st' /\
    sem_value (sem_at st' 0) = 0 /\ exists c rl W, ipc_ok st' c rl W /\ W (WSem 0) = [].
Proof.
  destruct three_tasks_ok as [O _]. destruct (demo_ipc_ok 1 three_tasks _ _ O) as (OI & L & _ & V & _).
  destruct (performed [CWait 0; CTick 0x1FFF0; CWait 0; CTick 0x301F00; CPost 0] (demo_ipc 1 three_tasks)
    (fun es _ => es = [Took 0; Internal; Queued 0; Internal; Handed 0])) as (es & st' & S & ->);
    [vm_compute; reflexivity|].
  exists st'. split; [exact S|].
  destruct (semaphore_account (demo_ipc 1 three_tasks) 0 _ _ _ st' 0 OI S L) as [(_ & _ & _ & Hv) Hq].
  - change (sem_id (sem_at (demo_ipc 1 three_tasks) 0)) with 0. intros X.
    repeat (apply elem_of_cons in X as [X|X]; [discriminate|]). inversion X.
  - change (sem_id (sem_at (demo_ipc 1 three_tasks) 0)) with 0 in *. rewrite V in *.
    split; [rewrite Hv; reflexivity|].
    destruct Hq as (c & rl & W & O' & B & _).
    { intros X. repeat (apply elem_of_cons in X as [X|X]; [discriminate|]). inversion X. }
    exists c, rl, W. split; [exact O'|]. apply length_zero_iff_nil. rewrite Hv in B. cbn in B. lia.
Defined.

(** The execution of [zombie_revived], which has a hazard. *)
Lemma messages_fifo_witness :
  exists es st', sys_steps revive_start es st' /\ concat (received 0 <$> es) = [[104; 105]] /\
    mq_contents (mq_at st' 0) = [].
Proof.
  destruct revive_start_ok as (rl & O & L).
  destruct (performed revive_calls revive_start (fun es _ =>
    concat (received 0 <$> es) = [[104; 105]] /\ concat (sent 0 <$> es) = [[104; 105]] /\
    forallb (fun e => match e with MqDestroyed _ => false | _ => true end) es = true))
    as (es & st' & S & R & Sn & D); [vm_compute; auto|].
  exists es, st'. split; [exact S|]. split; [exact R|].
  destruct (messages_fifo revive_start 0 rl _ es st' 0 O S L) as (_ & _ & F & _).
  - intros X. rewrite forallb_forall in D. apply list_elem_of_In, D in X. discriminate.
  - change (mq_id (mq_at revive_start 0)) with 0 in F. rewrite R, Sn in F.
    change (mq_contents (mq_at revive_start 0)) with (@nil (list Z)) in F. cbn in F. injection F as F. exact F.
Defined.

(** The initial task exits; the others wait, post and are interrupted. *)
Lemma task_exit_final_witness :
  exists st', sys_steps (set_sched (task_exit 7 three_tasks) (demo_ipc 0 three_tasks))
      [Internal; Queued 0; Internal; Handed 0; Internal] st' /\
    off_cpu (sched_of st') 0 /\ zombie_in (sched_of st') 0 0 7.
Proof.
  destruct three_tasks_ok as [O _]. destruct (demo_ipc_ok 0 three_tasks _ _ O) as (OI & _ & _ & _ & S0).
  destruct (performed [CTick 0x1FFF0; CWait 0; CTick 0x301F00; CPost 0; CTick 0x302F00]
    (set_sched (task_exit 7 three_tasks) (demo_ipc 0 three_tasks))
    (fun es _ => es = [Internal; Queued 0; Internal; Handed 0; Internal])) as (es & st' & S & ->);
    [vm_compute; reflexivity|].
  exists st'. split; [exact S|].
  destruct (task_exit_final (demo_ipc 0 three_tasks) 0 _ _ 7 OI (running_three 0)) as (_ & _ & H).
  rewrite S0 in H. destruct (H ltac:(vm_compute; discriminate) _ st' S ltac:(discriminate)) as [A B].
  - intros X. repeat (apply elem_of_cons in X as [X|X]; [discriminate|]). inversion X.
  - split; [exact A|]. destruct B as [B|[B _]]; [exact B|]. exfalso.
    repeat (apply elem_of_cons in B as [B|B]; [discriminate|]). inversion B.
Defined.
