(* ===== verification/Disk.v ===== *)
(** * Block layer (fs/ramdisk.c)

    [SectorOps] is the interface ramdisk.c uses: the two sector operations of
    drivers/ata.c, which may fail; [SectorDisk] adds what they do on a working disk.
    [BlockDevice] is what ramdisk.c offers to the file system: 4096-byte blocks
    of eight sectors.  The instance [ramdisk] implements the second with the
    first; the laws of [BlockDevice] are proved from those of [SectorDisk].

    A buffer is [option (list Z)]: [None] is an uninitialised local array. *)

From S2P Require Import Prelude.
Local Open Scope Z_scope.

Definition BLOCK_SIZE : Z := 4096.
Definition DISK_BLOCKS : Z := 1024.
Definition ATA_SECTOR_SIZE : Z := 512.
Definition SECTORS_PER_BLOCK : Z := BLOCK_SIZE / ATA_SECTOR_SIZE.

(** The sector operations of the disk driver: [ata_read lba count] returns the
    bytes read, or [None] when the driver reports an error; [ata_write] returns
    whether it succeeded. *)
Class SectorOps (D : Type) := {
  ata_read : Z -> Z -> D -> option (list Z) * D;
  ata_write : Z -> Z -> list Z -> D -> bool * D
}.

(** A working disk.  The laws hold for the sectors a 28-bit address reaches,
    up to 255 at a time. *)
Class SectorDisk (D : Type) := {
  disk_ops :: SectorOps D;
  disk_ok : D -> Prop;
  sector : D -> Z -> list Z;
  sector_length : forall d s, disk_ok d -> length (sector d s) = 512%nat;
  ata_read_ok : forall d lba count, disk_ok d -> 0 <= lba -> 0 <= count < 256 -> lba + count <= 2 ^ 28 ->
    exists d', ata_read lba count d = (Some (concat (sector d <$> seqZ lba count)), d') /\
      disk_ok d' /\ forall s, sector d' s = sector d s;
  ata_write_ok : forall d lba count bs, disk_ok d -> 0 <= lba -> 0 <= count < 256 -> lba + count <= 2 ^ 28 ->
    length bs = Z.to_nat (count * 512) ->
    exists d', ata_write lba count bs d = (true, d') /\ disk_ok d' /\
      forall s, sector d' s = if decide (lba <= s < lba + count)
                              then slice (Z.to_nat ((s - lba) * 512)) 512 bs else sector d s
}.

(** Blocks of 4096 bytes; a block number from [DISK_BLOCKS] on is ignored. *)
Class BlockDevice (D : Type) := {
  block_read : Z -> option (list Z) -> D -> option (list Z) * D;
  block_write : Z -> list Z -> D -> D;
  dev_ok : D -> Prop;
  blk : D -> Z -> list Z;
  blk_length : forall d n, dev_ok d -> length (blk d n) = 4096%nat;
  block_read_ok : forall d n buf, dev_ok d -> 0 <= n < DISK_BLOCKS ->
    exists d', block_read n buf d = (Some (blk d n), d') /\ dev_ok d' /\ forall m, blk d' m = blk d m;
  block_write_ok : forall d n bs, dev_ok d -> 0 <= n < DISK_BLOCKS -> length bs = 4096%nat ->
    dev_ok (block_write n bs d) /\
    forall m, blk (block_write n bs d) m = if decide (m = n) then bs else blk d m;
  block_range : forall d n buf bs, DISK_BLOCKS <= n ->
    block_read n buf d = (buf, d) /\ block_write n bs d = d
}.

(** ** The block operations *)

Section operations.
Context {D : Type} `{O : SectorOps D}.

Definition ramdisk_read (block_no : Z) (buf : option (list Z)) (d : D) : option (list Z) * D :=
  if DISK_BLOCKS <=? block_no then (buf, d)
  else
    let lba := u32 (block_no * SECTORS_PER_BLOCK) in
    match ata_read lba SECTORS_PER_BLOCK d with
    | (Some bytes, d) => (Some bytes, d)
    | (None, d) => (Some (replicate (Z.to_nat BLOCK_SIZE) 0), d)
    end.

Definition ramdisk_write (block_no : Z) (buf : list Z) (d : D) : D :=
  if DISK_BLOCKS <=? block_no then d
  else snd (ata_write (u32 (block_no * SECTORS_PER_BLOCK)) SECTORS_PER_BLOCK buf d).

Lemma ramdisk_range d n buf bs : DISK_BLOCKS <= n ->
  ramdisk_read n buf d = (buf, d) /\ ramdisk_write n bs d = d.
Proof.
  intros H. unfold ramdisk_read, ramdisk_write. destruct (Z.leb_spec DISK_BLOCKS n); [auto|lia].
Qed.

(** The eight sectors of a block. *)
Definition block_of (sectors : Z -> list Z) (n : Z) : list Z := concat (sectors <$> seqZ (n * 8) 8).

Lemma block_of_ext f g n : (forall s, f s = g s) -> block_of f n = block_of g n.
Proof. intros H. unfold block_of. f_equal. apply list_fmap_ext. intros i s _. apply H. Qed.

Lemma concat_length_const {A} (ls : list (list A)) k :
  Forall (fun l => length l = k) ls -> length (concat ls) = (length ls * k)%nat.
Proof. induction 1 as [|l ls Hl _ IH]; [reflexivity|]. cbn. rewrite length_app, IH, Hl. reflexivity. Qed.

Lemma block_of_length f n : (forall s, length (f s) = 512%nat) -> length (block_of f n) = 4096%nat.
Proof.
  intros H. unfold block_of. rewrite (concat_length_const _ 512).
  - rewrite length_fmap, length_seqZ. reflexivity.
  - apply Forall_fmap, Forall_true. exact H.
Qed.

Lemma sectors_of_block n : 0 <= n < DISK_BLOCKS -> u32 (n * SECTORS_PER_BLOCK) = n * 8.
Proof. intros H. change SECTORS_PER_BLOCK with 8. apply u32_small. unfold DISK_BLOCKS in H. lia. Qed.

Lemma block_in_reach n : 0 <= n < DISK_BLOCKS -> n * 8 + SECTORS_PER_BLOCK <= 2 ^ 28.
Proof.
  intros Hn. change SECTORS_PER_BLOCK with 8. change (2 ^ 28) with 268435456. unfold DISK_BLOCKS in Hn. lia.
Qed.

(** Cutting a block into its sectors and joining them again. *)
Lemma concat_slices (bs : list Z) k (n : nat) off :
  concat ((fun i => slice (off + i * k) k bs) <$> seq 0 n) = slice off (n * k) bs.
Proof.
  revert off. induction n as [|n IH]; intros off; [unfold slice; rewrite take_0; reflexivity|].
  cbn [seq]. rewrite fmap_cons. cbn [concat]. replace (off + 0 * k)%nat with off by lia.
  rewrite <- seq_shift, <- list_fmap_compose.
  rewrite (list_fmap_ext _ (fun i => slice ((off + k) + i * k) k bs)), IH, slice_app; [reflexivity|].
  intros i x _. unfold compose. f_equal. lia.
Qed.

(** A block read is the block of the sectors read. *)
Lemma read_block d n buf bytes d' : 0 <= n < DISK_BLOCKS -> ata_read (n * 8) SECTORS_PER_BLOCK d = (Some bytes, d') ->
  ramdisk_read n buf d = (Some bytes, d').
Proof.
  intros Hn E. unfold ramdisk_read. destruct (Z.leb_spec DISK_BLOCKS n); [lia|].
  cbv zeta. rewrite sectors_of_block by exact Hn. rewrite E. reflexivity.
Qed.

Lemma write_block d n bs d' : 0 <= n < DISK_BLOCKS -> ata_write (n * 8) SECTORS_PER_BLOCK bs d = (true, d') ->
  ramdisk_write n bs d = d'.
Proof.
  intros Hn E. unfold ramdisk_write. destruct (Z.leb_spec DISK_BLOCKS n); [lia|].
  rewrite sectors_of_block by exact Hn. rewrite E. reflexivity.
Qed.

(** Writing eight sectors writes one block. *)
Lemma block_of_written f g n bs : length bs = 4096%nat ->
  (forall s, g s = if decide (n * 8 <= s < n * 8 + 8) then slice (Z.to_nat ((s - n * 8) * 512)) 512 bs else f s) ->
  forall m, block_of g m = if decide (m = n) then bs else block_of f m.
Proof.
  intros Hl Hs m. unfold block_of. case_decide as Hm.
  - subst m. transitivity (slice 0 (8 * 512) bs); [|rewrite <- (slice_full bs) at 2; rewrite Hl; reflexivity].
    rewrite <- concat_slices. f_equal. unfold seqZ. rewrite <- list_fmap_compose.
    apply list_fmap_ext. intros i x Hx. unfold compose. apply lookup_seq in Hx as [-> Hx].
    rewrite Hs, decide_True by lia. f_equal. lia.
  - f_equal. apply list_fmap_ext. intros i s Hi. apply lookup_seqZ in Hi as [-> Hi].
    rewrite Hs, decide_False; [reflexivity|]. lia.
Qed.
End operations.

Section ramdisk.
Context {D : Type} `{S : SectorDisk D}.

Definition ramdisk_blk (d : D) (n : Z) : list Z := block_of (sector d) n.

Lemma ramdisk_blk_length d n : disk_ok d -> length (ramdisk_blk d n) = 4096%nat.
Proof. intros H. apply block_of_length. intros s. apply sector_length, H. Qed.

Lemma ramdisk_read_ok d n buf : disk_ok d -> 0 <= n < DISK_BLOCKS ->
  exists d', ramdisk_read n buf d = (Some (ramdisk_blk d n), d') /\ disk_ok d' /\
    forall m, ramdisk_blk d' m = ramdisk_blk d m.
Proof.
  intros H Hn. destruct (ata_read_ok d (n * 8) SECTORS_PER_BLOCK H) as (d' & E & H' & Hs);
    [lia|vm_compute; split; congruence|apply block_in_reach, Hn|].
  exists d'. split; [apply read_block; [exact Hn|exact E]|]. split; [exact H'|].
  intros m. apply block_of_ext, Hs.
Qed.

Lemma ramdisk_write_ok d n bs : disk_ok d -> 0 <= n < DISK_BLOCKS -> length bs = 4096%nat ->
  disk_ok (ramdisk_write n bs d) /\
  forall m, ramdisk_blk (ramdisk_write n bs d) m = if decide (m = n) then bs else ramdisk_blk d m.
Proof.
  intros H Hn Hl. destruct (ata_write_ok d (n * 8) SECTORS_PER_BLOCK bs H) as (d' & E & H' & Hs);
    [lia|vm_compute; split; congruence|apply block_in_reach, Hn|rewrite Hl; reflexivity|].
  rewrite (write_block d n bs d' Hn E). split; [exact H'|]. apply block_of_written; [exact Hl|exact Hs].
Qed.

#[export] Instance ramdisk : BlockDevice D := {
  block_read := ramdisk_read;
  block_write := ramdisk_write;
  dev_ok := disk_ok;
  blk := ramdisk_blk;
  blk_length := ramdisk_blk_length;
  block_read_ok := ramdisk_read_ok;
  block_write_ok := ramdisk_write_ok;
  block_range := ramdisk_range
}.
End ramdisk.

(** ** A working disk: a function from sector numbers to sectors *)

Definition image : Type := Z -> list Z.

(** Sectors of any length are read as 512 bytes. *)
Definition image_sector (d : image) (s : Z) : list Z := take 512 (d s ++ replicate 512 0).

Definition image_write (lba count : Z) (bs : list Z) (d : image) : bool * image :=
  (true, fun s => if decide (lba <= s < lba + count) then slice (Z.to_nat ((s - lba) * 512)) 512 bs else d s).

#[export, refine] Instance image_disk : SectorDisk image := {
  disk_ops := {| ata_read := fun lba count d => (Some (concat (image_sector d <$> seqZ lba count)), d); ata_write := image_write |};
  disk_ok := fun _ => True;
  sector := image_sector
}.
Proof.
  - intros d s _. unfold image_sector. rewrite length_take, length_app, length_replicate. lia.
  - intros d lba count _ _ _ _. exists d. auto.
  - intros d lba count bs _ Hlba _ _ Hl. eexists. split; [reflexivity|]. split; [exact I|].
    intros s. unfold image_sector at 1. case_decide as Hs; [|reflexivity].
    apply take_app_length'. symmetry. apply length_slice. lia.
Defined.

(** A disk full of zeros. *)
Definition blank_image : image := fun _ => [].
