(* ===== verification/Sfs.v ===== *)
(** * The file system (fs/sfs.c)

    SFS keeps on the disk a super block, two bitmaps, a table of 61-byte inodes
    with twelve direct blocks, and directories made of 32-byte entries.  The
    operations are over the block interface of Disk.v; the state is the disk and
    the three static variables of sfs.c.

    C strings are the bytes before the NUL; a user buffer is the list of its
    bytes.  An operation that would leave an array, or use an uninitialised
    buffer, is [Oob]. *)

From S2P Require Import Prelude CString Disk.
Local Open Scope Z_scope.
Local Open Scope sros_scope.

(** ** On-disk data (fs/sfs.h) *)

Definition SFS_MAGIC : Z := 0x53465321.
Definition SFS_FILE : Z := 0.
Definition SFS_DIR : Z := 1.
Definition MAX_FILENAME : nat := 28.
Definition SFS_DIRECT_BLOCKS : Z := 12.
Definition MAX_FILES : Z := 16.
Definition ROOT_INO : Z := 1.
Definition INODE_BITMAP_BLOCK : Z := 1.
Definition BLOCK_BITMAP_BLOCK : Z := 2.
Definition INODE_TABLE_START : Z := 3.
Definition INODE_TABLE_BLOCKS : Z := 2.
Definition DATA_BLOCK_START : Z := 5.

Record super_block : Type := mk_super_block {
  magic : Z;
  total_blocks : Z;
  inode_count : Z;
  inode_bitmap_start : Z;
  block_bitmap_start : Z;
  inode_table_start : Z;
  data_block_start : Z
}.

Record sfs_inode : Type := mk_inode {
  ino : Z;
  size : Z;
  type : Z;
  block_count : Z;
  blocks : list Z
}.

Record dentry : Type := mk_dentry { d_ino : Z; d_name : list Z }.

Record file : Type := mk_file { f_ino : Z; f_offset : Z; f_mode : Z; f_in_use : Z }.

Definition sizeof_super : nat := 28.
Definition sizeof_inode : nat := 61.
Definition sizeof_dentry : nat := 32.
Definition INODES_PER_BLOCK : Z := BLOCK_SIZE / Z.of_nat sizeof_inode.
Definition MAX_INODES : Z := INODE_TABLE_BLOCKS * INODES_PER_BLOCK.
Definition DENTRIES_PER_BLOCK : nat := 128.

(** The packed structures as bytes: what a cast to [u8 *] sees. *)
Definition super_bytes (s : super_block) : list Z :=
  le_bytes 4 (magic s) ++ le_bytes 4 (total_blocks s) ++ le_bytes 4 (inode_count s) ++
  le_bytes 4 (inode_bitmap_start s) ++ le_bytes 4 (block_bitmap_start s) ++
  le_bytes 4 (inode_table_start s) ++ le_bytes 4 (data_block_start s).

(** The 4-byte word at a byte offset. *)
Definition word_at (off : nat) (bs : list Z) : Z := le_val (slice off 4 bs).

Definition super_of (bs : list Z) : super_block :=
  mk_super_block (word_at 0 bs) (word_at 4 bs) (word_at 8 bs) (word_at 12 bs) (word_at 16 bs)
    (word_at 20 bs) (word_at 24 bs).

Definition inode_bytes (i : sfs_inode) : list Z :=
  le_bytes 4 (ino i) ++ le_bytes 4 (size i) ++ le_bytes 1 (type i) ++ le_bytes 4 (block_count i) ++
  concat (le_bytes 4 <$> blocks i).

Definition inode_of (bs : list Z) : sfs_inode :=
  mk_inode (word_at 0 bs) (word_at 4 bs) (le_val (slice 8 1 bs)) (word_at 9 bs)
    ((fun k => word_at (13 + k * 4) bs) <$> seq 0 12).

Definition dentry_bytes (d : dentry) : list Z := le_bytes 4 (d_ino d) ++ d_name d.
Definition dentry_of (bs : list Z) : dentry := mk_dentry (word_at 0 bs) (slice 4 28 bs).

Definition zero_inode : sfs_inode := mk_inode 0 0 0 0 (replicate 12 0).
Definition zero_block : list Z := replicate 4096 0.

(** ** Bitmaps *)

Definition bit (bitmap : list Z) (i : Z) : bool :=
  c_true ((bitmap !!! Z.to_nat (i / 8)) .& Z.shiftl 1 (i mod 8)).

(** [for (i = 0; i < max_bits; i++)], [n] iterations left. *)
Fixpoint find_zero_from (n : nat) (bitmap : list Z) (i : Z) : exec Z :=
  match n with
  | O => Ret (-1)
  | S n =>
      if (length bitmap <=? Z.to_nat (i / 8))%nat then Oob
      else if negb (bit bitmap i) then Ret i else find_zero_from n bitmap (i + 1)
  end.

Definition bitmap_find_first_zero (bitmap : list Z) (max_bits : Z) : exec Z :=
  find_zero_from (Z.to_nat max_bits) bitmap 0.

Definition bitmap_set (bitmap : list Z) (idx : Z) : list Z :=
  alter (fun b => u8 (b .| Z.shiftl 1 (idx mod 8))) (Z.to_nat (idx / 8)) bitmap.

Definition bitmap_clear (bitmap : list Z) (idx : Z) : list Z :=
  alter (fun b => u8 (b .& Z.lnot (Z.shiftl 1 (idx mod 8)))) (Z.to_nat (idx / 8)) bitmap.

(** ** Names *)

(** [strcmp(field, name) == 0] for an array [field] and a C string [name]. *)
Fixpoint name_eq (field cs : list Z) : exec bool :=
  match field, cs with
  | [], _ => Oob
  | f :: _, [] => Ret (f =? 0)
  | f :: field, c :: cs => if f =? c then name_eq field cs else Ret false
  end.

(** [for (i = 0; name[i] && i < MAX_FILENAME - 1; i++) d.name[i] = name[i];
     d.name[MAX_FILENAME - 1] = 0;] *)
Definition set_name (name old : list Z) : list Z :=
  <[(MAX_FILENAME - 1)%nat := 0]> (splice 0 (take (MAX_FILENAME - 1) name) old).

(** Drops leading slashes; [None] is the NULL result. *)
Fixpoint skip_slashes (path : list Z) : list Z :=
  match path with
  | c :: rest => if c =? 47 then skip_slashes rest else path
  | [] => []
  end.

Definition path_parse (path : option (list Z)) : Z * option (list Z) :=
  match path with
  | None => (ROOT_INO, None)
  | Some p => match skip_slashes p with [] => (ROOT_INO, None) | q => (ROOT_INO, Some q) end
  end.

(** ** State and operations *)

Record fs (D : Type) : Type := mk_fs {
  dev : D;
  sb : super_block;
  mounted : Z;
  file_table : list file
}.
Arguments mk_fs {D}.
Arguments dev {D}.
Arguments sb {D}.
Arguments mounted {D}.
Arguments file_table {D}.

Definition fsop (D A : Type) : Type := fs D -> exec (A * fs D).

#[export] Instance fsop_ret {D} : MRet (fsop D) := fun A x s => Ret (x, s).
#[export] Instance fsop_bind {D} : MBind (fsop D) := fun A B f m s =>
  match m s with Ret (x, s) => f x s | Panic => Panic | Oob => Oob end.

Section operations.
Context {D : Type} `{BD : BlockDevice D}.
Definition fail_oob {A} : fsop D A := fun _ => Oob.
Definition lift_exec {A} (m : exec A) : fsop D A := fun s =>
  match m with Ret x => Ret (x, s) | Panic => Panic | Oob => Oob end.
Definition get {A} (f : fs D -> A) : fsop D A := fun s => Ret (f s, s).
Definition set_sb (v : super_block) : fsop D unit := fun s =>
  Ret (tt, mk_fs (dev s) v (mounted s) (file_table s)).
Definition set_files (f : list file -> list file) : fsop D unit := fun s =>
  Ret (tt, mk_fs (dev s) (sb s) (mounted s) (f (file_table s))).

(** [block_read] into a buffer, and into a fresh one that is then used. *)
Definition read_into (n : Z) (buf : option (list Z)) : fsop D (option (list Z)) := fun s =>
  let '(b, d) := block_read n buf (dev s) in Ret (b, mk_fs d (sb s) (mounted s) (file_table s)).
Definition use {A} (buf : option A) : fsop D A :=
  match buf with Some b => mret b | None => fail_oob end.
Definition read_block (n : Z) : fsop D (list Z) := b ← read_into n None; use b.
Definition write_block (n : Z) (bs : list Z) : fsop D unit := fun s =>
  Ret (tt, mk_fs (block_write n bs (dev s)) (sb s) (mounted s) (file_table s)).

(** *** Inodes and blocks *)

Definition sfs_alloc_inode : fsop D Z :=
  s ← get sb;
  bitmap ← read_block (inode_bitmap_start s);
  ino ← lift_exec (bitmap_find_first_zero bitmap (i32 (inode_count s)));
  if (ino <? 0) then mret (-1)
  else
    _ ← write_block (inode_bitmap_start s) (bitmap_set bitmap ino);
    mret ino.

Definition sfs_free_inode (ino : Z) : fsop D unit :=
  s ← get sb;
  if (ino =? 0) || (inode_count s <=? ino) then mret tt
  else
    bitmap ← read_block (inode_bitmap_start s);
    write_block (inode_bitmap_start s) (bitmap_clear bitmap ino).

Definition inode_block (s : super_block) (ino : Z) : Z :=
  u32 (inode_table_start s + (ino - 1) / INODES_PER_BLOCK).
Definition inode_offset (ino : Z) : nat :=
  (Z.to_nat ((ino - 1) mod INODES_PER_BLOCK) * sizeof_inode)%nat.

(** [None] is the result -1. *)
Definition sfs_read_inode (ino : Z) : fsop D (option sfs_inode) :=
  s ← get sb;
  if (ino =? 0) || (inode_count s <=? ino) then mret None
  else
    buf ← read_block (inode_block s ino);
    mret (Some (inode_of (slice (inode_offset ino) sizeof_inode buf))).

Definition sfs_write_inode (inode : sfs_inode) : fsop D Z :=
  s ← get sb;
  if (ino inode =? 0) || (inode_count s <=? ino inode) then mret (-1)
  else
    buf ← read_block (inode_block s (ino inode));
    _ ← write_block (inode_block s (ino inode)) (splice (inode_offset (ino inode)) (inode_bytes inode) buf);
    mret 0.

Definition sfs_alloc_block : fsop D Z :=
  s ← get sb;
  bitmap ← read_block (block_bitmap_start s);
  idx ← lift_exec (bitmap_find_first_zero bitmap (i32 (total_blocks s)));
  if ((idx <? 0) || (idx <? i32 (data_block_start s))) then mret (-1)
  else
    _ ← write_block (block_bitmap_start s) (bitmap_set bitmap idx);
    mret idx.

Definition sfs_free_block (block_no : Z) : fsop D unit :=
  s ← get sb;
  if (block_no <? data_block_start s) || (total_blocks s <=? block_no) then mret tt
  else
    bitmap ← read_block (block_bitmap_start s);
    write_block (block_bitmap_start s) (bitmap_clear bitmap block_no).

(** *** Formatting and mounting *)

(** The two first entries of a directory, and the empty rest of its block. *)
Definition dot_entries (self parent : Z) : list Z :=
  let name cs := cs ++ replicate (MAX_FILENAME - length cs) 0 in
  let dentries := dentry_bytes (mk_dentry self (name [46])) ++ dentry_bytes (mk_dentry parent (name [46; 46])) ++
                  replicate (14 * sizeof_dentry) 0 in
  splice 0 dentries zero_block.

Definition default_sb : super_block :=
  mk_super_block SFS_MAGIC DISK_BLOCKS MAX_INODES INODE_BITMAP_BLOCK BLOCK_BITMAP_BLOCK
    INODE_TABLE_START DATA_BLOCK_START.

Definition sfs_format : fsop D unit :=
  _ ← set_sb default_sb;
  _ ← write_block 0 (splice 0 (super_bytes default_sb) zero_block);
  _ ← write_block INODE_BITMAP_BLOCK (bitmap_set zero_block 0);
  _ ← write_block BLOCK_BITMAP_BLOCK (foldl bitmap_set zero_block (seqZ 0 DATA_BLOCK_START));
  _ ← write_block INODE_TABLE_START zero_block;
  _ ← write_block (INODE_TABLE_START + 1) zero_block;
  root_block ← sfs_alloc_block;
  let root_inode := mk_inode ROOT_INO (2 * Z.of_nat sizeof_dentry) SFS_DIR 1
                      (<[0%nat := u32 root_block]> (replicate 12 0)) in
  _ ← write_block (u32 root_block) (dot_entries ROOT_INO ROOT_INO);
  _ ← sfs_write_inode root_inode;
  block ← read_block INODE_BITMAP_BLOCK;
  write_block INODE_BITMAP_BLOCK (bitmap_set block ROOT_INO).

Definition sfs_mount : fsop D Z := fun s =>
  match read_block 0 s with
  | Ret (block, s) =>
      let v := super_of (slice 0 sizeof_super block) in
      if negb (magic v =? SFS_MAGIC) then Ret (-1, mk_fs (dev s) v (mounted s) (file_table s))
      else Ret (0, mk_fs (dev s) v 1
                    ((fun f => mk_file (f_ino f) (f_offset f) (f_mode f) 0) <$> file_table s))
  | Panic => Panic
  | Oob => Oob
  end.

(** *** Directories *)

Definition entry_at (block : list Z) (di : nat) : dentry :=
  dentry_of (slice (di * sizeof_dentry) sizeof_dentry block).

(** The inner loop of [sfs_lookup], [n] entries left. *)
Fixpoint find_entry (n di : nat) (block name : list Z) : exec (option Z) :=
  match n with
  | O => Ret None
  | S n =>
      let d := entry_at block di in
      if d_ino d =? 0 then find_entry n (S di) block name
      else
        match name_eq (d_name d) name with
        | Ret true => Ret (Some (i32 (d_ino d)))
        | Ret false => find_entry n (S di) block name
        | Panic => Panic
        | Oob => Oob
        end
  end.

(** The outer loop, over the blocks of the directory from [bi] on. *)
Fixpoint lookup_blocks (bs : list Z) (bi count : Z) (buf : option (list Z)) (name : list Z) : fsop D Z :=
  if bi <? count then
    match bs with
    | [] => fail_oob
    | b :: bs =>
        buf ← read_into b buf;
        block ← use buf;
        r ← lift_exec (find_entry DENTRIES_PER_BLOCK 0 block name);
        match r with
        | Some i => mret i
        | None => lookup_blocks bs (bi + 1) count buf name
        end
    end
  else mret (-1).

Definition sfs_lookup (dir_ino : Z) (name : list Z) : fsop D Z :=
  r ← sfs_read_inode dir_ino;
  match r with
  | None => mret (-1)
  | Some dir_inode =>
      if negb (type dir_inode =? SFS_DIR) then mret (-1)
      else lookup_blocks (blocks dir_inode) 0 (block_count dir_inode) None name
  end.

(** The first free entry of a block, or the last entry read. *)
Fixpoint free_entry (n di : nat) (block : list Z) (last : option dentry) : option nat * option dentry :=
  match n with
  | O => (None, last)
  | S n =>
      let d := entry_at block di in
      if d_ino d =? 0 then (Some di, Some d) else free_entry n (S di) block (Some d)
  end.

(** The search of [sfs_create]: whether the entry was written, and the last
    [struct dentry d] read. *)
Fixpoint add_to_blocks (bs : list Z) (bi count : Z) (buf : option (list Z)) (d : option dentry)
    (new_ino : Z) (name : list Z) : fsop D (bool * option dentry) :=
  if bi <? count then
    match bs with
    | [] => fail_oob
    | b :: bs =>
        buf ← read_into b buf;
        block ← use buf;
        match free_entry DENTRIES_PER_BLOCK 0 block d with
        | (Some di, Some d) =>
            let d := mk_dentry new_ino (set_name name (d_name d)) in
            _ ← write_block b (splice (di * sizeof_dentry) (dentry_bytes d) block);
            mret (true, Some d)
        | (_, d) => add_to_blocks bs (bi + 1) count buf d new_ino name
        end
    end
  else mret (false, d).

(** The new inode, with its first block when it is a directory. *)
Definition new_inode (parent_ino new_ino ty : Z) : fsop D (option sfs_inode) :=
  if ty =? SFS_DIR then
    block_no ← sfs_alloc_block;
    if block_no <? 0 then
      _ ← sfs_free_inode new_ino;
      mret None
    else
      _ ← write_block block_no (dot_entries new_ino parent_ino);
      mret (Some (mk_inode new_ino (2 * Z.of_nat sizeof_dentry) ty 1
                   (<[0%nat := block_no]> (replicate 12 0))))
  else mret (Some (mk_inode new_ino 0 ty 0 (replicate 12 0))).

(** A block for the directory entry when every one is full. *)
Definition add_block (parent : sfs_inode) (d : option dentry) (new_ino : Z) (name : list Z) :
    fsop D (option sfs_inode) :=
  if SFS_DIRECT_BLOCKS <=? block_count parent then
    _ ← sfs_free_inode new_ino;
    mret None
  else
    new_block ← sfs_alloc_block;
    if new_block <? 0 then
      _ ← sfs_free_inode new_ino;
      mret None
    else
      d ← use d;
      let d := mk_dentry new_ino (set_name name (d_name d)) in
      _ ← write_block new_block (splice 0 (dentry_bytes d) zero_block);
      mret (Some (mk_inode (ino parent) (size parent) (type parent) (block_count parent + 1)
              (<[Z.to_nat (block_count parent) := new_block]> (blocks parent)))).

Definition sfs_create (parent_ino : Z) (name : list Z) (ty : Z) : fsop D Z :=
  r ← sfs_read_inode parent_ino;
  match r with
  | None => mret (-1)
  | Some parent =>
      if negb (type parent =? SFS_DIR) then mret (-1)
      else
        found ← sfs_lookup parent_ino name;
        if 0 <=? found then mret (-1)
        else
          new_ino ← sfs_alloc_inode;
          if new_ino <? 0 then mret (-1)
          else
            i ← new_inode parent_ino new_ino ty;
            match i with
            | None => mret (-1)
            | Some i =>
                _ ← sfs_write_inode i;
                '(written, d) ← add_to_blocks (blocks parent) 0 (block_count parent) None None new_ino name;
                p ← (if (written : bool) then mret (Some parent) else add_block parent d new_ino name);
                match p with
                | None => mret (-1)
                | Some p =>
                    _ ← sfs_write_inode (mk_inode (ino p) (u32 (size p + Z.of_nat sizeof_dentry))
                                           (type p) (block_count p) (blocks p));
                    mret new_ino
                end
            end
  end.

(** *** Files *)

(** [inode->blocks[idx]] *)
Definition inode_blk (i : sfs_inode) (idx : Z) : exec Z :=
  match blocks i !! Z.to_nat idx with Some b => Ret b | None => Oob end.

(** One more than the iterations that can touch the twelve blocks. *)
Definition file_fuel : nat := 14.

(** The loop of [sfs_read_file] from [got] bytes on; the result is what is
    stored from there. *)
Fixpoint read_loop (fuel : nat) (i : sfs_inode) (cnt offset got : Z) (buf : option (list Z)) : fsop D (list Z) :=
  if got <? cnt then
    match fuel with
    | O => fail_oob
    | S fuel =>
        let current_offset := u32 (offset + got) in
        let block_idx := current_offset / BLOCK_SIZE in
        let block_off := current_offset mod BLOCK_SIZE in
        if block_count i <=? block_idx then mret []
        else
          b ← lift_exec (inode_blk i block_idx);
          buf ← read_into b buf;
          block ← use buf;
          let to_copy := Z.min (BLOCK_SIZE - block_off) (cnt - got) in
          rest ← read_loop fuel i cnt offset (got + to_copy) buf;
          mret (slice (Z.to_nat block_off) (Z.to_nat to_copy) block ++ rest)
    end
  else mret [].

(** The bytes read; the C function returns their number. *)
Definition sfs_read_file (i : sfs_inode) (cnt offset : Z) : fsop D (list Z) :=
  if size i <=? offset then mret []
  else read_loop file_fuel i (if size i <? u32 (offset + cnt) then u32 (size i - offset) else cnt)
         offset 0 None.

Definition set_blk (i : sfs_inode) (idx b : Z) : sfs_inode :=
  mk_inode (ino i) (size i) (type i) (block_count i + 1) (<[Z.to_nat idx := b]> (blocks i)).

(** The block to write: the one there, or a new one.  [None] is the [break]. *)
Definition grow (i : sfs_inode) (block_idx : Z) : fsop D (option sfs_inode) :=
  if block_count i <=? block_idx then
    if SFS_DIRECT_BLOCKS <=? block_idx then mret None
    else
      new_block ← sfs_alloc_block;
      if new_block <? 0 then mret None else mret (Some (set_blk i block_idx new_block))
  else mret (Some i).

Fixpoint write_loop (fuel : nat) (i : sfs_inode) (data : list Z) (cnt offset put : Z) (buf : option (list Z)) :
    fsop D (Z * sfs_inode) :=
  if put <? cnt then
    match fuel with
    | O => fail_oob
    | S fuel =>
        let current_offset := u32 (offset + put) in
        let block_idx := current_offset / BLOCK_SIZE in
        let block_off := current_offset mod BLOCK_SIZE in
        g ← grow i block_idx;
        match g with
        | None => mret (put, i)
        | Some i =>
            b ← lift_exec (inode_blk i block_idx);
            buf ← read_into b buf;
            block ← use buf;
            let to_copy := Z.min (BLOCK_SIZE - block_off) (cnt - put) in
            let block := splice (Z.to_nat block_off) (slice (Z.to_nat put) (Z.to_nat to_copy) data) block in
            _ ← write_block b block;
            write_loop fuel i data cnt offset (put + to_copy) (Some block)
        end
    end
  else mret (put, i).

Definition sfs_write_file (i : sfs_inode) (data : list Z) (cnt offset : Z) : fsop D (Z * sfs_inode) :=
  '(written, i) ← write_loop file_fuel i data cnt offset 0 None;
  let e := u32 (offset + written) in
  mret (written, if size i <? e then mk_inode (ino i) e (type i) (block_count i) (blocks i) else i).

(** *** System calls *)

Fixpoint find_fd (fs : list file) (i : Z) : Z :=
  match fs with
  | [] => -1
  | f :: fs => if c_true (f_in_use f) then find_fd fs (i + 1) else i
  end.

Definition sys_open (path : option (list Z)) : fsop D Z :=
  m ← get mounted;
  if negb (c_true m) then mret (-1)
  else
    match path_parse path with
    | (_, None) => mret (-1)
    | (parent_ino, Some name) =>
        ino ← sfs_lookup parent_ino name;
        if ino <? 0 then mret (-1)
        else
          files ← get file_table;
          let fd := find_fd files 0 in
          if fd <? 0 then mret (-1)
          else
            _ ← set_files (<[Z.to_nat fd := mk_file ino 0 2 1]>);
            mret fd
    end.

(** [if (fd < 0 || fd >= MAX_FILES || !file_table[fd].in_use)] *)
Definition open_file (fd : Z) : fsop D (option file) :=
  files ← get file_table;
  if (fd <? 0) || (MAX_FILES <=? fd) then mret None
  else
    match files !! Z.to_nat fd with
    | None => fail_oob
    | Some f => mret (if c_true (f_in_use f) then Some f else None)
    end.

Definition advance (fd n : Z) : fsop D unit :=
  set_files (alter (fun f => mk_file (f_ino f) (u32 (f_offset f + n)) (f_mode f) (f_in_use f)) (Z.to_nat fd)).

(** The result and the bytes stored in the caller's buffer. *)
Definition sys_read (fd count : Z) : fsop D (Z * list Z) :=
  f ← open_file fd;
  match f with
  | None => mret (-1, [])
  | Some f =>
      i ← sfs_read_inode (f_ino f);
      match i with
      | None => mret (-1, [])
      | Some i =>
          bytes ← sfs_read_file i (u32 count) (f_offset f);
          let n := Z.of_nat (length bytes) in
          _ ← advance fd n;
          mret (n, bytes)
      end
  end.

Definition sys_write (fd : Z) (data : list Z) (count : Z) : fsop D Z :=
  f ← open_file fd;
  match f with
  | None => mret (-1)
  | Some f =>
      i ← sfs_read_inode (f_ino f);
      match i with
      | None => mret (-1)
      | Some i =>
          '(n, i) ← sfs_write_file i data (u32 count) (f_offset f);
          _ ← advance fd n;
          _ ← sfs_write_inode i;
          mret n
      end
  end.

Definition sys_close (fd : Z) : fsop D unit :=
  if (fd <? 0) || (MAX_FILES <=? fd) then mret tt
  else set_files (alter (fun f => mk_file (f_ino f) (f_offset f) (f_mode f) 0) (Z.to_nat fd)).
End operations.

(** ** Packed structures *)

Lemma le_val_le_bytes n z : 0 <= z < 256 ^ Z.of_nat n -> le_val (le_bytes n z) = z.
Proof. intros. rewrite le_val_bytes. apply Z.mod_small. assumption. Qed.

Definition inode_ok (i : sfs_inode) : Prop :=
  is_u32 (ino i) /\ is_u32 (size i) /\ is_u8 (type i) /\ is_u32 (block_count i) /\
  length (blocks i) = 12%nat /\ Forall is_u32 (blocks i).

Lemma length_inode_bytes i : length (blocks i) = 12%nat -> length (inode_bytes i) = sizeof_inode.
Proof.
  intros H. unfold inode_bytes. rewrite !length_app, !length_le_bytes, (concat_length_const _ 4).
  - rewrite length_fmap, H. reflexivity.
  - apply Forall_fmap, Forall_true. intros x. apply length_le_bytes.
Qed.

(** Slices of a concatenation of chunks of one length. *)
Lemma slice_app_l {A} off n (a b : list A) : (off + n <= length a)%nat -> slice off n (a ++ b) = slice off n a.
Proof.
  intros H. unfold slice. rewrite drop_app_le by lia. apply take_app_le. rewrite length_drop. lia.
Qed.

Lemma slice_app_r {A} off n (a b : list A) : slice (length a + off) n (a ++ b) = slice off n b.
Proof. unfold slice. rewrite drop_app_add'; reflexivity. Qed.

Lemma slice_concat {A} k (ls : list (list A)) : forall q l r n,
  Forall (fun l => length l = k) ls -> ls !! q = Some l -> (r + n <= k)%nat ->
  slice (q * k + r) n (concat ls) = slice r n l.
Proof.
  induction ls as [|x ls IH]; intros q l r n Hk Hq Hr; [discriminate|].
  apply Forall_cons_1 in Hk as [Hx Hk]. destruct q as [|q]; cbn [concat].
  - cbn in Hq. injection Hq as ->. rewrite slice_app_l by lia. reflexivity.
  - cbn in Hq. replace (S q * k + r)%nat with (length x + (q * k + r))%nat by lia.
    rewrite slice_app_r. apply IH; assumption.
Qed.

Lemma splice_app_l {A} off (new a b : list A) :
  (off + length new <= length a)%nat -> splice off new (a ++ b) = splice off new a ++ b.
Proof.
  intros H. unfold splice. rewrite take_app_le, drop_app_le by lia. rewrite <- !app_assoc. reflexivity.
Qed.

Lemma splice_app_r {A} off (new a b : list A) : splice (length a + off) new (a ++ b) = a ++ splice off new b.
Proof.
  unfold splice. rewrite take_app_add', <- Nat.add_assoc, drop_app_add' by reflexivity.
  rewrite <- !app_assoc. reflexivity.
Qed.

Lemma splice_concat {A} k (ls : list (list A)) : forall q l r new,
  Forall (fun l => length l = k) ls -> ls !! q = Some l -> (r + length new <= k)%nat ->
  concat (<[q := splice r new l]> ls) = splice (q * k + r) new (concat ls).
Proof.
  induction ls as [|x ls IH]; intros q l r new Hk Hq Hr; [discriminate|].
  apply Forall_cons_1 in Hk as [Hx Hk]. destruct q as [|q]; cbn [concat list_insert insert].
  - cbn in Hq. injection Hq as ->. rewrite splice_app_l by lia. reflexivity.
  - cbn in Hq. replace (S q * k + r)%nat with (length x + (q * k + r))%nat by lia.
    rewrite splice_app_r. change (list_insert q ?v ls) with (<[q := v]> ls). f_equal. apply IH; assumption.
Qed.

Lemma word_at_app a z b off : off = length a -> is_u32 z -> word_at off (a ++ le_bytes 4 z ++ b) = z.
Proof.
  intros -> Hz. unfold word_at. rewrite <- (Nat.add_0_r (length a)), slice_app_r, slice_app_l by (rewrite length_le_bytes; lia).
  replace 4%nat with (length (le_bytes 4 z)) at 1 by apply length_le_bytes. rewrite slice_full.
  apply le_val_le_bytes, Hz.
Qed.

Lemma inode_of_bytes i : inode_ok i -> inode_of (inode_bytes i) = i.
Proof.
  intros (H1 & H2 & H3 & H4 & H5 & H6). destruct i as [n sz t bc bl]; cbn [ino size type block_count blocks] in *.
  unfold inode_of, inode_bytes. cbn [ino size type block_count blocks]. f_equal.
  - apply (word_at_app []); [reflexivity|exact H1].
  - apply (word_at_app (le_bytes 4 n)); [reflexivity|exact H2].
  - rewrite app_assoc. change 8%nat with (length (le_bytes 4 n ++ le_bytes 4 sz) + 0)%nat.
    rewrite slice_app_r, slice_app_l by reflexivity. change (slice 0 1 (le_bytes 1 t)) with (le_bytes 1 t).
    apply le_val_le_bytes, H3.
  - rewrite !app_assoc, <- app_assoc. rewrite <- app_assoc. rewrite <- app_assoc, app_assoc, app_assoc.
    apply word_at_app; [reflexivity|exact H4].
  - rewrite !app_assoc. set (pre := (((le_bytes 4 n ++ le_bytes 4 sz) ++ le_bytes 1 t) ++ le_bytes 4 bc)).
    apply list_eq. intros k. rewrite list_lookup_fmap. destruct (bl !! k) as [b|] eqn:E.
    + pose proof (lookup_lt_Some _ _ _ E) as Hk. rewrite lookup_seq_lt by lia. cbn [fmap option_fmap option_map]. rewrite Nat.add_0_l.
      f_equal. unfold word_at. change (13 + k * 4)%nat with (length pre + (k * 4))%nat. rewrite slice_app_r.
      rewrite <- (Nat.add_0_r (k * 4)), (slice_concat 4 _ k (le_bytes 4 b)).
      * change (slice 0 4 (le_bytes 4 b)) with (le_bytes 4 b). apply le_val_le_bytes.
        rewrite Forall_lookup in H6. apply (H6 k b E).
      * apply Forall_fmap, Forall_true. intros x. apply length_le_bytes.
      * rewrite list_lookup_fmap, E. reflexivity.
      * lia.
    + apply lookup_ge_None in E. rewrite lookup_seq_ge by lia. reflexivity.
Qed.

Lemma dentry_of_bytes d : is_u32 (d_ino d) -> length (d_name d) = 28%nat -> dentry_of (dentry_bytes d) = d.
Proof.
  intros H1 H2. destruct d as [n nm]. cbn in *. unfold dentry_of, dentry_bytes. cbn [d_ino d_name]. f_equal.
  - apply (word_at_app []); [reflexivity|exact H1].
  - change (slice (length (le_bytes 4 n) + 0) 28 (le_bytes 4 n ++ nm) = nm).
    rewrite slice_app_r, <- H2. apply slice_full.
Qed.

Lemma length_dentry_bytes d : length (d_name d) = 28%nat -> length (dentry_bytes d) = sizeof_dentry.
Proof. intros H. unfold dentry_bytes. rewrite length_app, length_le_bytes, H. reflexivity. Qed.

Lemma word_at_range off bs : Forall is_u8 bs -> (off + 4 <= length bs)%nat -> is_u32 (word_at off bs).
Proof.
  intros H Hl. unfold word_at, is_u32. pose proof (le_val_bound (slice off 4 bs)) as B.
  rewrite length_slice in B by exact Hl. apply B. apply Forall_take, Forall_drop, H.
Qed.

(** ** Bitmaps *)

Lemma bit_testbit bitmap i : 0 <= i -> bit bitmap i = Z.testbit (bitmap !!! Z.to_nat (i / 8)) (i mod 8).
Proof.
  intros Hi. unfold bit. pose proof (Z.mod_pos_bound i 8 ltac:(lia)) as Hm.
  set (b := bitmap !!! _). set (k := i mod 8) in *. unfold c_true.
  rewrite Z.shiftl_1_l. destruct (Z.testbit b k) eqn:E.
  - apply negb_true_iff, Z.eqb_neq. intros X. apply (f_equal (fun z => Z.testbit z k)) in X.
    rewrite Z.land_spec, E, Z.pow2_bits_true, Z.bits_0 in X by lia. discriminate.
  - apply negb_false_iff, Z.eqb_eq. apply Z.bits_inj'. intros n Hn. rewrite Z.land_spec, Z.bits_0.
    destruct (Z.eq_dec k n) as [<-|Hne]; [rewrite E; reflexivity|].
    rewrite Z.pow2_bits_false by lia. apply andb_false_r.
Qed.

Lemma u8_testbit z k : 0 <= k < 8 -> Z.testbit (u8 z) k = Z.testbit z k.
Proof. intros H. unfold u8. change 256 with (2 ^ 8). apply Z.mod_pow2_bits_low. lia. Qed.

(** Two bit numbers agree when their byte and their place in it do. *)
Lemma div_mod_8 i j : 0 <= i -> 0 <= j -> Z.to_nat (i / 8) = Z.to_nat (j / 8) -> i mod 8 = j mod 8 -> i = j.
Proof.
  intros Hi Hj Hd Hm. apply Z2Nat.inj in Hd; [|apply Z.div_pos; lia..].
  rewrite (Z.div_mod i 8), (Z.div_mod j 8) by lia. congruence.
Qed.

Lemma bit_set bitmap i j :
  0 <= i -> 0 <= j -> (Z.to_nat (i / 8) < length bitmap)%nat ->
  bit (bitmap_set bitmap i) j = (i =? j) || bit bitmap j.
Proof.
  intros Hi Hj Hl. rewrite !bit_testbit by assumption. unfold bitmap_set.
  pose proof (Z.mod_pos_bound i 8 ltac:(lia)) as Hm. pose proof (Z.mod_pos_bound j 8 ltac:(lia)) as Hm'.
  destruct (decide (Z.to_nat (i / 8) = Z.to_nat (j / 8))) as [E|E].
  - rewrite <- E, list_lookup_total_alter, decide_True by auto.
    rewrite u8_testbit, Z.lor_spec, Z.shiftl_1_l by assumption.
    destruct (Z.eqb_spec i j) as [<-|Hne]; [rewrite Z.pow2_bits_true by lia; apply orb_true_r|].
    rewrite Z.pow2_bits_false, orb_false_r; [reflexivity|]. intros X. apply Hne, div_mod_8; assumption.
  - rewrite list_lookup_total_alter_ne by exact E.
    destruct (Z.eqb_spec i j) as [<-|Hne]; [contradiction|reflexivity].
Qed.

Lemma bit_clear bitmap i j :
  0 <= i -> 0 <= j -> (Z.to_nat (i / 8) < length bitmap)%nat ->
  bit (bitmap_clear bitmap i) j = negb (i =? j) && bit bitmap j.
Proof.
  intros Hi Hj Hl. rewrite !bit_testbit by assumption. unfold bitmap_clear.
  pose proof (Z.mod_pos_bound i 8 ltac:(lia)) as Hm. pose proof (Z.mod_pos_bound j 8 ltac:(lia)) as Hm'.
  destruct (decide (Z.to_nat (i / 8) = Z.to_nat (j / 8))) as [E|E].
  - rewrite <- E, list_lookup_total_alter, decide_True by auto.
    rewrite u8_testbit, Z.land_spec, Z.lnot_spec, Z.shiftl_1_l by lia.
    destruct (Z.eqb_spec i j) as [<-|Hne]; [rewrite Z.pow2_bits_true by lia; apply andb_false_r|].
    rewrite Z.pow2_bits_false; [apply andb_true_r|]. intros X. apply Hne, div_mod_8; assumption.
  - rewrite list_lookup_total_alter_ne by exact E.
    destruct (Z.eqb_spec i j) as [<-|Hne]; [contradiction|reflexivity].
Qed.

Lemma length_bitmap_set bitmap i : length (bitmap_set bitmap i) = length bitmap.
Proof. apply length_alter. Qed.

Lemma find_zero_spec bitmap : forall n i,
  0 <= i -> i + Z.of_nat n <= 8 * Z.of_nat (length bitmap) ->
  exists r, find_zero_from n bitmap i = Ret r /\
    ((r = -1 /\ forall j, i <= j < i + Z.of_nat n -> bit bitmap j = true) \/
     (i <= r < i + Z.of_nat n /\ bit bitmap r = false /\ forall j, i <= j < r -> bit bitmap j = true)).
Proof.
  induction n as [|n IH]; intros i Hi Hl; cbn [find_zero_from].
  - exists (-1). split; [reflexivity|]. left. split; [reflexivity|]. intros j Hj. lia.
  - destruct (Nat.leb_spec (length bitmap) (Z.to_nat (i / 8))) as [X|_]; [exfalso; mlia|].
    destruct (bit bitmap i) eqn:E; cbn [negb].
    + destruct (IH (i + 1)) as (r & Er & H); [lia|lia|]. exists r. split; [exact Er|].
      destruct H as [[-> H]|(H1 & H2 & H3)]; [left|right].
      * split; [reflexivity|]. intros j Hj. destruct (Z.eq_dec i j) as [<-|]; [exact E|apply H; lia].
      * split; [lia|]. split; [exact H2|]. intros j Hj. destruct (Z.eq_dec i j) as [<-|]; [exact E|apply H3; lia].
    + exists i. split; [reflexivity|]. right. split; [lia|]. split; [exact E|]. intros j Hj. lia.
Qed.

Lemma find_first_zero_spec bitmap max :
  0 <= max <= 8 * Z.of_nat (length bitmap) ->
  exists r, bitmap_find_first_zero bitmap max = Ret r /\
    ((r = -1 /\ forall j, 0 <= j < max -> bit bitmap j = true) \/
     (0 <= r < max /\ bit bitmap r = false /\ forall j, 0 <= j < r -> bit bitmap j = true)).
Proof.
  intros H. destruct (find_zero_spec bitmap (Z.to_nat max) 0) as (r & E & C); [lia|lia|].
  rewrite Z.add_0_l, Z2Nat.id in C by lia. exists r. auto.
Qed.

(** ** Running operations on a map of blocks *)

(** The contents of the blocks of the disk. *)
Definition blockmap : Type := Z -> list Z.

Definition put_blk (n : Z) (bs : list Z) (B : blockmap) : blockmap := fun m => if decide (m = n) then bs else B m.

Definition valid_block (n : Z) : Prop := 0 <= n < DISK_BLOCKS.
Definition map_ok (B : blockmap) : Prop := forall n, valid_block n -> length (B n) = 4096%nat.

Lemma put_same n bs B : put_blk n bs B n = bs.
Proof. unfold put_blk. apply decide_True. reflexivity. Qed.
Lemma put_other n bs B m : m <> n -> put_blk n bs B m = B m.
Proof. intros. unfold put_blk. apply decide_False. assumption. Qed.
Lemma put_ok n bs B : map_ok B -> length bs = 4096%nat -> map_ok (put_blk n bs B).
Proof. intros H Hl m Hm. unfold put_blk. case_decide; [exact Hl|apply H, Hm]. Qed.

Section runs.
Context {D : Type} `{BD : BlockDevice D}.

(** A formatted file system whose disk holds [B]. *)
Record holds (s : fs D) (B : blockmap) : Prop := {
  h_dev : dev_ok (dev s);
  h_sb : sb s = default_sb;
  h_blk : forall n, valid_block n -> blk (dev s) n = B n
}.

(** From a disk [B] the operation returns [x] and leaves [B'], without
    touching the open files. *)
Definition does {A} (m : fsop D A) (B : blockmap) (x : A) (B' : blockmap) : Prop :=
  forall s, holds s B -> exists s', m s = Ret (x, s') /\ holds s' B' /\
    file_table s' = file_table s /\ mounted s' = mounted s.

Lemma holds_ok s B : holds s B -> map_ok B.
Proof. intros [H1 _ H3] n Hn. rewrite <- H3 by exact Hn. apply blk_length, H1. Qed.

Lemma does_ret {A} (x : A) B : does (mret x) B x B.
Proof. intros s H. exists s. auto. Qed.

Lemma does_bind {A C} (m : fsop D A) (f : A -> fsop D C) B x B1 y B2 :
  does m B x B1 -> does (f x) B1 y B2 -> does (m ≫= f) B y B2.
Proof.
  intros H1 H2 s Hs. destruct (H1 s Hs) as (s1 & E1 & S1 & F1 & M1).
  destruct (H2 s1 S1) as (s2 & E2 & S2 & F2 & M2). exists s2.
  unfold mbind, fsop_bind. rewrite E1, E2, F2, M2. auto.
Qed.

Lemma does_get_sb B : does (get sb) B default_sb B.
Proof. intros s H. exists s. unfold get. rewrite (h_sb _ _ H). auto. Qed.

Lemma does_lift {A} (m : exec A) x B : m = Ret x -> does (lift_exec m) B x B.
Proof. intros -> s H. exists s. auto. Qed.

Lemma does_read_into n buf B : valid_block n -> does (read_into n buf) B (Some (B n)) B.
Proof.
  intros Hn s [H1 H2 H3]. destruct (block_read_ok (dev s) n buf H1 Hn) as (d & E & H1' & E').
  unfold read_into. rewrite E. eexists. split; [rewrite <- H3 by exact Hn; reflexivity|].
  split; [|auto]. split; cbn; [exact H1'|exact H2|]. intros m Hm. rewrite E'. apply H3, Hm.
Qed.

Lemma does_use {A} (b : A) B : does (use (Some b)) B b B.
Proof. apply does_ret. Qed.

Lemma does_read n B : valid_block n -> does (read_block n) B (B n) B.
Proof. intros Hn. eapply does_bind; [apply does_read_into, Hn|apply does_use]. Qed.

Lemma does_write n bs B :
  valid_block n -> length bs = 4096%nat -> does (write_block n bs) B tt (put_blk n bs B).
Proof.
  intros Hn Hl s [H1 H2 H3]. destruct (block_write_ok (dev s) n bs H1 Hn Hl) as (H1' & E).
  eexists. split; [reflexivity|]. split; [|auto]. split; cbn; [exact H1'|exact H2|].
  intros m Hm. rewrite E. unfold put_blk. case_decide; [reflexivity|apply H3, Hm].
Qed.

(** The result may be established with the size of the blocks known. *)
Lemma does_with_ok {A} (m : fsop D A) B x B' : (map_ok B -> does m B x B') -> does m B x B'.
Proof. intros H s Hs. apply H; [exact (holds_ok s B Hs)|exact Hs]. Qed.

Lemma does_map_ok {A} (m : fsop D A) B x B' s : does m B x B' -> holds s B -> map_ok B'.
Proof. intros H Hs. destruct (H s Hs) as (s' & _ & Hs' & _). exact (holds_ok s' B' Hs'). Qed.
End runs.

#[export] Hint Resolve put_ok : sros.

(** One step of an operation whose first part is one of the basic ones. *)
Ltac does_step :=
  lazymatch goal with
  | |- does (mret _) _ _ _ => apply does_ret
  | |- does (get sb ≫= _) _ _ _ => eapply does_bind; [apply does_get_sb|]
  | |- does (read_block _ ≫= _) _ _ _ => eapply does_bind; [apply does_read|]
  | |- does (read_into _ _ ≫= _) _ _ _ => eapply does_bind; [apply does_read_into|]
  | |- does (use (Some _) ≫= _) _ _ _ => eapply does_bind; [apply does_use|]
  | |- does (lift_exec _ ≫= _) _ _ _ => eapply does_bind; [apply does_lift|]
  | |- does (write_block _ _ ≫= _) _ _ _ => eapply does_bind; [apply does_write|]
  | |- does (write_block _ _) _ _ _ => apply does_write
  | |- does (mret _ ≫= _) _ _ _ => eapply does_bind; [apply does_ret|]
  end.

(** ** Inodes *)

(** The inode the disk holds under a number. *)
Definition inode_at (B : blockmap) (n : Z) : sfs_inode :=
  inode_of (slice (inode_offset n) sizeof_inode (B (inode_block default_sb n))).

Definition put_inode (i : sfs_inode) (B : blockmap) : blockmap :=
  let n := inode_block default_sb (ino i) in
  put_blk n (splice (inode_offset (ino i)) (inode_bytes i) (B n)) B.

Definition valid_ino (n : Z) : Prop := 0 < n < MAX_INODES.

Lemma inode_block_eq n : valid_ino n -> inode_block default_sb n = 3 + (n - 1) / 67.
Proof.
  intros [H1 H2]. unfold inode_block. change (inode_table_start default_sb) with 3. change INODES_PER_BLOCK with 67.
  change MAX_INODES with 134 in H2. apply u32_small. mlia.
Qed.

Lemma inode_block_valid n : valid_ino n -> 3 <= inode_block default_sb n <= 4.
Proof. intros H. rewrite inode_block_eq by exact H. destruct H as [H1 H2]. change MAX_INODES with 134 in H2. mlia. Qed.

Lemma inode_offset_fits n : (inode_offset n + sizeof_inode <= 4096)%nat.
Proof.
  unfold inode_offset, sizeof_inode. change INODES_PER_BLOCK with 67.
  pose proof (Z.mod_pos_bound (n - 1) 67 ltac:(lia)). lia.
Qed.

(** Distinct inodes are in distinct blocks or 61 bytes apart. *)
Lemma inode_offset_apart n m : valid_ino n -> valid_ino m -> n <> m ->
  inode_block default_sb n = inode_block default_sb m ->
  (inode_offset n + sizeof_inode <= inode_offset m)%nat \/ (inode_offset m + sizeof_inode <= inode_offset n)%nat.
Proof.
  intros Hn Hm Hne. rewrite !inode_block_eq by assumption. unfold inode_offset, sizeof_inode.
  change INODES_PER_BLOCK with 67. destruct Hn, Hm. intros E.
  assert (Hd : (n - 1) mod 67 <> (m - 1) mod 67) by (intros X; apply Hne; mlia).
  pose proof (Z.mod_pos_bound (n - 1) 67 ltac:(lia)). pose proof (Z.mod_pos_bound (m - 1) 67 ltac:(lia)).
  destruct (Z.lt_total ((n - 1) mod 67) ((m - 1) mod 67)) as [X|[X|X]]; [left|contradiction|right]; lia.
Qed.

Lemma inode_at_put i B n : map_ok B -> inode_ok i -> valid_ino (ino i) -> valid_ino n ->
  inode_at (put_inode i B) n = if decide (n = ino i) then i else inode_at B n.
Proof.
  intros HB Hi Hv Hn. unfold inode_at, put_inode.
  assert (HBl : length (B (inode_block default_sb (ino i))) = 4096%nat).
  { apply HB. pose proof (inode_block_valid _ Hv). unfold valid_block, DISK_BLOCKS. lia. }
  pose proof (length_inode_bytes i) as Hl. rewrite (proj1 (proj2 (proj2 (proj2 (proj2 Hi))))) in Hl. specialize (Hl eq_refl).
  pose proof (inode_offset_fits (ino i)) as Hf.
  case_decide as Hd.
  - subst n. rewrite put_same, <- Hl, slice_splice_same by (rewrite Hl, HBl; exact Hf). apply inode_of_bytes, Hi.
  - destruct (decide (inode_block default_sb n = inode_block default_sb (ino i))) as [E|E]; [|rewrite put_other by exact E; reflexivity].
    rewrite E, put_same. f_equal.
    destruct (inode_offset_apart n (ino i) Hn Hv Hd E).
    + apply slice_splice_before; [assumption|rewrite Hl, HBl; exact Hf].
    + apply slice_splice_after; [rewrite Hl; assumption|rewrite Hl, HBl; exact Hf].
Qed.

Lemma put_inode_ok i B : map_ok B -> inode_ok i -> valid_ino (ino i) -> map_ok (put_inode i B).
Proof.
  intros HB Hi Hv. apply put_ok; [exact HB|].
  assert (HBl : length (B (inode_block default_sb (ino i))) = 4096%nat).
  { apply HB. pose proof (inode_block_valid _ Hv). unfold valid_block, DISK_BLOCKS. lia. }
  rewrite length_splice; [exact HBl|]. rewrite length_inode_bytes, HBl by apply Hi. apply inode_offset_fits.
Qed.

Lemma put_inode_other i B m : valid_ino (ino i) -> ~ (3 <= m <= 4) -> put_inode i B m = B m.
Proof. intros Hv Hm. apply put_other. pose proof (inode_block_valid _ Hv). lia. Qed.

Lemma valid_ino_test n : valid_ino n -> (n =? 0) || (inode_count default_sb <=? n) = false.
Proof.
  intros [H1 H2]. change (inode_count default_sb) with MAX_INODES.
  apply orb_false_intro; [apply Z.eqb_neq|apply Z.leb_gt]; lia.
Qed.

(** Blocks handed out for data. *)
Definition used_block (B : blockmap) (n : Z) : bool := bit (B BLOCK_BITMAP_BLOCK) n.
Definition reserved_ok (B : blockmap) : Prop := forall n, 0 <= n < DATA_BLOCK_START -> used_block B n = true.

Section inodes.
Context {D : Type} `{BD : BlockDevice D}.

Lemma does_read_inode n B : valid_ino n -> does (sfs_read_inode n) B (Some (inode_at B n)) B.
Proof.
  intros Hn. unfold sfs_read_inode. does_step. rewrite valid_ino_test by exact Hn.
  does_step; [|does_step]. pose proof (inode_block_valid n Hn). unfold valid_block, DISK_BLOCKS. lia.
Qed.

Lemma does_write_inode i B : inode_ok i -> valid_ino (ino i) -> does (sfs_write_inode i) B 0 (put_inode i B).
Proof.
  intros Hi Hv. pose proof (inode_block_valid _ Hv) as Hb. apply does_with_ok. intros HB.
  assert (Hv' : valid_block (inode_block default_sb (ino i))) by (unfold valid_block, DISK_BLOCKS; lia).
  unfold sfs_write_inode. does_step. rewrite valid_ino_test by exact Hv.
  does_step; [exact Hv'|]. does_step; [exact Hv'| |apply does_ret].
  rewrite length_splice; [apply HB, Hv'|]. rewrite length_inode_bytes, HB by (try apply Hi; exact Hv'). apply inode_offset_fits.
Qed.

(** The block allocator: the lowest free block, or none. *)
Lemma does_alloc_block B : map_ok B -> reserved_ok B ->
  (exists n, DATA_BLOCK_START <= n < DISK_BLOCKS /\ used_block B n = false /\
     (forall m, 0 <= m < n -> used_block B m = true) /\
     does sfs_alloc_block B n (put_blk BLOCK_BITMAP_BLOCK (bitmap_set (B BLOCK_BITMAP_BLOCK) n) B)) \/
  ((forall m, 0 <= m < DISK_BLOCKS -> used_block B m = true) /\ does sfs_alloc_block B (-1) B).
Proof.
  intros HB HR. assert (Hl : length (B BLOCK_BITMAP_BLOCK) = 4096%nat)
    by (apply HB; unfold valid_block, DISK_BLOCKS, BLOCK_BITMAP_BLOCK; lia).
  destruct (find_first_zero_spec (B BLOCK_BITMAP_BLOCK) 1024) as (r & E & C); [rewrite Hl; lia|].
  assert (Hv : valid_block BLOCK_BITMAP_BLOCK) by (unfold valid_block, DISK_BLOCKS, BLOCK_BITMAP_BLOCK; lia).
  destruct C as [[-> C]|(C1 & C2 & C3)]; [right; split; [exact C|]|left; exists r].
  - unfold sfs_alloc_block. does_step. does_step; [exact Hv|]. does_step; [exact E|]. apply does_ret.
  - assert (Hr : DATA_BLOCK_START <= r).
    { destruct (Z.lt_ge_cases r DATA_BLOCK_START) as [X|X]; [|exact X].
      specialize (HR r ltac:(lia)). unfold used_block in HR. congruence. }
    split; [unfold DISK_BLOCKS; lia|]. split; [exact C2|]. split; [exact C3|].
    unfold sfs_alloc_block. does_step. does_step; [exact Hv|]. does_step; [exact E|].
    assert (T : (r <? 0) || (r <? i32 (data_block_start default_sb)) = false).
    { change (i32 (data_block_start default_sb)) with 5. unfold DATA_BLOCK_START in Hr.
      apply orb_false_intro; apply Z.ltb_ge; lia. }
    rewrite T. does_step; [exact Hv| |apply does_ret]. rewrite length_bitmap_set. exact Hl.
Qed.
End inodes.

(** ** The contents of a file *)

Definition file_blocks (i : sfs_inode) : list Z := take (Z.to_nat (block_count i)) (blocks i).

(** All the bytes of its blocks, and those within its size. *)
Definition content (B : blockmap) (i : sfs_inode) : list Z := concat (B <$> file_blocks i).
Definition file_bytes (B : blockmap) (i : sfs_inode) : list Z := take (Z.to_nat (size i)) (content B i).

(** The blocks of a file are distinct data blocks marked as used. *)
Record file_ok (B : blockmap) (i : sfs_inode) : Prop := {
  fo_inode : inode_ok i;
  fo_count : block_count i <= SFS_DIRECT_BLOCKS;
  fo_nodup : NoDup (file_blocks i);
  fo_data : Forall (fun n => DATA_BLOCK_START <= n < DISK_BLOCKS /\ used_block B n = true) (file_blocks i);
  fo_reserved : reserved_ok B
}.

Lemma length_file_blocks B i : file_ok B i -> length (file_blocks i) = Z.to_nat (block_count i).
Proof.
  intros [(_ & _ & _ & _ & Hl & _) Hc _ _ _]. unfold file_blocks. rewrite length_take.
  unfold SFS_DIRECT_BLOCKS in Hc. lia.
Qed.

Lemma count_range B i : file_ok B i -> 0 <= block_count i <= 12.
Proof. intros [(_ & _ & _ & H & _) Hc _ _ _]. unfold SFS_DIRECT_BLOCKS in Hc. destruct H. lia. Qed.

Lemma file_chunks B i : map_ok B -> file_ok B i -> Forall (fun l => length l = 4096%nat) (B <$> file_blocks i).
Proof.
  intros HB F. apply Forall_fmap. eapply Forall_impl; [apply (fo_data _ _ F)|].
  intros n [Hn _]. apply HB. unfold valid_block, DATA_BLOCK_START in *. lia.
Qed.

Lemma length_content B i : map_ok B -> file_ok B i -> length (content B i) = (Z.to_nat (block_count i) * 4096)%nat.
Proof.
  intros HB F. unfold content. rewrite (concat_length_const _ 4096) by (apply file_chunks; assumption).
  rewrite length_fmap, (length_file_blocks B i F). reflexivity.
Qed.

(** A block of the file, by index. *)
Lemma file_block_at B i idx : file_ok B i -> 0 <= idx < block_count i ->
  exists b, inode_blk i idx = Ret b /\ file_blocks i !! Z.to_nat idx = Some b /\
    DATA_BLOCK_START <= b < DISK_BLOCKS /\ used_block B b = true.
Proof.
  intros F Hi. assert (Hl : (Z.to_nat idx < length (file_blocks i))%nat)
    by (rewrite (length_file_blocks B i F); lia).
  apply lookup_lt_is_Some in Hl as [b Hb]. exists b.
  pose proof (fo_data _ _ F) as Hd. rewrite Forall_lookup in Hd. destruct (Hd _ _ Hb) as [H1 H2].
  split; [|auto]. unfold inode_blk. unfold file_blocks in Hb. rewrite lookup_take_Some in Hb.
  destruct Hb as [-> _]. reflexivity.
Qed.

Lemma content_slice B i idx b r n : map_ok B -> file_ok B i -> file_blocks i !! idx = Some b ->
  (r + n <= 4096)%nat -> slice (idx * 4096 + r) n (content B i) = slice r n (B b).
Proof.
  intros HB F Hb Hr. unfold content. apply slice_concat; [apply file_chunks; assumption| |exact Hr].
  rewrite list_lookup_fmap, Hb. reflexivity.
Qed.

(** Overwriting part of one block of the file. *)
Lemma content_splice B i idx b r new : map_ok B -> file_ok B i -> file_blocks i !! idx = Some b ->
  (r + length new <= 4096)%nat ->
  content (put_blk b (splice r new (B b)) B) i = splice (idx * 4096 + r) new (content B i).
Proof.
  intros HB F Hb Hr. unfold content.
  rewrite <- (splice_concat 4096 (B <$> file_blocks i) idx (B b) r new);
    [|apply file_chunks; assumption|rewrite list_lookup_fmap, Hb; reflexivity|exact Hr].
  f_equal. apply list_eq. intros k. rewrite list_lookup_fmap.
  destruct (decide (k = idx)) as [->|Hne].
  - rewrite list_lookup_insert_eq by (rewrite length_fmap; eapply lookup_lt_Some; exact Hb).
    rewrite Hb. cbn. rewrite put_same. reflexivity.
  - rewrite list_lookup_insert_ne by congruence. rewrite list_lookup_fmap.
    destruct (file_blocks i !! k) as [c|] eqn:Hc; [|reflexivity]. cbn. rewrite put_other; [reflexivity|].
    intros ->. apply Hne. eapply NoDup_lookup; [apply (fo_nodup _ _ F)|exact Hc|exact Hb].
Qed.

(** The current block and the place in it, for an offset inside the file. *)
Lemma offset_split o : 0 <= o -> o = o / 4096 * 4096 + o mod 4096 /\ 0 <= o mod 4096 < 4096 /\ 0 <= o / 4096.
Proof. intros. mlia. Qed.

Section files.
Context {D : Type} `{BD : BlockDevice D}.

Lemma does_read_loop B i cnt offset : map_ok B -> file_ok B i -> is_u32 cnt -> 0 <= offset ->
  forall fuel got buf, 0 <= got <= Z.min cnt (block_count i * 4096 - offset) ->
    got = cnt \/ block_count i - (offset + got) / 4096 < Z.of_nat fuel ->
    does (read_loop fuel i cnt offset got buf) B
      (slice (Z.to_nat (offset + got)) (Z.to_nat (Z.min cnt (block_count i * 4096 - offset) - got)) (content B i)) B.
Proof.
  intros HB F Hcnt Hoff. pose proof (count_range _ _ F) as Hc. unfold is_u32 in Hcnt.
  induction fuel as [|fuel IH]; intros got buf Hgot Hfuel; cbn [read_loop].
  - destruct (Z.ltb_spec got cnt) as [Hlt|Hge].
    + exfalso. destruct Hfuel as [X|X]; [lia|]. mlia.
    + replace (Z.to_nat (_ - got)) with 0%nat by lia. unfold slice. rewrite take_0. apply does_ret.
  - destruct (Z.ltb_spec got cnt) as [Hlt|Hge].
    2:{ replace (Z.to_nat (_ - got)) with 0%nat by lia. unfold slice. rewrite take_0. apply does_ret. }
    rewrite u32_small by lia. unfold BLOCK_SIZE.
    destruct (offset_split (offset + got) ltac:(lia)) as (Eo & Hr & Hq).
    set (q := (offset + got) / 4096) in *. set (r := (offset + got) mod 4096) in *.
    destruct (Z.leb_spec (block_count i) q) as [Hend|Hin].
    + replace (Z.to_nat (_ - got)) with 0%nat by lia. unfold slice. rewrite take_0. apply does_ret.
    + destruct (file_block_at B i q F ltac:(lia)) as (b & Eb & Hb & Hv & _).
      does_step; [exact Eb|]. does_step; [unfold valid_block, DATA_BLOCK_START in *; lia|]. does_step.
      set (k := Z.min (4096 - r) (cnt - got)).
      eapply does_bind; [apply (IH (got + k))|].
      * unfold k. lia.
      * unfold k in *. destruct (Z.min_spec (4096 - r) (cnt - got)) as [[_ E]|[_ E]]; rewrite E; [right|left; lia].
        replace (offset + (got + (4096 - r))) with ((q + 1) * 4096) by lia. rewrite Z_div_mult by lia.
        destruct Hfuel; lia.
      * rewrite <- (content_slice B i (Z.to_nat q) b) by (try assumption; unfold k; lia).
        set (m := Z.min cnt (block_count i * 4096 - offset)) in *.
        assert (Hk : 0 <= k /\ got + k <= m) by (unfold k, m; lia).
        replace (Z.to_nat q * 4096 + Z.to_nat r)%nat with (Z.to_nat (offset + got)) by lia.
        replace (Z.to_nat (offset + (got + k))) with (Z.to_nat (offset + got) + Z.to_nat k)%nat by lia.
        rewrite slice_app. replace (Z.to_nat k + Z.to_nat (m - (got + k)))%nat with (Z.to_nat (m - got)) by lia.
        apply does_ret.
Qed.

(** [sfs_read_file] returns the bytes at the offset, as many as asked for and
    there are: up to the size when [offset + cnt] does not overflow. *)
Lemma does_read_file B i cnt offset : map_ok B -> file_ok B i -> size i <= block_count i * 4096 ->
  is_u32 cnt -> 0 <= offset < size i ->
  does (sfs_read_file i cnt offset) B
    (slice (Z.to_nat offset)
       (Z.to_nat (Z.min (if size i <? u32 (offset + cnt) then size i - offset else cnt)
                        (block_count i * 4096 - offset))) (content B i)) B.
Proof.
  intros HB F Hs Hcnt Hoff. pose proof (count_range _ _ F) as Hc. unfold sfs_read_file.
  destruct (Z.leb_spec (size i) offset) as [X|_]; [lia|].
  rewrite (u32_small (size i - offset)) by lia.
  set (n := if size i <? u32 (offset + cnt) then size i - offset else cnt).
  assert (Hn : is_u32 n) by (unfold n, is_u32 in *; case_if; lia).
  pose proof (does_read_loop B i n offset HB F Hn ltac:(lia) file_fuel 0 None) as H.
  rewrite Z.add_0_r, Z.sub_0_r in H. apply H; [unfold is_u32 in Hn; lia|right].
  unfold file_fuel. pose proof (Z.div_pos offset 4096 ltac:(lia) ltac:(lia)). lia.
Qed.
End files.

(** ** Writing *)

(** What a write may do to the disk: the file keeps its blocks and gets new
    ones that were free; nothing outside its blocks and the bitmap changes. *)
Record grown (B : blockmap) (i : sfs_inode) (B' : blockmap) (i' : sfs_inode) : Prop := {
  g_map : map_ok B';
  g_file : file_ok B' i';
  g_meta : ino i' = ino i /\ size i' = size i /\ type i' = type i;
  g_blocks : exists new, file_blocks i' = file_blocks i ++ new /\ Forall (fun n => used_block B n = false) new;
  g_frame : forall n, n <> BLOCK_BITMAP_BLOCK -> (n ∉ file_blocks i') -> B' n = B n;
  g_used : forall n, 0 <= n -> used_block B' n = used_block B n || bool_decide (n ∈ file_blocks i')
}.

(** The bytes of [B' i'] are those of [B i], and then some, with [new] written at [off]. *)
Definition written (B : blockmap) (i : sfs_inode) (off : nat) (new : list Z) (B' : blockmap) (i' : sfs_inode) : Prop :=
  exists tail, (off + length new <= length (content B i ++ tail))%nat /\
    content B' i' = splice off new (content B i ++ tail).

Lemma splice_nil {A} off (l : list A) : splice off [] l = l.
Proof. unfold splice. cbn. rewrite Nat.add_0_r. apply take_drop. Qed.

Lemma splice_splice {A} off (a b l : list A) : (off + length a <= length l)%nat ->
  splice (off + length a) b (splice off a l) = splice off (a ++ b) l.
Proof.
  intros H. unfold splice at 1.
  assert (E1 : take (off + length a) (splice off a l) = take off l ++ a).
  { unfold splice. rewrite app_assoc. apply take_app_length'. rewrite length_app, length_take. lia. }
  assert (E2 : drop (off + length a + length b) (splice off a l) = drop (off + length (a ++ b)) l).
  { unfold splice. rewrite app_assoc. rewrite drop_app_ge by (rewrite length_app, length_take; lia).
    rewrite length_app, length_take, drop_drop, length_app. f_equal. lia. }
  rewrite E1, E2. unfold splice. rewrite <- !app_assoc. reflexivity.
Qed.

Lemma written_refl B i off : (off <= length (content B i))%nat -> written B i off [] B i.
Proof. intros H. exists []. rewrite app_nil_r, splice_nil. split; [cbn; lia|reflexivity]. Qed.

Lemma written_trans B i off a B1 i1 b B2 i2 :
  written B i off a B1 i1 -> written B1 i1 (off + length a) b B2 i2 -> written B i off (a ++ b) B2 i2.
Proof.
  intros (t1 & L1 & E1) (t2 & L2 & E2). exists (t1 ++ t2).
  rewrite E1 in L2, E2. rewrite <- splice_app_l in L2, E2 by exact L1.
  rewrite length_splice in L2 by (rewrite length_app; lia).
  rewrite splice_splice in E2 by (rewrite length_app; lia). rewrite <- app_assoc in L2, E2.
  split; [rewrite (length_app a b); lia|exact E2].
Qed.

Lemma grown_refl B i : map_ok B -> file_ok B i -> grown B i B i.
Proof.
  intros HB F. split; auto.
  - exists []. rewrite app_nil_r. auto.
  - intros n _. case_bool_decide as H; [|rewrite orb_false_r; reflexivity].
    pose proof (fo_data _ _ F) as Hd. rewrite Forall_forall in Hd. destruct (Hd n H) as [_ ->]. reflexivity.
Qed.

Lemma grown_trans B i B1 i1 B2 i2 : grown B i B1 i1 -> grown B1 i1 B2 i2 -> grown B i B2 i2.
Proof.
  intros [M1 F1 (A1 & A2 & A3) (n1 & P1 & Q1) R1 U1] [M2 F2 (C1 & C2 & C3) (n2 & P2 & Q2) R2 U2].
  assert (Hsub : forall n, n ∈ file_blocks i1 -> n ∈ file_blocks i2) by (intros n; rewrite P2, elem_of_app; auto).
  split; auto.
  - repeat split; congruence.
  - exists (n1 ++ n2). rewrite P2, P1, app_assoc. split; [reflexivity|]. apply Forall_app. split; [exact Q1|].
    apply Forall_forall. intros n Hn. rewrite Forall_forall in Q2. specialize (Q2 n Hn).
    pose proof (fo_data _ _ F2) as Hd. rewrite Forall_forall in Hd.
    assert (Hin : n ∈ file_blocks i2) by (rewrite P2, elem_of_app; auto).
    destruct (Hd n Hin) as [Hr _]. rewrite U1 in Q2 by (unfold DATA_BLOCK_START in Hr; lia).
    apply orb_false_elim in Q2. apply Q2.
  - intros n H1 H2. rewrite R2 by assumption. apply R1; [exact H1|]. intros X. apply H2, Hsub, X.
  - intros n Hn. rewrite U2, U1 by exact Hn. rewrite <- orb_assoc. f_equal.
    repeat case_bool_decide; auto. exfalso. auto.
Qed.

(** Adding a block. *)
Lemma file_blocks_set i n : length (blocks i) = 12%nat -> 0 <= block_count i < 12 ->
  file_blocks (set_blk i (block_count i) n) = file_blocks i ++ [n].
Proof.
  intros Hl Hc. unfold file_blocks, set_blk. cbn [block_count blocks].
  replace (Z.to_nat (block_count i + 1)) with (S (Z.to_nat (block_count i))) by lia.
  rewrite (take_S_r _ _ n) by (apply list_lookup_insert_eq; lia).
  rewrite take_insert_ge by lia. reflexivity.
Qed.

Lemma grown_block B i n : map_ok B -> file_ok B i -> block_count i < 12 ->
  DATA_BLOCK_START <= n < DISK_BLOCKS -> used_block B n = false ->
  let B' := put_blk BLOCK_BITMAP_BLOCK (bitmap_set (B BLOCK_BITMAP_BLOCK) n) B in
  let i' := set_blk i (block_count i) n in
  grown B i B' i' /\ content B' i' = content B i ++ B n.
Proof.
  intros HB F Hc Hn Hu B' i'. pose proof (count_range _ _ F) as Hc0.
  assert (HV : valid_block BLOCK_BITMAP_BLOCK) by (unfold valid_block, DISK_BLOCKS, BLOCK_BITMAP_BLOCK; lia).
  assert (Hlen : length (B BLOCK_BITMAP_BLOCK) = 4096%nat) by (apply HB, HV).
  destruct F as [(I1 & I2 & I3 & I4 & I5 & I6) F2 F3 F4 F5].
  assert (Fb : file_blocks i' = file_blocks i ++ [n]) by (apply file_blocks_set; [exact I5|lia]).
  assert (Hn' : n ∉ file_blocks i).
  { intros X. rewrite Forall_forall in F4. destruct (F4 n X) as [_ Y]. congruence. }
  assert (HU : forall m, 0 <= m -> used_block B' m = (n =? m) || used_block B m).
  { intros m Hm. unfold used_block, B'. rewrite put_same. unfold DATA_BLOCK_START, DISK_BLOCKS in Hn.
    apply bit_set; [lia|exact Hm|rewrite Hlen]. mlia. }
  assert (MB : map_ok B') by (apply put_ok; [exact HB|rewrite length_bitmap_set; exact Hlen]).
  split.
  - split.
    + exact MB.
    + split.
      * split; [exact I1|]. split; [exact I2|]. split; [exact I3|].
        split; [unfold is_u32; cbn; lia|]. split; [cbn; rewrite length_insert; exact I5|].
        apply Forall_insert; [exact I6|]. unfold is_u32, DATA_BLOCK_START, DISK_BLOCKS in *. lia.
      * cbn. unfold SFS_DIRECT_BLOCKS. lia.
      * rewrite Fb. apply NoDup_app. split; [exact F3|]. split; [|apply NoDup_singleton].
        intros x Hx Hx'. apply list_elem_of_singleton in Hx'. subst. contradiction.
      * rewrite Fb. apply Forall_app. split.
        -- eapply Forall_impl; [exact F4|]. intros m [Hm Hm']. split; [exact Hm|].
           rewrite HU, Hm' by (unfold DATA_BLOCK_START in Hm; lia). apply orb_true_r.
        -- constructor; [|constructor]. split; [exact Hn|]. rewrite HU, Z.eqb_refl; [reflexivity|].
           unfold DATA_BLOCK_START in Hn. lia.
      * intros m Hm. rewrite HU by lia. rewrite F5 by exact Hm. apply orb_true_r.
    + auto.
    + exists [n]. split; [exact Fb|]. constructor; [exact Hu|constructor].
    + intros m Hm _. apply put_other, Hm.
    + intros m Hm. rewrite HU, Fb by exact Hm. destruct (used_block B m) eqn:E; [apply orb_true_r|].
      destruct (Z.eqb_spec n m) as [<-|Hne].
      * rewrite bool_decide_eq_true_2; [reflexivity|]. apply elem_of_app. right. apply list_elem_of_singleton. reflexivity.
      * rewrite bool_decide_eq_false_2; [reflexivity|]. rewrite elem_of_app, list_elem_of_singleton. intros [X|X]; [|congruence].
        rewrite Forall_forall in F4. destruct (F4 m X) as [_ Y]. congruence.
  - unfold content. rewrite Fb, fmap_app, concat_app. cbn. rewrite app_nil_r. f_equal.
    + f_equal. apply list_fmap_ext. intros k m Hm. apply put_other. rewrite Forall_lookup in F4.
      destruct (F4 k m Hm) as [X _]. unfold DATA_BLOCK_START, BLOCK_BITMAP_BLOCK in *. lia.
    + apply put_other. unfold DATA_BLOCK_START, BLOCK_BITMAP_BLOCK in *. lia.
Qed.

(** Writing inside a block of the file. *)
Lemma grown_write B i idx b r new : map_ok B -> file_ok B i -> file_blocks i !! idx = Some b ->
  (r + length new <= 4096)%nat ->
  let B' := put_blk b (splice r new (B b)) B in
  grown B i B' i /\ content B' i = splice (idx * 4096 + r) new (content B i).
Proof.
  intros HB F Hb Hr B'. split; [|apply content_splice; assumption].
  pose proof (fo_data _ _ F) as Hd. rewrite Forall_forall in Hd.
  assert (Hin : b ∈ file_blocks i) by (eapply list_elem_of_lookup_2, Hb). destruct (Hd b Hin) as [Hv _].
  assert (HU : forall m, used_block B' m = used_block B m).
  { intros m. unfold used_block, B'. rewrite put_other; [reflexivity|].
    unfold DATA_BLOCK_START, BLOCK_BITMAP_BLOCK in *. lia. }
  assert (MB : map_ok B').
  { apply put_ok; [exact HB|]. assert (Hl : length (B b) = 4096%nat)
      by (apply HB; unfold valid_block, DATA_BLOCK_START in *; lia).
    rewrite length_splice; [exact Hl|rewrite Hl; exact Hr]. }
  split; auto.
  - destruct F as [F1 F2 F3 F4 F5]. split; auto.
    + eapply Forall_impl; [exact F4|]. intros m. rewrite HU. auto.
    + intros m Hm. rewrite HU. apply F5, Hm.
  - exists []. rewrite app_nil_r. auto.
  - intros n _ Hn. apply put_other. intros ->. contradiction.
  - intros n Hn. rewrite HU. apply (g_used _ _ _ _ (grown_refl B i HB F) n Hn).
Qed.

(** Every block that could be given to a file is in use. *)
Definition disk_full (B : blockmap) : Prop := forall n, 0 <= n < DISK_BLOCKS -> used_block B n = true.

Section writing.
Context {D : Type} `{BD : BlockDevice D}.

Lemma does_grow B i idx : map_ok B -> file_ok B i -> 0 <= idx <= block_count i ->
  (exists B' i' tail, does (grow i idx) B (Some i') B' /\ grown B i B' i' /\ idx < block_count i' /\
     content B' i' = content B i ++ tail) \/
  (does (grow i idx) B None B /\ idx = block_count i /\ (idx = SFS_DIRECT_BLOCKS \/ disk_full B)).
Proof.
  intros HB F Hidx. pose proof (count_range _ _ F) as Hc. unfold grow.
  destruct (Z.leb_spec (block_count i) idx) as [Hend|Hin].
  - assert (idx = block_count i) by lia. subst idx.
    destruct (Z.leb_spec SFS_DIRECT_BLOCKS (block_count i)) as [Hmax|Hmax].
    + right. split; [apply does_ret|]. split; [reflexivity|]. left. unfold SFS_DIRECT_BLOCKS in *. lia.
    + destruct (does_alloc_block B HB (fo_reserved _ _ F)) as [(n & Hn & Hu & _ & H)|[Hfull H]].
      * left. destruct (grown_block B i n HB F Hmax Hn Hu) as [G C]. eexists _, _, _.
        split; [|split; [exact G|split; [cbn; lia|exact C]]].
        eapply does_bind; [exact H|].
        assert (T : (n <? 0) = false) by (apply Z.ltb_ge; unfold DATA_BLOCK_START in Hn; lia).
        rewrite T. apply does_ret.
      * right. split; [eapply does_bind; [exact H|apply does_ret]|]. auto.
  - left. exists B, i, []. split; [apply does_ret|]. split; [apply grown_refl; assumption|].
    split; [exact Hin|]. rewrite app_nil_r. reflexivity.
Qed.

Lemma does_write_loop data cnt offset : length data = Z.to_nat cnt -> 0 <= cnt -> 0 <= offset ->
  offset + cnt < 4294967296 ->
  forall fuel B i put buf, map_ok B -> file_ok B i -> 0 <= put <= cnt ->
    offset + put <= block_count i * 4096 ->
    put = cnt \/ SFS_DIRECT_BLOCKS - (offset + put) / 4096 < Z.of_nat fuel ->
    exists B' i' n, does (write_loop fuel i data cnt offset put buf) B (n, i') B' /\ put <= n <= cnt /\
      grown B i B' i' /\ offset + n <= block_count i' * 4096 /\
      written B i (Z.to_nat (offset + put)) (slice (Z.to_nat put) (Z.to_nat (n - put)) data) B' i' /\
      (n < cnt -> offset + n = SFS_DIRECT_BLOCKS * 4096 \/ disk_full B').
Proof.
  intros Hd Hcnt Hoff Hmax. induction fuel as [|fuel IH]; intros B i put buf HB F Hput Hin Hfuel;
    pose proof (count_range _ _ F) as Hc; pose proof (length_content B i HB F) as HL;
    (assert (Hdone : written B i (Z.to_nat (offset + put)) (slice (Z.to_nat put) (Z.to_nat (put - put)) data) B i)
      by (rewrite Z.sub_diag; apply written_refl; lia));
    cbn [write_loop]; destruct (Z.ltb_spec put cnt) as [Hlt|Hge];
    try (exists B, i, put; split; [apply does_ret|]; split; [lia|]; split; [apply grown_refl; assumption|];
         split; [exact Hin|]; split; [exact Hdone|lia]).
  - exfalso. unfold SFS_DIRECT_BLOCKS in Hfuel. destruct Hfuel as [X|X]; [lia|]. mlia.
  - rewrite u32_small by lia. unfold BLOCK_SIZE.
    destruct (offset_split (offset + put) ltac:(lia)) as (Eo & Hr & Hq).
    set (q := (offset + put) / 4096) in *. set (r := (offset + put) mod 4096) in *.
    destruct (does_grow B i q HB F ltac:(lia)) as [(B1 & i1 & tail & Hg & G1 & Hq1 & C1)|(Hg & Eq & Hstop)].
    2:{ exists B, i, put. split; [eapply does_bind; [exact Hg|apply does_ret]|]. split; [lia|].
        split; [apply grown_refl; assumption|]. split; [exact Hin|]. split; [exact Hdone|].
        intros _. destruct Hstop as [X|X]; [left; unfold SFS_DIRECT_BLOCKS in *; lia|auto]. }
    pose proof (g_file _ _ _ _ G1) as F1. pose proof (g_map _ _ _ _ G1) as M1.
    destruct (file_block_at B1 i1 q F1 ltac:(lia)) as (b & Eb & Hb & Hv & _).
    assert (Hvb : valid_block b) by (unfold valid_block, DATA_BLOCK_START in *; lia).
    set (k := Z.min (4096 - r) (cnt - put)). assert (Hk : 1 <= k <= 4096 - r /\ k <= cnt - put) by (unfold k; lia).
    set (new := slice (Z.to_nat put) (Z.to_nat k) data).
    assert (Hnew : length new = Z.to_nat k) by (apply length_slice; rewrite Hd; lia).
    destruct (grown_write B1 i1 (Z.to_nat q) b (Z.to_nat r) new M1 F1 Hb ltac:(rewrite Hnew; lia)) as [G2 C2].
    set (B2 := put_blk b (splice (Z.to_nat r) new (B1 b)) B1) in *.
    pose proof (length_content B1 i1 M1 F1) as HL1.
    destruct (IH B2 i1 (put + k) (Some (splice (Z.to_nat r) new (B1 b)))
                (g_map _ _ _ _ G2) (g_file _ _ _ _ G2)) as (B3 & i3 & n & H3 & Hn & G3 & Hin3 & W3 & Hstop);
      [lia|lia| |].
    { unfold k in *. destruct (Z.min_spec (4096 - r) (cnt - put)) as [[_ E]|[_ E]]; rewrite E; [right|left; lia].
      replace (offset + (put + (4096 - r))) with ((q + 1) * 4096) by lia. rewrite Z_div_mult by lia.
      destruct Hfuel; lia. }
    exists B3, i3, n. split; [|split; [lia|split; [|split; [exact Hin3|split; [|exact Hstop]]]]].
    + eapply does_bind; [exact Hg|]. cbn iota. does_step; [exact Eb|]. does_step; [exact Hvb|]. does_step.
      does_step; [exact Hvb| |exact H3].
      rewrite length_splice; [apply M1, Hvb|rewrite Hnew, (M1 b Hvb); lia].
    + eapply grown_trans; [exact G1|]. eapply grown_trans; [exact G2|exact G3].
    + replace (slice (Z.to_nat put) (Z.to_nat (n - put)) data)
        with (new ++ slice (Z.to_nat (put + k)) (Z.to_nat (n - (put + k))) data).
      * apply (written_trans _ _ _ _ B2 i1).
        -- exists tail. rewrite <- C1. rewrite C2.
           replace (Z.to_nat q * 4096 + Z.to_nat r)%nat with (Z.to_nat (offset + put)) by lia.
           split; [rewrite HL1, Hnew; lia|reflexivity].
        -- rewrite Hnew. replace (Z.to_nat (offset + put) + Z.to_nat k)%nat with (Z.to_nat (offset + (put + k))) by lia.
           exact W3.
      * unfold new. replace (Z.to_nat (put + k)) with (Z.to_nat put + Z.to_nat k)%nat by lia.
        rewrite slice_app. f_equal. lia.
Qed.
End writing.

(** ** Whole files *)

Definition with_size (i : sfs_inode) (n : Z) : sfs_inode := mk_inode (ino i) n (type i) (block_count i) (blocks i).

Lemma take_splice {A} m off (new l : list A) : (off + length new <= m)%nat -> (off <= length l)%nat ->
  take m (splice off new l) = splice off new (take m l).
Proof.
  intros H Hl. unfold splice. rewrite take_take, Nat.min_l by lia.
  rewrite !take_app, !length_take, skipn_firstn_comm.
  rewrite take_ge by (rewrite length_take; lia). f_equal. rewrite take_ge by lia. f_equal. f_equal. lia.
Qed.

(** Growing the bytes of a file by a write at an offset inside it. *)
Lemma file_bytes_written (c tail new : list Z) (sz off : nat) :
  (off <= sz)%nat -> (sz <= length c)%nat -> (off + length new <= length (c ++ tail))%nat ->
  take (sz `max` (off + length new)) (splice off new (c ++ tail)) = splice off new (take sz c).
Proof.
  intros H1 H2 H3. rewrite length_app in H3. rewrite take_splice by (rewrite ?length_app; lia).
  destruct (Nat.max_spec sz (off + length new)) as [[Hm ->]|[Hm ->]].
  - unfold splice. rewrite !take_take, !Nat.min_l by lia. rewrite take_app_le by lia.
    rewrite !drop_ge by (rewrite length_take; lia). reflexivity.
  - rewrite take_app_le by lia. reflexivity.
Qed.

(** A file whose recorded size is within its blocks. *)
Definition sized (B : blockmap) (i : sfs_inode) : Prop := file_ok B i /\ size i <= block_count i * 4096.

Lemma file_ok_size B i n : file_ok B i -> is_u32 n -> file_ok B (with_size i n).
Proof. intros [(I1 & I2 & I3 & I4 & I5 & I6) F2 F3 F4 F5] Hn. split; try assumption. repeat split; try assumption; try apply I1; try apply I3; try apply I4; apply Hn. Qed.

(** The effect of writing [data] at [offset]: [n] bytes are written, which is
    all of them unless the file or the disk is full. *)
Record file_write (B : blockmap) (i : sfs_inode) (data : list Z) (offset n : Z) (B' : blockmap) (i' : sfs_inode) : Prop := {
  fw_count : 0 <= n <= Z.of_nat (length data);
  fw_full : n < Z.of_nat (length data) -> offset + n = SFS_DIRECT_BLOCKS * 4096 \/ disk_full B';
  fw_sized : sized B' i';
  fw_map : map_ok B';
  fw_meta : ino i' = ino i /\ type i' = type i /\ size i' = Z.max (size i) (offset + n);
  fw_bytes : file_bytes B' i' = splice (Z.to_nat offset) (take (Z.to_nat n) data) (file_bytes B i);
  fw_blocks : exists new, file_blocks i' = file_blocks i ++ new /\ Forall (fun b => used_block B b = false) new;
  fw_frame : forall b, b <> BLOCK_BITMAP_BLOCK -> (b ∉ file_blocks i') -> B' b = B b;
  fw_used : forall b, 0 <= b -> used_block B' b = used_block B b || bool_decide (b ∈ file_blocks i')
}.

Section whole_files.
Context {D : Type} `{BD : BlockDevice D}.

Lemma does_write_file B i data offset : map_ok B -> sized B i -> 0 <= offset <= size i ->
  offset + Z.of_nat (length data) < 4294967296 ->
  exists B' i' n, does (sfs_write_file i data (Z.of_nat (length data)) offset) B (n, i') B' /\
    file_write B i data offset n B' i'.
Proof.
  intros HB [F Hs] Hoff Hmax. pose proof (count_range _ _ F) as Hc.
  destruct (does_write_loop data (Z.of_nat (length data)) offset ltac:(lia) ltac:(lia) ltac:(lia) Hmax
              file_fuel B i 0 None HB F) as (B' & i' & n & H & Hn & G & Hin & W & Hstop); [lia|lia| |].
  { right. unfold file_fuel, SFS_DIRECT_BLOCKS. pose proof (Z.div_pos (offset + 0) 4096 ltac:(lia) ltac:(lia)). lia. }
  destruct G as [GM GF (Gi & Gs & Gt) GB GR GU].
  set (i2 := with_size i' (Z.max (size i) (offset + n))).
  assert (E : (if size i' <? u32 (offset + n) then with_size i' (u32 (offset + n)) else i') = i2).
  { rewrite u32_small by lia. unfold i2. rewrite Gs. destruct (Z.ltb_spec (size i) (offset + n)).
    - rewrite Z.max_r by lia. reflexivity.
    - rewrite Z.max_l by lia. rewrite <- Gs. destruct i'; reflexivity. }
  pose proof (count_range _ _ GF) as Hc'. pose proof (length_content B i HB F) as HL.
  exists B', i2, n. split.
  { unfold sfs_write_file. eapply does_bind; [exact H|]. cbn beta iota.
    unfold with_size in E. rewrite E. apply does_ret. }
  rewrite Z.add_0_r in W. change (Z.to_nat 0) with 0%nat in W. rewrite Z.sub_0_r in W. unfold slice in W. rewrite drop_0 in W.
  destruct W as (tail & WL & W). assert (Hlt : length (take (Z.to_nat n) data) = Z.to_nat n) by (rewrite length_take; lia).
  assert (Hlen : block_count i * 4096 <= block_count i' * 4096).
  { destruct GB as (new & Eb & _). apply (f_equal length) in Eb.
    rewrite length_app, (length_file_blocks _ _ GF), (length_file_blocks _ _ F) in Eb. lia. }
  split; auto.
  - split; [apply file_ok_size; [exact GF|unfold is_u32; lia]|cbn; lia].
  - unfold file_bytes at 1. change (content B' i2) with (content B' i'). rewrite W.
    replace (Z.to_nat (size i2)) with (Z.to_nat (size i) `max` (Z.to_nat offset + length (take (Z.to_nat n) data)))%nat
      by (rewrite Hlt; cbn; lia).
    apply file_bytes_written; [lia|rewrite HL; lia|exact WL].
Qed.

(** Reading a range that does not overflow. *)
Lemma does_read_bytes B i cnt offset : map_ok B -> sized B i -> is_u32 cnt -> 0 <= offset ->
  offset + cnt < 4294967296 ->
  does (sfs_read_file i cnt offset) B (slice (Z.to_nat offset) (Z.to_nat cnt) (file_bytes B i)) B.
Proof.
  intros HB [F Hs] Hcnt Hoff Hmax. pose proof (count_range _ _ F) as Hc. pose proof (length_content B i HB F) as HL.
  destruct (fo_inode _ _ F) as (_ & Hsz & _). unfold is_u32 in *.
  destruct (Z.lt_ge_cases offset (size i)) as [Hlt|Hge].
  - pose proof (does_read_file B i cnt offset HB F Hs Hcnt ltac:(lia)) as H. rewrite u32_small in H by lia.
    replace (slice (Z.to_nat offset) (Z.to_nat cnt) (file_bytes B i)) with
      (slice (Z.to_nat offset) (Z.to_nat (Z.min (if size i <? offset + cnt then size i - offset else cnt)
                        (block_count i * 4096 - offset))) (content B i)); [exact H|].
    unfold file_bytes, slice. rewrite skipn_firstn_comm, take_take. f_equal.
    destruct (Z.ltb_spec (size i) (offset + cnt)); lia.
  - unfold sfs_read_file. destruct (Z.leb_spec (size i) offset) as [_|X]; [|lia].
    replace (slice _ _ (file_bytes B i)) with (@nil Z); [apply does_ret|].
    unfold slice, file_bytes. rewrite drop_ge; [symmetry; apply take_nil|]. rewrite length_take. lia.
Qed.
End whole_files.

(** ** The invariant of the file system *)

Definition used_inode (B : blockmap) (n : Z) : bool := bit (B INODE_BITMAP_BLOCK) n.

(** Inode 0 is never used.  The files in use have the number they are stored under, well-formed blocks,
    and share none. *)
Record fs_ok (B : blockmap) : Prop := {
  ok_map : map_ok B;
  ok_zero : used_inode B 0 = true;
  ok_reserved : reserved_ok B;
  ok_file : forall n, valid_ino n -> used_inode B n = true -> ino (inode_at B n) = n /\ sized B (inode_at B n);
  ok_disjoint : forall n m b, valid_ino n -> valid_ino m -> used_inode B n = true -> used_inode B m = true ->
    b ∈ file_blocks (inode_at B n) -> b ∈ file_blocks (inode_at B m) -> n = m
}.

(** The bytes of file [n]. *)
Definition file_of (B : blockmap) (n : Z) : list Z := file_bytes B (inode_at B n).

Lemma data_not_meta B i b : file_ok B i -> b ∈ file_blocks i -> 5 <= b < 1024 /\ used_block B b = true.
Proof. intros F Hb. pose proof (fo_data _ _ F) as Hd. rewrite Forall_forall in Hd. apply (Hd b Hb). Qed.

Lemma content_ext B B' i : (forall b, b ∈ file_blocks i -> B' b = B b) -> content B' i = content B i.
Proof.
  intros H. unfold content. f_equal. apply list_fmap_ext. intros k b Hb. apply H. eapply list_elem_of_lookup_2, Hb.
Qed.

Lemma sized_ext B B' i : sized B i -> (forall b, 0 <= b -> used_block B b = true -> used_block B' b = true) -> sized B' i.
Proof.
  intros [F Hs] HU. split; [|exact Hs]. destruct F as [F1 F2 F3 F4 F5]. split; auto.
  - eapply Forall_impl; [exact F4|]. intros b [Hb Hu]. split; [exact Hb|]. apply HU; [unfold DATA_BLOCK_START in Hb; lia|exact Hu].
  - intros b Hb. apply HU; [lia|apply F5, Hb].
Qed.

(** A change of the blocks of one file, which may grow. *)
Record file_change (B : blockmap) (i : sfs_inode) (B' : blockmap) (i' : sfs_inode) : Prop := {
  fc_sized : sized B' i';
  fc_map : map_ok B';
  fc_ino : ino i' = ino i;
  fc_blocks : exists new, file_blocks i' = file_blocks i ++ new /\ Forall (fun b => used_block B b = false) new;
  fc_frame : forall b, b <> BLOCK_BITMAP_BLOCK -> (b ∉ file_blocks i') -> B' b = B b;
  fc_used : forall b, 0 <= b -> used_block B' b = used_block B b || bool_decide (b ∈ file_blocks i')
}.

Lemma file_write_change B i data offset n B' i' : file_write B i data offset n B' i' -> file_change B i B' i'.
Proof. intros [_ _ H1 H2 (H3 & _) _ H4 H5 H6]. split; assumption. Qed.

(** Storing the inode after a change of file [n] keeps the invariant, changes
    that file and no other. *)
Lemma file_change_ok B n B1 i' :
  fs_ok B -> valid_ino n -> used_inode B n = true ->
  file_change B (inode_at B n) B1 i' ->
  let B' := put_inode i' B1 in
  fs_ok B' /\ (forall m, used_inode B' m = used_inode B m) /\
  inode_at B' n = i' /\ file_of B' n = file_bytes B1 i' /\
  (forall m, valid_ino m -> m <> n -> inode_at B' m = inode_at B m) /\
  (forall m, valid_ino m -> m <> n -> used_inode B m = true ->
     file_of B' m = file_of B m /\ forall b, b ∈ file_blocks (inode_at B m) -> B' b = B b).
Proof.
  intros [OM OZ OR OF OD] Hn Hu W B'. destruct (OF n Hn Hu) as [Hi [F Hs]].
  destruct W as [[F' Hs'] M1 Ei (new & Eb & Hnew) R U]. rewrite Hi in Ei.
  assert (Hv : valid_ino (ino i')) by (rewrite Ei; exact Hn).
  assert (Hmeta : forall b, b <> 2 -> b < 5 -> B1 b = B b).
  { intros b Hb Hb'. apply R; [exact Hb|]. intros X. apply (data_not_meta _ _ _ F') in X. lia. }
  assert (Hat1 : forall m, valid_ino m -> inode_at B1 m = inode_at B m).
  { intros m Hm. unfold inode_at. rewrite Hmeta; [reflexivity|..]; pose proof (inode_block_valid m Hm); lia. }
  assert (Hat : forall m, valid_ino m -> inode_at B' m = if decide (m = n) then i' else inode_at B m).
  { intros m Hm. unfold B'. rewrite inode_at_put by (try assumption; apply (fo_inode _ _ F')).
    rewrite Ei. case_decide; [reflexivity|apply Hat1, Hm]. }
  assert (Hdata : forall b, 5 <= b -> B' b = B1 b) by (intros; apply put_inode_other; [exact Hv|lia]).
  assert (HU : forall b, used_block B' b = used_block B1 b).
  { intros b. unfold used_block, B'. rewrite put_inode_other by (try exact Hv; unfold BLOCK_BITMAP_BLOCK; lia). reflexivity. }
  assert (Hino : forall m, used_inode B' m = used_inode B m).
  { intros m. unfold used_inode, B'. rewrite put_inode_other by (try exact Hv; unfold INODE_BITMAP_BLOCK; lia).
    rewrite Hmeta by (unfold INODE_BITMAP_BLOCK; lia). reflexivity. }
  assert (Hnew' : forall m b, valid_ino m -> m <> n -> used_inode B m = true ->
            b ∈ file_blocks (inode_at B m) -> b ∉ file_blocks i').
  { intros m b Hm Hne Hum Hb. rewrite Eb. intros X. apply elem_of_app in X as [X|X].
    - apply Hne. eapply OD; eassumption.
    - rewrite Forall_forall in Hnew. specialize (Hnew b X). cbn in Hnew.
      apply (data_not_meta _ _ _ (proj1 (proj2 (OF m Hm Hum)))) in Hb as [_ Hb]. congruence. }
  assert (Hcont : forall i, file_ok B1 i -> content B' i = content B1 i).
  { intros i Fi. apply content_ext. intros b Hb. apply Hdata. apply (data_not_meta _ _ _ Fi) in Hb. lia. }
  assert (En : inode_at B' n = i') by (rewrite Hat by exact Hn; apply decide_True; reflexivity).
  assert (Eo : forall m, valid_ino m -> m <> n -> inode_at B' m = inode_at B m)
    by (intros m Hm Hne; rewrite Hat by exact Hm; apply decide_False, Hne).
  split; [|split; [exact Hino|split; [exact En|split; [|split; [exact Eo|]]]]].
  - split.
    + apply put_inode_ok; [exact M1|apply (fo_inode _ _ F')|exact Hv].
    + rewrite Hino. exact OZ.
    + intros b Hb. rewrite HU. apply (fo_reserved _ _ F' b Hb).
    + intros m Hm Hum. rewrite Hino in Hum. destruct (decide (m = n)) as [->|Hne].
      * rewrite En. split; [exact Ei|]. apply (sized_ext B1); [split; assumption|]. intros b _. rewrite HU. auto.
      * rewrite Eo by assumption. destruct (OF m Hm Hum) as [E1 S1]. split; [exact E1|].
        apply (sized_ext B); [exact S1|]. intros b Hb. rewrite HU, U by exact Hb. intros ->. reflexivity.
    + intros m1 m2 b V1 V2. rewrite !Hino. intros U1 U2.
      destruct (decide (m1 = n)) as [->|N1], (decide (m2 = n)) as [->|N2]; rewrite ?En, ?Eo by assumption; intros X1 X2.
      * reflexivity.
      * exfalso. eapply (Hnew' m2); eassumption.
      * exfalso. eapply (Hnew' m1); eassumption.
      * eapply OD; eassumption.
  - unfold file_of, file_bytes. rewrite En, Hcont by exact F'. reflexivity.
  - intros m Hm Hne Hum. assert (Hsame : forall b, b ∈ file_blocks (inode_at B m) -> B' b = B b).
    { intros b Hb. destruct (data_not_meta _ _ _ (proj1 (proj2 (OF m Hm Hum))) Hb) as [Hr _].
      rewrite Hdata by lia. apply R; [unfold BLOCK_BITMAP_BLOCK; lia|]. eapply Hnew'; eassumption. }
    split; [|exact Hsame]. unfold file_of, file_bytes. rewrite Eo by assumption. f_equal. apply content_ext, Hsame.
Qed.

(** ** System calls on open files *)

Lemma alter_insert_eq {A} (f : A -> A) (l : list A) i x y : l !! i = Some x -> f x = y -> alter f i l = <[i := y]> l.
Proof. intros Hx <-. revert i Hx. induction l as [|z l IH]; intros [|i] Hx; try discriminate; cbn; [injection Hx as ->; reflexivity|]. f_equal. apply IH, Hx. Qed.

Section calls.
Context {D : Type} `{BD : BlockDevice D}.

(** Descriptor [fd] is open on file [n] of a well-formed disk. *)
Record opened (s : fs D) (B : blockmap) (fd : Z) (f : file) : Prop := {
  op_holds : holds s B;
  op_ok : fs_ok B;
  op_fd : 0 <= fd < MAX_FILES;
  op_file : file_table s !! Z.to_nat fd = Some f;
  op_use : f_in_use f <> 0;
  op_ino : valid_ino (f_ino f) /\ used_inode B (f_ino f) = true;
  op_offset : 0 <= f_offset f <= size (inode_at B (f_ino f))
}.

Lemma open_file_spec s B fd f : opened s B fd f -> open_file fd s = Ret (Some f, s).
Proof.
  intros [_ _ Hfd Hf Hu _ _]. unfold open_file, mbind, fsop_bind, get.
  assert (T : (fd <? 0) || (MAX_FILES <=? fd) = false)
    by (apply orb_false_intro; [apply Z.ltb_ge|apply Z.leb_gt]; lia).
  rewrite T, Hf. unfold mret, fsop_ret. unfold c_true. destruct (Z.eqb_spec (f_in_use f) 0); [contradiction|reflexivity].
Qed.

Lemma advance_holds s B fd n : holds s B ->
  exists s', advance fd n s = Ret (tt, s') /\ holds s' B /\ mounted s' = mounted s /\
    file_table s' = alter (fun f => mk_file (f_ino f) (u32 (f_offset f + n)) (f_mode f) (f_in_use f)) (Z.to_nat fd) (file_table s).
Proof. intros [H1 H2 H3]. eexists. split; [reflexivity|]. split; [split; assumption|auto]. Qed.
(** Writing: the bytes, the descriptor, and everything that stays. *)
Lemma write_effect (s : fs D) B fd f data :
  opened s B fd f -> f_offset f + Z.of_nat (length data) < 4294967296 ->
  exists n s' B', sys_write fd data (Z.of_nat (length data)) s = Ret (n, s') /\
    0 <= n <= Z.of_nat (length data) /\
    (n < Z.of_nat (length data) -> f_offset f + n = 49152 \/ disk_full B') /\
    file_of B' (f_ino f) = splice (Z.to_nat (f_offset f)) (take (Z.to_nat n) data) (file_of B (f_ino f)) /\
    (forall m, used_inode B' m = used_inode B m) /\
    (forall m, valid_ino m -> m <> f_ino f -> used_inode B m = true ->
       inode_at B' m = inode_at B m /\ file_of B' m = file_of B m /\
       forall b, b ∈ file_blocks (inode_at B m) -> B' b = B b) /\
    let f' := mk_file (f_ino f) (f_offset f + n) (f_mode f) (f_in_use f) in
    opened s' B' fd f' /\ file_table s' = <[Z.to_nat fd := f']> (file_table s) /\ mounted s' = mounted s.
Proof.
  intros O Hmax. pose proof (open_file_spec s B fd f O) as E1. destruct O as [H OB Hfd Hf Hu [Hv Hui] Hoff].
  destruct (ok_file _ OB _ Hv Hui) as [Hi S].
  destruct (does_write_file B (inode_at B (f_ino f)) data (f_offset f) (ok_map _ OB) S Hoff Hmax)
    as (B1 & i' & n & W & FW).
  destruct (file_change_ok B (f_ino f) B1 i' OB Hv Hui (file_write_change _ _ _ _ _ _ _ FW))
    as (OB' & HU' & En & Efile & Eino & Eoth).
  destruct (does_read_inode (f_ino f) B Hv s H) as (s1 & R1 & H1 & T1 & M1).
  assert (Ec : u32 (Z.of_nat (length data)) = Z.of_nat (length data)) by (apply u32_small; lia).
  destruct (W s1 H1) as (s2 & R2 & H2 & T2 & M2).
  destruct (advance_holds s2 B1 fd n H2) as (s3 & R3 & H3 & M3 & T3).
  pose proof (fw_meta _ _ _ _ _ _ _ FW) as (Ei & _ & Es). rewrite Hi in Ei.
  destruct (does_write_inode i' B1) with (s := s3) as (s4 & R4 & H4 & T4 & M4);
    [apply (fo_inode _ _ (proj1 (fw_sized _ _ _ _ _ _ _ FW)))|rewrite Ei; exact Hv|exact H3|].
  pose proof (fw_count _ _ _ _ _ _ _ FW) as Hn.
  set (f' := mk_file (f_ino f) (f_offset f + n) (f_mode f) (f_in_use f)).
  assert (Etab : file_table s4 = <[Z.to_nat fd := f']> (file_table s)).
  { rewrite T4, T3, T2, T1. apply alter_insert_eq with (x := f); [exact Hf|]. unfold f'. f_equal. apply u32_small. lia. }
  exists n, s4, (put_inode i' B1). split.
  { unfold sys_write, mbind, fsop_bind. rewrite E1, R1, Ec, R2, R3, R4. reflexivity. }
  split; [exact Hn|]. split.
  { intros X. destruct (fw_full _ _ _ _ _ _ _ FW X) as [Y|Y]; [left; exact Y|right].
    intros b Hb. unfold used_block. rewrite put_inode_other; [apply Y, Hb|rewrite Ei; exact Hv|unfold BLOCK_BITMAP_BLOCK; lia]. }
  split; [rewrite Efile; apply (fw_bytes _ _ _ _ _ _ _ FW)|]. split; [exact HU'|]. split.
  { intros m V N U. split; [apply Eino; assumption|apply Eoth; assumption]. }
  split; [|split; [exact Etab|rewrite M4, M3, M2, M1; reflexivity]].
  split; unfold f'; cbn [f_ino f_offset f_in_use]; try assumption.
  - rewrite Etab. apply list_lookup_insert_eq. apply lookup_lt_Some in Hf. exact Hf.
  - split; [exact Hv|]. rewrite HU'. exact Hui.
  - rewrite En, Es. lia.
Qed.

Lemma read_effect (s : fs D) B fd f count :
  opened s B fd f -> 0 <= count -> f_offset f + count < 4294967296 ->
  let bytes := slice (Z.to_nat (f_offset f)) (Z.to_nat count) (file_of B (f_ino f)) in
  let f' := mk_file (f_ino f) (f_offset f + Z.of_nat (length bytes)) (f_mode f) (f_in_use f) in
  exists s', sys_read fd count s = Ret (Z.of_nat (length bytes), bytes, s') /\
    opened s' B fd f' /\ file_table s' = <[Z.to_nat fd := f']> (file_table s) /\ mounted s' = mounted s.
Proof.
  intros O Hc Hmax bytes f'. pose proof (open_file_spec s B fd f O) as E1. destruct O as [H OB Hfd Hf Hu [Hv Hui] Hoff].
  destruct (ok_file _ OB _ Hv Hui) as [Hi [F Hs]].
  destruct (does_read_inode (f_ino f) B Hv s H) as (s1 & R1 & H1 & T1 & M1).
  destruct (does_read_bytes B (inode_at B (f_ino f)) count (f_offset f) (ok_map _ OB) (conj F Hs)
     ltac:(unfold is_u32; lia) ltac:(lia) Hmax s1 H1) as (s2 & R2 & H2 & T2 & M2).
  change (slice _ _ (file_bytes B (inode_at B (f_ino f)))) with bytes in R2.
  destruct (advance_holds s2 B fd (Z.of_nat (length bytes)) H2) as (s3 & R3 & H3 & M3 & T3).
  assert (Hb : f_offset f + Z.of_nat (length bytes) <= size (inode_at B (f_ino f))).
  { unfold bytes, slice, file_of, file_bytes. rewrite length_take, length_drop, length_take. lia. }
  assert (Etab : file_table s3 = <[Z.to_nat fd := f']> (file_table s)).
  { rewrite T3, T2, T1. apply alter_insert_eq with (x := f); [exact Hf|]. unfold f'. f_equal. apply u32_small.
    destruct (fo_inode _ _ F) as (_ & Hsz & _). unfold is_u32 in Hsz. lia. }
  exists s3. split.
  { unfold sys_read, mbind, fsop_bind. rewrite E1, R1, u32_small, R2, R3 by lia. reflexivity. }
  split; [|split; [exact Etab|rewrite M3, M2, M1; reflexivity]].
  split; unfold f'; cbn [f_ino f_offset f_in_use]; try assumption; try (split; assumption); [|lia].
  rewrite Etab. apply list_lookup_insert_eq. apply lookup_lt_Some in Hf. exact Hf.
Qed.
End calls.

(** Writing to an open file puts the bytes at its offset, and advances
    the offset by their number, which is all of them unless the file has its
    twelve blocks full or the disk is full.  The file system stays well formed
    and the other files keep their bytes. *)
Theorem sys_write_file {D} `{BD : BlockDevice D} (s : fs D) B fd f data :
  opened s B fd f -> f_offset f + Z.of_nat (length data) < 4294967296 ->
  exists n s' B', sys_write fd data (Z.of_nat (length data)) s = Ret (n, s') /\
    0 <= n <= Z.of_nat (length data) /\
    (n < Z.of_nat (length data) -> f_offset f + n = 49152 \/ disk_full B') /\
    file_of B' (f_ino f) = splice (Z.to_nat (f_offset f)) (take (Z.to_nat n) data) (file_of B (f_ino f)) /\
    (forall m, valid_ino m -> m <> f_ino f -> used_inode B m = true ->
       used_inode B' m = true /\ file_of B' m = file_of B m) /\
    opened s' B' fd (mk_file (f_ino f) (f_offset f + n) (f_mode f) (f_in_use f)).
Proof.
  intros O Hmax. destruct (write_effect s B fd f data O Hmax) as (n & s' & B' & E & Hn & Hfull & Hfile & HU & Hoth & O' & _ & _).
  exists n, s', B'. split; [exact E|]. split; [exact Hn|]. split; [exact Hfull|]. split; [exact Hfile|]. split; [|exact O'].
  intros m V N U. split; [rewrite HU; exact U|apply Hoth; assumption].
Qed.

(** Reading an open file returns the bytes at its offset, up to its end,
    and advances the offset by their number. *)
Theorem sys_read_file {D} `{BD : BlockDevice D} (s : fs D) B fd f count :
  opened s B fd f -> 0 <= count -> f_offset f + count < 4294967296 ->
  let bytes := slice (Z.to_nat (f_offset f)) (Z.to_nat count) (file_of B (f_ino f)) in
  exists s', sys_read fd count s = Ret (Z.of_nat (length bytes), bytes, s') /\
    opened s' B fd (mk_file (f_ino f) (f_offset f + Z.of_nat (length bytes)) (f_mode f) (f_in_use f)).
Proof.
  intros O Hc Hmax bytes. destruct (read_effect s B fd f count O Hc Hmax) as (s' & E & O' & _). exists s'. split; [exact E|exact O'].
Qed.

(** the inode written under a number is the one read back, and the
    other inodes are not disturbed. *)
Theorem inode_write_read {D} `{BD : BlockDevice D} B i n :
  map_ok B -> inode_ok i -> valid_ino (ino i) -> valid_ino n ->
  does (_ ← sfs_write_inode i; sfs_read_inode n) B
    (Some (if decide (n = ino i) then i else inode_at B n)) (put_inode i B) /\
  (forall b, b <> 3 -> b <> 4 -> put_inode i B b = B b).
Proof.
  intros HB Hi Hv Hn. split.
  - eapply does_bind; [apply does_write_inode; assumption|].
    rewrite <- (inode_at_put i B n) by assumption. apply does_read_inode, Hn.
  - intros b H3 H4. apply put_inode_other; [exact Hv|lia].
Qed.

(** ** Directories *)

Definition block_entries (B : blockmap) (b : Z) : list dentry := entry_at (B b) <$> seq 0 DENTRIES_PER_BLOCK.

(** The entries of a directory, in order. *)
Definition entries (B : blockmap) (i : sfs_inode) : list dentry := concat (block_entries B <$> file_blocks i).

(** The first entry in use with the name. *)
Fixpoint lookup_in (es : list dentry) (name : list Z) : option Z :=
  match es with
  | [] => None
  | e :: es =>
      if d_ino e =? 0 then lookup_in es name
      else if bool_decide (cstr (d_name e) = name) then Some (i32 (d_ino e)) else lookup_in es name
  end.

(** An entry in use has a terminated name; a free one is blank. *)
Definition dentry_ok (d : dentry) : Prop :=
  if d_ino d =? 0 then d_name d = replicate MAX_FILENAME 0 else 0 ∈ d_name d /\ 0 < d_ino d < MAX_INODES.

Definition in_use_count (es : list dentry) : nat := length (filter (fun d => d_ino d <> 0) es).

Record dir_ok (B : blockmap) (i : sfs_inode) : Prop := {
  do_type : type i = SFS_DIR;
  do_sized : sized B i;
  do_entries : Forall dentry_ok (entries B i);
  do_size : size i = Z.of_nat sizeof_dentry * Z.of_nat (in_use_count (entries B i))
}.

(** A C string as a list of bytes. *)
Definition c_string (cs : list Z) : Prop := Forall (fun c => c <> 0) cs.

Lemma name_eq_spec field : forall cs, 0 ∈ field -> c_string cs -> name_eq field cs = Ret (bool_decide (cstr field = cs)).
Proof.
  induction field as [|f field IH]; intros cs Hz Hc; [inversion Hz|]. cbn [name_eq cstr].
  destruct cs as [|c cs].
  - destruct (Z.eqb_spec f 0) as [->|Hf]; [rewrite bool_decide_eq_true_2 by reflexivity|rewrite bool_decide_eq_false_2 by discriminate]; reflexivity.
  - apply Forall_cons_1 in Hc as [Hc Hcs]. destruct (Z.eqb_spec f c) as [->|Hf].
    + destruct (Z.eqb_spec c 0) as [->|_]; [contradiction|].
      rewrite IH; [|apply elem_of_cons in Hz as [X|X]; [congruence|exact X]|exact Hcs].
      f_equal. apply bool_decide_ext. split; congruence.
    + rewrite bool_decide_eq_false_2; [reflexivity|].
      destruct (Z.eqb_spec f 0) as [->|_]; [discriminate|]. congruence.
Qed.

Lemma lookup_in_app es1 es2 name :
  lookup_in (es1 ++ es2) name = match lookup_in es1 name with Some i => Some i | None => lookup_in es2 name end.
Proof. induction es1 as [|e es1 IH]; [reflexivity|]. cbn. repeat case_match; auto. Qed.

Lemma find_entry_spec block name : c_string name -> forall n di,
  Forall dentry_ok (entry_at block <$> seq di n) ->
  find_entry n di block name = Ret (lookup_in (entry_at block <$> seq di n) name).
Proof.
  intros Hc. induction n as [|n IH]; intros di Hok; [reflexivity|].
  cbn [seq] in Hok. rewrite fmap_cons in Hok. apply Forall_cons_1 in Hok as [He Hok].
  cbn [find_entry seq]. rewrite fmap_cons. cbn [lookup_in]. unfold dentry_ok in He.
  destruct (d_ino (entry_at block di) =? 0); [apply IH, Hok|].
  rewrite name_eq_spec by (try apply He; exact Hc). case_bool_decide; [reflexivity|apply IH, Hok].
Qed.

Section directories.
Context {D : Type} `{BD : BlockDevice D}.

Lemma does_lookup_blocks B name count : c_string name -> forall bs bi buf,
  (Z.to_nat (count - bi) <= length bs)%nat ->
  Forall valid_block (take (Z.to_nat (count - bi)) bs) ->
  Forall dentry_ok (concat (block_entries B <$> take (Z.to_nat (count - bi)) bs)) ->
  does (lookup_blocks bs bi count buf name) B
    (default (-1) (lookup_in (concat (block_entries B <$> take (Z.to_nat (count - bi)) bs)) name)) B.
Proof.
  intros Hc. induction bs as [|b bs IH]; intros bi buf Hl Hv Hok; cbn [lookup_blocks];
    destruct (Z.ltb_spec bi count) as [Hlt|Hge].
  - cbn in Hl. lia.
  - rewrite take_nil. apply does_ret.
  - replace (Z.to_nat (count - bi)) with (S (Z.to_nat (count - (bi + 1)))) in * by lia.
    cbn [take] in *. rewrite fmap_cons in *. cbn [concat] in *.
    apply Forall_cons_1 in Hv as [Hb Hv]. apply Forall_app in Hok as [Ho1 Ho2].
    does_step; [exact Hb|]. does_step. does_step; [apply find_entry_spec; [exact Hc|exact Ho1]|].
    rewrite lookup_in_app. fold (block_entries B b). destruct (lookup_in (block_entries B b) name); [apply does_ret|].
    apply IH; [cbn in Hl; lia|exact Hv|exact Ho2].
  - replace (Z.to_nat (count - bi)) with 0%nat by lia. apply does_ret.
Qed.

Lemma does_lookup B n name : valid_ino n -> c_string name ->
  let i := inode_at B n in type i = SFS_DIR -> file_ok B i -> Forall dentry_ok (entries B i) ->
  does (sfs_lookup n name) B (default (-1) (lookup_in (entries B i) name)) B.
Proof.
  intros Hn Hc i Ht F He. pose proof (count_range _ _ F) as Hcnt. unfold sfs_lookup.
  eapply does_bind; [apply does_read_inode, Hn|]. cbn beta iota. fold i. rewrite Ht. cbn [negb Z.eqb Pos.eqb SFS_DIR].
  pose proof (does_lookup_blocks B name (block_count i) Hc (blocks i) 0 None) as H. rewrite Z.sub_0_r in H.
  apply H.
  - rewrite (proj1 (proj2 (proj2 (proj2 (proj2 (fo_inode _ _ F)))))). lia.
  - eapply Forall_impl; [apply (fo_data _ _ F)|]. intros b [Hb _]. unfold valid_block, DATA_BLOCK_START in *. lia.
  - exact He.
Qed.

(** The search for a free entry, and its use. *)
Lemma free_entry_spec block : forall n di d k, (di <= k < di + n)%nat ->
  (forall j, (di <= j < k)%nat -> d_ino (entry_at block j) <> 0) -> d_ino (entry_at block k) = 0 ->
  free_entry n di block d = (Some k, Some (entry_at block k)).
Proof.
  induction n as [|n IH]; intros di d k Hk Hfull Hfree; [lia|]. cbn [free_entry].
  destruct (Z.eqb_spec (d_ino (entry_at block di)) 0) as [E|E].
  - destruct (decide (k = di)) as [->|Hne]; [reflexivity|]. exfalso. apply (Hfull di); [lia|exact E].
  - destruct (decide (k = di)) as [->|Hne]; [contradiction|]. apply IH; [lia|intros; apply Hfull; lia|exact Hfree].
Qed.

Lemma free_entry_full block : forall n di d,
  (forall j, (di <= j < di + n)%nat -> d_ino (entry_at block j) <> 0) ->
  free_entry n di block d = (None, match n with O => d | S m => Some (entry_at block (di + m)%nat) end).
Proof.
  induction n as [|n IH]; intros di d Hfull; [reflexivity|]. cbn [free_entry].
  destruct (Z.eqb_spec (d_ino (entry_at block di)) 0) as [E|E]; [destruct (Hfull di ltac:(lia) E)|].
  rewrite IH by (intros; apply Hfull; lia). f_equal. destruct n; f_equal; f_equal; lia.
Qed.

(** The entry written for [name] over a free entry [old]. *)
Definition new_entry (n : Z) (name : list Z) (old : dentry) : dentry := mk_dentry n (set_name name (d_name old)).

Lemma does_add_to_blocks B count n name b k : map_ok B -> valid_block b ->
  (k < DENTRIES_PER_BLOCK)%nat -> (forall j, (j < k)%nat -> d_ino (entry_at (B b) j) <> 0) ->
  d_ino (entry_at (B b) k) = 0 -> length (d_name (entry_at (B b) k)) = 28%nat ->
  forall pre post bi buf d, Z.of_nat (length pre) < count - bi -> Forall valid_block pre ->
    Forall (fun c => forall j, (j < DENTRIES_PER_BLOCK)%nat -> d_ino (entry_at (B c) j) <> 0) pre ->
    let e := new_entry n name (entry_at (B b) k) in
    does (add_to_blocks (pre ++ b :: post) bi count buf d n name) B (true, Some e)
      (put_blk b (splice (k * sizeof_dentry) (dentry_bytes e) (B b)) B).
Proof.
  intros HB Hb Hk Hfull Hfree Hlen. induction pre as [|c pre IH]; intros post bi buf d Hl Hv Hpre e;
    cbn [app add_to_blocks]; (destruct (Z.ltb_spec bi count) as [_|X]; [|lia]).
  - does_step; [exact Hb|]. does_step.
    rewrite (free_entry_spec (B b) DENTRIES_PER_BLOCK 0 d k) by (try exact Hfree; try lia; intros; apply Hfull; lia).
    cbv zeta. does_step; [exact Hb| |apply does_ret].
    assert (Hn : length (set_name name (d_name (entry_at (B b) k))) = 28%nat).
    { unfold set_name. rewrite length_insert, length_splice; [exact Hlen|]. rewrite length_take, Hlen. unfold MAX_FILENAME. lia. }
    rewrite length_splice; [apply HB, Hb|]. rewrite length_dentry_bytes, HB by assumption.
    unfold sizeof_dentry, DENTRIES_PER_BLOCK in *. lia.
  - apply Forall_cons_1 in Hv as [Hc Hv]. apply Forall_cons_1 in Hpre as [Hc' Hpre]. cbn [length] in Hl.
    does_step; [exact Hc|]. does_step.
    rewrite free_entry_full by (intros; apply Hc'; lia). cbn beta iota.
    apply IH; [lia|exact Hv|exact Hpre].
Qed.
End directories.

(** ** Creating a file *)

Lemma cstr_set_name name : c_string name -> (length name < MAX_FILENAME)%nat ->
  cstr (set_name name (replicate MAX_FILENAME 0)) = name.
Proof.
  intros Hc Hl. assert (E : set_name name (replicate MAX_FILENAME 0) = name ++ replicate (MAX_FILENAME - length name) 0).
  { unfold set_name, MAX_FILENAME in *. rewrite take_ge by lia. unfold splice. rewrite take_0, app_nil_l, drop_replicate.
    apply list_eq. intros k. destruct (decide (k = 27%nat)) as [->|Hk].
    - rewrite list_lookup_insert_eq by (rewrite length_app, length_replicate; lia).
      rewrite lookup_app_r by lia. rewrite lookup_replicate_2 by lia. reflexivity.
    - rewrite list_lookup_insert_ne by (cbn; lia). reflexivity. }
  rewrite E. generalize (MAX_FILENAME - length name)%nat. clear E Hl. intros m.
  induction Hc as [|c name Hc0 _ IH]; [destruct m; reflexivity|]. cbn [app cstr].
  destruct (Z.eqb_spec c 0); [contradiction|]. f_equal. exact IH.
Qed.

Lemma length_set_name name old : length old = 28%nat -> length (set_name name old) = 28%nat.
Proof.
  intros H. unfold set_name. rewrite length_insert, length_splice; [exact H|].
  rewrite length_take, H. unfold MAX_FILENAME. lia.
Qed.

Lemma set_name_terminated name old : length old = 28%nat -> 0 ∈ set_name name old.
Proof.
  intros H. apply (list_elem_of_lookup_2 _ 27%nat). unfold set_name. apply list_lookup_insert_eq.
  rewrite length_splice; rewrite ?length_take, H; unfold MAX_FILENAME; lia.
Qed.

(** The inode allocator: the lowest free number, or none. *)
Lemma does_alloc_inode {D} `{BD : BlockDevice D} B : fs_ok B ->
  (exists n, valid_ino n /\ used_inode B n = false /\ (forall m, 0 <= m < n -> used_inode B m = true) /\
     does sfs_alloc_inode B n (put_blk INODE_BITMAP_BLOCK (bitmap_set (B INODE_BITMAP_BLOCK) n) B)) \/
  ((forall m, valid_ino m -> used_inode B m = true) /\ does sfs_alloc_inode B (-1) B).
Proof.
  intros O. assert (Hv : valid_block INODE_BITMAP_BLOCK) by (unfold valid_block, DISK_BLOCKS, INODE_BITMAP_BLOCK; lia).
  pose proof (ok_map _ O _ Hv) as Hl.
  destruct (find_first_zero_spec (B INODE_BITMAP_BLOCK) 134) as (r & E & C); [rewrite Hl; lia|].
  destruct C as [[-> C]|(C1 & C2 & C3)]; [right|left; exists r].
  - split; [intros m [H1 H2]; apply C; change MAX_INODES with 134 in H2; lia|].
    unfold sfs_alloc_inode. does_step. does_step; [exact Hv|]. does_step; [exact E|]. apply does_ret.
  - assert (Hr : r <> 0) by (intros ->; pose proof (ok_zero _ O) as X; unfold used_inode in X; congruence).
    split; [split; change MAX_INODES with 134; lia|]. split; [exact C2|]. split; [exact C3|].
    unfold sfs_alloc_inode. does_step. does_step; [exact Hv|]. does_step; [exact E|].
    destruct (Z.ltb_spec r 0) as [X|_]; [lia|]. does_step; [exact Hv| |apply does_ret].
    rewrite length_bitmap_set. exact Hl.
Qed.

(** Taking a free inode for an empty file. *)
Definition take_inode (i : sfs_inode) (B : blockmap) : blockmap :=
  put_inode i (put_blk INODE_BITMAP_BLOCK (bitmap_set (B INODE_BITMAP_BLOCK) (ino i)) B).

Lemma take_inode_ok B i : fs_ok B -> inode_ok i -> valid_ino (ino i) -> used_inode B (ino i) = false ->
  block_count i = 0 -> size i = 0 ->
  let B' := take_inode i B in
  fs_ok B' /\ (forall m, 0 <= m -> used_inode B' m = (ino i =? m) || used_inode B m) /\
  (forall m, valid_ino m -> inode_at B' m = if decide (m = ino i) then i else inode_at B m) /\
  (forall b, b <> 1 -> ~ (3 <= b <= 4) -> B' b = B b).
Proof.
  intros O Hi Hv Hu Hc Hs B'. assert (V1 : valid_block INODE_BITMAP_BLOCK) by (unfold valid_block, DISK_BLOCKS, INODE_BITMAP_BLOCK; lia).
  pose proof (ok_map _ O _ V1) as Hl. set (B1 := put_blk INODE_BITMAP_BLOCK (bitmap_set (B INODE_BITMAP_BLOCK) (ino i)) B).
  assert (M1 : map_ok B1) by (apply put_ok; [apply O|rewrite length_bitmap_set; exact Hl]).
  assert (Hfr : forall b, b <> 1 -> ~ (3 <= b <= 4) -> B' b = B b).
  { intros b H1 H2. unfold B', take_inode. rewrite put_inode_other by assumption. apply put_other, H1. }
  assert (HU : forall m, 0 <= m -> used_inode B' m = (ino i =? m) || used_inode B m).
  { intros m Hm. unfold used_inode, B', take_inode. rewrite put_inode_other by (try exact Hv; unfold INODE_BITMAP_BLOCK; lia).
    rewrite put_same. destruct Hv as [Hv1 Hv2]. change MAX_INODES with 134 in Hv2. apply bit_set; [lia|exact Hm|rewrite Hl; mlia]. }
  assert (HA : forall m, valid_ino m -> inode_at B' m = if decide (m = ino i) then i else inode_at B m).
  { intros m Hm. unfold B', take_inode. rewrite inode_at_put by assumption. case_decide; [reflexivity|].
    unfold inode_at. rewrite put_other; [reflexivity|]. pose proof (inode_block_valid m Hm). unfold INODE_BITMAP_BLOCK. lia. }
  assert (HB : forall b, used_block B' b = used_block B b)
    by (intros b; unfold used_block; rewrite Hfr by (unfold BLOCK_BITMAP_BLOCK; lia); reflexivity).
  assert (Fi : file_blocks i = []) by (unfold file_blocks; rewrite Hc; reflexivity).
  destruct O as [OM OZ OR OF OD]. split; [|auto]. split.
  - apply put_inode_ok; assumption.
  - rewrite HU, OZ by lia. apply orb_true_r.
  - intros b Hb. rewrite HB. apply OR, Hb.
  - intros m Hm Hum. rewrite HA by exact Hm. case_decide as Hd.
    + split; [congruence|]. split; [|lia]. split; [exact Hi|unfold SFS_DIRECT_BLOCKS; lia|rewrite Fi; constructor|rewrite Fi; constructor|].
      intros b Hb. rewrite HB. apply OR, Hb.
    + rewrite HU in Hum by (destruct Hm; lia). destruct (Z.eqb_spec (ino i) m) as [X|_]; [congruence|]. cbn in Hum.
      destruct (OF m Hm Hum) as [E S]. split; [exact E|]. apply (sized_ext B); [exact S|]. intros b _. rewrite HB. auto.
  - intros m1 m2 b V2 V3. rewrite !HU, !HA by (try assumption; destruct V2, V3; lia).
    intros U2 U3. repeat case_decide; rewrite ?Fi; intros X2 X3; try (inversion X2; fail); try (inversion X3; fail).
    destruct (Z.eqb_spec (ino i) m1) as [X|_]; [congruence|]. destruct (Z.eqb_spec (ino i) m2) as [X|_]; [congruence|].
    cbn in U2, U3. eapply OD; eassumption.
Qed.

(** The first number below [n] that satisfies a test. *)
Lemma least (P : nat -> bool) n :
  (forall j, (j < n)%nat -> P j = false) \/
  (exists k, (k < n)%nat /\ P k = true /\ forall j, (j < k)%nat -> P j = false).
Proof.
  induction n as [|n [IH|(k & Hk & H)]]; [left; lia| |right; exists k; split; [lia|exact H]].
  destruct (P n) eqn:E; [right; exists n; auto|left]. intros j Hj.
  destruct (decide (j = n)) as [->|]; [exact E|apply IH; lia].
Qed.

Lemma elem_block_entries B b e :
  e ∈ block_entries B b <-> exists k, (k < DENTRIES_PER_BLOCK)%nat /\ e = entry_at (B b) k.
Proof.
  unfold block_entries. rewrite list_elem_of_fmap. split.
  - intros (k & -> & Hk). apply elem_of_seq in Hk. exists k. split; [lia|reflexivity].
  - intros (k & Hk & ->). exists k. split; [reflexivity|]. apply elem_of_seq. lia.
Qed.

Lemma first_free B bs : (exists e, e ∈ concat (block_entries B <$> bs) /\ d_ino e = 0) ->
  exists pre b post k, bs = pre ++ b :: post /\
    Forall (fun c => forall j, (j < DENTRIES_PER_BLOCK)%nat -> d_ino (entry_at (B c) j) <> 0) pre /\
    (k < DENTRIES_PER_BLOCK)%nat /\ (forall j, (j < k)%nat -> d_ino (entry_at (B b) j) <> 0) /\
    d_ino (entry_at (B b) k) = 0.
Proof.
  induction bs as [|b bs IH]; intros (e & He & E0); [inversion He|].
  destruct (least (fun j => d_ino (entry_at (B b) j) =? 0) DENTRIES_PER_BLOCK) as [H|(k & Hk & H1 & H2)].
  - rewrite fmap_cons in He. cbn [concat] in He. apply elem_of_app in He as [He|He].
    + apply elem_block_entries in He as (k & Hk & ->). specialize (H k Hk). bool_prop. contradiction.
    + destruct IH as (pre & b' & post & k & -> & Hp & Hk); [eauto|]. exists (b :: pre), b', post, k.
      split; [reflexivity|]. split; [|exact Hk]. constructor; [|exact Hp]. intros j Hj. specialize (H j Hj). bool_prop. exact H.
  - exists [], b, bs, k. split; [reflexivity|]. split; [constructor|]. split; [exact Hk|]. bool_prop.
    split; [|exact H1]. intros j Hj. specialize (H2 j Hj). bool_prop. exact H2.
Qed.

(** Overwriting one entry of a block. *)
Lemma entry_at_splice block k e j : length block = 4096%nat -> (k < DENTRIES_PER_BLOCK)%nat -> (j < DENTRIES_PER_BLOCK)%nat ->
  is_u32 (d_ino e) -> length (d_name e) = 28%nat ->
  entry_at (splice (k * sizeof_dentry) (dentry_bytes e) block) j = if decide (j = k) then e else entry_at block j.
Proof.
  intros Hb Hk Hj He Hn. unfold entry_at. pose proof (length_dentry_bytes e Hn) as Hl.
  unfold DENTRIES_PER_BLOCK, sizeof_dentry in *. case_decide as Hd.
  - subst j. rewrite <- Hl, slice_splice_same by (rewrite Hl, Hb; lia). apply dentry_of_bytes; assumption.
  - f_equal. destruct (Nat.lt_total j k) as [X|[X|X]]; [|contradiction|].
    + apply slice_splice_before; [lia|rewrite Hl, Hb; lia].
    + apply slice_splice_after; [rewrite Hl; lia|rewrite Hl, Hb; lia].
Qed.

Lemma block_entries_split B b k : (k < DENTRIES_PER_BLOCK)%nat ->
  block_entries B b = (entry_at (B b) <$> seq 0 k) ++ entry_at (B b) k :: (entry_at (B b) <$> seq (S k) (DENTRIES_PER_BLOCK - S k)).
Proof.
  intros Hk. unfold block_entries. replace DENTRIES_PER_BLOCK with (k + S (DENTRIES_PER_BLOCK - S k))%nat at 1 by lia.
  rewrite seq_app, fmap_app. reflexivity.
Qed.

Lemma block_entries_splice B B' b k e : B' b = splice (k * sizeof_dentry) (dentry_bytes e) (B b) ->
  length (B b) = 4096%nat -> (k < DENTRIES_PER_BLOCK)%nat -> is_u32 (d_ino e) -> length (d_name e) = 28%nat ->
  block_entries B' b = (entry_at (B b) <$> seq 0 k) ++ e :: (entry_at (B b) <$> seq (S k) (DENTRIES_PER_BLOCK - S k)).
Proof.
  intros E Hb Hk He Hn. rewrite (block_entries_split B' b k Hk), E.
  pose proof (fun j Hj => entry_at_splice (B b) k e j Hb Hk Hj He Hn) as H. f_equal; [|f_equal].
  - apply list_fmap_ext. intros i j Hj. apply lookup_seq in Hj as [-> Hj]. rewrite H by lia. apply decide_False. lia.
  - rewrite H by exact Hk. apply decide_True. reflexivity.
  - apply list_fmap_ext. intros i j Hj. apply lookup_seq in Hj as [-> Hj]. rewrite H by lia. apply decide_False. lia.
Qed.

Lemma entries_ext B B' i : (forall b, b ∈ file_blocks i -> B' b = B b) -> entries B' i = entries B i.
Proof.
  intros H. unfold entries. f_equal. apply list_fmap_ext. intros k b Hb. unfold block_entries.
  rewrite H by (eapply list_elem_of_lookup_2, Hb). reflexivity.
Qed.

Lemma length_entries B i : file_ok B i -> length (entries B i) = (Z.to_nat (block_count i) * DENTRIES_PER_BLOCK)%nat.
Proof.
  intros F. unfold entries. rewrite (concat_length_const _ DENTRIES_PER_BLOCK).
  - rewrite length_fmap, (length_file_blocks B i F). reflexivity.
  - apply Forall_fmap, Forall_true. intros b. unfold compose, block_entries. rewrite length_fmap, length_seq. reflexivity.
Qed.

Lemma in_use_count_app l1 l2 : in_use_count (l1 ++ l2) = (in_use_count l1 + in_use_count l2)%nat.
Proof. unfold in_use_count. rewrite filter_app, length_app. reflexivity. Qed.

Lemma in_use_count_cons e l : in_use_count (e :: l) = if decide (d_ino e <> 0) then S (in_use_count l) else in_use_count l.
Proof. unfold in_use_count. rewrite filter_cons. case_decide; reflexivity. Qed.

Lemma in_use_count_le l : (in_use_count l <= length l)%nat.
Proof. apply length_filter. Qed.

(** Looking a name up after an entry was filled. *)
Lemma lookup_in_new l1 l2 old e x : d_ino old = 0 -> 0 < d_ino e < MAX_INODES ->
  lookup_in (l1 ++ old :: l2) (cstr (d_name e)) = None ->
  lookup_in (l1 ++ e :: l2) x =
    if bool_decide (x = cstr (d_name e)) then Some (d_ino e) else lookup_in (l1 ++ old :: l2) x.
Proof.
  intros H0 He Hn. rewrite !lookup_in_app in *. cbn [lookup_in] in *. rewrite H0 in *. cbn [Z.eqb] in *.
  destruct (Z.eqb_spec (d_ino e) 0) as [X|_]; [lia|].
  rewrite i32_small by (change MAX_INODES with 134 in He; lia).
  destruct (bool_decide_reflect (x = cstr (d_name e))) as [->|Hx].
  - rewrite bool_decide_eq_true_2 by reflexivity. destruct (lookup_in l1 _); [discriminate|reflexivity].
  - rewrite (bool_decide_eq_false_2 (cstr (d_name e) = x)) by congruence. reflexivity.
Qed.

(** The effect of creating file [n] in directory [p], whose new last entry has
    the name [stored]; an older entry with that name hides it. *)
Record created (B : blockmap) (p : Z) (stored : list Z) (n : Z) (B' : blockmap) : Prop := {
  cr_ok : fs_ok B';
  cr_ino : valid_ino n /\ used_inode B n = false /\ (forall m, 0 <= m < n -> used_inode B m = true);
  cr_used : forall m, 0 <= m -> used_inode B' m = (n =? m) || used_inode B m;
  cr_file : file_of B' n = [] /\ size (inode_at B' n) = 0 /\ type (inode_at B' n) = SFS_FILE;
  cr_dir : dir_ok B' (inode_at B' p);
  cr_lookup : forall x, lookup_in (entries B' (inode_at B' p)) x =
    match lookup_in (entries B (inode_at B p)) x with
    | Some m => Some m
    | None => if bool_decide (x = stored) then Some n else None
    end;
  cr_others : forall m, valid_ino m -> used_inode B m = true -> m <> p ->
    inode_at B' m = inode_at B m /\ file_of B' m = file_of B m
}.

Lemma created_found B p stored n B' : created B p stored n B' ->
  lookup_in (entries B (inode_at B p)) stored = None ->
  lookup_in (entries B' (inode_at B' p)) stored = Some n.
Proof. intros C H. rewrite (cr_lookup _ _ _ _ _ C), H. case_bool_decide; [reflexivity|contradiction]. Qed.

(** Entering file [n] in the directory with inode [i] as [stored]. *)
Record entered (B : blockmap) (i : sfs_inode) (n : Z) (stored : list Z) (B' : blockmap) (i' : sfs_inode) : Prop := {
  en_change : file_change B i B' (with_size i' (size i + 32));
  en_meta : size i' = size i /\ type i' = type i;
  en_lookup : forall x, lookup_in (entries B' i') x =
    match lookup_in (entries B i) x with
    | Some m => Some m
    | None => if bool_decide (x = stored) then Some n else None
    end;
  en_entries : Forall dentry_ok (entries B' i');
  en_count : in_use_count (entries B' i') = S (in_use_count (entries B i))
}.

(** The name of an entry written for [name] over the bytes of [old]: when [old]
    is longer, its end remains (the last of its 28 bytes is cleared). *)
Definition stored_name (name old : list Z) : list Z :=
  name ++ cstr (drop (length name) (take (MAX_FILENAME - 1) old)).

Section create.
Context {D : Type} `{BD : BlockDevice D}.

(** Entering [n] in the directory [p]: the search, the write and the update
    of the directory's inode. *)
Lemma does_enter B p n name : fs_ok B -> valid_ino p -> used_inode B p = true -> dir_ok B (inode_at B p) ->
  c_string name -> (length name < MAX_FILENAME)%nat -> 0 < n < MAX_INODES ->
  lookup_in (entries B (inode_at B p)) name = None ->
  (exists e, e ∈ entries B (inode_at B p) /\ d_ino e = 0) ->
  let i := inode_at B p in
  exists d B2, does (add_to_blocks (blocks i) 0 (block_count i) None None n name) B (true, d) B2 /\
    entered B i n name B2 i.
Proof.
  intros O Hp Hu [Ht [F Hs] He Hsz] Hc Hl Hn Hnone Hfree i. fold i in Ht, F, Hs, He, Hsz, Hnone, Hfree.
  destruct (first_free B (file_blocks i) Hfree) as (pre & b & post & k & Eb & Hpre & Hk & Hfull & H0).
  pose proof (ok_map _ O) as HB. pose proof (count_range _ _ F) as Hcr.
  assert (Hlp : (length pre < Z.to_nat (block_count i))%nat).
  { rewrite <- (length_file_blocks B i F), Eb, length_app. cbn. lia. }
  assert (Hidx : file_blocks i !! length pre = Some b) by (rewrite Eb; apply list_lookup_middle; reflexivity).
  pose proof (fo_data _ _ F) as Hd. rewrite Forall_forall in Hd.
  assert (Hval : forall c, c ∈ file_blocks i -> valid_block c /\ 5 <= c).
  { intros c Hc'. destruct (Hd c Hc') as [Hr _]. unfold valid_block, DATA_BLOCK_START in *. lia. }
  assert (Hbin : b ∈ file_blocks i) by (eapply list_elem_of_lookup_2, Hidx).
  destruct (Hval b Hbin) as [Vb _]. pose proof (HB b Vb) as Hlb.
  set (old := entry_at (B b) k) in *.
  assert (Hold : d_name old = replicate MAX_FILENAME 0).
  { rewrite Forall_forall in He. specialize (He old). unfold dentry_ok in He. rewrite H0 in He. apply He.
    unfold entries. rewrite Eb, fmap_app, fmap_cons, concat_app. cbn [concat]. rewrite !elem_of_app. right. left.
    apply elem_block_entries. exists k. auto. }
  assert (Hlo : length (d_name old) = 28%nat) by (rewrite Hold; reflexivity).
  set (e := new_entry n name old).
  assert (Hen : length (d_name e) = 28%nat) by (apply length_set_name, Hlo).
  assert (Hei : is_u32 (d_ino e)) by (unfold is_u32; change MAX_INODES with 134 in Hn; cbn; lia).
  assert (Hec : cstr (d_name e) = name) 
    by (change (d_name e) with (set_name name (d_name old)); rewrite Hold; apply cstr_set_name; assumption).
  set (B2 := put_blk b (splice (k * sizeof_dentry) (dentry_bytes e) (B b)) B).
  (* the entries before and after *)
  assert (HL : exists l1 l2, entries B i = l1 ++ old :: l2 /\ entries B2 i = l1 ++ e :: l2).
  { assert (Hrest : forall l, (forall c, c ∈ l -> c <> b) -> concat (block_entries B2 <$> l) = concat (block_entries B <$> l)).
    { intros l Hne. f_equal. apply list_fmap_ext. intros j c Hj. unfold block_entries, B2.
      rewrite put_other; [reflexivity|]. apply Hne. eapply list_elem_of_lookup_2, Hj. }
    pose proof (fo_nodup _ _ F) as Nd. rewrite Eb in Nd. apply NoDup_app in Nd as (_ & Nd1 & Nd2). apply NoDup_cons in Nd2 as [Nd2 _].
    exists (concat (block_entries B <$> pre) ++ (entry_at (B b) <$> seq 0 k)),
      ((entry_at (B b) <$> seq (S k) (DENTRIES_PER_BLOCK - S k)) ++ concat (block_entries B <$> post)).
    unfold entries. rewrite Eb, !fmap_app, !fmap_cons, !concat_app. cbn [concat].
    rewrite (block_entries_split B b k Hk), (block_entries_splice B B2 b k e) by (try assumption; apply put_same).
    rewrite !Hrest by (intros c Hc' ->; first [exact (Nd2 Hc')|exact (Nd1 b Hc' (list_elem_of_here _ _))]).
    rewrite <- !app_assoc. split; reflexivity. }
  destruct HL as (l1 & l2 & EL & EL2).
  assert (Hcnt : in_use_count (entries B2 i) = S (in_use_count (entries B i))).
  { rewrite EL, EL2, !in_use_count_app, !in_use_count_cons.
    rewrite (decide_False (P := d_ino old <> 0)) by (rewrite H0; auto).
    rewrite decide_True by (cbn [d_ino e new_entry]; destruct Hn; lia). lia. }
  assert (Hroom : (in_use_count (entries B i) < length (entries B i))%nat).
  { rewrite EL, in_use_count_app, in_use_count_cons, decide_False, length_app by (rewrite H0; auto).
    pose proof (in_use_count_le l1). pose proof (in_use_count_le l2). cbn. lia. }
  rewrite (length_entries B i F) in Hroom. unfold sizeof_dentry, DENTRIES_PER_BLOCK in Hsz, Hroom.
  destruct (grown_write B i (length pre) b (k * sizeof_dentry) (dentry_bytes e) HB F Hidx) as [G _].
  { rewrite length_dentry_bytes by exact Hen. unfold sizeof_dentry, DENTRIES_PER_BLOCK in *. lia. }
  fold B2 in G. exists (Some e), B2. split; [|split; [|auto| | |exact Hcnt]].
  - assert (Ebs : blocks i = pre ++ b :: (post ++ drop (Z.to_nat (block_count i)) (blocks i))).
    { rewrite <- (take_drop (Z.to_nat (block_count i)) (blocks i)) at 1. fold (file_blocks i). rewrite Eb, <- app_assoc. reflexivity. }
    rewrite Ebs. apply does_add_to_blocks; try assumption; [lia|].
    apply Forall_forall. intros c Hc'. apply Hval. rewrite Eb. apply elem_of_app. auto.
  - destruct G as [GM GF (G1 & _ & _) GB GR GU]. split; auto.
    split; [apply file_ok_size; [exact GF|unfold is_u32; lia]|].
    change (size i + 32 <= block_count i * 4096). lia.
  - intros x. rewrite EL, EL2. rewrite (lookup_in_new l1 l2 old e x H0 Hn).
    + rewrite Hec, <- EL. case_bool_decide as Hx; [rewrite Hx, Hnone; reflexivity|].
      destruct (lookup_in (entries B i) x); reflexivity.
    + rewrite Hec, <- EL. exact Hnone.
  - rewrite EL2. rewrite EL in He. apply Forall_app in He as [He1 He2]. apply Forall_cons_1 in He2 as [_ He2].
    apply Forall_app. split; [exact He1|]. constructor; [|exact He2]. unfold dentry_ok.
    destruct (Z.eqb_spec (d_ino e) 0) as [X|_]; [cbn in X; lia|]. split; [apply set_name_terminated, Hlo|exact Hn].
Qed.

(** The rest of [sfs_create], given how the entry is made. *)
Lemma does_create_via B p name stored : fs_ok B -> valid_ino p -> used_inode B p = true -> dir_ok B (inode_at B p) ->
  c_string name -> lookup_in (entries B (inode_at B p)) name = None ->
  (exists m, valid_ino m /\ used_inode B m = false) ->
  (forall n B1, valid_ino n -> fs_ok B1 -> used_inode B1 p = true -> inode_at B1 p = inode_at B p ->
     dir_ok B1 (inode_at B1 p) -> (forall b, b <> 1 -> ~ (3 <= b <= 4) -> B1 b = B b) ->
     let i := inode_at B p in
     exists w d Bm i2 B2, does (add_to_blocks (blocks i) 0 (block_count i) None None n name) B1 (w, d) Bm /\
       does (if (w : bool) then mret (Some i) else add_block i d n name) Bm (Some i2) B2 /\
       entered B1 i n stored B2 i2) ->
  exists n B', does (sfs_create p name SFS_FILE) B n B' /\ created B p stored n B'.
Proof.
  intros O Hp Hu Hdir Hc Hnone (m0 & Vm0 & Um0) Henter. set (i := inode_at B p) in *.
  destruct Hdir as [Ht [F Hs] He Hsz].
  destruct (does_alloc_inode B O) as [(n & Vn & Un & Hlow & Halloc)|[Hall _]]; [|rewrite Hall in Um0 by exact Vm0; discriminate].
  set (new := mk_inode n 0 SFS_FILE 0 (replicate 12 0)).
  assert (Hnew : inode_ok new).
  { destruct Vn as [V1 V2]. change MAX_INODES with 134 in V2. unfold inode_ok, is_u32, is_u8.
    cbn [ino size type block_count blocks new]. unfold SFS_FILE. split; [lia|]. split; [lia|]. split; [lia|]. split; [lia|].
    split; [reflexivity|]. apply Forall_replicate. lia. }
  destruct (take_inode_ok B new O Hnew Vn Un eq_refl eq_refl) as (O1 & U1 & A1 & R1).
  set (B1 := take_inode new B) in *. change (ino new) with n in *.
  assert (Hpn : p <> n) by (intros ->; congruence).
  assert (Ei : inode_at B1 p = i) by (rewrite A1 by exact Hp; apply decide_False, Hpn).
  assert (Ee : entries B1 i = entries B i).
  { apply entries_ext. intros b Hb. apply R1; apply (data_not_meta _ _ _ F) in Hb; lia. }
  assert (Up : used_inode B1 p = true) by (rewrite U1 by (destruct Hp; lia); rewrite Hu; apply orb_true_r).
  assert (Hdir1 : dir_ok B1 (inode_at B1 p)).
  { rewrite Ei. split; [exact Ht| |rewrite Ee; exact He|rewrite Ee; exact Hsz].
    rewrite <- Ei. apply (ok_file _ O1 p Hp Up). }
  destruct (Henter n B1 Vn O1 Up Ei Hdir1 R1) as (w & d & Bm & j & B2 & Hadd & Hblock & [Hfc [Hj1 Hj2] Hlk Hok Hcnt]).
  rewrite Ei in *. rewrite Ee in Hlk, Hcnt. set (i2 := with_size j (size i + 32)) in *.
  destruct (file_change_ok B1 p B2 i2 O1 Hp Up) as (O3 & U3 & A3 & _ & A3' & F3);
    [rewrite Ei; exact Hfc|].
  set (B3 := put_inode i2 B2) in *. pose proof (ok_file _ O p Hp Hu) as [Hip _]. fold i in Hip.
  assert (Vi2 : valid_ino (ino i2)) by (rewrite (fc_ino _ _ _ _ Hfc), Hip; exact Hp).
  assert (Ee3 : entries B3 i2 = entries B2 j).
  { change (entries B3 i2) with (entries B3 j). apply entries_ext. intros b Hb.
    apply put_inode_other; [exact Vi2|]. apply (data_not_meta _ _ _ (proj1 (fc_sized _ _ _ _ Hfc))) in Hb. lia. }
  exists n, B3. split.
  - unfold sfs_create. eapply does_bind; [apply does_read_inode, Hp|]. cbn beta iota. fold i.
    rewrite Ht. cbn [negb Z.eqb Pos.eqb SFS_DIR].
    eapply does_bind; [apply does_lookup; [exact Hp|exact Hc|exact Ht|exact F|exact He]|].
    fold i. rewrite Hnone. cbn [default Z.leb Z.compare].
    eapply does_bind; [exact Halloc|]. destruct (Z.ltb_spec n 0) as [X|_]; [destruct Vn; lia|].
    eapply does_bind; [apply does_ret|]. cbn iota.
    eapply does_bind; [apply (does_write_inode new); [exact Hnew|exact Vn]|].
    eapply does_bind; [exact Hadd|]. cbn beta iota.
    eapply does_bind; [exact Hblock|]. cbn iota.
    eapply does_bind; [|apply does_ret].
    assert (Esz : u32 (size i + Z.of_nat sizeof_dentry) = size i + 32).
    { change (Z.of_nat sizeof_dentry) with 32. destruct (fc_sized _ _ _ _ Hfc) as [Fi2 _].
      apply u32_small. destruct (fo_inode _ _ Fi2) as (_ & X & _). exact X. }
    rewrite Hj1, Esz. apply (does_write_inode i2); [|exact Vi2]. apply (fo_inode _ _ (proj1 (fc_sized _ _ _ _ Hfc))).
  - assert (En : inode_at B3 n = new).
    { rewrite A3' by (try exact Vn; congruence). rewrite A1 by exact Vn. apply decide_True. reflexivity. }
    split.
    + exact O3.
    + auto.
    + intros m Hm. rewrite U3. apply U1, Hm.
    + unfold file_of, file_bytes. rewrite En. auto.
    + rewrite A3. split; [change (type j = SFS_DIR); congruence| |rewrite Ee3; exact Hok|].
      * rewrite <- A3. apply (ok_file _ O3 p Hp). rewrite U3. exact Up.
      * rewrite Ee3, Hcnt. change (size i2) with (size i + 32). rewrite Hsz. unfold sizeof_dentry. lia.
    + intros x. rewrite A3, Ee3. apply Hlk.
    + intros m Vm Um Hmp. assert (Hmn : m <> n) by (intros ->; congruence).
      assert (Um1 : used_inode B1 m = true) by (rewrite U1 by (destruct Vm; lia); rewrite Um; apply orb_true_r).
      assert (Em : inode_at B1 m = inode_at B m) by (rewrite A1 by exact Vm; apply decide_False, Hmn).
      split; [rewrite A3' by assumption; exact Em|]. destruct (F3 m) as [-> _]; try assumption.
      unfold file_of, file_bytes. rewrite Em. f_equal. apply content_ext. intros b Hb.
      apply R1; apply (data_not_meta _ _ _ (proj1 (proj2 (ok_file _ O m Vm Um)))) in Hb; lia.
Qed.

Lemma does_create B p name : fs_ok B -> valid_ino p -> used_inode B p = true -> dir_ok B (inode_at B p) ->
  c_string name -> (length name < MAX_FILENAME)%nat ->
  lookup_in (entries B (inode_at B p)) name = None ->
  (exists e, e ∈ entries B (inode_at B p) /\ d_ino e = 0) ->
  (exists m, valid_ino m /\ used_inode B m = false) ->
  exists n B', does (sfs_create p name SFS_FILE) B n B' /\ created B p name n B'.
Proof.
  intros O Hp Hu Hdir Hc Hl Hnone Hfree Hino.
  apply does_create_via; try assumption. intros n B1 Vn O1 U1 Ei Hdir1 R1 i.
  assert (Ee : entries B1 i = entries B i).
  { apply entries_ext. intros b Hb. apply (data_not_meta _ _ _ (proj1 (do_sized _ _ Hdir))) in Hb. apply R1; lia. }
  destruct (does_enter B1 p n name O1 Hp U1 Hdir1 Hc Hl Vn) as (d & B2 & H1 & H2);
    [rewrite Ei; fold i; rewrite Ee; assumption..|]. rewrite Ei in *.
  exists true, d, B2, i, B2. split; [exact H1|]. split; [apply does_ret|exact H2].
Qed.

(** *** A full directory *)

Definition full_dir (B : blockmap) (i : sfs_inode) : Prop := Forall (fun e => d_ino e <> 0) (entries B i).

Lemma does_add_full B count n name : forall bs bi buf d, (Z.to_nat (count - bi) <= length bs)%nat ->
  Forall valid_block (take (Z.to_nat (count - bi)) bs) ->
  Forall (fun e => d_ino e <> 0) (concat (block_entries B <$> take (Z.to_nat (count - bi)) bs)) ->
  does (add_to_blocks bs bi count buf d n name) B
    (false, match last (concat (block_entries B <$> take (Z.to_nat (count - bi)) bs)) with
            | Some e => Some e | None => d end) B.
Proof.
  induction bs as [|b bs IH]; intros bi buf d Hl Hv Hok; cbn [add_to_blocks];
    destruct (Z.ltb_spec bi count) as [Hlt|Hge].
  - cbn in Hl. lia.
  - rewrite take_nil. apply does_ret.
  - replace (Z.to_nat (count - bi)) with (S (Z.to_nat (count - (bi + 1)))) in * by lia.
    cbn [take] in *. rewrite fmap_cons in *. cbn [concat] in *.
    apply Forall_cons_1 in Hv as [Hb Hv]. apply Forall_app in Hok as [Ho1 Ho2].
    does_step; [exact Hb|]. does_step.
    rewrite free_entry_full.
    2:{ intros j Hj. rewrite Forall_forall in Ho1. apply Ho1, elem_block_entries. exists j. split; [lia|reflexivity]. }
    cbn beta iota. rewrite last_app.
    assert (El : last (block_entries B b) = Some (entry_at (B b) 127)).
    { rewrite (block_entries_split B b 127) by (unfold DENTRIES_PER_BLOCK; lia). apply last_snoc. }
    rewrite El. specialize (IH (bi + 1) (Some (B b)) (Some (entry_at (B b) 127)) ltac:(cbn in Hl; lia) Hv Ho2).
    change (0 + 127)%nat with 127%nat. destruct (last (concat _)); exact IH.
  - replace (Z.to_nat (count - bi)) with 0%nat by lia. apply does_ret.
Qed.

Lemma length_entry_name block k : length block = 4096%nat -> (k < DENTRIES_PER_BLOCK)%nat ->
  length (d_name (entry_at block k)) = 28%nat.
Proof.
  intros Hb Hk. unfold entry_at, dentry_of, slice, sizeof_dentry, DENTRIES_PER_BLOCK in *. cbn [d_name].
  rewrite ?length_take, ?length_drop, ?length_take, ?length_drop, Hb. lia.
Qed.

Lemma cstr_app_clean cs l : c_string cs -> cstr (cs ++ l) = cs ++ cstr l.
Proof.
  induction 1 as [|c cs Hc _ IH]; [reflexivity|]. cbn [app cstr].
  destruct (Z.eqb_spec c 0); [contradiction|]. f_equal. exact IH.
Qed.

Lemma cstr_stop l : cstr (l ++ [0]) = cstr l.
Proof. induction l as [|c l IH]; [reflexivity|]. cbn [app cstr]. destruct (c =? 0); [reflexivity|]. f_equal. exact IH. Qed.

Lemma cstr_set_name_over name old : c_string name -> (length name < MAX_FILENAME)%nat -> length old = 28%nat ->
  cstr (set_name name old) = stored_name name old.
Proof.
  intros Hc Hl Ho. unfold MAX_FILENAME in Hl.
  assert (E : set_name name old = name ++ drop (length name) (take (MAX_FILENAME - 1) old) ++ [0]).
  { unfold set_name, MAX_FILENAME. cbn [Nat.sub]. rewrite take_ge by lia. unfold splice. rewrite take_0, app_nil_l.
    cbn [Nat.add]. rewrite insert_app_r_alt by lia.
    f_equal. rewrite <- (take_drop 27 old) at 1. rewrite drop_app_le by (rewrite length_take; lia).
    rewrite insert_app_r_alt by (rewrite length_drop, length_take; lia). f_equal.
    replace (27 - length name - length (drop (length name) (take 27 old)))%nat with 0%nat
      by (rewrite length_drop, length_take; lia).
    assert (L : length (drop 27 old) = 1%nat) by (rewrite length_drop; lia).
    destruct (drop 27 old) as [|x [|y l]]; try discriminate L. reflexivity. }
  rewrite E, cstr_app_clean by exact Hc. unfold stored_name. f_equal. apply cstr_stop.
Qed.

Definition blank_entry : dentry := mk_dentry 0 (replicate 28 0).

Lemma lookup_in_blank n x : lookup_in (replicate n blank_entry) x = None.
Proof. induction n as [|n IH]; [reflexivity|]. exact IH. Qed.

Lemma in_use_blank n : in_use_count (replicate n blank_entry) = 0%nat.
Proof. induction n as [|n IH]; [reflexivity|]. cbn [replicate]. rewrite in_use_count_cons. exact IH. Qed.

(** A fresh block that holds one entry. *)
Lemma fresh_entries B b e : B b = splice 0 (dentry_bytes e) zero_block -> is_u32 (d_ino e) -> length (d_name e) = 28%nat ->
  block_entries B b = e :: replicate 127 blank_entry.
Proof.
  intros E He Hn. set (B0 := put_blk b zero_block B).
  assert (E0 : B0 b = zero_block) by apply put_same.
  rewrite (block_entries_splice B0 B b 0 e); [|rewrite E0; exact E|rewrite E0; reflexivity|unfold DENTRIES_PER_BLOCK; lia|exact He|exact Hn].
  rewrite E0. cbn [seq fmap list_fmap app]. f_equal.
Qed.

(** The entry goes to a new block, over the bytes of the last entry read. *)
Lemma does_enter_full B p n name es old nb : fs_ok B -> valid_ino p -> used_inode B p = true -> dir_ok B (inode_at B p) ->
  c_string name -> (length name < MAX_FILENAME)%nat -> 0 < n < MAX_INODES ->
  let i := inode_at B p in
  entries B i = es ++ [old] -> full_dir B i -> block_count i < 12 ->
  0 <= nb < DISK_BLOCKS -> used_block B nb = false ->
  exists i2 B2, does (add_to_blocks (blocks i) 0 (block_count i) None None n name) B (false, Some old) B /\
    does (add_block i (Some old) n name) B (Some i2) B2 /\
    entered B i n (stored_name name (d_name old)) B2 i2.
Proof.
  intros O Hp Hu [Ht [F Hs] He Hsz] Hc Hl Hn i Ees Hfull H12 Hnb Hfree. fold i in Ht, F, Hs, He, Hsz.
  pose proof (ok_map _ O) as HB. pose proof (count_range _ _ F) as Hcr.
  assert (Hval : Forall valid_block (file_blocks i)).
  { eapply Forall_impl; [apply (fo_data _ _ F)|]. intros b [Hb _]. unfold valid_block, DATA_BLOCK_START in *. lia. }
  assert (Hlo : length (d_name old) = 28%nat).
  { assert (X : old ∈ entries B i) by (rewrite Ees; apply elem_of_app; right; apply list_elem_of_here).
    unfold entries in X. apply list_elem_of_In, in_concat in X as (l & Hl1 & Hl2).
    apply list_elem_of_In, list_elem_of_fmap in Hl1 as (b & -> & Hb). apply list_elem_of_In, elem_block_entries in Hl2 as (k & Hk & ->).
    apply length_entry_name; [|exact Hk]. apply HB. rewrite Forall_forall in Hval. apply Hval, Hb. }
  set (e := new_entry n name old).
  assert (Hen : length (d_name e) = 28%nat) by (apply length_set_name, Hlo).
  assert (Hei : is_u32 (d_ino e)) by (unfold is_u32; change MAX_INODES with 134 in Hn; cbn; lia).
  assert (Hec : cstr (d_name e) = stored_name name (d_name old)) by (apply cstr_set_name_over; assumption).
  destruct (does_alloc_block B HB (fo_reserved _ _ F)) as [(m & Hm & Hmu & _ & Halloc)|[Hall _]];
    [|rewrite Hall in Hfree by lia; discriminate].
  set (B1 := put_blk BLOCK_BITMAP_BLOCK (bitmap_set (B BLOCK_BITMAP_BLOCK) m) B) in *.
  set (i2 := set_blk i (block_count i) m).
  destruct (grown_block B i m HB F H12 Hm Hmu) as [G1 _]. fold B1 i2 in G1.
  assert (Fb : file_blocks i2 = file_blocks i ++ [m]) by (apply file_blocks_set; [apply (fo_inode _ _ F)|lia]).
  assert (Vm : valid_block m) by (unfold valid_block, DATA_BLOCK_START in *; lia).
  set (new := splice 0 (dentry_bytes e) zero_block).
  assert (Hnew : length new = 4096%nat).
  { unfold new. rewrite length_splice; [reflexivity|]. rewrite length_dentry_bytes by exact Hen. unfold sizeof_dentry, zero_block. rewrite length_replicate. lia. }
  set (B2 := put_blk m new B1).
  destruct (grown_write B1 i2 (length (file_blocks i)) m 0 new (g_map _ _ _ _ G1) (g_file _ _ _ _ G1)) as [G2 _];
    [rewrite Fb; apply list_lookup_middle; reflexivity|lia|].
  assert (Eb : splice 0 new (B1 m) = new).
  { unfold splice. rewrite take_0, app_nil_l. cbn [Nat.add]. rewrite drop_ge; [apply app_nil_r|].
    rewrite (g_map _ _ _ _ G1 m Vm), Hnew. lia. }
  rewrite Eb in G2. fold B2 in G2. pose proof (grown_trans _ _ _ _ _ _ G1 G2) as [GM GF (G3 & _ & _) GB GR GU].
  assert (Hold : forall b, b ∈ file_blocks i -> B2 b = B b).
  { intros b Hb. pose proof (data_not_meta _ _ _ F Hb) as [Hb1 Hb2].
    unfold B2. rewrite put_other by (intros ->; congruence). apply put_other. unfold BLOCK_BITMAP_BLOCK. lia. }
  assert (EL : entries B2 i2 = entries B i ++ e :: replicate 127 blank_entry).
  { unfold entries. rewrite Fb, fmap_app, concat_app. f_equal; [apply (entries_ext B B2 i Hold)|].
    cbn [fmap list_fmap concat]. rewrite app_nil_r. apply fresh_entries; [apply put_same|exact Hei|exact Hen]. }
  exists i2, B2. split; [|split; [|split]].
  - pose proof (does_add_full B (block_count i) n name (blocks i) 0 None None) as H. rewrite Z.sub_0_r in H.
    fold (file_blocks i) in H. change (concat (block_entries B <$> file_blocks i)) with (entries B i) in H.
    rewrite Ees, last_snoc in H. apply H; [|exact Hval|rewrite <- Ees; exact Hfull].
    rewrite (proj1 (proj2 (proj2 (proj2 (proj2 (fo_inode _ _ F)))))). lia.
  - unfold add_block. destruct (Z.leb_spec SFS_DIRECT_BLOCKS (block_count i)) as [X|_]; [unfold SFS_DIRECT_BLOCKS in X; lia|].
    eapply does_bind; [exact Halloc|]. destruct (Z.ltb_spec m 0) as [X|_]; [unfold DATA_BLOCK_START in Hm; lia|].
    does_step. cbv zeta. does_step; [exact Vm|exact Hnew|]. apply does_ret.
  - split; auto.
    split; [apply file_ok_size; [exact GF|unfold is_u32; lia]|].
    pose proof (in_use_count_le (entries B i)) as Hle. rewrite (length_entries B i F) in Hle.
    unfold sizeof_dentry, DENTRIES_PER_BLOCK in *. change (size i + 32 <= (block_count i + 1) * 4096). lia.
  - split; reflexivity.
  - intros x. rewrite EL, lookup_in_app. destruct (lookup_in (entries B i) x); [reflexivity|]. cbn [lookup_in].
    rewrite lookup_in_blank, Hec. cbn [d_ino e new_entry]. destruct (Z.eqb_spec n 0) as [X|_]; [lia|].
    rewrite i32_small by (change MAX_INODES with 134 in Hn; lia).
    repeat case_bool_decide; congruence.
  - rewrite EL. apply Forall_app. split; [exact He|]. constructor; [|apply Forall_replicate; reflexivity].
    unfold dentry_ok. destruct (Z.eqb_spec (d_ino e) 0) as [X|_]; [cbn in X; lia|]. split; [apply set_name_terminated, Hlo|exact Hn].
  - rewrite EL, in_use_count_app, in_use_count_cons, in_use_blank. cbn [d_ino e new_entry].
    rewrite decide_True by lia. lia.
Qed.

Lemma does_create_full B p name es old nb : fs_ok B -> valid_ino p -> used_inode B p = true -> dir_ok B (inode_at B p) ->
  c_string name -> (length name < MAX_FILENAME)%nat ->
  lookup_in (entries B (inode_at B p)) name = None ->
  (exists m, valid_ino m /\ used_inode B m = false) ->
  entries B (inode_at B p) = es ++ [old] -> full_dir B (inode_at B p) -> block_count (inode_at B p) < 12 ->
  0 <= nb < DISK_BLOCKS -> used_block B nb = false ->
  exists n B', does (sfs_create p name SFS_FILE) B n B' /\ created B p (stored_name name (d_name old)) n B'.
Proof.
  intros O Hp Hu Hdir Hc Hl Hnone Hino Ees Hfull H12 Hnb Hfree.
  apply does_create_via; try assumption. intros n B1 Vn O1 U1 Ei Hdir1 R1 i.
  assert (Ee : entries B1 i = entries B i).
  { apply entries_ext. intros b Hb. apply (data_not_meta _ _ _ (proj1 (do_sized _ _ Hdir))) in Hb. apply R1; lia. }
  destruct (does_enter_full B1 p n name es old nb O1 Hp U1 Hdir1 Hc Hl Vn) as (i2 & B2 & H1 & H2 & H3);
    rewrite ?Ei; fold i; rewrite ?Ee; try assumption.
  - unfold full_dir. rewrite Ee. exact Hfull.
  - unfold used_block. rewrite R1 by (unfold BLOCK_BITMAP_BLOCK; lia). exact Hfree.
  - rewrite Ei in *. exists false, (Some old), B1, i2, B2. auto.
Qed.

(** *** A file that is not created *)

(** The disk after a failed creation: nothing that is in use has changed. *)
Record unchanged (B : blockmap) (p : Z) (B' : blockmap) : Prop := {
  un_ok : fs_ok B';
  un_used : forall m, 0 <= m -> used_inode B' m = used_inode B m;
  un_blocks : forall b, used_block B' b = used_block B b;
  un_files : forall m, valid_ino m -> used_inode B m = true ->
    inode_at B' m = inode_at B m /\ file_of B' m = file_of B m;
  un_dir : dir_ok B' (inode_at B' p) /\ entries B' (inode_at B' p) = entries B (inode_at B p)
}.

Lemma unchanged_refl B p : fs_ok B -> dir_ok B (inode_at B p) -> unchanged B p B.
Proof. intros O Hd. split; auto. Qed.

(** Disks that agree on what is in use. *)
Lemma unchanged_intro B p B' : fs_ok B -> map_ok B' -> valid_ino p -> used_inode B p = true ->
  dir_ok B (inode_at B p) ->
  (forall m, 0 <= m -> used_inode B' m = used_inode B m) ->
  (forall m, valid_ino m -> used_inode B m = true -> inode_at B' m = inode_at B m) ->
  (forall b, b <> 1 -> ~ (3 <= b <= 4) -> B' b = B b) -> unchanged B p B'.
Proof.
  intros O HM Hp Hup Hd HU HI HR. pose proof O as [OM OZ OR OF OD].
  assert (HB : forall b, used_block B' b = used_block B b)
    by (intros b; unfold used_block; rewrite HR by (unfold BLOCK_BITMAP_BLOCK; lia); reflexivity).
  assert (Hsame : forall m b, valid_ino m -> used_inode B m = true -> b ∈ file_blocks (inode_at B m) -> B' b = B b).
  { intros m b Vm Um Hb. apply (data_not_meta _ _ _ (proj1 (proj2 (OF m Vm Um)))) in Hb. apply HR; lia. }
  assert (He : entries B' (inode_at B' p) = entries B (inode_at B p)).
  { rewrite HI by assumption. apply entries_ext. intros b. apply (Hsame p b Hp Hup). }
  assert (O' : fs_ok B').
  { split.
    - exact HM.
    - rewrite HU by lia. exact OZ.
    - intros b Hb. rewrite HB. apply OR, Hb.
    - intros m Hm Hum. rewrite HU in Hum by (destruct Hm; lia). rewrite HI by assumption.
      destruct (OF m Hm Hum) as [E S]. split; [exact E|]. apply (sized_ext B); [exact S|]. intros b _. rewrite HB. auto.
    - intros m1 m2 b V1 V2. rewrite !HU by (destruct V1, V2; lia). intros U1 U2. rewrite !HI by assumption.
      apply OD; assumption. }
  split; auto.
  - intros m Vm Um. split; [apply HI; assumption|]. unfold file_of, file_bytes. rewrite HI by assumption.
    f_equal. apply content_ext. intros b. apply (Hsame m b Vm Um).
  - split; [|exact He]. destruct Hd as [D1 D2 D3 D4]. split; [rewrite HI by assumption; exact D1| |rewrite He; exact D3|].
    + apply (ok_file _ O' p Hp). rewrite HU by (destruct Hp; lia). exact Hup.
    + rewrite He, HI by assumption. exact D4.
Qed.

Lemma does_free_inode n B : valid_ino n -> map_ok B ->
  does (sfs_free_inode n) B tt (put_blk INODE_BITMAP_BLOCK (bitmap_clear (B INODE_BITMAP_BLOCK) n) B).
Proof.
  intros Hn HB. assert (Hv : valid_block INODE_BITMAP_BLOCK) by (unfold valid_block, DISK_BLOCKS, INODE_BITMAP_BLOCK; lia).
  unfold sfs_free_inode. does_step. rewrite valid_ino_test by exact Hn. does_step; [exact Hv|].
  does_step; [exact Hv|]. unfold bitmap_clear. rewrite length_alter. apply HB, Hv.
Qed.

(** The directory is full and cannot grow: the inode taken is given back. *)
Lemma does_create_none B p name : fs_ok B -> valid_ino p -> used_inode B p = true -> dir_ok B (inode_at B p) ->
  c_string name -> lookup_in (entries B (inode_at B p)) name = None ->
  full_dir B (inode_at B p) -> block_count (inode_at B p) = 12 \/ disk_full B ->
  exists B', does (sfs_create p name SFS_FILE) B (-1) B' /\ unchanged B p B'.
Proof.
  intros O Hp Hu Hdir Hc Hnone Hfull Hroom. set (i := inode_at B p) in *. pose proof Hdir as [Ht [F Hs] He Hsz].
  assert (Hread : forall (k : option sfs_inode -> fsop D Z) y B', does (k (Some i)) B y B' ->
     does (r ← sfs_read_inode p; k r) B y B') by (intros; eapply does_bind; [apply does_read_inode, Hp|assumption]).
  assert (Hsearch : does (sfs_lookup p name) B (-1) B).
  { pose proof (does_lookup B p name Hp Hc Ht F He) as H. fold i in H. rewrite Hnone in H. exact H. }
  destruct (does_alloc_inode B O) as [(n & Vn & Un & Hlow & Halloc)|[Hall Halloc]].
  2:{ exists B. split; [|apply unchanged_refl; assumption]. unfold sfs_create. apply Hread. cbn beta iota.
      rewrite Ht. cbn [negb Z.eqb Pos.eqb SFS_DIR]. eapply does_bind; [exact Hsearch|]. cbn [Z.leb Z.compare].
      eapply does_bind; [exact Halloc|]. apply does_ret. }
  set (new := mk_inode n 0 SFS_FILE 0 (replicate 12 0)).
  assert (Hnew : inode_ok new).
  { destruct Vn as [V1 V2]. change MAX_INODES with 134 in V2. unfold inode_ok, is_u32, is_u8.
    cbn [ino size type block_count blocks new]. unfold SFS_FILE. split; [lia|]. split; [lia|]. split; [lia|]. split; [lia|].
    split; [reflexivity|]. apply Forall_replicate. lia. }
  destruct (take_inode_ok B new O Hnew Vn Un eq_refl eq_refl) as (O1 & U1 & A1 & R1).
  set (B1 := take_inode new B) in *. change (ino new) with n in *.
  set (B2 := put_blk INODE_BITMAP_BLOCK (bitmap_clear (B1 INODE_BITMAP_BLOCK) n) B1).
  pose proof (ok_map _ O1) as M1. assert (Hpn : p <> n) by (intros ->; congruence).
  assert (Ee : entries B1 i = entries B i).
  { apply entries_ext. intros b Hb. apply R1; apply (data_not_meta _ _ _ F) in Hb; lia. }
  assert (Hadd : exists d, does (add_to_blocks (blocks i) 0 (block_count i) None None n name) B1 (false, d) B1).
  { pose proof (does_add_full B1 (block_count i) n name (blocks i) 0 None None) as H. rewrite Z.sub_0_r in H.
    fold (file_blocks i) in H. change (concat (block_entries B1 <$> file_blocks i)) with (entries B1 i) in H.
    rewrite Ee in H. eexists. apply H; [|eapply Forall_impl; [apply (fo_data _ _ F)|]|exact Hfull].
    - rewrite (proj1 (proj2 (proj2 (proj2 (proj2 (fo_inode _ _ F)))))). pose proof (count_range _ _ F). lia.
    - intros b [Hb _]. unfold valid_block, DATA_BLOCK_START in *. lia. }
  destruct Hadd as [d Hadd].
  assert (Hblock : does (add_block i d n name) B1 None B2).
  { unfold add_block. destruct (Z.leb_spec SFS_DIRECT_BLOCKS (block_count i)) as [X|X].
    - eapply does_bind; [apply does_free_inode; assumption|apply does_ret].
    - destruct Hroom as [Hroom|Hroom]; [unfold SFS_DIRECT_BLOCKS in X; lia|].
      assert (Hub : forall b, used_block B1 b = used_block B b)
        by (intros b; unfold used_block; rewrite R1 by (unfold BLOCK_BITMAP_BLOCK; lia); reflexivity).
      destruct (does_alloc_block B1 M1 (ok_reserved _ O1)) as [(m & Hm & Hmu & _)|[_ Halb]].
      { rewrite Hub, Hroom in Hmu by (unfold DATA_BLOCK_START in Hm; lia). discriminate. }
      eapply does_bind; [exact Halb|]. cbn [Z.ltb Z.compare].
      eapply does_bind; [apply does_free_inode; assumption|apply does_ret]. }
  assert (V1 : valid_block INODE_BITMAP_BLOCK) by (unfold valid_block, DISK_BLOCKS, INODE_BITMAP_BLOCK; lia).
  exists B2. split.
  - unfold sfs_create. apply Hread. cbn beta iota.
    rewrite Ht. cbn [negb Z.eqb Pos.eqb SFS_DIR]. eapply does_bind; [exact Hsearch|]. cbn [Z.leb Z.compare].
    eapply does_bind; [exact Halloc|]. destruct (Z.ltb_spec n 0) as [X|_]; [destruct Vn; lia|].
    eapply does_bind; [apply does_ret|]. cbn iota.
    eapply does_bind; [apply (does_write_inode new); [exact Hnew|exact Vn]|].
    eapply does_bind; [exact Hadd|]. cbn beta iota.
    eapply does_bind; [exact Hblock|]. apply does_ret.
  - apply unchanged_intro; try assumption.
    + apply put_ok; [exact M1|]. unfold bitmap_clear. rewrite length_alter. apply M1, V1.
    + intros m Hm. unfold used_inode, B2. rewrite put_same.
      destruct Vn as [Vn1 Vn2]. change MAX_INODES with 134 in Vn2.
      rewrite bit_clear by (try lia; rewrite (M1 _ V1); mlia).
      fold (used_inode B1 m). change (bit (B1 INODE_BITMAP_BLOCK) m) with (used_inode B1 m). rewrite U1 by exact Hm.
      destruct (Z.eqb_spec n m) as [<-|_]; [cbn; symmetry; exact Un|reflexivity].
    + intros m Vm Um. unfold inode_at, B2. rewrite put_other.
      * change (inode_at B1 m = inode_at B m). rewrite A1 by exact Vm. apply decide_False. intros ->. congruence.
      * pose proof (inode_block_valid m Vm). unfold INODE_BITMAP_BLOCK. lia.
    + intros b H1 H2. unfold B2. rewrite put_other by exact H1. apply R1; assumption.
Qed.

Lemma lookup_in_range es name m : Forall dentry_ok es -> lookup_in es name = Some m -> valid_ino m.
Proof.
  induction 1 as [|e es He _ IH]; [discriminate|]. cbn [lookup_in]. unfold dentry_ok in He.
  destruct (d_ino e =? 0); [exact IH|]. case_bool_decide; [|exact IH]. intros E. injection E as <-.
  destruct He as [_ He]. rewrite i32_small by (change MAX_INODES with 134 in He; lia). exact He.
Qed.

(** The calls that return at once: the name exists, or no inode is free. *)
Lemma does_create_refused B p name : fs_ok B -> valid_ino p -> used_inode B p = true -> dir_ok B (inode_at B p) ->
  c_string name ->
  (exists m, lookup_in (entries B (inode_at B p)) name = Some m) \/ (forall m, valid_ino m -> used_inode B m = true) ->
  does (sfs_create p name SFS_FILE) B (-1) B.
Proof.
  intros O Hp Hu Hdir Hc Hwhy. pose proof Hdir as [Ht [F Hs] He Hsz].
  pose proof (does_lookup B p name Hp Hc Ht F He) as Hlk. cbv zeta in Hlk.
  unfold sfs_create. eapply does_bind; [apply does_read_inode, Hp|]. cbn beta iota.
  rewrite Ht. cbn [negb Z.eqb Pos.eqb SFS_DIR].
  destruct (lookup_in (entries B (inode_at B p)) name) as [m|] eqn:E;
    [change (default (-1) (Some m)) with m in Hlk|]; (eapply does_bind; [exact Hlk|]).
  - assert (Hm : 0 <= m) by (pose proof (lookup_in_range _ _ _ He E) as [X _]; lia).
    destruct (Z.leb_spec 0 m); [apply does_ret|lia].
  - destruct Hwhy as [[m Hm]|Hall]; [discriminate|]. cbn [Z.leb Z.compare].
    destruct (does_alloc_inode B O) as [(n & Vn & Un & _)|[_ Halloc]]; [rewrite Hall in Un by exact Vn; discriminate|].
    eapply does_bind; [exact Halloc|]. apply does_ret.
Qed.
End create.

(** ** Formatting *)

Definition root_inode : sfs_inode := mk_inode ROOT_INO 64 SFS_DIR 1 (<[0%nat := 5]> (replicate 12 0)).

(** The blocks [sfs_format] leaves, in the order it writes them. *)
Definition formatted (B : blockmap) : blockmap :=
  let B := put_blk 0 (splice 0 (super_bytes default_sb) zero_block) B in
  let B := put_blk 1 (bitmap_set zero_block 0) B in
  let B := put_blk 2 (foldl bitmap_set zero_block (seqZ 0 5)) B in
  let B := put_blk 3 zero_block B in
  let B := put_blk 4 zero_block B in
  let B := put_blk 2 (bitmap_set (B 2) 5) B in
  let B := put_blk 5 (dot_entries 1 1) B in
  let B := put_inode root_inode B in
  put_blk 1 (bitmap_set (B 1) 1) B.

Definition name_field (cs : list Z) : list Z := cs ++ replicate (MAX_FILENAME - length cs) 0.
Definition root_entries : list dentry :=
  mk_dentry 1 (name_field [46]) :: mk_dentry 1 (name_field [46; 46]) ::
  replicate 126 (mk_dentry 0 (replicate 28 0)).

Lemma root_inode_ok : inode_ok root_inode.
Proof. unfold inode_ok, is_u32, is_u8. cbn [root_inode ino size type block_count blocks].
  unfold ROOT_INO, SFS_DIR. split; [lia|]. split; [lia|]. split; [lia|]. split; [lia|].
  split; [reflexivity|]. apply Forall_insert; [apply Forall_replicate|]; lia.
Qed.

Lemma formatted_used B n : valid_ino n -> used_inode (formatted B) n = true -> n = 1.
Proof.
  intros [H1 H2] Hu. change MAX_INODES with 134 in H2.
  assert (T : forallb (fun m => implb (used_inode (formatted B) m) (m <=? 1)) (seqZ 1 133) = true) by (vm_compute; reflexivity).
  rewrite forallb_forall in T. specialize (T n). rewrite Hu in T. cbn in T.
  assert (X : (n <=? 1) = true) by (apply T, list_elem_of_In, elem_of_seqZ; lia). bool_prop. lia.
Qed.

Lemma formatted_root B : inode_at (formatted B) 1 = root_inode.
Proof. vm_compute. reflexivity. Qed.

Lemma formatted_entries B : entries (formatted B) root_inode = root_entries.
Proof. vm_compute. reflexivity. Qed.

Lemma formatted_ok B : map_ok B -> fs_ok (formatted B).
Proof.
  intros HB. assert (HR : reserved_ok (formatted B)).
  { intros n Hn. unfold DATA_BLOCK_START in Hn.
    assert (C : n = 0 \/ n = 1 \/ n = 2 \/ n = 3 \/ n = 4) by lia.
    destruct C as [->|[->|[->|[->|C]]]]; [..|subst n]; vm_compute; reflexivity. }
  split.
  - unfold formatted. apply put_ok; [|reflexivity]. apply put_inode_ok; [|apply root_inode_ok|split; reflexivity].
    repeat (apply put_ok; [|reflexivity]). exact HB.
  - vm_compute. reflexivity.
  - exact HR.
  - intros n Hn Hu. apply (formatted_used B n Hn) in Hu as ->. rewrite formatted_root. split; [reflexivity|].
    split; [|apply Z.leb_le; reflexivity]. split; [apply root_inode_ok|discriminate|..|exact HR].
    + apply NoDup_singleton.
    + constructor; [|constructor]. split; [split; [discriminate|reflexivity]|vm_compute; reflexivity].
  - intros n m b Hn Hm Un Um _ _. apply (formatted_used B n Hn) in Un. apply (formatted_used B m Hm) in Um. congruence.
Qed.

Lemma formatted_dir B : map_ok B -> dir_ok (formatted B) root_inode.
Proof.
  intros HB. split.
  - reflexivity.
  - rewrite <- (formatted_root B). apply (ok_file _ (formatted_ok B HB) 1); [split; reflexivity|vm_compute; reflexivity].
  - rewrite formatted_entries. constructor; [|constructor; [|apply Forall_replicate; reflexivity]];
      (split; [apply elem_of_app; right; apply (list_elem_of_lookup_2 _ 0); reflexivity|split; reflexivity]).
  - rewrite formatted_entries. vm_compute. reflexivity.
Qed.

Section format.
Context {D : Type} `{BD : BlockDevice D}.

Lemma format_effect (s : fs D) : dev_ok (dev s) ->
  exists s', sfs_format s = Ret (tt, s') /\ holds s' (formatted (blk (dev s))) /\
    file_table s' = file_table s /\ mounted s' = mounted s.
Proof.
  intros Hd. set (B := blk (dev s)).
  set (s0 := mk_fs (dev s) default_sb (mounted s) (file_table s)).
  assert (H0 : holds s0 B) by (split; auto).
  assert (V : forall n, 0 <= n <= 5 -> valid_block n) by (intros n Hn; unfold valid_block, DISK_BLOCKS; lia).
  assert (Hrest : forall m, does m B tt (formatted B) -> exists s', m s0 = Ret (tt, s') /\ holds s' (formatted B) /\
            file_table s' = file_table s /\ mounted s' = mounted s) by (intros m Hm; exact (Hm s0 H0)).
  unfold sfs_format. unfold mbind at 1, fsop_bind at 1. cbn [set_sb]. apply Hrest.
  does_step; [apply V; lia|reflexivity|]. does_step; [apply V; unfold INODE_BITMAP_BLOCK; lia|reflexivity|].
  does_step; [apply V; unfold BLOCK_BITMAP_BLOCK; lia|reflexivity|].
  does_step; [apply V; unfold INODE_TABLE_START; lia|reflexivity|].
  does_step; [apply V; unfold INODE_TABLE_START; lia|reflexivity|].
  eapply (does_bind _ _ _ 5).
  { unfold sfs_alloc_block. does_step. does_step; [apply V; change (0 <= 2 <= 5); lia|]. does_step; [vm_compute; reflexivity|].
    change ((5 <? 0) || (5 <? i32 (data_block_start default_sb))) with false. cbn iota.
    does_step; [apply V; change (0 <= 2 <= 5); lia|reflexivity|apply does_ret]. }
  change (u32 5) with 5. does_step; [apply V; lia|reflexivity|].
  eapply does_bind; [apply (does_write_inode root_inode); [apply root_inode_ok|split; reflexivity]|].
  does_step; [apply V; unfold INODE_BITMAP_BLOCK; lia|]. apply does_write; [apply V; unfold INODE_BITMAP_BLOCK; lia|].
  reflexivity.
Qed.

Lemma mount_effect (s : fs D) B : dev_ok (dev s) -> (forall n, valid_block n -> blk (dev s) n = B n) ->
  exists s', sfs_mount s = Ret (if magic (super_of (slice 0 sizeof_super (B 0))) =? SFS_MAGIC then 0 else -1, s') /\
    dev_ok (dev s') /\ (forall n, valid_block n -> blk (dev s') n = B n) /\
    sb s' = super_of (slice 0 sizeof_super (B 0)) /\
    if magic (super_of (slice 0 sizeof_super (B 0))) =? SFS_MAGIC
    then mounted s' = 1 /\ file_table s' = (fun f => mk_file (f_ino f) (f_offset f) (f_mode f) 0) <$> file_table s
    else mounted s' = mounted s /\ file_table s' = file_table s.
Proof.
  intros Hd Hb. assert (V0 : valid_block 0) by (unfold valid_block, DISK_BLOCKS; lia).
  destruct (block_read_ok (dev s) 0 None Hd V0) as (d & E & Hd' & Hb').
  unfold sfs_mount, read_block, mbind, fsop_bind, read_into. rewrite E. cbn [use mret fsop_ret].
  unfold mret, fsop_ret. rewrite Hb by exact V0.
  destruct (magic _ =? SFS_MAGIC); cbn [negb]; eexists; (split; [reflexivity|]); cbn [dev sb mounted file_table];
    (split; [exact Hd'|]); (split; [intros n Hn; rewrite Hb'; apply Hb, Hn|]); auto.
Qed.
End format.

(** ** Opening *)

Lemma find_fd_spec files : forall i,
  match find_fd files i with
  | r => (r = -1 /\ Forall (fun f => f_in_use f <> 0) files) \/
         (exists k, r = i + Z.of_nat k /\ (k < length files)%nat /\
            (exists f, files !! k = Some f /\ f_in_use f = 0) /\
            Forall (fun f => f_in_use f <> 0) (take k files))
  end.
Proof.
  induction files as [|f files IH]; intros i; cbn [find_fd]; [left; auto|].
  unfold c_true. destruct (Z.eqb_spec (f_in_use f) 0) as [E|E]; cbn [negb].
  - right. exists 0%nat. split; [lia|]. split; [cbn; lia|]. split; [exists f; auto|constructor].
  - destruct (IH (i + 1)) as [[-> H]|(k & -> & Hk & Hf & H)]; [left; auto|right].
    exists (S k). split; [lia|]. split; [cbn; lia|]. split; [exact Hf|]. constructor; assumption.
Qed.

Lemma skip_slashes_spec k name : hd 0 name <> 47 -> skip_slashes (replicate k 47 ++ name) = name.
Proof.
  intros H. induction k as [|k IH]; [|exact IH]. destruct name as [|c name]; [reflexivity|].
  cbn in *. destruct (Z.eqb_spec c 47); [contradiction|reflexivity].
Qed.

Section opening.
Context {D : Type} `{BD : BlockDevice D}.

Lemma open_effect (s : fs D) B k name n fd f : holds s B -> fs_ok B -> mounted s <> 0 ->
  dir_ok B (inode_at B ROOT_INO) -> c_string name -> name <> [] -> hd 0 name <> 47 ->
  lookup_in (entries B (inode_at B ROOT_INO)) name = Some n -> valid_ino n -> used_inode B n = true ->
  length (file_table s) = Z.to_nat MAX_FILES -> (fd < Z.to_nat MAX_FILES)%nat ->
  file_table s !! fd = Some f -> f_in_use f = 0 -> Forall (fun f => f_in_use f <> 0) (take fd (file_table s)) ->
  exists s', sys_open (Some (replicate k 47 ++ name)) s = Ret (Z.of_nat fd, s') /\
    opened s' B (Z.of_nat fd) (mk_file n 0 2 1) /\ mounted s' = mounted s /\
    file_table s' = <[fd := mk_file n 0 2 1]> (file_table s).
Proof.
  intros H O Hm [Ht [F _] He _] Hc Hne Hsl Hlk Vn Un Hlen Hfd Hf Hf0 Hfull.
  destruct (does_lookup B ROOT_INO name ltac:(split; reflexivity) Hc Ht F He s H) as (s1 & E1 & H1 & T1 & M1).
  rewrite Hlk in E1. cbn [default from_option] in E1.
  assert (Efd : find_fd (file_table s1) 0 = Z.of_nat fd).
  { rewrite T1. destruct (find_fd_spec (file_table s) 0) as [[_ A]|(j & -> & Hj & (g & Hg & Hg0) & A)].
    - rewrite Forall_lookup in A. destruct (A fd f Hf Hf0).
    - rewrite Forall_lookup in A, Hfull. destruct (Nat.lt_total j fd) as [X|[X|X]]; [|lia|].
      + exfalso. apply (Hfull j g); [rewrite lookup_take_lt by exact X; exact Hg|exact Hg0].
      + exfalso. apply (A fd f); [rewrite lookup_take_lt by exact X; exact Hf|exact Hf0]. }
  eexists. split.
  { unfold sys_open, mbind, fsop_bind. unfold get at 1. unfold c_true. destruct (Z.eqb_spec (mounted s) 0); [contradiction|].
    cbn [negb]. unfold path_parse. rewrite skip_slashes_spec by exact Hsl.
    destruct name as [|c name]; [contradiction|]. cbn iota. rewrite E1.
    change (id n) with n.
    destruct (Z.ltb_spec n 0) as [X|_]; [destruct Vn; lia|]. unfold get. cbn beta iota. rewrite Efd.
    destruct (Z.ltb_spec (Z.of_nat fd) 0) as [X|_]; [lia|]. unfold set_files. rewrite Nat2Z.id. reflexivity. }
  split; [|split; [exact M1|cbn; rewrite T1; reflexivity]].
  split; cbn [f_ino f_offset f_in_use file_table]; try (split; assumption); try assumption.
  - destruct H1. split; assumption.
  - unfold MAX_FILES in *. lia.
  - rewrite Nat2Z.id, T1. apply list_lookup_insert_eq. lia.
  - discriminate.
  - destruct (fo_inode _ _ (proj1 (proj2 (ok_file _ O n Vn Un)))) as (_ & X & _). unfold is_u32 in X. lia.
Qed.
End opening.

(** ** Properties *)

(** after formatting any working disk, mounting succeeds, the file
    system is well formed, its only file is the root directory, where "." and
    ".." name the root and nothing else is found, and no descriptor is open. *)
Theorem format_mount {D} `{BD : BlockDevice D} (s : fs D) :
  dev_ok (dev s) ->
  exists s1 s2 B, sfs_format s = Ret (tt, s1) /\ sfs_mount s1 = Ret (0, s2) /\ mounted s2 = 1 /\
    holds s2 B /\ fs_ok B /\ dir_ok B (inode_at B ROOT_INO) /\
    (forall n, valid_ino n -> used_inode B n = true -> n = ROOT_INO) /\
    (forall x, c_string x -> does (sfs_lookup ROOT_INO x) B (if bool_decide (x = [46] \/ x = [46; 46]) then 1 else -1) B) /\
    Forall (fun f => f_in_use f = 0) (file_table s2).
Proof.
  intros Hd. destruct (format_effect s Hd) as (s1 & E1 & H1 & T1 & M1).
  assert (HB : map_ok (blk (dev s))) by (intros n Hn; apply blk_length, Hd).
  set (B := formatted (blk (dev s))) in *. destruct H1 as [D1 S1 B1].
  destruct (mount_effect s1 B D1 B1) as (s2 & E2 & D2 & B2 & S2 & T2).
  assert (Esb : super_of (slice 0 sizeof_super (B 0)) = default_sb) by (vm_compute; reflexivity).
  rewrite Esb in *. cbn [magic default_sb Z.eqb] in E2, T2. rewrite Z.eqb_refl in E2, T2. destruct T2 as [M2 T2].
  exists s1, s2, B. split; [exact E1|]. split; [exact E2|]. split; [exact M2|]. split; [split; assumption|].
  pose proof (formatted_dir _ HB) as Hdir. fold B in Hdir.
  split; [apply formatted_ok, HB|]. unfold ROOT_INO. rewrite (formatted_root (blk (dev s)) : inode_at B 1 = root_inode).
  split; [exact Hdir|]. split; [intros n; apply formatted_used|]. split.
  - intros x Hx. pose proof (does_lookup B 1 x ltac:(split; reflexivity) Hx) as H. cbv zeta in H.
    rewrite (formatted_root (blk (dev s)) : inode_at B 1 = root_inode) in H.
    specialize (H eq_refl (proj1 (do_sized _ _ Hdir)) (do_entries _ _ Hdir)).
    rewrite (formatted_entries (blk (dev s)) : entries B root_inode = root_entries) in H.
    replace (if bool_decide (x = [46] \/ x = [46; 46]) then 1 else -1) with (default (-1) (lookup_in root_entries x)); [exact H|].
    unfold root_entries. cbn [lookup_in d_ino d_name Z.eqb].
    change (cstr (name_field [46])) with [46]. change (cstr (name_field [46; 46])) with [46; 46].
    repeat case_bool_decide; subst; try reflexivity; intuition congruence.
  - rewrite T2. apply Forall_fmap, Forall_true. reflexivity.
Qed.

(** What [sfs_create] does when it succeeds and when it fails, on a disk that
    holds [B]; after a success every lookup finds what it found before, and
    [stored], unless an older entry has that name, is the new file. *)
Definition creates {D} `{BD : BlockDevice D} (s : fs D) (B : blockmap) (p : Z) (name stored : list Z) : Prop :=
  exists n B' s', sfs_create p name SFS_FILE s = Ret (n, s') /\ holds s' B' /\ created B p stored n B' /\
    forall x, c_string x -> exists s'', sfs_lookup p x s' =
      Ret (match lookup_in (entries B (inode_at B p)) x with
           | Some m => m
           | None => if bool_decide (x = stored) then n else -1
           end, s'').

Definition refuses {D} `{BD : BlockDevice D} (s : fs D) (B : blockmap) (p : Z) (name : list Z) : Prop :=
  exists B' s', sfs_create p name SFS_FILE s = Ret (-1, s') /\ holds s' B' /\ unchanged B p B'.

Lemma creates_intro {D} `{BD : BlockDevice D} (s : fs D) B p name stored n B' :
  holds s B -> valid_ino p -> does (sfs_create p name SFS_FILE) B n B' -> created B p stored n B' ->
  creates s B p name stored.
Proof.
  intros H Hp E C. destruct (E s H) as (s' & E' & H' & _). exists n, B', s'. split; [exact E'|]. split; [exact H'|].
  split; [exact C|]. intros x Hx. destruct (cr_dir _ _ _ _ _ C) as [T [F _] Ee _].
  destruct (does_lookup B' p x Hp Hx T F Ee s' H') as (s2 & L & _). exists s2. rewrite L.
  rewrite (cr_lookup _ _ _ _ _ C). destruct (lookup_in (entries B (inode_at B p)) x); [reflexivity|].
  case_bool_decide; reflexivity.
Qed.

Lemma refuses_intro {D} `{BD : BlockDevice D} (s : fs D) B p name B' :
  holds s B -> does (sfs_create p name SFS_FILE) B (-1) B' -> unchanged B p B' -> refuses s B p name.
Proof. intros H E U. destruct (E s H) as (s' & E' & H' & _). exists B', s'. auto. Qed.

(** C15: on a well-formed disk, [sfs_create] refuses, changing nothing that is in
    use, a name that is already there, any name when no inode is free, and any name
    when every entry of the directory is in use and it has twelve blocks or no
    block is free.  Otherwise it takes the lowest free inode for an empty file and
    makes one entry: under the given name when the directory has a free entry; in
    a new block when all are in use, and then under the name followed by what the
    last entry's name has beyond its length.  Every other lookup and every other
    file is as before.  (A directory without blocks, which neither
    [sfs_format] nor [sfs_create] makes, has no last entry and is left out.) *)
Theorem create_then_lookup {D} `{BD : BlockDevice D} (s : fs D) B p name :
  holds s B -> fs_ok B -> valid_ino p -> used_inode B p = true -> dir_ok B (inode_at B p) ->
  c_string name -> (length name < MAX_FILENAME)%nat ->
  let i := inode_at B p in
  let full := Forall (fun e => d_ino e <> 0) (entries B i) in
  ((exists m, lookup_in (entries B i) name = Some m) -> refuses s B p name) /\
  ((forall m, valid_ino m -> used_inode B m = true) -> refuses s B p name) /\
  (lookup_in (entries B i) name = None -> full -> block_count i = 12 \/ disk_full B -> refuses s B p name) /\
  (lookup_in (entries B i) name = None -> (exists m, valid_ino m /\ used_inode B m = false) ->
     ((exists e, e ∈ entries B i /\ d_ino e = 0) -> creates s B p name name) /\
     (forall es old, entries B i = es ++ [old] -> full -> block_count i < 12 ->
        (exists b, 0 <= b < DISK_BLOCKS /\ used_block B b = false) ->
        creates s B p name (name ++ cstr (drop (length name) (take 27 (d_name old)))))).
Proof.
  intros H O Hp Hu Hdir Hc Hl i full.
  assert (Hno : forall m, lookup_in (entries B i) name = Some m \/ (forall k, valid_ino k -> used_inode B k = true) ->
    refuses s B p name).
  { intros m Hm. apply (refuses_intro s B p name B H); [|apply unchanged_refl; assumption].
    apply does_create_refused; try assumption. destruct Hm; eauto. }
  split; [intros [m Hm]; apply (Hno m); auto|]. split; [intros Hall; apply (Hno 0); auto|]. split.
  - intros Hn Hf Hr. destruct (does_create_none B p name O Hp Hu Hdir Hc Hn Hf Hr) as (B' & E & U).
    exact (refuses_intro s B p name B' H E U).
  - intros Hn Hino. split.
    + intros Hfree. destruct (does_create B p name O Hp Hu Hdir Hc Hl Hn Hfree Hino) as (n & B' & E & C).
      exact (creates_intro s B p name name n B' H Hp E C).
    + intros es old Ees Hf H12 (b & Hb & Hub).
      destruct (does_create_full B p name es old b O Hp Hu Hdir Hc Hl Hn Hino Ees Hf H12 Hb Hub) as (n & B' & E & C).
      exact (creates_intro s B p name _ n B' H Hp E C).
Qed.

(** opening an existing name of the root directory, with any number of
    leading slashes, gives the lowest free descriptor, at offset 0. *)
Theorem sys_open_file {D} `{BD : BlockDevice D} (s : fs D) B k name n fd f :
  holds s B -> fs_ok B -> mounted s <> 0 -> dir_ok B (inode_at B ROOT_INO) ->
  c_string name -> name <> [] -> hd 0 name <> 47 ->
  lookup_in (entries B (inode_at B ROOT_INO)) name = Some n -> valid_ino n -> used_inode B n = true ->
  length (file_table s) = Z.to_nat MAX_FILES -> (fd < Z.to_nat MAX_FILES)%nat ->
  file_table s !! fd = Some f -> f_in_use f = 0 -> Forall (fun f => f_in_use f <> 0) (take fd (file_table s)) ->
  exists s', sys_open (Some (replicate k 47 ++ name)) s = Ret (Z.of_nat fd, s') /\
    opened s' B (Z.of_nat fd) (mk_file n 0 2 1) /\
    file_table s' = <[fd := mk_file n 0 2 1]> (file_table s).
Proof.
  intros. destruct (open_effect s B k name n fd f) as (s' & E & O & _ & T); try assumption. eauto.
Qed.

(** C22: [sfs_read_file] clamps the count with [offset + size], which
    wraps: a large count (a negative one of [sys_read]) returns all the bytes of
    the file's blocks, past the recorded size. *)
Theorem sfs_read_past_end {D} `{BD : BlockDevice D} B i cnt offset :
  map_ok B -> file_ok B i -> is_u32 cnt -> 0 <= offset < size i -> size i < block_count i * 4096 ->
  4294967296 <= offset + cnt ->
  does (sfs_read_file i cnt offset) B (drop (Z.to_nat offset) (content B i)) B /\
  (length (drop (Z.to_nat offset) (file_bytes B i)) < length (drop (Z.to_nat offset) (content B i)))%nat.
Proof.
  intros HB F Hcnt Hoff Hs Hwrap. pose proof (count_range _ _ F) as Hc. pose proof (length_content B i HB F) as HL.
  pose proof (does_read_file B i cnt offset HB F ltac:(lia) Hcnt Hoff) as H. unfold is_u32 in Hcnt.
  assert (E : u32 (offset + cnt) = offset + cnt - 4294967296) by (unfold u32; mlia). rewrite E in H.
  destruct (Z.ltb_spec (size i) (offset + cnt - 4294967296)) as [X|_]; [lia|].
  unfold slice in H. rewrite take_ge in H by (rewrite length_drop, HL; lia).
  split; [exact H|]. unfold file_bytes. rewrite !length_drop, length_take, HL. lia.
Qed.

(** ** The properties on a concrete disk *)

Definition demo_disk : fs image :=
  mk_fs blank_image (mk_super_block 0 0 0 0 0 0 0) 0 (replicate 16 (mk_file 0 0 0 0)).

(** Format, mount, create "hi" and open "/hi". *)
Definition demo_session : fsop image Z :=
  _ ← sfs_format; _ ← sfs_mount; _ ← sfs_create ROOT_INO [104; 105] SFS_FILE; sys_open (Some [47; 104; 105]).

Definition demo_open : fs image := match demo_session demo_disk with Ret (_, s) => s | _ => demo_disk end.

Definition demo_blocks : blockmap := formatted (blk (dev demo_disk)).

Lemma demo_blocks_ok : map_ok demo_blocks /\ fs_ok demo_blocks /\ dir_ok demo_blocks (inode_at demo_blocks ROOT_INO).
Proof.
  assert (HB : map_ok (blk (dev demo_disk))) by (intros n Hn; apply blk_length; exact I).
  pose proof (formatted_ok _ HB) as O. split; [apply (ok_map _ O)|]. split; [exact O|].
  unfold demo_blocks, ROOT_INO. rewrite formatted_root. apply formatted_dir, HB.
Qed.

Lemma demo_created : exists n B', does (D := image) (sfs_create ROOT_INO [104; 105] SFS_FILE) demo_blocks n B' /\
  created demo_blocks ROOT_INO [104; 105] n B' /\ n = 2.
Proof.
  destruct demo_blocks_ok as (M & O & Dir).
  destruct (does_create (D := image) demo_blocks ROOT_INO [104; 105] O) as (n & B' & H & C).
  - split; reflexivity.
  - vm_compute. reflexivity.
  - exact Dir.
  - repeat constructor; discriminate.
  - unfold MAX_FILENAME. cbn. lia.
  - vm_compute. reflexivity.
  - exists (mk_dentry 0 (replicate 28 0)). split; [|reflexivity].
    unfold demo_blocks, ROOT_INO. rewrite formatted_root, formatted_entries. apply (list_elem_of_lookup_2 _ 2). reflexivity.
  - exists 2. split; [split; reflexivity|vm_compute; reflexivity].
  - exists n, B'. split; [exact H|]. split; [exact C|]. destruct (cr_ino _ _ _ _ _ C) as ([V1 V2] & U & L).
    assert (U2 : used_inode demo_blocks 2 = false) by (vm_compute; reflexivity).
    assert (U1 : used_inode demo_blocks 1 = true) by (vm_compute; reflexivity).
    destruct (Z.lt_total n 2) as [X|[X|X]]; [|exact X|].
    + assert (n = 1) by lia. congruence.
    + rewrite L in U2 by lia. discriminate.
Qed.

Lemma demo_opened : exists B, opened demo_open B 0 (mk_file 2 0 2 1) /\ file_of B 2 = [].
Proof.
  destruct (format_effect (BD := @ramdisk image image_disk) demo_disk I) as (s1 & E1 & H1 & T1 & M1). fold demo_blocks in H1. destruct H1 as [D1 S1 B1].
  destruct (mount_effect s1 demo_blocks D1 B1) as (s2 & E2 & D2 & B2 & S2 & T2).
  assert (Esb : super_of (slice 0 sizeof_super (demo_blocks 0)) = default_sb) by (vm_compute; reflexivity).
  rewrite Esb in *. cbn [magic default_sb] in E2, T2. rewrite Z.eqb_refl in E2, T2. destruct T2 as [M2 T2].
  destruct demo_created as (n & B & C & CR & ->).
  destruct (C s2 ltac:(split; [exact D2|exact S2|exact B2])) as (s3 & E3 & H3 & T3 & M3).
  destruct (open_effect s3 B 1 [104; 105] 2 0 (mk_file 0 0 0 0) H3 (cr_ok _ _ _ _ _ CR)) as (s4 & E4 & O4 & _).
  - rewrite M3, M2. discriminate.
  - apply CR.
  - repeat constructor; discriminate.
  - discriminate.
  - discriminate.
  - apply (created_found _ _ _ _ _ CR). vm_compute. reflexivity.
  - split; reflexivity.
  - rewrite (cr_used _ _ _ _ _ CR) by lia. reflexivity.
  - rewrite T3, T2, T1. reflexivity.
  - unfold MAX_FILES. lia.
  - rewrite T3, T2, T1. reflexivity.
  - reflexivity.
  - constructor.
  - exists B. split; [|apply (cr_file _ _ _ _ _ CR)].
    assert (E : demo_session demo_disk = Ret (0, s4)).
    { unfold demo_session, mbind, fsop_bind. rewrite E1, E2, E3. exact E4. }
    unfold demo_open. rewrite E. exact O4.
Qed.

Lemma sys_write_file_witness :
  exists n s B, sys_write 0 [1; 2; 3] 3 demo_open = Ret (n, s) /\ file_of B 2 = take (Z.to_nat n) [1; 2; 3].
Proof.
  destruct demo_opened as (B & O & E).
  destruct (sys_write_file demo_open B 0 (mk_file 2 0 2 1) [1; 2; 3] O ltac:(cbn; lia)) as (n & s & B' & W & _ & _ & F & _).
  exists n, s, B'. split; [exact W|]. cbn [f_ino f_offset] in F. rewrite F, E. unfold splice. cbn [Z.to_nat Nat.add]. rewrite take_nil, drop_nil. apply app_nil_r.
Defined.

Lemma sys_read_file_witness : exists s, sys_read 0 100 demo_open = Ret (0, [], s).
Proof.
  destruct demo_opened as (B & O & E).
  destruct (sys_read_file demo_open B 0 (mk_file 2 0 2 1) 100 O) as (s & R & _); [lia|cbn; lia|].
  cbn [f_ino f_offset] in R. rewrite E in R. exists s. exact R.
Defined.

Lemma inode_write_read_witness :
  exists s, (_ ← sfs_write_inode root_inode; sfs_read_inode 1) demo_open = Ret (Some root_inode, s).
Proof.
  destruct demo_opened as (B & [H _ _ _ _ _ _] & _).
  destruct (inode_write_read (D := image) B root_inode 1 (holds_ok _ _ H) root_inode_ok) as [R _]; [split; reflexivity..|].
  destruct (R demo_open H) as (s & E & _). exists s. exact E.
Defined.

Lemma format_mount_witness : exists s1 s2, sfs_format demo_disk = Ret (tt, s1) /\ sfs_mount s1 = Ret (0, s2).
Proof. destruct (format_mount (BD := @ramdisk image image_disk) demo_disk I) as (s1 & s2 & _ & E1 & E2 & _). eauto. Defined.

(** The formatted disk, mounted. *)
Definition demo_root : fs image :=
  match sfs_format demo_disk with Ret (_, s) => mk_fs (dev s) default_sb 1 (file_table s) | _ => demo_disk end.

Lemma demo_root_holds : holds demo_root demo_blocks.
Proof.
  destruct (format_effect (BD := @ramdisk image image_disk) demo_disk I) as (s1 & E1 & [D1 S1 B1] & T1 & M1).
  assert (E : demo_root = mk_fs (dev s1) default_sb 1 (file_table s1)) by (unfold demo_root; rewrite E1; reflexivity).
  rewrite E. split; [exact D1|reflexivity|exact B1].
Qed.

(** "hi" is created on the formatted disk and then found, and "." as before. *)
Lemma create_then_lookup_witness :
  exists n s s1 s2, sfs_create ROOT_INO [104; 105] SFS_FILE demo_root = Ret (n, s) /\
    sfs_lookup ROOT_INO [104; 105] s = Ret (n, s1) /\ sfs_lookup ROOT_INO [46] s = Ret (1, s2).
Proof.
  destruct demo_blocks_ok as (M & O & Dir).
  destruct (create_then_lookup demo_root demo_blocks ROOT_INO [104; 105] demo_root_holds O) as (_ & _ & _ & H).
  - split; reflexivity.
  - vm_compute. reflexivity.
  - exact Dir.
  - repeat constructor; discriminate.
  - unfold MAX_FILENAME. cbn. lia.
  - destruct H as [H _].
    + vm_compute. reflexivity.
    + exists 2. split; [split; reflexivity|vm_compute; reflexivity].
    + destruct H as (n & B' & s & E & _ & _ & L).
      { exists (mk_dentry 0 (replicate 28 0)). split; [|reflexivity].
        unfold demo_blocks, ROOT_INO. rewrite formatted_root, formatted_entries. apply (list_elem_of_lookup_2 _ 2). reflexivity. }
      destruct (L [104; 105]) as [s1 L1]; [repeat constructor; discriminate|].
      destruct (L [46]) as [s2 L2]; [repeat constructor; discriminate|].
      exists n, s, s1, s2. split; [exact E|].
      assert (N : lookup_in (entries demo_blocks (inode_at demo_blocks ROOT_INO)) [104; 105] = None /\
                  lookup_in (entries demo_blocks (inode_at demo_blocks ROOT_INO)) [46] = Some 1) by (vm_compute; auto).
      destruct N as [N1 N2]. rewrite N1 in L1. rewrite N2 in L2. split; [exact L1|exact L2].
Defined.

Lemma sys_open_file_witness : exists s, sys_open (Some [47; 47; 46]) demo_root = Ret (0, s).
Proof.
  destruct demo_blocks_ok as (M & O & Dir).
  destruct (format_effect (BD := @ramdisk image image_disk) demo_disk I) as (s1 & E1 & [D1 S1 B1] & T1 & M1).
  assert (E : demo_root = mk_fs (dev s1) default_sb 1 (file_table s1)) by (unfold demo_root; rewrite E1; reflexivity).
  destruct (sys_open_file demo_root demo_blocks 2 [46] 1 0 (mk_file 0 0 0 0)) as (s & R & _).
  - rewrite E. split; [exact D1|reflexivity|exact B1].
  - exact O.
  - rewrite E. discriminate.
  - exact Dir.
  - repeat constructor; discriminate.
  - discriminate.
  - discriminate.
  - vm_compute. reflexivity.
  - split; reflexivity.
  - vm_compute. reflexivity.
  - rewrite E. cbn [file_table]. rewrite T1. reflexivity.
  - unfold MAX_FILES. lia.
  - rewrite E. cbn [file_table]. rewrite T1. reflexivity.
  - reflexivity.
  - constructor.
  - exists s. exact R.
Defined.

Lemma sfs_read_past_end_witness : exists s, match sfs_read_file root_inode 0xFFFFFFFF 1 demo_root with
  | Ret (bytes, s') => length bytes = 4095%nat /\ s = s' | _ => False end.
Proof.
  destruct demo_blocks_ok as (M & O & Dir). pose proof (formatted_root (blk (dev demo_disk))) as ER. fold demo_blocks in ER.
  destruct (format_effect (BD := @ramdisk image image_disk) demo_disk I) as (s1 & E1 & [D1 S1 B1] & T1 & M1).
  assert (E : demo_root = mk_fs (dev s1) default_sb 1 (file_table s1)) by (unfold demo_root; rewrite E1; reflexivity).
  assert (F : file_ok demo_blocks root_inode) by (rewrite <- ER; apply Dir).
  destruct (sfs_read_past_end (D := image) demo_blocks root_inode 0xFFFFFFFF 1 M F) as [H _].
  - unfold is_u32. lia.
  - cbn. lia.
  - cbn. lia.
  - lia.
  - destruct (H demo_root) as (s & R & _); [rewrite E; split; [exact D1|reflexivity|exact B1]|].
    exists s. rewrite R. split; [|reflexivity]. rewrite length_drop, (length_content _ _ M F). reflexivity.
Defined.
