(* ===== verification/Descriptors.v ===== *)
(** * Descriptor tables and the interrupt controller (kernel/gdt.c, kernel/idt.c, kernel/irq.c)

    The kernel packs segment descriptors and interrupt gates into the formats
    the processor reads, and programs the two interrupt controllers and the
    timer through ports.  The theorems read the packed bytes the way the
    processor does ([descriptor_of], [gate_of]) and the port writes the way the
    controllers do ([pic_write]), and show what the processor then sees: flat
    segments for both rings, a gate for every exception and interrupt the
    kernel handles, and a vector with a gate for every line left unmasked. *)

From S2P Require Import Prelude PortIO.
Local Open Scope Z_scope.
Local Open Scope sros_scope.

(** ** Segment descriptors *)

Definition GDT_ENTRIES : nat := 6.

Record gdt_entry : Type := mk_gdt_entry {
  limit_low : Z;
  base_low : Z;
  base_middle : Z;
  access_byte : Z;
  granularity : Z;
  base_high : Z
}.

Definition gdt_entry_zero : gdt_entry := mk_gdt_entry 0 0 0 0 0 0.

(** The packed structure in memory. *)
Definition gdt_entry_bytes (e : gdt_entry) : list Z :=
  le_bytes 2 (limit_low e) ++ le_bytes 2 (base_low e) ++
  [base_middle e; access_byte e; granularity e; base_high e].

Definition gdt_set_entry (idx : nat) (base limit access gran : Z) (gdt : list gdt_entry) : list gdt_entry :=
  <[idx := mk_gdt_entry
      (u16 (limit .& 0xFFFF))
      (u16 (base .& 0xFFFF))
      (u8 (Z.shiftr base 16 .& 0xFF))
      access
      (u8 ((Z.shiftr limit 16 .& 0x0F) .| (gran .& 0xF0)))
      (u8 (Z.shiftr base 24 .& 0xFF))]> gdt.

(** The fields of a descriptor as the processor extracts them from its eight
    bytes. *)
Record descriptor : Type := mk_descriptor {
  seg_base : Z;
  seg_limit : Z;
  seg_access : Z;
  seg_flags : Z
}.

Definition descriptor_of (bs : list Z) : descriptor :=
  let q := le_val bs in
  mk_descriptor (bits q 16 24 + 2 ^ 24 * bits q 56 8) (bits q 0 16 + 2 ^ 16 * bits q 48 4)
    (bits q 40 8) (bits q 52 4).

Definition present_bit (access : Z) : bool := Z.testbit access 7.
Definition dpl (access : Z) : Z := bits access 5 2.

(** The limit in bytes: with the granularity flag it counts 4 KB pages. *)
Definition byte_limit (d : descriptor) : Z :=
  if Z.testbit (seg_flags d) 3 then seg_limit d * 4096 + 4095 else seg_limit d.

(** ** The task state segment *)

Record tss : Type := mk_tss {
  prev_tss : Z; esp0 : Z; ss0 : Z; esp1 : Z; ss1 : Z; esp2 : Z; ss2 : Z; t_cr3 : Z;
  t_eip : Z; t_eflags : Z; t_eax : Z; t_ecx : Z; t_edx : Z; t_ebx : Z; t_esp : Z; t_ebp : Z;
  t_esi : Z; t_edi : Z; t_es : Z; t_cs : Z; t_ss : Z; t_ds : Z; t_fs : Z; t_gs : Z;
  ldt : Z; trap : Z; iomap_base : Z
}.

(** 25 words and two half words, packed. *)
Definition TSS_SIZE : Z := 104.

(** The fields from [cs] to [trap] keep their values. *)
Definition tss_init (t : tss) : tss :=
  mk_tss 0 0x20000 0x10 0 0 0 0 0 0 0 0 0 0 0 0 0 0 0 0
    (t_cs t) (t_ss t) (t_ds t) (t_fs t) (t_gs t) (ldt t) (trap t) TSS_SIZE.

Definition tss_words (t : tss) : list Z :=
  [prev_tss t; esp0 t; ss0 t; esp1 t; ss1 t; esp2 t; ss2 t; t_cr3 t; t_eip t; t_eflags t;
   t_eax t; t_ecx t; t_edx t; t_ebx t; t_esp t; t_ebp t; t_esi t; t_edi t; t_es t; t_cs t;
   t_ss t; t_ds t; t_fs t; t_gs t; ldt t].
Definition tss_bytes (t : tss) : list Z :=
  (tss_words t ≫= le_bytes 4) ++ le_bytes 2 (trap t) ++ le_bytes 2 (iomap_base t).

(** ** Loading the tables *)

(** A table register: limit and base. *)
Record table_reg : Type := mk_table_reg { tr_limit : Z; tr_base : Z }.

(** The processor state these files set. *)
Record cpu : Type := mk_cpu {
  gdtr : table_reg;
  idtr : table_reg;
  cs : Z;
  data_segments : list Z;  (* ds, es, fs, gs, ss *)
  task_register : Z
}.

Definition gdt_flush (gp : table_reg) (c : cpu) : cpu :=
  mk_cpu gp (idtr c) 0x08 (replicate 5 0x10) (task_register c).

Definition tss_flush (c : cpu) : cpu :=
  mk_cpu (gdtr c) (idtr c) (cs c) (data_segments c) 0x28.

Record desc_state : Type := mk_desc_state { gdt : list gdt_entry; the_tss : tss; the_cpu : cpu }.

(** [gdt_addr] and [tss_addr] are the addresses the linker gives the objects. *)
Definition gdt_init (gdt_addr tss_addr : Z) (st : desc_state) : desc_state :=
  let gp := mk_table_reg (u16 (8 * Z.of_nat GDT_ENTRIES - 1)) gdt_addr in
  let t := tss_init (the_tss st) in
  let g := gdt_set_entry 0 0 0 0 0 (gdt st) in
  let g := gdt_set_entry 1 0 0xFFFFF 0x9A 0xCF g in
  let g := gdt_set_entry 2 0 0xFFFFF 0x92 0xCF g in
  let g := gdt_set_entry 3 0 0xFFFFF 0xFA 0xCF g in
  let g := gdt_set_entry 4 0 0xFFFFF 0xF2 0xCF g in
  let g := gdt_set_entry 5 tss_addr (TSS_SIZE - 1) 0x89 0x00 g in
  mk_desc_state g t (tss_flush (gdt_flush gp (the_cpu st))).

(** The descriptor a selector names: bits 3 and up are the index. *)
Definition segment (st : desc_state) (selector : Z) : option descriptor :=
  descriptor_of ∘ gdt_entry_bytes <$> gdt st !! Z.to_nat (selector / 8).

(** ** Interrupt gates *)

Record idt_entry : Type := mk_idt_entry {
  offset_low : Z;
  selector : Z;
  zero : Z;
  type_attr : Z;
  offset_high : Z
}.

Definition idt_entry_zero : idt_entry := mk_idt_entry 0 0 0 0 0.

Definition idt_entry_bytes (e : idt_entry) : list Z :=
  le_bytes 2 (offset_low e) ++ le_bytes 2 (selector e) ++ [zero e; type_attr e] ++
  le_bytes 2 (offset_high e).

Definition idt_set_gate (vector : nat) (handler sel attr : Z) (idt : list idt_entry) : list idt_entry :=
  <[vector := mk_idt_entry (u16 (handler .& 0xFFFF)) sel 0 attr
                (u16 (Z.shiftr handler 16 .& 0xFFFF))]> idt.

(** The vectors with an entry point in idt_asm.s, and the attribute of their gates. *)
Definition gates : list (nat * Z) :=
  ((fun v => (v, 0x8E)) <$> [0; 1; 3; 4; 6; 7; 8; 10; 11; 12; 13; 14; 16; 17; 18; 19]%nat) ++
  ((fun v => (v, 0x8E)) <$> [32; 33; 34; 35; 36; 37; 38; 39; 40; 41; 42; 43; 44; 45; 46; 47]%nat) ++
  [(128%nat, 0xEF)].

(** [isr v] is the address of the entry point [isr<v>]. *)
Definition idt_init (idt_addr : Z) (isr : nat -> Z) (c : cpu) : list idt_entry * cpu :=
  let idt := replicate 256 idt_entry_zero in
  let idt := foldl (fun idt g => idt_set_gate (fst g) (isr (fst g)) 0x08 (snd g) idt) idt gates in
  (idt, mk_cpu (gdtr c) (mk_table_reg (u16 (8 * 256 - 1)) idt_addr) (cs c) (data_segments c)
          (task_register c)).

(** A gate as the processor reads it. *)
Record gate : Type := mk_gate { gate_offset : Z; gate_selector : Z; gate_attr : Z }.

Definition gate_of (bs : list Z) : gate :=
  let q := le_val bs in
  mk_gate (bits q 0 16 + 2 ^ 16 * bits q 48 16) (bits q 16 16) (bits q 40 8).

(** The entry point a vector reaches, if its gate is present. *)
Definition entry_point (idt : list idt_entry) (v : nat) : option Z :=
  g ← gate_of ∘ idt_entry_bytes <$> idt !! v;
  if present_bit (gate_attr g) then Some (gate_offset g) else None.

(** Whether ring 3 may raise the vector with [int]. *)
Definition user_callable (idt : list idt_entry) (v : nat) : bool :=
  match gate_of ∘ idt_entry_bytes <$> idt !! v with
  | Some g => present_bit (gate_attr g) && (dpl (gate_attr g) =? 3)
  | None => false
  end.

(** [isr_handler]: every exception panics, the page fault through its own
    handler. *)
Definition isr_handler (page_fault : exec unit) (int_no : Z) : exec unit :=
  if negb (int_no =? 14) then Panic else page_fault.

(** ** The interrupt controllers and the timer *)

Definition pic_remap : io unit :=
  _ ← outb 0x20 0x11;
  _ ← outb 0xA0 0x11;
  _ ← outb 0x21 0x20;
  _ ← outb 0xA1 0x28;
  _ ← outb 0x21 0x04;
  _ ← outb 0xA1 0x02;
  _ ← outb 0x21 0x01;
  _ ← outb 0xA1 0x01;
  _ ← outb 0x21 0xDC;
  outb 0xA1 0xFF.

(** The division traps when the frequency is 0. *)
Definition pit_init (frequency_hz : Z) : option (io unit) :=
  if frequency_hz =? 0 then None
  else
    let divisor := 1193180 / frequency_hz in
    Some (_ ← outb 0x43 0x36;
          _ ← outb 0x40 (u8 (divisor .& 0xFF));
          outb 0x40 (u8 (Z.shiftr divisor 8 .& 0xFF))).

(** End of interrupt: the slave controller handles the vectors from 40 on. *)
Definition send_eoi (int_no : Z) : io unit :=
  _ ← (if 40 <=? int_no then outb 0xA0 0x20 else mret tt);
  outb 0x20 0x20.

(** An 8259 controller, as its data sheet describes it: writing an ICW1 (bit 4)
    to the command port starts an initialisation of [icw] more words on the
    data port; otherwise the data port holds the mask. *)
Record pic : Type := mk_pic { icw : nat; vector_base : Z; irq_mask : Z }.

Definition pic_write (data_port : bool) (v : Z) (p : pic) : pic :=
  if data_port then
    match icw p with
    | 3%nat => mk_pic 2 (v - v mod 8) (irq_mask p)
    | S n => mk_pic n (vector_base p) (irq_mask p)
    | O => mk_pic O (vector_base p) v
    end
  else if Z.testbit v 4 then mk_pic (if Z.testbit v 0 then 3 else 2) (vector_base p) 0
  else p.

(** What a history of accesses does to the controller at [cmd], [cmd + 1]. *)
Definition pic_after (cmd : Z) (h : history) (p : pic) : pic :=
  foldl (fun p e => match e with
                    | Out _ port v => if port =? cmd then pic_write false v p
                                      else if port =? cmd + 1 then pic_write true v p else p
                    | In _ _ _ => p
                    end) p h.

(** ** Reading the packed formats *)

(** The granularity byte: limit bits below, flags above. *)
Lemma gran_byte l g : 0 <= l < 16 -> is_u8 g ->
  u8 (l .| (g .& 0xF0)) = l + 2 ^ 4 * bits g 4 4.
Proof.
  intros Hl Hg. 
  assert (E : g .& 0xF0 = bits g 4 4 * 2 ^ 4).
  { apply (fun T => proj1 (Z.eqb_eq _ _) (byte_cases (fun g => g .& 0xF0 =? bits g 4 4 * 2 ^ 4) g T Hg)).
    vm_compute. reflexivity. }
  rewrite E, Z.lor_comm, lor_aligned by lia.
  pose proof (bits_range g 4 4 ltac:(lia)). rewrite u8_small by lia. lia.
Qed.

Definition encode_descriptor (base limit access gran : Z) : list Z :=
  match gdt_set_entry 0 base limit access gran [gdt_entry_zero] with
  | [e] => gdt_entry_bytes e
  | _ => []
  end.

Lemma descriptor_roundtrip base limit access gran :
  is_u32 base -> 0 <= limit < 2 ^ 20 -> is_u8 access -> is_u8 gran ->
  descriptor_of (encode_descriptor base limit access gran) =
    mk_descriptor base limit access (gran / 16).
Proof.
  intros Hb Hl Ha Hg. unfold encode_descriptor, gdt_set_entry, descriptor_of.
  cbn [insert list_insert limit_low base_low base_middle access_byte granularity base_high gdt_entry_bytes].
  change 0xFFFF with (Z.ones 16). change 0xFF with (Z.ones 8). change 0x0F with (Z.ones 4).
  rewrite !field_of, !field_low by lia.
  rewrite gran_byte by (try assumption; apply (bits_range _ _ 4); lia).
  unfold u16, u8.
  rewrite !(Z.mod_small (bits _ _ 16)) by (apply (bits_range _ _ 16); lia).
  rewrite !(Z.mod_small (bits _ _ 8)) by (apply (bits_range _ _ 8); lia).
  pose proof (bits_range limit 16 4 ltac:(lia)). pose proof (bits_range gran 4 4 ltac:(lia)).
  pose proof (bits_range limit 0 16 ltac:(lia)). pose proof (bits_range base 0 16 ltac:(lia)).
  pose proof (bits_range base 16 8 ltac:(lia)). pose proof (bits_range base 24 8 ltac:(lia)).
  unfold gdt_entry_bytes; cbn [limit_low base_low base_middle access_byte granularity base_high].
  rewrite !le_val_field by (change (256 ^ Z.of_nat 2) with (2 ^ 16); lia).
  change (256 ^ Z.of_nat 2) with (2 ^ 16). cbn [le_val].
  set (bl := bits base 0 16) in *. set (bm := bits base 16 8) in *. set (bh := bits base 24 8) in *.
  set (ll := bits limit 0 16) in *. set (lh := bits limit 16 4) in *. set (gh := bits gran 4 4) in *.
  unfold is_u8 in *.
  assert (E1 : bl + 2 ^ 16 * bm + 2 ^ 24 * bh = base).
  { pose proof (bits_split base 16 16 ltac:(lia) ltac:(lia) Hb) as S1.
    pose proof (bits_range base 16 16 ltac:(lia)) as R1.
    pose proof (bits_split (bits base 16 16) 8 8 ltac:(lia) ltac:(lia) R1) as S2.
    unfold bl, bm, bh. unfold bits in *. mlia. }
  assert (E2 : ll + 2 ^ 16 * lh = limit) by (apply (bits_split limit 16 4); lia).
  assert (E3 : gh = gran / 16) by (unfold gh, bits; mlia).
  rewrite <- E1, <- E2, <- E3. clear E1 E2 E3 Hb Hl Hg. clearbody bl bm bh ll lh gh.
  f_equal; [f_equal; [|f_equal]|f_equal; [|f_equal]| |].
  - apply (bits_at ll (bl + 2 ^ 16 * bm) (access + 256 * (lh + 2 ^ 4 * gh + 256 * bh))); lia.
  - apply (bits_at (ll + 2 ^ 16 * bl + 2 ^ 32 * bm + 2 ^ 40 * access + 2 ^ 48 * (lh + 2 ^ 4 * gh)) bh 0); lia.
  - apply (bits_at 0 ll (bl + 2 ^ 16 * (bm + 256 * (access + 256 * (lh + 2 ^ 4 * gh + 256 * bh))))); lia.
  - apply (bits_at (ll + 2 ^ 16 * bl + 2 ^ 32 * bm + 2 ^ 40 * access) lh (gh + 2 ^ 4 * bh)); lia.
  - apply (bits_at (ll + 2 ^ 16 * bl + 2 ^ 32 * bm) access (lh + 2 ^ 4 * gh + 256 * bh)); lia.
  - apply (bits_at (ll + 2 ^ 16 * bl + 2 ^ 32 * bm + 2 ^ 40 * access + 2 ^ 48 * lh) gh bh); lia.
Qed.

Lemma gate_roundtrip handler sel attr :
  is_u32 handler -> 0 <= sel < 65536 -> is_u8 attr ->
  gate_of (idt_entry_bytes (mk_idt_entry (u16 (handler .& 0xFFFF)) sel 0 attr
                              (u16 (Z.shiftr handler 16 .& 0xFFFF)))) = mk_gate handler sel attr.
Proof.
  intros Hh Hs Ha. unfold gate_of, idt_entry_bytes.
  cbn [offset_low selector zero type_attr offset_high].
  change 0xFFFF with (Z.ones 16). rewrite field_of, field_low by lia. unfold u16.
  rewrite !(Z.mod_small (bits _ _ 16)) by (apply (bits_range _ _ 16); lia).
  pose proof (bits_range handler 0 16 ltac:(lia)). pose proof (bits_range handler 16 16 ltac:(lia)).
  pose proof (bits_split handler 16 16 ltac:(lia) ltac:(lia) Hh) as E.
  rewrite !le_val_field by (change (256 ^ Z.of_nat 2) with (2 ^ 16); lia).
  rewrite le_val_app, le_val_bytes. cbn [le_val length].
  change (256 ^ Z.of_nat 2) with (2 ^ 16). rewrite (Z.mod_small (bits handler 16 16)) by lia.
  set (lo := bits handler 0 16) in *. set (hi := bits handler 16 16) in *.
  unfold is_u8 in *. rewrite <- E. clear E Hh. clearbody lo hi. 
  f_equal; [f_equal; [|f_equal]| |].
  - apply (bits_at 0 lo (sel + 2 ^ 16 * (0 + 256 * (attr + 256 * hi)))); lia.
  - apply (bits_at (lo + 2 ^ 16 * sel + 2 ^ 40 * attr) hi 0); lia.
  - apply (bits_at lo sel (0 + 256 * (attr + 256 * hi))); lia.
  - apply (bits_at (lo + 2 ^ 16 * sel) attr hi); lia.
Qed.

(** ** The gates idt_init installs *)

Definition install (isr : nat -> Z) (gs : list (nat * Z)) (idt : list idt_entry) : list idt_entry :=
  foldl (fun idt g => idt_set_gate (fst g) (isr (fst g)) 0x08 (snd g) idt) idt gs.

Lemma install_cons isr g gs idt :
  install isr (g :: gs) idt = install isr gs (idt_set_gate (fst g) (isr (fst g)) 0x08 (snd g) idt).
Proof. reflexivity. Qed.

Lemma install_length isr gs idt : length (install isr gs idt) = length idt.
Proof.
  revert idt. induction gs as [|g gs IH]; intros idt; [reflexivity|].
  rewrite install_cons, IH. apply length_insert.
Qed.

Lemma install_other isr gs idt v : v ∉ gs.*1 -> install isr gs idt !! v = idt !! v.
Proof.
  revert idt. induction gs as [|g gs IH]; intros idt Hv; [reflexivity|].
  rewrite fmap_cons, not_elem_of_cons in Hv. destruct Hv as [Hg Hv].
  rewrite install_cons, IH by exact Hv.
  apply list_lookup_insert_ne. congruence.
Qed.

Lemma install_gate isr gs idt v a :
  NoDup gs.*1 -> (v, a) ∈ gs -> (v < length idt)%nat -> is_u32 (isr v) -> is_u8 a ->
  gate_of ∘ idt_entry_bytes <$> install isr gs idt !! v = Some (mk_gate (isr v) 0x08 a).
Proof.
  intros Hn Hv Hl Hi Ha. revert idt Hl. induction gs as [|g gs IH]; intros idt Hl; [inversion Hv|].
  rewrite fmap_cons, NoDup_cons in Hn. destruct Hn as [Hg Hn].
  apply elem_of_cons in Hv as [<-|Hv].
  - rewrite install_cons. cbn [fst snd].
    rewrite install_other by exact Hg. unfold idt_set_gate.
    rewrite list_lookup_insert_eq by exact Hl.
    unfold compose. cbn [fmap option_fmap option_map]. rewrite gate_roundtrip by (try assumption; lia).
    reflexivity.
  - rewrite install_cons. apply (IH Hn Hv). unfold idt_set_gate. rewrite length_insert. exact Hl.
Qed.

Definition handled : list nat := gates.*1.

Lemma gates_nodup : NoDup handled.
Proof. apply (bool_decide_unpack _). vm_compute. exact I. Qed.

Lemma gates_attr v a : (v, a) ∈ gates -> a = (if decide (v = 128)%nat then 0xEF else 0x8E).
Proof.
  intros H. assert (T : Forall (fun g => snd g = if decide (fst g = 128)%nat then 0xEF else 0x8E) gates).
  { repeat constructor. }
  rewrite Forall_forall in T. exact (T _ H).
Qed.

Lemma idt_init_lookup idt_addr isr c v :
  (v < 256)%nat -> (forall v, is_u32 (isr v)) ->
  gate_of ∘ idt_entry_bytes <$> fst (idt_init idt_addr isr c) !! v =
    Some (if decide (v ∈ handled)
          then mk_gate (isr v) 0x08 (if decide (v = 128)%nat then 0xEF else 0x8E)
          else mk_gate 0 0 0).
Proof.
  intros Hv Hi. unfold idt_init. cbn [fst]. fold (install isr gates (replicate 256 idt_entry_zero)).
  case_decide as Hg.
  - apply list_elem_of_fmap in Hg as ([w a] & -> & Hg). cbn [fst] in *.
    rewrite (install_gate _ _ _ w a); rewrite ?length_replicate; auto using gates_nodup.
    + do 2 f_equal. apply gates_attr, Hg.
    + rewrite (gates_attr _ _ Hg). unfold is_u8. case_decide; lia.
  - rewrite install_other by exact Hg. rewrite lookup_replicate_2 by exact Hv. reflexivity.
Qed.

(** ** What the port writes do *)

(** Running a fixed sequence of byte writes. *)
Definition out_bytes (ws : list (Z * Z)) : history := (fun w => Out 1 (fst w) (snd w)) <$> ws.

Lemma pic_remap_events d h :
  pic_remap d h = Some (tt, h ++ out_bytes
    [(0x20, 0x11); (0xA0, 0x11); (0x21, 0x20); (0xA1, 0x28); (0x21, 0x04); (0xA1, 0x02);
     (0x21, 0x01); (0xA1, 0x01); (0x21, 0xDC); (0xA1, 0xFF)]).
Proof. unfold pic_remap, outb, mbind, io_bind. rewrite <- !app_assoc. reflexivity. Qed.

(** The counter of the timer is the divisor when it fits 16 bits. *)
Lemma pit_init_divisor hz : 19 <= hz < 2 ^ 32 ->
  exists m lo hi, pit_init hz = Some m /\ emits 0x40 m [lo; hi] /\ lo + 256 * hi = 1193180 / hz.
Proof.
  intros Hz. unfold pit_init. destruct (Z.eqb_spec hz 0); [lia|].
  assert (Hd : 0 <= 1193180 / hz < 65536).
  { split; [apply Z.div_pos; lia|]. apply Z.div_lt_upper_bound; lia. }
  set (q := 1193180 / hz) in *. change 0xFF with (Z.ones 8).
  rewrite field_of, field_low by lia.
  eexists _, _, _. split; [reflexivity|]. split.
  - eapply emits_eq; [repeat emits_step|]. rewrite app_nil_l. cbn [app u16]. reflexivity.
  - pose proof (bits_range q 0 8 ltac:(lia)). pose proof (bits_range q 8 8 ltac:(lia)).
    rewrite !u8_small by (rewrite ?u8_small; lia).
    apply (bits_split q 8 8); lia.
Qed.

(** The interrupt vector of line [n], and whether the line is let through. *)
Definition irq_vector (h : history) (p0 p1 : pic) (n : Z) : Z :=
  if n <? 8 then vector_base (pic_after 0x20 h p0) + n
  else vector_base (pic_after 0xA0 h p1) + (n - 8).
Definition unmasked (h : history) (p0 p1 : pic) (n : Z) : bool :=
  if n <? 8 then negb (Z.testbit (irq_mask (pic_after 0x20 h p0)) n)
  else negb (Z.testbit (irq_mask (pic_after 0xA0 h p1)) (n - 8)).

(** ** The theorems *)

(** After gdt_init the four code and data selectors name present segments that
    cover all 4 GB from 0 with the privilege of the selector's ring, code where
    the selector is a code selector; the task register names the TSS, whose
    kernel stack is 0x20000 in segment 0x10; the null descriptor is empty. *)
Theorem gdt_init_segments gdt_addr tss_addr st :
  length (gdt st) = GDT_ENTRIES -> is_u32 tss_addr ->
  let st' := gdt_init gdt_addr tss_addr st in
  (forall sel ring code, (sel, ring, code) ∈ [(0x08, 0, true); (0x10, 0, false); (0x1B, 3, true); (0x23, 3, false)] ->
    exists d, segment st' sel = Some d /\ seg_base d = 0 /\ byte_limit d = 2 ^ 32 - 1 /\
      present_bit (seg_access d) = true /\ dpl (seg_access d) = ring /\ ring = sel mod 4 /\
      Z.testbit (seg_access d) 3 = code) /\
  segment st' (task_register (the_cpu st')) = Some (mk_descriptor tss_addr (TSS_SIZE - 1) 0x89 0) /\
  (esp0 (the_tss st'), ss0 (the_tss st')) = (0x20000, 0x10) /\
  length (tss_bytes (the_tss st')) = 104%nat /\
  segment st' 0 = Some (mk_descriptor 0 0 0 0) /\
  the_cpu st' = mk_cpu (mk_table_reg 47 gdt_addr) (idtr (the_cpu st)) 0x08 (replicate 5 0x10) 0x28.
Proof.
  intros Hl Ht. cbv zeta.
  destruct (gdt st) as [|e0 [|e1 [|e2 [|e3 [|e4 [|e5 [|? ?]]]]]]] eqn:E; try discriminate Hl.
  unfold gdt_init. rewrite E. repeat split.
  - intros sel ring code H.
    repeat (apply elem_of_cons in H as [H|H]; [injection H as -> -> ->; eexists; repeat split|]).
    inversion H.
  - transitivity (Some (descriptor_of (encode_descriptor tss_addr (TSS_SIZE - 1) 0x89 0))); [reflexivity|].
    f_equal. apply (descriptor_roundtrip tss_addr (TSS_SIZE - 1) 0x89 0 Ht); unfold is_u8, TSS_SIZE; lia.
Qed.

Definition blank_tss : tss := mk_tss 0 0 0 0 0 0 0 0 0 0 0 0 0 0 0 0 0 0 0 0 0 0 0 0 0 0 0.
Definition boot_cpu : cpu := mk_cpu (mk_table_reg 0 0) (mk_table_reg 0 0) 0x10 [0x18; 0x18; 0x18; 0x18; 0x18] 0.

Lemma gdt_init_segments_witness :
  segment (gdt_init 0x106000 0x106040 (mk_desc_state (replicate 6 gdt_entry_zero) blank_tss boot_cpu)) 0x28 =
    Some (mk_descriptor 0x106040 103 0x89 0).
Proof.
  apply (gdt_init_segments 0x106000 0x106040
    (mk_desc_state (replicate 6 gdt_entry_zero) blank_tss boot_cpu)); [reflexivity|].
  unfold is_u32. lia.
Defined.

(** C23: After idt_init and pic_remap, whatever the tables and the controllers held,
    a vector has an entry point exactly when the kernel has a handler for it,
    and it is that handler; ring 3 can raise only the system call; and every
    interrupt line arrives at a vector of its own, 32 and up, that has an entry
    point, with only the timer, keyboard and sound lines let through. *)
Theorem interrupt_vectors idt_addr isr c d h p0 p1 :
  (forall v, is_u32 (isr v)) ->
  let idt := fst (idt_init idt_addr isr c) in
  (forall v, (v < 256)%nat ->
    entry_point idt v = (if decide (v ∈ handled) then Some (isr v) else None) /\
    user_callable idt v = bool_decide (v = 128%nat)) /\
  exists evs, pic_remap d h = Some (tt, h ++ evs) /\
    forall n, 0 <= n < 16 ->
      irq_vector evs p0 p1 n = 32 + n /\ Z.to_nat (32 + n) ∈ handled /\
      (unmasked evs p0 p1 n = true <-> n ∈ [0; 1; 5]).
Proof.
  intros Hi. cbv zeta. split.
  - intros v Hv. unfold entry_point, user_callable. rewrite !(idt_init_lookup _ _ _ v Hv Hi).
    destruct (decide (v ∈ handled)) as [Hh|Hh]; [|split; [reflexivity|]].
    + destruct (decide (v = 128)%nat) as [->|Hn]; [split; reflexivity|].
      rewrite bool_decide_eq_false_2 by exact Hn. split; reflexivity.
    + symmetry. apply bool_decide_eq_false_2. intros ->. apply Hh.
      apply (bool_decide_unpack _). vm_compute. exact I.
  - eexists. split; [apply pic_remap_events|]. intros n Hn.
    assert (Hn' : n ∈ seqZ 0 16) by (apply elem_of_seqZ; lia).
    repeat (apply elem_of_cons in Hn' as [->|Hn']; 
      [split; [reflexivity|]; split; [apply (bool_decide_unpack _); vm_compute; exact I|];
       split; intros H; [first [discriminate H | apply (bool_decide_unpack _); exact I]
                        | first [reflexivity | apply (bool_decide_pack _) in H; destruct H]]|]).
    inversion Hn'.
Qed.

Lemma interrupt_vectors_witness :
  entry_point (fst (idt_init 0x107000 (fun v => 0x100000 + Z.of_nat v mod 256) boot_cpu)) 128 = Some 0x100080.
Proof.
  apply (interrupt_vectors 0x107000 (fun v => 0x100000 + Z.of_nat v mod 256) boot_cpu (fun _ _ _ => 0) []
           (mk_pic 0 0 0) (mk_pic 0 0 0)); [|lia].
  intros v. unfold is_u32. pose proof (Z.mod_pos_bound (Z.of_nat v) 256). lia.
Defined.
