(* ===== verification/Text.v ===== *)
(** * Text: what the printing routines have in common

    The serial port, the VGA console and the framebuffer console each have
    their own copy of [puts], [puthex] and a small [printf].  This file holds
    the data they share - C strings as lists of characters, the variable
    arguments of a call, the hexadecimal digits - and the reference semantics of
    a format string that their theorems refer to. *)

From Stdlib Require Import Ascii.
From Stdlib Require String.
Import (notations) String.
From S2P Require Import Prelude.
Export String.StringSyntax.
Local Open Scope Z_scope.
Local Open Scope sros_scope.

(** The characters of a literal. *)
Fixpoint chars (s : String.string) : list Z :=
  match s with
  | String.EmptyString => []
  | String.String c s => Z.of_N (N_of_ascii c) :: chars s
  end.

Arguments chars s%_string_scope.

Definition NL : Z := 10.
Definition CR : Z := 13.
Definition PERCENT : Z := 37.
Definition BLANK : Z := 32.

(** A variable argument: a string or a word. *)
Inductive va : Type :=
  | VStr (s : list Z)
  | VInt (n : Z).

(** ** Hexadecimal *)

Definition hex : list Z := chars "0123456789ABCDEF".

(** [for (i = 28; i >= 0; i -= 4) putc(hex[(n >> i) & 0xF])]. *)
Definition hex_shifts : list Z := [28; 24; 20; 16; 12; 8; 4; 0].
Definition hex_digits (n : Z) : list Z :=
  (fun i => hex !!! Z.to_nat (Z.shiftr n i .& 0xF)) <$> hex_shifts.

(** The text of a word. *)
Definition hex_word (n : Z) : list Z := chars "0x" ++ hex_digits n.

(** Reading digits back. *)
Definition digit_value (c : Z) : Z := if c <=? 57 then c - 48 else c - 55.
Definition hex_value (cs : list Z) : Z := foldl (fun v c => 16 * v + digit_value c) 0 cs.

Lemma digit_value_hex d : 0 <= d < 16 -> digit_value (hex !!! Z.to_nat d) = d.
Proof.
  intros H. assert (Hd : d ∈ seqZ 0 16) by (apply elem_of_seqZ; lia). clear H.
  repeat (apply elem_of_cons in Hd as [->|Hd]; [reflexivity|]). inversion Hd.
Qed.

(** The digits determine the word. *)
Lemma hex_value_digits n : is_u32 n -> hex_value (hex_digits n) = n.
Proof.
  intros Hn. unfold hex_value, hex_digits, hex_shifts. cbn [fmap list_fmap foldl].
  change 0xF with (Z.ones 4). rewrite !field_of by lia.
  rewrite !digit_value_hex by (apply (bits_range _ _ 4); lia).
  unfold is_u32, bits in *. clear -Hn. mlia.
Qed.

(** ** Format strings *)

(** What one directive of a format string prints. *)
Inductive piece : Type :=
  | Lit (c : Z)
  | Arg_s
  | Arg_x
  | Arg_c.

(** [%d] prints hexadecimal like [%x]; an unknown directive prints itself.  A
    format that ends in a single [%] has no meaning: the code runs past its end. *)
Fixpoint parse_format (fmt : list Z) : option (list piece) :=
  match fmt with
  | [] => Some []
  | c :: fmt =>
      if c =? PERCENT then
        match fmt with
        | [] => None
        | d :: fmt =>
            ps ← parse_format fmt;
            Some (if d =? 115 then Arg_s :: ps
                  else if (d =? 100) || (d =? 120) then Arg_x :: ps
                  else if d =? 99 then Arg_c :: ps
                  else if d =? PERCENT then Lit PERCENT :: ps
                  else Lit PERCENT :: Lit d :: ps)
        end
      else ps ← parse_format fmt; Some (Lit c :: ps)
  end.

(** The text of the directives with their arguments; [str] is what the device
    makes of a string argument. *)
Fixpoint render (str : list Z -> list Z) (ps : list piece) (args : list va) : option (list Z) :=
  match ps, args with
  | [], _ => Some []
  | Lit c :: ps, args => t ← render str ps args; Some (c :: t)
  | Arg_s :: ps, VStr s :: args => t ← render str ps args; Some (str s ++ t)
  | Arg_x :: ps, VInt n :: args => t ← render str ps args; Some (hex_word n ++ t)
  | Arg_c :: ps, VInt n :: args => t ← render str ps args; Some (n :: t)
  | _, _ => None
  end.

Definition format_text (str : list Z -> list Z) (fmt : list Z) (args : list va) : option (list Z) :=
  ps ← parse_format fmt; render str ps args.

(** The same by rules, one per directive: what the proofs about the printing
    loops are by induction on. *)
Section formats.
Context (str : list Z -> list Z).

Inductive formats : list Z -> list va -> list Z -> Prop :=
  | formats_nil args : formats [] args []
  | formats_char c fmt args t : c <> PERCENT -> formats fmt args t -> formats (c :: fmt) args (c :: t)
  | formats_s s fmt args t :
      formats fmt args t -> formats (PERCENT :: 115 :: fmt) (VStr s :: args) (str s ++ t)
  | formats_x d n fmt args t : d = 100 \/ d = 120 ->
      formats fmt args t -> formats (PERCENT :: d :: fmt) (VInt n :: args) (hex_word n ++ t)
  | formats_c n fmt args t :
      formats fmt args t -> formats (PERCENT :: 99 :: fmt) (VInt n :: args) (n :: t)
  | formats_percent fmt args t :
      formats fmt args t -> formats (PERCENT :: PERCENT :: fmt) args (PERCENT :: t)
  | formats_other d fmt args t : d <> 115 -> d <> 100 -> d <> 120 -> d <> 99 -> d <> PERCENT ->
      formats fmt args t -> formats (PERCENT :: d :: fmt) args (PERCENT :: d :: t).

Lemma format_text_formats fmt args t : format_text str fmt args = Some t -> formats fmt args t.
Proof.
  unfold format_text. remember (length fmt) as n eqn:Hn. revert fmt args t Hn.
  induction (lt_wf n) as [n _ IH]. intros fmt args t -> H.
  destruct fmt as [|c fmt]; [injection H as <-; constructor|].
  cbn [parse_format] in H. destruct (Z.eqb_spec c PERCENT) as [->|Hc].
  - destruct fmt as [|d fmt]; [discriminate|].
    assert (IH' := IH (length fmt) ltac:(cbn; lia) fmt). clear IH.
    destruct (parse_format fmt) as [ps|]; [|discriminate]. cbn [mbind option_bind] in H, IH'.
    destruct (Z.eqb_spec d 115) as [->|]; [|destruct (Z.eqb_spec d 100) as [->|];
      [|destruct (Z.eqb_spec d 120) as [->|]; [|destruct (Z.eqb_spec d 99) as [->|];
      [|destruct (Z.eqb_spec d PERCENT) as [->|]]]]]; cbn [orb render] in H.
    1-4: destruct args as [|[s|k] args]; try discriminate H.
    all: destruct (render str ps args) as [r|] eqn:E; [|discriminate H];
         apply (inj Some) in H; subst t; pose proof (IH' args r eq_refl E) as F.
    + apply formats_s, F.
    + apply formats_x; [left; reflexivity|exact F].
    + apply formats_x; [right; reflexivity|exact F].
    + apply formats_c, F.
    + apply formats_percent, F.
    + apply formats_other; assumption.
  - assert (IH' := IH (length fmt) ltac:(cbn; lia) fmt).
    destruct (parse_format fmt) as [ps|]; [|discriminate]. cbn [mbind option_bind render] in H, IH'.
    destruct (render str ps args) as [r|] eqn:E; [|discriminate H]. injection H as <-.
    apply formats_char; [exact Hc|]. exact (IH' args r eq_refl E).
Qed.
End formats.

(** Splitting text at newlines: at least one, possibly empty, line. *)
Fixpoint lines (s : list Z) : list (list Z) :=
  match s with
  | [] => [[]]
  | c :: s => if c =? NL then [] :: lines s
              else match lines s with
                   | l :: ls => (c :: l) :: ls
                   | [] => [[c]]
                   end
  end.

(** ** Formatting into a buffer

    The frame buffer console and the windows first format into an array of 256
    bytes; only the test at the head of the loop keeps the position below 255. *)

Definition PRINT_BUF : nat := 256.

(** [buf[pos++] = c] *)
Definition push (buf : list Z) (c : Z) : exec (list Z) :=
  if (length buf <? PRINT_BUF)%nat then Ret (buf ++ [c]) else Oob.

Fixpoint push_all (buf : list Z) (cs : list Z) : exec (list Z) :=
  match cs with
  | [] => Ret buf
  | c :: cs => buf ← push buf c; push_all buf cs
  end.

(** The digits of a word, least significant first. *)
Fixpoint digits_rev (fuel : nat) (base : Z) (digit : Z -> Z) (n : Z) : list Z :=
  match fuel with
  | O => []
  | S fuel => if n =? 0 then [] else digit (n mod base) :: digits_rev fuel base digit (n / base)
  end.

(** [tmp] holds sixteen of them. *)
Definition number (base : Z) (digit : Z -> Z) (n : Z) : list Z :=
  if n =? 0 then [48] else rev (digits_rev 16 base digit n).

Definition decimal : Z -> list Z := number 10 (fun d => 48 + d).
Definition hexadecimal (alphabet : list Z) : Z -> list Z := number 16 (fun d => alphabet !!! Z.to_nat d).

(** [buf[pos] = 0], after the loop. *)
Definition terminate (buf : list Z) : exec (list Z) :=
  if (length buf <? PRINT_BUF)%nat then Ret buf else Oob.

(** The loop over the format; [conv] is the table of the number directives. *)
Fixpoint format_buffer (conv : Z -> option (Z -> list Z)) (fmt : list Z) (args : list va) (buf : list Z) : exec (list Z) :=
  if (length buf <? 255)%nat then
    match fmt with
    | [] => terminate buf
    | c :: rest =>
        if c =? PERCENT then
          match rest with
          | [] => Oob
          | d :: fmt =>
              if d =? 115 then
                match args with
                | VStr s :: args => buf ← push_all buf (take (255 - length buf) s); format_buffer conv fmt args buf
                | _ => Oob
                end
              else
                match conv d with
                | Some text =>
                    match args with
                    | VInt n :: args => buf ← push_all buf (text n); format_buffer conv fmt args buf
                    | _ => Oob
                    end
                | None =>
                    if d =? 99 then
                      match args with
                      | VInt n :: args => buf ← push buf (u8 n); format_buffer conv fmt args buf
                      | _ => Oob
                      end
                    else if d =? PERCENT then buf ← push buf PERCENT; format_buffer conv fmt args buf
                    else buf ← push_all buf [PERCENT; d]; format_buffer conv fmt args buf
                end
          end
        else buf ← push buf c; format_buffer conv rest args buf
    end
  else terminate buf.

(** The same text with no limit: the reference. *)
Fixpoint expand (conv : Z -> option (Z -> list Z)) (fmt : list Z) (args : list va) : option (list Z) :=
  match fmt with
  | [] => Some []
  | c :: rest =>
      if c =? PERCENT then
        match rest with
        | [] => None
        | d :: fmt =>
            if d =? 115 then
              match args with VStr s :: args => t ← expand conv fmt args; Some (s ++ t) | _ => None end
            else
              match conv d with
              | Some text =>
                  match args with VInt n :: args => t ← expand conv fmt args; Some (text n ++ t) | _ => None end
              | None =>
                  if d =? 99 then
                    match args with VInt n :: args => t ← expand conv fmt args; Some (u8 n :: t) | _ => None end
                  else if d =? PERCENT then t ← expand conv fmt args; Some (PERCENT :: t)
                  else t ← expand conv fmt args; Some (PERCENT :: d :: t)
              end
        end
      else t ← expand conv rest args; Some (c :: t)
  end.

Lemma push_all_ok cs : forall buf, (length buf + length cs <= PRINT_BUF)%nat -> push_all buf cs = Ret (buf ++ cs).
Proof.
  induction cs as [|c cs IH]; intros buf H; cbn [push_all]; [rewrite app_nil_r; reflexivity|].
  cbn [length] in H. unfold push. rewrite (proj2 (Nat.ltb_lt _ _)) by lia. unfold mbind, exec_bind.
  rewrite IH by (rewrite length_app; cbn; lia). rewrite <- app_assoc. reflexivity.
Qed.

Lemma push_ok c buf : (length buf < PRINT_BUF)%nat -> push buf c = Ret (buf ++ [c]).
Proof. intros H. unfold push. rewrite (proj2 (Nat.ltb_lt _ _)) by exact H. reflexivity. Qed.

Lemma terminate_ok buf : (length buf < PRINT_BUF)%nat -> terminate buf = Ret buf.
Proof. intros H. unfold terminate. rewrite (proj2 (Nat.ltb_lt _ _)) by exact H. reflexivity. Qed.

(** A text that fits the buffer is what the reference says. *)
Lemma format_buffer_ok conv : forall n fmt args t buf, (length fmt <= n)%nat ->
  expand conv fmt args = Some t -> (length buf + length t <= 255)%nat ->
  format_buffer conv fmt args buf = Ret (buf ++ t).
Proof.
  unfold PRINT_BUF in *. induction n as [|n IH]; intros fmt args t buf Hn E Hl.
  { destruct fmt; [|cbn in Hn; lia]. injection E as <-. rewrite app_nil_r. cbn [format_buffer length] in *.
    rewrite terminate_ok by (unfold PRINT_BUF; lia). case_match; reflexivity. }
  destruct (decide (length buf < 255)%nat) as [Hlt|Hge].
  2:{ destruct t; [|cbn in Hl; lia]. rewrite app_nil_r. cbn [length] in Hl.
      destruct fmt; cbn [format_buffer]; rewrite (proj2 (Nat.ltb_ge _ _)) by lia; apply terminate_ok; unfold PRINT_BUF; lia. }
  assert (Step : forall fmt' args' new t', (length fmt' <= n)%nat -> expand conv fmt' args' = Some t' -> t = new ++ t' ->
            format_buffer conv fmt' args' (buf ++ new) = Ret (buf ++ t)).
  { intros fmt' args' new t' Hn' E' ->. rewrite app_assoc. apply IH; [exact Hn'|exact E'|].
    rewrite length_app in *. lia. }
  destruct fmt as [|c rest]; [injection E as <-; cbn [format_buffer]; rewrite app_nil_r, terminate_ok by (unfold PRINT_BUF; lia); case_match; reflexivity|].
  cbn [format_buffer expand length] in *. rewrite (proj2 (Nat.ltb_lt _ _)) by lia. unfold mbind, exec_bind in *.
  destruct (c =? PERCENT).
  2:{ destruct (expand conv rest args) as [t'|] eqn:E'; [|discriminate E]. injection E as <-.
      rewrite push_ok by (unfold PRINT_BUF; lia). apply (Step rest args [c] t'); [lia|exact E'|reflexivity]. }
  destruct rest as [|d fmt]; [discriminate E|]. cbn [length] in Hn.
  destruct (d =? 115).
  { destruct args as [|[s|k] args]; try discriminate E.
    destruct (expand conv fmt args) as [t'|] eqn:E'; [|discriminate E]. injection E as <-. rewrite length_app in Hl.
    rewrite take_ge by lia. rewrite push_all_ok by (unfold PRINT_BUF; lia). apply (Step fmt args s t'); [lia|exact E'|reflexivity]. }
  destruct (conv d) as [text|].
  { destruct args as [|[s|k] args]; try discriminate E.
    destruct (expand conv fmt args) as [t'|] eqn:E'; [|discriminate E]. injection E as <-. rewrite length_app in Hl.
    rewrite push_all_ok by (unfold PRINT_BUF; lia). apply (Step fmt args (text k) t'); [lia|exact E'|reflexivity]. }
  destruct (d =? 99).
  { destruct args as [|[s|k] args]; try discriminate E.
    destruct (expand conv fmt args) as [t'|] eqn:E'; [|discriminate E]. injection E as <-.
    rewrite push_ok by (unfold PRINT_BUF; lia). apply (Step fmt args [u8 k] t'); [lia|exact E'|reflexivity]. }
  destruct (d =? PERCENT); (destruct (expand conv fmt args) as [t'|] eqn:E'; [|discriminate E]; injection E as <-).
  - rewrite push_ok by (unfold PRINT_BUF; lia). apply (Step fmt args [PERCENT] t'); [lia|exact E'|reflexivity].
  - cbn [length] in Hl. rewrite push_all_ok by (unfold PRINT_BUF; cbn [length]; lia).
    apply (Step fmt args [PERCENT; d] t'); [lia|exact E'|reflexivity].
Qed.

(** The digits of a word are its value. *)
Definition value_of (base : Z) (ds : list Z) : Z := foldl (fun v d => base * v + d) 0 ds.

Lemma digits_rev_value base : 2 <= base -> forall fuel n, 0 <= n < base ^ Z.of_nat fuel ->
  foldr (fun d v => d + base * v) 0 (digits_rev fuel base (fun d => d) n) = n.
Proof.
  intros Hb. induction fuel as [|fuel IH]; intros n Hn; [cbn in *; lia|].
  cbn [digits_rev]. destruct (Z.eqb_spec n 0) as [->|Hne]; [reflexivity|].
  rewrite Nat2Z.inj_succ, Z.pow_succ_r in Hn by lia. cbn [foldr]. rewrite IH.
  - pose proof (Z.div_mod n base ltac:(lia)). lia.
  - split; [apply Z.div_pos; lia|apply Z.div_lt_upper_bound; lia].
Qed.

Lemma digits_rev_map fuel base digit : forall n,
  digits_rev fuel base digit n = digit <$> digits_rev fuel base (fun d => d) n.
Proof.
  induction fuel as [|fuel IH]; intros n; [reflexivity|]. cbn [digits_rev].
  destruct (n =? 0); [reflexivity|]. rewrite IH. reflexivity.
Qed.

Lemma digits_rev_range base : 2 <= base -> forall fuel n, Forall (fun d => 0 <= d < base) (digits_rev fuel base (fun d => d) n).
Proof.
  intros Hb. induction fuel as [|fuel IH]; intros n; [constructor|]. cbn [digits_rev].
  destruct (n =? 0); constructor; [apply Z.mod_pos_bound; lia|apply IH].
Qed.

Lemma length_digits_rev base digit : forall fuel n, (length (digits_rev fuel base digit n) <= fuel)%nat.
Proof.
  induction fuel as [|fuel IH]; intros n; [cbn; lia|]. cbn [digits_rev]. destruct (n =? 0); cbn [length]; [lia|].
  specialize (IH (n / base)). lia.
Qed.

(** A number is printed with the digits of its value. *)
Lemma number_digits base digit n : 2 <= base -> 0 <= n < base ^ 16 -> digit 0 = 48 ->
  exists ds, number base digit n = digit <$> ds /\ value_of base ds = n /\
    Forall (fun d => 0 <= d < base) ds /\ (length ds <= 16)%nat.
Proof.
  intros Hb Hn H0. unfold number. destruct (Z.eqb_spec n 0) as [->|Hne].
  - exists [0]. cbn. rewrite H0. split; [reflexivity|]. split; [lia|]. split; [constructor; [lia|constructor]|lia].
  - exists (rev (digits_rev 16 base (fun d => d) n)). split; [rewrite digits_rev_map; symmetry; apply map_rev|].
    split; [|split; [apply Forall_rev, digits_rev_range, Hb|rewrite length_rev; apply length_digits_rev]].
    rewrite <- (digits_rev_value base Hb 16 n Hn) at 2. unfold value_of.
    generalize (digits_rev 16 base (fun d => d) n) as l. induction l as [|d l IH]; [reflexivity|].
    cbn [rev foldr]. rewrite foldl_app. cbn [foldl]. rewrite IH. lia.
Qed.
