(* ===== verification/Serial.v ===== *)
(** * The serial port (drivers/serial.c)

    The log channel.  A character is written after polling the line status
    register until the transmitter is empty; the polling loops of the code are
    unbounded and take fuel here.  The theorem shows, for a port that becomes
    ready within that many polls ([uart_ready]), that a print terminates, sends
    exactly the formatted text, and never writes to a busy transmitter. *)

From S2P Require Import Prelude PortIO Text.
Local Open Scope Z_scope.
Local Open Scope sros_scope.

Definition SERIAL_COM1 : Z := 0x3F8.
Definition REG_DATA : Z := 0.
Definition REG_INTR_EN : Z := 1.
Definition REG_FIFO : Z := 2.
Definition REG_LINE_CTL : Z := 3.
Definition REG_MODEM_CTL : Z := 4.
Definition REG_LINE_STAT : Z := 5.
Definition LSR_TX_READY : Z := Z.shiftl 1 5.

Definition serial_init (port baud_divisor : Z) : io unit :=
  _ ← outb (port + REG_INTR_EN) 0x00;
  _ ← outb (port + REG_LINE_CTL) 0x80;
  _ ← outb (port + REG_DATA) (u8 (baud_divisor .& 0xFF));
  _ ← outb (port + REG_INTR_EN) (u8 (Z.shiftr baud_divisor 8 .& 0xFF));
  _ ← outb (port + REG_LINE_CTL) 0x03;
  _ ← outb (port + REG_FIFO) 0xC7;
  outb (port + REG_MODEM_CTL) 0x0B.

Section serial.
Context (fuel : nat) (port : Z).

Definition tx_ready : io bool :=
  st ← inb (port + REG_LINE_STAT);
  mret (c_true (st .& LSR_TX_READY)).

Definition serial_putc (c : Z) : io unit :=
  r ← poll fuel tx_ready;
  if (r : bool) then outb port (u8 c) else fun _ _ => None.

Fixpoint serial_puts (s : list Z) : io unit :=
  match s with
  | [] => mret tt
  | c :: s =>
      _ ← (if c =? NL then serial_putc CR else mret tt);
      _ ← serial_putc c;
      serial_puts s
  end.

Definition serial_puthex (val : Z) : io unit :=
  _ ← serial_puts (chars "0x");
  for_each hex_shifts (fun i => serial_putc (hex !!! Z.to_nat (Z.shiftr val i .& 0xF))).

(** [true] when every directive found its argument; [false] where the code
    would read past the format or the arguments. *)
Fixpoint serial_printf (fmt : list Z) (args : list va) : io bool :=
  match fmt with
  | [] => mret true
  | c :: fmt =>
      if c =? PERCENT then
        match fmt with
        | [] => mret false
        | d :: fmt =>
            if d =? 115 then
              match args with
              | VStr s :: args => _ ← serial_puts s; serial_printf fmt args
              | _ => mret false
              end
            else if (d =? 100) || (d =? 120) then
              match args with
              | VInt n :: args => _ ← serial_puthex n; serial_printf fmt args
              | _ => mret false
              end
            else if d =? 99 then
              match args with
              | VInt n :: args => _ ← serial_putc (i8 n); serial_printf fmt args
              | _ => mret false
              end
            else if d =? PERCENT then _ ← serial_putc PERCENT; serial_printf fmt args
            else _ ← serial_putc PERCENT; _ ← serial_putc d; serial_printf fmt args
        end
      else _ ← serial_putc c; serial_printf fmt args
  end.

(** ** The port *)

(** The transmitter reports ready within [n] polls from history [h]. *)
Fixpoint ready_within (n : nat) (dev : device) (h : history) : Prop :=
  match n with
  | O => False
  | S n =>
      let v := dev h 1 (u16 (port + REG_LINE_STAT)) mod 256 in
      c_true (v .& LSR_TX_READY) = true \/
      ready_within n dev (h ++ [In 1 (u16 (port + REG_LINE_STAT)) v])
  end.

(** From every history on. *)
Definition uart_ready (dev : device) : Prop := forall h, ready_within fuel dev h.

(** A run that sends the bytes of a text, each after polls of which the last
    found the transmitter ready. *)
Inductive sends : history -> list Z -> Prop :=
  | sends_nil : sends [] []
  | sends_byte busy s c evs cs :
      Forall (fun e => exists v, e = In 1 (u16 (port + REG_LINE_STAT)) v /\
                                 c_true (v .& LSR_TX_READY) = false) busy ->
      c_true (s .& LSR_TX_READY) = true ->
      sends evs cs ->
      sends (busy ++ In 1 (u16 (port + REG_LINE_STAT)) s :: Out 1 (u16 port) (u8 c) :: evs) (u8 c :: cs).

(** [m] returns [x] and sends [text], whatever happened before. *)
Definition sent_by {A} (dev : device) (m : io A) (x : A) (text : list Z) : Prop :=
  forall h, exists evs, m dev h = Some (x, h ++ evs) /\ sends evs text.
End serial.

(** What the port makes of a string: newlines become CR LF. *)
Definition crlf (s : list Z) : list Z := s ≫= (fun c => if c =? NL then [CR; NL] else [c]).

Section correct.
Context (fuel : nat) (port : Z) (dev : device) (Hready : uart_ready fuel port dev).

Lemma sends_app e1 t1 e2 t2 : sends port e1 t1 -> sends port e2 t2 -> sends port (e1 ++ e2) (t1 ++ t2).
Proof.
  induction 1 as [|busy s c evs cs Hb Hs _ IH]; intros H2; [exact H2|].
  rewrite <- app_assoc. cbn. constructor; auto.
Qed.

Lemma sends_outs evs text : sends port evs text -> outs (u16 port) evs = text.
Proof.
  induction 1 as [|busy s c evs cs Hb _ _ IH]; [reflexivity|].
  rewrite outs_app. cbn [outs]. rewrite Z.eqb_refl, IH.
  induction Hb as [|e busy (v & -> & _) _ IHb]; [reflexivity|]. exact IHb.
Qed.

Lemma sent_ret {A} (x : A) : sent_by port dev (mret x) x [].
Proof. intros h. exists []. rewrite app_nil_r. split; [reflexivity|constructor]. Qed.

Lemma sent_bind {A B} (m : io A) (f : A -> io B) x y t1 t2 :
  sent_by port dev m x t1 -> sent_by port dev (f x) y t2 -> sent_by port dev (m ≫= f) y (t1 ++ t2).
Proof.
  intros Hm Hf h. destruct (Hm h) as (e1 & E1 & S1). destruct (Hf (h ++ e1)) as (e2 & E2 & S2).
  exists (e1 ++ e2). unfold mbind, io_bind. rewrite E1, E2, app_assoc.
  split; [reflexivity|]. apply sends_app; assumption.
Qed.

Lemma tx_ready_run h :
  tx_ready port dev h =
    let v := dev h 1 (u16 (port + REG_LINE_STAT)) mod 256 in
    Some (c_true (v .& LSR_TX_READY), h ++ [In 1 (u16 (port + REG_LINE_STAT)) v]).
Proof. reflexivity. Qed.

Lemma poll_ready n h : ready_within port n dev h ->
  exists busy s, poll n (tx_ready port) dev h = Some (true, h ++ busy ++ [In 1 (u16 (port + REG_LINE_STAT)) s]) /\
    Forall (fun e => exists v, e = In 1 (u16 (port + REG_LINE_STAT)) v /\
                               c_true (v .& LSR_TX_READY) = false) busy /\
    c_true (s .& LSR_TX_READY) = true.
Proof.
  revert h. induction n as [|n IH]; intros h H; [destruct H|].
  cbn [poll]. unfold mbind, io_bind. rewrite tx_ready_run. cbv zeta.
  cbn [ready_within] in H. set (v := dev h 1 _ mod 256) in *.
  destruct (c_true (v .& LSR_TX_READY)) eqn:E.
  - exists [], v. repeat split; [constructor|exact E].
  - destruct H as [H|H]; [congruence|].
    destruct (IH _ H) as (busy & s & E1 & Hb & Hs). unfold mbind, io_bind in E1. rewrite E1.
    exists (In 1 (u16 (port + REG_LINE_STAT)) v :: busy), s. rewrite <- !app_assoc. repeat split; [|exact Hs].
    constructor; [eauto|exact Hb].
Qed.

Lemma serial_putc_sent c : sent_by port dev (serial_putc fuel port c) tt [u8 c].
Proof.
  intros h. destruct (poll_ready fuel h (Hready h)) as (busy & s & E & Hb & Hs).
  unfold serial_putc, mbind, io_bind. rewrite E. unfold outb. 
  exists (busy ++ [In 1 (u16 (port + REG_LINE_STAT)) s; Out 1 (u16 port) (u8 c)]). split.
  - rewrite <- !app_assoc. rewrite (u8_small (u8 c)) by apply u8_range. reflexivity.
  - apply sends_byte; [exact Hb|exact Hs|constructor].
Qed.

Lemma serial_puts_sent s : sent_by port dev (serial_puts fuel port s) tt (u8 <$> crlf s).
Proof.
  induction s as [|c s IH]; [apply sent_ret|].
  cbn [serial_puts crlf mbind list_bind]. change (list_bind _ _ _ s) with (crlf s).
  rewrite fmap_app. destruct (Z.eqb_spec c NL) as [->|Hc].
  - change (u8 <$> [CR; NL]) with ([u8 CR] ++ [u8 NL]). rewrite <- app_assoc.
    eapply sent_bind; [apply serial_putc_sent|]. eapply sent_bind; [apply serial_putc_sent|exact IH].
  - eapply (sent_bind _ _ tt tt []); [apply sent_ret|].
    apply (sent_bind _ _ tt tt [u8 c]); [apply serial_putc_sent|exact IH].
Qed.

Lemma for_each_sent {A} (xs : list A) body (w : A -> list Z) :
  (forall x, sent_by port dev (body x) tt (w x)) -> sent_by port dev (for_each xs body) tt (xs ≫= w).
Proof.
  intros Hb. induction xs as [|x xs IH]; [apply sent_ret|]. cbn. eapply sent_bind; [apply Hb|exact IH].
Qed.

Lemma serial_puthex_sent n : sent_by port dev (serial_puthex fuel port n) tt (u8 <$> hex_word n).
Proof.
  unfold serial_puthex, hex_word. rewrite fmap_app. eapply sent_bind; [apply serial_puts_sent|].
  unfold hex_digits. rewrite <- list_fmap_compose. 
  apply (for_each_sent _ _ (fun i => [u8 (hex !!! Z.to_nat (Z.shiftr n i .& 0xF))])).
  intros i. apply serial_putc_sent.
Qed.

Lemma u8_i8 n : u8 (i8 n) = u8 n.
Proof. unfold i8, signed, u8. case_if; mlia. Qed.

Lemma serial_printf_sent fmt args text : formats crlf fmt args text ->
  sent_by port dev (serial_printf fuel port fmt args) true (u8 <$> text).
Proof.
  induction 1 as [args|c fmt args t Hc _ IH|s fmt args t _ IH|d n fmt args t Hd _ IH|n fmt args t _ IH
                 |fmt args t _ IH|d fmt args t H1 H2 H3 H4 H5 _ IH]; cbn [serial_printf].
  - apply sent_ret.
  - rewrite (proj2 (Z.eqb_neq _ _) Hc). apply (sent_bind _ _ tt _ [_]); [apply serial_putc_sent|exact IH].
  - rewrite fmap_app. eapply sent_bind; [apply serial_puts_sent|exact IH].
  - rewrite fmap_app. destruct Hd as [->| ->]; (eapply sent_bind; [apply serial_puthex_sent|exact IH]).
  - apply (sent_bind _ _ tt _ [u8 n]); [rewrite <- u8_i8; apply serial_putc_sent|exact IH].
  - apply (sent_bind _ _ tt _ [_]); [apply serial_putc_sent|exact IH].
  - change (PERCENT =? PERCENT) with true. 
    rewrite !(proj2 (Z.eqb_neq _ _)) by assumption. cbn [orb].
    apply (sent_bind _ _ tt _ [_]); [apply serial_putc_sent|].
    apply (sent_bind _ _ tt _ [_]); [apply serial_putc_sent|exact IH].
Qed.
End correct.

(** ** The theorem *)

(** On a port whose transmitter becomes ready within the polls allowed, from any
    point on, serial_printf terminates, sends exactly the formatted text, with
    CR LF for the newlines of string arguments and eight hexadecimal digits for
    a number (which determine it), and writes a byte only after the last poll
    found the transmitter ready. *)
Theorem serial_printf_output fuel port dev fmt args text :
  uart_ready fuel port dev -> format_text crlf fmt args = Some text ->
  (forall h, exists evs, serial_printf fuel port fmt args dev h = Some (true, h ++ evs) /\
    sends port evs (u8 <$> text) /\ outs (u16 port) evs = u8 <$> text) /\
  forall n, VInt n ∈ args -> is_u32 n -> hex_value (drop 2 (hex_word n)) = n.
Proof.
  intros Hr Hf. split.
  - intros h. destruct (serial_printf_sent _ _ _ Hr _ _ _ (format_text_formats _ _ _ _ Hf) h) as (evs & E & Hs).
    exists evs. split; [exact E|]. split; [exact Hs|]. apply sends_outs, Hs.
  - intros n _ Hn. apply hex_value_digits, Hn.
Qed.

(** A port that is busy for two polls after every byte. *)
Definition slow_uart : device := fun h _ _ =>
  match rev (take 2 (rev h)) with
  | [In _ _ _; In _ _ _] => LSR_TX_READY
  | _ => 0
  end.

Lemma slow_uart_ready : uart_ready 4 SERIAL_COM1 slow_uart.
Proof.
  intros h. unfold ready_within. set (e v := In 1 (u16 (SERIAL_COM1 + REG_LINE_STAT)) v).
  assert (E : forall v w h, slow_uart ((h ++ [e v]) ++ [e w]) 1 (u16 (SERIAL_COM1 + REG_LINE_STAT)) = LSR_TX_READY).
  { intros v w h'. unfold slow_uart. rewrite !rev_app_distr. reflexivity. }
  right. right. left. fold (e 0). rewrite E. reflexivity.
Qed.

Lemma serial_printf_output_witness :
  exists evs, serial_printf 4 SERIAL_COM1 (chars "n=%d %s") [VInt 0x2A; VStr [NL]] slow_uart [] = Some (true, evs) /\
    outs SERIAL_COM1 evs = chars "n=0x0000002A " ++ [CR; NL].
Proof.
  destruct (serial_printf_output 4 SERIAL_COM1 slow_uart (chars "n=%d %s") [VInt 0x2A; VStr [NL]]
              (chars "n=0x0000002A " ++ [CR; NL]) slow_uart_ready eq_refl) as [H _].
  destruct (H []) as (evs & E & _ & O). exists evs. split; [exact E|]. exact O.
Defined.
