(* ===== verification/Sound.v ===== *)
(** * Sound (drivers/sound.c, include/sound.h)

    The PC speaker on the timer chip's third counter, and the Sound Blaster 16 on DMA
    channel 1.  Both routines wait with [hlt] until interrupt handlers have changed
    a static: what happens until the processor goes on is the parameter [wake].
    The statics are the driver's, with [timer_ticks] of irq.c (one variable with
    the scheduler's, see Irq).  [Panic] is the divide error of a sample rate of 0,
    [Oob] a wait that takes more than [fuel] interrupts. *)

From S2P Require Import Prelude PortIO.
Local Open Scope Z_scope.
Local Open Scope sros_scope.

Definition PIT_BASE_FREQ : Z := 1193180.
Definition SB16_BASE : Z := 0x220.
Definition SB16_DSP_RESET : Z := SB16_BASE + 6.
Definition SB16_DSP_READ : Z := SB16_BASE + 0xA.
Definition SB16_DSP_WRITE : Z := SB16_BASE + 0xC.
Definition SB16_DSP_STATUS : Z := SB16_BASE + 0xE.
Definition SB16_CMD_SPEAKER_ON : Z := 0xD1.
Definition SB16_CMD_GET_VERSION : Z := 0xE1.
Definition SB16_CMD_SET_TIME : Z := 0x40.
Definition SB16_CMD_SET_BLOCK : Z := 0x48.
Definition SB16_CMD_DMA_8BIT : Z := 0x14.
Definition SB16_CMD_HALT_8BIT : Z := 0xD5.
Definition DMA_ADDR_CH1 : Z := 0x02.
Definition DMA_COUNT_CH1 : Z := 0x03.
Definition DMA_PAGE_CH1 : Z := 0x83.
Definition DMA_MASK_REG : Z := 0x0A.
Definition DMA_MODE_REG : Z := 0x0B.
Definition DMA_FLIP_FLOP : Z := 0x0C.
Definition SB16_AUTO_BLOCK : Z := 32768.

Record sound : Type := mk_sound { sb16_playing : Z; sb16_irq_fired : Z; ticks : Z }.

Definition set_playing (p : Z) (s : sound) : sound := mk_sound p (sb16_irq_fired s) (ticks s).
Definition set_fired (f : Z) (s : sound) : sound := mk_sound (sb16_playing s) f (ticks s).
Definition set_ticks (t : Z) (s : sound) : sound := mk_sound (sb16_playing s) (sb16_irq_fired s) t.

Definition sop (A : Type) : Type := sound * history -> exec (A * (sound * history)).

#[export] Instance sop_ret : MRet sop := fun A x st => Ret (x, st).
#[export] Instance sop_bind : MBind sop := fun A B f m st =>
  match m st with Ret (x, st) => f x st | Panic => Panic | Oob => Oob end.

Definition statics : sop sound := fun st => Ret (fst st, st).
Definition change (f : sound -> sound) : sop unit := fun st => Ret (tt, (f (fst st), snd st)).

Definition no_fuel {A} : sop A := fun _ => Oob.
Definition divide_error {A} : sop A := fun _ => Panic.

Section driver.
Context (dev : device) (wake : sound * history -> sound * history).

Definition ports {A} (m : io A) : sop A := fun st =>
  match m dev (snd st) with Some (x, h) => Ret (x, (fst st, h)) | None => Oob end.
Definition halt : sop unit := fun st => Ret (tt, wake st).

(** ** PC speaker *)

Definition pcspkr_off : sop unit :=
  tmp ← ports (inb 0x61);
  ports (outb 0x61 (tmp .& Z.lnot 0x03)).

(** [while ((timer_ticks - start) < wait_ticks) halt();] *)
Fixpoint wait_ticks (fuel : nat) (start n : Z) : sop unit :=
  s ← statics;
  if u32 (ticks s - start) <? n then
    match fuel with
    | O => no_fuel
    | S fuel => _ ← halt; wait_ticks fuel start n
    end
  else mret tt.

Definition beep_ticks (ms : Z) : Z :=
  let wait_ticks := u32 (ms * 100) / 1000 in
  if wait_ticks =? 0 then 1 else wait_ticks.

Definition pcspkr_beep (fuel : nat) (frequency_hz ms : Z) : sop unit :=
  if frequency_hz =? 0 then mret tt
  else
    let divisor := PIT_BASE_FREQ / frequency_hz in
    _ ← ports (outb 0x43 0xB6);
    _ ← ports (outb 0x42 (divisor .& 0xFF));
    _ ← ports (outb 0x42 (Z.shiftr divisor 8 .& 0xFF));
    tmp ← ports (inb 0x61);
    _ ← ports (outb 0x61 (tmp .| 0x03));
    s ← statics;
    _ ← wait_ticks fuel (ticks s) (beep_ticks ms);
    pcspkr_off.

(** ** Sound Blaster 16 *)

Definition SB16_POLLS : positive := 100000.

Definition poll_write : io (option unit) :=
  st ← inb SB16_DSP_WRITE; mret (if c_true (st .& 0x80) then None else Some tt).
Definition poll_read : io (option unit) :=
  st ← inb SB16_DSP_STATUS; mret (if c_true (st .& 0x80) then Some tt else None).

Definition sb16_wait_write : io Z := r ← until SB16_POLLS poll_write; mret (if r is Some _ then 0 else -1).
Definition sb16_wait_read : io Z := r ← until SB16_POLLS poll_read; mret (if r is Some _ then 0 else -1).

Definition sb16_write (data : Z) : io unit :=
  r ← sb16_wait_write; if r <? 0 then mret tt else outb SB16_DSP_WRITE data.
Definition sb16_read : io Z :=
  r ← sb16_wait_read; if r <? 0 then mret 0 else inb SB16_DSP_READ.

Definition dma_setup_8bit (phys_addr len : Z) : io unit :=
  _ ← outb DMA_FLIP_FLOP 0x00;
  _ ← outb DMA_MASK_REG 0x05;
  _ ← outb DMA_FLIP_FLOP 0x00;
  _ ← outb DMA_MODE_REG 0x49;
  let page := Z.shiftr phys_addr 16 in
  let addr := u16 (phys_addr .& 0xFFFF) in
  _ ← outb DMA_ADDR_CH1 (addr .& 0xFF);
  _ ← outb DMA_ADDR_CH1 (Z.shiftr addr 8 .& 0xFF);
  _ ← outb DMA_PAGE_CH1 (page .& 0xFF);
  let count := u16 (u32 (len - 1)) in
  _ ← outb DMA_COUNT_CH1 (count .& 0xFF);
  _ ← outb DMA_COUNT_CH1 (Z.shiftr count 8 .& 0xFF);
  outb DMA_MASK_REG 0x01.

Definition sb16_init : io Z :=
  _ ← outb SB16_DSP_RESET 1;
  _ ← outb SB16_DSP_RESET 0;
  data ← sb16_read;
  if negb (data =? 0xAA) then mret (-1)
  else
    _ ← sb16_write SB16_CMD_GET_VERSION;
    ver_major ← sb16_read;
    ver_minor ← sb16_read;
    if ver_major <? 4 then mret (-1)
    else _ ← sb16_write SB16_CMD_SPEAKER_ON; mret 0.

Definition sb16_handler : sop unit :=
  _ ← change (set_fired 1);
  _ ← change (set_playing 0);
  _ ← ports (inb SB16_DSP_STATUS);
  mret tt.

(** [while (sb16_playing) halt();] *)
Fixpoint wait_played (fuel : nat) : sop unit :=
  s ← statics;
  if c_true (sb16_playing s) then
    match fuel with
    | O => no_fuel
    | S fuel => _ ← halt; wait_played fuel
    end
  else mret tt.

(** From the sample rate to the last byte of the command. *)
Definition sb16_program (data len sample_rate : Z) : io unit :=
  let time_const := u32 (256 - 1000000 / sample_rate) in
  _ ← sb16_write SB16_CMD_SET_TIME;
  _ ← sb16_write (u8 (time_const .& 0xFF));
  _ ← dma_setup_8bit data len;
  _ ← (if SB16_AUTO_BLOCK <? len then
         let block_size := u16 (SB16_AUTO_BLOCK - 1) in
         _ ← sb16_write SB16_CMD_SET_BLOCK;
         _ ← sb16_write (u8 (block_size .& 0xFF));
         sb16_write (u8 (Z.shiftr block_size 8 .& 0xFF))
       else mret tt);
  let dma_len := u16 (u32 (len - 1)) in
  _ ← sb16_write SB16_CMD_DMA_8BIT;
  _ ← sb16_write (u8 (dma_len .& 0xFF));
  sb16_write (u8 (Z.shiftr dma_len 8 .& 0xFF)).

(** [data] is the address of the samples. *)
Definition sb16_play_8bit (fuel : nat) (data len sample_rate : Z) : sop Z :=
  s ← statics;
  if c_true (sb16_playing s) then mret (-1)
  else if len =? 0 then mret (-1)
  else
    _ ← change (set_playing 1);
    _ ← change (set_fired 0);
    if sample_rate =? 0 then divide_error
    else
      _ ← ports (sb16_program data len sample_rate);
      _ ← wait_played fuel;
      mret 0.

Definition sb16_stop : sop unit :=
  s ← statics;
  if sb16_playing s =? 0 then mret tt
  else _ ← ports (sb16_write SB16_CMD_HALT_8BIT); change (set_playing 0).

Definition sb16_is_playing : sop Z := s ← statics; mret (sb16_playing s).
End driver.

(** ** What a routine writes *)

Section drives.
Context (dev : device).

(** [m] returns, and its writes are [ws]. *)
Definition drives {A} (m : io A) (x : A) (ws : list (Z * Z)) : Prop :=
  forall h, exists evs, m dev h = Some (x, h ++ evs) /\ writes_of evs = ws.

Lemma drives_ret {A} (x : A) : drives (mret x) x [].
Proof. intros h. exists []. rewrite app_nil_r. auto. Qed.

Lemma drives_bind {A B} (m : io A) (f : A -> io B) x y w1 w2 : drives m x w1 -> drives (f x) y w2 -> drives (m ≫= f) y (w1 ++ w2).
Proof.
  intros Hm Hf h. destruct (Hm h) as (e1 & E1 & W1). destruct (Hf (h ++ e1)) as (e2 & E2 & W2). exists (e1 ++ e2).
  unfold mbind, io_bind. rewrite E1, E2, app_assoc, writes_of_app, W1, W2. auto.
Qed.

Lemma drives_outb p v : drives (outb p v) tt [(u16 p, u8 v)].
Proof. intros h. exists [Out 1 (u16 p) (u8 v)]. auto. Qed.

(** One poll reads a port; so do as many as are needed. *)
Lemma finds_quiet {A} p (f : Z -> option A) x n h h' : finds dev (st ← inb p; mret (f st)) x n h h' -> exists evs, h' = h ++ evs /\ writes_of evs = [].
Proof.
  induction 1 as [n h h' E|n h h1 h' E _ IH].
  - unfold mbind, io_bind, inb, inw_width, mret, io_ret in E. injection E as _ <-. eexists. split; [reflexivity|reflexivity].
  - unfold mbind, io_bind, inb, inw_width, mret, io_ret in E. injection E as _ <-. destruct IH as (evs & -> & W).
    rewrite <- app_assoc. eexists. split; [reflexivity|exact W].
Qed.

(** The signal processor takes bytes in time, as its manual promises. *)
Definition dsp_ready : Prop := forall h, exists h', finds dev poll_write tt (Pos.to_nat SB16_POLLS) h h'.

Context (Hready : dsp_ready).

Lemma drives_sb16_write v : drives (sb16_write v) tt [(SB16_DSP_WRITE, u8 v)].
Proof.
  intros h. destruct (Hready h) as (h' & F). pose proof (until_finds _ _ _ _ _ _ F) as E. destruct (finds_quiet _ _ _ _ _ _ F) as (evs & -> & W).
  exists (evs ++ [Out 1 SB16_DSP_WRITE (u8 v)]). unfold sb16_write, sb16_wait_write, mbind, io_bind. rewrite E. cbn [mret io_ret].
  unfold mret, io_ret. change (0 <? 0) with false. cbv iota. rewrite writes_of_app, W, app_assoc. split; reflexivity.
Qed.

Lemma drives_dma a n : drives (dma_setup_8bit a n) tt
  [(DMA_FLIP_FLOP, 0); (DMA_MASK_REG, 5); (DMA_FLIP_FLOP, 0); (DMA_MODE_REG, 0x49);
   (DMA_ADDR_CH1, u8 (u16 (a .& 0xFFFF) .& 0xFF)); (DMA_ADDR_CH1, u8 (Z.shiftr (u16 (a .& 0xFFFF)) 8 .& 0xFF)); (DMA_PAGE_CH1, u8 (Z.shiftr a 16 .& 0xFF));
   (DMA_COUNT_CH1, u8 (u16 (u32 (n - 1)) .& 0xFF)); (DMA_COUNT_CH1, u8 (Z.shiftr (u16 (u32 (n - 1))) 8 .& 0xFF)); (DMA_MASK_REG, 1)].
Proof.
  unfold dma_setup_8bit. cbv zeta. repeat (eapply (drives_bind _ _ tt tt [_]); [apply drives_outb|]). apply drives_outb.
Qed.
End drives.

(** ** Steps with the statics *)

Section steps.
Context (dev : device).

(** The statics end as [s'], and the writes are [ws]. *)
Definition performs {A} (m : sop A) (s : sound) (x : A) (s' : sound) (ws : list (Z * Z)) : Prop :=
  forall h, exists evs, m (s, h) = Ret (x, (s', h ++ evs)) /\ writes_of evs = ws.

Lemma performs_ret {A} (x : A) s : performs (mret x) s x s [].
Proof. intros h. exists []. rewrite app_nil_r. auto. Qed.

Lemma performs_bind {A B} (m : sop A) (f : A -> sop B) s x s1 y s2 w1 w2 :
  performs m s x s1 w1 -> performs (f x) s1 y s2 w2 -> performs (m ≫= f) s y s2 (w1 ++ w2).
Proof.
  intros Hm Hf h. destruct (Hm h) as (e1 & E1 & W1). destruct (Hf (h ++ e1)) as (e2 & E2 & W2). exists (e1 ++ e2).
  split; [|rewrite writes_of_app, W1, W2; reflexivity]. unfold mbind, sop_bind. rewrite E1, app_assoc. exact E2.
Qed.

Lemma performs_ports {A} (m : io A) x ws s : drives dev m x ws -> performs (ports dev m) s x s ws.
Proof. intros H h. destruct (H h) as (evs & E & W). exists evs. unfold ports. cbn [fst snd]. rewrite E. auto. Qed.

Lemma performs_change f s : performs (change f) s tt (f s) [].
Proof. intros h. exists []. rewrite app_nil_r. auto. Qed.

Lemma performs_statics s : performs statics s s s [].
Proof. intros h. exists []. rewrite app_nil_r. auto. Qed.
End steps.

(** ** Waiting *)

(** After [n] times [hlt] the playback is over, and not before. *)
Inductive stops (wake : sound * history -> sound * history) : nat -> sound * history -> sound * history -> Prop :=
  | stops_now st : sb16_playing (fst st) = 0 -> stops wake 0 st st
  | stops_later n st st' : sb16_playing (fst st) <> 0 -> stops wake n (wake st) st' -> stops wake (S n) st st'.

Lemma wait_played_stops wake n st st' : stops wake n st st' -> forall fuel, (n <= fuel)%nat -> wait_played wake fuel st = Ret (tt, st').
Proof.
  induction 1 as [st H|n st st' H _ IH]; intros fuel Hf.
  - assert (E : c_true (sb16_playing (fst st)) = false) by (unfold c_true; rewrite H; reflexivity).
    destruct fuel; cbn [wait_played]; unfold mbind, sop_bind, statics; cbv beta iota; rewrite E; reflexivity.
  - assert (E : c_true (sb16_playing (fst st)) = true) by (unfold c_true; destruct (Z.eqb_spec (sb16_playing (fst st)) 0); [contradiction|reflexivity]).
    destruct fuel as [|fuel]; [lia|]. cbn [wait_played]. unfold mbind, sop_bind, statics. cbv beta iota. rewrite E. unfold halt. cbv beta iota. apply IH. lia.
Qed.

(** Each [hlt] ends with [per] more ticks: a timer interrupt counts two, one in
    [timer_handler] and one in [scheduler_tick]. *)
Definition ticking (per : Z) (wake : sound * history -> sound * history) : Prop :=
  forall st, wake st = (set_ticks (u32 (ticks (fst st) + per)) (fst st), snd st).

(** [n] rounded up to a multiple of [per]. *)
Definition round_up (per n : Z) : Z := per * ((n + per - 1) / per).

Lemma round_up_bounds per n : 0 < per -> n <= round_up per n < n + per.
Proof. intros Hp. unfold round_up. pose proof (Z.div_mod (n + per - 1) per ltac:(lia)). pose proof (Z.mod_pos_bound (n + per - 1) per Hp). lia. Qed.

Lemma round_up_stop per n k : 0 < per -> n <= per * k < n + per -> round_up per n = per * k.
Proof. intros Hp H. pose proof (round_up_bounds per n Hp). unfold round_up in *. f_equal. nia. Qed.

Lemma wait_ticks_spec per wake start n : ticking per wake -> 0 < per -> 0 <= n -> n + per < 4294967296 -> is_u32 start ->
  forall fuel k s h, per * k < n + per -> ticks s = u32 (start + per * k) -> 0 <= k -> (Z.to_nat (round_up per n - per * k) <= fuel)%nat ->
  wait_ticks wake fuel start n (s, h) = Ret (tt, (set_ticks (u32 (start + round_up per n)) s, h)).
Proof.
  intros Hw Hp Hn Hb Hs. pose proof (round_up_bounds per n Hp) as Hr. induction fuel as [|fuel IH]; intros k s h Hk Ht H0 Hf;
    cbn [wait_ticks]; unfold mbind, sop_bind, statics; cbv beta iota; cbn [fst]; rewrite Ht;
    (replace (u32 (u32 (start + per * k) - start)) with (per * k) by (assert (0 <= per * k) by nia; word));
    destruct (Z.ltb_spec (per * k) n).
  - lia.
  - rewrite (round_up_stop per n k Hp) by lia. unfold mret, sop_ret. rewrite <- Ht. destruct s. reflexivity.
  - unfold halt. cbv beta iota. rewrite Hw. cbn [fst snd].
    assert (Et : u32 (ticks s + per) = u32 (start + per * (k + 1))) by (rewrite Ht; word).
    rewrite (IH (k + 1)); [destruct s; reflexivity|lia|exact Et|lia|lia].
  - rewrite (round_up_stop per n k Hp) by lia. unfold mret, sop_ret. rewrite <- Ht. destruct s. reflexivity.
Qed.

(** ** Properties *)

(** What the card's DMA channel and its processor are told: the low 24 bits of
    the address, the number of bytes less one, and the sample rate. *)
Definition dma_program (a n : Z) : list (Z * Z) :=
  [(DMA_FLIP_FLOP, 0); (DMA_MASK_REG, 5); (DMA_FLIP_FLOP, 0); (DMA_MODE_REG, 0x49)] ++
  ((fun b => (DMA_ADDR_CH1, b)) <$> le_bytes 2 a) ++ [(DMA_PAGE_CH1, (a / 65536) mod 256)] ++
  ((fun b => (DMA_COUNT_CH1, b)) <$> le_bytes 2 (n - 1)) ++ [(DMA_MASK_REG, 1)].

Definition dsp_program (bytes : list Z) : list (Z * Z) := (fun b => (SB16_DSP_WRITE, b)) <$> bytes.

Definition play_program (a n rate : Z) : list (Z * Z) :=
  dsp_program [SB16_CMD_SET_TIME; (256 - 1000000 / rate) mod 256] ++ dma_program a n ++
  (if 32768 <? n then dsp_program [SB16_CMD_SET_BLOCK; 0xFF; 0x7F] else []) ++
  dsp_program (SB16_CMD_DMA_8BIT :: le_bytes 2 (n - 1)).

Lemma low_byte z : u8 (z .& 0xFF) = z mod 256.
Proof. change 0xFF with (Z.ones 8). rewrite Z.land_ones by lia. change (2 ^ 8) with 256. unfold u8. apply Z.mod_mod. lia. Qed.

Lemma next_byte z : u8 (Z.shiftr z 8 .& 0xFF) = (z / 256) mod 256.
Proof. rewrite low_byte, Z.shiftr_div_pow2 by lia. reflexivity. Qed.

Lemma drives_dma_program dev a n : is_u32 n -> drives dev (dma_setup_8bit a n) tt (dma_program a n).
Proof.
  intros Hn. pose proof (drives_dma dev a n) as H. rewrite !next_byte, !low_byte in H.
  assert (Ea : u16 (a .& 0xFFFF) = a mod 65536) by (change 0xFFFF with (Z.ones 16); rewrite Z.land_ones by lia; word).
  assert (Ep : Z.shiftr a 16 = a / 65536) by (rewrite Z.shiftr_div_pow2 by lia; reflexivity). rewrite Ea, Ep in H.
  assert (E : dma_program a n = [(DMA_FLIP_FLOP, 0); (DMA_MASK_REG, 5); (DMA_FLIP_FLOP, 0); (DMA_MODE_REG, 0x49);
     (DMA_ADDR_CH1, (a mod 65536) mod 256); (DMA_ADDR_CH1, (a mod 65536 / 256) mod 256); (DMA_PAGE_CH1, (a / 65536) mod 256);
     (DMA_COUNT_CH1, u16 (u32 (n - 1)) mod 256); (DMA_COUNT_CH1, (u16 (u32 (n - 1)) / 256) mod 256); (DMA_MASK_REG, 1)]).
  { unfold dma_program. cbn [le_bytes fmap list_fmap app]. unfold is_u32 in Hn. repeat (f_equal; try word). }
  rewrite E. exact H.
Qed.

Lemma drives_program dev a n rate : dsp_ready dev -> is_u32 n -> drives dev (sb16_program a n rate) tt (play_program a n rate).
Proof.
  intros Hr Hn. unfold sb16_program, play_program, dsp_program. cbv zeta.
  assert (W : forall v w, u8 v = w -> drives dev (sb16_write v) tt [(SB16_DSP_WRITE, w)]) by (intros v w <-; apply drives_sb16_write, Hr).
  assert (El : u16 (u32 (n - 1)) mod 256 = (n - 1) mod 256) by word.
  assert (Eh : (u16 (u32 (n - 1)) / 256) mod 256 = ((n - 1) / 256) mod 256) by word.
  cbn [fmap list_fmap le_bytes]. rewrite <- El, <- Eh.
  change (drives dev ?m tt ([?x; ?y] ++ ?l)) with (drives dev m tt ([x] ++ [y] ++ l)).
  eapply drives_bind; [apply W; reflexivity|]. eapply drives_bind; [apply W; rewrite low_byte; word|].
  eapply drives_bind; [apply drives_dma_program, Hn|]. eapply drives_bind.
  - unfold SB16_AUTO_BLOCK. destruct (32768 <? n); [|apply drives_ret].
    eapply (drives_bind _ _ _ tt tt [_] [_; _]); [apply W; reflexivity|]. eapply (drives_bind _ _ _ tt tt [_] [_]); apply W; reflexivity.
  - eapply (drives_bind _ _ _ tt tt [_] [_; _]); [apply W; reflexivity|].
    eapply (drives_bind _ _ _ tt tt [_] [_]); apply W; rewrite ?next_byte, ?low_byte; word.
Qed.

(** C36: Playing samples on an idle card whose processor takes its bytes in time
    writes the sample rate, the DMA channel's address and count and the command in
    that order, and returns 0 as soon as an interrupt has ended the playback, after
    however many interrupts. *)
Theorem sb16_plays dev wake (s : sound) (h : history) data len rate :
  dsp_ready dev -> sb16_playing s = 0 -> 0 < len -> is_u32 len -> 0 < rate ->
  exists evs, writes_of evs = play_program data len rate /\
    forall n st' fuel, stops wake n (mk_sound 1 0 (ticks s), h ++ evs) st' -> (n <= fuel)%nat ->
      sb16_play_8bit dev wake fuel data len rate (s, h) = Ret (0, st').
Proof.
  intros Hr Hp Hl Hn Hrate. destruct (drives_program dev data len rate Hr Hn h) as (evs & E & W). exists evs. split; [exact W|].
  intros n st' fuel St Hf. pose proof (wait_played_stops wake n _ st' St fuel Hf) as Ew.
  unfold sb16_play_8bit, mbind, sop_bind, statics. cbv beta iota. cbn [fst snd]. rewrite Hp. change (c_true 0) with false. cbv iota.
  destruct (Z.eqb_spec len 0); [lia|]. destruct (Z.eqb_spec rate 0); [lia|].
  unfold change, ports, set_fired, set_playing. cbn [fst snd sb16_playing sb16_irq_fired ticks]. rewrite E. cbv beta iota.
  change (match wait_played wake fuel (mk_sound 1 0 (ticks s), h ++ evs) with Ret (_, st) => Ret (0, st) | Panic => Panic | Oob => Oob end = Ret (0, st')).
  rewrite Ew. reflexivity.
Qed.

Definition quiet_card : device := fun _ _ _ => 0.

Lemma quiet_ready : dsp_ready quiet_card.
Proof.
  intros h. eexists. destruct (Pos.to_nat SB16_POLLS) as [|n] eqn:E; [pose proof (Pos2Nat.is_pos SB16_POLLS); lia|].
  apply finds_now. reflexivity.
Qed.

(** The interrupt of the card comes at the second [hlt]. *)
Definition second_wake (st : sound * history) : sound * history :=
  if ticks (fst st) =? 0 then (set_ticks 1 (fst st), snd st)
  else match sb16_handler quiet_card st with Ret (_, st) => st | _ => st end.

Lemma sb16_plays_witness : exists st, sb16_play_8bit quiet_card second_wake 5 0x312345 40000 22050 (mk_sound 0 0 0, []) = Ret (0, st) /\
  sb16_irq_fired (fst st) = 1 /\ sb16_playing (fst st) = 0.
Proof.
  destruct (sb16_plays quiet_card second_wake (mk_sound 0 0 0) [] 0x312345 40000 22050 quiet_ready) as (evs & _ & H); [reflexivity|lia|unfold is_u32; lia|lia|].
  eexists. split; [apply (H 2%nat); [|lia]|].
  - apply stops_later; [discriminate|]. apply stops_later; [discriminate|]. apply stops_now. reflexivity.
  - split; reflexivity.
Defined.

(** A beep programs the timer chip's counter with the divisor of the
    frequency, switches the speaker on, waits until the counter has advanced by the
    ticks of the time asked for, at least one and also when it wraps, and switches
    the speaker off. *)
Theorem pcspkr_beep_tone dev per wake fuel (s : sound) (h : history) frequency_hz ms :
  ticking per wake -> 0 < per < 256 -> 0 < frequency_hz -> is_u32 (ticks s) -> (Z.to_nat (round_up per (beep_ticks ms)) <= fuel)%nat ->
  exists evs v w, pcspkr_beep dev wake fuel frequency_hz ms (s, h) =
      Ret (tt, (set_ticks (u32 (ticks s + round_up per (beep_ticks ms))) s, h ++ evs)) /\
    is_u8 v /\ is_u8 w /\ 1 <= beep_ticks ms <= 4294967 /\
    writes_of evs = [(0x43, 0xB6)] ++ ((fun b => (0x42, b)) <$> le_bytes 2 (PIT_BASE_FREQ / frequency_hz)) ++
      [(0x61, v .| 3); (0x61, w .& 0xFC)].
Proof.
  intros Hw Hper Hfr Hs Hf.
  assert (Hb : 1 <= beep_ticks ms <= 4294967).
  { unfold beep_ticks. cbv zeta. destruct (Z.eqb_spec (u32 (ms * 100) / 1000) 0); [lia|]. word. }
  assert (Hlor : forall x, is_u8 x -> u8 (x .| 3) = x .| 3 /\ u8 (x .& Z.lnot 3) = x .& 0xFC).
  { intros x Hx. split.
    - by_bytes (fun x => u8 (x .| 3) =? x .| 3) Hx. bool_prop. assumption.
    - by_bytes (fun x => u8 (x .& Z.lnot 3) =? x .& 0xFC) Hx. bool_prop. assumption. }
  unfold pcspkr_beep. destruct (Z.eqb_spec frequency_hz 0); [lia|]. cbv zeta.
  unfold mbind, sop_bind, ports, statics, outb, inb, inw_width, pcspkr_off. cbn [fst snd].
  erewrite (wait_ticks_spec per wake (ticks s) (beep_ticks ms) Hw ltac:(lia) ltac:(lia) ltac:(lia) Hs fuel 0);
    [|lia|rewrite Z.mul_0_r, Z.add_0_r; symmetry; apply u32_small, Hs|lia|lia].
  cbv beta iota. unfold mbind, sop_bind, ports, inb, outb, inw_width. cbn [fst snd].
  match goal with |- context [In 1 (u16 0x61) (?x mod 256)] => set (v := x mod 256) end.
  match goal with |- context [Out 1 (u16 0x61) (u8 (?x mod 256 .& _))] => set (w := x mod 256) end.
  assert (Hv : is_u8 v) by (apply Z.mod_pos_bound; lia). assert (Hw' : is_u8 w) by (apply Z.mod_pos_bound; lia).
  eexists _, v, w. split; [rewrite <- !app_assoc; reflexivity|]. split; [exact Hv|]. split; [exact Hw'|]. split; [exact Hb|].
  cbn [app writes_of le_bytes fmap list_fmap]. rewrite (proj1 (Hlor v Hv)), (proj2 (Hlor w Hw')), next_byte, low_byte. reflexivity.
Qed.

Definition tick_wake (st : sound * history) : sound * history := (set_ticks (u32 (ticks (fst st) + 2)) (fst st), snd st).

Lemma pcspkr_beep_tone_witness : exists h,
  pcspkr_beep quiet_card tick_wake 20 440 200 (mk_sound 0 0 0xFFFFFFF8, []) = Ret (tt, (mk_sound 0 0 12, h)).
Proof.
  destruct (pcspkr_beep_tone quiet_card 2 tick_wake 20 (mk_sound 0 0 0xFFFFFFF8) [] 440 200) as (evs & v & w & E & _);
    [intros st; reflexivity|lia|lia|unfold is_u32; cbn; lia|vm_compute; lia|].
  exists evs. exact E.
Defined.
