(* ===== verification/Vga.v ===== *)
(** * The VGA text console (drivers/vga.c)

    The text buffer of 25 rows of 80 cells, the cursor, and the routines that
    print to it.  A store outside the 2000 cells is [Oob].  The theorem shows
    that after [vga_init] the screen holds the last 25 lines of what was
    printed, as long as the lines fit a row; [vga_wrap_leaves_screen] shows what
    happens when a line fills the last row. *)

From S2P Require Import Prelude Text.
Local Open Scope Z_scope.
Local Open Scope sros_scope.

Definition VGA_WIDTH : Z := 80.
Definition VGA_HEIGHT : Z := 25.
Definition WHITE_ON_BLACK : Z := 0x0F.
Definition CURSOR_LEFT : Z := 0x01.
Definition CURSOR_RIGHT : Z := 0x02.
Definition BACKSPACE : Z := 8.

(** The buffer, the cursor variables, and the (port, value) pairs sent to the
    display controller so far. *)
Record vga : Type := mk_vga {
  vga_buffer : list Z;
  cursor_row : Z;
  cursor_col : Z;
  crtc : list (Z * Z)
}.

Definition with_cells (cells : list Z) (v : vga) : vga :=
  mk_vga cells (cursor_row v) (cursor_col v) (crtc v).
Definition with_cursor (row col : Z) (v : vga) : vga := mk_vga (vga_buffer v) row col (crtc v).

(** [c] is a signed [char]: a negative one overwrites the colour. *)
Definition vga_putchar_at (c color row col : Z) (v : vga) : exec vga :=
  let i := row * VGA_WIDTH + col in
  if (0 <=? i) && (i <? VGA_WIDTH * VGA_HEIGHT) then
    Ret (with_cells (<[Z.to_nat i := u16 (Z.shiftl color 8 .| i8 c)]> (vga_buffer v)) v)
  else Oob.

Definition vga_set_cursor (row col : Z) (v : vga) : vga :=
  let pos := u16 (row * VGA_WIDTH + col) in
  mk_vga (vga_buffer v) (cursor_row v) (cursor_col v)
    (crtc v ++ [(0x3D4, 0x0F); (0x3D5, u8 (pos .& 0xFF)); (0x3D4, 0x0E); (0x3D5, u8 (Z.shiftr pos 8 .& 0xFF))]).

(** [for (row..) for (col..)] over the cells, in order. *)
Fixpoint clear_cells (idx : list nat) (v : vga) : exec vga :=
  match idx with
  | [] => Ret v
  | i :: idx =>
      v ← vga_putchar_at BLANK WHITE_ON_BLACK (Z.of_nat i / VGA_WIDTH) (Z.of_nat i mod VGA_WIDTH) v;
      clear_cells idx v
  end.

Definition vga_init (v : vga) : exec vga :=
  v ← clear_cells (seq 0 (Z.to_nat (VGA_WIDTH * VGA_HEIGHT))) v;
  Ret (with_cursor 0 0 v).

(** The rows move up one by one, then the last one is blanked. *)
Definition copy_up (cells : list Z) : list Z :=
  foldl (fun cells i => <[(i - 80)%nat := cells !!! i]> cells) cells (seq 80 1920).
Definition blank_last (cells : list Z) : list Z :=
  foldl (fun cells col => <[(1920 + col)%nat := Z.shiftl WHITE_ON_BLACK 8 .| BLANK]> cells) cells (seq 0 80).
Definition vga_scroll (v : vga) : vga := with_cells (blank_last (copy_up (vga_buffer v))) v.

Definition vga_putc (c : Z) (v : vga) : exec vga :=
  let c := i8 c in
  v ← (if c =? BACKSPACE then
         let v := with_cursor (cursor_row v) (cursor_col v - 1) v in
         vga_putchar_at BLANK WHITE_ON_BLACK (cursor_row v) (cursor_col v) v
       else if c =? NL then
         let v := with_cursor (cursor_row v + 1) 0 v in
         Ret (if VGA_HEIGHT <=? cursor_row v
              then with_cursor (VGA_HEIGHT - 1) (cursor_col v) (vga_scroll v) else v)
       else if c =? CURSOR_LEFT then
         Ret (if 0 <? cursor_col v then with_cursor (cursor_row v) (cursor_col v - 1) v else v)
       else if c =? CURSOR_RIGHT then
         Ret (if cursor_col v <? VGA_WIDTH - 1 then with_cursor (cursor_row v) (cursor_col v + 1) v else v)
       else
         let v := if cursor_col v =? VGA_WIDTH then vga_scroll (with_cursor (cursor_row v + 1) 0 v) else v in
         v ← vga_putchar_at c WHITE_ON_BLACK (cursor_row v) (cursor_col v) v;
         let v := with_cursor (cursor_row v) (cursor_col v + 1) v in
         Ret (if cursor_col v =? VGA_WIDTH then with_cursor (cursor_row v + 1) 0 v else v));
  Ret (vga_set_cursor (cursor_row v) (cursor_col v) v).

Fixpoint vga_puts (s : list Z) (v : vga) : exec vga :=
  match s with
  | [] => Ret v
  | c :: s => v ← vga_putc c v; vga_puts s v
  end.

Definition vga_puthex (n : Z) (v : vga) : exec vga :=
  v ← vga_puts (chars "0x") v;
  foldl (fun v i => v ← v; vga_putc (hex !!! Z.to_nat (Z.shiftr n i .& 0xF)) v) (Ret v) hex_shifts.

Fixpoint vga_printf (fmt : list Z) (args : list va) (v : vga) : exec vga :=
  match fmt with
  | [] => Ret v
  | c :: fmt =>
      if c =? PERCENT then
        match fmt with
        | [] => Oob
        | d :: fmt =>
            if d =? 115 then
              match args with
              | VStr s :: args => v ← vga_puts s v; vga_printf fmt args v
              | _ => Oob
              end
            else if (d =? 100) || (d =? 120) then
              match args with
              | VInt n :: args => v ← vga_puthex n v; vga_printf fmt args v
              | _ => Oob
              end
            else if d =? 99 then
              match args with
              | VInt n :: args => v ← vga_putc n v; vga_printf fmt args v
              | _ => Oob
              end
            else if d =? PERCENT then v ← vga_putc PERCENT v; vga_printf fmt args v
            else v ← vga_putc PERCENT v; v ← vga_putc d v; vga_printf fmt args v
        end
      else v ← vga_putc c v; vga_printf fmt args v
  end.

(** What [panic] prints before it stops. *)
Definition panic_screen (msg : list Z) (v : vga) : exec vga :=
  v ← vga_puts (chars "KERNEL PANIC: ") v; vga_puts msg v.

(** ** printf and puts *)

Lemma vga_puts_app s1 s2 v : vga_puts (s1 ++ s2) v = v ← vga_puts s1 v; vga_puts s2 v.
Proof.
  revert v. induction s1 as [|c s1 IH]; intros v; [reflexivity|]. cbn [app vga_puts].
  destruct (vga_putc c v) as [v'| |]; [apply IH|reflexivity..].
Qed.

Lemma vga_puthex_puts n v : vga_puthex n v = vga_puts (hex_word n) v.
Proof.
  unfold vga_puthex, hex_word. rewrite vga_puts_app.
  destruct (vga_puts (chars "0x") v) as [v'| |]; [|reflexivity..].
  unfold hex_digits. cbn [mbind exec_bind]. 
  assert (E : forall l w, foldl (fun v i => v ← v; vga_putc (hex !!! Z.to_nat (Z.shiftr n i .& 0xF)) v) w l =
    v ← w; vga_puts ((fun i => hex !!! Z.to_nat (Z.shiftr n i .& 0xF)) <$> l) v); [|apply E].
  induction l as [|i l IH]; intros w; cbn [foldl fmap list_fmap vga_puts]; [destruct w; reflexivity|].
  rewrite IH. destruct w as [v0| |]; reflexivity.
Qed.

(** printf is puts of the formatted text. *)
Lemma vga_printf_puts fmt args t v : formats id fmt args t -> vga_printf fmt args v = vga_puts t v.
Proof.
  intros F. revert v.
  induction F as [args|c fmt args t Hc _ IH|s fmt args t _ IH|d n fmt args t Hd _ IH|n fmt args t _ IH
                 |fmt args t _ IH|d fmt args t H1 H2 H3 H4 H5 _ IH]; intros v; cbn [vga_printf].
  - reflexivity.
  - rewrite (proj2 (Z.eqb_neq _ _) Hc). cbn [vga_puts]. destruct (vga_putc c v); [apply IH|reflexivity..].
  - change (s ++ t) with (id s ++ t). rewrite vga_puts_app. cbn. destruct (vga_puts s v); [apply IH|reflexivity..].
  - rewrite vga_puts_app, <- vga_puthex_puts. 
    destruct Hd as [->| ->]; (cbn -[vga_puthex]; destruct (vga_puthex n v); [apply IH|reflexivity..]).
  - cbn [vga_puts]. change (99 =? 115) with false. cbn -[vga_putc]. destruct (vga_putc n v); [apply IH|reflexivity..].
  - cbn -[vga_putc]. destruct (vga_putc _ v); [apply IH|reflexivity..].
  - change (PERCENT =? PERCENT) with true. rewrite !(proj2 (Z.eqb_neq _ _)) by assumption.
    cbn [orb vga_puts]. destruct (vga_putc PERCENT v) as [v'| |]; [|reflexivity..].
    cbn [mbind exec_bind]. destruct (vga_putc d v'); [apply IH|reflexivity..].
Qed.

(** ** The loops over the cells *)

Definition cell (c : Z) : Z := u16 (Z.shiftl WHITE_ON_BLACK 8 .| i8 c).

(** Characters that take one cell. *)
Definition plain (c : Z) : Prop := 0 < c < 128 /\ c <> BACKSPACE /\ c <> NL /\ c <> CURSOR_LEFT /\ c <> CURSOR_RIGHT.

#[export] Instance plain_dec c : Decision (plain c).
Proof. unfold plain. apply _. Defined.

Lemma copy_loop (n : nat) (l : list Z) : (80 + n <= length l)%nat ->
  foldl (fun cells i => <[(i - 80)%nat := cells !!! i]> cells) l (seq 80 n) = take n (drop 80 l) ++ drop n l.
Proof.
  intros Hl. induction n as [|n IH]; [reflexivity|].
  rewrite seq_S, foldl_app, IH by lia. cbn [foldl].
  replace (80 + n - 80)%nat with n by lia.
  destruct (lookup_lt_is_Some_2 l (80 + n)) as [x Hx]; [lia|].
  destruct (drop n l) as [|y r] eqn:E; [apply (f_equal length) in E; rewrite length_drop in E; cbn in E; lia|].
  assert (Ht : length (take n (drop 80 l)) = n) by (rewrite length_take, length_drop; lia).
  rewrite insert_app_r_alt, Ht, Nat.sub_diag by lia. cbn [insert list_insert].
  rewrite (list_lookup_total_correct _ _ x).
  - rewrite (take_S_r _ n x) by (rewrite lookup_drop; exact Hx). rewrite <- app_assoc.
    do 2 f_equal. replace (S n) with (n + 1)%nat by lia. rewrite <- drop_drop, E. reflexivity.
  - rewrite lookup_app_r, Ht by lia. rewrite <- E, lookup_drop. rewrite <- Hx. f_equal. lia.
Qed.

(** Overwriting a stretch with one value. *)
Lemma fill_loop (off n : nat) x (l : list Z) : (off + n <= length l)%nat ->
  foldl (fun cells i => <[(off + i)%nat := x]> cells) l (seq 0 n) = splice off (replicate n x) l.
Proof.
  intros Hl. unfold splice. rewrite length_replicate. induction n as [|n IH].
  - rewrite Nat.add_0_r. cbn. rewrite take_drop. reflexivity.
  - rewrite seq_S, foldl_app, IH by lia. cbn [foldl Nat.add].
    assert (Ht : length (take off l) = off) by (rewrite length_take; lia).
    rewrite insert_app_r_alt, Ht by lia. f_equal. replace (off + n - off)%nat with (n + 0)%nat by lia.
    rewrite insert_app_r_alt by (rewrite length_replicate; lia). rewrite length_replicate.
    replace (n + 0 - n)%nat with 0%nat by lia.
    destruct (drop (off + n) l) as [|y r] eqn:E; [apply (f_equal length) in E; rewrite length_drop in E; cbn in E; lia|].
    cbn [insert list_insert]. replace (off + S n)%nat with (off + n + 1)%nat by lia.
    rewrite <- drop_drop, E, replicate_S_end, <- app_assoc. reflexivity.
Qed.

Lemma scroll_cells v : length (vga_buffer v) = 2000%nat ->
  vga_scroll v = with_cells (drop 80 (vga_buffer v) ++ replicate 80 (cell BLANK)) v.
Proof.
  intros Hl. unfold vga_scroll, copy_up, blank_last. rewrite copy_loop by lia.
  change (Z.shiftl WHITE_ON_BLACK 8 .| BLANK) with (cell BLANK).
  set (x := cell BLANK). set (l := vga_buffer v) in *.
  assert (E : take 1920 (drop 80 l) = drop 80 l) by (apply take_ge; rewrite length_drop; lia).
  rewrite E. rewrite fill_loop by (rewrite length_app, !length_drop; lia).
  unfold splice. rewrite length_replicate. f_equal.
  rewrite take_app_length' by (rewrite length_drop; lia).
  rewrite (drop_ge _ (1920 + 80)) by (rewrite length_app, !length_drop; lia).
  rewrite app_nil_r. reflexivity.
Qed.

Lemma putchar_at_cell c row col v : length (vga_buffer v) = 2000%nat -> 0 <= row < 25 -> 0 <= col < 80 ->
  vga_putchar_at c WHITE_ON_BLACK row col v =
    Ret (with_cells (<[Z.to_nat (row * 80 + col) := cell c]> (vga_buffer v)) v).
Proof.
  intros Hl Hr Hc. unfold vga_putchar_at. change VGA_WIDTH with 80. change (80 * VGA_HEIGHT) with 2000.
  destruct (Z.leb_spec 0 (row * 80 + col)); [|lia]. destruct (Z.ltb_spec (row * 80 + col) 2000); [|lia].
  reflexivity.
Qed.

Lemma clear_all n k v : (k + n <= 2000)%nat -> length (vga_buffer v) = 2000%nat ->
  clear_cells (seq k n) v = Ret (with_cells (splice k (replicate n (cell BLANK)) (vga_buffer v)) v).
Proof.
  revert k v. induction n as [|n IH]; intros k v Hk Hl.
  - unfold splice. cbn. rewrite Nat.add_0_r, take_drop. destruct v; reflexivity.
  - cbn [seq clear_cells]. change VGA_WIDTH with 80.
    rewrite putchar_at_cell by (first [exact Hl | mlia]). cbn [mbind exec_bind].
    replace (Z.to_nat (Z.of_nat k / 80 * 80 + Z.of_nat k mod 80)) with k by mlia.
    rewrite IH by (cbn; rewrite ?length_insert; lia). f_equal. unfold with_cells. cbn [vga_buffer cursor_row cursor_col crtc]. f_equal.
    set (x := cell BLANK). set (l := vga_buffer v) in *.
    unfold splice. rewrite !length_replicate.
    rewrite (take_S_r _ k x) by (apply list_lookup_insert_eq; lia).
    rewrite take_insert_ge, drop_insert_lt by lia. cbn [replicate].
    replace (k + S n)%nat with (S k + n)%nat by lia. rewrite <- app_assoc. reflexivity.
Qed.

(** ** The screen as the last 25 lines of the text *)

Definition row_cells (l : list Z) : list Z := (cell <$> l) ++ replicate (80 - length l) (cell BLANK).

Definition shown (ls : list (list Z)) : list (list Z) := drop (length ls - 25) ls.

Definition screen (ls : list (list Z)) : list Z :=
  (shown ls ≫= row_cells) ++ replicate ((25 - length (shown ls)) * 80) (cell BLANK).

(** The lines fit their rows and hold only plain characters. *)
Definition line_ok (l : list Z) : Prop := Forall plain l /\ (length l < 80)%nat.

#[export] Instance line_ok_dec l : Decision (line_ok l).
Proof. unfold line_ok. apply _. Defined.

Record shows (v : vga) (ls : list (list Z)) (l : list Z) : Prop := {
  shows_cells : vga_buffer v = screen (ls ++ [l]);
  shows_row : cursor_row v = Z.of_nat (length (shown (ls ++ [l])) - 1);
  shows_col : cursor_col v = Z.of_nat (length l);
  shows_ok : Forall line_ok (ls ++ [l])
}.

Lemma length_shown ls : length (shown ls) = (length ls `min` 25)%nat.
Proof. unfold shown. rewrite length_drop. lia. Qed.

Lemma shown_snoc ls l : shown (ls ++ [l]) = drop (length ls - 24) ls ++ [l].
Proof.
  unfold shown. rewrite length_app. cbn [length]. rewrite drop_app_le by lia. do 2 f_equal. lia.
Qed.

Lemma length_row_cells l : line_ok l -> length (row_cells l) = 80%nat.
Proof. intros [_ H]. unfold row_cells. rewrite length_app, length_fmap, length_replicate. lia. Qed.

Lemma length_rows ls : Forall line_ok ls -> length (ls ≫= row_cells) = (length ls * 80)%nat.
Proof.
  induction 1 as [|l ls Hl _ IH]; [reflexivity|].
  cbn. change (list_bind _ _ row_cells ls) with (ls ≫= row_cells).
  rewrite length_app, IH, length_row_cells by exact Hl. lia.
Qed.

Lemma shown_ok ls : Forall line_ok ls -> Forall line_ok (shown ls).
Proof. apply Forall_drop. Qed.

Lemma length_screen ls : Forall line_ok ls -> length (screen ls) = 2000%nat.
Proof.
  intros H. unfold screen. rewrite length_app, length_rows by (apply shown_ok, H).
  rewrite length_replicate. pose proof (length_shown ls). lia.
Qed.

Lemma row_cells_nil : row_cells [] = replicate 80 (cell BLANK).
Proof. reflexivity. Qed.

Lemma row_cells_snoc l c : line_ok (l ++ [c]) ->
  <[length l := cell c]> (row_cells l) = row_cells (l ++ [c]).
Proof.
  intros [_ Hl]. rewrite length_app in Hl. cbn in Hl. unfold row_cells.
  rewrite insert_app_r_alt by (rewrite length_fmap; lia). rewrite length_fmap, Nat.sub_diag.
  replace (80 - length l)%nat with (S (80 - length (l ++ [c]))) by (rewrite length_app; cbn; lia).
  cbn [replicate insert list_insert]. rewrite fmap_app, <- app_assoc. reflexivity.
Qed.

(** ** The hardware cursor: the index register and the two position registers *)

Definition crtc_step (r : Z * Z * Z) (w : Z * Z) : Z * Z * Z :=
  let '(index, lo, hi) := r in
  let '(port, v) := w in
  if port =? 0x3D4 then (v, lo, hi)
  else if port =? 0x3D5 then
    if index =? 0x0F then (index, v, hi) else if index =? 0x0E then (index, lo, v) else r
  else r.

Definition hardware_cursor (v : vga) : Z :=
  let '(_, lo, hi) := foldl crtc_step (0, 0, 0) (crtc v) in lo + 256 * hi.

Lemma set_cursor_hardware row col v : 0 <= row * 80 + col < 65536 ->
  hardware_cursor (vga_set_cursor row col v) = row * 80 + col.
Proof.
  intros H. unfold hardware_cursor, vga_set_cursor. cbn [crtc]. change VGA_WIDTH with 80.
  unfold u16. rewrite (Z.mod_small (row * 80 + col)) by lia. set (p := row * 80 + col) in *.
  rewrite foldl_app. destruct (foldl crtc_step (0, 0, 0) (crtc v)) as [[i lo] hi].
  change 0xFF with (Z.ones 8). rewrite field_of, field_low by lia.
  pose proof (bits_range p 0 8 ltac:(lia)). pose proof (bits_range p 8 8 ltac:(lia)).
  rewrite !u8_small by lia. cbn -[Z.mul Z.add bits]. apply (bits_split p 8 8); lia.
Qed.

(** ** One character *)

Lemma shown_position (ls : list (list Z)) l : (length (shown (ls ++ [l])) - 1 = length (drop (length ls - 24) ls))%nat.
Proof. rewrite shown_snoc, length_app. cbn. lia. Qed.

Lemma shown_snoc_le (ls : list (list Z)) : (length (drop (length ls - 24) ls) <= 24)%nat.
Proof. rewrite length_drop. lia. Qed.

Lemma screen_snoc ls l : screen (ls ++ [l]) =
  (drop (length ls - 24) ls ≫= row_cells) ++ row_cells l ++
  replicate ((24 - length (drop (length ls - 24) ls)) * 80) (cell BLANK).
Proof.
  unfold screen. rewrite shown_snoc, length_app, bind_app. cbn [length mbind list_bind].
  rewrite app_nil_r, <- app_assoc. do 3 f_equal. lia.
Qed.

(** The cell under the cursor becomes the next character of the last line. *)
Lemma screen_put ls l c : Forall line_ok ls -> line_ok l -> line_ok (l ++ [c]) ->
  <[(length (drop (length ls - 24) ls) * 80 + length l)%nat := cell c]> (screen (ls ++ [l])) =
    screen (ls ++ [l ++ [c]]).
Proof.
  intros Hls Hl Hc. rewrite !screen_snoc.
  set (top := drop (length ls - 24) ls). assert (Ht : Forall line_ok top) by (apply Forall_drop, Hls).
  rewrite insert_app_r_alt; rewrite length_rows by exact Ht; [|lia].
  replace (length top * 80 + length l - length top * 80)%nat with (length l) by lia.
  rewrite insert_app_l by (rewrite length_row_cells by exact Hl; apply Hl).
  rewrite row_cells_snoc by exact Hc. reflexivity.
Qed.

(** A new empty line: nothing changes on a screen with a free row ... *)
Lemma screen_grow ls l : (length ls < 24)%nat -> screen ((ls ++ [l]) ++ [[]]) = screen (ls ++ [l]).
Proof.
  intros H. rewrite (screen_snoc (ls ++ [l])), screen_snoc, row_cells_nil.
  rewrite !length_app. cbn [length].
  replace (length ls + 1 - 24)%nat with 0%nat by lia. replace (length ls - 24)%nat with 0%nat by lia.
  rewrite !drop_0, bind_app, length_app. cbn [length mbind list_bind]. rewrite app_nil_r, <- !app_assoc.
  do 2 f_equal. rewrite <- replicate_add. f_equal. lia.
Qed.

(** ... and a full one scrolls. *)
Lemma screen_scroll ls l : (24 <= length ls)%nat -> Forall line_ok (ls ++ [l]) ->
  screen ((ls ++ [l]) ++ [[]]) = drop 80 (screen (ls ++ [l])) ++ replicate 80 (cell BLANK).
Proof.
  intros H Hok. rewrite (screen_snoc (ls ++ [l])), screen_snoc, row_cells_nil, length_app. cbn [length].
  replace (length ls + 1 - 24)%nat with (length ls - 24 + 1)%nat by lia.
  set (k := (length ls - 24)%nat).
  assert (Hk : (k < length ls)%nat) by (unfold k; lia).
  rewrite (drop_app_le ls) by lia. rewrite <- (drop_drop ls 1 k).
  destruct (drop k ls) as [|r top] eqn:E; [apply (f_equal length) in E; rewrite length_drop in E; cbn in E; lia|].
  assert (Hr : line_ok r).
  { apply Forall_app in Hok as [Hok _]. apply (Forall_drop _ k) in Hok. rewrite E in Hok.
    apply Forall_cons in Hok. apply Hok. }
  assert (Hlen : length top = 23%nat) by (apply (f_equal length) in E; rewrite length_drop in E; cbn in E; lia).
  cbn [drop]. rewrite drop_0.
  replace ((24 - length (top ++ [l])) * 80)%nat with 0%nat by (rewrite length_app; cbn; lia).
  replace ((24 - length (r :: top)) * 80)%nat with 0%nat by (cbn; lia).
  rewrite bind_app. cbn [mbind list_bind]. change (list_bind _ _ row_cells top) with (top ≫= row_cells).
  change (replicate 0 (cell BLANK)) with (@nil Z).
  rewrite !app_nil_r, <- !app_assoc. rewrite (drop_app_length' (row_cells r)) by (symmetry; apply length_row_cells, Hr).
  rewrite <- !app_assoc. reflexivity.
Qed.

Lemma plain_i8 c : plain c -> i8 c = c.
Proof. intros [H _]. unfold i8, signed. rewrite Z.mod_small by lia. case_if; bool_prop; lia. Qed.

Lemma vga_putc_plain c v : plain c -> vga_putc c v =
  v ← (let v := if cursor_col v =? VGA_WIDTH then vga_scroll (with_cursor (cursor_row v + 1) 0 v) else v in
       v ← vga_putchar_at c WHITE_ON_BLACK (cursor_row v) (cursor_col v) v;
       let v := with_cursor (cursor_row v) (cursor_col v + 1) v in
       Ret (if cursor_col v =? VGA_WIDTH then with_cursor (cursor_row v + 1) 0 v else v));
  Ret (vga_set_cursor (cursor_row v) (cursor_col v) v).
Proof.
  intros Hp. unfold vga_putc. rewrite (plain_i8 c Hp). destruct Hp as (_ & H1 & H2 & H3 & H4). cbv zeta.
  rewrite (proj2 (Z.eqb_neq c _) H1), (proj2 (Z.eqb_neq c _) H2), (proj2 (Z.eqb_neq c _) H3),
    (proj2 (Z.eqb_neq c _) H4). reflexivity.
Qed.

Lemma putc_plain v ls l c : shows v ls l -> plain c -> line_ok (l ++ [c]) ->
  exists v', vga_putc c v = Ret v' /\ shows v' ls (l ++ [c]) /\
    hardware_cursor v' = cursor_row v' * 80 + cursor_col v'.
Proof.
  intros [Hb Hr Hc Hok] Hp Hl'. assert (Hlen : (length l < 79)%nat) by (destruct Hl' as [_ Hl']; rewrite length_app in Hl'; cbn in Hl'; lia).
  pose proof Hok as Hall. apply Forall_app in Hall as [Hls Hl]. rewrite Forall_singleton in Hl.
  rewrite shown_position in Hr. pose proof (shown_snoc_le ls) as Hle.
  rewrite vga_putc_plain by exact Hp.
  change VGA_WIDTH with 80. destruct (Z.eqb_spec (cursor_col v) 80); [lia|]. cbv zeta.
  rewrite putchar_at_cell by (first [rewrite Hb; apply length_screen, Hok | lia]).
  cbn [mbind exec_bind with_cells with_cursor cursor_row cursor_col vga_buffer crtc].
  destruct (Z.eqb_spec (cursor_col v + 1) 80); [lia|].
  eexists. split; [reflexivity|]. split.
  - split; cbn [vga_set_cursor with_cells with_cursor cursor_row cursor_col vga_buffer crtc].
    + rewrite Hb, <- (screen_put ls l c Hls Hl Hl'). f_equal. lia.
    + rewrite shown_position. exact Hr.
    + rewrite length_app. cbn. lia.
    + apply Forall_app. split; [exact Hls|]. apply Forall_singleton, Hl'.
  - rewrite set_cursor_hardware by (cbn; lia). reflexivity.
Qed.

Lemma putc_newline v ls l : shows v ls l ->
  exists v', vga_putc NL v = Ret v' /\ shows v' (ls ++ [l]) [] /\
    hardware_cursor v' = cursor_row v' * 80 + cursor_col v'.
Proof.
  intros [Hb Hr Hc Hok]. rewrite shown_position in Hr. pose proof (shown_snoc_le ls) as Hle.
  assert (Hok' : Forall line_ok ((ls ++ [l]) ++ [[]])).
  { apply Forall_app. split; [exact Hok|]. apply Forall_singleton. split; [constructor|cbn; lia]. }
  rewrite length_drop in Hr.
  unfold vga_putc. change (i8 NL =? BACKSPACE) with false. change (i8 NL =? NL) with true.
  cbn [mbind exec_bind with_cursor cursor_row cursor_col]. change VGA_HEIGHT with 25.
  eexists. split; [reflexivity|].
  destruct (Z.leb_spec 25 (cursor_row v + 1)) as [H|H].
  - rewrite scroll_cells by (cbn; rewrite Hb; apply length_screen, Hok).
    split; [split|]; cbn [vga_set_cursor with_cells with_cursor cursor_row cursor_col vga_buffer crtc].
    + rewrite Hb, screen_scroll by (first [exact Hok | lia]). reflexivity.
    + rewrite shown_position, length_drop, length_app. cbn. lia.
    + reflexivity.
    + exact Hok'.
    + rewrite set_cursor_hardware by (cbn; lia). reflexivity.
  - split; [split|]; cbn [vga_set_cursor with_cells with_cursor cursor_row cursor_col vga_buffer crtc].
    + rewrite Hb, screen_grow by lia. reflexivity.
    + rewrite shown_position, length_drop, length_app. cbn. lia.
    + reflexivity.
    + exact Hok'.
    + rewrite set_cursor_hardware by (cbn; lia). reflexivity.
Qed.

(** ** Printing *)

(** The rest of a text continues the last line. *)
Definition glue (l : list Z) (ls : list (list Z)) : list (list Z) :=
  match ls with m :: ms => (l ++ m) :: ms | [] => [l] end.

Lemma lines_cons s : exists m ms, lines s = m :: ms.
Proof.
  induction s as [|c s (m & ms & IH)]; cbn; [eauto|]. destruct (c =? NL); [eauto|]. rewrite IH. eauto.
Qed.

Lemma glue_nil s : glue [] (lines s) = lines s.
Proof. destruct (lines_cons s) as (m & ms & ->). reflexivity. Qed.

Lemma puts_shows s v ls l :
  shows v ls l -> Forall line_ok (glue l (lines s)) ->
  exists v' ls' l', vga_puts s v = Ret v' /\ shows v' ls' l' /\ ls' ++ [l'] = ls ++ glue l (lines s) /\
    (s <> [] -> hardware_cursor v' = cursor_row v' * 80 + cursor_col v').
Proof.
  revert v ls l. induction s as [|c s IH]; intros v ls l Hs Hok.
  { exists v, ls, l. cbn. rewrite app_nil_r. split; [reflexivity|]. split; [exact Hs|]. split; [reflexivity|]. congruence. }
  assert (Hstep : exists v1 ls1 l1, vga_putc c v = Ret v1 /\ shows v1 ls1 l1 /\
            hardware_cursor v1 = cursor_row v1 * 80 + cursor_col v1 /\
            Forall line_ok (glue l1 (lines s)) /\ ls1 ++ glue l1 (lines s) = ls ++ glue l (lines (c :: s))).
  { cbn [lines] in Hok |- *. destruct (lines_cons s) as (m & ms & E).
    destruct (Z.eqb_spec c NL) as [->|Hc].
    - destruct (putc_newline v ls l Hs) as (v1 & E1 & S1 & H1). exists v1, (ls ++ [l]), [].
      split; [exact E1|]. split; [exact S1|]. split; [exact H1|]. cbn [glue] in Hok. rewrite app_nil_r in Hok.
      apply Forall_cons in Hok as [_ Hok]. rewrite glue_nil. split; [exact Hok|].
      cbn [glue]. rewrite app_nil_r, <- app_assoc. reflexivity.
    - rewrite E in Hok |- *. cbn [glue] in Hok |- *.
      assert (Hcat : l ++ c :: m = (l ++ [c]) ++ m) by (rewrite <- app_assoc; reflexivity).
      rewrite Hcat in Hok |- *. pose proof Hok as Hok2. apply Forall_cons in Hok2 as [[Hp Hn] _].
      assert (Hl' : line_ok (l ++ [c])).
      { split; [apply Forall_app in Hp; apply Hp|]. rewrite (length_app (l ++ [c])) in Hn. lia. }
      assert (Hc' : plain c).
      { destruct Hl' as [Hl' _]. apply Forall_app in Hl' as [_ Hl']. rewrite Forall_singleton in Hl'. exact Hl'. }
      destruct (putc_plain v ls l c Hs Hc' Hl') as (v1 & E1 & S1 & H1). exists v1, ls, (l ++ [c]).
      repeat split; try assumption; apply S1. }
  destruct Hstep as (v1 & ls1 & l1 & E1 & S1 & H1 & Hok1 & Eq).
  destruct (IH v1 ls1 l1 S1 Hok1) as (v' & ls' & l' & E' & S' & Eq' & H').
  exists v', ls', l'. cbn [vga_puts]. rewrite E1. split; [exact E'|]. split; [exact S'|].
  split; [congruence|]. intros _.
  destruct s as [|c' s']; [injection E' as <-; exact H1|]. apply H'. discriminate.
Qed.

Lemma vga_init_shows v : length (vga_buffer v) = 2000%nat -> exists v0, vga_init v = Ret v0 /\ shows v0 [] [].
Proof.
  intros Hl. unfold vga_init. change (Z.to_nat (VGA_WIDTH * VGA_HEIGHT)) with 2000%nat.
  rewrite clear_all by lia. eexists. split; [reflexivity|].
  split; cbn [with_cursor with_cells vga_buffer cursor_row cursor_col app]; try reflexivity.
  - unfold splice. rewrite length_replicate. cbn [take app]. rewrite (drop_ge _ (0 + 2000)), app_nil_r by lia.
    unfold screen. cbn [shown length drop Nat.sub mbind list_bind Nat.mul Nat.add]. 
    rewrite app_nil_r, row_cells_nil, <- replicate_add. reflexivity.
  - apply Forall_singleton. split; [constructor|cbn; lia].
Qed.

(** On a cleared screen, printing any format whose text consists of lines of
    fewer than 80 printable characters succeeds; the screen then holds the last
    25 lines of the text, each padded with blanks, and the cursor, also the
    hardware's, is behind the last character. *)
Theorem vga_printf_screen v fmt args text :
  length (vga_buffer v) = 2000%nat -> format_text id fmt args = Some text ->
  Forall line_ok (lines text) ->
  exists v0 v', vga_init v = Ret v0 /\ vga_printf fmt args v0 = Ret v' /\
    vga_buffer v' = screen (lines text) /\
    cursor_row v' = Z.of_nat (length (shown (lines text)) - 1) /\
    cursor_col v' = Z.of_nat (length (default [] (last (lines text)))) /\
    (text <> [] -> hardware_cursor v' = cursor_row v' * 80 + cursor_col v').
Proof.
  intros Hl Hf Hok. destruct (vga_init_shows v Hl) as (v0 & E0 & S0).
  rewrite <- glue_nil in Hok.
  destruct (puts_shows text v0 [] [] S0 Hok) as (v' & ls' & l' & E' & S' & Eq & H').
  cbn [app] in Eq. rewrite glue_nil in Eq. exists v0, v'. split; [exact E0|].
  split; [rewrite (vga_printf_puts _ _ text) by (apply format_text_formats, Hf); exact E'|].
  rewrite <- Eq, last_snoc.
  destruct S' as [Hb Hr Hc _]. repeat split; assumption.
Qed.

Definition blank_vga : vga := mk_vga (replicate 2000 0) 7 80 [].

Lemma vga_printf_screen_witness :
  exists v', (v0 ← vga_init blank_vga; vga_printf (chars "a=%x") [VInt 0xBEEF] v0) = Ret v' /\
    take 13 (vga_buffer v') = cell <$> chars "a=0x0000BEEF ".
Proof.
  destruct (vga_printf_screen blank_vga (chars "a=%x") [VInt 0xBEEF] (chars "a=0x0000BEEF"))
    as (v0 & v' & E0 & E & Hb & _); [reflexivity|reflexivity| |].
  { apply (bool_decide_unpack _). vm_compute. exact I. }
  exists v'. rewrite E0. split; [exact E|]. rewrite Hb. vm_compute. reflexivity.
Defined.

(** A line that fills the last row leaves the cursor on row 25, and the next
    character is stored behind the screen: [vga_putc] scrolls only at a newline. *)
Lemma vga_wrap_leaves_screen v c : length (vga_buffer v) = 2000%nat -> plain c ->
  cursor_row v = 24 -> cursor_col v = 79 ->
  exists v', vga_putc c v = Ret v' /\ cursor_row v' = 25 /\ cursor_col v' = 0 /\
    vga_putc c v' = Oob.
Proof.
  intros Hl Hp Hr Hc.   rewrite vga_putc_plain by assumption. rewrite Hr, Hc.
  change (79 =? VGA_WIDTH) with false. cbv zeta. rewrite ?Hr, ?Hc.
  rewrite putchar_at_cell by lia.
  cbn [mbind exec_bind with_cells with_cursor cursor_row cursor_col vga_buffer crtc]. rewrite ?Hr, ?Hc.
  change (79 + 1 =? VGA_WIDTH) with true. eexists. split; [reflexivity|].
  cbn [vga_set_cursor with_cells with_cursor cursor_row cursor_col vga_buffer crtc].
  rewrite vga_putc_plain by exact Hp. repeat split.
Qed.
