(* ===== verification/Ata.v ===== *)
(** * The ATA disk driver (drivers/ata.c)

    Programmed I/O on the primary channel: sectors are read and written a word
    at a time, after polling the status register with a bounded timeout.  The
    drive is hardware, so it is a parameter: [PioDrive] states the documented
    PIO protocol - which register and data accesses select sectors and move
    bytes ([pio_step]), and that a working drive becomes ready within the
    driver's timeout.  The theorems show that over any such drive the driver's
    two transfer routines read and write exactly the sectors asked for. *)

From S2P Require Import Prelude PortIO Text Disk.
Local Open Scope Z_scope.
Local Open Scope sros_scope.

Definition ATA_PRIMARY_DATA : Z := 0x1F0.
Definition ATA_PRIMARY_SECTORS : Z := 0x1F2.
Definition ATA_PRIMARY_LBA_LO : Z := 0x1F3.
Definition ATA_PRIMARY_LBA_MID : Z := 0x1F4.
Definition ATA_PRIMARY_LBA_HI : Z := 0x1F5.
Definition ATA_PRIMARY_DRIVE : Z := 0x1F6.
Definition ATA_PRIMARY_CMD : Z := 0x1F7.
Definition ATA_PRIMARY_ALTSTAT : Z := 0x3F6.
Definition ATA_CMD_READ : Z := 0x20.
Definition ATA_CMD_WRITE : Z := 0x30.
Definition ATA_CMD_IDENTIFY : Z := 0xEC.
Definition ATA_DRIVE_MASTER : Z := 0xE0.
Definition ATA_STATUS_ERR : Z := 0x01.
Definition ATA_STATUS_DRQ : Z := 0x08.
Definition ATA_STATUS_BSY : Z := 0x80.
Definition SECTOR_SIZE : Z := 512.

(** ** Waiting *)

(** [timeout = 30000000; while (--timeout)] runs its body this many times. *)
Definition ATA_POLLS : positive := 29999999.

Definition poll_busy : io (option Z) :=
  st ← inb ATA_PRIMARY_ALTSTAT;
  mret (if c_true (st .& ATA_STATUS_BSY) then None else Some 0).

Definition ata_wait_busy : io Z :=
  r ← until ATA_POLLS poll_busy; mret (default (-1) r).

Definition poll_drq : io (option Z) :=
  st ← inb ATA_PRIMARY_ALTSTAT;
  mret (if c_true (st .& ATA_STATUS_ERR) then Some (-1)
        else if c_true (st .& ATA_STATUS_DRQ) then Some 0 else None).

Definition ata_wait_drq : io Z :=
  b ← ata_wait_busy;
  if b <? 0 then mret (-1) else r ← until ATA_POLLS poll_drq; mret (default (-1) r).

Definition ata_delay : io unit :=
  _ ← inb ATA_PRIMARY_ALTSTAT;
  _ ← inb ATA_PRIMARY_ALTSTAT;
  _ ← inb ATA_PRIMARY_ALTSTAT;
  _ ← inb ATA_PRIMARY_ALTSTAT;
  mret tt.

(** ** Transfers *)

Fixpoint read_words (n : nat) : io (list Z) :=
  match n with
  | O => mret []
  | S n => w ← inw ATA_PRIMARY_DATA; ws ← read_words n; mret (w :: ws)
  end.

(** [(u8)data] and [(u8)(data >> 8)]. *)
Definition word_bytes (w : Z) : list Z := [u8 w; u8 (Z.shiftr w 8)].

(** The address registers and the command. *)
Definition ata_setup (lba count cmd : Z) : io unit :=
  _ ← outb ATA_PRIMARY_SECTORS count;
  _ ← outb ATA_PRIMARY_LBA_LO (u8 lba);
  _ ← outb ATA_PRIMARY_LBA_MID (u8 (Z.shiftr lba 8));
  _ ← outb ATA_PRIMARY_LBA_HI (u8 (Z.shiftr lba 16));
  _ ← outb ATA_PRIMARY_DRIVE (ATA_DRIVE_MASTER .| (Z.shiftr lba 24 .& 0x0F));
  outb ATA_PRIMARY_CMD cmd.

(** The value returned, and the bytes stored in [buf], from its start. *)
Fixpoint ata_read_loop (n : nat) : io (Z * list Z) :=
  match n with
  | O => mret (0, [])
  | S n =>
      r ← ata_wait_drq;
      if r <? 0 then mret (-1, [])
      else
        ws ← read_words 256;
        q ← ata_read_loop n;
        mret (fst q, (ws ≫= word_bytes) ++ snd q)
  end.

Definition ata_read_sectors (lba count : Z) : io (Z * list Z) :=
  if count =? 0 then mret (0, [])
  else
    b ← ata_wait_busy;
    if b <? 0 then mret (-1, [])
    else
      _ ← ata_setup lba count ATA_CMD_READ;
      q ← ata_read_loop (Z.to_nat count);
      mret (if fst q <? 0 then -1 else count * SECTOR_SIZE, snd q).

(** The word [i] of the sector at [off] of [buf]. *)
Definition buf_word (buf : list Z) (off i : nat) : Z :=
  buf !!! (off + i * 2)%nat .| u16 (Z.shiftl (buf !!! (off + i * 2 + 1)%nat) 8).

(** Sectors [s .. s + n - 1] of the buffer. *)
Fixpoint ata_write_loop (buf : list Z) (n s : nat) : io Z :=
  match n with
  | O => mret 0
  | S n =>
      r ← ata_wait_drq;
      if r <? 0 then mret (-1)
      else
        _ ← for_each (seq 0 256) (fun i => outw ATA_PRIMARY_DATA (buf_word buf (s * 512) i));
        ata_write_loop buf n (S s)
  end.

Definition ata_write_sectors (lba count : Z) (buf : list Z) : io Z :=
  if count =? 0 then mret 0
  else
    b ← ata_wait_busy;
    if b <? 0 then mret (-1)
    else
      _ ← ata_setup lba count ATA_CMD_WRITE;
      r ← ata_write_loop buf (Z.to_nat count) 0;
      if r <? 0 then mret (-1)
      else
        b ← ata_wait_busy;
        mret (if b <? 0 then -1 else count * SECTOR_SIZE).

(** ** Detection *)

Fixpoint skip_blanks (cs : list Z) : list Z :=
  match cs with
  | c :: cs => if c =? BLANK then skip_blanks cs else c :: cs
  | [] => []
  end.

(** The model string: words 27 to 46, high byte first, without the blanks at
    either end. *)
Definition ata_model (ident : list Z) : list Z :=
  let model := slice 27 20 ident ≫= (fun w => [i8 (Z.shiftr w 8); i8 (w .& 0xFF)]) in
  rev (skip_blanks (rev (skip_blanks model))).

Definition ata_total_sectors (ident : list Z) : Z :=
  ident !!! 60%nat .| u32 (Z.shiftl (ident !!! 61%nat) 16).

(** The value returned, and what the log line reports on success. *)
Definition ata_init : io (Z * option (list Z * Z)) :=
  _ ← outb ATA_PRIMARY_DRIVE ATA_DRIVE_MASTER;
  _ ← ata_delay;
  st ← inb ATA_PRIMARY_CMD;
  if st =? 0xFF then mret (-1, None)
  else
    _ ← outb ATA_PRIMARY_SECTORS 0;
    _ ← outb ATA_PRIMARY_LBA_LO 0;
    _ ← outb ATA_PRIMARY_LBA_MID 0;
    _ ← outb ATA_PRIMARY_LBA_HI 0;
    _ ← outb ATA_PRIMARY_CMD ATA_CMD_IDENTIFY;
    _ ← ata_delay;
    r ← ata_wait_drq;
    if r <? 0 then mret (-1, None)
    else
      ident ← read_words 256;
      if c_true (ident !!! 0%nat .& 0x8000) then mret (-1, None)
      else mret (0, Some (ata_model ident, ata_total_sectors ident / 2048)).

(** ** The drive *)

Inductive phase : Type :=
  | Idle
  | Sending (lba cnt : Z) (todo : list Z)
  | Receiving (lba cnt : Z) (got : list Z).

(** The task file registers, the sectors, and where a transfer stands: [cnt]
    counts the current sector. *)
Record pio : Type := mk_pio {
  r_count : Z;
  r_lo : Z;
  r_mid : Z;
  r_hi : Z;
  r_drive : Z;
  medium : Z -> list Z;
  ph : phase
}.

Definition set_ph (p : phase) (st : pio) : pio :=
  mk_pio (r_count st) (r_lo st) (r_mid st) (r_hi st) (r_drive st) (medium st) p.
Definition set_medium (m : Z -> list Z) (st : pio) : pio :=
  mk_pio (r_count st) (r_lo st) (r_mid st) (r_hi st) (r_drive st) m (ph st).

Definition r_lba (st : pio) : Z :=
  r_lo st + 2 ^ 8 * r_mid st + 2 ^ 16 * r_hi st + 2 ^ 24 * (r_drive st mod 16).

(** A count of 0 means 256 sectors. *)
Definition r_sectors (st : pio) : Z := if r_count st =? 0 then 256 else r_count st.

Definition command (v : Z) (st : pio) : pio :=
  if r_drive st / 16 =? 0xE then
    if v =? ATA_CMD_READ then set_ph (Sending (r_lba st) (r_sectors st) (medium st (r_lba st))) st
    else if v =? ATA_CMD_WRITE then set_ph (Receiving (r_lba st) (r_sectors st) []) st
    else st
  else st.

Definition write_reg (port v : Z) (st : pio) : pio :=
  let 'mk_pio c lo mid hi drv m p := st in
  if port =? ATA_PRIMARY_SECTORS then mk_pio v lo mid hi drv m p
  else if port =? ATA_PRIMARY_LBA_LO then mk_pio c v mid hi drv m p
  else if port =? ATA_PRIMARY_LBA_MID then mk_pio c lo v hi drv m p
  else if port =? ATA_PRIMARY_LBA_HI then mk_pio c lo mid v drv m p
  else if port =? ATA_PRIMARY_DRIVE then mk_pio c lo mid hi v m p
  else if port =? ATA_PRIMARY_CMD then command v st
  else st.

(** A word has been read from, or written to, the data register. *)
Definition word_out (st : pio) : pio :=
  match ph st with
  | Sending lba cnt (_ :: _ :: []) =>
      set_ph (if cnt =? 1 then Idle else Sending (lba + 1) (cnt - 1) (medium st (lba + 1))) st
  | Sending lba cnt (_ :: _ :: todo) => set_ph (Sending lba cnt todo) st
  | _ => st
  end.

Definition word_in (w : Z) (st : pio) : pio :=
  match ph st with
  | Receiving lba cnt got =>
      let got := got ++ [w mod 256; w / 256] in
      if decide (length got = 512%nat) then
        set_ph (if cnt =? 1 then Idle else Receiving (lba + 1) (cnt - 1) [])
          (set_medium (fun s => if decide (s = lba) then got else medium st s) st)
      else set_ph (Receiving lba cnt got) st
  | _ => st
  end.

Definition pio_step (st : pio) (e : io_event) : pio :=
  match e with
  | Out 1 port v => write_reg port v st
  | Out 2 0x1F0 w => word_in w st
  | In 2 0x1F0 _ => word_out st
  | _ => st
  end.

Definition pio_after (init : pio) (h : history) : pio := foldl pio_step init h.

(** A drive that follows the protocol from the state [init] and answers within
    the driver's timeout: BSY clears, and with BSY clear and a transfer under
    way, DRQ comes up without an error. *)
Class PioDrive (dev : device) (init : pio) : Prop := {
  drive_word : forall h lba cnt b0 b1 todo,
    ph (pio_after init h) = Sending lba cnt (b0 :: b1 :: todo) -> is_u8 b0 -> is_u8 b1 ->
    dev h 2 ATA_PRIMARY_DATA mod 65536 = b0 + 256 * b1;
  drive_busy : forall h, exists n h', (n <= Pos.to_nat ATA_POLLS)%nat /\ finds dev poll_busy 0 n h h';
  drive_drq : forall h v, c_true (v .& ATA_STATUS_BSY) = false -> ph (pio_after init h) <> Idle ->
    exists n h', (n <= Pos.to_nat ATA_POLLS)%nat /\
      finds dev poll_drq 0 n (h ++ [In 1 ATA_PRIMARY_ALTSTAT v]) h'
}.

(** ** Runs over a working drive *)

Lemma finds_mono {A} d (m : io (option A)) x n k h h' : (n <= k)%nat -> finds d m x n h h' -> finds d m x k h h'.
Proof.
  intros Hk F. revert k Hk. induction F as [n h h' E|n h h1 h' E _ IH]; intros [|k] Hk; try lia.
  - apply finds_now, E.
  - eapply finds_later; [exact E|]. apply IH. lia.
Qed.

Section drive.
Context (dev : device) (init : pio) {PD : PioDrive dev init}.

Local Abbreviation state h := (pio_after init h).

Lemma state_snoc h e : state (h ++ [e]) = pio_step (state h) e.
Proof. unfold pio_after. rewrite foldl_app. reflexivity. Qed.

(** From any history that leaves the drive in [st], [m] returns [x] and leaves
    it in [st']. *)
Definition goes {A} (st : pio) (m : io A) (x : A) (st' : pio) : Prop :=
  forall h, state h = st -> exists h', m dev h = Some (x, h') /\ state h' = st'.

Lemma goes_ret {A} st (x : A) : goes st (mret x) x st.
Proof. intros h Hh. exists h. auto. Qed.

Lemma goes_bind {A B} st (m : io A) (f : A -> io B) x st1 y st2 :
  goes st m x st1 -> goes st1 (f x) y st2 -> goes st (m ≫= f) y st2.
Proof.
  intros Hm Hf h Hh. destruct (Hm h Hh) as (h1 & E1 & S1). destruct (Hf h1 S1) as (h2 & E2 & S2).
  exists h2. unfold mbind, io_bind. rewrite E1. auto.
Qed.

Lemma goes_outb st p v : goes st (outb p v) tt (pio_step st (Out 1 (u16 p) (u8 v))).
Proof. intros h <-. eexists. split; [reflexivity|]. apply state_snoc. Qed.

Lemma goes_outw st v : goes st (outw ATA_PRIMARY_DATA v) tt (word_in (u16 v) st).
Proof. intros h <-. eexists. split; [reflexivity|]. rewrite state_snoc. reflexivity. Qed.

Lemma goes_inw st lba cnt b0 b1 todo : ph st = Sending lba cnt (b0 :: b1 :: todo) -> is_u8 b0 -> is_u8 b1 ->
  goes st (inw ATA_PRIMARY_DATA) (b0 + 256 * b1) (word_out st).
Proof.
  intros Hp H0 H1 h <-. eexists. unfold inw, inw_width. change (u16 ATA_PRIMARY_DATA) with ATA_PRIMARY_DATA.
  cbv zeta. rewrite (drive_word _ _ _ _ _ _ Hp H0 H1). split; [reflexivity|]. rewrite state_snoc. reflexivity.
Qed.

(** Polling the status register does not disturb the drive. *)
Lemma poll_state (f : Z -> option Z) x n h h' :
  finds dev (st ← inb ATA_PRIMARY_ALTSTAT; mret (f st)) x n h h' ->
  exists h0 v, h' = h0 ++ [In 1 ATA_PRIMARY_ALTSTAT v] /\ f v = Some x /\ state h0 = state h.
Proof.
  induction 1 as [n h h' E|n h h1 h' E _ IH]; injection E as Ef <-.
  - exists h, (dev h 1 ATA_PRIMARY_ALTSTAT mod 256). auto.
  - destruct IH as (h0 & v & -> & Hv & Hs). exists h0, v. split; [reflexivity|]. split; [exact Hv|].
    rewrite Hs, state_snoc. reflexivity.
Qed.

Lemma wait_busy_run h : exists h0 v, ata_wait_busy dev h = Some (0, h0 ++ [In 1 ATA_PRIMARY_ALTSTAT v]) /\
  c_true (v .& ATA_STATUS_BSY) = false /\ state h0 = state h.
Proof.
  destruct (drive_busy h) as (n & h' & Hn & F). apply (finds_mono _ _ _ _ _ _ _ Hn) in F.
  pose proof (until_finds _ _ _ _ _ _ F) as E.
  apply poll_state in F as (h0 & v & -> & Hv & Hs). exists h0, v.
  unfold ata_wait_busy, mbind, io_bind. rewrite E. split; [reflexivity|]. split; [|exact Hs].
  destruct (c_true (v .& ATA_STATUS_BSY)); [discriminate|reflexivity].
Qed.

Lemma goes_wait_busy st : goes st ata_wait_busy 0 st.
Proof.
  intros h <-. destruct (wait_busy_run h) as (h0 & v & E & _ & Hs). eexists. split; [exact E|].
  rewrite state_snoc. exact Hs.
Qed.

Lemma goes_wait_drq st : ph st <> Idle -> goes st ata_wait_drq 0 st.
Proof.
  intros Hp h <-. destruct (wait_busy_run h) as (h0 & v & E & Hv & Hs). rewrite <- Hs in Hp.
  destruct (drive_drq h0 v Hv Hp) as (n & h' & Hn & F). apply (finds_mono _ _ _ _ _ _ _ Hn) in F.
  pose proof (until_finds _ _ _ _ _ _ F) as E2.
  apply poll_state in F as (h1 & w & -> & Hw & Hs1). exists (h1 ++ [In 1 ATA_PRIMARY_ALTSTAT w]).
  unfold ata_wait_drq, mbind, io_bind. rewrite E. cbn [Z.ltb Z.compare]. rewrite E2. split; [reflexivity|].
  rewrite state_snoc. cbn [pio_step]. rewrite Hs1, state_snoc. exact Hs.
Qed.

(** ** Reading *)

Lemma word_bytes_pair b0 b1 : is_u8 b0 -> is_u8 b1 -> word_bytes (b0 + 256 * b1) = [b0; b1].
Proof.
  unfold is_u8, word_bytes. intros H0 H1. rewrite Z.shiftr_div_pow2 by lia. unfold u8.
  f_equal; [mlia|]. f_equal. mlia.
Qed.

(** The phase after the last word of a sector. *)
Definition next_sector (lba cnt : Z) (st : pio) : pio :=
  set_ph (if cnt =? 1 then Idle else Sending (lba + 1) (cnt - 1) (medium st (lba + 1))) st.

Lemma goes_read_words n st lba cnt todo :
  ph st = Sending lba cnt todo -> length todo = (2 * S n)%nat -> Forall is_u8 todo ->
  exists ws, goes st (read_words (S n)) ws (next_sector lba cnt st) /\ ws ≫= word_bytes = todo.
Proof.
  revert st todo. induction n as [|n IH]; intros st todo Hp Hl Hb;
    (destruct todo as [|b0 [|b1 todo]]; [cbn in Hl; lia..|]);
    apply Forall_cons in Hb as [H0 Hb]; apply Forall_cons in Hb as [H1 Hb];
    pose proof (goes_inw st lba cnt b0 b1 todo Hp H0 H1) as G; cbn [length] in Hl.
  - destruct todo; [|cbn in Hl; lia]. exists [b0 + 256 * b1]. split.
    + eapply goes_bind; [exact G|]. unfold word_out. rewrite Hp. apply goes_bind with [] (next_sector lba cnt st).
      * apply goes_ret.
      * apply goes_ret.
    + cbn [mbind list_bind]. rewrite word_bytes_pair by assumption. reflexivity.
  - set (st1 := set_ph (Sending lba cnt todo) st).
    destruct (IH st1 todo eq_refl ltac:(lia) Hb) as (ws & Gw & Ew).
    exists (b0 + 256 * b1 :: ws). split.
    + eapply goes_bind; [exact G|]. 
      replace (word_out st) with st1 by (unfold word_out; rewrite Hp; destruct todo; [cbn in Hl; lia|reflexivity]).
      eapply goes_bind; [exact Gw|]. apply goes_ret.
    + cbn [mbind list_bind]. rewrite word_bytes_pair by assumption. cbn [app]. do 2 f_equal. exact Ew.
Qed.

Definition sectors_ok (m : Z -> list Z) : Prop := forall s, length (m s) = 512%nat /\ Forall is_u8 (m s).

Lemma ata_read_loop_S n : ata_read_loop (S n) =
  (r ← ata_wait_drq;
   if r <? 0 then mret (-1, [])
   else ws ← read_words 256; q ← ata_read_loop n; mret (fst q, (ws ≫= word_bytes) ++ snd q)).
Proof. reflexivity. Qed.

Lemma goes_read_loop n st lba : sectors_ok (medium st) ->
  ph st = Sending lba (Z.of_nat (S n)) (medium st lba) ->
  exists st', goes st (ata_read_loop (S n)) (0, concat (medium st <$> seqZ lba (Z.of_nat (S n)))) st' /\
    medium st' = medium st /\ ph st' = Idle.
Proof.
  intros Hm. revert st lba Hm. induction n as [|n IH]; intros st lba Hm Hp; destruct (Hm lba) as [Hl Hb];
    destruct (goes_read_words 255 st lba _ _ Hp Hl Hb) as (ws & Gw & Ew).
  - exists (set_ph Idle st). split; [|split; reflexivity].
    rewrite ata_read_loop_S.
    eapply goes_bind; [apply goes_wait_drq; congruence|]. cbn [Z.ltb Z.compare].
    eapply goes_bind; [exact Gw|]. eapply goes_bind; [apply goes_ret|].
    cbn [fst snd]. rewrite Ew. cbn. apply goes_ret.
  - set (st1 := next_sector lba (Z.of_nat (S (S n))) st) in *.
    assert (E1 : ph st1 = Sending (lba + 1) (Z.of_nat (S n)) (medium st1 (lba + 1))).
    { unfold st1, next_sector. destruct (Z.eqb_spec (Z.of_nat (S (S n))) 1); [lia|]. cbn [ph set_ph medium].
      f_equal. lia. }
    destruct (IH st1 (lba + 1) Hm E1) as (st' & G' & Hm' & Hp').
    exists st'. split; [|auto].
    rewrite ata_read_loop_S.
    eapply goes_bind; [apply goes_wait_drq; congruence|]. cbn [Z.ltb Z.compare].
    eapply goes_bind; [exact Gw|]. eapply goes_bind; [exact G'|]. cbn [fst snd]. rewrite Ew.
    rewrite (seqZ_cons lba (Z.of_nat (S (S n)))) by lia. replace (Z.pred (Z.of_nat (S (S n)))) with (Z.of_nat (S n)) by lia.
    rewrite Z.add_1_r. apply goes_ret.
Qed.

(** ** The command *)

Lemma drive_register lba : 0 <= lba < 2 ^ 28 ->
  u8 (ATA_DRIVE_MASTER .| (Z.shiftr lba 24 .& 0x0F)) = 14 * 2 ^ 4 + bits lba 24 4.
Proof.
  intros H. change 0x0F with (Z.ones 4). rewrite field_of by lia. change ATA_DRIVE_MASTER with (14 * 2 ^ 4).
  pose proof (bits_range lba 24 4 ltac:(lia)). rewrite lor_aligned by lia. apply u8_small. lia.
Qed.

Lemma lba_bytes lba : 0 <= lba < 2 ^ 28 ->
  bits lba 0 8 + 2 ^ 8 * bits lba 8 8 + 2 ^ 16 * bits lba 16 8 + 2 ^ 24 * bits lba 24 4 = lba.
Proof. intros H. unfold bits. mlia. Qed.

Lemma u8_shift lba k : 0 <= k -> u8 (Z.shiftr lba k) = bits lba k 8.
Proof. intros. unfold u8, bits. rewrite Z.shiftr_div_pow2 by lia. reflexivity. Qed.

(** The registers a command finds. *)
Definition addressed (lba count : Z) (st : pio) : pio :=
  mk_pio count (bits lba 0 8) (bits lba 8 8) (bits lba 16 8) (14 * 2 ^ 4 + bits lba 24 4) (medium st) (ph st).

Lemma goes_setup st lba count cmd : 0 <= lba < 2 ^ 28 -> 0 < count < 256 ->
  goes st (ata_setup lba count cmd) tt (command (u8 cmd) (addressed lba count st)).
Proof.
  intros Hl Hc. destruct st as [c lo mid hi drv m p]. unfold ata_setup.
  do 5 (eapply goes_bind; [apply goes_outb|]).
  replace (command (u8 cmd) (addressed lba count (mk_pio c lo mid hi drv m p))) with
    (pio_step (addressed lba count (mk_pio c lo mid hi drv m p)) (Out 1 (u16 ATA_PRIMARY_CMD) (u8 cmd))) by reflexivity.
  rewrite drive_register by exact Hl.
  replace (u8 (u8 lba)) with (bits lba 0 8) by (unfold u8, bits; mlia).
  rewrite !u8_shift by lia. pose proof (bits_range lba 8 8 ltac:(lia)). pose proof (bits_range lba 16 8 ltac:(lia)).
  pose proof (bits_range lba 24 4 ltac:(lia)).
  rewrite (u8_small (bits lba 8 8)), (u8_small (bits lba 16 8)), (u8_small count) by lia.
  apply goes_outb.
Qed.

Lemma command_addressed lba count cmd st : 0 <= lba < 2 ^ 28 -> 0 < count ->
  command cmd (addressed lba count st) =
    let st := addressed lba count st in
    if cmd =? ATA_CMD_READ then set_ph (Sending lba count (medium st lba)) st
    else if cmd =? ATA_CMD_WRITE then set_ph (Receiving lba count []) st else st.
Proof.
  intros Hl Hc. pose proof (bits_range lba 24 4 ltac:(lia)) as Hb.
  unfold command. cbn [r_drive addressed].
  replace ((14 * 2 ^ 4 + bits lba 24 4) / 16) with 14 by mlia. cbn [Z.eqb Pos.eqb]. cbv zeta.
  assert (El : r_lba (addressed lba count st) = lba).
  { unfold r_lba. cbn [r_lo r_mid r_hi r_drive addressed].
    replace ((14 * 2 ^ 4 + bits lba 24 4) mod 16) with (bits lba 24 4) by mlia. apply lba_bytes, Hl. }
  assert (Es : r_sectors (addressed lba count st) = count).
  { unfold r_sectors. cbn [r_count addressed]. destruct (Z.eqb_spec count 0); [lia|reflexivity]. }
  rewrite El, Es. reflexivity.
Qed.

Lemma goes_read_sectors st lba count : sectors_ok (medium st) -> ph st = Idle ->
  0 <= lba -> 0 <= count < 256 -> lba + count <= 2 ^ 28 ->
  exists st', goes st (ata_read_sectors lba count) (count * 512, concat (medium st <$> seqZ lba count)) st' /\
    medium st' = medium st /\ ph st' = Idle.
Proof.
  intros Hm Hp Hl Hc Hr. unfold ata_read_sectors. destruct (Z.eqb_spec count 0) as [->|Hn].
  { exists st. split; [apply goes_ret|auto]. }
  set (st1 := command (u8 ATA_CMD_READ) (addressed lba count st)).
  assert (E1 : st1 = set_ph (Sending lba count (medium st lba)) (addressed lba count st))
    by (unfold st1; rewrite command_addressed by lia; reflexivity).
  assert (Hm1 : medium st1 = medium st) by (rewrite E1; reflexivity).
  destruct (goes_read_loop (Z.to_nat count - 1) st1 lba) as (st' & G & Hm' & Hp').
  { rewrite Hm1. exact Hm. }
  { rewrite E1. cbn [ph set_ph medium addressed]. f_equal. lia. }
  exists st'. split; [|rewrite Hm', Hm1; auto].
  eapply goes_bind; [apply goes_wait_busy|]. cbn [Z.ltb Z.compare].
  eapply goes_bind; [apply goes_setup; lia|]. fold st1.
  replace (S (Z.to_nat count - 1)) with (Z.to_nat count) in G by lia.
  eapply goes_bind; [exact G|]. cbn [fst snd Z.ltb Z.compare]. rewrite Hm1, Z2Nat.id by lia. apply goes_ret.
Qed.

(** ** Writing *)

Lemma buf_word_pair buf off i b0 b1 :
  buf !! (off + i * 2)%nat = Some b0 -> buf !! (off + i * 2 + 1)%nat = Some b1 -> is_u8 b0 -> is_u8 b1 ->
  buf_word buf off i = b0 + 256 * b1.
Proof.
  unfold is_u8. intros E0 E1 H0 H1. unfold buf_word.
  rewrite (list_lookup_total_correct _ _ _ E0), (list_lookup_total_correct _ _ _ E1).
  rewrite Z.shiftl_mul_pow2 by lia. unfold u16. rewrite Z.mod_small by lia.
  rewrite Z.lor_comm, lor_aligned by lia. lia.
Qed.

(** The words from [i] on complete a sector of which the first [2 i] bytes have
    been received. *)
Lemma goes_write_words buf off n i st lba cnt :
  (off + 512 <= length buf)%nat -> Forall is_u8 buf -> (i + n = 256)%nat -> (0 < n)%nat ->
  ph st = Receiving lba cnt (slice off (i * 2) buf) ->
  goes st (for_each (seq i n) (fun i => outw ATA_PRIMARY_DATA (buf_word buf off i))) tt
    (set_ph (if cnt =? 1 then Idle else Receiving (lba + 1) (cnt - 1) [])
       (set_medium (fun s => if decide (s = lba) then slice off 512 buf else medium st s) st)).
Proof.
  intros Hl Hb. revert i st. induction n as [|n IH]; intros i st Hi Hn Hp; [lia|].
  destruct (lookup_lt_is_Some_2 buf (off + i * 2)) as [b0 E0]; [lia|].
  destruct (lookup_lt_is_Some_2 buf (off + i * 2 + 1)) as [b1 E1]; [lia|].
  pose proof (proj1 (Forall_lookup _ _) Hb _ _ E0) as H0. pose proof (proj1 (Forall_lookup _ _) Hb _ _ E1) as H1.
  unfold is_u8 in H0, H1.
  cbn [seq for_each]. eapply goes_bind; [apply goes_outw|].
  rewrite (buf_word_pair _ _ _ _ _ E0 E1 H0 H1). unfold u16. rewrite Z.mod_small by lia.
  assert (Eg : slice off (i * 2) buf ++ [(b0 + 256 * b1) mod 256; (b0 + 256 * b1) / 256] = slice off (S i * 2) buf).
  { replace ((b0 + 256 * b1) mod 256) with b0 by mlia. replace ((b0 + 256 * b1) / 256) with b1 by mlia.
    replace (S i * 2)%nat with (i * 2 + 2)%nat by lia. rewrite <- slice_app. f_equal. unfold slice.
    rewrite (drop_S _ _ _ E0). rewrite (drop_S _ b1) by (rewrite <- E1; f_equal; lia). reflexivity. }
  unfold word_in. rewrite Hp. cbv zeta. rewrite Eg.
  destruct n as [|n].
  - rewrite decide_True by (rewrite length_slice; lia). replace (S i * 2)%nat with 512%nat by lia. apply goes_ret.
  - rewrite decide_False by (rewrite length_slice; lia).
    specialize (IH (S i) (set_ph (Receiving lba cnt (slice off (S i * 2) buf)) st) ltac:(lia) ltac:(lia) eq_refl).
    exact IH.
Qed.

Lemma ata_write_loop_S buf n s : ata_write_loop buf (S n) s =
  (r ← ata_wait_drq;
   if r <? 0 then mret (-1)
   else _ ← for_each (seq 0 256) (fun i => outw ATA_PRIMARY_DATA (buf_word buf (s * 512) i));
        ata_write_loop buf n (S s)).
Proof. reflexivity. Qed.

Definition overwrite (lba : Z) (n s : nat) (buf : list Z) (m : Z -> list Z) : Z -> list Z := fun k =>
  if decide (lba <= k < lba + Z.of_nat n) then slice (s * 512 + Z.to_nat (k - lba) * 512) 512 buf else m k.

Lemma goes_write_loop buf n s st lba :
  (s * 512 + S n * 512 <= length buf)%nat -> Forall is_u8 buf -> ph st = Receiving lba (Z.of_nat (S n)) [] ->
  exists st', goes st (ata_write_loop buf (S n) s) 0 st' /\ ph st' = Idle /\
    forall k, medium st' k = overwrite lba (S n) s buf (medium st) k.
Proof.
  intros Hl Hb. revert s st lba Hl. induction n as [|n IH]; intros s st lba Hl Hp;
    pose proof (goes_write_words buf (s * 512) 256 0 st lba _ ltac:(lia) Hb ltac:(lia) ltac:(lia) Hp) as G.
  - set (st1 := set_ph _ _) in G. exists st1. split; [|split; [reflexivity|]].
    + rewrite ata_write_loop_S. eapply goes_bind; [apply goes_wait_drq; congruence|]. cbn [Z.ltb Z.compare].
      eapply goes_bind; [exact G|]. apply goes_ret.
    + intros k. unfold overwrite. cbn [medium st1 set_ph set_medium].
      destruct (decide (k = lba)) as [->|Hk]; [rewrite decide_True by lia|rewrite decide_False by lia; reflexivity].
      f_equal. lia.
  - set (st1 := set_ph _ _) in G.
    assert (E1 : ph st1 = Receiving (lba + 1) (Z.of_nat (S n)) []).
    { unfold st1. destruct (Z.eqb_spec (Z.of_nat (S (S n))) 1); [lia|]. cbn [ph set_ph]. f_equal. lia. }
    destruct (IH (S s) st1 (lba + 1) ltac:(lia) E1) as (st' & G' & Hp' & Hm').
    exists st'. split; [|split; [exact Hp'|]].
    + rewrite ata_write_loop_S.
      eapply goes_bind; [apply goes_wait_drq; congruence|]. cbn [Z.ltb Z.compare].
      eapply goes_bind; [exact G|exact G'].
    + intros k. rewrite Hm'. unfold overwrite. cbn [medium st1 set_ph set_medium].
      destruct (decide (lba + 1 <= k < lba + 1 + Z.of_nat (S n))).
      * rewrite decide_True by lia. f_equal. lia.
      * destruct (decide (k = lba)) as [->|Hk]; [rewrite decide_True by lia; f_equal; lia|].
        rewrite decide_False by lia. reflexivity.
Qed.

Lemma goes_write_sectors st lba count buf : ph st = Idle -> Forall is_u8 buf ->
  0 <= lba -> 0 <= count < 256 -> lba + count <= 2 ^ 28 -> length buf = Z.to_nat (count * 512) ->
  exists st', goes st (ata_write_sectors lba count buf) (count * 512) st' /\ ph st' = Idle /\
    forall k, medium st' k = overwrite lba (Z.to_nat count) 0 buf (medium st) k.
Proof.
  intros Hp Hb Hl Hc Hr Hlen. unfold ata_write_sectors. destruct (Z.eqb_spec count 0) as [->|Hn].
  { exists st. split; [apply goes_ret|]. split; [exact Hp|]. intros k. unfold overwrite. rewrite decide_False by lia. reflexivity. }
  set (st1 := command (u8 ATA_CMD_WRITE) (addressed lba count st)).
  assert (E1 : st1 = set_ph (Receiving lba count []) (addressed lba count st))
    by (unfold st1; rewrite command_addressed by lia; reflexivity).
  destruct (goes_write_loop buf (Z.to_nat count - 1) 0 st1 lba) as (st' & G & Hp' & Hm').
  { lia. }
  { exact Hb. }
  { rewrite E1. cbn [ph set_ph]. f_equal. lia. }
  replace (S (Z.to_nat count - 1)) with (Z.to_nat count) in G, Hm' by lia.
  exists st'. split; [|split; [exact Hp'|]].
  - eapply goes_bind; [apply goes_wait_busy|]. cbn [Z.ltb Z.compare].
    eapply goes_bind; [apply goes_setup; lia|]. fold st1.
    eapply goes_bind; [exact G|]. cbn [Z.ltb Z.compare].
    eapply goes_bind; [apply goes_wait_busy|]. cbn [Z.ltb Z.compare]. apply goes_ret.
  - intros k. rewrite Hm', E1. reflexivity.
Qed.
End drive.

(** ** The theorems *)

(** C24: Over any drive that follows the PIO protocol and answers in time, reading
    returns exactly the sectors asked for and leaves the disk alone, and writing
    replaces exactly those sectors; both return the number of bytes and leave the
    drive idle. *)
Theorem ata_transfers dev init {PD : PioDrive dev init} h lba count :
  let disk h := medium (pio_after init h) in
  sectors_ok (disk h) -> ph (pio_after init h) = Idle ->
  0 <= lba -> 0 <= count < 256 -> lba + count <= 2 ^ 28 ->
  (exists h', ata_read_sectors lba count dev h =
      Some ((count * 512, concat (disk h <$> seqZ lba count)), h') /\
    disk h' = disk h /\ ph (pio_after init h') = Idle) /\
  forall buf, Forall is_u8 buf -> length buf = Z.to_nat (count * 512) ->
    exists h', ata_write_sectors lba count buf dev h = Some (count * 512, h') /\
      ph (pio_after init h') = Idle /\
      forall s, disk h' s = if decide (lba <= s < lba + count)
                           then slice (Z.to_nat ((s - lba) * 512)) 512 buf else disk h s.
Proof.
  cbv zeta. intros Hm Hp Hl Hc Hr. split.
  - destruct (goes_read_sectors dev init _ lba count Hm Hp Hl Hc Hr) as (st' & G & Hm' & Hp').
    destruct (G h eq_refl) as (h' & E & S'). exists h'. rewrite S'. auto.
  - intros buf Hb Hlen.
    destruct (goes_write_sectors dev init _ lba count buf Hp Hb Hl Hc Hr Hlen) as (st' & G & Hp' & Hm').
    destruct (G h eq_refl) as (h' & E & S'). exists h'. rewrite S'. split; [exact E|]. split; [exact Hp'|].
    intros s. rewrite Hm'. unfold overwrite. rewrite Z2Nat.id by lia. case_decide; [|reflexivity].
    f_equal. lia.
Qed.

(** A drive that is busy at the first poll after every other access. *)
Definition drive_of (init : pio) : device := fun h _ p =>
  if p =? ATA_PRIMARY_DATA then
    match ph (pio_after init h) with Sending _ _ (b0 :: b1 :: _) => b0 + 256 * b1 | _ => 0 end
  else match last h with
       | Some (In w p _) => if (w =? 1) && (p =? ATA_PRIMARY_ALTSTAT) then 0x48 else 0x80
       | _ => 0x80
       end.

Lemma two_polls : (2 <= Pos.to_nat ATA_POLLS)%nat.
Proof. change 2%nat with (Pos.to_nat 2). apply Pos2Nat.inj_le. discriminate. Qed.

#[export] Instance drive_of_pio init : PioDrive (drive_of init) init.
Proof.
  assert (Hnow : forall h, last h = Some (In 1 0x3F6 0x80) \/ last h = Some (In 1 0x3F6 0x48) ->
    drive_of init h 1 ATA_PRIMARY_ALTSTAT = 0x48).
  { intros h [H|H]; unfold drive_of; cbn [Z.eqb]; rewrite H; reflexivity. }
  assert (Hfind : forall h m, drive_of init h 1 ATA_PRIMARY_ALTSTAT = 0x48 -> m = poll_busy \/ m = poll_drq ->
    m (drive_of init) h = Some (Some 0, h ++ [In 1 0x3F6 0x48])).
  { intros h m E [->| ->]; unfold poll_busy, poll_drq, inb, inw_width, mbind, io_bind;
      change (u16 ATA_PRIMARY_ALTSTAT) with ATA_PRIMARY_ALTSTAT; rewrite E; reflexivity. }
  split.
  - intros h lba cnt b0 b1 todo Hp H0 H1. unfold drive_of. cbn [Z.eqb]. rewrite Hp.
    unfold is_u8 in *. cbn. apply Z.mod_small. lia.
  - intros h. exists 2%nat. 
    assert (D : drive_of init h 1 ATA_PRIMARY_ALTSTAT = 0x48 \/ drive_of init h 1 ATA_PRIMARY_ALTSTAT = 0x80).
    { unfold drive_of. change (ATA_PRIMARY_ALTSTAT =? ATA_PRIMARY_DATA) with false. 
      destruct (last h) as [[w p v|w p v]|]; [destruct (_ && _)%bool|..]; auto. }
    destruct D as [D|D].
    + eexists. split; [pose proof two_polls; lia|]. apply finds_now. apply Hfind; auto.
    + eexists. split; [apply two_polls|]. eapply finds_later.
      * unfold poll_busy, inb, inw_width, mbind, io_bind.
        change (u16 ATA_PRIMARY_ALTSTAT) with ATA_PRIMARY_ALTSTAT. rewrite D. reflexivity.
      * apply finds_now. apply Hfind; [|auto]. apply Hnow. left. rewrite last_snoc. reflexivity.
  - intros h v _ _. exists 1%nat. eexists. split; [pose proof two_polls; lia|]. apply finds_now. apply Hfind; [|auto].
    unfold drive_of. change (ATA_PRIMARY_ALTSTAT =? ATA_PRIMARY_DATA) with false. rewrite last_snoc. reflexivity.
Qed.

Definition demo_pio : pio := mk_pio 0 0 0 0 0 (fun s => replicate 512 (s mod 256)) Idle.

Lemma ata_transfers_witness :
  exists h', ata_read_sectors 5 2 (drive_of demo_pio) [] =
    Some ((1024, replicate 512 5 ++ replicate 512 6), h').
Proof.
  destruct (ata_transfers (drive_of demo_pio) demo_pio [] 5 2) as [(h' & E & _) _].
  - intros s. split; [apply length_replicate|]. apply Forall_replicate. unfold is_u8.
    pose proof (Z.mod_pos_bound s 256). lia.
  - reflexivity.
  - lia.
  - lia.
  - change (2 ^ 28) with 268435456. lia.
  - exists h'. exact E.
Defined.

(** ** The block layer over the driver

    The driver is the block layer's [SectorOps], on the history of the ports.  It
    is not a [SectorDisk], whose laws are about any list of numbers: the words it
    sends are made of bytes.  For blocks of bytes every block operation over the
    driver does what the same operation does over the drive's medium as an
    [image]. *)

Definition driver (dev : device) : SectorOps history := {|
  ata_read := fun lba count h =>
    match ata_read_sectors lba count dev h with
    | Some ((ret, bytes), h) => (if ret <? 0 then None else Some bytes, h)
    | None => (None, h)
    end;
  ata_write := fun lba count buf h =>
    match ata_write_sectors lba count buf dev h with
    | Some (ret, h) => (negb (ret <? 0), h)
    | None => (false, h)
    end
|}.

(** The drive is idle, and its medium holds the image. *)
Definition carries (init : pio) (h : history) (d : image) : Prop :=
  sectors_ok (medium (pio_after init h)) /\ ph (pio_after init h) = Idle /\
  forall s, medium (pio_after init h) s = image_sector d s.

Section over_driver.
Context (dev : device) (init : pio) {PD : PioDrive dev init}.

Lemma driver_reads h d lba count : carries init h d -> 0 <= lba -> 0 <= count < 256 -> lba + count <= 2 ^ 28 ->
  exists h', ata_read (SectorOps := driver dev) lba count h = (fst (ata_read lba count d), h') /\ carries init h' d.
Proof using PD.
  intros (Hm & Hp & Hs) Hl Hc Hr. destruct (goes_read_sectors dev init _ lba count Hm Hp Hl Hc Hr) as (st & G & Em & Ep).
  destruct (G h eq_refl) as (h' & E & S'). exists h'. split.
  - cbn [ata_read driver disk_ops image_disk fst]. rewrite E. destruct (Z.ltb_spec (count * 512) 0); [lia|].
    do 3 f_equal. apply list_fmap_ext. intros i s _. apply Hs.
  - unfold carries. rewrite S', Em. auto.
Qed.

Lemma driver_writes h d lba count bs : carries init h d -> 0 <= lba -> 0 <= count < 256 -> lba + count <= 2 ^ 28 ->
  Forall is_u8 bs -> length bs = Z.to_nat (count * 512) ->
  exists h', ata_write (SectorOps := driver dev) lba count bs h = (true, h') /\ carries init h' (snd (ata_write lba count bs d)).
Proof using PD.
  intros (Hm & Hp & Hs) Hl Hc Hr Hb Hlen. destruct (goes_write_sectors dev init _ lba count bs Hp Hb Hl Hc Hr Hlen) as (st & G & Ep & Em).
  destruct (G h eq_refl) as (h' & E & S'). exists h'. split.
  - cbn [ata_write driver]. rewrite E. destruct (Z.ltb_spec (count * 512) 0); [lia|reflexivity].
  - assert (Ew : forall s, medium st s = image_sector (snd (ata_write lba count bs d)) s).
    { intros s. destruct (@ata_write_ok image image_disk d lba count bs I Hl Hc Hr Hlen) as (d' & E' & _ & Hd). rewrite E'. cbn [snd].
      change (image_sector d' s) with (@sector image image_disk d' s). rewrite Hd, Em. unfold overwrite. rewrite Z2Nat.id by lia.
      case_decide; [f_equal; lia|apply Hs]. }
    unfold carries. rewrite S'. split; [|auto]. intros s. rewrite Em. unfold overwrite. case_decide; [|apply Hm].
    split; [apply length_slice; lia|]. apply Forall_take, Forall_drop, Hb.
Qed.

(** Each block operation over the driver is simulated by the one over the image. *)
Theorem driver_refines_image h d n : carries init h d -> 0 <= n ->
  (forall buf, exists h', ramdisk_read (O := driver dev) n buf h = (fst (block_read n buf d), h') /\
     carries init h' (snd (block_read n buf d))) /\
  (forall bs, Forall is_u8 bs -> length bs = 4096%nat ->
     carries init (ramdisk_write (O := driver dev) n bs h) (block_write n bs d)).
Proof using PD.
  intros C Hn. destruct (decide (n < DISK_BLOCKS)) as [Hd|Hd].
  - assert (R : 0 <= n < DISK_BLOCKS) by lia. pose proof (block_in_reach n R) as Hr.
    assert (Hc : 0 <= SECTORS_PER_BLOCK < 256) by (vm_compute; split; congruence). split.
    + intros buf. destruct (driver_reads h d (n * 8) SECTORS_PER_BLOCK C ltac:(lia) Hc Hr) as (h' & E & C').
      exists h'. cbn [block_read ramdisk].
      rewrite (read_block (O := driver dev) h n buf _ h' R E), (@read_block image (@disk_ops image image_disk) d n buf (concat (image_sector d <$> seqZ (n * 8) SECTORS_PER_BLOCK)) d R eq_refl). auto.
    + intros bs Hb Hl. destruct (driver_writes h d (n * 8) SECTORS_PER_BLOCK bs C ltac:(lia) Hc Hr Hb) as (h' & E & C'); [rewrite Hl; reflexivity|].
      cbn [block_write ramdisk]. rewrite (write_block (O := driver dev) h n bs h' R E), (@write_block image (@disk_ops image image_disk) d n bs (snd (image_write (n * 8) SECTORS_PER_BLOCK bs d)) R eq_refl). exact C'.
  - split.
    + intros buf. exists h. cbn [block_read ramdisk].
      rewrite (proj1 (ramdisk_range (O := driver dev) h n buf [] ltac:(lia))), (proj1 (@ramdisk_range image (@disk_ops image image_disk) d n buf [] ltac:(lia))). auto.
    + intros bs _ _. cbn [block_write ramdisk].
      rewrite (proj2 (ramdisk_range (O := driver dev) h n None bs ltac:(lia))), (proj2 (@ramdisk_range image (@disk_ops image image_disk) d n None bs ltac:(lia))). exact C.
Qed.
End over_driver.

Lemma demo_carries : carries demo_pio [] (medium demo_pio).
Proof.
  split; [|split; [reflexivity|]].
  - intros s. split; [apply length_replicate|]. apply Forall_replicate. unfold is_u8. pose proof (Z.mod_pos_bound s 256). lia.
  - intros s. unfold image_sector. symmetry. apply take_app_length'. symmetry. apply length_replicate.
Qed.

(** A block written through the driver and read back. *)
Lemma driver_refines_image_demo : exists h',
  ramdisk_read (O := driver (drive_of demo_pio)) 3 None (ramdisk_write (O := driver (drive_of demo_pio)) 3 (replicate 4096 7) []) =
    (Some (replicate 4096 7), h').
Proof.
  destruct (driver_refines_image (drive_of demo_pio) demo_pio [] (medium demo_pio) 3 demo_carries ltac:(lia)) as [_ W].
  specialize (W (replicate 4096 7) ltac:(apply Forall_replicate; unfold is_u8; lia) ltac:(apply length_replicate)).
  destruct (driver_refines_image (drive_of demo_pio) demo_pio _ _ 3 W ltac:(lia)) as [R _].
  destruct (R None) as (h' & E & _). exists h'. rewrite E. f_equal.
Qed.

(** ** A drive that never becomes ready *)

Definition stuck (dev : device) : Prop :=
  forall h, c_true (dev h 1 ATA_PRIMARY_ALTSTAT mod 256 .& ATA_STATUS_BSY) = true.

Lemma stuck_misses dev n h : stuck dev ->
  exists evs, misses dev poll_busy n h (h ++ evs) /\ length evs = n /\
    Forall (fun e => exists v, e = In 1 ATA_PRIMARY_ALTSTAT v) evs.
Proof.
  intros Hs. revert h. induction n as [|n IH]; intros h.
  - exists []. rewrite app_nil_r. repeat constructor.
  - set (v := dev h 1 ATA_PRIMARY_ALTSTAT mod 256).
    destruct (IH (h ++ [In 1 ATA_PRIMARY_ALTSTAT v])) as (evs & M & Hl & Hf).
    exists (In 1 ATA_PRIMARY_ALTSTAT v :: evs). split; [|split; [cbn; lia|constructor; eauto]].
    apply misses_S with (h ++ [In 1 ATA_PRIMARY_ALTSTAT v]).
    + unfold poll_busy, inb, inw_width, mbind, io_bind.
      change (u16 ATA_PRIMARY_ALTSTAT) with ATA_PRIMARY_ALTSTAT. cbv zeta. fold v.
      pose proof (Hs h) as E. fold v in E. rewrite E. reflexivity.
    + rewrite <- app_assoc in M. exact M.
Qed.

Lemma stuck_wait dev h : stuck dev ->
  exists evs, ata_wait_busy dev h = Some (-1, h ++ evs) /\ Z.of_nat (length evs) = 29999999 /\
    Forall (fun e => exists v, e = In 1 ATA_PRIMARY_ALTSTAT v) evs.
Proof.
  intros Hs. destruct (stuck_misses dev (Pos.to_nat ATA_POLLS) h Hs) as (evs & M & Hl & Hf).
  exists evs. split; [|split; [rewrite Hl; apply positive_nat_Z|exact Hf]].
  apply until_misses in M. unfold ata_wait_busy, mbind, io_bind. rewrite M. reflexivity.
Qed.

(** When the drive stays busy (or is absent, and the bus floats), both transfer
    routines give up with -1 after polling the status 29,999,999 times, and have
    written no register: no command reaches the drive. *)
Theorem ata_timeout dev h lba count buf : stuck dev -> 0 < count ->
  exists evs, ata_read_sectors lba count dev h = Some ((-1, []), h ++ evs) /\
    ata_write_sectors lba count buf dev h = Some (-1, h ++ evs) /\
    Z.of_nat (length evs) = 29999999 /\
    Forall (fun e => exists v, e = In 1 ATA_PRIMARY_ALTSTAT v) evs.
Proof.
  intros Hs Hc. destruct (stuck_wait dev h Hs) as (evs & E & Hl & Hf). exists evs.
  unfold ata_read_sectors, ata_write_sectors. destruct (Z.eqb_spec count 0); [lia|].
  unfold mbind, io_bind. rewrite E. auto.
Qed.

Lemma ata_timeout_witness :
  exists evs, ata_read_sectors 0 8 (fun _ _ _ => 0xFF) [] = Some ((-1, []), evs) /\
    Z.of_nat (length evs) = 29999999.
Proof.
  destruct (ata_timeout (fun _ _ _ => 0xFF) [] 0 8 []) as (evs & E & _ & Hl & _); [intros h; reflexivity|lia|].
  exists evs. split; [exact E|exact Hl].
Defined.
