(* ===== verification/System.v ===== *)
(** * The kernel's state, and memory transfers

    The components above each have a state of their own.  [system] is their
    product: the machine (RAM with the heap in it, page tables, free frames),
    the scheduler with the IPC tables, the file system, the input drivers, the
    text screen and the history of port accesses.  [sysop] runs a component's
    operation on its part.  A pointer that comes from a process is a virtual
    address; transfers through it go byte by byte through the page tables
    ([read_user], [write_user]), and an unmapped byte is a page fault, which
    panics. *)

From S2P Require Import Prelude Memory PortIO InputDev Text Vga Paging Scheduler Ipc Disk Sfs.
Local Open Scope Z_scope.

Record system (D : Type) : Type := mk_system {
  os_mach : machine;
  os_ipc : ipc;
  os_fs : fs D;
  os_kbd : kbd;
  os_mouse : mouse;
  os_vga : vga;
  os_ports : history
}.
Arguments mk_system {D}.
Arguments os_mach {D}.
Arguments os_ipc {D}.
Arguments os_fs {D}.
Arguments os_kbd {D}.
Arguments os_mouse {D}.
Arguments os_vga {D}.
Arguments os_ports {D}.

Definition set_mach {D} (m : machine) (s : system D) : system D :=
  mk_system m (os_ipc s) (os_fs s) (os_kbd s) (os_mouse s) (os_vga s) (os_ports s).
Definition set_ipc {D} (i : ipc) (s : system D) : system D :=
  mk_system (os_mach s) i (os_fs s) (os_kbd s) (os_mouse s) (os_vga s) (os_ports s).
Definition set_fs {D} (f : fs D) (s : system D) : system D :=
  mk_system (os_mach s) (os_ipc s) f (os_kbd s) (os_mouse s) (os_vga s) (os_ports s).
Definition set_kbd {D} (k : kbd) (s : system D) : system D :=
  mk_system (os_mach s) (os_ipc s) (os_fs s) k (os_mouse s) (os_vga s) (os_ports s).
Definition set_mouse {D} (m : mouse) (s : system D) : system D :=
  mk_system (os_mach s) (os_ipc s) (os_fs s) (os_kbd s) m (os_vga s) (os_ports s).
Definition set_vga {D} (v : vga) (s : system D) : system D :=
  mk_system (os_mach s) (os_ipc s) (os_fs s) (os_kbd s) (os_mouse s) v (os_ports s).
Definition set_ports {D} (h : history) (s : system D) : system D :=
  mk_system (os_mach s) (os_ipc s) (os_fs s) (os_kbd s) (os_mouse s) (os_vga s) h.

Definition sysop (D A : Type) : Type := system D -> exec (A * system D).

#[export] Instance sysop_ret {D} : MRet (sysop D) := fun A x s => Ret (x, s).
#[export] Instance sysop_bind {D} : MBind (sysop D) := fun A B f m s =>
  match m s with Ret (x, s) => f x s | Panic => Panic | Oob => Oob end.

Section lifts.
Context {D : Type}.

Definition asks {A} (f : system D -> A) : sysop D A := fun s => Ret (f s, s).
Definition changes (f : system D -> system D) : sysop D unit := fun s => Ret (tt, f s).

(** A component's operation on its part of the state. *)
Definition of_exec {A} (m : exec A) : sysop D A := fun s =>
  match m with Ret x => Ret (x, s) | Panic => Panic | Oob => Oob end.
Definition on_mach {A} (m : kern A) : sysop D A := fun s =>
  match m (os_mach s) with Ret (x, k) => Ret (x, set_mach k s) | Panic => Panic | Oob => Oob end.
Definition on_fs {A} (m : fsop D A) : sysop D A := fun s =>
  match m (os_fs s) with Ret (x, f) => Ret (x, set_fs f s) | Panic => Panic | Oob => Oob end.
Definition on_tasks {A} (m : kop A) : sysop D A := fun s =>
  match m (mk_kernel (os_mach s) (sched_of (os_ipc s))) with
  | Ret (x, k) => Ret (x, set_ipc (set_sched (sch k) (os_ipc s)) (set_mach (mach k) s))
  | Panic => Panic
  | Oob => Oob
  end.
Definition on_ipc {A} (f : ipc -> exec (A * ipc)) : sysop D A := fun s =>
  match f (os_ipc s) with Ret (x, i) => Ret (x, set_ipc i s) | Panic => Panic | Oob => Oob end.

(** ** Memory transfers *)

Fixpoint read_user (n : nat) (va : Z) : kern (list Z) :=
  match n with
  | O => mret []
  | S n => b ← read8 va; bs ← read_user n (va + 1); mret (b :: bs)
  end.

Fixpoint write_user (va : Z) (bs : list Z) : kern unit :=
  match bs with
  | [] => mret tt
  | b :: bs => _ ← write8 va b; write_user (va + 1) bs
  end.

(** The bytes before the NUL; [fuel] bounds the length of the string. *)
Fixpoint read_cstr (fuel : nat) (va : Z) : kern (list Z) :=
  match fuel with
  | O => fun _ => Oob
  | S fuel =>
      b ← read8 va;
      if b =? 0 then mret [] else bs ← read_cstr fuel (va + 1); mret (b :: bs)
  end.

(** The bytes from [va] on that are mapped, at most [n]. *)
Fixpoint mapped_prefix (n : nat) (va : Z) (k : machine) : list Z :=
  match n with
  | O => []
  | S n => match read8 va k with
           | Ret (b, _) => b :: mapped_prefix n (va + 1) k
           | _ => []
           end
  end.
End lifts.
