(* ===== verification/UserMem.v ===== *)
(** * The user part of an address space

    Pages from 4 MiB up to 0xF0000000 belong to the program.  [users] adds to
    the kernel's invariant of an address space ([space]) that the frames behind
    them are its own: no page table, not free, and not shared by two pages.
    Under it a transfer through user pointers is a transfer of bytes
    ([write_user_spec], [read_user_spec]), and mapping a fresh page disturbs
    no other byte of the program ([alloc_user_page], [fills]). *)

From S2P Require Import Prelude Memory Paging System.
Local Open Scope Z_scope.
Local Open Scope sros_scope.

Definition frame (e : Z) : Z := e .& 0xFFFFF000.

(** The end of the user part: the frame buffer is mapped behind it. *)
Definition USER_END : Z := 0xF0000000.

(** Page numbers of the user part. *)
Definition user_page (n : Z) : Prop := 1024 <= n < 0xF0000.

Record users (k : machine) : Prop := {
  us_space : space k;
  us_client : forall n e, user_page n -> pte_of k n = Some e -> client k (frame e) /\ frame e ∉ free k;
  us_inj : forall n n' e e', user_page n -> user_page n' -> pte_of k n = Some e -> pte_of k n' = Some e' ->
    frame e = frame e' -> n = n'
}.

(** A user address with a page behind it, and the byte there. *)
Definition mapped (k : machine) (va : Z) : Prop := user_page (va / 4096) /\ is_Some (pte_of k (va / 4096)).

Definition vbyte (k : machine) (va : Z) : Z := load8 (ram k) (default 0 (translate k va)).

(** [k'] maps what [k] maps, with the same frames free. *)
Definition same_map (k k' : machine) : Prop :=
  cr3 k' = cr3 k /\ free k' = free k /\ forall n, 0 <= n < 1023 * 1024 -> pte_of k' n = pte_of k n.

#[export] Instance same_map_preorder : PreOrder same_map.
Proof.
  split; [repeat split|].
  intros k1 k2 k3 (A1 & A2 & A3) (B1 & B2 & B3). repeat split; try congruence.
  intros n Hn. rewrite B3, A3 by exact Hn. reflexivity.
Qed.

Lemma mapped_range k va : mapped k va -> 0x400000 <= va < USER_END.
Proof. intros [H _]. unfold user_page, USER_END in *. mlia. Qed.

Lemma mapped_translate k va e : users k -> user_page (va / 4096) -> pte_of k (va / 4096) = Some e ->
  translate k va = Some (frame e + va mod 4096).
Proof.
  intros U Hv E. unfold user_page in Hv. rewrite translate_pte by (first [apply U | mlia]).
  rewrite E. reflexivity.
Qed.

Lemma same_map_mapped k k' va : same_map k k' -> mapped k va -> mapped k' va.
Proof.
  intros (_ & _ & E) [H1 H2]. split; [exact H1|]. unfold user_page in H1. rewrite E by lia. exact H2.
Qed.

(** The bytes of a page, from its words. *)
Lemma load32_byte m1 m2 a i : load32 m1 a = load32 m2 a -> 0 <= i < 4 -> load8 m1 (a + i) = load8 m2 (a + i).
Proof.
  unfold load32. intros E Hi. 
  assert (El : load_bytes m1 a 4 = load_bytes m2 a 4).
  { rewrite <- (le_bytes_val (load_bytes m1 a 4)), <- (le_bytes_val (load_bytes m2 a 4)) by apply load_bytes_u8.
    rewrite !length_load_bytes, E. reflexivity. }
  assert (Hn : (Z.to_nat i < 4)%nat) by lia.
  pose proof (lookup_load_bytes m1 a 4 _ Hn) as E1. rewrite El, (lookup_load_bytes m2 a 4 _ Hn) in E1.
  rewrite Z2Nat.id in E1 by lia. congruence.
Qed.

Lemma page_bytes k k' q off : (forall j, 0 <= j < 1024 -> word k' q j = word k q j) -> 0 <= off < 4096 ->
  load8 (ram k') (q + off) = load8 (ram k) (q + off).
Proof.
  intros W Ho. replace (q + off) with (q + 4 * (off / 4) + off mod 4) by mlia.
  apply load32_byte; [apply W|]; mlia.
Qed.

(** A page in order is kept by changes that keep the invariant and the map. *)
Lemma users_same_map k k' : users k -> space k' -> same_map k k' ->
  (forall q, client k q -> client k' q) -> users k'.
Proof.
  intros U S' (_ & Ef & Ep) Hc. split; [exact S'| |].
  - intros n e Hn E. unfold user_page in Hn. rewrite Ep in E by lia. rewrite Ef.
    destruct (us_client k U n e Hn E). auto.
  - intros n n' e e' Hn Hn' E E'. rewrite Ep in E by (unfold user_page in *; lia).
    rewrite Ep in E' by (unfold user_page in *; lia). apply (us_inj k U n n' e e'); assumption.
Qed.

(** ** Stores *)

(** What a store of the program may change: no page outside its own frames. *)
Definition user_change (k k' : machine) : Prop :=
  users k' /\ same_map k k' /\ (forall q, client k q -> client k' q) /\
  forall q, page q -> (forall n e, user_page n -> pte_of k n = Some e -> frame e <> q) ->
    forall j, 0 <= j < 1024 -> word k' q j = word k q j.

Lemma user_change_refl k : users k -> user_change k k.
Proof. intros U. split; [exact U|]. split; [reflexivity|]. auto. Qed.

Lemma user_change_trans k1 k2 k3 : user_change k1 k2 -> user_change k2 k3 -> user_change k1 k3.
Proof.
  intros (_ & M1 & C1 & W1) (U & M2 & C2 & W2). split; [exact U|]. split; [etransitivity; eassumption|].
  split; [auto|]. intros q Hq Hn j Hj. rewrite W2, W1; auto.
  intros n e Hnn E. destruct M1 as (_ & _ & Ep). unfold user_page in Hnn. rewrite Ep in E by lia. eauto.
Qed.

Lemma write8_user k va v : users k -> mapped k va ->
  exists k', write8 va v k = Ret (tt, k') /\ user_change k k' /\
    forall va', mapped k va' -> vbyte k' va' = if decide (va' = va) then u8 v else vbyte k va'.
Proof.
  intros U [Hv [e E]]. pose proof (mapped_translate k va e U Hv E) as T.
  destruct (us_client k U _ _ Hv E) as [C Hf]. pose proof C as (Hlow & _). pose proof Hlow as [[Hp Hpa] Hp4].
  set (k' := set_ram (store8 (ram k) (frame e + va mod 4096) v) k).
  assert (O : only_page (frame e) k k').
  { apply only_page_store8; [split; assumption|apply Z.mod_pos_bound; lia]. }
  destruct (space_only_page _ k k' (us_space k U) C O) as (S' & C' & P'); [apply (sp_pool k (us_space k U))|].
  assert (M : same_map k k').
  { destruct O as (O1 & O2 & _). split; [exact O1|]. split; [exact O2|]. exact P'. }
  exists k'. split; [|split].
  - unfold write8, access. rewrite u32_small, T by (unfold user_page in Hv; mlia). reflexivity.
  - split; [apply (users_same_map k); assumption|]. split; [exact M|]. split; [exact C'|].
    intros q Hq Hn j Hj. destruct O as (_ & _ & _ & W). apply W; [exact Hq|exact Hj|]. intros ->. eapply Hn; eauto.
  - intros va' [Hv' [e' E']]. pose proof (mapped_translate k va' e' U Hv' E') as T'.
    assert (T2 : translate k' va' = Some (frame e' + va' mod 4096)).
    { apply mapped_translate; [apply (users_same_map k); assumption|exact Hv'|].
      rewrite P' by (unfold user_page in Hv'; lia). exact E'. }
    destruct (us_client k U _ _ Hv' E') as [C2 _]. destruct C2 as ([[Hq Hqa] Hq4] & _).
    unfold vbyte. rewrite T', T2. cbn [default]; unfold id. cbn [k' ram set_ram]. case_decide as Hd.
    + subst va'. assert (e' = e) by congruence. subst e'. apply load8_store8_same.
    + pose proof (Z.mod_pos_bound va 4096 ltac:(lia)). pose proof (Z.mod_pos_bound va' 4096 ltac:(lia)).
      apply load8_store8_other. rewrite !u32_small by lia. intros X. apply Hd.
      assert (Hfr : frame e' = frame e) by (clear -X Hpa Hqa; mlia).
      pose proof (us_inj k U _ _ _ _ Hv' Hv E' E Hfr) as Hn. clear -X Hn Hfr; mlia.
Qed.

(** Every byte of a range is mapped. *)
Definition region (k : machine) (va : Z) (n : nat) : Prop := forall i, 0 <= i < Z.of_nat n -> mapped k (va + i).

Lemma region_same_map k k' va n : same_map k k' -> region k va n -> region k' va n.
Proof. intros M R i Hi. eapply same_map_mapped; eauto. Qed.

Lemma write_user_spec bs k va : users k -> region k va (length bs) ->
  exists k', write_user va bs k = Ret (tt, k') /\ user_change k k' /\
    forall va', mapped k va' ->
      vbyte k' va' = if decide (va <= va' < va + Z.of_nat (length bs))
                     then u8 (bs !!! Z.to_nat (va' - va)) else vbyte k va'.
Proof.
  revert k va. induction bs as [|b bs IH]; intros k va U R.
  - exists k. split; [reflexivity|]. split; [apply user_change_refl, U|].
    intros va' _. cbn [length]. rewrite decide_False by lia. reflexivity.
  - destruct (write8_user k va b U) as (k1 & E1 & Ch1 & V1).
    { rewrite <- (Z.add_0_r va). apply R. cbn. lia. }
    pose proof Ch1 as (U1 & M1 & _).
    destruct (IH k1 (va + 1) U1) as (k' & E' & Ch' & V').
    { apply (region_same_map k); [exact M1|]. intros i Hi.
      replace (va + 1 + i) with (va + (i + 1)) by lia. apply R. cbn. lia. }
    exists k'. split; [|split; [eapply user_change_trans; eassumption|]].
    + cbn [write_user]. unfold mbind, kern_bind. rewrite E1. exact E'.
    + intros va' Hm. rewrite V' by (eapply same_map_mapped; eauto). cbn [length].
      case_decide as H1.
      * rewrite decide_True by lia. f_equal.
        replace (Z.to_nat (va' - va)) with (S (Z.to_nat (va' - (va + 1)))) by lia. reflexivity.
      * rewrite V1 by exact Hm. case_decide as H2.
        -- subst va'. rewrite decide_True by lia. rewrite Z.sub_diag. reflexivity.
        -- rewrite decide_False by lia. reflexivity.
Qed.

(** ** Loads *)

Lemma read8_user k va : users k -> mapped k va -> read8 va k = Ret (vbyte k va, k).
Proof.
  intros U [Hv [e E]]. pose proof (mapped_translate k va e U Hv E) as T.
  unfold read8, access, vbyte. rewrite u32_small, T by (unfold user_page in Hv; mlia). reflexivity.
Qed.

Definition vbytes (k : machine) (va : Z) (n : nat) : list Z := (fun i => vbyte k (va + Z.of_nat i)) <$> seq 0 n.

Lemma vbytes_S k va n : vbytes k va (S n) = vbyte k va :: vbytes k (va + 1) n.
Proof.
  unfold vbytes. cbn [seq]. rewrite fmap_cons, <- seq_shift, <- list_fmap_compose.
  f_equal; [f_equal; lia|]. apply list_fmap_ext. intros i x _. unfold compose. f_equal. lia.
Qed.

Lemma length_vbytes k va n : length (vbytes k va n) = n.
Proof. unfold vbytes. rewrite length_fmap, length_seq. reflexivity. Qed.

Lemma read_user_spec n k va : users k -> region k va n -> read_user n va k = Ret (vbytes k va n, k).
Proof.
  revert va. induction n as [|n IH]; intros va U R; [reflexivity|].
  cbn [read_user]. unfold mbind, kern_bind. rewrite read8_user; [|exact U|].
  2:{ rewrite <- (Z.add_0_r va). apply R. lia. }
  rewrite IH; [|exact U|].
  - rewrite vbytes_S. reflexivity.
  - intros i Hi. replace (va + 1 + i) with (va + (i + 1)) by lia. apply R. lia.
Qed.

Lemma cons_inj {A} {x y : A} {l1 l2} : x :: l1 = y :: l2 -> x = y /\ l1 = l2.
Proof. intros H. injection H. auto. Qed.

(** A C string in user memory: its bytes and the NUL. *)
Definition cstr_at (k : machine) (va : Z) (cs : list Z) : Prop :=
  Forall (fun c => c <> 0) cs /\ region k va (S (length cs)) /\ vbytes k va (S (length cs)) = cs ++ [0].

Lemma read_cstr_spec cs fuel k va : users k -> cstr_at k va cs -> (length cs < fuel)%nat ->
  read_cstr fuel va k = Ret (cs, k).
Proof.
  revert fuel va. induction cs as [|c cs IH]; intros [|fuel] va U (Hn & R & V) Hf; cbn [length] in *; try lia;
    rewrite vbytes_S in V; cbn [app] in V; pose proof (cons_inj V) as [V0 V1];
    (cbn [read_cstr]; unfold mbind, kern_bind; rewrite read8_user;
     [|exact U|rewrite <- (Z.add_0_r va); apply R; lia]); rewrite V0.
  - reflexivity.
  - apply Forall_cons in Hn as [Hc Hn]. rewrite (proj2 (Z.eqb_neq c 0) Hc).
    rewrite IH; [reflexivity|exact U| |lia]. split; [exact Hn|]. split; [|exact V1].
    intros i Hi. replace (va + 1 + i) with (va + (i + 1)) by lia. apply R. lia.
Qed.

Lemma mapped_prefix_spec n k va : users k -> region k va n -> mapped_prefix n va k = vbytes k va n.
Proof.
  revert va. induction n as [|n IH]; intros va U R; [reflexivity|].
  cbn [mapped_prefix]. rewrite read8_user; [|exact U|rewrite <- (Z.add_0_r va); apply R; lia].
  rewrite vbytes_S, IH; [reflexivity|exact U|].
  intros i Hi. replace (va + 1 + i) with (va + (i + 1)) by lia. apply R. lia.
Qed.

(** What was written is read back. *)
Lemma vbytes_written k k' va bs : 
  (forall va', mapped k va' ->
      vbyte k' va' = if decide (va <= va' < va + Z.of_nat (length bs))
                     then u8 (bs !!! Z.to_nat (va' - va)) else vbyte k va') ->
  region k va (length bs) -> vbytes k' va (length bs) = u8 <$> bs.
Proof.
  intros V R. apply list_eq_same_length with (n := length bs).
  - apply length_fmap.
  - apply length_vbytes.
  - intros i x y Hi Hx Hy. unfold vbytes in Hx. rewrite list_lookup_fmap, lookup_seq_lt in Hx by exact Hi.
    injection Hx as <-. rewrite list_lookup_fmap in Hy. apply fmap_Some in Hy as (b & Hb & ->).
    rewrite V by (apply R; lia). rewrite decide_True by lia.
    replace (Z.to_nat _) with i by lia.
    rewrite (list_lookup_total_correct _ _ _ Hb). reflexivity.
Qed.

(** ** Mapping a fresh page *)

(** A page of the kernel's own: not free, and no user page's. *)
Definition kernel_page (k : machine) (q : Z) : Prop :=
  client k q /\ (q ∉ free k) /\ forall n e, user_page n -> pte_of k n = Some e -> frame e <> q.

(** Its words are kept. *)
Definition kernel_same (k k' : machine) : Prop :=
  forall q, kernel_page k q -> kernel_page k' q /\ forall j, 0 <= j < 1024 -> word k' q j = word k q j.

#[export] Instance kernel_same_preorder : PreOrder kernel_same.
Proof.
  split; [intros k q H; auto|]. intros k1 k2 k3 H1 H2 q Hq. destruct (H1 q Hq) as [Q1 W1].
  destruct (H2 q Q1) as [Q2 W2]. split; [exact Q2|]. intros j Hj. rewrite W2, W1; auto.
Qed.

Lemma user_change_kernel k k' : user_change k k' -> kernel_same k k'.
Proof.
  intros (U & (M1 & M2 & M3) & C & W) q (Hc & Hf & Hu). split.
  - split; [apply C, Hc|]. split; [congruence|]. intros n e Hn E. apply (Hu n e Hn).
    unfold user_page in Hn. rewrite <- M3 by lia. exact E.
  - intros j Hj. apply W; [apply Hc|exact Hu|exact Hj].
Qed.

(** Whatever was mapped at the page before, the program then has a page of its
    own there, and every other byte is as before. *)
Lemma alloc_user_page k va : users k -> user_page (va / 4096) -> 0 <= va < 4294967296 ->
  (2 <= length (free k))%nat ->
  exists k' p, paging_alloc_page va k = Ret (tt, k') /\ users k' /\ cr3 k' = cr3 k /\
    (exists used, free k = free k' ++ used /\ (length used <= 2)%nat) /\
    (forall n, 0 <= n < 1023 * 1024 ->
       pte_of k' n = if decide (n = va / 4096) then Some (leaf p 7) else pte_of k n) /\
    (forall va', mapped k va' -> va' / 4096 <> va / 4096 -> mapped k' va' /\ vbyte k' va' = vbyte k va') /\
    frame (leaf p 7) ∈ free k /\ kernel_same k k'.
Proof.
  intros U Hv Hva Hfree. pose proof (us_space k U) as S.
  assert (Hi : 1 <= Z.shiftr va 22 < 1023).
  { destruct (va_split va Hva) as (-> & _). unfold user_page in Hv. mlia. }
  pose proof (paging_alloc_page_effect k va S Hva Hi) as A.
  destruct (paging_alloc_page va k) as [[[] k']| |]; [|lia|contradiction].
  destruct A as (p & S' & Lp & I1 & I2 & I3 & I4 & M & C & Used & W).
  exists k', p. split; [reflexivity|].
  assert (Hleaf : frame (leaf p 7) = p).
  { unfold frame. destruct (leaf_spec p 7 (proj1 (proj1 Lp))) as (-> & _). apply page_addr, Lp. }
  assert (Old : forall n e, user_page n -> pte_of k' n = Some e -> n <> va / 4096 -> pte_of k n = Some e).
  { intros n e Hn E Hne. rewrite M, decide_False in E by (unfold user_page in Hn; first [lia | exact Hne]). exact E. }
  assert (New : forall e, pte_of k' (va / 4096) = Some e -> frame e = p).
  { intros e E. rewrite M, decide_True in E by (unfold user_page in Hv; first [lia | reflexivity]). congruence. }
  assert (Hsub : forall q, q ∉ free k -> q ∉ free k').
  { intros q Hf X. apply Hf. destruct Used as (used & -> & _). apply elem_of_app. auto. }
  assert (U' : users k').
  { split; [exact S'| |].
    - intros n e Hn E. destruct (decide (n = va / 4096)) as [->|Hne].
      + rewrite (New e E). split; [|exact I2]. split; [exact Lp|]. split; assumption.
      + destruct (us_client k U n e Hn (Old n e Hn E Hne)) as [Hc Hf]. split; [apply W; assumption|auto].
    - intros n n' e e' Hn Hn' E E' Hfr.
      assert (Hp : forall m e, user_page m -> m <> va / 4096 -> pte_of k' m = Some e -> frame e <> p).
      { intros m e0 Hm Hne Em X. destruct (us_client k U m e0 Hm (Old m e0 Hm Em Hne)) as [_ Hf]. congruence. }
      destruct (decide (n = va / 4096)) as [->|Hne], (decide (n' = va / 4096)) as [->|Hne'].
      + reflexivity.
      + exfalso. apply (Hp n' e' Hn' Hne' E'). rewrite <- Hfr. apply New, E.
      + exfalso. apply (Hp n e Hn Hne E). rewrite Hfr. apply New, E'.
      + apply (us_inj k U n n' e e'); auto. }
  split; [exact U'|]. split; [exact C|]. split; [exact Used|]. split; [exact M|].
  split; [|split; [rewrite Hleaf; exact I1|]].
  - intros va' [Hv' [e' E']] Hne.
    assert (E2 : pte_of k' (va' / 4096) = Some e').
    { rewrite M, decide_False by (unfold user_page in Hv'; first [lia | exact Hne]). exact E'. }
    split; [split; [exact Hv'|eauto]|].
    unfold vbyte. rewrite (mapped_translate k va' e' U Hv' E'), (mapped_translate k' va' e' U' Hv' E2).
    cbn [default]; unfold id. destruct (us_client k U _ _ Hv' E') as [Hc Hf].
    apply page_bytes; [apply W; assumption|apply Z.mod_pos_bound; lia].
  - intros q (Hc & Hf & Hu). destruct (W q Hc Hf) as [Hc' Hw]. split; [|exact Hw].
    split; [exact Hc'|]. split; [auto|]. intros n e Hn E.
    destruct (decide (n = va / 4096)) as [->|Hne]; [rewrite (New e E); congruence|]. eauto.
Qed.

(** ** Filling fresh pages *)

(** From [k] to [k'] at most [n] pages have been mapped, and of the bytes mapped
    before only those in [changed] may differ. *)
Record fills (k k' : machine) (n : nat) (changed : Z -> Prop) : Prop := {
  fl_users : users k';
  fl_cr3 : cr3 k' = cr3 k;
  fl_free : exists used, free k = free k' ++ used /\ (length used <= 2 * n)%nat;
  fl_old : forall va, mapped k va -> mapped k' va;
  fl_bytes : forall va, mapped k va -> ~ changed va -> vbyte k' va = vbyte k va;
  fl_kernel : kernel_same k k'
}.

Lemma fills_refl k ch : users k -> fills k k 0 ch.
Proof.
  intros U. split; auto; [|reflexivity]. exists []. split; [symmetry; apply app_nil_r|cbn; lia].
Qed.

Lemma fills_trans k1 k2 k3 n m ch : fills k1 k2 n ch -> fills k2 k3 m ch -> fills k1 k3 (n + m) ch.
Proof.
  intros [U1 C1 (u1 & F1 & L1) O1 B1 K1] [U2 C2 (u2 & F2 & L2) O2 B2 K2]. split; auto.
  - congruence.
  - exists (u2 ++ u1). split; [rewrite F1, F2, app_assoc; reflexivity|rewrite length_app; lia].
  - intros va Hm Hc. rewrite B2, B1; auto.
  - etransitivity; eassumption.
Qed.

Lemma fills_weaken k k' n m (ch ch' : Z -> Prop) : fills k k' n ch -> (n <= m)%nat ->
  (forall va, mapped k va -> ch va -> ch' va) -> fills k k' m ch'.
Proof.
  intros [U C (u & F & L) O B K] Hn Hch. split; auto.
  - exists u. split; [exact F|lia].
Qed.

Lemma fills_free k k' n ch m : fills k k' n ch -> (2 * n + m <= length (free k))%nat -> (m <= length (free k'))%nat.
Proof. intros [_ _ (u & -> & L) _ _ _] H. rewrite length_app in H. lia. Qed.

Lemma fills_alloc k va : users k -> user_page (va / 4096) -> 0 <= va < 4294967296 -> (2 <= length (free k))%nat ->
  exists k', paging_alloc_page va k = Ret (tt, k') /\ fills k k' 1 (fun va' => va' / 4096 = va / 4096) /\
    forall va', va' / 4096 = va / 4096 -> mapped k' va'.
Proof.
  intros U Hv Hva Hf. destruct (alloc_user_page k va U Hv Hva Hf) as (k' & p & E & U' & C & F & M & B & _ & K).
  exists k'. assert (New : forall va', va' / 4096 = va / 4096 -> mapped k' va').
  { intros va' Eq. split; [rewrite Eq; exact Hv|]. rewrite Eq, M by (unfold user_page in Hv; lia).
    rewrite decide_True by reflexivity. eauto. }
  split; [exact E|]. split; [|exact New]. split; auto.
  - intros va' Hm. destruct (decide (va' / 4096 = va / 4096)); [auto|apply B; assumption].
  - intros va' Hm Hne. apply B; assumption.
Qed.

Lemma fills_write k va bs : users k -> region k va (length bs) ->
  exists k', write_user va bs k = Ret (tt, k') /\ fills k k' 0 (fun va' => va <= va' < va + Z.of_nat (length bs)) /\
    forall i, 0 <= i < Z.of_nat (length bs) -> vbyte k' (va + i) = u8 (bs !!! Z.to_nat i).
Proof.
  intros U R. destruct (write_user_spec bs k va U R) as (k' & E & Ch & V). pose proof Ch as (U' & M & _).
  exists k'. split; [exact E|]. split.
  - split; [exact U'|apply M| | | |apply user_change_kernel, Ch].
    + exists []. destruct M as (_ & -> & _). split; [symmetry; apply app_nil_r|cbn; lia].
    + intros va' Hm. eapply same_map_mapped; eauto.
    + intros va' Hm Hc. rewrite V by exact Hm. rewrite decide_False by exact Hc. reflexivity.
  - intros i Hi. rewrite V by (apply R; exact Hi). rewrite decide_True by lia. do 3 f_equal. lia.
Qed.

(** ** A program after boot: one page of its own at 0x08048000 *)

Lemma boot_users : exists k, boot_paging (boot_machine mem0) = Ret (tt, k) /\ users k /\ free k = boot_pool /\
  client k 0x10000 /\ forall n, user_page n -> pte_of k n = None.
Proof.
  destruct (boot_paging_effect mem0) as (k & E & S & F & C & B). exists k.
  assert (Hd : low 0x114000 /\ low 0x113000) by (unfold low, page; by_compute).
  assert (Hn : forall n, user_page n -> pte_of k n = None).
  { intros n Hn. unfold user_page in Hn.
    rewrite (boot_pte k 0x114000 0x113000 true); [|apply Hd..|exact B|exact C|lia]. apply decide_False. lia. }
  split; [exact E|]. split; [|split; [exact F|split; [|exact Hn]]].
  - split; [exact S|..].
    + intros n e Hu X. rewrite Hn in X by exact Hu. discriminate.
    + intros n n' e e' Hu _ X. rewrite Hn in X by exact Hu. discriminate.
  - split; [unfold low, page; by_compute|]. split; [congruence|]. intros i Hi Hp.
    destruct B as [Wd _]. unfold present, table_of, pde in *. rewrite C in *.
    rewrite Wd in Hp |- * by lia. repeat case_decide; first [discriminate Hp | lia | vm_compute; discriminate].
Qed.

Definition demo_va : Z := 0x08048000.

Lemma demo_process : exists k, users k /\ region k demo_va 4096 /\ kernel_page k 0x10000 /\ (200 <= length (free k))%nat.
Proof.
  destruct boot_users as (k & _ & U & F & C & Hn).
  assert (Hp : 0x10000 ∉ boot_pool) by (apply (bool_decide_unpack _); vm_compute; exact I).
  destruct (fills_alloc k demo_va U) as (k' & _ & Fi & New).
  - unfold user_page, demo_va. by_compute.
  - unfold demo_va. lia.
  - rewrite F. vm_compute. lia.
  - exists k'. split; [apply Fi|]. split; [|split].
    + intros i Hi. apply New. unfold demo_va. assert (0 <= i < 4096) by exact Hi. mlia.
    + apply Fi. split; [exact C|]. split; [rewrite F; exact Hp|].
      intros n e Hun E. rewrite Hn in E by exact Hun. discriminate.
    + apply (fills_free k k' 1 (fun va' => va' / 4096 = demo_va / 4096)); [exact Fi|]. rewrite F.
      change (length boot_pool) with 258%nat. lia.
Qed.
