(* ===== verification/Elf.v ===== *)
(** * The program loader (kernel/elf_loader.c, include/elf.h)

    [elf_load_and_exec] reads the ELF file page by page into freshly mapped
    pages of the current address space, gives it a stack and turns the system
    call's register frame into the entry context of the program.  The log lines
    are left out.  The loops run in proportion to the sizes in the program
    headers; [page_fuel] bounds the number of pages they touch, and
    [load_file_effect], [zero_fill_effect] show that it suffices: the loops
    return.  [elf_exec_effect] describes the loading of an executable that fits
    its address space, [elf_exec_rejected] the files that are refused; the
    theorems about the system call are in Syscall. *)

From S2P Require Import Prelude Memory Paging Scheduler Ipc Disk Sfs System UserMem.
Local Open Scope Z_scope.
Local Open Scope sros_scope.

Definition ELF_MAGIC : list Z := [0x7F; 69; 76; 70].
Definition EI_CLASS : nat := 4.
Definition EI_DATA : nat := 5.
Definition ELFCLASS32 : Z := 1.
Definition ELFDATA2LSB : Z := 1.
Definition ET_EXEC : Z := 2.
Definition EM_386 : Z := 3.
Definition PT_LOAD : Z := 1.
Definition USER_STACK_PAGES : nat := 4.

(** ** The headers *)

Record Elf32_Ehdr : Type := mk_ehdr {
  e_ident : list Z;
  e_type : Z; e_machine : Z; e_version : Z; e_entry : Z; e_phoff : Z; e_shoff : Z; e_flags : Z;
  e_ehsize : Z; e_phentsize : Z; e_phnum : Z; e_shentsize : Z; e_shnum : Z; e_shstrndx : Z
}.

Definition sizeof_Ehdr : Z := 52.

Definition ehdr_bytes (h : Elf32_Ehdr) : list Z :=
  e_ident h ++ le_bytes 2 (e_type h) ++ le_bytes 2 (e_machine h) ++ le_bytes 4 (e_version h) ++
  le_bytes 4 (e_entry h) ++ le_bytes 4 (e_phoff h) ++ le_bytes 4 (e_shoff h) ++ le_bytes 4 (e_flags h) ++
  le_bytes 2 (e_ehsize h) ++ le_bytes 2 (e_phentsize h) ++ le_bytes 2 (e_phnum h) ++
  le_bytes 2 (e_shentsize h) ++ le_bytes 2 (e_shnum h) ++ le_bytes 2 (e_shstrndx h).

Definition half_at (off : nat) (bs : list Z) : Z := le_val (slice off 2 bs).

Definition ehdr_of (bs : list Z) : Elf32_Ehdr :=
  mk_ehdr (slice 0 16 bs) (half_at 16 bs) (half_at 18 bs) (word_at 20 bs) (word_at 24 bs)
    (word_at 28 bs) (word_at 32 bs) (word_at 36 bs) (half_at 40 bs) (half_at 42 bs) (half_at 44 bs)
    (half_at 46 bs) (half_at 48 bs) (half_at 50 bs).

Record Elf32_Phdr : Type := mk_phdr {
  p_type : Z; p_offset : Z; p_vaddr : Z; p_paddr : Z; p_filesz : Z; p_memsz : Z; p_flags : Z; p_align : Z
}.

Definition sizeof_Phdr : Z := 32.

Definition phdr_of (bs : list Z) : Elf32_Phdr :=
  mk_phdr (word_at 0 bs) (word_at 4 bs) (word_at 8 bs) (word_at 12 bs) (word_at 16 bs) (word_at 20 bs)
    (word_at 24 bs) (word_at 28 bs).

Definition elf_check_file (h : Elf32_Ehdr) : bool :=
  bool_decide (take 4 (e_ident h) = ELF_MAGIC) &&
  (e_ident h !!! EI_CLASS =? ELFCLASS32) &&
  (e_ident h !!! EI_DATA =? ELFDATA2LSB) &&
  (e_type h =? ET_EXEC) && (e_machine h =? EM_386) && negb (e_phnum h =? 0).

Section elf.
Context {D : Type} `{BD : BlockDevice D}.

(** The bytes read; [None] is the result -1. *)
Definition read_file_at (ino size offset : Z) : sysop D (option (list Z)) :=
  on_fs (i ← sfs_read_inode ino;
         match i with
         | None => mret None
         | Some i => bs ← sfs_read_file i size offset; mret (Some bs)
         end).

(** ** Loading a segment *)

Definition page_fuel (bytes : Z) : nat := Z.to_nat (bytes / 4096 + 2).

(** The file part.  The page buffer is cleared before each read, so bytes the
    file does not have are zero. *)
Fixpoint load_file (fuel : nat) (ino curr_vaddr file_remain file_offset : Z) : sysop D bool :=
  if 0 <? file_remain then
    match fuel with
    | O => fun _ => Oob
    | S fuel =>
        let page_offset := curr_vaddr .& 0xFFF in
        let to_read := Z.min (4096 - page_offset) file_remain in
        let page_vaddr := curr_vaddr .& 0xFFFFF000 in
        _ ← on_mach (paging_alloc_page page_vaddr);
        n ← read_file_at ino to_read file_offset;
        match n with
        | None => mret false
        | Some bytes =>
            let page_buf := splice 0 bytes (replicate 4096 0) in
            _ ← on_mach (write_user (page_vaddr + page_offset) (take (Z.to_nat to_read) page_buf));
            load_file fuel ino (u32 (curr_vaddr + to_read)) (file_remain - to_read) (u32 (file_offset + to_read))
        end
    end
  else mret true.

(** [page_dir[pd_idx] & 1 && ((u32 * )(0xFFC00000 + pd_idx * 4096))[pt_idx] & 1] *)
Definition page_mapped (va : Z) : kern bool :=
  page_dir ← gets cr3;
  let pd_idx := Z.shiftr va 22 in
  let pt_idx := Z.shiftr va 12 .& 0x3FF in
  pde ← read32 (page_dir + 4 * pd_idx);
  if negb (has P pde) then mret false
  else pte ← read32 (SELF_MAP + pd_idx * 4096 + 4 * pt_idx); mret (has P pte).

(** The .bss part. *)
Fixpoint zero_fill (fuel : nat) (curr_vaddr bss_remain : Z) : kern unit :=
  if 0 <? bss_remain then
    match fuel with
    | O => fun _ => Oob
    | S fuel =>
        let page_offset := curr_vaddr .& 0xFFF in
        let page_vaddr := curr_vaddr .& 0xFFFFF000 in
        mapped ← page_mapped curr_vaddr;
        _ ← (if (mapped : bool) then mret tt else paging_alloc_page page_vaddr);
        let to_zero := Z.min (4096 - page_offset) bss_remain in
        _ ← write_user (page_vaddr + page_offset) (replicate (Z.to_nat to_zero) 0);
        zero_fill fuel (u32 (curr_vaddr + to_zero)) (bss_remain - to_zero)
    end
  else mret tt.

(** [true] is the result 0. *)
Definition load_segment (ino virt_addr offset filesz memsz : Z) : sysop D bool :=
  ok ← load_file (page_fuel filesz) ino virt_addr filesz offset;
  if negb ok then mret false
  else
    let bss_remain := u32 (memsz - filesz) in
    _ ← on_mach (zero_fill (page_fuel bss_remain) (u32 (virt_addr + filesz)) bss_remain);
    mret true.

Fixpoint setup_stack_from (n : nat) (i : Z) : kern unit :=
  match n with
  | O => mret tt
  | S n => _ ← paging_alloc_page (USER_STACK_VADDR - (i + 1) * 0x1000); setup_stack_from n (i + 1)
  end.
Definition setup_user_stack : kern unit := setup_stack_from USER_STACK_PAGES 0.

(** ** Loading a program *)

(** [for (u16 i = 0; i < ehdr.e_phnum; i++)], from [i] on. *)
Fixpoint load_segments (n : nat) (i ino phoff : Z) : sysop D bool :=
  match n with
  | O => mret true
  | S n =>
      r ← read_file_at ino sizeof_Phdr (u32 (phoff + i * sizeof_Phdr));
      match r with
      | None => mret false
      | Some bs =>
          if Z.of_nat (length bs) <? sizeof_Phdr then mret false
          else
            let p := phdr_of bs in
            if negb (p_type p =? PT_LOAD) then load_segments n (i + 1) ino phoff
            else
              ok ← load_segment ino (p_vaddr p) (p_offset p) (p_filesz p) (p_memsz p);
              if negb ok then mret false else load_segments n (i + 1) ino phoff
      end
  end.

Definition R_edi : Z := 4.
Definition R_esi : Z := 5.
Definition R_ebp : Z := 6.
Definition R_ebx : Z := 8.
Definition R_edx : Z := 9.
Definition R_ecx : Z := 10.

Definition get_reg (regs field : Z) : sysop D Z := on_mach (read32 (regs + 4 * field)).
Definition set_reg (regs field v : Z) : sysop D unit := on_mach (write32 (regs + 4 * field) v).

(** The entry context of the program in the frame at [regs]. *)
Definition enter_program (entry regs : Z) : sysop D unit :=
  _ ← set_reg regs R_eip entry;
  _ ← set_reg regs R_user_esp USER_STACK_VADDR;
  fl ← get_reg regs R_eflags;
  _ ← set_reg regs R_eflags (fl .| 0x200);
  _ ← set_reg regs R_eax 0;
  _ ← set_reg regs R_ebx 0;
  _ ← set_reg regs R_ecx 0;
  _ ← set_reg regs R_edx 0;
  _ ← set_reg regs R_esi 0;
  _ ← set_reg regs R_edi 0;
  set_reg regs R_ebp 0.

Definition elf_load_and_exec (path : list Z) (regs : Z) : sysop D Z :=
  match skip_slashes path with
  | [] => mret (-1)
  | name =>
      ino ← on_fs (sfs_lookup ROOT_INO name);
      if ino <? 0 then mret (-1)
      else
        n ← read_file_at ino sizeof_Ehdr 0;
        match n with
        | None => mret (-1)
        | Some bs =>
            if Z.of_nat (length bs) <? sizeof_Ehdr then mret (-1)
            else
              let ehdr := ehdr_of bs in
              if negb (elf_check_file ehdr) then mret (-1)
              else
                ok ← load_segments (Z.to_nat (e_phnum ehdr)) 0 ino (e_phoff ehdr);
                if negb ok then mret (-1)
                else
                  _ ← on_mach setup_user_stack;
                  _ ← enter_program (e_entry ehdr) regs;
                  mret 0
        end
  end.
End elf.

(** ** The register frame *)

(** The word of a register in the frame at [regs]. *)
Definition reg (k : machine) (regs field : Z) : Z := load32 (ram k) (regs + 4 * field).

(** The frame lies in a page of the kernel's own: the kernel stack. *)
Definition frame_at (k : machine) (regs : Z) : Prop :=
  exists p i, kernel_page k p /\ 0 <= i <= 1024 - 19 /\ regs = p + 4 * i.

Lemma reg_range k regs f : is_u32 (reg k regs f).
Proof. apply load32_range. Qed.

Lemma read_reg k regs f : space k -> frame_at k regs -> 0 <= f < 19 ->
  read32 (regs + 4 * f) k = Ret (reg k regs f, k).
Proof.
  intros S (p & i & ((Hlow & _) & _) & Hi & ->) Hf. unfold reg.
  replace (p + 4 * i + 4 * f) with (p + 4 * (i + f)) by lia. rewrite read32_low by (first [assumption | lia]).
  reflexivity.
Qed.

(** Changes of user memory keep the frame ... *)
Lemma frame_kernel_same k k' regs : frame_at k regs -> kernel_same k k' ->
  frame_at k' regs /\ forall f, 0 <= f < 19 -> reg k' regs f = reg k regs f.
Proof.
  intros (p & i & C & Hi & ->) K. destruct (K p C) as [C' W]. split; [exists p, i; auto|].
  intros f Hf. pose proof (W (i + f) ltac:(lia)) as Hw. unfold reg, word in *.
  replace (p + 4 * i + 4 * f) with (p + 4 * (i + f)) by lia. exact Hw.
Qed.

(** ... and a store into the frame changes one register and no user memory. *)
Lemma write_reg k regs f v : users k -> frame_at k regs -> 0 <= f < 19 ->
  exists k', write32 (regs + 4 * f) v k = Ret (tt, k') /\ users k' /\ same_map k k' /\ frame_at k' regs /\
    (forall f', 0 <= f' < 19 -> reg k' regs f' = if decide (f' = f) then u32 v else reg k regs f') /\
    forall va, mapped k va -> vbyte k' va = vbyte k va.
Proof.
  intros U (p & i & (C & Hfr & Hu) & Hi & ->) Hf. pose proof (us_space k U) as S. pose proof C as (Hlow & _).
  assert (O : only_page p k (poke p (i + f) v k)) by (apply only_page_poke; [apply Hlow|lia]).
  destruct (space_only_page p k _ S C O) as (S' & C' & P'); [apply (sp_pool k S)|].
  assert (M : same_map k (poke p (i + f) v k)) by (split; [reflexivity|split; [reflexivity|exact P']]).
  assert (U' : users (poke p (i + f) v k)) by (apply (users_same_map k); assumption).
  exists (poke p (i + f) v k). split; [|split; [exact U'|split; [exact M|split; [|split]]]].
  - replace (p + 4 * i + 4 * f) with (p + 4 * (i + f)) by lia. apply write32_low; [exact S|exact Hlow|lia].
  - exists p, i. split; [split; [apply C', C|split; [exact Hfr|]]|auto].
    intros n e Hn En. apply (Hu n e Hn). unfold user_page in Hn. rewrite <- P' by lia. exact En.
  - intros f' Hf'. unfold reg. replace (p + 4 * i + 4 * f') with (p + 4 * (i + f')) by lia.
    pose proof (word_poke p (i + f) v k p (i + f') (proj1 Hlow) (proj1 Hlow) ltac:(lia) ltac:(lia)) as E.
    unfold word in E. rewrite E. repeat case_decide; try reflexivity; lia.
  - intros va [Hv [e E]]. pose proof (mapped_translate k va e U Hv E) as T.
    assert (E' : pte_of (poke p (i + f) v k) (va / 4096) = Some e) by (rewrite P' by (unfold user_page in Hv; lia); exact E).
    unfold vbyte. rewrite T, (mapped_translate _ va e U' Hv E'). cbn [default]; unfold id.
    apply page_bytes; [|apply Z.mod_pos_bound; lia]. intros j Hj.
    destruct O as (_ & _ & _ & W). apply W; [|exact Hj|exact (Hu _ _ Hv E)].
    apply (us_client k U _ _ Hv E).
Qed.

(** ** Running a component's operation *)

Lemma bind_ret {D A B} (m : sysop D A) (f : A -> sysop D B) s x s' :
  m s = Ret (x, s') -> (m ≫= f) s = f x s'.
Proof. intros E. unfold mbind, sysop_bind. rewrite E. reflexivity. Qed.

Lemma on_mach_ret {D A} (m : kern A) (s : system D) x k :
  m (os_mach s) = Ret (x, k) -> on_mach m s = Ret (x, set_mach k s).
Proof. intros E. unfold on_mach. rewrite E. reflexivity. Qed.

Lemma on_fs_ret {D A} (m : fsop D A) (s : system D) x f :
  m (os_fs s) = Ret (x, f) -> on_fs m s = Ret (x, set_fs f s).
Proof. intros E. unfold on_fs. rewrite E. reflexivity. Qed.

Lemma set_mach_same {D} (s : system D) : set_mach (os_mach s) s = s.
Proof. destruct s; reflexivity. Qed.

Lemma get_reg_ret {D} (s : system D) regs f : users (os_mach s) -> frame_at (os_mach s) regs -> 0 <= f < 19 ->
  get_reg regs f s = Ret (reg (os_mach s) regs f, s).
Proof.
  intros U F Hf. unfold get_reg. rewrite (on_mach_ret _ _ _ _ (read_reg _ _ _ (us_space _ U) F Hf)).
  rewrite set_mach_same. reflexivity.
Qed.

(** ** Loading the file part of a segment *)

(** The [i]-th byte from [off] on, zero past the end. *)
Definition file_byte (file : list Z) (i : Z) : Z := u8 (default 0 (file !! Z.to_nat i)).

(** The pages a range touches. *)
Definition pages (va len : Z) : nat := if 0 <? len then Z.to_nat ((va + len - 1) / 4096 - va / 4096 + 1) else 0.

Lemma pages_fuel va len : 0 <= va -> 0 <= len -> (pages va len <= page_fuel len)%nat.
Proof. intros. unfold pages, page_fuel. destruct (Z.ltb_spec 0 len); mlia. Qed.

Lemma page_base va : 0 <= va < 4294967296 -> va .& 0xFFFFF000 = va / 4096 * 4096 /\ va .& 0xFFF = va mod 4096.
Proof. intros H. split; [apply entry_addr, H|apply va_split, H]. Qed.

Definition in_pages (va len a : Z) : Prop := 0 < len /\ va / 4096 <= a / 4096 <= (va + len - 1) / 4096.

Lemma pages_split va len : 0 < len -> let n := Z.min (4096 - va mod 4096) len in
  pages va len = S (pages (va + n) (len - n)).
Proof.
  intros Hl n. unfold pages, n. destruct (Z.ltb_spec 0 len); [|lia].
  destruct (Z.ltb_spec 0 (len - Z.min (4096 - va mod 4096) len)); mlia.
Qed.

(** The bytes of one page buffer. *)
Lemma page_buf_byte file off n i : 0 <= off -> 0 <= i < n -> n <= 4096 ->
  u8 (take (Z.to_nat n) (splice 0 (slice (Z.to_nat off) (Z.to_nat n) file) (replicate 4096 0)) !!! Z.to_nat i) =
  file_byte file (off + i).
Proof.
  intros Ho Hi Hn. unfold file_byte. f_equal. rewrite list_lookup_total_alt, lookup_take_lt by lia.
  unfold slice, splice. rewrite take_0. cbn [app].
  set (bytes := take (Z.to_nat n) (drop (Z.to_nat off) file)).
  assert (Hb : (length bytes <= Z.to_nat n)%nat) by (unfold bytes; rewrite length_take; lia).
  destruct (decide (Z.to_nat i < length bytes)%nat) as [Hlt|Hge].
  - rewrite lookup_app_l by exact Hlt. unfold bytes. rewrite lookup_take_lt, lookup_drop by lia.
    replace (Z.to_nat off + Z.to_nat i)%nat with (Z.to_nat (off + i)) by lia.
    destruct (file !! Z.to_nat (off + i)) eqn:E; [reflexivity|].
    apply lookup_ge_None in E. exfalso. unfold bytes in Hlt. rewrite length_take, length_drop in Hlt. lia.
  - rewrite lookup_app_r by lia. cbn [Nat.add]. rewrite lookup_drop, lookup_replicate_2 by lia. cbn.
    rewrite (lookup_ge_None_2 file); [reflexivity|]. unfold bytes in Hge. rewrite length_take, length_drop in Hge. lia.
Qed.

Section load_file.
Context {D : Type} `{BD : BlockDevice D}.

(** The file system still holds [B], with the same open files. *)
Definition fs_same (B : blockmap) (f f' : fs D) : Prop :=
  holds f' B /\ file_table f' = file_table f /\ mounted f' = mounted f.

Lemma fs_same_trans B f1 f2 f3 : fs_same B f1 f2 -> fs_same B f2 f3 -> fs_same B f1 f3.
Proof. intros (_ & T1 & M1) (H & T2 & M2). split; [exact H|]. split; congruence. Qed.

(** An ordinary file: its number, on a well-formed disk. *)
Definition file_at (B : blockmap) (n : Z) : Prop := fs_ok B /\ valid_ino n /\ used_inode B n = true.

Lemma read_file_ret (s : system D) B n size off : holds (os_fs s) B -> file_at B n ->
  is_u32 size -> 0 <= off -> off + size < 4294967296 ->
  exists f', read_file_at n size off s =
      Ret (Some (slice (Z.to_nat off) (Z.to_nat size) (file_of B n)), set_fs f' s) /\ fs_same B (os_fs s) f'.
Proof.
  intros H (O & Hn & Hu) Hs Ho Hm. destruct (ok_file _ O _ Hn Hu) as [_ Hsz].
  assert (R : does (D := D) (i ← sfs_read_inode n;
         match i with
         | None => mret None
         | Some i => bs ← sfs_read_file i size off; mret (Some bs)
         end) B (Some (slice (Z.to_nat off) (Z.to_nat size) (file_of B n))) B).
  { eapply does_bind; [apply does_read_inode, Hn|]. cbn beta iota.
    eapply does_bind; [apply does_read_bytes; [apply O|exact Hsz|exact Hs|exact Ho|exact Hm]|apply does_ret]. }
  destruct (R _ H) as (f' & E & F). exists f'. split; [|exact F].
  unfold read_file_at. apply on_fs_ret, E.
Qed.

Lemma load_file_S fuel n va remain off : 0 < remain -> 
  load_file (D := D) (S fuel) n va remain off =
    (let to_read := Z.min (4096 - (va .& 0xFFF)) remain in
     let page_vaddr := va .& 0xFFFFF000 in
     _ ← on_mach (paging_alloc_page page_vaddr);
     r ← read_file_at n to_read off;
     match r with
     | None => mret false
     | Some bytes =>
         _ ← on_mach (write_user (page_vaddr + (va .& 0xFFF))
               (take (Z.to_nat to_read) (splice 0 bytes (replicate 4096 0))));
         load_file fuel n (u32 (va + to_read)) (remain - to_read) (u32 (off + to_read))
     end).
Proof. intros H. cbn [load_file]. rewrite (proj2 (Z.ltb_lt 0 remain) H). reflexivity. Qed.

(** The range of addresses a segment may use. *)
Definition user_range (va len : Z) : Prop := 0x400000 <= va /\ 0 <= len /\ va + len <= USER_END.

(** One page: a frame of its own, with the bytes of the file. *)
Lemma load_page (s : system D) B n va to_read off : users (os_mach s) -> holds (os_fs s) B -> file_at B n ->
  user_range va to_read -> 0 < to_read <= 4096 - va mod 4096 -> 0 <= off -> off + to_read < 4294967296 ->
  (2 <= length (free (os_mach s)))%nat ->
  exists k1 f' k', paging_alloc_page (va / 4096 * 4096) (os_mach s) = Ret (tt, k1) /\
    read_file_at n to_read off (set_mach k1 s) =
      Ret (Some (slice (Z.to_nat off) (Z.to_nat to_read) (file_of B n)), set_fs f' (set_mach k1 s)) /\
    write_user va (take (Z.to_nat to_read)
        (splice 0 (slice (Z.to_nat off) (Z.to_nat to_read) (file_of B n)) (replicate 4096 0))) k1 = Ret (tt, k') /\
    fs_same B (os_fs s) f' /\ fills (os_mach s) k' 1 (fun a => a / 4096 = va / 4096) /\
    forall i, 0 <= i < to_read -> mapped k' (va + i) /\ vbyte k' (va + i) = file_byte (file_of B n) (off + i).
Proof.
  intros U H F (Hv & _ & Hv2) Ht Ho Hm Hf. unfold USER_END in Hv2.
  pose proof (Z.mod_pos_bound va 4096 ltac:(lia)) as Hmod.
  assert (Hp : va / 4096 * 4096 / 4096 = va / 4096) by (apply Z.div_mul; lia).
  destruct (fills_alloc (os_mach s) (va / 4096 * 4096) U) as (k1 & E1 & F1 & N1).
  - rewrite Hp. unfold user_page. mlia.
  - mlia.
  - exact Hf.
  - rewrite Hp in F1, N1.
    destruct (read_file_ret (set_mach k1 s) B n to_read off H F ltac:(unfold is_u32; lia) Ho Hm) as (f' & E2 & S2).
    set (data := take (Z.to_nat to_read) (splice 0 (slice (Z.to_nat off) (Z.to_nat to_read) (file_of B n)) (replicate 4096 0))) in *.
    assert (Hl : Z.of_nat (length data) = to_read).
    { unfold data, splice. rewrite take_0. cbn [app Nat.add]. rewrite length_take, length_app, length_drop, length_replicate. lia. }
    assert (R : region k1 va (length data)) by (intros i Hi; rewrite Hl in Hi; apply N1; mlia).
    destruct (fills_write k1 va data (fl_users _ _ _ _ F1) R) as (k' & E3 & F3 & B3).
    rewrite Hl in F3, B3. exists k1, f', k'. split; [exact E1|]. split; [exact E2|]. split; [exact E3|].
    split; [exact S2|]. split.
    + change 1%nat with (1 + 0)%nat. eapply fills_trans; [exact F1|]. eapply fills_weaken; [exact F3|reflexivity|].
      cbn beta. intros a _ Ha. mlia.
    + intros i Hi. split; [apply (fl_old _ _ _ _ F3), R; lia|]. rewrite B3 by lia. unfold data.
      apply page_buf_byte; lia.
Qed.

Lemma load_file_effect B n : forall fuel va remain off (s : system D), users (os_mach s) -> holds (os_fs s) B ->
  file_at B n -> user_range va remain -> 0 <= off -> off + remain < 4294967296 ->
  (pages va remain <= fuel)%nat -> (2 * pages va remain <= length (free (os_mach s)))%nat ->
  exists k' f', load_file fuel n va remain off s = Ret (true, set_mach k' (set_fs f' s)) /\
    fs_same B (os_fs s) f' /\
    fills (os_mach s) k' (pages va remain) (in_pages va remain) /\
    forall i, 0 <= i < remain -> mapped k' (va + i) /\ vbyte k' (va + i) = file_byte (file_of B n) (off + i).
Proof.
  induction fuel as [|fuel IH]; intros va remain off s U H F (R1 & R2 & R3) Ho Hm Hfuel Hfree;
    (destruct (Z.eq_dec remain 0) as [->|Hne];
      [exists (os_mach s), (os_fs s); split; [destruct s; reflexivity|split; [split; [exact H|split; reflexivity]|
       split; [apply fills_refl, U|intros; lia]]]|]).
  { unfold pages in Hfuel. destruct (Z.ltb_spec 0 remain); mlia. }
  pose proof (pages_split va remain ltac:(lia)) as Hp. cbv zeta in Hp. unfold USER_END in R3.
  destruct (page_base va ltac:(lia)) as [Eb Eo].
  rewrite load_file_S by lia. rewrite Eb, Eo. cbv zeta. set (to_read := Z.min (4096 - va mod 4096) remain) in *.
  pose proof (Z.mod_pos_bound va 4096 ltac:(lia)) as Hmod. rewrite Hp in Hfuel, Hfree.
  assert (Ht : 0 < to_read <= 4096 - va mod 4096 /\ to_read <= remain) by lia.
  destruct (load_page s B n va to_read off) as (k1 & f1 & k2 & E1 & E2 & E3 & S1 & F1 & B1);
    try assumption; [split; [|split]; unfold USER_END; lia|lia..|].
  rewrite (bind_ret _ _ _ _ _ (on_mach_ret _ _ _ _ E1)), (bind_ret _ _ _ _ _ E2).
  replace (va / 4096 * 4096 + va mod 4096) with va by mlia.
  rewrite (bind_ret _ _ _ _ _ (on_mach_ret _ (set_fs f1 (set_mach k1 s)) _ _ E3)).
  rewrite !u32_small by lia.
  destruct (IH (va + to_read) (remain - to_read) (off + to_read) (set_mach k2 (set_fs f1 (set_mach k1 s))))
    as (k' & f' & E & S2 & F2 & B2).
  - apply F1.
  - apply S1.
  - exact F.
  - split; [|split]; unfold USER_END; lia.
  - lia.
  - lia.
  - lia.
  - apply (fills_free _ _ _ _ _ F1). cbn [os_mach set_mach]. lia.
  - exists k', f'. split; [rewrite E; destruct s; reflexivity|].
    split; [eapply fs_same_trans; eassumption|]. rewrite Hp. cbn [os_mach set_mach] in F2.
    assert (Hcase : remain = to_read \/ (va + to_read) / 4096 = va / 4096 + 1) by mlia.
    split.
    + change (S ?n) with (1 + n)%nat. eapply fills_trans; (eapply fills_weaken; [eassumption|reflexivity|]);
        unfold in_pages; cbn beta; intros a _ Ha; mlia.
    + intros i Hi. destruct (Z.lt_ge_cases i to_read) as [Hlt|Hge].
      * destruct (B1 i ltac:(lia)) as [M1 V1]. split; [apply F2, M1|]. rewrite (fl_bytes _ _ _ _ F2) by
          (first [exact M1 | unfold in_pages; destruct Hcase; mlia]). exact V1.
      * destruct (B2 (i - to_read) ltac:(lia)) as [M2 V2].
        replace (va + to_read + (i - to_read)) with (va + i) in M2, V2 by lia.
        replace (off + to_read + (i - to_read)) with (off + i) in V2 by lia. auto.
Qed.
End load_file.

(** ** The .bss part *)

Lemma read32_self k i j : space k -> 0 <= i < 1024 -> 0 <= j < 1024 -> present k i ->
  read32 (SELF_MAP + i * 4096 + 4 * j) k = Ret (word k (table_of k i) j, k).
Proof.
  intros S Hi Hj Hp. unfold read32, access. rewrite u32_small by (unfold SELF_MAP; lia).
  rewrite translate_self by assumption. reflexivity.
Qed.

(** The test through the self-map tells whether the page is mapped. *)
Lemma page_mapped_spec k va : users k -> 0 <= va < 4294967296 ->
  page_mapped va k = Ret (bool_decide (is_Some (pte_of k (va / 4096))), k).
Proof.
  intros U Hva. pose proof (us_space k U) as S. destruct (va_split va Hva) as (E1 & E2 & _ & R1 & R2).
  unfold page_mapped, gets, mbind, kern_bind. cbv zeta. rewrite page_dir_read by assumption.
  rewrite E1, E2. unfold pte_of. destruct (has P (pde k (va / 4096 / 1024))) eqn:E; [|reflexivity].
  cbn [negb]. rewrite read32_self by assumption. unfold mret, kern_ret.
  destruct (has P (word _ _ _)); [reflexivity|reflexivity].
Qed.

Lemma zero_fill_S fuel va remain : 0 < remain ->
  zero_fill (S fuel) va remain =
    (mapped ← page_mapped va;
     _ ← (if (mapped : bool) then mret tt else paging_alloc_page (va .& 0xFFFFF000));
     let to_zero := Z.min (4096 - (va .& 0xFFF)) remain in
     _ ← write_user ((va .& 0xFFFFF000) + (va .& 0xFFF)) (replicate (Z.to_nat to_zero) 0);
     zero_fill fuel (u32 (va + to_zero)) (remain - to_zero)).
Proof. intros H. cbn [zero_fill]. rewrite (proj2 (Z.ltb_lt 0 remain) H). reflexivity. Qed.

Lemma kern_bind_ret {A C} (m : kern A) (f : A -> kern C) k x k' : m k = Ret (x, k') -> (m ≫= f) k = f x k'.
Proof. intros E. unfold mbind, kern_bind. rewrite E. reflexivity. Qed.

(** The page of [va] is made present; no byte of the program changes. *)
Lemma ensure_page k va : users k -> user_page (va / 4096) -> 0 <= va < 4294967296 -> (2 <= length (free k))%nat ->
  exists k', (mapped ← page_mapped va;
              if (mapped : bool) then mret tt else paging_alloc_page (va / 4096 * 4096)) k = Ret (tt, k') /\
    fills k k' 1 (fun _ => False) /\ forall va', va' / 4096 = va / 4096 -> mapped k' va'.
Proof.
  intros U Hv Hva Hf. rewrite (kern_bind_ret _ _ _ _ _ (page_mapped_spec k va U Hva)).
  assert (Hp : va / 4096 * 4096 / 4096 = va / 4096) by (apply Z.div_mul; lia).
  case_bool_decide as Hd.
  - exists k. split; [reflexivity|]. split; [apply (fills_weaken _ _ 0 _ (fun _ => False)); [apply fills_refl, U|lia|auto]|].
    intros va' E. unfold mapped. rewrite E. split; assumption.
  - destruct (fills_alloc k (va / 4096 * 4096) U) as (k' & E & F & N); [rewrite Hp; exact Hv|mlia|exact Hf|].
    rewrite Hp in F, N. exists k'. split; [exact E|]. split; [|exact N].
    eapply fills_weaken; [exact F|reflexivity|]. cbn beta. intros a [_ Hm] Ea. rewrite Ea in Hm. auto.
Qed.

Lemma zero_fill_effect : forall fuel va remain k, users k -> user_range va remain ->
  (pages va remain <= fuel)%nat -> (2 * pages va remain <= length (free k))%nat ->
  exists k', zero_fill fuel va remain k = Ret (tt, k') /\
    fills k k' (pages va remain) (fun a => va <= a < va + remain) /\
    forall i, 0 <= i < remain -> mapped k' (va + i) /\ vbyte k' (va + i) = 0.
Proof.
  induction fuel as [|fuel IH]; intros va remain k U (R1 & R2 & R3) Hfuel Hfree;
    (destruct (Z.eq_dec remain 0) as [->|Hne];
      [exists k; split; [reflexivity|split; [apply fills_refl, U|intros; lia]]|]).
  { unfold pages in Hfuel. destruct (Z.ltb_spec 0 remain); mlia. }
  pose proof (pages_split va remain ltac:(lia)) as Hp. cbv zeta in Hp. unfold USER_END in R3.
  destruct (page_base va ltac:(lia)) as [Eb Eo].
  rewrite zero_fill_S by lia. rewrite Eb, Eo. cbv zeta. set (n := Z.min (4096 - va mod 4096) remain) in *.
  pose proof (Z.mod_pos_bound va 4096 ltac:(lia)) as Hmod. rewrite Hp in Hfuel, Hfree.
  assert (Ht : 0 < n <= 4096 - va mod 4096 /\ n <= remain) by lia.
  destruct (ensure_page k va U) as (k1 & E1 & F1 & N1); [unfold user_page; mlia|lia|lia|].
  destruct (fills_write k1 va (replicate (Z.to_nat n) 0) (fl_users _ _ _ _ F1)) as (k2 & E2 & F2 & B2).
  { intros i Hi. rewrite length_replicate in Hi. apply N1. mlia. }
  rewrite length_replicate, Z2Nat.id in F2, B2 by lia.
  destruct (IH (va + n) (remain - n) k2) as (k' & E & F3 & B3).
  - apply F2.
  - split; [|split]; unfold USER_END; lia.
  - lia.
  - apply (fills_free _ _ _ _ _ F2). apply (fills_free _ _ _ _ _ F1). lia.
  - exists k'. split; [|split].
    + transitivity ((_ ← write_user va (replicate (Z.to_nat n) 0); zero_fill fuel (u32 (va + n)) (remain - n)) k1).
      * revert E1. unfold mbind, kern_bind. replace (va / 4096 * 4096 + va mod 4096) with va by mlia.
        destruct (page_mapped va k) as [[b k0]| |]; intros E1; try discriminate E1. rewrite E1. reflexivity.
      * rewrite (kern_bind_ret _ _ _ _ _ E2), u32_small by lia. exact E.
    + rewrite Hp. change (S ?m) with (1 + (0 + m))%nat.
      eapply fills_trans; [eapply fills_weaken; [exact F1|reflexivity|tauto]|].
      eapply fills_trans; (eapply fills_weaken; [eassumption|reflexivity|]); cbn beta; intros; lia.
    + intros i Hi. destruct (Z.lt_ge_cases i n) as [Hlt|Hge].
      * assert (M2 : mapped k2 (va + i)) by (apply (fl_old _ _ _ _ F2), N1; mlia).
        split; [apply F3, M2|]. rewrite (fl_bytes _ _ _ _ F3) by (first [exact M2 | lia]).
        rewrite B2 by lia. rewrite list_lookup_total_alt, lookup_replicate_2 by lia. reflexivity.
      * replace (va + i) with (va + n + (i - n)) by lia. apply B3. lia.
Qed.

(** ** Segments *)

Section segments.
Context {D : Type} `{BD : BlockDevice D}.

(** The byte a segment puts at offset [i]. *)
Definition segment_byte (file : list Z) (off filesz i : Z) : Z :=
  if i <? filesz then file_byte file (off + i) else 0.

(** The pages the two loops map. *)
Definition segment_pages (va filesz memsz : Z) : nat := pages va filesz + pages (va + filesz) (memsz - filesz).

Lemma load_segment_effect (s : system D) B n va off filesz memsz :
  users (os_mach s) -> holds (os_fs s) B -> file_at B n -> user_range va memsz -> 0 <= filesz <= memsz ->
  0 <= off -> off + filesz < 4294967296 ->
  (2 * segment_pages va filesz memsz <= length (free (os_mach s)))%nat ->
  exists k' f', load_segment n va off filesz memsz s = Ret (true, set_mach k' (set_fs f' s)) /\
    fs_same B (os_fs s) f' /\
    fills (os_mach s) k' (segment_pages va filesz memsz) (in_pages va memsz) /\
    forall i, 0 <= i < memsz -> mapped k' (va + i) /\ vbyte k' (va + i) = segment_byte (file_of B n) off filesz i.
Proof.
  intros U H F (R1 & R2 & R3) Hsz Ho Hm Hfree. unfold segment_pages in *. unfold USER_END in R3.
  destruct (load_file_effect B n (page_fuel filesz) va filesz off s) as (k1 & f1 & E1 & S1 & F1 & B1);
    try assumption; [split; [|split]; unfold USER_END; lia|apply pages_fuel; lia|lia|].
  destruct (zero_fill_effect (page_fuel (memsz - filesz)) (va + filesz) (memsz - filesz) k1) as (k2 & E2 & F2 & B2).
  - apply F1.
  - split; [|split]; unfold USER_END; lia.
  - apply pages_fuel; lia.
  - apply (fills_free _ _ _ _ _ F1). lia.
  - exists k2, f1. split; [|split; [exact S1|split]].
    + unfold load_segment. rewrite (bind_ret _ _ _ _ _ E1). cbn [negb]. cbv zeta. rewrite !u32_small by lia.
      rewrite (bind_ret _ _ _ _ _ (on_mach_ret _ (set_mach k1 (set_fs f1 s)) _ _ E2)). destruct s; reflexivity.
    + eapply fills_trans; (eapply fills_weaken; [eassumption|reflexivity|]); unfold in_pages; cbn beta; intros a _ Ha; mlia.
    + intros i Hi. unfold segment_byte. destruct (Z.ltb_spec i filesz) as [Hlt|Hge].
      * destruct (B1 i ltac:(lia)) as [M1 V1]. split; [apply F2, M1|].
        rewrite (fl_bytes _ _ _ _ F2) by (first [exact M1 | lia]). exact V1.
      * replace (va + i) with (va + filesz + (i - filesz)) by lia. apply B2. lia.
Qed.

(** ** The program headers *)

(** Header [i] of the file. *)
Definition phdr_at (file : list Z) (phoff i : Z) : Elf32_Phdr :=
  phdr_of (slice (Z.to_nat (phoff + i * sizeof_Phdr)) (Z.to_nat sizeof_Phdr) file).

Definition phdrs (file : list Z) (phoff : Z) (n : nat) (i : Z) : list Elf32_Phdr :=
  (fun j => phdr_at file phoff (i + Z.of_nat j)) <$> seq 0 n.

Lemma phdrs_S file phoff n i : phdrs file phoff (S n) i = phdr_at file phoff i :: phdrs file phoff n (i + 1).
Proof.
  unfold phdrs. cbn [seq]. rewrite fmap_cons, Z.add_0_r, <- seq_shift, <- list_fmap_compose.
  f_equal. apply list_fmap_ext. intros j x _. unfold compose. f_equal. lia.
Qed.

(** The first page behind a segment. *)
Definition page_end (p : Elf32_Phdr) : Z := (p_vaddr p + p_memsz p + 4095) / 4096.

(** The loadable segments follow each other between page [lo] and page [hi],
    no two on a common page. *)
Fixpoint placed (lo hi : Z) (ps : list Elf32_Phdr) : Prop :=
  match ps with
  | [] => lo <= hi
  | p :: ps =>
      if p_type p =? PT_LOAD then
        lo <= p_vaddr p / 4096 /\ 0 <= p_filesz p <= p_memsz p /\
        0 <= p_offset p /\ p_offset p + p_filesz p < 4294967296 /\ placed (page_end p) hi ps
      else placed lo hi ps
  end.

Definition program_pages (ps : list Elf32_Phdr) : nat :=
  sum_list ((fun p => if p_type p =? PT_LOAD then segment_pages (p_vaddr p) (p_filesz p) (p_memsz p) else 0%nat) <$> ps).

Lemma program_pages_cons p ps : program_pages (p :: ps) =
  ((if (p_type p =? PT_LOAD)%Z then segment_pages (p_vaddr p) (p_filesz p) (p_memsz p) else 0) + program_pages ps)%nat.
Proof. reflexivity. Qed.

(** The bytes of the loadable segments are in memory. *)
Definition loaded (file : list Z) (k : machine) (ps : list Elf32_Phdr) : Prop :=
  Forall (fun p => p_type p = PT_LOAD -> forall i, 0 <= i < p_memsz p ->
    mapped k (p_vaddr p + i) /\
    vbyte k (p_vaddr p + i) = segment_byte file (p_offset p) (p_filesz p) i) ps.

(** An address on a page of the program. *)
Definition in_program (ps : list Elf32_Phdr) (a : Z) : Prop :=
  exists p, p ∈ ps /\ p_type p = PT_LOAD /\ in_pages (p_vaddr p) (p_memsz p) a.

Lemma in_program_cons p ps a : in_program (p :: ps) a <->
  (p_type p = PT_LOAD /\ in_pages (p_vaddr p) (p_memsz p) a) \/ in_program ps a.
Proof.
  unfold in_program. setoid_rewrite elem_of_cons. split.
  - intros (q & [->|Hq] & H); [auto|]. right. exists q. auto.
  - intros [H|(q & Hq & H)]; [exists p; auto|exists q; auto].
Qed.

Lemma placed_le lo hi ps : placed lo hi ps -> lo <= hi.
Proof.
  revert lo. induction ps as [|p ps IH]; intros lo; cbn [placed]; [auto|].
  destruct (p_type p =? PT_LOAD); [|apply IH]. intros (H1 & H2 & _ & _ & H3). apply IH in H3. unfold page_end in H3. mlia.
Qed.

Lemma placed_pages lo hi ps a : placed lo hi ps -> in_program ps a -> lo <= a / 4096 < hi.
Proof.
  revert lo. induction ps as [|p ps IH]; intros lo; [intros _ (p & Hp & _); inversion Hp|].
  rewrite in_program_cons. cbn [placed]. destruct (Z.eqb_spec (p_type p) PT_LOAD) as [Ht|Ht].
  - intros (H1 & H2 & _ & _ & H3) [[_ Ha]|Ha].
    + apply placed_le in H3. unfold in_pages, page_end in *. mlia.
    + specialize (IH _ H3 Ha). unfold page_end in IH. mlia.
  - intros H [[Ht' _]|Ha]; [contradiction|auto].
Qed.

Lemma load_segments_S n i ino phoff (s : system D) file f' : 
  read_file_at ino sizeof_Phdr (u32 (phoff + i * sizeof_Phdr)) s =
    Ret (Some (slice (Z.to_nat (phoff + i * sizeof_Phdr)) (Z.to_nat sizeof_Phdr) file), set_fs f' s) ->
  0 <= phoff + i * sizeof_Phdr -> phoff + (i + 1) * sizeof_Phdr <= Z.of_nat (length file) ->
  load_segments (S n) i ino phoff s =
    (let p := phdr_at file phoff i in
     if negb (p_type p =? PT_LOAD) then load_segments n (i + 1) ino phoff
     else
       ok ← load_segment ino (p_vaddr p) (p_offset p) (p_filesz p) (p_memsz p);
       if negb ok then mret false else load_segments n (i + 1) ino phoff) (set_fs f' s).
Proof.
  intros E H1 H2. cbn [load_segments]. rewrite (bind_ret _ _ _ _ _ E). cbn beta iota.
  unfold sizeof_Phdr in *. rewrite length_slice by lia. reflexivity.
Qed.

Lemma load_segments_effect B ino phoff hi : 0 <= phoff -> hi * 4096 <= USER_END -> file_at B ino ->
  let file := file_of B ino in Z.of_nat (length file) < 4294967296 ->
  forall n i lo (s : system D), users (os_mach s) -> holds (os_fs s) B -> 0 <= i -> 1024 <= lo ->
  (n <> O -> phoff + (i + Z.of_nat n) * sizeof_Phdr <= Z.of_nat (length file)) ->
  placed lo hi (phdrs file phoff n i) ->
  (2 * program_pages (phdrs file phoff n i) <= length (free (os_mach s)))%nat ->
  exists k' f', load_segments n i ino phoff s = Ret (true, set_mach k' (set_fs f' s)) /\
    fs_same B (os_fs s) f' /\
    fills (os_mach s) k' (program_pages (phdrs file phoff n i)) (in_program (phdrs file phoff n i)) /\
    loaded file k' (phdrs file phoff n i).
Proof.
  intros Hph Hhi F file Hlen. induction n as [|n IH]; intros i lo s U H Hi Hlo Hfit Hpl Hfree.
  { exists (os_mach s), (os_fs s). split; [destruct s; reflexivity|]. split; [split; [exact H|split; reflexivity]|].
    split; [apply fills_refl, U|constructor]. }
  specialize (Hfit ltac:(lia)). unfold sizeof_Phdr in Hfit.
  destruct (read_file_ret s B ino sizeof_Phdr (phoff + i * sizeof_Phdr) H F) as (f1 & E1 & S1);
    [unfold is_u32, sizeof_Phdr; lia|unfold sizeof_Phdr; lia|unfold sizeof_Phdr; lia|].
  rewrite (load_segments_S n i ino phoff s file f1);
    [|rewrite u32_small by (unfold sizeof_Phdr; lia); exact E1|unfold sizeof_Phdr; lia|unfold sizeof_Phdr; lia].
  cbv zeta. rewrite phdrs_S in *. set (p := phdr_at file phoff i) in *. cbn [placed] in Hpl.
  rewrite program_pages_cons in *.
  destruct (Z.eqb_spec (p_type p) PT_LOAD) as [Ht|Ht]; cbn [negb].
  - destruct Hpl as (P1 & P2 & P3 & P4 & P5). pose proof (placed_le _ _ _ P5) as Hend.
    destruct (load_segment_effect (set_fs f1 s) B ino (p_vaddr p) (p_offset p) (p_filesz p) (p_memsz p))
      as (k2 & f2 & E2 & S2 & F2 & B2); try assumption;
      [apply S1|unfold user_range, page_end in *; mlia|cbn [os_mach set_fs]; lia|].
    rewrite (bind_ret _ _ _ _ _ E2). cbn [negb].
    destruct (IH (i + 1) (page_end p) (set_mach k2 (set_fs f2 (set_fs f1 s)))) as (k' & f' & E & S3 & F3 & L3);
      [apply F2|apply S2|lia|unfold page_end; mlia|unfold sizeof_Phdr; lia|exact P5|
       apply (fills_free _ _ _ _ _ F2); cbn [os_mach set_fs]; lia|].
    exists k', f'. split; [rewrite E; destruct s; reflexivity|].
    split; [eapply fs_same_trans; [exact S1|]; eapply fs_same_trans; eassumption|]. split.
    + eapply fills_trans; (eapply fills_weaken; [eassumption|reflexivity|]); intros a _ Ha; apply in_program_cons; auto.
    + constructor; [|exact L3]. intros _ j Hj. destruct (B2 j Hj) as [M V]. split; [apply F3, M|].
      rewrite (fl_bytes _ _ _ _ F3); [exact V|exact M|]. intros X. pose proof (placed_pages _ _ _ _ P5 X) as Y.
      unfold page_end in Y. mlia.
  - destruct (IH (i + 1) lo (set_fs f1 s)) as (k' & f' & E & S3 & F3 & L3); try assumption;
      [apply S1|lia|unfold sizeof_Phdr; lia|].
    exists k', f'. split; [rewrite E; destruct s; reflexivity|]. split; [eapply fs_same_trans; eassumption|].
    split; [|constructor; [congruence|exact L3]].
    eapply fills_weaken; [exact F3|reflexivity|]. intros a _ Ha. apply in_program_cons. auto.
Qed.
End segments.

(** ** The stack and the entry context *)

Definition stack_page (a : Z) : Prop :=
  USER_STACK_VADDR - Z.of_nat USER_STACK_PAGES * 4096 <= a < USER_STACK_VADDR.

Lemma setup_stack_effect : forall n i k, users k -> 0 <= i -> i + Z.of_nat n = 4 -> (2 * n <= length (free k))%nat ->
  exists k', setup_stack_from n i k = Ret (tt, k') /\ fills k k' n stack_page /\
    forall a, USER_STACK_VADDR - 4 * 4096 <= a < USER_STACK_VADDR - i * 4096 -> mapped k' a.
Proof.
  induction n as [|n IH]; intros i k U Hi Hn Hf.
  { exists k. split; [reflexivity|]. split; [apply fills_refl, U|intros; lia]. }
  assert (Hpage : (USER_STACK_VADDR - (i + 1) * 0x1000) / 4096 = 917504 - (i + 1)) by (unfold USER_STACK_VADDR; mlia).
  destruct (fills_alloc k (USER_STACK_VADDR - (i + 1) * 0x1000) U) as (k1 & E1 & F1 & N1);
    [unfold user_page; lia|unfold USER_STACK_VADDR; lia|lia|]. rewrite Hpage in F1, N1.
  destruct (IH (i + 1) k1) as (k' & E & F & N); [apply F1|lia|lia|apply (fills_free _ _ _ _ _ F1); lia|].
  exists k'. split; [cbn [setup_stack_from]; rewrite (kern_bind_ret _ _ _ _ _ E1); exact E|]. split.
  - change (S n) with (1 + n)%nat. eapply fills_trans; (eapply fills_weaken; [eassumption|reflexivity|]);
      [|auto]. cbn beta. unfold stack_page, USER_STACK_VADDR, USER_STACK_PAGES. intros a _ Ha. mlia.
  - intros a Ha. destruct (Z.lt_ge_cases a (USER_STACK_VADDR - (i + 1) * 4096)) as [Hlt|Hge]; [apply N; lia|].
    apply F, N1. unfold USER_STACK_VADDR in *. mlia.
Qed.

(** The register frame of a fresh program. *)
Definition entry_reg (entry : Z) (k : machine) (regs f : Z) : Z :=
  if decide (f = R_eip) then u32 entry
  else if decide (f = R_user_esp) then USER_STACK_VADDR
  else if decide (f = R_eflags) then reg k regs R_eflags .| 0x200
  else if decide (f ∈ [R_eax; R_ebx; R_ecx; R_edx; R_esi; R_edi; R_ebp]) then 0
  else reg k regs f.

(** A change of some registers of the frame only. *)
Definition frame_change (regs : Z) (k k' : machine) (r : Z -> Z) : Prop :=
  users k' /\ frame_at k' regs /\ same_map k k' /\ (forall f, 0 <= f < 19 -> reg k' regs f = r f) /\
  forall va, mapped k va -> vbyte k' va = vbyte k va.

Lemma set_reg_step {D} regs f v r k (s : system D) : frame_change regs k (os_mach s) r -> 0 <= f < 19 ->
  exists k', set_reg regs f v s = Ret (tt, set_mach k' s) /\
    frame_change regs k k' (fun f' => if decide (f' = f) then u32 v else r f').
Proof.
  intros (U & F & M & R & V) Hf. destruct (write_reg _ regs f v U F Hf) as (k' & E & U' & M' & F' & R' & V').
  exists k'. split; [unfold set_reg; apply on_mach_ret, E|]. split; [exact U'|]. split; [exact F'|].
  split; [etransitivity; eassumption|]. split.
  - intros f' Hf'. rewrite R' by exact Hf'. case_decide; [reflexivity|apply R, Hf'].
  - intros va Hm. rewrite V' by (eapply same_map_mapped; eassumption). apply V, Hm.
Qed.

(** Several registers, one after the other. *)
Fixpoint set_regs {D} (regs : Z) (fvs : list (Z * Z)) : sysop D unit :=
  match fvs with
  | [] => mret tt
  | [(f, v)] => set_reg regs f v
  | (f, v) :: fvs => _ ← set_reg regs f v; set_regs regs fvs
  end.

Lemma set_regs_effect {D} regs k fvs : forall r (s : system D), frame_change regs k (os_mach s) r ->
  Forall (fun fv => 0 <= fst fv < 19) fvs ->
  exists k', set_regs regs fvs s = Ret (tt, set_mach k' s) /\
    frame_change regs k k' (fun f => foldl (fun old fv => if decide (f = fst fv) then u32 (snd fv) else old) (r f) fvs).
Proof.
  induction fvs as [|[f v] fvs IH]; intros r s C Hf.
  - exists (os_mach s). split; [destruct s; reflexivity|exact C].
  - apply Forall_cons in Hf as [Hf Hfs]. destruct (set_reg_step regs f v _ _ s C Hf) as (k1 & E1 & C1).
    destruct (IH _ (set_mach k1 s) C1 Hfs) as (k' & E & C'). exists k'. split; [|exact C'].
    destruct fvs as [|fv fvs].
    + cbn [set_regs] in *. rewrite E1. injection E as E. rewrite E. destruct s; reflexivity.
    + cbn [set_regs]. cbn [set_regs] in E. rewrite (bind_ret _ _ _ _ _ E1), E. destruct s; reflexivity.
Qed.

Lemma enter_program_effect {D} entry regs (s : system D) : users (os_mach s) -> frame_at (os_mach s) regs ->
  exists k', enter_program entry regs s = Ret (tt, set_mach k' s) /\
    frame_change regs (os_mach s) k' (entry_reg entry (os_mach s) regs).
Proof.
  intros U F. assert (C0 : frame_change regs (os_mach s) (os_mach s) (reg (os_mach s) regs)).
  { split; [exact U|]. split; [exact F|]. split; [reflexivity|]. auto. }
  unfold enter_program.
  destruct (set_reg_step regs R_eip entry _ _ s C0) as (k1 & E1 & C1); [unfold R_eip; lia|].
  destruct (set_reg_step regs R_user_esp USER_STACK_VADDR _ _ (set_mach k1 s) C1) as (k2 & E2 & C2); [unfold R_user_esp; lia|].
  set (s2 := set_mach k2 (set_mach k1 s)) in *.
  assert (Efl : reg (os_mach s2) regs R_eflags = reg (os_mach s) regs R_eflags).
  { destruct C2 as (_ & _ & _ & R & _). cbn [s2 os_mach set_mach]. rewrite R by (unfold R_eflags; lia). reflexivity. }
  destruct (set_regs_effect regs (os_mach s)
    [(R_eflags, reg (os_mach s) regs R_eflags .| 0x200); (R_eax, 0); (R_ebx, 0); (R_ecx, 0); (R_edx, 0);
     (R_esi, 0); (R_edi, 0); (R_ebp, 0)] _ s2 C2) as (k & E & C).
  { repeat constructor; cbn; discriminate. }
  exists k. split.
  - rewrite (bind_ret _ _ _ _ _ E1), (bind_ret _ _ _ _ _ E2). fold s2.
    rewrite (bind_ret _ _ _ _ _ (get_reg_ret s2 regs R_eflags (proj1 C2) (proj1 (proj2 C2)) ltac:(unfold R_eflags; lia))).
    rewrite Efl. exact E.
  - destruct C as (U' & F' & M' & R' & V'). split; [exact U'|]. split; [exact F'|]. split; [exact M'|].
    split; [|exact V']. intros f Hf. rewrite R' by exact Hf. unfold entry_reg. cbn [foldl fst snd].
    rewrite (u32_small (_ .| _)) by (apply lor_u32; [apply reg_range|unfold is_u32; lia]).
    unfold R_eip, R_user_esp, R_eflags, R_eax, R_ebx, R_ecx, R_edx, R_esi, R_edi, R_ebp.
    repeat (case_decide; [subst f; first [reflexivity | vm_compute; reflexivity]|]).
    destruct (decide (f ∈ _)) as [X|]; [|reflexivity].
    exfalso. repeat (apply elem_of_cons in X as [X|X]; [contradiction|]). inversion X.
Qed.

(** ** Running a program *)

Section exec.
Context {D : Type} `{BD : BlockDevice D}.

(** The root directory of a well-formed disk, and what it has under the path. *)
Record root_of (B : blockmap) : Prop := {
  rt_ok : fs_ok B;
  rt_used : used_inode B ROOT_INO = true;
  rt_dir : type (inode_at B ROOT_INO) = SFS_DIR;
  rt_entries : Forall dentry_ok (entries B (inode_at B ROOT_INO))
}.

Definition found (B : blockmap) (path : list Z) : option Z :=
  lookup_in (entries B (inode_at B ROOT_INO)) (skip_slashes path).

Lemma root_lookup (s : system D) B name : holds (os_fs s) B -> root_of B -> c_string name ->
  exists f', on_fs (sfs_lookup ROOT_INO name) s =
      Ret (default (-1) (lookup_in (entries B (inode_at B ROOT_INO)) name), set_fs f' s) /\ fs_same B (os_fs s) f'.
Proof.
  intros H [O Hu Hd He] Hc. assert (Hv : valid_ino ROOT_INO) by (split; reflexivity).
  destruct (ok_file _ O _ Hv Hu) as [_ [F _]].
  destruct (does_lookup (D := D) B ROOT_INO name Hv Hc Hd F He _ H) as (f' & E & F').
  exists f'. split; [apply on_fs_ret, E|exact F'].
Qed.

Lemma file_size B n : file_at B n -> Z.of_nat (length (file_of B n)) <= 49152.
Proof.
  intros (O & Hn & Hu). destruct (ok_file _ O _ Hn Hu) as [_ [F Hs]]. pose proof (count_range _ _ F).
  unfold file_of, file_bytes. rewrite length_take. lia.
Qed.

Definition ehdr_at (file : list Z) : Elf32_Ehdr := ehdr_of (slice 0 (Z.to_nat sizeof_Ehdr) file).

(** The program headers of the file. *)
Definition program_of (file : list Z) : list Elf32_Phdr :=
  phdrs file (e_phoff (ehdr_at file)) (Z.to_nat (e_phnum (ehdr_at file))) 0.

(** A 32-bit little-endian x86 executable with program headers, by the bytes of
    its header. *)
Definition elf32_exec (file : list Z) : Prop :=
  take 6 file = [0x7F; 69; 76; 70; 1; 1] /\ half_at 16 file = 2 /\ half_at 18 file = 3 /\ half_at 44 file <> 0.

Lemma slice_prefix {A} off n m (l : list A) : (off + n <= m)%nat -> slice off n (slice 0 m l) = slice off n l.
Proof.
  intros H. unfold slice. rewrite drop_0, skipn_firstn_comm, take_take. f_equal. lia.
Qed.

Lemma elf_check_spec file : sizeof_Ehdr <= Z.of_nat (length file) ->
  elf_check_file (ehdr_at file) = true <-> elf32_exec file.
Proof.
  unfold sizeof_Ehdr. intros Hl. unfold elf_check_file, ehdr_at, ehdr_of, half_at.
  cbn [e_ident e_type e_machine e_phnum]. change (Z.to_nat sizeof_Ehdr) with 52%nat.
  rewrite !slice_prefix by lia. rewrite !andb_true_iff, !Z.eqb_eq, negb_true_iff, Z.eqb_neq, bool_decide_eq_true.
  unfold elf32_exec, half_at, ELFCLASS32, ELFDATA2LSB, ET_EXEC, EM_386, EI_CLASS, EI_DATA, ELF_MAGIC.
  destruct file as [|b0 [|b1 [|b2 [|b3 [|b4 [|b5 file]]]]]]; cbn [length] in Hl; try lia.
  cbn [take slice drop lookup_total list_lookup_total]. split.
  - intros (((((E & E4) & E5) & E6) & E7) & E8). split; [|auto].
    change (b4 = 1) in E4. change (b5 = 1) in E5. injection E as -> -> -> ->. rewrite E4, E5. reflexivity.
  - intros (E & E6 & E7 & E8). injection E as -> -> -> -> -> ->. repeat split; assumption.
Qed.

(** An executable file that fits its address space: complete headers, and
    segments between 4 MiB and the stack, none sharing a page. *)
Record executable (file : list Z) : Prop := {
  ex_header : sizeof_Ehdr <= Z.of_nat (length file);
  ex_valid : elf32_exec file;
  ex_phoff : 0 <= e_phoff (ehdr_at file);
  ex_phdrs : e_phoff (ehdr_at file) + Z.of_nat (Z.to_nat (e_phnum (ehdr_at file))) * sizeof_Phdr <= Z.of_nat (length file);
  ex_placed : placed 1024 (USER_STACK_VADDR / 4096 - Z.of_nat USER_STACK_PAGES) (program_of file)
}.

Lemma elf_exec_effect (s : system D) B path regs ino : users (os_mach s) -> frame_at (os_mach s) regs ->
  holds (os_fs s) B -> root_of B -> c_string (skip_slashes path) -> skip_slashes path <> [] ->
  found B path = Some ino -> file_at B ino ->
  let file := file_of B ino in let ps := program_of file in
  executable file -> (2 * (program_pages ps + USER_STACK_PAGES) <= length (free (os_mach s)))%nat ->
  exists k' f', elf_load_and_exec path regs s = Ret (0, set_mach k' (set_fs f' s)) /\ fs_same B (os_fs s) f' /\
    users k' /\ frame_at k' regs /\
    (forall f, 0 <= f < 19 -> reg k' regs f = entry_reg (e_entry (ehdr_at file)) (os_mach s) regs f) /\
    loaded file k' ps /\ (forall a, stack_page a -> mapped k' a) /\
    forall a, mapped (os_mach s) a -> ~ in_program ps a -> ~ stack_page a -> mapped k' a /\ vbyte k' a = vbyte (os_mach s) a.
Proof.
  intros U Fr H R Hc Hne Hfound F file ps X Hfree. pose proof (file_size B ino F) as Hsz. fold file in Hsz.
  destruct X as [X1 X2 X3 X4 X5]. fold ps in X5. apply elf_check_spec in X2; [|exact X1].
  destruct (root_lookup s B _ H R Hc) as (f1 & E1 & S1). unfold found in Hfound. rewrite Hfound in E1. cbn [default] in E1; unfold id in E1.
  destruct (read_file_ret (set_fs f1 s) B ino sizeof_Ehdr 0) as (f2 & E2 & S2);
    [apply S1|exact F|unfold is_u32, sizeof_Ehdr; lia|lia|unfold sizeof_Ehdr; lia|].
  destruct (load_segments_effect B ino (e_phoff (ehdr_at file)) (USER_STACK_VADDR / 4096 - Z.of_nat USER_STACK_PAGES))
    with (n := Z.to_nat (e_phnum (ehdr_at file))) (i := 0) (lo := 1024) (s := set_fs f2 (set_fs f1 s))
    as (k3 & f3 & E3 & S3 & F3 & L3); try assumption;
    [unfold USER_STACK_VADDR, USER_STACK_PAGES, USER_END; by_compute|fold file; lia|apply S2|lia|lia|intros _; exact X4|
     cbn [os_mach set_fs]; fold file; fold (program_of file); fold ps; lia|].
  fold file in F3, L3. fold (program_of file) in F3, L3. fold ps in F3, L3. cbn [os_mach set_fs] in F3.
  destruct (setup_stack_effect USER_STACK_PAGES 0 k3) as (k4 & E4 & F4 & N4);
    [apply F3|lia|reflexivity|apply (fills_free _ _ _ _ _ F3); cbn [os_mach set_fs]; lia|].
  destruct (frame_kernel_same _ _ _ Fr (fl_kernel _ _ _ _ F3)) as [Fr3 R3].
  destruct (frame_kernel_same _ _ _ Fr3 (fl_kernel _ _ _ _ F4)) as [Fr4 R4].
  set (s4 := set_mach k4 (set_fs f3 s)).
  destruct (enter_program_effect (e_entry (ehdr_at file)) regs s4) as (k' & E5 & U' & Fr' & M' & R' & V');
    [apply F4|exact Fr4|].
  exists k', f3. split; [|split; [|split; [exact U'|split; [exact Fr'|split; [|split; [|split]]]]]].
  - unfold elf_load_and_exec. destruct (skip_slashes path) as [|c name] eqn:Ename; [contradiction|].
    rewrite (bind_ret _ _ _ _ _ E1). destruct (Z.ltb_spec ino 0); [destruct F as (_ & [? _] & _); lia|].
    rewrite (bind_ret _ _ _ _ _ E2). fold file. change (Z.to_nat 0) with 0%nat.
    rewrite length_slice by (unfold sizeof_Ehdr in *; lia). cbn [Z.ltb Z.of_nat]. fold (ehdr_at file).
    change (Z.of_nat (Z.to_nat sizeof_Ehdr) <? sizeof_Ehdr) with false. cbv zeta. rewrite X2. cbn [negb].
    rewrite (bind_ret _ _ _ _ _ E3). cbn [negb].
    rewrite (bind_ret _ _ _ _ _ (on_mach_ret _ (set_mach k3 (set_fs f3 (set_fs f2 (set_fs f1 s)))) _ _ E4)).
    change (set_mach k4 _) with s4. rewrite (bind_ret _ _ _ _ _ E5). reflexivity.
  - eapply fs_same_trans; [exact S1|]. eapply fs_same_trans; eassumption.
  - intros f Hf. rewrite R' by exact Hf. unfold entry_reg. cbn [os_mach s4 set_mach].
    rewrite !R4, !R3 by (first [exact Hf | unfold R_eflags; lia]). reflexivity.
  - apply Forall_forall. intros p Hp Ht i Hi. pose proof (proj1 (Forall_forall _ _) L3 p Hp Ht i Hi) as [M3 V3].
    pose proof (fl_old _ _ _ _ F4 _ M3) as M4. split; [eapply same_map_mapped; [exact M'|exact M4]|].
    rewrite V' by exact M4. cbn [os_mach s4 set_mach]. rewrite (fl_bytes _ _ _ _ F4); [exact V3|exact M3|].
    assert (Hin : in_program ps (p_vaddr p + i)) by (exists p; unfold in_pages; split; [exact Hp|split; [exact Ht|mlia]]).
    pose proof (placed_pages _ _ _ _ X5 Hin) as Y. unfold stack_page, USER_STACK_VADDR, USER_STACK_PAGES in *. mlia.
  - intros a Ha. eapply same_map_mapped; [exact M'|]. cbn [os_mach s4 set_mach]. apply N4. unfold stack_page, USER_STACK_PAGES in Ha. lia.
  - intros a Hm Hp Hst. pose proof (fl_old _ _ _ _ F3 a Hm) as M3. pose proof (fl_old _ _ _ _ F4 a M3) as M4.
    split; [eapply same_map_mapped; [exact M'|exact M4]|].
    rewrite V' by exact M4. cbn [os_mach s4 set_mach]. rewrite (fl_bytes _ _ _ _ F4), (fl_bytes _ _ _ _ F3); auto.
Qed.

(** The file is not there, or is not an executable of this machine. *)
Definition rejected (B : blockmap) (path : list Z) : Prop :=
  skip_slashes path = [] \/ found B path = None \/
  exists ino, found B path = Some ino /\ file_at B ino /\
    (Z.of_nat (length (file_of B ino)) < sizeof_Ehdr \/ ~ elf32_exec (file_of B ino)).

Lemma elf_exec_rejected (s : system D) B path regs : holds (os_fs s) B -> root_of B -> c_string (skip_slashes path) ->
  rejected B path ->
  exists f', elf_load_and_exec path regs s = Ret (-1, set_fs f' s) /\ fs_same B (os_fs s) f'.
Proof.
  intros H R Hc Hr. unfold elf_load_and_exec.
  destruct (skip_slashes path) as [|c name] eqn:Ename.
  { exists (os_fs s). split; [destruct s; reflexivity|]. split; [exact H|split; reflexivity]. }
  destruct Hr as [Hr|Hr]; [congruence|]. unfold found in Hr. rewrite Ename in Hr.
  destruct (root_lookup s B _ H R Hc) as (f1 & E1 & S1). rewrite (bind_ret _ _ _ _ _ E1).
  destruct Hr as [->|(ino & -> & F & Hr)]; cbn [default]; unfold id.
  { exists f1. split; [reflexivity|exact S1]. }
  destruct (Z.ltb_spec ino 0); [destruct F as (_ & [? _] & _); lia|].
  destruct (read_file_ret (set_fs f1 s) B ino sizeof_Ehdr 0) as (f2 & E2 & S2);
    [apply S1|exact F|unfold is_u32, sizeof_Ehdr; lia|lia|unfold sizeof_Ehdr; lia|].
  rewrite (bind_ret _ _ _ _ _ E2). change (Z.to_nat 0) with 0%nat. cbv zeta. fold (ehdr_at (file_of B ino)).
  exists f2. split; [|eapply fs_same_trans; eassumption].
  destruct (Z.ltb_spec (Z.of_nat (length (slice 0 (Z.to_nat sizeof_Ehdr) (file_of B ino)))) sizeof_Ehdr) as [|Hge];
    [destruct s; reflexivity|].
  unfold slice in Hge. rewrite drop_0, length_take in Hge.
  assert (Hlen : sizeof_Ehdr <= Z.of_nat (length (file_of B ino))) by (unfold sizeof_Ehdr in *; lia).
  destruct Hr as [Hr|Hr]; [lia|]. rewrite <- elf_check_spec in Hr by exact Hlen.
  destruct (elf_check_file _); [contradiction|]. destruct s; reflexivity.
Qed.
End exec.
