(* ===== verification/Syscall.v ===== *)
(** * System calls (kernel/syscall.c)

    [syscall_handler] dispatches on the [eax] of the register frame the
    interrupt entry has pushed at [regs]; arguments are the process's [ebx],
    [ecx] and [edx], and the result goes back into [eax].  Every call is the
    operation of a component above, plus the transfer of its arguments and
    results through user pointers.

    A call ends with [Done] and returns to the process, or with [Blocked]: it
    waits in a loop for an interrupt, or gave the processor away with its
    [int $32] and goes on later, or (exit) never returns.  The handler is one
    step: an interrupt that arrives during a call is taken before or after it.
    A string argument is read before the operation; the code reads it while it
    compares, so it may touch less of a string that runs into an unmapped page. *)

From S2P Require Import Prelude Memory CString Kmalloc PortIO InputDev Text Serial Vga Paging Scheduler Ipc Disk Sfs System UserMem Elf.
Local Open Scope Z_scope.
Local Open Scope sros_scope.

Definition SYS_READ : Z := 0.
Definition SYS_WRITE : Z := 1.
Definition SYS_GETCHAR : Z := 2.
Definition SYS_CLEAR : Z := 3.
Definition SYS_FS_OPEN : Z := 4.
Definition SYS_FS_READ : Z := 5.
Definition SYS_FS_WRITE : Z := 6.
Definition SYS_FS_CLOSE : Z := 7.
Definition SYS_FS_CREATE : Z := 8.
Definition SYS_FS_LS : Z := 9.
Definition SYS_KMALLOC : Z := 10.
Definition SYS_KFREE : Z := 11.
Definition SYS_KMALLOC_DUMP : Z := 12.
Definition SYS_EXEC : Z := 13.
Definition SYS_EXIT : Z := 14.
Definition SYS_FORK : Z := 15.
Definition SYS_WAIT : Z := 16.
Definition SYS_SEM_INIT : Z := 17.
Definition SYS_SEM_WAIT : Z := 18.
Definition SYS_SEM_POST : Z := 19.
Definition SYS_SEM_DESTROY : Z := 20.
Definition SYS_MSGGET : Z := 21.
Definition SYS_MSGSND : Z := 22.
Definition SYS_MSGRCV : Z := 23.
Definition SYS_MSGCTL : Z := 24.
Definition SYS_MOUSE_HAS_DATA : Z := 25.
Definition SYS_MOUSE_READ : Z := 26.

(** ** Keyboard input *)

(** [while (count < len && kbd_buffer_has_data()) buf[count++] = kbd_buffer_get()] *)
Fixpoint read_keys (n : nat) (k : kbd) : list Z * kbd :=
  match n with
  | O => ([], k)
  | S n => if c_true (kbd_buffer_has_data k)
           then let '(c, k) := kbd_buffer_get k in let '(cs, k) := read_keys n k in (c :: cs, k)
           else ([], k)
  end.

(** ** The listing of the root directory *)

(** [for (i = 0; d.name[i] && written + 1 < buf_size; i++)] *)
Fixpoint append_name (field : list Z) (size : Z) (text : list Z) : exec (list Z) :=
  match field with
  | [] => if Z.of_nat (length text) + 1 <? size then Oob else Ret text
  | c :: field =>
      if negb (c =? 0) && (Z.of_nat (length text) + 1 <? size)
      then append_name field size (text ++ [c]) else Ret text
  end.

Definition dot : list Z := [46].
Definition dotdot : list Z := [46; 46].

(** One entry: the text so far and the [first] flag. *)
Definition ls_entry (size : Z) (acc : list Z * bool) (d : dentry) : exec (list Z * bool) :=
  let '(text, first) := acc in
  if d_ino d =? 0 then Ret acc
  else
    b ← name_eq (d_name d) dot;
    if (b : bool) then Ret acc
    else
      b ← name_eq (d_name d) dotdot;
      if (b : bool) then Ret acc
      else
        let text := if negb first && (Z.of_nat (length text) + 1 <? size) then text ++ [NL] else text in
        text ← append_name (d_name d) size text;
        Ret (text, false).

Fixpoint ls_entries (size : Z) (ds : list dentry) (acc : list Z * bool) : exec (list Z * bool) :=
  match ds with
  | [] => Ret acc
  | d :: ds => acc ← ls_entry size acc d; ls_entries size ds acc
  end.

Section syscalls.
Context {D : Type} `{BD : BlockDevice D}.

(** The serial port hardware, the number of polls of its transmitter, the
    bound on string arguments, and the linker's [_bss_end]. *)
Context (dev : device) (tx_fuel str_fuel : nat) (bss_end : Z).

(** The loop over the blocks of the directory; the block buffer is a fresh
    uninitialised array each time. *)
Fixpoint ls_blocks (bs : list Z) (bi count size : Z) (acc : list Z * bool) : fsop D (list Z * bool) :=
  if bi <? count then
    match bs with
    | [] => fail_oob
    | b :: bs =>
        block ← read_block b;
        acc ← lift_exec (ls_entries size (entry_at block <$> seq 0 DENTRIES_PER_BLOCK) acc);
        ls_blocks bs (bi + 1) count size acc
    end
  else mret acc.

Definition ls_text (size : Z) : fsop D (list Z) :=
  i ← sfs_read_inode ROOT_INO;
  root ← use i;
  acc ← ls_blocks (blocks root) 0 (block_count root) size ([], true);
  mret (fst acc).

(** ** Arguments *)

Definition user_str (va : Z) : sysop D (list Z) := on_mach (read_cstr str_fuel va).
(** A pointer that may be NULL. *)
Definition user_str_opt (va : Z) : sysop D (option (list Z)) :=
  if va =? 0 then mret None else s ← user_str va; mret (Some s).

Definition done (eax : Z) : sysop D (outcome (option Z)) := mret (Done (Some (u32 eax))).
Definition store (va : Z) (bs : list Z) : sysop D unit := on_mach (write_user va bs).

(** More than a file can take. *)
Definition MAX_FILE_BYTES : Z := SFS_DIRECT_BLOCKS * 4096.

(** ** The calls: the value for [eax], if they set it *)

Definition call_read (buf len : Z) : sysop D (outcome (option Z)) :=
  k ← asks os_kbd;
  let '(cs, k) := read_keys (Z.to_nat (Z.min len KEYBOARD_BUFFER_SIZE)) k in
  _ ← changes (set_kbd k);
  _ ← store buf cs;
  done (Z.of_nat (length cs)).

Definition call_getchar : sysop D (outcome (option Z)) :=
  k ← asks os_kbd;
  if c_true (kbd_buffer_has_data k) then
    let '(c, k) := kbd_buffer_get k in
    _ ← changes (set_kbd k);
    done c
  else mret Blocked.

(** Polling longer than [tx_fuel] is [Oob]. *)
Definition call_write (c : Z) : sysop D (outcome (option Z)) :=
  h ← asks os_ports;
  match serial_putc tx_fuel SERIAL_COM1 (i8 c) dev h with
  | Some (_, h) => _ ← changes (set_ports h); done 0
  | None => of_exec Oob
  end.

Definition call_clear : sysop D (outcome (option Z)) :=
  v ← asks os_vga;
  v ← of_exec (vga_init v);
  _ ← changes (set_vga v);
  done 0.

Definition call_fs_open (path : Z) : sysop D (outcome (option Z)) :=
  p ← user_str_opt path;
  fd ← on_fs (sys_open p);
  done fd.

Definition call_fs_read (fd buf count : Z) : sysop D (outcome (option Z)) :=
  '(n, bytes) ← on_fs (sys_read (i32 fd) (i32 count));
  _ ← store buf bytes;
  done n.

(** The data are the bytes at [buf] as far as they are mapped; writing more of
    them than there are is the page fault. *)
Definition call_fs_write (fd buf count : Z) : sysop D (outcome (option Z)) :=
  k ← asks os_mach;
  let data := mapped_prefix (Z.to_nat (Z.min (u32 (i32 count)) MAX_FILE_BYTES)) buf k in
  n ← on_fs (sys_write (i32 fd) data (i32 count));
  if Z.of_nat (length data) <? n then of_exec Panic else done n.

Definition call_fs_close (fd : Z) : sysop D (outcome (option Z)) :=
  _ ← on_fs (sys_close (i32 fd)); done 0.

Definition call_fs_create (name : Z) : sysop D (outcome (option Z)) :=
  nm ← user_str name;
  ino ← on_fs (sfs_create ROOT_INO nm SFS_FILE);
  done (if 0 <=? ino then 0 else -1).

Definition call_fs_ls (user_buf buf_size : Z) : sysop D (outcome (option Z)) :=
  if (user_buf =? 0) || (buf_size =? 0) then done (-1)
  else
    text ← on_fs (ls_text buf_size);
    _ ← store user_buf (if Z.of_nat (length text) <? buf_size then text ++ [0] else text);
    done (Z.of_nat (length text)).

(** The heap lies in the identity-mapped low memory. *)
Definition call_kmalloc (size : Z) : sysop D (outcome (option Z)) :=
  k ← asks os_mach;
  match kmalloc (ram k) size with
  | Some (m, p) => _ ← changes (set_mach (set_ram m k)); done p
  | None => of_exec Oob
  end.

Definition call_kfree (ptr : Z) : sysop D (outcome (option Z)) :=
  k ← asks os_mach;
  _ ← changes (set_mach (set_ram (kfree (ram k) ptr) k));
  done 0.

(** Only prints. *)
Definition call_kmalloc_dump : sysop D (outcome (option Z)) :=
  k ← asks os_mach;
  match kmalloc_dump (ram k) with Some _ => done 0 | None => of_exec Oob end.

Definition call_exec (path regs : Z) : sysop D (outcome (option Z)) :=
  p ← user_str path;
  ret ← elf_load_and_exec p regs;
  if ret <? 0 then done (-1) else mret (Done None).

Definition call_exit (code : Z) : sysop D (outcome (option Z)) :=
  _ ← on_tasks (modify (task_exit (i32 code))); mret Blocked.

Definition call_fork (regs : Z) : sysop D (outcome (option Z)) :=
  pid ← on_tasks (task_fork bss_end regs);
  done (if 0 <=? pid then pid else -1).

Definition call_wait (pid : Z) : sysop D (outcome (option Z)) :=
  r ← on_tasks (task_wait_step (i32 pid));
  match r with Scheduler.Waited ret => done ret | WaitBlocked => mret Blocked end.

Definition ipc_result (o : outcome Z) : sysop D (outcome (option Z)) :=
  match o with Done r => done r | Blocked => mret Blocked end.

Definition call_sem_init (name init_val : Z) : sysop D (outcome (option Z)) :=
  nm ← user_str_opt name;
  id ← on_ipc (sem_create nm (i32 init_val));
  done id.

Definition call_sem_wait (id : Z) : sysop D (outcome (option Z)) :=
  o ← on_ipc (fun st => Ret (sem_wait (i32 id) st)); ipc_result o.

Definition call_sem_post (id : Z) : sysop D (outcome (option Z)) :=
  r ← on_ipc (fun st => Ret (sem_post (i32 id) st)); done r.

(** [None] cannot happen: the wait queues are finite. *)
Definition total {A} (f : ipc -> option (A * ipc)) (st : ipc) : exec (A * ipc) :=
  match f st with Some r => Ret r | None => Oob end.

Definition call_sem_destroy (id : Z) : sysop D (outcome (option Z)) :=
  r ← on_ipc (total (sem_destroy (i32 id))); done r.

Definition call_msgget : sysop D (outcome (option Z)) :=
  r ← on_ipc (fun st => Ret (msg_queue_create st)); done r.

(** At most 64 bytes are read from the buffer; reading one that is not mapped
    is a page fault. *)
Definition call_msgsnd (id buf len : Z) : sysop D (outcome (option Z)) :=
  k ← asks os_mach;
  let data := if buf =? 0 then None
              else Some (mapped_prefix (Z.to_nat (Z.min len (Z.of_nat MSG_MAX_DATA))) buf k) in
  o ← on_ipc (fun st => match msg_queue_send (i32 id) data len st with Oob => Panic | r => r end);
  ipc_result o.

Definition call_msgrcv (id buf len_ptr : Z) : sysop D (outcome (option Z)) :=
  o ← on_ipc (fun st => Ret (msg_queue_recv (i32 id) (negb (buf =? 0)) st));
  match o with
  | Blocked => mret Blocked
  | Done (ret, bytes) =>
      _ ← store buf bytes;
      _ ← (if (ret =? 0) && negb (len_ptr =? 0)
           then store len_ptr (le_bytes 4 (Z.of_nat (length bytes))) else mret tt);
      done ret
  end.

Definition call_msgctl (id : Z) : sysop D (outcome (option Z)) :=
  r ← on_ipc (total (msg_queue_destroy (i32 id))); done r.

Definition call_mouse_has_data : sysop D (outcome (option Z)) :=
  m ← asks os_mouse; done (if c_true (mouse_has_data m) then 1 else 0).

(** The event structure is three bytes. *)
Definition call_mouse_read (ev : Z) : sysop D (outcome (option Z)) :=
  m ← asks os_mouse;
  match mouse_read m with
  | Some (e, m) =>
      _ ← changes (set_mouse m);
      _ ← store ev [buttons e; u8 (dx e); u8 (dy e)];
      done 0
  | None => _ ← store ev [0; 0; 0]; done 0
  end.

(** ** The dispatcher *)

Definition dispatch (num ebx ecx edx regs : Z) : sysop D (outcome (option Z)) :=
  if num =? SYS_READ then call_read ebx ecx
  else if num =? SYS_GETCHAR then call_getchar
  else if num =? SYS_WRITE then call_write ebx
  else if num =? SYS_CLEAR then call_clear
  else if num =? SYS_FS_OPEN then call_fs_open ebx
  else if num =? SYS_FS_READ then call_fs_read ebx ecx edx
  else if num =? SYS_FS_WRITE then call_fs_write ebx ecx edx
  else if num =? SYS_FS_CLOSE then call_fs_close ebx
  else if num =? SYS_FS_CREATE then call_fs_create ebx
  else if num =? SYS_FS_LS then call_fs_ls ebx ecx
  else if num =? SYS_KMALLOC then call_kmalloc ebx
  else if num =? SYS_KFREE then call_kfree ebx
  else if num =? SYS_KMALLOC_DUMP then call_kmalloc_dump
  else if num =? SYS_EXEC then call_exec ebx regs
  else if num =? SYS_EXIT then call_exit ebx
  else if num =? SYS_FORK then call_fork regs
  else if num =? SYS_WAIT then call_wait ebx
  else if num =? SYS_SEM_INIT then call_sem_init ebx ecx
  else if num =? SYS_SEM_WAIT then call_sem_wait ebx
  else if num =? SYS_SEM_POST then call_sem_post ebx
  else if num =? SYS_SEM_DESTROY then call_sem_destroy ebx
  else if num =? SYS_MSGGET then call_msgget
  else if num =? SYS_MSGSND then call_msgsnd ebx ecx edx
  else if num =? SYS_MSGRCV then call_msgrcv ebx ecx edx
  else if num =? SYS_MSGCTL then call_msgctl ebx
  else if num =? SYS_MOUSE_HAS_DATA then call_mouse_has_data
  else if num =? SYS_MOUSE_READ then call_mouse_read ebx
  else done (-1).

Definition syscall_handler (regs : Z) : sysop D (outcome unit) :=
  num ← get_reg regs R_eax;
  ebx ← get_reg regs R_ebx;
  ecx ← get_reg regs R_ecx;
  edx ← get_reg regs R_edx;
  r ← dispatch num ebx ecx edx regs;
  match r with
  | Done (Some v) => _ ← set_reg regs R_eax v; mret (Done tt)
  | Done None => mret (Done tt)
  | Blocked => mret Blocked
  end.
End syscalls.

(** ** Calls *)

(** The process makes call [num] with these arguments. *)
Definition calling {D} (s : system D) (regs num ebx ecx edx : Z) : Prop :=
  users (os_mach s) /\ frame_at (os_mach s) regs /\
  reg (os_mach s) regs R_eax = num /\ reg (os_mach s) regs R_ebx = ebx /\
  reg (os_mach s) regs R_ecx = ecx /\ reg (os_mach s) regs R_edx = edx.

(** The call has returned [v]: memory is as in [k], and the frame differs from
    the one before the call in [eax] only. *)
Definition returned {D} (s : system D) (k : machine) (regs v : Z) (s' : system D) : Prop :=
  users (os_mach s') /\ frame_at (os_mach s') regs /\
  (forall f, 0 <= f < 19 -> reg (os_mach s') regs f = if decide (f = R_eax) then v else reg (os_mach s) regs f) /\
  forall va, mapped k va -> mapped (os_mach s') va /\ vbyte (os_mach s') va = vbyte k va.

Section handler.
Context {D : Type} `{BD : BlockDevice D} (dev : device) (tx_fuel str_fuel : nat) (bss_end : Z).

(** The handler up to the call itself. *)
Lemma handler_dispatch (s : system D) regs num ebx ecx edx :
  calling s regs num ebx ecx edx ->
  syscall_handler dev tx_fuel str_fuel bss_end regs s =
    (r ← dispatch dev tx_fuel str_fuel bss_end num ebx ecx edx regs;
     match r with
     | Done (Some v) => _ ← set_reg regs R_eax v; mret (Done tt)
     | Done None => mret (Done tt)
     | Blocked => mret Blocked
     end) s.
Proof.
  intros (U & F & <- & <- & <- & <-). unfold syscall_handler.
  rewrite (bind_ret _ _ _ _ _ (get_reg_ret s regs R_eax U F ltac:(unfold R_eax; lia))).
  rewrite (bind_ret _ _ _ _ _ (get_reg_ret s regs R_ebx U F ltac:(unfold R_ebx; lia))).
  rewrite (bind_ret _ _ _ _ _ (get_reg_ret s regs R_ecx U F ltac:(unfold R_ecx; lia))).
  rewrite (bind_ret _ _ _ _ _ (get_reg_ret s regs R_edx U F ltac:(unfold R_edx; lia))).
  reflexivity.
Qed.
(** The frame of the handler: a call that returns a value, and on the way
    changed memory only for the process, ends with the value in [eax]. *)
Lemma handler_returns (s s1 : system D) regs num ebx ecx edx v :
  calling s regs num ebx ecx edx ->
  dispatch dev tx_fuel str_fuel bss_end num ebx ecx edx regs s = Ret (Done (Some v), s1) ->
  user_change (os_mach s) (os_mach s1) -> is_u32 v ->
  exists s', syscall_handler dev tx_fuel str_fuel bss_end regs s = Ret (Done tt, s') /\
    returned s (os_mach s1) regs v s' /\
    exists k, s' = set_mach k s1 /\ same_map (os_mach s1) k.
Proof.
  intros (U & F & E0 & E1 & E2 & E3) Ed Ch Hv. 
  destruct (frame_kernel_same _ _ _ F (user_change_kernel _ _ Ch)) as [F1 R1]. pose proof Ch as (U1 & _).
  destruct (write_reg (os_mach s1) regs R_eax v U1 F1 ltac:(unfold R_eax; lia))
    as (k' & Ew & U' & M' & F' & R' & V').
  exists (set_mach k' s1). split; [|split; [|exists k'; split; [reflexivity|exact M']]].
  - rewrite (handler_dispatch _ _ _ _ _ _ (conj U (conj F (conj E0 (conj E1 (conj E2 E3)))))), (bind_ret _ _ _ _ _ Ed).
    unfold set_reg. rewrite (bind_ret _ _ _ _ _ (on_mach_ret _ s1 _ _ Ew)). reflexivity.
  - split; [exact U'|]. split; [exact F'|]. cbn [os_mach set_mach]. split.
    + intros f Hf. rewrite R' by exact Hf. case_decide; [apply u32_small, Hv|apply R1, Hf].
    + intros va Hm. split; [eapply same_map_mapped; eauto|apply V', Hm].
Qed.
End handler.

(** ** Files *)

Lemma fd_i32 fd : 0 <= fd < MAX_FILES -> i32 fd = fd.
Proof. unfold MAX_FILES. intros. apply i32_small. lia. Qed.

(** C1: A process that calls write on an open file with a buffer in its memory gets
    back in eax the number of bytes written, which are stored in the file at the
    descriptor's offset; only a full file or disk makes it less than asked for.
    Its memory and its other registers are as before, as are all other files. *)
Theorem syscall_write_file {D} `{BD : BlockDevice D} dev tx_fuel str_fuel bss_end
    (s : system D) B regs fd buf count f :
  calling s regs SYS_FS_WRITE fd buf count -> opened (os_fs s) B fd f ->
  0 <= count <= MAX_FILE_BYTES -> region (os_mach s) buf (Z.to_nat count) ->
  f_offset f + count < 4294967296 ->
  let data := vbytes (os_mach s) buf (Z.to_nat count) in
  exists n s' B', syscall_handler dev tx_fuel str_fuel bss_end regs s = Ret (Done tt, s') /\
    returned s (os_mach s) regs n s' /\
    0 <= n <= count /\ (n < count -> f_offset f + n = MAX_FILE_BYTES \/ disk_full B') /\
    file_of B' (f_ino f) = splice (Z.to_nat (f_offset f)) (take (Z.to_nat n) data) (file_of B (f_ino f)) /\
    (forall m, valid_ino m -> m <> f_ino f -> used_inode B m = true ->
       used_inode B' m = true /\ file_of B' m = file_of B m) /\
    opened (os_fs s') B' fd (mk_file (f_ino f) (f_offset f + n) (f_mode f) (f_in_use f)).
Proof.
  intros Hcall O Hc R Hmax data. pose proof Hcall as (U & _).
  assert (Hm : MAX_FILE_BYTES = 49152) by reflexivity.
  assert (Hlen : Z.of_nat (length data) = count) by (unfold data; rewrite length_vbytes; lia).
  destruct (sys_write_file (os_fs s) B fd f data O ltac:(lia))
    as (n & f' & B' & E & Hn & Hfull & Hfile & Hoth & O').
  rewrite Hlen in E, Hn, Hfull.
  assert (Ed : dispatch dev tx_fuel str_fuel bss_end SYS_FS_WRITE fd buf count regs s = Ret (Done (Some n), set_fs f' s)).
  { change (dispatch dev tx_fuel str_fuel bss_end SYS_FS_WRITE fd buf count regs s)
      with (call_fs_write fd buf count s).
    unfold call_fs_write. rewrite (bind_ret _ _ s (os_mach s) s eq_refl). cbv zeta.
    rewrite (fd_i32 fd) by apply O. rewrite (i32_small count) by lia. rewrite (u32_small count) by lia.
    rewrite Z.min_l by lia. rewrite mapped_prefix_spec by assumption. fold data.
    rewrite (bind_ret _ _ _ _ _ (on_fs_ret _ _ _ _ E)). rewrite Hlen.
    destruct (Z.ltb_spec count n); [lia|]. unfold done, mret, sysop_ret. rewrite u32_small by lia. reflexivity. }
  destruct (handler_returns dev tx_fuel str_fuel bss_end s _ regs _ _ _ _ n Hcall Ed)
    as (s' & Eh & Hr & k & -> & _); [apply user_change_refl, U|unfold is_u32; lia|].
  exists n, (set_mach k (set_fs f' s)), B'. split; [exact Eh|]. split; [exact Hr|]. split; [exact Hn|].
  split; [intros X; rewrite Hm; apply Hfull, X|]. split; [exact Hfile|]. split; [exact Hoth|exact O'].
Qed.

(** C20: A process that calls read on an open file gets the bytes at the
    descriptor's offset, up to the end of the file, in its buffer, and their
    number in eax; no other byte of its memory and no other register changes. *)
Theorem syscall_read_file {D} `{BD : BlockDevice D} dev tx_fuel str_fuel bss_end
    (s : system D) B regs fd buf count f :
  let bytes := slice (Z.to_nat (f_offset f)) (Z.to_nat count) (file_of B (f_ino f)) in
  calling s regs SYS_FS_READ fd buf count -> opened (os_fs s) B fd f ->
  0 <= count < 2147483648 -> region (os_mach s) buf (length bytes) ->
  f_offset f + count < 4294967296 ->
  exists s', syscall_handler dev tx_fuel str_fuel bss_end regs s = Ret (Done tt, s') /\
    users (os_mach s') /\ frame_at (os_mach s') regs /\
    (forall f, 0 <= f < 19 -> reg (os_mach s') regs f =
       if decide (f = R_eax) then Z.of_nat (length bytes) else reg (os_mach s) regs f) /\
    vbytes (os_mach s') buf (length bytes) = u8 <$> bytes /\
    (forall va, mapped (os_mach s) va -> ~ (buf <= va < buf + Z.of_nat (length bytes)) ->
       vbyte (os_mach s') va = vbyte (os_mach s) va) /\
    opened (os_fs s') B fd (mk_file (f_ino f) (f_offset f + Z.of_nat (length bytes)) (f_mode f) (f_in_use f)).
Proof.
  intros bytes Hcall O Hc R Hmax. pose proof Hcall as (U & _).
  destruct (sys_read_file (os_fs s) B fd f count O ltac:(lia) Hmax) as (f' & E & O').
  fold bytes in E, O'.
  destruct (write_user_spec bytes (os_mach s) buf U R) as (k1 & Ew & Ch & V).
  assert (Hb : Z.of_nat (length bytes) <= count) by (unfold bytes, slice; rewrite length_take; lia).
  assert (Ed : dispatch dev tx_fuel str_fuel bss_end SYS_FS_READ fd buf count regs s =
                 Ret (Done (Some (Z.of_nat (length bytes))), set_mach k1 (set_fs f' s))).
  { change (dispatch dev tx_fuel str_fuel bss_end SYS_FS_READ fd buf count regs s)
      with (call_fs_read fd buf count s).
    unfold call_fs_read. rewrite (fd_i32 fd) by apply O. rewrite (i32_small count) by lia.
    rewrite (bind_ret _ _ _ _ _ (on_fs_ret _ _ _ _ E)).
    unfold store. rewrite (bind_ret _ _ _ _ _ (on_mach_ret _ (set_fs f' s) _ _ Ew)).
    unfold done, mret, sysop_ret. rewrite u32_small by lia. reflexivity. }
  destruct (handler_returns dev tx_fuel str_fuel bss_end s _ regs _ _ _ _ _ Hcall Ed)
    as (s' & Eh & (Us & Fs & Rs & Vs) & k & -> & M); [exact Ch|unfold is_u32; lia|].
  cbn [os_mach set_mach set_fs] in *. pose proof Ch as (_ & M1 & _).
  exists (set_mach k (set_mach k1 (set_fs f' s))). split; [exact Eh|]. split; [exact Us|].
  split; [exact Fs|]. split; [exact Rs|]. split; [|split; [|exact O']].
  - cbn [os_mach set_mach]. apply (vbytes_written (os_mach s)); [|exact R]. intros va Hm.
    destruct (Vs va (same_map_mapped _ _ _ M1 Hm)) as [_ ->]. apply V, Hm.
  - cbn [os_mach set_mach]. intros va Hm Hout. destruct (Vs va (same_map_mapped _ _ _ M1 Hm)) as [_ ->].
    rewrite V by exact Hm. rewrite decide_False by exact Hout. reflexivity.
Qed.

(** ** A process that makes a call *)

Definition demo_regs : Z := 0x10000.

Definition demo_sem_tables : ipc := mk_ipc (replicate MAX_SEMS sem_zero) 0 (replicate MAX_MSGQUEUES mq_zero) 0 three_tasks.

(** The rest of the system around a machine. *)
Definition demo_system (k : machine) : system image :=
  mk_system k demo_sem_tables demo_open kbd_init mouse_start blank_vga [].

Lemma demo_calling num ebx ecx edx : is_u32 num -> is_u32 ebx -> is_u32 ecx -> is_u32 edx ->
  exists k, calling (demo_system k) demo_regs num ebx ecx edx /\ region k demo_va 4096 /\
    (200 <= length (free k))%nat.
Proof.
  intros H0 H1 H2 H3. destruct demo_process as (k0 & U & R & C & Hfree).
  assert (F : frame_at k0 demo_regs) by (exists 0x10000, 0; unfold demo_regs; split; [exact C|lia]).
  destruct (write_reg k0 _ R_eax num U F) as (k1 & _ & U1 & M1 & F1 & G1 & _); [unfold R_eax; lia|].
  destruct (write_reg k1 _ R_ebx ebx U1 F1) as (k2 & _ & U2 & M2 & F2 & G2 & _); [unfold R_ebx; lia|].
  destruct (write_reg k2 _ R_ecx ecx U2 F2) as (k3 & _ & U3 & M3 & F3 & G3 & _); [unfold R_ecx; lia|].
  destruct (write_reg k3 _ R_edx edx U3 F3) as (k4 & _ & U4 & M4 & F4 & G4 & _); [unfold R_edx; lia|].
  exists k4. split.
  { split; [exact U4|]. split; [exact F4|]. cbn [os_mach demo_system].
    unfold R_eax, R_ebx, R_ecx, R_edx in *.
  rewrite !G4, !G3, !G2, !G1 by lia.
  repeat split; (repeat (case_decide; [try lia|]); try lia); apply u32_small; assumption. }
  assert (M : same_map k0 k4) by (etransitivity; [exact M1|]; etransitivity; [exact M2|]; etransitivity; [exact M3|exact M4]).
  split; [apply (region_same_map k0); assumption|]. destruct M as (_ & -> & _). exact Hfree.
Qed.

Lemma syscall_write_file_witness :
  exists (s : system image) n s', syscall_handler (fun _ _ _ => 0) 1 1 0 demo_regs s = Ret (Done tt, s') /\
    reg (os_mach s') demo_regs R_eax = n /\ 0 <= n <= 100.
Proof.
  destruct (demo_calling SYS_FS_WRITE 0 demo_va 100) as (k & Hcall & R & _);
    [unfold is_u32, SYS_FS_WRITE, demo_va; lia..|].
  destruct demo_opened as (B & O & _).
  destruct (syscall_write_file (fun _ _ _ => 0) 1 1 0 (demo_system k) B demo_regs 0 demo_va 100 (mk_file 2 0 2 1))
    as (n & s' & B' & Eh & Hr & Hn & _).
  - exact Hcall.
  - exact O.
  - vm_compute. split; discriminate.
  - intros i Hi. apply R. lia.
  - cbn. lia.
  - exists (demo_system k), n, s'. split; [exact Eh|]. split; [|exact Hn].
    destruct Hr as (_ & _ & Hr & _). rewrite Hr by (unfold R_eax; lia). reflexivity.
Defined.

Lemma syscall_read_file_witness :
  exists (s s' : system image), syscall_handler (fun _ _ _ => 0) 1 1 0 demo_regs s = Ret (Done tt, s') /\
    reg (os_mach s') demo_regs R_eax = 0.
Proof.
  destruct (demo_calling SYS_FS_READ 0 demo_va 100) as (k & Hcall & R & _);
    [unfold is_u32, SYS_FS_READ, demo_va; lia..|].
  destruct demo_opened as (B & O & Ef).
  destruct (syscall_read_file (fun _ _ _ => 0) 1 1 0 (demo_system k) B demo_regs 0 demo_va 100 (mk_file 2 0 2 1))
    as (s' & Eh & _ & _ & Hr & _).
  - exact Hcall.
  - exact O.
  - lia.
  - cbn [f_ino f_offset]. rewrite Ef. intros i Hi. assert (H0 : 0 <= i < 0) by exact Hi. lia.
  - cbn. lia.
  - exists (demo_system k), s'. split; [exact Eh|]. cbn [f_ino f_offset] in Hr. rewrite Ef in Hr.
    rewrite Hr by (unfold R_eax; lia). reflexivity.
Defined.

(** ** Programs *)

Section exec_calls.
Context {D : Type} `{BD : BlockDevice D} (dev : device) (tx_fuel str_fuel : nat) (bss_end : Z).

(** The process asks for the program whose path is the string at [va]. *)
Lemma user_str_ret (s : system D) va path : users (os_mach s) -> cstr_at (os_mach s) va path ->
  (length path < str_fuel)%nat -> user_str str_fuel va s = Ret (path, s).
Proof.
  intros U C Hf. unfold user_str. rewrite (on_mach_ret _ _ _ _ (read_cstr_spec path str_fuel _ va U C Hf)).
  rewrite set_mach_same. reflexivity.
Qed.

Lemma dispatch_exec (s : system D) regs va ecx edx :
  dispatch dev tx_fuel str_fuel bss_end SYS_EXEC va ecx edx regs s = call_exec str_fuel va regs s.
Proof. reflexivity. Qed.

Lemma skip_slashes_string path : c_string path -> c_string (skip_slashes path).
Proof.
  induction path as [|c path IH]; intros H; cbn [skip_slashes]; [exact H|].
  destruct (c =? 47); [apply IH; eapply Forall_inv_tail; exact H|exact H].
Qed.

End exec_calls.

(** C2: A process that executes a well-formed program returns from the call at the
    program's entry point, with a stack of four pages, clean registers and
    interrupts on; every loadable segment is in memory, its file part from the
    file and the rest zero; other user memory and the files are as before. *)
Theorem syscall_exec_loads {D} `{BD : BlockDevice D} dev tx_fuel str_fuel bss_end
    (s : system D) B regs va ecx edx path ino :
  let file := file_of B ino in let ps := program_of file in
  calling s regs SYS_EXEC va ecx edx -> cstr_at (os_mach s) va path -> (length path < str_fuel)%nat ->
  holds (os_fs s) B -> root_of B -> skip_slashes path <> [] -> found B path = Some ino -> file_at B ino ->
  executable file -> (2 * (program_pages ps + USER_STACK_PAGES) <= length (free (os_mach s)))%nat ->
  exists s', syscall_handler dev tx_fuel str_fuel bss_end regs s = Ret (Done tt, s') /\
    let k := os_mach s' in
    users k /\ frame_at k regs /\
    (forall f, 0 <= f < 19 -> reg k regs f = entry_reg (e_entry (ehdr_at file)) (os_mach s) regs f) /\
    loaded file k ps /\ (forall a, stack_page a -> mapped k a) /\
    (forall a, mapped (os_mach s) a -> ~ in_program ps a -> ~ stack_page a -> mapped k a /\ vbyte k a = vbyte (os_mach s) a) /\
    fs_same B (os_fs s) (os_fs s').
Proof.
  intros file ps Hcall Hstr Hfuel H R Hne Hfound F X Hfree. pose proof Hcall as (U & Fr & _).
  destruct (elf_exec_effect s B path regs ino) as (k & f' & E & S & Hk);
    try assumption; [apply skip_slashes_string, Hstr|].
  exists (set_mach k (set_fs f' s)). split.
  - rewrite (handler_dispatch dev tx_fuel str_fuel bss_end s regs _ _ _ _ Hcall).
    unfold mbind at 1, sysop_bind at 1. rewrite dispatch_exec. unfold call_exec.
    rewrite (bind_ret _ _ _ _ _ (user_str_ret str_fuel s va path U Hstr Hfuel)).
    rewrite (bind_ret _ _ _ _ _ E). reflexivity.
  - cbn [os_mach os_fs set_mach set_fs]. destruct Hk as (H1 & H2 & H3 & H4 & H5 & H6).
    split; [exact H1|]. split; [exact H2|]. split; [exact H3|]. split; [exact H4|].
    split; [exact H5|]. split; [exact H6|exact S].
Qed.

(** C25: Executing a path that is empty or not in the root directory, or a file that
    is too short or no 32-bit x86 executable, returns -1 to the process, whose
    memory and other registers are as before, as are the files. *)
Theorem syscall_exec_rejects {D} `{BD : BlockDevice D} dev tx_fuel str_fuel bss_end
    (s : system D) B regs va ecx edx path :
  calling s regs SYS_EXEC va ecx edx -> cstr_at (os_mach s) va path -> (length path < str_fuel)%nat ->
  holds (os_fs s) B -> root_of B -> rejected B path ->
  exists s', syscall_handler dev tx_fuel str_fuel bss_end regs s = Ret (Done tt, s') /\
    returned s (os_mach s) regs 0xFFFFFFFF s' /\ fs_same B (os_fs s) (os_fs s').
Proof.
  intros Hcall Hstr Hfuel H R Hr. pose proof Hcall as (U & _).
  destruct (elf_exec_rejected s B path regs H R (skip_slashes_string _ (proj1 Hstr)) Hr) as (f' & E & S).
  assert (Ed : dispatch dev tx_fuel str_fuel bss_end SYS_EXEC va ecx edx regs s = Ret (Done (Some 0xFFFFFFFF), set_fs f' s)).
  { rewrite dispatch_exec. unfold call_exec.
    rewrite (bind_ret _ _ _ _ _ (user_str_ret str_fuel s va path U Hstr Hfuel)).
    rewrite (bind_ret _ _ _ _ _ E). reflexivity. }
  destruct (handler_returns dev tx_fuel str_fuel bss_end s _ regs _ _ _ _ _ Hcall Ed)
    as (s' & Eh & Hret & k & -> & _); [apply user_change_refl, U|unfold is_u32; lia|].
  exists (set_mach k (set_fs f' s)). split; [exact Eh|]. split; [exact Hret|exact S].
Qed.

(** ** A program on the concrete disk *)

(** Eight bytes of code at 0x08048000 and a page of zeros behind them. *)
Definition demo_ehdr : Elf32_Ehdr :=
  mk_ehdr (ELF_MAGIC ++ [ELFCLASS32; ELFDATA2LSB; 1] ++ replicate 9 0) ET_EXEC EM_386 1 0x08048000 52 0 0 52 32 1 0 0 0.
Definition demo_elf : list Z :=
  ehdr_bytes demo_ehdr ++ concat (le_bytes 4 <$> [PT_LOAD; 84; 0x08048000; 0; 8; 5000; 7; 4096]) ++ [1; 2; 3; 4; 5; 6; 7; 8].

Definition demo_installed : fs image := match sys_write 0 demo_elf 92 demo_open with Ret (_, s) => s | _ => demo_open end.

Definition demo_path : list Z := [47; 104; 105].

#[local] Instance dentry_ok_dec d : Decision (dentry_ok d).
Proof. unfold dentry_ok. case_match; apply _. Defined.

Definition demo_root_inode : sfs_inode := mk_inode ROOT_INO 96 SFS_DIR 1 (5 :: replicate 11 0).

(** The root directory of a disk that holds what a computed one does. *)
Lemma demo_root_of s B : holds s B -> fs_ok B ->
  bit (blk (dev s) INODE_BITMAP_BLOCK) ROOT_INO = true ->
  slice (inode_offset ROOT_INO) sizeof_inode (blk (dev s) 3) = inode_bytes demo_root_inode ->
  forall es, entries (blk (dev s)) demo_root_inode = es -> Forall dentry_ok es ->
  root_of B /\ entries B (inode_at B ROOT_INO) = es.
Proof.
  intros H O Hu Hi es Hes He.
  assert (Hb : forall m, valid_block m -> B m = blk (dev s) m) by (intros; symmetry; apply (h_blk _ _ H); assumption).
  assert (Ei : inode_at B ROOT_INO = demo_root_inode).
  { unfold inode_at. change (inode_block default_sb ROOT_INO) with 3. rewrite Hb by (unfold valid_block, DISK_BLOCKS; lia).
    rewrite Hi. apply inode_of_bytes. unfold inode_ok, is_u32, is_u8, demo_root_inode, ROOT_INO, SFS_DIR.
    cbn [ino size type block_count blocks]. repeat split; try lia. repeat constructor; lia. }
  assert (Ee : entries B (inode_at B ROOT_INO) = es).
  { rewrite Ei, <- Hes. apply entries_ext. change (file_blocks demo_root_inode) with [5]. intros b Hbl.
    apply list_elem_of_singleton in Hbl as ->. apply Hb. unfold valid_block, DISK_BLOCKS. lia. }
  split; [|exact Ee]. split; [exact O| | |rewrite Ee; exact He].
  - unfold used_inode. rewrite Hb by (unfold valid_block, DISK_BLOCKS, INODE_BITMAP_BLOCK; lia). exact Hu.
  - rewrite Ei. reflexivity.
Qed.

Lemma demo_program : exists B, holds demo_installed B /\ root_of B /\ found B demo_path = Some 2 /\
  file_at B 2 /\ file_of B 2 = demo_elf.
Proof.
  destruct demo_opened as (B0 & O & Ef).
  destruct (sys_write_file demo_open B0 0 (mk_file 2 0 2 1) demo_elf O ltac:(vm_compute; reflexivity))
    as (n & s & B & E & _ & _ & Hfile & _ & O').
  change (Z.of_nat (length demo_elf)) with 92 in E.
  assert (Es : s = demo_installed /\ n = 92).
  { assert (T : match sys_write 0 demo_elf 92 demo_open with Ret (m, _) => m = 92 | _ => False end) by (vm_compute; reflexivity).
    unfold demo_installed. rewrite E in *. auto. }
  destruct Es as [-> ->]. exists B. pose proof (op_holds _ _ _ _ O') as H.
  destruct (demo_root_of demo_installed B H (op_ok _ _ _ _ O')) with (es := entries (blk (dev demo_installed)) demo_root_inode)
    as [R Ee]; [vm_compute; reflexivity..|reflexivity|apply (bool_decide_unpack _); vm_compute; exact I|].
  split; [exact H|]. split; [exact R|]. split; [|split].
  - unfold found. rewrite Ee. vm_compute. reflexivity.
  - split; [apply O'|apply O'].
  - cbn [f_ino f_offset] in Hfile. rewrite Hfile, Ef. vm_compute. reflexivity.
Qed.

(** Before that the file is empty. *)
Lemma demo_installed_empty : exists B, holds demo_open B /\ root_of B /\ found B demo_path = Some 2 /\
  file_at B 2 /\ file_of B 2 = [].
Proof.
  destruct demo_opened as (B & O & Ef). exists B.
  destruct (demo_root_of demo_open B (op_holds _ _ _ _ O) (op_ok _ _ _ _ O)) with (es := entries (blk (dev demo_open)) demo_root_inode)
    as [R Ee]; [vm_compute; reflexivity..|reflexivity|apply (bool_decide_unpack _); vm_compute; exact I|].
  split; [apply O|]. split; [exact R|]. split; [|split].
  - unfold found. rewrite Ee. vm_compute. reflexivity.
  - split; [apply O|apply O].
  - exact Ef.
Qed.

Lemma demo_executable : executable demo_elf.
Proof.
  split; [vm_compute; discriminate| |vm_compute; discriminate|vm_compute; discriminate|].
  - split; [reflexivity|]. split; [reflexivity|]. split; [reflexivity|discriminate].
  - vm_compute. repeat split; discriminate.
Qed.

(** A process asks for the program at the path it has in memory. *)
Lemma demo_exec_call : exists k, calling (set_fs demo_installed (demo_system k)) demo_regs SYS_EXEC demo_va 0 0 /\
  cstr_at k demo_va demo_path /\ (200 <= length (free k))%nat.
Proof.
  destruct (demo_calling SYS_EXEC demo_va 0 0) as (k0 & (U & F & E0 & E1 & E2 & E3) & R & Hfree);
    [unfold is_u32, SYS_EXEC, demo_va; lia..|]. cbn [os_mach demo_system] in *.
  assert (R' : region k0 demo_va (length (demo_path ++ [0]))) by (intros i Hi; apply R; cbn in *; lia).
  destruct (write_user_spec (demo_path ++ [0]) k0 demo_va U R') as (k & _ & Ch & V). pose proof Ch as (U' & M & _).
  destruct (frame_kernel_same _ _ _ F (user_change_kernel _ _ Ch)) as [F' G].
  exists k. split; [|split].
  - unfold calling. cbn [os_mach set_fs demo_system]. rewrite !G by (unfold R_eax, R_ebx, R_ecx, R_edx; lia).
    split; [exact U'|]. split; [exact F'|]. auto.
  - split; [repeat constructor; discriminate|]. split; [apply (region_same_map k0); [exact M|exact R']|].
    exact (vbytes_written k0 k demo_va _ V R').
  - destruct M as (_ & -> & _). exact Hfree.
Qed.

Lemma syscall_exec_loads_witness :
  exists (s s' : system image), syscall_handler (fun _ _ _ => 0) 1 10 0 demo_regs s = Ret (Done tt, s') /\
    reg (os_mach s') demo_regs R_eip = 0x08048000 /\ vbyte (os_mach s') 0x08048007 = 8 /\ vbyte (os_mach s') 0x08049387 = 0.
Proof.
  destruct demo_exec_call as (k & Hcall & Hstr & Hfree), demo_program as (B & H & R & Hfound & F & Ef).
  destruct (syscall_exec_loads (fun _ _ _ => 0) 1 10 0 (set_fs demo_installed (demo_system k)) B demo_regs demo_va 0 0 demo_path 2)
    as (s' & E & _ & _ & Hr & Hl & _).
  - exact Hcall.
  - exact Hstr.
  - cbn. lia.
  - exact H.
  - exact R.
  - discriminate.
  - exact Hfound.
  - exact F.
  - rewrite Ef. exact demo_executable.
  - rewrite Ef. cbn [os_mach set_fs demo_system]. change (program_pages (program_of demo_elf)) with 3%nat. unfold USER_STACK_PAGES. lia.
  - exists (set_fs demo_installed (demo_system k)), s'. split; [exact E|].
    rewrite Hr by (unfold R_eip; lia). rewrite Ef in *. split; [reflexivity|].
    pose proof (Forall_inv Hl eq_refl) as L. split.
    + destruct (L 7) as [_ X]; [vm_compute; split; discriminate || reflexivity|exact X].
    + destruct (L 4999) as [_ X]; [vm_compute; split; discriminate || reflexivity|exact X].
Defined.

(** The file system without the program. *)
Lemma syscall_exec_rejects_witness :
  exists (s s' : system image), syscall_handler (fun _ _ _ => 0) 1 10 0 demo_regs s = Ret (Done tt, s') /\
    reg (os_mach s') demo_regs R_eax = 0xFFFFFFFF.
Proof.
  destruct demo_exec_call as (k & Hcall & Hstr & _), demo_installed_empty as (B & H & R & Hfound & F & Ef).
  destruct (syscall_exec_rejects (fun _ _ _ => 0) 1 10 0 (set_fs demo_open (demo_system k)) B demo_regs demo_va 0 0 demo_path)
    as (s' & E & (_ & _ & Hr & _) & _).
  - exact Hcall.
  - exact Hstr.
  - cbn. lia.
  - exact H.
  - exact R.
  - right. right. exists 2. split; [exact Hfound|]. split; [exact F|]. left. rewrite Ef. vm_compute. reflexivity.
  - exists (set_fs demo_open (demo_system k)), s'. split; [exact E|].
    rewrite Hr by (unfold R_eax; lia). reflexivity.
Defined.

(** ** The listing *)

(** The names separated by newlines. *)
Definition joined (names : list (list Z)) : list Z :=
  match names with [] => [] | n :: ns => n ++ concat (cons NL <$> ns) end.

Lemma joined_snoc ns n : joined (ns ++ [n]) = (if decide (ns = []) then n else joined ns ++ NL :: n).
Proof.
  destruct ns as [|m ns]; cbn [app joined]; [apply app_nil_r|]. case_decide; [discriminate|].
  rewrite fmap_app, concat_app, <- app_assoc. cbn. rewrite app_nil_r. reflexivity.
Qed.

(** The entries a listing shows. *)
Definition shown (d : dentry) : Prop := d_ino d <> 0 /\ cstr (d_name d) <> dot /\ cstr (d_name d) <> dotdot.
#[local] Instance shown_dec d : Decision (shown d).
Proof. unfold shown. apply _. Defined.

Definition shown_names (es : list dentry) : list (list Z) := cstr ∘ d_name <$> filter shown es.

Lemma shown_names_cons d es : shown_names (d :: es) = (if decide (shown d) then [cstr (d_name d)] else []) ++ shown_names es.
Proof. unfold shown_names. rewrite filter_cons. case_decide; reflexivity. Qed.

(** The text of a listing in a buffer of [size] bytes. *)
Definition listing (size : Z) (names : list (list Z)) : list Z := take (Z.to_nat (size - 1)) (joined names).

Lemma take_app_take {A} n (a b : list A) : take n (take n a ++ b) = take n (a ++ b).
Proof.
  destruct (decide (n <= length a)%nat) as [H|H].
  - rewrite !take_app_le by (rewrite ?length_take; lia). rewrite take_take. f_equal. lia.
  - rewrite (take_ge a) by lia. reflexivity.
Qed.

Lemma append_name_spec size field : 0 ∈ field -> 1 <= size -> forall text, Z.of_nat (length text) < size ->
  append_name field size text = Ret (take (Z.to_nat (size - 1)) (text ++ cstr field)).
Proof.
  intros Hz Hs. induction field as [|c field IH]; [inversion Hz|]. intros text Hl. cbn [append_name cstr].
  destruct (Z.eqb_spec c 0) as [->|Hc]; cbn [negb andb].
  - rewrite app_nil_r, take_ge by lia. reflexivity.
  - destruct (Z.ltb_spec (Z.of_nat (length text) + 1) size) as [Hlt|Hge]; cbn [andb].
    + rewrite IH; [rewrite <- app_assoc; reflexivity|apply elem_of_cons in Hz as [X|X]; [congruence|exact X]|].
      rewrite length_app. cbn. lia.
    + rewrite take_app_le, take_ge by lia. reflexivity.
Qed.

Lemma ls_entry_spec size d ns : dentry_ok d -> 1 <= size ->
  ls_entry size (listing size ns, bool_decide (ns = [])) d =
    Ret (let ns' := ns ++ (if decide (shown d) then [cstr (d_name d)] else []) in
         (listing size ns', bool_decide (ns' = []))).
Proof.
  intros Hd Hs. unfold ls_entry. cbv zeta. unfold dentry_ok in Hd. destruct (Z.eqb_spec (d_ino d) 0) as [H0|H0].
  { rewrite decide_False by (unfold shown; tauto). rewrite app_nil_r. reflexivity. }
  destruct Hd as [Hz _].
  assert (Hdots : c_string dot /\ c_string dotdot) by (split; repeat constructor; discriminate).
  rewrite !name_eq_spec by (first [exact Hz | apply Hdots]). unfold mbind, exec_bind.
  case_bool_decide as H1; [rewrite decide_False by (unfold shown; tauto); rewrite app_nil_r; reflexivity|].
  case_bool_decide as H2; [rewrite decide_False by (unfold shown; tauto); rewrite app_nil_r; reflexivity|].
  rewrite decide_True by (unfold shown; tauto). set (nm := cstr (d_name d)).
  set (m := Z.to_nat (size - 1)).
  assert (Hlt : forall l : list Z, Z.of_nat (length (take m l)) < size) by (intros l; rewrite length_take; lia).
  (* the separator *)
  set (sep := if decide (ns = []) then [] else [NL]).
  assert (Esep : (if negb (bool_decide (ns = [])) && (Z.of_nat (length (listing size ns)) + 1 <? size)
            then listing size ns ++ [NL] else listing size ns) = take m (joined ns ++ sep)).
  { unfold sep, listing. fold m. case_bool_decide as Hns; [rewrite decide_True by exact Hns; cbn [negb andb]; rewrite app_nil_r; reflexivity|].
    rewrite decide_False by exact Hns. cbn [negb andb]. rewrite length_take.
    destruct (Z.ltb_spec (Z.of_nat (m `min` length (joined ns)) + 1) size) as [X|X].
    - rewrite !take_ge by (rewrite ?length_app; cbn; lia). reflexivity.
    - rewrite take_app_le by lia. reflexivity. }
  rewrite Esep, append_name_spec by (first [exact Hz | exact Hs | apply Hlt]). fold m nm.
  unfold mret, exec_ret. rewrite take_app_take. f_equal. f_equal.
  - unfold listing. fold m. rewrite joined_snoc, <- app_assoc. unfold sep. case_decide as Hns; [rewrite Hns|]; reflexivity.
  - rewrite bool_decide_eq_false_2; [reflexivity|]. destruct ns; discriminate.
Qed.

Lemma ls_entries_spec size es : Forall dentry_ok es -> 1 <= size -> forall ns,
  ls_entries size es (listing size ns, bool_decide (ns = [])) =
    Ret (listing size (ns ++ shown_names es), bool_decide (ns ++ shown_names es = [])).
Proof.
  intros He Hs. induction He as [|d es Hd _ IH]; intros ns; cbn [ls_entries].
  - cbn. rewrite app_nil_r. reflexivity.
  - rewrite ls_entry_spec by assumption. unfold mbind, exec_bind. cbv zeta.
    rewrite IH, <- app_assoc, shown_names_cons. reflexivity.
Qed.

Section listing.
Context {D : Type} `{BD : BlockDevice D}.

Lemma does_ls_blocks B size count : 1 <= size -> forall bs bi ns,
  0 <= bi <= count -> (Z.to_nat (count - bi) <= length bs)%nat ->
  Forall valid_block (take (Z.to_nat (count - bi)) bs) ->
  Forall dentry_ok (concat (block_entries B <$> take (Z.to_nat (count - bi)) bs)) ->
  does (D := D) (ls_blocks bs bi count size (listing size ns, bool_decide (ns = []))) B
    (let ns' := ns ++ shown_names (concat (block_entries B <$> take (Z.to_nat (count - bi)) bs)) in
     (listing size ns', bool_decide (ns' = []))) B.
Proof.
  intros Hs. induction bs as [|b bs IH]; intros bi ns Hbi Hl Hv He.
  - cbn [ls_blocks]. cbn [length] in Hl. destruct (Z.ltb_spec bi count); [lia|].
    rewrite take_nil. cbn. rewrite app_nil_r. apply does_ret.
  - cbn [ls_blocks]. destruct (Z.ltb_spec bi count) as [Hlt|Hge].
    + replace (Z.to_nat (count - bi)) with (S (Z.to_nat (count - (bi + 1)))) in * by lia.
      cbn [take fmap list_fmap concat] in *. apply Forall_cons in Hv as [Hb Hv]. apply Forall_app in He as [He1 He2].
      eapply does_bind; [apply does_read, Hb|].
      eapply does_bind; [apply does_lift; apply (ls_entries_spec size (block_entries B b) He1 Hs)|].
      replace (shown_names (block_entries B b ++ _)) with
        (shown_names (block_entries B b) ++ shown_names (concat (block_entries B <$> take (Z.to_nat (count - (bi + 1))) bs)))
        by (unfold shown_names; rewrite filter_app, fmap_app; reflexivity).
      cbv zeta. rewrite app_assoc. apply IH; try assumption; cbn [length] in Hl; lia.
    + replace (Z.to_nat (count - bi)) with 0%nat by lia. cbn. rewrite app_nil_r. apply does_ret.
Qed.

Lemma does_ls_text B size : root_of B -> 1 <= size ->
  does (D := D) (ls_text size) B (listing size (shown_names (entries B (inode_at B ROOT_INO)))) B.
Proof.
  intros [O Hu Hd He] Hs. assert (Hv : valid_ino ROOT_INO) by (split; reflexivity).
  destruct (ok_file _ O _ Hv Hu) as [_ [F _]]. pose proof (count_range _ _ F) as Hcnt.
  unfold ls_text. eapply does_bind; [apply does_read_inode, Hv|].
  eapply does_bind; [apply does_use|]. set (i := inode_at B ROOT_INO) in *.
  pose proof (does_ls_blocks B size (block_count i) Hs (blocks i) 0 []) as H. rewrite Z.sub_0_r in H.
  unfold listing at 1 in H. cbn [joined app] in H. rewrite take_nil in H.
  eapply does_bind; [apply H|apply does_ret].
  - lia.
  - rewrite (proj1 (proj2 (proj2 (proj2 (proj2 (fo_inode _ _ F)))))). lia.
  - eapply Forall_impl; [apply (fo_data _ _ F)|]. intros b [Hb _]. unfold valid_block, DATA_BLOCK_START in *. lia.
  - exact He.
Qed.
End listing.

(** C26: A process that asks for the listing gets the names of all entries of the root
    directory but its own two, in order and separated by newlines, cut off at the
    size of its buffer less one, with a NUL behind them, and the length in eax;
    no other byte of its memory changes, and no register but eax. *)
Theorem syscall_list_files {D} `{BD : BlockDevice D} dev tx_fuel str_fuel bss_end
    (s : system D) B regs buf size edx :
  let text := listing size (shown_names (entries B (inode_at B ROOT_INO))) in
  calling s regs SYS_FS_LS buf size edx -> buf <> 0 -> 1 <= size < 4294967296 ->
  holds (os_fs s) B -> root_of B -> region (os_mach s) buf (S (length text)) ->
  exists s', syscall_handler dev tx_fuel str_fuel bss_end regs s = Ret (Done tt, s') /\
    users (os_mach s') /\ frame_at (os_mach s') regs /\
    (forall f, 0 <= f < 19 -> reg (os_mach s') regs f =
       if decide (f = R_eax) then Z.of_nat (length text) else reg (os_mach s) regs f) /\
    vbytes (os_mach s') buf (S (length text)) = u8 <$> (text ++ [0]) /\
    (forall va, mapped (os_mach s) va -> ~ (buf <= va <= buf + Z.of_nat (length text)) ->
       vbyte (os_mach s') va = vbyte (os_mach s) va) /\
    fs_same B (os_fs s) (os_fs s').
Proof.
  intros text Hcall Hbuf Hsize H R Hreg. pose proof Hcall as (U & _).
  assert (Hlen : Z.of_nat (length text) < size) by (unfold text, listing; rewrite length_take; lia).
  destruct (does_ls_text B size R ltac:(lia) _ H) as (f' & E & F). fold text in E.
  assert (El : length (text ++ [0]) = S (length text)) by (rewrite length_app; cbn; lia).
  rewrite <- El in Hreg. destruct (write_user_spec (text ++ [0]) (os_mach s) buf U Hreg) as (k1 & Ew & Ch & V).
  assert (Ed : dispatch dev tx_fuel str_fuel bss_end SYS_FS_LS buf size edx regs s =
                 Ret (Done (Some (Z.of_nat (length text))), set_mach k1 (set_fs f' s))).
  { change (dispatch dev tx_fuel str_fuel bss_end SYS_FS_LS buf size edx regs s) with (call_fs_ls buf size s).
    unfold call_fs_ls. rewrite (proj2 (Z.eqb_neq buf 0) Hbuf), (proj2 (Z.eqb_neq size 0)) by lia. cbn [orb].
    rewrite (bind_ret _ _ _ _ _ (on_fs_ret _ _ _ _ E)). rewrite (proj2 (Z.ltb_lt _ _) Hlen). unfold store.
    rewrite (bind_ret _ _ _ _ _ (on_mach_ret _ (set_fs f' s) _ _ Ew)).
    unfold done, mret, sysop_ret. rewrite u32_small by lia. reflexivity. }
  destruct (handler_returns dev tx_fuel str_fuel bss_end s _ regs _ _ _ _ _ Hcall Ed)
    as (s' & Eh & (Us & Fs & Rs & Vs) & k & -> & M); [exact Ch|unfold is_u32; lia|].
  pose proof Ch as (_ & M1 & _). cbn [os_mach set_mach set_fs os_fs] in *.
  exists (set_mach k (set_mach k1 (set_fs f' s))). split; [exact Eh|]. split; [exact Us|].
  split; [exact Fs|]. split; [exact Rs|]. split; [|split; [|exact F]].
  - cbn [os_mach set_mach]. rewrite <- El. apply (vbytes_written (os_mach s)); [|exact Hreg]. intros va Hm.
    destruct (Vs va (same_map_mapped _ _ _ M1 Hm)) as [_ ->]. apply V, Hm.
  - cbn [os_mach set_mach]. intros va Hm Hout. destruct (Vs va (same_map_mapped _ _ _ M1 Hm)) as [_ ->].
    rewrite V by exact Hm. rewrite decide_False by (rewrite El; lia). reflexivity.
Qed.

Lemma demo_listing B : holds demo_open B -> fs_ok B ->
  listing 100 (shown_names (entries B (inode_at B ROOT_INO))) = [104; 105].
Proof.
  intros H O. destruct (demo_root_of demo_open B H O) with (es := entries (blk (dev demo_open)) demo_root_inode)
    as [_ Ee]; [vm_compute; reflexivity..|reflexivity|apply (bool_decide_unpack _); vm_compute; exact I|].
  rewrite Ee. vm_compute. reflexivity.
Qed.

Lemma syscall_list_files_witness :
  exists (s s' : system image), syscall_handler (fun _ _ _ => 0) 1 10 0 demo_regs s = Ret (Done tt, s') /\
    reg (os_mach s') demo_regs R_eax = 2 /\ vbytes (os_mach s') demo_va 3 = [104; 105; 0].
Proof.
  destruct (demo_calling SYS_FS_LS demo_va 100 0) as (k & Hcall & Hreg & _);
    [unfold is_u32, SYS_FS_LS, demo_va; lia..|].
  destruct demo_installed_empty as (B & H & R & _). pose proof (demo_listing B H (rt_ok _ R)) as El.
  destruct (syscall_list_files (fun _ _ _ => 0) 1 10 0 (demo_system k) B demo_regs demo_va 100 0) as (s' & E & _ & _ & Hr & Hv & _).
  - exact Hcall.
  - discriminate.
  - lia.
  - exact H.
  - exact R.
  - rewrite El. intros i Hi. apply Hreg. cbn in Hi. lia.
  - exists (demo_system k), s'. split; [exact E|]. rewrite El in *. rewrite Hr by (unfold R_eax; lia).
    split; [reflexivity|exact Hv].
Defined.
