(* ===== verification/Pci.v ===== *)
(** * The PCI bus (drivers/pci.c, include/pci.h)

    Configuration space is read through an address and a data port.  The bus is
    a parameter: [config_space d cfg] says that the hardware answers a read of
    the data port with the word of [cfg] that the last write to the address port
    selected.  The two searches walk buses, devices and functions in order; the
    functions of a device after the first are looked at only if its header says
    that there are several.  [visible] is the list of functions that this leaves,
    and a search returns the first of them that matches. *)

From S2P Require Import Prelude PortIO.
Local Open Scope Z_scope.
Local Open Scope sros_scope.

Definition PCI_CONFIG_ADDRESS : Z := 0x0CF8.
Definition PCI_CONFIG_DATA : Z := 0x0CFC.
Definition PCI_VENDOR_ID : Z := 0x00.
Definition PCI_DEVICE_ID : Z := 0x02.
Definition PCI_COMMAND : Z := 0x04.
Definition PCI_CLASS_SUBCLASS : Z := 0x08.
Definition PCI_HEADER_TYPE : Z := 0x0E.
Definition PCI_BAR0 : Z := 0x10.
Definition PCI_INTERRUPT_LINE : Z := 0x3C.
Definition PCI_CMD_IO_SPACE : Z := 0x0001.
Definition PCI_CMD_MEM_SPACE : Z := 0x0002.
Definition PCI_CMD_BUS_MASTER : Z := 0x0004.

Record pci_device : Type := mk_pci_device {
  p_bus : Z; p_dev : Z; p_func : Z; vendor_id : Z; device_id : Z;
  class_code : Z; subclass : Z; prog_if : Z; irq_line : Z; p_bar : list Z
}.

Definition pci_address (bus dev func offset : Z) : Z :=
  0x80000000 .| Z.shiftl bus 16 .| Z.shiftl dev 11 .| Z.shiftl func 8 .| (offset .& 0xFC).

Definition pci_config_read (bus dev func offset : Z) : io Z :=
  _ ← outl PCI_CONFIG_ADDRESS (pci_address bus dev func offset);
  inl PCI_CONFIG_DATA.

Definition pci_config_write (bus dev func offset value : Z) : io unit :=
  _ ← outl PCI_CONFIG_ADDRESS (pci_address bus dev func offset);
  outl PCI_CONFIG_DATA value.

Fixpoint pci_read_bars (n : nat) (i bus dev func : Z) : io (list Z) :=
  match n with
  | O => mret []
  | S n =>
      b ← pci_config_read bus dev func (PCI_BAR0 + i * 4);
      bs ← pci_read_bars n (i + 1) bus dev func;
      mret (b :: bs)
  end.

(** The entry for the caller, once a function matches: the words read last. *)
Definition fill_device (bus dev func vendor device class_reg : Z) : io pci_device :=
  irq ← pci_config_read bus dev func PCI_INTERRUPT_LINE;
  bars ← pci_read_bars 6 0 bus dev func;
  mret (mk_pci_device bus dev func vendor device (Z.shiftr class_reg 24 .& 0xFF) (Z.shiftr class_reg 16 .& 0xFF)
          (Z.shiftr class_reg 8 .& 0xFF) (irq .& 0xFF) bars).

(** ** The searches *)

(** The first result over a list. *)
Fixpoint first_some {A B} (xs : list A) (f : A -> io (option B)) : io (option B) :=
  match xs with
  | [] => mret None
  | x :: xs => r ← f x; match r with Some y => mret (Some y) | None => first_some xs f end
  end.

(** [if (!(header_type & 0x80)) break;] after function 0. *)
Definition multi_function (bus dev : Z) : io bool :=
  w ← pci_config_read bus dev 0 PCI_HEADER_TYPE;
  mret (negb ((Z.shiftr w 16 .& 0xFF) .& 0x80 =? 0)).

(** The loop over the functions, from [func] on. *)
Fixpoint find_func (fuel : nat) (vendor_id device_id bus dev func : Z) : io (option pci_device) :=
  match fuel with
  | O => mret None
  | S fuel =>
      w ← pci_config_read bus dev func PCI_VENDOR_ID;
      let vendor := w .& 0xFFFF in
      if (vendor =? 0xFFFF) || (vendor =? 0x0000) then
        if func =? 0 then mret None else find_func fuel vendor_id device_id bus dev (func + 1)
      else
        w ← pci_config_read bus dev func PCI_DEVICE_ID;
        let device := Z.shiftr w 16 in
        if (vendor =? vendor_id) && (device =? device_id) then
          class_reg ← pci_config_read bus dev func PCI_CLASS_SUBCLASS;
          d ← fill_device bus dev func vendor device class_reg;
          mret (Some d)
        else if func =? 0 then
          m ← multi_function bus dev;
          if (m : bool) then find_func fuel vendor_id device_id bus dev (func + 1) else mret None
        else find_func fuel vendor_id device_id bus dev (func + 1)
  end.

(** [None] is the result -1. *)
Definition pci_find_device (vendor_id device_id : Z) : io (option pci_device) :=
  first_some (seqZ 0 256) (fun bus =>
    first_some (seqZ 0 32) (fun d => find_func 8 vendor_id device_id bus d 0)).

Fixpoint find_class_func (fuel : nat) (class_code subclass bus dev func : Z) : io (option pci_device) :=
  match fuel with
  | O => mret None
  | S fuel =>
      w ← pci_config_read bus dev func PCI_VENDOR_ID;
      let vendor := w .& 0xFFFF in
      if (vendor =? 0xFFFF) || (vendor =? 0x0000) then
        if func =? 0 then mret None else find_class_func fuel class_code subclass bus dev (func + 1)
      else
        class_reg ← pci_config_read bus dev func PCI_CLASS_SUBCLASS;
        let cc := Z.shiftr class_reg 24 .& 0xFF in
        let sc := Z.shiftr class_reg 16 .& 0xFF in
        if (cc =? class_code) && (sc =? subclass) then
          w ← pci_config_read bus dev func PCI_DEVICE_ID;
          let device := Z.shiftr w 16 in
          d ← fill_device bus dev func vendor device class_reg;
          mret (Some d)
        else if func =? 0 then
          m ← multi_function bus dev;
          if (m : bool) then find_class_func fuel class_code subclass bus dev (func + 1) else mret None
        else find_class_func fuel class_code subclass bus dev (func + 1)
  end.

Definition pci_find_by_class (class_code subclass : Z) : io (option pci_device) :=
  first_some (seqZ 0 256) (fun bus =>
    first_some (seqZ 0 32) (fun d => find_class_func 8 class_code subclass bus d 0)).

Definition pci_enable_bus_master (d : pci_device) : io unit :=
  w ← pci_config_read (p_bus d) (p_dev d) (p_func d) PCI_COMMAND;
  let cmd := (w .& 0xFFFF) .| (PCI_CMD_IO_SPACE .| PCI_CMD_MEM_SPACE .| PCI_CMD_BUS_MASTER) in
  pci_config_write (p_bus d) (p_dev d) (p_func d) PCI_COMMAND cmd.

(** ** The bus *)

(** The hardware, as the configuration mechanism is documented. *)
Definition config_space (d : device) (cfg : Z -> Z) : Prop :=
  (forall a, is_u32 (cfg a)) /\
  forall h a, d (h ++ [Out 4 PCI_CONFIG_ADDRESS a]) 4 PCI_CONFIG_DATA = cfg a.

(** What a function's words say. *)
Section bus.
Context (cfg : Z -> Z).

Definition cfg_word (b d f offset : Z) : Z := cfg (u32 (pci_address b d f offset)).
Definition vendor_of (b d f : Z) : Z := cfg_word b d f PCI_VENDOR_ID .& 0xFFFF.
Definition device_of (b d f : Z) : Z := Z.shiftr (cfg_word b d f PCI_DEVICE_ID) 16.
Definition class_of (b d f : Z) : Z := cfg_word b d f PCI_CLASS_SUBCLASS.

Definition answers (b d f : Z) : Prop := vendor_of b d f <> 0xFFFF /\ vendor_of b d f <> 0.
Definition several (b d : Z) : bool := negb ((Z.shiftr (cfg_word b d 0 PCI_HEADER_TYPE) 16 .& 0xFF) .& 0x80 =? 0).

(** The functions of a device that a search sees. *)
Definition functions (b d : Z) : list (Z * Z * Z) :=
  if decide (answers b d 0) then
    (b, d, 0) :: (if several b d then (fun f => (b, d, f)) <$> filter (answers b d) (seqZ 1 7) else [])
  else [].

Definition visible : list (Z * Z * Z) := b ← seqZ 0 256; d ← seqZ 0 32; functions b d.

(** The entry for a function. *)
Definition described (bdf : Z * Z * Z) : pci_device :=
  let '(b, d, f) := bdf in
  mk_pci_device b d f (vendor_of b d f) (device_of b d f) (Z.shiftr (class_of b d f) 24 .& 0xFF)
    (Z.shiftr (class_of b d f) 16 .& 0xFF) (Z.shiftr (class_of b d f) 8 .& 0xFF)
    (cfg_word b d f PCI_INTERRUPT_LINE .& 0xFF) ((fun i => cfg_word b d f (PCI_BAR0 + i * 4)) <$> seqZ 0 6).
End bus.

(** The first entry of a list with a property. *)
Fixpoint first_such {A} (test : A -> bool) (l : list A) : option A :=
  match l with [] => None | x :: l => if test x then Some x else first_such test l end.

Lemma first_such_app {A} (test : A -> bool) l1 l2 :
  first_such test (l1 ++ l2) = match first_such test l1 with Some x => Some x | None => first_such test l2 end.
Proof. induction l1 as [|x l1 IH]; [reflexivity|]. cbn. destruct (test x); [reflexivity|exact IH]. Qed.

(** It is an element with the property, and no earlier one has it. *)
Lemma first_such_spec {A} (test : A -> bool) l :
  match first_such test l with
  | Some x => test x = true /\ exists l1 l2, l = l1 ++ x :: l2 /\ Forall (fun y => test y = false) l1
  | None => Forall (fun y => test y = false) l
  end.
Proof.
  induction l as [|x l IH]; [constructor|]. cbn. destruct (test x) eqn:E.
  - split; [exact E|]. exists [], l. split; [reflexivity|constructor].
  - destruct (first_such test l) as [y|]; [|constructor; assumption].
    destruct IH as (Ey & l1 & l2 & -> & Hl). split; [exact Ey|]. exists (x :: l1), l2.
    split; [reflexivity|]. constructor; assumption.
Qed.

(** ** The searches are correct *)

Section search.
Context (d : device) (cfg : Z -> Z) (Hd : config_space d cfg).

(** A computation that returns [x] and does whatever to the history. *)
Definition gives {A} (m : io A) (x : A) : Prop := forall h, exists h', m d h = Some (x, h').

Lemma gives_ret {A} (x : A) : gives (mret x) x.
Proof. intros h. exists h. reflexivity. Qed.

Lemma gives_bind {A C} (m : io A) (f : A -> io C) x y : gives m x -> gives (f x) y -> gives (m ≫= f) y.
Proof.
  intros Hm Hf h. destruct (Hm h) as (h1 & E1), (Hf h1) as (h2 & E2). exists h2.
  unfold mbind, io_bind. rewrite E1. exact E2.
Qed.

Lemma gives_read b dv f o : gives (pci_config_read b dv f o) (cfg_word cfg b dv f o).
Proof.
  intros h. eexists. unfold pci_config_read, mbind, io_bind, outl, inl, inw_width.
  change (u16 PCI_CONFIG_ADDRESS) with PCI_CONFIG_ADDRESS. change (u16 PCI_CONFIG_DATA) with PCI_CONFIG_DATA.
  rewrite (proj2 Hd). rewrite Z.mod_small by apply (proj1 Hd). reflexivity.
Qed.

Lemma gives_read_bars b dv f : forall n i,
  gives (pci_read_bars n i b dv f) ((fun j => cfg_word cfg b dv f (PCI_BAR0 + j * 4)) <$> seqZ i (Z.of_nat n)).
Proof.
  induction n as [|n IH]; intros i; [apply gives_ret|].
  rewrite seqZ_cons by lia. replace (Z.pred (Z.of_nat (S n))) with (Z.of_nat n) by lia. rewrite fmap_cons.
  cbn [pci_read_bars]. eapply gives_bind; [apply gives_read|]. eapply gives_bind; [apply IH|apply gives_ret].
Qed.

Lemma gives_fill b dv f :
  gives (fill_device b dv f (vendor_of cfg b dv f) (device_of cfg b dv f) (class_of cfg b dv f)) (described cfg (b, dv, f)).
Proof.
  unfold fill_device. eapply gives_bind; [apply gives_read|].
  eapply gives_bind; [apply (gives_read_bars b dv f 6 0)|apply gives_ret].
Qed.

Lemma gives_first {A B} (xs : list A) (f : A -> io (option B)) (g : A -> list (Z * Z * Z)) test (h : Z * Z * Z -> B) :
  (forall x, x ∈ xs -> gives (f x) (h <$> first_such test (g x))) ->
  gives (first_some xs f) (h <$> first_such test (xs ≫= g)).
Proof.
  induction xs as [|x xs IH]; intros H; [apply gives_ret|]. cbn [first_some]. rewrite bind_cons, first_such_app.
  eapply gives_bind; [apply H; left|].
  destruct (first_such test (g x)); [apply gives_ret|]. apply IH. intros y Hy. apply H. right. exact Hy.
Qed.

(** The functions behind function 0. *)
Definition later (b dv f : Z) (n : nat) : list (Z * Z * Z) :=
  (fun f => (b, dv, f)) <$> filter (answers cfg b dv) (seqZ f (Z.of_nat n)).

Lemma later_S b dv f n :
  later b dv f (S n) = (if decide (answers cfg b dv f) then [(b, dv, f)] else []) ++ later b dv (f + 1) n.
Proof.
  unfold later. rewrite seqZ_cons by lia. replace (Z.pred (Z.of_nat (S n))) with (Z.of_nat n) by lia.
  rewrite filter_cons. unfold Z.succ. case_decide; reflexivity.
Qed.

Lemma answers_test b dv f :
  (vendor_of cfg b dv f =? 0xFFFF) || (vendor_of cfg b dv f =? 0x0000) = negb (bool_decide (answers cfg b dv f)).
Proof.
  unfold answers. destruct (Z.eqb_spec (vendor_of cfg b dv f) 0xFFFF), (Z.eqb_spec (vendor_of cfg b dv f) 0);
    case_bool_decide; try reflexivity; lia.
Qed.

Definition id_test (v i : Z) (bdf : Z * Z * Z) : bool :=
  let '(b, dv, f) := bdf in (vendor_of cfg b dv f =? v) && (device_of cfg b dv f =? i).

Lemma gives_find_later v i b dv : forall n f, 0 < f ->
  gives (find_func n v i b dv f) (described cfg <$> first_such (id_test v i) (later b dv f n)).
Proof.
  induction n as [|n IH]; intros f Hf; [apply gives_ret|]. rewrite later_S, first_such_app.
  cbn [find_func]. eapply gives_bind; [apply gives_read|]. cbv zeta. fold (vendor_of cfg b dv f). rewrite answers_test.
  destruct (Z.eqb_spec f 0); [lia|]. unfold decide. case_bool_decide as Ha; cbn [negb].
  2:{ destruct (and_dec _ _) as [X|]; [contradiction|]. apply IH. lia. }
  destruct (and_dec _ _) as [_|X]; [|contradiction].
  eapply gives_bind; [apply gives_read|]. fold (device_of cfg b dv f). cbn [first_such id_test].
  destruct (_ && _).
  - eapply gives_bind; [apply gives_read|]. eapply gives_bind; [apply gives_fill|apply gives_ret].
  - apply IH. lia.
Qed.

Lemma gives_multi b dv : gives (multi_function b dv) (several cfg b dv).
Proof. eapply gives_bind; [apply gives_read|apply gives_ret]. Qed.

(** What a search sees of a device when it looks at [n] more functions. *)
Definition seen (n : nat) (b dv : Z) : list (Z * Z * Z) :=
  if decide (answers cfg b dv 0) then (b, dv, 0) :: (if several cfg b dv then later b dv 1 n else []) else [].

Lemma gives_find_func n v i b dv :
  gives (find_func (S n) v i b dv 0) (described cfg <$> first_such (id_test v i) (seen n b dv)).
Proof.
  cbn [find_func].
  eapply gives_bind; [apply gives_read|]. cbv zeta. fold (vendor_of cfg b dv 0). rewrite answers_test.
  unfold seen. cbn [Z.eqb]. case_decide as Ha;
    [rewrite bool_decide_eq_true_2 by exact Ha | rewrite bool_decide_eq_false_2 by exact Ha; apply gives_ret].
  cbn [negb]. eapply gives_bind; [apply gives_read|]. fold (device_of cfg b dv 0). cbn [first_such id_test].
  destruct (_ && _).
  - eapply gives_bind; [apply gives_read|]. eapply gives_bind; [apply gives_fill|apply gives_ret].
  - eapply gives_bind; [apply gives_multi|]. destruct (several cfg b dv); [|apply gives_ret].
    apply gives_find_later. lia.
Qed.

Definition class_test (c s : Z) (bdf : Z * Z * Z) : bool :=
  let '(b, dv, f) := bdf in
  (Z.shiftr (class_of cfg b dv f) 24 .& 0xFF =? c) && (Z.shiftr (class_of cfg b dv f) 16 .& 0xFF =? s).

Lemma gives_class_later c s b dv : forall n f, 0 < f ->
  gives (find_class_func n c s b dv f) (described cfg <$> first_such (class_test c s) (later b dv f n)).
Proof.
  induction n as [|n IH]; intros f Hf; [apply gives_ret|]. rewrite later_S, first_such_app.
  cbn [find_class_func]. eapply gives_bind; [apply gives_read|]. cbv zeta. fold (vendor_of cfg b dv f). rewrite answers_test.
  destruct (Z.eqb_spec f 0); [lia|]. unfold decide. case_bool_decide as Ha; cbn [negb].
  2:{ destruct (and_dec _ _) as [X|]; [contradiction|]. apply IH. lia. }
  destruct (and_dec _ _) as [_|X]; [|contradiction].
  eapply gives_bind; [apply gives_read|]. fold (class_of cfg b dv f). cbn [first_such class_test].
  destruct (_ && _).
  - eapply gives_bind; [apply gives_read|]. eapply gives_bind; [apply gives_fill|apply gives_ret].
  - apply IH. lia.
Qed.

Lemma gives_class_func n c s b dv :
  gives (find_class_func (S n) c s b dv 0) (described cfg <$> first_such (class_test c s) (seen n b dv)).
Proof.
  cbn [find_class_func].
  eapply gives_bind; [apply gives_read|]. cbv zeta. fold (vendor_of cfg b dv 0). rewrite answers_test.
  unfold seen. cbn [Z.eqb]. case_decide as Ha;
    [rewrite bool_decide_eq_true_2 by exact Ha | rewrite bool_decide_eq_false_2 by exact Ha; apply gives_ret].
  cbn [negb]. eapply gives_bind; [apply gives_read|]. fold (class_of cfg b dv 0). cbn [first_such class_test].
  destruct (_ && _).
  - eapply gives_bind; [apply gives_read|]. eapply gives_bind; [apply gives_fill|apply gives_ret].
  - eapply gives_bind; [apply gives_multi|]. destruct (several cfg b dv); [|apply gives_ret].
    apply gives_class_later. lia.
Qed.

Lemma gives_scan (f : Z -> Z -> io (option pci_device)) test :
  (forall b dv, gives (f b dv) (described cfg <$> first_such test (functions cfg b dv))) ->
  gives (first_some (seqZ 0 256) (fun b => first_some (seqZ 0 32) (f b)))
    (described cfg <$> first_such test (visible cfg)).
Proof.
  intros H. unfold visible. apply gives_first. intros b _. apply gives_first. intros dv _. apply H.
Qed.
End search.

(** C29: On any bus, the two searches go through the functions in the order of bus,
    device and function, skipping what does not answer and the further functions
    of single-function devices; they return the description of the first one
    with the identifiers or the class asked for, and -1 if there is none. *)
Theorem pci_searches (d : device) (cfg : Z -> Z) (a b : Z) (h : history) :
  config_space d cfg ->
  (exists h', pci_find_device a b d h =
     Some (described cfg <$> first_such (id_test cfg a b) (visible cfg), h')) /\
  (exists h', pci_find_by_class a b d h =
     Some (described cfg <$> first_such (class_test cfg a b) (visible cfg), h')).
Proof.
  intros Hd. split.
  - apply (gives_scan d cfg (fun bus dv => find_func 8 a b bus dv 0)). intros b0 dv0. apply (gives_find_func d cfg Hd 7).
  - apply (gives_scan d cfg (fun bus dv => find_class_func 8 a b bus dv 0)). intros b0 dv0. apply (gives_class_func d cfg Hd 7).
Qed.

(** A bus with an RTL8139 at 0:3.0. *)
Definition demo_cfg (a : Z) : Z :=
  if Z.land a 0xFFFFFF00 =? pci_address 0 3 0 0 then
    match Z.land a 0xFF with
    | 0x00 => 0x813910EC
    | 0x08 => 0x02000020
    | 0x0C => 0
    | 0x10 => 0xC001
    | 0x3C => 0x10B
    | _ => 0
    end
  else 0xFFFFFFFF.
Definition demo_bus : device := fun h _ _ =>
  match last h with Some (Out _ _ a) => demo_cfg a | _ => 0 end.

Lemma pci_searches_witness :
  (exists h, pci_find_device 0x10EC 0x8139 demo_bus [] =
     Some (Some (mk_pci_device 0 3 0 0x10EC 0x8139 2 0 0 11 [0xC001; 0; 0; 0; 0; 0]), h)) /\
  (exists h, pci_find_by_class 3 0 demo_bus [] = Some (None, h)).
Proof.
  assert (Hd : config_space demo_bus demo_cfg).
  { split.
    - intros a. unfold demo_cfg, is_u32. repeat case_match; lia.
    - intros h a. unfold demo_bus. rewrite last_snoc. reflexivity. }
  destruct (pci_searches demo_bus demo_cfg 0x10EC 0x8139 [] Hd) as [(h1 & E1) _].
  destruct (pci_searches demo_bus demo_cfg 3 0 [] Hd) as [_ (h2 & E2)].
  split; [exists h1; rewrite E1|exists h2; rewrite E2]; vm_compute; reflexivity.
Defined.
