(* ===== verification/Net.v ===== *)
(** * The Ethernet driver (drivers/rtl8139.c, include/rtl8139.h)

    An RTL8139 with four transmit buffers and a receive ring.  The card reads and
    writes memory by itself: [dma] is what memory is when the card has stored
    what it had received by then; the driver sees it after it has read the card's
    write pointer.  Frames and page tables are those of Paging, the bus is that of Pci.
    [Oob] is also a receive loop that takes more than [fuel] turns.  The log lines
    are left out, and with them [print_mac]. *)

From S2P Require Import Prelude Memory PortIO Pci Paging UserMem.
Local Open Scope Z_scope.
Local Open Scope sros_scope.

Definition RTL_REG_IDR0 : Z := 0x00.
Definition RTL_REG_TX_STATUS0 : Z := 0x10.
Definition RTL_REG_TX_ADDR0 : Z := 0x20.
Definition RTL_REG_RBSTART : Z := 0x30.
Definition RTL_REG_CR : Z := 0x37.
Definition RTL_REG_CAPR : Z := 0x38.
Definition RTL_REG_CBR : Z := 0x3A.
Definition RTL_REG_IMR : Z := 0x3C.
Definition RTL_REG_ISR : Z := 0x3E.
Definition RTL_REG_TCR : Z := 0x40.
Definition RTL_REG_RCR : Z := 0x44.
Definition RTL_REG_CONFIG1 : Z := 0x52.
Definition RTL_REG_MSR : Z := 0x58.
Definition RTL_CR_RST : Z := 0x10.
Definition RTL_CR_RE : Z := 0x08.
Definition RTL_CR_TE : Z := 0x04.
Definition RTL_ISR_ROK : Z := 0x0001.
Definition RTL_RCR_WRAP : Z := 0x80.
Definition RTL_RCR_AB : Z := 0x08.
Definition RTL_RCR_AM : Z := 0x04.
Definition RTL_RCR_APM : Z := 0x02.
Definition RTL_TCR_CLRABT : Z := 0x01.
Definition RTL8139_RX_BUF_SIZE : Z := 8192 + 16.
Definition RTL8139_TX_BUF_SIZE : Z := 2048.
Definition RTL8139_NUM_TX_BUFS : Z := 4.
Definition PCI_VENDOR_REALTEK : Z := 0x10EC.
Definition PCI_DEVICE_RTL8139 : Z := 0x8139.

(** The statics of the file. *)
Record nic : Type := mk_nic {
  rtl8139_mac : list Z;
  rtl8139_has_packet : Z;
  rtl8139_packet_count : Z;
  io_base : Z;
  rtl8139_irq : Z;
  irq_vector : Z;
  tx_bufs : list Z;
  tx_phys : list Z;
  tx_cur : Z;
  rx_buf : Z;
  rx_phys : Z;
  rx_ptr : Z
}.

Definition nic_start : nic := mk_nic (replicate 6 0) 0 0 0 0 0 (replicate 4 0) (replicate 4 0) 0 0 0 0.

Definition set_mac (m : list Z) (c : nic) : nic :=
  mk_nic m (rtl8139_has_packet c) (rtl8139_packet_count c) (io_base c) (rtl8139_irq c) (irq_vector c) (tx_bufs c) (tx_phys c) (tx_cur c) (rx_buf c) (rx_phys c) (rx_ptr c).
Definition set_packets (has count : Z) (c : nic) : nic :=
  mk_nic (rtl8139_mac c) has count (io_base c) (rtl8139_irq c) (irq_vector c) (tx_bufs c) (tx_phys c) (tx_cur c) (rx_buf c) (rx_phys c) (rx_ptr c).
Definition set_io (base irq vector : Z) (c : nic) : nic :=
  mk_nic (rtl8139_mac c) (rtl8139_has_packet c) (rtl8139_packet_count c) base irq vector (tx_bufs c) (tx_phys c) (tx_cur c) (rx_buf c) (rx_phys c) (rx_ptr c).
Definition set_tx (bufs phys : list Z) (cur : Z) (c : nic) : nic :=
  mk_nic (rtl8139_mac c) (rtl8139_has_packet c) (rtl8139_packet_count c) (io_base c) (rtl8139_irq c) (irq_vector c) bufs phys cur (rx_buf c) (rx_phys c) (rx_ptr c).
Definition set_rx (buf phys ptr : Z) (c : nic) : nic :=
  mk_nic (rtl8139_mac c) (rtl8139_has_packet c) (rtl8139_packet_count c) (io_base c) (rtl8139_irq c) (irq_vector c) (tx_bufs c) (tx_phys c) (tx_cur c) buf phys ptr.

Record net : Type := mk_net { card : nic; mem_of : machine; ports_of : history }.

Definition nop (A : Type) : Type := net -> exec (A * net).

#[export] Instance nop_ret : MRet nop := fun A x s => Ret (x, s).
#[export] Instance nop_bind : MBind nop := fun A B f m s =>
  match m s with Ret (x, s) => f x s | Panic => Panic | Oob => Oob end.

Definition nic_of : nop nic := fun s => Ret (card s, s).
Definition nic_set (f : nic -> nic) : nop unit := fun s => Ret (tt, mk_net (f (card s)) (mem_of s) (ports_of s)).
Definition memory {A} (m : kern A) : nop A := fun s =>
  match m (mem_of s) with Ret (x, k) => Ret (x, mk_net (card s) k (ports_of s)) | Panic => Panic | Oob => Oob end.
Definition no_turns {A} : nop A := fun _ => Oob.

Section driver.
Context (dev : device) (dma : history -> mem -> mem).

Definition io_ports {A} (m : io A) : nop A := fun s =>
  match m dev (ports_of s) with Some (x, h) => Ret (x, mk_net (card s) (mem_of s) h) | None => Oob end.

(** What the card has stored by now. *)
Definition card_stores : nop unit := fun s =>
  Ret (tt, mk_net (card s) (set_ram (dma (ports_of s) (ram (mem_of s))) (mem_of s)) (ports_of s)).

Definition rtl_readb (reg : Z) : nop Z := c ← nic_of; io_ports (inb (io_base c + reg)).
Definition rtl_readw (reg : Z) : nop Z := c ← nic_of; io_ports (inw (io_base c + reg)).
Definition rtl_readl (reg : Z) : nop Z := c ← nic_of; io_ports (inl (io_base c + reg)).
Definition rtl_writeb (reg v : Z) : nop unit := c ← nic_of; io_ports (outb (io_base c + reg) v).
Definition rtl_writew (reg v : Z) : nop unit := c ← nic_of; io_ports (outw (io_base c + reg) v).
Definition rtl_writel (reg v : Z) : nop unit := c ← nic_of; io_ports (outl (io_base c + reg) v).

(** [for (j = 0; j < n; j++) inb(0x80);] *)
Fixpoint delay (n : nat) : nop unit :=
  match n with O => mret tt | S n => _ ← io_ports (inb 0x80); delay n end.

Fixpoint reset_wait (n : nat) : nop unit :=
  match n with
  | O => mret tt
  | S n =>
      v ← rtl_readb RTL_REG_CR;
      if c_true (v .& RTL_CR_RST) then _ ← delay 100; reset_wait n else mret tt
  end.
Definition rtl_reset : nop unit := _ ← rtl_writeb RTL_REG_CR RTL_CR_RST; reset_wait 1000.

(** [n] buffers from number [i] on. *)
Fixpoint init_tx_loop (n : nat) (i : Z) : nop Z :=
  match n with
  | O => mret 0
  | S n =>
      p ← memory pfa_alloc;
      _ ← nic_set (fun c => set_tx (tx_bufs c) (<[Z.to_nat i := p]> (tx_phys c)) (tx_cur c) c);
      if p =? 0 then mret (-1)
      else
        let virt := u32 (0xF0040000 + i * 0x1000) in
        _ ← memory (paging_map_page virt p 0x03);
        _ ← nic_set (fun c => set_tx (<[Z.to_nat i := virt]> (tx_bufs c)) (tx_phys c) (tx_cur c) c);
        _ ← memory (vmemset virt 0 RTL8139_TX_BUF_SIZE);
        _ ← rtl_writel (RTL_REG_TX_ADDR0 + i * 4) p;
        init_tx_loop n (i + 1)
  end.
Definition init_tx_buffers : nop Z := init_tx_loop 4 0.

Definition init_rx_buffer : nop Z :=
  p ← memory pfa_alloc;
  _ ← nic_set (fun c => set_rx (rx_buf c) p (rx_ptr c) c);
  if p =? 0 then mret (-1)
  else
    let virt := 0xF0050000 in
    _ ← memory (paging_map_page virt p 0x03);
    p2 ← memory pfa_alloc;
    if p2 =? 0 then mret (-1)
    else
      _ ← memory (paging_map_page (virt + 0x1000) p2 0x03);
      p3 ← memory pfa_alloc;
      if p3 =? 0 then mret (-1)
      else
        _ ← memory (paging_map_page (virt + 0x2000) p3 0x03);
        _ ← nic_set (fun c => set_rx virt (rx_phys c) (rx_ptr c) c);
        _ ← memory (vmemset virt 0 0x3000);
        _ ← rtl_writel RTL_REG_RBSTART p;
        _ ← nic_set (fun c => set_rx (rx_buf c) (rx_phys c) 0 c);
        mret 0.

(** The station address, from byte [i] on. *)
Fixpoint read_mac (n : nat) (i : Z) : nop unit :=
  match n with
  | O => mret tt
  | S n =>
      b ← rtl_readb (RTL_REG_IDR0 + i);
      _ ← nic_set (fun c => set_mac (<[Z.to_nat i := b]> (rtl8139_mac c)) c);
      read_mac n (i + 1)
  end.

Definition rtl8139_init : nop Z :=
  found ← io_ports (pci_find_device PCI_VENDOR_REALTEK PCI_DEVICE_RTL8139);
  match found with
  | None => mret (-1)
  | Some d =>
      let base := u16 (p_bar d !!! 0%nat .& 0xFFFFFFFC) in
      let irq := u8 (irq_line d) in
      _ ← nic_set (set_io base irq (u8 (32 + irq)));
      if base =? 0 then mret (-1)
      else
        _ ← io_ports (pci_enable_bus_master d);
        _ ← rtl_reset;
        _ ← read_mac 6 0;
        cfg1 ← rtl_readb RTL_REG_CONFIG1;
        _ ← rtl_writeb RTL_REG_CONFIG1 (u8 (cfg1 .& Z.lnot (Z.shiftl 1 3)));
        tx ← init_tx_buffers;
        if negb (tx =? 0) then mret (-1)
        else
          rx ← init_rx_buffer;
          if negb (rx =? 0) then mret (-1)
          else
            _ ← rtl_writel RTL_REG_RCR (RTL_RCR_AB .| RTL_RCR_AM .| RTL_RCR_APM .| RTL_RCR_WRAP);
            _ ← rtl_writel RTL_REG_TCR RTL_TCR_CLRABT;
            _ ← rtl_writew RTL_REG_IMR 0;
            _ ← rtl_writeb RTL_REG_CR (RTL_CR_TE .| RTL_CR_RE);
            mret 0
  end.

(** ** Sending *)

Fixpoint tx_wait (n : nat) : nop unit :=
  match n with
  | O => mret tt
  | S n =>
      c ← nic_of;
      ts ← rtl_readl (RTL_REG_TX_STATUS0 + tx_cur c * 4);
      if c_true (ts .& 0x2000) then mret tt else _ ← delay 10; tx_wait n
  end.

(** [data] is the address of the frame. *)
Definition rtl8139_send (data len : Z) : nop Z :=
  c ← nic_of;
  if io_base c =? 0 then mret (-1)
  else if (len <? 14) || (1514 <? len) then mret (-1)
  else
    let buf := tx_bufs c !!! Z.to_nat (tx_cur c) in
    _ ← memory (vmemcpy buf data len);
    len ← (if len <? 64 then _ ← memory (vmemset (buf + len) 0 (64 - len)); mret 64 else mret len);
    _ ← rtl_writel (RTL_REG_TX_STATUS0 + tx_cur c * 4) (len .| 0x3000);
    _ ← tx_wait 5000;
    _ ← nic_set (fun c => set_tx (tx_bufs c) (tx_phys c) (Z.rem (tx_cur c + 1) RTL8139_NUM_TX_BUFS) c);
    mret 0.

(** The caller's array. *)
Definition rtl8139_get_mac : nop (list Z) := c ← nic_of; mret (take 6 (rtl8139_mac c)).

(** ** Receiving *)

(** Where the next packet is. *)
Definition next_ptr (ptr size : Z) : Z :=
  let p := u32 (ptr + 4 + size + 3) .& not32 3 in
  if RTL8139_RX_BUF_SIZE <=? p then 0 else p.

Definition read16 (va : Z) : kern Z := lo ← read8 va; hi ← read8 (va + 1); mret (lo + 256 * hi).

(** The packet counts if its length without the checksum is plausible. *)
Definition counted (rx_status rx_size : Z) : bool :=
  let data_len := u32 (rx_size - 4) in
  c_true (rx_status .& 0x01) && ((0 <? data_len) && (data_len <? 2000)).

Fixpoint rx_loop (fuel : nat) : nop unit :=
  cbr ← rtl_readw RTL_REG_CBR;
  _ ← card_stores;
  c ← nic_of;
  if rx_ptr c =? cbr then mret tt
  else
    match fuel with
    | O => no_turns
    | S fuel =>
        rx_status ← memory (read16 (rx_buf c + rx_ptr c));
        rx_size ← memory (read16 (rx_buf c + rx_ptr c + 2));
        _ ← (if counted rx_status rx_size
             then nic_set (fun c => set_packets (rtl8139_has_packet c) (u32 (rtl8139_packet_count c + 1)) c) else mret tt);
        let ptr := next_ptr (rx_ptr c) rx_size in
        _ ← nic_set (fun c => set_rx (rx_buf c) (rx_phys c) ptr c);
        _ ← rtl_writew RTL_REG_CAPR (u16 (u32 (ptr - 16)));
        rx_loop fuel
    end.

Definition rtl8139_handle_irq (fuel : nat) : nop unit :=
  c ← nic_of;
  if io_base c =? 0 then mret tt
  else
    isr ← rtl_readw RTL_REG_ISR;
    if isr =? 0 then mret tt
    else
      _ ← rtl_writew RTL_REG_ISR isr;
      if c_true (isr .& RTL_ISR_ROK) then
        _ ← rx_loop fuel;
        nic_set (fun c => set_packets 1 (rtl8139_packet_count c) c)
      else mret tt.

(** Only prints. *)
Definition rtl8139_dump_status : nop unit :=
  c ← nic_of;
  if io_base c =? 0 then mret tt
  else
    _ ← rtl_readb RTL_REG_CR;
    _ ← rtl_readw RTL_REG_ISR;
    _ ← rtl_readw RTL_REG_IMR;
    _ ← rtl_readw RTL_REG_CBR;
    _ ← rtl_readw RTL_REG_CAPR;
    _ ← rtl_readb RTL_REG_MSR;
    mret tt.
End driver.

(** ** A page for the card *)

(** Virtual page [va] shows the frame [p], which holds no page table. *)
Record card_page (k : machine) (va p : Z) : Prop := {
  cp_aligned : va mod 4096 = 0;
  cp_range : 0x400000 <= va < 0xFFC00000;
  cp_pte : exists e, pte_of k (va / 4096) = Some e /\ e .& 0xFFFFF000 = p;
  cp_client : client k p
}.

Lemma card_translate k va p off : space k -> card_page k va p -> 0 <= off < 4096 -> translate k (va + off) = Some (p + off).
Proof.
  intros S [Ha Hr (e & He & Hp) _] Ho. rewrite translate_pte by (first [apply S | lia]).
  replace ((va + off) / 4096) with (va / 4096) by mlia. rewrite He. cbn. rewrite Hp. f_equal. f_equal. mlia.
Qed.

Lemma card_page_kept k k' va p q : space k -> client k q -> only_page q k k' -> pool_ok k' -> card_page k va p -> card_page k' va p.
Proof.
  intros S C O Hok [Ha Hr (e & He & Hp) Hc]. destruct (space_only_page q k k' S C O Hok) as (_ & Hcl & Hpte).
  split; [exact Ha|exact Hr| |apply Hcl, Hc]. exists e. rewrite Hpte by mlia. auto.
Qed.

Lemma card_write8 k va p off v : space k -> card_page k va p -> 0 <= off < 4096 ->
  let k' := set_ram (store8 (ram k) (p + off) v) k in
  write8 (va + off) v k = Ret (tt, k') /\ space k' /\ only_page p k k'.
Proof.
  intros S C Ho k'. pose proof (cp_client _ _ _ C) as Hc. pose proof Hc as ([Hp Hp4] & _).
  assert (O : only_page p k k') by (apply only_page_store8; assumption).
  split; [|split; [|exact O]].
  - unfold write8, access. rewrite u32_small by (destruct C; lia). rewrite (card_translate k va p off S C Ho). reflexivity.
  - apply (space_only_page p k k' S Hc O). apply (sp_pool k S).
Qed.

(** A byte of low memory outside the page. *)
Lemma low_byte_kept k k' p a : space k -> only_page p k k' -> page p -> 0 <= a < 0x400000 -> a / 4096 <> p / 4096 ->
  load8 (ram k') a = load8 (ram k) a.
Proof.
  intros S (_ & _ & _ & W) [Hp Hpa] Ha Hne. replace a with (a / 4096 * 4096 + a mod 4096) by mlia.
  apply page_bytes; [|apply Z.mod_pos_bound; lia]. intros j Hj. apply W; [split; mlia|exact Hj|]. intros E. apply Hne. rewrite <- E. mlia.
Qed.

(** Bytes [from] to [from + n] of the page are written, as [f] says. *)
Lemma card_fill k va p (body : Z -> kern unit) (f : Z -> Z) n from : space k -> card_page k va p ->
  0 <= from -> 0 <= n -> from + n <= 4096 ->
  (forall i k', 0 <= i < n -> space k' -> only_page p k k' -> card_page k' va p -> body i k' = write8 (va + (from + i)) (f i) k') ->
  exists k', kfor (Z.to_nat n) 0 body k = Ret (tt, k') /\ space k' /\ only_page p k k' /\ card_page k' va p /\
    forall j, 0 <= j < 4096 -> load8 (ram k') (p + j) = if decide (from <= j < from + n) then u8 (f (j - from)) else load8 (ram k) (p + j).
Proof.
  intros S C Hf Hn Hfn Hb. pose proof (cp_client _ _ _ C) as Hc. pose proof Hc as ([[Hp Hpa] Hp4] & _).
  destruct (kfor_rule (fun i k' => 0 <= i <= n -> space k' /\ only_page p k k' /\ card_page k' va p /\
      forall j, 0 <= j < 4096 -> load8 (ram k') (p + j) = if decide (from <= j < from + i) then u8 (f (j - from)) else load8 (ram k) (p + j))
    body (Z.to_nat n) 0 k) as (k' & E & I).
  - intros _. split; [exact S|]. split; [apply only_page_refl|]. split; [exact C|]. intros j Hj. rewrite decide_False by lia. reflexivity.
  - intros i k1 Hi I. destruct (I ltac:(lia)) as (S1 & O1 & C1 & V1).
    destruct (card_write8 k1 va p (from + i) (f i) S1 C1 ltac:(lia)) as (E2 & S2 & O2). eexists. split; [rewrite Hb by (assumption || lia); exact E2|].
    intros _. split; [exact S2|]. split; [eapply only_page_trans; eassumption|]. split.
    { apply (card_page_kept k1 _ va p p S1 (cp_client _ _ _ C1) O2 (sp_pool _ S2) C1). }
    intros j Hj. cbn [ram set_ram]. destruct (decide (j = from + i)) as [->|Hne].
    + rewrite load8_store8_same, decide_True by lia. f_equal. f_equal. lia.
    + rewrite load8_store8_other by (rewrite !u32_small by lia; lia). rewrite V1 by exact Hj.
      destruct (decide (from <= j < from + i)), (decide (from <= j < from + (i + 1))); try reflexivity; lia.
  - rewrite Z2Nat.id in I by lia. destruct (I ltac:(lia)) as (S1 & O1 & C1 & V1). exists k'. auto.
Qed.

(** ** Sending *)

Section correct.
Context (dev : device) (dma : history -> mem -> mem).

(** [m] only reads ports, whatever they answer. *)
Definition listens {A} (m : nop A) : Prop :=
  forall s, exists x evs, m s = Ret (x, mk_net (card s) (mem_of s) (ports_of s ++ evs)) /\ writes_of evs = [].

Lemma listens_ret {A} (x : A) : listens (mret x).
Proof. intros [c k h]. exists x, []. cbn [card mem_of ports_of]. rewrite app_nil_r. split; reflexivity. Qed.

Lemma listens_bind {A B} (m : nop A) (f : A -> nop B) : listens m -> (forall x, listens (f x)) -> listens (m ≫= f).
Proof.
  intros Hm Hf s. destruct (Hm s) as (x & e1 & E1 & W1). destruct (Hf x (mk_net (card s) (mem_of s) (ports_of s ++ e1))) as (y & e2 & E2 & W2).
  exists y, (e1 ++ e2). split; [|rewrite writes_of_app, W1, W2; reflexivity]. unfold mbind, nop_bind. rewrite E1, app_assoc. exact E2.
Qed.

Lemma listens_nic : listens nic_of.
Proof. intros [c k h]. exists c, []. cbn [card mem_of ports_of]. rewrite app_nil_r. split; reflexivity. Qed.

Lemma listens_in w m p : listens (io_ports dev (inw_width w m p)).
Proof. intros [c k h]. eexists _, _. split; reflexivity. Qed.

Lemma listens_delay n : listens (delay dev n).
Proof. induction n as [|n IH]; [apply listens_ret|]. apply listens_bind; [apply listens_in|intros _; exact IH]. Qed.

Lemma listens_tx_wait n : listens (tx_wait dev n).
Proof.
  induction n as [|n IH]; [apply listens_ret|]. cbn [tx_wait]. apply listens_bind; [apply listens_nic|]. intros c.
  apply listens_bind; [apply listens_bind; [apply listens_nic|intros c1; apply listens_in]|]. intros ts.
  destruct (c_true _); [apply listens_ret|]. apply listens_bind; [apply listens_delay|intros _; exact IH].
Qed.

(** The bytes of a frame at [data], padded with zeros to 64. *)
Definition frame_bytes (k : machine) (data len p j : Z) : Z :=
  if j <? len then load8 (ram k) (data + j) else if j <? 64 then 0 else load8 (ram k) (p + j).

Lemma u8_load m a : u8 (load8 m a) = load8 m a.
Proof. apply Z.mod_small, load8_range. Qed.

Lemma copy_frame k va p data len : space k -> card_page k va p -> 14 <= len <= 1514 -> 0 <= data -> data + len <= 0x400000 ->
  (forall i, 0 <= i < len -> (data + i) / 4096 <> p / 4096) ->
  exists k1 k2, vmemcpy va data len k = Ret (tt, k1) /\
    (if len <? 64 then vmemset (va + len) 0 (64 - len) k1 = Ret (tt, k2) else k2 = k1) /\
    space k2 /\ only_page p k k2 /\ card_page k2 va p /\
    forall j, 0 <= j < 4096 -> load8 (ram k2) (p + j) = frame_bytes k data len p j.
Proof.
  intros S C Hl Hd0 Hd1 Hsrc. pose proof (cp_client _ _ _ C) as ([Hp _] & _).
  destruct (card_fill k va p (fun i => b ← read8 (data + i); write8 (va + i) b) (fun i => load8 (ram k) (data + i)) len 0 S C)
    as (k1 & E1 & S1 & O1 & C1 & V1); [lia|lia|lia| |].
  { intros i k' Hi S' O' C'. unfold mbind, kern_bind. unfold read8 at 1, access. rewrite u32_small by lia.
    rewrite (translate_low k' (data + i) S') by lia. unfold gets. cbv beta iota.
    rewrite (low_byte_kept k k' p (data + i) S O' Hp) by (try apply Hsrc; lia). reflexivity. }
  exists k1. destruct (Z.ltb_spec len 64) as [Hs|Hs].
  - destruct (card_fill k1 va p (fun i => write8 (va + len + i) 0) (fun _ => 0) (64 - len) len S1 C1) as (k2 & E2 & S2 & O2 & C2 & V2); [lia|lia|lia| |].
    { intros i k' _ _ _ _. f_equal. lia. }
    exists k2. split; [exact E1|]. split; [exact E2|]. split; [exact S2|]. split; [eapply only_page_trans; eassumption|]. split; [exact C2|].
    intros j Hj. rewrite V2, V1 by exact Hj. unfold frame_bytes. destruct (Z.ltb_spec j len), (Z.ltb_spec j 64);
      repeat case_decide; try lia; try reflexivity. rewrite u8_load. f_equal. lia.
  - exists k1. split; [exact E1|]. split; [reflexivity|]. split; [exact S1|]. split; [exact O1|]. split; [exact C1|].
    intros j Hj. rewrite V1 by exact Hj. unfold frame_bytes. destruct (Z.ltb_spec j len), (Z.ltb_spec j 64);
      repeat case_decide; try lia; try reflexivity; rewrite u8_load; f_equal; lia.
Qed.

Lemma send_effect (s : net) data len va p :
  let c := card s in let k := mem_of s in
  io_base c <> 0 -> 14 <= len <= 1514 -> space k -> 0 <= tx_cur c < 4 -> tx_bufs c !!! Z.to_nat (tx_cur c) = va -> card_page k va p ->
  0 <= data -> data + len <= 0x400000 -> (forall i, 0 <= i < len -> (data + i) / 4096 <> p / 4096) ->
  exists k' evs, rtl8139_send dev data len s =
      Ret (0, mk_net (set_tx (tx_bufs c) (tx_phys c) ((tx_cur c + 1) mod 4) c) k' (ports_of s ++ evs)) /\
    space k' /\ only_page p k k' /\ (forall j, 0 <= j < 4096 -> load8 (ram k') (p + j) = frame_bytes k data len p j) /\
    writes_of evs = [(u16 (io_base c + (RTL_REG_TX_STATUS0 + tx_cur c * 4)), u32 (Z.max len 64 .| 0x3000))].
Proof.
  intros c k Hio Hl S Hcur Hva C Hd0 Hd1 Hsrc. destruct (copy_frame k va p data len S C Hl Hd0 Hd1 Hsrc) as (k1 & k2 & E1 & E2 & S2 & O2 & _ & V2).
  set (reg := RTL_REG_TX_STATUS0 + tx_cur c * 4). set (w := Z.max len 64 .| 0x3000).
  destruct (listens_tx_wait 5000 (mk_net c k2 (ports_of s ++ [Out 4 (u16 (io_base c + reg)) (u32 w)]))) as ([] & evs & Ew & Ww).
  exists k2, (Out 4 (u16 (io_base c + reg)) (u32 w) :: evs). split; [|split; [exact S2|split; [exact O2|split; [exact V2|cbn; rewrite Ww; reflexivity]]]].
  assert (Ep : (len' ← (if len <? 64 then _ ← memory (vmemset (va + len) 0 (64 - len)); mret 64 else mret len);
             _ ← rtl_writel dev reg (len' .| 0x3000);
             _ ← tx_wait dev 5000;
             _ ← nic_set (fun c => set_tx (tx_bufs c) (tx_phys c) (Z.rem (tx_cur c + 1) RTL8139_NUM_TX_BUFS) c);
             mret 0) (mk_net c k1 (ports_of s)) =
           Ret (0, mk_net (set_tx (tx_bufs c) (tx_phys c) ((tx_cur c + 1) mod 4) c) k2 (ports_of s ++ Out 4 (u16 (io_base c + reg)) (u32 w) :: evs))).
  { assert (Erem : Z.rem (tx_cur c + 1) RTL8139_NUM_TX_BUFS = (tx_cur c + 1) mod 4) by (unfold RTL8139_NUM_TX_BUFS; apply Z.rem_mod_nonneg; lia).
    unfold rtl_writel, mbind, nop_bind, memory, nic_of, nic_set, io_ports, outl, mret, nop_ret.
    destruct (Z.ltb_spec len 64); cbn [card mem_of ports_of]; [rewrite E2; cbn [card mem_of ports_of]; replace 64 with (Z.max len 64) by lia|
      subst k2; replace len with (Z.max len 64) by lia]; fold w; rewrite Ew; cbn [card mem_of ports_of]; rewrite Erem, <- app_assoc; reflexivity. }
  unfold rtl8139_send. unfold mbind at 1, nop_bind at 1, nic_of at 1. cbv beta iota. fold c. destruct (Z.eqb_spec (io_base c) 0); [contradiction|].
  destruct (Z.ltb_spec len 14); [lia|]. destruct (Z.ltb_spec 1514 len); [lia|]. cbn [orb]. cbv zeta. rewrite Hva.
  unfold mbind at 1, nop_bind at 1. unfold memory at 1. fold k. rewrite E1. exact Ep.
Qed.

(** ** Receiving *)

(** The next multiple of four. *)
Definition align4 (x : Z) : Z := (x + 3) / 4 * 4.

(** Where the card puts the header after a packet, in its ring of 8 KiB. *)
Definition card_next (ptr size : Z) : Z := align4 (ptr + 4 + size) mod 8192.

Lemma next_ptr_eq ptr size : 0 <= ptr < 65536 -> 0 <= size < 65536 ->
  next_ptr ptr size = if decide (align4 (ptr + 4 + size) < 8208) then align4 (ptr + 4 + size) else 0.
Proof.
  intros Hp Hs. unfold next_ptr, align4. rewrite u32_small by lia.
  assert (E : (ptr + 4 + size + 3) .& not32 3 = (ptr + 4 + size + 3) / 4 * 4).
  { change (not32 3) with (Z.ones 32 - 3). set (x := ptr + 4 + size + 3).
    assert (Ex : x .& (Z.ones 32 - 3) = Z.shiftl (Z.shiftr x 2) 2).
    { apply Z.bits_inj'. intros i Hi. change (Z.ones 32 - 3) with (Z.shiftl (Z.ones 30) 2). rewrite Z.land_spec, Z.shiftl_spec by lia.
      destruct (decide (i < 2)); [rewrite (Z.testbit_neg_r (Z.ones 30)) by lia; rewrite Z.shiftl_spec_low by lia; apply andb_false_r|].
      rewrite Z.shiftl_spec, Z.shiftr_spec by lia. replace (i - 2 + 2) with i by lia.
      destruct (decide (i < 32)); [rewrite Z.ones_spec_low by lia; apply andb_true_r|].
      rewrite Z.ones_spec_high by lia. rewrite andb_false_r. symmetry. apply Z.bits_above_log2; [unfold x; lia|].
      apply Z.log2_lt_pow2; [unfold x; lia|]. apply Z.lt_le_trans with (2 ^ 32); [unfold x; lia|]. apply Z.pow_le_mono_r; lia. }
    rewrite Ex, Z.shiftl_mul_pow2, Z.shiftr_div_pow2 by lia. reflexivity. }
  rewrite E. unfold RTL8139_RX_BUF_SIZE. case_decide.
  - destruct (Z.leb_spec (8192 + 16) ((ptr + 4 + size + 3) / 4 * 4)); [lia|reflexivity].
  - destruct (Z.leb_spec (8192 + 16) ((ptr + 4 + size + 3) / 4 * 4)); [reflexivity|lia].
Qed.

(** From [ptr] to the write pointer [wp] the ring holds packets with these
    headers, each after the end of the one before. *)
Fixpoint laid (ring : Z -> Z) (ptr : Z) (ps : list (Z * Z)) (wp : Z) : Prop :=
  match ps with
  | [] => ptr = wp
  | (st, sz) :: ps =>
      ptr < wp /\ ring ptr + 256 * ring (ptr + 1) = st /\ ring (ptr + 2) + 256 * ring (ptr + 3) = sz /\
      0 <= sz < 65536 /\ laid ring (align4 (ptr + 4 + sz)) ps wp
  end.

Lemma laid_end ring : forall ps ptr wp, laid ring ptr ps wp -> ptr <= wp.
Proof. intros [|[st sz] ps] ptr wp H; cbn in H; lia. Qed.

(** The pointers after each packet. *)
Fixpoint ends (ptr : Z) (ps : list (Z * Z)) : list Z :=
  match ps with [] => [] | (_, sz) :: ps => align4 (ptr + 4 + sz) :: ends (align4 (ptr + 4 + sz)) ps end.

Definition good (ps : list (Z * Z)) : Z := Z.of_nat (length (filter (fun p => counted p.1 p.2 = true) ps)).

(** Status and size of a packet that counts: received, with up to 1999 bytes. *)
Lemma counted_spec st sz : 0 <= sz < 65536 -> counted st sz = bool_decide (Z.odd st = true /\ 5 <= sz < 2004).
Proof.
  intros Hs. unfold counted, c_true. cbv zeta. change 0x01 with (Z.ones 1). rewrite Z.land_ones by lia. change (2 ^ 1) with 2.
  rewrite Zmod_odd. destruct (Z.odd st); cbn [negb Z.eqb andb]; [|rewrite bool_decide_eq_false_2 by (intros [H _]; discriminate); reflexivity].
  unfold u32. case_bool_decide as H.
  - destruct H as [_ H]. rewrite Z.mod_small by lia. destruct (Z.ltb_spec 0 (sz - 4)), (Z.ltb_spec (sz - 4) 2000); try reflexivity; lia.
  - assert (~ (5 <= sz < 2004)) by (intros X; apply H; auto). destruct (decide (sz < 4)).
    + rewrite <- (Z.mod_add _ 1), Z.mod_small by lia. destruct (Z.ltb_spec (sz - 4 + 1 * 4294967296) 2000); [lia|]. apply andb_false_r.
    + rewrite Z.mod_small by lia. destruct (Z.ltb_spec 0 (sz - 4)), (Z.ltb_spec (sz - 4) 2000); try reflexivity; lia.
Qed.

(** The card has stored its packets and is quiet; the driver's buffer shows its ring. *)
Record quiet_ring (base rxb wp : Z) (k : machine) (ring : Z -> Z) : Prop := {
  qr_cbr : forall h, dev h 2 (u16 (base + RTL_REG_CBR)) mod 65536 = wp;
  qr_dma : forall h, dma h (ram k) = ram k;
  qr_shows : forall off, 0 <= off < 8192 -> read8 (rxb + off) k = Ret (ring off, k);
  qr_wp : 0 <= wp < 8192
}.

Lemma read16_ring base rxb wp k ring off : quiet_ring base rxb wp k ring -> 0 <= off -> off + 1 < 8192 ->
  read16 (rxb + off) k = Ret (ring off + 256 * ring (off + 1), k).
Proof.
  intros Q H0 H1. unfold read16, mbind, kern_bind. rewrite (qr_shows _ _ _ _ _ Q) by lia.
  replace (rxb + off + 1) with (rxb + (off + 1)) by lia. rewrite (qr_shows _ _ _ _ _ Q) by lia. reflexivity.
Qed.

Lemma good_cons st sz ps : good ((st, sz) :: ps) = (if counted st sz then 1 else 0) + good ps.
Proof.
  unfold good. rewrite filter_cons. cbn [fst snd]. destruct (counted st sz); case_decide; cbn [length]; try lia; congruence.
Qed.

(** Reading the card's pointer, and then its memory. *)
Lemma read_cbr base wp k ring c h : quiet_ring base (rx_buf c) wp k ring -> io_base c = base ->
  forall A (f : Z -> nop A), (x ← rtl_readw dev RTL_REG_CBR; _ ← card_stores dma; f x) (mk_net c k h) =
    f wp (mk_net c k (h ++ [In 2 (u16 (base + RTL_REG_CBR)) wp])).
Proof.
  intros Q <- A f. unfold rtl_readw, mbind, nop_bind, nic_of, io_ports, inw, inw_width, card_stores. cbn [card mem_of ports_of].
  rewrite (qr_cbr _ _ _ _ _ Q), (qr_dma _ _ _ _ _ Q). destruct k. reflexivity.
Qed.

Lemma rx_loop_spec base wp k ring rxb : forall ps c h fuel, quiet_ring base rxb wp k ring ->
  laid ring (rx_ptr c) ps wp -> 0 <= rx_ptr c -> rx_ptr c mod 4 = 0 -> rx_buf c = rxb -> io_base c = base -> is_u32 (rtl8139_packet_count c) ->
  (length ps <= fuel)%nat ->
  exists evs, rx_loop dev dma fuel (mk_net c k h) =
      Ret (tt, mk_net (set_rx rxb (rx_phys c) wp (set_packets (rtl8139_has_packet c) (u32 (rtl8139_packet_count c + good ps)) c)) k (h ++ evs)) /\
    writes_of evs = (fun p => (u16 (base + RTL_REG_CAPR), u16 (p - 16))) <$> ends (rx_ptr c) ps.
Proof.
  induction ps as [|[st sz] ps IH]; intros c h fuel Q L H0 H4 Hb Hio Hc Hf.
  - cbn in L. exists [In 2 (u16 (base + RTL_REG_CBR)) wp]. split; [|reflexivity].
    destruct fuel; cbn [rx_loop]; (rewrite (read_cbr base wp k ring c h) by (rewrite ?Hb; assumption));
      unfold mbind, nop_bind, nic_of; cbn [card]; rewrite L, Z.eqb_refl; unfold mret, nop_ret; do 3 f_equal;
      unfold good; cbn [filter list_filter length]; rewrite Z.add_0_r, (u32_small _ Hc); destruct c; cbn in *; subst; reflexivity.
  - destruct L as (Hlt & Est & Esz & Hsz & L). pose proof (laid_end _ _ _ _ L) as Hend. pose proof (qr_wp _ _ _ _ _ Q) as Hwp.
    destruct fuel as [|fuel]; [cbn in Hf; lia|]. set (next := align4 (rx_ptr c + 4 + sz)) in *.
    assert (En : next_ptr (rx_ptr c) sz = next) by (rewrite next_ptr_eq by lia; fold next; apply decide_True; lia).
    set (c1 := if counted st sz then set_packets (rtl8139_has_packet c) (u32 (rtl8139_packet_count c + 1)) c else c).
    set (c2 := set_rx rxb (rx_phys c) next c1).
    destruct (IH c2 ((h ++ [In 2 (u16 (base + RTL_REG_CBR)) wp]) ++ [Out 2 (u16 (base + RTL_REG_CAPR)) (u16 (u16 (u32 (next - 16))))]) fuel Q) as (evs & E & W).
    + exact L.
    + cbn. unfold next, align4. mlia.
    + cbn. unfold next, align4. apply Z.mod_mul. lia.
    + reflexivity.
    + unfold c2, c1. destruct (counted st sz); exact Hio.
    + unfold c2, c1. destruct (counted st sz); [apply u32_range|exact Hc].
    + cbn in Hf. lia.
    + exists (In 2 (u16 (base + RTL_REG_CBR)) wp :: Out 2 (u16 (base + RTL_REG_CAPR)) (u16 (u16 (u32 (next - 16)))) :: evs). split.
      * cbn [rx_loop]. rewrite (read_cbr base wp k ring c h) by (rewrite ?Hb; assumption).
        unfold mbind at 1, nop_bind at 1, nic_of at 1. cbn [card]. destruct (Z.eqb_spec (rx_ptr c) wp); [lia|].
        unfold mbind at 1, nop_bind at 1. unfold memory at 1. cbn [mem_of]. rewrite Hb.
        rewrite (read16_ring base rxb wp k ring (rx_ptr c) Q) by mlia. rewrite Est. cbn [card ports_of].
        unfold mbind at 1, nop_bind at 1. unfold memory at 1. cbn [mem_of].
        replace (rxb + rx_ptr c + 2) with (rxb + (rx_ptr c + 2)) by lia.
        rewrite (read16_ring base rxb wp k ring (rx_ptr c + 2) Q) by mlia. replace (rx_ptr c + 2 + 1) with (rx_ptr c + 3) by lia. rewrite Esz. cbn [card ports_of].
        cbv zeta. rewrite En.
        assert (E1 : (if counted st sz then nic_set (fun c => set_packets (rtl8139_has_packet c) (u32 (rtl8139_packet_count c + 1)) c) else mret tt)
                       (mk_net c k (h ++ [In 2 (u16 (base + RTL_REG_CBR)) wp])) = Ret (tt, mk_net c1 k (h ++ [In 2 (u16 (base + RTL_REG_CBR)) wp])))
          by (unfold c1; destruct (counted st sz); reflexivity).
        unfold mbind at 1, nop_bind at 1. rewrite E1. unfold mbind at 1, nop_bind at 1. unfold nic_set at 1. cbn [card mem_of ports_of].
        assert (Ec2 : set_rx (rx_buf c1) (rx_phys c1) next c1 = c2) by (unfold c2, c1; destruct (counted st sz); cbn; rewrite Hb; reflexivity).
        rewrite Ec2. assert (Eio : io_base c2 = base) by (unfold c2, c1; destruct (counted st sz); exact Hio).
        unfold mbind at 1, nop_bind at 1, rtl_writew, mbind at 1, nop_bind at 1, nic_of, io_ports, outw. cbn [card mem_of ports_of]. rewrite Eio.
        assert (Ecnt : u32 (rtl8139_packet_count c2 + good ps) = u32 (rtl8139_packet_count c + good ((st, sz) :: ps))).
        { rewrite good_cons. unfold c2, c1. destruct (counted st sz); cbn [set_rx set_packets rtl8139_packet_count]; rewrite ?u32_add_l; f_equal; lia. }
        rewrite E, Ecnt, <- !app_assoc. unfold c2, c1. destruct (counted st sz); reflexivity.
      * cbn [writes_of ends fmap list_fmap]. rewrite W. f_equal. f_equal. clear. word.
Qed.
End correct.

(** ** Properties *)

(** C33: Sending a frame of 14 to 1514 bytes copies it into the current transmit buffer,
    padded with zeros to 64 bytes, writes that buffer's status register once, waits
    for a bounded time whatever the card answers, and moves on to the next of the four
    buffers; no other page of memory changes.  The value written has bit 12 set,
    so that the card's size field says 4096 bytes more than the frame has. *)
Theorem rtl8139_sends dev (s : net) data len va p :
  let c := card s in let k := mem_of s in
  io_base c <> 0 -> 14 <= len <= 1514 -> space k -> 0 <= tx_cur c < 4 -> tx_bufs c !!! Z.to_nat (tx_cur c) = va -> card_page k va p ->
  0 <= data -> data + len <= 0x400000 -> (forall i, 0 <= i < len -> (data + i) / 4096 <> p / 4096) ->
  exists k' evs w, rtl8139_send dev data len s =
      Ret (0, mk_net (set_tx (tx_bufs c) (tx_phys c) ((tx_cur c + 1) mod 4) c) k' (ports_of s ++ evs)) /\
    space k' /\ only_page p k k' /\ (forall j, 0 <= j < 4096 -> load8 (ram k') (p + j) = frame_bytes k data len p j) /\
    writes_of evs = [(u16 (io_base c + (RTL_REG_TX_STATUS0 + tx_cur c * 4)), w)] /\
    w .& 0x1FFF = Z.max len 64 + 4096.
Proof.
  intros c k Hio Hl S Hcur Hva C Hd0 Hd1 Hsrc. destruct (send_effect dev s data len va p Hio Hl S Hcur Hva C Hd0 Hd1 Hsrc) as (k' & evs & E & S' & O & V & W).
  exists k', evs, (u32 (Z.max len 64 .| 0x3000)). do 5 (split; [assumption|]).
  assert (T : forallb (fun n => u32 (n .| 0x3000) .& 0x1FFF =? n + 4096) (seqZ 64 1451) = true) by (vm_compute; reflexivity).
  apply Z.eqb_eq. rewrite forallb_forall in T. apply T. apply list_elem_of_In, elem_of_seqZ. lia.
Qed.

(** C32: The interrupt handler, on a card that has stored packets one after the other
    from the driver's pointer to its own, within the ring, acknowledges the
    interrupt, visits every packet, counts those received with a plausible length,
    tells the card where it is after each, and ends at the card's pointer. *)
Theorem rtl8139_receives dev dma (c : nic) (k : machine) (h : history) wp ring ps fuel :
  io_base c <> 0 -> quiet_ring dev dma (io_base c) (rx_buf c) wp k ring ->
  laid ring (rx_ptr c) ps wp -> 0 <= rx_ptr c -> rx_ptr c mod 4 = 0 -> is_u32 (rtl8139_packet_count c) -> (length ps <= fuel)%nat ->
  let isr := dev h 2 (u16 (io_base c + RTL_REG_ISR)) mod 65536 in
  Z.odd isr = true ->
  exists evs, rtl8139_handle_irq dev dma fuel (mk_net c k h) =
      Ret (tt, mk_net (set_rx (rx_buf c) (rx_phys c) wp (set_packets 1 (u32 (rtl8139_packet_count c + good ps)) c)) k (h ++ evs)) /\
    writes_of evs = (u16 (io_base c + RTL_REG_ISR), isr) :: ((fun p => (u16 (io_base c + RTL_REG_CAPR), u16 (p - 16))) <$> ends (rx_ptr c) ps).
Proof.
  intros Hio Q L H0 H4 Hc Hf isr Hodd. assert (Hr : 0 <= isr < 65536) by (apply Z.mod_pos_bound; lia).
  destruct (rx_loop_spec dev dma (io_base c) wp k ring (rx_buf c) ps c
    (h ++ [In 2 (u16 (io_base c + RTL_REG_ISR)) isr] ++ [Out 2 (u16 (io_base c + RTL_REG_ISR)) isr]) fuel Q L H0 H4 eq_refl eq_refl Hc Hf) as (evs & E & W).
  exists (In 2 (u16 (io_base c + RTL_REG_ISR)) isr :: Out 2 (u16 (io_base c + RTL_REG_ISR)) isr :: evs).
  split; [|cbn [writes_of]; rewrite W; reflexivity].
  assert (Eu : u16 isr = isr) by (apply Z.mod_small, Hr).
  assert (Er : c_true (isr .& RTL_ISR_ROK) = true).
  { unfold c_true, RTL_ISR_ROK. change 0x0001 with (Z.ones 1). rewrite Z.land_ones by lia. change (2 ^ 1) with 2. rewrite Zmod_odd, Hodd. reflexivity. }
  unfold rtl8139_handle_irq, rtl_readw, rtl_writew. unfold mbind, nop_bind, nic_of, io_ports, inw, inw_width, outw. cbn [card].
  destruct (Z.eqb_spec (io_base c) 0); [contradiction|]. cbn [card mem_of ports_of]. fold isr.
  destruct (Z.eqb_spec isr 0) as [Ez|_]; [rewrite Ez in Hodd; discriminate|]. cbn [card mem_of ports_of]. rewrite Eu, Er, <- app_assoc, E.
  unfold nic_set. cbn [card mem_of ports_of]. rewrite <- !app_assoc. destruct c; reflexivity.
Qed.

(** As long as a packet ends before the end of the card's 8 KiB ring the driver
    goes on where the card does; after a packet that reaches the end it does not. *)
Theorem rx_pointer_wraps ptr size : 0 <= ptr < 8192 -> 0 <= size <= 1522 ->
  next_ptr ptr size = card_next ptr size <-> align4 (ptr + 4 + size) < 8192.
Proof.
  intros Hp Hs. rewrite next_ptr_eq by lia. unfold card_next. set (q := align4 (ptr + 4 + size)).
  assert (Hq : 0 <= q < 16384) by (unfold q, align4; mlia). split; [|intros H; rewrite decide_True, Z.mod_small by lia; reflexivity].
  intros E. destruct (Z.lt_ge_cases q 8192) as [H|H]; [exact H|exfalso].
  rewrite <- (Z.mod_add q (-1)), Z.mod_small in E by lia. case_decide; lia.
Qed.

(** Without the card on the bus the initialisation gives up at once. *)
Lemma init_absent dev cfg (s : net) : config_space dev cfg ->
  Forall (fun f => id_test cfg PCI_VENDOR_REALTEK PCI_DEVICE_RTL8139 f = false) (visible cfg) ->
  exists h, rtl8139_init dev s = Ret (-1, mk_net (card s) (mem_of s) h).
Proof.
  intros Hd Hn. destruct (gives_scan dev cfg (fun b dv => find_func 8 PCI_VENDOR_REALTEK PCI_DEVICE_RTL8139 b dv 0)
    (id_test cfg PCI_VENDOR_REALTEK PCI_DEVICE_RTL8139) (fun b dv => gives_find_func dev cfg Hd 7 _ _ b dv) (ports_of s)) as (h & E).
  pose proof (first_such_spec (id_test cfg PCI_VENDOR_REALTEK PCI_DEVICE_RTL8139) (visible cfg)) as F.
  assert (En : first_such (id_test cfg PCI_VENDOR_REALTEK PCI_DEVICE_RTL8139) (visible cfg) = None).
  { destruct (first_such _ (visible cfg)) as [x|]; [exfalso|reflexivity]. destruct F as (Ft & l1 & l2 & El & _).
    rewrite El in Hn. apply Forall_app in Hn as [_ Hn]. apply Forall_cons in Hn as [Hn _]. congruence. }
  rewrite En in E. exists h.
  unfold rtl8139_init, pci_find_device, mbind, nop_bind, io_ports. cbn [fmap option_fmap option_map] in E. rewrite E. reflexivity.
Qed.

(** Without an RTL8139 on the bus the initialisation returns -1 and leaves the
    statics and memory alone; then sending returns -1 and the interrupt handler
    does nothing. *)
Theorem absent_card dev dma cfg (s : net) : config_space dev cfg -> io_base (card s) = 0 ->
  Forall (fun f => id_test cfg PCI_VENDOR_REALTEK PCI_DEVICE_RTL8139 f = false) (visible cfg) ->
  exists h, let s' := mk_net (card s) (mem_of s) h in
    rtl8139_init dev s = Ret (-1, s') /\
    (forall data len, rtl8139_send dev data len s' = Ret (-1, s')) /\
    (forall fuel, rtl8139_handle_irq dev dma fuel s' = Ret (tt, s')).
Proof.
  intros Hd Hio Hn. destruct (init_absent dev cfg s Hd Hn) as (h & E). exists h. cbv zeta. split; [exact E|split].
  - intros data len. unfold rtl8139_send, mbind, nop_bind, nic_of. cbn [card]. rewrite Hio. reflexivity.
  - intros fuel. unfold rtl8139_handle_irq, mbind, nop_bind, nic_of. cbn [card]. rewrite Hio. reflexivity.
Qed.

(** ** Witnesses *)

Definition demo_nic (va p : Z) : nic := mk_nic (replicate 6 0) 0 0 0xC000 11 43 (replicate 4 va) (replicate 4 p) 0 0x200000 0x200000 0.

Lemma rtl8139_sends_witness : exists s data s', rtl8139_send (fun _ _ _ => 0) data 60 s = Ret (0, s') /\ tx_cur (card s') = 1.
Proof.
  destruct demo_process as (k & U & R & _). pose proof (R 0 ltac:(lia)) as [Hu [e He]]. rewrite Z.add_0_r in Hu, He.
  destruct (us_client k U _ _ Hu He) as [C _].
  set (p := e .& 0xFFFFF000). set (data := if p / 4096 =? 5 then 0x6000 else 0x5000).
  assert (Hd : data / 4096 <> p / 4096 /\ 0x5000 <= data /\ data <= 0x6000 /\ data mod 4096 = 0) by (unfold data; destruct (Z.eqb_spec (p / 4096) 5) as [E5|N5];
    [rewrite E5; change (0x6000 / 4096) with 6|change (0x5000 / 4096) with 5]; repeat split; try reflexivity; lia).
  destruct (rtl8139_sends (fun _ _ _ => 0) (mk_net (demo_nic demo_va p) k []) data 60 demo_va p) as (k' & evs & w & E & _).
  - discriminate.
  - lia.
  - apply U.
  - cbn. lia.
  - reflexivity.
  - split; [reflexivity|unfold demo_va; lia|exists e; auto|exact C].
  - lia.
  - lia.
  - intros i Hi. clearbody data. destruct Hd as (H1 & H2 & H3 & H4). replace ((data + i) / 4096) with (data / 4096) by mlia. exact H1.
  - eexists _, data, _. split; [exact E|reflexivity].
Defined.

(** Two packets in the ring at 2 MiB: one of 60 bytes and one of 5 with its status bit clear. *)
Definition demo_ring_mem : mem := store32 (store32 mem0 0x200000 0x00400001) 0x200044 0x00090000.
Definition demo_ring_machine : machine := mk_machine demo_ring_mem 0 false [] 0.
Definition demo_card : device := fun _ _ p => if p =? 0xC03E then 1 else if p =? 0xC03A then 84 else 0.

Lemma rtl8139_receives_witness : exists s, rtl8139_handle_irq demo_card (fun _ m => m) 10 (mk_net (demo_nic 0 0) demo_ring_machine []) = Ret (tt, s) /\
  rtl8139_packet_count (card s) = 1 /\ rx_ptr (card s) = 84 /\ rtl8139_has_packet (card s) = 1.
Proof.
  set (ring := fun off => load8 demo_ring_mem (0x200000 + off)).
  destruct (rtl8139_receives demo_card (fun _ m => m) (demo_nic 0 0) demo_ring_machine [] 84 ring [(1, 64); (0, 9)] 10) as (evs & E & _).
  - discriminate.
  - split; [reflexivity|reflexivity| |lia]. intros off Ho. unfold read8, access, translate. cbn [paging_on demo_ring_machine rx_buf demo_nic].
    rewrite u32_small by lia. reflexivity.
  - vm_compute. repeat split; congruence.
  - cbn. lia.
  - reflexivity.
  - vm_compute. split; congruence.
  - cbn. lia.
  - reflexivity.
  - eexists. split; [exact E|]. vm_compute. repeat split.
Defined.

Lemma rx_pointer_wraps_witness : next_ptr 8000 1000 <> card_next 8000 1000.
Proof. intros H. apply rx_pointer_wraps in H; [|lia|lia]. vm_compute in H. discriminate. Defined.

(** A bus where nothing answers. *)
Lemma absent_card_witness : exists s', rtl8139_init (fun _ _ _ => 0xFFFFFFFF) (mk_net nic_start demo_ring_machine []) = Ret (-1, s') /\
  rtl8139_send (fun _ _ _ => 0xFFFFFFFF) 0x200000 60 s' = Ret (-1, s').
Proof.
  destruct (absent_card (fun _ _ _ => 0xFFFFFFFF) (fun _ m => m) (fun _ => 0xFFFFFFFF) (mk_net nic_start demo_ring_machine [])) as (h & E & Es & _).
  - split; [intros a; unfold is_u32; lia|reflexivity].
  - reflexivity.
  - vm_compute. repeat constructor.
  - eexists. split; [exact E|apply Es].
Defined.
