(* ===== verification/Font.v ===== *)
(** * The console font (include/vgafont.h)

    Ninety-six glyphs of 8 by 16 pixels for the characters 0x20 to 0x7F: a glyph
    is sixteen bytes, one per row of pixels, with the leftmost pixel in bit 7. *)

From S2P Require Import Prelude.
Local Open Scope Z_scope.
Local Open Scope sros_scope.

Definition FONT_CHAR_WIDTH : Z := 8.
Definition FONT_CHAR_HEIGHT : Z := 16.
Definition FONT_NUM_CHARS : Z := 96.
Definition FONT_FIRST_CHAR : Z := 0x20.

Definition font_vga8x16 : list (list Z) := [
  [0; 0; 0; 0; 0; 0; 0; 0; 0; 0; 0; 0; 0; 0; 0; 0];
  [0; 0; 24; 60; 60; 60; 24; 24; 24; 0; 24; 24; 0; 0; 0; 0];
  [0; 102; 102; 102; 36; 0; 0; 0; 0; 0; 0; 0; 0; 0; 0; 0];
  [0; 0; 0; 108; 108; 254; 108; 108; 108; 254; 108; 108; 0; 0; 0; 0];
  [24; 24; 124; 198; 194; 192; 124; 6; 6; 134; 198; 124; 24; 24; 0; 0];
  [0; 0; 0; 0; 194; 198; 12; 24; 48; 96; 198; 134; 0; 0; 0; 0];
  [0; 0; 56; 108; 108; 56; 118; 220; 204; 204; 204; 118; 0; 0; 0; 0];
  [0; 48; 48; 48; 96; 0; 0; 0; 0; 0; 0; 0; 0; 0; 0; 0];
  [0; 0; 12; 24; 48; 48; 48; 48; 48; 48; 24; 12; 0; 0; 0; 0];
  [0; 0; 48; 24; 12; 12; 12; 12; 12; 12; 24; 48; 0; 0; 0; 0];
  [0; 0; 0; 0; 24; 24; 219; 60; 219; 24; 24; 0; 0; 0; 0; 0];
  [0; 0; 0; 0; 24; 24; 24; 126; 24; 24; 24; 0; 0; 0; 0; 0];
  [0; 0; 0; 0; 0; 0; 0; 0; 0; 0; 24; 24; 24; 48; 0; 0];
  [0; 0; 0; 0; 0; 0; 0; 254; 0; 0; 0; 0; 0; 0; 0; 0];
  [0; 0; 0; 0; 0; 0; 0; 0; 0; 0; 24; 24; 0; 0; 0; 0];
  [0; 0; 0; 0; 2; 6; 12; 24; 48; 96; 192; 128; 0; 0; 0; 0];
  [0; 0; 60; 102; 110; 126; 118; 102; 102; 102; 102; 60; 0; 0; 0; 0];
  [0; 0; 24; 56; 24; 24; 24; 24; 24; 24; 24; 126; 0; 0; 0; 0];
  [0; 0; 124; 198; 6; 12; 24; 48; 96; 192; 198; 254; 0; 0; 0; 0];
  [0; 0; 124; 198; 6; 6; 60; 6; 6; 6; 198; 124; 0; 0; 0; 0];
  [0; 0; 12; 28; 60; 108; 204; 254; 12; 12; 12; 30; 0; 0; 0; 0];
  [0; 0; 254; 192; 192; 192; 252; 6; 6; 6; 198; 124; 0; 0; 0; 0];
  [0; 0; 60; 96; 192; 192; 252; 230; 198; 198; 102; 60; 0; 0; 0; 0];
  [0; 0; 254; 198; 6; 12; 24; 48; 48; 48; 48; 48; 0; 0; 0; 0];
  [0; 0; 124; 198; 198; 198; 124; 198; 198; 198; 198; 124; 0; 0; 0; 0];
  [0; 0; 124; 206; 198; 198; 198; 126; 6; 6; 6; 124; 0; 0; 0; 0];
  [0; 0; 0; 0; 24; 24; 0; 0; 0; 0; 24; 24; 0; 0; 0; 0];
  [0; 0; 0; 0; 24; 24; 0; 0; 0; 24; 24; 24; 48; 0; 0; 0];
  [0; 0; 0; 0; 6; 28; 112; 192; 112; 28; 6; 0; 0; 0; 0; 0];
  [0; 0; 0; 0; 0; 0; 254; 0; 0; 254; 0; 0; 0; 0; 0; 0];
  [0; 0; 0; 0; 192; 112; 28; 6; 28; 112; 192; 0; 0; 0; 0; 0];
  [0; 0; 124; 198; 198; 6; 12; 24; 24; 0; 24; 24; 0; 0; 0; 0];
  [0; 0; 124; 198; 198; 222; 222; 222; 220; 192; 198; 124; 0; 0; 0; 0];
  [0; 0; 24; 60; 102; 102; 198; 254; 198; 198; 198; 198; 0; 0; 0; 0];
  [0; 0; 252; 198; 198; 198; 252; 198; 198; 198; 198; 252; 0; 0; 0; 0];
  [0; 0; 60; 102; 194; 192; 192; 192; 192; 194; 102; 60; 0; 0; 0; 0];
  [0; 0; 248; 204; 198; 198; 198; 198; 198; 198; 204; 248; 0; 0; 0; 0];
  [0; 0; 254; 192; 192; 192; 248; 192; 192; 192; 192; 254; 0; 0; 0; 0];
  [0; 0; 254; 192; 192; 192; 248; 192; 192; 192; 192; 192; 0; 0; 0; 0];
  [0; 0; 60; 102; 194; 192; 192; 222; 198; 198; 102; 58; 0; 0; 0; 0];
  [0; 0; 198; 198; 198; 198; 254; 198; 198; 198; 198; 198; 0; 0; 0; 0];
  [0; 0; 126; 24; 24; 24; 24; 24; 24; 24; 24; 126; 0; 0; 0; 0];
  [0; 0; 30; 12; 12; 12; 12; 12; 12; 204; 204; 120; 0; 0; 0; 0];
  [0; 0; 198; 204; 216; 240; 224; 240; 216; 204; 198; 198; 0; 0; 0; 0];
  [0; 0; 192; 192; 192; 192; 192; 192; 192; 192; 192; 254; 0; 0; 0; 0];
  [0; 0; 198; 238; 254; 214; 214; 198; 198; 198; 198; 198; 0; 0; 0; 0];
  [0; 0; 198; 198; 230; 246; 222; 206; 198; 198; 198; 198; 0; 0; 0; 0];
  [0; 0; 124; 198; 198; 198; 198; 198; 198; 198; 198; 124; 0; 0; 0; 0];
  [0; 0; 252; 198; 198; 198; 252; 192; 192; 192; 192; 192; 0; 0; 0; 0];
  [0; 0; 124; 198; 198; 198; 198; 198; 214; 222; 204; 122; 0; 0; 0; 0];
  [0; 0; 252; 198; 198; 198; 252; 216; 204; 198; 198; 198; 0; 0; 0; 0];
  [0; 0; 124; 198; 198; 192; 124; 6; 6; 198; 198; 124; 0; 0; 0; 0];
  [0; 0; 255; 24; 24; 24; 24; 24; 24; 24; 24; 24; 0; 0; 0; 0];
  [0; 0; 198; 198; 198; 198; 198; 198; 198; 198; 198; 124; 0; 0; 0; 0];
  [0; 0; 198; 198; 198; 198; 198; 198; 198; 102; 60; 24; 0; 0; 0; 0];
  [0; 0; 198; 198; 198; 198; 214; 214; 214; 254; 238; 198; 0; 0; 0; 0];
  [0; 0; 198; 198; 102; 60; 24; 24; 60; 102; 198; 198; 0; 0; 0; 0];
  [0; 0; 231; 102; 102; 60; 24; 24; 24; 24; 24; 24; 0; 0; 0; 0];
  [0; 0; 254; 134; 12; 24; 48; 96; 192; 194; 198; 254; 0; 0; 0; 0];
  [0; 0; 60; 48; 48; 48; 48; 48; 48; 48; 48; 60; 0; 0; 0; 0];
  [0; 0; 0; 0; 128; 192; 96; 48; 24; 12; 6; 2; 0; 0; 0; 0];
  [0; 0; 60; 12; 12; 12; 12; 12; 12; 12; 12; 60; 0; 0; 0; 0];
  [0; 16; 56; 108; 198; 0; 0; 0; 0; 0; 0; 0; 0; 0; 0; 0];
  [0; 0; 0; 0; 0; 0; 0; 0; 0; 0; 0; 0; 0; 255; 0; 0];
  [0; 48; 24; 12; 0; 0; 0; 0; 0; 0; 0; 0; 0; 0; 0; 0];
  [0; 0; 0; 0; 0; 124; 6; 126; 198; 198; 206; 118; 0; 0; 0; 0];
  [0; 0; 192; 192; 192; 252; 230; 198; 198; 198; 230; 220; 0; 0; 0; 0];
  [0; 0; 0; 0; 0; 124; 198; 192; 192; 192; 198; 124; 0; 0; 0; 0];
  [0; 0; 6; 6; 6; 126; 230; 198; 198; 198; 230; 118; 0; 0; 0; 0];
  [0; 0; 0; 0; 0; 124; 198; 254; 192; 192; 198; 124; 0; 0; 0; 0];
  [0; 0; 28; 54; 48; 120; 48; 48; 48; 48; 48; 120; 0; 0; 0; 0];
  [0; 0; 0; 0; 0; 118; 206; 198; 198; 198; 126; 6; 198; 124; 0; 0];
  [0; 0; 192; 192; 192; 252; 230; 198; 198; 198; 198; 198; 0; 0; 0; 0];
  [0; 0; 24; 24; 0; 120; 24; 24; 24; 24; 24; 126; 0; 0; 0; 0];
  [0; 0; 12; 12; 0; 60; 12; 12; 12; 12; 12; 204; 204; 120; 0; 0];
  [0; 0; 192; 192; 192; 204; 216; 240; 224; 240; 216; 204; 0; 0; 0; 0];
  [0; 0; 120; 24; 24; 24; 24; 24; 24; 24; 24; 126; 0; 0; 0; 0];
  [0; 0; 0; 0; 0; 108; 254; 214; 214; 214; 214; 198; 0; 0; 0; 0];
  [0; 0; 0; 0; 0; 220; 230; 198; 198; 198; 198; 198; 0; 0; 0; 0];
  [0; 0; 0; 0; 0; 124; 198; 198; 198; 198; 198; 124; 0; 0; 0; 0];
  [0; 0; 0; 0; 0; 220; 230; 198; 198; 198; 252; 192; 192; 192; 0; 0];
  [0; 0; 0; 0; 0; 118; 206; 198; 198; 198; 126; 6; 6; 6; 0; 0];
  [0; 0; 0; 0; 0; 220; 230; 192; 192; 192; 192; 192; 0; 0; 0; 0];
  [0; 0; 0; 0; 0; 124; 198; 112; 28; 6; 198; 124; 0; 0; 0; 0];
  [0; 0; 48; 48; 48; 252; 48; 48; 48; 48; 54; 28; 0; 0; 0; 0];
  [0; 0; 0; 0; 0; 198; 198; 198; 198; 198; 206; 118; 0; 0; 0; 0];
  [0; 0; 0; 0; 0; 198; 198; 198; 198; 102; 60; 24; 0; 0; 0; 0];
  [0; 0; 0; 0; 0; 198; 198; 214; 214; 214; 254; 108; 0; 0; 0; 0];
  [0; 0; 0; 0; 0; 198; 108; 56; 56; 108; 198; 198; 0; 0; 0; 0];
  [0; 0; 0; 0; 0; 198; 198; 198; 198; 102; 60; 24; 48; 96; 0; 0];
  [0; 0; 0; 0; 0; 254; 12; 24; 48; 96; 198; 254; 0; 0; 0; 0];
  [0; 0; 14; 24; 24; 24; 112; 24; 24; 24; 24; 14; 0; 0; 0; 0];
  [0; 0; 24; 24; 24; 24; 0; 24; 24; 24; 24; 24; 0; 0; 0; 0];
  [0; 0; 112; 24; 24; 24; 14; 24; 24; 24; 24; 112; 0; 0; 0; 0];
  [0; 0; 118; 220; 0; 0; 0; 0; 0; 0; 0; 0; 0; 0; 0; 0];
  [0; 0; 0; 0; 0; 0; 0; 0; 0; 0; 0; 0; 0; 0; 0; 0]
].

(** [bits & (0x80 >> col)] in row [row] of the glyph of [ch]; a character
    outside the font is shown as a blank. *)
Definition glyph_index (ch : Z) : Z :=
  (if (ch <? FONT_FIRST_CHAR) || (FONT_FIRST_CHAR + FONT_NUM_CHARS <=? ch) then 32 else ch) - FONT_FIRST_CHAR.

Definition glyph_bit (ch row col : Z) : bool :=
  let bits := (font_vga8x16 !!! Z.to_nat (glyph_index ch)) !!! Z.to_nat row in
  negb (bits .& Z.shiftr 0x80 col =? 0).

Lemma glyph_index_range ch : 0 <= glyph_index ch < FONT_NUM_CHARS.
Proof.
  unfold glyph_index, FONT_FIRST_CHAR, FONT_NUM_CHARS.
  destruct (Z.ltb_spec ch 0x20), (Z.leb_spec (0x20 + 96) ch); cbn [orb]; lia.
Qed.

(** The table has an entry for every glyph, with a byte for every row. *)
Lemma font_shape : length font_vga8x16 = Z.to_nat FONT_NUM_CHARS /\
  Forall (fun g => length g = Z.to_nat FONT_CHAR_HEIGHT) font_vga8x16.
Proof. split; [reflexivity|]. apply (bool_decide_unpack _). vm_compute. exact I. Qed.
