(* ===== verification/Paint.v ===== *)
(** * Painting

    The drawing loops of framebuffer.c, cursor.c and window.c go over a rectangle
    and store one pixel per iteration, in the frame buffer or in a window's array.
    A drawing routine is a step of a state; [paints m g] says that it ends and
    gives the pixels of the picture the colours of [g], leaving those where [g]
    has none.  The rules here are for any state: [painted s g s'] relates the
    pictures before and after. *)

From S2P Require Import Prelude.
Local Open Scope Z_scope.

(** [for (i = from; i < from + n; i++)] *)
Fixpoint sfor {S : Type} (n : nat) (from : Z) (body : Z -> S -> exec (unit * S)) (s : S) : exec (unit * S) :=
  match n with
  | O => Ret (tt, s)
  | S n => match body from s with Ret (_, s) => sfor n (from + 1) body s | Panic => Panic | Oob => Oob end
  end.

(** What a picture has to offer. *)
Class Picture (S : Type) (ok : S -> Prop) (inside : Z -> Z -> Prop) (painted : S -> (Z -> Z -> option Z) -> S -> Prop) : Prop := {
  painted_none s : painted s (fun _ _ => None) s;
  painted_then s g s1 g' s2 : painted s g s1 -> painted s1 g' s2 ->
    painted s (fun x y => match g' x y with Some v => Some v | None => g x y end) s2;
  painted_ext s g g' s' : painted s g s' -> (forall x y, inside x y -> g x y = g' x y) -> painted s g' s'
}.

Section painting.
Context {S : Type} {ok : S -> Prop} {inside : Z -> Z -> Prop} {painted : S -> (Z -> Z -> option Z) -> S -> Prop}.
Context `{!Picture S ok inside painted}.

Definition draws (m : S -> exec (unit * S)) (g : Z -> Z -> option Z) : Prop :=
  forall s, ok s -> exists s', m s = Ret (tt, s') /\ ok s' /\ painted s g s'.

Lemma draws_ext m g g' : draws m g -> (forall x y, inside x y -> g x y = g' x y) -> draws m g'.
Proof.
  intros H E s Hs. destruct (H s Hs) as (s' & R & F & P). exists s'. split; [exact R|]. split; [exact F|].
  eapply painted_ext; eassumption.
Qed.

Lemma draws_ret : draws (fun s => Ret (tt, s)) (fun _ _ => None).
Proof. intros s Hs. exists s. split; [reflexivity|]. split; [exact Hs|apply painted_none]. Qed.

Lemma draws_then m m' g g' : draws m g -> draws m' g' ->
  draws (fun s => match m s with Ret (_, s) => m' s | Panic => Panic | Oob => Oob end)
    (fun x y => match g' x y with Some v => Some v | None => g x y end).
Proof.
  intros H H' s Hs. destruct (H s Hs) as (s1 & R1 & F1 & P1). destruct (H' s1 F1) as (s2 & R2 & F2 & P2).
  exists s2. rewrite R1. split; [exact R2|]. split; [exact F2|]. eapply painted_then; eassumption.
Qed.

(** A loop whose iterations paint in different rows or columns: [key] tells
    which iteration can paint a pixel. *)
Lemma draws_for (key : Z -> Z -> Z) (body : Z -> S -> exec (unit * S)) (g : Z -> Z -> Z -> option Z) : forall n from,
  (forall i, from <= i < from + Z.of_nat n -> draws (body i) (g i)) ->
  (forall i x y, inside x y -> g i x y <> None -> key x y = i) ->
  draws (sfor n from body)
    (fun x y => if decide (from <= key x y < from + Z.of_nat n) then g (key x y) x y else None).
Proof.
  induction n as [|n IH]; intros from H Hk.
  - eapply draws_ext; [apply draws_ret|]. intros x y _. rewrite decide_False by lia. reflexivity.
  - cbn [sfor]. eapply draws_ext.
    + apply draws_then; [apply (H from); lia|apply IH; [intros i Hi; apply H; lia|exact Hk]].
    + intros x y Hxy. cbn beta.
      destruct (decide (from + 1 <= key x y < from + 1 + Z.of_nat n)) as [Hin|Hout].
      * rewrite decide_True by lia. destruct (g (key x y) x y) eqn:E; [reflexivity|].
        destruct (g from x y) eqn:E'; [|reflexivity].
        assert (X : g from x y <> None) by congruence. apply (Hk from x y Hxy) in X. lia.
      * destruct (g from x y) eqn:E'.
        -- assert (X : g from x y <> None) by congruence. pose proof (Hk from x y Hxy X) as X'.
           rewrite X'. rewrite decide_True by lia. symmetry. exact E'.
        -- destruct (decide (from <= key x y < from + Z.of_nat (Datatypes.S n))) as [Hin|]; [|reflexivity].
           assert (key x y = from) by lia. congruence.
Qed.

Lemma draws_upto key body g n : 0 <= n ->
  (forall i, 0 <= i < n -> draws (body i) (g i)) ->
  (forall i x y, inside x y -> g i x y <> None -> key x y = i) ->
  draws (sfor (Z.to_nat n) 0 body) (fun x y => if decide (0 <= key x y < n) then g (key x y) x y else None).
Proof.
  intros Hn H Hk. eapply draws_ext; [apply (draws_for key body g); [|exact Hk]|].
  - intros i Hi. apply H. lia.
  - intros x y _. cbn beta. repeat case_decide; first [reflexivity | lia].
Qed.

(** A rectangle at [x0], [y0], of which iteration [row], [col] paints one pixel
    or none: the general form of the drawing loops. *)
Lemma draws_blit x0 y0 w h (body : Z -> Z -> S -> exec (unit * S)) (v : Z -> Z -> option Z) : 0 <= w -> 0 <= h ->
  (forall row col, 0 <= row < h -> 0 <= col < w ->
     draws (body row col) (fun x y => if decide (x = x0 + col /\ y = y0 + row) then v row col else None)) ->
  draws (sfor (Z.to_nat h) 0 (fun row => sfor (Z.to_nat w) 0 (fun col => body row col)))
    (fun x y => if decide (0 <= x - x0 < w /\ 0 <= y - y0 < h) then v (y - y0) (x - x0) else None).
Proof.
  intros Hw Hh H. eapply draws_ext.
  - apply (draws_upto (fun _ y => y - y0) _
      (fun row x y => if decide (0 <= x - x0 < w /\ y = y0 + row) then v row (x - x0) else None)); [exact Hh| |].
    + intros row Hrow. eapply draws_ext.
      * apply (draws_upto (fun x _ => x - x0) _
          (fun col x y => if decide (x = x0 + col /\ y = y0 + row) then v row col else None)); [exact Hw| |].
        -- intros col Hcol. apply H; assumption.
        -- intros i x y _. case_decide; [lia|contradiction].
      * intros x y _. cbn beta. repeat case_decide; first [reflexivity | lia].
    + intros i x y _. case_decide; [lia|contradiction].
  - intros x y _. cbn beta. repeat case_decide; first [reflexivity | lia].
Qed.
End painting.

Arguments draws {S} ok painted m g.
