(* ===== verification/Framebuffer.v ===== *)
(** * The frame buffer and its console (drivers/framebuffer.c)

    [vbe_init] sets the graphics mode through the Bochs VBE ports, a device
    parameter.  [framebuffer_map] maps the video memory at 0xF0000000; from then
    on a pixel is a 32-bit word of [vram], which is addressed through [fb.addr].
    A store outside the mapped pages is [Oob].

    The drawing routines are described by the pixels they paint ([paints], by the
    rules of Paint); the
    console is a grid of characters, one glyph each ([shows]), and
    [console_text] says that it behaves like a text terminal.  The copy of a row
    of characters in the scroll is word by word; the code's copies the same bytes
    in the same order. *)

From Stdlib Require Import Ascii.
From Stdlib Require String.
From S2P Require Import Prelude Memory CString PortIO Pci Font Text Paging Paint.
Local Open Scope Z_scope.
Local Open Scope sros_scope.

(** ** Setting the mode *)

Definition VBE_DISPI_IOPORT_INDEX : Z := 0x01CE.
Definition VBE_DISPI_IOPORT_DATA : Z := 0x01CF.
Definition VBE_DISPI_INDEX_ID : Z := 0x00.
Definition VBE_DISPI_INDEX_XRES : Z := 0x01.
Definition VBE_DISPI_INDEX_YRES : Z := 0x02.
Definition VBE_DISPI_INDEX_BPP : Z := 0x03.
Definition VBE_DISPI_INDEX_ENABLE : Z := 0x04.
Definition VBE_DISPI_INDEX_VIRT_WIDTH : Z := 0x06.
Definition VBE_DISPI_INDEX_VIRT_HEIGHT : Z := 0x07.
Definition VBE_DISPI_DISABLED : Z := 0x00.
Definition VBE_DISPI_ENABLED : Z := 0x01.
Definition VBE_DISPI_LFB_ENABLED : Z := 0x40.
Definition VBE_DISPI_ID_MIN : Z := 0xB0C0.
Definition VBE_DISPI_ID_MAX : Z := 0xB0C5.
Definition VBE_DISPI_LFB_PHYSICAL : Z := 0xE0000000.

Record framebuffer : Type := mk_fb {
  fb_width : Z; fb_height : Z; fb_pitch : Z; fb_bpp : Z; fb_addr : Z; fb_phys_addr : Z
}.

Definition framebuffer_init (phys_addr width height pitch bpp : Z) : framebuffer :=
  mk_fb width height pitch bpp 0 phys_addr.

(** The driver's own search for the display, which looks at function 0 only. *)
Definition vga_lfb_of (bus dev : Z) : io (option Z) :=
  w ← pci_config_read bus dev 0 0;
  let vendor := w .& 0xFFFF in
  if (vendor =? 0xFFFF) || (vendor =? 0x0000) then mret None
  else
    class_reg ← pci_config_read bus dev 0 8;
    if (Z.shiftr class_reg 24 .& 0xFF =? 0x03) && (Z.shiftr class_reg 16 .& 0xFF =? 0x00) then
      bar0 ← pci_config_read bus dev 0 0x10;
      let lfb_addr := bar0 .& 0xFFFFFFF0 in
      mret (if negb (lfb_addr =? 0) && negb (lfb_addr =? 0xFFFFFFF0) then Some lfb_addr else None)
    else mret None.

Definition pci_find_vga_lfb : io Z :=
  r ← first_some (seqZ 0 256) (fun bus => first_some (seqZ 0 32) (fun dev => vga_lfb_of bus dev));
  mret (default 0 r).

Definition vbe_write (index value : Z) : io unit :=
  _ ← outw VBE_DISPI_IOPORT_INDEX index; outw VBE_DISPI_IOPORT_DATA value.
Definition vbe_read (index : Z) : io Z :=
  _ ← outw VBE_DISPI_IOPORT_INDEX index; inw VBE_DISPI_IOPORT_DATA.

(** [None] is the result -1; otherwise the new [fb]. *)
Definition vbe_init (width height bpp : Z) : io (option framebuffer) :=
  id ← vbe_read VBE_DISPI_INDEX_ID;
  if (id <? VBE_DISPI_ID_MIN) || (VBE_DISPI_ID_MAX <? id) then mret None
  else
    _ ← vbe_write VBE_DISPI_INDEX_ENABLE VBE_DISPI_DISABLED;
    _ ← vbe_write VBE_DISPI_INDEX_XRES (u16 width);
    _ ← vbe_write VBE_DISPI_INDEX_YRES (u16 height);
    _ ← vbe_write VBE_DISPI_INDEX_BPP (u16 bpp);
    _ ← vbe_write VBE_DISPI_INDEX_VIRT_WIDTH (u16 width);
    _ ← vbe_write VBE_DISPI_INDEX_VIRT_HEIGHT (u16 height);
    _ ← vbe_write VBE_DISPI_INDEX_ENABLE (VBE_DISPI_ENABLED .| VBE_DISPI_LFB_ENABLED);
    xres ← vbe_read VBE_DISPI_INDEX_XRES;
    yres ← vbe_read VBE_DISPI_INDEX_YRES;
    bpp_actual ← vbe_read VBE_DISPI_INDEX_BPP;
    if (xres =? 0) || (yres =? 0) then mret None
    else
      lfb ← pci_find_vga_lfb;
      let lfb_phys := if lfb =? 0 then VBE_DISPI_LFB_PHYSICAL else lfb in
      mret (Some (framebuffer_init lfb_phys xres yres (xres * (bpp_actual / 8)) (u8 bpp_actual))).

(** ** Video memory *)

Definition FB_VIRT_BASE : Z := 0xF0000000.

Definition fb_pages (fb : framebuffer) : Z := u32 (u32 (fb_pitch fb * fb_height fb) + 0xFFF) / 0x1000.

(** The mapping loop, and the frame buffer it leaves. *)
Definition framebuffer_map (fb : framebuffer) : kern framebuffer :=
  if negb (fb_addr fb =? 0) then mret fb
  else
    _ ← kfor (Z.to_nat (fb_pages fb)) 0 (fun i =>
          paging_map_page (u32 (FB_VIRT_BASE + i * 0x1000)) (u32 (fb_phys_addr fb + i * 0x1000)) 0x07);
    mret (mk_fb (fb_width fb) (fb_height fb) (fb_pitch fb) (fb_bpp fb) FB_VIRT_BASE (fb_phys_addr fb)).

(** The driver's state: [vram] is the mapped video memory in words. *)
Record screen : Type := mk_screen {
  fb : framebuffer;
  vram : Z -> Z;
  console_row : Z;
  console_col : Z
}.

Definition gfx (A : Type) : Type := screen -> exec (A * screen).

#[export] Instance gfx_ret : MRet gfx := fun A x s => Ret (x, s).
#[export] Instance gfx_bind : MBind gfx := fun A B f m s =>
  match m s with Ret (x, s) => f x s | Panic => Panic | Oob => Oob end.

Definition getfb {A} (f : framebuffer -> A) : gfx A := fun s => Ret (f (fb s), s).

(** The word of [vram] at an address. *)
Definition vram_index (s : screen) (a : Z) : option Z :=
  if (FB_VIRT_BASE <=? a) && (a <? FB_VIRT_BASE + fb_pages (fb s) * 0x1000) && (a mod 4 =? 0)
  then Some ((a - FB_VIRT_BASE) / 4) else None.

(** [fb.addr[i] = v] and [fb.addr[i]]. *)
Definition put (i v : Z) : gfx unit := fun s =>
  match vram_index s (u32 (fb_addr (fb s) + 4 * i)) with
  | Some j => Ret (tt, mk_screen (fb s) (fun x => if x =? j then v else vram s x) (console_row s) (console_col s))
  | None => Oob
  end.
Definition peek (i : Z) : gfx Z := fun s =>
  match vram_index s (u32 (fb_addr (fb s) + 4 * i)) with
  | Some j => Ret (vram s j, s)
  | None => Oob
  end.

(** [for (i = from; i < from + n; i++)] *)
Definition gfor (n : nat) (from : Z) (body : Z -> gfx unit) : gfx unit := sfor n from body.
Definition upto (n : Z) (body : Z -> gfx unit) : gfx unit := gfor (Z.to_nat n) 0 body.

(** ** Pixels *)

Record color : Type := mk_color { c_r : Z; c_g : Z; c_b : Z }.
Definition COLOR_BLACK : color := mk_color 0 0 0.
Definition COLOR_WHITE : color := mk_color 255 255 255.

Definition color_to_pixel (c : color) : Z := Z.shiftl (c_r c) 16 .| Z.shiftl (c_g c) 8 .| c_b c.

Definition pitch_dwords (fb : framebuffer) : Z := fb_pitch fb / 4.

Definition fb_putpixel (x y : Z) (c : color) : gfx unit :=
  f ← getfb id;
  if (fb_width f <=? x) || (fb_height f <=? y) then mret tt
  else if fb_addr f =? 0 then mret tt
  else put (u32 (y * (fb_pitch f / 4) + x)) (color_to_pixel c).

Definition fb_fill_rect (x y w h : Z) (c : color) : gfx unit :=
  f ← getfb id;
  if fb_addr f =? 0 then mret tt
  else if (fb_width f <=? x) || (fb_height f <=? y) then mret tt
  else
    let w := if fb_width f <? u32 (x + w) then fb_width f - x else w in
    let h := if fb_height f <? u32 (y + h) then fb_height f - y else h in
    let pixel := color_to_pixel c in
    upto h (fun row =>
      let ptr := u32 (y + row) * pitch_dwords f + x in
      upto w (fun col => put (u32 (ptr + col)) pixel)).

Definition fb_clear (c : color) : gfx unit :=
  f ← getfb id;
  fb_fill_rect 0 0 (fb_width f) (fb_height f) c.

Definition fb_putchar (c x y : Z) (fg bg : color) : gfx unit :=
  f ← getfb id;
  if fb_addr f =? 0 then mret tt
  else if fb_width f <? u32 (x + FONT_CHAR_WIDTH) then mret tt
  else if fb_height f <? u32 (y + FONT_CHAR_HEIGHT) then mret tt
  else
    upto FONT_CHAR_HEIGHT (fun row =>
      upto FONT_CHAR_WIDTH (fun col =>
        let pixel := if glyph_bit c row col then color_to_pixel fg else color_to_pixel bg in
        put (u32 (u32 (y + row) * pitch_dwords f + u32 (x + col))) pixel)).

(** A string is its characters before the NUL. *)
Fixpoint fb_puts (s : list Z) (x y : Z) (fg bg : color) : gfx unit :=
  match s with
  | [] => mret tt
  | c :: s =>
      _ ← fb_putchar (i8 c) x y fg bg;
      f ← getfb id;
      let x := u32 (x + FONT_CHAR_WIDTH) in
      if fb_width f <? u32 (x + FONT_CHAR_WIDTH) then mret tt else fb_puts s x y fg bg
  end.

(** ** The console *)

Definition CONSOLE_COLS (f : framebuffer) : Z := fb_width f / FONT_CHAR_WIDTH.
Definition CONSOLE_ROWS (f : framebuffer) : Z := fb_height f / FONT_CHAR_HEIGHT.
Definition console_fg : color := COLOR_WHITE.
Definition console_bg : color := COLOR_BLACK.

Definition set_console (row col : Z) : gfx unit := fun s => Ret (tt, mk_screen (fb s) (vram s) row col).

(** [memcpy(dst, src, FONT_CHAR_HEIGHT * row_bytes)] *)
Definition copy_words (dst src n : Z) : gfx unit :=
  upto n (fun i => v ← peek (src + i); put (dst + i) v).

Definition fb_console_scroll : gfx unit :=
  f ← getfb id;
  let pitch_dwords := pitch_dwords f in
  let total_rows := CONSOLE_ROWS f in
  _ ← gfor (Z.to_nat (total_rows - 1)) 1 (fun row =>
        copy_words ((row - 1) * (FONT_CHAR_HEIGHT * pitch_dwords)) (row * (FONT_CHAR_HEIGHT * pitch_dwords))
          (FONT_CHAR_HEIGHT * fb_pitch f / 4));
  let last_row := (total_rows - 1) * (FONT_CHAR_HEIGHT * pitch_dwords) in
  let bg_pixel := color_to_pixel console_bg in
  let total_cols := CONSOLE_COLS f * FONT_CHAR_WIDTH in
  upto FONT_CHAR_HEIGHT (fun row => upto total_cols (fun col => put (last_row + (row * pitch_dwords + col)) bg_pixel)).

Definition fb_console_init : gfx unit := _ ← fb_clear console_bg; set_console 0 0.

Definition BS : Z := 8.
Definition TAB : Z := 9.

(** The part before the line handling: the new row and column. *)
Definition console_char (c row col : Z) : gfx (Z * Z) :=
  if c =? BS then
    let col := if 0 <? col then col - 1 else col in
    _ ← fb_putchar 32 (col * FONT_CHAR_WIDTH) (row * FONT_CHAR_HEIGHT) console_fg console_bg;
    mret (row, col)
  else if c =? NL then mret (row + 1, 0)
  else if c =? CR then mret (row, 0)
  else if c =? TAB then mret (row, (col + 4) / 4 * 4)
  else
    _ ← fb_putchar c (col * FONT_CHAR_WIDTH) (row * FONT_CHAR_HEIGHT) console_fg console_bg;
    mret (row, col + 1).

Definition fb_console_putc (c : Z) : gfx unit :=
  row ← (fun s => Ret (console_row s, s));
  col ← (fun s => Ret (console_col s, s));
  '(row, col) ← console_char c row col;
  f ← getfb id;
  let '(row, col) := if CONSOLE_COLS f <=? u32 col then (row + 1, 0) else (row, col) in
  if CONSOLE_ROWS f <=? u32 row then
    _ ← fb_console_scroll;
    set_console (CONSOLE_ROWS f - 1) col
  else set_console row col.

Fixpoint fb_console_puts (s : list Z) : gfx unit :=
  match s with
  | [] => mret tt
  | c :: s => _ ← fb_console_putc (i8 c); fb_console_puts s
  end.

(** [%d] prints decimal, [%x] upper-case hexadecimal. *)
Definition fb_conv (d : Z) : option (Z -> list Z) :=
  if d =? 120 then Some (hexadecimal hex) else if d =? 100 then Some decimal else None.

Definition fb_printf (fmt : list Z) (args : list va) : gfx unit := fun s =>
  match format_buffer fb_conv fmt args [] with
  | Ret buf => fb_console_puts (cstr (buf ++ [0])) s
  | Panic => Panic
  | Oob => Oob
  end.

(** ** Painting *)

(** A mode the kernel can use: mapped at its base, 32 bits a pixel, whole rows,
    and small enough for its window of the address space. *)
Record mode_ok (f : framebuffer) : Prop := {
  mo_addr : fb_addr f = FB_VIRT_BASE;
  mo_width : 0 < fb_width f <= pitch_dwords f;
  mo_height : 0 < fb_height f;
  mo_pitch : fb_pitch f = 4 * pitch_dwords f;
  mo_size : fb_pitch f * fb_height f <= 0x0F000000
}.

Definition on_screen (f : framebuffer) (x y : Z) : Prop := 0 <= x < fb_width f /\ 0 <= y < fb_height f.
#[export] Instance on_screen_dec f x y : Decision (on_screen f x y).
Proof. unfold on_screen. apply _. Defined.

Definition pixel (s : screen) (x y : Z) : Z := vram s (y * pitch_dwords (fb s) + x).

Lemma mode_bounds f : mode_ok f -> fb_width f <= 0x3C00000 /\ fb_height f <= 0x3C00000 /\ 0 < pitch_dwords f <= 0x3C00000.
Proof.
  intros [_ Hw Hh Hp Hs]. rewrite Hp in Hs. assert (pitch_dwords f * fb_height f <= 0x3C00000) by lia.
  split; [nia|]. split; nia.
Qed.

Lemma index_range f x y : mode_ok f -> on_screen f x y ->
  0 <= y * pitch_dwords f + x < pitch_dwords f * fb_height f.
Proof. intros [_ Hw Hh _ _] [Hx Hy]. nia. Qed.

Lemma index_inj f x y x' y' : mode_ok f -> on_screen f x y -> on_screen f x' y' ->
  y * pitch_dwords f + x = y' * pitch_dwords f + x' -> x = x' /\ y = y'.
Proof.
  intros M [Hx Hy] [Hx' Hy'] E. destruct (mo_width f M) as [_ Hw].
  assert (y = y') by nia. subst. lia.
Qed.

Lemma vram_index_ok s i : mode_ok (fb s) -> 0 <= i < pitch_dwords (fb s) * fb_height (fb s) ->
  vram_index s (u32 (fb_addr (fb s) + 4 * i)) = Some i.
Proof.
  intros M Hi. destruct M as [Ha Hw Hh Hp Hs]. unfold vram_index, fb_pages.
  rewrite Ha. unfold FB_VIRT_BASE in *. rewrite (u32_small (fb_pitch _ * _)) by nia.
  rewrite !u32_small by nia.
  assert (Hb : fb_pitch (fb s) * fb_height (fb s) <= (fb_pitch (fb s) * fb_height (fb s) + 0xFFF) / 0x1000 * 0x1000) by mlia.
  rewrite Hp in Hb at 1.
  destruct (Z.leb_spec 0xF0000000 (0xF0000000 + 4 * i)); [|lia].
  destruct (Z.ltb_spec (0xF0000000 + 4 * i) (0xF0000000 + (fb_pitch (fb s) * fb_height (fb s) + 0xFFF) / 0x1000 * 0x1000)); [|nia].
  destruct (Z.eqb_spec ((0xF0000000 + 4 * i) mod 4) 0); [|mlia]. cbn [andb]. f_equal. mlia.
Qed.

(** The picture of the screen in the mode [f]; the console keeps its position. *)
Definition repainted (f : framebuffer) (s : screen) (g : Z -> Z -> option Z) (s' : screen) : Prop :=
  console_row s' = console_row s /\ console_col s' = console_col s /\
  forall x y, on_screen f x y -> pixel s' x y = default (pixel s x y) (g x y).

#[export] Instance screen_picture f : Picture screen (fun s => fb s = f) (on_screen f) (repainted f).
Proof.
  split.
  - intros s. split; [reflexivity|]. split; reflexivity.
  - intros s g s1 g' s2 (A1 & B1 & P1) (A2 & B2 & P2). split; [congruence|]. split; [congruence|].
    intros x y Hxy. rewrite P2, P1 by exact Hxy. destruct (g' x y); reflexivity.
  - intros s g g' s' (A & B & P) E. split; [exact A|]. split; [exact B|]. intros x y Hxy. rewrite P, E by exact Hxy. reflexivity.
Qed.

(** From any state in the mode [f], the routine ends, keeps the mode and the
    console's position, and gives the pixels on the screen the colours of [g],
    leaving the others as they are. *)
Definition paints (f : framebuffer) (m : gfx unit) (g : Z -> Z -> option Z) : Prop :=
  draws (fun s => fb s = f) (repainted f) m g.

Section painting.
Context (f : framebuffer) (M : mode_ok f).

Lemma paints_ext m g g' : paints f m g -> (forall x y, on_screen f x y -> g x y = g' x y) -> paints f m g'.
Proof. apply draws_ext. Qed.

Lemma paints_ret : paints f (mret tt) (fun _ _ => None).
Proof. apply draws_ret. Qed.

Lemma paints_bind (m m' : gfx unit) g g' : paints f m g -> paints f m' g' ->
  paints f (_ ← m; m') (fun x y => match g' x y with Some v => Some v | None => g x y end).
Proof. intros H H'. exact (draws_then m m' g g' H H'). Qed.

(** The current frame buffer record may be read off. *)
Lemma paints_getfb {A} (h : framebuffer -> A) (k : A -> gfx unit) g :
  paints f (k (h f)) g -> paints f (v ← getfb h; k v) g.
Proof. intros H s Hs. unfold mbind, gfx_bind, getfb. rewrite Hs. apply H, Hs. Qed.

Lemma paints_put x y i v : on_screen f x y -> u32 i = u32 (y * pitch_dwords f + x) ->
  paints f (put i v) (fun x' y' => if decide (x' = x /\ y' = y) then Some v else None).
Proof.
  intros Hxy Hi s Hs. unfold put.
  assert (Ha : u32 (fb_addr (fb s) + 4 * i) = u32 (fb_addr (fb s) + 4 * (y * pitch_dwords f + x))).
  { unfold u32 in *. clear -Hi. mlia. }
  rewrite Ha. pose proof (index_range f x y M Hxy) as Hr. rewrite vram_index_ok by (rewrite Hs; assumption).
  eexists. split; [reflexivity|]. split; [exact Hs|]. split; [reflexivity|]. split; [reflexivity|].
  intros x' y' H'. unfold pixel. cbn [vram fb]. rewrite Hs.
  destruct (Z.eqb_spec (y' * pitch_dwords f + x') (y * pitch_dwords f + x)) as [E|E].
  - destruct (index_inj f _ _ _ _ M H' Hxy E) as [-> ->]. rewrite decide_True by auto. reflexivity.
  - rewrite decide_False by (intros [-> ->]; apply E; reflexivity). reflexivity.
Qed.

Lemma paints_upto key body g n : 0 <= n ->
  (forall i, 0 <= i < n -> paints f (body i) (g i)) ->
  (forall i x y, on_screen f x y -> g i x y <> None -> key x y = i) ->
  paints f (upto n body) (fun x y => if decide (0 <= key x y < n) then g (key x y) x y else None).
Proof. apply draws_upto. Qed.

Lemma paints_blit x0 y0 w h (body : Z -> Z -> gfx unit) (v : Z -> Z -> option Z) : 0 <= w -> 0 <= h ->
  (forall row col, 0 <= row < h -> 0 <= col < w ->
     paints f (body row col) (fun x y => if decide (x = x0 + col /\ y = y0 + row) then v row col else None)) ->
  paints f (upto h (fun row => upto w (fun col => body row col)))
    (fun x y => if decide (0 <= x - x0 < w /\ 0 <= y - y0 < h) then v (y - y0) (x - x0) else None).
Proof. apply draws_blit. Qed.
End painting.

(** ** What the drawing routines paint *)

Section drawing.
Context (f : framebuffer) (M : mode_ok f).

Lemma addr_set : (fb_addr f =? 0) = false.
Proof. rewrite (mo_addr f M). reflexivity. Qed.

(** The rectangle, cut off at the edges of the screen. *)
Lemma fb_fill_rect_paints x y w h c : 0 <= x -> 0 <= y -> 0 <= w -> 0 <= h ->
  x + w < 4294967296 -> y + h < 4294967296 ->
  paints f (fb_fill_rect x y w h c)
    (fun x' y' => if decide (x <= x' < x + w /\ y <= y' < y + h) then Some (color_to_pixel c) else None).
Proof.
  intros Hx Hy Hw Hh Hxw Hyh. pose proof (mode_bounds f M) as (Bw & Bh & Bp).
  unfold fb_fill_rect. apply paints_getfb. unfold id. rewrite addr_set.
  destruct (Z.leb_spec (fb_width f) x) as [Hx'|Hx']; cbn [orb].
  { eapply paints_ext; [apply paints_ret|]. intros x' y' [? ?]. rewrite decide_False by lia. reflexivity. }
  destruct (Z.leb_spec (fb_height f) y) as [Hy'|Hy'].
  { eapply paints_ext; [apply paints_ret|]. intros x' y' [? ?]. rewrite decide_False by lia. reflexivity. }
  rewrite !u32_small by lia. cbv zeta.
  set (w' := if fb_width f <? x + w then fb_width f - x else w).
  set (h' := if fb_height f <? y + h then fb_height f - y else h).
  assert (Ew : w' = Z.min w (fb_width f - x)) by (unfold w'; destruct (Z.ltb_spec (fb_width f) (x + w)); lia).
  assert (Eh : h' = Z.min h (fb_height f - y)) by (unfold h'; destruct (Z.ltb_spec (fb_height f) (y + h)); lia).
  eapply paints_ext; [apply (paints_blit f x y w' h' _ (fun _ _ => Some (color_to_pixel c))); [lia|lia|]|].
  - intros row col Hr Hc. eapply paints_ext; [apply (paints_put f M (x + col) (y + row))|].
    + split; lia.
    + rewrite (u32_small (y + row)) by lia. rewrite u32_u32. f_equal. lia.
    + intros x' y' _. reflexivity.
  - intros x' y' [? ?]. cbn beta. repeat case_decide; first [reflexivity | lia].
Qed.

(** The pixel of a character cell. *)
Definition glyph_pixel (fg bg : color) (ch row col : Z) : Z := color_to_pixel (if glyph_bit ch row col then fg else bg).

Lemma fb_putchar_paints ch x y fg bg : 0 <= x -> 0 <= y ->
  x + FONT_CHAR_WIDTH <= fb_width f -> y + FONT_CHAR_HEIGHT <= fb_height f ->
  paints f (fb_putchar ch x y fg bg)
    (fun x' y' => if decide (0 <= x' - x < 8 /\ 0 <= y' - y < 16) then Some (glyph_pixel fg bg ch (y' - y) (x' - x)) else None).
Proof.
  unfold FONT_CHAR_WIDTH, FONT_CHAR_HEIGHT. intros Hx Hy Hxw Hyh. pose proof (mode_bounds f M) as (Bw & Bh & Bp).
  unfold fb_putchar, FONT_CHAR_WIDTH, FONT_CHAR_HEIGHT. apply paints_getfb. unfold id. rewrite addr_set, !u32_small by lia.
  destruct (Z.ltb_spec (fb_width f) (x + 8)); [lia|]. destruct (Z.ltb_spec (fb_height f) (y + 16)); [lia|].
  apply (paints_blit f x y 8 16 _ (fun row col => Some (glyph_pixel fg bg ch row col))); [lia|lia|].
  intros row col Hr Hc. cbv zeta. unfold glyph_pixel.
  replace (if glyph_bit ch row col then color_to_pixel fg else color_to_pixel bg)
    with (color_to_pixel (if glyph_bit ch row col then fg else bg)) by (destruct (glyph_bit ch row col); reflexivity).
  apply paints_put; [exact M|split; lia|]. rewrite u32_u32, (u32_small (y + row)), (u32_small (x + col)) by lia. reflexivity.
Qed.
End drawing.

(** ** Scrolling *)

Lemma gfor_S n from body : gfor (S n) from body = (_ ← body from; gfor n (from + 1) body).
Proof. reflexivity. Qed.

Lemma gfx_bind_ret {A B} (m : gfx A) (k : A -> gfx B) s x s' : m s = Ret (x, s') -> (m ≫= k) s = k x s'.
Proof. intros E. unfold mbind, gfx_bind. rewrite E. reflexivity. Qed.

Section scrolling.
Context (f : framebuffer) (M : mode_ok f).

Lemma gfx_put_ok s i v : fb s = f -> 0 <= i < pitch_dwords f * fb_height f ->
  put i v s = Ret (tt, mk_screen f (fun x => if x =? i then v else vram s x) (console_row s) (console_col s)).
Proof. intros <- Hi. unfold put. rewrite vram_index_ok by assumption. reflexivity. Qed.

Lemma peek_ok s i : fb s = f -> 0 <= i < pitch_dwords f * fb_height f -> peek i s = Ret (vram s i, s).
Proof. intros <- Hi. unfold peek. rewrite vram_index_ok by assumption. reflexivity. Qed.

(** What a routine does to the whole video memory. *)
Definition rewrites (m : gfx unit) (s : screen) (g : Z -> Z) : Prop :=
  exists s', m s = Ret (tt, s') /\ fb s' = f /\ console_row s' = console_row s /\ console_col s' = console_col s /\
    forall i, 0 <= i < pitch_dwords f * fb_height f -> vram s' i = g i.

Lemma copy_words_rewrites dst src : forall n from s, fb s = f -> 0 <= dst -> 0 <= from ->
  dst + from + Z.of_nat n <= src -> src + from + Z.of_nat n <= pitch_dwords f * fb_height f ->
  rewrites (gfor n from (fun i => v ← peek (src + i); put (dst + i) v)) s
    (fun i => if decide (dst + from <= i < dst + from + Z.of_nat n) then vram s (i - dst + src) else vram s i).
Proof.
  induction n as [|n IH]; intros from s Hs Hd Hf H1 H2.
  - exists s. split; [reflexivity|]. split; [exact Hs|]. split; [reflexivity|]. split; [reflexivity|].
    intros i _. rewrite decide_False by lia. reflexivity.
  - rewrite gfor_S. unfold rewrites, mbind, gfx_bind.
    rewrite peek_ok by (first [exact Hs | lia]). rewrite gfx_put_ok by (first [exact Hs | lia]).
    set (s1 := mk_screen f _ _ _).
    destruct (IH (from + 1) s1 eq_refl Hd ltac:(lia) ltac:(lia) ltac:(lia)) as (s' & E & F & A & B & V).
    exists s'. split; [exact E|]. split; [exact F|]. split; [exact A|]. split; [exact B|].
    intros i Hi. rewrite V by exact Hi. cbn [s1 vram].
    destruct (decide (dst + (from + 1) <= i < dst + (from + 1) + Z.of_nat n)).
    + rewrite decide_True by lia. destruct (Z.eqb_spec (i - dst + src) (dst + from)); [lia|reflexivity].
    + destruct (Z.eqb_spec i (dst + from)) as [->|].
      * rewrite decide_True by lia. f_equal. lia.
      * rewrite decide_False by lia. reflexivity.
Qed.

(** The rows of characters move up by one. *)
Lemma copy_rows_rewrites block : 0 < block -> forall n row s, fb s = f -> 1 <= row ->
  (row + Z.of_nat n) * block <= pitch_dwords f * fb_height f ->
  rewrites (gfor n row (fun row => upto block (fun i => v ← peek (row * block + i); put ((row - 1) * block + i) v))) s
    (fun i => if decide ((row - 1) * block <= i < (row - 1 + Z.of_nat n) * block) then vram s (i + block) else vram s i).
Proof.
  intros Hb. induction n as [|n IH]; intros row s Hs Hr Ht.
  - exists s. split; [reflexivity|]. split; [exact Hs|]. split; [reflexivity|]. split; [reflexivity|].
    intros i _. rewrite decide_False by lia. reflexivity.
  - rewrite gfor_S. unfold upto at 1.
    destruct (copy_words_rewrites ((row - 1) * block) (row * block) (Z.to_nat block) 0 s Hs)
      as (s1 & E1 & F1 & A1 & B1 & V1); [nia|lia|lia|nia|]. rewrite Z2Nat.id in V1 by lia.
    destruct (IH (row + 1) s1 F1 ltac:(lia) ltac:(nia)) as (s' & E & F & A & B & V).
    exists s'. rewrite (gfx_bind_ret _ _ _ _ _ E1). split; [exact E|]. split; [exact F|].
    split; [congruence|]. split; [congruence|].
    intros i Hi. rewrite V by exact Hi.
    destruct (decide ((row + 1 - 1) * block <= i < (row + 1 - 1 + Z.of_nat n) * block)).
    + rewrite decide_True by nia. rewrite V1 by nia. rewrite decide_False by nia. reflexivity.
    + rewrite V1 by exact Hi. destruct (decide ((row - 1) * block + 0 <= i < (row - 1) * block + 0 + block)).
      * rewrite decide_True by nia. f_equal. nia.
      * rewrite decide_False by nia. reflexivity.
Qed.

Lemma fb_console_scroll_spec s : fb s = f -> 1 <= CONSOLE_ROWS f ->
  exists s', fb_console_scroll s = Ret (tt, s') /\ fb s' = f /\
    console_row s' = console_row s /\ console_col s' = console_col s /\
    forall x y, 0 <= x < CONSOLE_COLS f * 8 -> 0 <= y < CONSOLE_ROWS f * 16 ->
      pixel s' x y = if decide (y < (CONSOLE_ROWS f - 1) * 16) then pixel s x (y + 16) else color_to_pixel console_bg.
Proof.
  intros Hs Hrows. pose proof (mode_bounds f M) as (Bw & Bh & Bp).
  assert (Hcols : CONSOLE_COLS f * 8 <= fb_width f) by (unfold CONSOLE_COLS, FONT_CHAR_WIDTH; mlia).
  assert (Hr16 : CONSOLE_ROWS f * 16 <= fb_height f) by (unfold CONSOLE_ROWS, FONT_CHAR_HEIGHT; mlia).
  assert (Hcols0 : 0 <= CONSOLE_COLS f) by (apply Z.div_pos; [pose proof (mo_width f M)|]; unfold FONT_CHAR_WIDTH; lia).
  set (pd := pitch_dwords f) in *. set (rows := CONSOLE_ROWS f) in *.
  destruct (copy_rows_rewrites (16 * pd) ltac:(lia) (Z.to_nat (rows - 1)) 1 s Hs ltac:(lia))
    as (s1 & E1 & F1 & A1 & B1 & V1); [fold pd; nia|].
  assert (P : paints f (upto 16 (fun row => upto (CONSOLE_COLS f * 8) (fun col =>
      put ((rows - 1) * (16 * pd) + (row * pd + col)) (color_to_pixel console_bg))))
    (fun x y => if decide (0 <= x - 0 < CONSOLE_COLS f * 8 /\ 0 <= y - (rows - 1) * 16 < 16)
                then Some (color_to_pixel console_bg) else None)).
  { apply (paints_blit f 0 ((rows - 1) * 16) _ 16 _ (fun _ _ => Some (color_to_pixel console_bg)));
      [lia|lia|].
    intros row col Hrow Hcol. apply paints_put; [exact M|split; lia|]. f_equal. fold pd. lia. }
  destruct (P s1 F1) as (s' & E2 & F2 & A2 & B2 & V2). exists s'. split; [|split; [exact F2|]].
  - unfold fb_console_scroll, getfb, mbind at 1, gfx_bind at 1. rewrite Hs. unfold id. cbv zeta.
    unfold copy_words, FONT_CHAR_HEIGHT, FONT_CHAR_WIDTH. fold pd rows.
    replace (16 * fb_pitch f / 4) with (16 * pd) by (rewrite (mo_pitch f M); fold pd; mlia).
    rewrite (gfx_bind_ret _ _ _ _ _ E1). exact E2.
  - split; [congruence|]. split; [congruence|]. intros x y Hx Hy.
    assert (Hxy : on_screen f x y) by (split; lia).
    rewrite V2 by exact Hxy. destruct (decide (y < (rows - 1) * 16)) as [Hd|Hd].
    + destruct (decide (0 <= x - 0 < CONSOLE_COLS f * 8 /\ 0 <= y - (rows - 1) * 16 < 16)); [lia|].
      cbn [default]. unfold id, pixel. rewrite F1, Hs. fold pd. pose proof (index_range f x y M Hxy).
      rewrite V1 by assumption.
      assert (Hxp : x < pd) by (pose proof (mo_width f M) as Hmw; fold pd in Hmw; unfold on_screen in Hxy; lia).
      pose proof (Z.mul_le_mono_nonneg_r (y + 1) ((rows - 1) * 16) pd ltac:(lia) ltac:(lia)) as Hm.
      rewrite decide_True by (rewrite Z2Nat.id by lia; lia). f_equal. lia.
    + rewrite decide_True by lia. reflexivity.
Qed.
End scrolling.

(** ** The console as a text terminal *)

(** The reference: a grid of characters with a cursor. *)
Record terminal : Type := mk_terminal { t_cell : Z -> Z -> Z; t_row : Z; t_col : Z }.

Definition set_cell (row col c : Z) (cell : Z -> Z -> Z) : Z -> Z -> Z :=
  fun r k => if decide (r = row /\ k = col) then c else cell r k.

(** Typing one character. *)
Definition typed (c : Z) (t : terminal) : terminal :=
  if c =? BS then
    let col := Z.max 0 (t_col t - 1) in mk_terminal (set_cell (t_row t) col 32 (t_cell t)) (t_row t) col
  else if c =? NL then mk_terminal (t_cell t) (t_row t + 1) 0
  else if c =? CR then mk_terminal (t_cell t) (t_row t) 0
  else if c =? TAB then mk_terminal (t_cell t) (t_row t) ((t_col t + 4) / 4 * 4)
  else mk_terminal (set_cell (t_row t) (t_col t) c (t_cell t)) (t_row t) (t_col t + 1).

(** The line ends at column [cols]; the text moves up when it passes row [rows]. *)
Definition wrapped (cols : Z) (t : terminal) : terminal :=
  if cols <=? t_col t then mk_terminal (t_cell t) (t_row t + 1) 0 else t.
Definition scrolled (rows : Z) (t : terminal) : terminal :=
  if rows <=? t_row t
  then mk_terminal (fun r k => if decide (r < rows - 1) then t_cell t (r + 1) k else 32) (rows - 1) (t_col t)
  else t.

Definition type_char (rows cols c : Z) (t : terminal) : terminal := scrolled rows (wrapped cols (typed c t)).
Definition type_text (rows cols : Z) (cs : list Z) (t : terminal) : terminal :=
  foldl (fun t c => type_char rows cols (i8 c) t) t cs.

Section console.
Context (f : framebuffer) (M : mode_ok f).
Context (Hcols : 1 <= CONSOLE_COLS f) (Hrows : 1 <= CONSOLE_ROWS f).

(** The screen shows the terminal: every cell is the glyph of its character. *)
Record shows (s : screen) (t : terminal) : Prop := {
  sh_fb : fb s = f;
  sh_row : console_row s = t_row t /\ 0 <= t_row t < CONSOLE_ROWS f;
  sh_col : console_col s = t_col t /\ 0 <= t_col t < CONSOLE_COLS f;
  sh_cell : forall r k i j, 0 <= r < CONSOLE_ROWS f -> 0 <= k < CONSOLE_COLS f -> 0 <= i < 16 -> 0 <= j < 8 ->
    pixel s (k * 8 + j) (r * 16 + i) = glyph_pixel console_fg console_bg (t_cell t r k) i j
}.

(** The same before the line handling, without the bounds on the cursor. *)
Definition shows_cells (s : screen) (cell : Z -> Z -> Z) : Prop :=
  forall r k i j, 0 <= r < CONSOLE_ROWS f -> 0 <= k < CONSOLE_COLS f -> 0 <= i < 16 -> 0 <= j < 8 ->
    pixel s (k * 8 + j) (r * 16 + i) = glyph_pixel console_fg console_bg (cell r k) i j.

Lemma console_size : CONSOLE_COLS f * 8 <= fb_width f /\ CONSOLE_ROWS f * 16 <= fb_height f /\
  CONSOLE_COLS f <= 0x3C00000 /\ CONSOLE_ROWS f <= 0x3C00000.
Proof.
  pose proof (mode_bounds f M) as (Bw & Bh & _).
  unfold CONSOLE_COLS, CONSOLE_ROWS, FONT_CHAR_WIDTH, FONT_CHAR_HEIGHT. split; [|split; [|split]]; mlia.
Qed.

Lemma blank_glyph i j : 0 <= i < 16 -> glyph_bit 32 i j = false.
Proof.
  intros Hi. unfold glyph_bit. change (glyph_index 32) with 0.
  change (font_vga8x16 !!! Z.to_nat 0) with (replicate 16 0).
  rewrite list_lookup_total_alt, lookup_replicate_2 by lia. reflexivity.
Qed.

(** Drawing a character changes its cell. *)
Lemma draw_cell s cell c row col : fb s = f -> shows_cells s cell ->
  0 <= row < CONSOLE_ROWS f -> 0 <= col < CONSOLE_COLS f ->
  exists s', fb_putchar c (col * FONT_CHAR_WIDTH) (row * FONT_CHAR_HEIGHT) console_fg console_bg s = Ret (tt, s') /\
    fb s' = f /\ shows_cells s' (set_cell row col c cell).
Proof.
  intros Hs Hsh Hr Hc. pose proof console_size as (Sw & Sh & _). unfold FONT_CHAR_WIDTH, FONT_CHAR_HEIGHT.
  destruct (fb_putchar_paints f M c (col * 8) (row * 16) console_fg console_bg) with (s := s)
    as (s' & E & F & _ & _ & P); [lia|lia|unfold FONT_CHAR_WIDTH; lia|unfold FONT_CHAR_HEIGHT; lia|exact Hs|].
  exists s'. split; [exact E|]. split; [exact F|]. intros r k i j Hr' Hk Hi Hj.
  rewrite P by (split; lia). unfold set_cell.
  destruct (decide (r = row /\ k = col)) as [[-> ->]|Hne].
  - rewrite decide_True by lia. cbn [default]; unfold id. f_equal; lia.
  - rewrite decide_False by lia. apply Hsh; assumption.
Qed.

Lemma console_char_spec s t c : shows s t ->
  exists s', console_char c (t_row t) (t_col t) s = Ret ((t_row (typed c t), t_col (typed c t)), s') /\
    fb s' = f /\ shows_cells s' (t_cell (typed c t)).
Proof.
  intros [Hs [_ Hr] [_ Hc] Hsh]. unfold console_char, typed.
  destruct (c =? BS).
  { destruct (draw_cell s (t_cell t) 32 (t_row t) (Z.max 0 (t_col t - 1)) Hs Hsh Hr) as (s' & E & F & S'); [lia|].
    replace (if 0 <? t_col t then t_col t - 1 else t_col t) with (Z.max 0 (t_col t - 1))
      by (destruct (Z.ltb_spec 0 (t_col t)); lia). cbv zeta.
    exists s'. rewrite (gfx_bind_ret _ _ _ _ _ E). auto. }
  destruct (c =? NL); [exists s; auto|]. destruct (c =? CR); [exists s; auto|]. destruct (c =? TAB); [exists s; auto|].
  destruct (draw_cell s (t_cell t) c (t_row t) (t_col t) Hs Hsh Hr Hc) as (s' & E & F & S').
  exists s'. rewrite (gfx_bind_ret _ _ _ _ _ E). auto.
Qed.

Lemma typed_range c t : 0 <= t_row t < CONSOLE_ROWS f -> 0 <= t_col t < CONSOLE_COLS f ->
  0 <= t_row (typed c t) <= CONSOLE_ROWS f /\ 0 <= t_col (typed c t) <= CONSOLE_COLS f + 4.
Proof. intros Hr Hc. unfold typed. repeat case_match; cbn [t_row t_col]; split; mlia. Qed.

Lemma fb_console_putc_spec s t c : shows s t ->
  exists s', fb_console_putc c s = Ret (tt, s') /\ shows s' (type_char (CONSOLE_ROWS f) (CONSOLE_COLS f) c t).
Proof.
  intros Hsh. pose proof console_size as (Sw & Sh & Bc & Br).
  destruct (console_char_spec s t c Hsh) as (s1 & E1 & F1 & C1).
  destruct (typed_range c t (proj2 (sh_row _ _ Hsh)) (proj2 (sh_col _ _ Hsh))) as [Rr Rc].
  unfold type_char. set (t1 := typed c t) in *. unfold fb_console_putc.
  unfold mbind at 1, gfx_bind at 1. unfold mbind at 1, gfx_bind at 1.
  rewrite (proj1 (sh_row _ _ Hsh)), (proj1 (sh_col _ _ Hsh)), (gfx_bind_ret _ _ _ _ _ E1).
  unfold getfb, mbind at 1, gfx_bind at 1. rewrite F1. unfold id. rewrite u32_small by lia.
  assert (W : (if CONSOLE_COLS f <=? t_col t1 then (t_row t1 + 1, 0) else (t_row t1, t_col t1)) =
              (t_row (wrapped (CONSOLE_COLS f) t1), t_col (wrapped (CONSOLE_COLS f) t1))).
  { unfold wrapped. destruct (CONSOLE_COLS f <=? t_col t1); reflexivity. }
  rewrite W. assert (C2 : shows_cells s1 (t_cell (wrapped (CONSOLE_COLS f) t1))) by (unfold wrapped; case_match; exact C1).
  assert (R2 : 0 <= t_row (wrapped (CONSOLE_COLS f) t1) <= CONSOLE_ROWS f + 1 /\ 0 <= t_col (wrapped (CONSOLE_COLS f) t1) < CONSOLE_COLS f).
  { unfold wrapped. destruct (Z.leb_spec (CONSOLE_COLS f) (t_col t1)); cbn [t_row t_col]; lia. }
  set (t2 := wrapped (CONSOLE_COLS f) t1) in *. unfold scrolled. rewrite u32_small by lia.
  destruct (Z.leb_spec (CONSOLE_ROWS f) (t_row t2)) as [Hge|Hlt].
  - destruct (fb_console_scroll_spec f M s1 F1 Hrows) as (s2 & E2 & F2 & _ & _ & P2).
    rewrite (gfx_bind_ret _ _ _ _ _ E2). eexists. split; [reflexivity|].
    split; cbn [fb console_row console_col t_row t_col t_cell]; [exact F2|lia|lia|].
    intros r k i j Hr Hk Hi Hj.
    change (pixel s2 (k * 8 + j) (r * 16 + i) = glyph_pixel console_fg console_bg
              (if decide (r < CONSOLE_ROWS f - 1) then t_cell t2 (r + 1) k else 32) i j).
    rewrite P2 by lia. destruct (decide (r < CONSOLE_ROWS f - 1)) as [Hr'|Hr'].
    + rewrite decide_True by lia. replace (r * 16 + i + 16) with ((r + 1) * 16 + i) by lia. apply C2; lia.
    + rewrite decide_False by lia. unfold glyph_pixel. rewrite blank_glyph by lia. reflexivity.
  - eexists. split; [reflexivity|]. split; cbn [fb console_row console_col]; [exact F1|lia|lia|exact C2].
Qed.

Lemma fb_console_puts_spec cs : forall s t, shows s t ->
  exists s', fb_console_puts cs s = Ret (tt, s') /\ shows s' (type_text (CONSOLE_ROWS f) (CONSOLE_COLS f) cs t).
Proof.
  induction cs as [|c cs IH]; intros s t H; [exists s; auto|]. cbn [fb_console_puts type_text foldl].
  destruct (fb_console_putc_spec s t (i8 c) H) as (s1 & E1 & H1). rewrite (gfx_bind_ret _ _ _ _ _ E1). apply IH, H1.
Qed.

(** Starting the console clears the screen. *)
Definition blank_terminal : terminal := mk_terminal (fun _ _ => 32) 0 0.

Lemma fb_console_init_spec s : fb s = f -> exists s', fb_console_init s = Ret (tt, s') /\ shows s' blank_terminal.
Proof.
  intros Hs. pose proof console_size as (Sw & Sh & _). pose proof (mode_bounds f M) as (Bw & Bh & _).
  unfold fb_console_init, fb_clear.
  destruct (fb_fill_rect_paints f M 0 0 (fb_width f) (fb_height f) console_bg) with (s := s) as (s1 & E1 & F1 & _ & _ & P1);
    [lia..|exact Hs|].
  assert (E : (f0 ← getfb id; fb_fill_rect 0 0 (fb_width f0) (fb_height f0) console_bg) s = Ret (tt, s1)).
  { unfold getfb, mbind, gfx_bind. rewrite Hs. exact E1. }
  rewrite (gfx_bind_ret _ _ _ _ _ E). eexists. split; [reflexivity|].
  split; cbn [fb console_row console_col blank_terminal t_row t_col t_cell]; [exact F1|lia|lia|].
  intros r k i j Hr Hk Hi Hj.
  change (pixel s1 (k * 8 + j) (r * 16 + i) = glyph_pixel console_fg console_bg 32 i j).
  rewrite P1 by (split; lia). rewrite decide_True by lia. unfold glyph_pixel. rewrite blank_glyph by lia. reflexivity.
Qed.
End console.

(** ** The mapping of the video memory *)

Lemma fb_window i : 0 <= i < 0xFC00 ->
  let va := u32 (FB_VIRT_BASE + i * 0x1000) in
  0 <= va < 4294967296 /\ va / 4096 = 0xF0000 + i /\ Z.shiftr va 22 = 960 + i / 1024.
Proof.
  intros Hi. cbv zeta. unfold FB_VIRT_BASE. rewrite u32_small by lia. split; [lia|]. split; [mlia|].
  rewrite Z.shiftr_div_pow2 by lia. change (2 ^ 22) with 4194304. mlia.
Qed.

(** The frame buffer as it is before it is mapped, in a window that fits. *)
Record mappable (f : framebuffer) : Prop := {
  mp_addr : fb_addr f = 0;
  mp_size : 0 <= fb_pitch f * fb_height f <= 0x0F000000;
  mp_phys : page (fb_phys_addr f) /\ fb_phys_addr f + fb_pitch f * fb_height f + 0x1000 < 4294967296
}.

Lemma mappable_pages f : mappable f ->
  fb_pages f = (fb_pitch f * fb_height f + 0xFFF) / 0x1000 /\ 0 <= fb_pages f <= 0xF000.
Proof.
  intros [_ Hs _]. unfold fb_pages. rewrite (u32_small (fb_pitch f * fb_height f)) by lia. rewrite u32_small by lia.
  split; [reflexivity|]. mlia.
Qed.

(** The state of the mapping loop after [i] pages. *)
Definition mapped_upto (f : framebuffer) (k : machine) (i : Z) (k' : machine) : Prop :=
  space k' /\ Z.of_nat (length (free k)) <= Z.of_nat (length (free k')) + (i + 1023) / 1024 /\
  (i mod 1024 <> 0 -> present k' (960 + i / 1024)) /\
  forall n, 0 <= n < 1023 * 1024 -> pte_of k' n =
    if decide (0xF0000 <= n < 0xF0000 + i) then Some (leaf (fb_phys_addr f + (n - 0xF0000) * 0x1000) 7) else pte_of k n.

Lemma map_one_page f k i k1 : mappable f -> 0 <= i < fb_pages f ->
  (fb_pages f + 1023) / 1024 <= Z.of_nat (length (free k)) -> mapped_upto f k i k1 ->
  exists k2, paging_map_page (u32 (FB_VIRT_BASE + i * 0x1000)) (u32 (fb_phys_addr f + i * 0x1000)) 0x07 k1 = Ret (tt, k2) /\
    mapped_upto f k (i + 1) k2.
Proof.
  intros Mf Hi Hfree (S1 & L1 & P1 & M1). destruct (mappable_pages f Mf) as [Ep Bp].
  destruct (fb_window i ltac:(lia)) as (Hva & Hn & Hidx). destruct Mf as [_ Hs [[Hph _] Hph2]].
  assert (Hphys : 0 <= fb_phys_addr f + i * 0x1000 < 4294967296) by (split; mlia).
  pose proof (map_page_effect k1 (u32 (FB_VIRT_BASE + i * 0x1000)) (u32 (fb_phys_addr f + i * 0x1000)) 0x07 S1 Hva
    (u32_range _) ltac:(rewrite Hidx; mlia)) as E. cbv zeta in E. rewrite Hidx in E.
  destruct (paging_map_page _ _ _ k1) as [[[] k2]| |]; [| |contradiction].
  2:{ exfalso. destruct E as [Hnp Hnf]. rewrite Hnf in L1. cbn [length] in L1.
      destruct (decide (i mod 1024 = 0)); [mlia|auto]. }
  exists k2. split; [reflexivity|]. destruct E as (S2 & C2 & P2 & M2 & F2 & _). split; [exact S2|]. split; [|split].
  - rewrite F2, length_app in L1. destruct (has P (pde k1 (960 + i / 1024))) eqn:Hp; cbn [length] in L1; [mlia|].
    destruct (decide (i mod 1024 = 0)); [mlia|]. exfalso. specialize (P1 ltac:(assumption)). unfold present in P1. congruence.
  - intros Hne. replace (960 + (i + 1) / 1024) with (960 + i / 1024) by mlia. exact P2.
  - intros n Hn'. rewrite M2, Hn by exact Hn'. rewrite (u32_small (fb_phys_addr f + i * 0x1000)) by exact Hphys.
    destruct (decide (n = 0xF0000 + i)) as [->|Hne].
    + rewrite decide_True by lia. do 2 f_equal. lia.
    + rewrite M1 by exact Hn'. repeat case_decide; first [reflexivity | lia].
Qed.

Lemma framebuffer_map_effect f k : space k -> mappable f ->
  (fb_pages f + 1023) / 1024 <= Z.of_nat (length (free k)) ->
  exists k', framebuffer_map f k =
      Ret (mk_fb (fb_width f) (fb_height f) (fb_pitch f) (fb_bpp f) FB_VIRT_BASE (fb_phys_addr f), k') /\
    mapped_upto f k (fb_pages f) k'.
Proof.
  intros S Mf Hfree. destruct (mappable_pages f Mf) as [_ Bp].
  destruct (kfor_rule (mapped_upto f k) (fun i => paging_map_page (u32 (FB_VIRT_BASE + i * 0x1000)) (u32 (fb_phys_addr f + i * 0x1000)) 0x07)
    (Z.to_nat (fb_pages f)) 0 k) as (k' & E & I).
  - split; [exact S|]. split; [mlia|]. split; [intros X; contradiction X; reflexivity|].
    intros n Hn. rewrite decide_False by lia. reflexivity.
  - intros i k1 Hi I1. apply map_one_page; try assumption. lia.
  - exists k'. rewrite Z2Nat.id in I by lia. split; [|exact I].
    unfold framebuffer_map. rewrite (mp_addr f Mf). cbn [negb Z.eqb]. unfold mbind, kern_bind. rewrite E. reflexivity.
Qed.

(** Given a page table's frame for every 4 MiB, the frame buffer is mapped at
    0xF0000000: each of its bytes translates to its physical address, every other
    translation is unchanged, and the address space stays well formed. *)
Theorem framebuffer_map_window f k : space k -> mappable f ->
  (fb_pages f + 1023) / 1024 <= Z.of_nat (length (free k)) ->
  exists f' k', framebuffer_map f k = Ret (f', k') /\ space k' /\
    fb_addr f' = FB_VIRT_BASE /\ fb_width f' = fb_width f /\ fb_height f' = fb_height f /\ fb_pitch f' = fb_pitch f /\
    (forall off, 0 <= off < fb_pitch f * fb_height f -> translate k' (FB_VIRT_BASE + off) = Some (fb_phys_addr f + off)) /\
    forall va, 0 <= va < SELF_MAP -> ~ (FB_VIRT_BASE <= va < FB_VIRT_BASE + fb_pages f * 0x1000) ->
      translate k' va = translate k va.
Proof.
  intros S Mf Hfree. destruct (mappable_pages f Mf) as [Ep Bp].
  destruct (framebuffer_map_effect f k S Mf Hfree) as (k' & E & S' & _ & _ & M').
  eexists _, k'. split; [exact E|]. split; [exact S'|]. do 4 (split; [reflexivity|]).
  destruct Mf as [_ Hs [[Hp0 Hp] Hph]]. unfold FB_VIRT_BASE, SELF_MAP in *. split.
  - intros off Ho. rewrite translate_pte by (first [apply S' | lia]).
    rewrite M' by mlia. rewrite decide_True by mlia. cbn [fmap option_fmap option_map].
    set (ph := fb_phys_addr f + ((0xF0000000 + off) / 4096 - 0xF0000) * 0x1000).
    assert (Hpage : page ph) by (unfold page, ph; split; mlia).
    destruct (leaf_spec ph 7 (proj1 Hpage)) as (-> & _). rewrite page_addr by exact Hpage. f_equal. unfold ph. mlia.
  - intros va Hva Hout. rewrite !translate_pte by (first [apply S | apply S' | lia]).
    rewrite M' by mlia. rewrite decide_False by mlia. reflexivity.
Qed.

Lemma framebuffer_map_window_witness : exists k f' k',
  framebuffer_map (framebuffer_init 0xFD000000 1024 768 4096 32) k = Ret (f', k') /\
  translate k' 0xF02FFFFC = Some 0xFD2FFFFC.
Proof.
  destruct booted as (k & _ & S & F & _).
  destruct (framebuffer_map_window (framebuffer_init 0xFD000000 1024 768 4096 32) k S) as (f' & k' & E & _ & _ & _ & _ & _ & T & _).
  - split; [reflexivity|cbn; lia|]. cbn. split; [split; [lia|reflexivity]|lia].
  - rewrite F. vm_compute. discriminate.
  - exists k, f', k'. split; [exact E|]. apply (T 0x2FFFFC). cbn. lia.
Defined.

(** C27: On a mapped frame buffer at least one character large, the console behaves like
    a text terminal: it starts blank, and printing a format whose text fits the
    buffer of 255 characters shows what a terminal shows after that text - every
    cell the glyph of its character, the cursor where the terminal has it. *)
Theorem console_text f (s : screen) : mode_ok f -> 1 <= CONSOLE_COLS f -> 1 <= CONSOLE_ROWS f -> fb s = f ->
  (exists s', fb_console_init s = Ret (tt, s') /\ shows f s' blank_terminal) /\
  forall t fmt args text, shows f s t -> expand fb_conv fmt args = Some text -> (length text <= 255)%nat ->
    Forall (fun c => c <> 0) text ->
    exists s', fb_printf fmt args s = Ret (tt, s') /\
      shows f s' (type_text (CONSOLE_ROWS f) (CONSOLE_COLS f) text t).
Proof.
  intros M Hc Hr Hs. split; [apply fb_console_init_spec; assumption|].
  intros t fmt args text Hsh E Hl Hn. unfold fb_printf.
  rewrite (format_buffer_ok fb_conv (length fmt) fmt args text []) by (first [exact E | cbn [length]; lia]).
  rewrite app_nil_l, cstr_nul by exact Hn. apply fb_console_puts_spec; assumption.
Qed.

(** A screen of eight by three characters. *)
Definition demo_fb : framebuffer := mk_fb 64 48 256 32 FB_VIRT_BASE 0xFD000000.
Definition demo_screen : screen := mk_screen demo_fb (fun _ => 7) 0 0.

Lemma console_text_witness : exists s1 s2, fb_console_init demo_screen = Ret (tt, s1) /\
  fb_printf (chars "n=%d") [VInt 42] s1 = Ret (tt, s2) /\ console_col s2 = 4 /\
  glyph_bit 52 4 3 = true /\ pixel s2 (2 * 8 + 3) 4 = 0xFFFFFF.
Proof.
  assert (M : mode_ok demo_fb) by (split; vm_compute; repeat split; discriminate || reflexivity).
  destruct (console_text demo_fb demo_screen M) as [(s1 & E1 & Sh1) _]; [vm_compute; discriminate..|reflexivity|].
  destruct (console_text demo_fb s1 M) as [_ T]; [vm_compute; discriminate..|apply Sh1|].
  destruct (T _ (chars "n=%d") [VInt 42] (chars "n=42") Sh1) as (s2 & E2 & Sh2).
  - vm_compute. reflexivity.
  - cbn. lia.
  - repeat constructor; discriminate.
  - exists s1, s2. split; [exact E1|]. split; [exact E2|]. split; [apply Sh2|]. split; [vm_compute; reflexivity|].
    transitivity (glyph_pixel console_fg console_bg (t_cell (type_text 3 8 (chars "n=42") blank_terminal) 0 2) 4 3);
      [|vm_compute; reflexivity].
    apply (sh_cell _ _ _ Sh2 0 2 4 3); (split; [discriminate|reflexivity]).
Defined.
