(* ===== verification/Cursor.v ===== *)
(** * The mouse cursor (drivers/cursor.c)

    The cursor is drawn over the picture and keeps the pixels it covers in
    [saved_bg].  The routines take the cursor's state and return the new one;
    they draw on the screen of Framebuffer.  [over] is the invariant: the screen
    is a picture with the sprite on top, and the saved background is the
    picture's.  Moving the cursor keeps the picture, and removing it shows the
    picture again. *)

From S2P Require Import Prelude InputDev Framebuffer.
Local Open Scope Z_scope.
Local Open Scope sros_scope.

Definition CURSOR_WIDTH : Z := 16.
Definition CURSOR_HEIGHT : Z := 16.

Record cursor : Type := mk_cursor {
  cu_x : Z; cu_y : Z; cu_old_x : Z; cu_old_y : Z; cu_visible : Z; saved_bg : Z -> Z -> Z
}.

(** Each pixel is transparent, black or white. *)
Definition s_cursor_sprite : list (list Z) := [
  [1;0;0;0;0;0;0;0;0;0;0;0;0;0;0;0];
  [1;1;0;0;0;0;0;0;0;0;0;0;0;0;0;0];
  [1;2;1;0;0;0;0;0;0;0;0;0;0;0;0;0];
  [1;2;2;1;0;0;0;0;0;0;0;0;0;0;0;0];
  [1;2;2;2;1;0;0;0;0;0;0;0;0;0;0;0];
  [1;2;2;2;2;1;0;0;0;0;0;0;0;0;0;0];
  [1;2;2;2;2;2;1;0;0;0;0;0;0;0;0;0];
  [1;2;2;2;2;2;2;1;0;0;0;0;0;0;0;0];
  [1;2;2;2;2;2;2;2;1;0;0;0;0;0;0;0];
  [1;2;2;2;2;2;2;2;2;1;0;0;0;0;0;0];
  [1;2;2;2;2;2;2;2;2;2;1;0;0;0;0;0];
  [1;2;2;2;2;2;2;2;2;2;2;1;0;0;0;0];
  [1;1;1;1;1;1;1;1;1;1;1;1;1;0;0;0];
  [0;0;0;0;0;0;0;0;0;0;0;0;0;0;0;0];
  [0;0;0;0;0;0;0;0;0;0;0;0;0;0;0;0];
  [0;0;0;0;0;0;0;0;0;0;0;0;0;0;0;0]
].

Definition sprite (row col : Z) : Z := (s_cursor_sprite !!! Z.to_nat row) !!! Z.to_nat col.

(** ** Internal functions *)

Definition clamp_position (f : framebuffer) (x y : Z) : Z * Z :=
  let x := if x <? 0 then 0 else x in
  let y := if y <? 0 then 0 else y in
  let x := if i32 (fb_width f) <? i32 (x + CURSOR_WIDTH) then i32 (i32 (fb_width f) - CURSOR_WIDTH) else x in
  let y := if i32 (fb_height f) <? i32 (y + CURSOR_HEIGHT) then i32 (i32 (fb_height f) - CURSOR_HEIGHT) else y in
  (x, y).

(** A loop that carries a value. *)
Fixpoint gfold {A} (n : nat) (from : Z) (body : Z -> A -> gfx A) (a : A) : gfx A :=
  match n with
  | O => mret a
  | S n => a ← body from a; gfold n (from + 1) body a
  end.

Definition set_bg (row col v : Z) (bg : Z -> Z -> Z) : Z -> Z -> Z :=
  fun r k => if decide (r = row /\ k = col) then v else bg r k.

Definition with_bg (bg : Z -> Z -> Z) (c : cursor) : cursor :=
  mk_cursor (cu_x c) (cu_y c) (cu_old_x c) (cu_old_y c) (cu_visible c) bg.

(** The body of its loops. *)
Definition save_pixel (f : framebuffer) (x y row col : Z) (bg : Z -> Z -> Z) : gfx (Z -> Z -> Z) :=
  let sx := u32 (x + col) in
  let sy := u32 (y + row) in
  if (sx <? fb_width f) && (sy <? fb_height f)
  then v ← peek (u32 (sy * pitch_dwords f + sx)); mret (set_bg row col v bg)
  else mret bg.

Definition save_background (c : cursor) : gfx cursor :=
  f ← getfb id;
  if fb_addr f =? 0 then mret c
  else
    bg ← gfold 16 0 (fun row => gfold 16 0 (save_pixel f (cu_x c) (cu_y c) row)) (saved_bg c);
    mret (with_bg bg c).

(** The saved pixels put back at a position. *)
Definition put_background (x y : Z) (c : cursor) : gfx unit :=
  f ← getfb id;
  if fb_addr f =? 0 then mret tt
  else
    upto CURSOR_HEIGHT (fun row => upto CURSOR_WIDTH (fun col =>
      let sx := u32 (x + col) in
      let sy := u32 (y + row) in
      if (sx <? fb_width f) && (sy <? fb_height f)
      then put (u32 (sy * pitch_dwords f + sx)) (saved_bg c row col)
      else mret tt)).

Definition restore_background (c : cursor) : gfx unit := put_background (cu_old_x c) (cu_old_y c) c.

Definition draw_cursor (c : cursor) : gfx unit :=
  f ← getfb id;
  if fb_addr f =? 0 then mret tt
  else
    upto CURSOR_HEIGHT (fun row => upto CURSOR_WIDTH (fun col =>
      let val := sprite row col in
      if val =? 0 then mret tt
      else
        let sx := u32 (cu_x c + col) in
        let sy := u32 (cu_y c + row) in
        if (fb_width f <=? sx) || (fb_height f <=? sy) then mret tt
        else
          let pixel := if val =? 1 then color_to_pixel COLOR_BLACK else color_to_pixel COLOR_WHITE in
          put (u32 (sy * pitch_dwords f + sx)) pixel)).

(** ** The interface *)

Definition cursor_init (c : cursor) : gfx cursor :=
  f ← getfb id;
  let '(x, y) := clamp_position f (i32 (fb_width f / 2)) (i32 (fb_height f / 2)) in
  let c := mk_cursor x y x y 1 (saved_bg c) in
  if fb_addr f =? 0 then mret c
  else c ← save_background c; _ ← draw_cursor c; mret c.

Definition with_visible (v : Z) (c : cursor) : cursor :=
  mk_cursor (cu_x c) (cu_y c) (cu_old_x c) (cu_old_y c) v (saved_bg c).

Definition cursor_show (c : cursor) : gfx cursor :=
  if c_true (cu_visible c) then mret c
  else c ← save_background (with_visible 1 c); _ ← draw_cursor c; mret c.

Definition cursor_hide (c : cursor) : gfx cursor :=
  if negb (c_true (cu_visible c)) then mret c
  else _ ← restore_background c; mret (with_visible 0 c).

Definition cursor_move (dx dy : Z) (c : cursor) : gfx cursor :=
  f ← getfb id;
  if negb (c_true (cu_visible c)) || (fb_addr f =? 0) then mret c
  else
    let '(x, y) := clamp_position f (i32 (cu_x c + dx)) (i32 (cu_y c + dy)) in
    let c := mk_cursor x y (cu_x c) (cu_y c) (cu_visible c) (saved_bg c) in
    if (cu_x c =? cu_old_x c) && (cu_y c =? cu_old_y c) then mret c
    else
      _ ← restore_background c;
      c ← save_background c;
      _ ← draw_cursor c;
      mret c.

(** [while (mouse_read(&ev))]; the buffer holds fewer than [MOUSE_BUFFER_SIZE] events. *)
Fixpoint poll_mouse (fuel : nat) (m : mouse) (c : cursor) : gfx (mouse * cursor) :=
  match fuel with
  | O => fun _ => Oob
  | S fuel =>
      match mouse_read m with
      | None => mret (m, c)
      | Some (ev, m) => c ← cursor_move (dx ev) (- dy ev) c; poll_mouse fuel m c
      end
  end.

Definition cursor_poll_mouse (m : mouse) (c : cursor) : gfx (mouse * cursor) :=
  poll_mouse (Z.to_nat MOUSE_BUFFER_SIZE) m c.

Definition cursor_redraw (c : cursor) : gfx cursor :=
  f ← getfb id;
  if negb (c_true (cu_visible c)) || (fb_addr f =? 0) then mret c
  else c ← save_background c; _ ← draw_cursor c; mret c.

Definition cursor_remove (c : cursor) : gfx unit :=
  f ← getfb id;
  if (fb_addr f =? 0) || negb (c_true (cu_visible c)) then mret tt
  else put_background (cu_x c) (cu_y c) c.

Definition cursor_restore (c : cursor) : gfx cursor :=
  f ← getfb id;
  if (fb_addr f =? 0) || negb (c_true (cu_visible c)) then mret c
  else
    let c := mk_cursor (cu_x c) (cu_y c) (cu_x c) (cu_y c) (cu_visible c) (saved_bg c) in
    c ← save_background c;
    _ ← draw_cursor c;
    mret c.

(** ** The sprite over the picture *)

Section over.
Context (f : framebuffer) (M : mode_ok f).
Context (Hw : 16 <= fb_width f) (Hh : 16 <= fb_height f).

Definition clamped (size z : Z) : Z := Z.min (Z.max 0 z) (size - 16).

Lemma clamp_position_spec x y : - 1073741824 <= x < 1073741824 -> - 1073741824 <= y < 1073741824 ->
  clamp_position f x y = (clamped (fb_width f) x, clamped (fb_height f) y).
Proof.
  intros Hx Hy. pose proof (mode_bounds f M) as (Bw & Bh & _).
  unfold clamp_position, clamped, CURSOR_WIDTH, CURSOR_HEIGHT.
  set (x1 := if x <? 0 then 0 else x). set (y1 := if y <? 0 then 0 else y).
  assert (Ex : x1 = Z.max 0 x) by (unfold x1; destruct (Z.ltb_spec x 0); lia).
  assert (Ey : y1 = Z.max 0 y) by (unfold y1; destruct (Z.ltb_spec y 0); lia).
  rewrite !i32_small by (rewrite ?i32_small; lia). f_equal.
  - destruct (Z.ltb_spec (fb_width f) (x1 + 16)); lia.
  - destruct (Z.ltb_spec (fb_height f) (y1 + 16)); lia.
Qed.

Lemma clamped_range size z : 16 <= size -> 0 <= clamped size z <= size - 16.
Proof. unfold clamped. lia. Qed.

(** The sprite lies on the screen. *)
Definition placed (x y : Z) : Prop := 0 <= x <= fb_width f - 16 /\ 0 <= y <= fb_height f - 16.

Lemma visible_pixel x y row col : placed x y -> 0 <= row < 16 -> 0 <= col < 16 ->
  u32 (x + col) = x + col /\ u32 (y + row) = y + row /\ on_screen f (x + col) (y + row).
Proof.
  intros [Hx Hy] Hr Hc. pose proof (mode_bounds f M) as (Bw & Bh & _).
  split; [apply u32_small; lia|]. split; [apply u32_small; lia|]. split; lia.
Qed.

Lemma save_pixel_ok s x y row col bg : fb s = f -> placed x y -> 0 <= row < 16 -> 0 <= col < 16 ->
  save_pixel f x y row col bg s = Ret (set_bg row col (pixel s (x + col) (y + row)) bg, s).
Proof.
  intros Hs Hp Hr Hc. destruct (visible_pixel x y row col Hp Hr Hc) as (Ex & Ey & Hon).
  unfold save_pixel. cbv zeta. rewrite Ex, Ey. pose proof (index_range f _ _ M Hon) as Hidx.
  destruct Hon as [Hox Hoy]. rewrite (proj2 (Z.ltb_lt (x + col) _)), (proj2 (Z.ltb_lt (y + row) _)) by lia. cbn [andb].
  pose proof (mo_size f M) as Bs. rewrite (mo_pitch f M) in Bs.
  rewrite (u32_small ((y + row) * pitch_dwords f + (x + col))) by lia.
  rewrite (gfx_bind_ret _ _ _ _ _ (peek_ok f M s _ Hs Hidx)). unfold pixel. rewrite Hs. reflexivity.
Qed.

Lemma save_row s x y row : fb s = f -> placed x y -> 0 <= row < 16 -> forall n from bg, 0 <= from -> from + Z.of_nat n = 16 ->
  exists bg', gfold n from (save_pixel f x y row) bg s = Ret (bg', s) /\
    forall r k, bg' r k = if decide (r = row /\ from <= k < 16) then pixel s (x + k) (y + row) else bg r k.
Proof.
  intros Hs Hp Hr. induction n as [|n IH]; intros from bg Hf Hn.
  - exists bg. split; [reflexivity|]. intros r k. rewrite decide_False by lia. reflexivity.
  - cbn [gfold]. rewrite (gfx_bind_ret _ _ _ _ _ (save_pixel_ok s x y row from bg Hs Hp Hr ltac:(lia))).
    destruct (IH (from + 1) (set_bg row from (pixel s (x + from) (y + row)) bg) ltac:(lia) ltac:(lia)) as (bg' & E & V).
    exists bg'. split; [exact E|]. intros r k. rewrite V. unfold set_bg.
    destruct (decide (r = row /\ from + 1 <= k < 16)), (decide (r = row /\ k = from)) as [[Er Ek]|],
      (decide (r = row /\ from <= k < 16)); try lia; first [reflexivity | subst; reflexivity].
Qed.

Lemma save_background_spec s c : fb s = f -> placed (cu_x c) (cu_y c) ->
  exists bg, save_background c s = Ret (with_bg bg c, s) /\
    forall r k, 0 <= r < 16 -> 0 <= k < 16 -> bg r k = pixel s (cu_x c + k) (cu_y c + r).
Proof.
  intros Hs Hp. set (body := fun row : Z => gfold 16 0 (save_pixel f (cu_x c) (cu_y c) row)).
  assert (Rows : forall n from bg, 0 <= from -> from + Z.of_nat n = 16 ->
      exists bg', gfold n from body bg s = Ret (bg', s) /\
        forall r k, 0 <= k < 16 -> bg' r k = if decide (from <= r < 16) then pixel s (cu_x c + k) (cu_y c + r) else bg r k).
  { induction n as [|n IH]; intros from bg Hf Hn.
    - exists bg. split; [reflexivity|]. intros r k _. rewrite decide_False by lia. reflexivity.
    - cbn [gfold]. destruct (save_row s _ _ from Hs Hp ltac:(lia) 16 0 bg) as (bg1 & E1 & V1); [lia|lia|].
      destruct (IH (from + 1) bg1 ltac:(lia) ltac:(lia)) as (bg' & E & V).
      exists bg'. split; [rewrite (gfx_bind_ret _ _ _ _ _ E1); exact E|].
      intros r k Hk. rewrite V by exact Hk. rewrite V1. repeat case_decide; try lia; try reflexivity.
      assert (r = from) by lia. subst. reflexivity. }
  destruct (Rows 16%nat 0 (saved_bg c)) as (bg & E & V); [lia|lia|]. exists bg. split.
  - unfold save_background, getfb. unfold mbind at 1, gfx_bind at 1. rewrite Hs. unfold id. rewrite (addr_set f M).
    fold body. rewrite (gfx_bind_ret _ _ _ _ _ E). reflexivity.
  - intros r k Hr Hk. rewrite V by exact Hk. rewrite decide_True by lia. reflexivity.
Qed.

Lemma put_background_paints x y c : placed x y ->
  paints f (put_background x y c)
    (fun x' y' => if decide (0 <= x' - x < 16 /\ 0 <= y' - y < 16) then Some (saved_bg c (y' - y) (x' - x)) else None).
Proof.
  intros Hp. unfold put_background, CURSOR_WIDTH, CURSOR_HEIGHT. apply paints_getfb. unfold id. rewrite (addr_set f M).
  apply (paints_blit f x y 16 16 _ (fun row col => Some (saved_bg c row col))); [lia|lia|].
  intros row col Hr Hc. destruct (visible_pixel x y row col Hp Hr Hc) as (Ex & Ey & Hon). cbv zeta. rewrite Ex, Ey.
  rewrite (proj2 (Z.ltb_lt (x + col) _)), (proj2 (Z.ltb_lt (y + row) _)) by (destruct Hon; lia). cbn [andb].
  apply paints_put; [exact M|exact Hon|apply u32_u32].
Qed.

Definition sprite_pixel (row col : Z) : option Z :=
  if sprite row col =? 0 then None
  else Some (if sprite row col =? 1 then color_to_pixel COLOR_BLACK else color_to_pixel COLOR_WHITE).

Lemma draw_cursor_paints c : placed (cu_x c) (cu_y c) ->
  paints f (draw_cursor c)
    (fun x' y' => if decide (0 <= x' - cu_x c < 16 /\ 0 <= y' - cu_y c < 16) then sprite_pixel (y' - cu_y c) (x' - cu_x c) else None).
Proof.
  intros Hp. unfold draw_cursor, CURSOR_WIDTH, CURSOR_HEIGHT. apply paints_getfb. unfold id. rewrite (addr_set f M).
  apply (paints_blit f (cu_x c) (cu_y c) 16 16 _ sprite_pixel); [lia|lia|].
  intros row col Hr Hc. destruct (visible_pixel _ _ row col Hp Hr Hc) as (Ex & Ey & Hon). cbv zeta. rewrite Ex, Ey.
  unfold sprite_pixel. destruct (sprite row col =? 0).
  { eapply paints_ext; [apply paints_ret|]. intros x' y' _. case_decide; reflexivity. }
  rewrite (proj2 (Z.leb_gt _ (cu_x c + col))), (proj2 (Z.leb_gt _ (cu_y c + row))) by (destruct Hon; lia). cbn [orb].
  apply paints_put; [exact M|exact Hon|apply u32_u32].
Qed.

(** A picture with the sprite at a position. *)
Definition overlay (x y : Z) (base : Z -> Z -> Z) (x' y' : Z) : Z :=
  if decide (0 <= x' - x < 16 /\ 0 <= y' - y < 16) then default (base x' y') (sprite_pixel (y' - y) (x' - x)) else base x' y'.

(** The screen is [base] with the cursor over it. *)
Record over (s : screen) (c : cursor) (base : Z -> Z -> Z) : Prop := {
  ov_fb : fb s = f;
  ov_visible : cu_visible c <> 0;
  ov_placed : placed (cu_x c) (cu_y c);
  ov_pixel : forall x y, on_screen f x y -> pixel s x y = overlay (cu_x c) (cu_y c) base x y;
  ov_saved : forall r k, 0 <= r < 16 -> 0 <= k < 16 -> saved_bg c r k = base (cu_x c + k) (cu_y c + r)
}.

(** Saving and drawing puts the cursor over whatever the screen shows. *)
Lemma save_and_draw s c : fb s = f -> cu_visible c <> 0 -> placed (cu_x c) (cu_y c) ->
  exists c' s', (c ← save_background c; _ ← draw_cursor c; mret c) s = Ret (c', s') /\
    over s' c' (pixel s) /\ cu_x c' = cu_x c /\ cu_y c' = cu_y c /\ cu_old_x c' = cu_old_x c /\ cu_old_y c' = cu_old_y c /\
    console_row s' = console_row s /\ console_col s' = console_col s.
Proof.
  intros Hs Hv Hp. destruct (save_background_spec s c Hs Hp) as (bg & E1 & V1).
  destruct (draw_cursor_paints (with_bg bg c) Hp s Hs) as (s' & E2 & F2 & A2 & B2 & P2).
  exists (with_bg bg c), s'. split; [rewrite (gfx_bind_ret _ _ _ _ _ E1), (gfx_bind_ret _ _ _ _ _ E2); reflexivity|].
  split; [|repeat split; assumption].
  split; [exact F2|exact Hv|exact Hp| |exact V1].
  intros x y Hxy. rewrite P2 by exact Hxy. unfold overlay. cbn [cu_x cu_y with_bg]. case_decide; reflexivity.
Qed.

(** Putting the saved background back at the cursor's place shows the picture. *)
Lemma uncover s c base x y : over s c base -> x = cu_x c -> y = cu_y c -> forall c', saved_bg c' = saved_bg c ->
  exists s', put_background x y c' s = Ret (tt, s') /\ fb s' = f /\
    console_row s' = console_row s /\ console_col s' = console_col s /\
    forall x' y', on_screen f x' y' -> pixel s' x' y' = base x' y'.
Proof.
  intros [Hs Hv Hp Hpx Hsv] -> -> c' Ec. destruct (put_background_paints (cu_x c) (cu_y c) c' Hp s Hs) as (s' & E & F & A & B & P).
  exists s'. split; [exact E|]. split; [exact F|]. split; [exact A|]. split; [exact B|].
  intros x' y' Hxy. rewrite P, Hpx by exact Hxy. unfold overlay. case_decide; [|reflexivity].
  cbn [default]; unfold id. rewrite Ec, Hsv by lia. f_equal; lia.
Qed.

Lemma over_ext s c base base' : over s c base -> (forall x y, on_screen f x y -> base x y = base' x y) -> over s c base'.
Proof.
  intros [Hs Hv Hp Hpx Hsv] E. split; [exact Hs|exact Hv|exact Hp| |].
  - intros x y Hxy. rewrite Hpx by exact Hxy. unfold overlay. rewrite E by exact Hxy. reflexivity.
  - intros r k Hr Hk. rewrite Hsv by assumption. apply E. destruct Hp. split; lia.
Qed.

(** A mouse movement. *)
Definition small (d : Z) : Prop := - 536870912 <= d < 536870912.

Lemma cursor_move_over s c base dx dy : over s c base -> small dx -> small dy ->
  exists c' s', cursor_move dx dy c s = Ret (c', s') /\ over s' c' base /\
    cu_x c' = clamped (fb_width f) (cu_x c + dx) /\ cu_y c' = clamped (fb_height f) (cu_y c + dy) /\
    cu_old_x c' = cu_x c /\ cu_old_y c' = cu_y c /\
    console_row s' = console_row s /\ console_col s' = console_col s.
Proof.
  unfold small. intros O Hdx Hdy. pose proof O as [Hs Hv Hp Hpx Hsv]. pose proof (mode_bounds f M) as (Bw & Bh & _).
  destruct Hp as [Hpx' Hpy']. unfold cursor_move, getfb. unfold mbind at 1, gfx_bind at 1. rewrite Hs. unfold id.
  rewrite (addr_set f M). unfold c_true. rewrite (proj2 (Z.eqb_neq _ _) Hv). cbn [negb orb].
  rewrite !i32_small by lia. rewrite clamp_position_spec by lia.
  set (nx := clamped (fb_width f) (cu_x c + dx)). set (ny := clamped (fb_height f) (cu_y c + dy)).
  set (c1 := mk_cursor nx ny (cu_x c) (cu_y c) (cu_visible c) (saved_bg c)). cbn [cu_x cu_y cu_old_x cu_old_y c1].
  destruct (Z.eqb_spec nx (cu_x c)) as [Ex|Ex], (Z.eqb_spec ny (cu_y c)) as [Ey|Ey]; cbn [andb].
  1:{ exists c1, s. split; [reflexivity|]. split; [|do 5 (split; [reflexivity|]); reflexivity]. split; cbn [c1 cu_x cu_y cu_visible saved_bg]; rewrite ?Ex, ?Ey; auto.
      split; assumption. }
  all: destruct (uncover s c base (cu_x c) (cu_y c) O eq_refl eq_refl c1 eq_refl) as (s1 & E1 & F1 & A1 & B1 & P1);
    assert (Hpn : placed nx ny) by (split; apply clamped_range; assumption);
    destruct (save_and_draw s1 c1 F1 Hv Hpn) as (c' & s' & E2 & O2 & X2 & Y2 & U2 & V2 & A2 & B2);
    exists c', s'; (split; [unfold restore_background; cbn [cu_old_x cu_old_y c1]; rewrite (gfx_bind_ret _ _ _ _ _ E1); exact E2|]);
    (split; [apply (over_ext s' c' (pixel s1)); assumption|]); (split; [exact X2|]); (split; [exact Y2|]);
    (split; [exact U2|]); (split; [exact V2|]); split; congruence.
Qed.

Lemma cursor_init_over s c : fb s = f ->
  exists c' s', cursor_init c s = Ret (c', s') /\ over s' c' (pixel s) /\
    cu_x c' = clamped (fb_width f) (fb_width f / 2) /\ cu_y c' = clamped (fb_height f) (fb_height f / 2) /\
    console_row s' = console_row s /\ console_col s' = console_col s.
Proof.
  intros Hs. pose proof (mode_bounds f M) as (Bw & Bh & _).
  unfold cursor_init, getfb. unfold mbind at 1, gfx_bind at 1. rewrite Hs. unfold id. rewrite (addr_set f M).
  rewrite !i32_small by mlia. rewrite clamp_position_spec by mlia.
  set (c1 := mk_cursor _ _ _ _ 1 (saved_bg c)).
  destruct (save_and_draw s c1 Hs) as (c' & s' & E & O & X & Y & _ & _ & A & B).
  - discriminate.
  - split; apply clamped_range; assumption.
  - exists c', s'. split; [exact E|]. split; [exact O|]. repeat split; assumption.
Qed.

Lemma cursor_remove_shows s c base : over s c base ->
  exists s', cursor_remove c s = Ret (tt, s') /\ fb s' = f /\
    console_row s' = console_row s /\ console_col s' = console_col s /\
    forall x y, on_screen f x y -> pixel s' x y = base x y.
Proof.
  intros O. unfold cursor_remove, getfb. unfold mbind at 1, gfx_bind at 1. rewrite (ov_fb _ _ _ O). unfold id.
  rewrite (addr_set f M). unfold c_true. rewrite (proj2 (Z.eqb_neq _ _) (ov_visible _ _ _ O)). cbn [negb orb].
  apply (uncover s c base); auto.
Qed.

Lemma cursor_restore_over s c : fb s = f -> cu_visible c <> 0 -> placed (cu_x c) (cu_y c) ->
  exists c' s', cursor_restore c s = Ret (c', s') /\ over s' c' (pixel s) /\ cu_x c' = cu_x c /\ cu_y c' = cu_y c /\
    console_row s' = console_row s /\ console_col s' = console_col s.
Proof.
  intros Hs Hv Hp. unfold cursor_restore, getfb. unfold mbind at 1, gfx_bind at 1. rewrite Hs. unfold id.
  rewrite (addr_set f M). unfold c_true. rewrite (proj2 (Z.eqb_neq _ _) Hv). cbn [negb orb].
  destruct (save_and_draw s (mk_cursor (cu_x c) (cu_y c) (cu_x c) (cu_y c) (cu_visible c) (saved_bg c)) Hs Hv Hp)
    as (c' & s' & E & O & X & Y & _ & _ & A & B).
  exists c', s'. split; [exact E|]. split; [exact O|]. repeat split; assumption.
Qed.

(** A series of movements. *)
Fixpoint cursor_moves (ds : list (Z * Z)) (c : cursor) : gfx cursor :=
  match ds with
  | [] => mret c
  | (dx, dy) :: ds => c ← cursor_move dx dy c; cursor_moves ds c
  end.

Definition moved (ds : list (Z * Z)) (p : Z * Z) : Z * Z :=
  foldl (fun p d => (clamped (fb_width f) (fst p + fst d), clamped (fb_height f) (snd p + snd d))) p ds.

Lemma cursor_moves_over ds : forall s c base, over s c base -> Forall (fun d => small (fst d) /\ small (snd d)) ds ->
  exists c' s', cursor_moves ds c s = Ret (c', s') /\ over s' c' base /\
    (cu_x c', cu_y c') = moved ds (cu_x c, cu_y c).
Proof.
  induction ds as [|[dx dy] ds IH]; intros s c base O Hd; [exists c, s; auto|].
  apply Forall_cons in Hd as [[H1 H2] Hd]. cbn [fst snd] in *.
  destruct (cursor_move_over s c base dx dy O H1 H2) as (c1 & s1 & E1 & O1 & X1 & Y1 & _).
  destruct (IH s1 c1 base O1 Hd) as (c' & s' & E & O' & P). exists c', s'.
  split; [cbn [cursor_moves]; rewrite (gfx_bind_ret _ _ _ _ _ E1); exact E|]. split; [exact O'|].
  rewrite P, X1, Y1. reflexivity.
Qed.
End over.

(** C28: On a mapped screen with room for the sprite, the cursor starts in the middle
    and follows the mouse, held at the edges; after any movements, taking it
    away shows every pixel as it was before the cursor was there. *)
Theorem cursor_keeps_picture f (s : screen) c ds : mode_ok f -> 16 <= fb_width f -> 16 <= fb_height f -> fb s = f ->
  Forall (fun d => small (fst d) /\ small (snd d)) ds ->
  exists c' s' s'', (c ← cursor_init c; cursor_moves ds c) s = Ret (c', s') /\
    (cu_x c', cu_y c') =
      moved f ds (clamped (fb_width f) (fb_width f / 2), clamped (fb_height f) (fb_height f / 2)) /\
    (forall x y, on_screen f x y -> pixel s' x y = overlay (cu_x c') (cu_y c') (pixel s) x y) /\
    cursor_remove c' s' = Ret (tt, s'') /\
    forall x y, on_screen f x y -> pixel s'' x y = pixel s x y.
Proof.
  intros M Hw Hh Hs Hd. destruct (cursor_init_over f M Hw Hh s c Hs) as (c1 & s1 & E1 & O1 & X1 & Y1 & _).
  destruct (cursor_moves_over f M Hw Hh ds s1 c1 _ O1 Hd) as (c' & s' & E2 & O2 & P2).
  destruct (cursor_remove_shows f M s' c' _ O2) as (s'' & E3 & _ & _ & _ & P3).
  exists c', s', s''. split; [rewrite (gfx_bind_ret _ _ _ _ _ E1); exact E2|].
  split; [rewrite P2, X1, Y1; reflexivity|]. split; [apply O2|]. split; [exact E3|exact P3].
Qed.

Lemma cursor_keeps_picture_witness : exists c' s' s'',
  (c ← cursor_init (mk_cursor 0 0 0 0 0 (fun _ _ => 0)); cursor_moves [(- 100, 3); (5, 200)] c) demo_screen = Ret (c', s') /\
  (cu_x c', cu_y c') = (5, 32) /\ pixel s' 5 32 = 0 /\ cursor_remove c' s' = Ret (tt, s'') /\ pixel s'' 5 32 = 7.
Proof.
  assert (M : mode_ok demo_fb) by (split; vm_compute; repeat split; discriminate || reflexivity).
  destruct (cursor_keeps_picture demo_fb demo_screen (mk_cursor 0 0 0 0 0 (fun _ _ => 0)) [(- 100, 3); (5, 200)] M)
    as (c' & s' & s'' & E & P & O & R & V).
  - vm_compute. discriminate.
  - vm_compute. discriminate.
  - reflexivity.
  - repeat constructor; cbn; discriminate.
  - exists c', s', s''. split; [exact E|]. change (moved _ _ _) with (5, 32) in P. split; [exact P|].
    injection P as Px Py. rewrite Px, Py in O. rewrite O, V by (vm_compute; repeat split; discriminate || reflexivity).
    split; [reflexivity|]. split; [exact R|reflexivity].
Defined.

(** [cursor_hide] uses the position before the last movement: after a movement
    it paints the background of the new place over the old one and leaves the
    sprite on the screen, wherever the old place does not cover it. *)
Theorem cursor_hide_stale f (s : screen) c base dx dy : mode_ok f -> 16 <= fb_width f -> 16 <= fb_height f ->
  over f s c base -> small dx -> small dy ->
  let nx := clamped (fb_width f) (cu_x c + dx) in let ny := clamped (fb_height f) (cu_y c + dy) in
  exists c' s', (c ← cursor_move dx dy c; cursor_hide c) s = Ret (c', s') /\ cu_visible c' = 0 /\
    forall x y, on_screen f x y ->
      pixel s' x y = if decide (0 <= x - cu_x c < 16 /\ 0 <= y - cu_y c < 16)
                     then base (nx + (x - cu_x c)) (ny + (y - cu_y c)) else overlay nx ny base x y.
Proof.
  intros M Hw Hh O Hdx Hdy nx ny.
  destruct (cursor_move_over f M Hw Hh s c base dx dy O Hdx Hdy) as (c1 & s1 & E1 & O1 & X1 & Y1 & OX1 & OY1 & _).
  fold nx in X1. fold ny in Y1.
  assert (Hp : placed f (cu_old_x c1) (cu_old_y c1)) by (rewrite OX1, OY1; apply (ov_placed _ _ _ _ O)).
  destruct (put_background_paints f M (cu_old_x c1) (cu_old_y c1) c1 Hp s1 (ov_fb _ _ _ _ O1)) as (s' & E & _ & _ & _ & V).
  exists (with_visible 0 c1), s'. split; [|split; [reflexivity|]].
  - rewrite (gfx_bind_ret _ _ _ _ _ E1). unfold cursor_hide, c_true.
    rewrite (proj2 (Z.eqb_neq _ _) (ov_visible _ _ _ _ O1)). cbn [negb]. unfold restore_background.
    rewrite (gfx_bind_ret _ _ _ _ _ E). reflexivity.
  - intros x y Hxy. rewrite V by exact Hxy. rewrite OX1, OY1. case_decide.
    + cbn [default]; unfold id. rewrite (ov_saved _ _ _ _ O1), X1, Y1 by lia. reflexivity.
    + cbn [default]. rewrite (ov_pixel _ _ _ _ O1), X1, Y1 by exact Hxy. reflexivity.
Qed.

Lemma cursor_hide_stale_witness : exists c s c' s',
  (c ← cursor_move (- 20) 0 c; cursor_hide c) s = Ret (c', s') /\ cu_visible c' = 0 /\ pixel s' 12 24 = 0.
Proof.
  assert (M : mode_ok demo_fb) by (split; vm_compute; repeat split; discriminate || reflexivity).
  destruct (cursor_init_over demo_fb M ltac:(vm_compute; discriminate) ltac:(vm_compute; discriminate)
    demo_screen (mk_cursor 0 0 0 0 0 (fun _ _ => 0)) eq_refl) as (c & s & _ & O & X & Y & _).
  change (cu_x c = 32) in X. change (cu_y c = 24) in Y.
  destruct (cursor_hide_stale demo_fb s c _ (- 20) 0 M ltac:(vm_compute; discriminate) ltac:(vm_compute; discriminate) O)
    as (c' & s' & E & V & P); [split; [discriminate|reflexivity]..|].
  exists c, s, c', s'. split; [exact E|]. split; [exact V|].
  rewrite P by (vm_compute; repeat split; discriminate || reflexivity). rewrite X, Y. reflexivity.
Defined.
