(* ===== verification/Window.v ===== *)
(** * Windows (drivers/window.c, include/window.h: the list and the window operations)

    The windows form a linked list from the lowest to the highest.  [objects] and
    [buffers] hold the structures and the pixel arrays that live in the kernel
    heap, by address; the heap itself is that of Kmalloc.  An access through a
    pointer that is not (or no longer) allocated, or past the end of a pixel
    array, is [Oob].

    [wm_ok] is the invariant: the list is a chain through exactly the live
    windows, in the order of [z_order], the focused window is the last, and every
    structure and array is its own live block of the heap. *)

From stdpp Require Import gmap sorting.
From S2P Require Import Prelude Memory Kmalloc Font Text Framebuffer.
Local Open Scope Z_scope.
Local Open Scope sros_scope.

Definition WM_MAX_WINDOWS : Z := 16.
Definition WM_TITLE_HEIGHT : Z := 20.
Definition WM_BORDER_WIDTH : Z := 2.
Definition WM_CLOSE_BTN_W : Z := 14.
Definition WM_CLOSE_BTN_H : Z := 14.
Definition WM_CLOSE_BTN_MARG : Z := 3.
Definition WM_MAX_TITLE_LEN : Z := 31.
Definition WM_DESKTOP_COLOR : color := mk_color 40 40 80.
Definition WM_CONTENT_BG : color := mk_color 245 245 245.

(** [w_title] is the string in the array, without its NUL; pointer 0 is NULL. *)
Record window : Type := mk_window {
  w_x : Z; w_y : Z; w_width : Z; w_height : Z; content_w : Z; content_h : Z; w_title : list Z;
  z_order : Z; w_visible : Z; w_focused : Z; w_buffer : Z; w_dirty : Z; w_next : Z
}.

(** [sizeof(window_t)] *)
Definition sizeof_window : Z := 80.

Definition set_pos (x y : Z) (w : window) : window :=
  mk_window x y (w_width w) (w_height w) (content_w w) (content_h w) (w_title w) (z_order w) (w_visible w) (w_focused w) (w_buffer w) (w_dirty w) (w_next w).
Definition set_size (width height : Z) (w : window) : window :=
  mk_window (w_x w) (w_y w) width height (content_w w) (content_h w) (w_title w) (z_order w) (w_visible w) (w_focused w) (w_buffer w) (w_dirty w) (w_next w).
Definition set_z_order (z : Z) (w : window) : window :=
  mk_window (w_x w) (w_y w) (w_width w) (w_height w) (content_w w) (content_h w) (w_title w) z (w_visible w) (w_focused w) (w_buffer w) (w_dirty w) (w_next w).
Definition set_focused (b : Z) (w : window) : window :=
  mk_window (w_x w) (w_y w) (w_width w) (w_height w) (content_w w) (content_h w) (w_title w) (z_order w) (w_visible w) b (w_buffer w) (w_dirty w) (w_next w).
Definition set_buffer (p : Z) (w : window) : window :=
  mk_window (w_x w) (w_y w) (w_width w) (w_height w) (content_w w) (content_h w) (w_title w) (z_order w) (w_visible w) (w_focused w) p (w_dirty w) (w_next w).
Definition set_dirty (b : Z) (w : window) : window :=
  mk_window (w_x w) (w_y w) (w_width w) (w_height w) (content_w w) (content_h w) (w_title w) (z_order w) (w_visible w) (w_focused w) (w_buffer w) b (w_next w).
Definition set_next (p : Z) (w : window) : window :=
  mk_window (w_x w) (w_y w) (w_width w) (w_height w) (content_w w) (content_h w) (w_title w) (z_order w) (w_visible w) (w_focused w) (w_buffer w) (w_dirty w) p.

(** [g_wm] and the heap objects it reaches. *)
Record wm : Type := mk_wm {
  g_windows : Z; g_focused : Z; g_count : Z; needs_composite : Z; desktop_color : color;
  objects : gmap Z window; buffers : gmap Z (list Z); heap : mem
}.

Definition set_windows (p : Z) (s : wm) : wm :=
  mk_wm p (g_focused s) (g_count s) (needs_composite s) (desktop_color s) (objects s) (buffers s) (heap s).
Definition set_focus (p : Z) (s : wm) : wm :=
  mk_wm (g_windows s) p (g_count s) (needs_composite s) (desktop_color s) (objects s) (buffers s) (heap s).
Definition set_count (n : Z) (s : wm) : wm :=
  mk_wm (g_windows s) (g_focused s) n (needs_composite s) (desktop_color s) (objects s) (buffers s) (heap s).
Definition set_composite (b : Z) (s : wm) : wm :=
  mk_wm (g_windows s) (g_focused s) (g_count s) b (desktop_color s) (objects s) (buffers s) (heap s).
Definition set_objects (W : gmap Z window) (s : wm) : wm :=
  mk_wm (g_windows s) (g_focused s) (g_count s) (needs_composite s) (desktop_color s) W (buffers s) (heap s).
Definition set_buffers (B : gmap Z (list Z)) (s : wm) : wm :=
  mk_wm (g_windows s) (g_focused s) (g_count s) (needs_composite s) (desktop_color s) (objects s) B (heap s).
Definition set_heap (m : mem) (s : wm) : wm :=
  mk_wm (g_windows s) (g_focused s) (g_count s) (needs_composite s) (desktop_color s) (objects s) (buffers s) m.

Definition wmop (A : Type) : Type := wm -> exec (A * wm).

#[export] Instance wmop_ret : MRet wmop := fun A x s => Ret (x, s).
#[export] Instance wmop_bind : MBind wmop := fun A B f m s =>
  match m s with Ret (x, s) => f x s | Panic => Panic | Oob => Oob end.

Definition getg {A} (f : wm -> A) : wmop A := fun s => Ret (f s, s).
Definition modg (f : wm -> wm) : wmop unit := fun s => Ret (tt, f s).
Definition outside {A} : wmop A := fun _ => Oob.

(** Reading and updating the structure at [p]. *)
Definition get (p : Z) : wmop window := fun s =>
  match objects s !! p with Some w => Ret (w, s) | None => Oob end.
Definition modify (p : Z) (f : window -> window) : wmop unit := fun s =>
  match objects s !! p with Some w => Ret (tt, set_objects (<[p := f w]> (objects s)) s) | None => Oob end.

(** [kmalloc] and [kfree]; the walk of [kmalloc] ends (Kmalloc). *)
Definition malloc (size : Z) : wmop Z := fun s =>
  match kmalloc (heap s) size with Some (m, p) => Ret (p, set_heap m s) | None => Oob end.
Definition free (p : Z) : wmop unit := modg (fun s => set_heap (kfree (heap s) p) s).

(** A list has at most [WM_MAX_WINDOWS] windows. *)
Definition list_fuel : nat := 17.

(** ** The list *)

(** [while (prev->next && prev->next->z_order <= win->z_order) prev = prev->next;] *)
Fixpoint insert_point (fuel : nat) (z prev : Z) : wmop Z :=
  match fuel with
  | O => outside
  | S fuel =>
      p ← get prev;
      if w_next p =? 0 then mret prev
      else n ← get (w_next p); if z_order n <=? z then insert_point fuel z (w_next p) else mret prev
  end.

Definition insert_sorted (win : Z) : wmop unit :=
  head ← getg g_windows;
  w ← get win;
  first ← (if head =? 0 then mret true else h ← get head; mret (z_order w <? z_order h));
  if (first : bool) then
    _ ← modify win (set_next head);
    modg (set_windows win)
  else
    prev ← insert_point list_fuel (z_order w) head;
    p ← get prev;
    _ ← modify win (set_next (w_next p));
    modify prev (set_next win).

Fixpoint unlink_after (fuel : nat) (win prev : Z) : wmop unit :=
  match fuel with
  | O => outside
  | S fuel =>
      p ← get prev;
      if w_next p =? 0 then mret tt
      else if w_next p =? win then w ← get win; modify prev (set_next (w_next w))
      else unlink_after fuel win (w_next p)
  end.

Definition remove_from_list (win : Z) : wmop unit :=
  head ← getg g_windows;
  if head =? 0 then mret tt
  else if head =? win then w ← get win; modg (set_windows (w_next w))
  else unlink_after list_fuel win head.

Fixpoint max_z_order (fuel : nat) (max_z w : Z) : wmop Z :=
  match fuel with
  | O => outside
  | S fuel =>
      if w =? 0 then mret max_z
      else v ← get w; max_z_order fuel (if max_z <? z_order v then z_order v else max_z) (w_next v)
  end.

Definition get_next_z_order : wmop Z :=
  head ← getg g_windows;
  max_z ← max_z_order list_fuel 0 head;
  mret (u32 (max_z + 1)).

Definition compute_window_size (w : window) : window :=
  set_size (u32 (content_w w + WM_BORDER_WIDTH * 2)) (u32 (content_h w + WM_TITLE_HEIGHT + WM_BORDER_WIDTH)) w.

Definition window_contains (w : window) (px py : Z) : bool :=
  (w_x w <=? px) && (px <? i32 (w_x w + i32 (w_width w))) && (w_y w <=? py) && (py <? i32 (w_y w + i32 (w_height w))).

(** ** The operations *)

Definition wm_init (m : mem) : wm := mk_wm 0 0 0 1 WM_DESKTOP_COLOR ∅ ∅ m.

Definition wm_focus_window (win : Z) : wmop unit :=
  if win =? 0 then mret tt
  else
    old ← getg g_focused;
    if old =? win then modify win (set_focused 1)
    else
      _ ← (if old =? 0 then mret tt else modify old (set_focused 0));
      _ ← modify win (set_focused 1);
      _ ← modg (set_focus win);
      new_z ← get_next_z_order;
      _ ← remove_from_list win;
      _ ← modify win (set_z_order new_z);
      _ ← insert_sorted win;
      _ ← modify win (set_dirty 1);
      modg (set_composite 1).

(** [for (i = 0; i < n; i++) buffer[i] = v;] *)
Fixpoint fill_words (n : nat) (v : Z) (b : list Z) : exec (list Z) :=
  match n, b with
  | O, b => Ret b
  | S n, _ :: b => b ← fill_words n v b; Ret (v :: b)
  | S _, [] => Oob
  end.

(** The array at [p]: as many words as fit the bytes asked for, then filled. *)
Definition new_buffer (p bytes n v : Z) : wmop unit := fun s =>
  match fill_words (Z.to_nat n) v (replicate (Z.to_nat (bytes / 4)) 0) with
  | Ret b => Ret (tt, set_buffers (<[p := b]> (buffers s)) s)
  | Panic => Panic
  | Oob => Oob
  end.

(** A new window's address, or 0. *)
Definition wm_create_window (x y content_w content_h : Z) (title : list Z) : wmop Z :=
  count ← getg g_count;
  if WM_MAX_WINDOWS <=? count then mret 0
  else
    win ← malloc sizeof_window;
    if win =? 0 then mret 0
    else
      let w := mk_window x y 0 0 content_w content_h (take (Z.to_nat WM_MAX_TITLE_LEN) title) 0 1 0 0 1 0 in
      _ ← modg (fun s => set_objects (<[win := compute_window_size w]> (objects s)) s);
      let bytes := u32 (content_w * content_h * 4) in
      buffer ← malloc bytes;
      if buffer =? 0 then
        _ ← free win;
        _ ← modg (fun s => set_objects (delete win (objects s)) s);
        mret 0
      else
        _ ← modify win (set_buffer buffer);
        _ ← new_buffer buffer bytes (u32 (content_w * content_h)) (color_to_pixel WM_CONTENT_BG);
        z ← get_next_z_order;
        _ ← modify win (set_z_order z);
        _ ← insert_sorted win;
        _ ← modg (fun s => set_count (i32 (g_count s + 1)) s);
        _ ← wm_focus_window win;
        _ ← modg (set_composite 1);
        mret win.

Definition wm_destroy_window (win : Z) : wmop unit :=
  if win =? 0 then mret tt
  else
    _ ← remove_from_list win;
    _ ← modg (fun s => if g_focused s =? win then set_focus 0 s else s);
    w ← get win;
    _ ← (if w_buffer w =? 0 then mret tt
         else
           _ ← free (w_buffer w);
           _ ← modg (fun s => set_buffers (delete (w_buffer w) (buffers s)) s);
           modify win (set_buffer 0));
    _ ← modg (fun s => set_composite 1 (set_count (i32 (g_count s - 1)) s));
    _ ← free win;
    modg (fun s => set_objects (delete win (objects s)) s).

Definition wm_move_window (win x y : Z) : wmop unit :=
  if win =? 0 then mret tt
  else
    _ ← modify win (fun w => set_dirty 1 (set_pos x y w));
    modg (set_composite 1).

(** The last window of the list that contains the point. *)
Fixpoint window_at (fuel : nat) (x y w result : Z) : wmop Z :=
  match fuel with
  | O => outside
  | S fuel =>
      if w =? 0 then mret result
      else
        v ← get w;
        window_at fuel x y (w_next v) (if c_true (w_visible v) && window_contains v x y then w else result)
  end.

Definition wm_get_window_at (x y : Z) : wmop Z :=
  head ← getg g_windows;
  window_at list_fuel x y head 0.

Definition wm_is_in_close_btn (w : window) (x y : Z) : bool :=
  let btn_x := i32 (w_x w + i32 (w_width w) - WM_BORDER_WIDTH - WM_CLOSE_BTN_MARG - WM_CLOSE_BTN_W) in
  let btn_y := i32 (w_y w + WM_BORDER_WIDTH + (WM_TITLE_HEIGHT - WM_CLOSE_BTN_H) / 2) in
  (btn_x <=? x) && (x <? i32 (btn_x + WM_CLOSE_BTN_W)) && (btn_y <=? y) && (y <? i32 (btn_y + WM_CLOSE_BTN_H)).

(** Left, top, width and height. *)
Definition wm_get_titlebar_rect (w : window) : Z * Z * Z * Z :=
  (i32 (w_x w + WM_BORDER_WIDTH), i32 (w_y w + WM_BORDER_WIDTH), u32 (w_width w - WM_BORDER_WIDTH * 2), WM_TITLE_HEIGHT).

(** ** List segments *)

(** The list [l] of windows leads from [p] to [q]. *)
Inductive lseg (W : gmap Z window) : Z -> list Z -> Z -> Prop :=
  | lseg_nil p : lseg W p [] p
  | lseg_cons p w l q : p <> 0 -> W !! p = Some w -> lseg W (w_next w) l q -> lseg W p (p :: l) q.

Definition chain (W : gmap Z window) (p : Z) (l : list Z) : Prop := lseg W p l 0.

Lemma lseg_app W l1 l2 q : forall p, lseg W p (l1 ++ l2) q <-> exists r, lseg W p l1 r /\ lseg W r l2 q.
Proof.
  induction l1 as [|x l1 IH]; intros p; cbn [app].
  - split; [intros H; exists p; split; [constructor|exact H]|]. intros (r & H1 & H2). inversion H1; subst. exact H2.
  - split.
    + intros H. inversion H as [|? w ? ? Hp Hw Ht]; subst. apply IH in Ht as (r & H1 & H2).
      exists r. split; [econstructor; eassumption|exact H2].
    + intros (r & H1 & H2). inversion H1 as [|? w ? ? Hp Hw Ht]; subst. econstructor; [exact Hp|exact Hw|].
      apply IH. exists r. auto.
Qed.

Lemma lseg_snoc W l x q p : lseg W p (l ++ [x]) q <-> lseg W p l x /\ x <> 0 /\ exists w, W !! x = Some w /\ w_next w = q.
Proof.
  rewrite lseg_app. split.
  - intros (r & H1 & H2). inversion H2 as [|? w ? ? Hp Hw Ht]; subst. inversion Ht; subst. eauto.
  - intros (H1 & Hx & w & Hw & <-). exists x. split; [exact H1|]. econstructor; [exact Hx|exact Hw|constructor].
Qed.

Lemma lseg_ext W W' l q : forall p, lseg W p l q ->
  (forall x w, x ∈ l -> W !! x = Some w -> exists w', W' !! x = Some w' /\ w_next w' = w_next w) -> lseg W' p l q.
Proof.
  induction l as [|x l IH]; intros p H E; inversion H as [|? w ? ? Hp Hw Ht]; subst; [constructor|].
  destruct (E x w ltac:(left) Hw) as (w' & Hw' & En). econstructor; [exact Hp|exact Hw'|]. rewrite En.
  apply IH; [exact Ht|]. intros y v Hy. apply E. right. exact Hy.
Qed.

Lemma lseg_insert W l p q x w : lseg W p l q -> x ∉ l -> lseg (<[x := w]> W) p l q.
Proof.
  intros H Hx. eapply lseg_ext; [exact H|]. intros y v Hy Hv. exists v. split; [|reflexivity].
  rewrite lookup_insert_ne; [exact Hv|]. intros ->. contradiction.
Qed.

Lemma lseg_live W l q : forall p, lseg W p l q -> forall x, x ∈ l -> x <> 0 /\ is_Some (W !! x).
Proof.
  induction l as [|y l IH]; intros p H x Hx; [inversion Hx|]. inversion H as [|? w ? ? Hp Hw Ht]; subst.
  apply elem_of_cons in Hx as [->|Hx]; [eauto|]. eapply IH; eassumption.
Qed.

Lemma chain_cons_inv W p x l : chain W p (x :: l) -> p = x /\ x <> 0 /\ exists w, W !! x = Some w /\ chain W (w_next w) l.
Proof. intros H. inversion H; subst. eauto. Qed.

Lemma chain_nil_inv W p : chain W p [] -> p = 0.
Proof. intros H. inversion H; subst. reflexivity. Qed.

Lemma chain_zero W l : chain W 0 l -> l = [].
Proof. intros H. inversion H; subst; [reflexivity|contradiction]. Qed.

(** ** Windows up to their links *)

Definition core (w : window) : window := set_next 0 w.

(** The two maps agree but for the links. *)
Definition relinked (W W' : gmap Z window) : Prop := core <$> W = core <$> W'.

#[export] Instance relinked_equiv : Equivalence relinked.
Proof.
  unfold relinked. split; [intros W; reflexivity|intros W W' H; symmetry; exact H|].
  intros W1 W2 W3 H1 H2. rewrite H1. exact H2.
Qed.

Lemma relinked_lookup W W' p w : relinked W W' -> W !! p = Some w -> exists q, W' !! p = Some (set_next q w).
Proof.
  intros H Hw. assert (E : (core <$> W') !! p = Some (core w)) by (rewrite <- H, lookup_fmap, Hw; reflexivity).
  rewrite lookup_fmap in E. destruct (W' !! p) as [w'|]; [|discriminate E]. injection E as E.
  exists (w_next w'). f_equal. destruct w, w'. unfold core, set_next in *. cbn in *. congruence.
Qed.

Lemma relinked_is_Some W W' p : relinked W W' -> is_Some (W !! p) <-> is_Some (W' !! p).
Proof.
  intros H. split; intros [w Hw]; [|symmetry in H]; destruct (relinked_lookup _ _ _ _ H Hw) as [q ->]; eauto.
Qed.

Lemma relinked_set_next W p w q : W !! p = Some w -> relinked W (<[p := set_next q w]> W).
Proof.
  intros Hw. unfold relinked. rewrite fmap_insert. symmetry. apply insert_id. rewrite lookup_fmap, Hw. reflexivity.
Qed.

#[export] Instance relinked_insert : Proper ((=) ==> (=) ==> relinked ==> relinked) (insert (M := gmap Z window)).
Proof. intros p ? <- w ? <- W W' H. unfold relinked in *. rewrite !fmap_insert, H. reflexivity. Qed.

(** The place in the order. *)
Definition z_of (W : gmap Z window) (p : Z) : Z := match W !! p with Some w => z_order w | None => 0 end.

Lemma z_of_relinked W W' p : relinked W W' -> z_of W' p = z_of W p.
Proof.
  intros H. unfold z_of. destruct (W !! p) as [w|] eqn:E.
  - destruct (relinked_lookup _ _ _ _ H E) as [q ->]. reflexivity.
  - destruct (W' !! p) as [w|] eqn:E'; [|reflexivity]. symmetry in H.
    destruct (relinked_lookup _ _ _ _ H E') as [q Eq]. congruence.
Qed.

Lemma zs_relinked W W' (l : list Z) : relinked W W' -> z_of W' <$> l = z_of W <$> l.
Proof. intros H. apply list_fmap_ext. intros i p _. apply z_of_relinked, H. Qed.

Lemma z_of_some W p w : W !! p = Some w -> z_of W p = z_order w.
Proof. intros H. unfold z_of. rewrite H. reflexivity. Qed.

(** ** Reading and writing *)

Lemma wm_bind_ret {A B} (m : wmop A) (k : A -> wmop B) s x s' : m s = Ret (x, s') -> (m ≫= k) s = k x s'.
Proof. intros E. unfold mbind, wmop_bind. rewrite E. reflexivity. Qed.

Lemma get_ok s p w : objects s !! p = Some w -> get p s = Ret (w, s).
Proof. intros H. unfold get. rewrite H. reflexivity. Qed.

Lemma modify_ok s p w f : objects s !! p = Some w -> modify p f s = Ret (tt, set_objects (<[p := f w]> (objects s)) s).
Proof. intros H. unfold modify. rewrite H. reflexivity. Qed.

(** One step of a computation whose first action is known. *)
Ltac wm_step E := rewrite (wm_bind_ret _ _ _ _ _ E).
Ltac wm_get H := rewrite (wm_bind_ret _ _ _ _ _ (get_ok _ _ _ H)).
Ltac wm_mod H := rewrite (wm_bind_ret _ _ _ _ _ (modify_ok _ _ _ _ H)).
Ltac wm_pure := unfold getg, modg; unfold mbind at 1, wmop_bind at 1.

(** ** The list operations *)

Lemma max_z_order_spec s (l : list Z) : forall fuel m p, chain (objects s) p l -> (length l < fuel)%nat ->
  max_z_order fuel m p s = Ret (foldl Z.max m (z_of (objects s) <$> l), s).
Proof.
  induction l as [|x l IH]; intros [|fuel] m p H Hf; cbn [length] in Hf; try lia; cbn [max_z_order].
  - rewrite (chain_nil_inv _ _ H). reflexivity.
  - apply chain_cons_inv in H as (-> & Hx & w & Hw & Ht). rewrite (proj2 (Z.eqb_neq _ _) Hx). wm_get Hw.
    rewrite (IH fuel _ _ Ht) by lia. rewrite fmap_cons. cbn [foldl]. rewrite (z_of_some _ _ _ Hw).
    f_equal. f_equal. f_equal. destruct (Z.ltb_spec m (z_order w)); lia.
Qed.

Lemma insert_point_spec s z l : forall fuel prev, chain (objects s) prev (prev :: l) -> (length l < fuel)%nat ->
  z_of (objects s) prev <= z ->
  exists l1 q l2, prev :: l = (l1 ++ [q]) ++ l2 /\ insert_point fuel z prev s = Ret (q, s) /\
    Forall (fun p => z_of (objects s) p <= z) (l1 ++ [q]) /\
    match l2 with [] => True | x :: _ => z < z_of (objects s) x end.
Proof.
  induction l as [|x l IH]; intros [|fuel] prev H Hf Hz; cbn [length] in Hf; try lia; cbn [insert_point];
    apply chain_cons_inv in H as (_ & Hp & w & Hw & Ht); wm_get Hw.
  - rewrite (chain_nil_inv _ _ Ht). exists [], prev, []. split; [reflexivity|]. split; [reflexivity|]. split; [|exact I].
    constructor; [exact Hz|constructor].
  - pose proof Ht as Ht'. apply chain_cons_inv in Ht as (E & Hx & v & Hv & _). rewrite E in *. rewrite (proj2 (Z.eqb_neq _ _) Hx). wm_get Hv.
    rewrite <- (z_of_some _ _ _ Hv). destruct (Z.leb_spec (z_of (objects s) x) z) as [Hle|Hgt].
    + destruct (IH fuel x Ht' ltac:(lia) Hle) as (l1 & q & l2 & El & R & F & T).
      exists (prev :: l1), q, l2. rewrite El. split; [reflexivity|]. split; [exact R|]. split; [|exact T].
      cbn [app]. constructor; assumption.
    + exists [], prev, (x :: l). split; [reflexivity|]. split; [reflexivity|]. split; [|exact Hgt]. constructor; [exact Hz|constructor].
Qed.

(** Inserting puts the window after those that are not higher. *)
Lemma insert_sorted_spec s l win w : chain (objects s) (g_windows s) l -> (length l < 17)%nat -> win <> 0 -> win ∉ l ->
  NoDup l -> objects s !! win = Some w ->
  exists h W l1 l2, insert_sorted win s = Ret (tt, set_windows h (set_objects W s)) /\ relinked (objects s) W /\
    l = l1 ++ l2 /\ chain W h (l1 ++ win :: l2) /\
    Forall (fun p => z_of (objects s) p <= z_order w) l1 /\
    match l2 with [] => True | x :: _ => z_order w < z_of (objects s) x end.
Proof.
  intros Hc Hf Hwin Hnin Hnd Hw. unfold insert_sorted, getg. unfold mbind at 1, wmop_bind at 1. wm_get Hw.
  assert (Front : match l with [] => True | x :: _ => z_order w < z_of (objects s) x end ->
    exists h W l1 l2, (_ ← modify win (set_next (g_windows s)); modg (set_windows win)) s = Ret (tt, set_windows h (set_objects W s)) /\
      relinked (objects s) W /\ l = l1 ++ l2 /\ chain W h (l1 ++ win :: l2) /\
      Forall (fun p => z_of (objects s) p <= z_order w) l1 /\ match l2 with [] => True | x :: _ => z_order w < z_of (objects s) x end).
  { intros T. exists win, (<[win := set_next (g_windows s) w]> (objects s)), [], l. wm_mod Hw. split; [reflexivity|].
    split; [apply relinked_set_next, Hw|]. split; [reflexivity|]. split; [|auto].
    cbn [app]. econstructor; [exact Hwin|apply lookup_insert_eq|]. apply lseg_insert; assumption. }
  destruct l as [|x l].
  { rewrite (chain_nil_inv _ _ Hc) in *. cbn. apply Front. exact I. }
  pose proof Hc as Hc'. apply chain_cons_inv in Hc' as (Eh & Hx & h & Hh & Ht). rewrite Eh in *.
  rewrite (proj2 (Z.eqb_neq _ _) Hx).
  assert (E1 : (h ← get x; mret (z_order w <? z_order h)) s = Ret (z_order w <? z_order h, s)) by (wm_get Hh; reflexivity).
  wm_step E1. destruct (Z.ltb_spec (z_order w) (z_order h)) as [Hlt|Hge].
  { apply Front. rewrite (z_of_some _ _ _ Hh). exact Hlt. }
  clear Front. cbn [length] in Hf.
  destruct (insert_point_spec s (z_order w) l list_fuel x Hc) as (l1 & q & l2 & El & R & F & T).
  { unfold list_fuel. lia. }
  { rewrite (z_of_some _ _ _ Hh). exact Hge. }
  wm_step R. unfold chain in Hc. rewrite El in Hc, Hnin, Hnd. rewrite lseg_app in Hc. destruct Hc as (r & Hc1 & Hc2).
  apply lseg_snoc in Hc1 as (Hc1 & Hq & v & Hv & Er). wm_get Hv.
  wm_mod Hw. assert (Nq : q <> win) by (intros ->; apply Hnin; set_solver).
  assert (Hv' : objects (set_objects (<[win:=set_next (w_next v) w]> (objects s)) s) !! q = Some v)
    by (cbn [objects set_objects]; rewrite lookup_insert_ne by congruence; exact Hv).
  rewrite (modify_ok _ _ _ _ Hv'). cbn [objects set_objects].
  exists (g_windows s), (<[q := set_next win v]> (<[win := set_next (w_next v) w]> (objects s))), (l1 ++ [q]), l2.
  split; [reflexivity|]. split.
  { etransitivity; [apply relinked_set_next, Hw|]. apply relinked_set_next. exact Hv'. }
  split; [exact El|]. split; [|split; [exact F|exact T]].
  apply NoDup_app in Hnd as (N1 & N12 & N2). apply NoDup_app in N1 as (_ & N1 & _).
  apply lseg_app. exists win. split.
  - apply lseg_snoc. split; [|split; [exact Hq|]].
    + rewrite Eh. apply lseg_insert; [apply lseg_insert; [exact Hc1|set_solver]|]. intros Hin. exact (N1 q Hin ltac:(left)).
    + exists (set_next win v). split; [apply lookup_insert_eq|reflexivity].
  - econstructor; [exact Hwin|rewrite lookup_insert_ne by congruence; apply lookup_insert_eq|].
    cbn [w_next set_next]. rewrite Er. apply lseg_insert; [apply lseg_insert; [exact Hc2|set_solver]|].
    apply N12. set_solver.
Qed.

Lemma unlink_after_spec s win l2 l1 : forall fuel prev, chain (objects s) prev (prev :: l1 ++ win :: l2) ->
  NoDup (prev :: l1 ++ win :: l2) -> (length l1 < fuel)%nat ->
  exists W, unlink_after fuel win prev s = Ret (tt, set_objects W s) /\ relinked (objects s) W /\
    chain W prev (prev :: l1 ++ l2) /\ forall y, y ∉ prev :: l1 -> W !! y = objects s !! y.
Proof.
  induction l1 as [|x l1 IH]; intros [|fuel] prev H N Hf; cbn [length] in Hf; try lia; cbn [unlink_after app] in *;
    apply chain_cons_inv in H as (_ & Hp & w & Hw & Ht); wm_get Hw; pose proof Ht as Ht';
    apply chain_cons_inv in Ht' as (E & Hx & v & Hv & Ht2); rewrite E in *; rewrite (proj2 (Z.eqb_neq _ _) Hx).
  - rewrite Z.eqb_refl. wm_get Hv. rewrite (modify_ok _ _ _ _ Hw). eexists. split; [reflexivity|].
    split; [apply relinked_set_next, Hw|]. apply NoDup_cons in N as [N1 N2]. split.
    + econstructor; [exact Hp|apply lookup_insert_eq|]. cbn [w_next set_next]. apply lseg_insert; [exact Ht2|set_solver].
    + intros y Hy. apply lookup_insert_ne. set_solver.
  - apply NoDup_cons in N as [N1 N2]. assert (Nx : x <> win).
    { intros ->. apply NoDup_cons in N2 as [N2 _]. apply N2. set_solver. }
    rewrite (proj2 (Z.eqb_neq _ _) Nx). destruct (IH fuel x Ht N2 ltac:(lia)) as (W & R & Rl & C & O).
    exists W. split; [exact R|]. split; [exact Rl|]. split; [|intros y Hy; apply O; apply not_elem_of_cons in Hy; apply Hy].
    econstructor; [exact Hp|rewrite O; [exact Hw|exact (fun Hin => N1 (proj2 (elem_of_app (x :: l1) _ _) (or_introl Hin)))]|]. rewrite E. exact C.
Qed.

(** Removing takes the window out. *)
Lemma remove_from_list_spec s l1 win l2 : chain (objects s) (g_windows s) (l1 ++ win :: l2) ->
  NoDup (l1 ++ win :: l2) -> (length (l1 ++ win :: l2) <= 17)%nat ->
  exists h W, remove_from_list win s = Ret (tt, set_windows h (set_objects W s)) /\ relinked (objects s) W /\
    chain W h (l1 ++ l2).
Proof.
  intros H N Hl. unfold remove_from_list, getg. unfold mbind at 1, wmop_bind at 1.
  destruct l1 as [|x l1]; cbn [app] in *; pose proof H as H'; apply chain_cons_inv in H' as (E & Hx & w & Hw & Ht);
    rewrite E in *; rewrite (proj2 (Z.eqb_neq _ _) Hx).
  - rewrite Z.eqb_refl. wm_get Hw. exists (w_next w), (objects s).
    destruct s; cbn. split; [reflexivity|]. split; [reflexivity|exact Ht].
  - assert (Nx : x <> win).
    { intros ->. apply NoDup_cons in N as [N _]. apply N. set_solver. }
    rewrite (proj2 (Z.eqb_neq _ _) Nx). cbn [length] in Hl. rewrite length_app in Hl. cbn [length] in Hl.
    destruct (unlink_after_spec s win l2 l1 list_fuel x H N) as (W & R & Rl & C & _); [unfold list_fuel; lia|].
    exists (g_windows s), W. split; [rewrite R; destruct s; reflexivity|]. split; [exact Rl|]. rewrite E. exact C.
Qed.

Lemma foldl_max_le (zs : list Z) : forall m z, m <= z -> Forall (fun x => x <= z) zs -> m <= foldl Z.max m zs <= z.
Proof.
  induction zs as [|x zs IH]; intros m z Hm Hz; cbn [foldl]; [lia|]. apply Forall_cons in Hz as [Hx Hz].
  specialize (IH (Z.max m x) z ltac:(lia) Hz). lia.
Qed.

Lemma foldl_max_ge (zs : list Z) : forall m, m <= foldl Z.max m zs /\ Forall (fun x => x <= foldl Z.max m zs) zs.
Proof.
  induction zs as [|x zs IH]; intros m; cbn [foldl]; [split; [lia|constructor]|].
  destruct (IH (Z.max m x)) as [H1 H2]. split; [lia|]. constructor; [lia|exact H2].
Qed.

(** The next place is above every window. *)
Lemma get_next_z_order_spec s l n : chain (objects s) (g_windows s) l -> (length l < 17)%nat ->
  Forall (fun p => z_of (objects s) p <= n) l -> 0 <= n < 4294967295 ->
  exists z, get_next_z_order s = Ret (z, s) /\ 1 <= z <= n + 1 /\ Forall (fun p => z_of (objects s) p < z) l.
Proof.
  intros Hc Hl Hz Hn. unfold get_next_z_order. wm_pure.
  wm_step (max_z_order_spec s l list_fuel 0 (g_windows s) Hc ltac:(unfold list_fuel; lia)).
  set (m := foldl Z.max 0 (z_of (objects s) <$> l)).
  assert (Hm : 0 <= m <= n) by (apply foldl_max_le; [lia|apply Forall_fmap; exact Hz]).
  exists (m + 1). rewrite u32_small by lia. split; [reflexivity|]. split; [lia|].
  destruct (foldl_max_ge (z_of (objects s) <$> l) 0) as [_ F]. rewrite Forall_fmap in F. fold m in F.
  eapply Forall_impl; [exact F|]. cbn. intros p Hp. lia.
Qed.

(** ** The point query *)

Definition covers (s : wm) (x y p : Z) : bool :=
  match objects s !! p with Some w => c_true (w_visible w) && window_contains w x y | None => false end.

Lemma window_at_spec s x y l : forall fuel p r, chain (objects s) p l -> (length l < fuel)%nat ->
  window_at fuel x y p r s = Ret (default r (last (filter (fun q => covers s x y q = true) l)), s).
Proof.
  induction l as [|q l IH]; intros [|fuel] p r H Hf; cbn [length] in Hf; try lia; cbn [window_at].
  - rewrite (chain_nil_inv _ _ H). reflexivity.
  - apply chain_cons_inv in H as (-> & Hq & w & Hw & Ht). rewrite (proj2 (Z.eqb_neq _ _) Hq). wm_get Hw.
    rewrite (IH fuel _ _ Ht) by lia. rewrite filter_cons.
    assert (Ec : covers s x y q = c_true (w_visible w) && window_contains w x y) by (unfold covers; rewrite Hw; reflexivity).
    rewrite <- Ec. destruct (covers s x y q).
    + rewrite decide_True by reflexivity. rewrite last_cons. destruct (last _); reflexivity.
    + rewrite decide_False by discriminate. reflexivity.
Qed.

(** ** The invariant *)

Definition below (W : gmap Z window) (p q : Z) : Prop := z_of W p < z_of W q.

(** The blocks of a window and of all windows: addresses and sizes. *)
Definition pixels_of (w : window) : Z := content_w w * content_h w.
Definition own (W : gmap Z window) (p : Z) : list (Z * Z) :=
  match W !! p with Some w => [(p, sizeof_window); (w_buffer w, pixels_of w * 4)] | None => [] end.
Definition owned (W : gmap Z window) (l : list Z) : list (Z * Z) := l ≫= own W.

Record window_ok (s : wm) (p : Z) (w : window) : Prop := {
  wo_focused : w_focused w = c_bool (p =? g_focused s);
  wo_width : w_width w = content_w w + 4;
  wo_height : w_height w = content_h w + 22;
  wo_content : 1 <= content_w w /\ 1 <= content_h w /\ pixels_of w * 4 <= HEAP_SIZE;
  wo_pixels : exists b, buffers s !! w_buffer w = Some b /\ length b = Z.to_nat (pixels_of w)
}.

(** [l] is the list of the windows, none with a place above [n]; [others] are
    the blocks of the heap that belong to others. *)
Record wm_mid (others : list (Z * Z)) (n : Z) (s : wm) (l : list Z) : Prop := {
  ok_chain : chain (objects s) (g_windows s) l;
  ok_nodup : NoDup l;
  ok_live : forall p, is_Some (objects s !! p) -> p ∈ l;
  ok_count : g_count s = Z.of_nat (length l) /\ (length l <= 16)%nat;
  ok_order : StronglySorted (below (objects s)) l;
  ok_top : 0 <= n /\ Forall (fun p => z_of (objects s) p <= n) l;
  ok_focus : g_focused s = 0 \/ g_focused s ∈ l;
  ok_window : forall p w, objects s !! p = Some w -> window_ok s p w;
  ok_heap : owns (heap s) (owned (objects s) l ++ others)
}.

Record wm_ok (others : list (Z * Z)) (n : Z) (s : wm) (l : list Z) : Prop := {
  ok_mid : wm_mid others n s l;
  ok_focus_top : g_focused s = 0 \/ last l = Some (g_focused s)
}.

Lemma owned_perm W l l' : l ≡ₚ l' -> owned W l ≡ₚ owned W l'.
Proof.
  unfold owned. induction 1; cbn; [reflexivity|rewrite IHPermutation; reflexivity| |etransitivity; eassumption].
  rewrite !app_assoc. apply Permutation_app_tail, Permutation_app_comm.
Qed.

(** Windows that change but keep their block and size. *)
Definition becomes (f : Z -> window -> window) (W W' : gmap Z window) : Prop :=
  forall q, match W !! q with Some w => exists k, W' !! q = Some (set_next k (f q w)) | None => W' !! q = None end.

Definition keeps_block (f : Z -> window -> window) : Prop :=
  forall q w, w_buffer (f q w) = w_buffer w /\ content_w (f q w) = content_w w /\ content_h (f q w) = content_h w /\
    w_width (f q w) = w_width w /\ w_height (f q w) = w_height w.

Lemma relinked_becomes W W' : relinked W W' -> becomes (fun _ w => w) W W'.
Proof.
  intros H q. destruct (W !! q) as [w|] eqn:E; [exact (relinked_lookup _ _ _ _ H E)|].
  destruct (W' !! q) eqn:E'; [|reflexivity]. symmetry in H. destruct (relinked_lookup _ _ _ _ H E') as [k Ek]. congruence.
Qed.

Lemma becomes_trans f g W W' W'' : becomes f W W' -> becomes g W' W'' ->
  (forall q k w, exists k', g q (set_next k w) = set_next k' (g q w)) -> becomes (fun q w => g q (f q w)) W W''.
Proof.
  intros H1 H2 C q. specialize (H1 q). specialize (H2 q). destruct (W !! q) as [w|].
  - destruct H1 as [k E1]. rewrite E1 in H2. destruct H2 as [k2 E2]. destruct (C q k (f q w)) as [k' Ec].
    exists k2. rewrite E2, Ec. reflexivity.
  - rewrite H1 in H2. exact H2.
Qed.

Lemma becomes_insert W p w g : W !! p = Some w -> becomes (fun q v => if q =? p then g v else v) W (<[p := g w]> W).
Proof.
  intros Hw q. destruct (Z.eqb_spec q p) as [->|Hq].
  - rewrite Hw, lookup_insert_eq. exists (w_next (g w)). destruct (g w); reflexivity.
  - rewrite lookup_insert_ne by congruence. destruct (W !! q) as [v|]; [|reflexivity].
    exists (w_next v). destruct v; reflexivity.
Qed.

Lemma becomes_some f W W' q w : becomes f W W' -> W !! q = Some w -> exists k, W' !! q = Some (set_next k (f q w)).
Proof. intros H E. specialize (H q). rewrite E in H. exact H. Qed.

Lemma becomes_back f W W' q w' : becomes f W W' -> W' !! q = Some w' ->
  exists w k, W !! q = Some w /\ w' = set_next k (f q w).
Proof.
  intros H E. specialize (H q). destruct (W !! q) as [w|]; [|congruence].
  destruct H as [k Ek]. exists w, k. split; [reflexivity|congruence].
Qed.

Lemma becomes_owned f W W' l : becomes f W W' -> keeps_block f -> owned W' l = owned W l.
Proof.
  intros H K. unfold owned. induction l as [|p l IH]; [reflexivity|]. cbn. rewrite IH. f_equal.
  unfold own. specialize (H p). destruct (W !! p) as [w|]; [|rewrite H; reflexivity].
  destruct H as [k Ek]. rewrite Ek. destruct (K p w) as (E1 & E2 & E3 & _). unfold pixels_of.
  cbn [w_buffer content_w content_h set_next]. rewrite E1, E2, E3. reflexivity.
Qed.

Lemma becomes_lseg_live f W W' q w : becomes f W W' -> W !! q = Some w -> is_Some (W' !! q).
Proof. intros H E. destruct (becomes_some _ _ _ _ _ H E) as [k Ek]. eauto. Qed.

(** ** Focusing *)

Definition without (p : Z) (l : list Z) : list Z := filter (fun q => q <> p) l.
Definition raised (l : list Z) (p : Z) : list Z := without p l ++ [p].

Lemma without_absent p l : p ∉ l -> without p l = l.
Proof.
  unfold without. induction l as [|x l IH]; intros H; [reflexivity|]. apply not_elem_of_cons in H as [Hx H].
  rewrite filter_cons_True by congruence. rewrite IH by exact H. reflexivity.
Qed.

Lemma without_split l1 p l2 : NoDup (l1 ++ p :: l2) -> without p (l1 ++ p :: l2) = l1 ++ l2.
Proof.
  intros N. apply NoDup_app in N as (_ & N1 & N2). apply NoDup_cons in N2 as [N2 _].
  unfold without. rewrite filter_app, filter_cons_False by auto. f_equal; apply without_absent; [|exact N2].
  intros H. exact (N1 p H ltac:(left)).
Qed.

Lemma raised_split l1 p l2 : NoDup (l1 ++ p :: l2) -> raised (l1 ++ p :: l2) p = (l1 ++ l2) ++ [p].
Proof. intros N. unfold raised. rewrite without_split by exact N. reflexivity. Qed.

Lemma raised_perm l p : NoDup l -> p ∈ l -> raised l p ≡ₚ l.
Proof.
  intros N H. apply list_elem_of_split in H as (l1 & l2 & ->). rewrite raised_split by exact N.
  rewrite <- app_assoc. apply Permutation_app_head. rewrite Permutation_app_comm. reflexivity.
Qed.

(** What focusing [win] at place [z] makes of a window. *)
Definition refocus (win z q : Z) (w : window) : window :=
  if q =? win then set_dirty 1 (set_z_order z (set_focused 1 w)) else set_focused 0 w.

Lemma refocus_keeps win z : keeps_block (refocus win z).
Proof. intros q w. unfold refocus. destruct (q =? win); cbn; auto. Qed.

(** The chain and the order, which the list operations keep. *)
Record list_ok (n : Z) (W : gmap Z window) (head : Z) (l : list Z) : Prop := {
  lo_chain : chain W head l;
  lo_nodup : NoDup l;
  lo_order : StronglySorted (below W) l;
  lo_top : 0 <= n /\ Forall (fun p => z_of W p <= n) l
}.

Lemma mid_list others n s l : wm_mid others n s l -> list_ok n (objects s) (g_windows s) l.
Proof. intros M. split; apply M. Qed.

Lemma sorted_z W W' l : (forall p, p ∈ l -> z_of W' p = z_of W p) -> StronglySorted (below W) l -> StronglySorted (below W') l.
Proof.
  intros E. induction 1 as [|p l S IH F]; constructor.
  - apply IH. intros q Hq. apply E. right. exact Hq.
  - apply Forall_forall. intros q Hq. rewrite Forall_forall in F. specialize (F q Hq). unfold below in *.
    rewrite !E; [exact F|right; exact Hq|left].
Qed.

(** Putting a window that is in no list on top at a new place. *)
Lemma put_on_top n s l win w z : list_ok n (objects s) (g_windows s) l -> (length l <= 16)%nat ->
  win <> 0 -> win ∉ l -> objects s !! win = Some w -> 0 <= z -> (forall p, p ∈ l -> z_of (objects s) p < z) ->
  exists h W k, (_ ← modify win (set_z_order z); insert_sorted win) s = Ret (tt, set_windows h (set_objects W s)) /\
    becomes (fun q w => if q =? win then set_z_order z w else w) (objects s) W /\
    list_ok z W h (l ++ [win]) /\ W !! win = Some (set_next k (set_z_order z w)).
Proof.
  intros [Hc Hn Ho [Hn0 Ht]] Hl Hnz Hnin Hw Hz Hlt. wm_mod Hw.
  set (w2 := set_z_order z w). set (W2 := <[win := w2]> (objects s)). set (s2 := set_objects W2 s).
  assert (Z2 : forall p, p ∈ l -> z_of W2 p = z_of (objects s) p).
  { intros p Hp. unfold W2, z_of. rewrite lookup_insert_ne by (intros ->; contradiction). reflexivity. }
  assert (HW2 : W2 !! win = Some w2) by apply lookup_insert_eq.
  destruct (insert_sorted_spec s2 l win w2) as (h & W & a & b & R & Rl & El & C & F & T); try assumption.
  { apply lseg_insert; assumption. }
  { lia. }
  assert (b = []) as ->.
  { destruct b as [|x b]; [reflexivity|]. exfalso. cbn [objects s2 set_objects] in T.
    assert (Hx : x ∈ l) by (rewrite El; apply elem_of_app; right; left).
    rewrite Z2 in T by exact Hx. specialize (Hlt x Hx). cbn [z_order w2 set_z_order] in T. lia. }
  rewrite app_nil_r in El. subst a. cbn [objects s2 set_objects] in Rl.
  destruct (relinked_lookup _ _ _ _ Rl HW2) as [k Hk].
  assert (Zl : forall p, p ∈ l -> z_of W p = z_of (objects s) p).
  { intros p Hp. rewrite (z_of_relinked _ _ p Rl). apply Z2, Hp. }
  assert (Zw : z_of W win = z) by (rewrite (z_of_some _ _ _ Hk); reflexivity).
  exists h, W, k. split; [rewrite R; destruct s; reflexivity|]. split; [|split; [split|exact Hk]].
  - intros q. pose proof (relinked_becomes _ _ Rl q) as B2. destruct (Z.eqb_spec q win) as [->|Hq].
    + rewrite Hw. exists k. exact Hk.
    + unfold W2 in B2. rewrite lookup_insert_ne in B2 by congruence. exact B2.
  - exact C.
  - apply NoDup_app. split; [exact Hn|]. split; [|apply NoDup_singleton]. intros x Hx Hx2.
    apply list_elem_of_singleton in Hx2 as ->. contradiction.
  - apply StronglySorted_app. split; [|split; [|repeat constructor]].
    + intros x y Hx Hy. apply list_elem_of_singleton in Hy as ->. unfold below. rewrite Zw, Zl by exact Hx. apply Hlt, Hx.
    + apply (sorted_z (objects s)); assumption.
  - split; [exact Hz|]. apply Forall_app. split; [|constructor; [lia|constructor]].
    apply Forall_forall. intros p Hp. rewrite Zl by exact Hp. specialize (Hlt p Hp). lia.
Qed.

Lemma NoDup_middle (l1 l2 : list Z) x : NoDup (l1 ++ x :: l2) -> NoDup (l1 ++ l2) /\ x ∉ l1 ++ l2.
Proof. intros N. rewrite <- Permutation_middle in N. apply NoDup_cons in N as [N1 N2]. auto. Qed.

(** A list without one of its windows, after the unlinking. *)
Lemma unlinked_ok n W W' h l1 win l2 head : list_ok n W head (l1 ++ win :: l2) -> relinked W W' -> chain W' h (l1 ++ l2) ->
  list_ok n W' h (l1 ++ l2).
Proof.
  intros [Hc Hn Ho [Hn0 Ht]] Rl C. split; [exact C|apply (NoDup_middle _ _ _ Hn)| |split; [exact Hn0|]].
  - apply (sorted_z W); [intros p _; apply z_of_relinked, Rl|].
    apply StronglySorted_app in Ho as (O12 & O1 & O2). apply StronglySorted_app. apply StronglySorted_inv in O2 as [O2 _].
    split; [|split; assumption]. intros x y Hx Hy. apply O12; [exact Hx|right; exact Hy].
  - apply Forall_app in Ht as [T1 T2]. apply Forall_cons in T2 as [_ T2]. apply Forall_app.
    split; (eapply Forall_impl; [eassumption|]); intros p; cbn beta; rewrite (z_of_relinked _ _ p Rl); auto.
Qed.

(** Taking a window out and putting it back on top at a new place. *)
Lemma restack n s l1 win l2 w z : list_ok n (objects s) (g_windows s) (l1 ++ win :: l2) ->
  (length (l1 ++ win :: l2) <= 16)%nat -> objects s !! win = Some w -> 0 <= z -> 
  (forall p, p ∈ l1 ++ l2 -> z_of (objects s) p < z) ->
  exists h W k, (_ ← remove_from_list win; _ ← modify win (set_z_order z); insert_sorted win) s = Ret (tt, set_windows h (set_objects W s)) /\
    becomes (fun q w => if q =? win then set_z_order z w else w) (objects s) W /\
    list_ok z W h ((l1 ++ l2) ++ [win]) /\ W !! win = Some (set_next k (set_z_order z w)).
Proof.
  intros L Hl Hw Hz Hlt. pose proof (lo_chain _ _ _ _ L) as Hc. pose proof (lo_nodup _ _ _ _ L) as Hn.
  destruct (remove_from_list_spec s l1 win l2 Hc Hn ltac:(lia)) as (h1 & W1 & R1 & Rl1 & C1). wm_step R1.
  destruct (relinked_lookup _ _ _ _ Rl1 Hw) as [k1 Hw1]. set (s1 := set_windows h1 (set_objects W1 s)).
  destruct (put_on_top n s1 (l1 ++ l2) win (set_next k1 w) z) as (h & W & k & R & B & L2 & Hk).
  - eapply unlinked_ok; eassumption.
  - rewrite length_app in *. cbn [length] in Hl. lia.
  - apply (lseg_live _ _ _ _ Hc). apply elem_of_app. right. left.
  - apply (NoDup_middle _ _ _ Hn).
  - exact Hw1.
  - exact Hz.
  - intros p Hp. cbn [objects s1 set_windows set_objects]. rewrite (z_of_relinked _ _ p Rl1). apply Hlt, Hp.
  - exists h, W, k. split; [rewrite R; destruct s; reflexivity|]. split; [|split; [exact L2|exact Hk]].
    intros q. pose proof (relinked_becomes _ _ Rl1 q) as B1. specialize (B q). cbn [objects s1 set_windows set_objects] in B.
    destruct (objects s !! q) as [v|]; [|rewrite B1 in B; exact B].
    destruct B1 as [k' E1]. rewrite E1 in B. destruct B as [k2 E2]. exists k2. rewrite E2. destruct (q =? win); reflexivity.
Qed.

Lemma wm_bind_assoc {A B C} (m : wmop A) (f : A -> wmop B) (g : B -> wmop C) s :
  ((m ≫= f) ≫= g) s = (m ≫= (fun x => f x ≫= g)) s.
Proof. unfold mbind, wmop_bind. destruct (m s) as [[x s1]| |]; reflexivity. Qed.

Lemma wm_bind3 {X} (a b c : wmop unit) (k : wmop X) s s' :
  (_ ← a; _ ← b; c) s = Ret (tt, s') -> (_ ← a; _ ← b; _ ← c; k) s = k s'.
Proof.
  unfold mbind, wmop_bind. destruct (a s) as [[[] s1]| |]; try discriminate.
  destruct (b s1) as [[[] s2]| |]; try discriminate. intros ->. reflexivity.
Qed.

Lemma elem_of_skip (l1 l2 : list Z) x p : p ∈ l1 ++ l2 -> p ∈ l1 ++ x :: l2.
Proof. rewrite !elem_of_app, elem_of_cons. tauto. Qed.

Lemma list_ok_ext n W W' head l : (forall x w, x ∈ l -> W !! x = Some w -> exists w', W' !! x = Some w' /\ w_next w' = w_next w /\ z_order w' = z_order w) ->
  list_ok n W head l -> list_ok n W' head l.
Proof.
  intros E [C N O [T0 T]].
  assert (Z : forall p, p ∈ l -> z_of W' p = z_of W p).
  { intros p Hp. destruct (lseg_live _ _ _ _ C p Hp) as [_ [w Hw]]. destruct (E p w Hp Hw) as (w' & Hw' & _ & Ez).
    rewrite (z_of_some _ _ _ Hw), (z_of_some _ _ _ Hw'). exact Ez. }
  split; [|exact N| |split; [exact T0|]].
  - eapply lseg_ext; [exact C|]. intros x w Hx Hw. destruct (E x w Hx Hw) as (w' & H1 & H2 & _). eauto.
  - eapply sorted_z; [exact Z|exact O].
  - apply Forall_forall. intros p Hp. rewrite Forall_forall in T. rewrite Z by exact Hp. apply T, Hp.
Qed.

Lemma list_ok_insert n W head l p w w' : W !! p = Some w -> w_next w' = w_next w -> z_order w' = z_order w ->
  list_ok n W head l -> list_ok n (<[p := w']> W) head l.
Proof.
  intros Hw En Ez. apply list_ok_ext. intros x v _ Hv. destruct (decide (x = p)) as [->|Hx].
  - exists w'. rewrite lookup_insert_eq. replace v with w by congruence. auto.
  - exists v. rewrite lookup_insert_ne by congruence. auto.
Qed.

(** The first part of [wm_focus_window]: the flags. *)
Lemma focus_flags others n s l win : wm_mid others n s l -> win ∈ l -> g_focused s <> win ->
  exists W, (_ ← (if g_focused s =? 0 then mret tt else modify (g_focused s) (set_focused 0)); modify win (set_focused 1)) s
      = Ret (tt, set_objects W s) /\
    list_ok n W (g_windows s) l /\
    becomes (fun q w => if q =? win then set_focused 1 w else set_focused 0 w) (objects s) W.
Proof.
  intros M Hwin Hf. pose proof (mid_list _ _ _ _ M) as L. destruct (lseg_live _ _ _ _ (lo_chain _ _ _ _ L) win Hwin) as [_ [w Hw]].
  assert (Step : exists W1, (if g_focused s =? 0 then mret tt else modify (g_focused s) (set_focused 0)) s = Ret (tt, set_objects W1 s) /\
    list_ok n W1 (g_windows s) l /\ (forall q, W1 !! q = (if q =? g_focused s then set_focused 0 <$> objects s !! q else objects s !! q))).
  { destruct (ok_focus _ _ _ _ M) as [E|Hold].
    - exists (objects s). rewrite E. split; [destruct s; reflexivity|]. split; [exact L|]. intros q.
      destruct (Z.eqb_spec q 0) as [->|]; [|reflexivity]. destruct (objects s !! 0) eqn:E0; [|reflexivity].
      exfalso. destruct (lseg_live _ _ _ _ (lo_chain _ _ _ _ L) 0) as [Hne _]; [|contradiction]. apply (ok_live _ _ _ _ M). eauto.
    - destruct (lseg_live _ _ _ _ (lo_chain _ _ _ _ L) _ Hold) as [Ho [v Hv]]. rewrite (proj2 (Z.eqb_neq _ _) Ho).
      rewrite (modify_ok _ _ _ _ Hv). eexists. split; [reflexivity|].
      split; [apply (list_ok_insert _ _ _ _ _ _ _ Hv); [reflexivity|reflexivity|exact L]|].
      intros q. destruct (Z.eqb_spec q (g_focused s)) as [->|Hq]; [rewrite lookup_insert_eq, Hv; reflexivity|].
      apply lookup_insert_ne. congruence. }
  destruct Step as (W1 & R1 & L1 & V1). wm_step R1.
  assert (Hw1 : W1 !! win = Some w).
  { rewrite V1. destruct (Z.eqb_spec win (g_focused s)); [congruence|exact Hw]. }
  assert (Hw1' : objects (set_objects W1 s) !! win = Some w) by exact Hw1. rewrite (modify_ok _ _ _ _ Hw1').
  exists (<[win := set_focused 1 w]> W1). split; [destruct s; reflexivity|].
  split; [apply (list_ok_insert _ _ _ _ _ _ _ Hw1); [reflexivity|reflexivity|exact L1]|].
  intros q. destruct (Z.eqb_spec q win) as [->|Hq].
  - rewrite Hw. exists (w_next w). rewrite lookup_insert_eq. destruct w; reflexivity.
  - rewrite lookup_insert_ne by congruence. rewrite V1. destruct (objects s !! q) as [v|] eqn:Hv.
    + destruct (Z.eqb_spec q (g_focused s)) as [E|E]; cbn [fmap option_fmap option_map].
      * exists (w_next v). destruct v; reflexivity.
      * exists (w_next v). pose proof (wo_focused _ _ _ (ok_window _ _ _ _ M q v Hv)) as F.
        rewrite (proj2 (Z.eqb_neq _ _) E) in F. cbn in F. destruct v; cbn in *. subst. reflexivity.
    + destruct (q =? g_focused s); reflexivity.
Qed.

Lemma window_ok_ext s s' p w w' : window_ok s p w -> w_focused w' = c_bool (p =? g_focused s') ->
  w_width w' = w_width w -> w_height w' = w_height w -> content_w w' = content_w w -> content_h w' = content_h w ->
  w_buffer w' = w_buffer w -> buffers s' = buffers s -> window_ok s' p w'.
Proof.
  intros [Hf Hw Hh Hc Hp] Ef Ew Eh Ecw Ech Eb EB. unfold pixels_of in *. split; [exact Ef|..]; unfold pixels_of; rewrite ?Ew, ?Eh, ?Ecw, ?Ech, ?Eb, ?EB; assumption.
Qed.

(** Focusing another window raises it to the top. *)
Lemma focus_mid others n s l win : wm_mid others n s l -> n < 4294967295 -> win ∈ l -> g_focused s <> win ->
  exists s' z, wm_focus_window win s = Ret (tt, s') /\ wm_ok others (n + 1) s' (raised l win) /\ g_focused s' = win /\
    becomes (refocus win z) (objects s) (objects s') /\ buffers s' = buffers s /\ heap s' = heap s /\
    desktop_color s' = desktop_color s /\ needs_composite s' = 1.
Proof.
  intros M Hn Hwin Hf. pose proof (mid_list _ _ _ _ M) as L. destruct (lseg_live _ _ _ _ (lo_chain _ _ _ _ L) win Hwin) as [Hnz [w Hw]].
  destruct (ok_count _ _ _ _ M) as [Hcnt Hlen].
  unfold wm_focus_window. rewrite (proj2 (Z.eqb_neq _ _) Hnz). wm_pure. rewrite (proj2 (Z.eqb_neq _ _) Hf).
  destruct (focus_flags others n s l win M Hwin Hf) as (W1 & R1 & L1 & B1).
  rewrite <- wm_bind_assoc. wm_step R1. wm_pure. set (s1 := set_focus win (set_objects W1 s)).
  destruct L1 as [C1 N1 O1 [T0 T1]].
  destruct (get_next_z_order_spec s1 l n C1 ltac:(lia) T1 ltac:(lia)) as (z & Rz & Hz & Fz). wm_step Rz.
  pose proof Hwin as Hsplit. apply list_elem_of_split in Hsplit as (l1 & l2 & El).
  assert (HwW : exists k0, W1 !! win = Some (set_next k0 (set_focused 1 w))).
  { destruct (becomes_some _ _ _ _ _ B1 Hw) as [k0 E]. rewrite Z.eqb_refl in E. eauto. }
  destruct HwW as [k0 Hw1].
  rewrite Forall_forall in Fz.
  destruct (restack n s1 l1 win l2 (set_next k0 (set_focused 1 w)) z) as (h & W2 & k & R2 & B2 & L2 & Hk).
  { rewrite <- El. split; [exact C1|exact N1|exact O1|exact (conj T0 T1)]. }
  { rewrite <- El. exact Hlen. }
  { exact Hw1. }
  { lia. }
  { intros p Hp. apply Fz. rewrite El. apply elem_of_skip, Hp. }
  rewrite (wm_bind3 _ _ _ _ _ _ R2).
  set (w3 := set_next k _) in Hk.
  assert (Hk' : objects (set_windows h (set_objects W2 s1)) !! win = Some w3) by exact Hk. wm_mod Hk'. unfold modg.
  cbn [objects set_windows set_objects s1 set_focus set_composite].
  set (W3 := <[win := set_dirty 1 w3]> W2). set (s' := set_composite 1 _).
  assert (B3 : becomes (refocus win z) (objects s) W3).
  { intros q. specialize (B1 q). specialize (B2 q). unfold refocus, W3. cbn [objects s1 set_focus set_objects] in B2.
    destruct (Z.eqb_spec q win) as [->|Hq].
    - rewrite Hw. exists k. rewrite lookup_insert_eq. reflexivity.
    - rewrite lookup_insert_ne by congruence. destruct (objects s !! q) as [v|].
      + destruct B1 as [k1 E1]. rewrite E1 in B2. destruct B2 as [k2 E2]. exists k2. rewrite E2, (proj2 (Z.eqb_neq _ _) Hq). reflexivity.
      + rewrite B1 in B2. exact B2. }
  assert (Er : raised l win = (l1 ++ l2) ++ [win]) by (rewrite El in N1 |- *; apply raised_split, N1).
  assert (L3 : list_ok (n + 1) W3 h (raised l win)).
  { rewrite Er. destruct (list_ok_insert z W2 h _ win w3 (set_dirty 1 w3) Hk eq_refl eq_refl L2) as [C3 N3 O3 [T3 T3']].
    split; [exact C3|exact N3|exact O3|]. split; [lia|]. eapply Forall_impl; [exact T3'|]. cbn beta. intros p Hp. change (z_of W3 p <= z) in Hp. lia. }
  exists s', z. split; [reflexivity|].
  split; [|split; [reflexivity|]; split; [exact B3|]; repeat split].
  split; [|right; rewrite Er; apply last_snoc].
  destruct L3 as [C3 N3 O3 T3]. split.
  - exact C3.
  - exact N3.
  - intros p [v Hv]. cbn [objects s' set_composite set_objects] in Hv. destruct (becomes_back _ _ _ _ _ B3 Hv) as (v0 & k4 & Hv0 & _).
    rewrite (raised_perm l win N1 Hwin). apply (ok_live _ _ _ _ M). eauto.
  - rewrite (raised_perm l win N1 Hwin). exact (conj Hcnt Hlen).
  - exact O3.
  - exact T3.
  - right. rewrite (raised_perm l win N1 Hwin). exact Hwin.
  - intros p v Hv. destruct (becomes_back _ _ _ _ _ B3 Hv) as (v0 & k4 & Hv0 & ->).
    pose proof (ok_window _ _ _ _ M p v0 Hv0) as Wo. apply (window_ok_ext s s' p v0); [exact Wo|..]; try reflexivity; cbn [g_focused s' set_composite set_objects set_windows set_focus s1];
      unfold refocus; destruct (p =? win); reflexivity.
  - cbn [heap objects s' s1 set_composite set_objects set_windows set_focus].
    rewrite (becomes_owned _ _ _ _ B3 (refocus_keeps win z)).
    eapply owns_perm; [|apply M]. rewrite (owned_perm _ _ _ (raised_perm l win N1 Hwin)). reflexivity.
Qed.

(** ** The operations keep the invariant *)

Lemma owned_ext W W' l : (forall p, p ∈ l -> W' !! p = W !! p) -> owned W' l = owned W l.
Proof.
  unfold owned. induction l as [|p l IH]; intros E; [reflexivity|]. cbn. rewrite IH by (intros q Hq; apply E; right; exact Hq).
  unfold own. rewrite E by left. reflexivity.
Qed.

Lemma owned_elem W l p w : p ∈ l -> W !! p = Some w ->
  (p, sizeof_window) ∈ owned W l /\ (w_buffer w, pixels_of w * 4) ∈ owned W l.
Proof.
  intros Hp Hw. unfold owned. split; apply list_elem_of_bind; exists p; (split; [|exact Hp]); unfold own; rewrite Hw; [left|right; left].
Qed.

(** The blocks with a window's own in front. *)
Lemma owned_split W l1 p l2 w : W !! p = Some w ->
  owned W (l1 ++ p :: l2) ≡ₚ (w_buffer w, pixels_of w * 4) :: (p, sizeof_window) :: owned W (l1 ++ l2).
Proof.
  intros Hw. transitivity (owned W (p :: l1 ++ l2)); [apply owned_perm; symmetry; apply Permutation_middle|].
  unfold owned. cbn. unfold own at 1. rewrite Hw. cbn. apply Permutation_swap.
Qed.

Lemma owns_size m ps p sz : owns m ps -> (p, sz) ∈ ps -> sz <= HEAP_SIZE.
Proof.
  intros [(bs & H1 & _ & H3) _] H. destruct (H3 p sz H) as (b & Hl & Hb).
  destruct (live_nonzero _ _ _ _ H1 Hl). lia.
Qed.

(** A change of a window that the list and the heap do not see. *)
Lemma touch_ok others n s l win w (g : window -> window) : wm_ok others n s l -> objects s !! win = Some w ->
  (forall v, w_next (g v) = w_next v /\ z_order (g v) = z_order v /\ w_focused (g v) = w_focused v) ->
  keeps_block (fun _ => g) ->
  let s' := set_composite 1 (set_objects (<[win := g w]> (objects s)) s) in
  wm_ok others n s' l /\ becomes (fun q v => if q =? win then g v else v) (objects s) (objects s').
Proof.
  intros [M Ft] Hw Hg Kb. destruct (Hg w) as (En & Ez & _).
  pose proof (becomes_insert (objects s) win w g Hw) as B. split; [|exact B].
  destruct (list_ok_insert n _ _ _ win w (g w) Hw En Ez (mid_list _ _ _ _ M)) as [C N O T].
  split; [|exact Ft]. destruct M as [_ _ Ml Mc _ _ Mf Mw Mh]. split; cbn [g_windows g_focused g_count objects heap set_composite set_objects]; try assumption.
  - intros p [v Hv]. destruct (becomes_back _ _ _ _ _ B Hv) as (v0 & k & E & _). apply Ml. eauto.
  - intros p v Hv. destruct (becomes_back _ _ _ _ _ B Hv) as (v0 & k & E & ->). destruct (Kb p v0) as (K1 & K2 & K3 & K4 & K5).
    destruct (Hg v0) as (_ & _ & Ef). pose proof (Mw p v0 E) as Wo.
    apply (window_ok_ext s _ p v0); [exact Wo|..]; cbn; destruct (p =? win); cbn; try congruence; try reflexivity; try (rewrite Ef); apply Wo.
  - rewrite (becomes_owned _ _ _ _ B); [exact Mh|]. intros q v. destruct (q =? win); [apply (Kb q)|auto].
Qed.

Lemma wm_move_ok others n s l win x y : wm_ok others n s l -> win ∈ l ->
  exists s', wm_move_window win x y s = Ret (tt, s') /\ wm_ok others n s' l /\
    becomes (fun q w => if q =? win then set_dirty 1 (set_pos x y w) else w) (objects s) (objects s') /\
    buffers s' = buffers s /\ g_focused s' = g_focused s.
Proof.
  intros Ok Hwin. destruct (lseg_live _ _ _ _ (ok_chain _ _ _ _ (ok_mid _ _ _ _ Ok)) win Hwin) as [Hnz [w Hw]].
  unfold wm_move_window. rewrite (proj2 (Z.eqb_neq _ _) Hnz). wm_mod Hw. eexists. split; [reflexivity|].
  destruct (touch_ok others n s l win w (fun w => set_dirty 1 (set_pos x y w)) Ok Hw) as [Ok' B]; [cbn; auto|intros q v; cbn; auto|].
  split; [exact Ok'|]. split; [exact B|auto].
Qed.

(** Focusing, whether or not the window has the focus. *)
Lemma wm_focus_ok others n s l win : wm_ok others n s l -> n < 4294967295 -> win ∈ l ->
  exists s' z, wm_focus_window win s = Ret (tt, s') /\ wm_ok others (n + 1) s' (raised l win) /\ g_focused s' = win /\
    becomes (fun q w => if g_focused s =? win then w else refocus win z q w) (objects s) (objects s') /\
    buffers s' = buffers s /\ heap s' = heap s.
Proof.
  intros [M Ft] Hn Hwin. destruct (Z.eqb_spec (g_focused s) win) as [E|E].
  2:{ destruct (focus_mid others n s l win M Hn Hwin E) as (s' & z & R & K & F & B & HB & HH & _). exists s', z. auto 7. }
  pose proof (mid_list _ _ _ _ M) as L. destruct (lseg_live _ _ _ _ (lo_chain _ _ _ _ L) win Hwin) as [Hnz [w Hw]].
  unfold wm_focus_window. rewrite (proj2 (Z.eqb_neq _ _) Hnz). wm_pure. rewrite E, Z.eqb_refl.
  rewrite (modify_ok _ _ _ _ Hw).
  assert (Es : set_objects (<[win := set_focused 1 w]> (objects s)) s = s).
  { rewrite insert_id; [destruct s; reflexivity|]. rewrite Hw. f_equal.
    pose proof (wo_focused _ _ _ (ok_window _ _ _ _ M win w Hw)) as F. rewrite E, Z.eqb_refl in F. destruct w; cbn in *. subst. reflexivity. }
  rewrite Es. exists s, 0. split; [reflexivity|].
  assert (Er : raised l win = l).
  { destruct Ft as [F0|F0]; [congruence|]. apply last_Some in F0 as [l' El]. rewrite E in El. rewrite El.
    pose proof (lo_nodup _ _ _ _ L) as N. rewrite El in N. rewrite raised_split by exact N. rewrite app_nil_r. reflexivity. }
  rewrite Er. split; [|split; [exact E|split; [|auto]]].
  - split; [|exact Ft]. destruct M as [a b c d e [f g] h i j]. split; try assumption. split; [lia|].
    eapply Forall_impl; [exact g|]. cbn beta. intros; lia.
  - intros q. destruct (objects s !! q) as [v|]; [|reflexivity]. exists (w_next v). destruct v; reflexivity.
Qed.

(** The state that [wm_destroy_window] leaves, given the list after the unlinking. *)
Definition destroyed (s : wm) (win : Z) (w : window) (h : Z) (W : gmap Z window) : wm :=
  mk_wm h (if g_focused s =? win then 0 else g_focused s) (i32 (g_count s - 1)) 1 (desktop_color s)
    (delete win W) (delete (w_buffer w) (buffers s)) (kfree (kfree (heap s) (w_buffer w)) win).

Lemma wm_destroy_run s win w h W : win <> 0 -> w_buffer w <> 0 ->
  remove_from_list win s = Ret (tt, set_windows h (set_objects W s)) -> relinked (objects s) W -> objects s !! win = Some w ->
  wm_destroy_window win s = Ret (tt, destroyed s win w h W).
Proof.
  intros Hnz Hbuf R Rl Hw. destruct (relinked_lookup _ _ _ _ Rl Hw) as [k Hw1].
  unfold wm_destroy_window. rewrite (proj2 (Z.eqb_neq _ _) Hnz). wm_step R. wm_pure.
  set (s2 := if g_focused _ =? win then _ else _).
  assert (E2 : s2 = mk_wm h (if g_focused s =? win then 0 else g_focused s) (g_count s) (needs_composite s) (desktop_color s) W (buffers s) (heap s))
    by (unfold s2; cbn [g_focused set_windows set_objects]; destruct (_ =? _); reflexivity).
  clearbody s2. subst s2. set (s2 := mk_wm _ _ _ _ _ _ _ _).
  assert (Hw2 : objects s2 !! win = Some (set_next k w)) by exact Hw1. wm_get Hw2. cbn [w_buffer set_next].
  rewrite (proj2 (Z.eqb_neq _ _) Hbuf). rewrite wm_bind_assoc. unfold free. wm_pure. rewrite wm_bind_assoc. wm_pure.
  set (s3 := set_buffers _ _). assert (Hw3 : objects s3 !! win = Some (set_next k w)) by exact Hw1. wm_mod Hw3.
  wm_pure. wm_pure. unfold modg, destroyed. f_equal. f_equal.
  cbn [g_windows g_focused g_count needs_composite desktop_color objects buffers heap set_windows set_focus set_count set_composite set_objects set_buffers set_heap s2 s3].
  rewrite delete_insert_eq. reflexivity.
Qed.

Lemma elem_of_middle (l1 l2 : list Z) x p : p ∈ l1 ++ x :: l2 -> p <> x -> p ∈ l1 ++ l2.
Proof. rewrite !elem_of_app, elem_of_cons. tauto. Qed.

Section destroy.
Context (others : list (Z * Z)) (n : Z) (s : wm) (l1 l2 : list Z) (win : Z) (w : window) (h : Z) (W : gmap Z window).
Context (M : wm_mid others n s (l1 ++ win :: l2)) (Hw : objects s !! win = Some w).
Context (Rl : relinked (objects s) W) (C : chain W h (l1 ++ l2)).

Lemma destroyed_lookup p : p ∈ l1 ++ l2 -> delete win W !! p = W !! p.
Proof.
  intros Hp. apply lookup_delete_ne. intros ->. apply (NoDup_middle _ _ _ (ok_nodup _ _ _ _ M)), Hp.
Qed.

Lemma destroyed_becomes : becomes (fun _ w => w) (delete win (objects s)) (delete win W).
Proof.
  intros q. pose proof (relinked_becomes _ _ Rl q) as B. destruct (decide (q = win)) as [->|Hq].
  - rewrite !lookup_delete_eq. reflexivity.
  - rewrite !lookup_delete_ne by congruence. exact B.
Qed.

Lemma destroyed_list : list_ok n (delete win W) h (l1 ++ l2).
Proof.
  eapply list_ok_ext; [|eapply unlinked_ok; [apply (mid_list _ _ _ _ M)|exact Rl|exact C]].
  intros p v Hp Hv. exists v. rewrite destroyed_lookup by exact Hp. auto.
Qed.

Lemma destroyed_owns : owns (kfree (kfree (heap s) (w_buffer w)) win) (owned (delete win W) (l1 ++ l2) ++ others).
Proof.
  rewrite (owned_ext W) by apply destroyed_lookup.
  rewrite (becomes_owned _ _ _ _ (relinked_becomes _ _ Rl)) by (intros q v; auto).
  apply (kfree_owns _ win sizeof_window), (kfree_owns _ (w_buffer w) (pixels_of w * 4)). eapply owns_perm; [|apply (ok_heap _ _ _ _ M)].
  rewrite (owned_split _ l1 win l2 w Hw). reflexivity.
Qed.

(** The arrays of the other windows are still there. *)
Lemma destroyed_buffer p v : p ∈ l1 ++ l2 -> objects s !! p = Some v -> w_buffer v <> w_buffer w.
Proof.
  intros Hp Hv E. pose proof (own_nodup _ _ (ok_heap _ _ _ _ M)) as ND.
  rewrite (owned_split _ l1 win l2 w Hw) in ND. cbn [app] in ND. rewrite fmap_cons in ND. apply NoDup_cons in ND as [ND _].
  apply ND, list_elem_of_fmap. exists (w_buffer v, pixels_of v * 4). split; [symmetry; exact E|].
  right. apply elem_of_app. left. apply (owned_elem _ _ p v Hp Hv).
Qed.

Lemma destroyed_window p v : delete win W !! p = Some v -> window_ok (destroyed s win w h W) p v /\ p ∈ l1 ++ l2.
Proof.
  intros Hv. destruct (becomes_back _ _ _ _ _ destroyed_becomes Hv) as (v0 & k0 & Hv0 & ->).
  destruct (decide (p = win)) as [->|Hp]; [rewrite lookup_delete_eq in Hv0; discriminate Hv0|].
  rewrite lookup_delete_ne in Hv0 by congruence. destruct (ok_window _ _ _ _ M p v0 Hv0) as [Wf Ww Wh Wc (b & Wb & Wl)].
  assert (Hpl : p ∈ l1 ++ l2) by (apply (elem_of_middle _ _ win); [apply (ok_live _ _ _ _ M); eauto|exact Hp]).
  split; [|exact Hpl]. split; try assumption.
  - cbn [w_focused set_next g_focused destroyed]. rewrite Wf. f_equal.
    assert (Pnz : p <> 0) by (apply (lseg_live _ _ _ _ C p Hpl)).
    destruct (Z.eqb_spec (g_focused s) win) as [E|E]; [|reflexivity]. rewrite E.
    rewrite (proj2 (Z.eqb_neq _ _) Hp), (proj2 (Z.eqb_neq _ _) Pnz). reflexivity.
  - exists b. cbn [buffers destroyed w_buffer set_next]. split; [|exact Wl].
    rewrite lookup_delete_ne; [exact Wb|]. apply not_eq_sym, (destroyed_buffer p); assumption.
Qed.

Lemma destroyed_mid : wm_mid others n (destroyed s win w h W) (l1 ++ l2).
Proof.
  destruct destroyed_list as [C3 N3 O3 T3]. destruct (ok_count _ _ _ _ M) as [Hcnt Hlen]. split.
  - exact C3.
  - exact N3.
  - intros p [v Hv]. apply (destroyed_window p v Hv).
  - rewrite length_app in *. cbn [length g_count destroyed] in *. rewrite Hcnt, i32_small by lia. lia.
  - exact O3.
  - exact T3.
  - cbn [g_focused destroyed]. destruct (Z.eqb_spec (g_focused s) win) as [E|E]; [left; reflexivity|].
    destruct (ok_focus _ _ _ _ M) as [F|F]; [left; exact F|right; eapply elem_of_middle; eassumption].
  - intros p v Hv. apply (destroyed_window p v Hv).
  - apply destroyed_owns.
Qed.
End destroy.

Lemma last_without (l1 l2 : list Z) x y : last (l1 ++ x :: l2) = Some y -> y <> x -> last (l1 ++ l2) = Some y.
Proof.
  destruct l2 as [|z l2 _] using rev_ind; intros H Hy; [rewrite last_snoc in H; congruence|].
  rewrite app_comm_cons, app_assoc, last_snoc in H. rewrite app_assoc, last_snoc. exact H.
Qed.

(** Destroying gives both blocks back. *)
Lemma wm_destroy_ok others n s l1 win l2 : wm_ok others n s (l1 ++ win :: l2) ->
  exists w h W, wm_destroy_window win s = Ret (tt, destroyed s win w h W) /\ objects s !! win = Some w /\ relinked (objects s) W /\
    wm_ok others n (destroyed s win w h W) (l1 ++ l2).
Proof.
  intros [M Ft]. pose proof (mid_list _ _ _ _ M) as L.
  assert (Hwin : win ∈ l1 ++ win :: l2) by (apply elem_of_app; right; left).
  destruct (lseg_live _ _ _ _ (lo_chain _ _ _ _ L) win Hwin) as [Hnz [w Hw]].
  destruct (ok_count _ _ _ _ M) as [_ Hlen].
  destruct (remove_from_list_spec s l1 win l2 (lo_chain _ _ _ _ L) (lo_nodup _ _ _ _ L) ltac:(lia)) as (h & W & R & Rl & C).
  assert (Hbuf : w_buffer w <> 0).
  { eapply owns_nonzero; [apply (ok_heap _ _ _ _ M)|apply elem_of_app; left; apply (owned_elem _ _ win w Hwin Hw)]. }
  exists w, h, W. split; [eapply wm_destroy_run; eassumption|]. split; [exact Hw|]. split; [exact Rl|].
  split; [eapply destroyed_mid; eassumption|]. cbn [g_focused destroyed].
  destruct (Z.eqb_spec (g_focused s) win) as [E|E]; [left; reflexivity|].
  destruct Ft as [F|F]; [left; exact F|right; eapply last_without; eassumption].
Qed.

(** ** Creating a window *)

Lemma fill_words_replicate n v : forall b, length b = n -> fill_words n v b = Ret (replicate n v).
Proof.
  induction n as [|n IH]; intros [|x b] H; cbn [length] in H; try lia; [reflexivity|].
  cbn [fill_words replicate]. rewrite (IH b) by lia. reflexivity.
Qed.

(** The structure before it has a place in the list. *)
Definition new_window (x y content_w content_h : Z) (title : list Z) (buffer : Z) : window :=
  mk_window x y (content_w + 4) (content_h + 22) content_w content_h (take (Z.to_nat WM_MAX_TITLE_LEN) title) 0 1 0 buffer 1 0.

(** The state when the window is in the list and not yet focused. *)
Definition created (s : wm) (win buffer : Z) (px : nat) (h : Z) (W : gmap Z window) (m : mem) : wm :=
  mk_wm h (g_focused s) (i32 (g_count s + 1)) (needs_composite s) (desktop_color s) W
    (<[buffer := replicate px (color_to_pixel WM_CONTENT_BG)]> (buffers s)) m.

Lemma owned_dom W l p : p ∈ l -> is_Some (W !! p) -> p ∈ (owned W l).*1.
Proof.
  intros Hp [w Hw]. apply list_elem_of_fmap. exists (p, sizeof_window). split; [reflexivity|]. apply (owned_elem _ _ _ _ Hp Hw).
Qed.

Section create.
Context (others : list (Z * Z)) (n : Z) (s : wm) (l : list Z) (win buffer : Z) (m : mem).
Context (x y cw ch : Z) (title : list Z).
Context (M : wm_mid others n s l) (Hlen : (length l < 16)%nat).
Context (Hcw : 1 <= cw) (Hch : 1 <= ch).
Context (Own : owns m ((buffer, cw * ch * 4) :: (win, sizeof_window) :: owned (objects s) l ++ others)).

Let w0 := new_window x y cw ch title buffer.
Let W0 := <[win := w0]> (objects s).

Lemma created_fresh : win ∉ l.
Proof.
  intros Hin. pose proof (own_nodup _ _ Own) as ND. cbn [fmap list_fmap fst] in ND. apply NoDup_cons in ND as [_ ND].
  apply NoDup_cons in ND as [ND _]. apply ND. rewrite fmap_app. apply elem_of_app. left.
  apply owned_dom; [exact Hin|]. apply (lseg_live _ _ _ _ (ok_chain _ _ _ _ M)), Hin.
Qed.

Lemma created_unused : objects s !! win = None.
Proof.
  destruct (objects s !! win) as [v|] eqn:E; [|reflexivity]. exfalso. apply created_fresh, (ok_live _ _ _ _ M). eauto.
Qed.

Lemma created_buffer p v : p ∈ l -> objects s !! p = Some v -> w_buffer v <> buffer.
Proof.
  intros Hp Hv E. pose proof (own_nodup _ _ Own) as ND. cbn [fmap list_fmap fst] in ND. apply NoDup_cons in ND as [ND _].
  apply ND. right. apply list_elem_of_fmap. exists (w_buffer v, pixels_of v * 4). split; [symmetry; exact E|].
  apply elem_of_app. left. apply (owned_elem _ _ _ _ Hp Hv).
Qed.

Lemma created_bounds : cw * ch * 4 <= HEAP_SIZE /\ win <> 0.
Proof.
  split; [eapply owns_size; [exact Own|left]|eapply owns_nonzero; [exact Own|right; left]].
Qed.

Lemma created_list : list_ok n W0 (g_windows s) l.
Proof.
  eapply list_ok_ext; [|apply (mid_list _ _ _ _ M)]. intros p v Hp Hv. exists v. unfold W0.
  rewrite lookup_insert_ne; [auto|]. intros <-. apply created_fresh, Hp.
Qed.

Lemma created_mid z h W k : list_ok z W h (l ++ [win]) -> z <= n + 1 ->
  becomes (fun q w => if q =? win then set_z_order z w else w) W0 W -> W !! win = Some (set_next k (set_z_order z w0)) ->
  wm_mid others (n + 1) (created s win buffer (Z.to_nat (cw * ch)) h W m) (l ++ [win]).
Proof.
  intros [C N O [T0 T]] Hz B Hk. destruct (ok_count _ _ _ _ M) as [Hcnt _]. pose proof created_fresh as Fr. pose proof created_bounds as [Bd _].
  assert (Old : forall p v, W !! p = Some v -> p <> win -> exists v0 k0, objects s !! p = Some v0 /\ v = set_next k0 v0 /\ p ∈ l).
  { intros p v Hv Hp. destruct (becomes_back _ _ _ _ _ B Hv) as (v0 & k0 & Hv0 & ->). rewrite (proj2 (Z.eqb_neq _ _) Hp).
    unfold W0 in Hv0. rewrite lookup_insert_ne in Hv0 by congruence. exists v0, k0. split; [exact Hv0|]. split; [reflexivity|].
    apply (ok_live _ _ _ _ M). eauto. }
  split.
  - exact C.
  - exact N.
  - cbn [objects created]. intros p [v Hv]. apply elem_of_app. destruct (decide (p = win)) as [->|Hp]; [right; left|left].
    destruct (Old p v Hv Hp) as (_ & _ & _ & _ & H). exact H.
  - cbn [g_count created]. rewrite length_app, Hcnt. cbn [length]. rewrite i32_small by lia. lia.
  - exact O.
  - split; [destruct (ok_top _ _ _ _ M); lia|]. eapply Forall_impl; [exact T|]. cbn beta. cbn [objects created]. intros; lia.
  - cbn [g_focused created]. destruct (ok_focus _ _ _ _ M) as [F|F]; [left; exact F|right; apply elem_of_app; left; exact F].
  - cbn [objects created]. intros p v Hv. destruct (decide (p = win)) as [->|Hp].
    + rewrite Hk in Hv. injection Hv as <-. split; cbn.
      * destruct (Z.eqb_spec win (g_focused s)) as [E|E]; [|reflexivity]. exfalso.
        destruct (ok_focus _ _ _ _ M) as [F|F]; [|apply Fr; rewrite E; exact F]. apply (proj2 created_bounds). congruence.
      * reflexivity.
      * reflexivity.
      * unfold pixels_of. cbn. lia.
      * exists (replicate (Z.to_nat (cw * ch)) (color_to_pixel WM_CONTENT_BG)). split; [apply lookup_insert_eq|apply length_replicate].
    + destruct (Old p v Hv Hp) as (v0 & k0 & Hv0 & -> & Hpl). destruct (ok_window _ _ _ _ M p v0 Hv0) as [Wf Ww Wh Wc (b & Wb & Wl)].
      split; try assumption. exists b. split; [|exact Wl]. cbn [buffers created w_buffer set_next].
      rewrite lookup_insert_ne; [exact Wb|]. apply not_eq_sym, (created_buffer p); assumption.
  - cbn [heap objects created]. eapply owns_perm; [|exact Own].
    assert (E : owned W (l ++ [win]) ≡ₚ (buffer, cw * ch * 4) :: (win, sizeof_window) :: owned W l).
    { etransitivity; [apply (owned_split W l win [] _ Hk)|]. rewrite app_nil_r. reflexivity. }
    rewrite E. cbn [app]. do 2 apply Permutation_skip. apply Permutation_app_tail.
    rewrite (becomes_owned _ _ _ _ B) by (intros q v; destruct (q =? win); cbn; auto).
    unfold W0. rewrite (owned_ext (objects s) (<[win := w0]> (objects s))); [reflexivity|]. intros p Hp. apply lookup_insert_ne. intros <-. contradiction.
Qed.
End create.

(** The part that builds the structure and its array, when there is room. *)
Lemma create_prefix s x y cw ch title win m1 buffer m2 : 1 <= cw -> 1 <= ch -> cw * ch * 4 < 4294967292 - 16 -> 
  kmalloc (heap s) sizeof_window = Some (m1, win) -> win <> 0 ->
  kmalloc m1 (cw * ch * 4) = Some (m2, buffer) -> buffer <> 0 -> cw * ch * 4 <= HEAP_SIZE -> g_count s < 16 ->
  wm_create_window x y cw ch title s =
    (z ← get_next_z_order;
     _ ← modify win (set_z_order z);
     _ ← insert_sorted win;
     _ ← modg (fun s => set_count (i32 (g_count s + 1)) s);
     _ ← wm_focus_window win;
     _ ← modg (set_composite 1);
     mret win)
    (mk_wm (g_windows s) (g_focused s) (g_count s) (needs_composite s) (desktop_color s)
       (<[win := new_window x y cw ch title buffer]> (objects s))
       (<[buffer := replicate (Z.to_nat (cw * ch)) (color_to_pixel WM_CONTENT_BG)]> (buffers s)) m2).
Proof.
  intros Hcw Hch Hb K1 N1 K2 N2 Hs Hcount. unfold HEAP_SIZE in Hs.
  assert (Bw : cw <= 65536 /\ ch <= 65536 /\ 1 <= cw * ch) by nia.
  unfold wm_create_window. wm_pure. unfold WM_MAX_WINDOWS. rewrite (proj2 (Z.leb_gt _ _)) by lia.
  assert (E1 : malloc sizeof_window s = Ret (win, set_heap m1 s)) by (unfold malloc; rewrite K1; reflexivity). wm_step E1.
  rewrite (proj2 (Z.eqb_neq _ _) N1). cbv zeta. wm_pure. rewrite !u32_small by lia. set (s2 := set_objects _ _).
  assert (E2 : malloc (cw * ch * 4) s2 = Ret (buffer, set_heap m2 s2)) by (unfold malloc; change (heap s2) with m1; rewrite K2; reflexivity).
  wm_step E2. rewrite (proj2 (Z.eqb_neq _ _) N2).
  set (w1 := compute_window_size _) in s2. assert (E3 : objects (set_heap m2 s2) !! win = Some w1) by apply lookup_insert_eq. wm_mod E3.
  set (s4 := set_objects _ _).
  assert (E4 : new_buffer buffer (cw * ch * 4) (cw * ch) (color_to_pixel WM_CONTENT_BG) s4 =
    Ret (tt, set_buffers (<[buffer := replicate (Z.to_nat (cw * ch)) (color_to_pixel WM_CONTENT_BG)]> (buffers s4)) s4)).
  { unfold new_buffer. rewrite fill_words_replicate; [reflexivity|]. rewrite length_replicate, Z.div_mul by lia. reflexivity. }
  wm_step E4. f_equal. unfold s4, s2, set_buffers, set_objects, set_heap.
  cbn [g_windows g_focused g_count needs_composite desktop_color objects buffers heap]. rewrite insert_insert_eq.
  assert (E : set_buffer buffer w1 = new_window x y cw ch title buffer).
  { unfold w1, compute_window_size, new_window, set_size, set_buffer, WM_BORDER_WIDTH, WM_TITLE_HEIGHT.
    cbn. rewrite !u32_small by lia. f_equal; lia. }
  rewrite E. reflexivity.
Qed.

(** When the window is in place: counted and focused. *)
Lemma create_suffix others n s l win buffer m x y cw ch title : wm_ok others n s l -> (length l < 16)%nat -> 1 <= cw -> 1 <= ch ->
  n < 4294967294 -> owns m ((buffer, cw * ch * 4) :: (win, sizeof_window) :: owned (objects s) l ++ others) ->
  let W0 := <[win := new_window x y cw ch title buffer]> (objects s) in
  let B0 := <[buffer := replicate (Z.to_nat (cw * ch)) (color_to_pixel WM_CONTENT_BG)]> (buffers s) in
  exists s' z, (z ← get_next_z_order;
     _ ← modify win (set_z_order z);
     _ ← insert_sorted win;
     _ ← modg (fun s => set_count (i32 (g_count s + 1)) s);
     _ ← wm_focus_window win;
     _ ← modg (set_composite 1);
     mret win) (mk_wm (g_windows s) (g_focused s) (g_count s) (needs_composite s) (desktop_color s) W0 B0 m) = Ret (win, s') /\
    wm_ok others (n + 2) s' (l ++ [win]) /\ g_focused s' = win /\ becomes (refocus win z) W0 (objects s') /\
    buffers s' = B0 /\ heap s' = m.
Proof.
  intros [M Ft] Hlen Hcw Hch Hn Own W0 B0. set (s0 := mk_wm _ _ _ _ _ W0 B0 m).
  pose proof (created_fresh others n s l win buffer m cw ch M Own) as Fr.
  pose proof (created_list others n s l win buffer m x y cw ch title M Own) as L0. fold W0 in L0.
  pose proof (created_bounds others s l win buffer m cw ch Own) as [_ Hnz].
  destruct (get_next_z_order_spec s0 l n (lo_chain _ _ _ _ L0) ltac:(lia) (proj2 (lo_top _ _ _ _ L0))) as (z0 & Rz & Hz & Fz).
  { split; [apply (ok_top _ _ _ _ M)|lia]. }
  wm_step Rz. rewrite Forall_forall in Fz.
  destruct (put_on_top n s0 l win (new_window x y cw ch title buffer) z0 L0) as (h & W & k & R & B & L1 & Hk); try assumption; try lia.
  { apply lookup_insert_eq. }
  rewrite <- wm_bind_assoc. wm_step R. wm_pure.
  pose proof (created_mid others n s l win buffer m x y cw ch title M Hlen Hcw Hch Own z0 h W k L1 ltac:(lia) B Hk) as M1.
  change (set_count _ _) with (created s win buffer (Z.to_nat (cw * ch)) h W m). set (s1 := created _ _ _ _ _ _ _) in *.
  assert (Hwin : win ∈ l ++ [win]) by (apply elem_of_app; right; left).
  assert (Hf : g_focused s1 <> win).
  { change (g_focused s <> win). intros E. destruct (ok_focus _ _ _ _ M) as [F|F]; [congruence|]. apply Fr. rewrite <- E. exact F. }
  destruct (focus_mid others (n + 1) s1 (l ++ [win]) win M1 ltac:(lia) Hwin Hf) as (s' & z & Rf & Ok & F & Bf & HB & HH & _ & Nc).
  wm_step Rf. wm_pure. exists (set_composite 1 s'), z. split; [reflexivity|].
  assert (Es : set_composite 1 s' = s') by (rewrite <- Nc; destruct s'; reflexivity). rewrite Es.
  rewrite raised_split, app_nil_r in Ok by apply (ok_nodup _ _ _ _ M1). replace (n + 1 + 1) with (n + 2) in Ok by lia.
  split; [exact Ok|]. split; [exact F|]. split; [|split; [exact HB|exact HH]].
  intros q. specialize (B q). specialize (Bf q). change (objects s0) with W0 in B. change (objects s1) with W in Bf.
  destruct (W0 !! q) as [v|]; [|rewrite B in Bf; exact Bf].
  destruct B as [k1 E1]. rewrite E1 in Bf. destruct Bf as [k2 E2]. exists k2. rewrite E2. unfold refocus. destruct (q =? win); reflexivity.
Qed.

(** No room for the pixels: the structure is given back. *)
Lemma create_rejected s x y cw ch title win m1 : 0 <= cw * ch * 4 < 4294967296 ->
  kmalloc (heap s) sizeof_window = Some (m1, win) -> win <> 0 -> kmalloc m1 (cw * ch * 4) = Some (m1, 0) ->
  objects s !! win = None -> g_count s < 16 ->
  wm_create_window x y cw ch title s = Ret (0, set_heap (kfree m1 win) s).
Proof.
  intros Hb K1 N1 K2 Hno Hcount. unfold wm_create_window. wm_pure. unfold WM_MAX_WINDOWS. rewrite (proj2 (Z.leb_gt _ _)) by lia.
  assert (E1 : malloc sizeof_window s = Ret (win, set_heap m1 s)) by (unfold malloc; rewrite K1; reflexivity). wm_step E1.
  rewrite (proj2 (Z.eqb_neq _ _) N1). cbv zeta. wm_pure. rewrite !u32_small by lia. set (s2 := set_objects _ _).
  assert (E2 : malloc (cw * ch * 4) s2 = Ret (0, set_heap m1 s2)) by (unfold malloc; change (heap s2) with m1; rewrite K2; reflexivity).
  wm_step E2. cbn [Z.eqb]. unfold free. wm_pure. wm_pure. unfold s2, set_objects, set_heap.
  cbn [g_windows g_focused g_count needs_composite desktop_color objects buffers heap]. rewrite delete_insert_id by exact Hno. reflexivity.
Qed.

Lemma wm_ok_set_heap others n s l m : wm_ok others n s l -> owns m (owned (objects s) l ++ others) -> wm_ok others n (set_heap m s) l.
Proof.
  intros [[a b c d e f g h i] j] Own. split; [|exact j]. split; try assumption.
  intros p w Hp. destruct (h p w Hp). split; assumption.
Qed.

(** Creating either finds no room and leaves the windows, or adds the window on top. *)
Lemma wm_create_ok others n s l x y cw ch title : wm_ok others n s l -> 1 <= cw -> 1 <= ch -> cw * ch * 4 <= 4294967200 ->
  n < 4294967294 ->
  exists p s', wm_create_window x y cw ch title s = Ret (p, s') /\
    if p =? 0 then wm_ok others n s' l /\ objects s' = objects s /\ buffers s' = buffers s /\ g_focused s' = g_focused s
    else exists buffer m1 z, wm_ok others (n + 2) s' (l ++ [p]) /\ g_focused s' = p /\ (p ∉ l) /\
      kmalloc (heap s) sizeof_window = Some (m1, p) /\ kmalloc m1 (cw * ch * 4) = Some (heap s', buffer) /\ buffer <> 0 /\
      becomes (refocus p z) (<[p := new_window x y cw ch title buffer]> (objects s)) (objects s') /\
      buffers s' = <[buffer := replicate (Z.to_nat (cw * ch)) (color_to_pixel WM_CONTENT_BG)]> (buffers s) /\
      forall q w, q ∈ l -> objects s !! q = Some w -> w_buffer w <> buffer.
Proof.
  intros Ok Hcw Hch Hsz Hn. pose proof (ok_mid _ _ _ _ Ok) as M. destruct (ok_count _ _ _ _ M) as [Hcnt Hlen].
  destruct (decide (length l = 16%nat)) as [Hfull|Hlt].
  { exists 0, s. split; [|exact (conj Ok (conj eq_refl (conj eq_refl eq_refl)))]. unfold wm_create_window. wm_pure. unfold WM_MAX_WINDOWS. rewrite (proj2 (Z.leb_le _ _)) by lia. reflexivity. }
  destruct (kmalloc_owns _ _ sizeof_window (ok_heap _ _ _ _ M)) as (m1 & win & K1 & O1); [unfold sizeof_window; lia|].
  destruct (Z.eqb_spec win 0) as [->|Hw0].
  { exists 0, s. subst m1. split; [|exact (conj Ok (conj eq_refl (conj eq_refl eq_refl)))]. unfold wm_create_window. wm_pure. unfold WM_MAX_WINDOWS. rewrite (proj2 (Z.leb_gt _ _)) by lia.
    assert (E1 : malloc sizeof_window s = Ret (0, set_heap (heap s) s)) by (unfold malloc; rewrite K1; reflexivity). wm_step E1. destruct s; reflexivity. }
  destruct (kmalloc_owns _ _ (cw * ch * 4) O1) as (m2 & buffer & K2 & O2); [nia|].
  destruct (Z.eqb_spec buffer 0) as [->|Hb0].
  - subst m2. exists 0, (set_heap (kfree m1 win) s). split.
    + eapply create_rejected; try eassumption; try nia. destruct (objects s !! win) as [v|] eqn:E; [|reflexivity]. exfalso.
      pose proof (own_nodup _ _ O1) as ND. cbn [fmap list_fmap fst] in ND. apply NoDup_cons in ND as [ND _]. apply ND.
      rewrite fmap_app. apply elem_of_app. left. apply owned_dom; [apply (ok_live _ _ _ _ M); eauto|eauto].
    + split; [|auto]. eapply wm_ok_set_heap; [exact Ok|]. eapply kfree_owns. exact O1.
  - destruct (created_bounds others s l win buffer m2 cw ch O2) as [Bd _].
    destruct (create_suffix others n s l win buffer m2 x y cw ch title Ok ltac:(lia) Hcw Hch Hn O2) as (s' & z & R & Ok' & F & B & HB & HH).
    exists win, s'. split; [rewrite <- R; eapply create_prefix; try eassumption; lia|].
    rewrite (proj2 (Z.eqb_neq _ _) Hw0). exists buffer, m1, z. rewrite HH.
    split; [exact Ok'|]. split; [exact F|]. split; [apply (created_fresh others n s l win buffer m2 cw ch M O2)|].
    split; [exact K1|]. split; [exact K2|]. split; [exact Hb0|]. split; [exact B|]. split; [exact HB|].
    intros q w Hq Hqw. apply (created_buffer others s l win buffer m2 cw ch O2 q w Hq Hqw).
Qed.

(** ** Properties *)

(** Freeing depends on the blocks only. *)
Lemma kfree_blocks m m' bs bs' p sz : heap_rep m bs -> heap_rep m' bs -> live bs p sz -> heap_rep (kfree m p) bs' -> heap_rep (kfree m' p) bs'.
Proof.
  intros H H' Hl Hf. apply live_from_split in Hl as (pre & post & -> & ->). fold (base pre) in *.
  pose proof (kfree_refines _ _ _ _ H) as L. pose proof (kfree_refines _ _ _ _ H') as L'. cbv zeta in L, L'.
  destruct (free_range pre sz post). rewrite (heap_rep_inj _ _ _ Hf (proj1 L)). apply L'.
Qed.

(** Two allocations undone in the opposite order. *)
Lemma kfree_undoes_two m bs size1 p1 m1 size2 p2 m2 : heap_rep m bs -> coalesced bs = true ->
  kmalloc m size1 = Some (m1, p1) -> kmalloc m1 size2 = Some (m2, p2) -> 1 <= size1 <= 4294967280 -> p1 <> 0 ->
  heap_rep (kfree (kfree m2 p2) p1) bs.
Proof.
  intros H Hc K1 K2 Hs Hp. destruct (kmalloc_step_preserves _ _ _ _ _ H Hc K1) as (bs1 & R1 & C1).
  destruct (fresh_block _ _ _ _ _ H Hs K1 Hp) as (bs1' & sz & R1' & Hl & _). rewrite (heap_rep_inj _ _ _ R1' R1) in Hl.
  apply (kfree_blocks m1 _ bs1 bs p1 sz R1); [eapply kfree_undoes; eassumption|exact Hl|eapply kfree_undoes; eassumption].
Qed.

Lemma last_filter_none {A} (P : A -> Prop) `{forall x, Decision (P x)} (l : list A) :
  last (filter P l) = None -> Forall (fun x => ~ P x) l.
Proof.
  intros E. apply Forall_forall. intros x Hx HP. apply last_None in E.
  assert (Hin : x ∈ filter P l) by (apply list_elem_of_filter; auto). rewrite E in Hin. inversion Hin.
Qed.

(** The window at a point is the highest visible one that contains it; 0 when
    there is none. *)
Theorem wm_get_window_at_topmost others n s l x y : wm_ok others n s l ->
  exists p, wm_get_window_at x y s = Ret (p, s) /\
    if p =? 0 then forall q, q ∈ l -> covers s x y q = false
    else p ∈ l /\ covers s x y p = true /\ forall q, q ∈ l -> covers s x y q = true -> q = p \/ z_of (objects s) q < z_of (objects s) p.
Proof.
  intros [M _]. destruct (ok_count _ _ _ _ M) as [_ Hlen]. unfold wm_get_window_at. wm_pure.
  rewrite (window_at_spec s x y l list_fuel _ 0 (ok_chain _ _ _ _ M)) by (unfold list_fuel; lia).
  eexists. split; [reflexivity|]. destruct (last (filter _ l)) as [p|] eqn:E; cbn [default]; unfold id.
  - pose proof (last_Some_elem_of _ _ E) as Hf. apply list_elem_of_filter in Hf as [Hc Hp].
    apply last_filter_Some in E as (l1 & l2 & -> & F).
    destruct (lseg_live _ _ _ _ (ok_chain _ _ _ _ M) p Hp) as [Hnz _]. rewrite (proj2 (Z.eqb_neq _ _) Hnz).
    split; [exact Hp|]. split; [exact Hc|]. intros q Hq Hqc. rewrite Forall_forall in F.
    apply elem_of_app in Hq as [Hq|Hq]; [right|apply elem_of_cons in Hq as [->|Hq]; [left; reflexivity|exfalso; exact (F q Hq Hqc)]].
    apply (StronglySorted_app_1_elem_of _ _ _ _ _ (ok_order _ _ _ _ M) Hq). left.
  - cbn. apply last_filter_none in E. rewrite Forall_forall in E. intros q Hq. specialize (E q Hq). destruct (covers s x y q); [congruence|reflexivity].
Qed.

Lemma wm_init_ok others m : owns m others -> wm_ok others 0 (wm_init m) [].
Proof.
  intros Own. split; [|left; reflexivity]. split.
  - constructor.
  - constructor.
  - intros p [w Hw]. discriminate Hw.
  - split; [reflexivity|cbn; lia].
  - constructor.
  - split; [lia|constructor].
  - left. reflexivity.
  - intros p w Hw. discriminate Hw.
  - exact Own.
Qed.

(** A window manager on a fresh heap, with two overlapping windows. *)
Definition demo_wm0 : wm := wm_init (kmalloc_init mem0).

Lemma demo_wm0_ok : wm_ok [] 0 demo_wm0 [].
Proof.
  apply wm_init_ok. split; [|constructor]. eexists. split; [apply heap_rep_init|]. split; [reflexivity|].
  intros p sz H. inversion H.
Qed.

Definition or_init (r : exec (Z * wm)) : wm := match r with Ret (_, s) => s | _ => demo_wm0 end.
Definition demo_wm1 : wm := or_init (wm_create_window 10 5 40 20 (chars "One") demo_wm0).
Definition demo_wm2 : wm := or_init (wm_create_window (- 8) 12 30 9 (chars "Two") demo_wm1).

Definition made (r : exec (Z * wm)) : bool := match r with Ret (p, _) => negb (p =? 0) | _ => false end.

Lemma demo_wm1_ok : exists p, wm_ok [] 2 demo_wm1 [p].
Proof.
  destruct (wm_create_ok [] 0 demo_wm0 [] 10 5 40 20 (chars "One") demo_wm0_ok) as (p & s & E & H); [lia|lia|lia|lia|].
  assert (K : made (wm_create_window 10 5 40 20 (chars "One") demo_wm0) = true) by (vm_compute; reflexivity).
  unfold demo_wm1. rewrite E in K |- *. cbn in K. destruct (p =? 0); [discriminate K|].
  destruct H as (b & m1 & z & H & _). exists p. exact H.
Qed.

Lemma demo_wm2_ok : exists p q, wm_ok [] 4 demo_wm2 [p; q].
Proof.
  destruct demo_wm1_ok as [p H1].
  destruct (wm_create_ok [] 2 demo_wm1 [p] (- 8) 12 30 9 (chars "Two") H1) as (q & s & E & H); [lia|lia|lia|lia|].
  assert (K : made (wm_create_window (- 8) 12 30 9 (chars "Two") demo_wm1) = true) by (vm_compute; reflexivity).
  unfold demo_wm2. rewrite E in K |- *. cbn in K. destruct (q =? 0); [discriminate K|].
  destruct H as (b & m1 & z & H & _). exists p, q. exact H.
Qed.

Lemma wm_get_window_at_topmost_witness : exists p (l : list Z), wm_get_window_at 12 14 demo_wm2 = Ret (p, demo_wm2) /\ p <> 0 /\
  forall q : Z, q ∈ l -> covers demo_wm2 12 14 q = true -> q = p \/ z_of (objects demo_wm2) q < z_of (objects demo_wm2) p.
Proof.
  destruct demo_wm2_ok as (a & b & H). destruct (wm_get_window_at_topmost [] 4 demo_wm2 [a; b] 12 14 H) as (p & E & T).
  exists p, [a; b]. split; [exact E|].
  assert (Hp : match wm_get_window_at 12 14 demo_wm2 with Ret (q, _) => negb (q =? 0) | _ => false end = true) by (vm_compute; reflexivity).
  rewrite E in Hp. destruct (Z.eqb_spec p 0) as [->|Hne]; [discriminate Hp|]. split; [exact Hne|apply T].
Defined.

(** Opening a window and closing it again leaves the order of the windows, their
    pixels and the blocks of the heap as they were; the window that had the focus
    has lost it. *)
Theorem wm_open_close others n s l x y cw ch title p s1 : wm_ok others n s l -> 1 <= cw -> 1 <= ch ->
  cw * ch * 4 <= 4294967200 -> n < 4294967294 ->
  wm_create_window x y cw ch title s = Ret (p, s1) -> p <> 0 ->
  exists s2, wm_destroy_window p s1 = Ret (tt, s2) /\ wm_ok others (n + 2) s2 l /\ g_focused s2 = 0 /\
    (forall bs, heap_rep (heap s) bs -> coalesced bs = true -> heap_rep (heap s2) bs) /\
    becomes (fun _ w => set_focused 0 w) (objects s) (objects s2) /\
    (forall q w, q ∈ l -> objects s !! q = Some w -> buffers s2 !! w_buffer w = buffers s !! w_buffer w).
Proof.
  intros Ok Hcw Hch Hsz Hn E Hp. destruct (wm_create_ok others n s l x y cw ch title Ok Hcw Hch Hsz Hn) as (p' & s1' & E' & H).
  rewrite E in E'. injection E' as <- <-. rewrite (proj2 (Z.eqb_neq _ _) Hp) in H.
  destruct H as (buffer & m1 & z & Ok1 & F1 & Fr & K1 & K2 & Hb & B & HB & Ne).
  destruct (wm_destroy_ok others (n + 2) s1 l p [] Ok1) as (w & h & W & R & Hw & Rl & Ok2). rewrite app_nil_r in Ok2.
  exists (destroyed s1 p w h W). split; [exact R|]. split; [exact Ok2|]. cbn [g_focused heap objects buffers destroyed].
  rewrite F1, Z.eqb_refl. split; [reflexivity|].
  assert (Ew : w_buffer w = buffer).
  { destruct (becomes_some _ _ _ _ _ B (lookup_insert_eq _ _ _)) as [k Ek]. rewrite Hw in Ek. injection Ek as ->.
    unfold refocus. rewrite Z.eqb_refl. reflexivity. }
  split; [|split].
  - intros bs Hbs Hc. rewrite Ew. eapply kfree_undoes_two; [exact Hbs|exact Hc|exact K1|exact K2|unfold sizeof_window; lia|exact Hp].
  - intros q. pose proof (destroyed_becomes s1 p W Rl q) as D. specialize (B q).
    destruct (decide (q = p)) as [->|Hq].
    + rewrite lookup_delete_eq in D. destruct (objects s !! p) as [v|] eqn:Hv; [|rewrite lookup_delete_eq; reflexivity].
      exfalso. apply Fr, (ok_live _ _ _ _ (ok_mid _ _ _ _ Ok)). eauto.
    + rewrite lookup_delete_ne in D by congruence. rewrite lookup_insert_ne in B by congruence. unfold refocus in B.
      rewrite (proj2 (Z.eqb_neq _ _) Hq) in B. destruct (objects s !! q) as [v|]; [|rewrite B in D; exact D].
      destruct B as [k1 E1]. rewrite E1 in D. destruct D as [k2 E2]. exists k2. exact E2.
  - intros q v Hq Hv. specialize (Ne q v Hq Hv). rewrite Ew, HB. rewrite lookup_delete_ne by congruence. apply lookup_insert_ne. congruence.
Qed.

Lemma wm_open_close_witness : exists p s1 s2, wm_create_window (- 8) 12 30 9 (chars "Two") demo_wm1 = Ret (p, s1) /\
  wm_destroy_window p s1 = Ret (tt, s2) /\ g_focused s2 = 0.
Proof.
  destruct demo_wm1_ok as [a H1].
  assert (K : made (wm_create_window (- 8) 12 30 9 (chars "Two") demo_wm1) = true) by (vm_compute; reflexivity).
  destruct (wm_create_window (- 8) 12 30 9 (chars "Two") demo_wm1) as [[p s1]| |] eqn:E; [|discriminate K|discriminate K].
  cbn in K. destruct (Z.eqb_spec p 0) as [|Hp]; [discriminate K|].
  destruct (wm_open_close [] 2 demo_wm1 [a] (- 8) 12 30 9 (chars "Two") p s1 H1 ltac:(lia) ltac:(lia) ltac:(lia) ltac:(lia) E Hp)
    as (s2 & R & _ & F & _). exists p, s1, s2. auto.
Defined.
