(* ===== verification/Canvas.v ===== *)
(** * Drawing into a window (drivers/window.c: wm_fill_rect to wm_printf)

    A window's contents are an array of [content_w * content_h] words, a picture in
    the sense of Paint.  The routines cut what they draw to the content area; a
    store past the end of the array is [Oob].

    [session] is a run of the window manager: windows are created, moved, focused,
    drawn into and destroyed in any order.  [wm_session_safe] says that the
    invariant of Window holds all along and that no request leaves its objects. *)

From stdpp Require Import gmap.
From S2P Require Import Prelude Memory CString Kmalloc Font Text Framebuffer Paint Window.
Local Open Scope Z_scope.
Local Open Scope sros_scope.

(** [buffer[i] = v] for the array at [a]. *)
Definition put_word (a i v : Z) : wmop unit := fun s =>
  match buffers s !! a with
  | Some b =>
      if (0 <=? i) && (i <? Z.of_nat (length b))
      then Ret (tt, set_buffers (<[a := <[Z.to_nat i := v]> b]> (buffers s)) s) else Oob
  | None => Oob
  end.

(** [for (i = 0; i < n; i++)] *)
Definition wfor (n : Z) (body : Z -> wmop unit) : wmop unit := sfor (Z.to_nat n) 0 body.

(** What the routines end with. *)
Definition mark_dirty (win : Z) : wmop unit := _ ← modify win (set_dirty 1); modg (set_composite 1).

Definition wm_fill_rect (win rx ry rw rh : Z) (c : color) : wmop unit :=
  if win =? 0 then mret tt
  else
    w ← get win;
    if w_buffer w =? 0 then mret tt
    else if (content_w w <=? rx) || (content_h w <=? ry) then mret tt
    else
      let rw := if content_w w <? u32 (rx + rw) then content_w w - rx else rw in
      let rh := if content_h w <? u32 (ry + rh) then content_h w - ry else rh in
      let pixel := color_to_pixel c in
      _ ← wfor rh (fun row => wfor rw (fun col =>
            put_word (w_buffer w) (u32 (u32 (ry + row) * content_w w + u32 (rx + col))) pixel));
      mark_dirty win.

Definition wm_putpixel (win px py : Z) (c : color) : wmop unit :=
  if win =? 0 then mret tt
  else
    w ← get win;
    if w_buffer w =? 0 then mret tt
    else if (content_w w <=? px) || (content_h w <=? py) then mret tt
    else
      _ ← put_word (w_buffer w) (u32 (py * content_w w + px)) (color_to_pixel c);
      mark_dirty win.

Definition wm_putchar (win ch px py : Z) (fg bg : color) : wmop unit :=
  if win =? 0 then mret tt
  else
    w ← get win;
    if w_buffer w =? 0 then mret tt
    else if content_w w <? u32 (px + FONT_CHAR_WIDTH) then mret tt
    else if content_h w <? u32 (py + FONT_CHAR_HEIGHT) then mret tt
    else
      _ ← wfor FONT_CHAR_HEIGHT (fun row => wfor FONT_CHAR_WIDTH (fun col =>
            let pixel := if glyph_bit ch row col then color_to_pixel fg else color_to_pixel bg in
            put_word (w_buffer w) (u32 (u32 (py + row) * content_w w + u32 (px + col))) pixel));
      mark_dirty win.

(** The loop over the characters; [cx], [cy] is the place of the next one. *)
Fixpoint puts_loop (win : Z) (s : list Z) (px cx cy : Z) (fg bg : color) : wmop unit :=
  match s with
  | [] => mret tt
  | c :: s =>
      if i8 c =? NL then puts_loop win s px px (u32 (cy + FONT_CHAR_HEIGHT)) fg bg
      else
        _ ← wm_putchar win (i8 c) cx cy fg bg;
        let cx := u32 (cx + FONT_CHAR_WIDTH) in
        w ← get win;
        if content_w w <? u32 (cx + FONT_CHAR_WIDTH)
        then puts_loop win s px px (u32 (cy + FONT_CHAR_HEIGHT)) fg bg
        else puts_loop win s px cx cy fg bg
  end.

Definition wm_puts (win : Z) (s : list Z) (px py : Z) (fg bg : color) : wmop unit :=
  if win =? 0 then mret tt else puts_loop win s px px py fg bg.

(** [%d] and [%u] print decimal, [%x] lower-case hexadecimal. *)
Definition lower_hex : list Z := chars "0123456789abcdef".
Definition wm_conv (d : Z) : option (Z -> list Z) :=
  if (d =? 100) || (d =? 117) then Some decimal else if d =? 120 then Some (hexadecimal lower_hex) else None.

Definition wm_printf (win px py : Z) (fg bg : color) (fmt : list Z) (args : list va) : wmop unit := fun s =>
  if win =? 0 then Ret (tt, s)
  else
    match format_buffer wm_conv fmt args [] with
    | Ret buf => wm_puts win (cstr (buf ++ [0])) px py fg bg s
    | Panic => Panic
    | Oob => Oob
    end.

(** ** The contents as a picture *)

Definition canvas_pixel (s : wm) (a cw x y : Z) : Z := (buffers s !!! a) !!! Z.to_nat (y * cw + x).

Definition in_canvas (cw ch x y : Z) : Prop := 0 <= x < cw /\ 0 <= y < ch.

Definition canvas_ok (a cw ch : Z) (s : wm) : Prop :=
  exists b, buffers s !! a = Some b /\ length b = Z.to_nat (cw * ch).

(** Only the array at [a] changes. *)
Definition canvas_painted (a cw ch : Z) (s : wm) (g : Z -> Z -> option Z) (s' : wm) : Prop :=
  set_buffers ∅ s' = set_buffers ∅ s /\ (forall a', a' <> a -> buffers s' !! a' = buffers s !! a') /\
  forall x y, in_canvas cw ch x y -> canvas_pixel s' a cw x y = default (canvas_pixel s a cw x y) (g x y).

#[export] Instance canvas_picture a cw ch : Picture wm (canvas_ok a cw ch) (in_canvas cw ch) (canvas_painted a cw ch).
Proof.
  split.
  - intros s. split; [reflexivity|]. split; reflexivity.
  - intros s g s1 g' s2 (A1 & B1 & P1) (A2 & B2 & P2). split; [congruence|]. split.
    + intros a' Ha. rewrite B2, B1 by exact Ha. reflexivity.
    + intros x y Hxy. rewrite P2, P1 by exact Hxy. destruct (g' x y); reflexivity.
  - intros s g g' s' (A & B & P) E. split; [exact A|]. split; [exact B|]. intros x y Hxy. rewrite P, E by exact Hxy. reflexivity.
Qed.

Section canvas.
Context (a cw ch : Z) (Hcw : 1 <= cw) (Hch : 1 <= ch) (Hsize : cw * ch * 4 <= HEAP_SIZE).

Definition wdraws (m : wmop unit) (g : Z -> Z -> option Z) : Prop :=
  draws (canvas_ok a cw ch) (canvas_painted a cw ch) m g.

Lemma canvas_index x y : in_canvas cw ch x y -> 0 <= y * cw + x < cw * ch.
Proof. intros [Hx Hy]. nia. Qed.

Lemma canvas_size : cw <= 65536 /\ ch <= 65536 /\ cw * ch <= 65536.
Proof. unfold HEAP_SIZE in Hsize. nia. Qed.

Lemma draws_word x y i v : in_canvas cw ch x y -> i = y * cw + x ->
  wdraws (put_word a i v) (fun x' y' => if decide (x' = x /\ y' = y) then Some v else None).
Proof.
  intros Hxy -> s (b & Hb & Hl). pose proof (canvas_index x y Hxy) as Hi. unfold put_word. rewrite Hb.
  rewrite (proj2 (Z.leb_le 0 _)) by lia. rewrite (proj2 (Z.ltb_lt _ _)) by lia. cbn [andb].
  eexists. split; [reflexivity|]. split; [|split; [reflexivity|split]].
  - eexists. split; [apply lookup_insert_eq|]. rewrite length_insert. exact Hl.
  - intros a' Ha. cbn [buffers set_buffers]. apply lookup_insert_ne. congruence.
  - intros x' y' Hxy'. unfold canvas_pixel. cbn [buffers set_buffers].
    rewrite lookup_total_insert_eq. rewrite (lookup_total_correct _ _ _ Hb).
    pose proof (canvas_index x' y' Hxy') as Hi'. case_decide as E.
    + destruct E as [-> ->]. cbn. apply list_lookup_total_insert_eq. lia.
    + cbn. apply list_lookup_total_insert_ne. intros E'. apply E. apply Z2Nat.inj in E'; [|lia|lia].
      destruct Hxy as [Hx Hy], Hxy' as [Hx' Hy']. assert (y' = y) by nia. subst. lia.
Qed.

(** The rectangle, cut to the content area. *)
Lemma fill_draws rx ry rw rh v : 0 <= rx < cw -> 0 <= ry < ch -> 0 <= rw -> 0 <= rh ->
  rx + rw < 4294967296 -> ry + rh < 4294967296 ->
  let rw' := if cw <? u32 (rx + rw) then cw - rx else rw in
  let rh' := if ch <? u32 (ry + rh) then ch - ry else rh in
  wdraws (wfor rh' (fun row => wfor rw' (fun col => put_word a (u32 (u32 (ry + row) * cw + u32 (rx + col))) v)))
    (fun x y => if decide (rx <= x < rx + rw /\ ry <= y < ry + rh) then Some v else None).
Proof.
  intros Hx Hy Hw Hh Bw Bh. rewrite !u32_small by lia. cbv zeta. pose proof canvas_size as (C1 & C2 & C3).
  set (rw' := if cw <? rx + rw then _ else _). set (rh' := if ch <? ry + rh then _ else _).
  assert (Ew : rw' = Z.min rw (cw - rx)) by (unfold rw'; destruct (Z.ltb_spec cw (rx + rw)); lia).
  assert (Eh : rh' = Z.min rh (ch - ry)) by (unfold rh'; destruct (Z.ltb_spec ch (ry + rh)); lia).
  clearbody rw' rh'. eapply draws_ext; [apply (draws_blit rx ry rw' rh' _ (fun _ _ => Some v)); [lia|lia|]|].
  - intros row col Hr Hc. apply (draws_word (rx + col) (ry + row)); [split; lia|].
    rewrite (u32_small (ry + row)), (u32_small (rx + col)) by lia. apply u32_small. nia.
  - intros x y [? ?]. cbn beta. repeat case_decide; first [reflexivity | lia].
Qed.

(** A character, when it fits. *)
Lemma glyph_draws c px py fg bg : 0 <= px -> 0 <= py -> px + 8 <= cw -> py + 16 <= ch ->
  wdraws (wfor 16 (fun row => wfor 8 (fun col =>
      put_word a (u32 (u32 (py + row) * cw + u32 (px + col))) (if glyph_bit c row col then color_to_pixel fg else color_to_pixel bg))))
    (fun x y => if decide (0 <= x - px < 8 /\ 0 <= y - py < 16) then Some (glyph_pixel fg bg c (y - py) (x - px)) else None).
Proof.
  intros Hx Hy Bw Bh. pose proof canvas_size as (C1 & C2 & C3).
  apply (draws_blit px py 8 16 _ (fun row col => Some (glyph_pixel fg bg c row col))); [lia|lia|].
  intros row col Hr Hc. unfold glyph_pixel.
  replace (if glyph_bit c row col then color_to_pixel fg else color_to_pixel bg)
    with (color_to_pixel (if glyph_bit c row col then fg else bg)) by (destruct (glyph_bit c row col); reflexivity).
  apply (draws_word (px + col) (py + row)); [split; lia|].
  rewrite (u32_small (py + row)), (u32_small (px + col)) by lia. apply u32_small. nia.
Qed.
End canvas.

(** ** What drawing in a window leaves alone *)

Record drew (others : list (Z * Z)) (n : Z) (l : list Z) (win : Z) (g : Z -> Z -> option Z) (s s' : wm) : Prop := {
  dr_ok : wm_ok others n s' l;
  dr_focus : g_focused s' = g_focused s;
  dr_objects : forall q w, objects s !! q = Some w -> exists d, objects s' !! q = Some (set_dirty d w);
  dr_others : forall q w, q ∈ l -> q <> win -> objects s !! q = Some w -> buffers s' !! w_buffer w = buffers s !! w_buffer w;
  dr_picture : forall w x y, objects s !! win = Some w -> in_canvas (content_w w) (content_h w) x y ->
    canvas_pixel s' (w_buffer w) (content_w w) x y = default (canvas_pixel s (w_buffer w) (content_w w) x y) (g x y)
}.

Lemma drew_refl others n l win s : wm_ok others n s l -> drew others n l win (fun _ _ => None) s s.
Proof.
  intros Ok. split; [exact Ok|reflexivity| |reflexivity|reflexivity].
  intros q w Hq. exists (w_dirty w). rewrite Hq. destruct w; reflexivity.
Qed.

Lemma drew_trans others n l win g g' s s1 s2 : drew others n l win g s s1 -> drew others n l win g' s1 s2 ->
  drew others n l win (fun x y => match g' x y with Some v => Some v | None => g x y end) s s2.
Proof.
  intros [K1 F1 O1 B1 P1] [K2 F2 O2 B2 P2]. split; [exact K2|congruence| | |].
  - intros q w Hq. destruct (O1 q w Hq) as [d Hd]. destruct (O2 q _ Hd) as [d' Hd']. exists d'. rewrite Hd'. reflexivity.
  - intros q w Hq Hne Hw. destruct (O1 q w Hw) as [d Hd]. transitivity (buffers s1 !! w_buffer w); [exact (B2 q _ Hq Hne Hd)|exact (B1 q w Hq Hne Hw)].
  - intros w x y Hw Hxy. destruct (O1 win w Hw) as [d Hd]. pose proof (P2 _ x y Hd Hxy) as P. cbn [w_buffer content_w set_dirty] in P.
    rewrite P, (P1 w x y Hw Hxy). destruct (g' x y); reflexivity.
Qed.

(** No two windows share an array. *)
Lemma own_array others n s l p q v w : wm_mid others n s l -> p ∈ l -> p <> q -> q ∈ l ->
  objects s !! p = Some v -> objects s !! q = Some w -> w_buffer v <> w_buffer w.
Proof.
  intros M Hp Hne Hq Hv Hw. apply list_elem_of_split in Hq as (l1 & l2 & ->).
  apply (destroyed_buffer others n s l1 l2 q w M Hw p v); [eapply elem_of_middle; eassumption|exact Hv].
Qed.

Lemma only_buffers s s1 : set_buffers ∅ s1 = set_buffers ∅ s -> s1 = set_buffers (buffers s1) s.
Proof. destruct s, s1. unfold set_buffers. cbn. intros [= -> -> -> -> -> -> ->]. reflexivity. Qed.

Section drawing.
Context (others : list (Z * Z)) (n : Z) (s : wm) (l : list Z) (win : Z) (w : window).
Context (Ok : wm_ok others n s l) (Hwin : win ∈ l) (Hw : objects s !! win = Some w).

Lemma window_canvas : canvas_ok (w_buffer w) (content_w w) (content_h w) s.
Proof. apply (ok_window _ _ _ _ (ok_mid _ _ _ _ Ok) win w Hw). Qed.

Lemma painted_ok g s1 : canvas_painted (w_buffer w) (content_w w) (content_h w) s g s1 ->
  canvas_ok (w_buffer w) (content_w w) (content_h w) s1 -> wm_ok others n s1 l.
Proof.
  intros (E & B & _) (b & Hb & Hl). destruct Ok as [M Ft].
  pose proof (only_buffers _ _ E) as Es.
  pose proof (own_array others n s l) as U.
  destruct M as [a c d e f g0 h Mw Mh] eqn:EM. rewrite Es. split; [|exact Ft]. split; try assumption.
  intros p v Hv. pose proof (Mw p v Hv) as Wo. destruct Wo as [Wf Ww Wh Wc (b0 & Wb & Wl)]. split; try assumption.
  cbn [buffers set_buffers objects] in *. destruct (decide (p = win)) as [->|Hp].
  - rewrite Hw in Hv. injection Hv as <-. exists b. auto.
  - exists b0. rewrite B; [auto|]. apply (U p win v w M); auto.
Qed.

Lemma draw_and_mark m g : wdraws (w_buffer w) (content_w w) (content_h w) m g ->
  exists s', (_ ← m; mark_dirty win) s = Ret (tt, s') /\ drew others n l win g s s'.
Proof.
  intros D. destruct (D s window_canvas) as (s1 & R & C1 & P1). pose proof (painted_ok g s1 P1 C1) as Ok1.
  destruct P1 as (E & B & P). wm_step R.
  pose proof (only_buffers _ _ E) as Es.
  assert (Hw1 : objects s1 !! win = Some w) by (rewrite Es; exact Hw).
  unfold mark_dirty. wm_mod Hw1. unfold modg.
  destruct (touch_ok others n s1 l win w (set_dirty 1) Ok1 Hw1) as [Ok2 _]; [cbn; auto|intros q v; cbn; auto|].
  eexists. split; [reflexivity|]. split.
  - exact Ok2.
  - rewrite Es. reflexivity.
  - intros q v Hv. cbn [objects set_composite set_objects]. rewrite Es. cbn [objects set_buffers].
    destruct (decide (q = win)) as [->|Hq].
    + rewrite Hw in Hv. injection Hv as <-. exists 1. apply lookup_insert_eq.
    + exists (w_dirty v). rewrite lookup_insert_ne by congruence. rewrite Hv. destruct v; reflexivity.
  - intros q v Hq Hne Hv. cbn [buffers set_composite set_objects]. apply B.
    apply (own_array others n s l q win v w (ok_mid _ _ _ _ Ok)); assumption.
  - intros v x y Hv Hxy. rewrite Hw in Hv. injection Hv as <-. exact (P x y Hxy).
Qed.
End drawing.

Lemma live_window others n s l win : wm_ok others n s l -> is_Some (objects s !! win) ->
  win ∈ l /\ win <> 0 /\ exists w, objects s !! win = Some w /\ w_buffer w <> 0.
Proof.
  intros [M _] [w Hw]. assert (Hin : win ∈ l) by (apply (ok_live _ _ _ _ M); eauto).
  split; [exact Hin|]. split; [apply (lseg_live _ _ _ _ (ok_chain _ _ _ _ M) win Hin)|]. exists w. split; [exact Hw|].
  eapply owns_nonzero; [apply (ok_heap _ _ _ _ M)|apply elem_of_app; left; apply (owned_elem _ _ win w Hin Hw)].
Qed.

(** A coordinate that no sum in the code wraps. *)
Definition coord (z : Z) : Prop := 0 <= z <= 0x40000000.

Section operations.
Context (others : list (Z * Z)) (n : Z) (s : wm) (l : list Z) (win : Z) (w : window).
Context (Ok : wm_ok others n s l) (Hw : objects s !! win = Some w).

Let live := live_window others n s l win Ok (ex_intro _ w Hw).

Lemma pixels_bound : 1 <= content_w w /\ 1 <= content_h w /\ content_w w * content_h w * 4 <= HEAP_SIZE.
Proof. apply (wo_content _ _ _ (ok_window _ _ _ _ (ok_mid _ _ _ _ Ok) win w Hw)). Qed.

(** The tests that every routine starts with. *)
Lemma enter_window (k : window -> wmop unit) :
  (if win =? 0 then mret tt else w ← get win; if w_buffer w =? 0 then mret tt else k w) s = k w s.
Proof.
  destruct live as (_ & Hnz & w' & Hw' & Hb). rewrite Hw in Hw'. injection Hw' as <-.
  rewrite (proj2 (Z.eqb_neq _ _) Hnz). wm_get Hw. rewrite (proj2 (Z.eqb_neq _ _) Hb). reflexivity.
Qed.

(** A filled rectangle, cut to the content area. *)
Lemma wm_fill_rect_drew rx ry rw rh c : coord rx -> coord ry -> coord rw -> coord rh ->
  exists s', wm_fill_rect win rx ry rw rh c s = Ret (tt, s') /\
    drew others n l win (fun x y => if decide (rx <= x < rx + rw /\ ry <= y < ry + rh) then Some (color_to_pixel c) else None) s s'.
Proof.
  unfold coord. intros Hx Hy Hrw Hrh. destruct pixels_bound as (C1 & C2 & C3). unfold wm_fill_rect. rewrite enter_window.
  destruct (Z.leb_spec (content_w w) rx) as [Hx'|Hx']; [|destruct (Z.leb_spec (content_h w) ry) as [Hy'|Hy']]; cbn [orb].
  1,2: exists s; split; [reflexivity|]; destruct (drew_refl others n l win s Ok) as [A B C D P]; split; try assumption;
    intros v x y Hv [? ?]; rewrite Hw in Hv; injection Hv as <-; rewrite decide_False by lia; reflexivity.
  apply (draw_and_mark others n s l win w Ok (proj1 live) Hw). apply fill_draws; lia.
Qed.

Lemma wm_putpixel_drew px py c : coord px -> coord py ->
  exists s', wm_putpixel win px py c s = Ret (tt, s') /\
    drew others n l win (fun x y => if decide (x = px /\ y = py) then Some (color_to_pixel c) else None) s s'.
Proof.
  unfold coord. intros Hx Hy. destruct pixels_bound as (C1 & C2 & C3). unfold wm_putpixel. rewrite enter_window.
  destruct (Z.leb_spec (content_w w) px) as [Hx'|Hx']; [|destruct (Z.leb_spec (content_h w) py) as [Hy'|Hy']]; cbn [orb].
  1,2: exists s; split; [reflexivity|]; destruct (drew_refl others n l win s Ok) as [A B C D P]; split; try assumption;
    intros v x y Hv [? ?]; rewrite Hw in Hv; injection Hv as <-; rewrite decide_False by lia; reflexivity.
  apply (draw_and_mark others n s l win w Ok (proj1 live) Hw).
  apply draws_word; try assumption; [split; lia|]. apply u32_small. unfold HEAP_SIZE in C3. nia.
Qed.

(** A character is drawn if it fits, and not at all otherwise. *)
Lemma wm_putchar_drew c px py fg bg : coord px -> coord py ->
  exists s', wm_putchar win c px py fg bg s = Ret (tt, s') /\
    drew others n l win (fun x y => if decide (px + 8 <= content_w w /\ py + 16 <= content_h w /\ 0 <= x - px < 8 /\ 0 <= y - py < 16)
                                    then Some (glyph_pixel fg bg c (y - py) (x - px)) else None) s s'.
Proof.
  unfold coord. intros Hx Hy. destruct pixels_bound as (C1 & C2 & C3). unfold wm_putchar. rewrite enter_window.
  unfold FONT_CHAR_WIDTH, FONT_CHAR_HEIGHT. rewrite !u32_small by lia.
  destruct (Z.ltb_spec (content_w w) (px + 8)) as [Hx'|Hx']; [|destruct (Z.ltb_spec (content_h w) (py + 16)) as [Hy'|Hy']].
  1,2: exists s; split; [reflexivity|]; destruct (drew_refl others n l win s Ok) as [A B C D P]; split; try assumption;
    intros v x y Hv [? ?]; rewrite decide_False by lia; reflexivity.
  apply (draw_and_mark others n s l win w Ok (proj1 live) Hw).
  eapply draws_ext; [apply (glyph_draws (w_buffer w) _ _ C1 C2 C3 c px py fg bg); lia|].
  intros x y Hxy. cbn beta. repeat case_decide; try reflexivity; lia.
Qed.
End operations.

(** Text: some picture, in this window only. *)
Lemma puts_loop_drew others n l win fg bg px txt : coord px -> forall s cx cy w, wm_ok others n s l -> objects s !! win = Some w ->
  0 <= cx <= 0x30000000 -> px <= 0x20000000 -> 0 <= cy -> cy + 16 * Z.of_nat (length txt) <= 0x40000000 ->
  exists s' g, puts_loop win txt px cx cy fg bg s = Ret (tt, s') /\ drew others n l win g s s'.
Proof.
  intros Hpx. induction txt as [|c txt IH]; intros s cx cy w Ok Hw Hcx Hpx2 Hcy Hlen; cbn [puts_loop length] in *.
  { exists s, (fun _ _ => None). split; [reflexivity|apply drew_refl, Ok]. }
  unfold FONT_CHAR_HEIGHT, FONT_CHAR_WIDTH in *. rewrite (u32_small (cy + 16)) by lia.
  destruct (i8 c =? NL); [apply (IH s px (cy + 16) w Ok Hw); unfold coord in *; lia|].
  destruct (wm_putchar_drew others n s l win w Ok Hw (i8 c) cx cy fg bg) as (s1 & R & D); [unfold coord; lia|unfold coord; lia|].
  wm_step R. destruct (dr_objects _ _ _ _ _ _ _ D win w Hw) as [d Hd]. pose proof (dr_ok _ _ _ _ _ _ _ D) as Ok1. cbv zeta. wm_get Hd.
  cbn [content_w set_dirty]. rewrite (u32_small (cx + 8)), (u32_small (cx + 8 + 8)) by lia.
  pose proof (pixels_bound others n s l win w Ok Hw) as (C1 & C2 & C3). unfold HEAP_SIZE in C3.
  destruct (Z.ltb_spec (content_w w) (cx + 8 + 8)) as [Hlt|Hge].
  - destruct (IH s1 px (cy + 16) _ Ok1 Hd) as (s' & g & R' & D'); [unfold coord in *; lia..|].
    exists s'. eexists. split; [exact R'|]. eapply drew_trans; eassumption.
  - destruct (IH s1 (cx + 8) cy _ Ok1 Hd) as (s' & g & R' & D'); [nia|lia..|].
    exists s'. eexists. split; [exact R'|]. eapply drew_trans; eassumption.
Qed.

Lemma wm_puts_drew others n s l win w fg bg px py txt : wm_ok others n s l -> objects s !! win = Some w ->
  0 <= px <= 0x20000000 -> 0 <= py <= 0x20000000 -> Z.of_nat (length txt) <= 1000000 ->
  exists s' g, wm_puts win txt px py fg bg s = Ret (tt, s') /\ drew others n l win g s s'.
Proof.
  intros Ok Hw Hx Hy Hl. destruct (live_window others n s l win Ok (ex_intro _ w Hw)) as (_ & Hnz & _).
  unfold wm_puts. rewrite (proj2 (Z.eqb_neq _ _) Hnz). apply (puts_loop_drew others n l win fg bg px txt) with (w := w); unfold coord; first [assumption | lia].
Qed.

(** ** Sessions *)

Inductive request : Type :=
  | ReqCreate (x y content_w content_h : Z) (title : list Z)
  | ReqDestroy (win : Z)
  | ReqMove (win x y : Z)
  | ReqFocus (win : Z)
  | ReqFill (win rx ry rw rh : Z) (c : color)
  | ReqPixel (win px py : Z) (c : color)
  | ReqPuts (win : Z) (text : list Z) (px py : Z) (fg bg : color)
  | ReqPrintf (win px py : Z) (fg bg : color) (fmt : list Z) (args : list va).

Definition perform (r : request) : wmop Z :=
  match r with
  | ReqCreate x y cw ch title => wm_create_window x y cw ch title
  | ReqDestroy win => _ ← wm_destroy_window win; mret 0
  | ReqMove win x y => _ ← wm_move_window win x y; mret 0
  | ReqFocus win => _ ← wm_focus_window win; mret 0
  | ReqFill win rx ry rw rh c => _ ← wm_fill_rect win rx ry rw rh c; mret 0
  | ReqPixel win px py c => _ ← wm_putpixel win px py c; mret 0
  | ReqPuts win text px py fg bg => _ ← wm_puts win text px py fg bg; mret 0
  | ReqPrintf win px py fg bg fmt args => _ ← wm_printf win px py fg bg fmt args; mret 0
  end.

(** A request names a window that exists and coordinates and sizes that no sum
    wraps; a formatted text fits its buffer. *)
Definition allowed (s : wm) (r : request) : Prop :=
  match r with
  | ReqCreate _ _ cw ch _ => 1 <= cw /\ 1 <= ch /\ cw * ch * 4 <= 4294967200
  | ReqDestroy win | ReqMove win _ _ | ReqFocus win => is_Some (objects s !! win)
  | ReqFill win rx ry rw rh _ => is_Some (objects s !! win) /\ coord rx /\ coord ry /\ coord rw /\ coord rh
  | ReqPixel win px py _ => is_Some (objects s !! win) /\ coord px /\ coord py
  | ReqPuts win text px py _ _ =>
      is_Some (objects s !! win) /\ 0 <= px <= 0x20000000 /\ 0 <= py <= 0x20000000 /\ Z.of_nat (length text) <= 1000000
  | ReqPrintf win px py _ _ fmt args =>
      is_Some (objects s !! win) /\ 0 <= px <= 0x20000000 /\ 0 <= py <= 0x20000000 /\
      exists t, expand wm_conv fmt args = Some t /\ (length t <= 255)%nat
  end.

Lemma wm_ok_weaken others n n' s l : wm_ok others n s l -> n <= n' -> wm_ok others n' s l.
Proof.
  intros [[a b c d e [f g] h i j] k] Hn. split; [|exact k]. split; try assumption. split; [lia|].
  eapply Forall_impl; [exact g|]. cbn beta. intros; lia.
Qed.

Lemma length_cstr t : (length (cstr t) <= length t)%nat.
Proof. induction t as [|c t IH]; cbn; [lia|]. destruct (c =? 0); cbn; lia. Qed.

(** A request that is allowed is carried out. *)
Lemma perform_ok others n s l r : wm_ok others n s l -> n < 4294967294 -> allowed s r ->
  exists v s' l', perform r s = Ret (v, s') /\ wm_ok others (n + 2) s' l'.
Proof.
  intros Ok Hn Ha.
  assert (Drew : forall (m : wmop unit) s' win g, m s = Ret (tt, s') -> drew others n l win g s s' ->
    exists v s' l', (_ ← m; mret 0) s = Ret (v, s') /\ wm_ok others (n + 2) s' l').
  { intros m s' win g R D. exists 0, s', l. wm_step R. split; [reflexivity|]. eapply wm_ok_weaken; [apply (dr_ok _ _ _ _ _ _ _ D)|lia]. }
  destruct r as [x y cw ch title|win|win x y|win|win rx ry rw rh c|win px py c|win text px py fg bg|win px py fg bg fmt args]; cbn [perform allowed] in *.
  - destruct Ha as (H1 & H2 & H3). destruct (wm_create_ok others n s l x y cw ch title Ok H1 H2 H3 Hn) as (p & s' & R & H).
    exists p, s'. destruct (p =? 0).
    + exists l. split; [exact R|]. eapply wm_ok_weaken; [apply H|lia].
    + destruct H as (b & m1 & z & H & _). exists (l ++ [p]). split; [exact R|exact H].
  - destruct (live_window others n s l win Ok Ha) as (Hin & _). apply list_elem_of_split in Hin as (l1 & l2 & ->).
    destruct (wm_destroy_ok others n s l1 win l2 Ok) as (w & h & W & R & _ & _ & Ok').
    exists 0. eexists. exists (l1 ++ l2). wm_step R. split; [reflexivity|]. eapply wm_ok_weaken; [exact Ok'|lia].
  - destruct (live_window others n s l win Ok Ha) as (Hin & _).
    destruct (wm_move_ok others n s l win x y Ok Hin) as (s' & R & Ok' & _). exists 0, s', l. wm_step R.
    split; [reflexivity|]. eapply wm_ok_weaken; [exact Ok'|lia].
  - destruct (live_window others n s l win Ok Ha) as (Hin & _).
    destruct (wm_focus_ok others n s l win Ok ltac:(lia) Hin) as (s' & z & R & Ok' & _). exists 0, s', (raised l win). wm_step R.
    split; [reflexivity|]. eapply wm_ok_weaken; [exact Ok'|lia].
  - destruct Ha as ([w Hw] & H1 & H2 & H3 & H4). destruct (wm_fill_rect_drew others n s l win w Ok Hw rx ry rw rh c H1 H2 H3 H4) as (s' & R & D).
    eapply Drew; eassumption.
  - destruct Ha as ([w Hw] & H1 & H2). destruct (wm_putpixel_drew others n s l win w Ok Hw px py c H1 H2) as (s' & R & D). eapply Drew; eassumption.
  - destruct Ha as ([w Hw] & H1 & H2 & H3). destruct (wm_puts_drew others n s l win w fg bg px py text Ok Hw H1 H2 H3) as (s' & g & R & D).
    eapply Drew; eassumption.
  - destruct Ha as ([w Hw] & H1 & H2 & t & E & Hl).
    destruct (live_window others n s l win Ok (ex_intro _ w Hw)) as (_ & Hnz & _).
    destruct (wm_puts_drew others n s l win w fg bg px py (cstr (t ++ [0])) Ok Hw H1 H2) as (s' & g & R & D).
    { pose proof (length_cstr (t ++ [0])) as L. rewrite length_app in L. cbn in L. lia. }
    apply (Drew _ s' win g); [|exact D]. unfold wm_printf. rewrite (proj2 (Z.eqb_neq _ _) Hnz).
    rewrite (format_buffer_ok wm_conv (length fmt) fmt args t [] ltac:(lia) E) by (cbn; lia). exact R.
Qed.

(** A run of the window manager from the start; [n] is two for each request. *)
Inductive session (others : list (Z * Z)) (m : mem) : Z -> wm -> Prop :=
  | session_init : session others m 0 (wm_init m)
  | session_step n s r v s' : session others m n s -> allowed s r -> perform r s = Ret (v, s') -> session others m (n + 2) s'.

(** C7: In every run of fewer than 2^31 requests the windows form one list in the
    order of height, each with its own blocks of the heap, the focused one on top,
    and every further request returns: no access leaves a window's structure or
    its pixels. *)
Theorem wm_session_safe others m n s : owns m others -> session others m n s -> n < 4294967294 ->
  (exists l, wm_ok others n s l) /\ forall r, allowed s r -> exists v s', perform r s = Ret (v, s').
Proof.
  intros Own H Hn. assert (Ok : exists l, wm_ok others n s l).
  { induction H as [|n s r v s' H IH Ha R]; [exists []; apply wm_init_ok, Own|].
    destruct IH as [l Ok]; [lia|]. destruct (perform_ok others n s l r Ok ltac:(lia) Ha) as (v' & s'' & l' & R' & Ok').
    rewrite R in R'. injection R' as <- <-. exists l'. exact Ok'. }
  split; [exact Ok|]. intros r Ha. destruct Ok as [l Ok].
  destruct (perform_ok others n s l r Ok Hn Ha) as (v & s' & _ & R & _). eauto.
Qed.

Lemma wm_session_safe_witness : exists v s', perform (ReqPrintf 2097156 3 2 COLOR_BLACK COLOR_WHITE (chars "n=%d") [VInt 7]) demo_wm1 = Ret (v, s').
Proof.
  assert (Own : owns (kmalloc_init mem0) []) by apply (ok_heap _ _ _ _ (ok_mid _ _ _ _ demo_wm0_ok)).
  assert (K : made (wm_create_window 10 5 40 20 (chars "One") demo_wm0) = true) by (vm_compute; reflexivity).
  destruct (wm_create_window 10 5 40 20 (chars "One") demo_wm0) as [[p s1]| |] eqn:E; [|discriminate K|discriminate K].
  assert (Es : s1 = demo_wm1) by (unfold demo_wm1; rewrite E; reflexivity). subst s1.
  assert (Hs : session [] (kmalloc_init mem0) (0 + 2) demo_wm1).
  { apply (session_step [] _ 0 demo_wm0 (ReqCreate 10 5 40 20 (chars "One")) p); [apply session_init|cbn; lia|exact E]. }
  apply (wm_session_safe [] _ _ _ Own Hs ltac:(lia)). cbn [allowed]. split; [|split; [lia|split; [lia|]]].
  - assert (L : bool_decide (is_Some (objects demo_wm1 !! 2097156)) = true) by (vm_compute; reflexivity).
    apply bool_decide_eq_true in L. exact L.
  - exists (chars "n=7"). split; [vm_compute; reflexivity|vm_compute; lia].
Defined.
