(* ===== verification/Desktop.v ===== *)
(** * The desktop (drivers/window.c: drawing, composition and the event loop)

    A window is drawn as a frame - border, title bar, title, close button - and its
    contents, and [wm_composite] draws the windows from the lowest to the highest
    under the cursor.  [desk] joins the window manager with the screen, the cursor
    and the mouse.

    [window_pixel] is the picture of a window; the theorems show that composition
    shows at every point the topmost window there, the one that
    [wm_get_window_at] finds, and what a click does.  They are for windows at
    least 24 pixels wide and near the screen ([on_desk]). *)

From stdpp Require Import gmap.
From S2P Require Import Prelude Memory Kmalloc InputDev Font Text Paint Framebuffer Cursor Window Canvas.
Local Open Scope Z_scope.
Local Open Scope sros_scope.

Definition WM_TITLE_ACTIVE : color := mk_color 50 80 200.
Definition WM_TITLE_INACTIVE : color := mk_color 100 100 120.
Definition WM_CLOSE_NORMAL : color := mk_color 200 50 50.
Definition WM_CLOSE_X_COLOR : color := mk_color 255 255 255.
Definition WM_BORDER_ACTIVE : color := mk_color 80 110 230.
Definition WM_BORDER_INACTIVE : color := mk_color 130 130 140.
Definition WM_TITLE_TEXT : color := mk_color 255 255 255.

(** ** Drawing one window *)

(** [if (sx < fb.width && sy < fb.height) fb.addr[sy * pitch_dwords + sx] = v;] *)
Definition put_clipped (sx sy v : Z) : gfx unit :=
  f ← getfb id;
  if (sx <? fb_width f) && (sy <? fb_height f) then put (u32 (sy * pitch_dwords f + sx)) v else mret tt.

Definition border_color (w : window) : Z := color_to_pixel (if c_true (w_focused w) then WM_BORDER_ACTIVE else WM_BORDER_INACTIVE).
Definition title_color (w : window) : Z := color_to_pixel (if c_true (w_focused w) then WM_TITLE_ACTIVE else WM_TITLE_INACTIVE).

Definition draw_border (w : window) : gfx unit :=
  let fg_border := border_color w in
  upto WM_BORDER_WIDTH (fun b =>
    _ ← upto (w_width w) (fun cx => put_clipped (u32 (w_x w + cx)) (u32 (w_y w + b)) fg_border);
    _ ← upto (w_width w) (fun cx => put_clipped (u32 (w_x w + cx)) (u32 (w_y w + w_height w - 1 - b)) fg_border);
    _ ← upto (w_height w) (fun cy => put_clipped (u32 (w_x w + b)) (u32 (w_y w + cy)) fg_border);
    upto (w_height w) (fun cy => put_clipped (u32 (w_x w + w_width w - 1 - b)) (u32 (w_y w + cy)) fg_border)).

Definition title_y (w : window) : Z := i32 (w_y w + WM_BORDER_WIDTH).

Definition draw_title_bar (w : window) : gfx unit :=
  upto WM_TITLE_HEIGHT (fun ty =>
    gfor (Z.to_nat (u32 (w_width w - WM_BORDER_WIDTH) - WM_BORDER_WIDTH)) WM_BORDER_WIDTH (fun tx =>
      put_clipped (u32 (w_x w + tx)) (u32 (title_y w + ty)) (title_color w))).

Definition max_title_chars (w : window) : Z :=
  u32 (w_width w - WM_BORDER_WIDTH * 2 - 4 - WM_CLOSE_BTN_W - WM_CLOSE_BTN_MARG * 2) / FONT_CHAR_WIDTH.

Definition draw_title_text (w : window) : gfx unit :=
  let text_x := i32 (w_x w + WM_BORDER_WIDTH + 4) in
  upto (Z.min (Z.of_nat (length (w_title w))) (max_title_chars w)) (fun ci =>
    let ch := u8 (w_title w !!! Z.to_nat ci) in
    let cx := i32 (text_x + ci * FONT_CHAR_WIDTH) in
    let cy := i32 (title_y w + (WM_TITLE_HEIGHT - FONT_CHAR_HEIGHT) / 2) in
    upto FONT_CHAR_HEIGHT (fun row => upto FONT_CHAR_WIDTH (fun col =>
      put_clipped (u32 (cx + col)) (u32 (cy + row))
        (if glyph_bit ch row col then color_to_pixel WM_TITLE_TEXT else title_color w)))).

Definition close_x (w : window) : Z := i32 (w_x w + i32 (w_width w) - WM_BORDER_WIDTH - WM_CLOSE_BTN_MARG - WM_CLOSE_BTN_W).
Definition close_y (w : window) : Z := i32 (title_y w + (WM_TITLE_HEIGHT - WM_CLOSE_BTN_H) / 2).

Definition draw_close_button (w : window) : gfx unit :=
  _ ← upto WM_CLOSE_BTN_H (fun by' => upto WM_CLOSE_BTN_W (fun bx =>
        put_clipped (u32 (close_x w + bx)) (u32 (close_y w + by')) (color_to_pixel WM_CLOSE_NORMAL)));
  upto WM_CLOSE_BTN_W (fun i =>
    _ ← put_clipped (u32 (close_x w + i)) (u32 (close_y w + i)) (color_to_pixel WM_CLOSE_X_COLOR);
    put_clipped (u32 (close_x w + i)) (u32 (close_y w + WM_CLOSE_BTN_H - 1 - i)) (color_to_pixel WM_CLOSE_X_COLOR)).

Definition draw_window_frame (w : window) : gfx unit :=
  _ ← draw_border w;
  _ ← draw_title_bar w;
  _ ← draw_title_text w;
  draw_close_button w.

(** [buffer] is the window's array. *)
Definition draw_window_content (w : window) (buffer : list Z) : gfx unit :=
  let content_x := i32 (w_x w + WM_BORDER_WIDTH) in
  let content_y := i32 (w_y w + WM_BORDER_WIDTH + WM_TITLE_HEIGHT) in
  upto (content_h w) (fun ry => upto (content_w w) (fun rx =>
    let sx := u32 (content_x + rx) in
    let sy := u32 (content_y + ry) in
    f ← getfb id;
    if (fb_width f <=? sx) || (fb_height f <=? sy) then mret tt
    else
      match buffer !! Z.to_nat (u32 (ry * content_w w + rx)) with
      | Some v => put (u32 (sy * pitch_dwords f + sx)) v
      | None => fun _ => Oob
      end)).

(** ** The desktop *)

Record desk : Type := mk_desk {
  d_wm : wm; d_screen : screen; d_cursor : cursor; d_mouse : mouse; wm_buttons_last : Z
}.

Definition deskop (A : Type) : Type := desk -> exec (A * desk).

#[export] Instance deskop_ret : MRet deskop := fun A x s => Ret (x, s).
#[export] Instance deskop_bind : MBind deskop := fun A B f m s =>
  match m s with Ret (x, s) => f x s | Panic => Panic | Oob => Oob end.

Definition getd {A} (f : desk -> A) : deskop A := fun d => Ret (f d, d).

(** The operation of a component. *)
Definition on_wm {A} (m : wmop A) : deskop A := fun d =>
  match m (d_wm d) with
  | Ret (x, s) => Ret (x, mk_desk s (d_screen d) (d_cursor d) (d_mouse d) (wm_buttons_last d))
  | Panic => Panic
  | Oob => Oob
  end.
Definition on_gfx {A} (m : gfx A) : deskop A := fun d =>
  match m (d_screen d) with
  | Ret (x, s) => Ret (x, mk_desk (d_wm d) s (d_cursor d) (d_mouse d) (wm_buttons_last d))
  | Panic => Panic
  | Oob => Oob
  end.
Definition set_cursor (c : cursor) : deskop unit := fun d => Ret (tt, mk_desk (d_wm d) (d_screen d) c (d_mouse d) (wm_buttons_last d)).
Definition set_mouse (m : mouse) : deskop unit := fun d => Ret (tt, mk_desk (d_wm d) (d_screen d) (d_cursor d) m (wm_buttons_last d)).
Definition set_buttons (b : Z) : deskop unit := fun d => Ret (tt, mk_desk (d_wm d) (d_screen d) (d_cursor d) (d_mouse d) b).

(** A cursor routine that returns the new cursor. *)
Definition on_cursor (m : cursor -> gfx cursor) : deskop unit :=
  c ← getd d_cursor;
  c ← on_gfx (m c);
  set_cursor c.

(** [rep stosl] with [fb.addr] as the destination register, which it advances. *)
Definition advance_addr : gfx unit := fun s =>
  let f := fb s in
  Ret (tt, mk_screen (mk_fb (fb_width f) (fb_height f) (fb_pitch f) (fb_bpp f) (u32 (fb_addr f + 4)) (fb_phys_addr f))
             (vram s) (console_row s) (console_col s)).
Fixpoint rep_stosl (n : nat) (v : Z) : gfx unit :=
  match n with
  | O => mret tt
  | S n => _ ← put 0 v; _ ← advance_addr; rep_stosl n v
  end.

Definition draw_window (p : Z) (w : window) : deskop unit :=
  _ ← on_gfx (draw_window_frame w);
  b ← (if w_buffer w =? 0 then mret None
       else on_wm (fun s => match buffers s !! w_buffer w with Some b => Ret (Some b, s) | None => Oob end));
  _ ← match b with Some b => on_gfx (draw_window_content w b) | None => mret tt end;
  on_wm (modify p (set_dirty 0)).

(** The loop over the list. *)
Fixpoint draw_windows (fuel : nat) (p : Z) : deskop unit :=
  match fuel with
  | O => fun _ => Oob
  | S fuel =>
      if p =? 0 then mret tt
      else
        w ← on_wm (get p);
        _ ← (if c_true (w_visible w) then draw_window p w else mret tt);
        draw_windows fuel (w_next w)
  end.

Definition wm_composite : deskop unit :=
  f ← getd (fun d => fb (d_screen d));
  s ← getd d_wm;
  c ← getd d_cursor;
  if fb_addr f =? 0 then mret tt
  else if (g_count s =? 0) && negb (c_true (needs_composite s)) then mret tt
  else
    let cursor_was_visible := c_true (cu_visible c) in
    _ ← (if cursor_was_visible then on_gfx (cursor_remove c) else mret tt);
    _ ← (if g_count s =? 0
         then on_gfx (rep_stosl (Z.to_nat (u32 (fb_height f * pitch_dwords f))) (color_to_pixel (desktop_color s)))
         else draw_windows list_fuel (g_windows s));
    _ ← (if cursor_was_visible then on_cursor cursor_restore else mret tt);
    on_wm (modg (set_composite 0)).

Definition MOUSE_LEFT_BTN : Z := 1.

Definition wm_handle_click (x y buttons : Z) : deskop Z :=
  if buttons .& MOUSE_LEFT_BTN =? 0 then mret 0
  else
    win ← on_wm (wm_get_window_at x y);
    if win =? 0 then mret 0
    else
      w ← on_wm (get win);
      if wm_is_in_close_btn w x y then
        _ ← on_wm (wm_destroy_window win);
        _ ← wm_composite;
        mret 1
      else
        _ ← on_wm (wm_focus_window win);
        _ ← wm_composite;
        mret 1.

(** One event of the loop in [wm_update]. *)
Definition update_event (ev : mouse_event) (click_handled : bool) : deskop bool :=
  _ ← on_cursor (cursor_move (dx ev) (- dy ev));
  last ← getd wm_buttons_last;
  c ← getd d_cursor;
  let new_buttons := buttons ev .& MOUSE_LEFT_BTN in
  let prev_buttons := last .& MOUSE_LEFT_BTN in
  click_handled ←
    (if c_true new_buttons && negb (c_true prev_buttons) && negb click_handled
     then _ ← wm_handle_click (cu_x c) (cu_y c) (buttons ev); mret true
     else mret click_handled);
  _ ← set_buttons (buttons ev);
  mret click_handled.

Fixpoint update_loop (fuel : nat) (click_handled : bool) : deskop bool :=
  match fuel with
  | O => fun _ => Oob
  | S fuel =>
      m ← getd d_mouse;
      match mouse_read m with
      | None => mret click_handled
      | Some (ev, m) =>
          _ ← set_mouse m;
          click_handled ← update_event ev click_handled;
          update_loop fuel click_handled
      end
  end.

(** The buffer holds fewer than [MOUSE_BUFFER_SIZE] events. *)
Definition wm_update : deskop unit :=
  click_handled ← update_loop (Z.to_nat MOUSE_BUFFER_SIZE) false;
  if (click_handled : bool) then mret tt
  else
    n ← getd (fun d => needs_composite (d_wm d));
    if c_true n then wm_composite else mret tt.

(** ** The picture of a window *)

(** The number of title characters shown. *)
Definition title_chars (w : window) : Z := Z.min (Z.of_nat (length (w_title w))) ((content_w w - 24) / 8).

Definition within (i j x0 y0 w h : Z) : Prop := x0 <= i < x0 + w /\ y0 <= j < y0 + h.
#[export] Instance within_dec i j x0 y0 w h : Decision (within i j x0 y0 w h).
Proof. unfold within. apply _. Defined.

(** The colour of the pixel at column [i], row [j] of the window. *)
Definition window_pixel (w : window) (buffer : list Z) (i j : Z) : option Z :=
  let b := content_w w - 15 in
  if decide (within i j 0 0 (content_w w + 4) (content_h w + 22)) then Some (
    if decide (within i j 2 22 (content_w w) (content_h w)) then buffer !!! Z.to_nat ((j - 22) * content_w w + (i - 2))
    else if decide (within i j b 5 14 14) then
      color_to_pixel (if decide (i - b = j - 5 \/ i - b = 13 - (j - 5)) then WM_CLOSE_X_COLOR else WM_CLOSE_NORMAL)
    else if decide (within i j 6 4 (8 * title_chars w) 16) then
      if glyph_bit (u8 (w_title w !!! Z.to_nat ((i - 6) / 8))) (j - 4) ((i - 6) mod 8) then color_to_pixel WM_TITLE_TEXT else title_color w
    else if decide (within i j 2 2 (content_w w) 20) then title_color w
    else border_color w)
  else None.

(** A window whose drawing the theorems are about: wide enough for its buttons,
    near the screen, of the size the window manager gives it. *)
Record on_desk (w : window) : Prop := {
  od_x : - 0x20000000 <= w_x w <= 0x20000000;
  od_y : - 0x20000000 <= w_y w <= 0x20000000;
  od_w : w_width w = content_w w + 4;
  od_h : w_height w = content_h w + 22;
  od_content : 24 <= content_w w <= 65536 /\ 1 <= content_h w <= 65536
}.

Section frame.
Context (f : framebuffer) (M : mode_ok f).

(** The coordinates wrap around, and then are off the screen. *)
Lemma u32_off z bound : - 0x40000000 <= z <= 0x40000000 -> 0 <= bound <= 0x3C00000 ->
  (u32 z <? bound) = bool_decide (0 <= z < bound) /\ (0 <= z -> u32 z = z).
Proof.
  intros Hz Hb. split; [|intros Hp; apply u32_small; lia]. unfold u32. destruct (decide (0 <= z)) as [Hp|Hn].
  - rewrite Z.mod_small by lia. destruct (Z.ltb_spec z bound); [rewrite bool_decide_eq_true_2 by lia; reflexivity|].
    rewrite bool_decide_eq_false_2 by lia. reflexivity.
  - replace (z mod 4294967296) with (z + 4294967296).
    + rewrite bool_decide_eq_false_2 by lia. apply Z.ltb_ge. lia.
    + apply (Z.mod_unique _ _ (- 1)); lia.
Qed.

Lemma paints_clipped X Y v : - 0x40000000 <= X <= 0x40000000 -> - 0x40000000 <= Y <= 0x40000000 ->
  paints f (put_clipped (u32 X) (u32 Y) v) (fun x y => if decide (x = X /\ y = Y) then Some v else None).
Proof.
  intros HX HY. pose proof (mode_bounds f M) as (Bw & Bh & _). pose proof (mo_width f M). pose proof (mo_height f M).
  unfold put_clipped. apply paints_getfb. unfold id.
  destruct (u32_off X (fb_width f) HX ltac:(lia)) as [-> EX]. destruct (u32_off Y (fb_height f) HY ltac:(lia)) as [-> EY].
  destruct (decide (on_screen f X Y)) as [[Hx Hy]|Hoff].
  - rewrite !bool_decide_eq_true_2 by assumption. cbn [andb]. apply paints_put; [exact M|split; assumption|].
    rewrite EX, EY by lia. apply u32_u32.
  - replace (bool_decide (0 <= X < fb_width f) && bool_decide (0 <= Y < fb_height f)) with false.
    + eapply paints_ext; [apply paints_ret|]. intros x y Hxy. rewrite decide_False; [reflexivity|]. intros [-> ->]. contradiction.
    + symmetry. apply andb_false_iff. rewrite !bool_decide_eq_false. unfold on_screen in Hoff. destruct (decide (0 <= X < fb_width f)); [right|left]; tauto.
Qed.

(** A rectangle of clipped pixels. *)
Lemma paints_rect X Y w h (v : Z -> Z -> Z) : - 0x20000000 - 100 <= X <= 0x30000000 -> - 0x20000000 - 100 <= Y <= 0x30000000 ->
  0 <= w <= 0x100000 -> 0 <= h <= 0x100000 ->
  paints f (upto h (fun row => upto w (fun col => put_clipped (u32 (X + col)) (u32 (Y + row)) (v row col))))
    (fun x y => if decide (within x y X Y w h) then Some (v (y - Y) (x - X)) else None).
Proof.
  intros HX HY Hw Hh. eapply paints_ext; [apply (paints_blit f X Y w h _ (fun row col => Some (v row col))); [lia|lia|]|].
  - intros row col Hr Hc. apply paints_clipped; lia.
  - intros x y _. unfold within. cbn beta. repeat case_decide; first [reflexivity | lia].
Qed.

(** A row, and a column, of one colour. *)
Lemma paints_row X Y w v : - 0x20000000 - 100 <= X <= 0x30000000 -> - 0x20000000 - 100 <= Y <= 0x30000000 -> 0 <= w <= 0x100000 ->
  paints f (upto w (fun col => put_clipped (u32 (X + col)) (u32 Y) v)) (fun x y => if decide (within x y X Y w 1) then Some v else None).
Proof.
  intros HX HY Hw. eapply paints_ext.
  - apply (paints_upto f (fun x _ => x - X) _ (fun col x y => if decide (x = X + col /\ y = Y) then Some v else None)); [lia| |].
    + intros col Hc. apply paints_clipped; lia.
    + intros i x y _. case_decide; [lia|contradiction].
  - intros x y _. unfold within. cbn beta. repeat case_decide; first [reflexivity | lia].
Qed.

Lemma paints_column X Y h v : - 0x20000000 - 100 <= X <= 0x30000000 -> - 0x20000000 - 100 <= Y <= 0x30000000 -> 0 <= h <= 0x100000 ->
  paints f (upto h (fun row => put_clipped (u32 X) (u32 (Y + row)) v)) (fun x y => if decide (within x y X Y 1 h) then Some v else None).
Proof.
  intros HX HY Hh. eapply paints_ext.
  - apply (paints_upto f (fun _ y => y - Y) _ (fun row x y => if decide (x = X /\ y = Y + row) then Some v else None)); [lia| |].
    + intros row Hr. apply paints_clipped; lia.
    + intros i x y _. case_decide; [lia|contradiction].
  - intros x y _. unfold within. cbn beta. repeat case_decide; first [reflexivity | lia].
Qed.

(** Two drawings in one colour paint the union. *)
Lemma paints_union (m m' : gfx unit) (P Q : Z -> Z -> Prop) `{forall x y, Decision (P x y)} `{forall x y, Decision (Q x y)} v :
  paints f m (fun x y => if decide (P x y) then Some v else None) ->
  paints f m' (fun x y => if decide (Q x y) then Some v else None) ->
  paints f (_ ← m; m') (fun x y => if decide (P x y \/ Q x y) then Some v else None).
Proof.
  intros H1 H2. eapply paints_ext; [apply paints_bind; eassumption|].
  intros x y _. cbn beta. repeat case_decide; first [reflexivity | tauto].
Qed.
End frame.

Section window_picture.
Context (f : framebuffer) (M : mode_ok f) (w : window) (D : on_desk w).

Let X := w_x w.
Let Y := w_y w.
Let cw := content_w w.
Let ch := content_h w.

(** The numbers of the drawing code. *)
Lemma desk_numbers : title_y w = Y + 2 /\ close_x w = X + (cw - 15) /\ close_y w = Y + 5 /\
  i32 (w_x w + WM_BORDER_WIDTH + 4) = X + 6 /\ i32 (w_x w + WM_BORDER_WIDTH) = X + 2 /\
  i32 (w_y w + WM_BORDER_WIDTH + WM_TITLE_HEIGHT) = Y + 22 /\
  i32 (title_y w + (WM_TITLE_HEIGHT - FONT_CHAR_HEIGHT) / 2) = Y + 4 /\ max_title_chars w = (cw - 24) / 8.
Proof.
  destruct D as [Hx Hy Hw Hh [Hcw Hch]].
  assert (E : title_y w = Y + 2) by (unfold title_y, WM_BORDER_WIDTH, Y; rewrite i32_small; lia).
  unfold close_x, close_y, max_title_chars. rewrite E.
  unfold WM_BORDER_WIDTH, WM_CLOSE_BTN_MARG, WM_CLOSE_BTN_W, WM_TITLE_HEIGHT, WM_CLOSE_BTN_H, FONT_CHAR_HEIGHT, FONT_CHAR_WIDTH, X, Y, cw in *.
  rewrite Hw. rewrite (i32_small (content_w w + 4)) by lia. rewrite u32_small by lia.
  change ((20 - 14) / 2) with 3. change ((20 - 16) / 2) with 2.
  repeat split; rewrite ?i32_small; try lia; f_equal; lia.
Qed.

Lemma title_chars_bound : 0 <= title_chars w /\ 8 * title_chars w <= cw - 24.
Proof.
  destruct D as [_ _ _ _ [Hcw _]]. unfold title_chars, cw.
  destruct (Z.min_spec (Z.of_nat (length (w_title w))) ((content_w w - 24) / 8)) as [[H1 H2]|[H1 H2]]; rewrite H2; mlia.
Qed.

Definition ring (x y : Z) : Prop := within x y X Y (cw + 4) (ch + 22) /\ ~ within x y (X + 2) (Y + 2) cw (ch + 18).

(** One pass around the window, [b] pixels from its edge. *)
Lemma border_pass b : 0 <= b < 2 ->
  paints f (_ ← upto (cw + 4) (fun cx => put_clipped (u32 (X + cx)) (u32 (Y + b)) (border_color w));
            _ ← upto (cw + 4) (fun cx => put_clipped (u32 (X + cx)) (u32 (Y + (ch + 22) - 1 - b)) (border_color w));
            _ ← upto (ch + 22) (fun cy => put_clipped (u32 (X + b)) (u32 (Y + cy)) (border_color w));
            upto (ch + 22) (fun cy => put_clipped (u32 (X + (cw + 4) - 1 - b)) (u32 (Y + cy)) (border_color w)))
    (fun x y => if decide (within x y X Y (cw + 4) (ch + 22) /\ (x = X + b \/ x = X + cw + 3 - b \/ y = Y + b \/ y = Y + ch + 21 - b))
                then Some (border_color w) else None).
Proof.
  intros Hb. destruct D as [Hx Hy Hw Hh [Hcw Hch]]. fold X in Hx. fold Y in Hy. fold cw in Hcw. fold ch in Hch.
  pose proof (paints_row f M X (Y + b) (cw + 4) (border_color w) ltac:(lia) ltac:(lia) ltac:(lia)) as H1.
  pose proof (paints_row f M X (Y + (ch + 22) - 1 - b) (cw + 4) (border_color w) ltac:(lia) ltac:(lia) ltac:(lia)) as H2.
  pose proof (paints_column f M (X + b) Y (ch + 22) (border_color w) ltac:(lia) ltac:(lia) ltac:(lia)) as H3.
  pose proof (paints_column f M (X + (cw + 4) - 1 - b) Y (ch + 22) (border_color w) ltac:(lia) ltac:(lia) ltac:(lia)) as H4.
  eapply paints_ext; [exact (paints_union f _ _ _ _ _ H1 (paints_union f _ _ _ _ _ H2 (paints_union f _ _ _ _ _ H3 H4)))|].
  intros x y _. cbn beta. unfold within. repeat case_decide; first [reflexivity | exfalso; lia].
Qed.

Lemma border_paints : paints f (draw_border w) (fun x y => if decide (ring x y) then Some (border_color w) else None).
Proof.
  pose proof D as [Hx Hy Hw Hh [Hcw Hch]]. unfold draw_border, WM_BORDER_WIDTH. rewrite Hw, Hh. unfold upto at 1.
  change (Z.to_nat 2) with 2%nat. rewrite !gfor_S. change (0 + 1) with 1.
  eapply paints_ext; [apply paints_bind; [apply (border_pass 0); lia|apply paints_bind; [apply (border_pass 1); lia|apply paints_ret]]|].
  intros x y _. cbn beta. unfold ring, within, X, Y, cw, ch. repeat case_decide; first [reflexivity | exfalso; lia].
Qed.

Lemma title_bar_paints : paints f (draw_title_bar w) (fun x y => if decide (within x y (X + 2) (Y + 2) cw 20) then Some (title_color w) else None).
Proof.
  destruct D as [Hx Hy Hw Hh [Hcw Hch]]. destruct desk_numbers as (E1 & _). unfold draw_title_bar, WM_BORDER_WIDTH, WM_TITLE_HEIGHT.
  rewrite E1, Hw, u32_small by lia. replace (Z.to_nat (content_w w + 4 - 2 - 2)) with (Z.to_nat cw) by (unfold cw; lia).
  eapply paints_ext.
  - apply (paints_upto f (fun _ y => y - (Y + 2)) _ (fun ty x y => if decide (2 <= x - X < 2 + cw /\ y = Y + 2 + ty) then Some (title_color w) else None)); [lia| |].
    + intros ty Hty. unfold paints, gfor. eapply draws_ext.
      * apply (draws_for (fun x _ => x - X) _ (fun tx x y => if decide (x = X + tx /\ y = Y + 2 + ty) then Some (title_color w) else None)).
        -- intros tx Htx. apply paints_clipped; [exact M|unfold X, cw in *; lia|unfold Y in *; lia].
        -- intros i x y _. case_decide; [lia|contradiction].
      * intros x y _. cbn beta. fold cw in Hcw. repeat case_decide; first [reflexivity | exfalso; lia].
    + intros i x y _. case_decide; [lia|contradiction].
  - intros x y _. cbn beta. unfold within. repeat case_decide; try reflexivity; exfalso; lia.
Qed.

Lemma title_text_paints : paints f (draw_title_text w) (fun x y =>
  if decide (within x y (X + 6) (Y + 4) (8 * title_chars w) 16) then
    Some (if glyph_bit (u8 (w_title w !!! Z.to_nat ((x - (X + 6)) / 8))) (y - (Y + 4)) ((x - (X + 6)) mod 8) then color_to_pixel WM_TITLE_TEXT else title_color w)
  else None).
Proof.
  destruct D as [Hx Hy Hw Hh [Hcw Hch]]. destruct desk_numbers as (E1 & _ & _ & E4 & _ & _ & E7 & E8). unfold draw_title_text.
  cbv zeta. rewrite E4, E7, E8. change (Z.min (Z.of_nat (length (w_title w))) ((cw - 24) / 8)) with (title_chars w). fold cw in Hcw.
  pose proof title_chars_bound as [Hn1 Hn2].
  eapply paints_ext.
  - apply (paints_upto f (fun x _ => (x - (X + 6)) / 8) _ (fun ci x y => if decide (within x y (X + 6 + ci * 8) (Y + 4) 8 16) then
      Some (if glyph_bit (u8 (w_title w !!! Z.to_nat ci)) (y - (Y + 4)) (x - (X + 6 + ci * 8)) then color_to_pixel WM_TITLE_TEXT else title_color w) else None)); [lia| |].
    + intros ci Hci. unfold FONT_CHAR_WIDTH, FONT_CHAR_HEIGHT. rewrite i32_small by (unfold X; lia).
      apply (paints_rect f M (X + 6 + ci * 8) (Y + 4) 8 16
        (fun row col => if glyph_bit (u8 (w_title w !!! Z.to_nat ci)) row col then color_to_pixel WM_TITLE_TEXT else title_color w)); unfold X, Y; lia.
    + intros i x y _. case_decide as Hd; [|contradiction]. intros _. destruct Hd. mlia.
  - intros x y _. cbn beta. set (t := x - (X + 6)).
    assert (Hdm : t = 8 * (t / 8) + t mod 8 /\ 0 <= t mod 8 < 8) by (split; [apply Z.div_mod; lia|apply Z.mod_pos_bound; lia]).
    unfold within. replace (x - (X + 6 + t / 8 * 8)) with (t mod 8) by (unfold t in *; lia).
    repeat case_decide; try reflexivity; exfalso; unfold t in *; lia.
Qed.

Lemma close_button_paints : paints f (draw_close_button w) (fun x y =>
  let b := X + (cw - 15) in
  if decide (within x y b (Y + 5) 14 14) then
    Some (color_to_pixel (if decide (x - b = y - (Y + 5) \/ x - b = 13 - (y - (Y + 5))) then WM_CLOSE_X_COLOR else WM_CLOSE_NORMAL))
  else None).
Proof.
  destruct D as [Hx Hy Hw Hh [Hcw Hch]]. destruct desk_numbers as (_ & E2 & E3 & _). unfold draw_close_button, WM_CLOSE_BTN_H, WM_CLOSE_BTN_W.
  rewrite E2, E3. set (b := X + (cw - 15)). set (c := Y + 5).
  assert (Hb : - 0x20000000 <= b <= 0x2FFFFFFF) by (unfold b, X, cw in *; lia).
  assert (Hc : - 0x20000000 <= c <= 0x2FFFFFFF) by (unfold c, Y in *; lia). clearbody b c.
  eapply paints_ext.
  - apply paints_bind.
    + apply (paints_rect f M b c 14 14 (fun _ _ => color_to_pixel WM_CLOSE_NORMAL)); lia.
    + apply (paints_upto f (fun x _ => x - b) _ (fun i x y => if decide ((x = b + i /\ y = c + i) \/ (x = b + i /\ y = c + 14 - 1 - i))
        then Some (color_to_pixel WM_CLOSE_X_COLOR) else None)); [lia| |].
      * intros i Hi. exact (paints_union f _ _ _ _ _ (paints_clipped f M (b + i) (c + i) _ ltac:(lia) ltac:(lia))
          (paints_clipped f M (b + i) (c + 14 - 1 - i) _ ltac:(lia) ltac:(lia))).
      * intros i x y _. case_decide; [lia|contradiction].
  - intros x y _. cbv zeta. unfold within. repeat case_decide; try reflexivity; exfalso; lia.
Qed.

Lemma content_paints buffer : length buffer = Z.to_nat (cw * ch) -> cw * ch <= 0x1000000 ->
  paints f (draw_window_content w buffer) (fun x y =>
    if decide (within x y (X + 2) (Y + 22) cw ch) then Some (buffer !!! Z.to_nat ((y - (Y + 22)) * cw + (x - (X + 2)))) else None).
Proof.
  intros Hl Hs. destruct D as [Hx Hy Hw Hh [Hcw Hch]]. destruct desk_numbers as (_ & _ & _ & _ & E5 & E6 & _).
  unfold draw_window_content. cbv zeta. rewrite E5, E6. fold cw ch in Hcw, Hch |- *.
  eapply paints_ext.
  - apply (paints_blit f (X + 2) (Y + 22) cw ch _ (fun row col => Some (buffer !!! Z.to_nat (row * cw + col)))); [lia|lia|].
    intros row col Hr Hc.
    assert (Hi : 0 <= row * cw + col < cw * ch) by nia.
    assert (E : buffer !! Z.to_nat (u32 (row * cw + col)) = Some (buffer !!! Z.to_nat (row * cw + col))).
    { rewrite u32_small by lia. apply list_lookup_lookup_total_lt. lia. }
    assert (P : paints f (put_clipped (u32 (X + 2 + col)) (u32 (Y + 22 + row)) (buffer !!! Z.to_nat (row * cw + col)))
      (fun x y => if decide (x = X + 2 + col /\ y = Y + 22 + row) then Some (buffer !!! Z.to_nat (row * cw + col)) else None)).
    { apply paints_clipped; [exact M|unfold X; lia|unfold Y; lia]. }
    intros s Hs'. specialize (P s Hs'). rewrite E. unfold put_clipped in P. unfold mbind, gfx_bind, getfb in *. unfold id in *. rewrite Hs' in *.
    rewrite !Z.leb_antisym. destruct (u32 (X + 2 + col) <? fb_width f), (u32 (Y + 22 + row) <? fb_height f); exact P.
  - intros x y _. cbn beta. unfold within. repeat case_decide; first [reflexivity | lia].
Qed.

(** The whole window. *)
Lemma window_paints buffer : length buffer = Z.to_nat (cw * ch) -> cw * ch <= 0x1000000 ->
  paints f (_ ← draw_window_frame w; draw_window_content w buffer) (fun x y => window_pixel w buffer (x - X) (y - Y)).
Proof.
  intros Hl Hs. destruct D as [Hx Hy Hw Hh [Hcw Hch]]. unfold draw_window_frame.
  pose proof title_chars_bound as [Ht1 Ht2].
  eapply paints_ext.
  - apply paints_bind; [|apply content_paints; assumption].
    apply paints_bind; [apply border_paints|]. apply paints_bind; [apply title_bar_paints|].
    apply paints_bind; [apply title_text_paints|apply close_button_paints].
  - intros x y _. cbv beta zeta. unfold window_pixel, ring. cbv zeta. fold cw ch. fold cw in Hcw. fold ch in Hch.
    replace (x - (X + 2)) with (x - X - 2) by lia. replace (y - (Y + 22)) with (y - Y - 22) by lia.
    replace (x - (X + 6)) with (x - X - 6) by lia. replace (y - (Y + 4)) with (y - Y - 4) by lia.
    replace (x - (X + (cw - 15))) with (x - X - (cw - 15)) by lia. replace (y - (Y + 5)) with (y - Y - 5) by lia.
    unfold within. set (i := x - X). set (j := y - Y). assert (Ex : x = X + i) by (unfold i; lia). assert (Ey : y = Y + j) by (unfold j; lia). rewrite Ex, Ey. clearbody i j.
    repeat (case_decide; try (exfalso; lia); try reflexivity).
Qed.
End window_picture.

(** ** Drawing the windows *)

Lemma wm_ok_composite others n s l b : wm_ok others n s l -> wm_ok others n (set_composite b s) l.
Proof.
  intros [[a1 a2 a3 a4 a5 a6 a7 a8 a9] k]. split; [|exact k]. split; try assumption.
  intros p w Hp. destruct (a8 p w Hp). split; assumption.
Qed.

(** The states differ in the windows' dirty flags only. *)
Record redrawn (s s' : wm) : Prop := {
  rd_state : set_objects ∅ s' = set_objects ∅ s;
  rd_windows : forall p, set_dirty 0 <$> objects s' !! p = set_dirty 0 <$> objects s !! p
}.

#[export] Instance redrawn_equiv : Equivalence redrawn.
Proof.
  split; [intros s; split; reflexivity|intros s s' [A B]; split; [congruence|intros p; symmetry; apply B]|].
  intros s1 s2 s3 [A1 B1] [A2 B2]. split; [congruence|]. intros p. rewrite B2. apply B1.
Qed.

Lemma redrawn_lookup s s' p w : redrawn s s' -> objects s !! p = Some w -> exists d, objects s' !! p = Some (set_dirty d w).
Proof.
  intros [_ B] Hw. specialize (B p). rewrite Hw in B. destruct (objects s' !! p) as [w'|]; [|discriminate B].
  exists (w_dirty w'). f_equal. apply (inj Some) in B. destruct w, w'. unfold set_dirty in *. cbn in *. congruence.
Qed.

Lemma redrawn_fields s s' : redrawn s s' ->
  g_windows s' = g_windows s /\ g_focused s' = g_focused s /\ buffers s' = buffers s /\ heap s' = heap s /\ g_count s' = g_count s.
Proof. intros [A _]. destruct s, s'. unfold set_objects in A. cbn in *. injection A as -> -> -> -> -> -> ->. auto. Qed.

(** Drawing a window: its flag is cleared. *)
Lemma undirty others n s l p w : wm_ok others n s l -> objects s !! p = Some w ->
  exists s', modify p (set_dirty 0) s = Ret (tt, s') /\ wm_ok others n s' l /\ redrawn s s'.
Proof.
  intros Ok Hw. eexists. split; [apply (modify_ok _ _ _ _ Hw)|].
  destruct (touch_ok others n s l p w (set_dirty 0) Ok Hw) as [Ok' _]; [cbn; auto|intros q v; cbn; auto|].
  split; [apply (wm_ok_composite _ _ _ _ (needs_composite s)) in Ok'; destruct s; exact Ok'|].
  split; [destruct s; reflexivity|]. intros q. cbn [objects set_objects]. destruct (decide (q = p)) as [->|Hq].
  - rewrite lookup_insert_eq, Hw. destruct w; reflexivity.
  - rewrite lookup_insert_ne by congruence. reflexivity.
Qed.

(** What the window at [p] shows at a point. *)
Definition window_shows (s : wm) (x y p : Z) : option Z :=
  match objects s !! p with
  | Some w => if c_true (w_visible w) then window_pixel w (buffers s !!! w_buffer w) (x - w_x w) (y - w_y w) else None
  | None => None
  end.

(** The highest of the windows [l] that covers the point. *)
Definition stack_shows (s : wm) (l : list Z) (x y : Z) : option Z :=
  last (filter (fun p => covers s x y p = true) l) ≫= window_shows s x y.

Definition window_near (s : wm) (p : Z) : Prop := exists w, objects s !! p = Some w /\ on_desk w.

Lemma window_shows_redrawn s s' x y p : redrawn s s' -> window_shows s' x y p = window_shows s x y p.
Proof.
  intros R. destruct (redrawn_fields s s' R) as (_ & _ & EB & _ & _). unfold window_shows. destruct (objects s !! p) as [w|] eqn:E.
  - destruct (redrawn_lookup s s' p w R E) as [d ->]. rewrite EB. reflexivity.
  - destruct (objects s' !! p) as [w|] eqn:E'; [|reflexivity]. symmetry in R.
    destruct (redrawn_lookup s' s p w R E') as [d Hd]. congruence.
Qed.

Lemma covers_redrawn s s' x y p : redrawn s s' -> covers s' x y p = covers s x y p.
Proof.
  intros R. unfold covers. destruct (objects s !! p) as [w|] eqn:E.
  - destruct (redrawn_lookup s s' p w R E) as [d ->]. reflexivity.
  - destruct (objects s' !! p) as [w|] eqn:E'; [|reflexivity]. symmetry in R.
    destruct (redrawn_lookup s' s p w R E') as [d Hd]. congruence.
Qed.

Lemma stack_shows_redrawn s s' l x y : redrawn s s' -> stack_shows s' l x y = stack_shows s l x y.
Proof.
  intros R. unfold stack_shows.
  rewrite (list_filter_iff (fun p => covers s' x y p = true) (fun p => covers s x y p = true)) by (intros p; rewrite (covers_redrawn _ _ _ _ _ R); reflexivity).
  destruct (last _) as [p|]; [|reflexivity]. apply (window_shows_redrawn _ _ _ _ _ R).
Qed.

Lemma window_near_redrawn s s' p : redrawn s s' -> window_near s p -> window_near s' p.
Proof.
  intros R (w & Hw & [H1 H2 H3 H4 H5]). destruct (redrawn_lookup s s' p w R Hw) as [d Hd].
  exists (set_dirty d w). split; [exact Hd|]. split; assumption.
Qed.

(** A window covers what it paints. *)
Lemma covers_shows s x y p w : objects s !! p = Some w -> on_desk w -> covers s x y p = bool_decide (is_Some (window_shows s x y p)).
Proof.
  intros Hw [Hx Hy Ew Eh Hc]. unfold covers, window_shows. rewrite Hw. destruct (c_true (w_visible w)); cbn [andb]; [|reflexivity].
  unfold window_contains, window_pixel, within. cbv zeta. rewrite Ew, Eh.
  rewrite (i32_small (content_w w + 4)), (i32_small (content_h w + 22)), !i32_small by lia.
  case_decide as D.
  - rewrite bool_decide_eq_true_2 by eauto. rewrite !andb_true_iff. rewrite !Z.leb_le, !Z.ltb_lt. lia.
  - rewrite bool_decide_eq_false_2 by (intros [? E]; discriminate E). rewrite !andb_false_iff. rewrite !Z.leb_gt, !Z.ltb_ge. lia.
Qed.

Lemma stack_shows_cons s p l x y : Forall (window_near s) (p :: l) ->
  stack_shows s (p :: l) x y = match stack_shows s l x y with Some v => Some v | None => window_shows s x y p end.
Proof.
  intros F. apply Forall_cons in F as [(w & Hw & D) F]. unfold stack_shows. rewrite filter_cons.
  assert (Top : match last (filter (fun p => covers s x y p = true) l) with Some q => is_Some (window_shows s x y q) | None => True end).
  { destruct (last _) as [q|] eqn:E; [|exact I]. apply last_Some_elem_of, list_elem_of_filter in E as [Hc Hq].
    rewrite Forall_forall in F. destruct (F q Hq) as (v & Hv & Dv). rewrite (covers_shows s x y q v Hv Dv) in Hc.
    apply bool_decide_eq_true in Hc. exact Hc. }
  pose proof (covers_shows s x y p w Hw D) as Cp.
  case_decide as Hc.
  - rewrite last_cons. destruct (last _) as [q|]; cbn [mbind option_bind].
    + destruct Top as [v ->]. reflexivity.
    + reflexivity.
  - destruct (last _) as [q|]; cbn [mbind option_bind].
    + destruct Top as [v ->]. reflexivity.
    + rewrite Cp in Hc. apply not_true_is_false in Hc. apply bool_decide_eq_false in Hc.
      destruct (window_shows s x y p); [exfalso; apply Hc; eauto|reflexivity].
Qed.

Lemma desk_bind_ret {A B} (m : deskop A) (k : A -> deskop B) d x d' : m d = Ret (x, d') -> (m ≫= k) d = k x d'.
Proof. intros E. unfold mbind, deskop_bind. rewrite E. reflexivity. Qed.

Ltac desk_step E := rewrite (desk_bind_ret _ _ _ _ _ E).

Lemma on_wm_ret {A} (m : wmop A) d x s' : m (d_wm d) = Ret (x, s') ->
  on_wm m d = Ret (x, mk_desk s' (d_screen d) (d_cursor d) (d_mouse d) (wm_buttons_last d)).
Proof. intros E. unfold on_wm. rewrite E. reflexivity. Qed.

Lemma on_gfx_ret {A} (m : gfx A) d x s' : m (d_screen d) = Ret (x, s') ->
  on_gfx m d = Ret (x, mk_desk (d_wm d) s' (d_cursor d) (d_mouse d) (wm_buttons_last d)).
Proof. intros E. unfold on_gfx. rewrite E. reflexivity. Qed.

Lemma on_cursor_ret (m : cursor -> gfx cursor) d c' s' : m (d_cursor d) (d_screen d) = Ret (c', s') ->
  on_cursor m d = Ret (tt, mk_desk (d_wm d) s' c' (d_mouse d) (wm_buttons_last d)).
Proof.
  intros E. unfold on_cursor, getd. unfold mbind at 1, deskop_bind at 1. desk_step (on_gfx_ret _ _ _ _ E). reflexivity.
Qed.

Section composition.
Context (f : framebuffer) (M : mode_ok f) (Hwidth : 16 <= fb_width f) (Hheight : 16 <= fb_height f).
Context (others : list (Z * Z)) (n : Z).

(** One window. *)
Lemma draw_window_spec l p w d : wm_ok others n (d_wm d) l -> p ∈ l -> objects (d_wm d) !! p = Some w -> on_desk w -> fb (d_screen d) = f ->
  exists s' sc', (if c_true (w_visible w) then draw_window p w else mret tt) d =
      Ret (tt, mk_desk s' sc' (d_cursor d) (d_mouse d) (wm_buttons_last d)) /\
    wm_ok others n s' l /\ redrawn (d_wm d) s' /\ fb sc' = f /\ repainted f (d_screen d) (fun x y => window_shows (d_wm d) x y p) sc'.
Proof.
  intros Ok Hp Hw D Hs. destruct (c_true (w_visible w)) eqn:Ev.
  2:{ exists (d_wm d), (d_screen d). split; [destruct d; reflexivity|]. split; [exact Ok|]. split; [reflexivity|]. split; [exact Hs|].
      eapply (painted_ext (Picture := screen_picture f)); [apply (painted_none (Picture := screen_picture f))|].
      intros x y _. unfold window_shows. rewrite Hw, Ev. reflexivity. }
  pose proof (ok_window _ _ _ _ (ok_mid _ _ _ _ Ok) p w Hw) as [_ _ _ (C1 & C2 & C3) (b & Hb & Hl)].
  assert (Hbuf : w_buffer w <> 0).
  { eapply owns_nonzero; [apply (ok_heap _ _ _ _ (ok_mid _ _ _ _ Ok))|apply elem_of_app; left; apply (owned_elem _ _ p w Hp Hw)]. }
  unfold pixels_of, HEAP_SIZE in *.
  destruct (window_paints f M w D b Hl ltac:(lia) (d_screen d) Hs) as (sc' & R & F & P).
  unfold draw_window. assert (Er : exists sc1, draw_window_frame w (d_screen d) = Ret (tt, sc1) /\ draw_window_content w b sc1 = Ret (tt, sc')).
  { unfold mbind, gfx_bind in R. destruct (draw_window_frame w (d_screen d)) as [[[] sc1]| |]; try discriminate R. eauto. }
  destruct Er as (sc1 & R1 & R2). desk_step (on_gfx_ret _ _ _ _ R1).
  rewrite (proj2 (Z.eqb_neq _ _) Hbuf).
  set (d1 := mk_desk _ _ _ _ _).
  assert (E2 : (fun s => match buffers s !! w_buffer w with Some b => Ret (Some b, s) | None => Oob end) (d_wm d1) = Ret (Some b, d_wm d))
    by (cbn; rewrite Hb; reflexivity).
  desk_step (on_wm_ret _ _ _ _ E2). cbn [d_wm d_screen d_cursor d_mouse wm_buttons_last d1].
  set (d2 := mk_desk _ _ _ _ _). assert (E3 : draw_window_content w b (d_screen d2) = Ret (tt, sc')) by exact R2.
  desk_step (on_gfx_ret _ _ _ _ E3). set (d3 := mk_desk _ _ _ _ _).
  destruct (undirty others n (d_wm d) l p w Ok Hw) as (s' & E4 & Ok' & Rd). assert (E4' : modify p (set_dirty 0) (d_wm d3) = Ret (tt, s')) by exact E4.
  rewrite (on_wm_ret _ _ _ _ E4'). exists s', sc'. split; [reflexivity|]. split; [exact Ok'|]. split; [exact Rd|]. split; [exact F|].
  eapply (painted_ext (Picture := screen_picture f)); [exact P|]. intros x y _. unfold window_shows. rewrite Hw, Ev.
  rewrite (lookup_total_correct _ _ _ Hb). reflexivity.
Qed.

Lemma draw_windows_spec L l : forall fuel p d, wm_ok others n (d_wm d) L -> chain (objects (d_wm d)) p l -> (length l < fuel)%nat ->
  (forall q, q ∈ l -> q ∈ L) -> Forall (window_near (d_wm d)) l -> fb (d_screen d) = f ->
  exists s' sc', draw_windows fuel p d = Ret (tt, mk_desk s' sc' (d_cursor d) (d_mouse d) (wm_buttons_last d)) /\
    wm_ok others n s' L /\ redrawn (d_wm d) s' /\ fb sc' = f /\ repainted f (d_screen d) (stack_shows (d_wm d) l) sc'.
Proof.
  induction l as [|q l IH]; intros [|fuel] p d Ok C Hf Hin F Hs; cbn [length] in Hf; try lia; cbn [draw_windows].
  { rewrite (chain_nil_inv _ _ C). exists (d_wm d), (d_screen d). split; [destruct d; reflexivity|]. split; [exact Ok|]. split; [reflexivity|].
    split; [exact Hs|]. apply (painted_none (Picture := screen_picture f)). }
  apply chain_cons_inv in C as (-> & Hq & w & Hw & Ht). rewrite (proj2 (Z.eqb_neq _ _) Hq).
  assert (E : get q (d_wm d) = Ret (w, d_wm d)) by apply (get_ok _ _ _ Hw). desk_step (on_wm_ret _ _ _ _ E).
  replace (mk_desk _ _ _ _ _) with d by (destruct d; reflexivity).
  pose proof F as F'. apply Forall_cons in F as [(w0 & Hw0 & D) F]. rewrite Hw in Hw0. injection Hw0 as <-.
  destruct (draw_window_spec L q w d Ok (Hin q ltac:(left)) Hw D Hs) as (s1 & sc1 & R1 & Ok1 & Rd1 & F1 & P1). desk_step R1.
  set (d1 := mk_desk _ _ _ _ _).
  destruct (IH fuel (w_next w) d1) as (s' & sc' & R & Ok' & Rd & F2 & P2); [exact Ok1| |lia| | |exact F1|].
  - eapply lseg_ext; [exact Ht|]. intros x v _ Hv. destruct (redrawn_lookup _ _ _ _ Rd1 Hv) as [d' Hd]. exists (set_dirty d' v). auto.
  - intros x Hx. apply Hin. right. exact Hx.
  - eapply Forall_impl; [exact F|]. intros x. apply window_near_redrawn, Rd1.
  - exists s', sc'. split; [exact R|]. split; [exact Ok'|]. split; [etransitivity; eassumption|]. split; [exact F2|].
    eapply (painted_ext (Picture := screen_picture f)); [eapply (painted_then (Picture := screen_picture f)); eassumption|].
    intros x y _. cbn beta. rewrite (stack_shows_cons _ _ _ _ _ F'), (stack_shows_redrawn _ _ _ _ _ Rd1). reflexivity.
Qed.

(** The state of the desktop between two operations: the window manager's
    invariant, and the picture [base] under the cursor. *)
Record desk_ok (l : list Z) (base : Z -> Z -> Z) (d : desk) : Prop := {
  dk_wm : wm_ok others n (d_wm d) l;
  dk_near : Forall (window_near (d_wm d)) l;
  dk_over : over f (d_screen d) (d_cursor d) base
}.

(** [base] with the windows drawn over it. *)
Definition composed (s : wm) (l : list Z) (base : Z -> Z -> Z) (x y : Z) : Z := default (base x y) (stack_shows s l x y).

Lemma wm_composite_spec l base d : desk_ok l base d -> l <> [] ->
  exists d', wm_composite d = Ret (tt, d') /\ desk_ok l (composed (d_wm d') l base) d' /\
    redrawn (set_composite 0 (d_wm d)) (d_wm d') /\ d_mouse d' = d_mouse d /\ wm_buttons_last d' = wm_buttons_last d /\
    cu_x (d_cursor d') = cu_x (d_cursor d) /\ cu_y (d_cursor d') = cu_y (d_cursor d).
Proof.
  intros [Ok Nr O] Hl. pose proof (ov_fb _ _ _ _ O) as Hs. unfold wm_composite, getd.
  do 3 (unfold mbind at 1, deskop_bind at 1). rewrite Hs, (addr_set f M).
  destruct (ok_count _ _ _ _ (ok_mid _ _ _ _ Ok)) as [Hcnt Hlen].
  assert (Hc0 : (g_count (d_wm d) =? 0) = false) by (destruct l; [contradiction|]; cbn [length] in Hcnt; lia).
  rewrite Hc0. cbn [andb]. pose proof (ov_visible _ _ _ _ O) as Hv. unfold c_true. rewrite (proj2 (Z.eqb_neq _ _) Hv). cbn [negb].
  destruct (cursor_remove_shows f M _ _ _ O) as (sc1 & R1 & F1 & _ & _ & P1). desk_step (on_gfx_ret _ _ _ _ R1).
  set (d1 := mk_desk _ _ _ _ _).
  destruct (draw_windows_spec l l list_fuel (g_windows (d_wm d)) d1) as (s2 & sc2 & R2 & Ok2 & Rd & F2 & A2 & B2 & P2);
    [exact Ok|apply (ok_chain _ _ _ _ (ok_mid _ _ _ _ Ok))|unfold list_fuel; lia|auto|exact Nr|exact F1|].
  desk_step R2. set (d2 := mk_desk _ _ _ _ _).
  destruct (cursor_restore_over f M sc2 (d_cursor d) F2 Hv (ov_placed _ _ _ _ O)) as (c' & sc3 & R3 & O3 & X3 & Y3 & _ & _).
  assert (R3' : cursor_restore (d_cursor d2) (d_screen d2) = Ret (c', sc3)) by exact R3. desk_step (on_cursor_ret _ _ _ _ R3').
  eexists. split; [reflexivity|]. cbn [d_wm d_screen d_cursor d_mouse wm_buttons_last modg].
  split; [|split; [|split; [reflexivity|split; [reflexivity|split; assumption]]]].
  - split; cbn [d_wm d_screen d_cursor].
    + apply wm_ok_composite. exact Ok2.
    + eapply Forall_impl; [exact Nr|]. intros p Hp. destruct (window_near_redrawn _ _ p Rd Hp) as (w & Hw & D). exists w. split; assumption.
    + apply (over_ext f sc3 c' (pixel sc2)); [exact O3|]. intros x y Hxy. rewrite P2, P1 by exact Hxy. unfold composed.
      rewrite <- (stack_shows_redrawn _ _ l x y Rd). reflexivity.
  - destruct Rd as [A B]. split; [|exact B]. destruct s2, (d_wm d1) eqn:E. unfold set_objects, set_composite in *. cbn in *.
    cbn in E. rewrite E. cbn. congruence.
Qed.
End composition.

(** ** A click *)

(** A change of windows that keeps their geometry. *)
Lemma window_near_becomes g s s' p : becomes g (objects s) (objects s') -> (forall q w, on_desk w -> on_desk (g q w)) ->
  window_near s p -> window_near s' p.
Proof.
  intros B G (w & Hw & D). destruct (becomes_some _ _ _ _ _ B Hw) as [k E]. exists (set_next k (g p w)). split; [exact E|].
  destruct (G p w D) as [H1 H2 H3 H4 H5]. split; assumption.
Qed.

Lemma refocus_on_desk win z q w : on_desk w -> on_desk (refocus win z q w).
Proof. intros [H1 H2 H3 H4 H5]. unfold refocus. destruct (q =? win); split; assumption. Qed.

(** The window at a point, as the click finds it. *)
Definition pointed (s : wm) (l : list Z) (x y : Z) : Z := default 0 (last (filter (fun p => covers s x y p = true) l)).

Lemma wm_get_window_at_run others n s l x y : wm_ok others n s l -> wm_get_window_at x y s = Ret (pointed s l x y, s) /\
  (pointed s l x y = 0 /\ last (filter (fun p => covers s x y p = true) l) = None \/
   pointed s l x y <> 0 /\ pointed s l x y ∈ l /\ last (filter (fun p => covers s x y p = true) l) = Some (pointed s l x y)).
Proof.
  intros [M _]. destruct (ok_count _ _ _ _ M) as [_ Hlen]. unfold wm_get_window_at. wm_pure. split.
  - apply (window_at_spec s x y l list_fuel _ 0 (ok_chain _ _ _ _ M)). unfold list_fuel. lia.
  - unfold pointed. destruct (last (filter _ l)) as [p|] eqn:E; [right|left; auto].
    apply last_Some_elem_of, list_elem_of_filter in E as [_ Hp]. cbn.
    split; [apply (lseg_live _ _ _ _ (ok_chain _ _ _ _ M) p Hp)|auto].
Qed.

Section click.
Context (f : framebuffer) (M : mode_ok f) (others : list (Z * Z)) (n : Z) (Hn : n < 4294967295).

(** The state after an operation of the window manager on the windows [l'], drawn. *)
Lemma recompose l l' base d s' : desk_ok f others n l base d -> wm_ok others (n + 1) s' l' -> Forall (window_near s') l' -> l' <> [] ->
  let d1 := mk_desk s' (d_screen d) (d_cursor d) (d_mouse d) (wm_buttons_last d) in
  exists d', (_ ← wm_composite; mret 1) d1 = Ret (1, d') /\ desk_ok f others (n + 1) l' (composed (d_wm d') l' base) d' /\
    redrawn (set_composite 0 s') (d_wm d') /\ d_mouse d' = d_mouse d /\ wm_buttons_last d' = wm_buttons_last d /\
    cu_x (d_cursor d') = cu_x (d_cursor d) /\ cu_y (d_cursor d') = cu_y (d_cursor d).
Proof.
  intros [Ok Nr O] Ok' Nr' Hl d1. assert (D1 : desk_ok f others (n + 1) l' base d1) by (split; assumption).
  destruct (wm_composite_spec f M others (n + 1) l' base d1 D1 Hl) as (d' & R & D' & H). exists d'. desk_step R.
  split; [reflexivity|]. split; [exact D'|]. exact H.
Qed.

(** What a left click at a point makes of the windows. *)
Definition clicked (s : wm) (l : list Z) (x y : Z) : list Z :=
  let p := pointed s l x y in
  match objects s !! p with
  | Some w => if wm_is_in_close_btn w x y then without p l else raised l p
  | None => l
  end.
Definition click_focus (s : wm) (l : list Z) (x y : Z) : Z :=
  let p := pointed s l x y in
  match objects s !! p with
  | Some w => if wm_is_in_close_btn w x y then (if g_focused s =? p then 0 else g_focused s) else p
  | None => g_focused s
  end.

Lemma wm_handle_click_spec l base d x y buttons : desk_ok f others n l base d -> buttons .& MOUSE_LEFT_BTN <> 0 ->
  clicked (d_wm d) l x y <> [] ->
  let l' := clicked (d_wm d) l x y in
  exists d', wm_handle_click x y buttons d = Ret (c_bool (negb (pointed (d_wm d) l x y =? 0)), d') /\
    (pointed (d_wm d) l x y = 0 -> d' = d) /\
    desk_ok f others (n + 1) l' (if pointed (d_wm d) l x y =? 0 then base else composed (d_wm d') l' base) d' /\
    g_focused (d_wm d') = click_focus (d_wm d) l x y /\
    (pointed (d_wm d) l x y <> 0 -> needs_composite (d_wm d') = 0) /\
    d_mouse d' = d_mouse d /\ wm_buttons_last d' = wm_buttons_last d /\
    cu_x (d_cursor d') = cu_x (d_cursor d) /\ cu_y (d_cursor d') = cu_y (d_cursor d).
Proof.
  intros D Hb Hl'. pose proof D as [Ok Nr O]. cbv zeta. unfold clicked, click_focus in *. unfold wm_handle_click. rewrite (proj2 (Z.eqb_neq _ _) Hb).
  destruct (wm_get_window_at_run others n (d_wm d) l x y Ok) as [R Hp]. desk_step (on_wm_ret _ _ _ _ R).
  replace (mk_desk (d_wm d) _ _ _ _) with d by (destruct d; reflexivity).
  set (p := pointed (d_wm d) l x y) in *. destruct Hp as [[Hp _]|(Hnz & Hin & _)].
  { rewrite Hp in *. cbn [Z.eqb negb c_bool].
    assert (E0 : objects (d_wm d) !! 0 = None).
    { destruct (objects (d_wm d) !! 0) eqn:E; [|reflexivity]. exfalso. pose proof (ok_mid _ _ _ _ Ok) as Md.
      apply (proj1 (lseg_live _ _ _ _ (ok_chain _ _ _ _ Md) 0 (ok_live _ _ _ _ Md 0 (ex_intro _ _ E)))). reflexivity. }
    rewrite E0. exists d. split; [reflexivity|]. split; [reflexivity|]. split.
    - destruct D as [A B C]. split; [eapply wm_ok_weaken; [exact A|lia]|exact B|exact C].
    - split; [reflexivity|]. split; [contradiction|]. auto. }
  rewrite (proj2 (Z.eqb_neq _ _) Hnz). cbn [negb c_bool].
  destruct (lseg_live _ _ _ _ (ok_chain _ _ _ _ (ok_mid _ _ _ _ Ok)) p Hin) as [_ [w Hw]]. rewrite Hw in *.
  desk_step (on_wm_ret _ _ _ _ (get_ok _ _ _ Hw)). replace (mk_desk (d_wm d) _ _ _ _) with d by (destruct d; reflexivity).
  destruct (wm_is_in_close_btn w x y).
  - pose proof Hin as Hsp. apply list_elem_of_split in Hsp as (l1 & l2 & El). pose proof Ok as Okl. rewrite El in Okl, Hl', Nr |- *.
    rewrite without_split in Hl' |- * by apply (ok_nodup _ _ _ _ (ok_mid _ _ _ _ Okl)).
    destruct (wm_destroy_ok others n (d_wm d) l1 p l2 Okl) as (v & h & W & R1 & Hv & Rl & Ok1). desk_step (on_wm_ret _ _ _ _ R1).
    destruct (recompose l (l1 ++ l2) base d (destroyed (d_wm d) p v h W) D) as (d' & R2 & D' & Rd & H1 & H2 & H3 & H4); [eapply wm_ok_weaken; [exact Ok1|lia]| |exact Hl'|].
    { apply Forall_forall. intros q Hq. rewrite Forall_forall in Nr. destruct (Nr q (elem_of_skip _ _ _ _ Hq)) as (u & Hu & Du).
      destruct (relinked_lookup _ _ _ _ Rl Hu) as [k Ek]. exists (set_next k u). split; [|destruct Du; split; assumption].
      cbn [objects destroyed]. rewrite lookup_delete_ne; [exact Ek|]. intros <-.
      apply (NoDup_middle _ _ _ (ok_nodup _ _ _ _ (ok_mid _ _ _ _ Okl))), Hq. }
    exists d'. split; [exact R2|]. split; [contradiction|]. split; [exact D'|].
    destruct (redrawn_fields _ _ Rd) as (_ & -> & _). split; [reflexivity|]. split; [|auto].
    intros _. destruct Rd as [A _]. transitivity (needs_composite (set_objects ∅ (d_wm d'))); [reflexivity|]. rewrite A. reflexivity.
  - destruct (wm_focus_ok others n (d_wm d) l p Ok Hn Hin) as (s' & z & R1 & Ok1 & F1 & B1 & _ & _). desk_step (on_wm_ret _ _ _ _ R1).
    destruct (recompose l (raised l p) base d s' D Ok1) as (d' & R2 & D' & Rd & H1 & H2 & H3 & H4); [|exact Hl'|].
    { apply Forall_forall. intros q Hq. rewrite (raised_perm l p (ok_nodup _ _ _ _ (ok_mid _ _ _ _ Ok)) Hin) in Hq.
      rewrite Forall_forall in Nr. eapply window_near_becomes; [exact B1| |apply Nr, Hq]. intros r u Du. cbn beta.
      destruct (_ =? _); [exact Du|apply refocus_on_desk, Du]. }
    exists d'. split; [exact R2|]. split; [contradiction|]. split; [exact D'|].
    destruct (redrawn_fields _ _ Rd) as (_ & -> & _). split; [exact F1|]. split; [|auto].
    intros _. destruct Rd as [A _]. transitivity (needs_composite (set_objects ∅ (d_wm d'))); [reflexivity|]. rewrite A. reflexivity.
Qed.
End click.

(** ** The event loop *)

Definition movement (e : mouse_event) : Z * Z := (dx e, - dy e).

(** The left button goes down in the event [e]. *)
Definition pressed (last : Z) (e : mouse_event) : bool :=
  c_true (buttons e .& MOUSE_LEFT_BTN) && negb (c_true (last .& MOUSE_LEFT_BTN)).

(** The events up to and with the first press. *)
Fixpoint first_press (last : Z) (q : list mouse_event) : option (list mouse_event) :=
  match q with
  | [] => None
  | e :: q => if pressed last e then Some [e] else cons e <$> first_press (buttons e) q
  end.

Definition last_buttons (last : Z) (q : list mouse_event) : Z := foldl (fun _ e => buttons e) last q.

(** Where the cursor is after the events. *)
Definition cursor_after (f : framebuffer) (q : list mouse_event) (d : desk) : Z * Z :=
  moved f (movement <$> q) (cu_x (d_cursor d), cu_y (d_cursor d)).

Definition calm (q : list mouse_event) : Prop := Forall (fun e => small (dx e) /\ small (- dy e)) q.

Section event_loop.
Context (f : framebuffer) (M : mode_ok f) (Hwidth : 16 <= fb_width f) (Hheight : 16 <= fb_height f).
Context (others : list (Z * Z)) (n : Z).

(** Taking an event from the buffer and moving the cursor. *)
Lemma next_event fuel h e q l base d : desk_ok f others n l base d -> mouse_rep (d_mouse d) (e :: q) -> small (dx e) -> small (- dy e) ->
  exists d1, update_loop (S fuel) h d =
      (h' ← (if pressed (wm_buttons_last d) e && negb h then _ ← wm_handle_click (cu_x (d_cursor d1)) (cu_y (d_cursor d1)) (buttons e); mret true
             else mret h);
       _ ← set_buttons (buttons e);
       update_loop fuel h') d1 /\
    desk_ok f others n l base d1 /\ mouse_rep (d_mouse d1) q /\ d_wm d1 = d_wm d /\ wm_buttons_last d1 = wm_buttons_last d /\
    (cu_x (d_cursor d1), cu_y (d_cursor d1)) = cursor_after f [e] d.
Proof.
  intros [Ok Nr O] Hm H1 H2. destruct (mouse_read_spec _ _ Hm) as (m & R & Hm' & _).
  destruct (cursor_move_over f M Hwidth Hheight _ _ _ _ _ O H1 H2) as (c & sc & Rc & O' & X & Y & _).
  exists (mk_desk (d_wm d) sc c m (wm_buttons_last d)). split; [|split; [split; assumption|]].
  - cbn [update_loop]. unfold getd. unfold mbind at 1, deskop_bind at 1. rewrite R.
    unfold set_mouse; unfold mbind at 1, deskop_bind at 1. unfold update_event. unfold mbind at 1, deskop_bind at 1.
    set (d0 := mk_desk (d_wm d) (d_screen d) (d_cursor d) m (wm_buttons_last d)).
    assert (Rc' : cursor_move (dx e) (- dy e) (d_cursor d0) (d_screen d0) = Ret (c, sc)) by exact Rc.
    desk_step (on_cursor_ret _ _ _ _ Rc'). unfold getd. do 2 (unfold mbind at 1, deskop_bind at 1). cbn [wm_buttons_last d_wm d_cursor d_mouse d0].
    fold (pressed (wm_buttons_last d) e). unfold mbind at 1, deskop_bind at 1. symmetry. unfold mbind at 1, deskop_bind at 1.
    match goal with |- match ?X with _ => _ end = _ => destruct X as [[h' d2]| |] end; reflexivity.
  - split; [exact Hm'|]. split; [reflexivity|]. split; [reflexivity|]. cbn [d_cursor]. rewrite X, Y. reflexivity.
Qed.

(** The state after the loop, but for the windows. *)
Record drained (q : list mouse_event) (d d' : desk) : Prop := {
  dr_mouse : mouse_rep (d_mouse d') [];
  dr_cursor : (cu_x (d_cursor d'), cu_y (d_cursor d')) = cursor_after f q d;
  dr_buttons : wm_buttons_last d' = last_buttons (wm_buttons_last d) q
}.

(** Without a press, or after one, the loop only moves the cursor. *)
Lemma update_moves q : forall fuel h l base d, desk_ok f others n l base d -> mouse_rep (d_mouse d) q -> calm q ->
  (length q < fuel)%nat -> h = true \/ first_press (wm_buttons_last d) q = None ->
  exists d', update_loop fuel h d = Ret (h, d') /\ d_wm d' = d_wm d /\ desk_ok f others n l base d' /\ drained q d d'.
Proof.
  induction q as [|e q IH]; intros [|fuel] h l base d D Hm Hc Hf Hh; cbn [length] in Hf; try lia.
  { cbn [update_loop]. unfold getd. unfold mbind at 1, deskop_bind at 1. rewrite (mouse_read_spec _ _ Hm).
    exists d. split; [reflexivity|]. split; [reflexivity|]. split; [exact D|]. split; [exact Hm|reflexivity|reflexivity]. }
  apply Forall_cons in Hc as [[H1 H2] Hc]. destruct (next_event fuel h e q l base d D Hm H1 H2) as (d1 & -> & D1 & Hm1 & W1 & B1 & P1).
  assert (Hb : pressed (wm_buttons_last d) e && negb h = false).
  { destruct Hh as [->|Hh]; [apply andb_false_r|]. cbn [first_press] in Hh. destruct (pressed _ e); [discriminate Hh|reflexivity]. }
  rewrite Hb. unfold set_buttons, mbind, deskop_bind. cbn [mret deskop_ret].
  set (d2 := mk_desk _ _ _ _ _).
  destruct (IH fuel h l base d2) as (d' & R' & W' & D' & [A B C]); [destruct D1; split; assumption|exact Hm1|exact Hc|lia| |].
  { destruct Hh as [Hh|Hh]; [left; exact Hh|right]. cbn [first_press] in Hh. destruct (pressed _ e); [discriminate Hh|].
    cbn [wm_buttons_last d2]. destruct (first_press (buttons e) q); [discriminate Hh|reflexivity]. }
  exists d'. split; [exact R'|]. split; [rewrite W'; exact W1|]. split; [exact D'|]. split; [exact A| |exact C].
  rewrite B. unfold cursor_after in *. cbn [d_cursor d2]. rewrite P1. reflexivity.
Qed.

End event_loop.

Section presses.
Context (f : framebuffer) (M : mode_ok f) (Hwidth : 16 <= fb_width f) (Hheight : 16 <= fb_height f).
Context (others : list (Z * Z)) (n : Z) (Hn : n < 4294967295).

(** With a press, the first one is a click where the cursor is then. *)
Lemma update_clicks q : forall fuel pre l base d, desk_ok f others n l base d -> mouse_rep (d_mouse d) q -> calm q ->
  (length q < fuel)%nat -> first_press (wm_buttons_last d) q = Some pre ->
  let '(x, y) := cursor_after f pre d in
  let l' := clicked (d_wm d) l x y in
  l' <> [] ->
  exists d', update_loop fuel false d = Ret (true, d') /\ drained f q d d' /\
    desk_ok f others (n + 1) l' (if pointed (d_wm d) l x y =? 0 then base else composed (d_wm d') l' base) d' /\
    (pointed (d_wm d) l x y = 0 -> d_wm d' = d_wm d) /\
    g_focused (d_wm d') = click_focus (d_wm d) l x y.
Proof.
  induction q as [|e q IH]; intros [|fuel] pre l base d D Hm Hc Hf Hh; cbn [length] in Hf; try lia; [discriminate Hh|].
  apply Forall_cons in Hc as [[H1 H2] Hc]. destruct (next_event f M Hwidth Hheight others n fuel false e q l base d D Hm H1 H2) as (d1 & E & D1 & Hm1 & W1 & B1 & P1).
  cbn [first_press] in Hh. rewrite andb_true_r in E. destruct (pressed (wm_buttons_last d) e) eqn:Pe.
  - injection Hh as <-. rewrite <- P1. cbv zeta. intros Hl. rewrite <- W1 in Hl.
    assert (Hbt : buttons e .& MOUSE_LEFT_BTN <> 0).
    { unfold pressed in Pe. apply andb_true_iff in Pe as [Pe _]. unfold c_true in Pe. destruct (Z.eqb_spec (buttons e .& MOUSE_LEFT_BTN) 0); [discriminate Pe|assumption]. }
    destruct (wm_handle_click_spec f M others n Hn l base d1 _ _ _ D1 Hbt Hl) as (d2 & R2 & Same & D2 & F2 & _ & M2 & _ & X2 & Y2).
    rewrite E. unfold mbind at 1, deskop_bind at 1. unfold mbind at 1, deskop_bind at 1. rewrite R2. cbn [mret deskop_ret].
    unfold set_buttons, mbind, deskop_bind. set (d3 := mk_desk _ _ _ _ _).
    destruct (update_moves f M Hwidth Hheight others (n + 1) q fuel true (clicked (d_wm d1) l (cu_x (d_cursor d1)) (cu_y (d_cursor d1))) _ d3
      ltac:(destruct D2; split; eassumption)) as (d' & R' & W' & D' & [A B C]); [cbn [d_mouse d3]; rewrite M2; exact Hm1|exact Hc|lia|left; reflexivity|].
    exists d'. split; [exact R'|]. split; [split; [exact A| |exact C]|].
    { rewrite B. unfold cursor_after in *. cbn [d_cursor d3]. rewrite X2, Y2, P1. reflexivity. }
    rewrite <- W1. split; [|split].
    + destruct (_ =? 0); [exact D'|]. rewrite W'. exact D'.
    + intros Hp. rewrite W'. cbn [d_wm d3]. rewrite (Same Hp). reflexivity.
    + rewrite W'. exact F2.
  - destruct (first_press (buttons e) q) as [pre'|] eqn:Eq; [|discriminate Hh]. injection Hh as <-.
    rewrite E. unfold set_buttons, mbind, deskop_bind. cbn [mret deskop_ret]. set (d2 := mk_desk _ _ _ _ _).
    pose proof (IH fuel pre' l base d2 ltac:(destruct D1; split; assumption) Hm1 Hc ltac:(lia) Eq) as IH'.
    assert (Ec : cursor_after f (e :: pre') d = cursor_after f pre' d2) by (unfold cursor_after in *; cbn [d_cursor d2]; rewrite P1; reflexivity).
    rewrite Ec. destruct (cursor_after f pre' d2) as [x y]. cbn [d_wm d2] in IH'. rewrite W1 in IH'. cbv zeta in *. intros Hl.
    destruct (IH' Hl) as (d' & R & [A B C] & D' & S & F). exists d'. split; [exact R|]. split; [|auto].
    split; [exact A| |exact C]. rewrite B. unfold cursor_after in *; cbn [d_cursor d2]; rewrite P1; reflexivity.
Qed.
End presses.


(** ** Clearing the screen *)

Definition with_addr (a : Z) (f : framebuffer) : framebuffer :=
  mk_fb (fb_width f) (fb_height f) (fb_pitch f) (fb_bpp f) a (fb_phys_addr f).

Lemma rep_stosl_run v k : forall s j, fb_addr (fb s) = FB_VIRT_BASE + 4 * j -> 0 <= j -> j + Z.of_nat k <= fb_pages (fb s) * 1024 ->
  fb_pages (fb s) * 4096 <= 0x0FFFF000 ->
  exists s', rep_stosl k v s = Ret (tt, s') /\ fb s' = with_addr (FB_VIRT_BASE + 4 * (j + Z.of_nat k)) (fb s).
Proof.
  induction k as [|k IH]; intros s j Ha Hj Hk Hp.
  - exists s. split; [reflexivity|]. replace (j + Z.of_nat 0) with j by lia. rewrite <- Ha. destruct (fb s). reflexivity.
  - cbn [rep_stosl]. unfold put. unfold mbind at 1, gfx_bind at 1. rewrite Ha. unfold vram_index, FB_VIRT_BASE in *.
    rewrite Z.mul_0_r, Z.add_0_r, u32_small by lia. rewrite (proj2 (Z.leb_le _ _)), (proj2 (Z.ltb_lt _ _)) by lia.
    destruct (Z.eqb_spec ((0xF0000000 + 4 * j) mod 4) 0); [|mlia]. cbn [andb].
    unfold advance_addr. unfold mbind at 1, gfx_bind at 1. cbn [fb vram console_row console_col]. rewrite Ha, u32_small by lia.
    set (s1 := mk_screen _ _ _ _). destruct (IH s1 (j + 1)) as (s' & R & F); cbn [fb s1 fb_addr]; [lia|lia| |exact Hp|].
    + change (fb_pages _) with (fb_pages (fb s)). lia.
    + exists s'. split; [exact R|]. rewrite F. unfold with_addr. cbn. f_equal. lia.
Qed.

Section clearing.
Context (f : framebuffer) (M : mode_ok f) (Hpage : (fb_pitch f * fb_height f) mod 4096 = 0).

Lemma whole_pages : fb_pages f * 4096 = fb_pitch f * fb_height f /\ 0 < fb_pitch f * fb_height f.
Proof.
  pose proof (mode_bounds f M) as (_ & _ & Hd). destruct M as [_ _ Hh Hp Hs]. unfold fb_pages.
  assert (0 < fb_pitch f * fb_height f) by nia. rewrite (u32_small (fb_pitch f * fb_height f)), u32_small by lia. split; [mlia|assumption].
Qed.

(** Reading through the address that clearing leaves is outside the frame buffer. *)
Lemma stale_read s i : fb s = with_addr (FB_VIRT_BASE + fb_pitch f * fb_height f) f -> 0 <= 4 * i < fb_pitch f * fb_height f -> peek i s = Oob.
Proof.
  intros Hs Hi. destruct whole_pages as [Hw H0]. pose proof (mo_size f M) as Hsz. unfold peek, vram_index. rewrite Hs. cbn [fb_addr with_addr].
  change (fb_pages (with_addr _ _)) with (fb_pages f). change 0x1000 with 4096. rewrite Hw. unfold FB_VIRT_BASE.
  assert (O : ~ (0xF0000000 <= u32 (0xF0000000 + fb_pitch f * fb_height f + 4 * i) < 0xF0000000 + fb_pitch f * fb_height f)).
  { unfold u32. destruct (decide (0xF0000000 + fb_pitch f * fb_height f + 4 * i < 4294967296)).
    - rewrite Z.mod_small by lia. lia.
    - rewrite <- (Z.mod_unique (0xF0000000 + fb_pitch f * fb_height f + 4 * i) 4294967296 1 (0xF0000000 + fb_pitch f * fb_height f + 4 * i - 4294967296)) by lia. lia. }
  destruct (Z.leb_spec 0xF0000000 (u32 (0xF0000000 + fb_pitch f * fb_height f + 4 * i))); [|reflexivity].
  rewrite (proj2 (Z.ltb_ge _ _)) by lia. reflexivity.
Qed.

Lemma gfold_oob {A} k from (body : Z -> A -> gfx A) a s : body from a s = Oob -> gfold (S k) from body a s = Oob.
Proof. intros E. cbn [gfold]. unfold mbind, gfx_bind. rewrite E. reflexivity. Qed.

Lemma stale_save s c : fb s = with_addr (FB_VIRT_BASE + fb_pitch f * fb_height f) f -> placed f (cu_x c) (cu_y c) -> save_background c s = Oob.
Proof.
  intros Hs [Px Py]. pose proof (mode_bounds f M) as (Bw & Bh & _). destruct whole_pages as [_ H0]. pose proof M as [_ Hwd Hh Hp Hsz].
  unfold save_background, getfb. unfold mbind at 1, gfx_bind at 1. rewrite Hs. unfold id. cbn [fb_addr with_addr].
  rewrite (proj2 (Z.eqb_neq _ _)) by (unfold FB_VIRT_BASE; lia). unfold mbind at 1, gfx_bind at 1.
  rewrite gfold_oob; [reflexivity|]. apply gfold_oob. unfold save_pixel. rewrite !Z.add_0_r. cbn [fb_width fb_height with_addr].
  rewrite (u32_small (cu_x c)), (u32_small (cu_y c)) by lia. rewrite (proj2 (Z.ltb_lt _ _)), (proj2 (Z.ltb_lt _ _)) by lia. cbn [andb].
  change (pitch_dwords (with_addr _ _)) with (pitch_dwords f).
  assert (Hon : on_screen f (cu_x c) (cu_y c)) by (split; lia). pose proof (index_range f _ _ M Hon) as Hi.
  rewrite (u32_small (_ + _)) by lia. unfold mbind, gfx_bind. rewrite (stale_read s _ Hs) by lia. reflexivity.
Qed.

Lemma clear_faults others n base d : desk_ok f others n [] base d -> needs_composite (d_wm d) <> 0 -> wm_composite d = Oob.
Proof.
  intros [Ok Nr O] Hc. pose proof (ov_fb _ _ _ _ O) as Hs. unfold wm_composite, getd.
  do 3 (unfold mbind at 1, deskop_bind at 1). rewrite Hs, (addr_set f M).
  destruct (ok_count _ _ _ _ (ok_mid _ _ _ _ Ok)) as [Hcnt _]. rewrite Hcnt. change (Z.of_nat (length []) =? 0) with true. cbn [andb].
  unfold c_true at 1. rewrite (proj2 (Z.eqb_neq _ _) Hc). cbn [negb].
  pose proof (ov_visible _ _ _ _ O) as Hv. unfold c_true. rewrite (proj2 (Z.eqb_neq _ _) Hv). cbn [negb].
  destruct (cursor_remove_shows f M _ _ _ O) as (sc1 & R1 & F1 & _ & _ & _). desk_step (on_gfx_ret _ _ _ _ R1).
  destruct whole_pages as [Hw H0]. pose proof (mode_bounds f M) as (_ & _ & Hd). pose proof M as [Ha Hwd Hh Hp Hsz].
  assert (Ew : u32 (fb_height f * pitch_dwords f) = fb_height f * pitch_dwords f) by (apply u32_small; lia). rewrite Ew.
  set (d1 := mk_desk _ _ _ _ _).
  destruct (rep_stosl_run (color_to_pixel (desktop_color (d_wm d))) (Z.to_nat (fb_height f * pitch_dwords f)) sc1 0) as (sc2 & R2 & F2).
  { rewrite F1, Ha. lia. } { lia. } { rewrite F1. nia. } { rewrite F1. lia. }
  assert (R2' : rep_stosl (Z.to_nat (fb_height f * pitch_dwords f)) (color_to_pixel (desktop_color (d_wm d))) (d_screen d1) = Ret (tt, sc2)) by exact R2.
  desk_step (on_gfx_ret _ _ _ _ R2'). set (d2 := mk_desk _ _ _ _ _).
  assert (Er : cursor_restore (d_cursor d2) (d_screen d2) = Oob).
  { cbn [d2 d1 d_cursor d_screen]. rewrite F1 in F2.
    replace (FB_VIRT_BASE + 4 * (0 + Z.of_nat (Z.to_nat (fb_height f * pitch_dwords f)))) with (FB_VIRT_BASE + fb_pitch f * fb_height f) in F2 by lia.
    unfold cursor_restore, getfb. unfold mbind at 1, gfx_bind at 1. rewrite F2. unfold id. cbn [fb_addr with_addr].
    rewrite (proj2 (Z.eqb_neq _ _)) by (unfold FB_VIRT_BASE; lia). unfold c_true. rewrite (proj2 (Z.eqb_neq _ _) Hv). cbn [negb orb].
    unfold mbind at 1, gfx_bind at 1. erewrite stale_save; [reflexivity|exact F2|exact (ov_placed _ _ _ _ O)]. }
  unfold on_cursor, getd, on_gfx, mbind, deskop_bind. rewrite Er. reflexivity.
Qed.
End clearing.

(** ** Properties *)

(** The desktop as the pointer sees it: at each point the contents of the window
    that a click there would find, and [base] elsewhere. *)
Definition picture (s : wm) (base : Z -> Z -> Z) (x y : Z) : Z :=
  match wm_get_window_at x y s with
  | Ret (p, _) => default (base x y) (window_shows s x y p)
  | _ => base x y
  end.

Lemma composed_picture others n s l base x y : wm_ok others n s l -> composed s l base x y = picture s base x y.
Proof.
  intros Ok. unfold picture, composed, stack_shows. destruct (wm_get_window_at_run others n s l x y Ok) as [-> [[Hp ->]|(_ & _ & ->)]]; [|reflexivity].
  cbn [mbind option_bind]. rewrite Hp. unfold window_shows. destruct (objects s !! 0) as [w|] eqn:E; [|reflexivity]. exfalso.
  pose proof (ok_mid _ _ _ _ Ok) as M. apply (proj1 (lseg_live _ _ _ _ (ok_chain _ _ _ _ M) 0 (ok_live _ _ _ _ M 0 (ex_intro _ w E)))). reflexivity.
Qed.

Lemma desk_ok_picture f others n l base d : desk_ok f others n l (composed (d_wm d) l base) d -> desk_ok f others n l (picture (d_wm d) base) d.
Proof.
  intros [Ok Nr O]. split; [exact Ok|exact Nr|]. eapply over_ext; [exact O|]. intros x y _. apply (composed_picture others n). exact Ok.
Qed.

Lemma desk_ok_weaken f others n l base d : desk_ok f others n l base d -> desk_ok f others (n + 1) l base d.
Proof. intros [A B C]. split; [eapply wm_ok_weaken; [exact A|lia]|exact B|exact C]. Qed.

Lemma picture_redrawn others n s s' l b base x y : wm_ok others n s l -> wm_ok others n s' l -> redrawn (set_composite b s) s' ->
  picture s' base x y = picture s base x y.
Proof.
  intros Ok Ok' R. rewrite <- (composed_picture others n s' l), <- (composed_picture others n s l) by assumption.
  unfold composed. rewrite (stack_shows_redrawn _ _ _ _ _ R). reflexivity.
Qed.

(** A desktop with two windows, on the small screen. *)
Definition demo_desk (w : wm) (m : mouse) : desk :=
  match cursor_init (mk_cursor 0 0 0 0 0 (fun _ _ => 0)) demo_screen with
  | Ret (c, s) => mk_desk w s c m 0
  | _ => mk_desk w demo_screen (mk_cursor 0 0 0 0 0 (fun _ _ => 0)) m 0
  end.

Lemma demo_mode : mode_ok demo_fb.
Proof. split; vm_compute; repeat split; discriminate || reflexivity. Qed.

Definition near_enough (w : window) : bool :=
  (- 0x20000000 <=? w_x w) && (w_x w <=? 0x20000000) && (- 0x20000000 <=? w_y w) && (w_y w <=? 0x20000000) &&
  (24 <=? content_w w) && (content_w w <=? 65536) && (content_h w <=? 65536).

Lemma demo_desk_ok w m n l : wm_ok [] n w l -> forallb (fun e => near_enough (snd e)) (map_to_list (objects w)) = true ->
  desk_ok demo_fb [] n l (pixel demo_screen) (demo_desk w m).
Proof.
  intros Ok Hn. destruct (cursor_init_over demo_fb demo_mode ltac:(vm_compute; discriminate) ltac:(vm_compute; discriminate) demo_screen
    (mk_cursor 0 0 0 0 0 (fun _ _ => 0)) eq_refl) as (c & s & E & O & _). unfold demo_desk. rewrite E.
  split; [exact Ok| |exact O]. apply Forall_forall. intros p Hp. pose proof (ok_mid _ _ _ _ Ok) as M.
  destruct (lseg_live _ _ _ _ (ok_chain _ _ _ _ M) p Hp) as [_ [v Hv]]. exists v. split; [exact Hv|].
  rewrite forallb_forall in Hn. specialize (Hn (p, v)). cbn [snd] in Hn.
  assert (Hnv : near_enough v = true) by (apply Hn, list_elem_of_In, elem_of_map_to_list, Hv).
  unfold near_enough in Hnv. rewrite !andb_true_iff, !Z.leb_le in Hnv. pose proof (ok_window _ _ _ _ M p v Hv) as [_ Ww Wh Wc _].
  split; [lia|lia|exact Ww|exact Wh|lia].
Qed.

Lemma ret_inj {A B} (x y : A) (s s' : B) : Ret (x, s) = Ret (y, s') -> x = y /\ s = s'.
Proof. intros H. split; congruence. Qed.

(** The window "One" is the one at (40, 30), and not at its close button. *)
Lemma demo_pointed : exists w, wm_get_window_at 40 30 demo_wm2 = Ret (2097156, demo_wm2) /\ objects demo_wm2 !! 2097156 = Some w /\
  wm_is_in_close_btn w 40 30 = false.
Proof.
  destruct demo_wm2_ok as (a & b & Ok). destruct (wm_get_window_at_run [] 4 demo_wm2 [a; b] 40 30 Ok) as [E _].
  assert (K : match wm_get_window_at 40 30 demo_wm2 with Ret (q, _) => q =? 2097156 | _ => false end = true) by (vm_compute; reflexivity).
  assert (Kw : match objects demo_wm2 !! 2097156 with Some w => negb (wm_is_in_close_btn w 40 30) | None => false end = true) by (vm_compute; reflexivity).
  rewrite E in K. apply Z.eqb_eq in K. rewrite K in E. destruct (objects demo_wm2 !! 2097156) as [w|]; [|discriminate Kw].
  exists w. split; [exact E|]. split; [reflexivity|]. apply negb_true_iff, Kw.
Qed.

(** C8: Drawing the desktop shows at every point the window that a click there
    would find, frame, title and contents, with the cursor on top; the windows
    only lose their dirty flags, and nothing is left to draw. *)
Theorem wm_composite_shows f others n l base d : mode_ok f -> desk_ok f others n l base d -> l <> [] ->
  exists d', wm_composite d = Ret (tt, d') /\ desk_ok f others n l (picture (d_wm d) base) d' /\
    redrawn (set_composite 0 (d_wm d)) (d_wm d') /\
    (cu_x (d_cursor d'), cu_y (d_cursor d')) = (cu_x (d_cursor d), cu_y (d_cursor d)).
Proof.
  intros M D Hl. destruct (wm_composite_spec f M others n l base d D Hl) as (d' & R & D' & Rd & _ & _ & X & Y).
  exists d'. split; [exact R|]. split; [|split; [exact Rd|rewrite X, Y; reflexivity]].
  destruct (desk_ok_picture _ _ _ _ _ _ D') as [Ok Nr O]. split; [exact Ok|exact Nr|]. eapply over_ext; [exact O|].
  intros x y _. apply (picture_redrawn others n _ _ l 0); [apply D|exact Ok|exact Rd].
Qed.

Lemma wm_composite_shows_witness : exists d', wm_composite (demo_desk demo_wm2 mouse_start) = Ret (tt, d') /\
  pixel (d_screen d') 12 20 = color_to_pixel WM_CLOSE_NORMAL /\ pixel (d_screen d') 60 40 = 7.
Proof.
  destruct demo_wm2_ok as (a & b & Ok).
  destruct (wm_composite_shows demo_fb [] 4 [a; b] (pixel demo_screen) (demo_desk demo_wm2 mouse_start) demo_mode) as (d' & R & [_ _ O] & _ & E).
  - apply demo_desk_ok; [exact Ok|vm_compute; reflexivity].
  - discriminate.
  - exists d'. split; [exact R|]. apply pair_equal_spec in E as [Ex Ey].
    split; rewrite (ov_pixel _ _ _ _ O) by (vm_compute; repeat split; discriminate || reflexivity); rewrite Ex, Ey; vm_compute; reflexivity.
Defined.

(** A left click on a window closes it if it is on its close button, and
    otherwise raises it above the others and gives it the focus; either way the
    desktop is drawn, unless no window is left. *)
Theorem wm_click_closes_or_raises f others n l base d x y buttons p w : mode_ok f -> n < 4294967295 ->
  desk_ok f others n l base d -> buttons .& MOUSE_LEFT_BTN <> 0 ->
  wm_get_window_at x y (d_wm d) = Ret (p, d_wm d) -> objects (d_wm d) !! p = Some w ->
  let l' := if wm_is_in_close_btn w x y then without p l else raised l p in l' <> [] ->
  exists d', wm_handle_click x y buttons d = Ret (1, d') /\ desk_ok f others (n + 1) l' (picture (d_wm d') base) d' /\
    needs_composite (d_wm d') = 0 /\
    g_focused (d_wm d') = (if wm_is_in_close_btn w x y then (if g_focused (d_wm d) =? p then 0 else g_focused (d_wm d)) else p).
Proof.
  intros M Hn D Hb Hp Hw l' Hl'. pose proof D as [Ok _ _]. destruct (wm_get_window_at_run others n (d_wm d) l x y Ok) as [R _].
  rewrite R in Hp. injection Hp as Hp.
  assert (Hnz : pointed (d_wm d) l x y <> 0).
  { rewrite Hp. pose proof (ok_mid _ _ _ _ Ok) as Md. apply (lseg_live _ _ _ _ (ok_chain _ _ _ _ Md) p), (ok_live _ _ _ _ Md). eauto. }
  assert (Ec : clicked (d_wm d) l x y = l') by (unfold clicked; rewrite Hp, Hw; reflexivity).
  assert (Ef : click_focus (d_wm d) l x y = if wm_is_in_close_btn w x y then (if g_focused (d_wm d) =? p then 0 else g_focused (d_wm d)) else p)
    by (unfold click_focus; rewrite Hp, Hw; reflexivity).
  destruct (wm_handle_click_spec f M others n Hn l base d x y buttons D Hb) as (d' & R' & _ & D' & F & C & _); [rewrite Ec; exact Hl'|].
  rewrite Ec in D'. rewrite (proj2 (Z.eqb_neq _ _) Hnz) in R', D'. cbn [negb c_bool] in R'.
  exists d'. split; [exact R'|]. split; [apply desk_ok_picture, D'|]. split; [exact (C Hnz)|]. rewrite F. exact Ef.
Qed.

Lemma wm_click_closes_or_raises_witness : exists d', wm_handle_click 40 30 1 (demo_desk demo_wm2 mouse_start) = Ret (1, d') /\
  g_focused (d_wm d') = 2097156.
Proof.
  destruct demo_wm2_ok as (a & b & Ok). destruct demo_pointed as (w & Hp & Hw & Hc).
  destruct (wm_click_closes_or_raises demo_fb [] 4 [a; b] (pixel demo_screen) (demo_desk demo_wm2 mouse_start) 40 30 1 2097156 w demo_mode)
    as (d' & R & _ & _ & F).
  - lia.
  - apply demo_desk_ok; [exact Ok|vm_compute; reflexivity].
  - discriminate.
  - exact Hp.
  - exact Hw.
  - rewrite Hc. unfold raised. intros E. apply app_eq_nil in E as [_ E]. discriminate E.
  - exists d'. split; [exact R|]. rewrite F, Hc. reflexivity.
Defined.

Lemma wm_update_effect f others n l base d q : mode_ok f -> 16 <= fb_width f -> 16 <= fb_height f -> n < 4294967295 ->
  desk_ok f others n l base d -> mouse_rep (d_mouse d) q -> calm q -> l <> [] ->
  let press := first_press (wm_buttons_last d) q in
  let '(x, y) := cursor_after f (default [] press) d in
  let l' := if press is Some _ then clicked (d_wm d) l x y else l in
  l' <> [] ->
  let drawn := if press is Some _ then negb (pointed (d_wm d) l x y =? 0) else c_true (needs_composite (d_wm d)) in
  exists d', wm_update d = Ret (tt, d') /\ drained f q d d' /\
    desk_ok f others (n + 1) l' (if drawn then picture (d_wm d') base else base) d' /\
    g_focused (d_wm d') = (if press is Some _ then click_focus (d_wm d) l x y else g_focused (d_wm d)) /\
    (press = None -> redrawn (set_composite 0 (d_wm d)) (d_wm d')).
Proof.
  intros M Hw Hh Hn D Hm Hc Hl press. destruct (cursor_after f (default [] press) d) as [x y] eqn:Ep. intros l' Hl' drawn.
  pose proof Hm as (_ & Hlen & _). unfold MOUSE_BUFFER_SIZE in Hlen. unfold wm_update.
  destruct press as [pre|] eqn:E.
  - pose proof (update_clicks f M Hw Hh others n Hn q (Z.to_nat MOUSE_BUFFER_SIZE) pre l base d D Hm Hc ltac:(unfold MOUSE_BUFFER_SIZE; lia) E) as U.
    cbn [default] in Ep. unfold id in Ep. rewrite Ep in U. cbv zeta in U. destruct (U Hl') as (d' & R & Dr & D' & _ & F). desk_step R.
    exists d'. split; [reflexivity|]. split; [exact Dr|]. split; [|split; [exact F|discriminate]].
    unfold drawn. destruct (_ =? 0); [exact D'|apply desk_ok_picture, D'].
  - destruct (update_moves f M Hw Hh others n q (Z.to_nat MOUSE_BUFFER_SIZE) false l base d D Hm Hc ltac:(unfold MOUSE_BUFFER_SIZE; lia) ltac:(right; exact E))
      as (d1 & R & W & D1 & Dr). desk_step R. unfold getd. unfold mbind at 1, deskop_bind at 1. rewrite W.
    unfold drawn, c_true. destruct (Z.eqb_spec (needs_composite (d_wm d)) 0) as [Hz|Hz]; cbn [negb].
    + exists d1. split; [reflexivity|]. split; [exact Dr|]. split; [exact (desk_ok_weaken _ _ _ _ _ _ D1)|].
      rewrite W. split; [reflexivity|]. intros _. rewrite <- Hz. destruct (d_wm d). reflexivity.
    + destruct (wm_composite_spec f M others n l base d1 D1 Hl) as (d' & R' & D' & Rd & Em & Eb & X & Y).
      exists d'. split; [exact R'|]. split.
      { destruct Dr as [A B C]. split; [rewrite Em; exact A|rewrite X, Y; exact B|rewrite Eb; exact C]. }
      split; [exact (desk_ok_weaken _ _ _ _ _ _ (desk_ok_picture _ _ _ _ _ _ D'))|].
      rewrite W in Rd. destruct (redrawn_fields _ _ Rd) as (_ & -> & _). auto.
Qed.

(** C9: [wm_update] takes every event out of the mouse buffer and moves the cursor
    by all of them; the first press of the left button is a click where the
    cursor is then, and without a press the desktop is drawn only if it has to
    be.  It ends with the cursor over the picture. *)
Theorem wm_update_drains f others n l base d q : mode_ok f -> 16 <= fb_width f -> 16 <= fb_height f -> n < 4294967295 ->
  desk_ok f others n l base d -> mouse_rep (d_mouse d) q -> calm q -> l <> [] ->
  let press := first_press (wm_buttons_last d) q in
  let '(x, y) := cursor_after f (default [] press) d in
  let l' := if press is Some _ then clicked (d_wm d) l x y else l in
  l' <> [] ->
  let drawn := if press is Some _ then negb (pointed (d_wm d) l x y =? 0) else c_true (needs_composite (d_wm d)) in
  exists d', wm_update d = Ret (tt, d') /\ drained f q d d' /\
    desk_ok f others (n + 1) l' (if drawn then picture (d_wm d') base else base) d' /\
    g_focused (d_wm d') = (if press is Some _ then click_focus (d_wm d) l x y else g_focused (d_wm d)) /\
    (press = None -> redrawn (set_composite 0 (d_wm d)) (d_wm d')).
Proof. apply wm_update_effect. Qed.

Lemma wm_update_drains_witness : exists d', wm_update (demo_desk demo_wm2 (mouse_buffer_put (mk_event 1 8 (- 6)) mouse_start)) = Ret (tt, d') /\
  mouse_read (d_mouse d') = None /\ g_focused (d_wm d') = 2097156.
Proof.
  destruct demo_wm2_ok as (a & b & Ok). destruct demo_pointed as (w & Hp & Hw & Hc).
  pose proof (mouse_put_spec (mk_event 1 8 (- 6)) mouse_start [] mouse_start_rep) as Hm. cbn [length app decide] in Hm.
  set (d := demo_desk demo_wm2 (mouse_buffer_put (mk_event 1 8 (- 6)) mouse_start)) in *.
  assert (D : desk_ok demo_fb [] 4 [a; b] (pixel demo_screen) d) by (apply demo_desk_ok; [exact Ok|vm_compute; reflexivity]).
  pose proof (wm_update_drains demo_fb [] 4 [a; b] (pixel demo_screen) d [mk_event 1 8 (- 6)] demo_mode) as U.
  assert (Ec : cursor_after demo_fb [mk_event 1 8 (- 6)] d = (40, 30)) by (vm_compute; reflexivity).
  cbv zeta in U. change (first_press (wm_buttons_last d) [mk_event 1 8 (- 6)]) with (Some [mk_event 1 8 (- 6)]) in U. cbn [default] in U. unfold id in U.
  rewrite Ec in U. destruct (wm_get_window_at_run [] 4 demo_wm2 [a; b] 40 30 Ok) as [E _]. rewrite Hp in E. apply ret_inj in E as [E _].
  unfold clicked, click_focus in U. change (d_wm d) with demo_wm2 in U. rewrite <- E, Hw, Hc in U.
  assert (Hr : raised [a; b] 2097156 <> []) by (intros E'; apply app_eq_nil in E' as [_ E']; discriminate E').
  destruct (U ltac:(vm_compute; discriminate) ltac:(vm_compute; discriminate) ltac:(lia) D Hm ltac:(repeat constructor; cbn; discriminate) ltac:(discriminate) Hr)
    as (d' & R & [Dm _ _] & _ & F & _).
  exists d'. split; [exact R|]. split; [apply (mouse_read_spec _ [] Dm)|exact F].
Defined.

(** C30: When the pixels fill whole pages, as on the screen the kernel asks for,
    closing the last window by its button reads outside the frame buffer: the
    clearing loop advances [fb.addr] itself, and the cursor is then saved
    through it. *)
Theorem wm_close_last_faults f others n p w base d x y buttons : mode_ok f -> (fb_pitch f * fb_height f) mod 4096 = 0 ->
  desk_ok f others n [p] base d -> buttons .& MOUSE_LEFT_BTN <> 0 ->
  objects (d_wm d) !! p = Some w -> covers (d_wm d) x y p = true -> wm_is_in_close_btn w x y = true ->
  wm_handle_click x y buttons d = Oob.
Proof.
  intros M Hpg [Ok Nr O] Hb Hw Hc Hx. unfold wm_handle_click. rewrite (proj2 (Z.eqb_neq _ _) Hb).
  destruct (wm_get_window_at_run others n (d_wm d) [p] x y Ok) as [R _]. desk_step (on_wm_ret _ _ _ _ R).
  replace (mk_desk (d_wm d) _ _ _ _) with d by (destruct d; reflexivity).
  assert (Ep : pointed (d_wm d) [p] x y = p) by (unfold pointed; rewrite filter_cons_True by exact Hc; reflexivity). rewrite Ep.
  assert (Hnz : p <> 0) by (apply (lseg_live _ _ _ _ (ok_chain _ _ _ _ (ok_mid _ _ _ _ Ok)) p ltac:(left))).
  rewrite (proj2 (Z.eqb_neq _ _) Hnz). desk_step (on_wm_ret _ _ _ _ (get_ok _ _ _ Hw)). replace (mk_desk (d_wm d) _ _ _ _) with d by (destruct d; reflexivity).
  rewrite Hx. destruct (wm_destroy_ok others n (d_wm d) [] p [] Ok) as (v & h & W & R1 & _ & _ & Ok1). desk_step (on_wm_ret _ _ _ _ R1).
  set (d1 := mk_desk _ _ _ _ _). unfold mbind, deskop_bind.
  rewrite (clear_faults f M Hpg others n base d1); [reflexivity|split; [exact Ok1|constructor|exact O]|discriminate].
Qed.

Lemma wm_close_last_faults_witness : wm_handle_click 36 11 1 (demo_desk demo_wm1 mouse_start) = Oob.
Proof.
  destruct demo_wm1_ok as (a & Ok).
  assert (K : match objects demo_wm1 !! 2097156 with Some w => wm_is_in_close_btn w 36 11 && covers demo_wm1 36 11 2097156 | None => false end = true) by (vm_compute; reflexivity).
  destruct (objects demo_wm1 !! 2097156) as [w|] eqn:Hw; [|discriminate K]. apply andb_true_iff in K as [K1 K2].
  pose proof (ok_live _ _ _ _ (ok_mid _ _ _ _ Ok) 2097156 (ex_intro _ w Hw)) as Hin. apply list_elem_of_singleton in Hin. subst a.
  apply (wm_close_last_faults demo_fb [] 2 2097156 w (pixel demo_screen)).
  - exact demo_mode.
  - reflexivity.
  - apply demo_desk_ok; [exact Ok|vm_compute; reflexivity].
  - discriminate.
  - exact Hw.
  - exact K2.
  - exact K1.
Defined.
