(* ===== verification/Irq.v ===== *)
(** * Interrupt dispatch (kernel/irq.c)

    [irq_handler] gives each hardware interrupt to its driver and acknowledges it
    at the interrupt controllers; the timer's handler also samples the mouse and
    runs the window manager.  [irqs] joins the states of the drivers, and
    [irq_common] is the entry of idt_asm.s, which runs the scheduler after the
    handler.  [timer_ticks] of irq.c is one variable; the models of Sound and
    Scheduler each have it as a field, and [irq_common] hands it from the one to
    the other and back, so that both fields stay equal. *)

From S2P Require Import Prelude Scheduler Memory PortIO InputDev Paging Sound Pci Net Framebuffer Cursor Window Desktop.
Local Open Scope Z_scope.
Local Open Scope sros_scope.

Record irqs : Type := mk_irqs {
  i_kbd : kbd;
  i_desk : desk;
  i_sound : sound;
  i_nic : nic;
  i_mach : machine;
  i_ports : history
}.

Definition iop (A : Type) : Type := irqs -> exec (A * irqs).

#[export] Instance iop_ret : MRet iop := fun A x s => Ret (x, s).
#[export] Instance iop_bind : MBind iop := fun A B f m s =>
  match m s with Ret (x, s) => f x s | Panic => Panic | Oob => Oob end.

Definition desk_mouse (m : mouse) (d : desk) : desk := mk_desk (d_wm d) (d_screen d) (d_cursor d) m (wm_buttons_last d).

Section irq.
Context (dev : device) (dma : history -> mem -> mem) (fuel : nat).

Definition in_out {A} (m : io A) : iop A := fun s =>
  match m dev (i_ports s) with
  | Some (x, h) => Ret (x, mk_irqs (i_kbd s) (i_desk s) (i_sound s) (i_nic s) (i_mach s) h)
  | None => Oob
  end.
Definition tick : iop unit := fun s =>
  Ret (tt, mk_irqs (i_kbd s) (i_desk s) (set_ticks (u32 (ticks (i_sound s) + 1)) (i_sound s)) (i_nic s) (i_mach s) (i_ports s)).
Definition on_desk {A} (m : deskop A) : iop A := fun s =>
  match m (i_desk s) with
  | Ret (x, d) => Ret (x, mk_irqs (i_kbd s) d (i_sound s) (i_nic s) (i_mach s) (i_ports s))
  | Panic => Panic
  | Oob => Oob
  end.
Definition on_sound {A} (m : sop A) : iop A := fun s =>
  match m (i_sound s, i_ports s) with
  | Ret (x, (a, h)) => Ret (x, mk_irqs (i_kbd s) (i_desk s) a (i_nic s) (i_mach s) h)
  | Panic => Panic
  | Oob => Oob
  end.
Definition on_nic {A} (m : nop A) : iop A := fun s =>
  match m (mk_net (i_nic s) (i_mach s) (i_ports s)) with
  | Ret (x, n) => Ret (x, mk_irqs (i_kbd s) (i_desk s) (i_sound s) (card n) (mem_of n) (ports_of n))
  | Panic => Panic
  | Oob => Oob
  end.
Definition input_devices : iop (kbd * mouse) := fun s => Ret ((i_kbd s, d_mouse (i_desk s)), s).
Definition set_input (p : kbd * mouse) : iop unit := fun s =>
  Ret (tt, mk_irqs (fst p) (desk_mouse (snd p) (i_desk s)) (i_sound s) (i_nic s) (i_mach s) (i_ports s)).

Definition run_mouse_handler : iop unit :=
  p ← input_devices;
  m ← in_out (mouse_handler (snd p));
  set_input (fst p, m).
Definition run_keyboard_handler : iop unit :=
  p ← input_devices;
  p ← in_out (keyboard_handler p);
  set_input p.

Definition timer_handler : iop unit :=
  _ ← tick;
  ps2_st ← in_out (inb 0x64);
  _ ← (if ps2_st .& 0x21 =? 0x21 then run_mouse_handler else mret tt);
  on_desk wm_update.

(** The driver of an interrupt. *)
Definition irq_route (int_no : Z) : iop unit := fun s =>
  (if int_no =? 32 then timer_handler
   else if int_no =? 33 then run_keyboard_handler
   else if int_no =? 44 then run_mouse_handler
   else if int_no =? 37 then on_sound (sb16_handler dev)
   else if negb (rtl8139_irq (i_nic s) =? 0) && (int_no =? 32 + rtl8139_irq (i_nic s)) then on_nic (rtl8139_handle_irq dev dma fuel)
   else mret tt) s.

Definition irq_handler (int_no : Z) : iop unit :=
  _ ← irq_route int_no;
  _ ← (if 40 <=? int_no then in_out (outb 0xA0 0x20) else mret tt);
  in_out (outb 0x20 0x20).

(** ** Acknowledgement *)

(** The end-of-interrupt commands for an interrupt: to the second controller
    for its own, and to the first always. *)
Definition eoi (int_no : Z) : history :=
  (if 40 <=? int_no then [Out 1 0xA0 0x20] else []) ++ [Out 1 0x20 0x20].

Lemma irq_handler_route int_no s s' : irq_route int_no s = Ret (tt, s') ->
  irq_handler int_no s = Ret (tt, mk_irqs (i_kbd s') (i_desk s') (i_sound s') (i_nic s') (i_mach s') (i_ports s' ++ eoi int_no)).
Proof.
  intros E. unfold irq_handler. unfold mbind at 1, iop_bind at 1. rewrite E. unfold eoi.
  destruct (40 <=? int_no); unfold mbind, iop_bind, in_out, outb, mret, iop_ret; cbn [i_kbd i_desk i_sound i_nic i_mach i_ports app];
    rewrite <- ?app_assoc; destruct s'; reflexivity.
Qed.

Lemma desk_mouse_same d : desk_mouse (d_mouse d) d = d.
Proof. destruct d. reflexivity. Qed.

(** ** The timer and the mouse *)

(** The sampled byte, when the controller has one from the mouse. *)
Lemma timer_runs s st b d' :
  dev (i_ports s) 1 0x64 mod 256 = st -> st .& 0x21 = 0x21 -> dev (i_ports s ++ [In 1 0x64 st]) 1 0x60 mod 256 = b ->
  wm_update (desk_mouse (mouse_byte b (d_mouse (i_desk s))) (i_desk s)) = Ret (tt, d') ->
  irq_route 32 s = Ret (tt, mk_irqs (i_kbd s) d' (set_ticks (u32 (ticks (i_sound s) + 1)) (i_sound s)) (i_nic s) (i_mach s)
    (i_ports s ++ [In 1 0x64 st; In 1 0x60 b])).
Proof.
  intros Est Hst Eb Ew. unfold irq_route. change (32 =? 32) with true. cbv iota. unfold timer_handler, run_mouse_handler.
  unfold mbind, iop_bind, tick, in_out, inb, inw_width, input_devices, set_input, mouse_handler, on_desk.
  cbn [i_kbd i_desk i_sound i_nic i_mach i_ports fst snd]. change (u16 0x64) with 0x64. rewrite Est, Hst, Z.eqb_refl.
  unfold mbind, io_bind, mret, io_ret, inb, inw_width. cbn [i_kbd i_desk i_sound i_nic i_mach i_ports fst snd].
  change (u16 0x60) with 0x60. rewrite Eb, Ew. cbn [i_kbd i_desk i_sound i_nic i_mach i_ports]. rewrite <- app_assoc. reflexivity.
Qed.

(** A third byte completes a packet. *)
Lemma third_byte m b0 b1 z b2 : mouse_cycle m = 2 -> mouse_packet m = [b0; b1; z] -> mouse_rep m [] -> b0 .& 0xC0 = 0 ->
  mouse_rep (mouse_byte b2 m) [mk_event (b0 .& 0x07) (i8 b1) (i8 b2)].
Proof.
  intros Hc Hp Hr Ho. unfold mouse_byte. rewrite Hc. cbn [Z.eqb Pos.eqb]. cbv zeta. unfold set_packet. rewrite Hp. cbn [mouse_packet nth insert list_insert Z.to_nat Pos.to_nat Pos.iter_op].
  destruct m as [buf hd tl cy pk]. cbn in *. subst. rewrite Ho. cbn.
  exact (mouse_put_spec (mk_event (b0 .& 7) (i8 b1) (i8 b2)) (mk_mouse buf hd tl 0 [b0; b1; b2]) [] Hr).
Qed.
End irq.

(** ** The interrupt entry: the handler, then the scheduler *)

Section common.
Context (dev : device) (dma : history -> mem -> mem) (fuel : nat).

Definition with_counter (n : Z) (s : irqs) : irqs :=
  mk_irqs (i_kbd s) (i_desk s) (set_ticks n (i_sound s)) (i_nic s) (i_mach s) (i_ports s).

(** The frame to return to and the CR3 to load, if any. *)
Definition irq_common (int_no regs : Z) (st : irqs * sched) : exec (Z * option Z * (irqs * sched)) :=
  match irq_handler dev dma fuel int_no (fst st) with
  | Ret (_, s) =>
      let '(frame, dir, k) := scheduler_tick int_no regs (with_ticks (ticks (i_sound s)) (snd st)) in
      Ret (frame, dir, (with_counter (timer_ticks k) s, k))
  | Panic => Panic
  | Oob => Oob
  end.

Definition one_counter (st : irqs * sched) : Prop := timer_ticks (snd st) = ticks (i_sound (fst st)).

(** What the handler adds to the counter. *)
Definition handler_count (int_no : Z) : Z := if int_no =? 32 then 1 else 0.

(** A part of the handler that leaves the counter alone. *)
Definition uncounted (m : iop unit) : Prop := forall s x s', m s = Ret (x, s') -> ticks (i_sound s') = ticks (i_sound s).

Lemma uncounted_bind {A} (m : iop A) (f : A -> iop unit) :
  (forall s x s', m s = Ret (x, s') -> ticks (i_sound s') = ticks (i_sound s)) -> (forall x, uncounted (f x)) -> uncounted (x ← m; f x).
Proof using Type.
  intros Hm Hf s x s' E. unfold mbind, iop_bind in E. destruct (m s) as [[y s1]| |] eqn:E1; [|discriminate E..].
  rewrite (Hf y s1 x s' E). exact (Hm s y s1 E1).
Qed.

Lemma uncounted_ret : uncounted (mret tt).
Proof using Type. intros s x s' E. injection E as <- <-. reflexivity. Qed.

Lemma in_out_ticks {A} (m : io A) s x s' : in_out dev m s = Ret (x, s') -> ticks (i_sound s') = ticks (i_sound s).
Proof using Type. unfold in_out. destruct (m dev (i_ports s)) as [[y h]|]; [|discriminate]. intros E. injection E as <- <-. reflexivity. Qed.

Lemma mouse_uncounted : uncounted (run_mouse_handler dev).
Proof using Type.
  apply uncounted_bind; [intros s x s' E; injection E as <- <-; reflexivity|]. intros p.
  apply uncounted_bind; [apply in_out_ticks|]. intros m s x s' E. injection E as <- <-. reflexivity.
Qed.

Lemma keyboard_uncounted : uncounted (run_keyboard_handler dev).
Proof using Type.
  apply uncounted_bind; [intros s x s' E; injection E as <- <-; reflexivity|]. intros p.
  apply uncounted_bind; [apply in_out_ticks|]. intros m s x s' E. injection E as <- <-. reflexivity.
Qed.

Lemma timer_rest_uncounted : uncounted (
  ps2_st ← in_out dev (inb 0x64);
  _ ← (if ps2_st .& 0x21 =? 0x21 then run_mouse_handler dev else mret tt);
  on_desk wm_update).
Proof using Type.
  apply uncounted_bind; [apply in_out_ticks|]. intros st. apply uncounted_bind.
  - destruct (_ =? _); [apply mouse_uncounted|apply uncounted_ret].
  - intros _ s x s' E. unfold on_desk in E. destruct (wm_update (i_desk s)) as [[y d]| |]; [|discriminate E..].
    injection E as <- <-. reflexivity.
Qed.

Lemma route_ticks int_no s x s' : is_u32 (ticks (i_sound s)) -> irq_route dev dma fuel int_no s = Ret (x, s') ->
  ticks (i_sound s') = u32 (ticks (i_sound s) + handler_count int_no).
Proof using Type.
  intros Hu. unfold irq_route, handler_count. destruct (int_no =? 32).
  { intros E. exact (timer_rest_uncounted _ x s' E). }
  rewrite Z.add_0_r, u32_small by exact Hu.
  destruct (int_no =? 33); [apply keyboard_uncounted|]. destruct (int_no =? 44); [apply mouse_uncounted|].
  destruct (int_no =? 37).
  { intros E. injection E as <- <-. reflexivity. }
  destruct (_ && _).
  - unfold on_nic. destruct (rtl8139_handle_irq _ _ _ _) as [[y n]| |]; [|discriminate..]. intros E. injection E as <- <-. reflexivity.
  - apply uncounted_ret.
Qed.

Lemma handler_ticks int_no s x s' : is_u32 (ticks (i_sound s)) -> irq_handler dev dma fuel int_no s = Ret (x, s') ->
  ticks (i_sound s') = u32 (ticks (i_sound s) + handler_count int_no).
Proof using Type.
  intros Hu E. unfold irq_handler, mbind at 1, iop_bind at 1 in E.
  destruct (irq_route dev dma fuel int_no s) as [[y s1]| |] eqn:E1; [|discriminate E..].
  rewrite <- (route_ticks int_no s y s1 Hu E1). revert s1 x s' E E1. intros s1 x s' E _. revert E.
  assert (U : uncounted (_ ← (if 40 <=? int_no then in_out dev (outb 0xA0 0x20) else mret tt); in_out dev (outb 0x20 0x20))).
  { apply uncounted_bind; [|intros _ ? ? ?; apply in_out_ticks].
    destruct (40 <=? int_no); [intros ? ? ?; apply in_out_ticks|exact uncounted_ret]. }
  exact (U s1 x s').
Qed.

Lemma pick_next_timer c regs k : timer_ticks (snd (pick_next c regs k)) = timer_ticks k.
Proof using Type. unfold pick_next, dequeue_ready. destruct (queue_pop _ _) as [[[n|] q] ts]; [|destruct (negb _)]; reflexivity. Qed.

Lemma enqueue_timer c k : timer_ticks (enqueue_ready c k) = timer_ticks k.
Proof using Type. unfold enqueue_ready. destruct (queue_push _ _ _). reflexivity. Qed.

Lemma scheduler_tick_timer int_no regs k : is_u32 (timer_ticks k) ->
  timer_ticks (snd (scheduler_tick int_no regs k)) = u32 (timer_ticks k + handler_count int_no).
Proof using Type.
  intros Hu. unfold scheduler_tick, handler_count. destruct (int_no =? 32); cbn [negb].
  - destruct (current_task _) as [c|]; [|reflexivity]. cbn zeta.
    repeat (destruct (_ =? _); [rewrite pick_next_timer; reflexivity|]). destruct (1 <? _); [rewrite pick_next_timer, enqueue_timer|]; reflexivity.
  - rewrite Z.add_0_r, u32_small by exact Hu. reflexivity.
Qed.

(** The counter is one, and a timer interrupt advances it by two: every wait
    that counts ticks is over in half the time; no other interrupt changes it. *)
Theorem timer_counts_twice int_no regs st x st' : is_u32 (ticks (i_sound (fst st))) ->
  irq_common int_no regs st = Ret (x, st') ->
  one_counter st' /\ ticks (i_sound (fst st')) = u32 (ticks (i_sound (fst st)) + (if int_no =? 32 then 2 else 0)).
Proof using Type.
  intros Hu. unfold irq_common. destruct (irq_handler dev dma fuel int_no (fst st)) as [[y s]| |] eqn:E; [|discriminate..].
  apply handler_ticks in E; [|exact Hu].
  assert (Hs : is_u32 (ticks (i_sound s))) by (rewrite E; apply Z.mod_pos_bound; lia).
  pose proof (scheduler_tick_timer int_no regs (with_ticks (ticks (i_sound s)) (snd st)) Hs) as K.
  change (timer_ticks (with_ticks _ _)) with (ticks (i_sound s)) in K.
  destruct (scheduler_tick int_no regs _) as [[frame dir] k]. cbn [snd] in K. intros R. injection R as <- <-.
  split; [reflexivity|]. cbn [fst with_counter i_sound set_ticks ticks]. rewrite K, E. unfold handler_count.
  destruct (int_no =? 32); word.
Qed.
End common.

(** ** Properties *)

(** C34: The timer interrupt on which the mouse's third byte is waiting completes the packet
    and moves the cursor by it at once, held at the edges of the screen; the
    packet is used up, the tick is counted and the interrupt acknowledged at the
    first controller, and the other drivers are as before. *)
Theorem timer_moves_cursor dev dma fuel s f others n l base st b0 b1 z b2 :
  mode_ok f -> 16 <= fb_width f -> 16 <= fb_height f -> n < 4294967295 -> desk_ok f others n l base (i_desk s) -> l <> [] ->
  mouse_cycle (d_mouse (i_desk s)) = 2 -> mouse_packet (d_mouse (i_desk s)) = [b0; b1; z] -> mouse_rep (d_mouse (i_desk s)) [] ->
  b0 .& 0xC0 = 0 -> b0 .& 0x01 = 0 ->
  dev (i_ports s) 1 0x64 mod 256 = st -> st .& 0x21 = 0x21 -> dev (i_ports s ++ [In 1 0x64 st]) 1 0x60 mod 256 = b2 ->
  let c := d_cursor (i_desk s) in
  exists s', irq_handler dev dma fuel 32 s = Ret (tt, s') /\
    (cu_x (d_cursor (i_desk s')), cu_y (d_cursor (i_desk s'))) = moved f [(i8 b1, - i8 b2)] (cu_x c, cu_y c) /\
    mouse_rep (d_mouse (i_desk s')) [] /\ (exists base', desk_ok f others (n + 1) l base' (i_desk s')) /\
    ticks (i_sound s') = u32 (ticks (i_sound s) + 1) /\
    i_ports s' = i_ports s ++ [In 1 0x64 st; In 1 0x60 b2; Out 1 0x20 0x20] /\
    i_kbd s' = i_kbd s /\ i_nic s' = i_nic s /\ i_mach s' = i_mach s.
Proof.
  intros M Hw Hh Hn D Hl Hc Hp Hr Ho Hb Est Hst Eb c. set (ev := mk_event (b0 .& 0x07) (i8 b1) (i8 b2)).
  set (d := desk_mouse (mouse_byte b2 (d_mouse (i_desk s))) (i_desk s)).
  assert (D1 : desk_ok f others n l base d) by (destruct D; split; assumption).
  assert (Hq : mouse_rep (d_mouse d) [ev]) by (apply (third_byte _ b0 b1 z b2 Hc Hp Hr Ho)).
  assert (Hcalm : calm [ev]).
  { constructor; [|constructor]. unfold small, ev. cbn [dx dy]. unfold i8, signed. split; case_if; word. }
  assert (Hnp : first_press (wm_buttons_last d) [ev] = None).
  { cbn [first_press]. unfold pressed, ev. cbn [buttons]. rewrite <- Z.land_assoc. change (0x07 .& MOUSE_LEFT_BTN) with 0x01. rewrite Hb. reflexivity. }
  pose proof (wm_update_effect f others n l base d [ev] M Hw Hh Hn D1 Hq Hcalm Hl) as U. cbv zeta in U. rewrite Hnp in U. cbn [default] in U.
  destruct (cursor_after f (id []) d) as [x y]. destruct (U Hl) as (d' & R & [Dm Dc _] & D' & _).
  eexists. split; [apply irq_handler_route, (timer_runs dev dma fuel s st b2 d' Est Hst Eb R)|].
  cbn [i_kbd i_desk i_sound i_nic i_mach i_ports ticks set_ticks]. split; [exact Dc|]. split; [exact Dm|]. split; [eexists; exact D'|].
  split; [reflexivity|]. split; [rewrite <- app_assoc; reflexivity|]. auto.
Qed.

Definition demo_two_bytes (m : mouse) : mouse := mouse_byte 250 (mouse_byte 8 m).

(** The controller: the byte 4 from the mouse is waiting. *)
Definition ps2_device : device := fun _ _ p => if p =? 0x64 then 0x21 else 4.

Lemma demo_desk_mouse w m : d_mouse (demo_desk w m) = m.
Proof. unfold demo_desk. destruct (cursor_init _ _) as [[c s]| |]; reflexivity. Qed.

Definition demo_irqs (m : mouse) : irqs := mk_irqs kbd_init (demo_desk demo_wm2 m) (mk_sound 0 0 0) nic_start demo_ring_machine [].

Lemma demo_two_bytes_state : mouse_cycle (demo_two_bytes mouse_start) = 2 /\
  (exists z, mouse_packet (demo_two_bytes mouse_start) = [8; 250; z]) /\ mouse_rep (demo_two_bytes mouse_start) [].
Proof. split; [reflexivity|]. split; [eexists; reflexivity|exact mouse_start_rep]. Qed.

Lemma timer_moves_cursor_witness : exists s', irq_handler ps2_device (fun _ m => m) 0 32 (demo_irqs (demo_two_bytes mouse_start)) = Ret (tt, s') /\
  ticks (i_sound s') = 1 /\ i_ports s' = [In 1 0x64 0x21; In 1 0x60 4; Out 1 0x20 0x20].
Proof.
  destruct demo_wm2_ok as (a & b & Ok). pose proof (demo_desk_ok demo_wm2 (demo_two_bytes mouse_start) 4 [a; b] Ok ltac:(vm_compute; reflexivity)) as D.
  pose proof (demo_desk_mouse demo_wm2 (demo_two_bytes mouse_start)) as Dm. destruct demo_two_bytes_state as (Hc & (z & Hp) & Hr).
  unfold demo_irqs. revert D Dm. generalize (demo_desk demo_wm2 (demo_two_bytes mouse_start)) as d. intros d D Dm. rewrite <- Dm in Hc, Hp, Hr.
  destruct (timer_moves_cursor ps2_device (fun _ m => m) 0 (mk_irqs kbd_init d (mk_sound 0 0 0) nic_start demo_ring_machine []) demo_fb [] 4 [a; b]
    (pixel demo_screen) 0x21 8 250 z 4 demo_mode ltac:(vm_compute; discriminate) ltac:(vm_compute; discriminate) ltac:(lia) D ltac:(discriminate)
    Hc Hp Hr eq_refl eq_refl eq_refl eq_refl eq_refl) as (s' & E & _ & _ & _ & Et & Ep & _).
  exists s'. split; [exact E|]. split; [exact Et|exact Ep].
Defined.

Definition only_reads (evs : history) : Prop := writes_of evs = [].

Lemma keyboard_reads (dev : device) p h : exists r evs, keyboard_handler p dev h = Some (r, h ++ evs) /\ only_reads evs.
Proof.
  unfold keyboard_handler, mouse_handler, mbind, io_bind, inb, inw_width, mret, io_ret. destruct p as [k m]. destruct (c_true _);
    eexists _, [In _ _ _; In _ _ _]; rewrite <- app_assoc; split; reflexivity.
Qed.

(** C35: Every interrupt but the timer's and the network card's is served by its own
    driver alone, which only reads its ports; whether or not anyone serves it, it
    is acknowledged, at the second controller if it is one of its interrupts
    and then at the first. *)
Theorem irq_handler_serves dev dma fuel int_no s :
  int_no <> 32 -> rtl8139_irq (i_nic s) = 0 \/ int_no <> 32 + rtl8139_irq (i_nic s) ->
  exists s' evs, irq_handler dev dma fuel int_no s = Ret (tt, s') /\ i_ports s' = i_ports s ++ evs ++ eoi int_no /\ only_reads evs /\
    i_nic s' = i_nic s /\ i_mach s' = i_mach s /\
    (if decide (int_no = 33) then exists h, keyboard_handler (i_kbd s, d_mouse (i_desk s)) dev (i_ports s) = Some ((i_kbd s', d_mouse (i_desk s')), h)
     else i_kbd s' = i_kbd s) /\
    (if decide (int_no = 44) then exists b, i_desk s' = desk_mouse (mouse_byte b (d_mouse (i_desk s))) (i_desk s)
     else int_no <> 33 -> i_desk s' = i_desk s) /\
    i_sound s' = (if decide (int_no = 37) then set_playing 0 (set_fired 1 (i_sound s)) else i_sound s).
Proof.
  intros H32 Hn.
  assert (K : exists s1 evs, irq_route dev dma fuel int_no s = Ret (tt, s1) /\ i_ports s1 = i_ports s ++ evs /\ only_reads evs /\
    i_nic s1 = i_nic s /\ i_mach s1 = i_mach s /\
    (if decide (int_no = 33) then exists h, keyboard_handler (i_kbd s, d_mouse (i_desk s)) dev (i_ports s) = Some ((i_kbd s1, d_mouse (i_desk s1)), h)
     else i_kbd s1 = i_kbd s) /\
    (if decide (int_no = 44) then exists b, i_desk s1 = desk_mouse (mouse_byte b (d_mouse (i_desk s))) (i_desk s)
     else int_no <> 33 -> i_desk s1 = i_desk s) /\
    i_sound s1 = (if decide (int_no = 37) then set_playing 0 (set_fired 1 (i_sound s)) else i_sound s)).
  { unfold irq_route. destruct (Z.eqb_spec int_no 32); [contradiction|].
    destruct (Z.eqb_spec int_no 33) as [->|N33].
    { destruct (keyboard_reads dev (i_kbd s, d_mouse (i_desk s)) (i_ports s)) as (r & evs & E & W).
      eexists _, evs. split; [unfold run_keyboard_handler, mbind, iop_bind, input_devices, in_out, set_input; rewrite E; reflexivity|].
      rewrite E. cbn [i_kbd i_desk i_sound i_nic i_mach i_ports fst snd d_mouse desk_mouse]. rewrite decide_True, !decide_False by (reflexivity || discriminate).
      split_and!; try reflexivity; [exact W|destruct r; eexists; reflexivity|congruence]. }
    destruct (Z.eqb_spec int_no 44) as [->|N44].
    { eexists _, [In 1 0x60 _]. split; [reflexivity|]. cbn [i_kbd i_desk i_sound i_nic i_mach i_ports fst snd].
      split_and!; try reflexivity. eexists; reflexivity. }
    destruct (Z.eqb_spec int_no 37) as [->|N37].
    { eexists _, [In 1 SB16_DSP_STATUS _]. split; [reflexivity|]. split_and!; try intros _; reflexivity. }
    assert (Eg : negb (rtl8139_irq (i_nic s) =? 0) && (int_no =? 32 + rtl8139_irq (i_nic s)) = false).
    { destruct (Z.eqb_spec (rtl8139_irq (i_nic s)) 0), (Z.eqb_spec int_no (32 + rtl8139_irq (i_nic s))); try reflexivity. destruct Hn; contradiction. }
    rewrite Eg. exists s, []. rewrite app_nil_r, !decide_False by assumption. split_and!; try intros _; reflexivity. }
  destruct K as (s1 & evs & E & Ep & W & K). eexists _, evs. split; [apply irq_handler_route, E|].
  cbn [i_kbd i_desk i_sound i_nic i_mach i_ports]. split; [rewrite Ep, <- app_assoc; reflexivity|]. split; [exact W|exact K].
Qed.

Lemma irq_handler_serves_witness : exists s', irq_handler ps2_device (fun _ m => m) 0 44
    (demo_irqs mouse_start) = Ret (tt, s') /\
  exists evs, only_reads evs /\ i_ports s' = evs ++ [Out 1 0xA0 0x20; Out 1 0x20 0x20].
Proof.
  destruct (irq_handler_serves ps2_device (fun _ m => m) 0 44 (demo_irqs mouse_start))
    as (s' & evs & E & Ep & W & _); [discriminate|left; reflexivity|].
  exists s'. split; [exact E|]. exists evs. split; [exact W|exact Ep].
Defined.
