(* ===== verification/Boot.v ===== *)
(** * Boot (kernel/kernel.c)

    [kernel_main] runs the initialisations in the order of the code up to the point
    where the shell starts; [boot] joins the states they set up.  The kernel heap
    lies in the machine's RAM: an operation of the window manager works on that RAM
    and leaves it changed.  The log lines and [sti] are left out; the video memory
    is the screen's.  The theorems say what the shell finds, what becomes of the demo windows,
    where the network card's receive ring lies, and what [jump_to_ring3], which nothing calls,
    would do. *)

From stdpp Require Import gmap sorting.
From S2P Require Import Prelude Memory CString PortIO InputDev Kmalloc Paging Scheduler Ipc Disk Sfs Descriptors Text Serial Vga Ata.
From S2P Require Import Sound Pci Net Framebuffer Cursor Window Canvas Desktop.
Local Open Scope Z_scope.
Local Open Scope sros_scope.

(** What the kernel reads of the boot loader's structure. *)
Record multiboot_info : Type := mk_multiboot {
  mb_flags : Z;
  framebuffer_addr : Z; framebuffer_pitch : Z; framebuffer_width : Z; framebuffer_height : Z; framebuffer_bpp : Z
}.

Definition COLOR_RED : color := mk_color 255 0 0.
Definition COLOR_GREEN : color := mk_color 0 255 0.
Definition COLOR_BLUE : color := mk_color 0 0 255.
Definition COLOR_GRAY : color := mk_color 128 128 128.
Definition COLOR_ORANGE : color := mk_color 255 165 0.

(** ** Ring 3 *)

(** [for (addr = from; addr < to; addr += 0x1000) paging_map_user(addr);] for page addresses *)
Definition map_image (from to : Z) : kern unit :=
  kfor (Z.to_nat ((to - from) / 0x1000)) 0 (fun i => paging_map_user (u32 (from + i * 0x1000))).

(** What [iret] takes from the stack, from its top: EIP, CS, EFLAGS, ESP, SS. *)
Definition jump_to_ring3 (bss_end shell_main : Z) : kern (list Z) :=
  let kernel_start := 0x100000 in
  let kernel_end := u32 (bss_end + 0xFFF) .& 0xFFFFF000 in
  _ ← map_image kernel_start kernel_end;
  frame ← pfa_alloc;
  let user_stack := u32 (frame + 0x1000) in
  _ ← paging_map_user (u32 (user_stack - 0x1000));
  mret [shell_main; 0x1B; 0x200; user_stack; 0x23].

(** ** The demo windows *)

(** [if (win) { wm_printf(...); ... }] for lines of one window: position, colours, text, arguments. *)
Definition demo_line : Type := Z * Z * color * color * list Z * list va.
Fixpoint print_lines (win : Z) (ls : list demo_line) : wmop unit :=
  match ls with
  | [] => mret tt
  | (x, y, fg, bg, fmt, args) :: ls => _ ← wm_printf win x y fg bg fmt args; print_lines win ls
  end.
Definition demo_window (x y w h : Z) (title : list Z) (lines : wm -> list demo_line) : wmop Z :=
  win ← wm_create_window x y w h title;
  if win =? 0 then mret 0
  else s ← getg id; _ ← print_lines win (lines s); mret win.

Definition system_info (f : framebuffer) (s : wm) : list demo_line := [
  (10, 10, COLOR_WHITE, WM_CONTENT_BG, chars "SROS v0.1 - Window Manager Demo", []);
  (10, 30, COLOR_WHITE, WM_CONTENT_BG, chars "Resolution: %dx%d", [VInt (fb_width f); VInt (fb_height f)]);
  (10, 50, COLOR_WHITE, WM_CONTENT_BG, chars "Windows: %d active", [VInt (g_count s)]);
  (10, 80, COLOR_RED, WM_CONTENT_BG, chars "Click X to close windows", []);
  (10, 100, COLOR_ORANGE, WM_CONTENT_BG, chars "Click title bar to focus", [])
].
Definition hello_window (_ : wm) : list demo_line := [
  (10, 10, COLOR_BLUE, WM_CONTENT_BG, chars "Hello, World!", []);
  (10, 35, COLOR_BLACK, WM_CONTENT_BG, chars "This is a multi-window", []);
  (10, 55, COLOR_BLACK, WM_CONTENT_BG, chars "demo with Z-order.", []);
  (10, 85, COLOR_GREEN, WM_CONTENT_BG, chars "Windows can overlap!", [])
].
Definition mouse_help (_ : wm) : list demo_line := [
  (10, 10, COLOR_WHITE, COLOR_GRAY, chars "  Mouse Controls:", []);
  (10, 35, COLOR_BLACK, WM_CONTENT_BG, chars "  Left click title bar -> focus", []);
  (10, 55, COLOR_BLACK, WM_CONTENT_BG, chars "  Click X        -> close", []);
  (10, 75, COLOR_BLACK, WM_CONTENT_BG, chars "  Timer polls mouse @ 100Hz", []);
  (10, 95, COLOR_ORANGE, WM_CONTENT_BG, chars "  Try clicking the X buttons!", [])
].

(** The three pointers. *)
Definition demo_windows (f : framebuffer) : wmop (Z * Z * Z) :=
  win1 ← demo_window 80 60 300 200 (chars "System Info") (system_info f);
  win2 ← demo_window 450 160 250 150 (chars "Hello Window") hello_window;
  win3 ← demo_window 200 280 320 120 (chars "Mouse Help") mouse_help;
  mret (win1, win2, win3).

(** ** The whole boot *)

Record boot (D : Type) : Type := mk_boot {
  b_mach : machine;
  b_ipc : ipc;
  b_fs : fs D;
  b_vga : vga;
  b_desc : desc_state;
  b_idt : list idt_entry;
  b_nic : nic;
  b_desk : desk;
  saved_mboot_info : option multiboot_info;
  b_ports : history
}.
Arguments mk_boot {D}.
Arguments b_mach {D}.
Arguments b_ipc {D}.
Arguments b_fs {D}.
Arguments b_vga {D}.
Arguments b_desc {D}.
Arguments b_idt {D}.
Arguments b_nic {D}.
Arguments b_desk {D}.
Arguments saved_mboot_info {D}.
Arguments b_ports {D}.

Definition bop (D A : Type) : Type := boot D -> exec (A * boot D).

#[export] Instance bop_ret D : MRet (bop D) := fun A x s => Ret (x, s).
#[export] Instance bop_bind D : MBind (bop D) := fun A B f m s =>
  match m s with Ret (x, s) => f x s | Panic => Panic | Oob => Oob end.

Definition desk_heap (m : mem) (d : desk) : desk :=
  mk_desk (set_heap m (d_wm d)) (d_screen d) (d_cursor d) (d_mouse d) (wm_buttons_last d).

Section boot.
Context {D : Type} `{BD : BlockDevice D}.
Context (dev : device).
Context (gdt_addr tss_addr idt_addr : Z) (isr : nat -> Z).

Definition at_ports {A} (m : io A) : bop D A := fun s =>
  match m dev (b_ports s) with
  | Some (x, h) => Ret (x, mk_boot (b_mach s) (b_ipc s) (b_fs s) (b_vga s) (b_desc s) (b_idt s) (b_nic s) (b_desk s) (saved_mboot_info s) h)
  | None => Oob
  end.
Definition in_kernel {A} (m : kern A) : bop D A := fun s =>
  match m (b_mach s) with
  | Ret (x, k) => Ret (x, mk_boot k (b_ipc s) (b_fs s) (b_vga s) (b_desc s) (b_idt s) (b_nic s) (b_desk s) (saved_mboot_info s) (b_ports s))
  | Panic => Panic
  | Oob => Oob
  end.
Definition in_files {A} (m : fsop D A) : bop D A := fun s =>
  match m (b_fs s) with
  | Ret (x, f) => Ret (x, mk_boot (b_mach s) (b_ipc s) f (b_vga s) (b_desc s) (b_idt s) (b_nic s) (b_desk s) (saved_mboot_info s) (b_ports s))
  | Panic => Panic
  | Oob => Oob
  end.
Definition in_net {A} (m : nop A) : bop D A := fun s =>
  match m (mk_net (b_nic s) (b_mach s) (b_ports s)) with
  | Ret (x, n) => Ret (x, mk_boot (mem_of n) (b_ipc s) (b_fs s) (b_vga s) (b_desc s) (b_idt s) (card n) (b_desk s) (saved_mboot_info s) (ports_of n))
  | Panic => Panic
  | Oob => Oob
  end.
(** The desktop's heap is the machine's RAM. *)
Definition in_desk {A} (m : deskop A) : bop D A := fun s =>
  match m (desk_heap (ram (b_mach s)) (b_desk s)) with
  | Ret (x, d) => Ret (x, mk_boot (set_ram (heap (d_wm d)) (b_mach s)) (b_ipc s) (b_fs s) (b_vga s) (b_desc s) (b_idt s) (b_nic s) d (saved_mboot_info s) (b_ports s))
  | Panic => Panic
  | Oob => Oob
  end.
Definition the_fb : bop D framebuffer := fun s => Ret (fb (d_screen (b_desk s)), s).
Definition put_fb (f : framebuffer) : deskop unit := fun d =>
  Ret (tt, mk_desk (d_wm d) (mk_screen f (vram (d_screen d)) (console_row (d_screen d)) (console_col (d_screen d))) (d_cursor d) (d_mouse d) (wm_buttons_last d)).

Definition save_mboot (mbd : option multiboot_info) : bop D unit := fun s =>
  Ret (tt, mk_boot (b_mach s) (b_ipc s) (b_fs s) (b_vga s) (b_desc s) (b_idt s) (b_nic s) (b_desk s)
    (if mbd is Some i then Some i else saved_mboot_info s) (b_ports s)).
Definition in_vga (f : vga -> exec vga) : bop D unit := fun s =>
  match f (b_vga s) with
  | Ret v => Ret (tt, mk_boot (b_mach s) (b_ipc s) (b_fs s) v (b_desc s) (b_idt s) (b_nic s) (b_desk s) (saved_mboot_info s) (b_ports s))
  | Panic => Panic
  | Oob => Oob
  end.
Definition start_tables : bop D unit := fun s =>
  let d := gdt_init gdt_addr tss_addr (b_desc s) in
  let '(idt, c) := idt_init idt_addr isr (the_cpu d) in
  Ret (tt, mk_boot (b_mach s) (b_ipc s) (b_fs s) (b_vga s) (mk_desc_state (gdt d) (the_tss d) c) idt (b_nic s) (b_desk s) (saved_mboot_info s) (b_ports s)).
Definition start_tasks : bop D unit := fun s =>
  let i := b_ipc s in
  let i := mk_ipc (sem_table i) (sem_count i) (mq_table i) (mq_count i) (scheduler_init (cr3 (b_mach s)) (task_table (sched_of i))) in
  Ret (tt, mk_boot (b_mach s) (ipc_init i) (b_fs s) (b_vga s) (b_desc s) (b_idt s) (b_nic s) (b_desk s) (saved_mboot_info s) (b_ports s)).

(** The display: the ports of the emulator's card, or what the boot loader has set up. *)
Definition find_display (mbd : option multiboot_info) : bop D unit :=
  r ← at_ports (vbe_init 1024 768 32);
  match r, mbd with
  | Some f, _ => in_desk (put_fb f)
  | None, Some i =>
      if c_true (mb_flags i .& Z.shiftl 1 12)
      then in_desk (put_fb (framebuffer_init (u32 (framebuffer_addr i)) (framebuffer_width i) (framebuffer_height i) (framebuffer_pitch i) (framebuffer_bpp i)))
      else mret tt
  | None, None => mret tt
  end.

Definition start_files : fsop D unit :=
  r ← sfs_mount;
  if r <? 0 then _ ← sfs_format; _ ← sfs_mount; mret tt else mret tt.

Definition start_network : nop unit :=
  r ← rtl8139_init dev;
  if r =? 0 then rtl8139_dump_status dev else mret tt.

Definition greeting : gfx unit :=
  f ← getfb id;
  _ ← fb_printf (chars "SROS Kernel - VBE Graphics Mode" ++ [NL]) [];
  _ ← fb_printf (chars "==============================" ++ [NL]) [];
  _ ← fb_printf (chars "Resolution: %dx%d %dbpp" ++ [NL]) [VInt (fb_width f); VInt (fb_height f); VInt (fb_bpp f)];
  _ ← fb_printf (chars "Framebuffer: 0x%x (phys)" ++ [NL]) [VInt (fb_phys_addr f)];
  fb_printf [NL] [].

Definition start_cursor : deskop unit := c ← getd d_cursor; c ← on_gfx (cursor_init c); set_cursor c.
Definition start_wm : deskop unit := fun d =>
  Ret (tt, mk_desk (wm_init (heap (d_wm d))) (d_screen d) (d_cursor d) (d_mouse d) (wm_buttons_last d)).

Definition start_display : bop D unit :=
  f ← the_fb;
  if fb_phys_addr f =? 0 then mret tt
  else
    f ← in_kernel (framebuffer_map f);
    _ ← in_desk (put_fb f);
    _ ← in_desk (on_gfx fb_console_init);
    _ ← in_desk (on_gfx greeting);
    _ ← in_desk start_cursor;
    _ ← in_desk start_wm;
    _ ← in_desk (on_wm (demo_windows f));
    in_desk wm_composite.

Definition start_timer : bop D unit :=
  match pit_init 100 with Some m => at_ports m | None => fun _ => Panic end.

(** Up to the call of [shell_main]. *)
Definition kernel_after_paging : bop D unit :=
  _ ← in_kernel more_frames;
  _ ← in_net start_network;
  _ ← start_display;
  _ ← start_tasks;
  _ ← start_timer;
  at_ports mouse_init.

Definition kernel_main (mbd : option multiboot_info) : bop D unit :=
  _ ← at_ports (serial_init SERIAL_COM1 1);
  _ ← save_mboot mbd;
  _ ← find_display mbd;
  _ ← in_vga vga_init;
  _ ← in_kernel (fun k => Ret (tt, set_ram (kmalloc_init (ram k)) k));
  _ ← at_ports ata_init;
  _ ← in_files start_files;
  _ ← start_tables;
  _ ← at_ports pic_remap;
  _ ← at_ports sb16_init;
  _ ← in_kernel boot_frames;
  _ ← in_kernel paging_init;
  kernel_after_paging.
End boot.

(** ** The demo windows on the heap *)

Lemma live_from_two bs p sz q tz : forall a, Forall block_ok bs -> live_from a bs p sz -> live_from a bs q tz -> p <> q -> sz + tz <= total bs.
Proof.
  induction bs as [|b bs IH]; intros a Ok Hp Hq Hne; cbn [live_from total] in *; [contradiction|].
  apply Forall_cons in Ok as [Okb Ok].
  destruct Hp as [[-> ->]|Hp], Hq as [[E ->]|Hq]; try congruence; cbn [fst] in *.
  - destruct (live_from_bounds _ _ _ _ Ok Hq) as (H1 & H2 & _). lia.
  - subst b. cbn [fst] in *. destruct (live_from_bounds _ _ _ _ Ok Hp) as (H1 & H2 & _). lia.
  - pose proof (IH _ Ok Hp Hq Hne). destruct Okb as [Hb _]. unfold MIN_BLOCK in Hb. lia.
Qed.

(** Two arrays of a client fit the heap together. *)
Lemma owns_two m ps p sz q tz : owns m ps -> (p, sz) ∈ ps -> (q, tz) ∈ ps -> p <> q -> sz + tz <= HEAP_SIZE.
Proof.
  intros [(bs & (Ok & T & _) & _ & H) _] Hp Hq Hne. destruct (H _ _ Hp) as (b & Lb & Sb), (H _ _ Hq) as (c & Lc & Sc).
  pose proof (live_from_two bs p b q c HEAP_START Ok Lb Lc Hne). lia.
Qed.

Lemma owns_fresh_heap m : owns (kmalloc_init m) [].
Proof.
  split; [|constructor]. exists [(HEAP_SIZE, false)]. split; [apply heap_rep_init|]. split; [reflexivity|]. intros p sz H. inversion H.
Qed.

(** A second window whose picture does not fit beside the first one's. *)
Lemma create_too_big others n s l x y cw ch title p w : wm_ok others n s l -> 1 <= cw -> 1 <= ch -> cw * ch * 4 <= 4294967200 ->
  n < 4294967294 -> objects s !! p = Some w -> HEAP_SIZE < cw * ch * 4 + pixels_of w * 4 ->
  exists s', wm_create_window x y cw ch title s = Ret (0, s') /\ wm_ok others n s' l /\ objects s' = objects s /\ buffers s' = buffers s /\
    g_focused s' = g_focused s.
Proof.
  intros Ok Hcw Hch Hsz Hn Hp Hbig. destruct (wm_create_ok others n s l x y cw ch title Ok Hcw Hch Hsz Hn) as (q & s' & R & H).
  destruct (Z.eqb_spec q 0) as [->|Hq]; [exists s'; split; [exact R|exact H]|exfalso].
  destruct H as (buffer & m1 & z & Ok' & _ & Hnew & _ & _ & _ & B & HB & Hd).
  destruct (live_window others n s l p Ok (ex_intro _ w Hp)) as (Hin & _).
  assert (Hpq : p <> q) by (intros ->; contradiction).
  destruct (becomes_some _ _ _ p w B) as (k & Hk); [rewrite lookup_insert_ne by congruence; exact Hp|].
  destruct (becomes_some _ _ _ q _ B (lookup_insert_eq _ _ _)) as (k' & Hk').
  pose proof (ok_heap _ _ _ _ (ok_mid _ _ _ _ Ok')) as Own.
  assert (I1 : (w_buffer w, pixels_of w * 4) ∈ owned (objects s') (l ++ [q]) ++ others).
  { apply elem_of_app. left. pose proof (owned_elem (objects s') (l ++ [q]) p _ ltac:(apply elem_of_app; left; exact Hin) Hk) as [_ H].
    unfold refocus in H. repeat case_match; exact H. }
  assert (I2 : (buffer, cw * ch * 4) ∈ owned (objects s') (l ++ [q]) ++ others).
  { apply elem_of_app. left. pose proof (owned_elem (objects s') (l ++ [q]) q _ ltac:(apply elem_of_app; right; left) Hk') as [_ H].
    unfold refocus in H. repeat case_match; exact H. }
  pose proof (owns_two _ _ _ _ _ _ Own I1 I2 (Hd p w Hin Hp)). lia.
Qed.

Definition fits (w : demo_line) : Prop :=
  let '(x, y, _, _, fmt, args) := w in 0 <= x <= 0x20000000 /\ 0 <= y <= 0x20000000 /\
    exists t, expand wm_conv fmt args = Some t /\ (length t <= 255)%nat.

(** Printing lines keeps everything but the pictures and the dirty flags. *)
Lemma print_lines_ok others n l win ls : Forall fits ls -> forall s, wm_ok others n s l -> is_Some (objects s !! win) ->
  exists s', print_lines win ls s = Ret (tt, s') /\ wm_ok others n s' l /\ g_focused s' = g_focused s /\
    (forall q w, objects s !! q = Some w -> exists d, objects s' !! q = Some (set_dirty d w)).
Proof.
  induction ls as [|[[[[[x y] fg] bg] fmt] args] ls IH]; intros F s Ok [w Hw].
  - exists s. split; [reflexivity|]. split; [exact Ok|]. split; [reflexivity|]. intros q v Hq. exists (w_dirty v). rewrite Hq. destruct v; reflexivity.
  - apply Forall_cons in F as [(Hx & Hy & t & Et & Ht) F].
    destruct (live_window others n s l win Ok (ex_intro _ w Hw)) as (_ & Hnz & _).
    destruct (wm_puts_drew others n s l win w fg bg x y (cstr (t ++ [0])) Ok Hw Hx Hy) as (s1 & g & R & Dr).
    { pose proof (length_cstr (t ++ [0])) as L. rewrite length_app in L. cbn in L. lia. }
    destruct (dr_objects _ _ _ _ _ _ _ Dr win w Hw) as (d & Hd).
    destruct (IH F s1 (dr_ok _ _ _ _ _ _ _ Dr) (ex_intro _ _ Hd)) as (s2 & R2 & Ok2 & F2 & O2).
    exists s2. split; [|split; [exact Ok2|split; [rewrite F2; apply Dr|]]].
    + cbn [print_lines]. assert (E : wm_printf win x y fg bg fmt args s = Ret (tt, s1)).
      { unfold wm_printf. rewrite (proj2 (Z.eqb_neq _ _) Hnz).
        rewrite (format_buffer_ok wm_conv (length fmt) fmt args t [] ltac:(lia) Et) by (cbn; lia). exact R. }
      rewrite (wm_bind_ret _ _ _ _ _ E). exact R2.
    + intros q v Hq. destruct (dr_objects _ _ _ _ _ _ _ Dr q v Hq) as (d1 & H1). destruct (O2 _ _ H1) as (d2 & H2).
      exists d2. rewrite H2. destruct v; reflexivity.
Qed.

Lemma number_length base digit n : (length (number base digit n) <= 16)%nat.
Proof.
  assert (H : forall k m, (length (digits_rev k base digit m) <= k)%nat).
  { induction k as [|k IH]; intros m; cbn; [lia|]. destruct (m =? 0); cbn; [lia|]. specialize (IH (m / base)). lia. }
  unfold number. destruct (n =? 0); [cbn; lia|]. rewrite length_rev. apply H.
Qed.

Ltac line_fits := split; [lia|split; [lia|]]; eexists; split; [cbv -[decimal]; reflexivity|];
  rewrite ?length_cons, ?length_app, ?length_cons, ?length_app; cbn [length];
  repeat match goal with |- context [length (decimal ?n)] => pose proof (number_length 10 (fun d => 48 + d) n : (length (decimal n) <= 16)%nat);
    generalize dependent (length (decimal n)); intros end; lia.

Lemma system_info_fits f s : Forall fits (system_info f s).
Proof. repeat (apply Forall_cons; split; [line_fits|]). apply Forall_nil. exact I. Qed.

(** The first window of a fresh heap. *)
Lemma first_window m x y cw ch title : 1 <= cw -> 1 <= ch -> 8 <= cw * ch * 4 -> cw * ch * 4 + 128 <= HEAP_SIZE ->
  exists p s' z k buffer, wm_create_window x y cw ch title (wm_init (kmalloc_init m)) = Ret (p, s') /\ p <> 0 /\ wm_ok [] 2 s' [p] /\
    g_focused s' = p /\ objects s' !! p = Some (set_next k (refocus p z p (new_window x y cw ch title buffer))).
Proof.
  intros Hcw Hch Hmin Hsz. pose proof (heap_rep_init m) as R0. set (m0 := kmalloc_init m) in *.
  pose proof (wm_init_ok [] m0 (owns_fresh_heap m)) as Ok. pose proof (ok_heap _ _ _ _ (ok_mid _ _ _ _ Ok)) as O0.
  destruct (kmalloc_refines m0 _ sizeof_window R0 ltac:(discriminate)) as (m1 & K1 & R1 & _).
  destruct (kmalloc_owns _ _ sizeof_window O0 ltac:(unfold sizeof_window; lia)) as (m1' & p & K1' & O1).
  change (heap (wm_init m0)) with m0 in K1', O1. rewrite K1 in K1'. injection K1' as <- Ep. assert (Kw : kmalloc m0 sizeof_window = Some (m1, p)) by (rewrite <- Ep; exact K1). clear K1.
  assert (Np : p <> 0) by (rewrite <- Ep; discriminate). rewrite (proj2 (Z.eqb_neq p 0)) in O1 by exact Np. clear Ep.
  change ([] ++ alloc_block (kmalloc_need sizeof_window) HEAP_SIZE ++ []) with [(88, true); (262056, false)] in R1.
  pose proof (kmalloc_refines m1 _ (cw * ch * 4) R1) as L. cbn [first_fit negb andb] in L.
  pose proof (kmalloc_need_small (cw * ch * 4) ltac:(unfold HEAP_SIZE in *; lia)) as Hn. unfold HEAP_SIZE in Hsz.
  rewrite (proj2 (Z.leb_le _ 262056)) in L by (rewrite Hn; mlia). destruct (L ltac:(lia)) as (m2 & K2 & _).
  destruct (kmalloc_owns _ _ (cw * ch * 4) O1 ltac:(lia)) as (m2' & buffer & K2' & O2).
  rewrite K2 in K2'. injection K2' as <- Eb. assert (Kb : kmalloc m1 (cw * ch * 4) = Some (m2, buffer)) by (rewrite <- Eb; exact K2). clear K2.
  assert (Nb : buffer <> 0) by (rewrite <- Eb; discriminate). rewrite (proj2 (Z.eqb_neq buffer 0)) in O2 by exact Nb. clear Eb.
  destruct (create_suffix [] 0 (wm_init m0) [] p buffer m2 x y cw ch title Ok ltac:(cbn; lia) Hcw Hch ltac:(lia) O2)
    as (s' & z & R & Ok' & F & B & _).
  destruct (becomes_some _ _ _ p _ B (lookup_insert_eq _ _ _)) as (k & Hk).
  exists p, s', z, k, buffer. split; [|split; [exact Np|split; [exact Ok'|split; [exact F|exact Hk]]]].
  rewrite <- R. apply (create_prefix (wm_init m0) x y cw ch title p m1 buffer m2); try assumption; try discriminate; unfold HEAP_SIZE; cbn; lia.
Qed.

(** ** The network card's buffers *)

Abbreviation free := Paging.free.

(** Each page of [L] shows its frame, which nothing else uses. *)
Definition showing (k : machine) (L : list (Z * Z)) : Prop := Forall (fun v => card_page k (fst v) (snd v) /\ unused k (snd v)) L.

Lemma showing_change k k' L : (forall q, unused k q -> unused k' q) ->
  (forall va p, (va, p) ∈ L -> pte_of k' (va / 4096) = pte_of k (va / 4096)) -> showing k L -> showing k' L.
Proof.
  intros Hu Hp H. apply Forall_forall. intros [va p] Hin. unfold showing in H. rewrite Forall_forall in H.
  destruct (H _ Hin) as [[Ha Hr He _] U]. cbn [fst snd] in *. split; [|apply Hu, U]. split; [exact Ha|exact Hr|rewrite (Hp _ _ Hin); exact He|].
  apply unused_client, Hu, U.
Qed.

Lemma showing_alloc k L fs p : space k -> showing k L -> free k = fs ++ [p] ->
  exists k', pfa_alloc k = Ret (p, k') /\ space k' /\ showing k' L /\ unused k' p /\ free k' = fs /\ forall j, pde k' j = pde k j.
Proof.
  intros S H F. pose proof (pfa_alloc_space k S) as A. pose proof (unused_alloc k) as U.
  destruct (pfa_alloc k) as [[q k']| |]; [|rewrite F in A; destruct fs; discriminate|contradiction].
  destruct A as (S' & Uq & F' & R & C). rewrite F in F'. apply app_inj_tail in F' as [Ef <-].
  exists k'. split; [reflexivity|]. split; [exact S'|]. split; [|split; [exact Uq|split; [congruence|intros j; unfold pde, word; congruence]]].
  eapply showing_change; [intros q Hq; destruct (U q S Hq) as (_ & Hq' & _); exact Hq'| |exact H].
  intros va q _. unfold pte_of, table_of, pde, word. rewrite R, C. reflexivity.
Qed.

(** The table of a page: [t] when there is none yet. *)
Definition new_table_of (k : machine) (va t : Z) : list Z := if has P (pde k (Z.shiftr va 22)) then [] else [t].

Lemma showing_map k L va p t fs : space k -> showing k L -> unused k p -> va mod 4096 = 0 -> 0x400000 <= va < 0xFFC00000 ->
  Forall (fun v => fst v <> va) L -> free k = fs ++ new_table_of k va t ->
  exists k', paging_map_page va p 3 k = Ret (tt, k') /\ space k' /\ showing k' ((va, p) :: L) /\ free k' = fs /\ present k' (Z.shiftr va 22).
Proof.
  intros S H U Ha Hr Hd F. destruct (va_split va ltac:(lia)) as (E1 & _).
  assert (Hp : is_u32 p) by apply (proj1 (proj1 U)). assert (Hi : 1 <= Z.shiftr va 22 < 1023) by (rewrite E1; mlia).
  pose proof (map_page_effect k va p 3 S ltac:(lia) Hp Hi) as M. cbv zeta in M.
  assert (Hu : forall q k', paging_map_page va p 3 k = Ret (tt, k') -> unused k q -> unused k' q).
  { intros q k' E Uq. destruct (paging_map_page va p 3 k) as [[[] k1]| |] eqn:E'; try discriminate. apply ret_inj in E as [_ ->].
    destruct M as (S' & C & _ & _ & Fk & _ & Dk). destruct Uq as (U1 & U2 & U3 & U4). split; [exact U1|]. split; [congruence|].
    split; [intros X; apply U3; rewrite Fk; apply elem_of_app; auto|]. intros i Hi' Pr.
    destruct (decide (i = Z.shiftr va 22)) as [->|Hne].
    - destruct (has P (pde k (Z.shiftr va 22))) eqn:X.
      + unfold table_of. rewrite Dk by (auto with lia). apply U4; [lia|exact X].
      + intros Y. apply U3. rewrite Fk, Y. apply elem_of_app. right. apply list_elem_of_here.
    - unfold table_of. rewrite Dk by (auto with lia). apply U4; [lia|]. unfold present. rewrite <- Dk by (auto with lia). exact Pr. }
  unfold new_table_of in F. destruct (paging_map_page va p 3 k) as [[[] k']| |] eqn:E.
  2:{ destruct M as [N Fk]. rewrite Fk in F. unfold present in N. destruct (has P (pde k (Z.shiftr va 22))); [contradiction N; reflexivity|].
      destruct fs; discriminate. }
  2:{ contradiction. }
  destruct M as (S' & C & Pr & Mp & Fk & _). exists k'. split; [reflexivity|]. split; [exact S'|].
  assert (Hl : length (free k') = length fs).
  { pose proof (f_equal length F) as L1. pose proof (f_equal length Fk) as L2. rewrite length_app in L1, L2.
    destruct (has P _); cbn in L1, L2; lia. }
  split; [|split; [|exact Pr]].
  - constructor.
    + cbn [fst snd]. assert (U' : unused k' p) by (apply (Hu p k' eq_refl U)). split; [|exact U'].
      split; [exact Ha|exact Hr| |apply unused_client, U']. exists (leaf p 3). rewrite Mp by mlia. rewrite decide_True by reflexivity.
      split; [reflexivity|]. destruct (leaf_spec p 3 Hp) as (-> & _). apply page_addr, (proj1 U).
    + eapply showing_change; [intros q; apply Hu; reflexivity| |exact H].
      intros va' p' Hin. pose proof (proj1 (Forall_forall _ _) Hd _ Hin) as Hne. cbn [fst] in Hne.
      destruct (proj1 (proj1 (Forall_forall _ _) H _ Hin)) as [Ha' Hr' _ _]. cbn [fst] in *. rewrite Mp by mlia. rewrite decide_False by mlia. reflexivity.
  - destruct (app_inj_1 _ _ _ _ Hl (eq_trans (eq_sym Fk) F)) as [Ef _]. exact Ef.
Qed.

(** [memset] over pages that are shown. *)
Lemma showing_clear k L va n : space k -> showing k L -> 0 <= n ->
  (forall i, 0 <= i < n -> exists v, v ∈ L /\ fst v <= va + i < fst v + 4096) ->
  exists k', vmemset va 0 n k = Ret (tt, k') /\ space k' /\ showing k' L /\ free k' = free k /\ forall j, 0 <= j < 1024 -> pde k' j = pde k j.
Proof.
  intros S H Hn Hc. destruct (kfor_rule (fun _ k' => space k' /\ showing k' L /\ free k' = free k /\ forall j, 0 <= j < 1024 -> pde k' j = pde k j)
    (fun i => write8 (va + i) 0) (Z.to_nat n) 0 k) as (k' & E & I); [auto| |exists k'; split; [exact E|exact I]].
  intros i k1 Hi (S1 & H1 & F1 & D1). destruct (Hc i ltac:(lia)) as ([va0 p] & Hin & Hv). cbn [fst] in Hv.
  destruct (proj1 (Forall_forall _ _) H1 _ Hin) as [Cp U]. cbn [fst snd] in *.
  destruct (card_write8 k1 va0 p (va + i - va0) 0 S1 Cp ltac:(lia)) as (E2 & S2 & O2). replace (va0 + (va + i - va0)) with (va + i) in E2 by lia.
  eexists. split; [exact E2|]. destruct (space_only_page p k1 _ S1 (unused_client _ _ U) O2 (sp_pool _ S2)) as (_ & Hcl & Hpte).
  split; [exact S2|]. split; [|split; [exact F1|]].
  - eapply showing_change; [| |exact H1].
    + intros q Uq. destruct (Hcl q (unused_client _ _ Uq)) as (C1 & C2 & C3). split; [exact C1|]. split; [exact C2|]. split; [apply Uq|exact C3].
    + intros va' p' Hin'. destruct (proj1 (proj1 (Forall_forall _ _) H1 _ Hin')) as [_ Hr _ _]. cbn [fst] in Hr. apply Hpte. mlia.
  - intros j Hj. rewrite <- (D1 j Hj). apply (only_page_pde p); [apply S1|exact O2|apply U|exact Hj].
Qed.

(** Taking a frame and mapping it at [va]. *)
Lemma page_taken k L va t p fs : space k -> showing k L -> va mod 4096 = 0 -> 0x400000 <= va < 0xFFC00000 ->
  Forall (fun v => fst v <> va) L -> free k = fs ++ new_table_of k va t ++ [p] ->
  exists k1 k2, pfa_alloc k = Ret (p, k1) /\ paging_map_page va p 3 k1 = Ret (tt, k2) /\
    space k2 /\ showing k2 ((va, p) :: L) /\ free k2 = fs /\ present k2 (Z.shiftr va 22).
Proof.
  intros S H Ha Hr Hd F. rewrite app_assoc in F.
  destruct (showing_alloc k L _ p S H F) as (k1 & E1 & S1 & H1 & U1 & F1 & D1).
  destruct (showing_map k1 L va p t fs S1 H1 U1 Ha Hr Hd) as (k2 & E2 & S2 & H2 & F2 & P2).
  { rewrite F1. unfold new_table_of. rewrite D1. reflexivity. }
  exists k1, k2. auto 8.
Qed.

Lemma present_new_table k va t : present k (Z.shiftr va 22) -> new_table_of k va t = [].
Proof. unfold new_table_of, present. intros ->. reflexivity. Qed.

Definition tx_va (i : Z) : Z := 0xF0040000 + i * 0x1000.

Lemma tx_step dev n i k L fs t p : space k -> showing k L -> 0 <= i < 4 -> Forall (fun v => fst v <> tx_va i) L -> p <> 0 ->
  free k = fs ++ new_table_of k (tx_va i) t ++ [p] ->
  exists k', (forall c h, init_tx_loop dev (S n) i (mk_net c k h) = init_tx_loop dev n (i + 1)
      (mk_net (set_tx (<[Z.to_nat i := tx_va i]> (tx_bufs c)) (<[Z.to_nat i := p]> (tx_phys c)) (tx_cur c) c) k'
         (h ++ [Out 4 (u16 (io_base c + (RTL_REG_TX_ADDR0 + i * 4))) (u32 p)]))) /\
    space k' /\ showing k' ((tx_va i, p) :: L) /\ free k' = fs /\ present k' 0x3C0.
Proof.
  intros S H Hi Hd Hp F. assert (Hv : tx_va i mod 4096 = 0 /\ 0x400000 <= tx_va i < 0xFFC00000 /\ Z.shiftr (tx_va i) 22 = 0x3C0).
  { unfold tx_va. assert (C : i = 0 \/ i = 1 \/ i = 2 \/ i = 3) by lia. destruct C as [->|[->|[->| ->]]]; repeat split; try reflexivity; discriminate. }
  destruct Hv as (Ha & Hr & Hs).
  destruct (page_taken k L (tx_va i) t p fs S H Ha Hr Hd F) as (k1 & k2 & E1 & E2 & S2 & H2 & F2 & P2).
  destruct (showing_clear k2 _ (tx_va i) RTL8139_TX_BUF_SIZE S2 H2 ltac:(discriminate)) as (k3 & E3 & S3 & H3 & F3 & D3).
  { unfold RTL8139_TX_BUF_SIZE. intros j Hj. exists (tx_va i, p). split; [left|cbn; lia]. }
  exists k3. split; [|split; [exact S3|split; [exact H3|split; [congruence|]]]].
  - intros c h. cbn [init_tx_loop]. unfold rtl_writel, mbind, nop_bind, memory, nic_of, nic_set, io_ports, outl. cbn [card mem_of ports_of]. rewrite E1.
    cbn [card mem_of ports_of]. destruct (Z.eqb_spec p 0); [contradiction|]. replace (u32 (0xF0040000 + i * 0x1000)) with (tx_va i) by (symmetry; apply u32_small; unfold tx_va in *; lia). cbn [card mem_of ports_of]. rewrite E2. cbn [card mem_of ports_of]. rewrite E3. reflexivity.
  - rewrite Hs in P2. unfold present. rewrite D3 by lia. exact P2.
Qed.

Definition ring_va : Z := 0xF0050000.

Lemma rx_step dev k L fs p1 p2 p3 : space k -> showing k L -> present k 0x3C0 -> Forall (fun v => fst v < ring_va) L ->
  p1 <> 0 -> p2 <> 0 -> p3 <> 0 -> free k = fs ++ [p3; p2; p1] ->
  exists k', (forall c h, init_rx_buffer dev (mk_net c k h) =
      Ret (0, mk_net (set_rx ring_va p1 0 c) k' (h ++ [Out 4 (u16 (io_base c + RTL_REG_RBSTART)) (u32 p1)]))) /\
    space k' /\ showing k' ((ring_va + 0x2000, p3) :: (ring_va + 0x1000, p2) :: (ring_va, p1) :: L).
Proof.
  intros S H P Hd N1 N2 N3 F.
  assert (Hne : forall va, ring_va <= va -> Forall (fun v => fst v <> va) L) by (intros va Hva; eapply Forall_impl; [exact Hd|]; cbn beta; intros; lia).
  assert (T : forall k va, present k 0x3C0 -> Z.shiftr va 22 = 0x3C0 -> new_table_of k va 0 = [])
    by (intros k0 va Pk Ev; apply present_new_table; rewrite Ev; exact Pk).
  destruct (page_taken k L ring_va 0 p1 (fs ++ [p3; p2]) S H) as (k1 & k2 & E1 & E2 & S2 & H2 & F2 & P2);
    [reflexivity|unfold ring_va; lia|apply Hne; lia|rewrite T by (assumption || reflexivity); rewrite F, <- app_assoc; reflexivity|].
  destruct (page_taken k2 _ (ring_va + 0x1000) 0 p2 (fs ++ [p3]) S2 H2) as (k3 & k4 & E3 & E4 & S4 & H4 & F4 & P4);
    [reflexivity|unfold ring_va; lia|constructor; [cbn; lia|apply Hne; lia]|rewrite T by (assumption || reflexivity); rewrite F2, <- app_assoc; reflexivity|].
  destruct (page_taken k4 _ (ring_va + 0x2000) 0 p3 fs S4 H4) as (k5 & k6 & E5 & E6 & S6 & H6 & F6 & P6);
    [reflexivity|unfold ring_va; lia|repeat constructor; cbn; try lia; apply Hne; lia|rewrite T by (assumption || reflexivity); rewrite F4; reflexivity|].
  destruct (showing_clear k6 _ ring_va 0x3000 S6 H6 ltac:(lia)) as (k7 & E7 & S7 & H7 & F7 & D7).
  { intros j Hj. destruct (Z.lt_ge_cases j 4096); [exists (ring_va, p1)|destruct (Z.lt_ge_cases j 8192); [exists (ring_va + 0x1000, p2)|exists (ring_va + 0x2000, p3)]];
      (split; [apply list_elem_of_In; cbn; tauto|cbn [fst]; lia]). }
  exists k7. split; [|split; [exact S7|exact H7]].
  intros c h. unfold init_rx_buffer, rtl_writel, mbind, nop_bind, memory, nic_of, nic_set, io_ports, outl, mret, nop_ret. fold ring_va. cbn [card mem_of ports_of]. rewrite E1.
  cbn [card mem_of ports_of]. destruct (Z.eqb_spec p1 0); [contradiction|]. cbn [card mem_of ports_of]. rewrite E2. cbn [card mem_of ports_of]. rewrite E3.
  cbn [card mem_of ports_of]. destruct (Z.eqb_spec p2 0); [contradiction|]. cbn [card mem_of ports_of]. rewrite E4. cbn [card mem_of ports_of]. rewrite E5.
  cbn [card mem_of ports_of]. destruct (Z.eqb_spec p3 0); [contradiction|]. cbn [card mem_of ports_of]. rewrite E6. cbn [card mem_of ports_of]. rewrite E7. reflexivity.
Qed.

(** ** Ring 3 *)

(** The entries of the pages chosen by [inn] have got the user bit, the others are as in [k]. *)
Definition opened (inn : Z -> bool) (k : machine) (fs : list Z) (k' : machine) : Prop :=
  space k' /\ free k' = fs /\
  forall n, 0 <= n < 1023 * 1024 -> pte_of k' n = if inn n then (fun e => e .| 4) <$> pte_of k n else pte_of k n.

Lemma opened_page inn k fs k1 va : opened inn k fs k1 -> 0 <= va < 0x400000 ->
  exists k', paging_map_user va k1 = Ret (tt, k') /\ opened (fun n => inn n || (n =? va / 4096)) k fs k' /\ has U (pde k' 0) = true.
Proof.
  intros (S1 & F1 & M1) Hva. destruct (sp_low k1 S1 (va / 4096)) as (e & He & _); [mlia|].
  destruct (map_user_full k1 va e S1 ltac:(unfold SELF_MAP; lia) He) as (k' & E & S' & F & C & _ & _ & _ & HU & _ & _ & M).
  destruct (va_split va ltac:(lia)) as (E1 & _). assert (Hz : Z.shiftr va 22 = 0) by (rewrite E1; mlia). rewrite Hz in HU.
  exists k'. split; [exact E|]. split; [|exact HU]. split; [exact S'|]. split; [congruence|].
  intros n Hn. rewrite M by exact Hn. destruct (Z.eqb_spec n (va / 4096)) as [->|Hne].
  - rewrite decide_True, orb_true_r by reflexivity. rewrite M1 in He by exact Hn.
    destruct (inn (va / 4096)); [|rewrite He; reflexivity]. destruct (pte_of k (va / 4096)) as [e0|]; [|discriminate].
    cbn in He |- *. injection He as <-. rewrite <- Z.lor_assoc. reflexivity.
  - rewrite decide_False, orb_false_r by exact Hne. apply M1, Hn.
Qed.

Lemma opened_more inn inn' k fs k' : (forall n, 0 <= n < 1023 * 1024 -> inn n = inn' n) -> opened inn k fs k' -> opened inn' k fs k'.
Proof. intros H (A & B & M). split; [exact A|split; [exact B|]]. intros n Hn. rewrite <- H by exact Hn. apply M, Hn. Qed.

Lemma map_image_opens k from to : space k -> 0 <= from < to -> to <= 0x400000 -> from mod 4096 = 0 -> to mod 4096 = 0 ->
  exists k', map_image from to k = Ret (tt, k') /\ opened (fun n => (from / 4096 <=? n) && (n <? to / 4096)) k (free k) k' /\ has U (pde k' 0) = true.
Proof.
  intros S Hf Ht Af At. unfold map_image. set (N := (to - from) / 0x1000).
  assert (HN : 1 <= N /\ to / 4096 = from / 4096 + N) by (unfold N; mlia).
  destruct (kfor_rule (fun i k' => opened (fun n => (from / 4096 <=? n) && (n <? from / 4096 + i)) k (free k) k' /\ (0 < i -> has U (pde k' 0) = true))
    (fun i => paging_map_user (u32 (from + i * 0x1000))) (Z.to_nat N) 0 k) as (k' & E & O & HU).
  - split; [|lia]. split; [exact S|]. split; [reflexivity|]. intros n _.
    destruct (Z.leb_spec (from / 4096) n), (Z.ltb_spec n (from / 4096 + 0)); try reflexivity; lia.
  - intros i k1 Hi (O & _). assert (Hva : 0 <= from + i * 0x1000 < 0x400000) by (unfold N in *; mlia). rewrite u32_small by lia.
    destruct (opened_page _ k _ k1 (from + i * 0x1000) O Hva) as (k2 & E2 & O2 & HU). exists k2. split; [exact E2|]. split; [|intros _; exact HU].
    eapply opened_more; [|exact O2]. intros n Hn. cbv beta. replace ((from + i * 0x1000) / 4096) with (from / 4096 + i) by mlia.
    destruct (Z.leb_spec (from / 4096) n), (Z.ltb_spec n (from / 4096 + i)), (Z.eqb_spec n (from / 4096 + i)), (Z.ltb_spec n (from / 4096 + (i + 1)));
      try reflexivity; lia.
  - rewrite Z2Nat.id in O, HU by lia. rewrite Z.add_0_l in O, HU. destruct HN as [HN ->]. exists k'. split; [exact E|]. split; [exact O|apply HU; lia].
Qed.

Lemma pte_range k n e : pte_of k n = Some e -> is_u32 e.
Proof. unfold pte_of. intros H. repeat case_match; try discriminate. injection H as <-. apply word_range. Qed.
Lemma pte_present k n e : pte_of k n = Some e -> has P e = true.
Proof. unfold pte_of. intros H. repeat case_match; try discriminate. congruence. Qed.

(** [jump_to_ring3] opens to user mode exactly the pages of the kernel's image, from
    1 MiB to the end of its data, and one fresh page for the stack, leaves every
    translation as it is, and returns through a frame with the user segments, interrupts enabled and
    the stack pointer at the end of that page. *)
Theorem jump_to_ring3_opens k fs p bss_end shell_main : space k -> free k = fs ++ [p] -> 0x100000 < bss_end <= 0x3FF000 ->
  exists k', jump_to_ring3 bss_end shell_main k = Ret ([shell_main; 0x1B; 0x200; p + 0x1000; 0x23], k') /\ space k' /\ free k' = fs /\
    (forall va, 0 <= va < SELF_MAP -> translate k' va = translate k va) /\ has U (pde k' 0) = true /\
    forall n, 0 <= n < 1023 * 1024 -> pte_of k' n =
      if decide (0x100000 <= n * 4096 < bss_end \/ n = p / 4096) then (fun e => e .| 4) <$> pte_of k n else pte_of k n.
Proof.
  intros S F Hb. set (to := u32 (bss_end + 0xFFF) .& 0xFFFFF000).
  assert (Hto : to = (bss_end + 0xFFF) / 4096 * 4096) by (unfold to; rewrite u32_small by lia; apply entry_addr; unfold is_u32; lia).
  destruct (map_image_opens k 0x100000 to S) as (k1 & E1 & O1 & _); [rewrite Hto; mlia|rewrite Hto; mlia|reflexivity|rewrite Hto; mlia|].
  destruct O1 as (S1 & F1 & M1). pose proof (pfa_alloc_space k1 S1) as A.
  destruct (pfa_alloc k1) as [[q k2]| |] eqn:E2; [|rewrite F1, F in A; destruct fs; discriminate|contradiction].
  destruct A as (S2 & U2 & F2 & R2 & C2). rewrite F1, F in F2. apply app_inj_tail in F2 as [Ef <-].
  set (img := fun n => (0x100000 / 4096 <=? n) && (n <? to / 4096)) in *.
  assert (O2 : opened img k fs k2).
  { split; [exact S2|]. split; [congruence|]. intros n Hn.
    replace (pte_of k2 n) with (pte_of k1 n) by (unfold pte_of, table_of, pde, word; rewrite R2, C2; reflexivity). apply M1, Hn. }
  destruct U2 as ([[Hp Hpa] Hp4] & _). destruct (opened_page img k fs k2 p O2 ltac:(lia)) as (k3 & E3 & (S3 & F3 & M3) & HU).
  assert (Hmap : forall n, 0 <= n < 1023 * 1024 -> pte_of k3 n =
      if decide (0x100000 <= n * 4096 < bss_end \/ n = p / 4096) then (fun e => e .| 4) <$> pte_of k n else pte_of k n).
  { intros n Hn. rewrite M3 by exact Hn. assert (Hi : img n = true <-> 0x100000 <= n * 4096 < bss_end).
    { unfold img. rewrite andb_true_iff, Z.leb_le, Z.ltb_lt, Hto. mlia. }
    destruct (img n), (Z.eqb_spec n (p / 4096)); cbn [orb]; case_decide; try reflexivity; exfalso; intuition congruence. }
  exists k3. split; [|split; [exact S3|split; [exact F3|split; [|split; [exact HU|exact Hmap]]]]].
  - unfold jump_to_ring3, mbind, kern_bind, mret, kern_ret. fold to. rewrite E1, E2.
    replace (u32 (u32 (p + 0x1000) - 0x1000)) with p by (rewrite (u32_small (p + 0x1000)) by mlia; rewrite u32_small by mlia; lia).
    rewrite E3, u32_small by mlia. reflexivity.
  - intros va Hva. unfold SELF_MAP in Hva. rewrite !translate_pte by (try apply S; try apply S3; lia). rewrite Hmap by mlia.
    case_decide; [|reflexivity]. destruct (pte_of k (va / 4096)) as [e|] eqn:He; [|reflexivity]. cbn. f_equal. f_equal.
    apply set_user; [exact (pte_range k _ _ He)|exact (pte_present k _ _ He)].
Qed.

(** ** What the shell finds *)

(** The heap's words lie apart from the page tables. *)
Lemma heap_kept m k : (forall q j, page q -> 0 <= j < 1024 -> q <> 0x114000 -> q <> 0x113000 -> word k q j = load32 m (q + 4 * j)) ->
  heap_rep m [(HEAP_SIZE, false)] -> heap_rep (ram k) [(HEAP_SIZE, false)].
Proof.
  intros W (Ok & T & Sg & En). split; [exact Ok|]. split; [exact T|]. cbn [seg fst] in *. destruct Sg as (S1 & S2 & _).
  pose proof (W 0x200000 0 ltac:(repeat split; discriminate || reflexivity) ltac:(lia) ltac:(discriminate) ltac:(discriminate)) as W1.
  pose proof (W 0x23F000 1023 ltac:(repeat split; discriminate || reflexivity) ltac:(lia) ltac:(discriminate) ltac:(discriminate)) as W2.
  pose proof (W 0x240000 0 ltac:(repeat split; discriminate || reflexivity) ltac:(lia) ltac:(discriminate) ltac:(discriminate)) as W3.
  split; [split; [rewrite <- S1; exact W1|split; [rewrite <- S2; exact W2|exact I]]|rewrite <- En; exact W3].
Qed.

(** A driver's program ends; the polling loops stay folded. *)
#[local] Opaque until poll for_each.
Ltac io_ends := repeat first [solve [auto with total] | apply total_in | apply total_bind; [|intros] | apply total_until | apply total_poll | case_match | progress cbv zeta].

Section boots.
Context {D : Type} `{BD : BlockDevice D}.
Context (dev : device) (gdt_addr tss_addr idt_addr : Z) (isr : nat -> Z).

(** The statics are zero and the disk works. *)
Record power_on (s : boot D) (m : mem) : Prop := {
  po_mach : b_mach s = boot_machine m;
  po_tasks : length (task_table (sched_of (b_ipc s))) = MAX_TASKS;
  po_sems : length (sem_table (b_ipc s)) = MAX_SEMS /\ sem_count (b_ipc s) = 0;
  po_mqs : length (mq_table (b_ipc s)) = MAX_MSGQUEUES /\ mq_count (b_ipc s) = 0;
  po_msgs : Forall (fun q => length (mq_msgs q) = Z.to_nat MSGQUEUE_SIZE /\
    Forall (fun m => length (msg_data m) = MSG_MAX_DATA) (mq_msgs q)) (mq_table (b_ipc s));
  po_fb : fb_phys_addr (fb (d_screen (b_desk s))) = 0;
  po_screen : length (vga_buffer (b_vga s)) = 2000%nat;
  po_disk : dev_ok (Sfs.dev (b_fs s))
}.

(** Neither the emulator's display nor the network card, nor a frame buffer from the boot loader. *)
Record plain_machine (cfg : Z -> Z) (mbd : option multiboot_info) : Prop := {
  pm_vbe : forall h, let id := dev h 2 (u16 VBE_DISPI_IOPORT_DATA) mod 65536 in id < VBE_DISPI_ID_MIN \/ VBE_DISPI_ID_MAX < id;
  pm_loader : if mbd is Some i then c_true (mb_flags i .& Z.shiftl 1 12) = false else True;
  pm_bus : config_space dev cfg;
  pm_card : Forall (fun f => id_test cfg PCI_VENDOR_REALTEK PCI_DEVICE_RTL8139 f = false) (visible cfg)
}.

Definition disk_super (f : fs D) : super_block := super_of (slice 0 sizeof_super (blk (Sfs.dev f) 0)).

(** A disk with the magic number is mounted as it is; any other one is formatted. *)
Lemma start_files_effect (f : fs D) : dev_ok (Sfs.dev f) ->
  exists f', start_files f = Ret (tt, f') /\ mounted f' = 1 /\ Forall (fun f => f_in_use f = 0) (file_table f') /\
    if magic (disk_super f) =? SFS_MAGIC
    then dev_ok (Sfs.dev f') /\ sb f' = disk_super f /\ forall n, valid_block n -> blk (Sfs.dev f') n = blk (Sfs.dev f) n
    else exists B, map_ok B /\ holds f' (formatted B).
Proof.
  intros Hd. destruct (mount_effect f (blk (Sfs.dev f)) Hd (fun _ _ => eq_refl)) as (f1 & E1 & D1 & B1 & S1 & T1).
  unfold disk_super. unfold start_files, mbind, fsop_bind. rewrite E1. destruct (magic _ =? SFS_MAGIC); cbn [Z.ltb Z.compare].
  - exists f1. split; [reflexivity|]. destruct T1 as [M1 ->]. split; [exact M1|]. split; [apply Forall_fmap, Forall_true; reflexivity|auto].
  - destruct (format_effect f1 D1) as (f2 & E2 & [D2 S2 B2] & T2 & M2). rewrite E2.
    destruct (mount_effect f2 _ D2 B2) as (f3 & E3 & D3 & B3 & S3 & T3).
    assert (Eb : super_of (slice 0 sizeof_super (formatted (blk (Sfs.dev f1)) 0)) = default_sb) by (vm_compute; reflexivity).
    rewrite Eb in *. cbn [magic default_sb] in E3, T3. rewrite Z.eqb_refl in E3, T3. destruct T3 as [M3 T3]. rewrite E3.
    exists f3. split; [reflexivity|]. split; [exact M3|]. split; [rewrite T3; apply Forall_fmap, Forall_true; reflexivity|].
    exists (blk (Sfs.dev f1)). split; [intros n Hn; apply blk_length, D1|split; assumption].
Qed.

(** Every component is in good order, and nothing is in use yet. *)
Record started (s s' : boot D) : Prop := {
  sd_space : space (b_mach s') /\ free (b_mach s') = boot_pool;
  sd_map : forall va, 0 <= va < SELF_MAP -> translate (b_mach s') va = if decide (va < 0x400000) then Some va else None;
  sd_heap : heap_rep (ram (b_mach s')) [(HEAP_SIZE, false)];
  sd_files : mounted (b_fs s') = 1 /\ Forall (fun f => f_in_use f = 0) (file_table (b_fs s')) /\
    if magic (disk_super (b_fs s)) =? SFS_MAGIC
    then dev_ok (Sfs.dev (b_fs s')) /\ sb (b_fs s') = disk_super (b_fs s) /\
      forall n, valid_block n -> blk (Sfs.dev (b_fs s')) n = blk (Sfs.dev (b_fs s)) n
    else exists B, holds (b_fs s') B /\ fs_ok B /\ dir_ok B (inode_at B ROOT_INO) /\
      forall n, valid_ino n -> used_inode B n = true -> n = ROOT_INO;
  sd_tasks : ipc_ok (b_ipc s') 0 [] (fun _ => []) /\ (forall i, ~ sem_live (b_ipc s') i) /\ (forall i, ~ mq_live (b_ipc s') i) /\
    state (task_at (sched_of (b_ipc s')) 0) = TASK_RUNNING;
  sd_screen : Vga.shows (b_vga s') [] []
}.

Lemma boot_step {A B} (m : bop D A) (f : A -> bop D B) s x s' : m s = Ret (x, s') -> (m ≫= f) s = f x s'.
Proof. intros E. unfold mbind, bop_bind. rewrite E. reflexivity. Qed.

Lemma no_display cfg mbd h : plain_machine cfg mbd -> exists h', vbe_init 1024 768 32 dev h = Some (None, h').
Proof.
  intros [V _ _ _]. unfold vbe_init, vbe_read, mbind, io_bind, outw, inw, inw_width. cbn [app].
  match goal with |- context [(?id <? _) || _] => assert (Hv : (id <? VBE_DISPI_ID_MIN) || (VBE_DISPI_ID_MAX <? id) = true) end.
  { apply orb_true_iff. rewrite !Z.ltb_lt. apply V. }
  rewrite Hv. eexists. reflexivity.
Qed.

Lemma free_sem st i : ~ sem_live (ipc_init st) i.
Proof.
  intros [Hi Hid]. cbn in Hi. rewrite length_fmap in Hi. unfold sem_at in Hid. cbn in Hid.
  rewrite lookup_total_map in Hid by exact Hi. cbn in Hid. lia.
Qed.
Lemma free_mq st i : ~ mq_live (ipc_init st) i.
Proof.
  intros [Hi Hid]. cbn in Hi. rewrite length_fmap in Hi. unfold mq_at in Hid. cbn in Hid.
  rewrite lookup_total_map in Hid by exact Hi. cbn in Hid. lia.
Qed.

Lemma ata_init_total : PortIO.total ata_init.
Proof.
  assert (W : PortIO.total ata_wait_drq) by (unfold ata_wait_drq, ata_wait_busy, poll_busy, poll_drq; io_ends).
  assert (Y : PortIO.total ata_delay) by (unfold ata_delay; io_ends).
  assert (R : forall n, PortIO.total (read_words n)) by (induction n; cbn [read_words]; io_ends).
  unfold ata_init. io_ends.
Qed.
Lemma sb16_init_total : PortIO.total sb16_init.
Proof.
  assert (W : forall b, PortIO.total (sb16_write b)) by (intros b; unfold sb16_write, sb16_wait_write, poll_write; io_ends).
  assert (R : PortIO.total sb16_read) by (unfold sb16_read, sb16_wait_read, poll_read; io_ends).
  unfold sb16_init. io_ends.
Qed.
Lemma mouse_init_total : PortIO.total mouse_init.
Proof.
  assert (W : PortIO.total ps2_wait_write) by (unfold ps2_wait_write; apply total_poll; io_ends).
  assert (R : PortIO.total ps2_wait_read) by (unfold ps2_wait_read; apply total_poll; io_ends).
  assert (F : PortIO.total ps2_flush) by (unfold ps2_flush; apply total_poll; io_ends).
  assert (C : forall c, PortIO.total (mouse_send_cmd c)) by (intros c; unfold mouse_send_cmd; io_ends).
  unfold mouse_init. io_ends.
Qed.
Lemma serial_init_total p d : PortIO.total (serial_init p d).
Proof. unfold serial_init. io_ends. Qed.
Lemma pic_remap_total : PortIO.total pic_remap.
Proof. unfold pic_remap. io_ends. Qed.
End boots.

(** ** Booting a plain machine *)

Lemma boot_translate k : space k -> boot_tables k 0x114000 0x113000 true -> cr3 k = 0x114000 ->
  forall va, 0 <= va < SELF_MAP -> translate k va = if decide (va < 0x400000) then Some va else None.
Proof.
  intros Sk Bk Ck va Hva. unfold SELF_MAP in Hva. case_decide as Hl; [apply translate_low; [exact Sk|lia]|].
  rewrite translate_pte by (try apply Sk; lia).
  rewrite (boot_pte k 0x114000 0x113000 true); try assumption; [|unfold low, page; repeat split; discriminate || reflexivity..|mlia].
  rewrite decide_False by mlia. reflexivity.
Qed.

Section start.
Context {D : Type} `{BD : BlockDevice D}.
Context (dev : device) (gdt_addr tss_addr idt_addr : Z) (isr : nat -> Z).

Lemma ports_step {A} (m : io A) mach i f v de idt n de' mb h : PortIO.total m ->
  exists x h', at_ports dev m (mk_boot (D := D) mach i f v de idt n de' mb h) = Ret (x, mk_boot mach i f v de idt n de' mb h').
Proof. intros T. destruct (T dev h) as (x & h' & E). exists x, h'. unfold at_ports. cbn [b_ports]. rewrite E. reflexivity. Qed.

Lemma find_nothing cfg mbd mach i f v de idt n de' mb h : plain_machine dev cfg mbd ->
  exists h', find_display (D := D) dev mbd (mk_boot mach i f v de idt n de' mb h) = Ret (tt, mk_boot mach i f v de idt n de' mb h').
Proof.
  intros P. destruct (no_display dev cfg mbd h P) as (h' & E). exists h'. unfold find_display, mbind, bop_bind, at_ports. cbn [b_ports]. rewrite E.
  cbn [b_mach b_ipc b_fs b_vga b_desc b_idt b_nic b_desk saved_mboot_info]. pose proof (pm_loader _ _ _ P) as L. destruct mbd as [x|]; [rewrite L|]; reflexivity.
Qed.

Lemma network_absent cfg mbd (s : net) : plain_machine dev cfg mbd -> exists h, start_network dev s = Ret (tt, mk_net (card s) (mem_of s) h).
Proof.
  intros P. destruct (init_absent dev cfg s (pm_bus _ _ _ P) (pm_card _ _ _ P)) as (h & E). exists h.
  unfold start_network, mbind, nop_bind. rewrite E. reflexivity.
Qed.

Lemma boot_stages m k : boot_paging (boot_machine m) = Ret (tt, k) ->
  exists k1 k2, boot_frames (boot_machine m) = Ret (tt, k1) /\ paging_init k1 = Ret (tt, k2) /\ more_frames k2 = Ret (tt, k).
Proof.
  unfold boot_paging, mbind, kern_bind. destruct (boot_frames _) as [[[] k1]| |]; try discriminate.
  destruct (paging_init k1) as [[[] k2]| |] eqn:E2; try discriminate. intros E. exists k1, k2. auto.
Qed.

(** C4: [kernel_main] on a machine without frame buffer and network card, whatever its
    RAM and its other devices hold, comes through to the shell: paging is on
    with exactly the low 4 MiB mapped to themselves and 258 frames free, the heap is one free block, which
    enabling paging has left intact, a formatted disk is mounted unchanged and any
    other disk is given an empty file system, task 0 runs alone with no
    semaphore or queue in use, and the text screen is empty. *)
Theorem kernel_main_starts cfg mbd (s : boot D) m : power_on s m -> plain_machine dev cfg mbd ->
  exists s', kernel_main dev gdt_addr tss_addr idt_addr isr mbd s = Ret (tt, s') /\ started s s'.
Proof.
  intros [Hm Ht Hs Hq Hmsg Hfb Hv Hd] P. destruct s as [mach i f v de idt n dk mb h].
  cbn [b_mach b_ipc b_fs b_vga b_desk] in *. subst mach.
  destruct (ports_step (serial_init SERIAL_COM1 1) (boot_machine m) i f v de idt n dk mb h (serial_init_total _ _)) as ([] & h1 & E1).
  set (mb' := if mbd is Some i then Some i else mb).
  destruct (find_nothing cfg mbd (boot_machine m) i f v de idt n dk mb' h1 P) as (h2 & E2).
  destruct (vga_init_shows v Hv) as (v' & Ev & Sv).
  set (m1 := kmalloc_init m). destruct (boot_paging_full m1) as (k & Ek & Sk & Fk & Ck & Bk & Wk).
  destruct (boot_stages m1 k Ek) as (k1 & k2 & K1 & K2 & K3).
  destruct (ports_step ata_init (boot_machine m1) i f v' de idt n dk mb' h2 ata_init_total) as (r3 & h3 & E3).
  destruct (start_files_effect f Hd) as (f' & Ef & Mf & Tf & Gf).
  set (d := gdt_init gdt_addr tss_addr de). destruct (idt_init idt_addr isr (the_cpu d)) as [idt' c] eqn:Ei.
  set (de' := mk_desc_state (gdt d) (the_tss d) c).
  destruct (ports_step pic_remap (boot_machine m1) i f' v' de' idt' n dk mb' h3 pic_remap_total) as ([] & h4 & E4).
  destruct (ports_step sb16_init (boot_machine m1) i f' v' de' idt' n dk mb' h4 sb16_init_total) as (r5 & h5 & E5).
  destruct (network_absent cfg mbd (mk_net n k h5) P) as (h6 & E6).
  set (i' := mk_ipc (sem_table i) (sem_count i) (mq_table i) (mq_count i) (scheduler_init (cr3 k) (task_table (sched_of i)))).
  destruct (ports_step (_ ← outb 0x43 0x36; _ ← outb 0x40 (u8 (1193180 / 100 .& 0xFF)); outb 0x40 (u8 (Z.shiftr (1193180 / 100) 8 .& 0xFF)))
    k (ipc_init i') f' v' de' idt' n dk mb' h6) as ([] & h7 & E7); [io_ends|].
  destruct (ports_step mouse_init k (ipc_init i') f' v' de' idt' n dk mb' h7 mouse_init_total) as ([] & h8 & E8).
  exists (mk_boot k (ipc_init i') f' v' de' idt' n dk mb' h8). split.
  - unfold kernel_main.
    rewrite (boot_step _ _ _ _ _ E1). erewrite boot_step by reflexivity. fold mb'. rewrite (boot_step _ _ _ _ _ E2).
    erewrite boot_step by (unfold in_vga; cbn [b_vga]; rewrite Ev; reflexivity).
    erewrite boot_step by reflexivity. cbn [b_mach b_ipc b_fs b_vga b_desc b_idt b_nic b_desk saved_mboot_info b_ports].
    change (set_ram (kmalloc_init (ram (boot_machine m))) (boot_machine m)) with (boot_machine m1).
    rewrite (boot_step _ _ _ _ _ E3).
    erewrite boot_step by (unfold in_files; cbn [b_fs]; rewrite Ef; reflexivity).
    erewrite boot_step by (unfold start_tables; cbn [b_desc]; fold d; rewrite Ei; reflexivity).
    cbn [b_mach b_ipc b_fs b_vga b_desc b_idt b_nic b_desk saved_mboot_info b_ports]. fold de'.
    rewrite (boot_step _ _ _ _ _ E4), (boot_step _ _ _ _ _ E5).
    erewrite boot_step by (unfold in_kernel; cbn [b_mach]; rewrite K1; reflexivity).
    erewrite boot_step by (unfold in_kernel; cbn [b_mach]; rewrite K2; reflexivity).
    unfold kernel_after_paging. erewrite boot_step by (unfold in_kernel; cbn [b_mach]; rewrite K3; reflexivity).
    cbn [b_mach b_ipc b_fs b_vga b_desc b_idt b_nic b_desk saved_mboot_info b_ports].
    erewrite boot_step by (unfold in_net; cbn [b_nic b_mach b_ports]; rewrite E6; reflexivity).
    erewrite boot_step by (unfold start_display; erewrite boot_step by reflexivity; cbn [b_desk]; rewrite Hfb; reflexivity).
    erewrite boot_step by reflexivity. cbn [b_mach b_ipc b_fs b_vga b_desc b_idt b_nic b_desk saved_mboot_info b_ports card mem_of ports_of]. fold i'.
    rewrite (boot_step _ _ _ _ _ (E7 : start_timer dev _ = _)). exact E8.
  - destruct (scheduler_init_ok (cr3 k) (task_table (sched_of i)) Ht) as [So Sr].
    split; cbn [b_mach b_ipc b_fs b_vga b_desc b_idt b_nic b_desk saved_mboot_info b_ports].
    + split; [exact Sk|exact Fk].
    + apply boot_translate; assumption.
    + apply (heap_kept m1); [exact Wk|apply heap_rep_init].
    + split; [exact Mf|]. split; [exact Tf|]. destruct (magic (disk_super f) =? SFS_MAGIC); [exact Gf|].
      destruct Gf as (B & HB & H). exists (formatted B). split; [exact H|]. split; [apply formatted_ok, HB|].
      split; [unfold ROOT_INO; rewrite formatted_root; apply formatted_dir, HB|intros x; apply formatted_used].
    + split; [|split; [apply free_sem|split; [apply free_mq|exact Sr]]].
      apply ipc_init_ok; [exact So|apply Hs|apply Hq|apply Hs|apply Hq|exact Hmsg].
    + exact Sv.
Qed.
End start.

(** A demo window that does not fit is left out. *)
Lemma demo_window_skipped others n s l x y cw ch title lines p w : wm_ok others n s l -> 1 <= cw -> 1 <= ch -> cw * ch * 4 <= 4294967200 ->
  n < 4294967294 -> objects s !! p = Some w -> HEAP_SIZE < cw * ch * 4 + pixels_of w * 4 ->
  exists s', demo_window x y cw ch title lines s = Ret (0, s') /\ wm_ok others n s' l /\ objects s' = objects s /\ g_focused s' = g_focused s.
Proof.
  intros Ok Hcw Hch Hsz Hn Hp Hbig. destruct (create_too_big others n s l x y cw ch title p w Ok Hcw Hch Hsz Hn Hp Hbig) as (s' & R & Ok' & O & _ & F).
  exists s'. split; [|auto]. unfold demo_window. rewrite (wm_bind_ret _ _ _ _ _ R). reflexivity.
Qed.

(** C39: On a fresh heap only the first of the three demo windows is opened, whatever the
    screen: its picture takes 240000 of the heap's 262144 bytes, and the two
    others get the null pointer.  It stays the only window, with the focus. *)
Theorem demo_windows_one f m :
  exists p s' w, demo_windows f (wm_init (kmalloc_init m)) = Ret ((p, 0, 0), s') /\ p <> 0 /\ wm_ok [] 2 s' [p] /\ g_focused s' = p /\
    objects s' !! p = Some w /\ (w_x w, w_y w, content_w w, content_h w, w_title w) = (80, 60, 300, 200, chars "System Info").
Proof.
  destruct (first_window m 80 60 300 200 (chars "System Info")) as (p & s1 & z & k & buffer & R1 & Hp & Ok1 & F1 & O1); [unfold HEAP_SIZE; lia..|].
  destruct (print_lines_ok [] 2 [p] p (system_info f s1) (system_info_fits f s1) s1 Ok1 (ex_intro _ _ O1)) as (s2 & R2 & Ok2 & F2 & O2).
  destruct (O2 _ _ O1) as (d & Hd). unfold refocus in Hd. rewrite Z.eqb_refl in Hd.
  destruct (demo_window_skipped [] 2 s2 [p] 450 160 250 150 (chars "Hello Window") hello_window p _ Ok2 ltac:(lia) ltac:(lia) ltac:(lia) ltac:(lia) Hd)
    as (s3 & R3 & Ok3 & O3 & F3); [unfold HEAP_SIZE, pixels_of; cbn; lia|].
  rewrite <- O3 in Hd.
  destruct (demo_window_skipped [] 2 s3 [p] 200 280 320 120 (chars "Mouse Help") mouse_help p _ Ok3 ltac:(lia) ltac:(lia) ltac:(lia) ltac:(lia) Hd)
    as (s4 & R4 & Ok4 & O4 & F4); [unfold HEAP_SIZE, pixels_of; cbn; lia|].
  rewrite <- O4 in Hd. exists p, s4. eexists. split; [|split; [exact Hp|split; [exact Ok4|split; [congruence|split; [exact Hd|reflexivity]]]]].
  unfold demo_windows. assert (R : demo_window 80 60 300 200 (chars "System Info") (system_info f) (wm_init (kmalloc_init m)) = Ret (p, s2)).
  { unfold demo_window. rewrite (wm_bind_ret _ _ _ _ _ R1), (proj2 (Z.eqb_neq p 0) Hp).
    assert (E : getg id s1 = Ret (s1, s1)) by reflexivity. rewrite (wm_bind_ret _ _ _ _ _ E), (wm_bind_ret _ _ _ _ _ R2). reflexivity. }
  rewrite (wm_bind_ret _ _ _ _ _ R), (wm_bind_ret _ _ _ _ _ R3), (wm_bind_ret _ _ _ _ _ R4). reflexivity.
Qed.

Lemma boot_pool_top : boot_pool = take 250 boot_pool ++ [0x3F8000; 0x3F9000; 0x3FA000; 0x3FB000; 0x3FC000; 0x3FD000; 0x3FE000; 0x3FF000].
Proof. vm_compute. reflexivity. Qed.

(** C38: On the pool that boot leaves, the network card's buffers are allocated downwards.
    The card stores its ring from the first frame upwards; the driver reads the
    second page of the ring in the frame below it.  What the card stores there
    lands in the fourth transmit buffer instead. *)
Theorem rx_ring_scattered dev m base irq vector h :
  exists k s', boot_paging (boot_machine m) = Ret (tt, k) /\
    (tx ← init_tx_buffers dev; rx ← init_rx_buffer dev; mret (tx, rx)) (mk_net (set_io base irq vector nic_start) k h) = Ret ((0, 0), s') /\
    tx_phys (card s') = [0x3FF000; 0x3FD000; 0x3FC000; 0x3FB000] /\ rx_phys (card s') = 0x3FA000 /\
    forall j, 0 <= j < 4096 ->
      translate (mem_of s') (rx_buf (card s') + 0x1000 + j) = Some (0x3F9000 + j) /\
      rx_phys (card s') + 0x1000 + j = tx_phys (card s') !!! 3%nat + j.
Proof.
  destruct (boot_paging_effect m) as (k & E & S & F & C & [B _]). rewrite boot_pool_top in F. set (fs := take 250 boot_pool) in F.
  set (c := set_io base irq vector nic_start). unfold init_tx_buffers.
  assert (T : new_table_of k (tx_va 0) 0x3FE000 = [0x3FE000]).
  { unfold new_table_of, pde. rewrite C, B by (split; [discriminate|reflexivity]). reflexivity. }
  assert (P : forall k i, 0 <= i < 4 -> present k 0x3C0 -> new_table_of k (tx_va i) 0 = []).
  { intros k0 i Hi Pk. apply present_new_table. assert (Ei : i = 0 \/ i = 1 \/ i = 2 \/ i = 3) by lia. destruct Ei as [->|[->|[->| ->]]]; exact Pk. }
  destruct (tx_step dev 3 0 k [] (fs ++ [0x3F8000; 0x3F9000; 0x3FA000; 0x3FB000; 0x3FC000; 0x3FD000]) 0x3FE000 0x3FF000 S ltac:(constructor) ltac:(lia)
    ltac:(constructor) ltac:(discriminate)) as (k1 & E1 & S1 & H1 & F1 & P1); [rewrite T, F, <- app_assoc; reflexivity|].
  destruct (tx_step dev 2 1 k1 _ (fs ++ [0x3F8000; 0x3F9000; 0x3FA000; 0x3FB000; 0x3FC000]) 0 0x3FD000 S1 H1 ltac:(lia)
    ltac:(repeat constructor; discriminate) ltac:(discriminate)) as (k2 & E2 & S2 & H2 & F2 & P2); [rewrite P by (lia || exact P1); rewrite F1, <- app_assoc; reflexivity|].
  destruct (tx_step dev 1 2 k2 _ (fs ++ [0x3F8000; 0x3F9000; 0x3FA000; 0x3FB000]) 0 0x3FC000 S2 H2 ltac:(lia)
    ltac:(repeat constructor; discriminate) ltac:(discriminate)) as (k3 & E3 & S3 & H3 & F3 & P3); [rewrite P by (lia || exact P2); rewrite F2, <- app_assoc; reflexivity|].
  destruct (tx_step dev 0 3 k3 _ (fs ++ [0x3F8000; 0x3F9000; 0x3FA000]) 0 0x3FB000 S3 H3 ltac:(lia)
    ltac:(repeat constructor; discriminate) ltac:(discriminate)) as (k4 & E4 & S4 & H4 & F4 & P4); [rewrite P by (lia || exact P3); rewrite F3, <- app_assoc; reflexivity|].
  destruct (rx_step dev k4 _ fs 0x3FA000 0x3F9000 0x3F8000 S4 H4 P4) as (k5 & E5 & S5 & H5); [|try discriminate..|exact F4|].
  { repeat constructor. }
  exists k. eexists. split; [exact E|]. split.
  { unfold mbind at 1, nop_bind at 1. rewrite E1, E2, E3, E4. cbn [init_tx_loop]. unfold mret at 1, nop_ret at 1.
    unfold mbind at 1, nop_bind at 1. rewrite E5. reflexivity. }
  split; [reflexivity|]. split; [reflexivity|]. intros j Hj. split; [|reflexivity].
  change (translate k5 (ring_va + 0x1000 + j) = Some (0x3F9000 + j)). apply card_translate; [exact S5| |exact Hj].
  unfold showing in H5. rewrite Forall_forall in H5. exact (proj1 (H5 (ring_va + 0x1000, 0x3F9000) ltac:(right; left))).
Qed.

(** ** Witnesses *)

(** A machine at power-on with a blank disk, and one where nothing answers. *)
Definition demo_sched : sched := mk_sched blank_table 0 0 None queue_empty 0 0 false.
Definition demo_boot : boot image :=
  mk_boot (boot_machine mem0) (mk_ipc (replicate MAX_SEMS sem_zero) 0 (replicate MAX_MSGQUEUES mq_zero) 0 demo_sched) demo_disk blank_vga
    (mk_desc_state (replicate 6 gdt_entry_zero) blank_tss boot_cpu) [] nic_start
    (mk_desk (wm_init mem0) (mk_screen (mk_fb 0 0 0 0 0 0) (fun _ => 0) 0 0) (mk_cursor 0 0 0 0 0 (fun _ _ => 0)) mouse_start 0) None [].
Definition silent : device := fun _ _ _ => 0xFFFFFFFF.

Lemma kernel_main_starts_witness : exists s', kernel_main (BD := @ramdisk image image_disk) silent 0x106000 0x106040 0x106100 (fun _ => 0) None demo_boot = Ret (tt, s') /\
  mounted (b_fs s') = 1 /\ space (b_mach s').
Proof.
  destruct (kernel_main_starts (BD := @ramdisk image image_disk) silent 0x106000 0x106040 0x106100 (fun _ => 0) (fun _ => 0xFFFFFFFF) None demo_boot mem0) as (s' & E & St).
  - split; try reflexivity; try (split; reflexivity); [apply Forall_replicate; split; [reflexivity|apply Forall_replicate; reflexivity]].
  - split; [right; reflexivity|exact I|split; [intros a; unfold is_u32; lia|reflexivity]|vm_compute; repeat constructor].
  - exists s'. split; [exact E|]. split; [apply (sd_files _ _ St)|apply (sd_space _ _ St)].
Defined.

Lemma jump_to_ring3_opens_witness : exists k k', boot_paging (boot_machine mem0) = Ret (tt, k) /\
  jump_to_ring3 0x110DA0 0x104000 k = Ret ([0x104000; 0x1B; 0x200; 0x400000; 0x23], k') /\ translate k' 0x104567 = Some 0x104567.
Proof.
  destruct booted as (k & E & S & F & _).
  destruct (jump_to_ring3_opens k (take 257 boot_pool) 0x3FF000 0x110DA0 0x104000 S) as (k' & E' & S' & _ & T & _);
    [rewrite F; vm_compute; reflexivity|lia|].
  exists k, k'. split; [exact E|]. split; [exact E'|]. rewrite T by (unfold SELF_MAP; lia). apply translate_low; [exact S|lia].
Defined.
