(* ===== verification/LineEdit.v ===== *)
(** * The command line (user/shell.c: parse_command, the history and the line editor)

    The shell's character arrays are lists of their fixed length; an access outside
    an array is [Oob], so a string copy that finds no NUL, or has no room, is
    [Oob] too.  [edit_key] is one pass of the loop in [shell_main] for a key that
    does not end the line: the characters it prints and the new state; [enter] and
    [parse_command] are the rest of it, up to the command itself.

    [shell_buffer] is the specification: a text with a cursor, and the earlier
    lines.  [parse_command] is compared with [words]. *)

From S2P Require Import Prelude CString InputDev Text Vga.
Local Open Scope Z_scope.
Local Open Scope sros_scope.

Definition LINE_SIZE : nat := 256.
Definition HISTORY_MAX : Z := 16.
Definition MAX_ARGS : Z := 16.
Definition SPACE : Z := 32.

(** ** Character arrays *)

Definition get_char (a : list Z) (i : Z) : exec Z :=
  if i <? 0 then Oob else match a !! Z.to_nat i with Some c => Ret c | None => Oob end.
Definition put_char (a : list Z) (i c : Z) : exec (list Z) :=
  if (0 <=? i) && (i <? Z.of_nat (length a)) then Ret (<[Z.to_nat i := c]> a) else Oob.

(** [strcpy], [strlen] and [strcmp(a, b) == 0] on arrays. *)
Fixpoint str_copy (dest src : list Z) : exec (list Z) :=
  match src, dest with
  | c :: src, _ :: dest => if c =? 0 then Ret (0 :: dest) else rest ← str_copy dest src; Ret (c :: rest)
  | _, _ => Oob
  end.
Fixpoint str_len (a : list Z) : exec Z :=
  match a with
  | [] => Oob
  | c :: a => if c =? 0 then Ret 0 else n ← str_len a; Ret (n + 1)
  end.
Fixpoint str_eq (a b : list Z) : exec bool :=
  match a, b with
  | x :: a, y :: b => if c_true x && (x =? y) then str_eq a b else Ret (x =? y)
  | _, _ => Oob
  end.

(** ** parse_command *)

(** [while ( *p == ' ') p++;] and [while ( *p && *p != ' ') p++;]; an index past the
    array ends them. *)
Fixpoint skip_blanks (fuel : nat) (line : list Z) (p : Z) : exec Z :=
  match fuel with
  | O => Oob
  | S fuel => c ← get_char line p; if c =? SPACE then skip_blanks fuel line (p + 1) else Ret p
  end.
Fixpoint skip_word (fuel : nat) (line : list Z) (p : Z) : exec Z :=
  match fuel with
  | O => Oob
  | S fuel => c ← get_char line p; if (c =? 0) || (c =? SPACE) then Ret p else skip_word fuel line (p + 1)
  end.

Fixpoint parse_loop (fuel : nat) (line : list Z) (p max_args : Z) (argv : list Z) : exec (list Z * list Z) :=
  match fuel with
  | O => Oob
  | S fuel =>
      c ← get_char line p;
      if c =? 0 then Ret (argv, line)
      else
        p ← skip_blanks (S (length line)) line p;
        c ← get_char line p;
        if c =? 0 then Ret (argv, line)
        else if max_args <=? Z.of_nat (length argv) then Ret (argv, line)
        else
          let argv := argv ++ [p] in
          q ← skip_word (S (length line)) line p;
          c ← get_char line q;
          if c =? 0 then parse_loop fuel line q max_args argv
          else line ← put_char line q 0; parse_loop fuel line (q + 1) max_args argv
  end.

(** The indices of the arguments in the array, and the array with NULs after them. *)
Definition parse_command (line : list Z) (max_args : Z) : exec (list Z * list Z) :=
  parse_loop (S (length line)) line 0 max_args [].

(** The string that starts at an index. *)
Definition arg_at (line : list Z) (p : Z) : list Z := cstr (drop (Z.to_nat p) line).

(** ** The state of the shell *)

Record editor : Type := mk_editor {
  line : list Z; pos : Z; line_len : Z; saved_line : list Z; saved_pos : Z; history_index : Z;
  history : list (list Z); history_count : Z
}.

Definition history_get (h : list (list Z)) (i : Z) : exec (list Z) :=
  if i <? 0 then Oob else match h !! Z.to_nat i with Some a => Ret a | None => Oob end.
(** [strcpy(history[i], cmd)] *)
Definition history_copy (h : list (list Z)) (i : Z) (cmd : list Z) : exec (list (list Z)) :=
  a ← history_get h i;
  a ← str_copy a cmd;
  Ret (<[Z.to_nat i := a]> h).

(** [for (i = from; n times; i++) strcpy(history[i - 1], history[i]);] *)
Fixpoint history_shift (n : nat) (from : Z) (h : list (list Z)) : exec (list (list Z)) :=
  match n with
  | O => Ret h
  | S n =>
      a ← history_get h from;
      h ← history_copy h (from - 1) a;
      history_shift n (from + 1) h
  end.

(** The history and its count. *)
Definition history_add (cmd : list Z) (h : list (list Z)) (count : Z) : exec (list (list Z) * Z) :=
  n ← str_len cmd;
  if n =? 0 then Ret (h, count)
  else
    same ← (if 0 <? count then a ← history_get h (count - 1); str_eq a cmd else Ret false);
    if (same : bool) then Ret (h, count)
    else
      '(h, count) ← (if HISTORY_MAX <=? count
                     then h ← history_shift (Z.to_nat (HISTORY_MAX - 1)) 1 h; Ret (h, HISTORY_MAX - 1)
                     else Ret (h, count));
      h ← history_copy h count cmd;
      Ret (h, count + 1).

(** ** Keys *)

(** [for (i = from; n times; i++) line[i] = line[i + 1];] *)
Fixpoint shift_left (n : nat) (from : Z) (a : list Z) : exec (list Z) :=
  match n with
  | O => Ret a
  | S n => c ← get_char a (from + 1); a ← put_char a from c; shift_left n (from + 1) a
  end.

(** The characters from an index on. *)
Fixpoint chars_from (n : nat) (from : Z) (a : list Z) : exec (list Z) :=
  match n with
  | O => Ret []
  | S n => c ← get_char a from; cs ← chars_from n (from + 1) a; Ret (c :: cs)
  end.

Definition clear_input (len : Z) : list Z := replicate (Z.to_nat len) BACKSPACE.

Definition key_backspace (e : editor) : exec (list Z * editor) :=
  if 0 <? pos e then
    let p := pos e - 1 in
    let len := line_len e - 1 in
    a ← shift_left (Z.to_nat (len - p)) p (line e);
    a ← put_char a len 0;
    cs ← chars_from (Z.to_nat (len - p)) p a;
    Ret ([BACKSPACE] ++ cs ++ [SPACE] ++ replicate (Z.to_nat (len + 1 - p)) CURSOR_LEFT,
         mk_editor a p len (saved_line e) (saved_pos e) (history_index e) (history e) (history_count e))
  else Ret ([], e).

(** The line with the history entry [i], newest first. *)
Definition recall (e : editor) (i : Z) (saved : list Z) (saved_p : Z) : exec (list Z * editor) :=
  a ← history_get (history e) (history_count e - 1 - i);
  a ← str_copy (line e) a;
  n ← str_len a;
  Ret (clear_input (pos e) ++ cstr a, mk_editor a n n saved saved_p i (history e) (history_count e)).

Definition key_up (e : editor) : exec (list Z * editor) :=
  if history_count e =? 0 then Ret ([], e)
  else
    '(saved, saved_p) ← (if history_index e =? -1 then s ← str_copy (saved_line e) (line e); Ret (s, pos e)
                         else Ret (saved_line e, saved_pos e));
    if history_index e <? history_count e - 1 then recall e (history_index e + 1) saved saved_p
    else Ret ([], mk_editor (line e) (pos e) (line_len e) saved saved_p (history_index e) (history e) (history_count e)).

Definition key_down (e : editor) : exec (list Z * editor) :=
  if history_index e =? -1 then Ret ([], e)
  else if 0 <? history_index e then recall e (history_index e - 1) (saved_line e) (saved_pos e)
  else
    a ← str_copy (line e) (saved_line e);
    Ret (clear_input (pos e) ++ cstr a,
         mk_editor a (saved_pos e) (saved_pos e) (saved_line e) (saved_pos e) (-1) (history e) (history_count e)).

Definition at_pos (p : Z) (e : editor) : editor :=
  mk_editor (line e) p (line_len e) (saved_line e) (saved_pos e) (history_index e) (history e) (history_count e).

Definition key_char (c : Z) (e : editor) : exec (list Z * editor) :=
  if pos e <? 255 then
    a ← put_char (line e) (pos e) (i8 c);
    let p := pos e + 1 in
    Ret ([i8 c], mk_editor a p (if line_len e <? p then p else line_len e) (saved_line e) (saved_pos e) (history_index e) (history e) (history_count e))
  else Ret ([], e).

Definition edit_key (c : Z) (e : editor) : exec (list Z * editor) :=
  if c =? BACKSPACE then key_backspace e
  else if c =? KEY_UP then key_up e
  else if c =? KEY_DOWN then key_down e
  else if c =? KEY_LEFT then
    Ret (if 0 <? pos e then ([CURSOR_LEFT], at_pos (pos e - 1) e) else ([], e))
  else if c =? KEY_RIGHT then
    Ret (if pos e <? line_len e then ([CURSOR_RIGHT], at_pos (pos e + 1) e) else ([], e))
  else key_char c e.

(** The end of a line: the line is closed and remembered. *)
Definition enter (e : editor) : exec editor :=
  a ← put_char (line e) (pos e) 0;
  '(h, count) ← history_add a (history e) (history_count e);
  Ret (mk_editor a (pos e) (line_len e) (saved_line e) (saved_pos e) (history_index e) h count).

(** After the command, which leaves the array as [a]. *)
Definition fresh_line (a : list Z) (e : editor) : editor :=
  mk_editor a 0 0 (saved_line e) (saved_pos e) (-1) (history e) (history_count e).

(** ** Runs of the editor *)

(** One key, and the command line it ends; [execute] only parses the array. *)
Definition press (c : Z) (e : editor) : exec (list (list Z) * editor) :=
  if c =? NL then
    e ← enter e;
    '(_, a) ← parse_command (line e) MAX_ARGS;
    Ret ([cstr (line e)], fresh_line a e)
  else '(_, e) ← edit_key c e; Ret ([], e).

Fixpoint presses (cs : list Z) (e : editor) : exec (list (list Z) * editor) :=
  match cs with
  | [] => Ret ([], e)
  | c :: cs =>
      '(l, e) ← press c e;
      '(ls, e) ← presses cs e;
      Ret (l ++ ls, e)
  end.

(** ** Arrays and strings *)

Lemma cstr_app s r : Forall (fun c => c <> 0) s -> cstr (s ++ 0 :: r) = s.
Proof. induction 1 as [|c s Hc _ IH]; [reflexivity|]. cbn [app cstr]. rewrite (proj2 (Z.eqb_neq c 0) Hc), IH. reflexivity. Qed.

Lemma cstr_nonzero a : Forall (fun c => c <> 0) (cstr a).
Proof. induction a as [|c a IH]; cbn; [constructor|]. destruct (Z.eqb_spec c 0); constructor; assumption. Qed.

(** An array with a NUL is its string, the NUL and a rest. *)
Lemma cstr_split a : 0 ∈ a -> exists r, a = cstr a ++ 0 :: r.
Proof.
  induction a as [|c a IH]; intros H; [inversion H|]. cbn [cstr]. destruct (Z.eqb_spec c 0) as [->|Hc]; [exists a; reflexivity|].
  apply elem_of_cons in H as [H|H]; [congruence|]. destruct (IH H) as [r E]. exists r. cbn [app]. rewrite <- E. reflexivity.
Qed.

Lemma length_cstr_lt a : 0 ∈ a -> (length (cstr a) < length a)%nat.
Proof. intros H. destruct (cstr_split a H) as [r E]. rewrite E at 2. rewrite length_app. cbn. lia. Qed.

Lemma str_copy_spec src : forall dest, 0 ∈ src -> (length (cstr src) < length dest)%nat ->
  str_copy dest src = Ret (cstr src ++ 0 :: drop (S (length (cstr src))) dest).
Proof.
  induction src as [|c src IH]; intros [|x dest] H Hl; try (inversion H; fail); cbn [cstr length str_copy] in *; try lia.
  destruct (Z.eqb_spec c 0) as [->|Hc]; [reflexivity|]. cbn [length] in Hl. apply elem_of_cons in H as [H|H]; [congruence|].
  rewrite (IH dest) by (assumption || lia). reflexivity.
Qed.

Lemma str_len_spec a : 0 ∈ a -> str_len a = Ret (Z.of_nat (length (cstr a))).
Proof.
  induction a as [|c a IH]; intros H; [inversion H|]. cbn [str_len cstr]. destruct (Z.eqb_spec c 0) as [->|Hc]; [reflexivity|].
  apply elem_of_cons in H as [H|H]; [congruence|]. rewrite IH by exact H. cbn [mbind exec_bind length]. f_equal. lia.
Qed.

Lemma str_eq_spec a : forall b, 0 ∈ a -> 0 ∈ b -> str_eq a b = Ret (bool_decide (cstr a = cstr b)).
Proof.
  induction a as [|x a IH]; intros [|y b] Ha Hb; try (inversion Ha; fail); try (inversion Hb; fail). cbn [str_eq cstr]. unfold c_true.
  destruct (Z.eqb_spec x 0) as [->|Hx]; cbn [negb andb].
  - destruct (Z.eqb_spec 0 y) as [<-|Hy]; [reflexivity|]. rewrite (proj2 (Z.eqb_neq y 0)) by congruence. reflexivity.
  - apply elem_of_cons in Ha as [Ha|Ha]; [congruence|]. destruct (Z.eqb_spec x y) as [<-|Hy].
    + rewrite (proj2 (Z.eqb_neq x 0) Hx). apply elem_of_cons in Hb as [Hb|Hb]; [congruence|]. rewrite IH by assumption.
      f_equal. apply bool_decide_ext. split; [intros ->; reflexivity|]. intros [= H]. exact H.
    + destruct (Z.eqb_spec y 0); f_equal; symmetry; apply bool_decide_eq_false; congruence.
Qed.

Lemma get_char_some a i c : a !! i = Some c -> get_char a (Z.of_nat i) = Ret c.
Proof. intros H. unfold get_char. rewrite (proj2 (Z.ltb_ge _ _)) by lia. rewrite Nat2Z.id, H. reflexivity. Qed.

Lemma put_char_ok a i c : (i < length a)%nat -> put_char a (Z.of_nat i) c = Ret (<[i := c]> a).
Proof.
  intros H. unfold put_char. rewrite (proj2 (Z.leb_le _ _)), (proj2 (Z.ltb_lt _ _)) by lia. rewrite Nat2Z.id. reflexivity.
Qed.

(** ** Words *)

Fixpoint split_words (w : list Z) (s : list Z) : list (list Z) :=
  match s with
  | [] => if bool_decide (w = []) then [] else [w]
  | c :: s => if c =? SPACE then (if bool_decide (w = []) then split_words [] s else w :: split_words [] s)
              else split_words (w ++ [c]) s
  end.

(** The maximal runs of characters other than the space. *)
Definition words (s : list Z) : list (list Z) := split_words [] s.

Definition in_word (c : Z) : Prop := c <> 0 /\ c <> SPACE.

Lemma split_words_app w v s : Forall in_word v -> split_words w (v ++ s) = split_words (w ++ v) s.
Proof.
  intros H. revert w. induction H as [|c v [_ Hc] _ IH]; intros w; [rewrite app_nil_r; reflexivity|].
  cbn [app split_words]. rewrite (proj2 (Z.eqb_neq c SPACE) Hc), IH, <- app_assoc. reflexivity.
Qed.

(** A run of blanks, and a word, at the front of an array. *)
Lemma skip_blanks_spec fuel a r : forall k pre, a = pre ++ replicate k SPACE ++ r -> (k < fuel)%nat ->
  match r with c :: _ => c <> SPACE | [] => False end ->
  skip_blanks fuel a (Z.of_nat (length pre)) = Ret (Z.of_nat (length pre + k)).
Proof.
  induction fuel as [|fuel IH]; intros [|k] pre E Hf Hr; try lia; cbn [skip_blanks].
  - destruct r as [|c r]; [contradiction|]. rewrite (get_char_some _ _ c) by (rewrite E; apply list_lookup_middle; reflexivity).
    cbn [mbind exec_bind]. rewrite (proj2 (Z.eqb_neq c SPACE) Hr). do 2 f_equal. lia.
  - rewrite (get_char_some _ _ SPACE) by (rewrite E; apply list_lookup_middle; reflexivity). cbn [mbind exec_bind].
    rewrite Z.eqb_refl. replace (Z.of_nat (length pre) + 1) with (Z.of_nat (length (pre ++ [SPACE]))) by (rewrite length_app; cbn; lia).
    rewrite (IH k (pre ++ [SPACE])); [|rewrite E, <- app_assoc; reflexivity|lia|exact Hr]. rewrite length_app. cbn [length]. do 2 f_equal. lia.
Qed.

Lemma skip_word_spec fuel a r : forall w pre, a = pre ++ w ++ r -> (length w < fuel)%nat -> Forall in_word w ->
  match r with c :: _ => c = 0 \/ c = SPACE | [] => False end ->
  skip_word fuel a (Z.of_nat (length pre)) = Ret (Z.of_nat (length pre + length w)).
Proof.
  induction fuel as [|fuel IH]; intros [|x w] pre E Hf Hw Hr; cbn [length] in Hf; try lia; cbn [skip_word].
  - destruct r as [|c r]; [contradiction|]. rewrite (get_char_some _ _ c) by (rewrite E; apply list_lookup_middle; reflexivity).
    cbn [mbind exec_bind]. replace ((c =? 0) || (c =? SPACE)) with true by (symmetry; apply orb_true_iff; rewrite !Z.eqb_eq; exact Hr).
    do 2 f_equal. cbn. lia.
  - apply Forall_cons in Hw as [[H1 H2] Hw]. rewrite (get_char_some _ _ x) by (rewrite E; apply list_lookup_middle; reflexivity).
    cbn [mbind exec_bind]. rewrite (proj2 (Z.eqb_neq x 0) H1), (proj2 (Z.eqb_neq x SPACE) H2). cbn [orb].
    replace (Z.of_nat (length pre) + 1) with (Z.of_nat (length (pre ++ [x]))) by (rewrite length_app; cbn; lia).
    rewrite (IH w (pre ++ [x])); [|rewrite E, <- app_assoc; reflexivity|lia|exact Hw|exact Hr]. rewrite length_app. cbn [length]. do 2 f_equal. lia.
Qed.

(** A string with a NUL starts with blanks and a word. *)
Lemma blanks_then a : 0 ∈ a -> exists k r, a = replicate k SPACE ++ r /\ 0 ∈ r /\ match r with c :: _ => c <> SPACE | [] => False end.
Proof.
  induction a as [|c a IH]; intros H; [inversion H|]. destruct (decide (c = SPACE)) as [->|Hc].
  - apply elem_of_cons in H as [H|H]; [discriminate H|]. destruct (IH H) as (k & r & -> & Hr). exists (S k), r. split; [reflexivity|exact Hr].
  - exists 0%nat, (c :: a). split; [reflexivity|]. split; [exact H|exact Hc].
Qed.

Lemma word_then a : 0 ∈ a -> exists w r, a = w ++ r /\ Forall in_word w /\ 0 ∈ r /\ match r with c :: _ => c = 0 \/ c = SPACE | [] => False end.
Proof.
  induction a as [|c a IH]; intros H; [inversion H|]. destruct (decide (c = 0 \/ c = SPACE)) as [Hc|Hc].
  - exists [], (c :: a). split; [reflexivity|]. split; [constructor|]. split; [exact H|exact Hc].
  - apply elem_of_cons in H as [H|H]; [subst c; exfalso; tauto|]. destruct (IH H) as (w & r & -> & Hw & Hr). exists (c :: w), r.
    split; [reflexivity|]. split; [constructor; [split; tauto|exact Hw]|exact Hr].
Qed.

Lemma cstr_prefix v r : Forall (fun c => c <> 0) v -> cstr (v ++ r) = v ++ cstr r.
Proof. induction 1 as [|c v Hc _ IH]; [reflexivity|]. cbn [app cstr]. rewrite (proj2 (Z.eqb_neq c 0) Hc), IH. reflexivity. Qed.

Lemma in_word_nonzero w : Forall in_word w -> Forall (fun c => c <> 0) w.
Proof. intros F. eapply Forall_impl; [exact F|]. intros c [H _]. exact H. Qed.

Lemma words_blanks k r : words (cstr (replicate k SPACE ++ r)) = words (cstr r).
Proof.
  rewrite cstr_prefix by (apply Forall_replicate; discriminate). induction k as [|k IH]; [reflexivity|].
  unfold words in *. cbn [replicate app split_words]. rewrite Z.eqb_refl, bool_decide_eq_true_2 by reflexivity. exact IH.
Qed.

Lemma words_word w c r : Forall in_word w -> w <> [] -> c = 0 \/ c = SPACE ->
  words (cstr (w ++ c :: r)) = w :: (if c =? 0 then [] else words (cstr r)).
Proof.
  intros Hw Hne Hc. rewrite cstr_prefix by (apply in_word_nonzero, Hw). unfold words. rewrite split_words_app by exact Hw. cbn [app cstr].
  destruct Hc as [->| ->]; [cbn [Z.eqb]|change (SPACE =? 0) with false; cbv iota]; cbn [split_words]; rewrite ?Z.eqb_refl, bool_decide_eq_false_2 by exact Hne; reflexivity.
Qed.

Lemma arg_at_app pre s : arg_at (pre ++ s) (Z.of_nat (length pre)) = cstr s.
Proof. unfold arg_at. rewrite Nat2Z.id, drop_app_length. reflexivity. Qed.

(** The rest of an array, from an index on. *)
Lemma parse_loop_spec max fuel : forall pre s argv, 0 ∈ s -> (length s < fuel)%nat ->
  exists new s', parse_loop fuel (pre ++ s) (Z.of_nat (length pre)) max argv = Ret (argv ++ new, pre ++ s') /\
    length s' = length s /\ (forall i, s !! i = Some 0 -> s' !! i = Some 0) /\
    arg_at (pre ++ s') <$> new = take (Z.to_nat (max - Z.of_nat (length argv))) (words (cstr s)).
Proof.
  induction fuel as [|fuel IH]; intros pre s argv Hs Hf; [lia|]. cbn [parse_loop].
  assert (Stop : words (cstr s) = [] \/ max <= Z.of_nat (length argv) ->
    exists new s', Ret (argv, pre ++ s) = Ret (argv ++ new, pre ++ s') /\
    length s' = length s /\ (forall i, s !! i = Some 0 -> s' !! i = Some 0) /\
    arg_at (pre ++ s') <$> new = take (Z.to_nat (max - Z.of_nat (length argv))) (words (cstr s))).
  { intros H. exists [], s. rewrite app_nil_r. split; [reflexivity|]. split; [reflexivity|]. split; [auto|].
    destruct H as [->|H]; [rewrite take_nil; reflexivity|]. replace (Z.to_nat _) with 0%nat by lia. reflexivity. }
  destruct s as [|c0 s0] eqn:Es; [inversion Hs|]. rewrite <- Es in *.
  rewrite (get_char_some _ _ c0) by (rewrite Es; apply list_lookup_middle; reflexivity). cbn [mbind exec_bind].
  destruct (Z.eqb_spec c0 0) as [->|Hc0]; [apply Stop; left; rewrite Es; reflexivity|].
  destruct (blanks_then s Hs) as (k & r & Er & Hr & Hd). rewrite Er in *. clear Es c0 s0 Hc0.
  assert (Hlk : (k < S (length (pre ++ replicate k SPACE ++ r)))%nat) by (rewrite !length_app, length_replicate; lia).
  rewrite (skip_blanks_spec _ _ r k pre eq_refl Hlk Hd). cbn [mbind exec_bind]. clear Hlk.
  set (pre1 := pre ++ replicate k SPACE). assert (L1 : (length pre + k)%nat = length pre1) by (unfold pre1; rewrite length_app, length_replicate; reflexivity).
  rewrite L1, app_assoc. fold pre1. rewrite words_blanks in Stop |- *.
  destruct r as [|c r]; [contradiction|]. rewrite (get_char_some _ _ c) by (apply list_lookup_middle; reflexivity). cbn [mbind exec_bind].
  destruct (Z.eqb_spec c 0) as [->|Hc]; [unfold pre1; rewrite <- app_assoc; apply Stop; left; reflexivity|].
  destruct (Z.leb_spec max (Z.of_nat (length argv))) as [Hm|Hm]; [unfold pre1; rewrite <- app_assoc; apply Stop; right; exact Hm|]. clear Stop.
  destruct (word_then (c :: r) Hr) as (w & r2 & Ew & Hw & Hr2 & Hd2).
  assert (Hne : w <> []). { intros ->. cbn in Ew. subst r2. tauto. }
  rewrite Ew in *. destruct r2 as [|c2 r2]; [contradiction|].
  assert (Hlw : (length w < S (length (pre1 ++ w ++ c2 :: r2)))%nat) by (rewrite !length_app; lia).
  rewrite (skip_word_spec _ _ (c2 :: r2) w pre1 eq_refl Hlw Hw Hd2). cbn [mbind exec_bind]. clear Hlw.
  set (pre2 := pre1 ++ w). assert (L2 : (length pre1 + length w)%nat = length pre2) by (unfold pre2; rewrite length_app; reflexivity).
  rewrite L2, app_assoc. fold pre2. rewrite (get_char_some _ _ c2) by (apply list_lookup_middle; reflexivity). cbn [mbind exec_bind].
  rewrite words_word by assumption.
  replace (Z.to_nat (max - Z.of_nat (length argv))) with (S (Z.to_nat (max - Z.of_nat (length (argv ++ [Z.of_nat (length pre1)]))))) by (rewrite length_app; cbn; lia).
  rewrite !length_app, length_replicate in Hf. cbn [length] in Hf.
  destruct (Z.eqb_spec c2 0) as [->|Hc2].
  - destruct fuel as [|fuel']; [lia|]. cbn [parse_loop]. rewrite (get_char_some _ _ 0) by (apply list_lookup_middle; reflexivity). cbn [mbind exec_bind Z.eqb].
    exists [Z.of_nat (length pre1)], (replicate k SPACE ++ w ++ 0 :: r2). unfold pre2, pre1. rewrite <- !app_assoc.
    split; [reflexivity|]. split; [reflexivity|]. split; [auto|]. cbn [fmap list_fmap take]. rewrite take_nil.
    rewrite app_assoc. fold pre1. rewrite arg_at_app, cstr_app by (apply in_word_nonzero, Hw). reflexivity.
  - rewrite put_char_ok by (rewrite length_app; cbn; lia). cbn [mbind exec_bind]. rewrite insert_app_r_alt, Nat.sub_diag by lia.
    cbn [insert list_insert]. replace (pre2 ++ 0 :: r2) with ((pre2 ++ [0]) ++ r2) by (rewrite <- app_assoc; reflexivity).
    replace (Z.of_nat (length pre2) + 1) with (Z.of_nat (length (pre2 ++ [0]))) by (rewrite length_app; cbn; lia).
    assert (H0 : 0 ∈ r2). { apply elem_of_cons in Hr2 as [Hr2|Hr2]; [congruence|exact Hr2]. }
    destruct (IH (pre2 ++ [0]) r2 (argv ++ [Z.of_nat (length pre1)]) H0 ltac:(lia)) as (new & s' & E & Hl & Hz & Ha).
    exists (Z.of_nat (length pre1) :: new), (replicate k SPACE ++ w ++ 0 :: s'). rewrite E. unfold pre2, pre1. rewrite <- !app_assoc. cbn [app].
    split; [reflexivity|]. split; [rewrite !length_app; cbn [length]; lia|]. split.
    + intros i. rewrite !lookup_app. destruct (replicate k SPACE !! i); [auto|]. destruct (w !! _); [auto|].
      destruct (i - length (replicate k SPACE) - length w)%nat; [reflexivity|]. cbn. apply Hz.
    + cbn [fmap list_fmap take]. f_equal.
      * rewrite app_assoc. fold pre1. rewrite arg_at_app, cstr_app by (apply in_word_nonzero, Hw). reflexivity.
      * transitivity (arg_at ((pre2 ++ [0]) ++ s') <$> new); [unfold pre2, pre1; rewrite <- !app_assoc; reflexivity|exact Ha].
Qed.

Lemma parse_command_spec a max : 0 ∈ a ->
  exists argv a', parse_command a max = Ret (argv, a') /\ length a' = length a /\ (forall i, a !! i = Some 0 -> a' !! i = Some 0) /\
    arg_at a' <$> argv = take (Z.to_nat max) (words (cstr a)).
Proof.
  intros H. destruct (parse_loop_spec max (S (length a)) [] a [] H ltac:(lia)) as (new & s' & E & Hl & Hz & Ha).
  exists new, s'. cbn [app length] in *. rewrite Z.sub_0_r in Ha. auto.
Qed.

(** ** Specification: a text with a cursor *)

(** The text, the place of the cursor, the earlier line shown (by age) with the
    text it interrupted, and the earlier lines, newest first. *)
Record shell_buffer : Type := mk_buffer {
  text : list Z; cursor : nat; recalled : option (nat * list Z); past : list (list Z)
}.

Definition buf_char (c : Z) (b : shell_buffer) : shell_buffer :=
  if decide (cursor b < 255)%nat
  then mk_buffer (take (cursor b) (text b) ++ c :: drop (S (cursor b)) (text b)) (S (cursor b)) (recalled b) (past b) else b.

Definition buf_back (b : shell_buffer) : shell_buffer :=
  match cursor b with
  | O => b
  | S p => mk_buffer (take p (text b) ++ drop (S p) (text b)) p (recalled b) (past b)
  end.

Definition buf_recall (i : nat) (saved : list Z) (b : shell_buffer) : shell_buffer :=
  match past b !! i with Some t => mk_buffer t (length t) (Some (i, saved)) (past b) | None => b end.

(** The text to the right of the cursor is not kept. *)
Definition buf_up (b : shell_buffer) : shell_buffer :=
  match recalled b with
  | None => buf_recall 0 (take (cursor b) (text b)) b
  | Some (i, saved) => buf_recall (S i) saved b
  end.
Definition buf_down (b : shell_buffer) : shell_buffer :=
  match recalled b with
  | None => b
  | Some (S i, saved) => buf_recall i saved b
  | Some (O, saved) => mk_buffer saved (length saved) None (past b)
  end.

Definition buf_move (p : nat) (b : shell_buffer) : shell_buffer := mk_buffer (text b) p (recalled b) (past b).

Definition buf_key (c : Z) (b : shell_buffer) : shell_buffer :=
  if c =? BACKSPACE then buf_back b
  else if c =? KEY_UP then buf_up b
  else if c =? KEY_DOWN then buf_down b
  else if c =? KEY_LEFT then buf_move (pred (cursor b)) b
  else if c =? KEY_RIGHT then buf_move (if decide (cursor b < length (text b))%nat then S (cursor b) else cursor b) b
  else buf_char (i8 c) b.

(** An empty line and a repetition are not remembered. *)
Definition remember (cmd : list Z) (past : list (list Z)) : list (list Z) :=
  if decide (cmd = [] \/ head past = Some cmd) then past else take 16 (cmd :: past).

(** The command is the text up to the cursor. *)
Definition buf_press (c : Z) (b : shell_buffer) : list (list Z) * shell_buffer :=
  if c =? NL then
    let cmd := take (cursor b) (text b) in ([cmd], mk_buffer [] 0 None (remember cmd (past b)))
  else ([], buf_key c b).

Fixpoint buf_presses (cs : list Z) (b : shell_buffer) : list (list Z) * shell_buffer :=
  match cs with
  | [] => ([], b)
  | c :: cs => let '(l, b) := buf_press c b in let '(ls, b) := buf_presses cs b in (l ++ ls, b)
  end.

(** ** The history *)

Definition nonzero (s : list Z) : Prop := Forall (fun c => c <> 0) s.

Definition array_ok (a : list Z) : Prop := length a = LINE_SIZE /\ 0 ∈ a.
Definition history_ok (h : list (list Z)) : Prop := length h = 16%nat /\ Forall array_ok h.
Definition strings (h : list (list Z)) : list (list Z) := cstr <$> h.

Lemma array_short a : array_ok a -> (length (cstr a) < LINE_SIZE)%nat.
Proof. intros [H1 H2]. rewrite <- H1. apply length_cstr_lt, H2. Qed.

Lemma str_copy_array dest src : length dest = LINE_SIZE -> array_ok src ->
  exists a, str_copy dest src = Ret a /\ array_ok a /\ a = cstr src ++ 0 :: drop (S (length (cstr src))) dest /\ cstr a = cstr src.
Proof.
  intros Hd Hs. pose proof (array_short _ Hs) as Hl. eexists. split; [apply str_copy_spec; [apply Hs|lia]|].
  split; [|split; [reflexivity|apply cstr_app, cstr_nonzero]]. split; [|apply elem_of_app; right; left].
  rewrite length_app. cbn [length]. rewrite length_drop. lia.
Qed.

Lemma history_get_spec h i : history_ok h -> (i < 16)%nat ->
  exists a, history_get h (Z.of_nat i) = Ret a /\ h !! i = Some a /\ array_ok a.
Proof.
  intros [Hl F] Hi. destruct (lookup_lt_is_Some_2 h i) as [a Ha]; [lia|]. exists a. unfold history_get.
  rewrite (proj2 (Z.ltb_ge _ _)) by lia. rewrite Nat2Z.id, Ha. split; [reflexivity|]. split; [reflexivity|].
  rewrite Forall_lookup in F. apply (F i a Ha).
Qed.

Lemma history_copy_spec h i cmd : history_ok h -> (i < 16)%nat -> array_ok cmd ->
  exists h', history_copy h (Z.of_nat i) cmd = Ret h' /\ history_ok h' /\ strings h' = <[i := cstr cmd]> (strings h).
Proof.
  intros H Hi Hc. destruct (history_get_spec h i H Hi) as (a & E & Ha & [Hla _]). unfold history_copy. rewrite E. cbn [mbind exec_bind].
  destruct (str_copy_array a cmd Hla Hc) as (a' & E' & Ok & _ & Es). rewrite E'. cbn [mbind exec_bind]. rewrite Nat2Z.id.
  eexists. split; [reflexivity|]. destruct H as [Hl F]. split; [split; [rewrite length_insert; exact Hl|apply Forall_insert; assumption]|].
  unfold strings. rewrite list_fmap_insert, Es. reflexivity.
Qed.

Lemma history_shift_spec n : forall from h, history_ok h -> (1 <= from)%nat -> (from + n <= 16)%nat ->
  exists h', history_shift n (Z.of_nat from) h = Ret h' /\ history_ok h' /\
    strings h' = take (from - 1) (strings h) ++ take n (drop from (strings h)) ++ drop (from - 1 + n) (strings h).
Proof.
  induction n as [|n IH]; intros from h H Hf Hn; cbn [history_shift].
  - exists h. split; [reflexivity|]. split; [exact H|]. rewrite Nat.add_0_r, take_0, app_nil_l, take_drop. reflexivity.
  - destruct (history_get_spec h from H ltac:(lia)) as (a & E & Ha & Oka). rewrite E. cbn [mbind exec_bind].
    replace (Z.of_nat from - 1) with (Z.of_nat (from - 1)) by lia.
    destruct (history_copy_spec h (from - 1) a H ltac:(lia) Oka) as (h1 & E1 & H1 & S1). rewrite E1. cbn [mbind exec_bind].
    replace (Z.of_nat from + 1) with (Z.of_nat (S from)) by lia.
    destruct (IH (S from) h1 H1 ltac:(lia) ltac:(lia)) as (h' & E' & H' & S'). exists h'. split; [exact E'|]. split; [exact H'|].
    rewrite S', S1. assert (Hs : strings h !! from = Some (cstr a)) by (unfold strings; rewrite list_lookup_fmap, Ha; reflexivity).
    assert (Hl : (from < length (strings h))%nat) by (apply lookup_lt_Some in Hs; exact Hs).
    rewrite (drop_S _ _ _ Hs). cbn [take]. replace (S from - 1)%nat with (S (from - 1)) by lia.
    rewrite (take_S_r _ (from - 1) (cstr a)) by (apply list_lookup_insert_eq; lia).
    rewrite take_insert_ge, !drop_insert_lt, <- app_assoc by lia. cbn [app].
    replace (S (from - 1) + n)%nat with (from - 1 + S n)%nat by lia. reflexivity.
Qed.

(** The lines remembered, newest first. *)
Definition remembered (h : list (list Z)) (count : nat) : list (list Z) := reverse (take count (strings h)).

Lemma history_add_spec h count cmd : history_ok h -> (count <= 16)%nat -> array_ok cmd ->
  exists h' count', history_add cmd h (Z.of_nat count) = Ret (h', Z.of_nat count') /\ history_ok h' /\ (count' <= 16)%nat /\
    remembered h' count' = remember (cstr cmd) (remembered h count).
Proof.
  intros H Hc Hcmd. pose proof H as [Hl _]. assert (Hls : length (strings h) = 16%nat) by (unfold strings; rewrite length_fmap; exact Hl).
  unfold history_add, remember. rewrite str_len_spec by apply Hcmd. cbn [mbind exec_bind].
  destruct (Z.eqb_spec (Z.of_nat (length (cstr cmd))) 0) as [E0|E0].
  { exists h, count. split; [reflexivity|]. split; [exact H|]. split; [exact Hc|]. rewrite decide_True; [reflexivity|].
    left. apply length_zero_iff_nil. lia. }
  assert (Hne : cstr cmd <> []) by (intros E; rewrite E in E0; cbn in E0; lia).
  assert (Same : (if 0 <? Z.of_nat count then a ← history_get h (Z.of_nat count - 1); str_eq a cmd else Ret false) =
    Ret (bool_decide (head (remembered h count) = Some (cstr cmd)))).
  { destruct count as [|k]; [reflexivity|]. rewrite (proj2 (Z.ltb_lt _ _)) by lia. replace (Z.of_nat (S k) - 1) with (Z.of_nat k) by lia.
    destruct (history_get_spec h k H ltac:(lia)) as (a & E & Ha & [_ Hza]). rewrite E. cbn [mbind exec_bind].
    rewrite str_eq_spec by (assumption || apply Hcmd). f_equal. apply bool_decide_ext. unfold remembered.
    rewrite (take_S_r _ k (cstr a)) by (unfold strings; rewrite list_lookup_fmap, Ha; reflexivity). rewrite reverse_snoc. cbn. split; congruence. }
  rewrite Same. cbn [mbind exec_bind]. case_bool_decide as Hh.
  { exists h, count. split; [reflexivity|]. split; [exact H|]. split; [exact Hc|]. rewrite decide_True by (right; exact Hh). reflexivity. }
  rewrite decide_False by tauto. unfold HISTORY_MAX. destruct (Z.leb_spec 16 (Z.of_nat count)) as [Hful|Hful].
  - assert (count = 16%nat) as -> by lia.
    destruct (history_shift_spec 15 1 h H ltac:(lia) ltac:(lia)) as (h1 & E1 & H1 & S1).
    change (Z.to_nat (16 - 1)) with 15%nat. change (Z.of_nat 1) with 1 in E1. rewrite E1. cbn [mbind exec_bind].
    destruct (history_copy_spec h1 15 cmd H1 ltac:(lia) Hcmd) as (h2 & E2 & H2 & S2). change (16 - 1) with (Z.of_nat 15). rewrite E2. cbn [mbind exec_bind].
    exists h2, 16%nat. split; [reflexivity|]. split; [exact H2|]. split; [lia|]. unfold remembered. rewrite S2, S1. clear - Hls.
    generalize dependent (strings h). intros l Hls. do 16 (destruct l as [|? l]; [discriminate Hls|]). destruct l; [|discriminate Hls]. reflexivity.
  - destruct (history_copy_spec h count cmd H ltac:(lia) Hcmd) as (h2 & E2 & H2 & S2). cbn [mbind exec_bind]. rewrite E2. cbn [mbind exec_bind].
    exists h2, (S count). split; [f_equal; f_equal; lia|]. split; [exact H2|]. split; [lia|]. unfold remembered. rewrite S2.
    rewrite (take_S_r _ count (cstr cmd)) by (apply list_lookup_insert_eq; lia). rewrite take_insert_ge, reverse_snoc by lia.
    symmetry. apply take_ge. cbn [length]. rewrite length_reverse, length_take. lia.
Qed.

(** ** Refinement *)

(** A line's array: its last place holds a NUL. *)
Definition line_ok (a : list Z) : Prop := length a = LINE_SIZE /\ a !! 255%nat = Some 0.

Record shows (e : editor) (b : shell_buffer) : Prop := {
  sh_array : line_ok (line e);
  sh_line : exists r, line e = text b ++ r;
  sh_text : nonzero (text b);
  sh_pos : pos e = Z.of_nat (cursor b) /\ (cursor b <= length (text b))%nat;
  sh_len : line_len e = Z.of_nat (length (text b));
  sh_history : history_ok (history e);
  sh_past : exists count, history_count e = Z.of_nat count /\ (count <= 16)%nat /\ past b = remembered (history e) count;
  sh_saved_array : length (saved_line e) = LINE_SIZE;
  sh_recalled :
    match recalled b with
    | None => history_index e = -1
    | Some (i, s) => history_index e = Z.of_nat i /\ (i < length (past b))%nat /\ saved_pos e = Z.of_nat (length s) /\
        nonzero s /\ array_ok (saved_line e) /\ exists r, saved_line e = s ++ r
    end
}.

Lemma line_array a : line_ok a -> array_ok a.
Proof. intros [H1 H2]. split; [exact H1|]. eapply list_elem_of_lookup_2. exact H2. Qed.

(** A text without NULs ends before the last place. *)
Lemma line_room a t r : line_ok a -> a = t ++ r -> nonzero t -> (length t <= 255)%nat.
Proof.
  intros [Hl Hz] -> Ht. destruct (decide (255 < length t)%nat) as [Hlt|]; [|lia]. exfalso.
  rewrite lookup_app_l in Hz by exact Hlt. unfold nonzero in Ht. rewrite Forall_lookup in Ht. exact (Ht _ _ Hz eq_refl).
Qed.

Lemma prefix_cstr t r : nonzero t -> 0 ∈ t ++ r -> exists r', cstr (t ++ r) = t ++ r' /\ nonzero r'.
Proof. intros Ht _. exists (cstr r). split; [apply cstr_prefix, Ht|apply cstr_nonzero]. Qed.

(** A string copied into a line. *)
Lemma copy_to_line a src : line_ok a -> array_ok src ->
  exists a', str_copy a src = Ret a' /\ line_ok a' /\ cstr a' = cstr src /\ exists r, a' = cstr src ++ r.
Proof.
  intros [Hl Hz] Hs. destruct (str_copy_array a src Hl Hs) as (a' & E & [Hl' _] & Ea & Ec). pose proof (array_short _ Hs) as Hn. unfold LINE_SIZE in *.
  exists a'. split; [exact E|]. split; [|split; [exact Ec|eexists; exact Ea]]. split; [exact Hl'|]. rewrite Ea.
  destruct (decide (length (cstr src) = 255%nat)) as [E5|E5]; [apply list_lookup_middle; lia|].
  rewrite lookup_app_r by lia. rewrite lookup_cons_ne_0 by lia. rewrite lookup_drop. rewrite <- Hz. f_equal. lia.
Qed.

Lemma remembered_lookup h count i : history_ok h -> (count <= 16)%nat -> (i < count)%nat ->
  exists a, history_get h (Z.of_nat count - 1 - Z.of_nat i) = Ret a /\ array_ok a /\ remembered h count !! i = Some (cstr a).
Proof.
  intros H Hc Hi. destruct (history_get_spec h (count - 1 - i) H ltac:(lia)) as (a & E & Ha & Ok). exists a.
  replace (Z.of_nat count - 1 - Z.of_nat i) with (Z.of_nat (count - 1 - i)) by lia. split; [exact E|]. split; [exact Ok|].
  assert (Hl : length (take count (strings h)) = count) by (unfold strings; rewrite length_take, length_fmap; destruct H; lia).
  unfold remembered. rewrite reverse_lookup by lia. rewrite Hl, lookup_take_lt by lia. unfold strings. rewrite list_lookup_fmap.
  replace (count - S i)%nat with (count - 1 - i)%nat by lia. rewrite Ha. reflexivity.
Qed.

Lemma length_remembered h count : history_ok h -> (count <= 16)%nat -> length (remembered h count) = count.
Proof. intros [H _] Hc. unfold remembered, strings. rewrite length_reverse, length_take, length_fmap. lia. Qed.

Lemma recall_shows e b i saved saved_p s r : shows e b -> (i < length (past b))%nat ->
  array_ok saved -> saved = s ++ r -> nonzero s -> saved_p = Z.of_nat (length s) ->
  exists out e', recall e (Z.of_nat i) saved saved_p = Ret (out, e') /\ shows e' (buf_recall i s b).
Proof.
  intros Sh Hi Hsv Es Hs Hp. destruct (sh_past _ _ Sh) as (count & Hc & Hc16 & Hpast). pose proof (sh_history _ _ Sh) as Hh.
  assert (Hi' : (i < count)%nat) by (rewrite Hpast, (length_remembered _ _ Hh Hc16) in Hi; exact Hi).
  destruct (remembered_lookup _ _ _ Hh Hc16 Hi') as (a & E & Oka & Hlk). rewrite <- Hpast in Hlk.
  destruct (copy_to_line _ a (sh_array _ _ Sh) Oka) as (a' & E' & Oka' & Ec & Hr). unfold recall. rewrite Hc, E. cbn [mbind exec_bind]. rewrite E'. cbn [mbind exec_bind].
  rewrite str_len_spec by apply line_array, Oka'. cbn [mbind exec_bind]. unfold buf_recall. rewrite Hlk, Ec.
  eexists _, _. split; [reflexivity|]. split; cbn [line pos line_len saved_line saved_pos history_index history history_count text cursor recalled past].
  - exact Oka'.
  - exact Hr.
  - apply cstr_nonzero.
  - split; [reflexivity|lia].
  - reflexivity.
  - exact Hh.
  - exists count. auto.
  - apply Hsv.
  - split; [reflexivity|]. split; [exact Hi|]. split; [exact Hp|]. split; [exact Hs|]. split; [exact Hsv|]. exists r. exact Es.
Qed.

Lemma key_up_shows e b : shows e b -> exists out e', key_up e = Ret (out, e') /\ shows e' (buf_up b).
Proof.
  intros Sh. pose proof Sh as [Hline [r Hr] Ht [Hp Hc] Hlen Hh (count & Hcount & Hc16 & Hpast) Hsl Hrec].
  pose proof (length_remembered _ _ Hh Hc16) as Hlp. rewrite <- Hpast in Hlp. unfold key_up, buf_up. rewrite Hcount.
  destruct (Z.eqb_spec (Z.of_nat count) 0) as [E0|E0].
  { exists [], e. split; [reflexivity|]. assert (Ep : past b = []) by (apply length_zero_iff_nil; lia).
    destruct (recalled b) as [[i s]|]; unfold buf_recall; rewrite Ep; [destruct i|]; exact Sh. }
  destruct (recalled b) as [[i s]|] eqn:Er.
  - destruct Hrec as (Hi & Hil & Hsp & Hs & Hsa & [r2 Hr2]). rewrite Hi, (proj2 (Z.eqb_neq _ _)) by lia. cbn [mbind exec_bind].
    destruct (Z.ltb_spec (Z.of_nat i) (Z.of_nat count - 1)) as [Hlt|Hge].
    + replace (Z.of_nat i + 1) with (Z.of_nat (S i)) by lia. rewrite Hsp. eapply recall_shows; try eassumption; [lia|reflexivity].
    + exists []. eexists. split; [reflexivity|]. unfold buf_recall. rewrite lookup_ge_None_2 by lia.
      replace (mk_editor _ _ _ _ _ _ _ _) with e by (destruct e; cbn in *; congruence). exact Sh.
  - rewrite Hrec, Z.eqb_refl.
    destruct (str_copy_array (saved_line e) (line e) Hsl (line_array _ Hline)) as (sv & E & Ok & Ev & _). rewrite E. cbn [mbind exec_bind].
    rewrite (proj2 (Z.ltb_lt _ _)) by lia. change (-1 + 1) with (Z.of_nat 0). rewrite Hp.
    assert (Hpre : exists r', sv = take (cursor b) (text b) ++ r').
    { rewrite Ev, Hr, cstr_prefix by exact Ht. set (tl := 0 :: drop _ _). exists (drop (cursor b) (text b) ++ cstr r ++ tl).
      rewrite (app_assoc (take _ _)), take_drop, <- app_assoc. reflexivity. }
    destruct Hpre as [r' Er']. eapply recall_shows; [exact Sh|lia|exact Ok|exact Er'| |].
    + apply Forall_take, Ht.
    + rewrite length_take. lia.
Qed.

Lemma key_down_shows e b : shows e b -> exists out e', key_down e = Ret (out, e') /\ shows e' (buf_down b).
Proof.
  intros Sh. pose proof Sh as [Hline _ Ht _ _ Hh Hpast Hsl Hrec]. unfold key_down, buf_down.
  destruct (recalled b) as [[[|i] s]|] eqn:Er.
  - destruct Hrec as (Hi & Hil & Hsp & Hs & Hsa & [r2 Hr2]). rewrite Hi. cbn [Z.of_nat Z.eqb].
    rewrite (proj2 (Z.ltb_ge _ _)) by lia. destruct (copy_to_line _ _ Hline Hsa) as (a' & E & Oka & _ & [r3 Hr3]). rewrite E. cbn [mbind exec_bind].
    eexists _, _. split; [reflexivity|]. split; cbn [line pos line_len saved_line saved_pos history_index history history_count text cursor recalled past].
    + exact Oka.
    + rewrite Hr3, Hr2, cstr_prefix by exact Hs. rewrite <- app_assoc. eexists. reflexivity.
    + exact Hs.
    + split; [exact Hsp|lia].
    + exact Hsp.
    + exact Hh.
    + exact Hpast.
    + exact Hsl.
    + reflexivity.
  - destruct Hrec as (Hi & Hil & Hsp & Hs & Hsa & [r2 Hr2]). rewrite Hi, (proj2 (Z.eqb_neq _ _)), (proj2 (Z.ltb_lt _ _)) by lia.
    replace (Z.of_nat (S i) - 1) with (Z.of_nat i) by lia. rewrite Hsp. eapply recall_shows; try eassumption; [lia|reflexivity].
  - rewrite Hrec, Z.eqb_refl. exists [], e. split; [reflexivity|exact Sh].
Qed.

Lemma line_ok_insert a i v : line_ok a -> (i < 255)%nat \/ v = 0 -> line_ok (<[i := v]> a).
Proof.
  intros [Hl Hz] H. split; [rewrite length_insert; exact Hl|]. destruct (decide (i = 255%nat)) as [->|Hi].
  - destruct H as [H| ->]; [lia|]. apply list_lookup_insert_eq. rewrite Hl. unfold LINE_SIZE. lia.
  - rewrite list_lookup_insert_ne by exact Hi. exact Hz.
Qed.

(** The state with another text. *)
Lemma shows_text e b a t r c : shows e b -> line_ok a -> a = t ++ r -> nonzero t -> (c <= length t)%nat ->
  shows (mk_editor a (Z.of_nat c) (Z.of_nat (length t)) (saved_line e) (saved_pos e) (history_index e) (history e) (history_count e))
    (mk_buffer t c (recalled b) (past b)).
Proof.
  intros Sh Ha Er Ht Hc. destruct Sh as [_ _ _ _ _ Hh Hp Hs Hr]. split; try assumption.
  - exists r. exact Er.
  - split; [reflexivity|exact Hc].
  - reflexivity.
Qed.

Lemma shift_left_spec tail : forall mid pre x, exists y, shift_left (length mid) (Z.of_nat (length pre)) (pre ++ x :: mid ++ tail) = Ret (pre ++ mid ++ y :: tail).
Proof.
  induction mid as [|m mid IH]; intros pre x; cbn [length shift_left]; [exists x; reflexivity|].
  replace (Z.of_nat (length pre) + 1) with (Z.of_nat (length (pre ++ [x]))) by (rewrite length_app; cbn; lia).
  assert (Em : (pre ++ x :: (m :: mid) ++ tail) !! length (pre ++ [x]) = Some m).
  { replace (pre ++ x :: (m :: mid) ++ tail) with ((pre ++ [x]) ++ m :: mid ++ tail) by (rewrite <- app_assoc; reflexivity).
    apply list_lookup_middle. reflexivity. }
  rewrite (get_char_some _ _ _ Em). cbn [mbind exec_bind]. rewrite put_char_ok by (rewrite length_app; cbn; lia). cbn [mbind exec_bind].
  rewrite insert_app_r_alt, Nat.sub_diag by lia. cbn [insert list_insert].
  replace (pre ++ m :: (m :: mid) ++ tail) with ((pre ++ [m]) ++ m :: mid ++ tail) by (rewrite <- app_assoc; reflexivity).
  replace (length (pre ++ [x])) with (length (pre ++ [m])) by (rewrite !length_app; reflexivity).
  destruct (IH (pre ++ [m]) m) as [y E]. exists y. rewrite E, <- app_assoc. reflexivity.
Qed.

Lemma chars_from_spec tail : forall mid pre, chars_from (length mid) (Z.of_nat (length pre)) (pre ++ mid ++ tail) = Ret mid.
Proof.
  induction mid as [|m mid IH]; intros pre; [reflexivity|]. cbn [length chars_from app].
  rewrite (get_char_some _ _ m) by (apply list_lookup_middle; reflexivity). cbn [mbind exec_bind].
  replace (Z.of_nat (length pre) + 1) with (Z.of_nat (length (pre ++ [m]))) by (rewrite length_app; cbn; lia).
  replace (pre ++ m :: mid ++ tail) with ((pre ++ [m]) ++ mid ++ tail) by (rewrite <- app_assoc; reflexivity). rewrite IH. reflexivity.
Qed.

(** The text around the cursor. *)
Lemma text_split (t : list Z) p : (p < length t)%nat -> exists t1 x t2, t = t1 ++ x :: t2 /\ length t1 = p /\ take p t = t1 /\ drop (S p) t = t2.
Proof.
  intros H. destruct (lookup_lt_is_Some_2 t p H) as [x Hx]. exists (take p t), x, (drop (S p) t).
  rewrite take_drop_middle by exact Hx. split; [reflexivity|]. split; [rewrite length_take; lia|auto].
Qed.

Lemma key_backspace_shows e b : shows e b -> exists out e', key_backspace e = Ret (out, e') /\ shows e' (buf_back b).
Proof.
  intros Sh. pose proof Sh as [Hline [r Hr] Ht [Hp Hc] Hlen _ _ _ _]. unfold key_backspace, buf_back. rewrite Hp.
  destruct (cursor b) as [|p] eqn:Ec; [exists [], e; split; [reflexivity|exact Sh]|]. rewrite (proj2 (Z.ltb_lt _ _)) by lia.
  destruct (text_split (text b) p ltac:(lia)) as (t1 & x & t2 & Et & El & -> & ->). subst p. rewrite Et, length_app in Hlen. cbn [length] in Hlen.
  replace (Z.of_nat (S (length t1)) - 1) with (Z.of_nat (length t1)) by lia. rewrite Hlen. cbv zeta.
  replace (Z.of_nat (length t1 + S (length t2)) - 1 - Z.of_nat (length t1)) with (Z.of_nat (length t2)) by lia. rewrite Nat2Z.id.
  assert (Ea : line e = t1 ++ x :: t2 ++ r) by (rewrite Hr, Et, <- app_assoc; reflexivity).
  destruct (shift_left_spec r t2 t1 x) as [y E1]. rewrite <- Ea in E1. rewrite E1. cbn [mbind exec_bind].
  replace (Z.of_nat (length t1 + S (length t2)) - 1) with (Z.of_nat (length (t1 ++ t2))) by (rewrite length_app; lia).
  rewrite put_char_ok by (rewrite !length_app; cbn; lia). cbn [mbind exec_bind]. rewrite (app_assoc t1), insert_app_r_alt, Nat.sub_diag by lia.
  cbn [insert list_insert]. rewrite <- app_assoc, chars_from_spec. cbn [mbind exec_bind]. eexists _, _. split; [reflexivity|].
  rewrite app_assoc. assert (Hr0 : (length (t1 ++ t2) < 255)%nat).
  { pose proof (line_room _ _ _ Hline Hr Ht) as H. rewrite Et, length_app in H. cbn [length] in H. rewrite length_app. lia. }
  eapply shows_text; [exact Sh| |reflexivity| |rewrite length_app; lia].
  - destruct Hline as [H1 H2]. unfold LINE_SIZE in *. rewrite Ea in H1, H2. split.
    + rewrite length_app in H1. cbn [length] in H1. rewrite length_app in H1. rewrite !length_app. cbn [length]. unfold LINE_SIZE. lia.
    + rewrite lookup_app_r by lia. rewrite lookup_cons_ne_0 by lia. rewrite length_app in Hr0 |- *. rewrite <- H2, app_comm_cons, app_assoc.
      rewrite lookup_app_r by (rewrite length_app; cbn; lia). rewrite length_app. cbn [length]. f_equal. lia.
  - unfold nonzero in *. rewrite Et in Ht. apply Forall_app in Ht as [H1 H2]. apply Forall_cons in H2 as [_ H2]. apply Forall_app. auto.
Qed.

Lemma key_char_shows c e b : i8 c <> 0 -> shows e b -> exists out e', key_char c e = Ret (out, e') /\ shows e' (buf_char (i8 c) b).
Proof.
  intros Hz Sh. pose proof Sh as [Hline [r Hr] Ht [Hp Hc] Hlen _ _ _ _]. unfold key_char, buf_char. rewrite Hp.
  destruct (Z.ltb_spec (Z.of_nat (cursor b)) 255) as [Hlt|Hge].
  2:{ rewrite decide_False by lia. exists [], e. split; [reflexivity|exact Sh]. }
  rewrite decide_True by lia. pose proof Hline as [Hll _]. unfold LINE_SIZE in Hll.
  rewrite put_char_ok by lia. cbn [mbind exec_bind]. eexists _, _. split; [reflexivity|].
  set (t' := take (cursor b) (text b) ++ i8 c :: drop (S (cursor b)) (text b)).
  assert (Hlt' : length t' = Nat.max (S (cursor b)) (length (text b))) by (unfold t'; rewrite length_app, length_take; cbn [length]; rewrite length_drop; lia).
  assert (Er : exists r', <[cursor b := i8 c]> (line e) = t' ++ r').
  { rewrite Hr. unfold t'. replace (text b ++ r) with (take (cursor b) (text b) ++ drop (cursor b) (text b) ++ r) by (rewrite app_assoc, take_drop; reflexivity).
    rewrite insert_app_r_alt by (rewrite length_take; lia).
    rewrite length_take, Nat.min_l, Nat.sub_diag by lia. destruct (decide (cursor b < length (text b))%nat) as [Hin|Hout].
    - destruct (text_split (text b) (cursor b) Hin) as (t1 & x & t2 & Et & El & Etk & Ed). rewrite Ed, Etk. exists r. rewrite Et, <- El, drop_app_length, <- app_assoc. reflexivity.
    - rewrite !drop_ge by lia. cbn [app]. destruct r as [|y r]; [|exists r; rewrite <- app_assoc; reflexivity].
      exfalso. pose proof (line_room _ _ _ Hline Hr Ht). rewrite Hr, length_app in Hll. cbn in Hll. lia. }
  destruct Er as [r' Er].
  assert (El : (if line_len e <? Z.of_nat (cursor b) + 1 then Z.of_nat (cursor b) + 1 else line_len e) = Z.of_nat (length t')).
  { rewrite Hlen, Hlt'. destruct (Z.ltb_spec (Z.of_nat (length (text b))) (Z.of_nat (cursor b) + 1)); lia. }
  rewrite El. replace (Z.of_nat (cursor b) + 1) with (Z.of_nat (S (cursor b))) by lia.
  eapply shows_text; [exact Sh|apply line_ok_insert; [exact Hline|left; lia]|exact Er| |lia].
  unfold nonzero, t' in *. apply Forall_app. split; [apply Forall_take, Ht|]. constructor; [exact Hz|apply Forall_drop, Ht].
Qed.

Lemma at_pos_shows e b p : shows e b -> (p <= length (text b))%nat -> shows (at_pos (Z.of_nat p) e) (buf_move p b).
Proof.
  intros Sh Hp. destruct Sh as [H1 H2 H3 H4 H5 H6 H7 H8 H9]. split; try assumption. split; [reflexivity|exact Hp].
Qed.

(** A key the shell receives from the keyboard. *)
Definition key_code (c : Z) : Prop := 0 < c < 256.

Lemma key_code_char c : key_code c -> i8 c <> 0.
Proof. unfold key_code, i8, signed. intros H. rewrite Z.mod_small by lia. cbv zeta. destruct (2 * c <? 256); lia. Qed.

Lemma edit_key_shows c e b : key_code c -> shows e b -> exists out e', edit_key c e = Ret (out, e') /\ shows e' (buf_key c b).
Proof.
  intros Hk Sh. unfold edit_key, buf_key. pose proof (sh_pos _ _ Sh) as [Hp Hc]. pose proof (sh_len _ _ Sh) as Hl.
  destruct (c =? BACKSPACE); [apply key_backspace_shows, Sh|]. destruct (c =? KEY_UP); [apply key_up_shows, Sh|].
  destruct (c =? KEY_DOWN); [apply key_down_shows, Sh|]. destruct (c =? KEY_LEFT); [|destruct (c =? KEY_RIGHT)].
  - rewrite Hp. destruct (cursor b) as [|p] eqn:Ec.
    + exists [], e. split; [reflexivity|]. cbn [Nat.pred]. rewrite <- Ec. destruct b; exact Sh.
    + rewrite (proj2 (Z.ltb_lt _ _)) by lia. replace (Z.of_nat (S p) - 1) with (Z.of_nat p) by lia.
      eexists _, _. split; [reflexivity|]. apply at_pos_shows; [exact Sh|cbn; lia].
  - rewrite Hp, Hl. destruct (decide (cursor b < length (text b))%nat) as [Hlt|Hge].
    + rewrite (proj2 (Z.ltb_lt _ _)) by lia. replace (Z.of_nat (cursor b) + 1) with (Z.of_nat (S (cursor b))) by lia.
      eexists _, _. split; [reflexivity|]. apply at_pos_shows; [exact Sh|lia].
    + rewrite (proj2 (Z.ltb_ge _ _)) by lia. exists [], e. split; [reflexivity|]. destruct b; exact Sh.
  - apply key_char_shows; [apply key_code_char, Hk|exact Sh].
Qed.

(** The end of a line. *)
Lemma enter_shows e b : shows e b -> exists e', enter e = Ret e' /\ line_ok (line e') /\ cstr (line e') = take (cursor b) (text b) /\
  forall a, line_ok a -> shows (fresh_line a e') (mk_buffer [] 0 None (remember (take (cursor b) (text b)) (past b))).
Proof.
  intros Sh. pose proof Sh as [Hline [r Hr] Ht [Hp Hc] Hlen Hh (count & Hcount & Hc16 & Hpast) Hsl _]. unfold enter. rewrite Hp.
  pose proof (line_room _ _ _ Hline Hr Ht) as Hroom. pose proof Hline as [Hll _]. unfold LINE_SIZE in Hll. rewrite put_char_ok by lia. cbn [mbind exec_bind].
  set (a := <[cursor b := 0]> (line e)). assert (Ha : line_ok a) by (apply line_ok_insert; [exact Hline|right; reflexivity]).
  assert (Ec : cstr a = take (cursor b) (text b)).
  { unfold a. rewrite Hr. replace (text b ++ r) with (take (cursor b) (text b) ++ drop (cursor b) (text b) ++ r) by (rewrite app_assoc, take_drop; reflexivity).
    rewrite insert_app_r_alt by (rewrite length_take; lia).
    rewrite length_take, Nat.min_l, Nat.sub_diag by lia. destruct (drop (cursor b) (text b) ++ r) as [|y u] eqn:Eu.
    - exfalso. assert (Hlu : length (drop (cursor b) (text b) ++ r) = 0%nat) by (rewrite Eu; reflexivity).
      rewrite length_app, length_drop in Hlu. rewrite Hr, length_app in Hll. lia.
    - cbn [insert list_insert]. apply cstr_app, Forall_take, Ht. }
  destruct (history_add_spec (history e) count a Hh Hc16 (line_array _ Ha)) as (h' & count' & E & Hh' & Hc' & Hrem). rewrite Hcount, E. cbn [mbind exec_bind].
  eexists. split; [reflexivity|]. cbn [line]. split; [exact Ha|]. split; [exact Ec|]. intros a' Ha'.
  split; cbn [fresh_line line pos line_len saved_line saved_pos history_index history history_count text cursor recalled past].
  - exact Ha'.
  - exists a'. reflexivity.
  - constructor.
  - split; [reflexivity|cbn; lia].
  - reflexivity.
  - exact Hh'.
  - exists count'. split; [reflexivity|]. split; [exact Hc'|]. rewrite Hrem, Ec, Hpast. reflexivity.
  - exact Hsl.
  - reflexivity.
Qed.

Lemma press_shows c e b : key_code c -> shows e b -> exists e', press c e = Ret (fst (buf_press c b), e') /\ shows e' (snd (buf_press c b)).
Proof.
  intros Hk Sh. unfold press, buf_press. destruct (c =? NL).
  - destruct (enter_shows e b Sh) as (e1 & E & Ha & Ec & F). rewrite E. cbn [mbind exec_bind].
    destruct (parse_command_spec (line e1) MAX_ARGS) as (argv & a' & Ep & Hl & Hz & _); [apply line_array, Ha|]. rewrite Ep. cbn [mbind exec_bind fst snd].
    rewrite Ec. eexists. split; [reflexivity|]. apply F. destruct Ha as [H1 H2]. split; [rewrite Hl; exact H1|apply Hz, H2].
  - destruct (edit_key_shows c e b Hk Sh) as (out & e' & E & Sh'). rewrite E. cbn [mbind exec_bind fst snd]. eauto.
Qed.

(** ** Properties *)

(** C12: On any array that holds a NUL, [parse_command] finds the words of its
    string, the first [max_args] of them, each ended by a NUL in place, and
    stays within the array. *)
Theorem parse_command_words (a : list Z) max_args : 0 ∈ a ->
  exists argv a', parse_command a max_args = Ret (argv, a') /\ length a' = length a /\
    arg_at a' <$> argv = take (Z.to_nat max_args) (words (cstr a)).
Proof.
  intros H. destruct (parse_command_spec a max_args H) as (argv & a' & E & Hl & _ & Hw). exists argv, a'. auto.
Qed.

Lemma parse_command_words_witness : exists argv a', parse_command [32; 97; 98; 32; 32; 99; 0; 55] 16 = Ret (argv, a') /\
  arg_at a' <$> argv = [[97; 98]; [99]].
Proof.
  destruct (parse_command_words [32; 97; 98; 32; 32; 99; 0; 55] 16) as (argv & a' & E & _ & Hw); [do 6 right; left|].
  exists argv, a'. split; [exact E|exact Hw].
Defined.

(** C11: The line editor implements the text with a cursor: for every sequence of
    keys, however long, the commands run are those of the specification, the
    line shows its text, and no access leaves an array. *)
Theorem editor_refines ks e b : shows e b -> Forall key_code ks ->
  exists e', presses ks e = Ret (fst (buf_presses ks b), e') /\ shows e' (snd (buf_presses ks b)).
Proof.
  intros Sh Hk. revert e b Sh. induction Hk as [|c ks Hc _ IH]; intros e b Sh; [exists e; split; [reflexivity|exact Sh]|].
  cbn [presses buf_presses]. destruct (press_shows c e b Hc Sh) as (e1 & E1 & Sh1). rewrite E1. cbn [mbind exec_bind].
  destruct (buf_press c b) as [l b1]. cbn [fst snd] in *. destruct (IH e1 b1 Sh1) as (e' & E & Sh'). rewrite E. cbn [mbind exec_bind].
  destruct (buf_presses ks b1) as [ls b2]. cbn [fst snd] in *. eauto.
Qed.

(** The shell's state at its start; the array of the line is uninitialised. *)
Definition start_editor (a : list Z) : editor :=
  mk_editor a 0 0 (replicate LINE_SIZE 0) 0 (-1) (replicate 16 (replicate LINE_SIZE 0)) 0.

Lemma blank_array : array_ok (replicate LINE_SIZE 0).
Proof. split; [apply length_replicate|]. apply elem_of_replicate. split; [reflexivity|discriminate]. Qed.

Lemma start_shows a : line_ok a -> shows (start_editor a) (mk_buffer [] 0 None []).
Proof.
  intros Ha. split; cbn [start_editor line pos line_len saved_line saved_pos history_index history history_count text cursor recalled past].
  - exact Ha.
  - exists a. reflexivity.
  - constructor.
  - split; [reflexivity|cbn; lia].
  - reflexivity.
  - split; [apply length_replicate|]. apply Forall_replicate, blank_array.
  - exists 0%nat. split; [reflexivity|]. split; [lia|reflexivity].
  - apply length_replicate.
  - reflexivity.
Qed.

(** Two commands, then the first one again from the history with its last letter
    taken away. *)
Lemma editor_refines_witness : exists e',
  presses ([108; 115; 10] ++ [99; 100; 10] ++ [KEY_UP; KEY_UP; 8; 10]) (start_editor (replicate LINE_SIZE 0)) =
    Ret ([[108; 115]; [99; 100]; [108]], e').
Proof.
  destruct (editor_refines ([108; 115; 10] ++ [99; 100; 10] ++ [KEY_UP; KEY_UP; 8; 10]) (start_editor (replicate LINE_SIZE 0)) (mk_buffer [] 0 None []))
    as (e' & E & _).
  - apply start_shows. split; reflexivity.
  - repeat constructor; reflexivity.
  - exists e'. exact E.
Defined.

(** ** An uninitialised line *)

Lemma str_copy_unterminated src : nonzero src -> forall dest, str_copy dest src = Oob.
Proof.
  induction 1 as [|c src Hc _ IH]; intros [|x dest]; try reflexivity. cbn [str_copy].
  rewrite (proj2 (Z.eqb_neq c 0) Hc), IH. reflexivity.
Qed.

Lemma put_first x y r c : put_char (x :: y :: r) 0 c = Ret (c :: y :: r).
Proof. unfold put_char. rewrite (proj2 (Z.ltb_lt _ _)) by (cbn [length]; lia). reflexivity. Qed.
Lemma put_second x y r c : put_char (x :: y :: r) 1 c = Ret (x :: c :: r).
Proof. unfold put_char. rewrite (proj2 (Z.ltb_lt _ _)) by (cbn [length]; lia). reflexivity. Qed.

Lemma parse_letter r : parse_command (97 :: 0 :: r) MAX_ARGS = Ret ([0], 97 :: 0 :: r).
Proof. reflexivity. Qed.

(** C31: The line is not initialised, and typing does not end it with a NUL: if no
    byte of the array happens to be 0, a one-letter command, two more letters and
    the key for the previous line make [strcpy] read past the array. *)
Theorem uninitialised_line_overruns a : length a = LINE_SIZE -> nonzero a -> presses [97; NL; 98; 99; KEY_UP] (start_editor a) = Oob.
Proof.
  intros Hl Hz. destruct a as [|x [|y r]]; [discriminate Hl|discriminate Hl|]. unfold nonzero in Hz. apply Forall_cons in Hz as [_ Hz]. apply Forall_cons in Hz as [_ Hz].
  assert (Hc : array_ok (97 :: 0 :: r)) by (split; [exact Hl|right; left]).
  pose proof (start_shows (replicate LINE_SIZE 0) ltac:(split; reflexivity)) as [_ _ _ _ _ Hh _ _ _]. cbn [history start_editor] in Hh.
  destruct (history_add_spec _ 0 _ Hh ltac:(lia) Hc) as (h' & n & Ea & Hh' & Hn & Hr).
  assert (En : n = 1%nat). { rewrite <- (length_remembered h' n Hh' Hn), Hr. reflexivity. } subst n. change (Z.of_nat 0) with 0 in Ea. change (Z.of_nat 1) with 1 in Ea.
  assert (E1 : press 97 (start_editor (x :: y :: r)) = Ret ([], mk_editor (97 :: y :: r) 1 1 (replicate LINE_SIZE 0) 0 (-1) (replicate 16 (replicate LINE_SIZE 0)) 0)).
  { unfold press, edit_key, key_char, start_editor. cbn [Z.eqb Z.ltb line pos line_len]. rewrite put_first. reflexivity. }
  cbn [presses]. rewrite E1. cbn [mbind exec_bind].
  set (e1 := mk_editor _ _ _ _ _ _ _ _). assert (E2 : press NL e1 = Ret ([[97]], mk_editor (97 :: 0 :: r) 0 0 (replicate LINE_SIZE 0) 0 (-1) h' 1)).
  { unfold press, enter. cbn [Z.eqb e1 line pos history history_count]. rewrite put_second. cbn [mbind exec_bind]. rewrite Ea. cbn [mbind exec_bind line].
    rewrite parse_letter. reflexivity. }
  rewrite E2. cbn [mbind exec_bind]. set (e2 := mk_editor _ _ _ _ _ _ _ _).
  assert (E3 : press 98 e2 = Ret ([], mk_editor (98 :: 0 :: r) 1 1 (replicate LINE_SIZE 0) 0 (-1) h' 1)).
  { unfold press, edit_key, key_char. cbn [Z.eqb Z.ltb e2 line pos line_len]. rewrite put_first. reflexivity. }
  rewrite E3. cbn [mbind exec_bind]. set (e3 := mk_editor _ _ _ _ _ _ _ _).
  assert (E4 : press 99 e3 = Ret ([], mk_editor (98 :: 99 :: r) 2 2 (replicate LINE_SIZE 0) 0 (-1) h' 1)).
  { unfold press, edit_key, key_char. cbn [Z.eqb Z.ltb e3 line pos line_len]. rewrite put_second. reflexivity. }
  rewrite E4. cbn [mbind exec_bind]. unfold press, edit_key, key_up. cbn [Z.eqb line history_count history_index saved_line].
  change (KEY_UP =? NL) with false. change (KEY_UP =? BACKSPACE) with false. rewrite Z.eqb_refl. cbn [Z.eqb Pos.eqb].
  rewrite str_copy_unterminated; [reflexivity|]. constructor; [discriminate|]. constructor; [discriminate|exact Hz].
Qed.

Lemma uninitialised_line_overruns_witness : presses [97; NL; 98; 99; KEY_UP] (start_editor (replicate LINE_SIZE 7)) = Oob.
Proof. apply uninitialised_line_overruns; [apply length_replicate|]. apply Forall_replicate. discriminate. Defined.
