(* ===== verification/Shell.v ===== *)
(** * The shell (user/shell.c)

    The shell is an interactive program that does not end, so it is an interaction
    tree: an event is an [int 0x80] with its registers, or one of the few other
    things the shell does with the machine.  An argument register holds a number or
    points to a string, to bytes, or to room for the kernel's answer; registers a
    wrapper does not set are [Num 0].  The answer is [eax] and what the kernel
    stored, in the order of the registers.  An access outside an array is the event
    [Fault], after which nothing follows.

    The command line is that of LineEdit.  Session lets the kernel answer the calls. *)

From Stdlib Require Import Ascii String.
From ITree Require Import ITree ITreeFacts Events.State Events.StateFacts.
From S2P Require Import Prelude CString InputDev Text Vga LineEdit.
Local Open Scope Z_scope.
Local Open Scope sros_scope.

Inductive arg : Type := Num (v : Z) | Str (s : list Z) | Mem (bs : list Z) | Room (size : Z).

Variant shellE : Type -> Type :=
  | Int80 (eax : Z) (ebx ecx edx : arg) : shellE (Z * list (list Z))
  | KbdHasData : shellE Z
  | Hlt : shellE unit
  | Fault : shellE void.

Definition sh (A : Type) : Type := itree shellE A.

#[export] Instance sh_ret : MRet sh := fun A x => go (RetF x).
#[export] Instance sh_bind : MBind sh := fun A B k m => ITree.bind m k.

Definition int80 (eax : Z) (ebx ecx edx : arg) : sh (Z * list (list Z)) := ITree.trigger (Int80 eax ebx ecx edx).
Definition fault {A} : sh A := ITree.bind (ITree.trigger Fault) (fun v : void => match v with end).

(** A computation on arrays. *)
Definition on_array {A} (m : exec A) : sh A := match m with Ret x => mret x | _ => fault end.

(** ** Wrappers of system calls *)

(** The call's result as an [int]. *)
Definition call (eax : Z) (ebx ecx edx : arg) : sh Z := r ← int80 eax ebx ecx edx; mret (i32 (fst r)).
Definition call_ (eax : Z) (ebx ecx edx : arg) : sh unit := _ ← int80 eax ebx ecx edx; mret tt.

(** The result, and the bytes stored through the first pointer. *)
Definition call_buf (eax : Z) (ebx ecx edx : arg) : sh (Z * list Z) :=
  r ← int80 eax ebx ecx edx; mret (i32 (fst r), hd [] (snd r)).

Definition getchar : sh Z := call 2 (Num 0) (Num 0) (Num 0).
Definition putchar (c : Z) : sh unit := call_ 1 (Num (u32 (i8 c))) (Num 0) (Num 0).
Fixpoint puts (s : list Z) : sh unit :=
  match s with
  | [] => mret tt
  | c :: s => _ ← putchar c; puts s
  end.
Definition say (s : string) : sh unit := puts (chars s).
Arguments say s%_string_scope.

Definition fs_open (path : list Z) : sh Z := call 4 (Str path) (Num 0) (Num 0).
Definition fs_read (fd count : Z) : sh (Z * list Z) := call_buf 5 (Num (u32 fd)) (Room count) (Num (u32 count)).
Definition fs_write (fd : Z) (buf : list Z) (count : Z) : sh Z := call 6 (Num (u32 fd)) (Mem buf) (Num (u32 count)).
Definition fs_close (fd : Z) : sh unit := call_ 7 (Num (u32 fd)) (Num 0) (Num 0).
Definition fs_create (name : list Z) : sh Z := call 8 (Str name) (Num 0) (Num 0).

(** [puts(buf)] for an array of [size] characters, with a NUL stored at [n]. *)
Definition puts_buf (size n : Z) (bytes : list Z) : sh unit :=
  if (n <? 0) || (size <=? n) then fault else puts (cstr (take (Z.to_nat n) bytes)).

Definition fs_ls : sh unit :=
  r ← call_buf 9 (Room 512) (Num 512) (Num 0);
  let '(n, bytes) := r in
  if 0 <? n then _ ← puts_buf 512 n bytes; putchar NL else mret tt.

Definition sys_kmalloc (size : Z) : sh Z := r ← int80 10 (Num size) (Num 0) (Num 0); mret (u32 (fst r)).
Definition sys_kfree (ptr : Z) : sh unit := call_ 11 (Num ptr) (Num 0) (Num 0).
Definition sys_kmdump : sh unit := call_ 12 (Num 0) (Num 0) (Num 0).
Definition sys_exec (path : list Z) : sh Z := call 13 (Str path) (Num 0) (Num 0).
Definition sys_sem_init (name : list Z) (val : Z) : sh Z := call 17 (Str name) (Num (u32 val)) (Num 0).
Definition sys_sem_wait (sem_id : Z) : sh Z := call 18 (Num (u32 sem_id)) (Num 0) (Num 0).
Definition sys_sem_post (sem_id : Z) : sh Z := call 19 (Num (u32 sem_id)) (Num 0) (Num 0).
Definition sys_sem_destroy (sem_id : Z) : sh Z := call 20 (Num (u32 sem_id)) (Num 0) (Num 0).
Definition sys_msg_get : sh Z := call 21 (Num 0) (Num 0) (Num 0).
Definition sys_msg_send (mq_id : Z) (buf : list Z) (len : Z) : sh Z := call 22 (Num (u32 mq_id)) (Mem buf) (Num len).
(** The result, the message, and the length as its four bytes. *)
Definition sys_msg_recv (mq_id : Z) : sh (Z * list (list Z)) :=
  r ← int80 23 (Num (u32 mq_id)) (Room 64) (Room 4); mret (i32 (fst r), snd r).
Definition sys_msg_destroy (mq_id : Z) : sh Z := call 24 (Num (u32 mq_id)) (Num 0) (Num 0).
Definition sys_fork : sh Z := call 15 (Num 0) (Num 0) (Num 0).
Definition sys_exit (code : Z) : sh unit := call_ 14 (Num (u32 code)) (Num 0) (Num 0).
Definition sys_wait (pid : Z) : sh Z := call 16 (Num (u32 pid)) (Num 0) (Num 0).
Definition sys_mouse_has_data : sh Z := call 25 (Num 0) (Num 0) (Num 0).
Definition sys_mouse_read : sh mouse_event :=
  r ← int80 26 (Room 3) (Num 0) (Num 0);
  let ev := hd [] (snd r) in
  mret (mk_event (ev !!! 0%nat) (i8 (ev !!! 1%nat)) (i8 (ev !!! 2%nat))).

(** ** Numbers *)

Definition hex_digit (d : Z) : Z := if d <? 10 then 48 + d else 97 + d - 10.

(** The string built in [buf]. *)
Definition hex_text (val : Z) : list Z :=
  [48; 120] ++ ((fun i : nat => hex_digit (Z.shiftr val (28 - Z.of_nat i * 4) .& 0xF)) <$> seq 0 8).
Definition puthex (val : Z) : sh unit := puts (hex_text val).

Definition hex_value (c : Z) : option Z :=
  if (48 <=? c) && (c <=? 57) then Some (c - 48)
  else if (97 <=? c) && (c <=? 102) then Some (c - 97 + 10)
  else if (65 <=? c) && (c <=? 70) then Some (c - 65 + 10)
  else None.

(** [val <<= 4] comes before the test of the character. *)
Fixpoint hex_loop (val : Z) (s : list Z) : Z :=
  match s with
  | [] => val
  | c :: s =>
      let val := u32 (Z.shiftl val 4) in
      match hex_value c with Some d => hex_loop (val .| d) s | None => val end
  end.
Definition hextoi (s : list Z) : Z :=
  hex_loop 0 (match s with
              | c :: x :: t => if (c =? 48) && ((x =? 120) || (x =? 88)) then t else s
              | _ => s
              end).

(** [None] when a character is no digit. *)
Fixpoint dec_loop (size : Z) (s : list Z) : option Z :=
  match s with
  | [] => Some size
  | c :: s => if (c <? 48) || (57 <? c) then None else dec_loop (u32 (size * 10 + (c - 48))) s
  end.

(** ** Commands; [argv] are the words of the line *)

Definition cmd_kmalloc (argv : list (list Z)) : sh unit :=
  match argv with
  | _ :: a :: _ =>
      match dec_loop 0 a with
      | None => say "Invalid size" ≫= fun _ => putchar NL
      | Some size =>
          ptr ← sys_kmalloc size;
          _ ← say "kmalloc(";
          _ ← puts a;
          _ ← say ") = ";
          _ ← puthex ptr;
          putchar NL
      end
  | _ => _ ← say "Usage: kmalloc <size>"; putchar NL
  end.

Definition cmd_kfree (argv : list (list Z)) : sh unit :=
  match argv with
  | _ :: a :: _ =>
      let addr := hextoi a in
      _ ← sys_kfree addr;
      _ ← say "freed ";
      _ ← puthex addr;
      putchar NL
  | _ => _ ← say "Usage: kfree <hexaddr>"; _ ← putchar NL; _ ← say "Example: kfree 0x200004"; putchar NL
  end.

(** [puts] of a text with a line end. *)
Definition say_line (s : string) : sh unit := _ ← say s; putchar NL.
Arguments say_line s%_string_scope.
Fixpoint say_lines (ls : list string) : sh unit :=
  match ls with
  | [] => mret tt
  | l :: ls => _ ← say_line l; say_lines ls
  end.

Definition help_lines : list string := [
  "Available commands:";
  "  help           - Show this help";
  "  echo <text>    - Print text";
  "  clear          - Clear screen";
  "  ls             - List files";
  "  cat <file>     - Show file content";
  "  touch <file>   - Create a file";
  "  write <file> <text> - Write text to file";
  "  kmalloc <size>      - Allocate heap memory";
  "  kfree <hexaddr>     - Free heap memory";
  "  kmdump              - Dump heap state";
  "  exec <file>         - Execute a user program";
  "  fork_test           - Test fork/wait/exit";
  "  sem_test            - Test semaphore (create/wait/post/destroy)";
  "  msg_test            - Test message queue (send/recv)"
]%string.

(** The bytes of the last line, whose explanation is in Chinese. *)
Definition help_mouse : list Z :=
  chars "  mouse               - " ++
  [229; 174; 158; 230; 151; 182; 230; 152; 190; 231; 164; 186; 233; 188; 160; 230; 160; 135; 228; 186; 139; 228; 187; 182; NL].
Definition cmd_help : sh unit := _ ← say_lines help_lines; puts help_mouse.

Fixpoint echo_words (ws : list (list Z)) : sh unit :=
  match ws with
  | [] => mret tt
  | [w] => puts w
  | w :: ws => _ ← puts w; _ ← putchar SPACE; echo_words ws
  end.
Definition cmd_echo (argv : list (list Z)) : sh unit := _ ← echo_words (tail argv); putchar NL.

Definition mouse_format_buttons (btns : Z) : list Z :=
  [if c_true (btns .& 0x01) then 76 else 45; if c_true (btns .& 0x04) then 77 else 45; if c_true (btns .& 0x02) then 82 else 45].

(** One movement, with its padding. *)
Definition put_delta (d : Z) : sh unit :=
  _ ← (if 0 <=? d then putchar SPACE else mret tt);
  _ ← putchar SPACE;
  _ ← (if (d <? -9) || (99 <? d) then mret tt else putchar SPACE);
  _ ← puthex (u8 d);
  putchar SPACE.

Definition put_if (b : bool) (c : Z) : sh unit := if b then putchar c else mret tt.

(** One pass of the loop: [true] when a key was pressed. *)
Definition mouse_pass : sh bool :=
  k ← ITree.trigger KbdHasData;
  if c_true k then mret true
  else
    m ← sys_mouse_has_data;
    if m =? 0 then mret false
    else
      ev ← sys_mouse_read;
      _ ← putchar CR;
      _ ← putchar SPACE;
      _ ← put_delta (dx ev);
      _ ← put_delta (dy ev);
      _ ← puts (mouse_format_buttons (buttons ev));
      _ ← putchar SPACE;
      _ ← (if c_true (buttons ev) then
             _ ← putchar 40;
             _ ← put_if (c_true (buttons ev .& 0x01)) 76;
             _ ← put_if (c_true (buttons ev .& 0x02)) 82;
             _ ← put_if (c_true (buttons ev .& 0x04)) 77;
             putchar 41
           else mret tt);
      mret false.

Definition cmd_mouse : sh unit :=
  _ ← say_line "Mouse monitor: move/click to see events. Press any key to exit.";
  _ ← say_line "  dx   dy   buttons";
  _ ← ITree.iter (fun _ : unit => b ← mouse_pass; mret (if (b : bool) then inr tt else inl tt)) tt;
  putchar NL.

Definition cmd_clear : sh unit := call_ 3 (Num 0) (Num 0) (Num 0).
Definition cmd_ls : sh unit := fs_ls.

(** [char path[64]]: a slash and the name. *)
Definition make_path (name : list Z) : sh (list Z) :=
  a ← on_array (str_copy (replicate 63 0) (name ++ [0]));
  mret (47 :: cstr a).

(** [while ((n = fs_read(fd, buf, 255)) > 0)] *)
Definition cat_pass (fd : Z) : sh bool :=
  r ← fs_read fd 255;
  let '(n, bytes) := r in
  if 0 <? n then _ ← puts_buf 256 n bytes; mret false else mret true.
Definition cat_loop (fd : Z) : sh unit :=
  ITree.iter (fun _ : unit => b ← cat_pass fd; mret (if (b : bool) then inr tt else inl tt)) tt.

Definition cmd_cat (argv : list (list Z)) : sh unit :=
  match argv with
  | _ :: name :: _ =>
      path ← make_path name;
      fd ← fs_open path;
      if fd <? 0 then _ ← say "File not found: "; _ ← puts name; putchar NL
      else
        _ ← cat_loop fd;
        _ ← putchar NL;
        fs_close fd
  | _ => say_line "Usage: cat <filename>"
  end.

Definition cmd_touch (argv : list (list Z)) : sh unit :=
  match argv with
  | _ :: name :: _ =>
      r ← fs_create name;
      _ ← (if r =? 0 then say "Created: " else say "Failed: ");
      _ ← puts name;
      putchar NL
  | _ => say_line "Usage: touch <filename>"
  end.

Definition cmd_write (argv : list (list Z)) : sh unit :=
  match argv with
  | _ :: name :: txt :: _ =>
      _ ← fs_create name;
      path ← make_path name;
      fd ← fs_open path;
      if fd <? 0 then _ ← say "Cannot open: "; _ ← puts name; putchar NL
      else
        _ ← fs_write fd txt (Z.of_nat (length txt));
        _ ← fs_close fd;
        _ ← say "Written to: ";
        _ ← puts name;
        putchar NL
  | _ => say_line "Usage: write <filename> <text>"
  end.

Definition cmd_exec (argv : list (list Z)) : sh unit :=
  match argv with
  | _ :: name :: _ =>
      path ← make_path name;
      _ ← say "Loading: ";
      _ ← puts name;
      _ ← putchar NL;
      ret ← sys_exec path;
      if ret <? 0 then say_line "Error: Failed to load program" else mret tt
  | _ => say_line "Usage: exec <filename>"
  end.

Definition halt_forever : sh unit := ITree.iter (fun _ : unit => _ ← ITree.trigger Hlt; mret (inl tt)) tt.

Definition cmd_fork_test : sh unit :=
  _ ← say_line "Fork test: about to fork...";
  pid ← sys_fork;
  if pid <? 0 then say_line "Fork failed!"
  else if pid =? 0 then
    _ ← say_line "Child process: about to exit...";
    _ ← sys_exit 42;
    _ ← say_line "[BUG] Child: sys_exit returned to user mode!";
    halt_forever
  else
    _ ← say "Parent process: PID=";
    _ ← puthex (u32 pid);
    _ ← putchar NL;
    _ ← say_line "Parent: waiting for child...";
    ret ← sys_wait (-1);
    _ ← say "Parent: wait returned PID=";
    _ ← puthex (u32 ret);
    _ ← putchar NL;
    say_line "Parent: done.".

Definition cmd_sem_test : sh unit :=
  _ ← say_line "Semaphore test: creating semaphore with initial value 1";
  sem_id ← sys_sem_init (chars "test_sem") 1;
  if sem_id <? 0 then say_line "Failed to create semaphore!"
  else
    _ ← say "Semaphore created, id=";
    _ ← puthex (u32 sem_id);
    _ ← putchar NL;
    _ ← say_line "Waiting (P operation)...";
    _ ← sys_sem_wait sem_id;
    _ ← say_line "Acquired semaphore (value was 1, now 0)";
    child_pid ← sys_fork;
    if child_pid =? 0 then
      _ ← say_line "Child: trying to wait on semaphore...";
      _ ← sys_sem_wait sem_id;
      _ ← say_line "Child: acquired semaphore!";
      _ ← sys_sem_post sem_id;
      _ ← say_line "Child: posted semaphore, exiting.";
      sys_exit 0
    else
      _ ← say_line "Parent: holding semaphore for a while...";
      _ ← say_line "Parent: posting semaphore...";
      _ ← sys_sem_post sem_id;
      _ ← say_line "Parent: waiting for child...";
      _ ← sys_wait (-1);
      _ ← sys_sem_destroy sem_id;
      say_line "Semaphore test done.".

(** The length is read from the variable the call has stored. *)
Definition cmd_msg_test : sh unit :=
  _ ← say_line "Message queue test: creating queue";
  mq_id ← sys_msg_get;
  if mq_id <? 0 then say_line "Failed to create message queue!"
  else
    _ ← say "Message queue created, id=";
    _ ← puthex (u32 mq_id);
    _ ← putchar NL;
    child_pid ← sys_fork;
    if child_pid =? 0 then
      _ ← say_line "Child: waiting for message...";
      r ← sys_msg_recv mq_id;
      match snd r with
      | [bytes; len] =>
          _ ← say "Child: received '";
          _ ← puts_buf 64 (le_val len) bytes;
          _ ← say_line "'";
          sys_exit 0
      | _ => fault
      end
    else
      let msg := chars "Hello from parent!" in
      _ ← say_line "Parent: sending message...";
      _ ← sys_msg_send mq_id msg (Z.of_nat (length msg));
      _ ← say_line "Parent: waiting for child...";
      _ ← sys_wait (-1);
      _ ← sys_msg_destroy mq_id;
      say_line "Message queue test done.".

(** ** The loop *)

Definition run_command (argv : list (list Z)) : sh unit :=
  match argv with
  | [] => mret tt
  | name :: _ =>
      let named (s : string) := bool_decide (name = chars s) in
      if named "echo"%string then cmd_echo argv
      else if named "clear"%string then cmd_clear
      else if named "help"%string then cmd_help
      else if named "ls"%string then cmd_ls
      else if named "cat"%string then cmd_cat argv
      else if named "touch"%string then cmd_touch argv
      else if named "write"%string then cmd_write argv
      else if named "kmalloc"%string then cmd_kmalloc argv
      else if named "kfree"%string then cmd_kfree argv
      else if named "kmdump"%string then sys_kmdump
      else if named "exec"%string then cmd_exec argv
      else if named "fork_test"%string then cmd_fork_test
      else if named "sem_test"%string then cmd_sem_test
      else if named "msg_test"%string then cmd_msg_test
      else if named "mouse"%string then cmd_mouse
      else say_line "Error: Unknown command"
  end.

(** The array after the command. *)
Definition execute (a : list Z) : sh (list Z) :=
  r ← on_array (parse_command a MAX_ARGS);
  let '(argv, a) := r in
  _ ← run_command (arg_at a <$> argv);
  mret a.

Definition prompt : sh unit := say "SRos> ".

(** One pass of the loop. *)
Definition shell_pass (e : editor) : sh editor :=
  c ← getchar;
  if c =? NL then
    _ ← putchar NL;
    e ← on_array (enter e);
    a ← execute (line e);
    _ ← prompt;
    mret (fresh_line a e)
  else
    r ← on_array (edit_key c e);
    let '(out, e) := r in
    _ ← puts out;
    mret e.

(** [a] is what the stack holds where the line is. *)
Definition shell_main (a : list Z) : sh void :=
  _ ← prompt;
  ITree.iter (fun e => e ← shell_pass e; mret (inl e)) (start_editor a).

(** ** Numbers there and back *)

Lemma hex_value_digit d : 0 <= d < 16 -> hex_value (hex_digit d) = Some d.
Proof.
  intros H. assert (Hd : In (Z.to_nat d) (seq 0 16)) by (apply in_seq; lia). rewrite <- (Z2Nat.id d) by lia.
  revert Hd. generalize (Z.to_nat d). clear. intros k Hk. cbn in Hk. repeat (destruct Hk as [<-|Hk]; [reflexivity|]). contradiction.
Qed.

Lemma hex_loop_digits ds : forall v, Forall (fun d => 0 <= d < 16) ds ->
  hex_loop v (hex_digit <$> ds) = foldl (fun v d => u32 (Z.shiftl v 4) .| d) v ds.
Proof.
  induction ds as [|d ds IH]; intros v H; [reflexivity|]. apply Forall_cons in H as [Hd H]. cbn [fmap list_fmap hex_loop foldl].
  rewrite hex_value_digit by exact Hd. apply IH, H.
Qed.

(** One digit more. *)
Lemma hex_step v k : 0 <= v < 4294967296 -> 0 <= k < 8 ->
  u32 (Z.shiftl (Z.shiftr v (32 - k * 4)) 4) .| (Z.shiftr v (28 - k * 4) .& 0xF) = Z.shiftr v (28 - k * 4).
Proof.
  intros Hv Hk. apply Z.bits_inj'. intros i Hi. unfold u32. change 4294967296 with (2 ^ 32). change 0xF with (Z.ones 4).
  rewrite Z.lor_spec, Z.land_spec, Z.shiftr_spec, Z.testbit_ones_nonneg by lia.
  destruct (Z.ltb_spec i 4).
  - rewrite andb_true_r. rewrite Z.mod_pow2_bits_low, Z.shiftl_spec_low by lia. reflexivity.
  - rewrite andb_false_r, orb_false_r. destruct (decide (i < 32)).
    + rewrite Z.mod_pow2_bits_low, Z.shiftl_spec, Z.shiftr_spec by lia. f_equal. lia.
    + rewrite Z.mod_pow2_bits_high by lia. symmetry. destruct (decide (v = 0)) as [->|Hnz]; [apply Z.bits_0|].
      apply Z.bits_above_log2; [lia|]. apply Z.log2_lt_pow2; [lia|].
      apply Z.lt_le_trans with (2 ^ 32); [lia|]. apply Z.pow_le_mono_r; lia.
Qed.

Lemma hex_prefix v k : 0 <= v < 4294967296 -> (k <= 8)%nat ->
  foldl (fun v d => u32 (Z.shiftl v 4) .| d) 0 ((fun i : nat => Z.shiftr v (28 - Z.of_nat i * 4) .& 0xF) <$> seq 0 k) =
    Z.shiftr v (32 - Z.of_nat k * 4).
Proof.
  intros Hv. induction k as [|k IH]; intros Hk.
  - cbn [seq fmap list_fmap foldl]. symmetry. rewrite Z.shiftr_div_pow2 by lia. apply Z.div_small. cbn. lia.
  - rewrite seq_S, fmap_app, foldl_app, IH by lia. cbn [fmap list_fmap foldl plus].
    rewrite (hex_step v (Z.of_nat k)) by lia. f_equal. lia.
Qed.

(** The address that [puthex] prints is read back by [hextoi], so
    that the command kfree gets the pointer that the command kmalloc showed. *)
Theorem hex_roundtrip v : is_u32 v -> hextoi (hex_text v) = v.
Proof.
  unfold is_u32. intros Hv. unfold hextoi, hex_text. cbn [app]. change ((48 =? 48) && ((120 =? 120) || (120 =? 88))) with true. cbv iota.
  rewrite (list_fmap_compose (fun i : nat => Z.shiftr v (28 - Z.of_nat i * 4) .& 0xF) hex_digit).
  rewrite hex_loop_digits.
  - rewrite hex_prefix by lia. change (32 - Z.of_nat 8 * 4) with 0. apply Z.shiftr_0_r.
  - apply Forall_fmap, Forall_forall. intros i _. cbn. change 0xF with (Z.ones 4). rewrite Z.land_ones by lia. apply Z.mod_pos_bound. lia.
Qed.

Lemma hex_roundtrip_witness : hextoi (hex_text 0x200004) = 0x200004.
Proof. apply hex_roundtrip. unfold is_u32. lia. Defined.
