(* ===== verification/Session.v ===== *)
(** * The shell on the kernel

    [serve] lets the kernel answer the calls of the shell: a pointer of the shell is
    an address in its stack, where [put_arg] has the argument's bytes, the call is
    [dispatch] of Syscall, and what the kernel stored is read back.  [runs]
    is a program of the shell, served by the kernel, from one state of the system
    to another.  The theorem is about two lines of the shell, from their parsing
    down to the blocks of the disk and the bytes on the serial port. *)

From ITree Require Import ITree ITreeFacts Events.State Events.StateFacts.
From S2P Require Import Prelude CString PortIO InputDev Text Vga Paging Scheduler Ipc Disk Sfs System UserMem Serial Elf Syscall LineEdit Shell.
Local Open Scope Z_scope.
Local Open Scope sros_scope.

(** How a program stops: in a call that does not come back, which leaves the system
    to the other tasks, or at an access outside an array. *)
Variant stuckE (D : Type) : Type -> Type :=
  | Gone (s : system D) : stuckE D void
  | Stuck : stuckE D void.
Arguments Gone {D} s.
Arguments Stuck {D}.

Section served.
Context {D : Type} `{BD : BlockDevice D}.
Context (dev : device) (tx_fuel str_fuel : nat) (bss_end regs : Z).

(** The arrays behind [ebx], [ecx] and [edx] lie at [base], 512 bytes each. *)
Context (base : Z).
Definition AREA : nat := 512.
Definition area (i : Z) : Z := base + Z.of_nat AREA * i.

Definition put_arg (i : Z) (a : arg) : sysop D Z :=
  match a with
  | Num v => mret v
  | Str s => _ ← store (area i) (s ++ [0]); mret (area i)
  | Mem bs => _ ← store (area i) bs; mret (area i)
  | Room _ => mret (area i)
  end.

Definition got_arg (i : Z) (a : arg) : sysop D (list (list Z)) :=
  match a with
  | Room n => bs ← on_mach (read_user (Z.to_nat n) (area i)); mret [bs]
  | _ => mret []
  end.

(** [None] when the call does not return to the process. *)
Definition serve_call (eax : Z) (ebx ecx edx : arg) : sysop D (option (Z * list (list Z))) :=
  b ← put_arg 0 ebx;
  c ← put_arg 1 ecx;
  d ← put_arg 2 edx;
  r ← dispatch dev tx_fuel str_fuel bss_end eax b c d regs;
  match r with
  | Done (Some v) =>
      o0 ← got_arg 0 ebx;
      o1 ← got_arg 1 ecx;
      o2 ← got_arg 2 edx;
      mret (Some (v, o0 ++ o1 ++ o2))
  | _ => mret None
  end.

Definition stuck {A} : itree (stuckE D) A := ITree.bind (ITree.trigger Stuck) (fun v : void => match v with end).
Definition gone {A} (s : system D) : itree (stuckE D) A :=
  ITree.bind (ITree.trigger (Gone s)) (fun v : void => match v with end).

Definition serve (A : Type) (e : shellE A) : Monads.stateT (system D) (itree (stuckE D)) A :=
  match e in shellE A return Monads.stateT (system D) (itree (stuckE D)) A with
  | Int80 eax ebx ecx edx => fun s =>
      match serve_call eax ebx ecx edx s with
      | Ret (Some r, s) => go (RetF (s, r))
      | Ret (None, s) => gone s
      | _ => stuck
      end
  | KbdHasData => fun s => go (RetF (s, kbd_buffer_has_data (os_kbd s)))
  | Hlt => fun s => go (RetF (s, tt))
  | Shell.Fault => fun _ => stuck
  end.

Definition runs {A} (m : sh A) (s s' : system D) (x : A) : Prop :=
  eutt eq (interp_state serve m s) (go (RetF (s', x))).

Lemma runs_ret {A} (x : A) s : runs (mret x) s s x.
Proof. unfold runs, mret, sh_ret. rewrite interp_state_ret. reflexivity. Qed.

Lemma runs_bind {A B} (m : sh A) (k : A -> sh B) s s1 s' x y :
  runs m s s1 x -> runs (k x) s1 s' y -> runs (m ≫= k) s s' y.
Proof.
  unfold runs, mbind, sh_bind. intros H1 H2. rewrite interp_state_bind, H1. rewrite Eqit.bind_ret_l. exact H2.
Qed.

Lemma runs_call eax ebx ecx edx s s' r : serve_call eax ebx ecx edx s = Ret (Some r, s') ->
  runs (int80 eax ebx ecx edx) s s' r.
Proof. intros E. unfold runs, int80. rewrite interp_state_trigger. cbn [serve]. rewrite E. reflexivity. Qed.

(** The program ends in a call that does not return, with the system in [s']. *)
Definition ends {A} (m : sh A) (s s' : system D) : Prop := eutt eq (interp_state serve m s) (gone s').

Lemma gone_bind {A B} s (k : A -> itree (stuckE D) B) : eutt eq (ITree.bind (gone s) k) (gone s).
Proof.
  unfold gone. rewrite Eqit.bind_bind. apply eutt_clo_bind with (UU := eq); [reflexivity|]. intros v. destruct v.
Qed.

Lemma ends_bind {A B} (m : sh A) (k : A -> sh B) s s' : ends m s s' -> ends (m ≫= k) s s'.
Proof. unfold ends, mbind, sh_bind. intros H. rewrite interp_state_bind, H. apply gone_bind. Qed.

Lemma runs_ends {A B} (m : sh A) (k : A -> sh B) s s1 s' x : runs m s s1 x -> ends (k x) s1 s' -> ends (m ≫= k) s s'.
Proof. unfold runs, ends, mbind, sh_bind. intros H1 H2. rewrite interp_state_bind, H1. rewrite Eqit.bind_ret_l. exact H2. Qed.

Lemma ends_call eax ebx ecx edx s s' : serve_call eax ebx ecx edx s = Ret (None, s') -> ends (call_ eax ebx ecx edx) s s'.
Proof.
  intros E. apply ends_bind. unfold ends, int80. rewrite interp_state_trigger. cbn [serve]. rewrite E. reflexivity.
Qed.

(** One more turn of a loop, and the last one. *)
Lemma runs_turn {A B} (f : A -> sh (A + B)) (x y : A) s s1 s' (z : B) :
  runs (f x) s s1 (Datatypes.inl y) -> runs (ITree.iter f y) s1 s' z -> runs (ITree.iter f x) s s' z.
Proof.
  unfold runs. intros H1 H2. rewrite unfold_iter, interp_state_bind, H1. rewrite Eqit.bind_ret_l. cbn [ITree.iter fst snd].
  rewrite interp_state_tau, tau_eutt. exact H2.
Qed.

Lemma runs_last {A B} (f : A -> sh (A + B)) (x : A) s s' (z : B) : runs (f x) s s' (inr z) -> runs (ITree.iter f x) s s' z.
Proof.
  unfold runs. intros H1. rewrite unfold_iter, interp_state_bind, H1. rewrite Eqit.bind_ret_l. cbn [fst snd].
  rewrite interp_state_ret. reflexivity.
Qed.

(** ** The areas of the stack *)

Definition chars_ok (s : list Z) : Prop := Forall (fun c => 0 < c < 256) s.

Record ready (s : system D) : Prop := {
  rd_users : users (os_mach s);
  rd_stack : region (os_mach s) base (3 * AREA)
}.

(** Afterwards the areas are still there, and the port has sent [text]. *)
Record goes (s s' : system D) (text : list Z) : Prop := {
  go_ready : ready s';
  go_sends : exists evs, os_ports s' = os_ports s ++ evs /\ sends SERIAL_COM1 evs text
}.

Lemma goes_trans s1 s2 s3 t1 t2 : goes s1 s2 t1 -> goes s2 s3 t2 -> goes s1 s3 (t1 ++ t2).
Proof.
  intros [_ (e1 & E1 & S1)] [R (e2 & E2 & S2)]. split; [exact R|]. exists (e1 ++ e2).
  rewrite E2, E1, app_assoc. split; [reflexivity|apply sends_app; assumption].
Qed.

Lemma goes_quiet s s' : ready s' -> os_ports s' = os_ports s -> goes s s' [].
Proof. intros R E. split; [exact R|]. exists []. rewrite app_nil_r. split; [exact E|constructor]. Qed.

Lemma area_region s i n : ready s -> 0 <= i < 3 -> (n <= AREA)%nat -> region (os_mach s) (area i) n.
Proof.
  intros [_ R] Hi Hn j Hj. unfold area. replace (base + Z.of_nat AREA * i + j) with (base + (Z.of_nat AREA * i + j)) by lia.
  apply R. unfold AREA in *. lia.
Qed.

Lemma area_nonzero s i : ready s -> 0 <= i < 3 -> area i <> 0.
Proof.
  intros R Hi. pose proof (area_region s i 1 R Hi ltac:(unfold AREA; lia) 0 ltac:(lia)) as M.
  apply mapped_range in M. lia.
Qed.

(** Storing into an area. *)
Lemma store_area s i bs : ready s -> 0 <= i < 3 -> (length bs <= AREA)%nat ->
  exists k, store (area i) bs s = Ret (tt, set_mach k s) /\ ready (set_mach k s) /\ vbytes k (area i) (length bs) = u8 <$> bs.
Proof.
  intros R Hi Hl. pose proof (area_region s i _ R Hi Hl) as A. destruct R as [U R].
  destruct (write_user_spec bs (os_mach s) (area i) U A) as (k & E & (U' & M & _) & V).
  exists k. split; [apply on_mach_ret, E|]. split; [split; [exact U'|apply (region_same_map (os_mach s)); assumption]|].
  apply (vbytes_written (os_mach s)); assumption.
Qed.

Lemma u8_chars s : chars_ok s -> u8 <$> s = s.
Proof. induction 1 as [|c s Hc _ IH]; [reflexivity|]. cbn. rewrite u8_small by (unfold is_u8; lia). f_equal. exact IH. Qed.

Lemma put_str s i p : ready s -> 0 <= i < 3 -> chars_ok p -> (length p < AREA)%nat ->
  exists k, put_arg i (Str p) s = Ret (area i, set_mach k s) /\ ready (set_mach k s) /\ cstr_at k (area i) p.
Proof.
  intros R Hi Hc Hl. assert (Hlen : length (p ++ [0]) = S (length p)) by (rewrite length_app; cbn; lia).
  destruct (store_area s i (p ++ [0]) R Hi ltac:(lia)) as (k & E & R' & V). exists k. split; [|split; [exact R'|]].
  - cbn [put_arg]. rewrite (bind_ret _ _ _ _ _ E). reflexivity.
  - split; [eapply Forall_impl; [exact Hc|cbn; lia]|]. split; [apply (area_region (set_mach k s)); [exact R'|exact Hi|lia]|].
    rewrite <- Hlen, V, fmap_app, u8_chars by exact Hc. reflexivity.
Qed.

Lemma put_mem s i bs : ready s -> 0 <= i < 3 -> chars_ok bs -> (length bs <= AREA)%nat ->
  exists k, put_arg i (Mem bs) s = Ret (area i, set_mach k s) /\ ready (set_mach k s) /\ vbytes k (area i) (length bs) = bs.
Proof.
  intros R Hi Hc Hl. destruct (store_area s i bs R Hi Hl) as (k & E & R' & V). exists k. split; [|split; [exact R'|]].
  - cbn [put_arg]. rewrite (bind_ret _ _ _ _ _ E). reflexivity.
  - rewrite V. apply u8_chars, Hc.
Qed.

(** ** Calls *)

(** A call whose registers are numbers. *)
Lemma numeric_call eax b c d s s' v : dispatch dev tx_fuel str_fuel bss_end eax b c d regs s = Ret (Done (Some v), s') ->
  serve_call eax (Num b) (Num c) (Num d) s = Ret (Some (v, []), s').
Proof. intros E. unfold serve_call. cbn [put_arg got_arg]. unfold mbind, sysop_bind, mret, sysop_ret in *. rewrite E. reflexivity. Qed.

(** A call with a string. *)
Lemma string_call eax p s f' v : ready s -> chars_ok p -> (length p < AREA)%nat ->
  (forall k, ready (set_mach k s) -> cstr_at k (area 0) p ->
     dispatch dev tx_fuel str_fuel bss_end eax (area 0) 0 0 regs (set_mach k s) = Ret (Done (Some v), set_fs f' (set_mach k s))) ->
  exists s', serve_call eax (Str p) (Num 0) (Num 0) s = Ret (Some (v, []), s') /\ os_fs s' = f' /\ goes s s' [].
Proof.
  intros R Hc Hl H. destruct (put_str s 0 p R ltac:(lia) Hc Hl) as (k & E & R' & C). exists (set_fs f' (set_mach k s)).
  split; [|split; [reflexivity|apply goes_quiet; [destruct R'; split; assumption|reflexivity]]].
  unfold serve_call. rewrite (bind_ret _ _ _ _ _ E). cbn [put_arg got_arg]. unfold mbind, sysop_bind, mret, sysop_ret in *.
  rewrite (H k R' C). reflexivity.
Qed.

Lemma runs_call_value eax ebx ecx edx s s' v : serve_call eax ebx ecx edx s = Ret (Some (v, []), s') ->
  runs (call eax ebx ecx edx) s s' (i32 v) /\ runs (call_ eax ebx ecx edx) s s' tt.
Proof.
  intros E. apply runs_call in E. split; (eapply runs_bind; [exact E|]); apply runs_ret.
Qed.

Lemma i32_u32_small v : 0 <= v < 2147483648 -> i32 (u32 v) = v.
Proof. intros H. rewrite u32_small, i32_small by lia. reflexivity. Qed.

Lemma chars_string s : chars_ok s -> c_string s.
Proof. intros H. eapply Forall_impl; [exact H|]. cbn. lia. Qed.

(** The file system holds [B], is mounted, and has these open files. *)
Record files (s : system D) (B : blockmap) (t : list file) : Prop := {
  fl_holds : holds (os_fs s) B;
  fl_mounted : mounted (os_fs s) <> 0;
  fl_table : file_table (os_fs s) = t
}.

Lemma run_create s B t name : ready s -> files s B t -> chars_ok name -> (length name < MAX_FILENAME)%nat -> (length name < str_fuel)%nat ->
  fs_ok B -> used_inode B ROOT_INO = true -> dir_ok B (inode_at B ROOT_INO) ->
  lookup_in (entries B (inode_at B ROOT_INO)) name = None ->
  (exists e, e ∈ entries B (inode_at B ROOT_INO) /\ d_ino e = 0) ->
  (exists m, valid_ino m /\ used_inode B m = false) ->
  exists n B' s', runs (fs_create name) s s' 0 /\ goes s s' [] /\ files s' B' t /\ created B ROOT_INO name n B'.
Proof.
  intros R [H M T] Hc Hl Hf O Hu Hd Hn He Hi. pose proof (chars_string _ Hc) as Hz.
  destruct (does_create B ROOT_INO name O ltac:(split; reflexivity) Hu Hd Hz Hl Hn He Hi) as (n & B' & Hdo & C).
  destruct (Hdo _ H) as (f' & E & H' & T' & M'). exists n, B'.
  destruct (string_call SYS_FS_CREATE name s f' 0 R Hc) as (s' & Es & Ef & G).
  - unfold MAX_FILENAME, AREA in *. lia.
  - intros k Rk Ck. change (dispatch dev tx_fuel str_fuel bss_end SYS_FS_CREATE (area 0) 0 0 regs) with (call_fs_create (D := D) str_fuel (area 0)).
    unfold call_fs_create. rewrite (bind_ret _ _ _ _ _ (user_str_ret _ (set_mach k s) _ _ (rd_users _ Rk) Ck Hf)).
    rewrite (bind_ret _ _ _ _ _ (on_fs_ret _ (set_mach k s) _ _ E)). destruct (cr_ino _ _ _ _ _ C) as ([Hp _] & _).
    destruct (Z.leb_spec 0 n); [reflexivity|lia].
  - exists s'. split; [apply (proj1 (runs_call_value _ _ _ _ _ _ _ Es))|]. split; [exact G|]. split; [|exact C].
    split; rewrite Ef; [exact H'|rewrite M'; exact M|rewrite T'; exact T].
Qed.

(** Descriptor [fd] is the lowest free one. *)
Definition lowest_free (t : list file) (fd : nat) : Prop :=
  length t = Z.to_nat MAX_FILES /\ (exists f, t !! fd = Some f /\ f_in_use f = 0) /\ Forall (fun f => f_in_use f <> 0) (take fd t).

Lemma run_open s B t name n fd : ready s -> files s B t -> chars_ok name -> (length name < MAX_FILENAME)%nat -> (S (length name) < str_fuel)%nat ->
  name <> [] -> hd 0 name <> 47 -> fs_ok B -> dir_ok B (inode_at B ROOT_INO) ->
  lookup_in (entries B (inode_at B ROOT_INO)) name = Some n -> valid_ino n -> used_inode B n = true -> lowest_free t fd ->
  exists s', runs (Shell.fs_open (47 :: name)) s s' (Z.of_nat fd) /\ goes s s' [] /\ files s' B (<[fd := mk_file n 0 2 1]> t) /\
    opened (os_fs s') B (Z.of_nat fd) (mk_file n 0 2 1).
Proof.
  intros R [H M T] Hc Hl Hf Hne Hs O Hd Hn Vn Un (Tl & (f & Tf & Tu) & Tt). pose proof (chars_string _ Hc) as Hz. subst t.
  assert (Hfd : (fd < Z.to_nat MAX_FILES)%nat) by (rewrite <- Tl; apply lookup_lt_Some in Tf; exact Tf).
  destruct (open_effect (os_fs s) B 1 name n fd f H O M Hd Hz Hne Hs Hn Vn Un Tl Hfd Tf Tu Tt) as (f' & E & Op & M' & T').
  destruct (string_call SYS_FS_OPEN (47 :: name) s f' (Z.of_nat fd) R) as (s' & Es & Ef & G).
  - constructor; [lia|exact Hc].
  - cbn [length]. unfold MAX_FILENAME, AREA in *. lia.
  - intros k Rk Ck. change (dispatch dev tx_fuel str_fuel bss_end SYS_FS_OPEN (area 0) 0 0 regs) with (call_fs_open (D := D) str_fuel (area 0)).
    unfold call_fs_open, user_str_opt. rewrite (proj2 (Z.eqb_neq _ _) (area_nonzero _ 0 Rk ltac:(lia))).
    erewrite bind_ret; [|erewrite bind_ret; [reflexivity|]; apply (user_str_ret _ (set_mach k s) _ _ (rd_users _ Rk) Ck); cbn [length]; lia].
    rewrite (bind_ret _ _ _ _ _ (on_fs_ret _ (set_mach k s) _ _ E)). unfold done. rewrite u32_small by (unfold MAX_FILES in Hfd; lia). reflexivity.
  - exists s'. split; [|split; [exact G|]].
    + pose proof (proj1 (runs_call_value _ _ _ _ _ _ _ Es)) as Hr. rewrite i32_small in Hr by (unfold MAX_FILES in Hfd; lia). exact Hr.
    + rewrite <- Ef in *. split; [split; [apply Op|rewrite M'; exact M|exact T']|exact Op].
Qed.

Lemma run_close s B t fd : ready s -> files s B t -> 0 <= fd < MAX_FILES ->
  exists s', runs (Shell.fs_close fd) s s' tt /\ goes s s' [] /\
    files s' B (alter (fun f => mk_file (f_ino f) (f_offset f) (f_mode f) 0) (Z.to_nat fd) t).
Proof.
  intros R [H M T] Hfd. destruct H as [H1 H2 H3]. destruct (os_fs s) as [d sb m ft] eqn:Ef. cbn in *.
  set (f' := mk_fs d sb m (alter (fun f => mk_file (f_ino f) (f_offset f) (f_mode f) 0) (Z.to_nat fd) t)).
  assert (E : sys_close fd (os_fs s) = Ret (tt, f')).
  { unfold sys_close. rewrite Ef. destruct (Z.ltb_spec fd 0); [lia|]. destruct (Z.leb_spec MAX_FILES fd); [lia|]. subst t. reflexivity. }
  exists (set_fs f' s). split; [|split; [apply goes_quiet; [destruct R; split; assumption|reflexivity]|]].
  - refine (proj2 (runs_call_value _ _ _ _ _ _ 0 _)). apply numeric_call.
    change (dispatch dev tx_fuel str_fuel bss_end 7 (u32 fd) 0 0 regs) with (call_fs_close (D := D) (u32 fd)).
    unfold call_fs_close. rewrite i32_u32_small by (unfold MAX_FILES in Hfd; lia). rewrite (bind_ret _ _ _ _ _ (on_fs_ret _ _ _ _ E)). reflexivity.
  - split; [split; assumption|exact M|reflexivity].
Qed.

Lemma run_write s B t fd f txt : ready s -> files s B t -> opened (os_fs s) B fd f -> chars_ok txt -> (length txt <= AREA)%nat ->
  f_offset f + Z.of_nat (length txt) < 4294967296 ->
  exists n B' s', runs (Shell.fs_write fd txt (Z.of_nat (length txt))) s s' n /\ goes s s' [] /\
    0 <= n <= Z.of_nat (length txt) /\
    (n < Z.of_nat (length txt) -> f_offset f + n = 49152 \/ disk_full B') /\
    file_of B' (f_ino f) = splice (Z.to_nat (f_offset f)) (take (Z.to_nat n) txt) (file_of B (f_ino f)) /\
    (forall m, used_inode B' m = used_inode B m) /\
    (forall m, valid_ino m -> m <> f_ino f -> used_inode B m = true ->
       inode_at B' m = inode_at B m /\ file_of B' m = file_of B m /\
       forall b, b ∈ file_blocks (inode_at B m) -> B' b = B b) /\
    let f' := mk_file (f_ino f) (f_offset f + n) (f_mode f) (f_in_use f) in
    files s' B' (<[Z.to_nat fd := f']> t) /\ opened (os_fs s') B' fd f'.
Proof.
  intros R [_ M T] O Hc Hl Hmax. destruct (write_effect (os_fs s) B fd f txt O Hmax) as (n & g & B' & E & Hn & Hfull & Hfile & HU & Hoth & O' & T' & M').
  destruct (put_mem s 1 txt R ltac:(lia) Hc Hl) as (k & Ep & Rk & V).
  pose proof (area_region _ 1 _ Rk ltac:(lia) Hl) as A. pose proof (op_fd _ _ _ _ O) as Hfd. unfold AREA in Hl.
  assert (Es : serve_call 6 (Num (u32 fd)) (Mem txt) (Num (u32 (Z.of_nat (length txt)))) s = Ret (Some (n, []), set_fs g (set_mach k s))).
  { unfold serve_call. unfold put_arg at 1. rewrite (bind_ret _ _ s (u32 fd) s eq_refl), (bind_ret _ _ _ _ _ Ep).
    unfold put_arg. rewrite (bind_ret _ _ (set_mach k s) (u32 (Z.of_nat (length txt))) (set_mach k s) eq_refl).
    change (dispatch dev tx_fuel str_fuel bss_end 6 (u32 fd) (area 1) (u32 (Z.of_nat (length txt))) regs)
      with (call_fs_write (D := D) (u32 fd) (area 1) (u32 (Z.of_nat (length txt)))).
    erewrite bind_ret.
    2:{ unfold call_fs_write. rewrite (bind_ret _ _ (set_mach k s) k (set_mach k s) eq_refl). cbv zeta.
    rewrite !i32_u32_small by (unfold MAX_FILES in *; lia). rewrite u32_small by lia.
    rewrite Z.min_l by (change MAX_FILE_BYTES with 49152; lia). rewrite Nat2Z.id.
    rewrite (mapped_prefix_spec (length txt) k (area 1) (rd_users _ Rk) A), V.
    rewrite (bind_ret _ _ _ _ _ (on_fs_ret _ (set_mach k s) _ _ E)). destruct (Z.ltb_spec (Z.of_nat (length txt)) n); [lia|].
    unfold done, mret, sysop_ret. rewrite u32_small by lia. reflexivity. }
    reflexivity. }
  exists n, B', (set_fs g (set_mach k s)). split.
  { pose proof (proj1 (runs_call_value _ _ _ _ _ _ _ Es)) as Hr. rewrite i32_small in Hr by lia. exact Hr. }
  split; [apply goes_quiet; [destruct Rk; split; assumption|reflexivity]|]. split; [exact Hn|]. split; [exact Hfull|]. split; [exact Hfile|].
  split; [exact HU|]. split; [exact Hoth|]. split; [|exact O'].
  split; [apply O'|cbn; rewrite M'; exact M|cbn; rewrite T', T; reflexivity].
Qed.

Lemma vbytes_take k va n m : (n <= m)%nat -> take n (vbytes k va m) = vbytes k va n.
Proof. intros H. unfold vbytes. rewrite <- fmap_take. f_equal. replace m with (n + (m - n))%nat by lia. rewrite seq_app, take_app_le by (rewrite length_seq; lia). apply take_ge. rewrite length_seq. lia. Qed.

(** The bytes come in the first part of the array. *)
Lemma run_read s B t fd f : ready s -> files s B t -> opened (os_fs s) B fd f -> f_offset f + 255 < 4294967296 ->
  let bytes := slice (Z.to_nat (f_offset f)) 255 (file_of B (f_ino f)) in
  chars_ok bytes ->
  exists buf s', runs (Shell.fs_read fd 255) s s' (Z.of_nat (length bytes), buf) /\ take (length bytes) buf = bytes /\ goes s s' [] /\
    let f' := mk_file (f_ino f) (f_offset f + Z.of_nat (length bytes)) (f_mode f) (f_in_use f) in
    files s' B (<[Z.to_nat fd := f']> t) /\ opened (os_fs s') B fd f'.
Proof.
  intros R [_ M T] O Hmax bytes Hc. destruct (read_effect (os_fs s) B fd f 255 O ltac:(lia) Hmax) as (g & E & O' & T' & M').
  change (Z.to_nat 255) with 255%nat in E, O', T'. fold bytes in E, O', T'.
  assert (Hl : (length bytes <= 255)%nat) by (unfold bytes, slice; rewrite length_take; lia).
  set (s1 := set_fs g s). assert (R1 : ready s1) by (destruct R; split; assumption).
  destruct (store_area s1 1 bytes R1 ltac:(lia) ltac:(unfold AREA; lia)) as (k & Ek & Rk & V). set (s2 := set_mach k s1) in *.
  pose proof (area_region _ 1 255 Rk ltac:(lia) ltac:(unfold AREA; lia)) as A. pose proof (op_fd _ _ _ _ O) as Hfd.
  assert (Es : serve_call 5 (Num (u32 fd)) (Room 255) (Num (u32 255)) s = Ret (Some (Z.of_nat (length bytes), [vbytes k (area 1) 255]), s2)).
  { unfold serve_call. unfold put_arg. rewrite (bind_ret _ _ s (u32 fd) s eq_refl), (bind_ret _ _ s (area 1) s eq_refl), (bind_ret _ _ s (u32 255) s eq_refl).
    change (dispatch dev tx_fuel str_fuel bss_end 5 (u32 fd) (area 1) (u32 255) regs) with (call_fs_read (D := D) (u32 fd) (area 1) (u32 255)).
    erewrite bind_ret.
    2:{ unfold call_fs_read. rewrite !i32_u32_small by (unfold MAX_FILES in *; lia). rewrite (bind_ret _ _ _ _ _ (on_fs_ret _ _ _ _ E)).
        fold s1. rewrite (bind_ret _ _ _ _ _ Ek). unfold done. rewrite u32_small by lia. reflexivity. }
    cbn [got_arg]. change (Z.to_nat 255) with 255%nat. rewrite (bind_ret _ _ s2 [] s2 eq_refl). unfold mbind, sysop_bind.
    rewrite (on_mach_ret _ s2 _ _ (read_user_spec 255 k (area 1) (rd_users _ Rk) A)). reflexivity. }
  exists (vbytes k (area 1) 255), s2. split; [|split; [|split]].
  - pose proof (runs_call _ _ _ _ _ _ _ Es) as Hr. unfold Shell.fs_read, call_buf. eapply runs_bind; [exact Hr|].
    cbn [fst snd hd]. rewrite i32_small by lia. apply runs_ret.
  - rewrite vbytes_take, V by exact Hl. apply u8_chars, Hc.
  - apply goes_quiet; [exact Rk|reflexivity].
  - cbv zeta. split; [|exact O']. split; [apply O'|cbn; rewrite M'; exact M|cbn; rewrite T', T; reflexivity].
Qed.

(** ** Output *)

Context (Huart : uart_ready tx_fuel SERIAL_COM1 dev).

Lemma run_putchar s c : ready s -> 0 < c < 256 ->
  exists s', runs (Shell.putchar c) s s' tt /\ goes s s' [c] /\ os_fs s' = os_fs s.
Proof.
  intros R Hc. destruct (serial_putc_sent tx_fuel SERIAL_COM1 dev Huart (i8 (u32 (i8 c))) (os_ports s)) as (evs & E & Sn).
  assert (Ec : u8 (i8 (u32 (i8 c))) = c).
  { rewrite u8_i8. assert (H : forall x, u8 (u32 x) = u8 x) by (intros; unfold u8, u32; mlia). rewrite H, u8_i8, u8_small by (unfold is_u8; lia). reflexivity. }
  rewrite Ec in Sn. exists (set_ports (os_ports s ++ evs) s).
  split; [|split; [split; [destruct R; split; assumption|exists evs; auto]|reflexivity]].
  refine (proj2 (runs_call_value _ _ _ _ _ _ 0 _)). apply numeric_call.
  change (dispatch dev tx_fuel str_fuel bss_end 1 (u32 (i8 c)) 0 0 regs) with (call_write (D := D) dev tx_fuel (u32 (i8 c))).
  unfold call_write. rewrite (bind_ret _ _ s (os_ports s) s eq_refl). rewrite E. reflexivity.
Qed.

Lemma run_puts text : forall s, ready s -> chars_ok text ->
  exists s', runs (Shell.puts text) s s' tt /\ goes s s' text /\ os_fs s' = os_fs s.
Proof.
  induction text as [|c text IH]; intros s R H.
  - exists s. split; [apply runs_ret|]. split; [apply goes_quiet; [exact R|reflexivity]|reflexivity].
  - apply Forall_cons in H as [Hc H]. destruct (run_putchar s c R Hc) as (s1 & E1 & G1 & F1).
    destruct (IH s1 (go_ready _ _ _ G1) H) as (s2 & E2 & G2 & F2). exists s2. split; [eapply runs_bind; eassumption|].
    split; [exact (goes_trans _ _ _ _ _ G1 G2)|congruence].
Qed.

Lemma chars_ok_chars (s : list Z) : forallb (fun c => (0 <? c) && (c <? 256)) s = true -> chars_ok s.
Proof. intros H. apply Forall_forall. intros c Hc. apply list_elem_of_In in Hc. apply (proj1 (forallb_forall _ _) H) in Hc. lia. Qed.

(** Printing leaves the files as they are. *)
Lemma files_frame s s' B t : files s B t -> os_fs s' = os_fs s -> files s' B t.
Proof. intros [H M T] E. split; rewrite E; assumption. Qed.

Lemma run_make_path s name : chars_ok name -> (length name < MAX_FILENAME)%nat -> runs (make_path name) s s (47 :: name).
Proof.
  intros Hc Hl. unfold make_path. pose proof (chars_string _ Hc) as Hz.
  assert (Ec : cstr (name ++ [0]) = name) by (apply cstr_app, Hz).
  rewrite str_copy_spec.
  - rewrite Ec. cbn [on_array]. eapply runs_bind; [apply runs_ret|]. rewrite cstr_app by exact Hz. apply runs_ret.
  - apply elem_of_app. right. left.
  - rewrite Ec, length_replicate. unfold MAX_FILENAME in Hl. lia.
Qed.

(** A text, a name and the end of the line. *)
Lemma run_report s text name : ready s -> chars_ok text -> chars_ok name ->
  exists s', runs (_ ← Shell.puts text; _ ← Shell.puts name; Shell.putchar NL) s s' tt /\ goes s s' (text ++ name ++ [NL]) /\ os_fs s' = os_fs s.
Proof.
  intros R Ht Hn. destruct (run_puts text s R Ht) as (s1 & E1 & G1 & F1). destruct (run_puts name s1 (go_ready _ _ _ G1) Hn) as (s2 & E2 & G2 & F2).
  destruct (run_putchar s2 NL (go_ready _ _ _ G2)) as (s3 & E3 & G3 & F3); [unfold NL; lia|]. exists s3. split; [|split; [|congruence]].
  - eapply runs_bind; [exact E1|]. eapply runs_bind; [exact E2|exact E3].
  - eapply goes_trans; [exact G1|]. eapply goes_trans; [exact G2|exact G3].
Qed.

(** ** The two commands *)

(** What the shell needs to know of the disk to open a file. *)
Record named (B : blockmap) (name : list Z) (i : Z) : Prop := {
  nm_ok : fs_ok B;
  nm_dir : dir_ok B (inode_at B ROOT_INO);
  nm_lookup : lookup_in (entries B (inode_at B ROOT_INO)) name = Some i;
  nm_ino : valid_ino i;
  nm_used : used_inode B i = true
}.

Lemma named_frame B B' name i : named B name i -> fs_ok B' -> used_inode B ROOT_INO = true -> (forall m, used_inode B' m = used_inode B m) ->
  inode_at B' ROOT_INO = inode_at B ROOT_INO -> (forall b, b ∈ file_blocks (inode_at B ROOT_INO) -> B' b = B b) -> named B' name i.
Proof.
  intros [O [Ht Hs He Hz] Hl Hv Hu] O' Hr HU Ei Hb. assert (Ee : entries B' (inode_at B' ROOT_INO) = entries B (inode_at B ROOT_INO)).
  { rewrite Ei. apply entries_ext, Hb. }
  split; [exact O'| |rewrite Ee; exact Hl|exact Hv|rewrite HU; exact Hu].
  split; [rewrite Ei; exact Ht| |rewrite Ee; exact He|rewrite Ee, Ei; exact Hz].
  apply (ok_file _ O' ROOT_INO); [split; reflexivity|rewrite HU; exact Hr].
Qed.

Lemma lowest_free_close t fd f : lowest_free t fd ->
  lowest_free (alter (fun f => mk_file (f_ino f) (f_offset f) (f_mode f) 0) fd (<[fd := f]> t)) fd.
Proof.
  intros (Hl & (g & Hg & _) & Hf). pose proof (lookup_lt_Some _ _ _ Hg) as Hlt. split; [rewrite length_alter, length_insert; exact Hl|]. split.
  - eexists. split; [rewrite list_lookup_alter, decide_True, list_lookup_insert_eq by (reflexivity || exact Hlt); reflexivity|reflexivity].
  - rewrite take_alter, decide_False, take_insert_ge by lia. exact Hf.
Qed.

(** The directory is ready for a new file [name], and [fd] is free. *)
Record fresh_name (B : blockmap) (name : list Z) : Prop := {
  fn_ok : fs_ok B;
  fn_root : used_inode B ROOT_INO = true;
  fn_dir : dir_ok B (inode_at B ROOT_INO);
  fn_none : lookup_in (entries B (inode_at B ROOT_INO)) name = None;
  fn_entry : exists e, e ∈ entries B (inode_at B ROOT_INO) /\ d_ino e = 0;
  fn_inode : exists m, valid_ino m /\ used_inode B m = false
}.

Record file_name (name : list Z) : Prop := {
  na_chars : chars_ok name;
  na_length : (length name < MAX_FILENAME)%nat /\ (S (length name) < str_fuel)%nat;
  na_start : name <> [] /\ hd 0 name <> 47
}.

Lemma run_cmd_write s B t w name txt fd : ready s -> files s B t -> lowest_free t fd -> file_name name -> fresh_name B name ->
  chars_ok txt -> (length txt <= 255)%nat ->
  exists i n B' s' t', runs (cmd_write [w; name; txt]) s s' tt /\ goes s s' (chars "Written to: " ++ name ++ [NL]) /\
    files s' B' t' /\ lowest_free t' fd /\ named B' name i /\
    0 <= n <= Z.of_nat (length txt) /\ (n < Z.of_nat (length txt) -> disk_full B') /\ file_of B' i = take (Z.to_nat n) txt /\
    forall m, valid_ino m -> m <> ROOT_INO -> used_inode B m = true -> file_of B' m = file_of B m.
Proof.
  intros R F L [Nc [Nl Nf] [Nn Ns]] [O Hr Hd Hnone He Hi] Tc Tl.
  destruct (run_create s B t name R F Nc Nl ltac:(lia) O Hr Hd Hnone He Hi) as (i & B1 & s1 & E1 & G1 & F1 & C).
  destruct (cr_ino _ _ _ _ _ C) as (Vi & Ui & _). destruct (cr_file _ _ _ _ _ C) as (Fi & _ & _).
  assert (Hlk : lookup_in (entries B1 (inode_at B1 ROOT_INO)) name = Some i) by (apply (created_found _ _ _ _ _ C); exact Hnone).
  assert (Ui1 : used_inode B1 i = true) by (rewrite (cr_used _ _ _ _ _ C) by (destruct Vi; lia); rewrite Z.eqb_refl; reflexivity).
  assert (Hr1 : used_inode B1 ROOT_INO = true) by (rewrite (cr_used _ _ _ _ _ C), Hr by (unfold ROOT_INO; lia); apply orb_true_r).
  destruct (run_open s1 B1 t name i fd (go_ready _ _ _ G1) F1 Nc Nl Nf Nn Ns (cr_ok _ _ _ _ _ C) (cr_dir _ _ _ _ _ C) Hlk Vi Ui1 L)
    as (s2 & E2 & G2 & F2 & O2).
  destruct (run_write s2 B1 _ (Z.of_nat fd) (mk_file i 0 2 1) txt (go_ready _ _ _ G2) F2 O2 Tc) as (n & B2 & s3 & E3 & G3 & Hn & Hfull & Hfile & HU & Hoth & F3 & O3);
    [unfold AREA; lia|cbn; lia|]. cbn [f_ino f_offset] in *. rewrite Nat2Z.id, list_insert_insert_eq in F3.
  assert (Hfd : 0 <= Z.of_nat fd < MAX_FILES) by apply O2.
  destruct (run_close s3 B2 _ (Z.of_nat fd) (go_ready _ _ _ G3) F3 Hfd) as (s4 & E4 & G4 & F4). rewrite Nat2Z.id in F4.
  destruct (run_report s4 (chars "Written to: ") name (go_ready _ _ _ G4)) as (s5 & E5 & G5 & F5); [apply chars_ok_chars; reflexivity|exact Nc|].
  assert (Hne : ROOT_INO <> i) by (intros <-; congruence).
  destruct (Hoth ROOT_INO ltac:(split; reflexivity) Hne Hr1) as (Ei & _ & Eb).
  exists i, n, B2, s5. eexists. split; [|split; [|split; [|split; [|split; [|split; [exact Hn|split; [|split]]]]]]].
  - cbn [cmd_write]. eapply runs_bind; [exact E1|]. eapply runs_bind; [apply (run_make_path s1); assumption|]. eapply runs_bind; [exact E2|].
    cbv beta. destruct (Z.ltb_spec (Z.of_nat fd) 0); [lia|]. eapply runs_bind; [exact E3|]. eapply runs_bind; [exact E4|]. exact E5.
  - exact (goes_trans _ _ _ [] _ G1 (goes_trans _ _ _ [] _ G2 (goes_trans _ _ _ [] _ G3 (goes_trans _ _ _ [] _ G4 G5)))).
  - eapply files_frame; [exact F4|exact F5].
  - apply lowest_free_close, L.
  - apply (named_frame B1); [split; try assumption; [apply C|apply C]|apply O3|exact Hr1|exact HU|exact Ei|exact Eb].
  - intros X. destruct (Hfull X) as [Y|Y]; [lia|exact Y].
  - rewrite Hfile, Fi. unfold splice. change (Z.to_nat 0) with 0%nat. cbn [take app]. rewrite drop_nil. apply app_nil_r.
  - intros m Vm Hm Um. destruct (cr_others _ _ _ _ _ C m Vm Um Hm) as [_ Ef].
    destruct (Hoth m Vm) as (_ & Ef' & _); [intros ->; congruence|rewrite (cr_used _ _ _ _ _ C) by (destruct Vm; lia); rewrite Um; apply orb_true_r|congruence].
Qed.

Lemma cstr_chars s : chars_ok s -> cstr s = s.
Proof. induction 1 as [|c s Hc _ IH]; [reflexivity|]. cbn [cstr]. destruct (Z.eqb_spec c 0); [lia|]. f_equal. exact IH. Qed.

(** One turn of the loop over the file. *)
Lemma run_cat_pass s B t fd f : ready s -> files s B t -> opened (os_fs s) B fd f -> f_offset f + 255 < 4294967296 ->
  let bytes := slice (Z.to_nat (f_offset f)) 255 (file_of B (f_ino f)) in
  chars_ok bytes ->
  exists s', runs (cat_pass fd) s s' (bool_decide (bytes = [])) /\ goes s s' bytes /\
    let f' := mk_file (f_ino f) (f_offset f + Z.of_nat (length bytes)) (f_mode f) (f_in_use f) in
    files s' B (<[Z.to_nat fd := f']> t) /\ opened (os_fs s') B fd f'.
Proof.
  intros R F O Hmax bytes Hc. destruct (run_read s B t fd f R F O Hmax Hc) as (buf & s1 & E1 & Eb & G1 & F1 & O1).
  fold bytes in E1, Eb, F1, O1. assert (Hl : (length bytes <= 255)%nat) by (unfold bytes, slice; rewrite length_take; lia).
  destruct bytes as [|c bytes'] eqn:Ebytes.
  - exists s1. split; [eapply runs_bind; [exact E1|apply runs_ret]|]. split; [exact G1|split; assumption].
  - rewrite <- Ebytes in *. destruct (run_puts bytes s1 (go_ready _ _ _ G1) Hc) as (s2 & E2 & G2 & F2). exists s2.
    split; [|split; [exact (goes_trans _ _ _ [] _ G1 G2)|split; [eapply files_frame; eassumption|rewrite F2; exact O1]]].
    eapply runs_bind; [exact E1|]. cbv beta iota. assert (Hpos : 0 < Z.of_nat (length bytes)) by (rewrite Ebytes; cbn; lia).
    rewrite (proj2 (Z.ltb_lt _ _) Hpos). rewrite bool_decide_eq_false_2 by (rewrite Ebytes; discriminate).
    eapply runs_bind; [|apply runs_ret]. unfold puts_buf. destruct (Z.ltb_spec (Z.of_nat (length bytes)) 0); [lia|].
    destruct (Z.leb_spec 256 (Z.of_nat (length bytes))); [lia|]. cbn [orb]. rewrite Nat2Z.id, Eb, cstr_chars by exact Hc. exact E2.
Qed.

Lemma run_cmd_cat s B t w name i fd : ready s -> files s B t -> lowest_free t fd -> file_name name -> named B name i ->
  chars_ok (file_of B i) -> (length (file_of B i) <= 255)%nat ->
  exists s' t', runs (cmd_cat [w; name]) s s' tt /\ goes s s' (file_of B i ++ [NL]) /\ files s' B t' /\ lowest_free t' fd.
Proof.
  intros R F L [Nc [Nl Nf] [Nn Ns]] [O Hd Hlk Vi Ui]. remember (file_of B i) as text eqn:Et. intros Hc Hl.
  destruct (run_open s B t name i fd R F Nc Nl Nf Nn Ns O Hd Hlk Vi Ui L) as (s1 & E1 & G1 & F1 & O1).
  assert (Hfd : 0 <= Z.of_nat fd < MAX_FILES) by apply O1.
  assert (Eb : slice (Z.to_nat 0) 255 text = text) by (unfold slice; rewrite drop_0; apply take_ge; exact Hl).
  pose proof (run_cat_pass s1 B _ (Z.of_nat fd) _ (go_ready _ _ _ G1) F1 O1) as P. cbn [f_ino f_offset] in P. rewrite <- Et, Eb in P.
  destruct (P ltac:(lia) Hc) as (s2 & E2 & G2 & F2 & O2). clear P.
  rewrite Nat2Z.id, list_insert_insert_eq in F2.
  (* The loop ends with a read of nothing. *)
  assert (Hloop : exists s3 g, runs (cat_loop (Z.of_nat fd)) s1 s3 tt /\ goes s1 s3 text /\ files s3 B (<[fd := g]> t)).
  { destruct (decide (text = [])) as [En|En].
    - exists s2. eexists. rewrite bool_decide_eq_true_2 in E2 by exact En. split; [|split; [exact G2|exact F2]].
      apply runs_last. eapply runs_bind; [exact E2|apply runs_ret].
    - rewrite bool_decide_eq_false_2 in E2 by exact En.
      assert (Ez : slice (Z.to_nat (0 + Z.of_nat (length text))) 255 text = []) by (unfold slice; rewrite drop_ge by lia; apply take_nil).
      pose proof (run_cat_pass s2 B _ (Z.of_nat fd) _ (go_ready _ _ _ G2) F2 O2) as P. cbn [f_ino f_offset] in P. rewrite <- Et, Ez in P.
      destruct (P ltac:(lia) ltac:(constructor)) as (s3 & E3 & G3 & F3 & _). clear P.
      rewrite Nat2Z.id, list_insert_insert_eq in F3. exists s3. eexists. split; [|split; [rewrite <- (app_nil_r text); exact (goes_trans _ _ _ _ _ G2 G3)|exact F3]].
      eapply runs_turn; [eapply runs_bind; [exact E2|apply runs_ret]|]. apply runs_last. eapply runs_bind; [exact E3|apply runs_ret]. }
  destruct Hloop as (s3 & g & E3 & G3 & F3).
  destruct (run_putchar s3 NL (go_ready _ _ _ G3)) as (s4 & E4 & G4 & F4); [unfold NL; lia|].
  destruct (run_close s4 B _ (Z.of_nat fd) (go_ready _ _ _ G4) (files_frame _ _ _ _ F3 F4) Hfd) as (s5 & E5 & G5 & F5). rewrite Nat2Z.id in F5.
  exists s5. eexists. split; [|split; [|split; [exact F5|apply lowest_free_close, L]]].
  - cbn [cmd_cat]. eapply runs_bind; [apply run_make_path; assumption|]. eapply runs_bind; [exact E1|]. cbv beta.
    destruct (Z.ltb_spec (Z.of_nat fd) 0); [lia|]. eapply runs_bind; [exact E3|]. eapply runs_bind; [exact E4|exact E5].
  - pose proof (goes_trans _ _ _ [] _ G1 (goes_trans _ _ _ _ _ G3 (goes_trans _ _ _ _ _ G4 G5))) as G. rewrite app_nil_r in G. exact G.
Qed.

(** ** Lines *)

(** A line that holds these words runs their command. *)
Lemma run_execute s s' a ws : 0 ∈ a -> words (cstr a) = ws -> (length ws <= 16)%nat ->
  runs (run_command ws) s s' tt -> exists a', runs (execute a) s s' a'.
Proof.
  intros Ha Hw Hl H. destruct (parse_command_spec a MAX_ARGS Ha) as (argv & a' & E & _ & _ & Hv). exists a'.
  unfold execute. rewrite E. cbn [on_array]. eapply runs_bind; [apply runs_ret|]. cbv beta iota.
  rewrite Hv, Hw. change (Z.to_nat MAX_ARGS) with 16%nat. rewrite take_ge by exact Hl. eapply runs_bind; [exact H|apply runs_ret].
Qed.
End served.

(** C3: Two lines at the shell, [write NAME TEXT] and [cat NAME], with any blanks between
    the words: served by the kernel they create the file, fill it and print it,
    so that the serial port sends the message of the first and then the text, as
    far as the disk had room for it; no other file but the directory changes. *)
Theorem write_then_cat {D} `{BD : BlockDevice D} dev tx_fuel str_fuel bss_end regs base
    (s : system D) B t fd name txt (line1 line2 : list Z) :
  uart_ready tx_fuel SERIAL_COM1 dev -> ready base s -> files s B t -> lowest_free t fd ->
  file_name str_fuel name -> fresh_name B name -> chars_ok txt -> (length txt <= 255)%nat ->
  0 ∈ line1 -> words (cstr line1) = [chars "write"; name; txt] ->
  0 ∈ line2 -> words (cstr line2) = [chars "cat"; name] ->
  exists n i B' s' a, runs dev tx_fuel str_fuel bss_end regs base (_ ← execute line1; execute line2) s s' a /\
    goes base s s' (chars "Written to: " ++ name ++ [NL] ++ take n txt ++ [NL]) /\
    holds (os_fs s') B' /\ named B' name i /\ file_of B' i = take n txt /\
    ((n < length txt)%nat -> disk_full B') /\
    forall m, valid_ino m -> m <> ROOT_INO -> used_inode B m = true -> file_of B' m = file_of B m.
Proof.
  intros Hu R F L N Fn Tc Tl Z1 W1 Z2 W2.
  destruct (run_cmd_write dev tx_fuel str_fuel bss_end regs base Hu s B t (chars "write") name txt fd R F L N Fn Tc Tl)
    as (i & n & B' & s1 & t1 & E1 & G1 & F1 & L1 & N1 & Hn & Hfull & Hfile & Hoth).
  assert (Tn : chars_ok (take (Z.to_nat n) txt)) by (apply Forall_take, Tc).
  destruct (run_cmd_cat dev tx_fuel str_fuel bss_end regs base Hu s1 B' t1 (chars "cat") name i fd (go_ready _ _ _ _ G1) F1 L1 N N1)
    as (s2 & t2 & E2 & G2 & F2 & _); [rewrite Hfile; exact Tn|rewrite Hfile, length_take; lia|].
  destruct (run_execute dev tx_fuel str_fuel bss_end regs base s s1 line1 _ Z1 W1 ltac:(cbn; lia) E1) as (a1 & X1).
  destruct (run_execute dev tx_fuel str_fuel bss_end regs base s1 s2 line2 _ Z2 W2 ltac:(cbn; lia) E2) as (a2 & X2).
  exists (Z.to_nat n), i, B', s2, a2. split; [eapply runs_bind; [exact X1|exact X2]|]. split.
  { rewrite Hfile in G2. pose proof (goes_trans _ _ _ _ _ _ G1 G2) as G. rewrite <- !app_assoc in G. exact G. }
  split; [apply F2|]. split; [exact N1|]. split; [exact Hfile|]. split; [intros X; apply Hfull; lia|exact Hoth].
Qed.

Lemma demo_root_files : holds demo_root demo_blocks /\ mounted demo_root = 1 /\ file_table demo_root = replicate 16 (mk_file 0 0 0 0).
Proof.
  destruct (format_effect (BD := @ramdisk image image_disk) demo_disk I) as (s1 & E1 & [D1 S1 B1] & T1 & M1).
  assert (E : demo_root = mk_fs (dev s1) default_sb 1 (file_table s1)) by (unfold demo_root; rewrite E1; reflexivity).
  rewrite E. split; [split; [exact D1|reflexivity|exact B1]|]. split; [reflexivity|exact T1].
Qed.

Lemma demo_fresh : fresh_name demo_blocks (chars "hi").
Proof.
  destruct demo_blocks_ok as (_ & O & Dir). split; [exact O|vm_compute; reflexivity|exact Dir|vm_compute; reflexivity| |].
  - exists (mk_dentry 0 (replicate 28 0)). split; [|reflexivity].
    unfold demo_blocks, ROOT_INO. rewrite formatted_root, formatted_entries. apply (list_elem_of_lookup_2 _ 2). reflexivity.
  - exists 2. split; [split; reflexivity|vm_compute; reflexivity].
Qed.

Lemma write_then_cat_witness : exists (s : system image) n s' a,
  runs slow_uart 4 64 0 demo_regs demo_va (_ ← execute (chars " write  hi yo" ++ [0]); execute (chars "cat hi" ++ [0])) s s' a /\
  goes demo_va s s' (chars "Written to: hi" ++ [NL] ++ take n (chars "yo") ++ [NL]).
Proof.
  destruct demo_process as (k & U & R & _). destruct demo_root_files as (H & M & T).
  set (s := mk_system k demo_sem_tables demo_root kbd_init mouse_start blank_vga []).
  destruct (write_then_cat slow_uart 4 64 0 demo_regs demo_va s demo_blocks (replicate 16 (mk_file 0 0 0 0)) 0 (chars "hi") (chars "yo")
    (chars " write  hi yo" ++ [0]) (chars "cat hi" ++ [0])) as (n & i & B' & s' & a & E & G & _).
  - apply slow_uart_ready.
  - split; [exact U|]. intros j Hj. apply R. unfold AREA in Hj. lia.
  - split; [exact H|cbn [os_fs s]; rewrite M; discriminate|exact T].
  - split; [reflexivity|]. split; [exists (mk_file 0 0 0 0); split; reflexivity|constructor].
  - split; [apply chars_ok_chars; reflexivity|cbn; unfold MAX_FILENAME; lia|split; discriminate].
  - apply demo_fresh.
  - apply chars_ok_chars; reflexivity.
  - cbn. lia.
  - apply elem_of_app. right. left.
  - vm_compute. reflexivity.
  - apply elem_of_app. right. left.
  - vm_compute. reflexivity.
  - exists s, n, s', a. split; [exact E|exact G].
Defined.
