(* ===== verification/Hello.v ===== *)
(** * The demo program (user/hello.c)

    A program for the loader: it prints and exits.  It is a tree of calls like the
    shell, and [hello_runs] runs it on the kernel of Session.  The
    program's [exit] leaves its argument in [ebx] to chance: it is a parameter. *)

From ITree Require Import ITree ITreeFacts.
From S2P Require Import Prelude CString PortIO InputDev Text Vga Paging Scheduler Ipc Disk Sfs System UserMem Serial Syscall LineEdit Shell Session.
Local Open Scope Z_scope.
Local Open Scope sros_scope.

(** The character as an [unsigned char], other than the shell's. *)
Definition putchar (c : Z) : sh unit := call_ SYS_WRITE (Num (u8 c)) (Num 0) (Num 0).

Fixpoint puts (s : list Z) : sh unit :=
  match s with
  | [] => mret tt
  | c :: s => _ ← putchar c; puts s
  end.

Definition puthex (val : Z) : sh unit := puts (hex_text val).

(** [while (val > 0 && pos > 0)]: the string from [pos] on. *)
Fixpoint dec_text (pos : nat) (val : Z) (buf : list Z) : list Z :=
  match pos with
  | O => buf
  | S pos => if 0 <? val then dec_text pos (val / 10) ((48 + val mod 10) :: buf) else buf
  end.

Definition putdec (val : Z) : sh unit :=
  if val =? 0 then puts (chars "0") else puts (dec_text 11 val []).

Fixpoint put_lines (ls : list (list Z)) : sh unit :=
  match ls with
  | [] => mret tt
  | l :: ls => _ ← puts (l ++ [NL]); put_lines ls
  end.

Definition banner : list (list Z) := [
  []; chars "========================================";
  chars "  Hello from the FIRST user program!";
  chars "  This program was loaded by the SROS";
  chars "  ELF loader from the SFS filesystem.";
  chars "========================================"; [];
  chars "Message from user space:";
  chars "  If you can see this, the ELF loader";
  chars "  is working correctly!"; [];
  chars "Counting to 5..."
].

(** [for (int i = from; n more; i++)] *)
Fixpoint count_lines (n : nat) (i : Z) : sh unit :=
  match n with
  | O => mret tt
  | S n =>
      _ ← puts (chars "  ");
      _ ← putdec i;
      _ ← puts (chars "..." ++ [NL]);
      count_lines n (i + 1)
  end.

Definition messages : sh unit :=
  _ ← put_lines banner;
  _ ← count_lines 5 1;
  put_lines [chars "Blast off! ^_^"; []; chars "Exiting back to shell..."].

Definition start (ebx : Z) : sh void :=
  _ ← messages;
  _ ← call_ SYS_EXIT (Num ebx) (Num 0) (Num 0);
  ITree.spin.

(** ** Decimal numerals *)

Definition dec_value (ds : list Z) : Z := foldl (fun v c => 10 * v + (c - 48)) 0 ds.

Lemma dec_value_cons ds d : forall v, foldl (fun v c => 10 * v + (c - 48)) v (d :: ds) =
  (10 * v + (d - 48)) * 10 ^ Z.of_nat (length ds) + dec_value ds.
Proof.
  revert d. unfold dec_value. induction ds as [|e ds IH]; intros d v; cbn [foldl length]; [cbn; lia|].
  pose proof (IH e (10 * v + (d - 48))) as H1. pose proof (IH e 0) as H0. cbn [foldl] in H1, H0. rewrite H1, H0.
  rewrite Nat2Z.inj_succ, Z.pow_succ_r by lia. ring.
Qed.

Lemma dec_text_spec pos : forall val buf, 0 <= val < 10 ^ Z.of_nat pos ->
  Forall (fun c => 48 <= c < 58) buf ->
  Forall (fun c => 48 <= c < 58) (dec_text pos val buf) /\
  dec_value (dec_text pos val buf) = val * 10 ^ Z.of_nat (length buf) + dec_value buf.
Proof.
  induction pos as [|pos IH]; intros val buf Hv Hb; cbn [dec_text].
  - cbn in Hv. replace val with 0 by lia. split; [exact Hb|lia].
  - rewrite Nat2Z.inj_succ, Z.pow_succ_r in Hv by lia. destruct (Z.ltb_spec 0 val) as [Hp|Hp].
    + destruct (IH (val / 10) ((48 + val mod 10) :: buf)) as [H1 H2].
      * split; [apply Z.div_pos; lia|apply Z.div_lt_upper_bound; lia].
      * constructor; [pose proof (Z.mod_pos_bound val 10); lia|exact Hb].
      * split; [exact H1|]. rewrite H2. unfold dec_value at 1. rewrite dec_value_cons. cbn [length].
        rewrite Nat2Z.inj_succ, Z.pow_succ_r by lia. pose proof (Z.div_mod val 10). nia.
    + replace val with 0 by lia. split; [exact Hb|lia].
Qed.

(** ** The program on the kernel *)

Section session.
Context {D : Type} `{BD : BlockDevice D}.
Context (dev : device) (tx_fuel str_fuel : nat) (bss_end regs base : Z).
Context (Huart : uart_ready tx_fuel SERIAL_COM1 dev).
Abbreviation runs := (runs dev tx_fuel str_fuel bss_end regs base).
Abbreviation goes := (goes base).

Lemma run_hello_puts text : forall s, ready base s -> chars_ok text -> exists s', runs (puts text) s s' tt /\ goes s s' text.
Proof.
  induction text as [|c text IH]; intros s R H.
  - exists s. split; [apply runs_ret|]. apply goes_quiet; [exact R|reflexivity].
  - apply Forall_cons in H as [Hc H].
    destruct (serial_putc_sent tx_fuel SERIAL_COM1 dev Huart (i8 (u8 c)) (os_ports s)) as (evs & E & Sn).
    assert (Ec : u8 (i8 (u8 c)) = c) by (rewrite u8_i8, u8_small, u8_small by (unfold is_u8; rewrite ?u8_small; unfold is_u8; lia); reflexivity).
    rewrite Ec in Sn. set (s1 := set_ports (os_ports s ++ evs) s).
    assert (G1 : goes s s1 [c]) by (split; [destruct R; split; assumption|exists evs; auto]).
    destruct (IH s1 (go_ready _ _ _ _ G1) H) as (s2 & E2 & G2). exists s2. split; [|exact (goes_trans _ _ _ _ _ _ G1 G2)].
    cbn [puts]. eapply runs_bind; [|exact E2].
    refine (proj2 (runs_call_value dev tx_fuel str_fuel bss_end regs base _ _ _ _ s s1 0 _)). apply numeric_call.
    change (dispatch dev tx_fuel str_fuel bss_end SYS_WRITE (u8 c) 0 0 regs) with (call_write (D := D) dev tx_fuel (u8 c)).
    unfold call_write. rewrite (Elf.bind_ret _ _ s (os_ports s) s eq_refl). rewrite E. reflexivity.
Qed.

(** The text of some lines. *)
Definition lines (ls : list (list Z)) : list Z := concat ((fun l => l ++ [NL]) <$> ls).

Lemma lines_app ls1 ls2 : lines (ls1 ++ ls2) = lines ls1 ++ lines ls2.
Proof. unfold lines. rewrite fmap_app. apply concat_app. Qed.

Lemma run_lines ls : forall s, ready base s -> Forall chars_ok ls -> exists s', runs (put_lines ls) s s' tt /\ goes s s' (lines ls).
Proof.
  induction ls as [|l ls IH]; intros s R H.
  - exists s. split; [apply runs_ret|apply goes_quiet; [exact R|reflexivity]].
  - apply Forall_cons in H as [Hl H]. destruct (run_hello_puts (l ++ [NL]) s R) as (s1 & E1 & G1).
    { apply Forall_app. split; [exact Hl|repeat constructor]. }
    destruct (IH s1 (go_ready _ _ _ _ G1) H) as (s2 & E2 & G2). exists s2.
    split; [eapply runs_bind; [exact E1|exact E2]|exact (goes_trans _ _ _ _ _ _ G1 G2)].
Qed.

(** [putdec] prints the decimal numeral of any 32-bit number. *)
Lemma putdec_puts val : exists ds, putdec val = puts ds /\ (0 <= val < 4294967296 -> Forall (fun c => 48 <= c < 58) ds /\ dec_value ds = val).
Proof.
  unfold putdec. destruct (Z.eqb_spec val 0) as [->|Hv].
  - exists (chars "0"). split; [reflexivity|]. intros _. split; [repeat constructor; discriminate|reflexivity].
  - exists (dec_text 11 val []). split; [reflexivity|]. intros H. destruct (dec_text_spec 11 val []) as [H1 H2]; [cbn; lia|constructor|].
    split; [exact H1|]. rewrite H2. cbn. lia.
Qed.

Lemma run_count n : forall i s, ready base s -> 0 < i -> i + Z.of_nat n < 10 ->
  exists s', runs (count_lines n i) s s' tt /\ goes s s' (lines ((fun d => chars "  " ++ [48 + d] ++ chars "...") <$> seqZ i (Z.of_nat n))).
Proof.
  induction n as [|n IH]; intros i s R Hi Hn.
  - exists s. split; [apply runs_ret|apply goes_quiet; [exact R|reflexivity]].
  - rewrite seqZ_cons by lia. replace (Z.pred (Z.of_nat (S n))) with (Z.of_nat n) by lia.
    destruct (run_hello_puts (chars "  ") s R) as (s1 & E1 & G1); [apply chars_ok_chars; reflexivity|].
    assert (Ed : putdec i = puts [48 + i]).
    { assert (Hm : List.In i [1; 2; 3; 4; 5; 6; 7; 8; 9]) by (cbn; lia). cbn in Hm. repeat (destruct Hm as [<-|Hm]; [reflexivity|]). destruct Hm. }
    destruct (run_hello_puts [48 + i] s1 (go_ready _ _ _ _ G1)) as (s2 & E2 & G2); [repeat constructor; lia|].
    destruct (run_hello_puts (chars "..." ++ [NL]) s2 (go_ready _ _ _ _ G2)) as (s3 & E3 & G3); [apply chars_ok_chars; reflexivity|].
    destruct (IH (i + 1) s3 (go_ready _ _ _ _ G3)) as (s4 & E4 & G4); [lia|lia|]. exists s4. split.
    + cbn [count_lines]. rewrite Ed. eapply runs_bind; [exact E1|]. eapply runs_bind; [exact E2|]. eapply runs_bind; [exact E3|exact E4].
    + pose proof (goes_trans _ _ _ _ _ _ G1 (goes_trans _ _ _ _ _ _ G2 (goes_trans _ _ _ _ _ _ G3 G4))) as G.
      rewrite fmap_cons. unfold lines in *. rewrite fmap_cons. cbn [concat]. rewrite <- !app_assoc in *. exact G.
Qed.

(** What the program has to print, line by line. *)
Definition hello_text : list Z := lines [
  [];
  chars "========================================";
  chars "  Hello from the FIRST user program!";
  chars "  This program was loaded by the SROS";
  chars "  ELF loader from the SFS filesystem.";
  chars "========================================";
  [];
  chars "Message from user space:";
  chars "  If you can see this, the ELF loader";
  chars "  is working correctly!";
  [];
  chars "Counting to 5...";
  chars "  1...";
  chars "  2...";
  chars "  3...";
  chars "  4...";
  chars "  5...";
  chars "Blast off! ^_^";
  [];
  chars "Exiting back to shell..."].

Lemma run_messages s : ready base s -> exists s', runs messages s s' tt /\ goes s s' hello_text.
Proof.
  intros R. destruct (run_lines banner s R) as (s1 & E1 & G1); [repeat constructor|].
  destruct (run_count 5 1 s1 (go_ready _ _ _ _ G1)) as (s2 & E2 & G2); [lia|lia|].
  destruct (run_lines [chars "Blast off! ^_^"; []; chars "Exiting back to shell..."] s2 (go_ready _ _ _ _ G2)) as (s3 & E3 & G3); [repeat constructor|].
  exists s3. split; [eapply runs_bind; [exact E1|]; eapply runs_bind; [exact E2|exact E3]|].
  change hello_text with (lines banner ++ lines ((fun d => chars "  " ++ [48 + d] ++ chars "...") <$> seqZ 1 (Z.of_nat 5)) ++
    lines [chars "Blast off! ^_^"; []; chars "Exiting back to shell..."]).
  exact (goes_trans _ _ _ _ _ _ G1 (goes_trans _ _ _ _ _ _ G2 G3)).
Qed.
End session.

(** C37: The demo program, served by the kernel, sends its text to the serial port
    character by character and ends in its exit call, which does not return: the
    system is left with the process as [task_exit] leaves it, with whatever [ebx]
    held as its exit code. *)
Theorem hello_runs {D} `{BD : BlockDevice D} dev tx_fuel str_fuel bss_end regs base (s : system D) ebx :
  uart_ready tx_fuel SERIAL_COM1 dev -> ready base s ->
  exists s1, goes base s s1 hello_text /\
    ends dev tx_fuel str_fuel bss_end regs base (start ebx) s
      (set_ipc (set_sched (task_exit (i32 ebx) (sched_of (os_ipc s1))) (os_ipc s1)) s1).
Proof.
  intros Hu R. destruct (run_messages dev tx_fuel str_fuel bss_end regs base Hu s R) as (s1 & E & G). exists s1.
  split; [exact G|]. unfold start. eapply runs_ends; [exact E|]. apply ends_bind, ends_call. destruct s1. reflexivity.
Qed.

Lemma hello_runs_witness : exists (s : system image) s1,
  goes demo_va s s1 hello_text /\
  ends slow_uart 4 64 0 demo_regs demo_va (start 7) s
    (set_ipc (set_sched (task_exit 7 (sched_of (os_ipc s1))) (os_ipc s1)) s1).
Proof.
  destruct demo_process as (k & U & R & _). set (s := mk_system k demo_sem_tables demo_root kbd_init mouse_start blank_vga []).
  destruct (hello_runs slow_uart 4 64 0 demo_regs demo_va s 7) as (s1 & G & E).
  - apply slow_uart_ready.
  - split; [exact U|]. intros j Hj. apply R. unfold AREA in Hj. lia.
  - exists s, s1. split; [exact G|exact E].
Defined.
